(* ===== verification/_CoqProject ===== *)
-Q . S2P
Prelude.v
Machine.v
KString.v
Kalloc.v
Vm.v
VmInv.v
VmWalk.v
VmUser.v
VmCopy.v
VmAlloc.v
VmTheorems.v
Kvm.v
Start.v
Spinlock.v
Blocks.v
Bio.v
BioInv.v
BioTheorems.v
Log.v
LogProof.v
LogCrash.v
LogTxn.v
LogTheorems.v
Fs.v
FsBase.v
FsBlock.v
FsMap.v
FsData.v
FsWrite.v
FsDir.v
FsTrunc.v
FsTheorems.v
Printf.v
Ring.v
Kstate.v
Demo.v
Pipe.v
Console.v
File.v
FileWrite.v
Proc.v
ProcInv.v
ProcTheorems.v
Sysargs.v
Exec.v
Sysfile.v
Syscall.v
FileRefs.v
SyscallInv.v
SyscallTheorems.v
ExecTheorems.v
Asm.v
Trap.v
TrapTheorems.v
Sched.v
SchedInv.v
SchedTheorems.v
Virtio.v
VirtioInv.v
VirtioTheorems.v
Boot.v
UserIO.v
Grep.v
Utils.v
UtilsTheorems.v
Sh.v
ShParse.v
ShRound.v
ShRun.v
Umalloc.v
UmallocInv.v
UmallocTheorems.v
UmallocSafe.v
Mkfs.v
MkfsImage.v
MkfsTheorems.v
Find.v
Programs.v
Memdump.v
Practice.v
