(* ===== verification/Prelude.v ===== *)
(** * A verification of xv6 for RISC-V

    The kernel in src/kernel, the programs in src/user, the image builder in
    src/mkfs and the exercises in src/c-practice, for the configuration the
    repository builds (LAB=util).

    ** The program and its model

    The kernel is C and a little assembly.  A C function is a function of this
    development with the same name; a loop is a [Fixpoint] named after its function
    ([copyout_loop]); a struct is a [Record], an enum an [Inductive], a pointer into
    a table an index, an integer a [Z] that is wrapped to its width where C wraps it
    ([u8] ... [i64] below).  Code that changes state is in the monad [M S]: it
    returns a value and a state, or panics, or reaches a sleep that another thread
    has to end, or runs out of the fuel of a loop.  Critical sections under a spin
    lock are one step; where the interleaving itself is the point (Spinlock.v,
    Sched.v, Virtio.v, Boot.v) the code is a step relation over all CPUs.

    Prelude.v             this monad, machine integers, tactics, hints
    Machine.v             physical memory, Sv39 page-table entries, constants
                          (riscv.h, memlayout.h, param.h)
    KString.v             string.c and its copies in ulib.c
    Kalloc.v              kalloc.c: the free list refines a stack of pages
    Vm.v                  vm.c; VmInv.v: the page-table invariant and the translation
                          it denotes; VmWalk.v, VmUser.v, VmCopy.v, VmAlloc.v: walk,
                          mappages, page faults, copies, growth;
                          VmTheorems.v: what they promise; Kvm.v: the kernel's own
                          page table, from the memory that kinit hands over
    Start.v               entry.S, start.c and the control registers of riscv.h
    Spinlock.v            spinlock.c, sleeplock.c on any number of CPUs
    Blocks.v              disk blocks; what the buffer cache promises the log, a class
    Bio.v                 bio.c; BioInv.v, BioTheorems.v: it is an instance of that
                          class
    Log.v                 log.c over the class; LogProof.v, LogCrash.v: commit,
                          recovery and a crash at any write; LogTxn.v:
                          transactions and their space; LogTheorems.v
    Fs.v                  fs.c over the log; FsBase.v, FsBlock.v, FsMap.v, FsData.v,
                          FsWrite.v, FsDir.v, FsTrunc.v: formats, balloc, bmap,
                          readi, writei, directories, itrunc, the inode table;
                          FsTheorems.v
    Printf.v              kernel/printf.c and user/printf.c
    Ring.v, Pipe.v, Console.v   pipe.c; console.c and uart.c, as bounded queues and
                          a line editor
    Kstate.v, Demo.v      the state of the whole kernel, and a small one to run
    File.v                file.c; FileWrite.v: a write through file, inode, log and
                          disk
    Proc.v                proc.c: the process table; ProcInv.v, ProcTheorems.v
    Sysargs.v, Sysfile.v, Exec.v, Syscall.v   syscall.c with its sandbox, sysfile.c,
                          exec.c, sysproc.c; FileRefs.v, SyscallInv.v,
                          SyscallTheorems.v: the open-file counts through every system
                          call; ExecTheorems.v
    Asm.v                 trampoline.S, swtch.S, kernelvec.S as instructions with an
                          interpreter
    Trap.v                trap.c, plic.c, forkret; TrapTheorems.v
    Sched.v               scheduler, sched, yield, sleep, wakeup on several CPUs;
                          SchedInv.v, SchedTheorems.v
    Virtio.v              virtio_disk.c and the device; VirtioInv.v, VirtioTheorems.v
    Boot.v                main.c: the calls of every hart, interleaved; uartinit,
                          consoleinit, plicinit, plicinithart, kvminit, kvminithart
    UserIO.v              what a user program does through its descriptors
    Grep.v, Utils.v, UtilsTheorems.v   grep.c; cat.c, wc.c, sixfive.c, echo.c, gets and
                          atoi of ulib.c, my_atoi of sleep.c, getcmd of sh.c
    Sh.v                  sh.c: the parser; ShParse.v, ShRound.v; ShRun.v: runcmd and
                          main
    Umalloc.v             umalloc.c; UmallocInv.v, UmallocTheorems.v, UmallocSafe.v
    Mkfs.v                mkfs.c; MkfsImage.v, MkfsTheorems.v
    Find.v, Memdump.v     find.c; memdump.c
    Programs.v            Module Ulib: strings of ulib.c; Module Calls: init.c, kill.c,
                          ln.c, mkdir.c, rm.c, sleep.c, sandbox.c; Module Ls: ls.c
    Practice.v            Module Lines: pointer5-6.c; Module Keywords: pointer6-4.c

    ** How the parts fit together

    entry.S and start() bring every hart to main(), whose calls set up memory, page
    table, tables, disk and first process; Boot.v runs the functions of the
    components in that order and ends in the invariants that the theorems about
    processes, files and the allocator start from.  A trap enters through uservec, is handled by usertrap, which calls syscall, and
    ends in userret.  A system call works on processes, files and user memory; user
    memory is reached only by copyin and copyout through the page table.  A file is
    an inode, a pipe or a device; inodes are read and written inside transactions of
    the log, blocks through the buffer cache, which drives the disk.  Three
    interfaces cut this chain: [BlockIO] with [BlockLaws] between cache and log,
    [UserMem] between fs.c and vm.c, and the device of Virtio.v, a step relation that
    every conforming device refines.  mkfs produces the disk on which fs.c starts;
    its theorem ends in the predicates fs.c's theorems start from.

    ** What is proved

    - Boot: start() hands over a hart in supervisor mode with traps delegated; however
      the harts interleave, main() never panics, ends after 62 calls, and leaves
      paging on, the kernel mapped and nothing else, and every table in its
      invariant.
    - Memory: page tables keep their invariant; copies write exactly the bytes they
      report and never panic on any user address; growth is all or nothing.
    - Disk: a commit is atomic under a crash at any write; reads through the cache
      are current; the driver, with any conforming device, does each transfer once,
      never panics and can always finish.
    - Files: reads and writes see and change exactly the bytes of the file;
      directories, path elements, truncation and block allocation; a write that
      returns is on the disk.
    - Processes: one CPU per process, no lost wakeup, unique pids, exact open-file
      counts through every system call, exec all or nothing with its stack in
      bounds, the sandbox blocks what its mask says, registers survive traps.
    - Programs: grep's matcher against the language of the pattern, the filters
      whatever pieces read() returns, the shell's parser against its grammar both
      ways, runcmd's wiring of descriptors and a whole script through main, malloc
      and free for every sequence of calls, find on every file tree, the listing of
      ls, the image of mkfs, the line sorter and the keyword counter.

    ** Fuel and bounds

    A loop that is not structural has fuel, and its callers pass enough: the length
    of the data over the block or page size and a constant (copies, reads, writes,
    mkfs), the number of entries of a table (scans), the length of the text (shell,
    grep), the number of elements (quicksort, binary search).  The theorems say that the code returns, so they include that the fuel is
    enough; where a bound is not in the code (malloc) they give one.  The kernel's
    page table is built from any memory with 1024 free pages above the kernel, enough
    for its tables and stacks; the machine has 32768.

    ** What is not modelled, and why

    - usertests.c, grind.c, stressfs.c, logstress.c, forktest.c, dorphan.c, forphan.c,
      zombie.c, attack.c, secret.c: tests, with no behaviour of their own to specify.
    - defs.h, types.h, user.h and usys.pl: prototypes and the stubs that execute ecall;
      the accessors of riscv.h that nothing calls; kernel.ld, user.ld, the Makefile and
      the grading scripts.
    - start and sbrklazy of ulib.c, one call each; strlen and memset of ulib.c are
      those of string.c.
    - Weak memory: steps are sequentially consistent; __sync_synchronize has no
      effect in the model.  The size of kernel and user stacks.
    - The hosts of the model: the device of virtio_disk.c, the files mkfs reads, the
      tree find and ls walk, the results init's and the shell's system calls have, and
      getword, keytab and malloc of the exercises are parameters with the behaviour
      their documentation gives. *)

(** ** Shared vocabulary: outcomes, the state monad, machine integers *)
From stdpp Require Export base numbers gmap list strings.
From Stdlib Require Export ZArith Lia.
#[global] Open Scope Z_scope.

(** [done] without unrestricted [discriminate]: on the equations between memory
    states of this development that would evaluate whole page fills. *)
Ltac head_of t := lazymatch t with ?f _ => head_of f | _ => t end.
Ltac discr_constructors :=
  match goal with
  | H : ?x = ?y |- _ =>
      let a := head_of x in let b := head_of y in
      is_constructor a; is_constructor b; discriminate H
  | |- ?x <> ?y =>
      let a := head_of x in let b := head_of y in
      is_constructor a; is_constructor b; discriminate
  end.
#[export] Ltac done ::=
  solve [ repeat first
    [ fast_done | solve [trivial] | progress intros | solve [symmetry; trivial]
    | discr_constructors | contradiction | split
    | match goal with H : ~ _ |- _ => case H; clear H; fast_done end ] ].

(** ** Outcomes of kernel code

    A kernel function either returns, or calls [panic] (which prints and spins
    forever, kernel/printf.c), or reaches a [sleep] that only another thread
    can end.  [OutOfFuel] is the outcome of a bounded loop whose bound was too
    small; the development proves that it does not occur for the bounds used. *)
Inductive res (A : Type) : Type :=
| Ret (a : A)
| Panic (msg : string)
| Sleeps (chan : string)
| OutOfFuel.
Arguments Ret {A} a.
Arguments Panic {A} msg.
Arguments Sleeps {A} chan.
Arguments OutOfFuel {A}.

(** Code that reads and writes a state [S] and yields an [A]. *)
Definition M (S A : Type) : Type := S -> res (A * S).

Definition kret {S A} (a : A) : M S A := fun s => Ret (a, s).
Definition kbind {S A B} (m : M S A) (f : A -> M S B) : M S B := fun s =>
  match m s with
  | Ret (a, s') => f a s'
  | Panic e => Panic e
  | Sleeps c => Sleeps c
  | OutOfFuel => OutOfFuel
  end.
Definition panic {S A} (msg : string) : M S A := fun _ => Panic msg.
Definition sleeps {S A} (chan : string) : M S A := fun _ => Sleeps chan.
Definition nofuel {S A} : M S A := fun _ => OutOfFuel.
Definition gets {S A} (f : S -> A) : M S A := fun s => Ret (f s, s).
Definition modify {S} (f : S -> S) : M S unit := fun s => Ret (tt, f s).

Declare Scope kernel_scope.
Delimit Scope kernel_scope with kernel.
Notation "x <~ c ;; k" := (kbind c (fun x => k))
  (at level 100, c at next level, right associativity) : kernel_scope.
Notation "c ;;; k" := (kbind c (fun _ => k))
  (at level 100, right associativity) : kernel_scope.
#[global] Open Scope kernel_scope.

Section monad_lemmas.
Context {S A B : Type}.
Implicit Types (m : M S A) (f : A -> M S B) (s : S).

Lemma kbind_ret m f s a s' : m s = Ret (a, s') -> kbind m f s = f a s'.
Proof. intros H. unfold kbind. by rewrite H. Qed.

Lemma kbind_panic m f s e : m s = Panic e -> kbind m f s = Panic e.
Proof. intros H. unfold kbind. by rewrite H. Qed.

Lemma kbind_inv m f s b s'' :
  kbind m f s = Ret (b, s'') ->
  exists a s', m s = Ret (a, s') /\ f a s' = Ret (b, s'').
Proof. unfold kbind. destruct (m s) as [[a s']| | |] eqn:E; naive_solver. Qed.

End monad_lemmas.

Lemma kbind_assoc {S A B C} (m : M S A) (f : A -> M S B) (g : B -> M S C) s :
  kbind m (fun a => kbind (f a) g) s = kbind (kbind m f) g s.
Proof. unfold kbind. by destruct (m s) as [[a s']| | |]. Qed.

Lemma kbind_ext {S A B} (m : M S A) (f g : A -> M S B) s : (forall a s', f a s' = g a s') -> kbind m f s = kbind m g s.
Proof. intros H. unfold kbind. destruct (m s) as [[a s']| | |]; [apply H|done..]. Qed.

(** [minv H] splits a hypothesis [kbind m f s = Ret r] into the run of [m] and
    the run of the continuation, simplifying the primitive operations. *)
Ltac minv H :=
  lazymatch type of H with
  | kbind _ _ _ = Ret _ =>
      let a := fresh "a" in let s := fresh "s" in
      let H1 := fresh "Hm" in let H2 := fresh "Hk" in
      apply kbind_inv in H as (a & s & H1 & H2);
      try (cbv beta iota delta [kret gets modify] in H1;
           injection H1 as ? ?; subst);
      cbv beta in H2
  end.

(** ** Machine integers: an n-bit value is a [Z], wrapped where C wraps it. *)
Definition u8 (z : Z) : Z := z mod 2 ^ 8.
Definition u16 (z : Z) : Z := z mod 2 ^ 16.
Definition u32 (z : Z) : Z := z mod 2 ^ 32.
Definition u64 (z : Z) : Z := z mod 2 ^ 64.
Definition i8 (z : Z) : Z := (z + 2 ^ 7) mod 2 ^ 8 - 2 ^ 7.
Definition i16 (z : Z) : Z := (z + 2 ^ 15) mod 2 ^ 16 - 2 ^ 15.
Definition i32 (z : Z) : Z := (z + 2 ^ 31) mod 2 ^ 32 - 2 ^ 31.
Definition i64 (z : Z) : Z := (z + 2 ^ 63) mod 2 ^ 64 - 2 ^ 63.

Create HintDb xv6.
Create Rewrite HintDb xv6.

(** Linear arithmetic with division and remainder by constants. *)
Ltac dlia := Z.to_euclidean_division_equations; lia.

Ltac wraps := unfold u8, u16, u32, u64, i8, i16, i32, i64 in *.

Lemma u8_range z : 0 <= u8 z < 256.
Proof. unfold u8. apply Z.mod_pos_bound. lia. Qed.
Lemma u32_range z : 0 <= u32 z < 2 ^ 32.
Proof. unfold u32. apply Z.mod_pos_bound. lia. Qed.
Lemma u64_range z : 0 <= u64 z < 2 ^ 64.
Proof. unfold u64. apply Z.mod_pos_bound. lia. Qed.
Lemma i32_range z : - 2 ^ 31 <= i32 z < 2 ^ 31.
Proof. unfold i32. pose proof (Z.mod_pos_bound (z + 2 ^ 31) (2 ^ 32)). lia. Qed.

Lemma u8_small z : 0 <= z < 256 -> u8 z = z.
Proof. intros. unfold u8. apply Z.mod_small. lia. Qed.
Lemma u16_small z : 0 <= z < 2 ^ 16 -> u16 z = z.
Proof. intros. unfold u16. apply Z.mod_small. lia. Qed.
Lemma u32_small z : 0 <= z < 2 ^ 32 -> u32 z = z.
Proof. intros. unfold u32. apply Z.mod_small. lia. Qed.
Lemma u64_small z : 0 <= z < 2 ^ 64 -> u64 z = z.
Proof. intros. unfold u64. apply Z.mod_small. lia. Qed.
Lemma i32_small z : - 2 ^ 31 <= z < 2 ^ 31 -> i32 z = z.
Proof. intros. unfold i32. rewrite Z.mod_small; lia. Qed.
#[export] Hint Rewrite u8_small u16_small u32_small u64_small i32_small using lia : xv6.

(** ** Booleans tests of the code, as propositions *)
Ltac zb := repeat match goal with
  | H : (_ =? _) = true |- _ => apply Z.eqb_eq in H
  | H : (_ =? _) = false |- _ => apply Z.eqb_neq in H
  | H : (_ <? _) = true |- _ => apply Z.ltb_lt in H
  | H : (_ <? _) = false |- _ => apply Z.ltb_ge in H
  | H : (_ <=? _) = true |- _ => apply Z.leb_le in H
  | H : (_ <=? _) = false |- _ => apply Z.leb_gt in H
  | H : (_ && _)%bool = true |- _ => apply andb_true_iff in H; destruct H
  | H : (_ || _)%bool = false |- _ => apply orb_false_iff in H; destruct H
  | H : (_ && _)%bool = false |- _ =>
      rewrite andb_false_iff, ?negb_false_iff, ?Z.leb_gt, ?Z.ltb_ge, ?Z.eqb_neq, ?Z.eqb_eq in H
  | H : (_ || _)%bool = true |- _ =>
      rewrite orb_true_iff, ?negb_true_iff, ?Z.leb_le, ?Z.ltb_lt, ?Z.eqb_neq, ?Z.eqb_eq in H
  | H : negb _ = true |- _ => apply negb_true_iff in H
  | H : negb _ = false |- _ => apply negb_false_iff in H
  end.

(** Case on the test of the first [if] in the goal, keeping it as arithmetic. *)
Ltac ztest :=
  match goal with
  | |- context [if ?b then _ else _] =>
      lazymatch type of b with bool => let E := fresh "E" in destruct b eqn:E; zb end
  end.

(** Membership in explicit lists. *)
Ltac inlist :=
  repeat rewrite ?elem_of_cons, ?elem_of_app in *;
  first [by left | by right; left | by right | tauto].

(** Updating an element that is there. *)
Lemma list_alter_insert {A} (f : A -> A) (l : list A) i x : l !! i = Some x -> alter f i l = <[i := f x]> l.
Proof.
  intros H. apply list_eq. intros j. destruct (decide (j = i)) as [->|].
  - rewrite list_lookup_alter_eq, H, list_lookup_insert_eq; [done|by eapply lookup_lt_Some].
  - by rewrite list_lookup_alter_ne, list_lookup_insert_ne.
Qed.
