(* ===== verification/Machine.v ===== *)
(** * The machine the kernel runs on

    Constants and macros of kernel/riscv.h, kernel/memlayout.h and
    kernel/param.h, and byte-addressed physical memory with the 64-bit loads
    and stores the kernel performs on it. *)
From S2P Require Import Prelude.

(** ** kernel/param.h *)
Definition NPROC : Z := 64.
Definition NCPU : Z := 8.
Definition NOFILE : Z := 16.
Definition NFILE : Z := 100.
Definition NINODE : Z := 50.
Definition NDEV : Z := 10.
Definition ROOTDEV : Z := 1.
Definition MAXARG : Z := 32.
Definition MAXOPBLOCKS : Z := 10.
Definition LOGBLOCKS : Z := MAXOPBLOCKS * 3.
Definition NBUF : Z := MAXOPBLOCKS * 3.
Definition FSSIZE : Z := 2000.
Definition MAXPATH : Z := 128.
(** The build of conf/lab.mk is LAB=util. *)
Definition USERSTACK : Z := 2.

(** ** kernel/riscv.h *)
Definition PGSIZE : Z := 4096.
Definition PGSHIFT : Z := 12.
Definition PGROUNDUP (sz : Z) : Z := Z.land (u64 (sz + PGSIZE - 1)) (Z.lnot (PGSIZE - 1)).
Definition PGROUNDDOWN (a : Z) : Z := Z.land a (Z.lnot (PGSIZE - 1)).
Definition PTE_V : Z := Z.shiftl 1 0.
Definition PTE_R : Z := Z.shiftl 1 1.
Definition PTE_W : Z := Z.shiftl 1 2.
Definition PTE_X : Z := Z.shiftl 1 3.
Definition PTE_U : Z := Z.shiftl 1 4.
Definition PA2PTE (pa : Z) : Z := u64 (Z.shiftl (Z.shiftr pa 12) 10).
Definition PTE2PA (pte : Z) : Z := u64 (Z.shiftl (Z.shiftr pte 10) 12).
Definition PTE_FLAGS (pte : Z) : Z := Z.land pte 1023.
Definition PXMASK : Z := 511.
Definition PXSHIFT (level : Z) : Z := PGSHIFT + 9 * level.
Definition PX (level va : Z) : Z := Z.land (Z.shiftr va (PXSHIFT level)) PXMASK.
Definition MAXVA : Z := Z.shiftl 1 (9 + 9 + 9 + 12 - 1).
Definition SATP_SV39 : Z := Z.shiftl 8 60.
Definition MAKE_SATP (pagetable : Z) : Z := Z.lor SATP_SV39 (Z.shiftr pagetable 12).
(** [flag e f] is the C test [(e & f) != 0]. *)
Definition flag (e f : Z) : bool := negb (Z.land e f =? 0).

(** ** kernel/memlayout.h *)
Definition UART0 : Z := 268435456.
Definition VIRTIO0 : Z := 268439552.
Definition PLIC : Z := 201326592.
Definition KERNBASE : Z := 2147483648.
Definition PHYSTOP : Z := KERNBASE + 128 * 1024 * 1024.
Definition TRAMPOLINE : Z := MAXVA - PGSIZE.
Definition KSTACK (p : Z) : Z := TRAMPOLINE - (p + 1) * 2 * PGSIZE.
Definition TRAPFRAME : Z := TRAMPOLINE - PGSIZE.

(** ** Memory: a finite map from byte addresses; a byte never written reads 0. *)
Abbreviation memory := (gmap Z Z).
Definition ldb (m : memory) (a : Z) : Z := u8 (default 0 (m !! a)).
Definition stb (m : memory) (a v : Z) : memory := <[a := u8 v]> m.

(** Little-endian words of [k] bytes. *)
Fixpoint ldn (k : nat) (m : memory) (a : Z) : Z :=
  match k with
  | O => 0
  | S k => ldb m a + 256 * ldn k m (a + 1)
  end.
Fixpoint stn (k : nat) (m : memory) (a v : Z) : memory :=
  match k with
  | O => m
  | S k => stn k (stb m a v) (a + 1) (v / 256)
  end.
Definition ld64 : memory -> Z -> Z := ldn 8.
Definition st64 : memory -> Z -> Z -> memory := stn 8.
#[global] Arguments ldb : simpl never.
#[global] Arguments stb : simpl never.
#[global] Arguments ld64 : simpl never.
#[global] Arguments st64 : simpl never.

(** ** Arithmetic of the page macros *)
Lemma land_lnot_page x : Z.land x (Z.lnot (PGSIZE - 1)) = x / PGSIZE * PGSIZE.
Proof.
  unfold PGSIZE. change (4096 - 1) with (Z.ones 12).
  rewrite <- Z.ldiff_land, Z.ldiff_ones_r by lia.
  by rewrite Z.shiftl_mul_pow2, Z.shiftr_div_pow2 by lia.
Qed.

Lemma PGROUNDDOWN_eq a : PGROUNDDOWN a = a / PGSIZE * PGSIZE.
Proof. apply land_lnot_page. Qed.

Lemma PGROUNDDOWN_bounds a : PGROUNDDOWN a <= a < PGROUNDDOWN a + PGSIZE.
Proof. rewrite PGROUNDDOWN_eq. unfold PGSIZE. dlia. Qed.

Lemma PGROUNDDOWN_mod a : PGROUNDDOWN a mod PGSIZE = 0.
Proof. rewrite PGROUNDDOWN_eq. apply Z.mod_mul. unfold PGSIZE. lia. Qed.

Lemma PGROUNDUP_eq sz :
  0 <= sz < 2 ^ 64 - PGSIZE -> PGROUNDUP sz = (sz + PGSIZE - 1) / PGSIZE * PGSIZE.
Proof.
  intros H. unfold PGROUNDUP. rewrite land_lnot_page, u64_small; [done|].
  unfold PGSIZE in *. lia.
Qed.

Lemma PX_eq l va : 0 <= l -> PX l va = va / 2 ^ (12 + 9 * l) mod 512.
Proof.
  intros. unfold PX, PXMASK, PXSHIFT, PGSHIFT. change 511 with (Z.ones 9).
  rewrite Z.land_ones, Z.shiftr_div_pow2 by lia. done.
Qed.

Lemma PX_range l va : 0 <= l -> 0 <= PX l va < 512.
Proof. intros. rewrite PX_eq by done. apply Z.mod_pos_bound. lia. Qed.

(** Two addresses below MAXVA with the same three indices are on one page. *)
Lemma PX_inj va va' :
  0 <= va < MAXVA -> 0 <= va' < MAXVA ->
  PX 2 va = PX 2 va' -> PX 1 va = PX 1 va' -> PX 0 va = PX 0 va' ->
  va / PGSIZE = va' / PGSIZE.
Proof.
  unfold PGSIZE. change MAXVA with (2 ^ 38). rewrite !PX_eq by lia.
  change (12 + 9 * 2) with 30. change (12 + 9 * 1) with 21. change (12 + 9 * 0) with 12.
  change 4096 with (2 ^ 12). intros ? ? H2 H1 H0.
  assert (forall v, 0 <= v < 2 ^ 38 -> v / 2 ^ 12 =
    (v / 2 ^ 30 mod 512) * 262144 + (v / 2 ^ 21 mod 512) * 512 + v / 2 ^ 12 mod 512) as D.
  { intros v Hv. dlia. }
  rewrite (D va), (D va') by done. lia.
Qed.

Lemma PA2PTE_eq pa : 0 <= pa < 2 ^ 56 -> PA2PTE pa = pa / PGSIZE * 1024.
Proof.
  intros. unfold PA2PTE, PGSIZE.
  rewrite Z.shiftl_mul_pow2, Z.shiftr_div_pow2 by lia.
  apply u64_small. dlia.
Qed.

Lemma PTE2PA_eq pte : 0 <= pte < 2 ^ 54 -> PTE2PA pte = pte / 1024 * PGSIZE.
Proof.
  intros. unfold PTE2PA, PGSIZE.
  rewrite Z.shiftl_mul_pow2, Z.shiftr_div_pow2 by lia.
  apply u64_small. dlia.
Qed.

(** ** Loads and stores *)
Lemma ldb_range m a : 0 <= ldb m a < 256.
Proof. apply u8_range. Qed.

Lemma ldb_stb_eq m a v : ldb (stb m a v) a = u8 v.
Proof.
  unfold ldb, stb. rewrite lookup_insert_eq. simpl.
  apply u8_small, u8_range.
Qed.

Lemma ldb_stb_ne m a b v : a <> b -> ldb (stb m a v) b = ldb m b.
Proof. intros. unfold ldb, stb. by rewrite lookup_insert_ne. Qed.

Lemma ldn_range k m a : 0 <= ldn k m a < 256 ^ Z.of_nat k.
Proof.
  revert a. induction k as [|k IH]; intros a; [cbn; lia|].
  rewrite Nat2Z.inj_succ, Z.pow_succ_r by lia. cbn [ldn].
  pose proof (ldb_range m a). pose proof (IH (a + 1)). lia.
Qed.

Lemma ldn_ext k m m' a :
  (forall x, a <= x < a + Z.of_nat k -> ldb m x = ldb m' x) -> ldn k m a = ldn k m' a.
Proof.
  revert a. induction k as [|k IH]; intros a H; [done|]. cbn [ldn].
  rewrite H by lia. f_equal. f_equal. apply IH. intros. apply H. lia.
Qed.

Lemma ldb_stn_out k m a v x :
  x < a \/ a + Z.of_nat k <= x -> ldb (stn k m a v) x = ldb m x.
Proof.
  revert m a v. induction k as [|k IH]; intros m a v H; [done|]. cbn [stn].
  rewrite IH by lia. apply ldb_stb_ne. lia.
Qed.

Lemma ldn_stn_eq k m a v : ldn k (stn k m a v) a = v mod 256 ^ Z.of_nat k.
Proof.
  revert m a v. induction k as [|k IH]; intros m a v; [by rewrite Z.mod_1_r|].
  cbn [ldn stn]. rewrite ldb_stn_out, ldb_stb_eq, IH by lia.
  rewrite Nat2Z.inj_succ, Z.pow_succ_r by lia.
  rewrite Z.rem_mul_r by lia. unfold u8. done.
Qed.

Lemma ld64_range m a : 0 <= ld64 m a < 2 ^ 64.
Proof. apply (ldn_range 8). Qed.

Lemma ld64_st64_eq m a v : 0 <= v < 2 ^ 64 -> ld64 (st64 m a v) a = v.
Proof. intros. unfold ld64, st64. rewrite ldn_stn_eq. by apply Z.mod_small. Qed.

Lemma ldb_st64_out m a v x : x < a \/ a + 8 <= x -> ldb (st64 m a v) x = ldb m x.
Proof. apply (ldb_stn_out 8). Qed.

Lemma ld64_ext m m' a :
  (forall x, a <= x < a + 8 -> ldb m x = ldb m' x) -> ld64 m a = ld64 m' a.
Proof. apply (ldn_ext 8). Qed.

Lemma ld64_st64_ne m a b v : b + 8 <= a \/ a + 8 <= b -> ld64 (st64 m a v) b = ld64 m b.
Proof. intros. apply ld64_ext. intros. apply ldb_st64_out. lia. Qed.
