(* ===== verification/KString.v ===== *)
(** * kernel/string.c and the same routines of user/ulib.c

    The routines work on byte memory; a pointer is an address.  [char] is
    unsigned on RISC-V, so a byte is read as 0..255. *)
From S2P Require Import Prelude Machine.

(** ** memset: [for(i = 0; i < n; i++) cdst[i] = c] *)
Fixpoint memset_loop (k : nat) (m : memory) (cdst i c : Z) : memory :=
  match k with
  | O => m
  | S k => memset_loop k (stb m (cdst + i) c) cdst (i + 1) c
  end.
Definition memset (m : memory) (dst c n : Z) : memory :=
  memset_loop (Z.to_nat n) m dst 0 c.
#[global] Arguments memset : simpl never.

(** ** memcmp *)
Fixpoint memcmp_loop (n : nat) (m : memory) (s1 s2 : Z) : Z :=
  match n with
  | O => 0
  | S n =>
      if negb (ldb m s1 =? ldb m s2) then ldb m s1 - ldb m s2
      else memcmp_loop n m (s1 + 1) (s2 + 1)
  end.
Definition memcmp (m : memory) (v1 v2 n : Z) : Z := memcmp_loop (Z.to_nat n) m v1 v2.

(** ** memmove: backwards when the source starts below and runs into [dst] *)
Fixpoint move_down (n : nat) (m : memory) (d s : Z) : memory :=
  match n with
  | O => m
  | S n => let d := d - 1 in let s := s - 1 in move_down n (stb m d (ldb m s)) d s
  end.
Fixpoint move_up (n : nat) (m : memory) (d s : Z) : memory :=
  match n with
  | O => m
  | S n => move_up n (stb m d (ldb m s)) (d + 1) (s + 1)
  end.
Definition memmove (m : memory) (dst src n : Z) : memory :=
  if n =? 0 then m
  else if (src <? dst) && (dst <? src + n)
  then move_down (Z.to_nat n) m (dst + n) (src + n)
  else move_up (Z.to_nat n) m dst src.
#[global] Arguments memmove : simpl never.
Definition memcpy (m : memory) (dst src n : Z) : memory := memmove m dst src n.

(** user/ulib.c moves upwards exactly when the source is above. *)
Definition ulib_memmove (m : memory) (vdst vsrc n : Z) : memory :=
  if vdst <? vsrc then move_up (Z.to_nat n) m vdst vsrc
  else move_down (Z.to_nat n) m (vdst + n) (vsrc + n).

(** ** strncmp *)
Fixpoint strncmp_loop (n : nat) (m : memory) (p q : Z) : Z :=
  match n with
  | O => 0
  | S n' =>
      if negb (ldb m p =? 0) && (ldb m p =? ldb m q)
      then strncmp_loop n' m (p + 1) (q + 1)
      else ldb m p - ldb m q
  end.
Definition strncmp (m : memory) (p q n : Z) : Z := strncmp_loop (Z.to_nat n) m p q.

(** ** strncpy: copy through the NUL, then pad with zeros *)
Fixpoint pad_zero (n : nat) (m : memory) (s : Z) : memory :=
  match n with
  | O => m
  | S n => pad_zero n (stb m s 0) (s + 1)
  end.
Fixpoint strncpy_loop (n : nat) (m : memory) (s t : Z) : memory :=
  match n with
  | O => m
  | S n =>
      let c := ldb m t in
      let m := stb m s c in
      if negb (c =? 0) then strncpy_loop n m (s + 1) (t + 1)
      else pad_zero n m (s + 1)
  end.
Definition strncpy (m : memory) (s t n : Z) : memory := strncpy_loop (Z.to_nat n) m s t.

(** ** safestrcpy: at most [n - 1] bytes, then a NUL *)
Fixpoint safestrcpy_loop (n : nat) (m : memory) (s t : Z) : memory * Z :=
  match n with
  | O => (m, s)
  | S n =>
      let c := ldb m t in
      let m := stb m s c in
      if negb (c =? 0) then safestrcpy_loop n m (s + 1) (t + 1) else (m, s + 1)
  end.
Definition safestrcpy (m : memory) (s t n : Z) : memory :=
  if n <=? 0 then m
  else let '(m, s) := safestrcpy_loop (Z.to_nat (n - 1)) m s t in stb m s 0.

(** ** strlen: [None] when no NUL occurs among the first [fuel] bytes *)
Fixpoint strlen_loop (fuel : nat) (m : memory) (s n : Z) : option Z :=
  match fuel with
  | O => None
  | S fuel => if ldb m (s + n) =? 0 then Some n else strlen_loop fuel m s (n + 1)
  end.
Definition strlen (fuel : nat) (m : memory) (s : Z) : option Z := strlen_loop fuel m s 0.

(** ** What the memory routines do *)

(** Closes goals about [ldb (stb m a v) x] by deciding [a = x]. *)
Ltac byte_cases :=
  repeat match goal with
  | |- context [ldb (stb ?m ?a ?v) ?x] =>
      destruct (decide (a = x)) as [->|];
      [rewrite (ldb_stb_eq m) | rewrite (ldb_stb_ne m) by done]
  end.

Lemma memset_loop_ldb k m cdst i c x :
  ldb (memset_loop k m cdst i c) x =
  if (cdst + i <=? x) && (x <? cdst + i + Z.of_nat k) then u8 c else ldb m x.
Proof.
  revert m i. induction k as [|k IH]; intros m i; cbn [memset_loop].
  - repeat ztest; try lia; done.
  - rewrite IH. destruct (decide (cdst + i = x)) as [<-|Hne].
    + rewrite ldb_stb_eq. repeat ztest; try lia; done.
    + rewrite ldb_stb_ne by done.
      repeat ztest; try lia; done.
Qed.

Lemma memset_ldb m dst c n x :
  ldb (memset m dst c n) x =
  if (dst <=? x) && (x <? dst + n) then u8 c else ldb m x.
Proof.
  unfold memset. rewrite memset_loop_ldb, Z.add_0_r.
  repeat ztest; try lia; done.
Qed.

Lemma memset_in m dst c n x : dst <= x < dst + n -> ldb (memset m dst c n) x = u8 c.
Proof. intros. rewrite memset_ldb. ztest; [done|]. lia. Qed.

Lemma memset_out m dst c n x : x < dst \/ dst + n <= x -> ldb (memset m dst c n) x = ldb m x.
Proof. intros. rewrite memset_ldb. ztest; [lia|done]. Qed.

Lemma ld64_memset_out m dst c n a :
  a + 8 <= dst \/ dst + n <= a -> ld64 (memset m dst c n) a = ld64 m a.
Proof. intros. apply ld64_ext. intros. apply memset_out. lia. Qed.

Lemma ldn_zero k m a : (forall x, a <= x < a + Z.of_nat k -> ldb m x = 0) -> ldn k m a = 0.
Proof.
  revert a. induction k as [|k IH]; intros a H; [done|]. cbn [ldn].
  rewrite H by lia. rewrite IH; [done|]. intros. apply H. lia.
Qed.

Lemma ld64_memset0 m dst n a : dst <= a -> a + 8 <= dst + n -> ld64 (memset m dst 0 n) a = 0.
Proof. intros. apply (ldn_zero 8). intros. apply memset_in. lia. Qed.

Lemma move_up_ldb n m d s x :
  d <= s \/ s + Z.of_nat n <= d ->
  ldb (move_up n m d s) x =
  if (d <=? x) && (x <? d + Z.of_nat n) then ldb m (s + (x - d)) else ldb m x.
Proof.
  revert m d s. induction n as [|n IH]; intros m d s H; cbn [move_up].
  - ztest; [lia|done].
  - rewrite IH by lia. destruct (decide (x = d)) as [->|Hne].
    + replace (s + (d - d)) with s by lia. repeat ztest; try lia.
      rewrite ldb_stb_eq. apply u8_small, ldb_range.
    + rewrite (ldb_stb_ne m d x) by done.
      repeat ztest; try lia; try done.
      replace (s + 1 + (x - (d + 1))) with (s + (x - d)) by lia.
      apply ldb_stb_ne. lia.
Qed.

Lemma move_down_ldb n m d s x :
  s <= d ->
  ldb (move_down n m d s) x =
  if (d - Z.of_nat n <=? x) && (x <? d) then ldb m (s + (x - d)) else ldb m x.
Proof.
  revert m d s. induction n as [|n IH]; intros m d s H; cbn [move_down].
  - ztest; [lia|done].
  - rewrite IH by lia. destruct (decide (x = d - 1)) as [->|Hne].
    + replace (s + (d - 1 - d)) with (s - 1) by lia. repeat ztest; try lia.
      rewrite ldb_stb_eq. apply u8_small, ldb_range.
    + rewrite (ldb_stb_ne m (d - 1) x) by done.
      repeat ztest; try lia; try done.
      replace (s - 1 + (x - (d - 1))) with (s + (x - d)) by lia.
      apply ldb_stb_ne. lia.
Qed.

Lemma memmove_ldb m dst src n x :
  0 <= n ->
  ldb (memmove m dst src n) x =
  if (dst <=? x) && (x <? dst + n) then ldb m (src + (x - dst)) else ldb m x.
Proof.
  intros Hn. unfold memmove. destruct (n =? 0) eqn:E0; zb.
  { ztest; [lia|done]. }
  destruct ((src <? dst) && (dst <? src + n)) eqn:E.
  - zb. rewrite move_down_ldb by lia.
    replace (dst + n - Z.of_nat (Z.to_nat n)) with dst by lia.
    replace (src + n + (x - (dst + n))) with (src + (x - dst)) by lia. done.
  - apply andb_false_iff in E as [E|E]; zb;
      (rewrite move_up_ldb by lia; by rewrite Z2Nat.id by lia).
Qed.

(** user/ulib.c's memmove agrees with the kernel's for every overlap. *)
Lemma ulib_memmove_ldb m dst src n x :
  0 <= n -> ldb (ulib_memmove m dst src n) x = ldb (memmove m dst src n) x.
Proof.
  intros Hn. rewrite memmove_ldb by done. unfold ulib_memmove. ztest.
  - rewrite move_up_ldb by lia. by rewrite Z2Nat.id by lia.
  - rewrite move_down_ldb by lia.
    replace (dst + n - Z.of_nat (Z.to_nat n)) with dst by lia.
    by replace (src + n + (x - (dst + n))) with (src + (x - dst)) by lia.
Qed.

(** ** NUL-terminated strings: [cstr m s l] holds when [l] is the string at [s]. *)
Fixpoint cstr (m : memory) (s : Z) (l : list Z) : Prop :=
  match l with
  | [] => ldb m s = 0
  | c :: l => ldb m s = c /\ c <> 0 /\ cstr m (s + 1) l
  end.

Lemma cstr_ext m m' s l :
  (forall x, s <= x <= s + Z.of_nat (length l) -> ldb m x = ldb m' x) ->
  cstr m s l -> cstr m' s l.
Proof.
  revert s. induction l as [|c l IH]; intros s H; cbn.
  - rewrite <- H by (cbn; lia). done.
  - intros (Hc & Hz & Hl). rewrite <- H by (cbn; lia). split_and!; [done..|].
    apply IH; [|done]. intros. apply H. cbn. lia.
Qed.

Lemma cstr_inj m s l l' : cstr m s l -> cstr m s l' -> l = l'.
Proof.
  revert s l'. induction l as [|c l IH]; intros s [|c' l']; cbn; [done| | |].
  - intros ? (? & ? & _). congruence.
  - intros (? & ? & _) ?. congruence.
  - intros (<- & _ & H) (<- & _ & H'). f_equal. eauto.
Qed.

Lemma strlen_loop_cstr fuel m s n l :
  cstr m (s + n) l -> (length l < fuel)%nat ->
  strlen_loop fuel m s n = Some (n + Z.of_nat (length l)).
Proof.
  revert n l. induction fuel as [|fuel IH]; intros n l H Hf; [lia|].
  cbn [strlen_loop]. destruct l as [|c l]; cbn in H.
  - rewrite H. cbn. f_equal. lia.
  - destruct H as (<- & Hz & H). ztest; [done|].
    rewrite (IH (n + 1) l).
    + cbn [length]. f_equal. lia.
    + by rewrite Z.add_assoc.
    + cbn in Hf. lia.
Qed.

Lemma strlen_cstr fuel m s l :
  cstr m s l -> (length l < fuel)%nat -> strlen fuel m s = Some (Z.of_nat (length l)).
Proof. intros. unfold strlen. rewrite (strlen_loop_cstr _ _ _ _ l); [done| |done]. by rewrite Z.add_0_r. Qed.

Lemma strncmp_cstr m p q n lp lq :
  cstr m p lp -> cstr m q lq ->
  strncmp m p q n = 0 <-> take (Z.to_nat n) lp = take (Z.to_nat n) lq.
Proof.
  unfold strncmp. generalize (Z.to_nat n) as k. intros k. revert p q lp lq.
  induction k as [|k IH]; intros p q lp lq Hp Hq; [by rewrite !take_0|].
  cbn [strncmp_loop]. destruct lp as [|a lp], lq as [|b lq]; cbn in Hp, Hq.
  - rewrite Hp, Hq. done.
  - destruct Hq as (-> & ? & _). rewrite Hp. cbn. split; [lia|done].
  - destruct Hp as (-> & ? & _). rewrite Hq.
    replace (a =? 0) with false by lia. cbn. split; [lia|done].
  - destruct Hp as (-> & ? & Hp), Hq as (-> & ? & Hq).
    replace (a =? 0) with false by lia. cbn. ztest.
    + subst b. rewrite (IH _ _ _ _ Hp Hq). split; congruence.
    + split; [lia|congruence].
Qed.

Lemma cstr_stb m a v s l :
  a < s \/ s + Z.of_nat (length l) < a -> cstr m s l -> cstr (stb m a v) s l.
Proof. intros H. apply cstr_ext. intros. symmetry. apply ldb_stb_ne. lia. Qed.

Lemma safestrcpy_loop_spec k m s t l m' s' :
  cstr m t l ->
  t + Z.of_nat (length l) < s \/ s + Z.of_nat k < t ->
  safestrcpy_loop k m s t = (m', s') ->
  s <= s' <= s + Z.of_nat k /\
  (forall x, x < s \/ s' <= x -> ldb m' x = ldb m x) /\
  cstr (stb m' s' 0) s (take k l).
Proof.
  revert m s t l. induction k as [|k IH]; intros m s t l Hl Hd; cbn [safestrcpy_loop].
  { intros [= <- <-]. rewrite take_0. cbn. rewrite ldb_stb_eq. naive_solver lia. }
  destruct l as [|c l]; cbn in Hl.
  { rewrite Hl. cbn. intros [= <- <-]. rewrite ldb_stb_ne, ldb_stb_eq by lia.
    split_and!; [lia..| |done]. intros. apply ldb_stb_ne. lia. }
  destruct Hl as (Hc & Hz & Hl). rewrite Hc. replace (c =? 0) with false by lia. cbn [negb].
  intros H. cbn [length] in Hd. apply (IH _ _ _ l) in H as (Hs & Hout & Hcs); [|by apply cstr_stb; [lia|]|lia].
  split_and!; [lia..| |].
  - intros x Hx. rewrite Hout by lia. apply ldb_stb_ne. lia.
  - cbn. split_and!; [|done|done].
    rewrite ldb_stb_ne, Hout, ldb_stb_eq by lia.
    apply u8_small. rewrite <- Hc. apply ldb_range.
Qed.

Lemma safestrcpy_cstr m s t n l :
  0 < n -> cstr m t l ->
  t + Z.of_nat (length l) < s \/ s + n <= t ->
  cstr (safestrcpy m s t n) s (take (Z.to_nat (n - 1)) l) /\
  (forall x, x < s \/ s + n <= x -> ldb (safestrcpy m s t n) x = ldb m x).
Proof.
  intros Hn Hl Hd. unfold safestrcpy. replace (n <=? 0) with false by lia.
  destruct (safestrcpy_loop _ m s t) as [m' s'] eqn:E.
  apply (safestrcpy_loop_spec _ _ _ _ l) in E as (? & Hout & ?); [|done|lia].
  split; [done|]. intros x Hx. rewrite ldb_stb_ne by lia. apply Hout. lia.
Qed.

Lemma pad_zero_ldb n m s x :
  ldb (pad_zero n m s) x = if (s <=? x) && (x <? s + Z.of_nat n) then 0 else ldb m x.
Proof.
  revert m s. induction n as [|n IH]; intros m s; cbn [pad_zero].
  - ztest; [lia|done].
  - rewrite IH. byte_cases; repeat ztest; try lia; done.
Qed.

Lemma strncpy_loop_ldb k m s t l x :
  cstr m t l -> t + Z.of_nat (length l) < s \/ s + Z.of_nat k <= t ->
  ldb (strncpy_loop k m s t) x =
  if (s <=? x) && (x <? s + Z.of_nat k) then default 0 (l !! Z.to_nat (x - s)) else ldb m x.
Proof.
  revert m s t l. induction k as [|k IH]; intros m s t l Hl Hd; cbn [strncpy_loop].
  { ztest; [lia|done]. }
  destruct l as [|c l]; cbn in Hl.
  - rewrite Hl. cbn [Z.eqb negb]. rewrite pad_zero_ldb.
    byte_cases; repeat ztest; try lia; by rewrite ?lookup_nil.
  - destruct Hl as (Hc & Hz & Hl). rewrite Hc. replace (c =? 0) with false by lia. cbn [negb].
    cbn [length] in Hd. rewrite (IH _ _ _ l); [|by apply cstr_stb; [lia|]|lia].
    pose proof (ldb_range m t). destruct (decide (x = s)) as [->|].
    + rewrite ldb_stb_eq, Z.sub_diag, u8_small by lia.
      repeat ztest; try lia; done.
    + rewrite ldb_stb_ne by done. repeat ztest; try lia; try done.
      by replace (Z.to_nat (x - s)) with (S (Z.to_nat (x - (s + 1)))) by lia.
Qed.

Lemma strncpy_field m s t n l x :
  cstr m t l -> t + Z.of_nat (length l) < s \/ s + n <= t -> 0 <= n ->
  ldb (strncpy m s t n) x =
  if (s <=? x) && (x <? s + n) then default 0 (l !! Z.to_nat (x - s)) else ldb m x.
Proof.
  intros. unfold strncpy. rewrite (strncpy_loop_ldb _ _ _ _ l); [|done|lia].
  by rewrite Z2Nat.id.
Qed.

(** From here on these are used through the lemmas above. *)
#[global] Opaque memset memmove memcpy ldb stb ld64 st64.
