(* ===== verification/Kalloc.v ===== *)
(** * kernel/kalloc.c: the physical page allocator

    The free list is threaded through the free pages themselves: the first
    word of a free page is the address of the next ([struct run]).  A critical
    section under [kmem.lock] is one step. *)
From S2P Require Import Prelude Machine KString.

(** Physical memory and [kmem.freelist]. *)
Record pmem := mkPmem { pm : memory; freelist : Z }.
Definition set_pm (f : memory -> memory) : M pmem unit :=
  modify (fun s => mkPmem (f (pm s)) (freelist s)).

(** What [freelist] stands for: the addresses of the free pages, in order. *)
Fixpoint chain (m : memory) (p : Z) (l : list Z) : Prop :=
  match l with
  | [] => p = 0
  | a :: l => p = a /\ a <> 0 /\ chain m (ld64 m a) l
  end.

Section kalloc.
(** [end], the first address after the kernel, set by kernel.ld. *)
Context (kend : Z).

Definition kfree (pa : Z) : M pmem unit :=
  if negb (pa mod PGSIZE =? 0) || (pa <? kend) || (PHYSTOP <=? pa) then panic "kfree"
  else
    set_pm (fun m => memset m pa 1 PGSIZE) ;;;
    fl <~ gets freelist ;;
    set_pm (fun m => st64 m pa fl) ;;;
    modify (fun s => mkPmem (pm s) pa).

Definition kalloc : M pmem Z :=
  r <~ gets freelist ;;
  (if negb (r =? 0) then modify (fun s => mkPmem (pm s) (ld64 (pm s) r)) else kret tt) ;;;
  (if negb (r =? 0) then set_pm (fun m => memset m r 5 PGSIZE) else kret tt) ;;;
  kret r.

Fixpoint freerange_loop (fuel : nat) (p pa_end : Z) : M pmem unit :=
  match fuel with
  | O => nofuel
  | S fuel =>
      if p + PGSIZE <=? pa_end
      then kfree p ;;; freerange_loop fuel (p + PGSIZE) pa_end
      else kret tt
  end.
Definition freerange (pa_start pa_end : Z) : M pmem unit :=
  let p := PGROUNDUP pa_start in
  freerange_loop (Z.to_nat ((pa_end - p) / PGSIZE) + 1) p pa_end.
Definition kinit : M pmem unit := freerange kend PHYSTOP.

(** ** The allocator's invariant *)
Definition page_ok (a : Z) : bool :=
  (a mod PGSIZE =? 0) && (kend <=? a) && (a <? PHYSTOP).
Definition kmem_ok (s : pmem) (l : list Z) : Prop :=
  chain (pm s) (freelist s) l /\ NoDup l /\ Forall (fun a => page_ok a = true) l.

Hypothesis kend_pos : 0 < kend.

Lemma page_okI a : a mod PGSIZE = 0 -> kend <= a -> a < PHYSTOP -> page_ok a = true.
Proof. intros. unfold page_ok. lia. Qed.

Lemma page_okE a : page_ok a = true -> a mod PGSIZE = 0 /\ 0 < a /\ kend <= a < PHYSTOP.
Proof. unfold page_ok. intros. zb. lia. Qed.

Lemma chain_frame m m' p l :
  (forall a x, a ∈ l -> a <= x < a + 8 -> ldb m x = ldb m' x) ->
  chain m p l -> chain m' p l.
Proof.
  revert p. induction l as [|a l IH]; intros p H; cbn; [done|].
  intros (-> & ? & Hc). split_and!; [done..|].
  rewrite (ld64_ext m' m).
  - apply IH; [|done]. intros. eapply H; [|done]. set_solver.
  - intros. symmetry. eapply H; [|done]. set_solver.
Qed.

(** Bytes outside every free page are irrelevant to the allocator. *)
Lemma kmem_ok_frame m m' fl l :
  (forall a x, a ∈ l -> a <= x < a + PGSIZE -> ldb m x = ldb m' x) ->
  kmem_ok (mkPmem m fl) l -> kmem_ok (mkPmem m' fl) l.
Proof.
  intros H (Hc & ? & ?). split_and!; [|done..]. cbn in *.
  eapply chain_frame; [|exact Hc]. intros. eapply H; [done|]. unfold PGSIZE. lia.
Qed.

(** Two distinct aligned pages do not share a byte. *)
Lemma pages_disjoint a b x :
  a mod PGSIZE = 0 -> b mod PGSIZE = 0 -> a <> b ->
  a <= x < a + PGSIZE -> x < b \/ b + PGSIZE <= x.
Proof. unfold PGSIZE. intros. dlia. Qed.

Lemma kalloc_cons s a l :
  kmem_ok s (a :: l) ->
  exists s', kalloc s = Ret (a, s') /\ kmem_ok s' l /\
    pm s' = memset (pm s) a 5 PGSIZE.
Proof.
  intros ((Hfl & Ha & Hc) & [Hni Hnd]%NoDup_cons & [Hp Hps]%Forall_cons).
  unfold kalloc, kbind, gets, modify, set_pm, kret. rewrite Hfl.
  replace (a =? 0) with false by lia. cbn.
  eexists. split_and!; [done| |done].
  apply (kmem_ok_frame (pm s)); [|done].
  intros b x Hb Hx. symmetry. apply memset_out.
  apply page_okE in Hp. rewrite Forall_forall in Hps. specialize (Hps b Hb). apply page_okE in Hps.
  apply (pages_disjoint b a); [lia..| |done]. set_solver.
Qed.

Lemma kalloc_nil s : kmem_ok s [] -> kalloc s = Ret (0, s).
Proof.
  intros (Hfl & _). cbn in Hfl. unfold kalloc, kbind, gets, kret. rewrite Hfl. cbn.
  done.
Qed.

Lemma kfree_ok s a l :
  kmem_ok s l -> page_ok a = true -> a ∉ l ->
  exists s', kfree a s = Ret (tt, s') /\ kmem_ok s' (a :: l) /\
    (forall x, x < a \/ a + PGSIZE <= x -> ldb (pm s') x = ldb (pm s) x).
Proof.
  intros (Hc & Hnd & Hps) Hp Hni. pose proof (page_okE _ Hp) as Hpa.
  assert (freelist s = 0 \/ 0 <= freelist s < 2 ^ 64) as Hfl.
  { destruct l as [|b l]; cbn in Hc; [lia|]. apply Forall_cons in Hps as [Hb _].
    apply page_okE in Hb. unfold PHYSTOP, KERNBASE in *. lia. }
  unfold kfree, set_pm, kbind, gets, modify, kret.
  replace (negb _ || _ || _) with false by (unfold PGSIZE in *; lia). cbn.
  eexists. split_and!; [done| |].
  - split_and!; cbn [pm freelist chain].
    + split_and!; [done|lia|]. rewrite ld64_st64_eq by lia.
      eapply chain_frame; [|exact Hc]. intros b x Hb Hx.
      rewrite Forall_forall in Hps. specialize (Hps b Hb). apply page_okE in Hps.
      destruct (pages_disjoint b a x) as [|];
        [lia|lia|set_solver|unfold PGSIZE; lia| |];
        (rewrite ldb_st64_out, memset_out; [done|unfold PGSIZE in *; lia..]).
    + by apply NoDup_cons.
    + by apply Forall_cons.
  - intros x Hx. cbn. unfold PGSIZE in *. rewrite ldb_st64_out, memset_out by lia. done.
Qed.

Lemma kfree_bad s a : page_ok a = false -> kfree a s = Panic "kfree".
Proof.
  unfold page_ok, kfree. intros H. replace (negb _ || _ || _) with true; [done|].
  symmetry. rewrite !andb_false_iff in H. rewrite !orb_true_iff, negb_true_iff. lia.
Qed.

(** ** freerange and kinit *)

(** The pages [p, p + PGSIZE, ...], last one first: the list a run of
    [freerange] pushes. *)
Fixpoint pages_rev (n : nat) (p : Z) (acc : list Z) : list Z :=
  match n with
  | O => acc
  | S n => pages_rev n (p + PGSIZE) (p :: acc)
  end.

Lemma freerange_loop_ok n fuel s p pa_end l :
  kmem_ok s l -> (n < fuel)%nat ->
  p mod PGSIZE = 0 -> kend <= p -> pa_end <= PHYSTOP ->
  Z.of_nat n = Z.max 0 ((pa_end - p) / PGSIZE) ->
  Forall (fun a => a < p) l ->
  exists s', freerange_loop fuel p pa_end s = Ret (tt, s') /\ kmem_ok s' (pages_rev n p l).
Proof.
  revert fuel s p l. induction n as [|n IH]; intros [|fuel] s p l Hs Hf Hp Hk He Hn Hl; try lia;
    cbn [freerange_loop pages_rev].
  - replace (p + PGSIZE <=? pa_end) with false by (unfold PGSIZE in *; dlia).
    by exists s.
  - replace (p + PGSIZE <=? pa_end) with true by (unfold PGSIZE in *; dlia).
    destruct (kfree_ok s p l) as (s1 & Hr & Hs1 & _); [done| | |].
    { apply page_okI; [done..|]. unfold PGSIZE in *. dlia. }
    { intros Hin. rewrite Forall_forall in Hl. specialize (Hl _ Hin). lia. }
    rewrite (kbind_ret _ _ _ _ _ Hr).
    apply IH; [done|lia| | |done| |].
    + unfold PGSIZE in *. dlia.
    + unfold PGSIZE in *. lia.
    + unfold PGSIZE in *. dlia.
    + apply Forall_cons. split; [unfold PGSIZE; lia|].
      eapply Forall_impl; [done|]. cbn. unfold PGSIZE. lia.
Qed.

Definition npages : nat := Z.to_nat ((PHYSTOP - PGROUNDUP kend) / PGSIZE).

Lemma elem_of_pages_rev n p acc a :
  a ∈ pages_rev n p acc <-> a ∈ acc \/ exists i, 0 <= i < Z.of_nat n /\ a = p + i * PGSIZE.
Proof.
  revert p acc. induction n as [|n IH]; intros p acc; cbn [pages_rev].
  { split; [by left|]. intros [?|(? & ? & _)]; [done|lia]. }
  rewrite IH, elem_of_cons. split.
  - intros [[->|?]|(i & ? & ->)]; [right; exists 0; lia|by left|right; exists (i + 1); lia].
  - intros [?|(i & ? & ->)]; [tauto|].
    destruct (decide (i = 0)) as [->|]; [left; left; lia|right; exists (i - 1); lia].
Qed.

(** ** The allocator as a client sees it: a stack of free pages *)
Inductive kop := KAlloc | KFree (pa : Z).

(** One call on the abstract stack; [None] is a call the contract forbids
    (freeing what is not a page, or a page that is already free). *)
Definition stack_step (l : list Z) (op : kop) : option (Z * list Z) :=
  match op, l with
  | KAlloc, [] => Some (0, [])
  | KAlloc, a :: l => Some (a, l)
  | KFree a, l => if page_ok a && bool_decide (a ∉ l) then Some (0, a :: l) else None
  end.
Fixpoint stack_run (l : list Z) (ops : list kop) : option (list Z * list Z) :=
  match ops with
  | [] => Some ([], l)
  | op :: ops =>
      '(r, l) ← stack_step l op; '(rs, l) ← stack_run l ops; Some (r :: rs, l)
  end.

Definition kop_run (op : kop) : M pmem Z :=
  match op with KAlloc => kalloc | KFree a => kfree a ;;; kret 0 end.
Fixpoint kops_run (ops : list kop) : M pmem (list Z) :=
  match ops with
  | [] => kret []
  | op :: ops => r <~ kop_run op ;; rs <~ kops_run ops ;; kret (r :: rs)
  end.

Lemma kop_run_ok s l op r l' :
  kmem_ok s l -> stack_step l op = Some (r, l') ->
  exists s', kop_run op s = Ret (r, s') /\ kmem_ok s' l'.
Proof.
  intros Hs. destruct op as [|a]; [destruct l as [|a l]|]; cbn [stack_step kop_run].
  - intros [= <- <-]. exists s. auto using kalloc_nil.
  - intros [= <- <-]. destruct (kalloc_cons _ _ _ Hs) as (s' & ? & ? & _). eauto.
  - destruct (page_ok a) eqn:Hp; [|by destruct l; intros [=]]. case_bool_decide as Hni; [|by destruct l; intros [=]].
    intros H. assert (r = 0 /\ l' = a :: l) as [-> ->] by (destruct l; naive_solver).
    destruct (kfree_ok _ _ _ Hs Hp Hni) as (s' & Hr & ? & _). exists s'.
    by rewrite (kbind_ret _ _ _ _ _ Hr).
Qed.
End kalloc.

Lemma length_pages_rev n p acc : length (pages_rev n p acc) = (n + length acc)%nat.
Proof. revert p acc. induction n as [|n IH]; intros p acc; cbn [pages_rev]; [done|]. rewrite IH. cbn. lia. Qed.

Lemma kinit_pages kend m : 0 < kend < PHYSTOP ->
  exists s, kinit kend (mkPmem m 0) = Ret (tt, s) /\ kmem_ok kend s (pages_rev (npages kend) (PGROUNDUP kend) []).
Proof.
  intros Hk. assert (0 <= kend < 2 ^ 64 - PGSIZE) as Hk'.
  { unfold PHYSTOP, KERNBASE, PGSIZE in *. lia. }
  assert (PGROUNDUP kend mod PGSIZE = 0 /\ kend <= PGROUNDUP kend < kend + PGSIZE) as [Hu1 Hu2].
  { rewrite PGROUNDUP_eq by done. unfold PGSIZE. dlia. }
  assert (PHYSTOP mod PGSIZE = 0) as Hstop by done.
  destruct (freerange_loop_ok kend ltac:(lia) (npages kend)
    (Z.to_nat ((PHYSTOP - PGROUNDUP kend) / PGSIZE) + 1) (mkPmem m 0)
    (PGROUNDUP kend) PHYSTOP []) as (s & Hr & Hs).
  - split_and!; [done|constructor..].
  - unfold npages. lia.
  - done.
  - lia.
  - done.
  - unfold npages. unfold PGSIZE in *. dlia.
  - constructor.
  - by exists s.
Qed.

(** [kinit] leaves on the free list exactly the page-aligned pages
    between [end] and PHYSTOP, each once. *)
Theorem kinit_all_pages kend m :
  0 < kend < PHYSTOP ->
  exists s l, kinit kend (mkPmem m 0) = Ret (tt, s) /\ kmem_ok kend s l /\
    forall a, a ∈ l <-> page_ok kend a = true.
Proof.
  intros Hk. destruct (kinit_pages kend m Hk) as (s & Hr & Hs).
  exists s, (pages_rev (npages kend) (PGROUNDUP kend) []). split_and!; [done..|].
  assert (0 <= kend < 2 ^ 64 - PGSIZE) as Hk' by (unfold PHYSTOP, KERNBASE, PGSIZE in *; lia).
  assert (PGROUNDUP kend mod PGSIZE = 0 /\ kend <= PGROUNDUP kend < kend + PGSIZE) as [Hu1 Hu2].
  { rewrite PGROUNDUP_eq by done. unfold PGSIZE. dlia. }
  assert (PHYSTOP mod PGSIZE = 0) as Hstop by done.
  intros a. rewrite elem_of_pages_rev. unfold page_ok, npages. unfold PGSIZE in *. split.
  - intros [?|(i & ? & ->)]; [set_solver|]. rewrite !andb_true_iff. dlia.
  - intros H. zb. right. exists ((a - PGROUNDUP kend) / 4096). dlia.
Qed.

Lemma kinit_all_pages_witness :
  0 < PHYSTOP - 10000 < PHYSTOP /\
  exists s l, kinit (PHYSTOP - 10000) (mkPmem ∅ 0) = Ret (tt, s) /\
    kmem_ok (PHYSTOP - 10000) s l /\ forall a, a ∈ l <-> page_ok (PHYSTOP - 10000) a = true.
Proof. split; [done|]. apply (kinit_all_pages (PHYSTOP - 10000) ∅). done. Defined.

Lemma kops_run_ok kend s l ops rs l' :
  0 < kend -> kmem_ok kend s l -> stack_run kend l ops = Some (rs, l') ->
  exists s', kops_run kend ops s = Ret (rs, s') /\ kmem_ok kend s' l'.
Proof.
  intros Hk. revert s l rs. induction ops as [|op ops IH]; intros s l rs Hs; cbn.
  { intros [= <- <-]. by exists s. }
  intros ([r l1] & H1 & ([rs' l2] & H2 & [= <- <-])%bind_Some)%bind_Some.
  destruct (kop_run_ok kend Hk _ _ _ _ _ Hs H1) as (s1 & Hr & Hs1).
  destruct (IH _ _ _ Hs1 H2) as (s2 & Hr2 & Hs2).
  exists s2. by rewrite (kbind_ret _ _ _ _ _ Hr), (kbind_ret _ _ _ _ _ Hr2).
Qed.

(** C23: Refinement: every sequence of [kalloc] and [kfree] calls that the
    contract allows returns exactly what a stack of free pages returns, and
    the free list in memory stays a representation of that stack. *)
Theorem kalloc_refines_stack kend s l ops rs l' :
  0 < kend -> kmem_ok kend s l -> stack_run kend l ops = Some (rs, l') ->
  exists s', kops_run kend ops s = Ret (rs, s') /\ kmem_ok kend s' l'.
Proof. apply kops_run_ok. Qed.

Lemma kalloc_refines_stack_witness :
  exists s', kops_run 4096 [KFree 8192; KFree 4096; KAlloc; KAlloc; KAlloc] (mkPmem ∅ 0)
    = Ret ([0; 0; 4096; 8192; 0], s') /\ kmem_ok 4096 s' [].
Proof.
  apply (kalloc_refines_stack 4096 (mkPmem ∅ 0) []); [done| |by vm_compute].
  split_and!; [done|constructor..].
Defined.
