(* ===== verification/Vm.v ===== *)
(** * kernel/vm.c: Sv39 page tables and user memory

    Page-table pages, user pages and free pages live in one byte memory
    (Kalloc.v); a [pte_t *] is the address of a PTE in it.  Buffers on the
    kernel side of [copyin] and [copyout] are lists of bytes.  The address
    space functions of kernel/proc.c are at the end of the section. *)
From S2P Require Import Prelude Machine KString Kalloc.

(** [*pte], and the store through it; dereferencing address 0 is a fault the
    kernel cannot handle. *)
Definition ldpte (pte : Z) : M pmem Z :=
  if pte =? 0 then panic "kerneltrap" else gets (fun s => ld64 (pm s) pte).
Definition stpte (pte v : Z) : M pmem unit := set_pm (fun m => st64 m pte v).

(** Bytes [a .. a + n) of memory as a list, and a list stored at [a]. *)
Fixpoint bytes_at (n : nat) (m : memory) (a : Z) : list Z :=
  match n with
  | O => []
  | S n => ldb m a :: bytes_at n m (a + 1)
  end.
Fixpoint put_bytes (bs : list Z) (m : memory) (a : Z) : memory :=
  match bs with
  | [] => m
  | b :: bs => put_bytes bs (stb m a b) (a + 1)
  end.

(** The part of [myproc()] the page-fault path reads. *)
Record vmproc := mkVmproc { p_sz : Z; p_pagetable : Z }.

Section vm.
Context (kend : Z).

Fixpoint walk_loop (level : nat) (pagetable va : Z) (alloc : bool) : M pmem Z :=
  match level with
  | O => kret (pagetable + 8 * PX 0 va)
  | S level' =>
      let pte := pagetable + 8 * PX (Z.of_nat level) va in
      e <~ gets (fun s => ld64 (pm s) pte) ;;
      if flag e PTE_V then walk_loop level' (PTE2PA e) va alloc
      else if negb alloc then kret 0
      else
        pg <~ kalloc ;;
        if pg =? 0 then kret 0
        else
          set_pm (fun m => memset m pg 0 PGSIZE) ;;;
          stpte pte (Z.lor (PA2PTE pg) PTE_V) ;;;
          walk_loop level' pg va alloc
  end.
Definition walk (pagetable va : Z) (alloc : bool) : M pmem Z :=
  if MAXVA <=? va then panic "walk" else walk_loop 2 pagetable va alloc.

Definition walkaddr (pagetable va : Z) : M pmem Z :=
  if MAXVA <=? va then kret 0
  else
    pte <~ walk pagetable va false ;;
    if pte =? 0 then kret 0
    else
      e <~ ldpte pte ;;
      if negb (flag e PTE_V) then kret 0
      else if negb (flag e PTE_U) then kret 0
      else kret (PTE2PA e).

Fixpoint mappages_loop (fuel : nat) (pagetable a last pa perm : Z) : M pmem Z :=
  match fuel with
  | O => nofuel
  | S fuel =>
      pte <~ walk pagetable a true ;;
      if pte =? 0 then kret (-1)
      else
        e <~ ldpte pte ;;
        if flag e PTE_V then panic "mappages: remap"
        else
          stpte pte (Z.lor (Z.lor (PA2PTE pa) perm) PTE_V) ;;;
          if a =? last then kret 0
          else mappages_loop fuel pagetable (u64 (a + PGSIZE)) last (u64 (pa + PGSIZE)) perm
  end.
Definition mappages (pagetable va size pa perm : Z) : M pmem Z :=
  if negb (va mod PGSIZE =? 0) then panic "mappages: va not aligned"
  else if negb (size mod PGSIZE =? 0) then panic "mappages: size not aligned"
  else if size =? 0 then panic "mappages: size"
  else mappages_loop (Z.to_nat (size / PGSIZE)) pagetable va (u64 (va + size - PGSIZE)) pa perm.

Definition kvmmap (kpgtbl va pa sz perm : Z) : M pmem unit :=
  r <~ mappages kpgtbl va sz pa perm ;;
  if negb (r =? 0) then panic "kvmmap" else kret tt.

Definition uvmcreate : M pmem Z :=
  pagetable <~ kalloc ;;
  if pagetable =? 0 then kret 0
  else set_pm (fun m => memset m pagetable 0 PGSIZE) ;;; kret pagetable.

Fixpoint uvmunmap_loop (fuel : nat) (pagetable a last : Z) (do_free : bool) : M pmem unit :=
  match fuel with
  | O => nofuel
  | S fuel =>
      if a <? last then
        pte <~ walk pagetable a false ;;
        (if pte =? 0 then kret tt
         else
           e <~ ldpte pte ;;
           if negb (flag e PTE_V) then kret tt
           else
             (if do_free then kfree kend (PTE2PA e) else kret tt) ;;;
             stpte pte 0) ;;;
        uvmunmap_loop fuel pagetable (u64 (a + PGSIZE)) last do_free
      else kret tt
  end.
Definition uvmunmap (pagetable va npages : Z) (do_free : bool) : M pmem unit :=
  if negb (va mod PGSIZE =? 0) then panic "uvmunmap: not aligned"
  else uvmunmap_loop (Z.to_nat npages + 1) pagetable va (u64 (va + npages * PGSIZE)) do_free.

Definition uvmdealloc (pagetable oldsz newsz : Z) : M pmem Z :=
  if oldsz <=? newsz then kret oldsz
  else
    (if PGROUNDUP newsz <? PGROUNDUP oldsz
     then
       let npages := i32 ((PGROUNDUP oldsz - PGROUNDUP newsz) / PGSIZE) in
       uvmunmap pagetable (PGROUNDUP newsz) npages true
     else kret tt) ;;;
    kret newsz.

Fixpoint uvmalloc_loop (fuel : nat) (pagetable a oldsz newsz xperm : Z) : M pmem Z :=
  match fuel with
  | O => nofuel
  | S fuel =>
      if a <? newsz then
        mem <~ kalloc ;;
        if mem =? 0 then uvmdealloc pagetable a oldsz ;;; kret 0
        else
          set_pm (fun m => memset m mem 0 PGSIZE) ;;;
          r <~ mappages pagetable a PGSIZE mem (Z.lor (Z.lor PTE_R PTE_U) xperm) ;;
          if negb (r =? 0) then
            kfree kend mem ;;; uvmdealloc pagetable a oldsz ;;; kret 0
          else uvmalloc_loop fuel pagetable (u64 (a + PGSIZE)) oldsz newsz xperm
      else kret newsz
  end.
Definition uvmalloc (pagetable oldsz newsz xperm : Z) : M pmem Z :=
  if newsz <? oldsz then kret oldsz
  else
    let oldsz := PGROUNDUP oldsz in
    uvmalloc_loop (Z.to_nat ((newsz - oldsz) / PGSIZE) + 2) pagetable oldsz oldsz newsz xperm.

(** [depth] bounds the recursion; a three-level table needs 3. *)
Fixpoint freewalk (depth : nat) (pagetable : Z) : M pmem unit :=
  match depth with
  | O => nofuel
  | S depth =>
      (fix loop (n : nat) (i : Z) : M pmem unit :=
         match n with
         | O => kret tt
         | S n =>
             pte <~ gets (fun s => ld64 (pm s) (pagetable + 8 * i)) ;;
             (if flag pte PTE_V && (Z.land pte (Z.lor (Z.lor PTE_R PTE_W) PTE_X) =? 0)
              then freewalk depth (PTE2PA pte) ;;; stpte (pagetable + 8 * i) 0
              else if flag pte PTE_V then panic "freewalk: leaf"
              else kret tt) ;;;
             loop n (i + 1)
         end) 512%nat 0 ;;;
      kfree kend pagetable
  end.

Definition uvmfree (pagetable sz : Z) : M pmem unit :=
  (if 0 <? sz then uvmunmap pagetable 0 (PGROUNDUP sz / PGSIZE) true else kret tt) ;;;
  freewalk 3 pagetable.

Fixpoint uvmcopy_loop (fuel : nat) (old new i sz : Z) : M pmem Z :=
  let err := uvmunmap new 0 (i / PGSIZE) true ;;; kret (-1) in
  match fuel with
  | O => nofuel
  | S fuel =>
      if i <? sz then
        pte <~ walk old i false ;;
        if pte =? 0 then uvmcopy_loop fuel old new (u64 (i + PGSIZE)) sz
        else
          e <~ ldpte pte ;;
          if negb (flag e PTE_V) then uvmcopy_loop fuel old new (u64 (i + PGSIZE)) sz
          else
            let pa := PTE2PA e in
            let flags := PTE_FLAGS e in
            mem <~ kalloc ;;
            if mem =? 0 then err
            else
              set_pm (fun m => memmove m mem pa PGSIZE) ;;;
              r <~ mappages new i PGSIZE mem flags ;;
              if negb (r =? 0) then kfree kend mem ;;; err
              else uvmcopy_loop fuel old new (u64 (i + PGSIZE)) sz
      else kret 0
  end.
Definition uvmcopy (old new sz : Z) : M pmem Z :=
  uvmcopy_loop (Z.to_nat (sz / PGSIZE) + 2) old new 0 sz.

Definition uvmclear (pagetable va : Z) : M pmem unit :=
  pte <~ walk pagetable va false ;;
  if pte =? 0 then panic "uvmclear"
  else e <~ ldpte pte ;; stpte pte (Z.land e (Z.lnot PTE_U)).

Definition ismapped (pagetable va : Z) : M pmem bool :=
  pte <~ walk pagetable va false ;;
  if pte =? 0 then kret false
  else e <~ ldpte pte ;; kret (flag e PTE_V).

Definition vmfault (p : vmproc) (pagetable va : Z) : M pmem Z :=
  if p_sz p <=? va then kret 0
  else
    let va := PGROUNDDOWN va in
    mapped <~ ismapped pagetable va ;;
    if (mapped : bool) then kret 0
    else
      mem <~ kalloc ;;
      if mem =? 0 then kret 0
      else
        set_pm (fun m => memset m mem 0 PGSIZE) ;;;
        r <~ mappages (p_pagetable p) va PGSIZE mem (Z.lor (Z.lor PTE_W PTE_U) PTE_R) ;;
        if negb (r =? 0) then kfree kend mem ;;; kret 0
        else kret mem.

(** [src] holds the [len] bytes of the kernel buffer still to be copied. *)
Fixpoint copyout_loop (fuel : nat) (p : vmproc) (pagetable dstva : Z) (src : list Z) (len : Z)
  : M pmem Z :=
  match fuel with
  | O => nofuel
  | S fuel =>
      if 0 <? len then
        let va0 := PGROUNDDOWN dstva in
        if MAXVA <=? va0 then kret (-1)
        else
          pa0 <~ walkaddr pagetable va0 ;;
          pa0 <~ (if pa0 =? 0 then vmfault p pagetable va0 else kret pa0) ;;
          if pa0 =? 0 then kret (-1)
          else
            pte <~ walk pagetable va0 false ;;
            e <~ ldpte pte ;;
            if negb (flag e PTE_W) then kret (-1)
            else
              let n := PGSIZE - (dstva - va0) in
              let n := if len <? n then len else n in
              set_pm (fun m => put_bytes (take (Z.to_nat n) src) m (pa0 + (dstva - va0))) ;;;
              copyout_loop fuel p pagetable (u64 (va0 + PGSIZE)) (drop (Z.to_nat n) src) (len - n)
      else kret 0
  end.
Definition copyout (p : vmproc) (pagetable dstva : Z) (src : list Z) (len : Z) : M pmem Z :=
  copyout_loop (Z.to_nat (len / PGSIZE) + 3) p pagetable dstva src len.

(** Returns the C result and the bytes written to [dst]. *)
Fixpoint copyin_loop (fuel : nat) (p : vmproc) (pagetable : Z) (dst : list Z) (srcva len : Z)
  : M pmem (Z * list Z) :=
  match fuel with
  | O => nofuel
  | S fuel =>
      if 0 <? len then
        let va0 := PGROUNDDOWN srcva in
        pa0 <~ walkaddr pagetable va0 ;;
        pa0 <~ (if pa0 =? 0 then vmfault p pagetable va0 else kret pa0) ;;
        if pa0 =? 0 then kret (-1, dst)
        else
          let n := PGSIZE - (srcva - va0) in
          let n := if len <? n then len else n in
          bs <~ gets (fun s => bytes_at (Z.to_nat n) (pm s) (pa0 + (srcva - va0))) ;;
          copyin_loop fuel p pagetable (dst ++ bs) (u64 (va0 + PGSIZE)) (len - n)
      else kret (0, dst)
  end.
Definition copyin (p : vmproc) (pagetable srcva len : Z) : M pmem (Z * list Z) :=
  copyin_loop (Z.to_nat (len / PGSIZE) + 3) p pagetable [] srcva len.

(** The inner loop: copies until a NUL or until [n] bytes are done; returns
    [got_null] and the bytes stored. *)
Fixpoint copyinstr_page (n : nat) (m : memory) (p : Z) (dst : list Z) : bool * list Z :=
  match n with
  | O => (false, dst)
  | S n =>
      let c := ldb m p in
      if c =? 0 then (true, dst ++ [0]) else copyinstr_page n m (p + 1) (dst ++ [c])
  end.
Fixpoint copyinstr_loop (fuel : nat) (pagetable : Z) (dst : list Z) (srcva max : Z)
  : M pmem (Z * list Z) :=
  match fuel with
  | O => nofuel
  | S fuel =>
      if 0 <? max then
        let va0 := PGROUNDDOWN srcva in
        pa0 <~ walkaddr pagetable va0 ;;
        if pa0 =? 0 then kret (-1, dst)
        else
          let n := PGSIZE - (srcva - va0) in
          let n := if max <? n then max else n in
          m <~ gets pm ;;
          let '(got_null, dst) := copyinstr_page (Z.to_nat n) m (pa0 + (srcva - va0)) dst in
          if got_null then kret (0, dst)
          else copyinstr_loop fuel pagetable dst (u64 (va0 + PGSIZE)) (max - n)
      else kret (-1, dst)
  end.
Definition copyinstr (pagetable srcva max : Z) : M pmem (Z * list Z) :=
  copyinstr_loop (Z.to_nat (max / PGSIZE) + 3) pagetable [] srcva max.

(** ** Address spaces of kernel/proc.c *)

(** [trampoline]: the page of trampoline.S, placed by kernel.ld. *)
Context (trampoline : Z).

Definition proc_pagetable (trapframe : Z) : M pmem Z :=
  pagetable <~ uvmcreate ;;
  if pagetable =? 0 then kret 0
  else
    r <~ mappages pagetable TRAMPOLINE PGSIZE trampoline (Z.lor PTE_R PTE_X) ;;
    if r <? 0 then uvmfree pagetable 0 ;;; kret 0
    else
      r <~ mappages pagetable TRAPFRAME PGSIZE trapframe (Z.lor PTE_R PTE_W) ;;
      if r <? 0 then
        uvmunmap pagetable TRAMPOLINE 1 false ;;; uvmfree pagetable 0 ;;; kret 0
      else kret pagetable.

Definition proc_freepagetable (pagetable sz : Z) : M pmem unit :=
  uvmunmap pagetable TRAMPOLINE 1 false ;;;
  uvmunmap pagetable TRAPFRAME 1 false ;;;
  uvmfree pagetable sz.

Fixpoint proc_mapstacks_loop (n : nat) (i kpgtbl : Z) : M pmem unit :=
  match n with
  | O => kret tt
  | S n =>
      pa <~ kalloc ;;
      if pa =? 0 then panic "kalloc"
      else
        kvmmap kpgtbl (KSTACK i) pa PGSIZE (Z.lor PTE_R PTE_W) ;;;
        proc_mapstacks_loop n (i + 1) kpgtbl
  end.
Definition proc_mapstacks (kpgtbl : Z) : M pmem unit :=
  proc_mapstacks_loop (Z.to_nat NPROC) 0 kpgtbl.

(** [etext]: the end of kernel code, set by kernel.ld. *)
Definition kvmmake (etext : Z) : M pmem Z :=
  kpgtbl <~ kalloc ;;
  set_pm (fun m => memset m kpgtbl 0 PGSIZE) ;;;
  kvmmap kpgtbl UART0 UART0 PGSIZE (Z.lor PTE_R PTE_W) ;;;
  kvmmap kpgtbl VIRTIO0 VIRTIO0 PGSIZE (Z.lor PTE_R PTE_W) ;;;
  kvmmap kpgtbl PLIC PLIC 67108864 (Z.lor PTE_R PTE_W) ;;;
  kvmmap kpgtbl KERNBASE KERNBASE (etext - KERNBASE) (Z.lor PTE_R PTE_X) ;;;
  kvmmap kpgtbl etext etext (PHYSTOP - etext) (Z.lor PTE_R PTE_W) ;;;
  kvmmap kpgtbl TRAMPOLINE trampoline PGSIZE (Z.lor PTE_R PTE_X) ;;;
  proc_mapstacks kpgtbl ;;;
  kret kpgtbl.
End vm.
