(* ===== verification/VmInv.v ===== *)
(** * The page-table invariant and the translation a page table denotes *)
From S2P Require Import Prelude Machine KString Kalloc Vm.

(** ** Bits of a PTE: a page number above ten flag bits *)
Lemma land_high_low q r n : 0 <= n -> 0 <= r < 2 ^ n -> Z.land (q * 2 ^ n) r = 0.
Proof.
  intros Hn Hr. apply Z.bits_inj'. intros i Hi. rewrite Z.land_spec, Z.bits_0.
  destruct (Z.ltb_spec i n).
  - by rewrite Z.mul_pow2_bits_low.
  - rewrite <- (Z.mod_small r (2 ^ n)) by done.
    rewrite Z.mod_pow2_bits_high by lia. apply andb_false_r.
Qed.

Lemma lor_high_low q r n : 0 <= n -> 0 <= r < 2 ^ n -> Z.lor (q * 2 ^ n) r = q * 2 ^ n + r.
Proof. intros. rewrite <- Z.add_nocarry_lor; [done|]. by apply land_high_low. Qed.

Lemma lor_range a b n : 0 <= n -> 0 <= a < 2 ^ n -> 0 <= b < 2 ^ n -> 0 <= Z.lor a b < 2 ^ n.
Proof.
  intros Hn Ha Hb. replace (Z.lor a b) with (Z.lor a b mod 2 ^ n).
  { apply Z.mod_pos_bound. lia. }
  rewrite <- Z.land_ones, Z.land_lor_distr_l, !Z.land_ones by done.
  by rewrite !Z.mod_small.
Qed.

Lemma PTE_V_range : 0 <= PTE_V < 2 ^ 10.
Proof. by vm_compute. Qed.

(** The PTE the kernel writes for page [pa] with flags [f]. *)
Definition mkpte (pa f : Z) : Z := Z.lor (Z.lor (PA2PTE pa) f) PTE_V.

Lemma mkpte_0 pa : Z.lor (PA2PTE pa) PTE_V = mkpte pa 0.
Proof. unfold mkpte. by rewrite Z.lor_0_r. Qed.

Lemma mkpte_eq pa f :
  0 <= pa < 2 ^ 56 -> 0 <= f < 1024 -> mkpte pa f = pa / PGSIZE * 2 ^ 10 + Z.lor f PTE_V.
Proof.
  intros Hp Hf. unfold mkpte. rewrite <- Z.lor_assoc, PA2PTE_eq by done.
  apply (lor_high_low _ _ 10); [lia|].
  apply (lor_range _ _ 10); [lia..|apply PTE_V_range].
Qed.

Lemma mkpte_range pa f : 0 <= pa < 2 ^ 56 -> 0 <= f < 1024 -> 0 <= mkpte pa f < 2 ^ 54.
Proof.
  intros Hp Hf. rewrite mkpte_eq by done.
  pose proof (lor_range f PTE_V 10 ltac:(lia) Hf PTE_V_range).
  unfold PGSIZE. dlia.
Qed.

Lemma mkpte_pa pa f :
  0 <= pa < 2 ^ 56 -> pa mod PGSIZE = 0 -> 0 <= f < 1024 -> PTE2PA (mkpte pa f) = pa.
Proof.
  intros Hp Ha Hf. rewrite PTE2PA_eq by (by apply mkpte_range). rewrite mkpte_eq by done.
  pose proof (lor_range f PTE_V 10 ltac:(lia) Hf PTE_V_range).
  unfold PGSIZE in *. dlia.
Qed.

Lemma mkpte_land pa f g :
  0 <= pa < 2 ^ 56 -> 0 <= f < 1024 -> 0 <= g < 1024 ->
  Z.land (mkpte pa f) g = Z.land (Z.lor f PTE_V) g.
Proof.
  intros Hp Hf Hg. unfold mkpte. rewrite <- Z.lor_assoc, PA2PTE_eq by done.
  rewrite Z.land_lor_distr_l. rewrite (land_high_low _ g 10) by lia. done.
Qed.

Lemma mkpte_valid pa f : 0 <= pa < 2 ^ 56 -> 0 <= f < 1024 -> flag (mkpte pa f) PTE_V = true.
Proof.
  intros. unfold flag. pose proof PTE_V_range. rewrite mkpte_land by lia.
  change PTE_V with 1.
  rewrite Z.land_lor_distr_l. change (Z.land 1 1) with 1.
  destruct (Z.eqb_spec (Z.lor (Z.land f 1) 1) 0) as [E|]; [|done].
  apply Z.lor_eq_0_iff in E. lia.
Qed.

Lemma mkpte_flag pa f g :
  0 <= pa < 2 ^ 56 -> 0 <= f < 1024 -> 0 <= g < 1024 ->
  flag (mkpte pa f) g = negb (Z.land (Z.lor f PTE_V) g =? 0).
Proof. intros ???. unfold flag. by rewrite mkpte_land. Qed.

(** The flags of a page that [vmfault] maps. *)
Definition PTE_WUR : Z := Z.lor (Z.lor PTE_W PTE_U) PTE_R.

Lemma PTE_WUR_range : 0 <= PTE_WUR < 1024.
Proof. change PTE_WUR with 22. lia. Qed.

Lemma mkpte_wur pa g :
  0 <= pa < 2 ^ 56 -> g = PTE_V \/ g = PTE_U \/ g = PTE_W -> flag (mkpte pa PTE_WUR) g = true.
Proof.
  intros Hpa Hg. rewrite mkpte_flag; [by destruct Hg as [->|[->| ->]]|done|apply PTE_WUR_range|].
  destruct Hg as [->|[->| ->]]; [change PTE_V with 1|change PTE_U with 16|change PTE_W with 4]; lia.
Qed.

(** The indices of an address depend on its page only. *)
Lemma PX_page l va va' : 0 <= l -> va / PGSIZE = va' / PGSIZE -> PX l va = PX l va'.
Proof.
  intros Hl H. rewrite !PX_eq by done. f_equal. unfold PGSIZE in H.
  rewrite Z.pow_add_r by lia. change (2 ^ 12) with 4096.
  rewrite <- !Z.div_div by lia. by rewrite H.
Qed.

(** ** The translation of a page table

    [leafl l m p va] is the PTE that the table page [p] of level [l] holds for
    [va], or 0 where a page-table page is missing; [slotl] is its address. *)
Definition slot (p i : Z) : Z := p + 8 * i.

Fixpoint leafl (l : nat) (m : memory) (p va : Z) : Z :=
  let e := ld64 m (slot p (PX (Z.of_nat l) va)) in
  match l with
  | O => e
  | S l => if flag e PTE_V then leafl l m (PTE2PA e) va else 0
  end.
Fixpoint slotl (l : nat) (m : memory) (p va : Z) : option Z :=
  match l with
  | O => Some (slot p (PX 0 va))
  | S l' =>
      let e := ld64 m (slot p (PX (Z.of_nat l) va)) in
      if flag e PTE_V then slotl l' m (PTE2PA e) va else None
  end.
Definition leaf (m : memory) (pt va : Z) : Z := leafl 2 m pt va.
(** How many page-table pages a walk to [va] has to create. *)
Fixpoint need (l : nat) (m : memory) (p va : Z) : nat :=
  match l with
  | O => 0
  | S l' =>
      let e := ld64 m (slot p (PX (Z.of_nat l) va)) in
      if flag e PTE_V then need l' m (PTE2PA e) va else l
  end.

Lemma flag_0 f : flag 0 f = false.
Proof. done. Qed.

Lemma leafl_slotl l m p va :
  leafl l m p va = match slotl l m p va with Some a => ld64 m a | None => 0 end.
Proof.
  revert p. induction l as [|l IH]; intros p; cbn [leafl slotl]; [done|].
  destruct (flag _ PTE_V); [apply IH|done].
Qed.

Lemma leafl_page l m p va va' : va / PGSIZE = va' / PGSIZE -> leafl l m p va = leafl l m p va'.
Proof.
  intros H. revert p. induction l as [|l IH]; intros p; cbn [leafl];
    rewrite (PX_page _ va va') by (done || lia); [done|].
  destruct (flag _ PTE_V); [apply IH|done].
Qed.

Lemma need_bound l m p va : (need l m p va <= l)%nat.
Proof. revert p. induction l as [|l IH]; intros p; cbn [need]; [done|]. destruct (flag _ PTE_V); [specialize (IH (PTE2PA (ld64 m (slot p (PX (Z.of_nat (S l)) va)))))|]; lia. Qed.
Lemma need_slotl l m p va r : slotl l m p va = Some r -> need l m p va = 0%nat.
Proof.
  revert p. induction l as [|l IH]; intros p; cbn [need slotl]; [done|]. destruct (flag _ PTE_V); [apply IH|done].
Qed.
(** Addresses in the same 2 MB share their page-table pages. *)
Lemma need_region l m p va va' : va / 2 ^ 21 = va' / 2 ^ 21 -> need l m p va = need l m p va'.
Proof.
  intros H. revert p. induction l as [|l IH]; intros p; cbn [need]; [done|].
  assert (PX (Z.of_nat (S l)) va = PX (Z.of_nat (S l)) va') as ->.
  { unfold PX, PXSHIFT, PGSHIFT. rewrite !Z.shiftr_div_pow2 by lia.
    replace (12 + 9 * Z.of_nat (S l)) with (21 + 9 * Z.of_nat l) by lia.
    by rewrite !Z.pow_add_r, <- !Z.div_div, H by lia. }
  destruct (flag _ PTE_V); [apply IH|done].
Qed.

Lemma walk_loop_false l p va s :
  walk_loop l p va false s = Ret (default 0 (slotl l (pm s) p va), s).
Proof.
  revert p. induction l as [|l IH]; intros p; cbn [walk_loop slotl]; [done|].
  unfold kbind, gets, slot. destruct (flag _ PTE_V); [apply IH|done].
Qed.

Section inv.
Context (kend : Z) (kend_pos : 0 < kend).

(** ** The invariant

    [L] gives the level of every page-table page of the system (the roots are
    the pages of level 2): valid entries of an inner page lead one level down,
    and no page is reached from two entries. *)
Record pt_inv (m : memory) (L : gmap Z nat) : Prop := {
  pt_ok : forall p l, L !! p = Some l -> page_ok kend p = true /\ (l <= 2)%nat;
  pt_next : forall p l i, L !! p = Some (S l) -> 0 <= i < 512 ->
    flag (ld64 m (slot p i)) PTE_V = true -> L !! PTE2PA (ld64 m (slot p i)) = Some l;
  pt_inj : forall p l i p' l' i',
    L !! p = Some (S l) -> L !! p' = Some (S l') -> 0 <= i < 512 -> 0 <= i' < 512 ->
    flag (ld64 m (slot p i)) PTE_V = true -> flag (ld64 m (slot p' i')) PTE_V = true ->
    PTE2PA (ld64 m (slot p i)) = PTE2PA (ld64 m (slot p' i')) -> p = p' /\ i = i' }.

(** [D] gives, for every user page, the root and the page number that map it. *)
Record vm_inv (s : pmem) (L : gmap Z nat) (free : list Z) (D : gmap Z (Z * Z)) : Prop := {
  vi_pt : pt_inv (pm s) L;
  vi_free : kmem_ok kend s free;
  vi_LF : forall a, a ∈ free -> L !! a = None;
  vi_D : forall a pt n, D !! a = Some (pt, n) ->
    page_ok kend a = true /\ (a ∉ free) /\ L !! a = None /\
    L !! pt = Some 2%nat /\ 0 <= n < MAXVA / PGSIZE /\
    flag (leaf (pm s) pt (n * PGSIZE)) PTE_V = true /\
    PTE2PA (leaf (pm s) pt (n * PGSIZE)) = a }.

Lemma page_ok_bound p : page_ok kend p = true -> 0 < p < 2 ^ 56 /\ p mod PGSIZE = 0.
Proof. intros H%page_okE; [|done]. unfold PHYSTOP, KERNBASE in *. lia. Qed.

Lemma slot_disjoint p i p' i' :
  p mod PGSIZE = 0 -> p' mod PGSIZE = 0 -> 0 <= i < 512 -> 0 <= i' < 512 ->
  (p, i) <> (p', i') -> slot p i + 8 <= slot p' i' \/ slot p' i' + 8 <= slot p i.
Proof.
  unfold slot, PGSIZE. intros Hp Hp' Hi Hi' Hne.
  destruct (decide (p = p')) as [->|]; [|dlia].
  assert (i <> i') by congruence. lia.
Qed.

Lemma slot_page_disjoint q j pg :
  q mod PGSIZE = 0 -> pg mod PGSIZE = 0 -> q <> pg -> 0 <= j < 512 ->
  slot q j + 8 <= pg \/ pg + PGSIZE <= slot q j.
Proof. unfold slot, PGSIZE. intros. dlia. Qed.

Lemma slot_in_page p i x : 0 <= i < 512 -> slot p i <= x < slot p i + 8 -> p <= x < p + PGSIZE.
Proof. unfold slot, PGSIZE. lia. Qed.

(** Memories that agree on every page-table page denote the same tables. *)
Definition pt_same (L : gmap Z nat) (m m' : memory) : Prop :=
  forall p l i, L !! p = Some l -> 0 <= i < 512 -> ld64 m' (slot p i) = ld64 m (slot p i).

Lemma pt_same_frame L m m' :
  (forall a x, is_Some (L !! a) -> a <= x < a + PGSIZE -> ldb m' x = ldb m x) -> pt_same L m m'.
Proof.
  intros H p l i Hp Hi. apply ld64_ext. intros x Hx.
  apply (H p); [by rewrite Hp|]. by apply (slot_in_page p i).
Qed.

(** The entries above level 0 are the ones a walk depends on. *)
Definition inner_same (L : gmap Z nat) (m m' : memory) : Prop :=
  forall p l i, L !! p = Some (S l) -> 0 <= i < 512 -> ld64 m' (slot p i) = ld64 m (slot p i).

Lemma pt_same_inner L m m' : pt_same L m m' -> inner_same L m m'.
Proof. intros H p l i Hp. by apply (H p (S l)). Qed.

Lemma pt_inv_same L m m' : inner_same L m m' -> pt_inv m L -> pt_inv m' L.
Proof.
  intros Hs [Hok Hnext Hinj]. split; [done| |].
  - intros p l i Hp Hi. rewrite (Hs _ _ _ Hp Hi). by apply Hnext.
  - intros p l i p' l' i' Hp Hp' Hi Hi'.
    rewrite (Hs _ _ _ Hp Hi), (Hs _ _ _ Hp' Hi'). by eapply Hinj.
Qed.

Lemma leafl_same L m m' l p va :
  pt_same L m m' -> pt_inv m L -> L !! p = Some l -> leafl l m' p va = leafl l m p va.
Proof.
  intros Hs Hi. revert p. induction l as [|l IH]; intros p Hp; cbn [leafl];
    rewrite (Hs _ _ _ Hp) by (apply PX_range; lia); [done|].
  destruct (flag _ PTE_V) eqn:E; [|done].
  apply IH. eapply pt_next; eauto using PX_range with lia.
Qed.

Lemma slotl_same L m m' l p va :
  inner_same L m m' -> pt_inv m L -> L !! p = Some l -> slotl l m' p va = slotl l m p va.
Proof.
  intros Hs Hi. revert p. induction l as [|l IH]; intros p Hp; cbn [slotl]; [done|].
  rewrite (Hs _ _ _ Hp) by (apply PX_range; lia).
  destruct (flag _ PTE_V) eqn:E; [|done].
  apply IH. eapply pt_next; eauto. apply PX_range. lia.
Qed.

(** A slot found by a walk lies in a level-0 page. *)
Lemma slotl_page m L l p va a :
  pt_inv m L -> L !! p = Some l -> slotl l m p va = Some a ->
  exists q, L !! q = Some 0%nat /\ a = slot q (PX 0 va).
Proof.
  intros Hi. revert p. induction l as [|l IH]; intros p Hp; cbn [slotl].
  - intros [= <-]. eauto.
  - destruct (flag _ PTE_V) eqn:E; [|done]. apply IH.
    eapply pt_next; eauto. apply PX_range. lia.
Qed.

(** Walks from pages of one level end in one level-0 page only when they start
    at the same page and agree on every index above level 0. *)
Lemma slotl_inj m L l p va q p' va' q' :
  pt_inv m L -> L !! p = Some l -> L !! p' = Some l -> (l <= 2)%nat ->
  slotl l m p va = Some (slot q (PX 0 va)) -> slotl l m p' va' = Some (slot q' (PX 0 va')) ->
  L !! q = Some 0%nat -> L !! q' = Some 0%nat -> q = q' ->
  p = p' /\ forall k, (1 <= k <= l)%nat -> PX (Z.of_nat k) va = PX (Z.of_nat k) va'.
Proof.
  intros Hi. revert p p'. induction l as [|l IH]; intros p p' Hp Hp' Hl; cbn [slotl].
  - unfold slot. intros [= ?] [= ?] _ _ ->. split; [lia|]. intros. lia.
  - destruct (flag _ PTE_V) eqn:E; [|done]. destruct (flag (ld64 m (slot p' _)) _) eqn:E'; [|done].
    intros H H' Hq Hq' Heq.
    assert (0 <= PX (Z.of_nat (S l)) va < 512) as Hr by (apply PX_range; lia).
    assert (0 <= PX (Z.of_nat (S l)) va' < 512) as Hr' by (apply PX_range; lia).
    destruct (IH _ _ (pt_next _ _ Hi _ _ _ Hp Hr E) (pt_next _ _ Hi _ _ _ Hp' Hr' E')
      ltac:(lia) H H' Hq Hq' Heq) as [Hc Hk].
    destruct (pt_inj _ _ Hi _ _ _ _ _ _ Hp Hp' Hr Hr' E E' Hc) as [-> ?].
    split; [done|]. intros k Hk'. destruct (decide (k = S l)) as [->|]; [done|].
    apply Hk. lia.
Qed.

(** Distinct pages of distinct or equal tables have distinct PTE slots. *)
Lemma leaf_slot_inj m L pt va pt' va' a :
  pt_inv m L -> L !! pt = Some 2%nat -> L !! pt' = Some 2%nat ->
  0 <= va < MAXVA -> 0 <= va' < MAXVA ->
  slotl 2 m pt va = Some a -> slotl 2 m pt' va' = Some a ->
  pt = pt' /\ va / PGSIZE = va' / PGSIZE.
Proof.
  intros Hi Hp Hp' Hva Hva' H H'.
  destruct (slotl_page _ _ _ _ _ _ Hi Hp H) as (q & Hq & ->).
  destruct (slotl_page _ _ _ _ _ _ Hi Hp' H') as (q' & Hq' & Heq).
  assert (q = q' /\ PX 0 va = PX 0 va') as [<- H0].
  { destruct (decide ((q, PX 0 va) = (q', PX 0 va'))) as [[= ? ?]|Hne]; [done|].
    apply slot_disjoint in Hne; [lia| | |apply PX_range; lia..];
      eapply page_ok_bound, pt_ok; eauto. }
  rewrite Heq in H'.
  destruct (slotl_inj _ _ 2 _ _ _ _ _ _ Hi Hp Hp' ltac:(lia) H H' Hq Hq eq_refl) as [-> Hk].
  split; [done|]. apply PX_inj; [done..| | |done].
  - by apply (Hk 2%nat ltac:(lia)).
  - by apply (Hk 1%nat ltac:(lia)).
Qed.
End inv.

#[global] Opaque PTE_WUR PTE2PA PA2PTE PTE_FLAGS PX mkpte flag PGROUNDUP PGROUNDDOWN.
