(* ===== verification/VmWalk.v ===== *)
(** * walk: the slots it finds and the page-table pages it creates *)
From S2P Require Import Prelude Machine KString Kalloc Vm VmInv.

Section walk.
Context (kend : Z) (kend_pos : 0 < kend).
Abbreviation pt_inv := (pt_inv kend).
Abbreviation vm_inv := (vm_inv kend).

Lemma pt_page m L p l : pt_inv m L -> L !! p = Some l -> 0 < p < 2 ^ 56 /\ p mod PGSIZE = 0.
Proof. intros Hi Hp. by eapply page_ok_bound, pt_ok. Qed.

(** ** Linking a fresh zeroed page below entry [i] of page [p] *)
Section alloc_child.
Context (m m' : memory) (L : gmap Z nat) (p : Z) (l : nat) (i pg : Z).
Hypothesis Hinv : pt_inv m L.
Hypothesis Hp : L !! p = Some (S l).
Hypothesis Hi : 0 <= i < 512.
Hypothesis He : flag (ld64 m (slot p i)) PTE_V = false.
Hypothesis Hpg : page_ok kend pg = true.
Hypothesis HL : L !! pg = None.
Hypothesis Hm' : m' = st64 (memset (memset m pg 5 PGSIZE) pg 0 PGSIZE) (slot p i) (mkpte pg 0).

Lemma child_slot_new : ld64 m' (slot p i) = mkpte pg 0.
Proof using Hpg Hm' kend_pos.
  subst m'. apply ld64_st64_eq. apply page_ok_bound in Hpg; [|done].
  pose proof (mkpte_range pg 0). lia.
Qed.

Lemma child_slot_old q j l0 :
  L !! q = Some l0 -> 0 <= j < 512 -> (q, j) <> (p, i) -> ld64 m' (slot q j) = ld64 m (slot q j).
Proof using All.
  intros Hq Hj Hne. subst m'.
  destruct (pt_page _ _ _ _ Hinv Hq) as [_ Hqa]. destruct (pt_page _ _ _ _ Hinv Hp) as [_ Hpa].
  apply page_ok_bound in Hpg as [_ Hga]; [|done].
  apply slot_disjoint in Hne as Hd; [|done..].
  assert (q <> pg) by congruence.
  rewrite ld64_st64_ne by lia.
  assert (slot q j + 8 <= pg \/ pg + PGSIZE <= slot q j) by (by apply slot_page_disjoint).
  by rewrite !ld64_memset_out.
Qed.

Lemma child_slot_zero j : 0 <= j < 512 -> ld64 m' (slot pg j) = 0.
Proof using All.
  intros Hj. subst m'. destruct (pt_page _ _ _ _ Hinv Hp) as [_ Hpa].
  apply page_ok_bound in Hpg as [_ Hga]; [|done].
  assert ((p, i) <> (pg, j)) as Hne by congruence.
  apply slot_disjoint in Hne; [|done..].
  rewrite ld64_st64_ne by lia. apply ld64_memset0; unfold slot, PGSIZE; lia.
Qed.

Lemma child_leafl_zero l0 va : leafl l0 m' pg va = 0.
Proof using All.
  destruct l0; cbn [leafl]; rewrite child_slot_zero by (apply PX_range; lia); done.
Qed.

Lemma child_need l0 va : need l0 m' pg va = l0.
Proof using All.
  destruct l0; cbn [need]; [done|]. by rewrite child_slot_zero by (apply PX_range; lia).
Qed.

Lemma child_pte_pa : PTE2PA (mkpte pg 0) = pg.
Proof using Hpg kend_pos. apply page_ok_bound in Hpg as [? ?]; [|done]. apply mkpte_pa; lia. Qed.

Lemma child_leafl q l0 va : L !! q = Some l0 -> leafl l0 m' q va = leafl l0 m q va.
Proof using All.
  revert q. induction l0 as [|l0 IH]; intros q Hq; cbn [leafl].
  - rewrite (child_slot_old _ _ _ Hq); [done|apply PX_range; lia|congruence].
  - assert (0 <= PX (Z.of_nat (S l0)) va < 512) as Hr by (apply PX_range; lia).
    destruct (decide ((q, PX (Z.of_nat (S l0)) va) = (p, i))) as [[= -> ->]|Hne].
    + rewrite child_slot_new, He, child_pte_pa, child_leafl_zero.
      by case_match.
    + rewrite (child_slot_old _ _ _ Hq) by done.
      destruct (flag (ld64 m (slot q _)) PTE_V) eqn:E; [|done].
      apply IH. eapply pt_next; eauto.
Qed.

(** The entries of the extended table, in terms of the old one. *)
Lemma child_entry q l0 j :
  <[pg := l]> L !! q = Some (S l0) -> 0 <= j < 512 -> flag (ld64 m' (slot q j)) PTE_V = true ->
  (q = p /\ j = i /\ l0 = l /\ PTE2PA (ld64 m' (slot q j)) = pg) \/
  (L !! q = Some (S l0) /\ flag (ld64 m (slot q j)) PTE_V = true /\
   PTE2PA (ld64 m' (slot q j)) = PTE2PA (ld64 m (slot q j)) /\
   PTE2PA (ld64 m (slot q j)) <> pg).
Proof using All.
  intros Hq Hj Hv. destruct (decide (q = pg)) as [->|Hne].
  { rewrite child_slot_zero in Hv by done. by rewrite flag_0 in Hv. }
  rewrite lookup_insert_ne in Hq by done.
  destruct (decide ((q, j) = (p, i))) as [[= -> ->]|Hd].
  - left. rewrite child_slot_new, child_pte_pa. split_and!; congruence.
  - right. rewrite (child_slot_old _ _ _ Hq) in * by done. split_and!; [done..|].
    intros Heq. pose proof (pt_next _ _ _ Hinv _ _ _ Hq Hj Hv). congruence.
Qed.

Lemma child_inv : pt_inv m' (<[pg := l]> L).
Proof using All.
  destruct (pt_ok _ _ _ Hinv _ _ Hp) as [_ Hl2]. split.
  - intros q l0. destruct (decide (q = pg)) as [->|Hne].
    + rewrite lookup_insert_eq. intros [= <-]. split; [done|lia].
    + rewrite lookup_insert_ne by done. by apply (pt_ok _ _ _ Hinv).
  - intros q l0 j Hq Hj Hv.
    destruct (child_entry _ _ _ Hq Hj Hv) as [(-> & -> & -> & ->)|(Hq' & Hv' & -> & Hne)].
    + by rewrite lookup_insert_eq.
    + rewrite lookup_insert_ne by done. by eapply pt_next.
  - intros q l0 j q' l0' j' Hq Hq' Hj Hj' Hv Hv' Heq.
    destruct (child_entry _ _ _ Hq Hj Hv) as [(Ep & Ei & _ & E)|(H1 & H2 & E & Hne)],
      (child_entry _ _ _ Hq' Hj' Hv') as [(Ep' & Ei' & _ & E')|(H1' & H2' & E' & Hne')];
      rewrite E, E' in Heq.
    + split; [by rewrite Ep, Ep'|by rewrite Ei, Ei'].
    + destruct Hne'. by symmetry.
    + by destruct Hne.
    + by eapply (pt_inj _ _ _ Hinv).
Qed.
End alloc_child.

(** ** What a walk that may allocate leaves behind

    [grown s L free s' L' free'] relates the states around a call that only
    added page-table pages: they come from the front of the free list, every
    table denotes what it denoted, and no byte outside page tables and the
    pages taken changes. *)
Record grown (s : pmem) (L : gmap Z nat) (free : list Z) (s' : pmem) (L' : gmap Z nat)
  (free' : list Z) : Prop := {
  gr_used : exists used, free = used ++ free' /\ dom L' = dom L ∪ list_to_set used;
  gr_sub : L ⊆ L';
  gr_roots : forall q, L' !! q = Some 2%nat -> L !! q = Some 2%nat;
  gr_leaf : forall q l va, L !! q = Some l -> leafl l (pm s') q va = leafl l (pm s) q va;
  gr_ent : forall q l j, L !! q = Some l -> 0 <= j < 512 ->
    flag (ld64 (pm s) (slot q j)) PTE_V = true ->
    ld64 (pm s') (slot q j) = ld64 (pm s) (slot q j);
  gr_bytes : forall x, (forall a, is_Some (L !! a) \/ a ∈ free -> x < a \/ a + PGSIZE <= x) ->
    ldb (pm s') x = ldb (pm s) x }.

Lemma grown_refl s L free : grown s L free s L free.
Proof. split; [exists []; set_solver|done..]. Qed.

Lemma grown_trans s L free s1 L1 free1 s2 L2 free2 :
  grown s L free s1 L1 free1 -> grown s1 L1 free1 s2 L2 free2 -> grown s L free s2 L2 free2.
Proof.
  intros [(u1 & -> & Hd1) Hs1 Hr1 Hl1 He1 Hb1] [(u2 & -> & Hd2) Hs2 Hr2 Hl2 He2 Hb2]. split.
  - exists (u1 ++ u2). rewrite app_assoc. split; [done|].
    by rewrite Hd2, Hd1, list_to_set_app_L, union_assoc_L.
  - by trans L1.
  - auto.
  - intros q l va Hq. rewrite Hl2 by (by eapply lookup_weaken). by apply Hl1.
  - intros q l j Hq Hj Hv. rewrite (He2 q l); [by eapply He1|by eapply lookup_weaken|done|].
    by rewrite (He1 q l).
  - intros x Hx. rewrite Hb2, Hb1; [done|done|]. intros a [Ha|Ha].
    + apply Hx. apply elem_of_dom in Ha. rewrite Hd1 in Ha.
      apply elem_of_union in Ha as [Ha|Ha]; [left; by apply elem_of_dom|right].
      apply elem_of_list_to_set in Ha. set_solver.
    + apply Hx. right. set_solver.
Qed.

Lemma vm_inv_pt_step s L free D m' fl' L' free' :
  vm_inv s L free D -> pt_inv m' L' -> kmem_ok kend (mkPmem m' fl') free' ->
  (forall a, a ∈ free' -> a ∈ free) -> L ⊆ L' ->
  (forall a, is_Some (L' !! a) -> is_Some (L !! a) \/ (a ∈ free /\ (a ∉ free'))) ->
  (forall q va, L !! q = Some 2%nat -> leaf m' q va = leaf (pm s) q va) ->
  vm_inv (mkPmem m' fl') L' free' D.
Proof.
  intros [Hpt Hfr HLF HD] Hpt' Hfr' Hsub HL HL' Hleaf. split; [done..| |].
  - intros a Ha. apply eq_None_not_Some. intros H. destruct (HL' _ H) as [[l Hl]|[_ ?]]; [|done].
    rewrite HLF in Hl by auto. done.
  - intros a pt n Ha. destruct (HD _ _ _ Ha) as (Hok & Hnf & HLa & Hroot & Hn & Hv & Hpa).
    rewrite Hleaf by done. split_and!; auto; try lia.
    + apply eq_None_not_Some. intros H. destruct (HL' _ H) as [[l Hl]|[? _]]; [congruence|done].
    + by eapply lookup_weaken.
Qed.

Lemma kmem_ok_head s a l : kmem_ok kend s (a :: l) -> page_ok kend a = true /\ (a ∉ l) /\ freelist s = a.
Proof.
  intros ((-> & _) & [? ?]%NoDup_cons & [? ?]%Forall_cons). done.
Qed.

(** One allocating step of the walk. *)
Lemma alloc_step s L pg free D p l i s1 :
  vm_inv s L (pg :: free) D -> L !! p = Some (S l) -> 0 <= i < 512 ->
  flag (ld64 (pm s) (slot p i)) PTE_V = false ->
  kalloc s = Ret (pg, s1) ->
  let s' := mkPmem (st64 (memset (pm s1) pg 0 PGSIZE) (slot p i) (mkpte pg 0)) (freelist s1) in
  vm_inv s' (<[pg := l]> L) free D /\
  grown s L (pg :: free) s' (<[pg := l]> L) free /\
  ld64 (pm s') (slot p i) = mkpte pg 0 /\ PTE2PA (mkpte pg 0) = pg /\
  flag (mkpte pg 0) PTE_V = true /\ forall va, need l (pm s') pg va = l.
Proof.
  intros Hinv Hp Hi He Hk s'. pose proof (vi_free _ _ _ _ _ Hinv) as Hfr.
  destruct (kalloc_cons _ kend_pos _ _ _ Hfr) as (s1' & Hk' & Hfr1 & Hpm).
  rewrite Hk in Hk'. injection Hk' as <-.
  destruct (kmem_ok_head _ _ _ Hfr) as (Hpg & Hni & _).
  assert (L !! pg = None) as HL by (apply (vi_LF _ _ _ _ _ Hinv); inlist).
  pose proof (vi_pt _ _ _ _ _ Hinv) as Hpt.
  assert (pm s' = st64 (memset (memset (pm s) pg 5 PGSIZE) pg 0 PGSIZE) (slot p i) (mkpte pg 0))
    as Hm' by (unfold s'; cbn [pm]; rewrite Hpm; reflexivity).
  pose proof (child_leafl _ _ _ _ _ _ _ Hpt Hp Hi He Hpg HL Hm') as Hleaf.
  assert (forall x, (forall a, is_Some (L !! a) \/ a ∈ pg :: free -> x < a \/ a + PGSIZE <= x) ->
    ldb (pm s') x = ldb (pm s) x) as Hbytes.
  { intros x Hx. rewrite Hm'. specialize (Hx p ltac:(left; by rewrite Hp)) as Hxp.
    specialize (Hx pg ltac:(right; inlist)).
    rewrite ldb_st64_out by (unfold slot, PGSIZE in *; lia). by rewrite !memset_out. }
  apply page_ok_bound in Hpg as Hpgb; [|done].
  split_and!.
  - apply (vm_inv_pt_step s L (pg :: free)); [done| | |intros; inlist|by apply insert_subseteq| |].
    + by eapply child_inv.
    + apply (kmem_ok_frame _ kend_pos (pm s1)); [|by destruct s1].
      intros a x Ha Hx. fold (pm s'). rewrite ldb_st64_out, memset_out; [done| |].
      * destruct Hfr1 as (_ & _ & HF). rewrite Forall_forall in HF.
        specialize (HF _ Ha). apply page_ok_bound in HF; [|done].
        apply (pages_disjoint a pg); [lia|lia|by intros ->|done].
      * assert (L !! a = None) by (apply (vi_LF _ _ _ _ _ Hinv); inlist).
        destruct Hfr1 as (_ & _ & HF). rewrite Forall_forall in HF.
        specialize (HF _ Ha). apply page_ok_bound in HF; [|done].
        destruct (pt_page _ _ _ _ Hpt Hp) as [_ Hpa].
        assert (x < p \/ p + PGSIZE <= x) by (apply (pages_disjoint a p); [lia|done|congruence|done]).
        unfold slot, PGSIZE in *. lia.
    + intros a. destruct (decide (a = pg)) as [->|].
      * intros _. right. split; [inlist|done].
      * rewrite lookup_insert_ne by done. by left.
    + intros q va Hq. by apply Hleaf.
  - split; [exists [pg]; rewrite dom_insert_L; cbn; by rewrite union_empty_r_L, union_comm_L|by apply insert_subseteq| |done| |done].
    { intros q. rewrite lookup_insert. case_decide; [|done]. intros [= ->].
      apply Hpt in Hp. lia. }
    intros q l0 j Hq Hj Hv.
    apply (child_slot_old _ _ _ _ _ _ _ Hpt Hp Hi He Hpg HL Hm' _ _ _ Hq Hj).
    intros [= -> ->]. by rewrite He in Hv.
  - by eapply child_slot_new.
  - by apply child_pte_pa.
  - apply mkpte_valid; lia.
  - intros va. by eapply child_need.
Qed.

Lemma walk_loop_true l p va s L free D :
  vm_inv s L free D -> L !! p = Some l ->
  exists r s' L' free',
    walk_loop l p va true s = Ret (r, s') /\ vm_inv s' L' free' D /\
    grown s L free s' L' free' /\
    ((r = 0 /\ free' = [] /\ (length free < need l (pm s) p va)%nat) \/
     (r <> 0 /\ slotl l (pm s') p va = Some r /\ length free = (need l (pm s) p va + length free')%nat)).
Proof.
  revert p s L free. induction l as [|l IH]; intros p s L free Hinv Hp.
  - exists (p + 8 * PX 0 va), s, L, free. split_and!; [done..|apply grown_refl|].
    right. split; [|done]. pose proof (PX_range 0 va). destruct (pt_page _ _ _ _ (vi_pt _ _ _ _ _ Hinv) Hp).
    lia.
  - assert (0 <= PX (Z.of_nat (S l)) va < 512) as Hr by (apply PX_range; lia).
    cbn [walk_loop]. unfold kbind at 1, gets at 1. fold (slot p (PX (Z.of_nat (S l)) va)).
    destruct (flag _ PTE_V) eqn:E.
    + destruct (IH _ s L free Hinv (pt_next _ _ _ (vi_pt _ _ _ _ _ Hinv) _ _ _ Hp Hr E))
        as (r & s' & L' & free' & -> & Hinv' & Hg & Hres).
      exists r, s', L', free'. split_and!; [done..|]. cbn [slotl need]. rewrite E.
      rewrite (gr_ent _ _ _ _ _ _ Hg _ _ _ Hp Hr E), E. done.
    + cbn [negb]. destruct free as [|pg free].
      { exists 0, s, L, []. split_and!; [|done|apply grown_refl|left; cbn [need]; rewrite E; cbn; split_and!; (done || lia)].
        by rewrite (kbind_ret _ _ _ _ _ (kalloc_nil _ _ (vi_free _ _ _ _ _ Hinv))). }
      destruct (kalloc_cons _ kend_pos _ _ _ (vi_free _ _ _ _ _ Hinv)) as (s1 & Hk & _ & _).
      destruct (alloc_step _ _ _ _ _ _ _ _ _ Hinv Hp Hr E Hk) as (Hinv1 & Hg1 & He1 & Hpa & Hv & Hn).
      destruct (IH pg _ _ _ Hinv1 (lookup_insert_eq _ _ _))
        as (r & s' & L' & free' & Hrun & Hinv' & Hg & Hres).
      exists r, s', L', free'. split_and!; [|done|by eapply grown_trans|].
      * rewrite (kbind_ret _ _ _ _ _ Hk).
        destruct (kmem_ok_head _ _ _ (vi_free _ _ _ _ _ Hinv)) as (Hok & _).
        apply page_ok_bound in Hok; [|done].
        replace (pg =? 0) with false by lia. rewrite mkpte_0. exact Hrun.
      * rewrite Hn in Hres. cbn [slotl need length]. rewrite E.
        destruct Hres as [(? & ? & ?)|(? & Hs & ?)]; [left; split_and!; (done || lia)|right]. split; [done|]. split; [|lia].
        rewrite (gr_ent _ _ _ _ _ _ Hg p (S l)), He1, Hv, Hpa; [done| |done|by rewrite He1].
        rewrite lookup_insert_ne; [done|]. intros ->.
        rewrite (vi_LF _ _ _ _ _ Hinv) in Hp; [done|inlist].
Qed.
End walk.

(** ** mappages and uvmunmap: how they change the translation *)

Section map.
Context (kend : Z) (kend_pos : 0 < kend).
Abbreviation pt_inv := (pt_inv kend).
Abbreviation vm_inv := (vm_inv kend).

(** ** Storing a PTE through a slot a walk returned *)
Section leaf_store.
Context (m : memory) (L : gmap Z nat) (pt va a v : Z).
Hypothesis Hinv : pt_inv m L.
Hypothesis Hpt : L !! pt = Some 2%nat.
Hypothesis Hva : 0 <= va < MAXVA.
Hypothesis Ha : slotl 2 m pt va = Some a.
Hypothesis Hv : 0 <= v < 2 ^ 64.

Lemma leaf_store_inner : inner_same L m (st64 m a v).
Proof using All.
  intros q l i Hq Hi. destruct (slotl_page _ _ _ _ _ _ _ Hinv Hpt Ha) as (q0 & Hq0 & ->).
  apply ld64_st64_ne. apply slot_disjoint; [|eapply pt_page; eauto..|done|apply PX_range; lia|].
  - eapply pt_page; eauto.
  - intros [= -> _]. by rewrite Hq in Hq0.
Qed.

Lemma leaf_store_inv : pt_inv (st64 m a v) L.
Proof using All. apply (pt_inv_same _ _ m); [apply leaf_store_inner|done]. Qed.

Lemma leaf_store_slot l q va' : L !! q = Some l -> slotl l (st64 m a v) q va' = slotl l m q va'.
Proof using All. intros. eapply slotl_same; eauto using leaf_store_inner. Qed.

Lemma leaf_store_eq : leaf (st64 m a v) pt va = v.
Proof using All.
  unfold leaf. rewrite leafl_slotl, leaf_store_slot, Ha by done. by apply ld64_st64_eq.
Qed.

Lemma leaf_store_ne pt' va' :
  L !! pt' = Some 2%nat -> 0 <= va' < MAXVA -> ~ (pt' = pt /\ va' / PGSIZE = va / PGSIZE) ->
  leaf (st64 m a v) pt' va' = leaf m pt' va'.
Proof using All.
  intros Hpt' Hva' Hne. unfold leaf. rewrite !leafl_slotl, leaf_store_slot by done.
  destruct (slotl 2 m pt' va') as [a'|] eqn:Ha'; [|done].
  destruct (slotl_page _ _ _ _ _ _ _ Hinv Hpt Ha) as (q & Hq & Eq).
  destruct (slotl_page _ _ _ _ _ _ _ Hinv Hpt' Ha') as (q' & Hq' & Eq').
  destruct (decide (a' = a)) as [->|Hna].
  { destruct Hne. by eapply leaf_slot_inj. }
  rewrite Eq, Eq' in *. apply ld64_st64_ne. apply slot_disjoint.
  - eapply pt_page; eauto.
  - eapply pt_page; eauto.
  - apply PX_range. lia.
  - apply PX_range. lia.
  - intros [= -> E]. by rewrite E in Hna.
Qed.
End leaf_store.

(** The invariant after a PTE store: the pages of [D'] are old user pages at
    other addresses, or the page the new PTE maps. *)
Lemma vm_inv_leaf_store s L free D D' pt va r v :
  vm_inv s L free D -> L !! pt = Some 2%nat -> 0 <= va < MAXVA ->
  slotl 2 (pm s) pt va = Some r -> 0 <= v < 2 ^ 64 ->
  (forall b pt' n, D' !! b = Some (pt', n) ->
     (D !! b = Some (pt', n) /\ ~ (pt' = pt /\ n = va / PGSIZE)) \/
     (pt' = pt /\ n = va / PGSIZE /\ page_ok kend b = true /\ (b ∉ free) /\ L !! b = None /\
      flag v PTE_V = true /\ PTE2PA v = b)) ->
  vm_inv (mkPmem (st64 (pm s) r v) (freelist s)) L free D'.
Proof.
  intros [Hp Hf HLF HD] Hpt Hva Hr Hv HD'. split; cbn [pm].
  - by eapply leaf_store_inv.
  - apply (kmem_ok_frame _ kend_pos (pm s)); [|by destruct s].
    intros b x Hb Hx. symmetry. apply ldb_st64_out.
    destruct (slotl_page _ _ _ _ _ _ _ Hp Hpt Hr) as (q & Hq & ->).
    destruct (pt_page _ kend_pos _ _ _ _ Hp Hq) as [_ Hqa].
    destruct Hf as (_ & _ & HF). rewrite Forall_forall in HF.
    specialize (HF _ Hb). apply page_ok_bound in HF; [|done].
    assert (q <> b) by (intros ->; rewrite HLF in Hq; done).
    destruct (slot_page_disjoint q (PX 0 va) b); [done|lia|done|apply PX_range; lia|lia|lia].
  - done.
  - intros b pt' n Hb. destruct (HD' _ _ _ Hb) as [[Hold Hne]|(-> & -> & Hok & Hnf & HL & Hfl & Hpa)].
    + destruct (HD _ _ _ Hold) as (? & ? & ? & Hroot & Hn & Hfl & Hpa).
      assert (0 <= n * PGSIZE < MAXVA /\ n * PGSIZE / PGSIZE = n) as [Hn1 Hn2].
      { unfold PGSIZE in *. change MAXVA with (2 ^ 38) in *. dlia. }
      rewrite (leaf_store_ne _ L pt va r) by (rewrite ?Hn2; done). done.
    + assert (leaf (st64 (pm s) r v) pt (va / PGSIZE * PGSIZE) = v) as ->.
      { unfold leaf. rewrite (leafl_page _ _ _ _ va) by (unfold PGSIZE; dlia).
        by apply (leaf_store_eq _ L). }
      split_and!; try done; unfold PGSIZE; change MAXVA with (2 ^ 38) in *; dlia.
Qed.

Record extends (s : pmem) (L : gmap Z nat) (free : list Z) (s' : pmem) (L' : gmap Z nat)
  (free' : list Z) : Prop := {
  ex_used : exists used, free = used ++ free' /\ dom L' = dom L ∪ list_to_set used;
  ex_sub : L ⊆ L';
  ex_roots : forall q, L' !! q = Some 2%nat -> L !! q = Some 2%nat;
  ex_bytes : forall x, (forall a, is_Some (L !! a) \/ a ∈ free -> x < a \/ a + PGSIZE <= x) ->
    ldb (pm s') x = ldb (pm s) x }.

Lemma extends_refl s L free : extends s L free s L free.
Proof. split; [exists []; set_solver|done..]. Qed.

Lemma grown_extends s L free s' L' free' :
  grown s L free s' L' free' -> extends s L free s' L' free'.
Proof. by intros [? ? ? _ _ ?]. Qed.

Lemma extends_trans s L free s1 L1 free1 s2 L2 free2 :
  extends s L free s1 L1 free1 -> extends s1 L1 free1 s2 L2 free2 ->
  extends s L free s2 L2 free2.
Proof.
  intros [(u1 & -> & Hd1) Hs1 Hr1 Hb1] [(u2 & -> & Hd2) Hs2 Hr2 Hb2]. split.
  - exists (u1 ++ u2). rewrite app_assoc. split; [done|].
    by rewrite Hd2, Hd1, list_to_set_app_L, union_assoc_L.
  - by trans L1.
  - auto.
  - intros x Hx. rewrite Hb2, Hb1; [done|done|]. intros a [Ha|Ha].
    + apply Hx. apply elem_of_dom in Ha. rewrite Hd1 in Ha.
      apply elem_of_union in Ha as [Ha|Ha]; [left; by apply elem_of_dom|right].
      apply elem_of_list_to_set in Ha. inlist.
    + apply Hx. right. inlist.
Qed.

Lemma extends_store s L free pt va r v :
  pt_inv (pm s) L -> L !! pt = Some 2%nat -> slotl 2 (pm s) pt va = Some r ->
  extends s L free (mkPmem (st64 (pm s) r v) (freelist s)) L free.
Proof.
  intros Hi Hpt Hr. split; [exists []; set_solver|done|done|].
  intros x Hx. cbn [pm]. apply ldb_st64_out.
  destruct (slotl_page _ _ _ _ _ _ _ Hi Hpt Hr) as (q & Hq & ->).
  specialize (Hx q ltac:(left; by rewrite Hq)). pose proof (PX_range 0 va).
  unfold slot, PGSIZE in *. lia.
Qed.

Lemma walk_true pt va s L free D :
  vm_inv s L free D -> L !! pt = Some 2%nat -> 0 <= va < MAXVA ->
  exists r s' L' free',
    walk pt va true s = Ret (r, s') /\ vm_inv s' L' free' D /\
    grown s L free s' L' free' /\
    ((r = 0 /\ free' = [] /\ (length free < need 2 (pm s) pt va)%nat) \/
     (r <> 0 /\ slotl 2 (pm s') pt va = Some r /\ length free = (need 2 (pm s) pt va + length free')%nat)).
Proof.
  intros Hinv Hpt Hva. unfold walk. replace (MAXVA <=? va) with false by lia.
  by apply walk_loop_true.
Qed.

Lemma walk_false pt va s :
  0 <= va < MAXVA -> walk pt va false s = Ret (default 0 (slotl 2 (pm s) pt va), s).
Proof.
  intros Hva. unfold walk. replace (MAXVA <=? va) with false by lia. apply walk_loop_false.
Qed.

Lemma leaf_of_slot m pt va r : slotl 2 m pt va = Some r -> ld64 m r = leaf m pt va.
Proof. intros H. unfold leaf. by rewrite leafl_slotl, H. Qed.

(** ** One page: the walk, the test of the PTE and the store *)
Lemma map_one s L free D pt a pa perm :
  vm_inv s L free D -> L !! pt = Some 2%nat -> 0 <= a < MAXVA ->
  0 <= pa < 2 ^ 56 -> 0 <= perm < 1024 ->
  flag (leaf (pm s) pt a) PTE_V = false ->
  (exists s1 L1, walk pt a true s = Ret (0, s1) /\ vm_inv s1 L1 [] D /\
     grown s L free s1 L1 [] /\ (length free < need 2 (pm s) pt a)%nat) \/
  (exists r s1 L1 free1, walk pt a true s = Ret (r, s1) /\ r <> 0 /\
     length free = (need 2 (pm s) pt a + length free1)%nat /\
     flag (ld64 (pm s1) r) PTE_V = false /\
     let s2 := mkPmem (st64 (pm s1) r (mkpte pa perm)) (freelist s1) in
     vm_inv s2 L1 free1 D /\ extends s L free s2 L1 free1 /\
     slotl 2 (pm s2) pt a = Some r /\
     leaf (pm s2) pt a = mkpte pa perm /\
     (forall pt' va', L !! pt' = Some 2%nat -> 0 <= va' < MAXVA ->
        ~ (pt' = pt /\ va' / PGSIZE = a / PGSIZE) -> leaf (pm s2) pt' va' = leaf (pm s) pt' va')).
Proof.
  intros Hinv Hpt Ha Hpa Hperm Hfl.
  destruct (walk_true pt a s L free D Hinv Hpt Ha)
    as (r & s1 & L1 & free1 & Hw & Hinv1 & Hg & [(-> & -> & ?)|(Hr & Hs & Hn)]); [left; eauto 10|right].
  assert (L1 !! pt = Some 2%nat) as Hpt1 by (eapply lookup_weaken; [done|apply Hg]).
  pose proof (vi_pt _ _ _ _ _ Hinv1) as Hpi1.
  assert (flag (leaf (pm s1) pt a) PTE_V = false) as Hfl1.
  { unfold leaf. by rewrite (gr_leaf _ _ _ _ _ _ Hg). }
  assert (0 <= mkpte pa perm < 2 ^ 64) as Hv by (pose proof (mkpte_range pa perm); lia).
  exists r, s1, L1, free1. split; [done|]. split; [done|]. split; [done|].
  split; [by rewrite (leaf_of_slot _ _ _ _ Hs)|]. cbn zeta. split_and!.
  - eapply vm_inv_leaf_store; eauto. intros b pt' n Hb. left. split; [done|].
    intros [-> ->]. destruct (vi_D _ _ _ _ _ Hinv1 _ _ _ Hb) as (_ & _ & _ & _ & _ & Hc & _).
    unfold leaf in Hc, Hfl1. rewrite (leafl_page _ _ _ _ a) in Hc by (unfold PGSIZE; dlia).
    by rewrite Hfl1 in Hc.
  - eapply extends_trans; [by apply grown_extends|by eapply extends_store].
  - cbn [pm]. rewrite <- Hs. by apply (leaf_store_slot (pm s1) L1 pt a).
  - by apply (leaf_store_eq (pm s1) L1).
  - intros pt' va' Hpt' Hva' Hne. cbn [pm].
    assert (L1 !! pt' = Some 2%nat) by (eapply lookup_weaken; [done|apply Hg]).
    rewrite (leaf_store_ne (pm s1) L1 pt a) by done.
    unfold leaf. by rewrite (gr_leaf _ _ _ _ _ _ Hg).
Qed.

(** The page-table pages that mapping [n + 1] pages from [a] takes at most: what the
    first page needs, and two for every 2 MB boundary. *)
Definition pages_for (s : pmem) (pt a : Z) (n : nat) : nat :=
  need 2 (pm s) pt a + 2 * Z.to_nat ((a + Z.of_nat n * PGSIZE) / 2 ^ 21 - a / 2 ^ 21).
Lemma pages_for_next s s' pt a n r : 0 <= a -> slotl 2 (pm s') pt a = Some r ->
  (need 2 (pm s) pt a + pages_for s' pt (a + PGSIZE) n <= pages_for s pt a (S n))%nat.
Proof.
  intros Ha Hs. unfold pages_for. apply need_slotl in Hs. pose proof (need_bound 2 (pm s') pt (a + PGSIZE)).
  replace (a + Z.of_nat (S n) * PGSIZE) with (a + PGSIZE + Z.of_nat n * PGSIZE) by lia.
  assert ((a + PGSIZE) / 2 ^ 21 <= (a + PGSIZE + Z.of_nat n * PGSIZE) / 2 ^ 21) by (apply Z.div_le_mono; unfold PGSIZE; lia).
  destruct (decide (a / 2 ^ 21 = (a + PGSIZE) / 2 ^ 21)) as [E|E].
  - rewrite (need_region 2 _ _ (a + PGSIZE) a), Hs by done. rewrite E. lia.
  - assert (a / 2 ^ 21 <= (a + PGSIZE) / 2 ^ 21) by (apply Z.div_le_mono; unfold PGSIZE; lia). lia.
Qed.

Lemma mappages_loop_ok n pt a pa perm s L free D last :
  vm_inv s L free D -> L !! pt = Some 2%nat ->
  0 <= a -> a mod PGSIZE = 0 -> a + (Z.of_nat n + 1) * PGSIZE <= MAXVA ->
  0 <= pa -> pa + (Z.of_nat n + 1) * PGSIZE <= 2 ^ 56 -> 0 <= perm < 1024 ->
  last = a + Z.of_nat n * PGSIZE ->
  (forall k, 0 <= k <= Z.of_nat n -> flag (leaf (pm s) pt (a + k * PGSIZE)) PTE_V = false) ->
  exists r s' L' free' k,
    mappages_loop (S n) pt a last pa perm s = Ret (r, s') /\ vm_inv s' L' free' D /\
    extends s L free s' L' free' /\
    ((r = 0 /\ k = Z.of_nat n + 1 /\ (length free <= pages_for s pt a n + length free')%nat) \/
     (r = -1 /\ 0 <= k <= Z.of_nat n /\ free' = [] /\ (length free < pages_for s pt a n)%nat)) /\
    (forall j, 0 <= j < k -> leaf (pm s') pt (a + j * PGSIZE) = mkpte (pa + j * PGSIZE) perm) /\
    (forall pt' va', L !! pt' = Some 2%nat -> 0 <= va' < MAXVA ->
       ~ (pt' = pt /\ a <= va' < a + k * PGSIZE) -> leaf (pm s') pt' va' = leaf (pm s) pt' va').
Proof.
  revert a pa s L free. induction n as [|n IH];
    intros a pa s L free Hinv Hpt Ha Hal Hmax Hpa Hpa' Hperm Hlast Hfree.
  all: assert (0 <= a < MAXVA) as Hva by (unfold PGSIZE in *; lia).
  all: assert (0 <= pa < 2 ^ 56) as Hpab by (unfold PGSIZE in *; lia).
  all: specialize (Hfree 0 ltac:(lia)) as Hf0; rewrite Z.mul_0_l, Z.add_0_r in Hf0.
  all: cbn [mappages_loop].
  all: destruct (map_one s L free D pt a pa perm Hinv Hpt Hva Hpab Hperm Hf0)
    as [(s1 & L1 & Hw & Hinv1 & Hg & Hnd)|(r & s1 & L1 & free1 & Hw & Hr & Hnd & Hfl & Hinv2 & Hex & Hsl & Hle & Hln)].
  1, 3: exists (-1), s1, L1, [], 0; rewrite (kbind_ret _ _ _ _ _ Hw);
    split_and!; [done|done|by apply grown_extends|right; unfold pages_for; split_and!; (done || lia)|intros; lia|];
    intros; unfold leaf; by rewrite (gr_leaf _ _ _ _ _ _ Hg).
  all: set (s2 := mkPmem _ _) in *.
  all: rewrite (kbind_ret _ _ _ _ _ Hw); replace (r =? 0) with false by lia.
  all: unfold ldpte; replace (r =? 0) with false by lia.
  all: unfold kbind at 1, gets at 1; rewrite Hfl.
  all: change (Z.lor (Z.lor (PA2PTE pa) perm) PTE_V) with (mkpte pa perm).
  all: unfold kbind at 1, stpte at 1, set_pm at 1, modify at 1; fold s2.
  - replace (a =? last) with true by lia.
    exists 0, s2, L1, free1, 1. split_and!; [done..|left; unfold pages_for; lia| |].
    + intros j Hj. replace j with 0 by lia. by rewrite !Z.mul_0_l, !Z.add_0_r.
    + intros pt' va' Hpt' Hva' Hne. apply Hln; [done..|]. intros [-> E]. apply Hne.
      split; [done|]. unfold PGSIZE in *. dlia.
  - replace (a =? last) with false by (unfold PGSIZE in *; lia).
    assert (L1 !! pt = Some 2%nat) as Hpt1 by (eapply lookup_weaken; [done|apply Hex]).
    assert (forall k, 0 <= k -> (a + PGSIZE + k * PGSIZE) / PGSIZE <> a / PGSIZE) as Hpg.
    { intros. unfold PGSIZE in *. dlia. }
    rewrite (u64_small (a + PGSIZE)), (u64_small (pa + PGSIZE)) by
      (unfold PGSIZE in *; change MAXVA with (2 ^ 38) in *; lia).
    destruct (IH (a + PGSIZE) (pa + PGSIZE) s2 L1 free1)
      as (r' & s3 & L3 & free3 & k & Hrun & Hinv3 & Hex3 & Hres & Hin & Hout);
      [done|done|unfold PGSIZE in *; lia|unfold PGSIZE in *; dlia|unfold PGSIZE in *; lia..|done|
       unfold PGSIZE in *; lia| |].
    { intros k Hk. rewrite Hln; [|done|unfold PGSIZE in *; lia|].
      - replace (a + PGSIZE + k * PGSIZE) with (a + (k + 1) * PGSIZE) by lia. apply Hfree. lia.
      - intros [_ E]. by apply (Hpg k); [lia|]. }
    exists r', s3, L3, free3, (k + 1). split_and!; [done|done|by eapply extends_trans| | |].
    + pose proof (pages_for_next s s2 pt a n r Ha Hsl).
      destruct Hres as [(? & ? & ?)|(? & ? & ? & ?)]; [left; split_and!; lia|right; split_and!; (done || lia)].
    + intros j Hj. destruct (decide (j = 0)) as [->|].
      * rewrite Z.mul_0_l, !Z.add_0_r. rewrite Hout; [done|done|done|]. unfold PGSIZE. lia.
      * replace (a + j * PGSIZE) with (a + PGSIZE + (j - 1) * PGSIZE) by lia.
        replace (pa + j * PGSIZE) with (pa + PGSIZE + (j - 1) * PGSIZE) by lia. apply Hin. lia.
    + intros pt' va' Hpt' Hva' Hne. rewrite Hout; [|by eapply lookup_weaken; [|apply Hex]|done|].
      * apply Hln; [done..|]. intros [-> E]. apply Hne. split; [done|]. unfold PGSIZE in *. dlia.
      * intros [-> E]. apply Hne. split; [done|]. unfold PGSIZE in *. lia.
Qed.
End map.
