(* ===== verification/VmUser.v ===== *)
(** * User memory: what a process sees through its page table, page faults,
    and the copies between kernel and user space *)
From S2P Require Import Prelude Machine KString Kalloc Vm VmInv VmWalk.

(** The byte a process reads at [va] in user mode: lazily allocated pages,
    which have no PTE yet, read as zero. *)
Definition uread (m : memory) (pt va : Z) : Z :=
  let e := leaf m pt va in
  if flag e PTE_V && flag e PTE_U then ldb m (PTE2PA e + va mod PGSIZE) else 0.

(** Every page a process can reach is a user page that nothing else maps. *)
Definition user_owned (m : memory) (L : gmap Z nat) (D : gmap Z (Z * Z)) : Prop :=
  forall pt va, L !! pt = Some 2%nat -> 0 <= va < MAXVA ->
    flag (leaf m pt va) PTE_V = true -> flag (leaf m pt va) PTE_U = true ->
    D !! PTE2PA (leaf m pt va) = Some (pt, va / PGSIZE).

Section user.
Context (kend : Z) (kend_pos : 0 < kend).
Abbreviation pt_inv := (pt_inv kend).
Abbreviation vm_inv := (vm_inv kend).

Lemma slot_nonzero m L pt va a :
  pt_inv m L -> L !! pt = Some 2%nat -> slotl 2 m pt va = Some a -> a <> 0.
Proof.
  intros Hi Hpt Ha. destruct (slotl_page _ _ _ _ _ _ _ Hi Hpt Ha) as (q & Hq & ->).
  destruct (pt_page _ kend_pos _ _ _ _ Hi Hq). pose proof (PX_range 0 va). unfold slot. lia.
Qed.

Lemma ismapped_eq s L pt va :
  pt_inv (pm s) L -> L !! pt = Some 2%nat -> 0 <= va < MAXVA ->
  ismapped pt va s = Ret (flag (leaf (pm s) pt va) PTE_V, s).
Proof.
  intros Hi Hpt Hva. unfold ismapped. rewrite (kbind_ret _ _ _ _ _ (walk_false pt va s Hva)).
  unfold leaf. rewrite leafl_slotl. destruct (slotl 2 (pm s) pt va) as [a|] eqn:Ha; [|done].
  pose proof (slot_nonzero _ _ _ _ _ Hi Hpt Ha). cbn [default]. unfold id.
  unfold ldpte. by replace (a =? 0) with false by lia.
Qed.

Lemma walkaddr_eq s L pt va :
  pt_inv (pm s) L -> L !! pt = Some 2%nat -> 0 <= va < MAXVA ->
  walkaddr pt va s =
  Ret (if flag (leaf (pm s) pt va) PTE_V && flag (leaf (pm s) pt va) PTE_U
       then PTE2PA (leaf (pm s) pt va) else 0, s).
Proof.
  intros Hi Hpt Hva. unfold walkaddr. replace (MAXVA <=? va) with false by lia.
  rewrite (kbind_ret _ _ _ _ _ (walk_false pt va s Hva)).
  unfold leaf. rewrite leafl_slotl. destruct (slotl 2 (pm s) pt va) as [a|] eqn:Ha; [|done].
  pose proof (slot_nonzero _ _ _ _ _ Hi Hpt Ha). cbn [default]. unfold id.
  unfold ldpte. replace (a =? 0) with false by lia.
  unfold kbind, gets. destruct (flag (ld64 _ _) PTE_V); [|done].
  by destruct (flag (ld64 _ _) PTE_U).
Qed.

Lemma set_pm_eq f s : set_pm f s = Ret (tt, mkPmem (f (pm s)) (freelist s)).
Proof. done. Qed.

(** Taking a page off the free list leaves it in nobody's hands. *)
Lemma kalloc_vm s L pg free D :
  vm_inv s L (pg :: free) D ->
  exists s', kalloc s = Ret (pg, s') /\ vm_inv s' L free D /\
    pm s' = memset (pm s) pg 5 PGSIZE /\
    page_ok kend pg = true /\ (pg ∉ free) /\ L !! pg = None /\ D !! pg = None.
Proof.
  intros Hinv. destruct Hinv as [Hpt Hf HLF HD].
  destruct (kalloc_cons _ kend_pos _ _ _ Hf) as (s' & Hk & Hf' & Hm).
  destruct (kmem_ok_head _ _ _ _ Hf) as (Hok & Hni & _).
  assert (L !! pg = None) as HLpg by (apply HLF; inlist).
  apply page_ok_bound in Hok as Hb; [|done].
  assert (pt_same L (pm s) (pm s')) as Hsame.
  { apply pt_same_frame. intros a x [l Ha] Hx. rewrite Hm. apply memset_out.
    destruct (pt_page _ kend_pos _ _ _ _ Hpt Ha).
    apply (pages_disjoint a pg); [done|lia|congruence|done]. }
  exists s'. split_and!; [done| |done..|].
  - split; [|done| |].
    + eapply pt_inv_same; [by apply pt_same_inner|done].
    + intros. apply HLF. inlist.
    + intros a pt n Ha. destruct (HD _ _ _ Ha) as (? & ? & ? & Hroot & ? & ? & ?).
      unfold leaf. rewrite (leafl_same _ _ _ _ _ _ _ Hsame Hpt Hroot).
      split_and!; try done; [|lia|lia]. intros ?. inlist.
  - destruct (D !! pg) as [[pt n]|] eqn:E; [|done].
    destruct (HD _ _ _ E) as (_ & Hn & _). destruct Hn. inlist.
Qed.

Lemma kfree_vm s L free D a :
  vm_inv s L free D -> page_ok kend a = true -> (a ∉ free) -> L !! a = None -> D !! a = None ->
  exists s', kfree kend a s = Ret (tt, s') /\ vm_inv s' L (a :: free) D /\
    (forall x, x < a \/ a + PGSIZE <= x -> ldb (pm s') x = ldb (pm s) x) /\
    pt_same L (pm s) (pm s').
Proof.
  intros [Hpt Hf HLF HD] Hok Hni HL HDa.
  destruct (kfree_ok _ kend_pos _ _ _ Hf Hok Hni) as (s' & Hk & Hf' & Hb).
  apply page_ok_bound in Hok as Hbd; [|done].
  assert (pt_same L (pm s) (pm s')) as Hsame.
  { apply pt_same_frame. intros b x [l Hbl] Hx. apply Hb.
    destruct (pt_page _ kend_pos _ _ _ _ Hpt Hbl).
    apply (pages_disjoint b a); [done|lia|congruence|done]. }
  exists s'. split_and!; [done| |done|done]. split; [|done| |].
  - eapply pt_inv_same; [by apply pt_same_inner|done].
  - intros b [->|?]%elem_of_cons; [done|by apply HLF].
  - intros b pt n Hbn. destruct (HD _ _ _ Hbn) as (? & ? & ? & Hroot & ? & ? & ?).
    unfold leaf. rewrite (leafl_same _ _ _ _ _ _ _ Hsame Hpt Hroot).
    split_and!; try done; [|lia|lia]. intros [->|?]%elem_of_cons; [congruence|done].
Qed.

Lemma vm_inv_bytes s L free D m' :
  vm_inv s L free D ->
  (forall a x, is_Some (L !! a) \/ a ∈ free -> a <= x < a + PGSIZE -> ldb m' x = ldb (pm s) x) ->
  vm_inv (mkPmem m' (freelist s)) L free D /\ pt_same L (pm s) m'.
Proof.
  intros [Hpt Hf HLF HD] Hm.
  assert (pt_same L (pm s) m') as Hsame.
  { apply pt_same_frame. intros a x Ha Hx. eapply Hm; [by left|done]. }
  split; [|done]. split; cbn [pm]; [| |done|].
  - eapply pt_inv_same; [by apply pt_same_inner|done].
  - apply (kmem_ok_frame _ kend_pos (pm s)); [|by destruct s].
    intros a x Ha Hx. symmetry. eapply Hm; [by right|done].
  - intros b pt n Hb. destruct (HD _ _ _ Hb) as (? & ? & ? & Hroot & ? & ? & ?).
    unfold leaf. rewrite (leafl_same _ _ _ _ _ _ _ Hsame Hpt Hroot). done.
Qed.

(** ** Changes that a process cannot see *)
Lemma uread_same m m' L D pt va :
  user_owned m L D -> L !! pt = Some 2%nat -> 0 <= va < MAXVA ->
  leaf m' pt va = leaf m pt va ->
  (forall a x, is_Some (D !! a) -> a <= x < a + PGSIZE -> ldb m' x = ldb m x) ->
  uread m' pt va = uread m pt va.
Proof.
  intros Hu Hpt Hva Hl Hb. unfold uread. rewrite Hl.
  destruct (flag _ PTE_V) eqn:HV; [|done]. destruct (flag _ PTE_U) eqn:HU; [|done].
  cbn [andb]. eapply Hb; [eexists; by eapply Hu|]. unfold PGSIZE. dlia.
Qed.

Lemma user_owned_same m m' L L' D :
  user_owned m L D -> (forall q, L' !! q = Some 2%nat -> L !! q = Some 2%nat) ->
  (forall pt va, L !! pt = Some 2%nat -> 0 <= va < MAXVA -> leaf m' pt va = leaf m pt va) ->
  user_owned m' L' D.
Proof.
  intros Hu HL Hl pt va Hpt Hva. rewrite Hl by auto. intros. by apply Hu; auto.
Qed.

(** A page that is neither a page table nor free shares no byte with one
    that is; user pages are such pages. *)
Lemma page_apart s L free D a x b :
  vm_inv s L free D -> a mod PGSIZE = 0 -> L !! a = None -> (a ∉ free) -> a <= x < a + PGSIZE ->
  is_Some (L !! b) \/ b ∈ free -> x < b \/ b + PGSIZE <= x.
Proof.
  intros [Hpt Hf HLF HD] Hal HL Hnf Hx Hb. apply (pages_disjoint a b); [done| | |done].
  - destruct Hb as [[l Hl]|Hb]; [by apply (pt_page _ kend_pos _ _ _ _ Hpt Hl)|].
    destruct Hf as (_ & _ & HF). rewrite Forall_forall in HF.
    apply HF in Hb. apply page_ok_bound in Hb; [lia|done].
  - intros ->. destruct Hb as [[l Hl]|Hb]; [congruence|done].
Qed.

Lemma owned_apart s L free D a x b :
  vm_inv s L free D -> is_Some (D !! a) -> a <= x < a + PGSIZE ->
  is_Some (L !! b) \/ b ∈ free -> x < b \/ b + PGSIZE <= x.
Proof.
  intros Hinv [[pt n] Ha] Hx Hb. destruct (vi_D _ _ _ _ _ Hinv _ _ _ Ha) as (Hok & Hnf & HL & _).
  apply page_ok_bound in Hok as [_ Hab]; [|done]. by apply (page_apart s L free D a).
Qed.

Lemma fresh_page s L pg free D :
  vm_inv s L (pg :: free) D -> user_owned (pm s) L D ->
  exists s1, kalloc s = Ret (pg, s1) /\
  let s2 := mkPmem (memset (pm s1) pg 0 PGSIZE) (freelist s1) in
  vm_inv s2 L free D /\ page_ok kend pg = true /\
  (pg ∉ free) /\ L !! pg = None /\ D !! pg = None /\
  (forall q va, L !! q = Some 2%nat -> leaf (pm s2) q va = leaf (pm s) q va) /\
  (forall x, pg <= x < pg + PGSIZE -> ldb (pm s2) x = 0) /\
  (forall x, x < pg \/ pg + PGSIZE <= x -> ldb (pm s2) x = ldb (pm s) x).
Proof.
  intros Hinv Hu. destruct (kalloc_vm _ _ _ _ _ Hinv) as (s1 & Hk & Hinv1 & Hm & Hok & Hni & HL & HD).
  exists s1. split; [done|]. cbn zeta.
  apply page_ok_bound in Hok as Hb; [|done].
  assert (forall x, x < pg \/ pg + PGSIZE <= x ->
    ldb (memset (pm s1) pg 0 PGSIZE) x = ldb (pm s) x) as Hout
    by (intros x Hx; rewrite memset_out by done; rewrite Hm; by apply memset_out).
  destruct (vm_inv_bytes s1 L free D (memset (pm s1) pg 0 PGSIZE) Hinv1) as [Hinv2 Hs].
  { intros a x Ha Hx. apply memset_out.
    destruct (decide (x < pg \/ pg + PGSIZE <= x)) as [?|Hin]; [done|].
    pose proof (page_apart s1 L free D pg x a Hinv1 ltac:(lia) HL Hni ltac:(lia) Ha). lia. }
  cbn [pm]. split_and!; [exact Hinv2|done..| | |exact Hout].
  - intros q va Hq. apply (leafl_same kend L); [|apply (vi_pt _ _ _ _ _ Hinv)|done].
    apply pt_same_frame. intros a x [l Ha] Hx. apply Hout.
    destruct (pt_page _ kend_pos _ _ _ _ (vi_pt _ _ _ _ _ Hinv) Ha).
    apply (pages_disjoint a pg); [done|lia|congruence|done].
  - intros x Hx. rewrite memset_in by done. reflexivity.
Qed.

Lemma mappages_one s L free D pt va pa perm :
  vm_inv s L free D -> L !! pt = Some 2%nat -> 0 <= va < MAXVA -> va mod PGSIZE = 0 ->
  0 <= pa < 2 ^ 55 -> 0 <= perm < 1024 -> flag (leaf (pm s) pt va) PTE_V = false ->
  exists r s' L' free',
    mappages pt va PGSIZE pa perm s = Ret (r, s') /\ vm_inv s' L' free' D /\
    extends s L free s' L' free' /\
    ((r = 0 /\ leaf (pm s') pt va = mkpte pa perm /\
      forall pt' va', L !! pt' = Some 2%nat -> 0 <= va' < MAXVA ->
       ~ (pt' = pt /\ va <= va' < va + PGSIZE) -> leaf (pm s') pt' va' = leaf (pm s) pt' va') \/
     (r = -1 /\ free' = [] /\
      forall pt' va', L !! pt' = Some 2%nat -> 0 <= va' < MAXVA ->
        leaf (pm s') pt' va' = leaf (pm s) pt' va')).
Proof.
  intros Hinv Hpt Hva Hal Hpa Hperm Hv. unfold mappages. rewrite Hal. cbn [Z.eqb negb].
  change (negb (PGSIZE mod PGSIZE =? 0)) with false. change (PGSIZE =? 0) with false.
  change (Z.to_nat (PGSIZE / PGSIZE)) with 1%nat. cbn iota.
  replace (u64 (va + PGSIZE - PGSIZE)) with va
    by (rewrite u64_small; [lia|unfold PGSIZE in *; change MAXVA with (2 ^ 38) in *; lia]).
  destruct (mappages_loop_ok _ kend_pos 0 pt va pa perm s L free D va)
    as (r & s' & L' & free' & k & Hr & Hinv' & Hex & Hk & Hin & Hout); try done; try lia.
  - assert (va + 4096 <= MAXVA) by (unfold PGSIZE in *; change MAXVA with (2 ^ 38) in *; dlia).
    unfold PGSIZE. lia.
  - unfold PGSIZE. lia.
  - intros k Hk. replace (va + k * PGSIZE) with va by (unfold PGSIZE; lia). done.
  - exists r, s', L', free'. split_and!; [done..|].
    destruct Hk as [(-> & -> & _)|(-> & Hk & -> & _)]; [left|right]; split_and!; try done.
    + specialize (Hin 0 ltac:(lia)). by rewrite Z.mul_0_l, !Z.add_0_r in Hin.
    + intros. apply Hout; try done. intros [-> ?]. unfold PGSIZE in *. naive_solver lia.
Qed.

(** A page that only [pt] now maps becomes a page of the process. *)
Lemma claim_page s L free D pt va pg :
  vm_inv s L free D -> L !! pt = Some 2%nat -> 0 <= va < MAXVA -> va mod PGSIZE = 0 ->
  page_ok kend pg = true -> (pg ∉ free) -> L !! pg = None -> D !! pg = None ->
  flag (leaf (pm s) pt va) PTE_V = true -> PTE2PA (leaf (pm s) pt va) = pg ->
  vm_inv s L free (<[pg := (pt, va / PGSIZE)]> D).
Proof.
  intros [Hpt Hf HLF HD] Hroot Hva Hal Hok Hnf HL HDn Hv Hpa. split; [done..|].
  intros a pt' n. rewrite lookup_insert. case_decide as E; [|by apply HD].
  intros [= <- <-]. subst a.
  assert (va / PGSIZE * PGSIZE = va) as -> by (unfold PGSIZE in *; dlia).
  split_and!; try done; unfold PGSIZE; change MAXVA with (2 ^ 38) in *; dlia.
Qed.

(** ** Page faults on lazily allocated memory

    [visible L m m']: no process sees a difference between [m] and [m']. *)
Definition visible (L : gmap Z nat) (m m' : memory) : Prop :=
  forall pt va, L !! pt = Some 2%nat -> 0 <= va < MAXVA -> uread m' pt va = uread m pt va.

Lemma extends_owned s L free s' L' free' D a x :
  vm_inv s L free D -> extends s L free s' L' free' -> is_Some (D !! a) ->
  a <= x < a + PGSIZE -> ldb (pm s') x = ldb (pm s) x.
Proof.
  intros Hinv Hex Ha Hx. apply (ex_bytes _ _ _ _ _ _ Hex). intros b Hb.
  by eapply owned_apart.
Qed.

Lemma extends_none s L free s' L' free' a :
  extends s L free s' L' free' -> L !! a = None -> (a ∉ free) -> L' !! a = None /\ (a ∉ free').
Proof.
  intros [(u & -> & Hd) _ _ _] HL Hf. rewrite elem_of_app in Hf. split; [|tauto].
  apply not_elem_of_dom. rewrite Hd, elem_of_union, elem_of_list_to_set, elem_of_dom, HL.
  intros [[? [=]]|?]; tauto.
Qed.

(** ** What mapping fresh pages at [lo, hi) leaves

    Every page of the range was unmapped and now maps a zeroed page of its
    own; all else is as it was, and no page is lost. *)
Record grew (pt lo hi perm : Z) (s : pmem) (L : gmap Z nat) (free : list Z) (D : gmap Z (Z * Z))
  (s' : pmem) (L' : gmap Z nat) (free' : list Z) (D' : gmap Z (Z * Z)) : Prop := {
  gw_sub : L ⊆ L';
  gw_roots : forall q, L' !! q = Some 2%nat -> L !! q = Some 2%nat;
  gw_D : D ⊆ D';
  gw_newD : forall b pt' k, D' !! b = Some (pt', k) ->
    D !! b = Some (pt', k) \/ (pt' = pt /\ lo <= k * PGSIZE < hi);
  gw_count : (length free' + size D' + size L' = length free + size D + size L)%nat;
  gw_old : forall va, lo <= va < hi -> flag (leaf (pm s) pt va) PTE_V = false;
  gw_new : forall va, lo <= va < hi -> exists b,
    leaf (pm s') pt va = mkpte b perm /\ PTE2PA (mkpte b perm) = b /\ 0 < b < 2 ^ 56 /\
    D' !! b = Some (pt, va / PGSIZE) /\ ldb (pm s') (b + va mod PGSIZE) = 0;
  gw_leaf : forall pt' va', L !! pt' = Some 2%nat -> 0 <= va' < MAXVA ->
    ~ (pt' = pt /\ lo <= va' < hi) -> leaf (pm s') pt' va' = leaf (pm s) pt' va';
  gw_bytes : forall b x, is_Some (D !! b) -> b <= x < b + PGSIZE -> ldb (pm s') x = ldb (pm s) x }.

Lemma grew_refl pt lo perm s L free D : grew pt lo lo perm s L free D s L free D.
Proof. split; try done; [by left|lia..]. Qed.

Lemma grew_trans pt lo mid hi perm s L free D s1 L1 free1 D1 s2 L2 free2 D2 :
  L !! pt = Some 2%nat -> 0 <= lo <= mid -> mid <= hi <= MAXVA ->
  grew pt lo mid perm s L free D s1 L1 free1 D1 ->
  grew pt mid hi perm s1 L1 free1 D1 s2 L2 free2 D2 ->
  grew pt lo hi perm s L free D s2 L2 free2 D2.
Proof.
  intros Hpt Hlo Hhi [A1 B1 C1 E1 F1 G1 H1 I1 J1] [A2 B2 C2 E2 F2 G2 H2 I2 J2].
  assert (L1 !! pt = Some 2%nat) as Hpt1 by (by eapply lookup_weaken). split.
  - by trans L1.
  - auto.
  - by trans D1.
  - intros b pt' k Hb. destruct (E2 _ _ _ Hb) as [Hb1|[-> ?]]; [|right; lia].
    destruct (E1 _ _ _ Hb1) as [?|[-> ?]]; [by left|right; lia].
  - lia.
  - intros va Hva. destruct (decide (va < mid)); [apply G1; lia|].
    rewrite <- I1; [apply G2; lia|done|lia|lia].
  - intros va Hva. destruct (decide (va < mid)); [|apply H2; lia].
    destruct (H1 va ltac:(lia)) as (b & Hl & Hp & Hb & HD & H0). exists b.
    rewrite I2 by (done || lia). split_and!; try (done || lia).
    + by eapply lookup_weaken.
    + rewrite (J2 b); [done|by eexists|]. unfold PGSIZE. dlia.
  - intros pt' va' Hpt' Hva' Hn. rewrite I2, I1; [done|done|done| |by eapply lookup_weaken|done|];
      intros [? ?]; apply Hn; split; (done || lia).
  - intros b x [y Hb] Hx. rewrite (J2 b); [by apply (J1 b); [exists y|]| |done].
    exists y. by eapply lookup_weaken.
Qed.

(** A process cannot tell a page that is mapped from one that will be. *)
Lemma grew_visible pt lo hi perm s L free D s' L' free' D' :
  user_owned (pm s) L D -> grew pt lo hi perm s L free D s' L' free' D' ->
  visible L (pm s) (pm s').
Proof.
  intros Hu Hg pt' va' Hpt' Hva'. destruct (decide (pt' = pt /\ lo <= va' < hi)) as [[-> Hr]|Hne].
  - unfold uread. rewrite (gw_old _ _ _ _ _ _ _ _ _ _ _ _ Hg _ Hr). cbn [andb].
    destruct (gw_new _ _ _ _ _ _ _ _ _ _ _ _ Hg _ Hr) as (b & -> & -> & _ & _ & ->).
    by case_match.
  - apply (uread_same _ _ L D); try done; [by apply Hg|apply Hg].
Qed.

Lemma grew_owned pt lo hi perm s L free D s' L' free' D' :
  user_owned (pm s) L D -> grew pt lo hi perm s L free D s' L' free' D' ->
  user_owned (pm s') L' D'.
Proof.
  intros Hu Hg pt' va' Hpt'%Hg Hva'.
  destruct (decide (pt' = pt /\ lo <= va' < hi)) as [[-> Hr]|Hne].
  - destruct (gw_new _ _ _ _ _ _ _ _ _ _ _ _ Hg _ Hr) as (b & -> & -> & _ & ? & _). done.
  - rewrite (gw_leaf _ _ _ _ _ _ _ _ _ _ _ _ Hg) by done. intros.
    eapply lookup_weaken; [by apply Hu|apply Hg].
Qed.

Lemma extends_count s L free s' L' free' D D' :
  vm_inv s L free D -> vm_inv s' L' free' D' -> extends s L free s' L' free' ->
  (length free' + size L' = length free + size L)%nat.
Proof.
  intros Hinv Hinv' [(u & E & Hd) _ _ _]. pose proof (vi_LF _ _ _ _ _ Hinv) as HLF.
  destruct (vi_free _ _ _ _ _ Hinv) as (_ & Hnd & _). subst free.
  apply NoDup_app in Hnd as (Hnd & _ & _).
  rewrite <- !size_dom, Hd, size_union, size_list_to_set, length_app by
    (done || (apply elem_of_disjoint; intros x Hx Hx'; apply elem_of_list_to_set in Hx';
      apply elem_of_dom in Hx as [l Hl]; rewrite HLF in Hl by inlist; done)). lia.
Qed.

(** ** A fresh page mapped: the common part of [vmfault] and [uvmalloc] *)
Lemma map_fresh s L pg free D s2 s3 L' free' pt va perm :
  vm_inv s L (pg :: free) D -> L !! pt = Some 2%nat -> 0 <= va < MAXVA -> va mod PGSIZE = 0 ->
  0 <= perm < 1024 -> flag (leaf (pm s) pt va) PTE_V = false ->
  page_ok kend pg = true -> (pg ∉ free) -> L !! pg = None -> D !! pg = None ->
  vm_inv s2 L free D ->
  (forall q a, L !! q = Some 2%nat -> leaf (pm s2) q a = leaf (pm s) q a) ->
  (forall x, pg <= x < pg + PGSIZE -> ldb (pm s2) x = 0) ->
  (forall x, x < pg \/ pg + PGSIZE <= x -> ldb (pm s2) x = ldb (pm s) x) ->
  vm_inv s3 L' free' D -> extends s2 L free s3 L' free' ->
  leaf (pm s3) pt va = mkpte pg perm ->
  (forall pt' va', L !! pt' = Some 2%nat -> 0 <= va' < MAXVA ->
     ~ (pt' = pt /\ va <= va' < va + PGSIZE) -> leaf (pm s3) pt' va' = leaf (pm s2) pt' va') ->
  let D' := <[pg := (pt, va / PGSIZE)]> D in
  vm_inv s3 L' free' D' /\ grew pt va (va + PGSIZE) perm s L (pg :: free) D s3 L' free' D'.
Proof.
  intros Hinv Hpt Hva Hal Hperm HV Hok Hni HL HD Hinv2 Hl2 H0 Hout Hinv3 Hex Hleaf Hother D'.
  apply page_ok_bound in Hok as Hb; [|done].
  destruct (extends_none _ _ _ _ _ _ pg Hex HL Hni) as [HL' Hni'].
  assert (PTE2PA (mkpte pg perm) = pg) as Hpa by (apply mkpte_pa; lia).
  assert (forall va', va <= va' < va + PGSIZE -> va' / PGSIZE = va / PGSIZE) as Hpage
    by (intros; unfold PGSIZE in *; dlia).
  split.
  { eapply claim_page; try done; [eapply lookup_weaken; [done|apply Hex]|rewrite Hleaf..|by rewrite Hleaf].
    apply mkpte_valid; lia. }
  split; [apply Hex|apply Hex|by apply insert_subseteq| | | | | |].
  - intros b pt' k. unfold D'. rewrite lookup_insert. case_decide; [|by left].
    intros [= <- <-]. right. split; [done|unfold PGSIZE in *; dlia].
  - pose proof (extends_count _ _ _ _ _ _ _ _ Hinv2 Hinv3 Hex) as Hc.
    unfold D'. rewrite map_size_insert, HD. cbn [length]. lia.
  - intros va' Hr. unfold leaf. rewrite (leafl_page _ _ _ _ _ (Hpage _ Hr)). done.
  - intros va' Hr. exists pg. unfold leaf. rewrite (leafl_page _ _ _ _ _ (Hpage _ Hr)), (Hpage _ Hr).
    unfold D'. rewrite lookup_insert_eq. split_and!; try (done || lia).
    assert (0 <= va' mod PGSIZE < PGSIZE) by (unfold PGSIZE; dlia).
    rewrite (ex_bytes _ _ _ _ _ _ Hex); [apply H0; lia|].
    intros b Hbb. apply (page_apart s2 L free D pg); try done; lia.
  - intros pt' va' ???. rewrite Hother by done. by apply Hl2.
  - intros a x Ha Hx. rewrite (extends_owned _ _ _ _ _ _ _ _ _ Hinv2 Hex Ha Hx). apply Hout.
    eapply (owned_apart _ _ _ _ _ _ pg Hinv Ha Hx). right. inlist.
Qed.

Lemma alloc_map s L pg free D pt va perm :
  vm_inv s L (pg :: free) D -> user_owned (pm s) L D -> L !! pt = Some 2%nat ->
  0 <= va < MAXVA -> va mod PGSIZE = 0 -> 0 <= perm < 1024 ->
  flag (leaf (pm s) pt va) PTE_V = false ->
  0 < pg < 2 ^ 56 /\
  exists s1 r s3 L' free', kalloc s = Ret (pg, s1) /\
    mappages pt va PGSIZE pg perm (mkPmem (memset (pm s1) pg 0 PGSIZE) (freelist s1)) = Ret (r, s3) /\
    ((r = 0 /\ let D' := <[pg := (pt, va / PGSIZE)]> D in
      vm_inv s3 L' free' D' /\ grew pt va (va + PGSIZE) perm s L (pg :: free) D s3 L' free' D') \/
     (r = -1 /\ exists s4, kfree kend pg s3 = Ret (tt, s4) /\
      vm_inv s4 L' [pg] D /\ grew pt va va perm s L (pg :: free) D s4 L' [pg] D)).
Proof.
  intros Hinv Hu Hpt Hva Hal Hperm HV.
  destruct (fresh_page _ _ _ _ _ Hinv Hu) as (s1 & Hk & Hinv2 & Hok & Hni & HL & HD & Hl2 & H0 & Hout).
  set (s2 := mkPmem _ _) in *. apply page_ok_bound in Hok as Hb; [|done]. split; [lia|].
  destruct (mappages_one s2 L free D pt va pg perm)
    as (r & s3 & L' & free' & Hm & Hinv3 & Hex & Hr); try done.
  { apply page_okE in Hok; [|done]. unfold PHYSTOP, KERNBASE in *. lia. }
  { by rewrite Hl2. }
  exists s1, r, s3, L', free'. split; [done|]. split; [done|].
  destruct Hr as [(-> & Hleaf & Hother)|(-> & -> & Hother)]; [left|right]; (split; [done|]).
  { by eapply (map_fresh s L pg free D s2). }
  destruct (extends_none _ _ _ _ _ _ pg Hex HL Hni) as [HL' Hni'].
  destruct (kfree_vm _ _ _ _ pg Hinv3 Hok Hni' HL' HD) as (s4 & Hkf & Hinv4 & Hb4 & Hs4).
  exists s4. split_and!; [done..|]. split; [apply Hex|apply Hex|done|by left| |lia|lia| |].
  - pose proof (extends_count _ _ _ _ _ _ _ _ Hinv2 Hinv3 Hex) as Hc. cbn [length] in *. lia.
  - intros q va' Hq Hva' _. unfold leaf.
    rewrite (leafl_same _ _ _ _ _ _ _ Hs4 (vi_pt _ _ _ _ _ Hinv3)) by (eapply lookup_weaken; [done|apply Hex]).
    fold (leaf (pm s3) q va') (leaf (pm s) q va'). rewrite Hother by done. by apply Hl2.
  - intros a x Ha Hx.
    pose proof (owned_apart _ _ _ _ _ _ pg Hinv Ha Hx ltac:(right; inlist)).
    rewrite Hb4 by done. rewrite (extends_owned _ _ _ _ _ _ _ _ _ Hinv2 Hex Ha Hx). by apply Hout.
Qed.

(** ** What a fault does, whatever the address: nothing a process can see, and
    at most one page mapped *)
Lemma vmfault_ok s L free D p pt va :
  vm_inv s L free D -> user_owned (pm s) L D -> L !! pt = Some 2%nat -> p_pagetable p = pt ->
  0 <= va -> (va < p_sz p -> va < MAXVA) ->
  exists r s' L' free' D' hi,
    vmfault kend p pt va s = Ret (r, s') /\ vm_inv s' L' free' D' /\
    grew pt (PGROUNDDOWN va) hi PTE_WUR s L free D s' L' free' D' /\
    ((r = 0 /\ hi = PGROUNDDOWN va /\
      (p_sz p <= va \/ flag (leaf (pm s) pt (PGROUNDDOWN va)) PTE_V = true \/
       (length free' <= 1)%nat)) \/
     (r <> 0 /\ va < p_sz p /\ hi = PGROUNDDOWN va + PGSIZE /\
      PTE2PA (leaf (pm s') pt (PGROUNDDOWN va)) = r)).
Proof.
  intros Hinv Hu Hpt Hp Hva Hmax. unfold vmfault.
  destruct (Z.leb_spec (p_sz p) va) as [Hsz|Hsz].
  { exists 0, s, L, free, D, (PGROUNDDOWN va). split_and!; [done..|apply grew_refl|]. left. auto. }
  specialize (Hmax Hsz). pose proof (PGROUNDDOWN_bounds va). pose proof (PGROUNDDOWN_mod va) as Hal.
  assert (0 <= PGROUNDDOWN va < MAXVA) as Hva0 by (unfold PGSIZE in *; dlia).
  generalize dependent (PGROUNDDOWN va). intros va0 Hle Hal Hva0.
  rewrite (kbind_ret _ _ _ _ _ (ismapped_eq s L pt va0 (vi_pt _ _ _ _ _ Hinv) Hpt Hva0)).
  destruct (flag (leaf (pm s) pt va0) PTE_V) eqn:HV.
  { exists 0, s, L, free, D, va0. split_and!; [done..|apply grew_refl|]. left. auto. }
  destruct free as [|pg free].
  { exists 0, s, L, [], D, va0. rewrite (kbind_ret _ _ _ _ _ (kalloc_nil _ _ (vi_free _ _ _ _ _ Hinv))).
    split_and!; [done..|apply grew_refl|]. left. split_and!; [done..|right; right; cbn; lia]. }
  destruct (alloc_map s L pg free D pt va0 PTE_WUR)
    as (Hb & s1 & r & s3 & L' & free' & Hk & Hm & Hr); try done; [apply PTE_WUR_range|].
  rewrite (kbind_ret _ _ _ _ _ Hk). replace (pg =? 0) with false by lia.
  rewrite (kbind_ret _ _ _ _ _ (set_pm_eq _ _)), Hp.
  change (Z.lor (Z.lor PTE_W PTE_U) PTE_R) with PTE_WUR. rewrite (kbind_ret _ _ _ _ _ Hm).
  destruct Hr as [(-> & Hinv' & Hg)|(-> & s4 & Hkf & Hinv' & Hg)]; cbn [Z.eqb negb].
  - eexists pg, s3, L', free', _, (va0 + PGSIZE). split_and!; [done..|]. right.
    split_and!; [lia|lia|done|].
    destruct (gw_new _ _ _ _ _ _ _ _ _ _ _ _ Hg va0) as (b & Hle' & Hpa & _ & HD' & _);
      [unfold PGSIZE; lia|].
    rewrite Hle', Hpa. apply lookup_insert_Some in HD' as [[-> _]|[_ HD']]; [done|].
    destruct (vi_D _ _ _ _ _ Hinv _ _ _ HD') as (_ & _ & _ & _ & _ & HV' & _).
    replace (va0 / PGSIZE * PGSIZE) with va0 in HV' by (unfold PGSIZE in *; dlia). congruence.
  - rewrite (kbind_ret _ _ _ _ _ Hkf). exists 0, s4, L', [pg], D, va0. split_and!; [done..|].
    left. split_and!; [done..|right; right; cbn; lia].
Qed.
End user.
