(* ===== verification/VmCopy.v ===== *)
(** * Copies between the kernel and user memory

    [copyout], [copyin] and [copyinstr] move bytes through a page table,
    faulting in lazily allocated pages on the way.  The theorems say what a
    process sees of them, that no pointer it passes makes the kernel panic,
    and why a copy can fail. *)
From S2P Require Import Prelude Machine KString Kalloc Vm VmInv VmWalk VmUser.

Lemma put_bytes_ldb bs m a x :
  Forall (fun b => 0 <= b < 256) bs ->
  ldb (put_bytes bs m a) x =
  if (a <=? x) && (x <? a + Z.of_nat (length bs)) then nth (Z.to_nat (x - a)) bs 0 else ldb m x.
Proof.
  revert m a. induction bs as [|b bs IH]; intros m a Hb; cbn [put_bytes length].
  - by repeat ztest; try lia.
  - apply Forall_cons in Hb as [Hb Hbs]. rewrite IH by done.
    destruct (decide (x = a)) as [->|Hne].
    + repeat ztest; try lia. rewrite ldb_stb_eq. rewrite Z.sub_diag. cbn. by apply u8_small.
    + rewrite ldb_stb_ne by done. repeat ztest; try lia; try done.
      replace (Z.to_nat (x - a)) with (S (Z.to_nat (x - (a + 1)))) by lia. done.
Qed.

Lemma bytes_at_nth n m a i : (i < n)%nat -> nth i (bytes_at n m a) 0 = ldb m (a + Z.of_nat i).
Proof.
  revert a i. induction n as [|n IH]; intros a i Hi; [lia|]. destruct i as [|i]; cbn.
  - by rewrite Z.add_0_r.
  - rewrite IH by lia. f_equal. lia.
Qed.

Lemma bytes_at_length n m a : length (bytes_at n m a) = n.
Proof. revert a. induction n; intros; cbn; auto. Qed.

Section copy.
Context (kend : Z) (kend_pos : 0 < kend).
Abbreviation vm_inv := (vm_inv kend).

(** A user page of a process is mapped at one place only. *)
Lemma owned_inj s L free D pt va pt' va' :
  vm_inv s L free D -> user_owned (pm s) L D ->
  L !! pt = Some 2%nat -> L !! pt' = Some 2%nat -> 0 <= va < MAXVA -> 0 <= va' < MAXVA ->
  flag (leaf (pm s) pt va) PTE_V = true -> flag (leaf (pm s) pt va) PTE_U = true ->
  flag (leaf (pm s) pt' va') PTE_V = true -> flag (leaf (pm s) pt' va') PTE_U = true ->
  PTE2PA (leaf (pm s) pt va) = PTE2PA (leaf (pm s) pt' va') ->
  pt = pt' /\ va / PGSIZE = va' / PGSIZE.
Proof.
  intros Hinv Hu H1 H2 Hva Hva' Hv Hu1 Hv' Hu2 E.
  pose proof (Hu _ _ H1 Hva Hv Hu1) as E1. pose proof (Hu _ _ H2 Hva' Hv' Hu2) as E2.
  rewrite E, E2 in E1. by injection E1.
Qed.

(** A write confined to the page at [va] of [pt] is seen there only. *)
Lemma uread_eq s L free D pt va m' pt' va' :
  vm_inv s L free D -> user_owned (pm s) L D -> L !! pt = Some 2%nat -> 0 <= va < MAXVA ->
  flag (leaf (pm s) pt va) PTE_V = true -> flag (leaf (pm s) pt va) PTE_U = true ->
  (forall q a, L !! q = Some 2%nat -> leaf m' q a = leaf (pm s) q a) ->
  (forall x, x < PTE2PA (leaf (pm s) pt va) \/ PTE2PA (leaf (pm s) pt va) + PGSIZE <= x ->
     ldb m' x = ldb (pm s) x) ->
  L !! pt' = Some 2%nat -> 0 <= va' < MAXVA ->
  (va' / PGSIZE = va / PGSIZE -> pt' = pt ->
     ldb m' (PTE2PA (leaf (pm s) pt va) + va' mod PGSIZE) =
     ldb (pm s) (PTE2PA (leaf (pm s) pt va) + va' mod PGSIZE)) ->
  uread m' pt' va' = uread (pm s) pt' va'.
Proof.
  intros Hinv Hu Hpt Hva Hv HU Hl Hout Hpt' Hva' Hsame. unfold uread. rewrite Hl by done.
  destruct (flag (leaf (pm s) pt' va') PTE_V) eqn:Hv'; [|done].
  destruct (flag (leaf (pm s) pt' va') PTE_U) eqn:HU'; [|done]. cbn [andb].
  destruct (decide (PTE2PA (leaf (pm s) pt' va') = PTE2PA (leaf (pm s) pt va))) as [E|E].
  - destruct (owned_inj s L free D pt' va' pt va) as [-> Hp]; try done. rewrite E. by apply Hsame.
  - apply Hout. assert (0 <= va' mod PGSIZE < PGSIZE) by (unfold PGSIZE; dlia).
    destruct (vi_D _ _ _ _ _ Hinv _ _ _ (Hu _ _ Hpt Hva Hv HU)) as (Hok & _).
    destruct (vi_D _ _ _ _ _ Hinv _ _ _ (Hu _ _ Hpt' Hva' Hv' HU')) as (Hok' & _).
    apply page_ok_bound in Hok, Hok'; [|done..].
    apply (pages_disjoint (PTE2PA (leaf (pm s) pt' va'))); try tauto; lia.
Qed.

(** Writing bytes into a user page changes what its process reads there, and
    nothing else. *)
Lemma uwrite s L free D pt va bs :
  vm_inv s L free D -> user_owned (pm s) L D -> L !! pt = Some 2%nat -> 0 <= va < MAXVA ->
  flag (leaf (pm s) pt va) PTE_V = true -> flag (leaf (pm s) pt va) PTE_U = true ->
  Forall (fun b => 0 <= b < 256) bs -> va mod PGSIZE + Z.of_nat (length bs) <= PGSIZE ->
  let s' := mkPmem (put_bytes bs (pm s) (PTE2PA (leaf (pm s) pt va) + va mod PGSIZE)) (freelist s) in
  vm_inv s' L free D /\ user_owned (pm s') L D /\
  (forall q a, L !! q = Some 2%nat -> leaf (pm s') q a = leaf (pm s) q a) /\
  (forall pt' va', L !! pt' = Some 2%nat -> 0 <= va' < MAXVA ->
     uread (pm s') pt' va' =
     if bool_decide (pt' = pt) && (va <=? va') && (va' <? va + Z.of_nat (length bs))
     then nth (Z.to_nat (va' - va)) bs 0 else uread (pm s) pt' va').
Proof.
  intros Hinv Hu Hpt Hva Hv HU Hbs Hlen s'.
  pose proof (Hu _ _ Hpt Hva Hv HU) as Hown. set (pa := PTE2PA (leaf (pm s) pt va)) in *.
  assert (0 <= va mod PGSIZE < PGSIZE) as Hoff by (unfold PGSIZE; dlia).
  assert (forall x, x < pa \/ pa + PGSIZE <= x -> ldb (pm s') x = ldb (pm s) x) as Hout.
  { intros x Hx. cbn [s' pm]. rewrite put_bytes_ldb by done. repeat ztest; try lia; done. }
  destruct (vm_inv_bytes _ kend_pos s L free D (pm s') Hinv) as [Hinv' Hs].
  { intros a x Ha Hx. apply Hout.
    destruct (decide (x < pa \/ pa + PGSIZE <= x)) as [?|Hin]; [done|].
    pose proof (owned_apart _ kend_pos _ _ _ _ pa x a Hinv ltac:(by eexists) ltac:(lia) Ha). lia. }
  assert (forall q a, L !! q = Some 2%nat -> leaf (pm s') q a = leaf (pm s) q a) as Hl.
  { intros q a Hq. apply (leafl_same kend L); [done|apply (vi_pt _ _ _ _ _ Hinv)|done]. }
  split_and!; [done| |done|].
  - eapply user_owned_same; [done|done|]. intros. by apply Hl.
  - intros pt' va' Hpt' Hva'.
    assert (va' mod PGSIZE - va mod PGSIZE = va' - va \/ va' / PGSIZE <> va / PGSIZE) as Hmod
      by (unfold PGSIZE; dlia).
    assert (0 <= va' mod PGSIZE < PGSIZE) as Hoff' by (unfold PGSIZE; dlia).
    destruct (bool_decide (pt' = pt) && (va <=? va') && (va' <? va + Z.of_nat (length bs))) eqn:Hin.
    + apply andb_prop in Hin as [[->%bool_decide_eq_true Hlo]%andb_prop Hhi]. zb.
      assert (va' / PGSIZE = va / PGSIZE) as Hpage by (unfold PGSIZE in *; dlia).
      unfold uread. rewrite Hl by done. unfold leaf. rewrite (leafl_page _ _ _ _ _ Hpage).
      fold (leaf (pm s) pt va). rewrite Hv, HU. cbn [andb]. fold pa. cbn [s' pm].
      rewrite put_bytes_ldb by done. repeat ztest; try lia. f_equal. lia.
    + apply (uread_eq s L free D pt va); try done. intros Hpage ->. cbn [s' pm].
      fold pa. rewrite put_bytes_ldb by done.
      rewrite bool_decide_true in Hin by done. cbn [andb] in Hin. repeat ztest; try lia; done.
Qed.

(** ** Finding the page behind a user address, faulting it in if need be *)
Lemma resolve_ok s L free D p pt va0 :
  vm_inv s L free D -> user_owned (pm s) L D -> L !! pt = Some 2%nat -> p_pagetable p = pt ->
  p_sz p <= MAXVA -> 0 <= va0 -> va0 mod PGSIZE = 0 ->
  exists x r s' L' free' D',
    walkaddr pt va0 s = Ret (x, s) /\
    (if x =? 0 then vmfault kend p pt va0 else kret x) s = Ret (r, s') /\
    vm_inv s' L' free' D' /\ user_owned (pm s') L' D' /\ L ⊆ L' /\ visible L (pm s) (pm s') /\
    let e := leaf (pm s') pt va0 in
    ((r = 0 /\ (MAXVA <= va0 \/ flag e PTE_V && flag e PTE_U = false /\
        (flag e PTE_V = true \/ p_sz p <= va0 \/ (length free' <= 1)%nat))) \/
     (r <> 0 /\ 0 <= va0 < MAXVA /\ flag e PTE_V = true /\ flag e PTE_U = true /\ PTE2PA e = r)).
Proof.
  intros Hinv Hu Hpt Hp Hsz Hva Hal.
  destruct (decide (va0 < MAXVA)) as [Hmax|Hmax]; cycle 1.
  { exists 0, 0, s, L, free, D. unfold walkaddr, vmfault.
    replace (MAXVA <=? va0) with true by lia. replace (p_sz p <=? va0) with true by lia.
    cbn [Z.eqb]. split_and!; try done. left. split; [done|left; lia]. }
  rewrite (walkaddr_eq _ kend_pos s L pt va0 (vi_pt _ _ _ _ _ Hinv) Hpt ltac:(lia)).
  destruct (flag (leaf (pm s) pt va0) PTE_V && flag (leaf (pm s) pt va0) PTE_U) eqn:HVU.
  - apply andb_prop in HVU as [HV HU].
    destruct (vi_D _ _ _ _ _ Hinv _ _ _ (Hu _ _ Hpt (conj Hva Hmax) HV HU)) as (Hok & _).
    apply page_ok_bound in Hok as Hb; [|done].
    exists (PTE2PA (leaf (pm s) pt va0)), (PTE2PA (leaf (pm s) pt va0)), s, L, free, D.
    replace (PTE2PA (leaf (pm s) pt va0) =? 0) with false by lia.
    split_and!; try done. right. split_and!; (done || lia).
  - destruct (vmfault_ok _ kend_pos s L free D p pt va0)
      as (r & s' & L' & free' & D' & hi & Hf & Hinv' & Hg & Hr); try done.
    exists 0, r, s', L', free', D'. cbn [Z.eqb].
    pose proof (grew_visible _ _ _ _ _ _ _ _ _ _ _ _ Hu Hg) as Hvis.
    pose proof (grew_owned _ _ _ _ _ _ _ _ _ _ _ _ Hu Hg) as Hu'.
    assert (PGROUNDDOWN va0 = va0) as Hrd
      by (rewrite PGROUNDDOWN_eq; unfold PGSIZE in *; dlia).
    rewrite Hrd in Hr, Hg. split_and!; try done; [apply Hg|]. cbn zeta.
    destruct Hr as [(-> & -> & Hwhy)|(Hr0 & _ & -> & Hle)]; [left|right].
    + split; [done|right]. rewrite (gw_leaf _ _ _ _ _ _ _ _ _ _ _ _ Hg) by (done || lia).
      split; [done|]. destruct Hwhy as [?|[?|?]]; auto.
    + destruct (gw_new _ _ _ _ _ _ _ _ _ _ _ _ Hg va0) as (b & Hle' & Hpa & Hb & _);
        [unfold PGSIZE; lia|].
      rewrite Hle, Hle', !mkpte_wur by auto with lia. split_and!; (done || lia).
Qed.

(** Why a copy stopped at user address [va]: beyond the address space, on a
    page that the process may not use this way, beyond its memory, or out of
    physical memory. *)
Definition stuck (p : vmproc) (s : pmem) (free : list Z) (pt va : Z) (w : bool) : Prop :=
  let va0 := PGROUNDDOWN va in
  let e := leaf (pm s) pt va0 in
  MAXVA <= va0 \/
  flag e PTE_V && flag e PTE_U && (negb w || flag e PTE_W) = false /\
  (flag e PTE_V = true \/ p_sz p <= va0 \/ (length free <= 1)%nat).

(** What copying [src] to [dstva] does to the memory a process sees. *)
Definition written (pt dstva : Z) (src : list Z) (L : gmap Z nat) (m m' : memory) : Prop :=
  forall pt' va', L !! pt' = Some 2%nat -> 0 <= va' < MAXVA ->
    uread m' pt' va' =
    if bool_decide (pt' = pt) && (dstva <=? va') && (va' <? dstva + Z.of_nat (length src))
    then nth (Z.to_nat (va' - dstva)) src 0 else uread m pt' va'.

Lemma written_nil pt va L m m' : visible L m m' -> written pt va [] L m m'.
Proof.
  intros H pt' va' ? ?. rewrite H by done. cbn [length].
  destruct (bool_decide _); cbn [andb]; repeat ztest; try lia; done.
Qed.

Lemma written_app pt va xs ys va1 L L1 m m1 m2 :
  written pt va xs L m m1 -> written pt va1 ys L1 m1 m2 -> L ⊆ L1 ->
  ys = [] \/ va1 = va + Z.of_nat (length xs) -> written pt va (xs ++ ys) L m m2.
Proof.
  intros H1 H2 HL Hva pt' va' Hpt Hva'. rewrite H2, H1 by (done || by eapply lookup_weaken).
  rewrite length_app. destruct (bool_decide _); cbn [andb]; [|done].
  destruct Hva as [->| ->].
  - rewrite app_nil_r. cbn [length]. repeat ztest; try lia; done.
  - repeat ztest; try lia; try done.
    + rewrite app_nth2 by lia. f_equal. lia.
    + rewrite app_nth1 by lia. done.
Qed.

Lemma written_visible pt va xs L L1 m m1 m2 :
  visible L m m1 -> written pt va xs L1 m1 m2 -> L ⊆ L1 -> written pt va xs L m m2.
Proof.
  intros H1 H2 HL pt' va' ? ?. rewrite H2 by (done || by eapply lookup_weaken).
  by rewrite H1.
Qed.

Lemma leaf_slot m pt va :
  flag (leaf m pt va) PTE_V = true -> exists a, slotl 2 m pt va = Some a /\ ld64 m a = leaf m pt va.
Proof.
  intros H. destruct (slotl 2 m pt va) as [a|] eqn:Ha.
  - exists a. split; [done|]. by apply leaf_of_slot.
  - unfold leaf in H. rewrite leafl_slotl, Ha in H. cbn in H. by rewrite flag_0 in H.
Qed.

Lemma ldpte_walk s L pt va :
  pt_inv kend (pm s) L -> L !! pt = Some 2%nat -> 0 <= va < MAXVA ->
  flag (leaf (pm s) pt va) PTE_V = true ->
  exists a, walk pt va false s = Ret (a, s) /\ ldpte a s = Ret (leaf (pm s) pt va, s).
Proof.
  intros Hpi Hpt Hva HV. destruct (leaf_slot _ _ _ HV) as (a & Ha & Hl). exists a.
  rewrite walk_false, Ha by done. cbn [default]. unfold id. split; [done|].
  unfold ldpte. pose proof (slot_nonzero _ kend_pos _ _ _ _ _ Hpi Hpt Ha).
  replace (a =? 0) with false by lia. unfold gets. by rewrite Hl.
Qed.

(** One round of the copy: at most one page is written. *)
Lemma copyout_round fuel p pt dstva src len s L free D :
  vm_inv s L free D -> user_owned (pm s) L D -> L !! pt = Some 2%nat -> p_pagetable p = pt ->
  p_sz p <= MAXVA -> 0 <= dstva < 2 ^ 64 -> Forall (fun b => 0 <= b < 256) src ->
  len = Z.of_nat (length src) -> 0 < len ->
  let n := Z.min len (PGSIZE - dstva mod PGSIZE) in
  exists s' L' free' D', vm_inv s' L' free' D' /\ user_owned (pm s') L' D' /\ L ⊆ L' /\
    ((copyout_loop kend (S fuel) p pt dstva src len s = Ret (-1, s') /\
      visible L (pm s) (pm s') /\ stuck p s' free' pt dstva true) \/
     (copyout_loop kend (S fuel) p pt dstva src len s =
      copyout_loop kend fuel p pt (PGROUNDDOWN dstva + PGSIZE) (drop (Z.to_nat n) src) (len - n) s' /\
      PGROUNDDOWN dstva < MAXVA /\
      written pt dstva (take (Z.to_nat n) src) L (pm s) (pm s'))).
Proof.
  intros Hinv Hu Hpt Hp Hsz Hdst Hsrc Hlen Hpos n.
  pose proof (PGROUNDDOWN_bounds dstva) as Hrb. pose proof (PGROUNDDOWN_mod dstva) as Hal.
  assert (PGROUNDDOWN dstva = dstva - dstva mod PGSIZE) as Hrd
    by (rewrite PGROUNDDOWN_eq; unfold PGSIZE; dlia).
  assert (0 <= PGROUNDDOWN dstva) as H0 by (rewrite PGROUNDDOWN_eq; unfold PGSIZE; dlia).
  cbn [copyout_loop]. replace (0 <? len) with true by lia. unfold stuck.
  assert (dstva / PGSIZE = PGROUNDDOWN dstva / PGSIZE) as Hpage
    by (rewrite PGROUNDDOWN_eq; unfold PGSIZE; dlia).
  set (va0 := PGROUNDDOWN dstva) in *.
  destruct (Z.leb_spec MAXVA va0) as [Hmax|Hmax].
  { exists s, L, free, D. split_and!; try done. left. split_and!; [done|done|by left]. }
  destruct (resolve_ok s L free D p pt va0 Hinv Hu Hpt Hp Hsz H0 Hal)
    as (x & r & s1 & L1 & free1 & D1 & Hw & Hf & Hinv1 & Hu1 & HL1 & Hvis & Hr).
  rewrite (kbind_ret _ _ _ _ _ Hw), (kbind_ret _ _ _ _ _ Hf).
  destruct Hr as [(-> & Hwhy)|(Hr & _ & HV & HU & Hpa)].
  { exists s1, L1, free1, D1. split_and!; try done. left. split_and!; [done..|].
    destruct Hwhy as [?|[E ?]]; [by left|right]. by rewrite E. }
  replace (r =? 0) with false by lia.
  assert (L1 !! pt = Some 2%nat) as Hpt1 by (by eapply lookup_weaken).
  destruct (ldpte_walk s1 L1 pt va0 (vi_pt _ _ _ _ _ Hinv1) Hpt1 ltac:(lia) HV) as (a & Ha & Hld).
  rewrite (kbind_ret _ _ _ _ _ Ha), (kbind_ret _ _ _ _ _ Hld).
  destruct (flag (leaf (pm s1) pt va0) PTE_W) eqn:HW; cbn [negb]; cycle 1.
  { exists s1, L1, free1, D1. split_and!; try done. left. split_and!; [done..|].
    right. rewrite HV, HU, HW. auto. }
  replace (if len <? PGSIZE - (dstva - va0) then len else PGSIZE - (dstva - va0)) with n
    by (unfold n; ztest; lia).
  rewrite (kbind_ret _ _ _ _ _ (set_pm_eq _ _)).
  assert (leaf (pm s1) pt dstva = leaf (pm s1) pt va0) as Hl by (by apply leafl_page).
  assert (0 <= dstva mod PGSIZE < PGSIZE) as Hoff by (unfold PGSIZE; dlia).
  assert (dstva < MAXVA) as Hd by (unfold PGSIZE in *; change MAXVA with (2 ^ 38) in *; dlia).
  destruct (uwrite s1 L1 free1 D1 pt dstva (take (Z.to_nat n) src)) as (Hinv2 & Hu2 & _ & Hread);
    try done; [lia|by rewrite Hl|by rewrite Hl|by apply Forall_take| |].
  { rewrite length_take. lia. }
  rewrite Hl, Hpa in Hinv2, Hu2, Hread. replace (dstva - va0) with (dstva mod PGSIZE) by lia.
  eexists _, L1, free1, D1. split_and!; [exact Hinv2|exact Hu2|done|]. right. split_and!; [|done|].
  - by rewrite u64_small by (unfold PGSIZE in *; change MAXVA with (2 ^ 38) in *; lia).
  - eapply written_visible; [exact Hvis|exact Hread|done].
Qed.

Lemma copyout_loop_ok fuel p pt dstva src s L free D :
  vm_inv s L free D -> user_owned (pm s) L D -> L !! pt = Some 2%nat -> p_pagetable p = pt ->
  p_sz p <= MAXVA -> 0 <= dstva < 2 ^ 64 -> Forall (fun b => 0 <= b < 256) src ->
  dstva mod PGSIZE + Z.of_nat (length src) <= Z.of_nat fuel * PGSIZE ->
  exists r s' L' free' D' k,
    copyout_loop kend (S fuel) p pt dstva src (Z.of_nat (length src)) s = Ret (r, s') /\
    vm_inv s' L' free' D' /\ user_owned (pm s') L' D' /\ L ⊆ L' /\ (k <= length src)%nat /\
    written pt dstva (take k src) L (pm s) (pm s') /\
    ((r = 0 /\ k = length src) \/ (r = -1 /\ (k < length src)%nat /\ stuck p s' free' pt (dstva + Z.of_nat k) true)).
Proof.
  revert dstva src s L free D. induction fuel as [|fuel IH];
    intros dstva src s L free D Hinv Hu Hpt Hp Hsz Hdst Hsrc Hfuel.
  all: assert (0 <= dstva mod PGSIZE < PGSIZE) as Hoff by (unfold PGSIZE; dlia).
  all: destruct src as [|b src0] eqn:Esrc;
    [exists 0, s, L, free, D, 0%nat; split_and!; [done..|by apply written_nil|by left]|].
  { cbn [length] in Hfuel. lia. }
  rewrite <- Esrc in *. assert (0 < Z.of_nat (length src)) as Hpos by (subst; cbn; lia). clear Esrc b src0.
  destruct (copyout_round (S fuel) p pt dstva src _ s L free D Hinv Hu Hpt Hp Hsz Hdst Hsrc eq_refl Hpos)
    as (s1 & L1 & free1 & D1 & Hinv1 & Hu1 & HL1 & [(Hrun & Hvis & Hst)|(Hrun & Hmax & Hwr)]).
  { exists (-1), s1, L1, free1, D1, 0%nat. rewrite Z.add_0_r, take_0.
    split_and!; try done; [lia|by apply written_nil|right; split_and!; (done || lia)]. }
  set (n := Z.min _ _) in *.
  assert (PGROUNDDOWN dstva = dstva - dstva mod PGSIZE) as Hrd
    by (rewrite PGROUNDDOWN_eq; unfold PGSIZE; dlia).
  rewrite Hrun. destruct (decide (n = Z.of_nat (length src))) as [Hn|Hn].
  { exists 0, s1, L1, free1, D1, (length src). rewrite Hn, Z.sub_diag. cbn [copyout_loop Z.ltb Z.compare].
    replace (take (Z.to_nat n) src) with (take (length src) src) in Hwr by (f_equal; lia).
    split_and!; try done. by left. }
  assert (n = PGSIZE - dstva mod PGSIZE) as Hn' by lia.
  assert (Z.of_nat (length (drop (Z.to_nat n) src)) = Z.of_nat (length src) - n) as Hrest
    by (rewrite length_drop; lia).
  destruct (IH (PGROUNDDOWN dstva + PGSIZE) (drop (Z.to_nat n) src) s1 L1 free1 D1)
    as (r & s2 & L2 & free2 & D2 & k & Hrun2 & Hinv2 & Hu2 & HL2 & Hk & Hwr2 & Hres); try done.
  - by eapply lookup_weaken.
  - unfold PGSIZE in *; change MAXVA with (2 ^ 38) in *; lia.
  - by apply Forall_drop.
  - rewrite Hrest. replace ((PGROUNDDOWN dstva + PGSIZE) mod PGSIZE) with 0
      by (rewrite PGROUNDDOWN_eq; unfold PGSIZE; dlia). lia.
  - rewrite Hrest in Hrun2. exists r, s2, L2, free2, D2, (Z.to_nat n + k)%nat.
    split_and!; [done|done|done|by trans L1|lia| |].
    + rewrite <- take_take_drop. eapply written_app; [done|done|done|].
      right. rewrite length_take. lia.
    + destruct Hres as [[-> Hk2]|(-> & Hk2 & Hst)]; [left|right]; split_and!; try (done || lia).
      replace (dstva + Z.of_nat (Z.to_nat n + k)) with (PGROUNDDOWN dstva + PGSIZE + Z.of_nat k) by lia.
      done.
Qed.

(** ** Reading user memory *)
Definition ureads (m : memory) (pt va : Z) (n : nat) : list Z :=
  (fun i => uread m pt (va + Z.of_nat i)) <$> seq 0 n.

Lemma ureads_app m pt va n k :
  ureads m pt va (n + k) = ureads m pt va n ++ ureads m pt (va + Z.of_nat n) k.
Proof.
  unfold ureads. rewrite seq_app, fmap_app. f_equal.
  replace (seq (0 + n) k) with (Nat.add n <$> seq 0 k) by (by rewrite fmap_add_seq, Nat.add_comm).
  rewrite <- list_fmap_compose.
  apply list_fmap_ext. intros i x _. cbn. f_equal. lia.
Qed.

Lemma ureads_visible L m m' pt va n :
  visible L m m' -> L !! pt = Some 2%nat -> 0 <= va -> va + Z.of_nat n <= MAXVA ->
  ureads m' pt va n = ureads m pt va n.
Proof.
  intros Hv Hpt H0 Hn. unfold ureads. apply list_fmap_ext. intros i x Hx.
  apply lookup_seq in Hx as [-> ?]. apply Hv; [done|lia].
Qed.

(** The bytes of one mapped page are the bytes the process reads. *)
Lemma page_ureads m pt va n :
  flag (leaf m pt va) PTE_V = true -> flag (leaf m pt va) PTE_U = true ->
  va mod PGSIZE + Z.of_nat n <= PGSIZE ->
  bytes_at n m (PTE2PA (leaf m pt va) + va mod PGSIZE) = ureads m pt va n.
Proof.
  intros HV HU Hn. apply (nth_ext _ _ 0 0).
  - unfold ureads. by rewrite bytes_at_length, length_fmap, length_seq.
  - rewrite bytes_at_length. intros i Hi. rewrite bytes_at_nth by done.
    rewrite (nth_lookup_Some _ _ 0 (uread m pt (va + Z.of_nat i)));
      [|unfold ureads; rewrite list_lookup_fmap, lookup_seq_lt by done; done].
    assert (0 <= va mod PGSIZE) by (unfold PGSIZE; dlia).
    assert ((va + Z.of_nat i) / PGSIZE = va / PGSIZE /\
            (va + Z.of_nat i) mod PGSIZE = va mod PGSIZE + Z.of_nat i) as [Hpage Hmod]
      by (unfold PGSIZE in *; dlia).
    unfold uread, leaf. rewrite (leafl_page _ _ _ _ _ Hpage). fold (leaf m pt va).
    rewrite HV, HU. cbn [andb]. f_equal. lia.
Qed.

Lemma copyin_round fuel p pt dst srcva len s L free D :
  vm_inv s L free D -> user_owned (pm s) L D -> L !! pt = Some 2%nat -> p_pagetable p = pt ->
  p_sz p <= MAXVA -> 0 <= srcva < 2 ^ 64 -> 0 < len ->
  let n := Z.min len (PGSIZE - srcva mod PGSIZE) in
  exists s' L' free' D', vm_inv s' L' free' D' /\ user_owned (pm s') L' D' /\ L ⊆ L' /\
    visible L (pm s) (pm s') /\
    ((copyin_loop kend (S fuel) p pt dst srcva len s = Ret (-1, dst, s') /\
      stuck p s' free' pt srcva false) \/
     (copyin_loop kend (S fuel) p pt dst srcva len s =
      copyin_loop kend fuel p pt (dst ++ ureads (pm s) pt srcva (Z.to_nat n))
        (PGROUNDDOWN srcva + PGSIZE) (len - n) s' /\
      PGROUNDDOWN srcva < MAXVA)).
Proof.
  intros Hinv Hu Hpt Hp Hsz Hdst Hpos n.
  pose proof (PGROUNDDOWN_bounds srcva) as Hrb. pose proof (PGROUNDDOWN_mod srcva) as Hal.
  assert (PGROUNDDOWN srcva = srcva - srcva mod PGSIZE) as Hrd
    by (rewrite PGROUNDDOWN_eq; unfold PGSIZE; dlia).
  assert (0 <= PGROUNDDOWN srcva) as H0 by (rewrite PGROUNDDOWN_eq; unfold PGSIZE; dlia).
  assert (srcva / PGSIZE = PGROUNDDOWN srcva / PGSIZE) as Hpage
    by (rewrite PGROUNDDOWN_eq; unfold PGSIZE; dlia).
  cbn [copyin_loop]. replace (0 <? len) with true by lia. unfold stuck.
  set (va0 := PGROUNDDOWN srcva) in *.
  destruct (resolve_ok s L free D p pt va0 Hinv Hu Hpt Hp Hsz H0 Hal)
    as (x & r & s1 & L1 & free1 & D1 & Hw & Hf & Hinv1 & Hu1 & HL1 & Hvis & Hr).
  rewrite (kbind_ret _ _ _ _ _ Hw), (kbind_ret _ _ _ _ _ Hf).
  exists s1, L1, free1, D1. split_and!; [done..|].
  destruct Hr as [(-> & Hwhy)|(Hr & Hmax & HV & HU & Hpa)].
  { left. split; [done|]. destruct Hwhy as [?|[E ?]]; [by left|right]. by rewrite E. }
  replace (r =? 0) with false by lia. right. split; [|lia].
  replace (if len <? PGSIZE - (srcva - va0) then len else PGSIZE - (srcva - va0)) with n
    by (unfold n; ztest; lia).
  assert (leaf (pm s1) pt srcva = leaf (pm s1) pt va0) as Hl by (by apply leafl_page).
  assert (srcva + n <= MAXVA) as Hd by (unfold PGSIZE in *; change MAXVA with (2 ^ 38) in *; dlia).
  assert (0 <= srcva mod PGSIZE < PGSIZE) as Hoff by (unfold PGSIZE; dlia).
  unfold kbind, gets. rewrite <- (ureads_visible L (pm s) (pm s1)) by (done || lia).
  rewrite <- page_ureads by (rewrite ?Hl; (done || lia)). rewrite Hl, Hpa.
  replace (srcva - va0) with (srcva mod PGSIZE) by lia.
  by rewrite u64_small by (unfold PGSIZE in *; change MAXVA with (2 ^ 38) in *; lia).
Qed.

Lemma visible_trans L L1 m m1 m2 :
  visible L m m1 -> visible L1 m1 m2 -> L ⊆ L1 -> visible L m m2.
Proof.
  intros H1 H2 HL pt va Hpt Hva. rewrite H2 by (done || by eapply lookup_weaken).
  by apply H1.
Qed.

Lemma copyin_loop_ok fuel p pt dst srcva len s L free D :
  vm_inv s L free D -> user_owned (pm s) L D -> L !! pt = Some 2%nat -> p_pagetable p = pt ->
  p_sz p <= MAXVA -> 0 <= srcva < 2 ^ 64 -> 0 <= len ->
  srcva mod PGSIZE + len <= Z.of_nat fuel * PGSIZE ->
  exists r s' L' free' D' k,
    copyin_loop kend (S fuel) p pt dst srcva len s =
      Ret (r, dst ++ ureads (pm s) pt srcva k, s') /\
    vm_inv s' L' free' D' /\ user_owned (pm s') L' D' /\ L ⊆ L' /\ Z.of_nat k <= len /\
    (k = 0%nat \/ srcva + Z.of_nat k <= MAXVA) /\ visible L (pm s) (pm s') /\
    ((r = 0 /\ Z.of_nat k = len) \/ (r = -1 /\ Z.of_nat k < len /\ stuck p s' free' pt (srcva + Z.of_nat k) false)).
Proof.
  revert dst srcva len s L free D. induction fuel as [|fuel IH];
    intros dst srcva len s L free D Hinv Hu Hpt Hp Hsz Hdst Hlen Hfuel.
  all: assert (0 <= srcva mod PGSIZE < PGSIZE) as Hoff by (unfold PGSIZE; dlia).
  all: destruct (Z.eq_dec len 0) as [->|Hpos];
    [exists 0, s, L, free, D, 0%nat; rewrite app_nil_r; split_and!; [done..|by left|done|by left]|].
  { lia. }
  destruct (copyin_round (S fuel) p pt dst srcva len s L free D Hinv Hu Hpt Hp Hsz Hdst ltac:(lia))
    as (s1 & L1 & free1 & D1 & Hinv1 & Hu1 & HL1 & Hvis & [(Hrun & Hst)|(Hrun & Hmax)]).
  { exists (-1), s1, L1, free1, D1, 0%nat. rewrite app_nil_r, Z.add_0_r.
    split_and!; try done; [by left|right; split_and!; (done || lia)]. }
  set (n := Z.min _ _) in *. rewrite Hrun.
  assert (srcva + n <= MAXVA) as Hd by (unfold PGSIZE in *; change MAXVA with (2 ^ 38) in *;
    pose proof (PGROUNDDOWN_mod srcva); pose proof (PGROUNDDOWN_bounds srcva); unfold PGSIZE in *; dlia).
  destruct (decide (n = len)) as [Hn|Hn].
  { exists 0, s1, L1, free1, D1, (Z.to_nat n). rewrite Hn, Z.sub_diag.
    split_and!; try done; [lia|right; lia|]. left. split; [done|lia]. }
  assert (PGROUNDDOWN srcva = srcva - srcva mod PGSIZE) as Hrd
    by (rewrite PGROUNDDOWN_eq; unfold PGSIZE; dlia).
  destruct (IH (dst ++ ureads (pm s) pt srcva (Z.to_nat n)) (PGROUNDDOWN srcva + PGSIZE) (len - n)
    s1 L1 free1 D1)
    as (r & s2 & L2 & free2 & D2 & k & Hrun2 & Hinv2 & Hu2 & HL2 & Hk & Hkm & Hvis2 & Hres); try done.
  - by eapply lookup_weaken.
  - unfold PGSIZE in *; change MAXVA with (2 ^ 38) in *; lia.
  - lia.
  - replace ((PGROUNDDOWN srcva + PGSIZE) mod PGSIZE) with 0
      by (rewrite PGROUNDDOWN_eq; unfold PGSIZE; dlia). lia.
  - exists r, s2, L2, free2, D2, (Z.to_nat n + k)%nat.
    assert (PGROUNDDOWN srcva + PGSIZE = srcva + Z.of_nat (Z.to_nat n)) as Heq by lia.
    rewrite Heq in *. rewrite ureads_app, app_assoc.
    replace (ureads (pm s) pt (srcva + Z.of_nat (Z.to_nat n)) k)
      with (ureads (pm s1) pt (srcva + Z.of_nat (Z.to_nat n)) k)
      by (destruct Hkm as [->|Hkm]; [done|by apply (ureads_visible L); [done|done|lia|lia]]).
    split_and!; [done|done|done|by trans L1|lia|right; lia|by eapply visible_trans|].
    destruct Hres as [[-> Hk2]|(-> & Hk2 & Hst)]; [left|right]; split_and!; try (done || lia).
    by rewrite Nat2Z.inj_add, Z.add_assoc.
Qed.
End copy.
