(* ===== verification/VmAlloc.v ===== *)
(** * Growing and shrinking user memory: [uvmunmap], [uvmdealloc], [uvmalloc] *)
From S2P Require Import Prelude Machine KString Kalloc Vm VmInv VmWalk VmUser VmCopy.

Section alloc.
Context (kend : Z) (kend_pos : 0 < kend).
Abbreviation vm_inv := (vm_inv kend).

(** Every mapped page of [pt] in [lo, hi) is one of its user pages. *)
Definition range_owned (m : memory) (D : gmap Z (Z * Z)) (pt lo hi : Z) : Prop :=
  forall va, lo <= va < hi -> 0 <= va < MAXVA -> flag (leaf m pt va) PTE_V = true ->
    D !! PTE2PA (leaf m pt va) = Some (pt, va / PGSIZE).

Lemma vm_inv_subD s L free D D' : D' ⊆ D -> vm_inv s L free D -> vm_inv s L free D'.
Proof.
  intros Hsub [? ? ? HD]. split; [done..|]. intros a pt n Ha.
  apply HD. by eapply lookup_weaken.
Qed.

(** ** Removing one mapping *)
Definition unmap_step (pt a : Z) : M pmem unit :=
  pte <~ walk pt a false ;;
  if pte =? 0 then kret tt
  else
    e <~ ldpte pte ;;
    if negb (flag e PTE_V) then kret tt
    else kfree kend (PTE2PA e) ;;; stpte pte 0.

Lemma unmap_free s L free D pt a :
  vm_inv s L free D -> L !! pt = Some 2%nat -> 0 <= a < MAXVA ->
  flag (leaf (pm s) pt a) PTE_V = true ->
  D !! PTE2PA (leaf (pm s) pt a) = Some (pt, a / PGSIZE) ->
  let pa := PTE2PA (leaf (pm s) pt a) in
  exists s', unmap_step pt a s = Ret (tt, s') /\ vm_inv s' L (pa :: free) (delete pa D) /\
    leaf (pm s') pt a = 0 /\
    (forall pt' va', L !! pt' = Some 2%nat -> 0 <= va' < MAXVA ->
       ~ (pt' = pt /\ va' / PGSIZE = a / PGSIZE) -> leaf (pm s') pt' va' = leaf (pm s) pt' va') /\
    (forall b x, is_Some (delete pa D !! b) -> b <= x < b + PGSIZE -> ldb (pm s') x = ldb (pm s) x).
Proof.
  intros Hinv Hpt Ha HV HD pa. unfold unmap_step.
  destruct (leaf_slot _ _ _ HV) as (r & Hr & _).
  pose proof (slot_nonzero _ kend_pos _ _ _ _ _ (vi_pt _ _ _ _ _ Hinv) Hpt Hr) as Hr0.
  rewrite (kbind_ret _ _ _ _ _ (walk_false pt a s Ha)), Hr. cbn [default]. unfold id.
  replace (r =? 0) with false by lia. unfold ldpte. replace (r =? 0) with false by lia.
  unfold kbind at 1, gets. rewrite (leaf_of_slot _ _ _ _ Hr), HV. cbn [negb]. fold pa.
  destruct (vi_D _ _ _ _ _ Hinv _ _ _ HD) as (Hok & Hni & HL & _). fold pa in Hok, Hni, HL.
  destruct (kfree_vm _ kend_pos s L free (delete pa D) pa) as (s1 & Hk & Hinv1 & Hb1 & Hs1); try done.
  { eapply vm_inv_subD; [apply delete_subseteq|done]. }
  { apply lookup_delete_eq. }
  rewrite (kbind_ret _ _ _ _ _ Hk).
  assert (slotl 2 (pm s1) pt a = Some r) as Hr1.
  { rewrite <- Hr. eapply slotl_same; [by apply pt_same_inner|apply Hinv|done]. }
  assert (forall q va', L !! q = Some 2%nat -> leaf (pm s1) q va' = leaf (pm s) q va') as Hl1.
  { intros q va' Hq. by apply (leafl_same kend L); [done|apply Hinv|]. }
  exists (mkPmem (st64 (pm s1) r 0) (freelist s1)). split_and!; [done| | | |].
  - eapply vm_inv_leaf_store; eauto; [lia|].
    intros b pt' n Hb. left. split; [done|]. intros [-> ->].
    apply lookup_delete_Some in Hb as [Hne Hb].
    destruct (vi_D _ _ _ _ _ Hinv _ _ _ Hb) as (_ & _ & _ & _ & _ & _ & Hpa).
    apply Hne. rewrite <- Hpa. unfold pa, leaf. f_equal. apply leafl_page. unfold PGSIZE. dlia.
  - apply (leaf_store_eq kend kend_pos (pm s1) L); try done; apply Hinv1.
  - intros pt' va' Hpt' Hva' Hne. cbn [pm].
    rewrite (leaf_store_ne kend kend_pos (pm s1) L pt a) by (done || apply Hinv1). by apply Hl1.
  - intros b x Hb Hx. cbn [pm].
    destruct (slotl_page _ _ _ _ _ _ _ (vi_pt _ _ _ _ _ Hinv1) Hpt Hr1) as (q & Hq & ->).
    pose proof (owned_apart _ kend_pos _ _ _ _ b x q Hinv1 Hb Hx ltac:(left; by rewrite Hq)) as H1.
    pose proof (owned_apart _ kend_pos _ _ _ _ b x pa Hinv1 Hb Hx ltac:(right; inlist)) as H2.
    pose proof (PX_range 0 a). rewrite ldb_st64_out; [by apply Hb1|].
    unfold slot, PGSIZE in *. lia.
Qed.

(** ** What unmapping the pages of [lo, hi) leaves

    The pages go back to the free list, every other mapping and every byte of
    the pages that stay is as it was. *)
Record shrunk (pt lo hi : Z) (s : pmem) (L : gmap Z nat) (free : list Z) (D : gmap Z (Z * Z))
  (s' : pmem) (free' : list Z) (D' : gmap Z (Z * Z)) : Prop := {
  sh_sub : D' ⊆ D;
  sh_keep : forall b pt' k, D !! b = Some (pt', k) ->
    D' !! b = Some (pt', k) \/ (pt' = pt /\ lo <= k * PGSIZE < hi);
  sh_count : (length free' + size D' = length free + size D)%nat;
  sh_gone : forall va, lo <= va < hi -> flag (leaf (pm s') pt va) PTE_V = false;
  sh_leaf : forall pt' va', L !! pt' = Some 2%nat -> 0 <= va' < MAXVA ->
    ~ (pt' = pt /\ lo <= va' < hi) -> leaf (pm s') pt' va' = leaf (pm s) pt' va';
  sh_bytes : forall b x, is_Some (D' !! b) -> b <= x < b + PGSIZE -> ldb (pm s') x = ldb (pm s) x }.

Lemma shrunk_empty pt lo hi s L free D : hi <= lo -> shrunk pt lo hi s L free D s free D.
Proof. intros. split; try done; [by left|lia]. Qed.

Lemma shrunk_trans pt lo mid hi s L free D s1 free1 D1 s2 free2 D2 :
  L !! pt = Some 2%nat -> 0 <= lo <= mid -> mid <= hi <= MAXVA ->
  shrunk pt lo mid s L free D s1 free1 D1 -> shrunk pt mid hi s1 L free1 D1 s2 free2 D2 ->
  shrunk pt lo hi s L free D s2 free2 D2.
Proof.
  intros Hpt Hlo Hhi [S1 K1 N1 G1 L1 B1] [S2 K2 N2 G2 L2 B2]. split.
  - by trans D1.
  - intros b pt' k Hb. destruct (K1 _ _ _ Hb) as [Hb1|[-> ?]]; [|right; lia].
    destruct (K2 _ _ _ Hb1) as [?|[-> ?]]; [by left|right; lia].
  - lia.
  - intros va Hva. destruct (decide (va < mid)); [|apply G2; lia].
    rewrite L2; [apply G1; lia|done|lia|lia].
  - intros pt' va' Hpt' Hva' Hn. rewrite L2, L1; [done|done|done| |done|done|]; intros [? ?]; apply Hn; split; (done || lia).
  - intros b x [y Hb] Hx. rewrite (B2 b) by (done || by exists y).
    apply (B1 b); [|done]. exists y. by eapply lookup_weaken.
Qed.

Lemma unmap_one s L free D pt a :
  vm_inv s L free D -> L !! pt = Some 2%nat -> 0 <= a < MAXVA -> a mod PGSIZE = 0 ->
  range_owned (pm s) D pt a (a + PGSIZE) ->
  exists s' free' D', unmap_step pt a s = Ret (tt, s') /\ vm_inv s' L free' D' /\
    shrunk pt a (a + PGSIZE) s L free D s' free' D'.
Proof.
  intros Hinv Hpt Ha Hal Hown.
  assert (forall va, a <= va < a + PGSIZE -> va / PGSIZE = a / PGSIZE) as Hpage
    by (intros; unfold PGSIZE in *; dlia).
  destruct (flag (leaf (pm s) pt a) PTE_V) eqn:HV.
  - specialize (Hown a ltac:(unfold PGSIZE; lia) Ha HV).
    destruct (unmap_free _ _ _ _ _ _ Hinv Hpt Ha HV Hown) as (s' & Hr & Hinv' & H0 & Hl & Hb).
    eexists s', _, _. split_and!; [done|done|]. split; [apply delete_subseteq| | | | |done].
    + intros b pt' k Hb'. rewrite lookup_delete. case_decide as E; [|by left].
      subst b. rewrite Hown in Hb'. injection Hb' as <- <-. right. split; [done|unfold PGSIZE in *; dlia].
    + cbn [length]. rewrite map_size_delete, Hown.
      assert (size D <> 0%nat); [|lia]. intros E%map_size_empty_inv. rewrite E in Hown.
      by apply lookup_empty_Some in Hown.
    + intros va Hva. unfold leaf. rewrite (leafl_page _ _ _ _ _ (Hpage _ Hva)).
      fold (leaf (pm s') pt a). by rewrite H0, flag_0.
    + intros pt' va' Hpt' Hva' Hn. apply Hl; [done|done|]. intros [-> E]. apply Hn.
      split; [done|unfold PGSIZE in *; dlia].
  - exists s, free, D. split_and!; [|done|].
    + unfold unmap_step. rewrite (kbind_ret _ _ _ _ _ (walk_false pt a s Ha)).
      destruct (slotl 2 (pm s) pt a) as [r|] eqn:Hr; [|done]. cbn [default]. unfold id.
      pose proof (slot_nonzero _ kend_pos _ _ _ _ _ (vi_pt _ _ _ _ _ Hinv) Hpt Hr).
      unfold ldpte. replace (r =? 0) with false by lia.
      unfold kbind, gets. by rewrite (leaf_of_slot _ _ _ _ Hr), HV.
    + split; try done; [by left|]. intros va Hva. unfold leaf.
      rewrite (leafl_page _ _ _ _ _ (Hpage _ Hva)). done.
Qed.

Lemma range_owned_next pt lo mid hi s L free D s1 free1 D1 :
  L !! pt = Some 2%nat -> mid mod PGSIZE = 0 -> shrunk pt lo mid s L free D s1 free1 D1 ->
  range_owned (pm s) D pt mid hi -> range_owned (pm s1) D1 pt mid hi.
Proof.
  intros Hpt Hal Hsh Hown va Hr Hva. rewrite (sh_leaf _ _ _ _ _ _ _ _ _ _ Hsh) by (done || lia).
  intros HV. specialize (Hown va Hr Hva HV).
  destruct (sh_keep _ _ _ _ _ _ _ _ _ _ Hsh _ _ _ Hown) as [?|[_ ?]]; [done|].
  unfold PGSIZE in *. dlia.
Qed.

Lemma uvmunmap_loop_ok n s L free D pt a :
  vm_inv s L free D -> L !! pt = Some 2%nat -> 0 <= a -> a mod PGSIZE = 0 ->
  a + Z.of_nat n * PGSIZE <= MAXVA -> range_owned (pm s) D pt a (a + Z.of_nat n * PGSIZE) ->
  exists s' free' D',
    uvmunmap_loop kend (n + 1) pt a (a + Z.of_nat n * PGSIZE) true s = Ret (tt, s') /\
    vm_inv s' L free' D' /\ shrunk pt a (a + Z.of_nat n * PGSIZE) s L free D s' free' D'.
Proof.
  revert s free D a. induction n as [|n IH]; intros s free D a Hinv Hpt Ha Hal Hmax Hown;
    cbn [Nat.add uvmunmap_loop].
  { exists s, free, D. rewrite Z.mul_0_l, Z.add_0_r, Z.ltb_irrefl.
    split_and!; [done..|by apply shrunk_empty]. }
  assert (Z.of_nat (S n) * PGSIZE = PGSIZE + Z.of_nat n * PGSIZE) as En by lia.
  assert (0 <= Z.of_nat n * PGSIZE) as Hn0 by (unfold PGSIZE; lia).
  rewrite En in *. generalize dependent (Z.of_nat n * PGSIZE). intros w IH Hmax Hown _ Hw.
  assert (0 < PGSIZE) as Hpg by (unfold PGSIZE; lia).
  replace (a <? a + (PGSIZE + w)) with true by lia.
  destruct (unmap_one s L free D pt a) as (s1 & free1 & D1 & Hr1 & Hinv1 & Hsh1); try done; [lia| |].
  { intros va Hva. apply Hown. lia. }
  rewrite kbind_assoc. fold (unmap_step pt a). rewrite (kbind_ret _ _ _ _ _ Hr1).
  rewrite u64_small by (change MAXVA with (2 ^ 38) in *; lia).
  destruct (IH s1 free1 D1 (a + PGSIZE)) as (s2 & free2 & D2 & Hr2 & Hinv2 & Hsh2); try done.
  - lia.
  - unfold PGSIZE in *. dlia.
  - lia.
  - eapply range_owned_next; [done| |exact Hsh1|]; [unfold PGSIZE in *; dlia|]. intros va Hva. apply Hown. lia.
  - exists s2, free2, D2. rewrite Z.add_assoc. split_and!; [done|done|].
    eapply shrunk_trans; [done| | |done|done]; lia.
Qed.

Lemma uvmunmap_ok s L free D pt va npages :
  vm_inv s L free D -> L !! pt = Some 2%nat -> 0 <= va -> va mod PGSIZE = 0 -> 0 <= npages ->
  va + npages * PGSIZE <= MAXVA -> range_owned (pm s) D pt va (va + npages * PGSIZE) ->
  exists s' free' D', uvmunmap kend pt va npages true s = Ret (tt, s') /\
    vm_inv s' L free' D' /\ shrunk pt va (va + npages * PGSIZE) s L free D s' free' D'.
Proof.
  intros Hinv Hpt Hva Hal Hn Hmax Hown. unfold uvmunmap. rewrite Hal. cbn [Z.eqb negb].
  rewrite u64_small by (unfold PGSIZE in *; change MAXVA with (2 ^ 38) in *; lia).
  destruct (uvmunmap_loop_ok (Z.to_nat npages) s L free D pt va) as (s' & free' & D' & Hr);
    rewrite ?Z2Nat.id by done; try done.
  rewrite Z2Nat.id in Hr by done. eauto.
Qed.

Lemma round_pages sz :
  0 <= sz <= MAXVA -> exists n, PGROUNDUP sz = n * PGSIZE /\ 0 <= n <= 2 ^ 26 /\
    sz <= n * PGSIZE < sz + PGSIZE.
Proof.
  intros H. exists ((sz + PGSIZE - 1) / PGSIZE).
  rewrite PGROUNDUP_eq by (change MAXVA with (2 ^ 38) in *; unfold PGSIZE; lia).
  change MAXVA with (2 ^ 38) in *; unfold PGSIZE. dlia.
Qed.

Lemma uvmdealloc_ok s L free D pt oldsz newsz :
  vm_inv s L free D -> L !! pt = Some 2%nat -> 0 <= newsz <= MAXVA -> 0 <= oldsz <= MAXVA ->
  range_owned (pm s) D pt (PGROUNDUP newsz) (PGROUNDUP oldsz) ->
  exists s' free' D',
    uvmdealloc kend pt oldsz newsz s = Ret (Z.min oldsz newsz, s') /\
    vm_inv s' L free' D' /\
    shrunk pt (PGROUNDUP newsz) (PGROUNDUP oldsz) s L free D s' free' D'.
Proof.
  intros Hinv Hpt Hnew Hold Hown. unfold uvmdealloc.
  destruct (round_pages _ Hnew) as (lo & Elo & Hlo & Hlo'). destruct (round_pages _ Hold) as (hi & Ehi & Hhi & Hhi').
  rewrite Elo, Ehi in *.
  destruct (Z.leb_spec oldsz newsz) as [Hle|Hlt].
  { exists s, free, D. rewrite Z.min_l by done. split_and!; [done..|]. apply shrunk_empty.
    unfold PGSIZE in *. lia. }
  rewrite Z.min_r by lia. ztest; cycle 1.
  { exists s, free, D. split_and!; [done..|]. apply shrunk_empty. lia. }
  replace ((hi * PGSIZE - lo * PGSIZE) / PGSIZE) with (hi - lo)
    by (rewrite <- Z.mul_sub_distr_r, Z.div_mul by (unfold PGSIZE; lia); done).
  rewrite i32_small by lia.
  assert (lo * PGSIZE + (hi - lo) * PGSIZE = hi * PGSIZE) as Esum by lia.
  destruct (uvmunmap_ok s L free D pt (lo * PGSIZE) (hi - lo)) as (s' & free' & D' & Hr & Hinv' & Hsh);
    rewrite ?Esum; try done; [unfold PGSIZE in *; lia|apply Z.mod_mul; unfold PGSIZE; lia|
      unfold PGSIZE in *; lia|change MAXVA with (2 ^ 26 * PGSIZE); unfold PGSIZE in *; lia|].
  exists s', free', D'. rewrite (kbind_ret _ _ _ _ _ Hr). rewrite Esum in Hsh. done.
Qed.

Lemma shrunk_owned pt lo hi s L free D s' free' D' :
  vm_inv s' L free' D' -> 0 <= lo -> lo mod PGSIZE = 0 -> hi mod PGSIZE = 0 ->
  user_owned (pm s) L D -> shrunk pt lo hi s L free D s' free' D' -> user_owned (pm s') L D'.
Proof.
  intros Hinv' Hlo Hla Hha Hu Hsh pt' va' Hpt' Hva'.
  destruct (decide (pt' = pt /\ lo <= va' < hi)) as [[-> Hr]|Hne].
  - by rewrite (sh_gone _ _ _ _ _ _ _ _ _ _ Hsh _ Hr).
  - rewrite (sh_leaf _ _ _ _ _ _ _ _ _ _ Hsh) by done. intros HV HU.
    destruct (sh_keep _ _ _ _ _ _ _ _ _ _ Hsh _ _ _ (Hu _ _ Hpt' Hva' HV HU)) as [?|[-> Hk]]; [done|].
    destruct Hne. split; [done|]. unfold PGSIZE in *. dlia.
Qed.

(** ** Growing: [uvmalloc]

    [undone]: every page allocated has been given back. *)
Record undone (pt lo hi : Z) (s : pmem) (L : gmap Z nat) (free : list Z) (D : gmap Z (Z * Z))
  (s' : pmem) (L' : gmap Z nat) (free' : list Z) : Prop := {
  un_sub : L ⊆ L';
  un_roots : forall q, L' !! q = Some 2%nat -> L !! q = Some 2%nat;
  un_count : (length free' + size L' = length free + size L)%nat;
  un_gone : forall va, lo <= va < hi -> flag (leaf (pm s') pt va) PTE_V = false;
  un_leaf : forall pt' va', L !! pt' = Some 2%nat -> 0 <= va' < MAXVA ->
    ~ (pt' = pt /\ lo <= va' < hi) -> leaf (pm s') pt' va' = leaf (pm s) pt' va';
  un_bytes : forall b x, is_Some (D !! b) -> b <= x < b + PGSIZE -> ldb (pm s') x = ldb (pm s) x }.

Lemma grew_shrunk pt lo hi perm s0 L0 free0 D0 s L free D s' free' D' :
  vm_inv s0 L0 free0 D0 -> vm_inv s' L free' D' ->
  grew pt lo hi perm s0 L0 free0 D0 s L free D -> shrunk pt lo hi s L free D s' free' D' ->
  D' = D0 /\ undone pt lo hi s0 L0 free0 D0 s' L free'.
Proof.
  intros Hinv0 Hinv' Hg Hsh.
  assert (D' = D0) as ->.
  { apply map_eq. intros b. destruct (D0 !! b) as [[pt' k]|] eqn:E0.
    - destruct (sh_keep _ _ _ _ _ _ _ _ _ _ Hsh b pt' k) as [?|[-> Hk]]; [|done|].
      { eapply lookup_weaken; [done|apply Hg]. }
      destruct (vi_D _ _ _ _ _ Hinv0 _ _ _ E0) as (_ & _ & _ & _ & _ & HV & _).
      by rewrite (gw_old _ _ _ _ _ _ _ _ _ _ _ _ Hg _ Hk) in HV.
    - destruct (D' !! b) as [[pt' k]|] eqn:E'; [|done].
      destruct (gw_newD _ _ _ _ _ _ _ _ _ _ _ _ Hg b pt' k) as [?|[-> Hk]]; [|congruence|].
      { eapply lookup_weaken; [done|apply Hsh]. }
      destruct (vi_D _ _ _ _ _ Hinv' _ _ _ E') as (_ & _ & _ & _ & _ & HV & _).
      by rewrite (sh_gone _ _ _ _ _ _ _ _ _ _ Hsh _ Hk) in HV. }
  split; [done|]. destruct Hg as [A1 B1 C1 E1 F1 G1 H1 I1 J1], Hsh as [S2 K2 N2 G2 L2 B2]. split; try done.
  - lia.
  - intros pt' va' Hpt' Hva' Hn. rewrite L2, I1; [done..| |done|done].
    by eapply lookup_weaken.
  - intros b x Hb Hx. rewrite (B2 b) by done. by apply (J1 b).
Qed.

Lemma undone_wider pt lo mid hi s L free D s' L' free' :
  L !! pt = Some 2%nat -> 0 <= lo <= mid -> mid <= hi <= MAXVA ->
  (forall va, mid <= va < hi -> flag (leaf (pm s) pt va) PTE_V = false) ->
  undone pt lo mid s L free D s' L' free' -> undone pt lo hi s L free D s' L' free'.
Proof.
  intros Hpt Hlo Hhi Hv [A B C E F G]. split; try done.
  - intros va Hva. destruct (decide (va < mid)); [apply E; lia|].
    rewrite F by (done || lia). apply Hv. lia.
  - intros pt' va' ?? Hn. apply F; [done|done|]. intros [-> ?]. apply Hn. split; [done|lia].
Qed.

Lemma range_owned_grew pt lo hi perm s0 L0 free0 D0 s L free D :
  grew pt lo hi perm s0 L0 free0 D0 s L free D -> range_owned (pm s) D pt lo hi.
Proof.
  intros Hg va Hr Hva _. by destruct (gw_new _ _ _ _ _ _ _ _ _ _ _ _ Hg _ Hr) as (b & -> & -> & _ & ? & _).
Qed.

Lemma undone_owned pt lo hi s L free D s' L' free' :
  user_owned (pm s) L D -> undone pt lo hi s L free D s' L' free' -> user_owned (pm s') L' D.
Proof.
  intros Hu Hun pt' va' Hpt'%Hun Hva'.
  destruct (decide (pt' = pt /\ lo <= va' < hi)) as [[-> Hr]|Hne].
  - by rewrite (un_gone _ _ _ _ _ _ _ _ _ _ Hun _ Hr).
  - rewrite (un_leaf _ _ _ _ _ _ _ _ _ _ Hun) by done. intros. by apply Hu.
Qed.

Lemma undone_visible pt lo hi s L free D s' L' free' :
  user_owned (pm s) L D -> (forall va, lo <= va < hi -> flag (leaf (pm s) pt va) PTE_V = false) ->
  undone pt lo hi s L free D s' L' free' -> visible L (pm s) (pm s').
Proof.
  intros Hu Hold Hun pt' va' Hpt' Hva'.
  destruct (decide (pt' = pt /\ lo <= va' < hi)) as [[-> Hr]|Hne].
  - unfold uread. by rewrite (un_gone _ _ _ _ _ _ _ _ _ _ Hun _ Hr), (Hold _ Hr).
  - apply (uread_same _ _ L D); try done; [by apply Hun|apply Hun].
Qed.

(** The failure path: what was allocated so far goes back. *)
Lemma uvmalloc_undo pt lo a hi perm s0 L0 free0 D0 s L free D :
  vm_inv s0 L0 free0 D0 -> L0 !! pt = Some 2%nat -> 0 <= lo <= a -> a <= hi <= MAXVA ->
  lo mod PGSIZE = 0 -> a mod PGSIZE = 0 ->
  (forall va, lo <= va < hi -> flag (leaf (pm s0) pt va) PTE_V = false) ->
  vm_inv s L free D -> grew pt lo a perm s0 L0 free0 D0 s L free D ->
  exists s' free', (uvmdealloc kend pt a lo ;;; kret 0) s = Ret (0, s') /\
    vm_inv s' L free' D0 /\ undone pt lo hi s0 L0 free0 D0 s' L free'.
Proof.
  intros Hinv0 Hpt Hlo Hhi Hal Haa Hold Hinv Hg.
  assert (forall z, 0 <= z <= MAXVA -> z mod PGSIZE = 0 -> PGROUNDUP z = z) as Hru.
  { intros z Hz Hzz. rewrite PGROUNDUP_eq by (change MAXVA with (2 ^ 38) in *; unfold PGSIZE; lia).
    unfold PGSIZE in *. dlia. }
  destruct (uvmdealloc_ok s L free D pt a lo) as (s' & free' & D' & Hr & Hinv' & Hsh); try done; [|lia|lia| |].
  { eapply lookup_weaken; [done|apply Hg]. }
  { rewrite !Hru by (done || lia). by eapply range_owned_grew. }
  rewrite !Hru in Hsh by (done || lia).
  destruct (grew_shrunk _ _ _ _ _ _ _ _ _ _ _ _ _ _ _ Hinv0 Hinv' Hg Hsh) as [-> Hun].
  exists s', free'. rewrite (kbind_ret _ _ _ _ _ Hr). split_and!; [done..|].
  eapply undone_wider; [done|done|done| |exact Hun]. intros va Hva. apply Hold. lia.
Qed.

Lemma uvmalloc_loop_ok n fuel pt lo a newsz xperm s0 L0 free0 D0 s L free D :
  let perm := Z.lor (Z.lor PTE_R PTE_U) xperm in
  let hi := a + Z.of_nat n * PGSIZE in
  vm_inv s0 L0 free0 D0 -> user_owned (pm s0) L0 D0 -> L0 !! pt = Some 2%nat ->
  0 <= lo <= a -> hi <= MAXVA -> lo mod PGSIZE = 0 -> a mod PGSIZE = 0 -> 0 <= perm < 1024 ->
  newsz <= hi < newsz + PGSIZE \/ (n = 0%nat /\ newsz <= a) -> (n < fuel)%nat ->
  (forall va, lo <= va < hi -> flag (leaf (pm s0) pt va) PTE_V = false) ->
  vm_inv s L free D -> grew pt lo a perm s0 L0 free0 D0 s L free D ->
  exists r s' L' free' D',
    uvmalloc_loop kend fuel pt a lo newsz xperm s = Ret (r, s') /\ vm_inv s' L' free' D' /\
    ((r = newsz /\ grew pt lo hi perm s0 L0 free0 D0 s' L' free' D') \/
     (r = 0 /\ D' = D0 /\ undone pt lo hi s0 L0 free0 D0 s' L' free')).
Proof.
  revert fuel a s L free D. induction n as [|n IH];
    intros fuel a s L free D perm hi Hinv0 Hu0 Hpt Hlo Hhi Hal Haa Hperm Hsz Hfuel Hold Hinv Hg;
    (destruct fuel as [|fuel]; [lia|]); cbn [uvmalloc_loop].
  { exists newsz, s, L, free, D. replace (a <? newsz) with false by lia. split_and!; [done..|].
    left. unfold hi. by rewrite Z.mul_0_l, Z.add_0_r. }
  assert (hi = a + PGSIZE + Z.of_nat n * PGSIZE /\ 0 < PGSIZE /\ 0 <= Z.of_nat n * PGSIZE) as (Ehi & Hpg & Hnn)
    by (unfold hi, PGSIZE; lia).
  replace (a <? newsz) with true by lia.
  assert (L !! pt = Some 2%nat) as Hptn by (eapply lookup_weaken; [done|apply Hg]).
  destruct free as [|pg free].
  { rewrite (kbind_ret _ _ _ _ _ (kalloc_nil _ _ (vi_free _ _ _ _ _ Hinv))). cbn [Z.eqb].
    destruct (uvmalloc_undo pt lo a hi perm s0 L0 free0 D0 s L [] D) as (s' & free' & Hr & Hinv' & Hun);
      try done; [lia|]. exists 0, s', L, free', D0. split_and!; [done..|]. by right. }
  destruct (alloc_map _ kend_pos s L pg free D pt a perm)
    as (Hb & s1 & r & s3 & L' & free' & Hk & Hm & Hr); try done; [|lia| |].
  { by eapply grew_owned. }
  { rewrite (gw_leaf _ _ _ _ _ _ _ _ _ _ _ _ Hg) by (done || lia). apply Hold. lia. }
  rewrite (kbind_ret _ _ _ _ _ Hk). replace (pg =? 0) with false by lia.
  rewrite (kbind_ret _ _ _ _ _ (set_pm_eq _ _)), (kbind_ret _ _ _ _ _ Hm).
  destruct Hr as [(-> & Hinv' & Hg')|(-> & s4 & Hkf & Hinv' & Hg')]; cbn [Z.eqb negb].
  - rewrite u64_small by (change MAXVA with (2 ^ 38) in *; lia).
    destruct (IH fuel (a + PGSIZE) s3 L' free' (<[pg := (pt, a / PGSIZE)]> D))
      as (r & s' & L2 & free2 & D2 & Hr & Hinv2 & Hres); try done; rewrite <- ?Ehi; try done; try lia.
    + unfold PGSIZE in *; dlia.
    + eapply grew_trans; [done| | |exact Hg|exact Hg']; lia.
    + exists r, s', L2, free2, D2. by rewrite <- Ehi in Hres.
  - rewrite (kbind_ret _ _ _ _ _ Hkf).
    destruct (uvmalloc_undo pt lo a hi perm s0 L0 free0 D0 s4 L' [pg] D) as (s' & free2 & Hr & Hinv2 & Hun);
      try done; [lia| |].
    { eapply grew_trans; [done| | |exact Hg|exact Hg']; lia. }
    exists 0, s', L', free2, D0. split_and!; [done..|]. by right.
Qed.

Lemma uvmalloc_ok pt oldsz newsz xperm s L free D :
  let perm := Z.lor (Z.lor PTE_R PTE_U) xperm in
  vm_inv s L free D -> user_owned (pm s) L D -> L !! pt = Some 2%nat ->
  0 <= oldsz <= newsz -> newsz <= MAXVA -> 0 <= xperm < 1024 ->
  (forall va, PGROUNDUP oldsz <= va < PGROUNDUP newsz -> flag (leaf (pm s) pt va) PTE_V = false) ->
  exists r s' L' free' D', uvmalloc kend pt oldsz newsz xperm s = Ret (r, s') /\
    vm_inv s' L' free' D' /\
    ((r = newsz /\ grew pt (PGROUNDUP oldsz) (PGROUNDUP newsz) perm s L free D s' L' free' D') \/
     (r = 0 /\ D' = D /\ undone pt (PGROUNDUP oldsz) (PGROUNDUP newsz) s L free D s' L' free')).
Proof.
  intros perm Hinv Hu Hpt Hsz Hmax Hx Hold. unfold uvmalloc. replace (newsz <? oldsz) with false by lia.
  destruct (round_pages oldsz ltac:(lia)) as (lo & Elo & Hlo & Hlo').
  destruct (round_pages newsz ltac:(lia)) as (hi & Ehi & Hhi & Hhi'). rewrite Elo, Ehi in *.
  assert (lo <= hi) as Hle by (unfold PGSIZE in *; lia).
  assert (hi * PGSIZE = lo * PGSIZE + Z.of_nat (Z.to_nat (hi - lo)) * PGSIZE) as Esum
    by (unfold PGSIZE; lia).
  assert (0 <= perm < 1024) as Hperm by (apply (lor_range _ _ 10); [lia|change (Z.lor PTE_R PTE_U) with 18; lia|lia]).
  destruct (uvmalloc_loop_ok (Z.to_nat (hi - lo)) (Z.to_nat ((newsz - lo * PGSIZE) / PGSIZE) + 2) pt
    (lo * PGSIZE) (lo * PGSIZE) newsz xperm s L free D s L free D)
    as (r & s' & L' & free' & D' & Hr & Hres); rewrite <- ?Esum; try done.
  - unfold PGSIZE in *; lia.
  - change MAXVA with (2 ^ 26 * PGSIZE). unfold PGSIZE in *. lia.
  - apply Z.mod_mul. unfold PGSIZE; lia.
  - apply Z.mod_mul. unfold PGSIZE; lia.
  - left. lia.
  - unfold PGSIZE in *. dlia.
  - apply grew_refl.
  - rewrite <- Esum in Hres. eauto 10.
Qed.
End alloc.
