(* ===== verification/VmTheorems.v ===== *)
(** * The properties of the virtual-memory system *)
From S2P Require Import Prelude Machine KString Kalloc Vm VmInv VmWalk VmUser VmCopy VmAlloc.

(** ** Starting points: the state after boot, and a new page table *)
Lemma boot_inv kend s free : kmem_ok kend s free -> vm_inv kend s ∅ free ∅ /\ user_owned (pm s) ∅ ∅.
Proof.
  intros Hf. split; [|by intros ???%lookup_empty_Some].
  split; [|done|intros; apply lookup_empty|by intros ????%lookup_empty_Some].
  split; intros *; intros ?%lookup_empty_Some; done.
Qed.

(** A page of zeros is an empty page table. *)
Lemma root_inv kend s L pg free D :
  0 < kend -> vm_inv kend s L free D -> user_owned (pm s) L D -> page_ok kend pg = true -> (pg ∉ free) ->
  L !! pg = None -> D !! pg = None -> (forall i, 0 <= i < 512 -> ld64 (pm s) (slot pg i) = 0) ->
  vm_inv kend s (<[pg := 2%nat]> L) free D /\ user_owned (pm s) (<[pg := 2%nat]> L) D.
Proof.
  intros Hk [Hpt Hf HLF HD] Hu Hok Hni HL HDn H0.
  assert (forall va, leaf (pm s) pg va = 0) as Hl0.
  { intros va. unfold leaf. cbn [leafl]. rewrite H0 by (apply PX_range; lia). by rewrite flag_0. }
  split; [split; [split| | |]|].
  - intros p l. rewrite lookup_insert. case_decide as E; [|apply Hpt]. intros [= <-]. by subst.
  - intros p l i. rewrite lookup_insert. case_decide as E.
    + intros _ Hi. subst. rewrite H0, flag_0 by done. done.
    + intros Hp Hi Hv. rewrite lookup_insert_ne; [by eapply Hpt|].
      intros Heq. pose proof (pt_next _ _ _ Hpt _ _ _ Hp Hi Hv) as Hn. rewrite <- Heq in Hn. congruence.
  - intros p l i p' l' i'. rewrite !lookup_insert. case_decide; case_decide; subst; intros Hp Hp' Hi Hi'.
    1-3: rewrite ?(H0 i), ?(H0 i'), ?flag_0 by done; done.
    by eapply Hpt.
  - done.
  - intros a Ha. rewrite lookup_insert_ne; [by apply HLF|]. by intros ->.
  - intros a pt n Ha. destruct (HD _ _ _ Ha) as (? & ? & ? & Hr & ? & ? & ?).
    rewrite !lookup_insert_ne by congruence. split_and!; (done || lia).
  - intros pt va. rewrite lookup_insert. case_decide as E; [|apply Hu].
    intros _ _. subst. rewrite Hl0, flag_0. done.
Qed.

Lemma uvmcreate_ok kend s L pg free D :
  0 < kend -> vm_inv kend s L (pg :: free) D -> user_owned (pm s) L D ->
  exists s', uvmcreate s = Ret (pg, s') /\ vm_inv kend s' (<[pg := 2%nat]> L) free D /\
    user_owned (pm s') (<[pg := 2%nat]> L) D /\ visible L (pm s) (pm s') /\
    forall va, leaf (pm s') pg va = 0.
Proof.
  intros Hk Hinv Hu.
  destruct (fresh_page _ Hk _ _ _ _ _ Hinv Hu) as (s1 & Hka & Hinv2 & Hok & Hni & HL & HD & Hl & H0 & Hout).
  exists (mkPmem (memset (pm s1) pg 0 PGSIZE) (freelist s1)).
  apply page_ok_bound in Hok as Hb; [|done].
  assert (forall i, 0 <= i < 512 -> ld64 (memset (pm s1) pg 0 PGSIZE) (slot pg i) = 0) as Hz.
  { intros i Hi. apply ld64_memset0; unfold slot, PGSIZE; lia. }
  assert (user_owned (memset (pm s1) pg 0 PGSIZE) L D) as Hu2
    by (eapply user_owned_same; [done|done|intros; by apply Hl]).
  split; [|split; [|split; [|split]]].
  - unfold uvmcreate. rewrite (kbind_ret _ _ _ _ _ Hka). by replace (pg =? 0) with false by lia.
  - by apply root_inv.
  - by eapply root_inv.
  - intros q va Hq Hva. apply (uread_same _ _ L D); auto. intros a x Ha Hx. apply Hout.
    eapply (owned_apart _ Hk _ _ _ _ _ _ pg Hinv Ha Hx). right. inlist.
  - intros va. unfold leaf. cbn [leafl pm]. rewrite Hz by (apply PX_range; lia). by rewrite flag_0.
Qed.

(** The state of the memory system between two steps of the kernel: [L] the
    page-table pages with their levels, [free] the free list, [D] the user
    pages with the root and page number that map them. *)
Definition uspace (kend : Z) (s : pmem) (L : gmap Z nat) (free : list Z) (D : gmap Z (Z * Z)) : Prop :=
  vm_inv kend s L free D /\ user_owned (pm s) L D.

(** ** A small machine: six free pages, one of them made a page table *)
Definition demo_run {A} (m : M pmem A) (s : pmem) : pmem :=
  match m s with Ret (_, s') => s' | _ => s end.
Definition demo_boot : pmem :=
  demo_run (kops_run 4096 (KFree <$> [4096; 8192; 12288; 16384; 20480; 24576])) (mkPmem ∅ 0).
Definition demo : pmem := demo_run uvmcreate demo_boot.
Definition demo_L : gmap Z nat := {[24576 := 2%nat]}.
Definition demo_free : list Z := [20480; 16384; 12288; 8192; 4096].
Definition demo_p : vmproc := mkVmproc 8192 24576.

Lemma demo_ok :
  uspace 4096 demo demo_L demo_free ∅ /\ demo_L !! 24576 = Some 2%nat /\
  (forall va, leaf (pm demo) 24576 va = 0).
Proof.
  destruct (kops_run_ok 4096 (mkPmem ∅ 0) [] (KFree <$> [4096; 8192; 12288; 16384; 20480; 24576])
    [0; 0; 0; 0; 0; 0] (24576 :: demo_free)) as (s & Hr & Hs); [done| |by vm_compute|].
  { split_and!; [done|constructor..]. }
  destruct (boot_inv _ _ _ Hs) as [Hi Hu].
  destruct (uvmcreate_ok 4096 s ∅ 24576 demo_free ∅ ltac:(lia) Hi Hu) as (s' & Hc & Hi' & Hu' & _ & Hl).
  assert (demo = s') as ->.
  { unfold demo, demo_boot, demo_run at 2. rewrite Hr. unfold demo_run. by rewrite Hc. }
  split_and!; [split|apply lookup_insert_eq|]; done.
Qed.

(** C2: [copyout] is safe and correct for every user address and length.  It
    never panics; it returns 0 after the process sees all of [src] at
    [dstva], or -1 after the longest prefix that fits, stopping at an address
    that is outside the address space, not writable by the process, beyond
    its size, or that no free page was left for; no other byte of any process
    changes, and lazily allocated pages are faulted in on the way. *)
Theorem copyout_spec kend p pt dstva src s L free D :
  0 < kend -> uspace kend s L free D -> L !! pt = Some 2%nat ->
  p_pagetable p = pt -> p_sz p <= MAXVA -> 0 <= dstva < 2 ^ 64 ->
  Forall (fun b => 0 <= b < 256) src ->
  exists r s' L' free' D' k,
    copyout kend p pt dstva src (Z.of_nat (length src)) s = Ret (r, s') /\
    uspace kend s' L' free' D' /\ L ⊆ L' /\
    written pt dstva (take k src) L (pm s) (pm s') /\
    ((r = 0 /\ k = length src) \/
     (r = -1 /\ (k < length src)%nat /\ stuck p s' free' pt (dstva + Z.of_nat k) true)).
Proof.
  intros Hk [Hinv Hu] Hpt Hp Hsz Hd Hsrc. unfold copyout.
  set (n := Z.to_nat (Z.of_nat (length src) / PGSIZE)).
  replace (n + 3)%nat with (S (n + 2)) by lia.
  destruct (copyout_loop_ok kend Hk (n + 2) p pt dstva src s L free D)
    as (r & s' & L' & free' & D' & k & Hr & Hinv' & Hu' & HL & Hkl & Hw & Hres); try done.
  { unfold n, PGSIZE. dlia. }
  exists r, s', L', free', D', k. split_and!; done.
Qed.

Lemma copyout_spec_witness :
  exists r s' L' free' D' k,
    copyout 4096 demo_p 24576 4094 [1; 2; 3; 4] 4 demo = Ret (r, s') /\
    uspace 4096 s' L' free' D' /\ demo_L ⊆ L' /\
    written 24576 4094 (take k [1; 2; 3; 4]) demo_L (pm demo) (pm s') /\
    ((r = 0 /\ k = 4%nat) \/
     (r = -1 /\ (k < 4)%nat /\ stuck demo_p s' free' 24576 (4094 + Z.of_nat k) true)).
Proof.
  destruct demo_ok as (Hu & Hpt & _).
  apply (copyout_spec 4096 demo_p 24576 4094 [1; 2; 3; 4] demo demo_L demo_free ∅);
    [lia|exact Hu|exact Hpt|reflexivity|by vm_compute|lia|].
  repeat constructor; lia.
Defined.



(** C14: [uvmalloc] is all or nothing.  It returns [newsz] with every page of
    the growth mapped to a zeroed page of its own, or 0 with every page it
    allocated for the process given back; either way no page is lost (page
    tables it built are kept) and no process sees a difference. *)
Theorem uvmalloc_all_or_nothing kend pt oldsz newsz xperm s L free D :
  let perm := Z.lor (Z.lor PTE_R PTE_U) xperm in
  0 < kend -> uspace kend s L free D -> L !! pt = Some 2%nat ->
  0 <= oldsz <= newsz -> newsz <= MAXVA -> 0 <= xperm < 1024 ->
  (forall va, PGROUNDUP oldsz <= va < PGROUNDUP newsz -> flag (leaf (pm s) pt va) PTE_V = false) ->
  exists r s' L' free' D', uvmalloc kend pt oldsz newsz xperm s = Ret (r, s') /\
    uspace kend s' L' free' D' /\ visible L (pm s) (pm s') /\
    (length free' + size D' + size L' = length free + size D + size L)%nat /\
    ((r = newsz /\ grew pt (PGROUNDUP oldsz) (PGROUNDUP newsz) perm s L free D s' L' free' D') \/
     (r = 0 /\ D' = D /\ undone pt (PGROUNDUP oldsz) (PGROUNDUP newsz) s L free D s' L' free')).
Proof.
  intros perm Hk [Hinv Hu] Hpt Hsz Hmax Hx Hold.
  destruct (uvmalloc_ok kend Hk pt oldsz newsz xperm s L free D)
    as (r & s' & L' & free' & D' & Hr & Hinv' & Hres); try done.
  exists r, s', L', free', D'. split; [done|].
  destruct Hres as [[-> Hg]|(-> & -> & Hun)].
  - split_and!; [split; [done|by eapply grew_owned]|by eapply grew_visible|apply Hg|by left].
  - split_and!; [split; [done|by eapply undone_owned]|by eapply undone_visible| |by right].
    pose proof (un_count _ _ _ _ _ _ _ _ _ _ Hun). lia.
Qed.

Lemma uvmalloc_all_or_nothing_witness :
  exists r s' L' free' D', uvmalloc 4096 24576 0 5000 PTE_W demo = Ret (r, s') /\
    uspace 4096 s' L' free' D' /\ visible demo_L (pm demo) (pm s') /\
    (length free' + size D' + size L' =
     length demo_free + size (∅ : gmap Z (Z * Z)) + size demo_L)%nat /\
    ((r = 5000 /\ grew 24576 (PGROUNDUP 0) (PGROUNDUP 5000) (Z.lor (Z.lor PTE_R PTE_U) PTE_W)
       demo demo_L demo_free ∅ s' L' free' D') \/
     (r = 0 /\ D' = ∅ /\ undone 24576 (PGROUNDUP 0) (PGROUNDUP 5000) demo demo_L demo_free ∅ s' L' free')).
Proof.
  destruct demo_ok as (Hu & Hpt & Hl).
  apply (uvmalloc_all_or_nothing 4096 24576 0 5000 PTE_W demo demo_L demo_free ∅);
    [lia|exact Hu|exact Hpt|lia|by vm_compute|change PTE_W with 4; lia|].
  intros va _. rewrite Hl. apply flag_0.
Defined.

(** [uvmdealloc] returns the smaller size, gives every user page of the
    range back to the free list and leaves every other mapping, and every
    byte of the pages that stay, alone. *)
Theorem uvmdealloc_frees kend pt oldsz newsz s L free D :
  0 < kend -> uspace kend s L free D -> L !! pt = Some 2%nat ->
  0 <= newsz <= MAXVA -> 0 <= oldsz <= MAXVA ->
  range_owned (pm s) D pt (PGROUNDUP newsz) (PGROUNDUP oldsz) ->
  exists s' free' D',
    uvmdealloc kend pt oldsz newsz s = Ret (Z.min oldsz newsz, s') /\
    uspace kend s' L free' D' /\
    shrunk pt (PGROUNDUP newsz) (PGROUNDUP oldsz) s L free D s' free' D'.
Proof.
  intros Hk [Hinv Hu] Hpt Hn Ho Hown.
  destruct (uvmdealloc_ok kend Hk s L free D pt oldsz newsz) as (s' & free' & D' & Hr & Hinv' & Hsh); try done.
  exists s', free', D'. split_and!; [done|split; [done|]|done].
  destruct (round_pages _ Hn) as (lo & Elo & Hlo & _). destruct (round_pages _ Ho) as (hi & Ehi & _).
  eapply shrunk_owned; [done| | | |done|done]; rewrite ?Elo, ?Ehi; unfold PGSIZE; [lia|dlia..].
Qed.

Lemma uvmdealloc_frees_witness :
  exists s' free' D', uvmdealloc 4096 24576 5000 1 demo = Ret (1, s') /\
    uspace 4096 s' demo_L free' D' /\
    shrunk 24576 (PGROUNDUP 1) (PGROUNDUP 5000) demo demo_L demo_free ∅ s' free' D'.
Proof.
  destruct demo_ok as (Hu & Hpt & Hl).
  apply (uvmdealloc_frees 4096 24576 5000 1 demo demo_L demo_free ∅);
    [lia|exact Hu|exact Hpt|change MAXVA with (2 ^ 38); lia|change MAXVA with (2 ^ 38); lia|].
  intros va _ _. rewrite Hl, flag_0. done.
Defined.

(** C27: Lazy allocation is transparent.  For every address below the limit of
    the address space [vmfault] returns without a panic; it changes nothing
    that any process can see; and it returns either 0, with no mapping
    changed, because the address is beyond the process's size, already mapped
    or no page is left, or the page that the faulting page now maps with
    read, write and user permission. *)
Theorem vmfault_transparent kend p pt va s L free D :
  0 < kend -> uspace kend s L free D -> L !! pt = Some 2%nat ->
  p_pagetable p = pt -> 0 <= va -> (va < p_sz p -> va < MAXVA) ->
  exists r s' L' free' D' hi, vmfault kend p pt va s = Ret (r, s') /\
    uspace kend s' L' free' D' /\ visible L (pm s) (pm s') /\
    grew pt (PGROUNDDOWN va) hi PTE_WUR s L free D s' L' free' D' /\
    ((r = 0 /\ hi = PGROUNDDOWN va /\
      (p_sz p <= va \/ flag (leaf (pm s) pt (PGROUNDDOWN va)) PTE_V = true \/
       (length free' <= 1)%nat)) \/
     (r <> 0 /\ va < p_sz p /\ hi = PGROUNDDOWN va + PGSIZE /\
      PTE2PA (leaf (pm s') pt (PGROUNDDOWN va)) = r)).
Proof.
  intros Hk [Hinv Hu] Hpt Hp Hva Hmax.
  destruct (vmfault_ok kend Hk s L free D p pt va)
    as (r & s' & L' & free' & D' & hi & Hr & Hinv' & Hg & Hres); try done.
  exists r, s', L', free', D', hi.
  split_and!; [done|split; [done|by eapply grew_owned]|by eapply grew_visible|done|done].
Qed.

Lemma vmfault_transparent_witness :
  exists r s' L' free' D' hi, vmfault 4096 demo_p 24576 4100 demo = Ret (r, s') /\
    uspace 4096 s' L' free' D' /\ visible demo_L (pm demo) (pm s') /\
    grew 24576 (PGROUNDDOWN 4100) hi PTE_WUR demo demo_L demo_free ∅ s' L' free' D' /\
    ((r = 0 /\ hi = PGROUNDDOWN 4100 /\
      (8192 <= 4100 \/ flag (leaf (pm demo) 24576 (PGROUNDDOWN 4100)) PTE_V = true \/
       (length free' <= 1)%nat)) \/
     (r <> 0 /\ 4100 < 8192 /\ hi = PGROUNDDOWN 4100 + PGSIZE /\
      PTE2PA (leaf (pm s') 24576 (PGROUNDDOWN 4100)) = r)).
Proof.
  destruct demo_ok as (Hu & Hpt & _).
  apply (vmfault_transparent 4096 demo_p 24576 4100 demo demo_L demo_free ∅);
    [lia|exact Hu|exact Hpt|reflexivity|lia|intros _; by vm_compute].
Defined.

(** C40: A process whose size exceeds the address space, which the lazy path of
    [sbrk] allows, makes the kernel panic by touching an address at or above
    MAXVA: [vmfault] walks the page table with it. *)
Theorem vmfault_panics_beyond_MAXVA kend p pt va s :
  MAXVA <= PGROUNDDOWN va -> va < p_sz p -> vmfault kend p pt va s = Panic "walk".
Proof.
  intros Hva Hsz. unfold vmfault, ismapped, walk. replace (p_sz p <=? va) with false by lia.
  apply kbind_panic, kbind_panic. by replace (MAXVA <=? PGROUNDDOWN va) with true by lia.
Qed.

Lemma vmfault_panics_beyond_MAXVA_witness :
  vmfault 4096 (mkVmproc (MAXVA + 8192) 24576) 24576 (MAXVA + 4096) demo = Panic "walk".
Proof. apply vmfault_panics_beyond_MAXVA; [by vm_compute|by vm_compute]. Defined.

(** [mappages] maps a range of pages.  On an unmapped, page-aligned range
    it does not panic; it returns 0 with page j of the range mapped to page j
    of the physical range with the given permissions, or -1, out of memory,
    with a prefix of the range mapped; every other mapping is unchanged. *)
Theorem mappages_maps kend pt va size pa perm s L free D :
  0 < kend -> uspace kend s L free D -> L !! pt = Some 2%nat ->
  0 <= va -> va mod PGSIZE = 0 -> 0 < size -> size mod PGSIZE = 0 -> va + size <= MAXVA ->
  0 <= pa -> pa + size <= 2 ^ 56 -> 0 <= perm < 1024 ->
  (forall a, va <= a < va + size -> flag (leaf (pm s) pt a) PTE_V = false) ->
  exists r s' L' free' k,
    mappages pt va size pa perm s = Ret (r, s') /\ vm_inv kend s' L' free' D /\
    extends s L free s' L' free' /\
    ((r = 0 /\ k * PGSIZE = size) \/ (r = -1 /\ 0 <= k * PGSIZE < size /\ free' = [])) /\
    (forall j, 0 <= j < k -> leaf (pm s') pt (va + j * PGSIZE) = mkpte (pa + j * PGSIZE) perm) /\
    (forall pt' va', L !! pt' = Some 2%nat -> 0 <= va' < MAXVA ->
       ~ (pt' = pt /\ va <= va' < va + k * PGSIZE) -> leaf (pm s') pt' va' = leaf (pm s) pt' va').
Proof.
  intros Hk [Hinv Hu] Hpt Hva Hal Hsz Hsal Hmax Hpa Hpa' Hperm Hold. unfold mappages.
  rewrite Hal, Hsal. replace (size =? 0) with false by lia. cbn [Z.eqb negb].
  assert (exists n, Z.to_nat (size / PGSIZE) = S n /\ size = (Z.of_nat n + 1) * PGSIZE) as (n & Hn & Hsn).
  { exists (Z.to_nat (size / PGSIZE - 1)). unfold PGSIZE in *. dlia. }
  rewrite Hn, u64_small by (change MAXVA with (2 ^ 38) in *; unfold PGSIZE in *; lia).
  destruct (mappages_loop_ok kend Hk n pt va pa perm s L free D (va + size - PGSIZE))
    as (r & s' & L' & free' & k & Hr & Hinv' & Hex & Hres & Hin & Hout); rewrite <- ?Hsn; try done; try lia.
  { intros j Hj. apply Hold. unfold PGSIZE in *. lia. }
  exists r, s', L', free', k. split_and!; try done.
  destruct Hres as [(-> & -> & _)|(-> & Hkn & -> & _)]; [left|right]; unfold PGSIZE in *; split_and!; (done || lia).
Qed.

Lemma mappages_maps_witness :
  exists r s' L' free' k,
    mappages 24576 4096 8192 (KERNBASE + 4096) PTE_R demo = Ret (r, s') /\ vm_inv 4096 s' L' free' ∅ /\
    extends demo demo_L demo_free s' L' free' /\
    ((r = 0 /\ k * PGSIZE = 8192) \/ (r = -1 /\ 0 <= k * PGSIZE < 8192 /\ free' = [])) /\
    (forall j, 0 <= j < k -> leaf (pm s') 24576 (4096 + j * PGSIZE) = mkpte (KERNBASE + 4096 + j * PGSIZE) PTE_R) /\
    (forall pt' va', demo_L !! pt' = Some 2%nat -> 0 <= va' < MAXVA ->
       ~ (pt' = 24576 /\ 4096 <= va' < 4096 + k * PGSIZE) -> leaf (pm s') pt' va' = leaf (pm demo) pt' va').
Proof.
  destruct demo_ok as (Hu & Hpt & Hl).
  apply (mappages_maps 4096 24576 4096 8192 (KERNBASE + 4096) PTE_R demo demo_L demo_free ∅);
    [lia|exact Hu|exact Hpt|lia|done|lia|done|by vm_compute|by vm_compute|by vm_compute|
     change PTE_R with 2; lia|].
  intros va _. rewrite Hl. apply flag_0.
Defined.
