(* ===== verification/Kvm.v ===== *)
(** * The kernel's page table

    What kvmmake builds (kernel/vm.c) with the stacks of proc_mapstacks
    (kernel/proc.c), on the memory kinit hands over: the devices and the RAM at
    their own addresses, the trampoline and a stack for every process at the
    top, and nothing else. *)
From S2P Require Import Prelude Machine KString Kalloc Vm VmInv VmWalk VmUser VmAlloc VmTheorems.

(** [r_sz] bytes from virtual [r_va] at physical [r_pa]. *)
Record region := mkRegion { r_va : Z; r_pa : Z; r_sz : Z; r_perm : Z }.
Definition inside (r : region) (a : Z) : Prop := r_va r <= a < r_va r + r_sz r.
(** The page table [pt] maps the regions and nothing else. *)
Definition kmaps (m : memory) (pt : Z) (regs : list region) : Prop :=
  (forall r a, 0 <= a < MAXVA -> r ∈ regs -> inside r a -> leaf m pt a = mkpte (r_pa r + (a - r_va r) / PGSIZE * PGSIZE) (r_perm r)) /\
  (forall a, 0 <= a < MAXVA -> (forall r, r ∈ regs -> ~ inside r a) -> leaf m pt a = 0).
Definition region_ok (r : region) : Prop :=
  0 <= r_va r /\ r_va r mod PGSIZE = 0 /\ 0 < r_sz r /\ r_sz r mod PGSIZE = 0 /\ r_va r + r_sz r <= MAXVA /\
  0 <= r_pa r /\ r_pa r + r_sz r <= 2 ^ 56 /\ 0 <= r_perm r < 1024.
Definition apart (r r' : region) : Prop := r_va r + r_sz r <= r_va r' \/ r_va r' + r_sz r' <= r_va r.
(** Page-table pages enough for a region. *)
Definition cost (r : region) : nat := Z.to_nat (2 * (r_sz r / 2 ^ 21) + 4).

Section kvm.
Context (kend : Z) (kend_pos : 0 < kend).

Lemma pages_for_cost s pt r n : region_ok r -> r_sz r = (Z.of_nat n + 1) * PGSIZE ->
  (pages_for s pt (r_va r) n <= cost r)%nat.
Proof.
  intros (H0 & _ & Hs & _) Hn. unfold pages_for, cost.
  pose proof (need_bound 2 (pm s) pt (r_va r)). unfold PGSIZE in *.
  assert ((r_va r + Z.of_nat n * 4096) / 2 ^ 21 - r_va r / 2 ^ 21 <= r_sz r / 2 ^ 21 + 1) by (rewrite Hn; dlia).
  assert (0 <= r_sz r / 2 ^ 21) by (apply Z.div_pos; lia). lia.
Qed.

(** No page table maps a page for the user. *)
Definition no_user (m : memory) (L : gmap Z nat) : Prop :=
  forall q va, L !! q = Some 2%nat -> 0 <= va < MAXVA -> flag (leaf m q va) PTE_U = false.
Lemma no_user_owned m L : no_user m L -> user_owned m L ∅.
Proof. intros H q va Hq Hva _ Hu. by rewrite H in Hu. Qed.
(** The other page tables are as they were. *)
Definition others_same (L : gmap Z nat) (pt : Z) (m m' : memory) : Prop :=
  forall q va, L !! q = Some 2%nat -> q <> pt -> 0 <= va < MAXVA -> leaf m' q va = leaf m q va.
Lemma others_kmaps L pt m m' q regs : others_same L pt m m' -> L !! q = Some 2%nat -> q <> pt -> kmaps m q regs -> kmaps m' q regs.
Proof. intros H Hq Hne [H1 H2]. split; intros; rewrite H; auto. Qed.

Lemma map_region pt s L free regs r :
  vm_inv kend s L free ∅ -> L !! pt = Some 2%nat -> kmaps (pm s) pt regs ->
  region_ok r -> Forall (apart r) regs -> (cost r <= length free)%nat ->
  exists s' L' free', mappages pt (r_va r) (r_sz r) (r_pa r) (r_perm r) s = Ret (0, s') /\ vm_inv kend s' L' free' ∅ /\
    extends s L free s' L' free' /\ kmaps (pm s') pt (regs ++ [r]) /\ (length free <= length free' + cost r)%nat /\
    others_same L pt (pm s) (pm s') /\ (no_user (pm s) L -> Z.land (r_perm r) PTE_U = 0 -> no_user (pm s') L').
Proof.
  intros Hinv Hpt [Hin Hout] Hr Hap Hcost. pose proof Hr as (Hva & Hal & Hsz & Hsal & Hmax & Hpa & Hpa' & Hperm).
  assert (exists n, Z.to_nat (r_sz r / PGSIZE) = S n /\ r_sz r = (Z.of_nat n + 1) * PGSIZE) as (n & Hn & Hsn).
  { exists (Z.to_nat (r_sz r / PGSIZE - 1)). unfold PGSIZE in *. dlia. }
  assert (forall a, inside r a -> leaf (pm s) pt a = 0) as Hold.
  { intros a Ha. unfold inside in Ha. apply Hout; [lia|]. intros r' Hr'. rewrite Forall_forall in Hap.
    specialize (Hap r' Hr'). unfold apart, inside in *. lia. }
  destruct (mappages_loop_ok kend kend_pos n pt (r_va r) (r_pa r) (r_perm r) s L free ∅ (r_va r + r_sz r - PGSIZE))
    as (c & s' & L' & free' & k & Hrun & Hinv' & Hex & Hres & Hnew & Hkeep); rewrite <- ?Hsn; try done; try lia.
  { intros j Hj. rewrite Hold; [done|]. unfold inside, PGSIZE in *. lia. }
  pose proof (pages_for_cost s pt r n Hr Hsn) as Hpf.
  destruct Hres as [(-> & -> & Hlen)|(_ & _ & _ & Hlen)]; [|lia].
  assert (forall a, inside r a -> leaf (pm s') pt a = mkpte (r_pa r + (a - r_va r) / PGSIZE * PGSIZE) (r_perm r)) as Hleaf.
  { intros a Ha. unfold inside in Ha. rewrite <- (Hnew ((a - r_va r) / PGSIZE)) by (unfold PGSIZE in *; dlia).
    unfold leaf. apply leafl_page. unfold PGSIZE in *. dlia. }
  exists s', L', free'. split; [|split; [done|split; [done|split; [|split; [lia|split]]]]].
  - unfold mappages. rewrite Hal, Hsal. replace (r_sz r =? 0) with false by lia. cbn [Z.eqb negb].
    by rewrite Hn, u64_small by (change MAXVA with (2 ^ 38) in *; unfold PGSIZE in *; lia).
  - split.
    + intros r' a Hb [Hr'| ->%list_elem_of_singleton]%elem_of_app Ha; [|by apply Hleaf].
      rewrite Hkeep; [by apply Hin|done|done|]. intros [_ H]. rewrite Forall_forall in Hap.
      specialize (Hap r' Hr'). unfold apart, inside in *. lia.
    + intros a Ha Hno. rewrite Hkeep; [|done..|].
      * apply Hout; [done|]. intros r' Hr'. apply Hno. set_solver.
      * intros [_ H]. apply (Hno r); [set_solver|]. unfold inside. lia.
  - intros q va Hq Hne Hb. apply Hkeep; [done..|]. by intros [-> _].
  - intros Hnu Hu q va Hq Hb. apply (ex_roots _ _ _ _ _ _ Hex) in Hq.
    destruct (decide (q = pt /\ r_va r <= va < r_va r + r_sz r)) as [[-> Ha]|Hno].
    + rewrite (Hleaf va Ha), mkpte_flag; [|unfold PGSIZE in *; dlia|done|change PTE_U with 16; lia].
      rewrite Z.land_lor_distr_l, Hu. done.
    + rewrite Hkeep; [by apply Hnu|done|done|]. intros [-> H]. apply Hno. split; [done|]. lia.
Qed.
Lemma kvmmap_ok pt s L free regs r :
  vm_inv kend s L free ∅ -> L !! pt = Some 2%nat -> kmaps (pm s) pt regs -> no_user (pm s) L ->
  region_ok r -> Z.land (r_perm r) PTE_U = 0 -> Forall (apart r) regs -> (cost r <= length free)%nat ->
  exists s' L' free', kvmmap pt (r_va r) (r_pa r) (r_sz r) (r_perm r) s = Ret (tt, s') /\ vm_inv kend s' L' free' ∅ /\
    extends s L free s' L' free' /\ kmaps (pm s') pt (regs ++ [r]) /\ no_user (pm s') L' /\ (length free <= length free' + cost r)%nat.
Proof.
  intros Hinv Hpt Hm Hnu Hr Hu Hap Hcost.
  destruct (map_region pt s L free regs r Hinv Hpt Hm Hr Hap Hcost) as (s' & L' & free' & Hrun & ? & ? & ? & ? & _ & ?).
  exists s', L', free'. split_and!; auto. unfold kvmmap. by rewrite (kbind_ret _ _ _ _ _ Hrun).
Qed.

(** A list of calls of kvmmap. *)
Fixpoint kvmmaps (pt : Z) (rs : list region) : M pmem unit :=
  match rs with
  | [] => kret tt
  | r :: rs => kvmmap pt (r_va r) (r_pa r) (r_sz r) (r_perm r) ;;; kvmmaps pt rs
  end.
Fixpoint all_apart (rs : list region) : Prop :=
  match rs with [] => True | r :: rs => Forall (apart r) rs /\ all_apart rs end.
Lemma apart_sym r r' : apart r r' -> apart r' r.
Proof. unfold apart. lia. Qed.
Lemma kvmmaps_ok pt rs : forall regs s L free,
  vm_inv kend s L free ∅ -> L !! pt = Some 2%nat -> kmaps (pm s) pt regs -> no_user (pm s) L ->
  Forall region_ok rs -> Forall (fun r => Z.land (r_perm r) PTE_U = 0) rs -> all_apart rs -> (forall r, r ∈ rs -> Forall (apart r) regs) -> (sum_list (cost <$> rs) <= length free)%nat ->
  exists s' L' free', kvmmaps pt rs s = Ret (tt, s') /\ vm_inv kend s' L' free' ∅ /\
    extends s L free s' L' free' /\ kmaps (pm s') pt (regs ++ rs) /\ no_user (pm s') L' /\
    (length free <= length free' + sum_list (cost <$> rs))%nat.
Proof.
  induction rs as [|r rs IH]; intros regs s L free Hinv Hpt Hm Hnu Hok Hus Hap Hold Hc.
  { exists s, L, free. rewrite app_nil_r. split_and!; [done..|apply (extends_refl kend kend_pos)|done|done|cbn; lia]. }
  cbn in Hc. apply Forall_cons in Hok as [Hr Hok], Hus as [Hu Hus]. destruct Hap as [Hr' Hap].
  destruct (kvmmap_ok pt s L free regs r Hinv Hpt Hm Hnu Hr Hu) as (s1 & L1 & free1 & Hrun & Hinv1 & Hex & Hm1 & Hnu1 & Hlen);
    [apply Hold; set_solver|lia|].
  destruct (IH (regs ++ [r]) s1 L1 free1) as (s2 & L2 & free2 & Hrun2 & Hinv2 & Hex2 & Hm2 & Hnu2 & Hlen2); try done.
  - eapply lookup_weaken; [done|apply Hex].
  - intros r2 Hr2. apply Forall_app. split; [apply Hold; set_solver|]. apply Forall_singleton, apart_sym. rewrite Forall_forall in Hr'. auto.
  - lia.
  - exists s2, L2, free2. rewrite <- app_assoc in Hm2. split_and!; [|done|by eapply extends_trans|done|done|cbn; lia].
    cbn [kvmmaps]. by rewrite (kbind_ret _ _ _ _ _ Hrun).
Qed.

(** ** The stacks *)
(** Pages that are neither free nor page tables. *)
Definition in_use (L : gmap Z nat) (free : list Z) (a : Z) : Prop := page_ok kend a = true /\ (a ∉ free) /\ L !! a = None.
(** Taking a page off the free list, or filling a page in use, changes no table. *)
Lemma fill_leaf s L free a c n q va : vm_inv kend s L free ∅ -> in_use L free a -> 0 <= n <= PGSIZE -> L !! q = Some 2%nat ->
  leaf (memset (pm s) a c n) q va = leaf (pm s) q va.
Proof.
  intros Hinv (Hok & Hni & HL) Hn Hq. apply (leafl_same kend L); [|apply (vi_pt _ _ _ _ _ Hinv)|done]. apply pt_same_frame.
  intros b x [l Hb] Hx. apply memset_out. destruct (pt_page _ kend_pos _ _ _ _ (vi_pt _ _ _ _ _ Hinv) Hb).
  apply page_ok_bound in Hok; [|done]. assert (x < a \/ a + PGSIZE <= x) by (apply (pages_disjoint b a); [done|lia|congruence|done]). lia.
Qed.
Lemma fill_inv s L free a c n : vm_inv kend s L free ∅ -> in_use L free a -> 0 <= n <= PGSIZE ->
  vm_inv kend (mkPmem (memset (pm s) a c n) (freelist s)) L free ∅.
Proof.
  intros Hinv (Hok & Hni & HL) Hn. apply vm_inv_bytes; [done..|]. intros b x Hb Hx. apply memset_out. apply page_ok_bound in Hok as [_ Hal]; [|done].
  assert (x < a \/ a + PGSIZE <= x); [|lia].
  destruct (decide (x < a \/ a + PGSIZE <= x)) as [|Hin]; [done|]. pose proof (page_apart kend kend_pos s L free ∅ a x b Hinv Hal HL Hni ltac:(lia) Hb). lia.
Qed.
Lemma kalloc_leaf s L pg free : vm_inv kend s L (pg :: free) ∅ ->
  exists s', kalloc s = Ret (pg, s') /\ vm_inv kend s' L free ∅ /\ in_use L free pg /\
    forall q va, L !! q = Some 2%nat -> leaf (pm s') q va = leaf (pm s) q va.
Proof.
  intros Hinv. destruct (kalloc_vm _ kend_pos _ _ _ _ _ Hinv) as (s' & Hk & Hinv' & Hm & Hok & Hni & HL & _).
  exists s'. split_and!; try done. intros q va Hq. rewrite Hm.
  apply (leafl_same kend L); [|apply (vi_pt _ _ _ _ _ Hinv)|done]. apply pt_same_frame. intros b x [l Hb] Hx.
  apply memset_out. destruct (pt_page _ kend_pos _ _ _ _ (vi_pt _ _ _ _ _ Hinv) Hb).
  apply page_ok_bound in Hok; [|done]. apply (pages_disjoint b pg); [done|lia|congruence|done].
Qed.
Lemma leaf_kmaps (L : gmap Z nat) m m' pt regs : (forall q va, L !! q = Some 2%nat -> leaf m' q va = leaf m q va) -> L !! pt = Some 2%nat -> kmaps m pt regs -> kmaps m' pt regs.
Proof. intros H Hpt [H1 H2]. split; intros; rewrite H; auto. Qed.
Lemma leaf_no_user (L : gmap Z nat) m m' : (forall q va, L !! q = Some 2%nat -> leaf m' q va = leaf m q va) -> no_user m L -> no_user m' L.
Proof. intros H Hn q va Hq Hva. rewrite H; auto. Qed.
Definition RW : Z := Z.lor PTE_R PTE_W.
Definition stack_region (i pa : Z) : region := mkRegion (KSTACK i) pa PGSIZE RW.
Fixpoint stack_regions (i : Z) (pas : list Z) : list region :=
  match pas with [] => [] | pa :: pas => stack_region i pa :: stack_regions (i + 1) pas end.
Lemma in_use_extends s L free s' L' free' a : extends s L free s' L' free' -> in_use L free a -> in_use L' free' a.
Proof.
  intros [(u & -> & Hd) _ _ _] (Hok & Hni & HL). rewrite elem_of_app in Hni. split_and!; [done|tauto|].
  apply not_elem_of_dom. rewrite Hd, not_elem_of_union, elem_of_list_to_set. split; [by apply not_elem_of_dom|tauto].
Qed.
Lemma in_use_cons L pg free a : in_use L (pg :: free) a -> in_use L free a.
Proof. intros (? & Hni & ?). split_and!; try done. set_solver. Qed.

Lemma proc_mapstacks_loop_ok pt n : forall i regs s L free,
  vm_inv kend s L free ∅ -> L !! pt = Some 2%nat -> kmaps (pm s) pt regs -> no_user (pm s) L ->
  0 <= i -> i + Z.of_nat n <= NPROC ->
  (forall r, r ∈ regs -> r_va r + r_sz r <= KSTACK (NPROC - 1) \/ KSTACK (i - 1) <= r_va r) -> (5 * n <= length free)%nat ->
  exists s' L' free' pas, proc_mapstacks_loop n i pt s = Ret (tt, s') /\ vm_inv kend s' L' free' ∅ /\ L' !! pt = Some 2%nat /\
    length pas = n /\ NoDup pas /\ (forall pa, pa ∈ pas -> pa ∈ free /\ in_use L' free' pa) /\
    (forall a, in_use L free a -> in_use L' free' a) /\ kmaps (pm s') pt (regs ++ stack_regions i pas) /\ no_user (pm s') L' /\
    (length free <= length free' + 5 * n)%nat.
Proof.
  induction n as [|n IH]; intros i regs s L free Hinv Hpt Hm Hnu Hi Hn Hregs Hlen.
  { exists s, L, free, []. rewrite app_nil_r. split_and!; try done; [constructor|set_solver|lia]. }
  destruct free as [|pg free]; [cbn in Hlen; lia|].
  destruct (kalloc_leaf s L pg free Hinv) as (s1 & Hk & Hinv1 & (Hpg & Hni & HL) & Hlf).
  pose proof (leaf_kmaps L _ _ pt regs Hlf Hpt Hm) as Hm1. pose proof (leaf_no_user L _ _ Hlf Hnu) as Hnu1.
  assert (0 < pg < 2 ^ 50 /\ pg mod PGSIZE = 0) as [Hpg1 Hpg2].
  { apply page_okE in Hpg; [|done]. unfold PHYSTOP, KERNBASE in *. lia. }
  destruct (kvmmap_ok pt s1 L free regs (stack_region i pg) Hinv1 Hpt Hm1 Hnu1) as (s2 & L2 & free2 & Hrun & Hinv2 & Hex & Hm2 & Hnu2 & Hlen2).
  { unfold region_ok, stack_region, RW, KSTACK, TRAMPOLINE, PGSIZE, NPROC in *. change MAXVA with (2 ^ 38). cbn [r_va r_pa r_sz r_perm].
    change (Z.lor PTE_R PTE_W) with 6. split_and!; try lia; try done. dlia. }
  { reflexivity. }
  { apply Forall_forall. intros r Hr. specialize (Hregs r Hr). unfold apart, stack_region, KSTACK, PGSIZE in *. cbn [r_va r_sz]. lia. }
  { cbn in *. change (cost (stack_region i pg)) with 4%nat. lia. }
  change (cost (stack_region i pg)) with 4%nat in Hlen2. cbn in Hlen.
  destruct (IH (i + 1) (regs ++ [stack_region i pg]) s2 L2 free2) as (s3 & L3 & free3 & pas & Hrun3 & Hinv3 & Hpt3 & Hl3 & Hnd & Hpas & Hkeep & Hm3 & Hnu3 & Hlen3); try done; try lia.
  { eapply lookup_weaken; [done|apply Hex]. }
  { intros r [Hr| ->%list_elem_of_singleton]%elem_of_app.
    - specialize (Hregs r Hr). unfold KSTACK, PGSIZE in *. lia.
    - right. unfold stack_region, KSTACK, PGSIZE. cbn. lia. }
  assert (in_use L2 free2 pg) as Hu by (by eapply in_use_extends).
  exists s3, L3, free3, (pg :: pas). rewrite <- app_assoc in Hm3. split_and!; try done.
  - cbn [proc_mapstacks_loop]. rewrite (kbind_ret _ _ _ _ _ Hk). replace (pg =? 0) with false by lia. by rewrite (kbind_ret _ _ _ _ _ Hrun).
  - cbn. by rewrite Hl3.
  - apply NoDup_cons. split; [|done]. intros [Hin _]%Hpas. by apply Hu.
  - destruct (ex_used _ _ _ _ _ _ Hex) as (u & Eu & _).
    intros pa [->|Hin]%elem_of_cons; [split; [set_solver|auto]|]. destruct (Hpas _ Hin) as [? ?]. split; [|done]. rewrite Eu. set_solver.
  - intros a Ha. apply Hkeep. eapply in_use_extends; [done|]. by eapply in_use_cons.
  - cbn. lia.
Qed.
End kvm.

Definition RX : Z := Z.lor PTE_R PTE_X.
(** ** The page table of a new process *)
Section process.
Context (kend : Z) (kend_pos : 0 < kend) (trampoline : Z).
Hypothesis Htr : 0 <= trampoline /\ trampoline + PGSIZE <= 2 ^ 56.
Definition proc_regions (tf : Z) : list region := [mkRegion TRAMPOLINE trampoline PGSIZE RX; mkRegion TRAPFRAME tf PGSIZE RW].

(** A new root next to the others. *)
Lemma new_root s L pg free : vm_inv kend s L (pg :: free) ∅ -> no_user (pm s) L ->
  exists s', uvmcreate s = Ret (pg, s') /\ vm_inv kend s' (<[pg := 2%nat]> L) free ∅ /\ no_user (pm s') (<[pg := 2%nat]> L) /\
    L !! pg = None /\ pg <> 0 /\ (forall q va, L !! q = Some 2%nat -> leaf (pm s') q va = leaf (pm s) q va) /\ (forall va, leaf (pm s') pg va = 0).
Proof using kend_pos.
  intros Hinv Hnu. destruct (uvmcreate_ok kend s L pg free ∅ kend_pos Hinv (no_user_owned _ _ Hnu)) as (s' & Hc & Hinv' & _ & _ & Hl).
  destruct (kalloc_leaf kend kend_pos s L pg free Hinv) as (s0 & Hk & Hinv0 & Hu & Hlf).
  assert (Hpg : pg <> 0) by (destruct Hu as (Hok & _); apply page_okE in Hok; [lia|done]).
  assert (s' = mkPmem (memset (pm s0) pg 0 PGSIZE) (freelist s0)) as ->.
  { unfold uvmcreate in Hc. rewrite (kbind_ret _ _ _ _ _ Hk) in Hc. replace (pg =? 0) with false in Hc by lia. by injection Hc as <-. }
  assert (forall q va, L !! q = Some 2%nat -> leaf (memset (pm s0) pg 0 PGSIZE) q va = leaf (pm s) q va) as Hold.
  { intros q va Hq. rewrite (fill_leaf kend kend_pos s0 L free) by (done || (unfold PGSIZE; lia)). auto. }
  exists (mkPmem (memset (pm s0) pg 0 PGSIZE) (freelist s0)). split_and!; try done; [|apply Hu].
  intros q va. rewrite lookup_insert. case_decide as E; intros Hq Hva; [subst; by rewrite Hl|]. cbn [pm]. rewrite Hold by done. auto.
Qed.
Lemma proc_pagetable_ok s L free pt regs tf : vm_inv kend s L free ∅ -> L !! pt = Some 2%nat -> kmaps (pm s) pt regs -> no_user (pm s) L ->
  0 <= tf < 2 ^ 50 -> (9 <= length free)%nat ->
  exists ppt s' L' free', proc_pagetable kend trampoline tf s = Ret (ppt, s') /\ vm_inv kend s' L' free' ∅ /\
    L' !! pt = Some 2%nat /\ L' !! ppt = Some 2%nat /\ ppt <> 0 /\ kmaps (pm s') pt regs /\ kmaps (pm s') ppt (proc_regions tf) /\
    no_user (pm s') L' /\ (forall a, in_use kend L free a -> in_use kend L' free' a).
Proof using All.
  intros Hinv Hpt Hm Hnu Htf Hlen. destruct free as [|pg free]; [cbn in Hlen; lia|].
  destruct (new_root s L pg free Hinv Hnu) as (s1 & Hc & Hinv1 & Hnu1 & Hpg & Hne & Hold & Hl).
  assert (Hpt1 : <[pg := 2%nat]> L !! pt = Some 2%nat) by (rewrite lookup_insert_ne; [done|congruence]).
  assert (Hm0 : kmaps (pm s1) pg []) by (split; [by intros ??? ?%elem_of_nil|auto]). cbn in Hlen.
  destruct (map_region kend kend_pos pg s1 _ free [] (mkRegion TRAMPOLINE trampoline PGSIZE RX) Hinv1 (lookup_insert_eq _ _ _) Hm0)
    as (s2 & L2 & free2 & Hr2 & Hinv2 & Hex2 & Hm2 & Hlen2 & Ho2 & Hnu2).
  { repeat split; cbn [r_va r_pa r_sz r_perm]; try (change RX with 10; lia); unfold TRAMPOLINE, PGSIZE in *; change MAXVA with (2 ^ 38); try lia; done. }
  { constructor. } { change (cost _) with 4%nat. lia. }
  change (cost (mkRegion TRAMPOLINE trampoline PGSIZE RX)) with 4%nat in Hlen2. cbn [app] in Hm2.
  assert (Hpg2 : L2 !! pg = Some 2%nat) by (eapply lookup_weaken; [apply lookup_insert_eq|apply Hex2]).
  assert (Hpt2 : L2 !! pt = Some 2%nat) by (eapply lookup_weaken; [exact Hpt1|apply Hex2]).
  destruct (map_region kend kend_pos pg s2 L2 free2 _ (mkRegion TRAPFRAME tf PGSIZE RW) Hinv2 Hpg2 Hm2)
    as (s3 & L3 & free3 & Hr3 & Hinv3 & Hex3 & Hm3 & Hlen3 & Ho3 & Hnu3).
  { repeat split; cbn [r_va r_pa r_sz r_perm]; try (change RW with 6; lia); unfold TRAPFRAME, TRAMPOLINE, PGSIZE in *; change MAXVA with (2 ^ 38); try lia; done. }
  { apply Forall_singleton. left. cbn [r_va r_sz]. unfold TRAPFRAME, PGSIZE. lia. } { change (cost _) with 4%nat. lia. }
  assert (Hpp : pt <> pg) by congruence.
  exists pg, s3, L3, free3. split_and!; try done.
  - unfold proc_pagetable. rewrite (kbind_ret _ _ _ _ _ Hc). replace (pg =? 0) with false by lia.
    cbn [r_va r_pa r_sz r_perm] in Hr2, Hr3. rewrite (kbind_ret _ _ _ _ _ Hr2). cbn [Z.ltb Z.compare]. by rewrite (kbind_ret _ _ _ _ _ Hr3).
  - eapply lookup_weaken; [exact Hpt2|apply Hex3].
  - eapply lookup_weaken; [exact Hpg2|apply Hex3].
  - eapply others_kmaps; [exact Ho3|done|done|]. eapply others_kmaps; [exact Ho2|done|done|]. by eapply leaf_kmaps.
  - apply Hnu3; [apply Hnu2; [done|reflexivity]|reflexivity].
  - intros a Ha. eapply in_use_extends; [exact Hex3|]. eapply in_use_extends; [exact Hex2|]. apply in_use_cons in Ha as Ha'; [|exact kend_pos].
    destruct Ha' as (? & ? & ?). split_and!; try done. rewrite lookup_insert_ne; [done|]. intros ->. destruct Ha as (_ & Hn & _). set_solver.
Qed.
End process.

(** ** The whole table *)
Definition kernel_regions (etext trampoline : Z) : list region :=
  [mkRegion UART0 UART0 PGSIZE RW; mkRegion VIRTIO0 VIRTIO0 PGSIZE RW; mkRegion PLIC PLIC 67108864 RW;
   mkRegion KERNBASE KERNBASE (etext - KERNBASE) RX; mkRegion etext etext (PHYSTOP - etext) RW;
   mkRegion TRAMPOLINE trampoline PGSIZE RX].
Ltac kconst := unfold apart, KSTACK, TRAMPOLINE, UART0, VIRTIO0, PLIC, PHYSTOP, KERNBASE, PGSIZE, NPROC in *; change MAXVA with (2 ^ 38) in *;
  cbn [r_va r_pa r_sz r_perm] in *.

Section layout.
Context (etext trampoline : Z).
Hypothesis Htext : KERNBASE < etext < PHYSTOP.
Hypothesis Hal : etext mod PGSIZE = 0.
Hypothesis Htr : 0 <= trampoline /\ trampoline + PGSIZE <= 2 ^ 56.

Lemma kernel_regions_ok : Forall region_ok (kernel_regions etext trampoline) /\
  Forall (fun r => Z.land (r_perm r) PTE_U = 0) (kernel_regions etext trampoline) /\ all_apart (kernel_regions etext trampoline).
Proof using All.
  split_and!; [|by repeat constructor|].
  - repeat constructor; cbn [r_va r_pa r_sz r_perm]; try (change RW with 6; lia); try (change RX with 10; lia); kconst; try lia; try done; dlia.
  - cbn. split_and!; repeat (apply Forall_cons; split); try apply Forall_nil; try done; kconst; lia.
Qed.
Lemma kernel_regions_cost : (sum_list (cost <$> kernel_regions etext trampoline) <= 220)%nat.
Proof using All.
  cbn -[Z.to_nat Z.div Z.mul]. unfold cost. cbn [r_sz]. change (Z.to_nat (2 * (PGSIZE / 2 ^ 21) + 4)) with 4%nat.
  change (Z.to_nat (2 * (67108864 / 2 ^ 21) + 4)) with 68%nat. kconst. dlia.
Qed.
Lemma kernel_regions_below r : r ∈ kernel_regions etext trampoline -> r_va r + r_sz r <= KSTACK (NPROC - 1) \/ KSTACK (-1) <= r_va r.
Proof using All.
  unfold kernel_regions. rewrite !elem_of_cons, elem_of_nil. intros [->|[->|[->|[->|[->|[->|[]]]]]]]; kconst; lia.
Qed.
Lemma stack_region_in i r pas : r ∈ stack_regions i pas -> exists j pa, i <= j < i + Z.of_nat (length pas) /\ pa ∈ pas /\ r = stack_region j pa.
Proof using.
  clear. revert i. induction pas as [|pa pas IH]; intros i; cbn; [by intros ?%elem_of_nil|]. intros [->|Hr]%elem_of_cons.
  - exists i, pa. split_and!; [lia..|left|done].
  - destruct (IH _ Hr) as (j & pa' & ? & ? & ->). exists j, pa'. split_and!; [lia..|by right|done].
Qed.
(** A table with these regions has no page that is writable and executable, no
    page for the user, and nothing in the page below a stack. *)
Lemma layout_flags kend m pt pas a : 0 < kend -> length pas = Z.to_nat NPROC -> Forall (fun pa => page_ok kend pa = true) pas ->
  kmaps m pt (kernel_regions etext trampoline ++ stack_regions 0 pas) -> 0 <= a < MAXVA ->
  flag (leaf m pt a) PTE_W && flag (leaf m pt a) PTE_X = false /\ flag (leaf m pt a) PTE_U = false.
Proof using All.
  intros Hk Hlen Hpas [Hin Hout] Ha. set (regs := kernel_regions etext trampoline ++ stack_regions 0 pas) in *.
  destruct (decide (Exists (fun r => r_va r <= a < r_va r + r_sz r) regs)) as [(r & Hr & Hi)%Exists_exists|Hno].
  - rewrite (Hin r a) by done.
    assert (0 <= r_pa r + (a - r_va r) / PGSIZE * PGSIZE < 2 ^ 56 /\ (r_perm r = RW \/ r_perm r = RX)) as [Hpa Hp].
    { unfold regs in Hr. apply elem_of_app in Hr as [Hr|Hr].
      - unfold kernel_regions in Hr. rewrite !elem_of_cons, elem_of_nil in Hr.
        destruct Hr as [->|[->|[->|[->|[->|[->|[]]]]]]]; kconst; (split; [dlia|auto]).
      - apply stack_region_in in Hr as (j & pa & _ & Hpa & ->). rewrite Forall_forall in Hpas. specialize (Hpas _ Hpa).
        apply page_okE in Hpas; [|done]. unfold stack_region in *. kconst. split; [dlia|auto]. }
    assert (0 <= r_perm r < 1024) by (destruct Hp as [-> | ->]; [change RW with 6|change RX with 10]; lia).
    rewrite !mkpte_flag by (lia || done || (change PTE_W with 4; lia) || (change PTE_X with 8; lia) || (change PTE_U with 16; lia)).
    by destruct Hp as [-> | ->].
  - rewrite Hout by (done || (intros r Hr Hi; apply Hno, Exists_exists; by exists r)). by rewrite !flag_0.
Qed.
Lemma layout_guard m pt pas i : length pas = Z.to_nat NPROC ->
  kmaps m pt (kernel_regions etext trampoline ++ stack_regions 0 pas) -> 0 <= i < NPROC -> leaf m pt (KSTACK i - PGSIZE) = 0.
Proof using All.
  intros Hlen [_ Hout] Hi. apply Hout; [kconst; lia|]. intros r [Hr|Hr]%elem_of_app Hin; unfold inside in Hin.
  - unfold kernel_regions in Hr. rewrite !elem_of_cons, elem_of_nil in Hr.
    destruct Hr as [->|[->|[->|[->|[->|[->|[]]]]]]]; kconst; lia.
  - apply stack_region_in in Hr as (j & pa & Hj & _ & ->). unfold stack_region in *. kconst. lia.
Qed.
End layout.

Lemma kvmmake_regions trampoline etext s :
  kvmmake trampoline etext s =
  (kpgtbl <~ kalloc ;; set_pm (fun m => memset m kpgtbl 0 PGSIZE) ;;; kvmmaps kpgtbl (kernel_regions etext trampoline) ;;;
   proc_mapstacks kpgtbl ;;; kret kpgtbl) s.
Proof.
  unfold kvmmake. do 2 (apply kbind_ext; intros). unfold kernel_regions. cbn [kvmmaps r_va r_pa r_sz r_perm].
  do 6 (rewrite <- kbind_assoc; apply kbind_ext; intros). done.
Qed.

Lemma kernel_map kend etext trampoline m : KERNBASE < etext <= kend -> etext mod PGSIZE = 0 ->
  kend + 1024 * PGSIZE <= PHYSTOP -> 0 <= trampoline /\ trampoline + PGSIZE <= 2 ^ 56 ->
  exists pt s1 s L free pas, kinit kend (mkPmem m 0) = Ret (tt, s1) /\ kvmmake trampoline etext s1 = Ret (pt, s) /\
    vm_inv kend s L free ∅ /\ L !! pt = Some 2%nat /\ no_user (pm s) L /\
    kmaps (pm s) pt (kernel_regions etext trampoline ++ stack_regions 0 pas) /\
    length pas = Z.to_nat NPROC /\ NoDup pas /\ Forall (in_use kend L free) pas /\ (400 <= length free)%nat.
Proof.
  intros Htext Hal Hroom Htr.
  assert (0 < kend) as Hk by (unfold KERNBASE in *; lia). assert (KERNBASE < etext < PHYSTOP) as Htext' by (unfold PGSIZE in *; lia).
  destruct (kinit_pages kend m) as (s & Hi & Hs); [unfold PGSIZE in *; lia|].
  set (free := pages_rev _ _ _) in *.
  assert (1000 <= length free)%nat as Hfree.
  { unfold free. rewrite length_pages_rev. unfold npages. rewrite PGROUNDUP_eq by (unfold PHYSTOP, KERNBASE, PGSIZE in *; lia). cbn. unfold PGSIZE in *. dlia. }
  clearbody free. destruct free as [|pt free]; [cbn in Hfree; lia|]. destruct (boot_inv _ _ _ Hs) as [Hi0 Hu].
  destruct (uvmcreate_ok kend s ∅ pt free ∅ Hk Hi0 Hu) as (s1 & Hc & Hinv & _ & _ & Hl).
  assert (exists s0, kalloc s = Ret (pt, s0) /\ set_pm (fun m => memset m pt 0 PGSIZE) s0 = Ret (tt, s1)) as (s0 & Ha & Hz).
  { destruct (kalloc_cons _ Hk _ _ _ Hs) as (s0 & Ha & _). exists s0. split; [done|]. unfold uvmcreate in Hc.
    rewrite (kbind_ret _ _ _ _ _ Ha) in Hc. destruct (kmem_ok_head _ _ _ _ Hs) as (Hok & _). apply page_okE in Hok; [|done].
    replace (pt =? 0) with false in Hc by lia. unfold kbind in Hc. cbn in Hc. injection Hc as <-. done. }
  destruct (kernel_regions_ok etext trampoline Htext' Hal Htr) as (Hok & Hus & Hap). pose proof (kernel_regions_cost etext trampoline Htext' Hal Htr) as Hcost.
  cbn in Hfree.
  destruct (kvmmaps_ok kend Hk pt (kernel_regions etext trampoline) [] s1 _ free Hinv (lookup_insert_eq _ _ _)) as (s2 & L2 & free2 & Hrun2 & Hinv2 & Hex & Hm & Hnu & Hlen).
  { split; [by intros ??? ?%elem_of_nil|]. intros a _ _. apply Hl. }
  { intros q va. rewrite lookup_insert. case_decide as E; [|by intros ?%lookup_empty_Some]. intros _ _. subst. by rewrite Hl. }
  { done. } { done. } { done. } { intros. constructor. } { lia. }
  destruct (proc_mapstacks_loop_ok kend Hk pt (Z.to_nat NPROC) 0 (kernel_regions etext trampoline) s2 L2 free2 Hinv2)
    as (s3 & L3 & free3 & pas & Hrun3 & Hinv3 & Hpt3 & Hl3 & Hnd & Hpas & _ & Hm3 & Hnu3 & Hlen3).
  { eapply lookup_weaken; [apply lookup_insert_eq|apply Hex]. } { done. } { done. } { lia. } { unfold NPROC; lia. }
  { apply kernel_regions_below; done. } { change (Z.to_nat NPROC) with 64%nat. lia. }
  exists pt, s, s3, L3, free3, pas. split_and!; try done.
  - rewrite kvmmake_regions, (kbind_ret _ _ _ _ _ Ha), (kbind_ret _ _ _ _ _ Hz), (kbind_ret _ _ _ _ _ Hrun2).
    unfold proc_mapstacks. by rewrite (kbind_ret _ _ _ _ _ Hrun3).
  - apply Forall_forall. intros a Hin. by apply Hpas.
  - change (Z.to_nat NPROC) with 64%nat in Hlen3. lia.
Qed.

(** C15: the kernel's page table, after kinit and kvmmake on any memory with 4 MB free:
    the devices and the kernel's RAM are mapped at their own addresses, the code
    executable and read-only and the rest writable, the trampoline at the top and
    below it the stacks of the processes, each on a page of its own that is neither
    free nor a page table; nothing else is mapped, so the page below every stack is a
    guard page; no page is both writable and executable, and none is the user's. *)
Theorem kernel_page_table kend etext trampoline m (Htext : KERNBASE < etext <= kend) (Hal : etext mod PGSIZE = 0)
  (Hroom : kend + 1024 * PGSIZE <= PHYSTOP) (Htr : 0 <= trampoline /\ trampoline + PGSIZE <= 2 ^ 56) :
  exists pt s L free pas, (kinit kend ;;; kvmmake trampoline etext) (mkPmem m 0) = Ret (pt, s) /\
    vm_inv kend s L free ∅ /\ L !! pt = Some 2%nat /\
    kmaps (pm s) pt (kernel_regions etext trampoline ++ stack_regions 0 pas) /\
    length pas = Z.to_nat NPROC /\ NoDup pas /\ Forall (in_use kend L free) pas /\
    (forall i, 0 <= i < NPROC -> leaf (pm s) pt (KSTACK i - PGSIZE) = 0) /\
    (forall a, 0 <= a < MAXVA -> flag (leaf (pm s) pt a) PTE_W && flag (leaf (pm s) pt a) PTE_X = false /\ flag (leaf (pm s) pt a) PTE_U = false).
Proof.
  assert (0 < kend) as Hk by (unfold KERNBASE in *; lia). assert (KERNBASE < etext < PHYSTOP) as Htext' by (unfold PGSIZE in *; lia).
  destruct (kernel_map kend etext trampoline m Htext Hal Hroom Htr) as (pt & s1 & s & L & free & pas & Hi & Hr & Hinv & Hpt & _ & Hm & Hlen & Hnd & Huse & _).
  exists pt, s, L, free, pas. split_and!; try done.
  - by rewrite (kbind_ret _ _ _ _ _ Hi).
  - intros i Hi'. by apply (layout_guard etext trampoline Htext' Hal Htr _ _ pas).
  - intros a Hb. apply (layout_flags etext trampoline Htext' Hal Htr kend _ _ pas); try done.
    eapply Forall_impl; [exact Huse|]. by intros ? [].
Qed.
(** A kernel of 1 MB with 32 KB of code. *)
Theorem kernel_page_table_witness :
  let kend := KERNBASE + 1048576 in let etext := KERNBASE + 32768 in let trampoline := KERNBASE + 28672 in
  exists pt s L free pas, (kinit kend ;;; kvmmake trampoline etext) (mkPmem ∅ 0) = Ret (pt, s) /\
    vm_inv kend s L free ∅ /\ L !! pt = Some 2%nat /\
    kmaps (pm s) pt (kernel_regions etext trampoline ++ stack_regions 0 pas) /\
    length pas = Z.to_nat NPROC /\ NoDup pas /\ Forall (in_use kend L free) pas /\
    (forall i, 0 <= i < NPROC -> leaf (pm s) pt (KSTACK i - PGSIZE) = 0) /\
    (forall a, 0 <= a < MAXVA -> flag (leaf (pm s) pt a) PTE_W && flag (leaf (pm s) pt a) PTE_X = false /\ flag (leaf (pm s) pt a) PTE_U = false).
Proof.
  intros kend etext trampoline. apply (kernel_page_table kend etext trampoline ∅); unfold kend, etext, trampoline, PHYSTOP, KERNBASE, PGSIZE; [lia|reflexivity|lia|lia].
Defined.
