(* ===== verification/Start.v ===== *)
(** * kernel/entry.S and kernel/start.c: from machine mode to main()

    One hart from reset to the [mret] into main, with the control registers of
    kernel/riscv.h that the code touches.  What the hardware does with them
    (mret, delegation, physical memory protection, the timer comparison) is
    from the RISC-V privileged architecture; which traps a hart lets machine
    mode delegate is a parameter. *)
From stdpp Require Import functions.
From S2P Require Import Prelude Machine.

Inductive priv := User | Supervisor | MachineMode.
Inductive csr :=
| MHARTID | MSTATUS | MEPC | MIE | MEDELEG | MIDELEG | SATP | STIMECMP | MENVCFG | PMPCFG0 | PMPADDR0 | MCOUNTEREN | TIME.
#[export] Instance csr_eq_dec : EqDecision csr.
Proof. solve_decision. Defined.

Record core := mkCore { c_mode : priv; c_pc : Z; c_csr : csr -> Z; c_sp : Z; c_tp : Z; c_a0 : Z; c_a1 : Z }.
Abbreviation B := (M core).
Definition csrr (r : csr) : B Z := gets (fun c => c_csr c r).
Definition csrw (r : csr) (x : Z) : B unit :=
  modify (fun c => mkCore (c_mode c) (c_pc c) (<[r := u64 x]> (c_csr c)) (c_sp c) (c_tp c) (c_a0 c) (c_a1 c)).

(** ** kernel/riscv.h *)
Definition MSTATUS_MPP_MASK : Z := Z.shiftl 3 11.
Definition MSTATUS_MPP_S : Z := Z.shiftl 1 11.
Definition SIE_SEIE : Z := Z.shiftl 1 9.
Definition SIE_STIE : Z := Z.shiftl 1 5.
Definition MIE_STIE : Z := Z.shiftl 1 5.

Definition r_mhartid : B Z := csrr MHARTID.
Definition r_mstatus : B Z := csrr MSTATUS.
Definition w_mstatus (x : Z) : B unit := csrw MSTATUS x.
Definition w_mepc (x : Z) : B unit := csrw MEPC x.
Definition r_mie : B Z := csrr MIE.
Definition w_mie (x : Z) : B unit := csrw MIE x.
Definition r_menvcfg : B Z := csrr MENVCFG.
Definition w_menvcfg (x : Z) : B unit := csrw MENVCFG x.
Definition w_pmpcfg0 (x : Z) : B unit := csrw PMPCFG0 x.
Definition w_pmpaddr0 (x : Z) : B unit := csrw PMPADDR0 x.
Definition w_satp (x : Z) : B unit := csrw SATP x.
Definition r_mcounteren : B Z := csrr MCOUNTEREN.
Definition w_mcounteren (x : Z) : B unit := csrw MCOUNTEREN x.
Definition r_time : B Z := csrr TIME.
Definition w_stimecmp (x : Z) : B unit := csrw STIMECMP x.
Definition w_tp (x : Z) : B unit :=
  modify (fun c => mkCore (c_mode c) (c_pc c) (c_csr c) (c_sp c) (u64 x) (c_a0 c) (c_a1 c)).

Section start.
(** The traps that can be delegated. *)
Context (edelegable idelegable : Z).
Definition w_medeleg (x : Z) : B unit := csrw MEDELEG (Z.land x edelegable).
Definition w_mideleg (x : Z) : B unit := csrw MIDELEG (Z.land x idelegable).
(** sie is the part of mie that is delegated. *)
Definition r_sie : B Z := x <~ csrr MIE ;; d <~ csrr MIDELEG ;; kret (Z.land x d).
Definition w_sie (v : Z) : B unit :=
  x <~ csrr MIE ;; d <~ csrr MIDELEG ;; csrw MIE (Z.lor (Z.land x (Z.lnot d)) (Z.land v d)).

(** [mret]: the mode in MPP, at mepc; MPIE to MIE, MPP becomes user. *)
Definition mpp (x : Z) : priv :=
  if Z.testbit x 12 then MachineMode else if Z.testbit x 11 then Supervisor else User.
Definition after_mret (x : Z) : Z :=
  let mie := if Z.testbit x 7 then Z.lor x (Z.shiftl 1 3) else Z.land x (Z.lnot (Z.shiftl 1 3)) in
  Z.land (Z.lor mie (Z.shiftl 1 7)) (Z.lnot MSTATUS_MPP_MASK).
Definition mret : B unit := modify (fun c =>
  mkCore (mpp (c_csr c MSTATUS)) (c_csr c MEPC) (<[MSTATUS := after_mret (c_csr c MSTATUS)]> (c_csr c)) (c_sp c) (c_tp c) (c_a0 c) (c_a1 c)).

(** ** start.c *)
Definition timerinit : B unit :=
  x <~ r_mie ;; w_mie (Z.lor x MIE_STIE) ;;;
  x <~ r_menvcfg ;; w_menvcfg (Z.lor x (Z.shiftl 1 63)) ;;;
  x <~ r_mcounteren ;; w_mcounteren (Z.lor x 2) ;;;
  x <~ r_time ;; w_stimecmp (x + 1000000).
(** [main]: the address of main. *)
Definition start (main : Z) : B unit :=
  x <~ r_mstatus ;;
  let x := Z.land x (Z.lnot MSTATUS_MPP_MASK) in
  let x := Z.lor x MSTATUS_MPP_S in
  w_mstatus x ;;;
  w_mepc main ;;;
  w_satp 0 ;;;
  w_medeleg 0xffff ;;;
  w_mideleg 0xffff ;;;
  y <~ r_sie ;; w_sie (Z.lor (Z.lor y SIE_SEIE) SIE_STIE) ;;;
  w_pmpaddr0 0x3fffffffffffff ;;;
  w_pmpcfg0 0xf ;;;
  timerinit ;;;
  id <~ r_mhartid ;; w_tp (i32 id) ;;;
  mret.

(** ** entry.S *)
Definition stack_size : Z := 4096.
Definition entry (stack0 main : Z) : B unit :=
  modify (fun c => mkCore (c_mode c) (c_pc c) (c_csr c) stack0 (c_tp c) (c_a0 c) (c_a1 c)) ;;;          (* la sp, stack0 *)
  modify (fun c => mkCore (c_mode c) (c_pc c) (c_csr c) (c_sp c) (c_tp c) (1024 * 4) (c_a1 c)) ;;;       (* li a0, 1024*4 *)
  h <~ csrr MHARTID ;;
  modify (fun c => mkCore (c_mode c) (c_pc c) (c_csr c) (c_sp c) (c_tp c) (c_a0 c) h) ;;;                (* csrr a1, mhartid *)
  modify (fun c => mkCore (c_mode c) (c_pc c) (c_csr c) (c_sp c) (c_tp c) (c_a0 c) (u64 (c_a1 c + 1))) ;;;   (* addi a1, a1, 1 *)
  modify (fun c => mkCore (c_mode c) (c_pc c) (c_csr c) (c_sp c) (c_tp c) (u64 (c_a0 c * c_a1 c)) (c_a1 c)) ;;;   (* mul a0, a0, a1 *)
  modify (fun c => mkCore (c_mode c) (c_pc c) (c_csr c) (u64 (c_sp c + c_a0 c)) (c_tp c) (c_a0 c) (c_a1 c)) ;;;   (* add sp, sp, a0 *)
  start main.                                                                                            (* call start *)
End start.

(** ** What the registers mean *)
Inductive access := Load | Store | Fetch.
(** Entry 0 of the physical memory protection, for a mode below machine mode. *)
Definition pmp_matches (cfg addr pa : Z) : bool :=
  match Z.land (Z.shiftr cfg 3) 3 with
  | 0 => false                                                                         (* off *)
  | 1 => pa <? 4 * addr                                                                (* top of range *)
  | 2 => pa / 4 =? addr                                                                (* four bytes *)
  | _ => let m := Z.lxor addr (addr + 1) in Z.lor (pa / 4) m =? Z.lor addr m           (* power of two *)
  end.
Definition pmp_allows (c : core) (pa : Z) (x : access) : bool :=
  pmp_matches (c_csr c PMPCFG0) (c_csr c PMPADDR0) pa &&
  Z.testbit (c_csr c PMPCFG0) (match x with Load => 0 | Store => 1 | Fetch => 2 end).
(** Where a trap goes that happens below machine mode. *)
Inductive trap_cause := Interrupt (i : Z) | Exception (i : Z).
Definition trap_mode (c : core) (t : trap_cause) : priv :=
  match t with
  | Interrupt i => if Z.testbit (c_csr c MIDELEG) i then Supervisor else MachineMode
  | Exception i => if Z.testbit (c_csr c MEDELEG) i then Supervisor else MachineMode
  end.
(** The supervisor's timer interrupt is pending at time [t]. *)
Definition timer_pending (c : core) (t : Z) : bool := Z.testbit (c_csr c MENVCFG) 63 && (c_csr c STIMECMP <=? t).
Definition stack_top (stack0 hart : Z) : Z := stack0 + (hart + 1) * stack_size.

Lemma testbit_u64 x i : 0 <= i < 64 -> Z.testbit (u64 x) i = Z.testbit x i.
Proof. intros. unfold u64. change (2 ^ 64) with (2 ^ 64)%Z. rewrite Z.mod_pow2_bits_low by lia. done. Qed.
Lemma testbit_bit n i : 0 <= n -> Z.testbit (Z.shiftl 1 n) i = bool_decide (i = n).
Proof.
  intros. rewrite Z.shiftl_1_l. case_bool_decide as E; [subst; by apply Z.pow2_bits_true|apply Z.pow2_bits_false; lia].
Qed.

Section boots.
Context (edelegable idelegable : Z) (stack0 main : Z) (c : core).
(** The registers as start() leaves them. *)
Definition boot_mstatus : Z := u64 (Z.lor (Z.land (c_csr c MSTATUS) (Z.lnot MSTATUS_MPP_MASK)) MSTATUS_MPP_S).
Definition boot_mideleg : Z := u64 (Z.land 0xffff idelegable).
Definition boot_mie : Z :=
  u64 (Z.lor (Z.land (c_csr c MIE) (Z.lnot boot_mideleg))
    (Z.land (Z.lor (Z.lor (Z.land (c_csr c MIE) boot_mideleg) SIE_SEIE) SIE_STIE) boot_mideleg)).
Definition booted (r : csr) : Z :=
  match r with
  | MSTATUS => after_mret boot_mstatus
  | MEPC => u64 main
  | SATP => 0
  | MEDELEG => u64 (Z.land 0xffff edelegable)
  | MIDELEG => boot_mideleg
  | MIE => u64 (Z.lor boot_mie MIE_STIE)
  | PMPADDR0 => 0x3fffffffffffff
  | PMPCFG0 => 0xf
  | MENVCFG => u64 (Z.lor (c_csr c MENVCFG) (Z.shiftl 1 63))
  | MCOUNTEREN => u64 (Z.lor (c_csr c MCOUNTEREN) 2)
  | STIMECMP => u64 (c_csr c TIME + 1000000)
  | MHARTID | TIME => c_csr c r
  end.
Lemma entry_run : exists c', entry edelegable idelegable stack0 main c = Ret (tt, c') /\
  c_mode c' = mpp boot_mstatus /\ c_pc c' = u64 main /\ (forall r, c_csr c' r = booted r) /\
  c_sp c' = u64 (stack0 + u64 (4096 * u64 (c_csr c MHARTID + 1))) /\ c_tp c' = u64 (i32 (c_csr c MHARTID)).
Proof.
  unfold entry. eexists. split.
  { cbv [entry start timerinit r_mhartid r_mstatus w_mstatus w_mepc r_mie w_mie r_menvcfg w_menvcfg w_pmpcfg0 w_pmpaddr0 w_satp
      r_mcounteren w_mcounteren r_time w_stimecmp w_tp w_medeleg w_mideleg r_sie w_sie mret csrr csrw kbind gets modify kret
      c_mode c_pc c_csr c_sp c_tp c_a0 c_a1]. reflexivity. }
  cbn [c_mode c_pc c_csr c_sp c_tp]. split_and!; try reflexivity. intros r. destruct r; reflexivity.
Qed.
Ltac bits := repeat first [rewrite testbit_u64 by lia | rewrite Z.land_spec | rewrite Z.lor_spec | rewrite Z.lnot_spec by lia].
Lemma boot_mode : mpp boot_mstatus = Supervisor.
Proof.
  unfold mpp, boot_mstatus. bits.
  change (Z.testbit MSTATUS_MPP_MASK 12) with true. change (Z.testbit MSTATUS_MPP_MASK 11) with true.
  change (Z.testbit MSTATUS_MPP_S 12) with false. change (Z.testbit MSTATUS_MPP_S 11) with true.
  cbn [negb]. by rewrite !andb_false_r, orb_true_r.
Qed.
(** Interrupts are as they were: off, after a reset. *)
Lemma boot_sie : Z.testbit (after_mret boot_mstatus) 1 = Z.testbit (c_csr c MSTATUS) 1.
Proof.
  unfold after_mret, boot_mstatus.
  assert (forall x, Z.testbit (if Z.testbit x 7 then Z.lor x (Z.shiftl 1 3) else Z.land x (Z.lnot (Z.shiftl 1 3))) 1 = Z.testbit x 1) as E.
  { intros x. destruct (Z.testbit x 7); bits; change (Z.testbit (Z.shiftl 1 3) 1) with false; cbn [negb]; by rewrite ?orb_false_r, ?andb_true_r. }
  rewrite Z.land_spec, Z.lor_spec, E. bits. change (Z.testbit MSTATUS_MPP_MASK 1) with false. change (Z.testbit MSTATUS_MPP_S 1) with false.
  change (Z.testbit (Z.shiftl 1 7) 1) with false. cbn [negb]. by rewrite ?orb_false_r, ?andb_true_r, ?orb_false_r.
Qed.
Lemma boot_enabled i : Z.testbit idelegable i = true -> i = 5 \/ i = 9 -> Z.testbit (u64 (Z.lor boot_mie MIE_STIE)) i = true.
Proof.
  intros Hi Hor. unfold boot_mie, boot_mideleg. assert (0 <= i < 64) by lia. bits.
  destruct Hor as [-> | ->]; rewrite Hi; by destruct (Z.testbit (c_csr c MIE) _).
Qed.
Lemma delegated mask i : 0 <= i < 16 -> Z.testbit (u64 (Z.land 0xffff mask)) i = Z.testbit mask i.
Proof.
  intros Hi. bits. change 65535 with (Z.ones 16). rewrite Z.ones_spec_low by lia. done.
Qed.
End boots.

(** C16: a hart from reset to main(): _entry and start() put the hart in supervisor
    mode at main, with its number in tp, its own 4096 bytes of stack0 below sp,
    paging off and interrupts as they were; supervisor mode may read, write and
    execute all physical memory below 2^56 - 4; the traps that can be delegated come
    to supervisor mode; timer and device interrupts are enabled, and the timer
    interrupt comes a million ticks later. *)
Theorem start_ready edelegable idelegable stack0 main c (Hhart : 0 <= c_csr c MHARTID < NCPU)
  (Hstack : 0 <= stack0 < 2 ^ 63) (Hmain : 0 <= main < 2 ^ 64) (Htime : 0 <= c_csr c TIME < 2 ^ 63)
  (Htimer : Z.testbit idelegable 5 = true) (Hext : Z.testbit idelegable 9 = true) :
  exists c', entry edelegable idelegable stack0 main c = Ret (tt, c') /\
    c_mode c' = Supervisor /\ c_pc c' = main /\ c_tp c' = c_csr c MHARTID /\
    c_sp c' = stack_top stack0 (c_csr c MHARTID) /\
    c_csr c' SATP = 0 /\ Z.testbit (c_csr c' MSTATUS) 1 = Z.testbit (c_csr c MSTATUS) 1 /\
    (forall pa x, 0 <= pa < 2 ^ 56 - 4 -> pmp_allows c' pa x = true) /\
    (forall i, 0 <= i < 16 -> Z.testbit idelegable i = true -> trap_mode c' (Interrupt i) = Supervisor) /\
    (forall i, 0 <= i < 16 -> Z.testbit edelegable i = true -> trap_mode c' (Exception i) = Supervisor) /\
    Z.testbit (c_csr c' MIE) 5 = true /\ Z.testbit (c_csr c' MIE) 9 = true /\
    (forall t, timer_pending c' t = (c_csr c TIME + 1000000 <=? t)).
Proof.
  destruct (entry_run edelegable idelegable stack0 main c) as (c' & Hr & Hm & Hpc & Hc & Hsp & Htp).
  exists c'. unfold NCPU in Hhart. rewrite !Hc, Hm, Hpc, Hsp, Htp. split; [done|]. split; [apply boot_mode|].
  split; [by apply u64_small|]. split; [rewrite i32_small, u64_small by lia; done|].
  split.
  { unfold stack_top, stack_size. rewrite (u64_small (c_csr c MHARTID + 1)), (u64_small (4096 * _)), u64_small by lia. lia. } split; [done|]. split; [apply boot_sie|].
  split_and!.
  - intros pa x Hpa. unfold pmp_allows, pmp_matches. rewrite !Hc. cbn [booted]. change (Z.land (Z.shiftr 15 3) 3) with 1. cbv iota.
    apply andb_true_iff. split; [|by destruct x]. apply Z.ltb_lt. lia.
  - intros i Hi Hb. unfold trap_mode. rewrite Hc. cbn [booted]. unfold boot_mideleg. by rewrite delegated, Hb.
  - intros i Hi Hb. unfold trap_mode. rewrite Hc. cbn [booted]. by rewrite delegated, Hb.
  - apply boot_enabled; auto.
  - apply boot_enabled; auto.
  - intros t. unfold timer_pending. rewrite !Hc. cbn [booted]. rewrite testbit_u64, Z.lor_spec by lia.
    change (Z.testbit (Z.shiftl 1 63) 63) with true. rewrite orb_true_r. cbn [andb]. by rewrite u64_small by lia.
Qed.
(** Hart 3 of a machine where supervisor interrupts and page faults can be delegated. *)
Definition demo_core : core := mkCore MachineMode 0x80000000 (fun r => match r with MHARTID => 3 | TIME => 77 | _ => 0 end) 0 0 0 0.
Theorem start_ready_witness : exists c', entry 0xb3ff 0x222 0x80010000 0x80001000 demo_core = Ret (tt, c') /\
  c_mode c' = Supervisor /\ c_pc c' = 0x80001000 /\ c_tp c' = 3 /\ c_sp c' = 0x80014000 /\ trap_mode c' (Interrupt 9) = Supervisor /\
  pmp_allows c' PHYSTOP Store = true /\ timer_pending c' 1000077 = true /\ timer_pending c' 1000076 = false.
Proof.
  destruct (start_ready 0xb3ff 0x222 0x80010000 0x80001000 demo_core) as (c' & Hr & Hm & Hpc & Htp & Hsp & _ & _ & Hpmp & Hi & _ & _ & _ & Ht);
    [cbn; unfold NCPU; lia|lia|lia|cbn; lia|reflexivity|reflexivity|].
  exists c'. split; [exact Hr|]. split; [exact Hm|]. split; [exact Hpc|]. split; [exact Htp|]. split; [exact Hsp|].
  split; [apply Hi; [lia|reflexivity]|]. split; [apply Hpmp; unfold PHYSTOP, KERNBASE; lia|]. rewrite !Ht. split; reflexivity.
Defined.

(** The stacks of two harts do not overlap, and lie in stack0. *)
Lemma stacks_disjoint stack0 i j : 0 <= i < NCPU -> 0 <= j < NCPU -> i <> j ->
  (stack_top stack0 i <= stack_top stack0 j - stack_size \/ stack_top stack0 j <= stack_top stack0 i - stack_size) /\
  stack0 <= stack_top stack0 i - stack_size /\ stack_top stack0 i <= stack0 + stack_size * NCPU.
Proof. unfold stack_top, stack_size. lia. Qed.
