(* ===== verification/Spinlock.v ===== *)
(** * Spinlocks, interrupt nesting and sleep locks: spinlock.c, sleeplock.c

    [push_off]/[pop_off] work on the state of one CPU.  [acquire] and
    [release] are cut at their memory accesses, and CPUs interleave at those
    points: the step relation is the program of every CPU that uses the lock
    correctly, and mutual exclusion is a theorem about its reachable states. *)
From S2P Require Import Prelude Machine.

(** Per-CPU state: nesting depth, the saved enable bit, and the hardware's
    interrupt-enable bit (intr_get). *)
Record cpu := mkCpu { noff : Z; intena : bool; sie : bool }.

Definition push_off (c : cpu) : cpu :=
  let old := sie c in
  mkCpu (noff c + 1) (if noff c =? 0 then old else intena c) false.

Definition pop_off (c : cpu) : res cpu :=
  if sie c then Panic "pop_off - interruptible"
  else if noff c <? 1 then Panic "pop_off"
  else
    let n := noff c - 1 in
    Ret (mkCpu n (intena c) (if (n =? 0) && intena c then true else sie c)).

(** A lock: the word that is swapped, and the CPU recorded for [holding]. *)
Record spinlock := mkSpinlock { locked : Z; lcpu : option nat }.

Definition initlock : spinlock := mkSpinlock 0 None.

Definition holding (lk : spinlock) (me : nat) : bool :=
  negb (locked lk =? 0) && bool_decide (lcpu lk = Some me).

(** ** Sleep locks

    The inner spinlock makes each operation one atomic step; a process that
    finds the lock taken sleeps. *)
Record sleeplock := mkSleeplock { slocked : Z; slpid : Z }.

Definition initsleeplock : sleeplock := mkSleeplock 0 0.
Definition acquiresleep (pid : Z) (lk : sleeplock) : res sleeplock :=
  if negb (slocked lk =? 0) then Sleeps "sleep lock" else Ret (mkSleeplock 1 pid).
Definition releasesleep (lk : sleeplock) : sleeplock := mkSleeplock 0 0.
Definition holdingsleep (pid : Z) (lk : sleeplock) : bool :=
  negb (slocked lk =? 0) && (slpid lk =? pid).

(** ** Interrupt nesting *)

(** Well-bracketed uses of [push_off] and [pop_off]. *)
Inductive intr_op := Push | Pop.
Inductive balanced : list intr_op -> Prop :=
| bal_nil : balanced []
| bal_nest l l' : balanced l -> balanced l' -> balanced (Push :: l ++ Pop :: l').

Fixpoint intr_run (l : list intr_op) (c : cpu) : res cpu :=
  match l with
  | [] => Ret c
  | Push :: l => intr_run l (push_off c)
  | Pop :: l =>
      match pop_off c with
      | Ret c => intr_run l c
      | Panic e => Panic e
      | Sleeps e => Sleeps e
      | OutOfFuel => OutOfFuel
      end
  end.

(** A CPU outside every critical section has depth 0; inside, interrupts are
    off. *)
Definition cpu_ok (c : cpu) : Prop := 0 <= noff c /\ (0 < noff c -> sie c = false).

Lemma intr_run_app l l' c :
  intr_run (l ++ l') c =
  match intr_run l c with
  | Ret c => intr_run l' c
  | Panic e => Panic e
  | Sleeps e => Sleeps e
  | OutOfFuel => OutOfFuel
  end.
Proof.
  revert c. induction l as [|[] l IH]; intros c; cbn [app intr_run]; [done|apply IH|].
  destruct (pop_off c); [apply IH|done..].
Qed.

Lemma push_off_ok c : cpu_ok c -> cpu_ok (push_off c) /\ noff (push_off c) = noff c + 1.
Proof. intros [H1 H2]. unfold push_off. cbn. split; [split; cbn; [lia|done]|done]. Qed.

Lemma pop_push c c1 :
  cpu_ok c -> noff c1 = noff (push_off c) -> sie c1 = false -> intena c1 = intena (push_off c) ->
  exists c', pop_off c1 = Ret c' /\ noff c' = noff c /\ sie c' = sie c /\
    (0 < noff c -> intena c' = intena c).
Proof.
  intros [H1 H2] Hn Hs Hi. unfold pop_off. rewrite Hs, Hn. cbn [push_off noff] in *.
  replace (noff c + 1 <? 1) with false by lia. eexists. split; [done|].
  cbn. rewrite Hi. cbn. split_and!; [lia| |].
  - destruct (Z.eqb_spec (noff c) 0) as [->|Hne]; [by destruct (sie c)|].
    replace (noff c + 1 - 1 =? 0) with false by lia. rewrite H2; [done|lia].
  - intros. by replace (noff c =? 0) with false by lia.
Qed.

Lemma balanced_run l c :
  balanced l -> cpu_ok c ->
  exists c', intr_run l c = Ret c' /\ noff c' = noff c /\ sie c' = sie c /\
    (0 < noff c -> intena c' = intena c).
Proof.
  intros Hb. revert c. induction Hb as [|l l' _ IH1 _ IH2]; intros c Hc; [by exists c|].
  cbn [intr_run]. rewrite intr_run_app.
  destruct (push_off_ok c Hc) as [Hc1 Hn1].
  destruct (IH1 _ Hc1) as (c1 & -> & Hn & Hs & Hi). cbn [intr_run].
  destruct (pop_push c c1 Hc Hn Hs) as (c2 & -> & Hn2 & Hs2 & Hi2).
  { apply Hi. destruct Hc. lia. }
  destruct (IH2 c2) as (c3 & -> & Hn3 & Hs3 & Hi3).
  { destruct Hc as [H1 H2]. split; rewrite ?Hn2, ?Hs2; done. }
  exists c3. split_and!; [done|congruence|congruence|].
  intros Hp. rewrite Hi3 by lia. auto.
Qed.

(** ** Interleaved CPUs on one lock *)
Inductive pc :=
| Out         (* not using the lock *)
| Spin        (* in acquire, before the swap that succeeds *)
| Got         (* swapped 0 for 1, lk->cpu not yet set *)
| Crit        (* acquire has returned *)
| Drop        (* in release, lk->cpu cleared *)
| Unlocked.   (* in release, lk->locked cleared, before pop_off *)

Record sys := mkSys { lock : spinlock; cpu_st : nat -> cpu; at_pc : nat -> pc }.

Definition upd {A} (f : nat -> A) (i : nat) (v : A) : nat -> A :=
  fun j => if decide (j = i) then v else f j.

(** One step of CPU [i]; [None] is a panic.  A CPU calls [acquire] only when
    it does not hold the lock and [release] only when it does. *)
Definition cpu_step (i : nat) (s : sys) : option sys :=
  let c := cpu_st s i in
  match at_pc s i with
  | Out =>
      let s' := mkSys (lock s) (upd (cpu_st s) i (push_off c)) (upd (at_pc s) i Spin) in
      if holding (lock s) i then None else Some s'
  | Spin =>
      let old := locked (lock s) in
      let lk := mkSpinlock 1 (lcpu (lock s)) in
      Some (mkSys lk (cpu_st s) (if old =? 0 then upd (at_pc s) i Got else at_pc s))
  | Got => Some (mkSys (mkSpinlock (locked (lock s)) (Some i)) (cpu_st s) (upd (at_pc s) i Crit))
  | Crit =>
      if holding (lock s) i
      then Some (mkSys (mkSpinlock (locked (lock s)) None) (cpu_st s) (upd (at_pc s) i Drop))
      else None
  | Drop => Some (mkSys (mkSpinlock 0 (lcpu (lock s))) (cpu_st s) (upd (at_pc s) i Unlocked))
  | Unlocked =>
      match pop_off c with
      | Ret c' => Some (mkSys (lock s) (upd (cpu_st s) i c') (upd (at_pc s) i Out))
      | _ => None
      end
  end.

Inductive reachable : sys -> Prop :=
| reach_init cs : (forall i, cpu_ok (cs i)) -> reachable (mkSys initlock cs (fun _ => Out))
| reach_step s i s' : reachable s -> cpu_step i s = Some s' -> reachable s'.

Definition owns (p : pc) : bool := match p with Got | Crit | Drop => true | _ => false end.
Definition active (p : pc) : bool := match p with Out => false | _ => true end.

Record lock_inv (s : sys) : Prop := {
  li_word : locked (lock s) = 0 \/ locked (lock s) = 1;
  li_free : locked (lock s) = 0 -> forall i, owns (at_pc s i) = false;
  li_held : locked (lock s) = 1 -> exists i, owns (at_pc s i) = true;
  li_one : forall i j, owns (at_pc s i) = true -> owns (at_pc s j) = true -> i = j;
  li_cpu : forall i, at_pc s i = Crit <-> lcpu (lock s) = Some i;
  li_intr : forall i, cpu_ok (cpu_st s i) /\ (active (at_pc s i) = true -> 0 < noff (cpu_st s i)) }.

Lemma pop_off_ok c : cpu_ok c -> 0 < noff c -> exists c', pop_off c = Ret c' /\ cpu_ok c'.
Proof.
  intros [H1 H2] H3. unfold pop_off. rewrite H2 by done. replace (noff c <? 1) with false by lia.
  eexists. split; [done|]. split; cbn; [lia|]. intros. by replace (noff c - 1 =? 0) with false by lia.
Qed.

(** Case analysis on which CPU is meant, after a step of CPU [i]. *)
Ltac upd_cases :=
  unfold upd in *; cbn in *;
  repeat match goal with
  | H : context [decide (?a = ?b)] |- _ => destruct (decide (a = b)); subst; cbn in *
  | |- context [decide (?a = ?b)] => destruct (decide (a = b)); subst; cbn in *
  end.

Section lock_step.
Context (s : sys) (Hs : lock_inv s) (i : nat).

Lemma owner_word : owns (at_pc s i) = true -> locked (lock s) = 1.
Proof.
  intros Ho. destruct (li_word _ Hs) as [E|E]; [|done]. by rewrite (li_free _ Hs E) in Ho.
Qed.

Lemma step_out : at_pc s i = Out ->
  lock_inv (mkSys (lock s) (upd (cpu_st s) i (push_off (cpu_st s i))) (upd (at_pc s) i Spin)).
Proof.
  intros Hpc. destruct Hs as [W F H O C I]. split; cbn.
  - done.
  - intros E j. upd_cases; auto.
  - intros E. destruct (H E) as [j Hj]. exists j. upd_cases; [by rewrite Hpc in Hj|done].
  - intros j k. upd_cases; auto; done.
  - intros j. rewrite <- C. upd_cases; [by rewrite Hpc|done].
  - intros j. destruct (I i) as [Hok _]. destruct (push_off_ok _ Hok) as [Hok' Hn].
    upd_cases; [|by apply I]. split; [done|]. destruct Hok. unfold push_off in Hn. cbn in Hn. lia.
Qed.

Lemma step_spin : at_pc s i = Spin ->
  lock_inv (mkSys (mkSpinlock 1 (lcpu (lock s))) (cpu_st s)
    (if locked (lock s) =? 0 then upd (at_pc s) i Got else at_pc s)).
Proof.
  intros Hpc. destruct Hs as [W F H O C I].
  destruct (Z.eqb_spec (locked (lock s)) 0) as [E|E]; split; cbn; try done; try (by right).
  - intros _. exists i. by upd_cases.
  - intros j k. upd_cases; try done; rewrite F by done; done.
  - intros j. rewrite <- C. upd_cases; [by rewrite Hpc|done].
  - intros j. upd_cases; [|by apply I]. destruct (I i) as [? Ha]. rewrite Hpc in Ha. auto.
  - intros _. apply H. tauto.
Qed.

Lemma step_got : at_pc s i = Got ->
  lock_inv (mkSys (mkSpinlock (locked (lock s)) (Some i)) (cpu_st s) (upd (at_pc s) i Crit)).
Proof.
  intros Hpc. assert (owns (at_pc s i) = true) as Ho by (by rewrite Hpc).
  pose proof (owner_word Ho) as Hw. destruct Hs as [W F H O C I]. split; cbn.
  - done.
  - rewrite Hw. done.
  - intros _. exists i. by upd_cases.
  - intros j k. upd_cases; auto; intros; symmetry; auto.
  - intros j. upd_cases; [done|]. split; [|intros [= ->]; done].
    intros Hj. exfalso. assert (j = i) by (apply O; [by rewrite Hj|done]). done.
  - intros j. upd_cases; [|by apply I]. destruct (I i) as [? Ha]. rewrite Hpc in Ha. auto.
Qed.

Lemma step_crit : at_pc s i = Crit -> holding (lock s) i = true /\
  lock_inv (mkSys (mkSpinlock (locked (lock s)) None) (cpu_st s) (upd (at_pc s) i Drop)).
Proof.
  intros Hpc. assert (owns (at_pc s i) = true) as Ho by (by rewrite Hpc).
  pose proof (owner_word Ho) as Hw. destruct Hs as [W F H O C I]. split.
  { unfold holding. rewrite Hw. rewrite bool_decide_true; [done|]. by apply C. }
  split; cbn.
  - done.
  - rewrite Hw. done.
  - intros _. exists i. by upd_cases.
  - intros j k. upd_cases; auto; intros; symmetry; auto.
  - intros j. upd_cases; [done|]. split; [|done].
    intros Hj. exfalso. assert (j = i) by (apply O; [by rewrite Hj|done]). done.
  - intros j. upd_cases; [|by apply I]. destruct (I i) as [? Ha]. rewrite Hpc in Ha. auto.
Qed.

Lemma step_drop : at_pc s i = Drop ->
  lock_inv (mkSys (mkSpinlock 0 (lcpu (lock s))) (cpu_st s) (upd (at_pc s) i Unlocked)).
Proof.
  intros Hpc. assert (owns (at_pc s i) = true) as Ho by (by rewrite Hpc).
  destruct Hs as [W F H O C I]. split; cbn.
  - by left.
  - intros _ j. upd_cases; [done|]. destruct (owns (at_pc s j)) eqn:E; [|done].
    by assert (j = i) by auto.
  - done.
  - intros j k. upd_cases; auto; done.
  - intros j. rewrite <- C. upd_cases; [by rewrite Hpc|done].
  - intros j. upd_cases; [|by apply I]. destruct (I i) as [? Ha]. rewrite Hpc in Ha. auto.
Qed.

Lemma step_unlocked : at_pc s i = Unlocked -> exists c', pop_off (cpu_st s i) = Ret c' /\
  lock_inv (mkSys (lock s) (upd (cpu_st s) i c') (upd (at_pc s) i Out)).
Proof.
  intros Hpc. destruct Hs as [W F H O C I]. destruct (I i) as [Hok Ha].
  destruct (pop_off_ok (cpu_st s i) Hok) as (c' & -> & Hok'); [apply Ha; by rewrite Hpc|].
  exists c'. split; [done|]. split; cbn.
  - done.
  - intros E j. upd_cases; auto.
  - intros E. destruct (H E) as [j Hj]. exists j. upd_cases; [by rewrite Hpc in Hj|done].
  - intros j k. upd_cases; auto; done.
  - intros j. rewrite <- C. upd_cases; [by rewrite Hpc|done].
  - intros j. upd_cases; [done|by apply I].
Qed.

(** No panic, and the invariant is kept. *)
Lemma lock_step_ok : exists s', cpu_step i s = Some s' /\ lock_inv s'.
Proof.
  unfold cpu_step. destruct (at_pc s i) eqn:Hpc.
  - assert (holding (lock s) i = false) as ->; [|eexists; split; [done|by apply step_out]].
    unfold holding. rewrite (bool_decide_false (lcpu (lock s) = Some i)); [by rewrite andb_false_r|].
    intros Hc. apply (li_cpu _ Hs) in Hc. congruence.
  - eexists. split; [done|by apply step_spin].
  - eexists. split; [done|by apply step_got].
  - destruct (step_crit Hpc) as [-> ?]. by eexists.
  - eexists. split; [done|by apply step_drop].
  - destruct (step_unlocked Hpc) as (c' & -> & ?). by eexists.
Qed.
End lock_step.

Lemma reachable_inv s : reachable s -> lock_inv s.
Proof.
  induction 1 as [cs Hcs|s i s' _ IH Hstep].
  - split; cbn; try (by left); done.
  - destruct (lock_step_ok s IH i) as (s1 & E & H1). rewrite Hstep in E. by injection E as <-.
Qed.

(** C31: Mutual exclusion: however the CPUs' accesses to the lock interleave,
    no two of them are between the return of [acquire] and the release of the
    lock at once; a CPU inside runs with interrupts off and [holding] tells
    it so; and no step of any CPU panics. *)
Theorem spinlock_mutex s i j :
  reachable s -> at_pc s i = Crit ->
  (at_pc s j = Crit -> i = j) /\ sie (cpu_st s i) = false /\
  (holding (lock s) j = bool_decide (j = i)) /\ exists s', cpu_step j s = Some s'.
Proof.
  intros Hr%reachable_inv Hi. pose proof Hr as [W F H O C I]. split_and!.
  - intros Hj. apply O; [by rewrite Hi|by rewrite Hj].
  - destruct (I i) as [[_ Hs] Ha]. apply Hs, Ha. by rewrite Hi.
  - unfold holding. rewrite (owner_word s Hr i) by (by rewrite Hi).
    apply C in Hi. rewrite Hi. cbn [negb andb Z.eqb]. apply bool_decide_ext.
    split; [by intros [=]|by intros ->].
  - destruct (lock_step_ok s Hr j) as (s' & ? & _). by exists s'.
Qed.

Lemma spinlock_mutex_witness :
  exists s, reachable s /\ at_pc s 1%nat = Crit /\
    (at_pc s 0%nat = Crit -> 1%nat = 0%nat) /\ sie (cpu_st s 1%nat) = false /\
    (holding (lock s) 0 = bool_decide (0%nat = 1%nat)) /\ exists s', cpu_step 0 s = Some s'.
Proof.
  assert (exists s, reachable s /\ at_pc s 1%nat = Crit) as (s & Hr & Hpc).
  { eexists. split.
    - eapply (reach_step _ 1); [eapply (reach_step _ 1); [eapply (reach_step _ 0);
        [eapply (reach_step _ 1); [apply (reach_init (fun _ => mkCpu 0 true true))|reflexivity]
        |reflexivity]|reflexivity]|reflexivity].
      intros. split; cbn; lia.
    - reflexivity. }
  exists s. split; [exact Hr|]. split; [exact Hpc|]. exact (spinlock_mutex s 1 0 Hr Hpc).
Defined.

(** Interrupt nesting: any well-bracketed sequence of [push_off] and
    [pop_off] runs without a panic and restores the depth and the interrupt
    state, so that interrupts that were off stay off. *)
Theorem push_pop_restores l c :
  balanced l -> cpu_ok c -> exists c', intr_run l c = Ret c' /\ noff c' = noff c /\ sie c' = sie c.
Proof. intros Hb Hc. destruct (balanced_run l c Hb Hc) as (c' & ? & ? & ? & _). by exists c'. Qed.

Lemma push_pop_restores_witness :
  exists c', intr_run [Push; Push; Pop; Pop; Push; Pop] (mkCpu 0 false true) = Ret c' /\
    noff c' = 0 /\ sie c' = true.
Proof.
  apply (push_pop_restores [Push; Push; Pop; Pop; Push; Pop] (mkCpu 0 false true)).
  - apply (bal_nest [Push; Pop] [Push; Pop]); apply (bal_nest [] []); constructor.
  - split; cbn; lia.
Defined.
