(* ===== verification/Blocks.v ===== *)
(** * Disk blocks: bytes of a block and the little-endian fields in them *)
From S2P Require Import Prelude Machine.

Definition BSIZE : Z := 1024.
Abbreviation block := (list Z).
Definition zero_block : block := replicate 1024 0.

(** Loads and stores of [k] bytes at offset [off] of a block. *)
Fixpoint bld (k : nat) (b : block) (off : nat) : Z :=
  match k with
  | O => 0
  | S k => u8 (nth off b 0) + 256 * bld k b (S off)
  end.
Fixpoint bst (k : nat) (b : block) (off : nat) (v : Z) : block :=
  match k with
  | O => b
  | S k => bst k (<[off := u8 v]> b) (S off) (v / 256)
  end.

Definition block_ok (b : block) : Prop :=
  length b = 1024%nat /\ Forall (fun x => 0 <= x < 256) b.

Lemma zero_block_ok : block_ok zero_block.
Proof. split; [done|]. apply Forall_replicate. lia. Qed.

Lemma bst_length k b off v : length (bst k b off v) = length b.
Proof. revert b off v. induction k as [|k IH]; intros; cbn; [done|]. by rewrite IH, length_insert. Qed.

Lemma bst_ok k b off v : block_ok b -> block_ok (bst k b off v).
Proof.
  revert b off v. induction k as [|k IH]; intros b off v Hb; cbn; [done|].
  apply IH. destruct Hb as [Hl HF]. split; [by rewrite length_insert|].
  apply Forall_insert; [done|apply u8_range].
Qed.

Lemma bst_other k b off v i :
  (i < off \/ off + k <= i)%nat -> nth i (bst k b off v) 0 = nth i b 0.
Proof.
  revert b off v. induction k as [|k IH]; intros b off v Hi; cbn; [done|].
  rewrite IH by lia. rewrite !nth_lookup. rewrite list_lookup_insert_ne by lia. done.
Qed.

Lemma bld_ext k b b' off :
  (forall i, (off <= i < off + k)%nat -> nth i b 0 = nth i b' 0) -> bld k b off = bld k b' off.
Proof.
  revert off. induction k as [|k IH]; intros off H; cbn; [done|].
  rewrite H by lia. f_equal. f_equal. apply IH. intros. apply H. lia.
Qed.

Lemma bld_range k b off : 0 <= bld k b off < 256 ^ Z.of_nat k.
Proof.
  revert off. induction k as [|k IH]; intros off; cbn [bld]; [lia|].
  rewrite Nat2Z.inj_succ, Z.pow_succ_r by lia. specialize (IH (S off)).
  pose proof (u8_range (nth off b 0)). lia.
Qed.

(** Disjoint fields do not interfere; a field reads back what was stored. *)
Lemma bld_bst_ne k k' b off off' v :
  (off' + k' <= off \/ off + k <= off')%nat -> bld k' (bst k b off v) off' = bld k' b off'.
Proof. intros. apply bld_ext. intros i Hi. apply bst_other. lia. Qed.

Lemma bld_bst_eq k b off v :
  (off + k <= length b)%nat -> bld k (bst k b off v) off = v mod 256 ^ Z.of_nat k.
Proof.
  revert b off v. induction k as [|k IH]; intros b off v Hl; cbn [bld bst].
  - by rewrite Z.mod_1_r.
  - rewrite IH by (rewrite length_insert; lia). rewrite bst_other by lia.
    rewrite nth_lookup, list_lookup_insert_eq by lia. cbn [default].
    rewrite u8_small by apply u8_range. unfold u8, id.
    rewrite Nat2Z.inj_succ, Z.pow_succ_r by lia.
    change (2 ^ 8) with 256. rewrite (Z.rem_mul_r v 256) by lia. lia.
Qed.

#[export] Hint Resolve zero_block_ok bst_ok : xv6.

(** ** What the buffer cache promises to the logging layer

    [BlockIO] is the set of operations log.c and fs.c call on buffers;
    [BlockLaws] states their contract over an abstract state: for every block
    the contents a reader sees and the contents on disk, the references to
    it, and the buffers the running process holds.  A buffer is named by its
    index in the cache; the device is ROOTDEV. *)

Class BlockIO (St : Type) := {
  blk_read : Z -> Z -> M St nat;
  blk_write : nat -> M St unit;
  blk_relse : nat -> M St unit;
  blk_pin : nat -> M St unit;
  blk_unpin : nat -> M St unit;
  blk_data : nat -> St -> block;        (* b->data *)
  blk_no : nat -> St -> Z;              (* b->blockno *)
  blk_set : nat -> block -> M St unit   (* stores into b->data *) }.

(** [bv_trace] lists the disk writes, oldest first. *)
Record bview := mkView {
  bv_view : Z -> block;
  bv_disk : Z -> block;
  bv_trace : list (Z * block);
  bv_refs : gmap Z nat;
  bv_held : gmap nat Z }.

Definition fupd {A} (f : Z -> A) (k : Z) (v : A) : Z -> A := fun j => if j =? k then v else f j.

Lemma fupd_eq {A} (f : Z -> A) k v : fupd f k v k = v.
Proof. unfold fupd. by rewrite Z.eqb_refl. Qed.
Lemma fupd_ne {A} (f : Z -> A) k v j : j <> k -> fupd f k v j = f j.
Proof. intros. unfold fupd. by replace (j =? k) with false by lia. Qed.
#[export] Hint Rewrite @fupd_eq : xv6.
#[export] Hint Rewrite @fupd_ne using done : xv6.

(** A reference taken and a reference dropped. *)
Definition ref_up (k : Z) (m : gmap Z nat) : gmap Z nat := <[k := S (default 0%nat (m !! k))]> m.
Definition ref_down (k : Z) (m : gmap Z nat) : gmap Z nat :=
  match m !! k with
  | Some (S (S n)) => <[k := S n]> m
  | _ => delete k m
  end.

Definition isheld (a : bview) (k : Z) : Prop := exists b, bv_held a !! b = Some k.

Class BlockLaws (St : Type) `{!BlockIO St} := {
  rep : St -> bview -> Prop;
  rep_ext s a view disk : rep s a -> (forall k, bv_view a k = view k) -> (forall k, bv_disk a k = disk k) ->
    rep s (mkView view disk (bv_trace a) (bv_refs a) (bv_held a));
  rep_ok s a k : rep s a -> block_ok (bv_view a k);
  rep_data s a b k : rep s a -> bv_held a !! b = Some k -> blk_data b s = bv_view a k /\ blk_no b s = k;
  rep_held s a b b' k : rep s a -> bv_held a !! b = Some k -> bv_held a !! b' = Some k -> b = b';
  rep_refs s a b k : rep s a -> bv_held a !! b = Some k -> is_Some (bv_refs a !! k);
  read_law s a k : rep s a -> 0 <= k < 2 ^ 32 -> ~ isheld a k ->
    Z.of_nat (default 0%nat (bv_refs a !! k)) < 2 ^ 31 ->
    (is_Some (bv_refs a !! k) \/ Z.of_nat (size (bv_refs a)) < NBUF) ->
    exists b s', blk_read ROOTDEV k s = Ret (b, s') /\ bv_held a !! b = None /\
      rep s' (mkView (bv_view a) (bv_disk a) (bv_trace a) (ref_up k (bv_refs a)) (<[b := k]> (bv_held a)));
  write_law s a b k : rep s a -> bv_held a !! b = Some k ->
    exists s', blk_write b s = Ret (tt, s') /\
      rep s' (mkView (bv_view a) (fupd (bv_disk a) k (bv_view a k))
                (bv_trace a ++ [(k, bv_view a k)]) (bv_refs a) (bv_held a));
  relse_law s a b k : rep s a -> bv_held a !! b = Some k ->
    (bv_refs a !! k = Some 1%nat -> bv_view a k = bv_disk a k) ->
    exists s', blk_relse b s = Ret (tt, s') /\
      rep s' (mkView (bv_view a) (bv_disk a) (bv_trace a) (ref_down k (bv_refs a)) (delete b (bv_held a)));
  pin_law s a b k : rep s a -> bv_held a !! b = Some k ->
    Z.of_nat (default 0%nat (bv_refs a !! k)) < 2 ^ 31 ->
    exists s', blk_pin b s = Ret (tt, s') /\
      rep s' (mkView (bv_view a) (bv_disk a) (bv_trace a) (ref_up k (bv_refs a)) (bv_held a));
  unpin_law s a b k n : rep s a -> bv_held a !! b = Some k -> bv_refs a !! k = Some (S (S n)) ->
    exists s', blk_unpin b s = Ret (tt, s') /\
      rep s' (mkView (bv_view a) (bv_disk a) (bv_trace a) (ref_down k (bv_refs a)) (bv_held a));
  set_law s a b k d : rep s a -> bv_held a !! b = Some k -> block_ok d ->
    exists s', blk_set b d s = Ret (tt, s') /\
      rep s' (mkView (fupd (bv_view a) k d) (bv_disk a) (bv_trace a) (bv_refs a) (bv_held a)) }.
