(* ===== verification/Bio.v ===== *)
(** * The buffer cache: bio.c

    [NBUF] buffers and a list head in one array, linked through [b_prev] and
    [b_next] as indices; the head is number [NBUF].  The disk is a map from
    block numbers to blocks, changed by the driver's [virtio_disk_rw]; the
    writes are also listed, oldest first, for the crash-safety argument of
    the log.  Each function body under bcache.lock is one atomic step. *)
From S2P Require Import Prelude Machine Spinlock Blocks.

Record buf := mkBuf {
  b_valid : Z;            (* has data been read from disk? *)
  b_dev : Z;
  b_blockno : Z;
  b_lock : sleeplock;
  b_refcnt : Z;
  b_prev : nat;
  b_next : nat;
  b_data : block }.

Definition buf0 : buf := mkBuf 0 0 0 initsleeplock 0 0 0 zero_block.

Record bstate := mkBstate {
  bufs : list buf;
  bdisk : gmap Z block;
  btrace : list (Z * block);
  bpid : Z                (* myproc()->pid *) }.

Abbreviation nbuf := 30%nat.
Definition head : nat := nbuf.

Definition getb (s : bstate) (i : nat) : buf := default buf0 (bufs s !! i).
Definition updb (i : nat) (f : buf -> buf) : M bstate unit :=
  modify (fun s => mkBstate (alter f i (bufs s)) (bdisk s) (btrace s) (bpid s)).
Definition bfield {A} (i : nat) (f : buf -> A) : M bstate A := gets (fun s => f (getb s i)).

Definition set_valid v b := mkBuf v (b_dev b) (b_blockno b) (b_lock b) (b_refcnt b) (b_prev b) (b_next b) (b_data b).
Definition set_lock l b := mkBuf (b_valid b) (b_dev b) (b_blockno b) l (b_refcnt b) (b_prev b) (b_next b) (b_data b).
Definition set_refcnt r b := mkBuf (b_valid b) (b_dev b) (b_blockno b) (b_lock b) r (b_prev b) (b_next b) (b_data b).
Definition set_prev p b := mkBuf (b_valid b) (b_dev b) (b_blockno b) (b_lock b) (b_refcnt b) p (b_next b) (b_data b).
Definition set_next n b := mkBuf (b_valid b) (b_dev b) (b_blockno b) (b_lock b) (b_refcnt b) (b_prev b) n (b_data b).
Definition set_data d b := mkBuf (b_valid b) (b_dev b) (b_blockno b) (b_lock b) (b_refcnt b) (b_prev b) (b_next b) d.

(** What the disk driver does with a buffer. *)
Definition disk_block (s : bstate) (k : Z) : block := default zero_block (bdisk s !! k).
Definition virtio_disk_rw (b : nat) (write : bool) : M bstate unit :=
  k <~ bfield b b_blockno ;;
  if write then
    d <~ bfield b b_data ;;
    modify (fun s => mkBstate (bufs s) (<[k := d]> (bdisk s)) (btrace s ++ [(k, d)]) (bpid s))
  else d <~ gets (fun s => disk_block s k) ;; updb b (set_data d).

(** Insert [b] behind the head. *)
Definition link_front (b : nat) : M bstate unit :=
  hn <~ bfield head b_next ;;
  updb b (set_next hn) ;;;
  updb b (set_prev head) ;;;
  hn <~ bfield head b_next ;;
  updb hn (set_prev b) ;;;
  updb head (set_next b).

Fixpoint binit_loop (n : nat) (b : nat) : M bstate unit :=
  match n with
  | O => kret tt
  | S n =>
      hn <~ bfield head b_next ;;
      updb b (set_next hn) ;;;
      updb b (set_prev head) ;;;
      updb b (set_lock initsleeplock) ;;;
      hn <~ bfield head b_next ;;
      updb hn (set_prev b) ;;;
      updb head (set_next b) ;;;
      binit_loop n (S b)
  end.
Definition binit : M bstate unit :=
  updb head (set_prev head) ;;; updb head (set_next head) ;;; binit_loop nbuf 0.

(** The two scans of [bget]: forward for a cached block, backward for an
    unused buffer.  The list has [NBUF] elements and the head. *)
Fixpoint scan_next (fuel b : nat) (dev blockno : Z) : M bstate (option nat) :=
  match fuel with
  | O => nofuel
  | S fuel =>
      if (b =? head)%nat then kret None
      else
        x <~ bfield b id ;;
        if (b_dev x =? dev) && (b_blockno x =? blockno) then kret (Some b)
        else scan_next fuel (b_next x) dev blockno
  end.
Fixpoint scan_prev (fuel b : nat) : M bstate (option nat) :=
  match fuel with
  | O => nofuel
  | S fuel =>
      if (b =? head)%nat then kret None
      else
        x <~ bfield b id ;;
        if b_refcnt x =? 0 then kret (Some b) else scan_prev fuel (b_prev x)
  end.

Definition acquire_buf (b : nat) : M bstate unit := fun s =>
  match acquiresleep (bpid s) (b_lock (getb s b)) with
  | Ret lk => updb b (set_lock lk) s
  | Panic e => Panic e
  | Sleeps e => Sleeps e
  | OutOfFuel => OutOfFuel
  end.

Definition bget (dev blockno : Z) : M bstate nat :=
  first <~ bfield head b_next ;;
  r <~ scan_next (S nbuf) first dev blockno ;;
  match r with
  | Some b =>
      updb b (fun x => set_refcnt (u32 (b_refcnt x + 1)) x) ;;;
      acquire_buf b ;;;
      kret b
  | None =>
      last <~ bfield head b_prev ;;
      r <~ scan_prev (S nbuf) last ;;
      match r with
      | Some b =>
          updb b (fun x => mkBuf 0 dev blockno (b_lock x) 1 (b_prev x) (b_next x) (b_data x)) ;;;
          acquire_buf b ;;;
          kret b
      | None => panic "bget: no buffers"
      end
  end.

Definition bread (dev blockno : Z) : M bstate nat :=
  b <~ bget dev blockno ;;
  v <~ bfield b b_valid ;;
  (if v =? 0 then virtio_disk_rw b false ;;; updb b (set_valid 1) else kret tt) ;;;
  kret b.

Definition holding_buf (b : nat) : M bstate bool :=
  gets (fun s => holdingsleep (bpid s) (b_lock (getb s b))).

Definition bwrite (b : nat) : M bstate unit :=
  h <~ holding_buf b ;;
  if negb h then panic "bwrite" else virtio_disk_rw b true.

Definition brelse (b : nat) : M bstate unit :=
  h <~ holding_buf b ;;
  if negb h then panic "brelse"
  else
    updb b (fun x => set_lock (releasesleep (b_lock x)) x) ;;;
    updb b (fun x => set_refcnt (u32 (b_refcnt x - 1)) x) ;;;
    r <~ bfield b b_refcnt ;;
    if r =? 0 then
      x <~ bfield b id ;;
      updb (b_next x) (set_prev (b_prev x)) ;;;
      x <~ bfield b id ;;
      updb (b_prev x) (set_next (b_next x)) ;;;
      link_front b
    else kret tt.

Definition bpin (b : nat) : M bstate unit := updb b (fun x => set_refcnt (u32 (b_refcnt x + 1)) x).
Definition bunpin (b : nat) : M bstate unit := updb b (fun x => set_refcnt (u32 (b_refcnt x - 1)) x).

#[export] Instance bio : BlockIO bstate := {|
  blk_read := bread; blk_write := bwrite; blk_relse := brelse; blk_pin := bpin; blk_unpin := bunpin;
  blk_data := fun b s => b_data (getb s b);
  blk_no := fun b s => b_blockno (getb s b);
  blk_set := fun b d => updb b (set_data d) |}.
