(* ===== verification/BioInv.v ===== *)
(** * The doubly linked list of the buffer cache

    [dchain nx pv x l y]: from [x] the forward pointers run through [l] to
    [y], and the backward pointers run back. *)
From S2P Require Import Prelude Machine Spinlock Blocks Bio.

Fixpoint dchain (nx pv : nat -> nat) (x : nat) (l : list nat) (y : nat) : Prop :=
  match l with
  | [] => nx x = y /\ pv y = x
  | z :: l => nx x = z /\ pv z = x /\ dchain nx pv z l y
  end.

Definition nupd (f : nat -> nat) (i v : nat) : nat -> nat :=
  fun j => if decide (j = i) then v else f j.
Lemma nupd_eq f i v : nupd f i v i = v.
Proof. unfold nupd. by rewrite decide_True. Qed.
Lemma nupd_ne f i v j : j <> i -> nupd f i v j = f j.
Proof. intros. unfold nupd. by rewrite decide_False. Qed.

Lemma dchain_ext nx pv nx' pv' x l y :
  (forall i, i = x \/ i ∈ l -> nx' i = nx i) -> (forall i, i ∈ l \/ i = y -> pv' i = pv i) ->
  dchain nx pv x l y -> dchain nx' pv' x l y.
Proof.
  revert x. induction l as [|z l IH]; intros x Hn Hp; cbn.
  - intros [? ?]. rewrite Hn, Hp by auto. done.
  - intros (? & ? & ?). rewrite Hn by auto. rewrite Hp by (left; left). split_and!; [done..|].
    apply IH; [|intros i Hi; apply Hp; set_solver|done].
    intros i Hi. apply Hn. set_solver.
Qed.

Lemma dchain_app nx pv x l1 b l2 y :
  dchain nx pv x (l1 ++ b :: l2) y <-> dchain nx pv x l1 b /\ dchain nx pv b l2 y.
Proof.
  revert x. induction l1 as [|z l1 IH]; intros x; cbn; [tauto|]. rewrite IH. tauto.
Qed.

Lemma dchain_last nx pv x l y : dchain nx pv x l y -> pv y = x \/ pv y ∈ l.
Proof.
  revert x. induction l as [|z l IH]; intros x; cbn; [by intros [_ ->]; left|].
  intros (_ & _ & H). destruct (IH _ H) as [->|?]; right; set_solver.
Qed.

Lemma dchain_first nx pv x l y : dchain nx pv x l y -> nx x = y \/ nx x ∈ l.
Proof. destruct l as [|z l]; cbn; [by intros [-> _]; left|intros (-> & _); right; left]. Qed.

(** Taking [b] out of the list. *)
Lemma dchain_remove nx pv x l1 b l2 y :
  dchain nx pv x (l1 ++ b :: l2) y -> NoDup (l1 ++ b :: l2) ->
  (x ∉ l1 ++ b :: l2) -> (y ∉ l1 ++ b :: l2) ->
  dchain (nupd nx (pv b) (nx b)) (nupd pv (nx b) (pv b)) x (l1 ++ l2) y.
Proof.
  revert x. induction l1 as [|w l1 IH]; intros x; cbn [app].
  - intros (Hx & Hb & H) [Hnb Hnd]%NoDup_cons Hnx Hny. rewrite Hb.
    destruct l2 as [|z l2]; cbn [dchain] in *.
    + destruct H as [-> _]. by rewrite !nupd_eq.
    + destruct H as (Hz & Hpz & H). rewrite Hz, !nupd_eq. split_and!; [done..|].
      apply NoDup_cons in Hnd as [Hnz Hnd].
      eapply dchain_ext; [| |exact H]; intros i Hi; apply nupd_ne; intros ->; set_solver.
  - intros (Hx & Hw & H) [Hnw Hnd]%NoDup_cons Hnx Hny. cbn [dchain].
    pose proof H as [H1 H2]%dchain_app.
    split_and!; [| |apply IH; [done|done|set_solver|set_solver]].
    + rewrite nupd_ne; [done|]. intros E. apply Hnx.
      apply dchain_last in H1 as [H1|H1]; rewrite <- E in H1; [rewrite H1; left|right; inlist].
    + rewrite nupd_ne; [done|]. intros E.
      apply dchain_first in H2 as [H2|H2]; rewrite <- E in H2; [apply Hny; rewrite <- H2; left|apply Hnw; inlist].
Qed.

(** Putting [b] in front. *)
Lemma dchain_push nx pv x l y b :
  dchain nx pv x l y -> b <> x -> b <> y -> (b ∉ l) -> (x ∉ l) -> NoDup l -> (y ∉ l) ->
  dchain (nupd (nupd nx b (nx x)) x b) (nupd (nupd pv b x) (nx x) b) x (b :: l) y.
Proof.
  intros H Hbx Hby Hbl Hxl Hnd Hyl. cbn [dchain]. rewrite nupd_eq. split; [done|].
  pose proof (dchain_first _ _ _ _ _ H) as Hf.
  split; [rewrite nupd_ne, nupd_eq; [done|]; destruct Hf as [->|Hf]; [done|by intros ->]|].
  destruct l as [|z l]; cbn [dchain] in *.
  - destruct H as [-> _]. rewrite nupd_ne, nupd_eq by done. by rewrite nupd_eq.
  - destruct H as (-> & _ & H). rewrite nupd_ne, !nupd_eq by done. split_and!; [done..|].
    apply NoDup_cons in Hnd as [Hnz Hnd].
    eapply dchain_ext; [| |exact H]; intros i Hi; rewrite !nupd_ne; try done;
      intros ->; set_solver.
Qed.

(** ** The buffer cache implements its contract *)

(** [gbuf g k i]: buffer [i] caches block [k]. *)
Definition caches (g : nat -> buf) (k : Z) (i : nat) : Prop :=
  (i < nbuf)%nat /\ b_dev (g i) = ROOTDEV /\ b_blockno (g i) = k.

#[export] Instance caches_dec g k i : Decision (caches g k i).
Proof. unfold caches. apply _. Defined.

(** The LRU list: every buffer once. *)
Definition lru (g : nat -> buf) (order : list nat) : Prop :=
  NoDup order /\ (forall i, i ∈ order <-> (i < nbuf)%nat) /\
  dchain (fun i => b_next (g i)) (fun i => b_prev (g i)) head order head.

Record brep (g : nat -> buf) (disk : Z -> block) (pid : Z) (a : bview) : Prop := {
  br_ok : forall i, (i < nbuf)%nat ->
    block_ok (b_data (g i)) /\ (b_valid (g i) = 0 \/ b_valid (g i) = 1) /\ 0 <= b_refcnt (g i) < 2 ^ 32;
  br_one : forall i j k, caches g k i -> caches g k j -> i = j;
  br_ref : forall i, (i < nbuf)%nat -> 0 < b_refcnt (g i) -> b_dev (g i) = ROOTDEV /\ b_valid (g i) = 1;
  br_refs : forall k n, bv_refs a !! k = Some n <->
    (0 < n)%nat /\ exists i, caches g k i /\ b_refcnt (g i) = Z.of_nat n;
  br_held : forall i k, bv_held a !! i = Some k ->
    caches g k i /\ 0 < b_refcnt (g i) /\ b_lock (g i) = mkSleeplock 1 pid;
  br_lock : forall i, (i < nbuf)%nat -> slocked (b_lock (g i)) <> 0 -> is_Some (bv_held a !! i);
  br_view : forall i k, caches g k i -> b_valid (g i) = 1 -> b_data (g i) = bv_view a k;
  br_miss : forall k, (forall i, caches g k i -> b_valid (g i) = 0) -> bv_view a k = disk k;
  br_clean : forall i k, caches g k i -> b_refcnt (g i) = 0 -> b_valid (g i) = 1 -> b_data (g i) = disk k;
  br_disk : forall k, bv_disk a k = disk k /\ block_ok (disk k) }.

Record bio_rep (s : bstate) (a : bview) : Prop := {
  bio_len : length (bufs s) = S nbuf;
  bio_lru : exists order, lru (getb s) order;
  bio_brep : brep (getb s) (disk_block s) (bpid s) a;
  bio_trace : bv_trace a = btrace s }.

Lemma getb_upd s i f j :
  (i < length (bufs s))%nat ->
  getb (mkBstate (alter f i (bufs s)) (bdisk s) (btrace s) (bpid s)) j =
  if decide (j = i) then f (getb s i) else getb s j.
Proof.
  intros Hi. unfold getb. cbn. case_decide as E.
  - subst. rewrite list_lookup_alter_eq. destruct (lookup_lt_is_Some_2 _ _ Hi) as [x ->]. done.
  - by rewrite list_lookup_alter_ne.
Qed.

(** Whether a block is cached with its contents is decidable. *)
Lemma classical_cache g k :
  (exists i, caches g k i /\ b_valid (g i) = 1) \/ (forall i, caches g k i -> b_valid (g i) <> 1).
Proof.
  assert (forall n, (exists i, (i < n)%nat /\ caches g k i /\ b_valid (g i) = 1) \/
    (forall i, (i < n)%nat -> caches g k i -> b_valid (g i) <> 1)) as H.
  { induction n as [|n [(i & ? & ?)|IH]]; [right; lia|left; exists i; split; [lia|done]|].
    destruct (decide (b_dev (g n) = ROOTDEV)) as [Ed|Ed], (decide (b_blockno (g n) = k)) as [Ek|Ek],
      (decide (b_valid (g n) = 1)) as [Ev|Ev], (decide (n < nbuf)%nat) as [En|En].
    1: left; exists n; split; [lia|split; [split_and!; done|done]].
    all: right; intros i Hi Hc; destruct (decide (i = n)) as [->|]; [|by apply IH; [lia|]];
      destruct Hc as (? & ? & ?); congruence || lia. }
  destruct (H nbuf) as [(i & _ & ?)|Hn]; [left; by exists i|right].
  intros i Hc. apply Hn; [apply Hc|done].
Qed.

(** ** The scans of [bget] find what the list holds *)
Definition matches (s : bstate) (dev blockno : Z) (i : nat) : bool :=
  (b_dev (getb s i) =? dev) && (b_blockno (getb s i) =? blockno).
Definition unused (s : bstate) (i : nat) : bool := b_refcnt (getb s i) =? 0.

Lemma scan_next_ok s dev blockno x l fuel :
  dchain (fun i => b_next (getb s i)) (fun i => b_prev (getb s i)) x l head ->
  (head ∉ l) -> (length l < fuel)%nat ->
  scan_next fuel (b_next (getb s x)) dev blockno s = Ret (find (matches s dev blockno) l, s).
Proof.
  revert x fuel. induction l as [|z l IH]; intros x fuel Hc Hh Hf; (destruct fuel as [|fuel]; [cbn in Hf; lia|]).
  - destruct Hc as [E _]. cbn [scan_next find]. by rewrite E.
  - destruct Hc as (E & _ & Hc). cbn [scan_next find]. rewrite E.
    apply not_elem_of_cons in Hh as [Hz Hh]. rewrite (proj2 (Nat.eqb_neq z head)) by done.
    unfold kbind, bfield, gets. fold (getb s z). unfold id, matches at 1.
    destruct (_ && _); [done|]. apply IH; [done|done|cbn in Hf; lia].
Qed.

Lemma scan_prev_ok s y l fuel :
  dchain (fun i => b_next (getb s i)) (fun i => b_prev (getb s i)) head l y ->
  (head ∉ l) -> (length l < fuel)%nat ->
  scan_prev fuel (b_prev (getb s y)) s = Ret (find (unused s) (rev l), s).
Proof.
  revert y fuel. induction l as [|z l IH] using rev_ind; intros y fuel Hc Hh Hf;
    (destruct fuel as [|fuel]; [rewrite ?length_app in Hf; cbn in Hf; lia|]).
  - destruct Hc as [_ E]. cbn [scan_prev rev find]. by rewrite E.
  - apply dchain_app in Hc as [Hc [_ E]]. rewrite rev_app_distr. cbn [rev app scan_prev find]. rewrite E.
    assert (z <> head) as Hz by (intros ->; apply Hh; inlist).
    rewrite (proj2 (Nat.eqb_neq z head)) by done.
    unfold kbind, bfield, gets, id, unused at 1. destruct (_ =? 0); [done|].
    rewrite length_app in Hf. cbn in Hf. apply IH; [done|intros ?; apply Hh; inlist|lia].
Qed.

Section pure.
Context (g : nat -> buf) (disk : Z -> block) (pid : Z) (a : bview).
Hypothesis Hg : brep g disk pid a.

Definition gupd (b : nat) (x : buf) : nat -> buf := fun j => if decide (j = b) then x else g j.

Lemma gupd_eq b x : gupd b x b = x.
Proof. unfold gupd. by rewrite decide_True. Qed.
Lemma gupd_ne b x j : j <> b -> gupd b x j = g j.
Proof. intros. unfold gupd. by rewrite decide_False. Qed.

(** The number of references to a cached block. *)
Lemma refcnt_refs k i : caches g k i -> b_refcnt (g i) = Z.of_nat (default 0%nat (bv_refs a !! k)).
Proof.
  intros Hc. pose proof Hc as (Hi & _). destruct (br_ok _ _ _ _ Hg i Hi) as (_ & _ & Hr).
  destruct (bv_refs a !! k) as [n|] eqn:E; cbn.
  - apply (br_refs _ _ _ _ Hg) in E as [_ (j & Hj & Hn)].
    by rewrite (br_one _ _ _ _ Hg i j k Hc Hj).
  - destruct (Z.eq_dec (b_refcnt (g i)) 0) as [->|Hne]; [done|].
    assert (bv_refs a !! k = Some (Z.to_nat (b_refcnt (g i)))) as E'; [|congruence].
    apply (br_refs _ _ _ _ Hg). split; [lia|]. exists i. split; [done|lia].
Qed.

Lemma no_refs k : (forall i, ~ caches g k i) -> bv_refs a !! k = None.
Proof.
  intros H. destruct (bv_refs a !! k) as [n|] eqn:E; [|done].
  apply (br_refs _ _ _ _ Hg) in E as [_ (j & Hj & _)]. by destruct (H j).
Qed.

Lemma view_disk_or_data k i : caches g k i -> b_refcnt (g i) = 0 -> bv_view a k = disk k.
Proof.
  intros Hc Hr. pose proof Hc as (Hi & _). destruct (br_ok _ _ _ _ Hg i Hi) as (_ & [Hv|Hv] & _).
  - apply (br_miss _ _ _ _ Hg). intros j Hj. by rewrite (br_one _ _ _ _ Hg j i k).
  - rewrite <- (br_view _ _ _ _ Hg i k Hc Hv). by apply (br_clean _ _ _ _ Hg).
Qed.

Lemma view_ok k : block_ok (bv_view a k).
Proof.
  destruct (classical_cache g k) as [(i & Hc & Hv)|Hn].
  - rewrite <- (br_view _ _ _ _ Hg i k Hc Hv). apply (br_ok _ _ _ _ Hg). apply Hc.
  - rewrite (br_miss _ _ _ _ Hg k); [apply (br_disk _ _ _ _ Hg)|]. intros i Hi.
    pose proof (Hn i Hi). destruct (br_ok _ _ _ _ Hg i) as (_ & [?|?] & _); [apply Hi|done|done].
Qed.

(** ** One buffer changes: loading a block into it *)
Section load.
Context (b : nat) (k : Z) (p n : nat).
Hypothesis Hb : (b < nbuf)%nat.
Hypothesis Hcase : caches g k b \/ (b_refcnt (g b) = 0 /\ forall i, ~ caches g k i).
Hypothesis Hfree : slocked (b_lock (g b)) = 0.
Hypothesis Hmax : Z.of_nat (default 0%nat (bv_refs a !! k)) < 2 ^ 31.

Let x := mkBuf 1 ROOTDEV k (mkSleeplock 1 pid) (Z.of_nat (S (default 0%nat (bv_refs a !! k)))) p n (bv_view a k).
Let a' := mkView (bv_view a) (bv_disk a) (bv_trace a) (ref_up k (bv_refs a)) (<[b := k]> (bv_held a)).

Lemma load_caches k' i :
  caches (gupd b x) k' i <-> (i = b /\ k' = k) \/ (i <> b /\ k' <> k /\ caches g k' i).
Proof.
  unfold caches, gupd. case_decide as E.
  - subst. cbn. split; [intros (? & ? & ?); left; done|intros [[_ ->]|[? _]]; done].
  - split; [|tauto]. intros Hc. right. split_and!; try tauto. intros ->.
    destruct Hcase as [Hcb|[_ Hn]]; [|by apply (Hn i)]. apply E. by apply (br_one _ _ _ _ Hg i b k).
Qed.

Lemma load_not_held : bv_held a !! b = None.
Proof.
  destruct (bv_held a !! b) as [k'|] eqn:E; [|done].
  destruct (br_held _ _ _ _ Hg _ _ E) as (_ & _ & Hl). rewrite Hl in Hfree. cbn in Hfree. lia.
Qed.

Lemma load_evict k' : caches g k' b -> k' <> k -> b_refcnt (g b) = 0.
Proof.
  intros (_ & _ & H1) Hne. destruct Hcase as [(_ & _ & H2)|[? _]]; [congruence|done].
Qed.

Lemma load_refs k' m :
  ref_up k (bv_refs a) !! k' = Some m <->
  (0 < m)%nat /\ exists i, caches (gupd b x) k' i /\ b_refcnt (gupd b x i) = Z.of_nat m.
Proof.
  unfold ref_up. destruct (decide (k' = k)) as [->|Hne].
  - rewrite lookup_insert_eq. split.
    + intros [= <-]. split; [lia|]. exists b. rewrite load_caches, gupd_eq. split; [by left|done].
    + intros [Hm (i & Hc & Hr)]. apply load_caches in Hc as [[-> _]|(_ & ? & _)]; [|done].
      rewrite gupd_eq in Hr. cbn in Hr. f_equal. lia.
  - rewrite lookup_insert_ne by done. rewrite (br_refs _ _ _ _ Hg).
    split; intros [Hm (i & Hc & Hr)]; (split; [done|]); exists i.
    + assert (i <> b). { intros ->. rewrite (load_evict k') in Hr by done. lia. }
      rewrite load_caches, gupd_ne by done. auto.
    + apply load_caches in Hc as [[_ ?]|(Hib & _ & Hc)]; [done|]. by rewrite gupd_ne in Hr.
Qed.

Lemma brep_load : brep (gupd b x) disk pid a'.
Proof.
  pose proof load_not_held as Hnh. split; cbn [a' bv_view bv_disk bv_refs bv_held].
  - intros i Hi. destruct (decide (i = b)) as [->|]; [|rewrite gupd_ne by done; by apply Hg].
    rewrite gupd_eq. cbn [x b_data b_valid b_refcnt]. split_and!; [by apply view_ok|by right|lia|lia].
  - intros i j k' Hi Hj. apply load_caches in Hi, Hj.
    destruct Hi as [[-> ->]|(? & ? & Hi)], Hj as [[-> ?]|(? & ? & Hj)]; try done.
    by apply (br_one _ _ _ _ Hg i j k').
  - intros i Hi. destruct (decide (i = b)) as [->|]; [by rewrite gupd_eq|].
    rewrite gupd_ne by done. by apply Hg.
  - apply load_refs.
  - intros i k'. rewrite lookup_insert. case_decide as E.
    + intros [= <-]. rewrite <- E, load_caches, gupd_eq. cbn. split_and!; [by left|lia|done].
    + intros Hh. destruct (br_held _ _ _ _ Hg _ _ Hh) as (Hc & Hr & Hl).
      rewrite load_caches, gupd_ne by done. split_and!; [right|done|done]. split_and!; [done| |done].
      intros ->. destruct Hcase as [Hcb|[_ Hn]]; [|by apply (Hn i)]. apply E. by apply (br_one _ _ _ _ Hg b i k).
  - intros i Hi. rewrite lookup_insert. case_decide as E; [by eexists|].
    rewrite gupd_ne by done. by apply Hg.
  - intros i k' Hc Hv. apply load_caches in Hc as [[-> ->]|(? & ? & Hc)]; [by rewrite gupd_eq|].
    rewrite gupd_ne in * by done. by apply (br_view _ _ _ _ Hg).
  - intros k' Hn. destruct (decide (k' = k)) as [->|Hk].
    { exfalso. specialize (Hn b). rewrite load_caches, gupd_eq in Hn. cbn in Hn. lia. }
    destruct (decide (caches g k' b)) as [Hcb|Hcb].
    { apply (view_disk_or_data k' b); [done|by eapply load_evict]. }
    apply (br_miss _ _ _ _ Hg). intros i Hi. assert (i <> b) by (by intros ->).
    specialize (Hn i). rewrite load_caches, gupd_ne in Hn by done. apply Hn. auto.
  - intros i k' Hc Hr Hv. apply load_caches in Hc as [[-> ->]|(? & ? & Hc)].
    { rewrite gupd_eq in Hr. cbn in Hr. lia. }
    rewrite gupd_ne in * by done. by apply (br_clean _ _ _ _ Hg).
  - apply (br_disk _ _ _ _ Hg).
Qed.
End load.

(** ** One buffer changes: a buffer that caches [k] keeps doing so *)
Section change.
Context (b : nat) (k : Z) (p n : nat) (l' : sleeplock) (r' : Z) (d' : block) (disk' : Z -> block) (a' : bview).
Hypothesis Hcb : caches g k b.
Hypothesis Hd : block_ok d'.
Hypothesis Hr : 0 <= r' < 2 ^ 32.
Hypothesis Hrefs : forall j, bv_refs a' !! j =
  if decide (j = k) then (if r' =? 0 then None else Some (Z.to_nat r')) else bv_refs a !! j.
Hypothesis Hheld : forall i, i <> b -> bv_held a' !! i = bv_held a !! i.
Hypothesis Hlock : (bv_held a' !! b = Some k /\ 0 < r' /\ l' = mkSleeplock 1 pid) \/
  (bv_held a' !! b = None /\ slocked l' = 0).
Hypothesis Hview : forall j, bv_view a' j = fupd (bv_view a) k d' j.
Hypothesis Hdisk : forall j, bv_disk a' j = disk' j /\ block_ok (disk' j) /\ (j <> k -> disk' j = disk j).
Hypothesis Hclean : r' = 0 -> d' = disk' k.

Let x := mkBuf 1 ROOTDEV k l' r' p n d'.

Lemma change_caches k' i : caches (gupd b x) k' i <-> caches g k' i.
Proof.
  unfold caches, gupd. case_decide as E; [|done]. subst i. cbn.
  destruct Hcb as (? & -> & ->). done.
Qed.

Lemma change_other k' i : caches g k' i -> i <> b -> k' <> k.
Proof. intros Hc Hne ->. apply Hne. by apply (br_one _ _ _ _ Hg i b k). Qed.

Lemma change_same k' : caches g k' b -> k' = k.
Proof. intros (_ & _ & H1). destruct Hcb as (_ & _ & H2). congruence. Qed.

Lemma change_refs k' m :
  bv_refs a' !! k' = Some m <->
  (0 < m)%nat /\ exists i, caches (gupd b x) k' i /\ b_refcnt (gupd b x i) = Z.of_nat m.
Proof.
  rewrite Hrefs. case_decide as E.
  - subst k'. split.
    + ztest; [done|]. intros [= <-]. split; [lia|]. exists b. rewrite change_caches, gupd_eq.
      split; [done|]. cbn. lia.
    + intros [Hm (i & Hc & Hri)]. rewrite change_caches in Hc.
      rewrite (br_one _ _ _ _ Hg i b k Hc Hcb), gupd_eq in Hri. cbn in Hri.
      ztest; [lia|]. f_equal. lia.
  - rewrite (br_refs _ _ _ _ Hg). split; intros [Hm (i & Hc & Hri)]; (split; [done|]); exists i.
    + assert (i <> b) by (intros ->; by apply E, change_same).
      by rewrite change_caches, gupd_ne.
    + rewrite change_caches in Hc. assert (i <> b) by (intros ->; by apply E, change_same).
      by rewrite gupd_ne in Hri.
Qed.

Lemma brep_change : brep (gupd b x) disk' pid a'.
Proof.
  split.
  - intros i Hi. destruct (decide (i = b)) as [->|]; [|rewrite gupd_ne by done; by apply Hg].
    rewrite gupd_eq. cbn [x b_data b_valid b_refcnt]. split_and!; [done|by right|lia|lia].
  - intros i j k' Hi%change_caches Hj%change_caches. by apply (br_one _ _ _ _ Hg i j k').
  - intros i Hi. destruct (decide (i = b)) as [->|]; [by rewrite gupd_eq|].
    rewrite gupd_ne by done. by apply Hg.
  - apply change_refs.
  - intros i k' Hh. rewrite change_caches. destruct (decide (i = b)) as [->|Hne].
    + destruct Hlock as [(E & ? & ->)|[E _]]; rewrite E in Hh; [|done]. injection Hh as <-.
      by rewrite gupd_eq.
    + rewrite Hheld in Hh by done. rewrite gupd_ne by done. by apply (br_held _ _ _ _ Hg).
  - intros i Hi. destruct (decide (i = b)) as [->|Hne].
    + rewrite gupd_eq. cbn. intros Hl. destruct Hlock as [(-> & _)|[_ ?]]; [by eexists|done].
    + rewrite gupd_ne, Hheld by done. by apply Hg.
  - intros i k' Hc%change_caches Hv. rewrite Hview. destruct (decide (i = b)) as [->|Hne].
    + rewrite gupd_eq, (change_same _ Hc), fupd_eq. done.
    + rewrite gupd_ne in * by done. rewrite fupd_ne by (by eapply change_other).
      by apply (br_view _ _ _ _ Hg).
  - intros k' Hn. assert (k' <> k) as Hk.
    { intros ->. specialize (Hn b). rewrite change_caches, gupd_eq in Hn. specialize (Hn Hcb). cbn in Hn. lia. }
    destruct (Hdisk k') as (_ & _ & ->); [|done]. rewrite Hview, fupd_ne by done.
    apply (br_miss _ _ _ _ Hg). intros i Hi. assert (i <> b) by (intros ->; by apply Hk, change_same).
    specialize (Hn i). rewrite change_caches, gupd_ne in Hn by done. auto.
  - intros i k' Hc%change_caches Hri Hv. destruct (decide (i = b)) as [->|Hne].
    + rewrite gupd_eq in *. cbn in *. rewrite (change_same _ Hc). auto.
    + rewrite gupd_ne in * by done. destruct (Hdisk k') as (_ & _ & ->); [|by eapply change_other].
      by apply (br_clean _ _ _ _ Hg).
  - intros j. destruct (Hdisk j) as (? & ? & _). done.
Qed.
End change.
End pure.
