(* ===== verification/BioTheorems.v ===== *)
(** * The buffer cache as an instance of the block interface, and what its users
    can rely on *)
From S2P Require Import Prelude Machine Spinlock Blocks Bio BioInv.

(** ** Equality of buffers up to the list pointers *)
Definition nolinks (x y : buf) : Prop :=
  b_valid x = b_valid y /\ b_dev x = b_dev y /\ b_blockno x = b_blockno y /\
  b_lock x = b_lock y /\ b_refcnt x = b_refcnt y /\ b_data x = b_data y.

Lemma brep_ext g g' disk disk' pid a :
  (forall i, nolinks (g' i) (g i)) -> (forall k, disk' k = disk k) ->
  brep g disk pid a -> brep g' disk' pid a.
Proof.
  intros Hn Hd [A1 A2 A3 A4 A5 A6 A7 A8 A9 A10].
  assert (forall k i, caches g' k i <-> caches g k i) as Hc.
  { intros k i. unfold caches. by destruct (Hn i) as (_ & -> & -> & _). }
  split; intros *; rewrite ?Hc, ?Hd;
    try (destruct (Hn i) as (E1 & E2 & _ & E3 & E4 & E5); rewrite ?E1, ?E2, ?E3, ?E4, ?E5; by auto).
  - by apply A2.
  - rewrite A4. split; intros [Hp (i & Hci & Hr)]; (split; [done|]); exists i; specialize (Hn i);
      destruct Hn as (_ & _ & _ & _ & E & _); [rewrite Hc, E|rewrite Hc in Hci; rewrite E in Hr]; done.
  - intros H. apply A8. intros i Hi. destruct (Hn i) as (E & _). rewrite <- E. apply H. by rewrite Hc.
  - apply A10.
Qed.

(** [bchg s s' b x]: the states differ in buffer [b] only, which is now [x]. *)
Record bchg (s s' : bstate) (b : nat) (x : buf) : Prop := {
  bc_len : length (bufs s') = length (bufs s);
  bc_rest : bdisk s' = bdisk s /\ btrace s' = btrace s /\ bpid s' = bpid s;
  bc_get : forall j, getb s' j = if decide (j = b) then x else getb s j }.

Lemma updb_run b f s :
  (b < length (bufs s))%nat -> exists s', updb b f s = Ret (tt, s') /\ bchg s s' b (f (getb s b)).
Proof.
  intros Hb. eexists. split; [reflexivity|]. split; [cbn; by rewrite length_alter|done|].
  intros j. by apply getb_upd.
Qed.

Lemma bchg_trans s s1 s2 b x y : bchg s s1 b x -> bchg s1 s2 b y -> bchg s s2 b y.
Proof.
  intros [L1 (D1 & T1 & P1) G1] [L2 (D2 & T2 & P2) G2]. split; [congruence|split_and!; congruence|].
  intros j. rewrite G2. case_decide; [done|]. rewrite G1. by rewrite decide_False.
Qed.

Lemma bchg_eq s s' b x : bchg s s' b x -> getb s' b = x.
Proof. intros H. rewrite (bc_get _ _ _ _ H). by rewrite decide_True. Qed.

(** Runs [updb b f] on a state whose change since [s] is known. *)
Lemma updb_next b f s s1 x :
  (b < length (bufs s))%nat -> bchg s s1 b x ->
  exists s', updb b f s1 = Ret (tt, s') /\ bchg s s' b (f x).
Proof.
  intros Hb Hc. destruct (updb_run b f s1) as (s' & Hr & Hc').
  { by rewrite (bc_len _ _ _ _ Hc). }
  rewrite (bchg_eq _ _ _ _ Hc) in Hc'. exists s'. split; [done|]. by eapply bchg_trans.
Qed.

Lemma bchg_refl s b : bchg s s b (getb s b).
Proof. split; [done|done|]. intros j. by case_decide; subst. Qed.

Lemma lru_ext g g' order :
  (forall i, b_next (g' i) = b_next (g i) /\ b_prev (g' i) = b_prev (g i)) -> lru g order -> lru g' order.
Proof.
  intros H (? & ? & Hc). split_and!; [done..|].
  eapply dchain_ext; [| |exact Hc]; intros i _; apply H.
Qed.

(** A change that keeps the pointers and the representation. *)
Lemma bio_rep_chg s s' b x a a' :
  bio_rep s a -> bchg s s' b x -> b_next x = b_next (getb s b) -> b_prev x = b_prev (getb s b) ->
  brep (gupd (getb s) b x) (disk_block s) (bpid s) a' -> bv_trace a' = bv_trace a -> bio_rep s' a'.
Proof.
  intros [Hl (order & Ho) Hb Ht] [L (D & T & P) G] Hn Hp Hb' Ht'. split.
  - congruence.
  - exists order. eapply lru_ext; [|exact Ho]. intros i. rewrite G. case_decide; by subst.
  - rewrite P. eapply brep_ext; [| |exact Hb'].
    + intros i. rewrite G. unfold gupd. done.
    + intros k. unfold disk_block. by rewrite D.
  - congruence.
Qed.

(** ** [bread] *)
Lemma acquire_run s s1 b x :
  (b < length (bufs s))%nat -> bchg s s1 b x -> slocked (b_lock x) = 0 ->
  exists s', acquire_buf b s1 = Ret (tt, s') /\ bchg s s' b (set_lock (mkSleeplock 1 (bpid s)) x).
Proof.
  intros Hb Hc Hl. unfold acquire_buf. rewrite (bchg_eq _ _ _ _ Hc).
  destruct (bc_rest _ _ _ _ Hc) as (_ & _ & ->). unfold acquiresleep. rewrite Hl. cbn [Z.eqb negb].
  by apply updb_next.
Qed.

Lemma bread_tail s s1 b x :
  (b < length (bufs s))%nat -> bchg s s1 b x ->
  exists s', (v <~ bfield b b_valid ;;
    (if v =? 0 then virtio_disk_rw b false ;;; updb b (set_valid 1) else kret tt) ;;; kret b) s1 = Ret (b, s') /\
    bchg s s' b (if b_valid x =? 0 then set_valid 1 (set_data (disk_block s (b_blockno x)) x) else x).
Proof.
  intros Hb Hc. unfold kbind at 1, bfield at 1, gets. rewrite (bchg_eq _ _ _ _ Hc).
  destruct (b_valid x =? 0); [|by exists s1].
  assert (virtio_disk_rw b false s1 = updb b (set_data (disk_block s (b_blockno x))) s1) as Hrw.
  { unfold virtio_disk_rw, kbind, bfield, gets. rewrite (bchg_eq _ _ _ _ Hc). unfold disk_block.
    by destruct (bc_rest _ _ _ _ Hc) as (-> & _). }
  destruct (updb_next b (set_data (disk_block s (b_blockno x))) s s1 x Hb Hc) as (s2 & H2 & C2).
  destruct (updb_next b (set_valid 1) s s2 _ Hb C2) as (s3 & H3 & C3).
  exists s3. split; [|done]. rewrite <- Hrw in H2. unfold kbind at 1. unfold kbind at 1. by rewrite H2, H3.
Qed.

(** If fewer than [NBUF] blocks are referenced some buffer is unused. *)
Lemma unused_exists s a :
  bio_rep s a -> Z.of_nat (size (bv_refs a)) < NBUF -> exists i, (i < nbuf)%nat /\ unused s i = true.
Proof.
  intros [_ _ Hb _] Hsz.
  destruct (existsb (unused s) (seq 0 nbuf)) eqn:E.
  { apply existsb_exists in E as (i & Hi & Hu). apply in_seq in Hi. exists i. split; [lia|done]. }
  exfalso. assert (forall i, (i < nbuf)%nat -> 0 < b_refcnt (getb s i)) as Hall.
  { intros i Hi. destruct (br_ok _ _ _ _ Hb i Hi) as (_ & _ & Hr).
    destruct (Z.eq_dec (b_refcnt (getb s i)) 0) as [E0|]; [|lia].
    assert (existsb (unused s) (seq 0 nbuf) = true) as Hc; [|congruence].
    apply existsb_exists. exists i. rewrite in_seq. split; [lia|]. unfold unused. lia. }
  set (l := (fun i => b_blockno (getb s i)) <$> seq 0 nbuf).
  assert (forall i, (i < nbuf)%nat -> caches (getb s) (b_blockno (getb s i)) i) as Hcache.
  { intros i Hi. split_and!; [done| |done]. by apply (br_ref _ _ _ _ Hb i Hi), Hall. }
  assert (NoDup l) as Hnd.
  { apply NoDup_fmap_2_strong; [|apply NoDup_seq]. intros i j Hi Hj Eq.
    apply elem_of_seq in Hi, Hj. apply (br_one _ _ _ _ Hb i j (b_blockno (getb s i))).
    - apply Hcache. lia.
    - rewrite Eq. apply Hcache. lia. }
  assert (list_to_set l ⊆ dom (bv_refs a)) as Hsub.
  { intros k Hk. apply elem_of_list_to_set, list_elem_of_fmap in Hk as (i & -> & Hi).
    apply elem_of_seq in Hi. apply elem_of_dom. eexists (Z.to_nat (b_refcnt (getb s i))).
    apply (br_refs _ _ _ _ Hb). specialize (Hall i ltac:(lia)). split; [lia|].
    exists i. split; [apply Hcache; lia|lia]. }
  apply subseteq_size in Hsub. rewrite size_list_to_set in Hsub by done.
  unfold l in Hsub. rewrite length_fmap, length_seq, size_dom in Hsub. unfold NBUF, MAXOPBLOCKS in Hsz. lia.
Qed.

Lemma order_length g order : lru g order -> length order = nbuf /\ (head ∉ order).
Proof.
  intros (Hnd & Hin & _). split.
  - transitivity (length (seq 0 nbuf)); [|by rewrite length_seq]. apply Permutation_length.
    apply NoDup_Permutation; [done|apply NoDup_seq|]. intros i. rewrite Hin, elem_of_seq. lia.
  - rewrite Hin. unfold head. lia.
Qed.

Lemma find_cached s a k order :
  bio_rep s a -> lru (getb s) order ->
  match find (matches s ROOTDEV k) order with
  | Some b => caches (getb s) k b
  | None => forall i, ~ caches (getb s) k i
  end.
Proof.
  intros Hr (_ & Hin & _). destruct (find _ order) as [b|] eqn:E.
  - apply find_some in E as [Hb Hm]. apply list_elem_of_In, Hin in Hb. unfold matches in Hm. zb.
    by split_and!.
  - intros i (Hi & Hd & Hk). apply Hin, list_elem_of_In in Hi.
    eapply find_none in E; [|exact Hi]. unfold matches in E. rewrite Hd, Hk, !Z.eqb_refl in E. discriminate E.
Qed.

Lemma hit_buf s a k b :
  bio_rep s a -> caches (getb s) k b -> Z.of_nat (default 0%nat (bv_refs a !! k)) < 2 ^ 31 ->
  let x := set_lock (mkSleeplock 1 (bpid s)) (set_refcnt (u32 (b_refcnt (getb s b) + 1)) (getb s b)) in
  (if b_valid x =? 0 then set_valid 1 (set_data (disk_block s (b_blockno x)) x) else x) =
  mkBuf 1 ROOTDEV k (mkSleeplock 1 (bpid s)) (Z.of_nat (S (default 0%nat (bv_refs a !! k))))
    (b_prev (getb s b)) (b_next (getb s b)) (bv_view a k).
Proof.
  intros [_ _ Hb _] Hc Hmax. pose proof Hc as (Hi & Hd & Hk).
  pose proof (refcnt_refs _ _ _ _ Hb k b Hc) as Hr.
  assert (u32 (b_refcnt (getb s b) + 1) = Z.of_nat (S (default 0%nat (bv_refs a !! k)))) as Hr'
    by (rewrite u32_small; lia).
  destruct (br_ok _ _ _ _ Hb b Hi) as (_ & [Hv|Hv] & _); cbn; rewrite Hv, Hr'; cbn [Z.eqb];
    unfold set_valid, set_data, set_lock, set_refcnt; cbn; rewrite Hd, Hk.
  - f_equal.
    destruct (Z.eq_dec (b_refcnt (getb s b)) 0) as [E|E].
    + symmetry. by eapply (view_disk_or_data _ _ _ _ Hb).
    + destruct (br_ref _ _ _ _ Hb b Hi); lia.
  - rewrite Hv. f_equal. by apply (br_view _ _ _ _ Hb).
Qed.

Lemma bchg_conv s s' b x y : bchg s s' b x -> x = y -> bchg s s' b y.
Proof. by intros ? <-. Qed.

(** The unused buffer that is recycled is the least recently released one. *)
Lemma bread_miss s a k order b :
  bio_rep s a -> lru (getb s) order -> (forall i, ~ caches (getb s) k i) ->
  find (unused s) (rev order) = Some b ->
  exists s1 s2 s',
    updb b (fun x => mkBuf 0 ROOTDEV k (b_lock x) 1 (b_prev x) (b_next x) (b_data x)) s = Ret (tt, s1) /\
    acquire_buf b s1 = Ret (tt, s2) /\
    (v <~ bfield b b_valid ;;
     (if v =? 0 then virtio_disk_rw b false ;;; updb b (set_valid 1) else kret tt) ;;; kret b) s2 = Ret (b, s') /\
    (b < nbuf)%nat /\ slocked (b_lock (getb s b)) = 0 /\ b_refcnt (getb s b) = 0 /\
    bchg s s' b (mkBuf 1 ROOTDEV k (mkSleeplock 1 (bpid s)) (Z.of_nat (S (default 0%nat (bv_refs a !! k))))
      (b_prev (getb s b)) (b_next (getb s b)) (bv_view a k)).
Proof.
  intros Hrep Ho Hno Hf. pose proof Hrep as [Hlen _ Hb _]. pose proof Ho as (_ & Hin & _).
  apply find_some in Hf as [Hbo Hu]. rewrite <- in_rev in Hbo.
  apply list_elem_of_In, Hin in Hbo. unfold unused in Hu. zb.
  assert (b < length (bufs s))%nat as Hbl by lia.
  assert (slocked (b_lock (getb s b)) = 0) as Hunl.
  { destruct (Z.eq_dec (slocked (b_lock (getb s b))) 0) as [|Hl]; [done|].
    destruct (br_lock _ _ _ _ Hb b Hbo Hl) as [k' Hk'].
    destruct (br_held _ _ _ _ Hb _ _ Hk') as (_ & ? & _). lia. }
  destruct (updb_run b (fun x => mkBuf 0 ROOTDEV k (b_lock x) 1 (b_prev x) (b_next x) (b_data x)) s Hbl)
    as (s1 & H1 & C1).
  destruct (acquire_run s s1 b _ Hbl C1 Hunl) as (s2 & H2 & C2).
  destruct (bread_tail s s2 b _ Hbl C2) as (s3 & H3 & C3).
  exists s1, s2, s3. split_and!; [done..|].
  eapply bchg_conv; [exact C3|]. cbn. unfold set_valid, set_data. cbn.
  rewrite (no_refs _ _ _ _ Hb k Hno). rewrite (br_miss _ _ _ _ Hb k); [done|].
  intros i Hi. by destruct (Hno i).
Qed.

Lemma bread_run s a k :
  bio_rep s a -> 0 <= k < 2 ^ 32 -> ~ isheld a k ->
  Z.of_nat (default 0%nat (bv_refs a !! k)) < 2 ^ 31 ->
  (is_Some (bv_refs a !! k) \/ Z.of_nat (size (bv_refs a)) < NBUF) ->
  exists b s', bread ROOTDEV k s = Ret (b, s') /\ (b < nbuf)%nat /\ slocked (b_lock (getb s b)) = 0 /\
    (caches (getb s) k b \/ (b_refcnt (getb s b) = 0 /\ forall i, ~ caches (getb s) k i)) /\
    bchg s s' b (mkBuf 1 ROOTDEV k (mkSleeplock 1 (bpid s)) (Z.of_nat (S (default 0%nat (bv_refs a !! k))))
      (b_prev (getb s b)) (b_next (getb s b)) (bv_view a k)).
Proof.
  intros Hrep Hk Hnh Hmax Hcap. pose proof Hrep as [Hlen (order & Ho) Hb _].
  destruct (order_length _ _ Ho) as [Hol Hho]. pose proof Ho as (_ & Hin & Hc).
  pose proof (find_cached s a k order Hrep Ho) as Hfind.
  unfold bread, bget. rewrite <- kbind_assoc. unfold kbind at 1, bfield at 1, gets at 1.
  rewrite <- kbind_assoc.
  rewrite (kbind_ret _ _ _ _ _ (scan_next_ok s ROOTDEV k head order (S nbuf) Hc Hho ltac:(lia))).
  destruct (find (matches s ROOTDEV k) order) as [b|].
  - pose proof Hfind as (Hbn & Hbd & Hbk). assert (b < length (bufs s))%nat as Hbl by lia.
    assert (slocked (b_lock (getb s b)) = 0) as Hunl.
    { destruct (Z.eq_dec (slocked (b_lock (getb s b))) 0) as [|Hl]; [done|].
      destruct (br_lock _ _ _ _ Hb b Hbn Hl) as [k' Hk']. destruct Hnh. exists b. rewrite Hk'. f_equal.
      destruct (br_held _ _ _ _ Hb _ _ Hk') as ((_ & _ & <-) & _). done. }
    destruct (updb_run b (fun x => set_refcnt (u32 (b_refcnt x + 1)) x) s Hbl) as (s1 & H1 & C1).
    destruct (acquire_run s s1 b _ Hbl C1 Hunl) as (s2 & H2 & C2).
    destruct (bread_tail s s2 b _ Hbl C2) as (s3 & H3 & C3).
    exists b, s3. split_and!; [|done|done|by left|].
    + rewrite <- kbind_assoc, (kbind_ret _ _ _ _ _ H1), <- kbind_assoc, (kbind_ret _ _ _ _ _ H2). exact H3.
    + eapply bchg_conv; [exact C3|]. by apply (hit_buf s a k b).
  - assert (exists i, (i < nbuf)%nat /\ unused s i = true) as (i & Hi & Hui).
    { destruct Hcap as [[n Hn]|Hcap]; [|by eapply unused_exists].
      apply (br_refs _ _ _ _ Hb) in Hn as [_ (j & Hj & _)]. by destruct (Hfind j). }
    rewrite <- kbind_assoc. unfold kbind at 1, bfield at 1, gets at 1. rewrite <- kbind_assoc.
    rewrite (kbind_ret _ _ _ _ _ (scan_prev_ok s head order (S nbuf) Hc Hho ltac:(lia))).
    destruct (find (unused s) (rev order)) as [b|] eqn:E.
    + destruct (bread_miss s a k order b Hrep Ho Hfind E) as (s1 & s2 & s' & H1 & H2 & H3 & ? & ? & ? & ?).
      exists b, s'. split_and!; try done; [|by right].
      rewrite <- kbind_assoc, (kbind_ret _ _ _ _ _ H1), <- kbind_assoc, (kbind_ret _ _ _ _ _ H2). exact H3.
    + apply Hin in Hi. apply list_elem_of_In, in_rev in Hi.
      eapply find_none in E; [|exact Hi]. congruence.
Qed.

(** ** [brelse]: moving a buffer to the front of the list *)
Abbreviation nxt s := (fun i => b_next (getb s i)).
Abbreviation prv s := (fun i => b_prev (getb s i)).

(** [lchg s s' nx pv]: only the pointers change, to [nx] and [pv]. *)
Record lchg (s s' : bstate) (nx pv : nat -> nat) : Prop := {
  lc_len : length (bufs s') = length (bufs s);
  lc_rest : bdisk s' = bdisk s /\ btrace s' = btrace s /\ bpid s' = bpid s;
  lc_same : forall i, nolinks (getb s' i) (getb s i);
  lc_nx : forall i, b_next (getb s' i) = nx i;
  lc_pv : forall i, b_prev (getb s' i) = pv i }.

Lemma nolinks_trans x y z : nolinks x y -> nolinks y z -> nolinks x z.
Proof. unfold nolinks. intuition congruence. Qed.

Lemma upd_prev s s1 nx pv i v :
  (i < length (bufs s))%nat -> lchg s s1 nx pv ->
  exists s', updb i (set_prev v) s1 = Ret (tt, s') /\ lchg s s' nx (nupd pv i v).
Proof.
  intros Hi [L (D & T & P) S N Pv]. destruct (updb_run i (set_prev v) s1) as (s' & Hr & [L' (D' & T' & P') G]); [lia|].
  exists s'. split; [done|]. split; [lia|split_and!; congruence|..]; intros j; rewrite G; unfold nupd; case_decide; subst;
    try apply S; cbn; auto; apply S.
Qed.

Lemma upd_next s s1 nx pv i v :
  (i < length (bufs s))%nat -> lchg s s1 nx pv ->
  exists s', updb i (set_next v) s1 = Ret (tt, s') /\ lchg s s' (nupd nx i v) pv.
Proof.
  intros Hi [L (D & T & P) S N Pv]. destruct (updb_run i (set_next v) s1) as (s' & Hr & [L' (D' & T' & P') G]); [lia|].
  exists s'. split; [done|]. split; [lia|split_and!; congruence|..]; intros j; rewrite G; unfold nupd; case_decide; subst;
    try apply S; cbn; auto; apply S.
Qed.

Lemma link_front_run s s1 b nx pv l :
  length (bufs s) = S nbuf -> lchg s s1 nx pv -> (b < nbuf)%nat -> (b ∉ l) -> NoDup l -> (head ∉ l) ->
  (forall i, i = head \/ i ∈ l -> (i < length (bufs s))%nat) ->
  dchain nx pv head l head ->
  let nx' := nupd (nupd nx b (nx head)) head b in
  let pv' := nupd (nupd pv b head) (nx head) b in
  exists s', link_front b s1 = Ret (tt, s') /\ lchg s s' nx' pv' /\ dchain nx' pv' head (b :: l) head.
Proof.
  intros Hlen C0 Hb Hbl Hnd Hh Hbd Hc nx' pv'.
  assert (b <> head) as Hbh by (unfold head; lia).
  destruct (upd_next s s1 nx pv b (nx head) ltac:(lia) C0) as (s2 & H2 & C2).
  destruct (upd_prev s s2 _ _ b head ltac:(lia) C2) as (s3 & H3 & C3).
  assert (nx head < length (bufs s))%nat as Hn by (apply Hbd; by apply dchain_first in Hc).
  destruct (upd_prev s s3 _ _ (nx head) b Hn C3) as (s4 & H4 & C4).
  assert (head < length (bufs s))%nat as Hh' by (unfold head; lia).
  destruct (upd_next s s4 _ _ head b Hh' C4) as (s5 & H5 & C5).
  exists s5. split_and!; [|done|].
  - unfold link_front, kbind at 1, bfield at 1, gets at 1. rewrite (lc_nx _ _ _ _ C0).
    rewrite (kbind_ret _ _ _ _ _ H2), (kbind_ret _ _ _ _ _ H3).
    unfold kbind at 1, bfield at 1, gets at 1. rewrite (lc_nx _ _ _ _ C3), nupd_ne by done.
    by rewrite (kbind_ret _ _ _ _ _ H4).
  - by apply dchain_push.
Qed.

Lemma move_front_run s b l1 l2 :
  length (bufs s) = S nbuf -> lru (getb s) (l1 ++ b :: l2) ->
  exists s', (x <~ bfield b id ;;
     updb (b_next x) (set_prev (b_prev x)) ;;;
     x <~ bfield b id ;;
     updb (b_prev x) (set_next (b_next x)) ;;;
     link_front b) s = Ret (tt, s') /\
    (forall i, nolinks (getb s' i) (getb s i)) /\ length (bufs s') = S nbuf /\
    (bdisk s' = bdisk s /\ btrace s' = btrace s /\ bpid s' = bpid s) /\
    lru (getb s') (b :: l1 ++ l2).
Proof.
  intros Hlen (Hnd & Hin & Hc).
  assert (head ∉ l1 ++ b :: l2) as Hh by (rewrite Hin; unfold head; lia).
  assert (b < nbuf)%nat as Hb by (apply Hin; inlist).
  pose proof Hc as [Hc1 Hc2]%dchain_app.
  assert (forall i, i = head \/ i ∈ l1 ++ b :: l2 -> (i < length (bufs s))%nat) as Hbd.
  { intros i [->|Hi]; [unfold head; lia|]. apply Hin in Hi. lia. }
  assert (b_next (getb s b) < length (bufs s))%nat as Hnb.
  { apply dchain_first in Hc2 as [E|E]; apply Hbd; [by left|right; inlist]. }
  assert (b_prev (getb s b) < length (bufs s))%nat as Hpb.
  { apply dchain_last in Hc1 as [E|E]; apply Hbd; [by left|right; inlist]. }
  assert (b_prev (getb s b) <> b /\ b_next (getb s b) <> b) as [Hpne Hnne].
  { apply NoDup_app in Hnd as (_ & Hd & [Hb2 _]%NoDup_cons). split; intros E.
    - apply dchain_last in Hc1 as [E'|E']; cbn beta in E'; rewrite E in E'; [unfold head in E'; lia|].
      apply (Hd b E'). inlist.
    - apply dchain_first in Hc2 as [E'|E']; cbn beta in E'; rewrite E in E'; [unfold head in E'; lia|done]. }
  assert (lchg s s (nxt s) (prv s)) as C0 by (split; done).
  destruct (upd_prev s s _ _ (b_next (getb s b)) (b_prev (getb s b)) Hnb C0) as (s1 & H1 & C1).
  assert (b_next (getb s1 b) = b_next (getb s b) /\ b_prev (getb s1 b) = b_prev (getb s b)) as [Eb1 Eb2].
  { rewrite (lc_nx _ _ _ _ C1), (lc_pv _ _ _ _ C1), nupd_ne by done. done. }
  destruct (upd_next s s1 _ _ (b_prev (getb s b)) (b_next (getb s b)) Hpb C1) as (s2 & H2 & C2).
  set (nx1 := nupd (nxt s) (b_prev (getb s b)) (b_next (getb s b))) in *.
  set (pv1 := nupd (prv s) (b_next (getb s b)) (b_prev (getb s b))) in *.
  pose proof (dchain_remove _ _ _ _ _ _ _ Hc Hnd Hh Hh) as Hrem. cbn beta in Hrem. fold nx1 pv1 in Hrem.
  assert (NoDup (b :: l1 ++ l2)) as Hnd' by (by rewrite Permutation_middle).
  pose proof Hnd' as [Hnb' Hnd12]%NoDup_cons.
  destruct (link_front_run s s2 b nx1 pv1 (l1 ++ l2)) as (s' & H3 & C3 & Hpush); try done.
  { intros Hx. apply Hh. inlist. }
  { intros i Hi. apply Hbd. destruct Hi as [->|Hi]; [by left|right; inlist]. }
  exists s'. split; [|split; [apply C3|split; [by rewrite (lc_len _ _ _ _ C3)|split; [apply C3|]]]].
  - unfold kbind at 1, bfield at 1, gets at 1, id at 1 2. rewrite (kbind_ret _ _ _ _ _ H1).
    unfold kbind at 1, bfield at 1, gets at 1, id at 1 2. rewrite Eb1, Eb2, (kbind_ret _ _ _ _ _ H2). done.
  - split_and!; [done| |].
    + intros i. rewrite <- Hin. by rewrite Permutation_middle.
    + eapply dchain_ext; [| |exact Hpush]; intros i _; apply C3.
Qed.

(** ** The laws *)
Lemma held_buf s a b k :
  bio_rep s a -> bv_held a !! b = Some k ->
  caches (getb s) k b /\ exists n, bv_refs a !! k = Some n /\ (0 < n)%nat /\ Z.of_nat n < 2 ^ 32 /\
  getb s b = mkBuf 1 ROOTDEV k (mkSleeplock 1 (bpid s)) (Z.of_nat n)
    (b_prev (getb s b)) (b_next (getb s b)) (bv_view a k).
Proof.
  intros [Hlen _ Hb _] Hh. destruct (br_held _ _ _ _ Hb _ _ Hh) as (Hc & Hr & Hl). split; [done|].
  pose proof Hc as (Hi & Hd & Hk). destruct (br_ref _ _ _ _ Hb b Hi Hr) as [_ Hv].
  destruct (br_ok _ _ _ _ Hb b Hi) as (_ & _ & Hr32).
  exists (Z.to_nat (b_refcnt (getb s b))). split_and!; [|lia|lia|].
  - apply (br_refs _ _ _ _ Hb). split; [lia|]. exists b. split; [done|lia].
  - rewrite <- (br_view _ _ _ _ Hb b k Hc Hv), Z2Nat.id by lia.
    destruct (getb s b) eqn:E; cbn in *; congruence.
Qed.

Lemma held_lt s a b k : bio_rep s a -> bv_held a !! b = Some k -> (b < length (bufs s))%nat.
Proof.
  intros Hr Hh. destruct (held_buf _ _ _ _ Hr Hh) as ((Hi & _) & _). destruct Hr as [-> _ _ _]. lia.
Qed.

Lemma bio_read_law s a k : bio_rep s a -> 0 <= k < 2 ^ 32 -> ~ isheld a k ->
  Z.of_nat (default 0%nat (bv_refs a !! k)) < 2 ^ 31 ->
  (is_Some (bv_refs a !! k) \/ Z.of_nat (size (bv_refs a)) < NBUF) ->
  exists b s', bread ROOTDEV k s = Ret (b, s') /\ bv_held a !! b = None /\
    bio_rep s' (mkView (bv_view a) (bv_disk a) (bv_trace a) (ref_up k (bv_refs a)) (<[b := k]> (bv_held a))).
Proof.
  intros Hrep Hk Hnh Hmax Hcap.
  destruct (bread_run s a k Hrep Hk Hnh Hmax Hcap) as (b & s' & Hr & Hb & Hl & Hcase & Hchg).
  pose proof (bio_brep _ _ Hrep) as Hbr. exists b, s'. split_and!; [done| |].
  - by eapply (load_not_held _ _ _ _ Hbr).
  - eapply bio_rep_chg; [exact Hrep|exact Hchg|done|done| |done]. by apply brep_load.
Qed.

Lemma bio_write_law s a b k : bio_rep s a -> bv_held a !! b = Some k ->
  exists s', bwrite b s = Ret (tt, s') /\
    bio_rep s' (mkView (bv_view a) (fupd (bv_disk a) k (bv_view a k))
      (bv_trace a ++ [(k, bv_view a k)]) (bv_refs a) (bv_held a)).
Proof.
  intros Hrep Hh. destruct (held_buf _ _ _ _ Hrep Hh) as (Hc & n & Hn & Hn0 & Hn32 & Hbuf).
  pose proof Hrep as [Hlen Hlru Hb Ht].
  exists (mkBstate (bufs s) (<[k := bv_view a k]> (bdisk s)) (btrace s ++ [(k, bv_view a k)]) (bpid s)). split.
  - unfold bwrite, kbind, holding_buf, gets, virtio_disk_rw, bfield, modify, holdingsleep.
    rewrite Hbuf. cbn. rewrite Z.eqb_refl. cbn [negb]. unfold kbind, gets. by rewrite Hbuf.
  - split; [done|done| |cbn; by rewrite Ht]. cbn [bpid].
    set (disk' := fupd (disk_block s) k (bv_view a k)).
    apply (brep_ext (gupd (getb s) b (getb s b)) _ disk').
    { intros i. unfold gupd. case_decide; by subst. }
    { intros j. unfold disk', fupd, disk_block. cbn. rewrite lookup_insert.
      destruct (Z.eqb_spec j k) as [->|]; [by rewrite decide_True|by rewrite decide_False]. }
    rewrite Hbuf. apply brep_change with (disk := disk_block s) (a := a); try done; cbn.
    + by eapply view_ok.
    + lia.
    + intros j. case_decide; [subst|done]. rewrite Hn. replace (Z.of_nat n =? 0) with false by lia. f_equal. lia.
    + left. split_and!; [done|lia|done].
    + intros j. unfold fupd. by destruct (Z.eqb_spec j k) as [->|].
    + intros j. destruct (br_disk _ _ _ _ Hb j) as [E Hok]. unfold disk', fupd. rewrite <- E.
      destruct (Z.eqb_spec j k) as [->|]; split_and!; try done; [by eapply view_ok|by rewrite E].
    + lia.
Qed.

(** A held buffer that changes lock, count or data, the disk staying. *)
Lemma bio_change s s' a b k x l' r' d' refs' held' :
  bio_rep s a -> bv_held a !! b = Some k -> bchg s s' b x ->
  x = mkBuf 1 ROOTDEV k l' r' (b_prev (getb s b)) (b_next (getb s b)) d' ->
  block_ok d' -> 0 <= r' < 2 ^ 32 ->
  (forall j, refs' !! j = if decide (j = k) then (if r' =? 0 then None else Some (Z.to_nat r')) else bv_refs a !! j) ->
  (forall i, i <> b -> held' !! i = bv_held a !! i) ->
  ((held' !! b = Some k /\ 0 < r' /\ l' = mkSleeplock 1 (bpid s)) \/ (held' !! b = None /\ slocked l' = 0)) ->
  (r' = 0 -> d' = bv_disk a k) ->
  bio_rep s' (mkView (fupd (bv_view a) k d') (bv_disk a) (bv_trace a) refs' held').
Proof.
  intros Hrep Hh Hchg -> Hd Hr Hrefs Hheld Hlock Hclean.
  destruct (held_buf _ _ _ _ Hrep Hh) as (Hc & _).
  eapply bio_rep_chg; [exact Hrep|exact Hchg|done|done| |done].
  pose proof (bio_brep _ _ Hrep) as Hb.
  apply brep_change with (disk := disk_block s) (a := a); try done; cbn.
  - intros j. destruct (br_disk _ _ _ _ Hb j). done.
  - intros E. destruct (br_disk _ _ _ _ Hb k) as [<- _]. auto.
Qed.

Lemma fupd_id (f : Z -> block) k j : fupd f k (f k) j = f j.
Proof. unfold fupd. by destruct (Z.eqb_spec j k) as [->|]. Qed.

(** Views that agree pointwise represent the same states. *)
Lemma bio_rep_ext s a view disk :
  bio_rep s a -> (forall k, bv_view a k = view k) -> (forall k, bv_disk a k = disk k) ->
  bio_rep s (mkView view disk (bv_trace a) (bv_refs a) (bv_held a)).
Proof.
  intros [A B [C1 C2 C3 C4 C5 C6 C7 C8 C9 C10] D] Hv Hd. split; [done|done| |done].
  split; try done; cbn in *; intros; rewrite <- ?Hv, <- ?Hd; auto.
Qed.

Lemma bio_rep_view s view a refs held :
  bio_rep s (mkView view (bv_disk a) (bv_trace a) refs held) ->
  (forall j, view j = bv_view a j) -> bio_rep s (mkView (bv_view a) (bv_disk a) (bv_trace a) refs held).
Proof. intros Hr Hv. by apply (bio_rep_ext _ _ (bv_view a) (bv_disk a) Hr). Qed.

Lemma ref_up_lookup k m j :
  ref_up k m !! j = if decide (j = k) then Some (S (default 0%nat (m !! k))) else m !! j.
Proof. unfold ref_up. rewrite lookup_insert. by repeat case_decide; subst. Qed.

Lemma ref_down_lookup k m n j :
  m !! k = Some n -> (0 < n)%nat ->
  ref_down k m !! j = if decide (j = k) then (if decide (n = 1%nat) then None else Some (n - 1)%nat) else m !! j.
Proof.
  intros E Hn. unfold ref_down. rewrite E. destruct n as [|[|n]]; [lia| |].
  - rewrite lookup_delete. repeat case_decide; subst; done.
  - rewrite lookup_insert. repeat case_decide; subst; try done; lia.
Qed.

(** Solves [f (getb s b) = mkBuf ...] for a buffer known field by field. *)
Ltac held_eq H :=
  lazymatch type of H with
  | getb ?s ?b = _ =>
      set (b_prev (getb s b)) in *; set (b_next (getb s b)) in *; rewrite H; reflexivity
  end.

Lemma bio_set_law s a b k d : bio_rep s a -> bv_held a !! b = Some k -> block_ok d ->
  exists s', blk_set b d s = Ret (tt, s') /\
    bio_rep s' (mkView (fupd (bv_view a) k d) (bv_disk a) (bv_trace a) (bv_refs a) (bv_held a)).
Proof.
  intros Hrep Hh Hd. destruct (held_buf _ _ _ _ Hrep Hh) as (Hc & n & Hn & Hn0 & Hn32 & Hbuf).
  destruct (updb_run b (set_data d) s (held_lt _ _ _ _ Hrep Hh)) as (s' & Hr & Hchg).
  exists s'. split; [done|].
  eapply bio_change; [done|done|exact Hchg|held_eq Hbuf|done|cbn; lia|..]; cbn.
  - intros j. case_decide; [subst|done]. rewrite Hn. replace (Z.of_nat n =? 0) with false by lia. f_equal. lia.
  - done.
  - left. split_and!; [done|lia|done].
  - lia.
Qed.

Lemma bio_pin_law s a b k : bio_rep s a -> bv_held a !! b = Some k ->
  Z.of_nat (default 0%nat (bv_refs a !! k)) < 2 ^ 31 ->
  exists s', bpin b s = Ret (tt, s') /\
    bio_rep s' (mkView (bv_view a) (bv_disk a) (bv_trace a) (ref_up k (bv_refs a)) (bv_held a)).
Proof.
  intros Hrep Hh Hmax. destruct (held_buf _ _ _ _ Hrep Hh) as (Hc & n & Hn & Hn0 & Hn32 & Hbuf).
  rewrite Hn in Hmax. cbn in Hmax.
  destruct (updb_run b (fun x => set_refcnt (u32 (b_refcnt x + 1)) x) s (held_lt _ _ _ _ Hrep Hh)) as (s' & Hr & Hchg).
  exists s'. split; [done|]. apply bio_rep_view with (view := fupd (bv_view a) k (bv_view a k)); [|apply fupd_id].
  eapply bio_change; [done|done|exact Hchg|held_eq Hbuf|..]; cbn.
  - eapply view_ok, Hrep.
  - apply u32_range.
  - intros j. rewrite ref_up_lookup, Hn. case_decide; [|done]. rewrite u32_small by lia.
    replace (Z.of_nat n + 1 =? 0) with false by lia. cbn. f_equal. lia.
  - done.
  - left. rewrite u32_small by lia. split_and!; [done|lia|done].
  - rewrite u32_small by lia. lia.
Qed.

Lemma bio_unpin_law s a b k n : bio_rep s a -> bv_held a !! b = Some k -> bv_refs a !! k = Some (S (S n)) ->
  exists s', bunpin b s = Ret (tt, s') /\
    bio_rep s' (mkView (bv_view a) (bv_disk a) (bv_trace a) (ref_down k (bv_refs a)) (bv_held a)).
Proof.
  intros Hrep Hh Hn. destruct (held_buf _ _ _ _ Hrep Hh) as (Hc & n' & Hn' & _ & Hn32 & Hbuf).
  rewrite Hn in Hn'. injection Hn' as <-.
  destruct (updb_run b (fun x => set_refcnt (u32 (b_refcnt x - 1)) x) s (held_lt _ _ _ _ Hrep Hh)) as (s' & Hr & Hchg).
  exists s'. split; [done|]. apply bio_rep_view with (view := fupd (bv_view a) k (bv_view a k)); [|apply fupd_id].
  eapply bio_change; [done|done|exact Hchg|held_eq Hbuf|..]; cbn -[Z.of_nat].
  - eapply view_ok, Hrep.
  - apply u32_range.
  - intros j. rewrite (ref_down_lookup _ _ _ _ Hn) by lia. case_decide; [|done]. rewrite u32_small by lia.
    rewrite decide_False by lia. ztest; [lia|]. f_equal. lia.
  - done.
  - left. rewrite u32_small by lia. split_and!; [done|lia|done].
  - rewrite u32_small by lia. lia.
Qed.

Lemma bio_rep_links s s' a :
  bio_rep s a -> (forall i, nolinks (getb s' i) (getb s i)) -> length (bufs s') = S nbuf ->
  bdisk s' = bdisk s /\ btrace s' = btrace s /\ bpid s' = bpid s ->
  (exists order, lru (getb s') order) -> bio_rep s' a.
Proof.
  intros [A B C D] Hn Hl (Hd & Ht & Hp) Ho. split; [done|done| |congruence].
  rewrite Hp. eapply brep_ext; [exact Hn| |exact C]. intros k. unfold disk_block. by rewrite Hd.
Qed.

Lemma bio_relse_law s a b k : bio_rep s a -> bv_held a !! b = Some k ->
  (bv_refs a !! k = Some 1%nat -> bv_view a k = bv_disk a k) ->
  exists s', brelse b s = Ret (tt, s') /\
    bio_rep s' (mkView (bv_view a) (bv_disk a) (bv_trace a) (ref_down k (bv_refs a)) (delete b (bv_held a))).
Proof.
  intros Hrep Hh Hclean. destruct (held_buf _ _ _ _ Hrep Hh) as (Hc & n & Hn & Hn0 & Hn32 & Hbuf).
  pose proof (held_lt _ _ _ _ Hrep Hh) as Hlt.
  destruct (updb_run b (fun x => set_lock (releasesleep (b_lock x)) x) s Hlt) as (s1 & H1 & C1).
  destruct (updb_next b (fun x => set_refcnt (u32 (b_refcnt x - 1)) x) s s1 _ Hlt C1) as (s2 & H2 & C2).
  assert (b_refcnt (getb s2 b) = Z.of_nat n - 1) as Hr2.
  { rewrite (bchg_eq _ _ _ _ C2), Hbuf. cbn. rewrite u32_small; lia. }
  assert (bio_rep s2 (mkView (bv_view a) (bv_disk a) (bv_trace a) (ref_down k (bv_refs a)) (delete b (bv_held a)))) as Hrep2.
  { apply bio_rep_view with (view := fupd (bv_view a) k (bv_view a k)); [|apply fupd_id].
    eapply bio_change; [done|done|exact C2|held_eq Hbuf|..]; cbn.
    - eapply view_ok, Hrep.
    - apply u32_range.
    - intros j. rewrite (ref_down_lookup _ _ _ _ Hn) by lia. case_decide; [|done]. rewrite u32_small by lia.
      repeat ztest; case_decide; try lia; try done. f_equal. lia.
    - intros i Hi. by rewrite lookup_delete_ne.
    - right. split; [apply lookup_delete_eq|done].
    - rewrite u32_small by lia. intros E. apply Hclean. rewrite Hn. f_equal. lia. }
  assert (brelse b s = (r <~ bfield b b_refcnt ;;
    if r =? 0 then
      x <~ bfield b id ;;
      updb (b_next x) (set_prev (b_prev x)) ;;;
      x <~ bfield b id ;;
      updb (b_prev x) (set_next (b_next x)) ;;;
      link_front b
    else kret tt) s2) as Hrun.
  { unfold brelse. unfold kbind at 1, holding_buf, gets. unfold holdingsleep.
    replace (b_lock (getb s b)) with (mkSleeplock 1 (bpid s)) by (by rewrite Hbuf).
    cbn [slocked slpid Z.eqb negb andb]. rewrite Z.eqb_refl. cbn [negb].
    by rewrite (kbind_ret _ _ _ _ _ H1), (kbind_ret _ _ _ _ _ H2). }
  rewrite Hrun. unfold kbind at 1, bfield at 1, gets at 1. rewrite Hr2.
  destruct (Z.eqb_spec (Z.of_nat n - 1) 0) as [E|E]; [|by exists s2].
  pose proof Hrep2 as [Hlen2 (order & Ho) _ _].
  assert (b ∈ order) as Hin by (apply Ho, Hc). apply list_elem_of_split in Hin as (l1 & l2 & ->).
  destruct (move_front_run s2 b l1 l2 Hlen2 Ho) as (s3 & H3 & Hn3 & Hl3 & Hrest3 & Ho3).
  exists s3. split; [exact H3|]. eapply bio_rep_links; try done. by exists (b :: l1 ++ l2).
Qed.

#[export] Instance bio_laws : BlockLaws bstate.
Proof.
  refine {| rep := bio_rep |}.
  - exact bio_rep_ext.
  - intros s a k Hr. eapply view_ok, Hr.
  - intros s a b k Hr Hh. destruct (held_buf _ _ _ _ Hr Hh) as (_ & n & _ & _ & _ & Hbuf). cbn. by rewrite Hbuf.
  - intros s a b b' k Hr H1 H2. destruct (held_buf _ _ _ _ Hr H1) as [C1 _], (held_buf _ _ _ _ Hr H2) as [C2 _].
    by eapply (br_one _ _ _ _ (bio_brep _ _ Hr)).
  - intros s a b k Hr Hh. destruct (held_buf _ _ _ _ Hr Hh) as (_ & n & -> & _). by eexists.
  - exact bio_read_law.
  - exact bio_write_law.
  - exact bio_relse_law.
  - exact bio_pin_law.
  - exact bio_unpin_law.
  - exact bio_set_law.
Defined.

(** ** Properties of the buffer cache *)

(** The cache as the loader leaves it, all zero. *)
Definition bss (disk : gmap Z block) (pid : Z) : bstate := mkBstate (replicate (S nbuf) buf0) disk [] pid.

(** Linked by [binit]: the last buffer first. *)
Definition boot_buf (i : nat) : buf :=
  mkBuf 0 0 0 (mkSleeplock 0 0) 0 (if (i =? nbuf)%nat then 0%nat else S i) (if (i =? 0)%nat then nbuf else (i - 1)%nat) zero_block.
Definition boot_bufs : list buf := boot_buf <$> seq 0 (S nbuf).
Definition boot (disk : gmap Z block) (pid : Z) : bstate := mkBstate boot_bufs disk [] pid.

Lemma binit_run disk pid : binit (bss disk pid) = Ret (tt, boot disk pid).
Proof. vm_compute. reflexivity. Qed.

(** Every buffer is unused; the list runs from the last buffer to the first. *)
Definition boot_order : list nat := reverse (seq 0 nbuf).

Lemma boot_lru disk pid : lru (getb (boot disk pid)) boot_order.
Proof.
  split_and!.
  - unfold boot_order. rewrite reverse_Permutation; apply NoDup_seq.
  - intros i. unfold boot_order. rewrite elem_of_reverse, elem_of_seq. lia.
  - vm_compute. repeat split.
Qed.

Lemma boot_getb disk pid i : (i < nbuf)%nat -> getb (boot disk pid) i = boot_buf i.
Proof.
  intros Hi. unfold getb, boot, boot_bufs. cbn [bufs]. rewrite list_lookup_fmap, lookup_seq_lt by lia. done.
Qed.

Definition disk_view (disk : gmap Z block) (k : Z) : block := default zero_block (disk !! k).

Lemma boot_rep disk pid :
  (forall k b, disk !! k = Some b -> block_ok b) ->
  bio_rep (boot disk pid) (mkView (disk_view disk) (disk_view disk) [] ∅ ∅).
Proof.
  intros Hd. split; [done|exists boot_order; apply boot_lru| |done].
  assert (forall i, (i < nbuf)%nat -> let b := getb (boot disk pid) i in
    b_valid b = 0 /\ b_dev b = 0 /\ b_refcnt b = 0 /\ slocked (b_lock b) = 0 /\ block_ok (b_data b)) as Hf.
  { intros i Hi. rewrite boot_getb by done. split_and!; try done. apply zero_block_ok. }
  assert (forall i k, ~ caches (getb (boot disk pid)) k i) as Hno.
  { intros i k (Hi & Hdev & _). destruct (Hf i Hi) as (_ & E & _). rewrite E in Hdev. discriminate Hdev. }
  split; cbn [bv_view bv_disk bv_refs bv_held].
  - intros i Hi. destruct (Hf i Hi) as (-> & _ & -> & _ & ?). split_and!; [done|by left|lia|lia].
  - intros i j k Hc. by destruct (Hno i k).
  - intros i Hi Hr. destruct (Hf i Hi) as (_ & _ & E & _). lia.
  - intros k n. rewrite lookup_empty. split; [done|]. intros [_ (i & Hc & _)]. by destruct (Hno i k).
  - intros i k ?%lookup_empty_Some. done.
  - intros i Hi Hl. destruct (Hf i Hi) as (_ & _ & _ & E & _). lia.
  - intros i k Hc. by destruct (Hno i k).
  - done.
  - intros i k Hc. by destruct (Hno i k).
  - intros k. split; [done|]. unfold disk_block. cbn. destruct (disk !! k) as [b|] eqn:E; cbn; [by eapply Hd|apply zero_block_ok].
Qed.

(** C30: [bread] returns the current contents of a block: on every state the
    cache can be in, with fewer than NBUF blocks in use or the block in use,
    it does not panic, and the buffer it returns is held by the caller, is
    the only buffer for the block, and has the contents last written to it,
    in the cache or on disk; no other block's contents, references or holder
    change, and the disk is not written. *)
Theorem bread_current s a k :
  bio_rep s a -> 0 <= k < 2 ^ 32 -> ~ isheld a k ->
  Z.of_nat (default 0%nat (bv_refs a !! k)) < 2 ^ 31 ->
  (is_Some (bv_refs a !! k) \/ Z.of_nat (size (bv_refs a)) < NBUF) ->
  exists b s', bread ROOTDEV k s = Ret (b, s') /\ bv_held a !! b = None /\
    b_data (getb s' b) = bv_view a k /\ holdingsleep (bpid s') (b_lock (getb s' b)) = true /\
    (forall i, caches (getb s') k i -> i = b) /\
    bio_rep s' (mkView (bv_view a) (bv_disk a) (bv_trace a) (ref_up k (bv_refs a)) (<[b := k]> (bv_held a))).
Proof.
  intros Hr Hk Hh Hm Hc. destruct (bio_read_law s a k Hr Hk Hh Hm Hc) as (b & s' & Hrun & Hb & Hr').
  exists b, s'. split; [done|]. split; [done|].
  destruct (held_buf s' _ b k Hr' (lookup_insert_eq _ _ _)) as (Hcb & n & _ & _ & _ & Hbuf).
  split_and!; [by rewrite Hbuf| | |done].
  - rewrite Hbuf. cbn. by rewrite Z.eqb_refl.
  - intros i Hi. by apply (br_one _ _ _ _ (bio_brep _ _ Hr') i b k).
Qed.

Lemma bread_current_witness :
  exists b s', bread ROOTDEV 33 (boot ∅ 7) = Ret (b, s') /\ (∅ : gmap nat Z) !! b = None /\
    b_data (getb s' b) = disk_view ∅ 33 /\ holdingsleep (bpid s') (b_lock (getb s' b)) = true /\
    (forall i, caches (getb s') 33 i -> i = b) /\
    bio_rep s' (mkView (disk_view ∅) (disk_view ∅) [] (ref_up 33 ∅) (<[b := 33]> ∅)).
Proof.
  apply (bread_current (boot ∅ 7) (mkView (disk_view ∅) (disk_view ∅) [] ∅ ∅)).
  - apply boot_rep. intros k b ?%lookup_empty_Some. done.
  - lia.
  - intros [b Hb]. cbn in Hb. by apply lookup_empty_Some in Hb.
  - cbn. rewrite lookup_empty. cbn. lia.
  - right. by vm_compute.
Defined.
