(* ===== verification/Log.v ===== *)
(** * The write-ahead log: log.c

    The log runs over any implementation of the block interface.  Its state
    is the in-memory [struct log]; the header block and the buffers are
    reached through the interface.  A store outside [lh.block] is undefined
    behaviour in C; the model stops there with a panic of its own. *)
From S2P Require Import Prelude Machine Blocks.

Record logheader := mkLh { lh_n : Z; lh_block : list Z (* LOGBLOCKS entries *) }.
Record log := mkLog {
  lg_start : Z;
  lg_outstanding : Z;  (* how many FS sys calls are executing *)
  lg_committing : Z;   (* in commit(), please wait *)
  lg_dev : Z;
  lg_lh : logheader }.
Definition log0 : log := mkLog 0 0 0 0 (mkLh 0 (replicate (Z.to_nat LOGBLOCKS) 0)).

Record lstate (St : Type) := mkLstate { ls_io : St; ls_log : log }.
Arguments mkLstate {St} ls_io ls_log.
Arguments ls_io {St} l.
Arguments ls_log {St} l.

(** [int n] and [int block[i]] in the data of the header block. *)
Definition hdr_n (d : block) : Z := i32 (bld 4 d 0).
Definition hdr_block (d : block) (i : nat) : Z := i32 (bld 4 d (4 + 4 * i)).
Definition set_hdr_n (d : block) (v : Z) : block := bst 4 d 0 (u32 v).
Definition set_hdr_block (d : block) (i : nat) (v : Z) : block := bst 4 d (4 + 4 * i) (u32 v).

Definition set_lh (lh : logheader) (l : log) : log :=
  mkLog (lg_start l) (lg_outstanding l) (lg_committing l) (lg_dev l) lh.

Section log.
Context {St : Type} `{!BlockIO St}.

Definition io {A} (m : M St A) : M (lstate St) A := fun s =>
  match m (ls_io s) with
  | Ret (a, s') => Ret (a, mkLstate s' (ls_log s))
  | Panic e => Panic e
  | Sleeps e => Sleeps e
  | OutOfFuel => OutOfFuel
  end.
Definition getlog {A} (f : log -> A) : M (lstate St) A := gets (fun s => f (ls_log s)).
Definition setlog (f : log -> log) : M (lstate St) unit :=
  modify (fun s => mkLstate (ls_io s) (f (ls_log s))).
Definition bdata (b : nat) : M (lstate St) block := gets (fun s => blk_data b (ls_io s)).

(** [log.lh.block[i]], read and written. *)
Definition lh_get (i : nat) : M (lstate St) Z := getlog (fun l => nth i (lh_block (lg_lh l)) 0).
Definition lh_set (i : nat) (v : Z) : M (lstate St) unit :=
  if (i <? Z.to_nat LOGBLOCKS)%nat
  then setlog (fun l => set_lh (mkLh (lh_n (lg_lh l)) (<[i := v]> (lh_block (lg_lh l)))) l)
  else panic "lh.block: out of bounds".
Definition set_lh_n (v : Z) : M (lstate St) unit :=
  setlog (fun l => set_lh (mkLh v (lh_block (lg_lh l))) l).

(** The loop of [install_trans] from [tail] on, [cnt] rounds. *)
Fixpoint install_loop (cnt tail : nat) (recovering : bool) : M (lstate St) unit :=
  match cnt with
  | O => kret tt
  | S cnt =>
      dev <~ getlog lg_dev ;;
      start <~ getlog lg_start ;;
      lbuf <~ io (blk_read dev (u32 (start + Z.of_nat tail + 1))) ;;
      blk <~ lh_get tail ;;
      dbuf <~ io (blk_read dev (u32 blk)) ;;
      d <~ bdata lbuf ;;
      io (blk_set dbuf d) ;;;
      io (blk_write dbuf) ;;;
      (if recovering then kret tt else io (blk_unpin dbuf)) ;;;
      io (blk_relse lbuf) ;;;
      io (blk_relse dbuf) ;;;
      install_loop cnt (S tail) recovering
  end.
Definition install_trans (recovering : bool) : M (lstate St) unit :=
  n <~ getlog (fun l => lh_n (lg_lh l)) ;; install_loop (Z.to_nat n) 0 recovering.

Fixpoint read_head_loop (cnt i : nat) (d : block) : M (lstate St) unit :=
  match cnt with
  | O => kret tt
  | S cnt => lh_set i (hdr_block d i) ;;; read_head_loop cnt (S i) d
  end.
Definition read_head : M (lstate St) unit :=
  dev <~ getlog lg_dev ;;
  start <~ getlog lg_start ;;
  b <~ io (blk_read dev (u32 start)) ;;
  d <~ bdata b ;;
  set_lh_n (hdr_n d) ;;;
  read_head_loop (Z.to_nat (hdr_n d)) 0 d ;;;
  io (blk_relse b).

Fixpoint write_head_loop (cnt i : nat) (b : nat) : M (lstate St) unit :=
  match cnt with
  | O => kret tt
  | S cnt =>
      v <~ lh_get i ;;
      d <~ bdata b ;;
      io (blk_set b (set_hdr_block d i v)) ;;;
      write_head_loop cnt (S i) b
  end.
Definition write_head : M (lstate St) unit :=
  dev <~ getlog lg_dev ;;
  start <~ getlog lg_start ;;
  b <~ io (blk_read dev (u32 start)) ;;
  n <~ getlog (fun l => lh_n (lg_lh l)) ;;
  d <~ bdata b ;;
  io (blk_set b (set_hdr_n d n)) ;;;
  write_head_loop (Z.to_nat n) 0 b ;;;
  io (blk_write b) ;;;
  io (blk_relse b).

Definition recover_from_log : M (lstate St) unit :=
  read_head ;;; install_trans true ;;; set_lh_n 0 ;;; write_head.

(** [logstart] is the field of the superblock that [initlog] reads. *)
Definition initlog (dev logstart : Z) : M (lstate St) unit :=
  if BSIZE <=? 4 + 4 * LOGBLOCKS then panic "initlog: too big logheader"
  else
  setlog (fun l => mkLog logstart (lg_outstanding l) (lg_committing l) dev (lg_lh l)) ;;;
  recover_from_log.

(** A process that must wait sleeps on [&log]. *)
Definition begin_op : M (lstate St) unit :=
  c <~ getlog lg_committing ;;
  n <~ getlog (fun l => lh_n (lg_lh l)) ;;
  o <~ getlog lg_outstanding ;;
  if negb (c =? 0) then sleeps "log"
  else if LOGBLOCKS <? n + (o + 1) * MAXOPBLOCKS then sleeps "log"
  else setlog (fun l => mkLog (lg_start l) (lg_outstanding l + 1) (lg_committing l) (lg_dev l) (lg_lh l)).

Fixpoint write_log_loop (cnt tail : nat) : M (lstate St) unit :=
  match cnt with
  | O => kret tt
  | S cnt =>
      dev <~ getlog lg_dev ;;
      start <~ getlog lg_start ;;
      to <~ io (blk_read dev (u32 (start + Z.of_nat tail + 1))) ;;
      blk <~ lh_get tail ;;
      from <~ io (blk_read dev (u32 blk)) ;;
      d <~ bdata from ;;
      io (blk_set to d) ;;;
      io (blk_write to) ;;;
      io (blk_relse from) ;;;
      io (blk_relse to) ;;;
      write_log_loop cnt (S tail)
  end.
Definition write_log : M (lstate St) unit :=
  n <~ getlog (fun l => lh_n (lg_lh l)) ;; write_log_loop (Z.to_nat n) 0.

Definition commit : M (lstate St) unit :=
  n <~ getlog (fun l => lh_n (lg_lh l)) ;;
  if 0 <? n then
    write_log ;;; write_head ;;; install_trans false ;;; set_lh_n 0 ;;; write_head
  else kret tt.

(** The part of [end_op] under the lock; the result tells whether to commit. *)
Definition end_op_locked : M (lstate St) bool :=
  setlog (fun l => mkLog (lg_start l) (lg_outstanding l - 1) (lg_committing l) (lg_dev l) (lg_lh l)) ;;;
  c <~ getlog lg_committing ;;
  if negb (c =? 0) then panic "log.committing"
  else
    o <~ getlog lg_outstanding ;;
    if o =? 0 then
      setlog (fun l => mkLog (lg_start l) (lg_outstanding l) 1 (lg_dev l) (lg_lh l)) ;;; kret true
    else kret false.
Definition end_op : M (lstate St) unit :=
  do_commit <~ end_op_locked ;;
  if do_commit : bool then
    commit ;;;
    setlog (fun l => mkLog (lg_start l) (lg_outstanding l) 0 (lg_dev l) (lg_lh l))
  else kret tt.

(** The search for [blockno] in [lh.block]: the first match or [n]. *)
Fixpoint find_block (cnt i : nat) (l : list Z) (k : Z) : nat :=
  match cnt with
  | O => i
  | S cnt => if nth i l 0 =? k then i else find_block cnt (S i) l k
  end.
Definition log_write (b : nat) : M (lstate St) unit :=
  lh <~ getlog lg_lh ;;
  o <~ getlog lg_outstanding ;;
  if LOGBLOCKS <=? lh_n lh then panic "too big a transaction"
  else if o <? 1 then panic "log_write outside of trans"
  else
    k <~ gets (fun s => i32 (blk_no b (ls_io s))) ;;
    let i := find_block (Z.to_nat (lh_n lh)) 0 (lh_block lh) k in
    lh_set i k ;;;
    if Z.of_nat i =? lh_n lh then io (blk_pin b) ;;; set_lh_n (lh_n lh + 1)
    else kret tt.
End log.
