(* ===== verification/LogProof.v ===== *)
(** * The log against the block interface: commit and recovery *)
From S2P Require Import Prelude Machine Blocks Log.

(** A list of block writes applied to a disk. *)
Definition apply_writes (ws : list (Z * block)) (f : Z -> block) : Z -> block :=
  foldl (fun f w => fupd f w.1 w.2) f ws.

Lemma apply_writes_app ws ws' f : apply_writes (ws ++ ws') f = apply_writes ws' (apply_writes ws f).
Proof. apply foldl_app. Qed.

Lemma apply_writes_out ws f k : (k ∉ ws.*1) -> apply_writes ws f k = f k.
Proof.
  revert f. induction ws as [|[j d] ws IH]; intros f Hk; [done|]. cbn in Hk.
  apply not_elem_of_cons in Hk as [Hj Hk]. cbn. unfold apply_writes in IH. rewrite IH by done. by apply fupd_ne.
Qed.

Lemma apply_writes_ext ws f f' k : (k ∈ ws.*1 \/ f k = f' k) -> apply_writes ws f k = apply_writes ws f' k.
Proof.
  revert f f'. induction ws as [|[j d] ws IH]; intros f f' Hk.
  - destruct Hk as [Hk|Hk]; [by apply elem_of_nil in Hk|done].
  - cbn. apply IH. destruct (decide (j = k)) as [->|Hne]; [right; by rewrite !fupd_eq|].
    destruct Hk as [Hk|Hk]; [|right; by rewrite !fupd_ne by done].
    cbn in Hk. apply elem_of_cons in Hk as [?|?]; [congruence|by left].
Qed.

(** The writes of [write_log]: the new contents of [bs] to the log, whose next
    block is [start + 1]; and those of [install_trans], from the log home. *)
Fixpoint log_ws (start : Z) (view : Z -> block) (bs : list Z) : list (Z * block) :=
  match bs with
  | [] => []
  | b :: bs => (start + 1, view b) :: log_ws (start + 1) view bs
  end.
Fixpoint home_ws (start : Z) (f : Z -> block) (bs : list Z) : list (Z * block) :=
  match bs with
  | [] => []
  | b :: bs => (b, f (start + 1)) :: home_ws (start + 1) f bs
  end.

Lemma log_ws_ext start f g bs : (forall b, b ∈ bs -> f b = g b) -> log_ws start f bs = log_ws start g bs.
Proof.
  revert start. induction bs as [|b bs IH]; intros start H; [done|]. cbn. rewrite H by inlist.
  f_equal. apply IH. intros. apply H. inlist.
Qed.

Lemma home_ws_ext start f g bs :
  (forall k, start < k <= start + Z.of_nat (length bs) -> f k = g k) -> home_ws start f bs = home_ws start g bs.
Proof.
  revert start. induction bs as [|b bs IH]; intros start H; [done|]. cbn [home_ws length] in *. rewrite H by lia.
  f_equal. apply IH. intros. apply H. lia.
Qed.

Lemma log_ws_keys start f bs k : k ∈ (log_ws start f bs).*1 -> start < k <= start + Z.of_nat (length bs).
Proof.
  revert start. induction bs as [|b bs IH]; intros start; cbn [log_ws length fmap list_fmap].
  - by intros ?%elem_of_nil.
  - intros [->|H]%elem_of_cons; [cbn; lia|]. apply IH in H. lia.
Qed.

Lemma home_ws_keys start f bs : (home_ws start f bs).*1 = bs.
Proof.
  revert start. induction bs as [|b bs IH]; intros start; [done|].
  cbn [home_ws fmap list_fmap fst]. f_equal. apply IH.
Qed.

(** ** References *)
Lemma ref_up_down m k : m !! k <> Some 0%nat -> ref_down k (ref_up k m) = m.
Proof.
  intros Hk. unfold ref_down, ref_up. rewrite lookup_insert_eq.
  destruct (m !! k) as [[|n]|] eqn:E; cbn.
  - done.
  - rewrite insert_insert_eq. by apply insert_id.
  - by apply delete_insert_id.
Qed.

Lemma ref_up_comm m k j : k <> j -> ref_up k (ref_up j m) = ref_up j (ref_up k m).
Proof.
  intros. unfold ref_up. rewrite !lookup_insert_ne by done. by apply insert_insert_ne.
Qed.

(** ** The header block *)
Fixpoint put_blocks (d : block) (i : nat) (bs : list Z) : block :=
  match bs with
  | [] => d
  | b :: bs => put_blocks (set_hdr_block d i b) (S i) bs
  end.
Definition mk_hdr (d : block) (bs : list Z) : block :=
  put_blocks (set_hdr_n d (Z.of_nat (length bs))) 0 bs.

Lemma put_blocks_ok d i bs : block_ok d -> block_ok (put_blocks d i bs).
Proof. revert d i. induction bs as [|b bs IH]; intros d i H; cbn [put_blocks]; [done|]. apply IH. by apply bst_ok. Qed.

Lemma mk_hdr_ok d bs : block_ok d -> block_ok (mk_hdr d bs).
Proof. intros. apply put_blocks_ok. by apply bst_ok. Qed.

Lemma put_blocks_other d i bs off :
  (off + 4 <= 4 + 4 * i)%nat -> bld 4 (put_blocks d i bs) off = bld 4 d off.
Proof.
  revert d i. induction bs as [|b bs IH]; intros d i H; cbn [put_blocks]; [done|].
  rewrite IH by lia. unfold set_hdr_block. apply bld_bst_ne. lia.
Qed.

Lemma put_blocks_length d i bs : length (put_blocks d i bs) = length d.
Proof. revert d i. induction bs as [|b bs IH]; intros; cbn [put_blocks]; [done|]. rewrite IH. apply bst_length. Qed.

Lemma put_blocks_get d i bs j :
  length d = 1024%nat -> (j < length bs)%nat -> (i + length bs <= 30)%nat -> Forall (fun k => 0 <= k < 2 ^ 31) bs ->
  hdr_block (put_blocks d i bs) (i + j) = nth j bs 0.
Proof.
  revert d i j. induction bs as [|b bs IH]; intros d i j Hd Hj Hi HF; cbn [length] in *; [lia|].
  apply Forall_cons in HF as [Hb Hbs].
  destruct j as [|j]; cbn [put_blocks nth].
  - unfold hdr_block. rewrite Nat.add_0_r, put_blocks_other by lia.
    unfold set_hdr_block. rewrite bld_bst_eq by lia. change (256 ^ Z.of_nat 4) with (2 ^ 32).
    rewrite (u32_small b) by lia. rewrite Z.mod_small by lia. apply i32_small. lia.
  - rewrite <- Nat.add_succ_comm. apply IH; [unfold set_hdr_block; by rewrite bst_length|lia|lia|done].
Qed.

Lemma mk_hdr_n d bs :
  length d = 1024%nat -> (length bs <= 30)%nat -> hdr_n (mk_hdr d bs) = Z.of_nat (length bs).
Proof.
  intros Hd Hl. unfold hdr_n, mk_hdr. rewrite put_blocks_other by lia. unfold set_hdr_n.
  rewrite bld_bst_eq by lia. change (256 ^ Z.of_nat 4) with (2 ^ 32).
  rewrite (u32_small (Z.of_nat _)) by lia. rewrite Z.mod_small by lia. apply i32_small. lia.
Qed.

Section log_proof.
Context {St : Type} `{!BlockIO St} `{!BlockLaws St}.

(** ** The block operations, run from the log *)
Lemma io_read s l a k :
  rep s a -> 0 <= k < 2 ^ 32 -> ~ isheld a k ->
  Z.of_nat (default 0%nat (bv_refs a !! k)) < 2 ^ 31 ->
  (is_Some (bv_refs a !! k) \/ Z.of_nat (size (bv_refs a)) < NBUF) ->
  exists b s', io (blk_read ROOTDEV k) (mkLstate s l) = Ret (b, mkLstate s' l) /\ bv_held a !! b = None /\
    rep s' (mkView (bv_view a) (bv_disk a) (bv_trace a) (ref_up k (bv_refs a)) (<[b := k]> (bv_held a))).
Proof.
  intros Hr Hk Hh Hm Hc. destruct (read_law s a k Hr Hk Hh Hm Hc) as (b & s' & Hrun & Hb & Hr').
  exists b, s'. split; [|done]. unfold io. cbn. by rewrite Hrun.
Qed.

Lemma io_write s l a b k :
  rep s a -> bv_held a !! b = Some k ->
  exists s', io (blk_write b) (mkLstate s l) = Ret (tt, mkLstate s' l) /\
    rep s' (mkView (bv_view a) (fupd (bv_disk a) k (bv_view a k))
      (bv_trace a ++ [(k, bv_view a k)]) (bv_refs a) (bv_held a)).
Proof.
  intros Hr Hb. destruct (write_law s a b k Hr Hb) as (s' & Hrun & Hr').
  exists s'. split; [|done]. unfold io. cbn. by rewrite Hrun.
Qed.

Lemma io_relse s l a b k :
  rep s a -> bv_held a !! b = Some k -> (bv_refs a !! k = Some 1%nat -> bv_view a k = bv_disk a k) ->
  exists s', io (blk_relse b) (mkLstate s l) = Ret (tt, mkLstate s' l) /\
    rep s' (mkView (bv_view a) (bv_disk a) (bv_trace a) (ref_down k (bv_refs a)) (delete b (bv_held a))).
Proof.
  intros Hr Hb Hc. destruct (relse_law s a b k Hr Hb Hc) as (s' & Hrun & Hr').
  exists s'. split; [|done]. unfold io. cbn. by rewrite Hrun.
Qed.

Lemma io_pin s l a b k :
  rep s a -> bv_held a !! b = Some k -> Z.of_nat (default 0%nat (bv_refs a !! k)) < 2 ^ 31 ->
  exists s', io (blk_pin b) (mkLstate s l) = Ret (tt, mkLstate s' l) /\
    rep s' (mkView (bv_view a) (bv_disk a) (bv_trace a) (ref_up k (bv_refs a)) (bv_held a)).
Proof.
  intros Hr Hb Hc. destruct (pin_law s a b k Hr Hb Hc) as (s' & Hrun & Hr').
  exists s'. split; [|done]. unfold io. cbn. by rewrite Hrun.
Qed.

Lemma io_unpin s l a b k n :
  rep s a -> bv_held a !! b = Some k -> bv_refs a !! k = Some (S (S n)) ->
  exists s', io (blk_unpin b) (mkLstate s l) = Ret (tt, mkLstate s' l) /\
    rep s' (mkView (bv_view a) (bv_disk a) (bv_trace a) (ref_down k (bv_refs a)) (bv_held a)).
Proof.
  intros Hr Hb Hc. destruct (unpin_law s a b k n Hr Hb Hc) as (s' & Hrun & Hr').
  exists s'. split; [|done]. unfold io. cbn. by rewrite Hrun.
Qed.

Lemma io_set s l a b k d :
  rep s a -> bv_held a !! b = Some k -> block_ok d ->
  exists s', io (blk_set b d) (mkLstate s l) = Ret (tt, mkLstate s' l) /\
    rep s' (mkView (fupd (bv_view a) k d) (bv_disk a) (bv_trace a) (bv_refs a) (bv_held a)).
Proof.
  intros Hr Hb Hd. destruct (set_law s a b k d Hr Hb Hd) as (s' & Hrun & Hr').
  exists s'. split; [|done]. unfold io. cbn. by rewrite Hrun.
Qed.

Lemma bdata_run s l a b k :
  rep s a -> bv_held a !! b = Some k -> bdata b (mkLstate s l) = Ret (bv_view a k, mkLstate s l).
Proof. intros Hr Hb. unfold bdata, gets. cbn. by destruct (rep_data s a b k Hr Hb) as [-> _]. Qed.

(** Blocks the log may touch. *)
Definition blk_range (k : Z) : Prop := 0 <= k < 2 ^ 31.

Lemma u32_blk k : blk_range k -> u32 k = k.
Proof. unfold blk_range. intros. apply u32_small. lia. Qed.

Lemma not_held_empty view disk tr refs k : ~ isheld (mkView view disk tr refs ∅) k.
Proof. intros [b Hb]. cbn in Hb. by apply lookup_empty_Some in Hb. Qed.

(** Two buffers read: [x], which nobody references, then [y]. *)
Lemma read_two s l view disk tr refs x y :
  rep s (mkView view disk tr refs ∅) -> blk_range x -> blk_range y -> x <> y ->
  refs !! x = None -> Z.of_nat (size refs) < NBUF ->
  (refs !! y = Some 1%nat \/ (refs !! y = None /\ Z.of_nat (size refs) + 1 < NBUF)) ->
  exists bx s1 by_ s2,
    io (blk_read ROOTDEV x) (mkLstate s l) = Ret (bx, mkLstate s1 l) /\
    io (blk_read ROOTDEV y) (mkLstate s1 l) = Ret (by_, mkLstate s2 l) /\ bx <> by_ /\
    rep s2 (mkView view disk tr (ref_up y (ref_up x refs)) (<[by_ := y]> {[bx := x]})).
Proof.
  intros Hr Hx Hy Hxy Hrx Hsz Hry.
  destruct (io_read s l _ x Hr) as (bx & s1 & H1 & Hb1 & Hr1); cbn; rewrite ?Hrx; unfold blk_range in *.
  - lia.
  - apply not_held_empty.
  - cbn. lia.
  - by right.
  - cbn [bv_view bv_disk bv_trace bv_refs bv_held] in Hr1.
    destruct (io_read s1 l _ y Hr1) as (b2 & s2 & H2 & Hb2 & Hr2); cbn.
    + lia.
    + intros [b Hb]. cbn in Hb. apply lookup_singleton_Some in Hb as [_ ?]. done.
    + unfold ref_up. rewrite lookup_insert_ne by done. destruct Hry as [->|[-> _]]; cbn; lia.
    + unfold ref_up. rewrite lookup_insert_ne by done. destruct Hry as [->|[_ ?]]; [left; by eexists|right].
      rewrite map_size_insert, Hrx. lia.
    + exists bx, s1, b2, s2. split_and!; [done|done| |done].
      intros ->. cbn in Hb2. by rewrite lookup_insert_eq in Hb2.
Qed.

Lemma write_log_round cnt tail s l view disk tr refs y :
  let x := lg_start l + Z.of_nat tail + 1 in
  rep s (mkView view disk tr refs ∅) -> lg_dev l = ROOTDEV ->
  nth tail (lh_block (lg_lh l)) 0 = y -> blk_range x -> blk_range y -> x <> y ->
  refs !! x = None -> refs !! y = Some 1%nat -> Z.of_nat (size refs) < NBUF ->
  exists s', write_log_loop (S cnt) tail (mkLstate s l) = write_log_loop cnt (S tail) (mkLstate s' l) /\
    rep s' (mkView (fupd view x (view y)) (fupd disk x (view y)) (tr ++ [(x, view y)]) refs ∅).
Proof.
  intros x Hr Hdev Hy Hx Hyr Hxy Hrx Hry Hsz. cbn [write_log_loop].
  unfold kbind at 1 2, getlog at 1 2, gets at 1 2. cbn [ls_log]. fold x. rewrite Hdev, (u32_blk _ Hx).
  destruct (read_two s l view disk tr refs x y Hr Hx Hyr Hxy Hrx Hsz (or_introl Hry))
    as (bx & s1 & b2 & s2 & H1 & H2 & Hne & Hr2).
  rewrite (kbind_ret _ _ _ _ _ H1). unfold kbind at 1, lh_get at 1, getlog at 1, gets at 1. cbn [ls_log].
  rewrite Hy, (u32_blk _ Hyr), (kbind_ret _ _ _ _ _ H2).
  assert (<[b2 := y]> {[bx := x]} !! b2 = Some y) as Hb2 by apply lookup_insert_eq.
  assert (<[b2 := y]> {[bx := x]} !! bx = Some x) as Hbx
    by (rewrite lookup_insert_ne by done; apply lookup_singleton_eq).
  rewrite (kbind_ret _ _ _ _ _ (bdata_run s2 l _ b2 y Hr2 Hb2)). cbn [bv_view].
  destruct (io_set s2 l _ bx x (view y) Hr2 Hbx) as (s3 & H3 & Hr3).
  { apply (rep_ok s2 _ y Hr2). }
  rewrite (kbind_ret _ _ _ _ _ H3). cbn [bv_view bv_disk bv_trace bv_refs bv_held] in Hr3.
  destruct (io_write s3 l _ bx x Hr3 Hbx) as (s4 & H4 & Hr4).
  rewrite (kbind_ret _ _ _ _ _ H4). cbn [bv_view bv_disk bv_trace bv_refs bv_held] in Hr4.
  rewrite fupd_eq in Hr4.
  destruct (io_relse s4 l _ b2 y Hr4 Hb2) as (s5 & H5 & Hr5); cbn [bv_view bv_disk bv_refs].
  { unfold ref_up. rewrite lookup_insert_eq, lookup_insert_ne, Hry by done. done. }
  rewrite (kbind_ret _ _ _ _ _ H5). cbn [bv_view bv_disk bv_trace bv_refs bv_held] in Hr5.
  rewrite ref_up_down in Hr5 by (unfold ref_up; rewrite lookup_insert_ne, Hry by done; done).
  rewrite delete_insert_id in Hr5 by (by rewrite lookup_singleton_ne).
  destruct (io_relse s5 l _ bx x Hr5) as (s6 & H6 & Hr6); cbn [bv_view bv_disk bv_refs bv_held].
  { apply lookup_singleton_eq. }
  { intros _. by rewrite !fupd_eq. }
  rewrite (kbind_ret _ _ _ _ _ H6). cbn [bv_view bv_disk bv_trace bv_refs bv_held] in Hr6.
  rewrite ref_up_down in Hr6 by (by rewrite Hrx).
  exists s6. split; [done|]. by rewrite delete_singleton_eq in Hr6.
Qed.

(** [lh.block] holds [bs] from index [i] on. *)
Definition holds_at (l : log) (i : nat) (bs : list Z) : Prop :=
  forall j, (j < length bs)%nat -> nth (i + j) (lh_block (lg_lh l)) 0 = nth j bs 0.

Lemma holds_at_cons l i b bs :
  holds_at l i (b :: bs) -> nth i (lh_block (lg_lh l)) 0 = b /\ holds_at l (S i) bs.
Proof.
  intros H. split.
  - specialize (H 0%nat). rewrite Nat.add_0_r in H. apply H. cbn. lia.
  - intros j Hj. specialize (H (S j)). rewrite <- Nat.add_succ_comm in H. apply H. cbn. lia.
Qed.

Lemma write_log_loop_ok bs tail s l view disk tr refs :
  let st := lg_start l + Z.of_nat tail in
  rep s (mkView view disk tr refs ∅) -> lg_dev l = ROOTDEV -> holds_at l tail bs ->
  0 <= st -> st + Z.of_nat (length bs) < 2 ^ 31 - 1 ->
  Forall blk_range bs -> (forall b, b ∈ bs -> b <= st \/ st + Z.of_nat (length bs) < b) ->
  (forall k, st < k <= st + Z.of_nat (length bs) -> refs !! k = None) ->
  (forall b, b ∈ bs -> refs !! b = Some 1%nat) -> Z.of_nat (size refs) < NBUF ->
  exists s', write_log_loop (length bs) tail (mkLstate s l) = Ret (tt, mkLstate s' l) /\
    rep s' (mkView (apply_writes (log_ws st view bs) view) (apply_writes (log_ws st view bs) disk)
              (tr ++ log_ws st view bs) refs ∅).
Proof.
  revert tail s view disk tr. induction bs as [|b bs IH];
    intros tail s view disk tr st Hr Hdev Hat H0 Hmax Hrng Hout Hfree Hpin Hsz.
  { exists s. split; [done|]. cbn. by rewrite app_nil_r. }
  apply holds_at_cons in Hat as [Hb Hat]. apply Forall_cons in Hrng as [Hrb Hrng].
  assert (Z.of_nat (length (b :: bs)) = Z.of_nat (length bs) + 1) as El by (cbn [length]; lia). rewrite El in *.
  assert (lg_start l + Z.of_nat tail + 1 = st + 1) as Ex by done.
  destruct (write_log_round (length bs) tail s l view disk tr refs b) as (s1 & Hrun & Hr1);
    rewrite ?Ex; unfold blk_range; try done; try lia.
  { specialize (Hout b ltac:(inlist)). lia. }
  { apply Hfree. lia. }
  { apply Hpin. inlist. }
  rewrite Ex in Hr1.
  assert (forall b', b' ∈ bs -> fupd view (st + 1) (view b) b' = view b') as Hsame.
  { intros b' Hb'. apply fupd_ne. specialize (Hout b' ltac:(inlist)). lia. }
  assert (lg_start l + Z.of_nat (S tail) = st + 1) as Est by lia.
  destruct (IH (S tail) s1 _ _ _ Hr1) as (s2 & Hrun2 & Hr2); rewrite ?Est; try done; try lia.
  { intros b' Hb'. specialize (Hout b' ltac:(inlist)). lia. }
  { intros k Hk. apply Hfree. lia. }
  { intros b' Hb'. apply Hpin. inlist. }
  exists s2. cbn [length]. split; [by rewrite Hrun|]. cbn [log_ws].
  rewrite Est, (log_ws_ext _ _ view bs Hsame), <- app_assoc in Hr2. exact Hr2.
Qed.

Lemma fupd_fupd (f : Z -> block) k d d' j : fupd (fupd f k d) k d' j = fupd f k d' j.
Proof. unfold fupd. by destruct (j =? k). Qed.

Lemma write_head_loop_ok bs i b s l view disk tr refs x :
  rep s (mkView view disk tr refs {[b := x]}) -> holds_at l i bs ->
  exists s', write_head_loop (length bs) i b (mkLstate s l) = Ret (tt, mkLstate s' l) /\
    rep s' (mkView (fupd view x (put_blocks (view x) i bs)) disk tr refs {[b := x]}).
Proof.
  revert i s view. induction bs as [|v bs IH]; intros i s view Hr Hat.
  { exists s. split; [done|]. apply (rep_ext s _ _ _ Hr); [|done]. intros k. cbn.
    unfold fupd. by destruct (Z.eqb_spec k x) as [->|]. }
  apply holds_at_cons in Hat as [Hv Hat]. cbn [length write_head_loop].
  assert (({[b := x]} : gmap nat Z) !! b = Some x) as Hb by apply lookup_singleton_eq.
  unfold kbind at 1, lh_get at 1, getlog at 1, gets at 1. cbn [ls_log]. rewrite Hv.
  rewrite (kbind_ret _ _ _ _ _ (bdata_run s l _ b x Hr Hb)). cbn [bv_view].
  destruct (io_set s l _ b x (set_hdr_block (view x) i v) Hr Hb) as (s1 & H1 & Hr1).
  { apply bst_ok. apply (rep_ok s _ x Hr). }
  rewrite (kbind_ret _ _ _ _ _ H1). cbn [bv_view bv_disk bv_trace bv_refs bv_held] in Hr1.
  destruct (IH (S i) s1 _ Hr1 Hat) as (s2 & H2 & Hr2). exists s2. split; [done|].
  apply (rep_ext s2 _ _ _ Hr2); [|done]. intros k. cbn [bv_view put_blocks]. by rewrite fupd_eq, fupd_fupd.
Qed.

Lemma write_head_ok bs s l view disk tr refs :
  let x := lg_start l in
  rep s (mkView view disk tr refs ∅) -> lg_dev l = ROOTDEV -> blk_range x ->
  lh_n (lg_lh l) = Z.of_nat (length bs) -> holds_at l 0 bs ->
  refs !! x = None -> Z.of_nat (size refs) < NBUF ->
  let h := mk_hdr (view x) bs in
  exists s', write_head (mkLstate s l) = Ret (tt, mkLstate s' l) /\
    rep s' (mkView (fupd view x h) (fupd disk x h) (tr ++ [(x, h)]) refs ∅).
Proof.
  intros x Hr Hdev Hx Hn Hat Hrx Hsz h. unfold write_head.
  unfold kbind at 1 2, getlog at 1 2, gets at 1 2. cbn [ls_log]. fold x. rewrite Hdev, (u32_blk _ Hx).
  destruct (io_read s l _ x Hr) as (b & s1 & H1 & Hb1 & Hr1); cbn; rewrite ?Hrx; unfold blk_range in *.
  { lia. }
  { apply not_held_empty. }
  { cbn. lia. }
  { by right. }
  rewrite (kbind_ret _ _ _ _ _ H1). cbn [bv_view bv_disk bv_trace bv_refs bv_held] in Hr1.
  unfold kbind at 1, getlog at 1, gets at 1. cbn [ls_log]. rewrite Hn.
  assert (({[b := x]} : gmap nat Z) !! b = Some x) as Hb by apply lookup_singleton_eq.
  rewrite (kbind_ret _ _ _ _ _ (bdata_run s1 l _ b x Hr1 Hb)). cbn [bv_view].
  destruct (io_set s1 l _ b x (set_hdr_n (view x) (Z.of_nat (length bs))) Hr1 Hb) as (s2 & H2 & Hr2).
  { apply bst_ok. apply (rep_ok s1 _ x Hr1). }
  rewrite (kbind_ret _ _ _ _ _ H2). cbn [bv_view bv_disk bv_trace bv_refs bv_held] in Hr2.
  rewrite Nat2Z.id. destruct (write_head_loop_ok bs 0 b s2 l _ _ _ _ x Hr2 Hat) as (s3 & H3 & Hr3).
  rewrite (kbind_ret _ _ _ _ _ H3). rewrite fupd_eq in Hr3. fold (mk_hdr (view x) bs) in Hr3. fold h in Hr3.
  destruct (io_write s3 l _ b x Hr3 Hb) as (s4 & H4 & Hr4).
  rewrite (kbind_ret _ _ _ _ _ H4). cbn [bv_view bv_disk bv_trace bv_refs bv_held] in Hr4. rewrite fupd_eq in Hr4.
  destruct (io_relse s4 l _ b x Hr4 Hb) as (s5 & H5 & Hr5); cbn [bv_view bv_disk bv_refs].
  { intros _. by rewrite !fupd_eq. }
  rewrite H5. exists s5. split; [done|]. cbn [bv_view bv_disk bv_trace bv_refs bv_held] in Hr5.
  rewrite ref_up_down, delete_singleton_eq in Hr5 by (by rewrite Hrx).
  apply (rep_ext s5 _ _ _ Hr5); [|done]. intros k. cbn [bv_view]. apply fupd_fupd.
Qed.

(** ** Installing the logged blocks *)
Definition dropped (recovering : bool) (y : Z) (refs : gmap Z nat) : gmap Z nat :=
  if recovering then refs else delete y refs.

Lemma install_refs (recovering : bool) x y refs :
  x <> y -> refs !! x = None ->
  (if recovering then refs !! y = None else refs !! y = Some 1%nat) ->
  let r2 := ref_up y (ref_up x refs) in
  let r3 := if recovering then r2 else ref_down y r2 in
  r3 !! y = Some 1%nat /\ ref_down x r3 !! y = Some 1%nat /\
  ref_down y (ref_down x r3) = dropped recovering y refs.
Proof.
  intros Hxy Hx Hy. cbn zeta. destruct recovering; cbn [dropped].
  - rewrite ref_up_comm by done. rewrite (ref_up_down (ref_up y refs) x)
      by (unfold ref_up; rewrite lookup_insert_ne, Hx by done; done).
    rewrite ref_up_down by (by rewrite Hy). unfold ref_up.
    rewrite lookup_insert_ne by done. rewrite !lookup_insert_eq, Hy. done.
  - rewrite (ref_up_down (ref_up x refs) y) by (unfold ref_up; rewrite lookup_insert_ne, Hy by done; done).
    rewrite ref_up_down by (by rewrite Hx). unfold ref_up. rewrite lookup_insert_ne by done.
    unfold ref_down. by rewrite Hy.
Qed.

Lemma install_round cnt tail (recovering : bool) s l view disk tr refs y :
  let x := lg_start l + Z.of_nat tail + 1 in
  rep s (mkView view disk tr refs ∅) -> lg_dev l = ROOTDEV ->
  nth tail (lh_block (lg_lh l)) 0 = y -> blk_range x -> blk_range y -> x <> y ->
  refs !! x = None -> Z.of_nat (size refs) < NBUF ->
  (if recovering then refs !! y = None /\ Z.of_nat (size refs) + 1 < NBUF else refs !! y = Some 1%nat) ->
  view x = disk x ->
  exists s', install_loop (S cnt) tail recovering (mkLstate s l) =
      install_loop cnt (S tail) recovering (mkLstate s' l) /\
    rep s' (mkView (fupd view y (view x)) (fupd disk y (view x)) (tr ++ [(y, view x)])
      (dropped recovering y refs) ∅).
Proof.
  intros x Hr Hdev Hy Hx Hyr Hxy Hrx Hsz Hry Hclean. cbn [install_loop].
  unfold kbind at 1 2, getlog at 1 2, gets at 1 2. cbn [ls_log]. fold x. rewrite Hdev, (u32_blk _ Hx).
  destruct (read_two s l view disk tr refs x y Hr Hx Hyr Hxy Hrx Hsz)
    as (bx & s1 & b2 & s2 & H1 & H2 & Hne & Hr2); [destruct recovering; auto|].
  rewrite (kbind_ret _ _ _ _ _ H1). unfold kbind at 1, lh_get at 1, getlog at 1, gets at 1. cbn [ls_log].
  rewrite Hy, (u32_blk _ Hyr), (kbind_ret _ _ _ _ _ H2).
  set (held := <[b2 := y]> {[bx := x]}) in *.
  assert (held !! b2 = Some y) as Hb2 by apply lookup_insert_eq.
  assert (held !! bx = Some x) as Hbx by (unfold held; rewrite lookup_insert_ne by done; apply lookup_singleton_eq).
  rewrite (kbind_ret _ _ _ _ _ (bdata_run s2 l _ bx x Hr2 Hbx)). cbn [bv_view].
  destruct (io_set s2 l _ b2 y (view x) Hr2 Hb2) as (s3 & H3 & Hr3); [apply (rep_ok s2 _ x Hr2)|].
  rewrite (kbind_ret _ _ _ _ _ H3). cbn [bv_view bv_disk bv_trace bv_refs bv_held] in Hr3.
  destruct (io_write s3 l _ b2 y Hr3 Hb2) as (s4 & H4 & Hr4).
  rewrite (kbind_ret _ _ _ _ _ H4). cbn [bv_view bv_disk bv_trace bv_refs bv_held] in Hr4. rewrite fupd_eq in Hr4.
  destruct (install_refs recovering x y refs Hxy Hrx) as (R1 & R2 & R3); [destruct recovering; tauto|].
  set (r3 := if recovering then ref_up y (ref_up x refs) else ref_down y (ref_up y (ref_up x refs))) in *.
  assert (exists s5, (if recovering then kret tt else io (blk_unpin b2)) (mkLstate s4 l) = Ret (tt, mkLstate s5 l) /\
    rep s5 (mkView (fupd view y (view x)) (fupd disk y (view x)) (tr ++ [(y, view x)]) r3 held)) as (s5 & H5 & Hr5).
  { unfold r3. destruct recovering; [by exists s4|].
    destruct (io_unpin s4 l _ b2 y 0 Hr4 Hb2) as (s5 & H5 & Hr5); [|by exists s5]. cbn [bv_refs].
    unfold ref_up. by rewrite lookup_insert_eq, lookup_insert_ne, Hry by done. }
  rewrite (kbind_ret _ _ _ _ _ H5).
  destruct (io_relse s5 l _ bx x Hr5 Hbx) as (s6 & H6 & Hr6); cbn [bv_view bv_disk bv_refs].
  { intros _. by rewrite !fupd_ne. }
  rewrite (kbind_ret _ _ _ _ _ H6). cbn [bv_view bv_disk bv_trace bv_refs bv_held] in Hr6.
  assert (delete bx held = {[b2 := y]}) as Hdel.
  { unfold held. rewrite delete_insert_ne, delete_singleton_eq by done. done. }
  rewrite Hdel in Hr6.
  destruct (io_relse s6 l _ b2 y Hr6) as (s7 & H7 & Hr7); cbn [bv_view bv_disk bv_refs bv_held].
  { apply lookup_singleton_eq. }
  { intros _. by rewrite !fupd_eq. }
  rewrite (kbind_ret _ _ _ _ _ H7). cbn [bv_view bv_disk bv_trace bv_refs bv_held] in Hr7.
  exists s7. split; [done|]. by rewrite R3, delete_singleton_eq in Hr7.
Qed.

Definition dropped_all (recovering : bool) (bs : list Z) (refs : gmap Z nat) : gmap Z nat :=
  foldl (fun m y => dropped recovering y m) refs bs.

Lemma install_loop_ok bs tail (recovering : bool) s l view disk tr refs :
  let st := lg_start l + Z.of_nat tail in
  rep s (mkView view disk tr refs ∅) -> lg_dev l = ROOTDEV -> holds_at l tail bs ->
  0 <= st -> st + Z.of_nat (length bs) < 2 ^ 31 - 1 ->
  NoDup bs -> Forall blk_range bs -> (forall b, b ∈ bs -> b <= st \/ st + Z.of_nat (length bs) < b) ->
  (forall k, st < k <= st + Z.of_nat (length bs) -> refs !! k = None /\ view k = disk k) ->
  (forall b, b ∈ bs -> if recovering then refs !! b = None else refs !! b = Some 1%nat) ->
  Z.of_nat (size refs) + (if recovering then 1 else 0) < NBUF ->
  let W := home_ws st view bs in
  exists s', install_loop (length bs) tail recovering (mkLstate s l) = Ret (tt, mkLstate s' l) /\
    rep s' (mkView (apply_writes W view) (apply_writes W disk) (tr ++ W) (dropped_all recovering bs refs) ∅).
Proof.
  revert tail s view disk tr refs. induction bs as [|b bs IH];
    intros tail s view disk tr refs st Hr Hdev Hat H0 Hmax Hnd Hrng Hout Hlog Hpin Hsz W.
  { exists s. split; [done|]. unfold W. cbn. by rewrite app_nil_r. }
  apply holds_at_cons in Hat as [Hb Hat]. apply Forall_cons in Hrng as [Hrb Hrng].
  apply NoDup_cons in Hnd as [Hnb Hnd].
  assert (Z.of_nat (length (b :: bs)) = Z.of_nat (length bs) + 1) as El by (cbn [length]; lia). rewrite El in *.
  assert (lg_start l + Z.of_nat tail + 1 = st + 1) as Ex by done.
  pose proof (Hout b ltac:(inlist)) as Hob. pose proof (Hpin b ltac:(inlist)) as Hpb.
  destruct (install_round (length bs) tail recovering s l view disk tr refs b) as (s1 & Hrun & Hr1);
    rewrite ?Ex; unfold blk_range; try done; try lia.
  { apply Hlog. lia. }
  { destruct recovering; lia. }
  { destruct recovering; [split; [done|lia]|done]. }
  { apply Hlog. lia. }
  rewrite Ex in Hr1.
  assert (lg_start l + Z.of_nat (S tail) = st + 1) as Est by lia.
  assert (forall k, st + 1 < k <= st + 1 + Z.of_nat (length bs) -> fupd view b (view (st + 1)) k = view k) as Hsame.
  { intros k Hk. apply fupd_ne. lia. }
  destruct (IH (S tail) s1 _ _ _ _ Hr1) as (s2 & Hrun2 & Hr2); rewrite ?Est; try done; try lia.
  { intros b' Hb'. specialize (Hout b' ltac:(inlist)). lia. }
  { intros k Hk. destruct (Hlog k ltac:(lia)) as [Hk1 Hk2]. split.
    - destruct recovering; cbn [dropped]; [done|]. rewrite lookup_delete_ne by lia. done.
    - rewrite !fupd_ne by lia. done. }
  { intros b' Hb'. specialize (Hpin b' ltac:(inlist)). destruct recovering; cbn [dropped]; [done|].
    rewrite lookup_delete_ne; [done|]. by intros ->. }
  { destruct recovering; cbn [dropped]; [done|]. rewrite map_size_delete, Hpb. lia. }
  exists s2. cbn [length]. split; [by rewrite Hrun|].
  rewrite Est, (home_ws_ext _ _ view bs Hsame), <- app_assoc in Hr2. exact Hr2.
Qed.
End log_proof.
