(* ===== verification/LogCrash.v ===== *)
(** * Commit, recovery and crashes *)
From S2P Require Import Prelude Machine Blocks Log LogProof.

(** The writes of a commit of blocks [bs] with contents [view], in order:
    the log, the header (the commit point), the home locations, the header
    again. *)
Definition data_ws (view : Z -> block) (bs : list Z) : list (Z * block) := (fun b => (b, view b)) <$> bs.
Definition commit_ws (start : Z) (view : Z -> block) (bs : list Z) : list (Z * block) :=
  let h := mk_hdr (view start) bs in
  log_ws start view bs ++ [(start, h)] ++ data_ws view bs ++ [(start, mk_hdr h [])].

(** What [lh] and the disk layout promise about a transaction. *)
Record geom (start : Z) (bs : list Z) : Prop := {
  gm_start : 0 <= start;
  gm_end : start + LOGBLOCKS < 2 ^ 31 - 1;
  gm_len : Z.of_nat (length bs) <= LOGBLOCKS;
  gm_nodup : NoDup bs;
  gm_range : Forall blk_range bs;
  gm_out : forall b, b ∈ bs -> b < start \/ start + LOGBLOCKS < b }.

Lemma data_ws_keys view bs : (data_ws view bs).*1 = bs.
Proof. unfold data_ws. rewrite <- list_fmap_compose. apply list_fmap_id. Qed.

Lemma log_ws_get start view bs i b f :
  bs !! i = Some b -> apply_writes (log_ws start view bs) f (start + 1 + Z.of_nat i) = view b.
Proof.
  revert start f i. induction bs as [|c bs IH]; intros start f i Hi; [by rewrite lookup_nil in Hi; discriminate|].
  cbn [log_ws apply_writes foldl fst snd]. fold (apply_writes (log_ws (start + 1) view bs) (fupd f (start + 1) (view c))).
  destruct i as [|i]; cbn in Hi.
  - injection Hi as ->. rewrite apply_writes_out; [rewrite Z.add_0_r; apply fupd_eq|].
    intros Hk%log_ws_keys. lia.
  - rewrite <- (IH (start + 1) (fupd f (start + 1) (view c)) i Hi). f_equal. lia.
Qed.

Lemma log_ws_keys_in start view bs k :
  start < k <= start + Z.of_nat (length bs) -> k ∈ (log_ws start view bs).*1.
Proof.
  revert start. induction bs as [|b bs IH]; intros start Hk; cbn [log_ws length fmap list_fmap fst] in *; [lia|].
  destruct (Z.eq_dec k (start + 1)) as [->|]; [left|right]. apply IH. lia.
Qed.

Lemma home_ws_data start f view bs :
  (forall i b, bs !! i = Some b -> f (start + 1 + Z.of_nat i) = view b) ->
  home_ws start f bs = data_ws view bs.
Proof.
  revert start. induction bs as [|b bs IH]; intros start H; [done|]. cbn [home_ws data_ws fmap list_fmap].
  f_equal.
  - f_equal. specialize (H 0%nat b eq_refl). by rewrite Z.add_0_r in H.
  - apply IH. intros i c Hi. rewrite <- (H (S i) c Hi). f_equal. lia.
Qed.

Lemma dropped_lookup bs refs k :
  dropped_all false bs refs !! k = if decide (k ∈ bs) then None else refs !! k.
Proof.
  revert refs. induction bs as [|b bs IH]; intros refs.
  - rewrite decide_False; [done|]. apply not_elem_of_nil.
  - change (dropped_all false (b :: bs) refs) with (dropped_all false bs (delete b refs)). rewrite IH, lookup_delete.
    repeat case_decide; subst; try done; exfalso; set_solver.
Qed.

Lemma dropped_size bs refs : (size (dropped_all false bs refs) <= size refs)%nat.
Proof.
  revert refs. induction bs as [|b bs IH]; intros refs; [done|].
  change (dropped_all false (b :: bs) refs) with (dropped_all false bs (delete b refs)). etrans; [apply IH|]. rewrite map_size_delete.
  destruct (refs !! b); cbn; lia.
Qed.

Lemma data_ws_get view bs f k :
  apply_writes (data_ws view bs) f k = if decide (k ∈ bs) then view k else f k.
Proof.
  revert f. induction bs as [|b bs IH]; intros f.
  - by rewrite decide_False by apply not_elem_of_nil.
  - change (apply_writes (data_ws view (b :: bs)) f) with (apply_writes (data_ws view bs) (fupd f b (view b))).
    rewrite IH. unfold fupd. destruct (Z.eqb_spec k b) as [->|Hne]; repeat case_decide; try done; exfalso; set_solver.
Qed.

Lemma apply_writes_in ws f k d : (forall w, w ∈ ws -> w.1 = k -> w.2 = d) ->
  apply_writes ws f k = d \/ (apply_writes ws f k = f k /\ (k ∉ ws.*1)).
Proof.
  revert f. induction ws as [|[j e] ws IH]; intros f H; [right; split; [done|apply not_elem_of_nil]|].
  change (apply_writes ((j, e) :: ws) f) with (apply_writes ws (fupd f j e)).
  destruct (IH (fupd f j e)) as [->|[-> Hk]]; [intros w Hw; apply H; inlist|by left|].
  destruct (Z.eq_dec k j) as [->|Hne].
  - left. rewrite fupd_eq. by apply (H (j, e)); [left|].
  - right. rewrite fupd_ne by done. split; [done|]. cbn. by rewrite not_elem_of_cons.
Qed.

Section crash.
Context {St : Type} `{!BlockIO St} `{!BlockLaws St}.

Definition clear_n (l : log) : log := set_lh (mkLh 0 (lh_block (lg_lh l))) l.

Lemma set_lh_n_run v (s : St) (l : log) :
  set_lh_n v (mkLstate s l) = Ret (tt, mkLstate s (set_lh (mkLh v (lh_block (lg_lh l))) l)).
Proof. done. Qed.

Lemma commit_ok bs s l view disk tr refs :
  let start := lg_start l in
  rep s (mkView view disk tr refs ∅) -> lg_dev l = ROOTDEV -> geom start bs -> bs <> [] ->
  lh_n (lg_lh l) = Z.of_nat (length bs) -> holds_at l 0 bs ->
  (forall b, b ∈ bs -> refs !! b = Some 1%nat) ->
  (forall k, start <= k <= start + LOGBLOCKS -> refs !! k = None) ->
  Z.of_nat (size refs) < NBUF ->
  let W := commit_ws start view bs in
  exists s', commit (mkLstate s l) = Ret (tt, mkLstate s' (clear_n l)) /\
    rep s' (mkView (apply_writes W view) (apply_writes W disk) (tr ++ W) (dropped_all false bs refs) ∅).
Proof.
  intros start Hr Hdev Hg Hne Hn Hat Hpin Hfree Hsz W. destruct Hg as [G1 G2 G3 G4 G5 G6].
  assert (0 < lh_n (lg_lh l)) as Hpos by (rewrite Hn; destruct bs; [done|cbn; lia]).
  unfold commit, kbind at 1, getlog at 1, gets at 1. cbn [ls_log]. replace (0 <? lh_n (lg_lh l)) with true by lia.
  unfold write_log. rewrite <- kbind_assoc. unfold kbind at 1, getlog at 1, gets at 1. cbn [ls_log]. rewrite Hn, Nat2Z.id.
  assert (lg_start l + Z.of_nat 0 = start) as E0 by (unfold start; lia).
  destruct (write_log_loop_ok bs 0 s l view disk tr refs) as (s1 & H1 & Hr1); rewrite ?E0; try done; try lia.
  { intros b Hb. specialize (G6 b Hb). lia. }
  { intros k Hk. apply Hfree. lia. }
  rewrite E0 in Hr1. rewrite (kbind_ret _ _ _ _ _ H1). set (W1 := log_ws start view bs) in *.
  assert (apply_writes W1 view start = view start) as Hv1.
  { apply apply_writes_out. intros Hk%log_ws_keys. lia. }
  destruct (write_head_ok bs s1 l _ _ _ refs Hr1) as (s2 & H2 & Hr2); try done; fold start; unfold blk_range; try lia.
  { apply Hfree. lia. }
  fold start in Hr2. rewrite Hv1 in Hr2. rewrite (kbind_ret _ _ _ _ _ H2). set (h := mk_hdr (view start) bs) in *.
  unfold install_trans at 1. rewrite <- kbind_assoc. unfold kbind at 1, getlog at 1, gets at 1. cbn [ls_log]. rewrite Hn, Nat2Z.id.
  destruct (install_loop_ok bs 0 false s2 l _ _ _ refs Hr2) as (s3 & H3 & Hr3); rewrite ?E0; try done; try lia.
  { intros b Hb. specialize (G6 b Hb). lia. }
  { intros k Hk. split; [apply Hfree; lia|]. rewrite !fupd_ne by lia. apply apply_writes_ext. left.
    apply log_ws_keys_in. lia. }
  rewrite E0 in Hr3. rewrite (kbind_ret _ _ _ _ _ H3).
  rewrite (home_ws_data start _ view bs) in Hr3.
  2: { intros i b Hi. rewrite fupd_ne by (apply lookup_lt_Some in Hi; lia). by apply log_ws_get. }
  rewrite (kbind_ret _ _ _ _ _ (set_lh_n_run 0 s3 l)). fold (clear_n l).
  assert (start ∉ bs) as Hns by (intros Hb; specialize (G6 _ Hb); lia).
  destruct (write_head_ok [] s3 (clear_n l) _ _ _ _ Hr3) as (s4 & H4 & Hr4); try done; unfold blk_range; cbn [clear_n set_lh lg_start].
  { lia. }
  { intros j Hj. cbn in Hj. lia. }
  { rewrite dropped_lookup. case_decide; [done|]. apply Hfree. lia. }
  { pose proof (dropped_size bs refs). lia. }
  rewrite H4. exists s4. split; [done|]. cbn [clear_n set_lh lg_start] in Hr4. fold start in Hr4.
  rewrite (apply_writes_out (data_ws view bs)), fupd_eq in Hr4 by (by rewrite data_ws_keys).
  rewrite <- !app_assoc in Hr4.
  apply (rep_ext s4 _ _ _ Hr4); intros k; cbn [bv_view bv_disk]; unfold W, commit_ws; fold h W1;
    rewrite !apply_writes_app; reflexivity.
Qed.

(** ** Recovery *)
Lemma read_head_loop_ok cnt i d (s : St) l :
  length (lh_block (lg_lh l)) = 30%nat -> (i + cnt <= 30)%nat ->
  exists blk, read_head_loop cnt i d (mkLstate s l) =
      Ret (tt, mkLstate s (set_lh (mkLh (lh_n (lg_lh l)) blk) l)) /\
    length blk = 30%nat /\
    (forall j, (i <= j < i + cnt)%nat -> nth j blk 0 = hdr_block d j) /\
    (forall j, (j < i)%nat -> nth j blk 0 = nth j (lh_block (lg_lh l)) 0).
Proof.
  revert i l. induction cnt as [|cnt IH]; intros i l Hl Hi.
  { exists (lh_block (lg_lh l)). split_and!; [|done|lia|done]. cbn. by destruct l as [? ? ? ? []]. }
  cbn [read_head_loop]. unfold lh_set at 1. change (Z.to_nat LOGBLOCKS) with 30%nat.
  rewrite (proj2 (Nat.ltb_lt i 30)) by lia.
  unfold kbind, setlog, modify. cbn [ls_io ls_log].
  destruct (IH (S i) (set_lh (mkLh (lh_n (lg_lh l)) (<[i := hdr_block d i]> (lh_block (lg_lh l)))) l))
    as (blk & Hrun & Hlen & Hin & Hout); [cbn; by rewrite length_insert|lia|].
  cbn [set_lh lg_lh lh_n lh_block] in *.
  exists blk. split_and!; [by rewrite Hrun|done| |].
  - intros j Hj. destruct (decide (j = i)) as [->|]; [|apply Hin; lia].
    rewrite Hout by lia. rewrite nth_lookup, list_lookup_insert_eq by lia. done.
  - intros j Hj. rewrite Hout by lia. rewrite !nth_lookup, list_lookup_insert_ne by lia. done.
Qed.

(** The blocks that the header on disk [d] names. *)
Definition hdr_blocks (d : block) : list Z := hdr_block d <$> seq 0 (Z.to_nat (hdr_n d)).

Lemma hdr_blocks_mk d bs start :
  length d = 1024%nat -> geom start bs -> hdr_blocks (mk_hdr d bs) = bs.
Proof.
  intros Hd [_ _ G3 _ G5 _]. unfold LOGBLOCKS, MAXOPBLOCKS in G3. unfold hdr_blocks.
  rewrite mk_hdr_n, Nat2Z.id by (done || lia). apply (nth_ext _ _ 0 0).
  { by rewrite length_fmap, length_seq. }
  rewrite length_fmap, length_seq. intros i Hi.
  rewrite (nth_lookup_Some _ _ 0 (hdr_block (mk_hdr d bs) i))
    by (rewrite list_lookup_fmap, lookup_seq_lt by done; done).
  apply (put_blocks_get _ 0 bs i); [unfold set_hdr_n; by rewrite bst_length|done|lia|done].
Qed.

Lemma read_head_ok s l d disk tr :
  let start := lg_start l in let bs := hdr_blocks (d start) in
  rep s (mkView d disk tr ∅ ∅) -> (forall k, d k = disk k) -> lg_dev l = ROOTDEV ->
  length (lh_block (lg_lh l)) = 30%nat -> 0 <= hdr_n (d start) -> geom start bs ->
  exists s' blk, let l' := set_lh (mkLh (Z.of_nat (length bs)) blk) l in
    read_head (mkLstate s l) = Ret (tt, mkLstate s' l') /\ holds_at l' 0 bs /\ length blk = 30%nat /\
    rep s' (mkView d disk tr ∅ ∅).
Proof.
  intros start bs Hr Hd Hdev Hlen Hn [G1 G2 G3 _ _ _]. unfold LOGBLOCKS, MAXOPBLOCKS in *.
  assert (Z.of_nat (length bs) = hdr_n (d start)) as El.
  { unfold bs, hdr_blocks. rewrite length_fmap, length_seq. lia. }
  unfold read_head, kbind at 1 2, getlog at 1 2, gets at 1 2. cbn [ls_log]. fold start.
  rewrite Hdev, u32_small by lia.
  destruct (io_read s l _ start Hr) as (b & s1 & H1 & Hb1 & Hr1); cbn; rewrite ?lookup_empty; try lia.
  { apply not_held_empty. }
  { cbn. lia. }
  { right. by vm_compute. }
  rewrite (kbind_ret _ _ _ _ _ H1). cbn [bv_view bv_disk bv_trace bv_refs bv_held] in Hr1.
  assert (({[b := start]} : gmap nat Z) !! b = Some start) as Hb by apply lookup_singleton_eq.
  rewrite (kbind_ret _ _ _ _ _ (bdata_run s1 l _ b start Hr1 Hb)). cbn [bv_view].
  rewrite (kbind_ret _ _ _ _ _ (set_lh_n_run _ s1 l)).
  destruct (read_head_loop_ok (Z.to_nat (hdr_n (d start))) 0 (d start) s1
    (set_lh (mkLh (hdr_n (d start)) (lh_block (lg_lh l))) l)) as (blk & H2 & Hbl & Hin & _); [done|lia|].
  rewrite (kbind_ret _ _ _ _ _ H2). cbn [set_lh lg_lh lh_n lh_block] in *.
  destruct (io_relse s1 (set_lh (mkLh (hdr_n (d start)) blk) l) _ b start Hr1 Hb) as (s2 & H3 & Hr3);
    cbn [bv_view bv_disk bv_refs]; [done|].
  exists s2, blk. cbn zeta. rewrite El. split_and!; [exact H3| |done|].
  - intros j Hj. cbn [set_lh lg_lh lh_block plus]. rewrite Hin by lia. unfold bs, hdr_blocks.
    symmetry. apply nth_lookup_Some. rewrite list_lookup_fmap, lookup_seq_lt by lia. done.
  - cbn [bv_view bv_disk bv_trace bv_refs bv_held] in Hr3.
    rewrite ref_up_down, delete_insert_id in Hr3 by (by rewrite lookup_empty). exact Hr3.
Qed.

Lemma dropped_all_true bs refs : dropped_all true bs refs = refs.
Proof. induction bs as [|b bs IH]; [done|]. exact IH. Qed.

Lemma recover_ok s l d disk tr :
  let start := lg_start l in let bs := hdr_blocks (d start) in
  rep s (mkView d disk tr ∅ ∅) -> (forall k, d k = disk k) -> lg_dev l = ROOTDEV ->
  length (lh_block (lg_lh l)) = 30%nat -> 0 <= hdr_n (d start) -> geom start bs ->
  let W := home_ws start d bs ++ [(start, mk_hdr (d start) [])] in
  exists s' l', recover_from_log (mkLstate s l) = Ret (tt, mkLstate s' l') /\
    lh_n (lg_lh l') = 0 /\
    rep s' (mkView (apply_writes W d) (apply_writes W disk) (tr ++ W) ∅ ∅).
Proof.
  intros start bs Hr Hd Hdev Hlen Hn Hg W. pose proof Hg as [G1 G2 G3 G4 G5 G6].
  destruct (read_head_ok s l d disk tr Hr Hd Hdev Hlen Hn Hg) as (s1 & blk & H1 & Hat & Hbl & Hr1).
  fold start bs in H1, Hat. set (l1 := set_lh _ l) in *.
  unfold recover_from_log. rewrite (kbind_ret _ _ _ _ _ H1).
  unfold install_trans. rewrite <- kbind_assoc. unfold kbind at 1, getlog at 1, gets at 1.
  cbn [ls_log l1 set_lh lg_lh lh_n]. rewrite Nat2Z.id. fold l1.
  assert (lg_start l1 + Z.of_nat 0 = start) as E0 by (cbn; unfold start; lia).
  destruct (install_loop_ok bs 0 true s1 l1 d disk tr ∅ Hr1) as (s2 & H2 & Hr2); rewrite ?E0; try done; try lia.
  { intros b Hb. specialize (G6 b Hb). lia. }
  rewrite E0, dropped_all_true in Hr2. rewrite (kbind_ret _ _ _ _ _ H2).
  rewrite (kbind_ret _ _ _ _ _ (set_lh_n_run 0 s2 l1)). set (l2 := set_lh _ l1).
  destruct (write_head_ok [] s2 l2 _ _ _ _ Hr2) as (s3 & H3 & Hr3); try done; unfold blk_range; cbn [l2 l1 set_lh lg_start].
  { fold start. lia. }
  { intros j Hj. cbn in Hj. lia. }
  cbn [l2 l1 set_lh lg_start] in Hr3. fold start in Hr3.
  exists s3, l2. split_and!; [done|done|].
  assert (apply_writes (home_ws start d bs) d start = d start) as Hs.
  { apply apply_writes_out. rewrite home_ws_keys. intros Hb. specialize (G6 _ Hb). lia. }
  rewrite Hs, <- app_assoc in Hr3. unfold W.
  apply (rep_ext s3 _ _ _ Hr3); intros k; cbn [bv_view bv_disk]; by rewrite apply_writes_app.
Qed.

(** ** Any prefix of a commit's writes recovers to all or nothing *)
Section prefix.
Context (start : Z) (bs : list Z) (view d0 : Z -> block).
Hypothesis Hg : geom start bs.
Hypothesis Hok : length (view start) = 1024%nat.
Hypothesis Hclean : hdr_n (d0 start) = 0.

Definition in_log (k : Z) : Prop := start <= k <= start + LOGBLOCKS.
Definition recovered (d : Z -> block) : Z -> block :=
  apply_writes (home_ws start d (hdr_blocks (d start)) ++ [(start, mk_hdr (d start) [])]) d.

Lemma start_not_logged : start ∉ bs.
Proof. intros Hb. apply (gm_out _ _ Hg) in Hb. unfold LOGBLOCKS, MAXOPBLOCKS in Hb. lia. Qed.

Lemma recovered_nil d k : hdr_blocks (d start) = [] -> ~ in_log k -> recovered d k = d k.
Proof.
  intros E Hk. unfold recovered. rewrite E. cbn. apply fupd_ne. intros ->. apply Hk. unfold in_log.
  unfold LOGBLOCKS, MAXOPBLOCKS. lia.
Qed.

Lemma prefix_before p k :
  (p <= length bs)%nat -> ~ (start < k <= start + LOGBLOCKS) ->
  apply_writes (take p (log_ws start view bs)) d0 k = d0 k.
Proof.
  intros Hp Hk. apply apply_writes_out. intros Hin. apply Hk.
  assert (k ∈ (log_ws start view bs).*1) as Hin'.
  { rewrite fmap_take in Hin. by apply elem_of_take in Hin as (i & Hi & _); apply list_elem_of_lookup_2 in Hi. }
  apply log_ws_keys in Hin'. pose proof (gm_len _ _ Hg). lia.
Qed.

(** The disk after the header write and [q] of the installs. *)
Definition mid (q : nat) : Z -> block :=
  apply_writes (take q (data_ws view bs)) (fupd (apply_writes (log_ws start view bs) d0) start (mk_hdr (view start) bs)).

Lemma mid_start q : mid q start = mk_hdr (view start) bs.
Proof.
  unfold mid. rewrite apply_writes_out; [apply fupd_eq|]. intros Hin. apply start_not_logged.
  rewrite fmap_take, data_ws_keys in Hin. by apply elem_of_take in Hin as (i & Hi & _); apply list_elem_of_lookup_2 in Hi.
Qed.

Lemma mid_log q i b : bs !! i = Some b -> mid q (start + 1 + Z.of_nat i) = view b.
Proof.
  intros Hi. pose proof (lookup_lt_Some _ _ _ Hi). pose proof (gm_len _ _ Hg). unfold mid. rewrite apply_writes_out.
  - rewrite fupd_ne by lia. by apply log_ws_get.
  - intros Hin. rewrite fmap_take, data_ws_keys in Hin.
    apply elem_of_take in Hin as (j & Hj & _). apply list_elem_of_lookup_2, (gm_out _ _ Hg) in Hj. lia.
Qed.

Lemma mid_data q k : ~ in_log k -> (k ∉ bs) -> mid q k = d0 k.
Proof.
  intros Hk Hb. unfold mid. rewrite apply_writes_out.
  - unfold in_log in Hk. pose proof (gm_len _ _ Hg). rewrite fupd_ne by (unfold LOGBLOCKS, MAXOPBLOCKS in *; lia).
    apply apply_writes_out. intros Hin%log_ws_keys. lia.
  - rewrite fmap_take, data_ws_keys. intros Hin. apply Hb.
    by apply elem_of_take in Hin as (i & Hi & _); apply list_elem_of_lookup_2 in Hi.
Qed.

Lemma mid_recovered q k : ~ in_log k ->
  recovered (mid q) k = if decide (k ∈ bs) then view k else d0 k.
Proof.
  intros Hk. unfold recovered. rewrite mid_start, (hdr_blocks_mk _ _ start) by done.
  rewrite (home_ws_data start (mid q) view bs (mid_log q)), apply_writes_app.
  cbn [apply_writes foldl fst snd]. rewrite fupd_ne.
  2: { intros ->. apply Hk. unfold in_log, LOGBLOCKS, MAXOPBLOCKS. lia. }
  fold (apply_writes (data_ws view bs) (mid q)). rewrite data_ws_get. case_decide; [done|]. by apply mid_data.
Qed.

Lemma log_ws_length : length (log_ws start view bs) = length bs.
Proof.
  clear. revert start. induction bs as [|b bs' IH]; intros st; [done|]. cbn [log_ws length]. by rewrite IH.
Qed.

Lemma geom_nil : geom start [].
Proof.
  destruct Hg. split; [done|done|unfold LOGBLOCKS, MAXOPBLOCKS; cbn; lia|apply NoDup_nil_2|apply Forall_nil_2|].
  by intros b ?%elem_of_nil.
Qed.

Lemma hdr_blocks_nil d : hdr_n d = 0 -> hdr_blocks d = [].
Proof. intros E. unfold hdr_blocks. by rewrite E. Qed.

(** The writes of a commit, cut at any point. *)
Lemma prefix_shape w :
  w `prefix_of` commit_ws start view bs ->
  (length w <= length bs /\ w = take (length w) (log_ws start view bs))%nat \/
  ((length bs < length w)%nat /\ exists q, apply_writes w d0 = mid q) \/
  ((length bs < length w)%nat /\
   apply_writes w d0 = fupd (mid (length bs)) start (mk_hdr (mk_hdr (view start) bs) [])).
Proof.
  intros [t Ht]. assert (w = take (length w) (commit_ws start view bs)) as Hw by (by rewrite Ht, take_app_length).
  unfold commit_ws in Hw. cbn zeta in Hw. pose proof log_ws_length as HA. pose proof (length_fmap (fun b => (b, view b)) bs) as HD.
  fold (data_ws view bs) in HD.
  destruct (decide (length w <= length bs)%nat) as [Hle|Hgt].
  { left. split; [done|]. by rewrite take_app_le in Hw by lia. }
  right. rewrite take_app_ge, HA in Hw by lia.
  destruct (length w - length bs)%nat as [|q] eqn:Eq; [lia|]. cbn [app take] in Hw.
  destruct (decide (q <= length bs)%nat) as [Hq|Hq]; [left|right]; (split; [lia|]).
  - exists q. rewrite take_app_le in Hw by lia. rewrite Hw, apply_writes_app. done.
  - rewrite take_app_ge, HD in Hw by lia.
    destruct (q - length bs)%nat as [|r] eqn:Er; [lia|]. cbn [app take] in Hw.
    rewrite take_nil in Hw. rewrite Hw, apply_writes_app. unfold mid.
    rewrite (take_ge (data_ws view bs)) by lia.
    change (apply_writes ((start, mk_hdr (view start) bs) :: data_ws view bs ++ [(start, mk_hdr (mk_hdr (view start) bs) [])])
      (apply_writes (log_ws start view bs) d0))
      with (apply_writes (data_ws view bs ++ [(start, mk_hdr (mk_hdr (view start) bs) [])])
        (fupd (apply_writes (log_ws start view bs) d0) start (mk_hdr (view start) bs))).
    by rewrite apply_writes_app.
Qed.

Lemma prefix_recovered w :
  w `prefix_of` commit_ws start view bs ->
  let d := apply_writes w d0 in
  geom start (hdr_blocks (d start)) /\ 0 <= hdr_n (d start) /\
  forall k, ~ in_log k ->
    recovered d k = if decide ((length bs < length w)%nat /\ k ∈ bs) then view k else d0 k.
Proof.
  intros Hw d. unfold d. destruct (prefix_shape w Hw) as [[Hle Hw']|[[Hgt [q ->]]|[Hgt ->]]].
  - assert (apply_writes w d0 start = d0 start) as Es by (rewrite Hw'; apply prefix_before; lia).
    rewrite Es, Hclean, hdr_blocks_nil by done. split_and!; [apply geom_nil|lia|].
    intros k Hk. rewrite recovered_nil; [|by rewrite Es, hdr_blocks_nil|done]. rewrite decide_False by lia.
    rewrite Hw'. apply prefix_before; [done|]. unfold in_log in Hk. lia.
  - rewrite mid_start, (hdr_blocks_mk _ _ start) by done. split_and!; [done| |].
    { rewrite mk_hdr_n; [lia|done|]. pose proof (gm_len _ _ Hg). unfold LOGBLOCKS, MAXOPBLOCKS in *. lia. }
    intros k Hk. rewrite mid_recovered by done. repeat case_decide; try done; exfalso; tauto.
  - rewrite fupd_eq. assert (hdr_n (mk_hdr (mk_hdr (view start) bs) []) = 0) as E0.
    { rewrite mk_hdr_n; [done| |cbn; lia]. unfold mk_hdr. rewrite put_blocks_length. unfold set_hdr_n. by rewrite bst_length. }
    rewrite E0, hdr_blocks_nil by done. split_and!; [apply geom_nil|lia|].
    intros k Hk. rewrite recovered_nil; [|by rewrite fupd_eq, hdr_blocks_nil|done].
    rewrite fupd_ne by (intros ->; apply Hk; unfold in_log, LOGBLOCKS, MAXOPBLOCKS; lia).
    destruct (decide (k ∈ bs)) as [Hb|Hb].
    + rewrite decide_True by done. unfold mid. pose proof (length_fmap (fun b => (b, view b)) bs) as HD.
      fold (data_ws view bs) in HD. rewrite take_ge by lia. rewrite data_ws_get. by rewrite decide_True.
    + rewrite decide_False by tauto. by apply mid_data.
Qed.
End prefix.
End crash.
