(* ===== verification/LogTxn.v ===== *)
(** * Transactions: [begin_op], [log_write], [end_op] and the log's space *)
From S2P Require Import Prelude Machine Blocks Log LogProof LogCrash.

Section txn.
Context {St : Type} `{!BlockIO St}.

(** ** Code that leaves [struct log] alone *)
Definition keeps {A} (m : M (lstate St) A) : Prop :=
  forall s a s', m s = Ret (a, s') -> ls_log s' = ls_log s.

Lemma log_keeps_bind {A B} (m : M (lstate St) A) (f : A -> M (lstate St) B) :
  keeps m -> (forall a, keeps (f a)) -> keeps (kbind m f).
Proof.
  intros Hm Hf s b s'' (a & s' & H1 & H2)%kbind_inv. rewrite (Hf a _ _ _ H2). by eapply Hm.
Qed.
Lemma log_keeps_ret {A} (a : A) : keeps (kret a).
Proof. by intros s b s' [= _ <-]. Qed.
Lemma log_keeps_gets {A} (f : lstate St -> A) : keeps (gets f).
Proof. by intros s b s' [= _ <-]. Qed.
Lemma keeps_io {A} (m : M St A) : keeps (io m).
Proof. intros s a s'. unfold io. destruct (m (ls_io s)) as [[b t]| | |]; by intros [= _ <-]. Qed.

Ltac keeps := repeat first [apply log_keeps_bind; [|intros ?] | apply log_keeps_ret | apply log_keeps_gets | apply keeps_io].

Lemma install_keeps cnt tail r : keeps (install_loop cnt tail r).
Proof. revert tail. induction cnt as [|cnt IH]; intros tail; cbn [install_loop]; keeps; [destruct r; keeps|apply IH]. Qed.
Lemma write_log_keeps cnt tail : keeps (write_log_loop cnt tail).
Proof. revert tail. induction cnt as [|cnt IH]; intros tail; cbn [write_log_loop]; keeps. apply IH. Qed.
Lemma write_head_loop_keeps cnt i b : keeps (write_head_loop cnt i b).
Proof. revert i. induction cnt as [|cnt IH]; intros i; cbn [write_head_loop]; keeps. apply IH. Qed.
Lemma write_head_keeps : keeps write_head.
Proof. unfold write_head. keeps. apply write_head_loop_keeps. Qed.

(** A commit empties the log. *)
Lemma commit_log s s' :
  commit s = Ret (tt, s') ->
  ls_log s' = if 0 <? lh_n (lg_lh (ls_log s)) then clear_n (ls_log s) else ls_log s.
Proof.
  intros Hk. unfold commit, kbind at 1, getlog at 1, gets at 1 in Hk.
  destruct (0 <? _); [|by injection Hk as <-].
  apply kbind_inv in Hk as ([] & s1 & H1 & Hk). apply kbind_inv in Hk as ([] & s2 & H2 & Hk).
  apply kbind_inv in Hk as ([] & s3 & H3 & Hk). apply kbind_inv in Hk as ([] & s4 & H4 & H5).
  apply write_head_keeps in H2, H5. rewrite H5.
  assert (ls_log s1 = ls_log s) as E1.
  { unfold write_log, kbind, getlog, gets in H1. by eapply write_log_keeps. }
  assert (ls_log s3 = ls_log s2) as E3.
  { unfold install_trans, kbind, getlog, gets in H3. by eapply install_keeps. }
  injection H4 as <-. cbn [ls_log]. rewrite E3, H2, E1. done.
Qed.

(** ** The space reservation

    The system calls in progress, each with the number of blocks it may still
    add to the log; the steps are the code's, in any interleaving. *)
Definition lg_n (s : lstate St) : Z := lh_n (lg_lh (ls_log s)).

Inductive lstep : lstate St * list Z -> lstate St * list Z -> Prop :=
| st_begin s s' ops :
    begin_op s = Ret (tt, s') -> lstep (s, ops) (s', MAXOPBLOCKS :: ops)
| st_write s s' b l1 r l2 :
    log_write b s = Ret (tt, s') -> lg_n s' - lg_n s <= r ->
    lstep (s, l1 ++ r :: l2) (s', l1 ++ (r - (lg_n s' - lg_n s)) :: l2)
| st_end s s' l1 r l2 c :
    end_op_locked s = Ret (c, s') -> lstep (s, l1 ++ r :: l2) (s', l1 ++ l2)
| st_commit s s1 s' :
    lg_committing (ls_log s) = 1 -> commit s = Ret (tt, s1) ->
    s' = mkLstate (ls_io s1) (mkLog (lg_start (ls_log s1)) (lg_outstanding (ls_log s1)) 0
           (lg_dev (ls_log s1)) (lg_lh (ls_log s1))) ->
    lstep (s, []) (s', []).

Inductive lreach : lstate St * list Z -> Prop :=
| lr_init s : lg_n s = 0 -> lg_outstanding (ls_log s) = 0 -> lg_committing (ls_log s) = 0 ->
    length (lh_block (lg_lh (ls_log s))) = 30%nat -> lreach (s, [])
| lr_step x y : lreach x -> lstep x y -> lreach y.

Fixpoint zsum (l : list Z) : Z := match l with [] => 0 | x :: l => x + zsum l end.
Lemma zsum_app l l' : zsum (l ++ l') = zsum l + zsum l'.
Proof. induction l as [|x l IH]; cbn; [done|]. rewrite IH. lia. Qed.

Record lspace (s : lstate St) (ops : list Z) : Prop := {
  sp_out : lg_outstanding (ls_log s) = Z.of_nat (length ops);
  sp_len : length (lh_block (lg_lh (ls_log s))) = 30%nat;
  sp_pos : Forall (fun r => 0 <= r <= MAXOPBLOCKS) ops;
  sp_sum : 0 <= lg_n s /\ lg_n s + zsum ops <= LOGBLOCKS;
  sp_com : lg_committing (ls_log s) = 0 \/ (lg_committing (ls_log s) = 1 /\ ops = []) }.

Lemma zsum_bound ops : Forall (fun r => 0 <= r <= MAXOPBLOCKS) ops ->
  0 <= zsum ops <= Z.of_nat (length ops) * MAXOPBLOCKS.
Proof.
  unfold MAXOPBLOCKS. induction 1 as [|x l Hx _ IH]; cbn [zsum length]; [lia|]. lia.
Qed.

Lemma find_block_bound cnt i l k : (i <= find_block cnt i l k <= i + cnt)%nat.
Proof.
  revert i. induction cnt as [|cnt IH]; intros i; cbn; [lia|].
  destruct (_ =? _); [lia|]. specialize (IH (S i)). lia.
Qed.

Lemma log_write_log b s s' :
  log_write b s = Ret (tt, s') -> 0 <= lg_n s ->
  (lg_n s' = lg_n s \/ lg_n s' = lg_n s + 1) /\ lg_n s < LOGBLOCKS /\
  lg_outstanding (ls_log s') = lg_outstanding (ls_log s) /\
  lg_committing (ls_log s') = lg_committing (ls_log s) /\
  length (lh_block (lg_lh (ls_log s'))) = length (lh_block (lg_lh (ls_log s))).
Proof.
  intros H Hn. unfold log_write, kbind at 1 2, getlog at 1 2, gets at 1 2 in H. fold (lg_n s) in H.
  destruct (Z.leb_spec LOGBLOCKS (lg_n s)) as [|Hl]; [discriminate H|]. destruct (_ <? 1); [discriminate H|].
  unfold kbind at 1, gets at 1 in H. set (k := i32 _) in H. set (i := find_block _ _ _ _) in H.
  unfold lh_set in H. destruct (i <? _)%nat; [|discriminate H].
  unfold kbind at 1, setlog at 1, modify at 1 in H.
  destruct (Z.of_nat i =? lg_n s).
  - apply kbind_inv in H as ([] & s1 & H1 & H2). apply keeps_io in H1.
    unfold set_lh_n, setlog, modify in H2. injection H2 as <-. unfold lg_n. cbn. rewrite H1. cbn.
    split_and!; [by right|done|done|done|by rewrite length_insert].
  - injection H as <-. cbn. split_and!; [by left|done..|by rewrite length_insert].
Qed.

Lemma begin_space s s' ops : lspace s ops -> begin_op s = Ret (tt, s') -> lspace s' (MAXOPBLOCKS :: ops).
Proof.
  intros [So Sl Sp [Sn Ss] Sc] H. unfold begin_op, kbind, getlog, gets in H. fold (lg_n s) in H.
  destruct (Z.eqb_spec (lg_committing (ls_log s)) 0) as [E|]; cbn [negb] in H; [|discriminate H].
  destruct (Z.ltb_spec LOGBLOCKS (lg_n s + (lg_outstanding (ls_log s) + 1) * MAXOPBLOCKS)) as [|Hle]; [discriminate H|].
  unfold setlog, modify in H. injection H as <-. pose proof (zsum_bound _ Sp).
  split; cbn [ls_log lg_outstanding lg_lh lg_committing zsum length].
  - lia.
  - done.
  - constructor; [unfold MAXOPBLOCKS; lia|done].
  - unfold lg_n. cbn. fold (lg_n s). unfold MAXOPBLOCKS in *. lia.
  - by left.
Qed.

Lemma write_space s s' b l1 r l2 :
  lspace s (l1 ++ r :: l2) -> log_write b s = Ret (tt, s') -> lg_n s' - lg_n s <= r ->
  lspace s' (l1 ++ (r - (lg_n s' - lg_n s)) :: l2).
Proof.
  intros [So Sl Sp [Sn Ss] Sc] H Hr. destruct (log_write_log _ _ _ H Sn) as (Hn & Hl & Ho & Hc & Hlen).
  apply Forall_app in Sp as [S1 [S2 S3]%Forall_cons]. rewrite zsum_app in Ss. cbn [zsum] in Ss. split.
  - rewrite Ho, So, !length_app. done.
  - congruence.
  - apply Forall_app. split; [done|]. constructor; [lia|done].
  - rewrite zsum_app. cbn [zsum]. lia.
  - rewrite Hc. destruct Sc as [|[_ Sc]]; [by left|]. destruct l1; discriminate Sc.
Qed.

Lemma end_space s s' l1 r l2 c :
  lspace s (l1 ++ r :: l2) -> end_op_locked s = Ret (c, s') -> lspace s' (l1 ++ l2).
Proof.
  intros [So Sl Sp [Sn Ss] Sc] H. apply Forall_app in Sp as [S1 [S2 S3]%Forall_cons].
  rewrite zsum_app in Ss. cbn [zsum] in Ss. rewrite length_app in So. cbn [length] in So.
  unfold end_op_locked, kbind at 1 2, setlog at 1, modify at 1, getlog at 1, gets at 1 in H. cbn [ls_log lg_committing] in H.
  destruct (Z.eqb_spec (lg_committing (ls_log s)) 0) as [E|]; cbn [negb] in H; [|discriminate H].
  unfold kbind at 1, getlog at 1, gets at 1 in H. cbn [ls_log lg_outstanding] in H.
  assert (lspace (mkLstate (ls_io s) (mkLog (lg_start (ls_log s)) (lg_outstanding (ls_log s) - 1)
    (lg_committing (ls_log s)) (lg_dev (ls_log s)) (lg_lh (ls_log s)))) (l1 ++ l2)) as Hsp.
  { split; cbn [ls_log lg_outstanding lg_lh lg_committing]; [rewrite length_app; lia|done|by apply Forall_app| |by left].
    unfold lg_n. cbn. fold (lg_n s). rewrite zsum_app. lia. }
  destruct (Z.eqb_spec (lg_outstanding (ls_log s) - 1) 0) as [E0|]; [|by injection H as <- <-].
  unfold kbind, setlog, modify in H. injection H as <- <-. destruct Hsp as [P1 P2 P3 P4 P5].
  split; try done. right. split; [done|]. apply length_zero_iff_nil. rewrite length_app. lia.
Qed.

Lemma commit_space s s1 :
  lspace s [] -> commit s = Ret (tt, s1) ->
  lspace (mkLstate (ls_io s1) (mkLog (lg_start (ls_log s1)) (lg_outstanding (ls_log s1)) 0
    (lg_dev (ls_log s1)) (lg_lh (ls_log s1)))) [].
Proof.
  intros [So Sl Sp [Sn Ss] Sc] H. apply commit_log in H. fold (lg_n s) in H. rewrite H.
  unfold lg_n in *. destruct (Z.ltb_spec 0 (lh_n (lg_lh (ls_log s)))); split; cbn in *; try done; try (by left); unfold lg_n; cbn; lia.
Qed.

Lemma lstep_space x y : lspace x.1 x.2 -> lstep x y -> lspace y.1 y.2.
Proof.
  intros Hsp Hst.
  destruct Hst as [s s' ops H|s s' b l1 r l2 H Hr|s s' l1 r l2 c H|s s1 s' Hc H ->]; cbn [fst snd] in *.
  - by apply (begin_space s).
  - by apply write_space with (b := b).
  - by apply end_space with (s := s) (r := r) (c := c).
  - by apply (commit_space s).
Qed.

Lemma lreach_space x : lreach x -> lspace x.1 x.2.
Proof.
  induction 1 as [s Hn Ho Hc Hl|x y _ IH Hs]; [|by eapply lstep_space].
  cbn. split; cbn; [lia|done|constructor|unfold LOGBLOCKS, MAXOPBLOCKS; lia|by left].
Qed.
End txn.

(** ** The state of a transaction

    [tinv] ties the buffers, [struct log] and the disk together while system
    calls run: what a reader of a block sees, which blocks are in the log,
    which buffers the process holds.  The file system is proved against the
    lemmas on [tinv]. *)

Section tinv.
Context {St : Type} `{!BlockIO St} `{!BlockLaws St}.

Definition nheld (held : gmap nat Z) (k : Z) : nat := if decide (k ∈ (map_to_list held).*2) then 1 else 0.
Definition nlogged (bs : list Z) (k : Z) : nat := if decide (k ∈ bs) then 1 else 0.
Definition nrefs (n : nat) : option nat := match n with O => None | S _ => Some n end.

Record tinv (s : lstate St) (view disk : Z -> block) (tr : list (Z * block))
    (held : gmap nat Z) (bs : list Z) : Prop := {
  ti_refs : exists refs, rep (ls_io s) (mkView view disk tr refs held) /\
    forall k, refs !! k = nrefs (nlogged bs k + nheld held k);
  ti_dev : lg_dev (ls_log s) = ROOTDEV;
  ti_geom : geom (lg_start (ls_log s)) bs;
  ti_n : lh_n (lg_lh (ls_log s)) = Z.of_nat (length bs);
  ti_at : holds_at (ls_log s) 0 bs;
  ti_len : length (lh_block (lg_lh (ls_log s))) = 30%nat;
  ti_clean : forall k, (k ∉ bs) -> nheld held k = 0%nat -> view k = disk k;
  ti_hdr : hdr_n (disk (lg_start (ls_log s))) = 0 }.

Lemma nheld_held held b k : held !! b = Some k -> nheld held k = 1%nat.
Proof.
  intros H. unfold nheld. rewrite decide_True; [done|]. apply list_elem_of_fmap.
  exists (b, k). split; [done|]. by apply elem_of_map_to_list.
Qed.
Lemma nheld_not held k : nheld held k = 0%nat <-> forall b, held !! b <> Some k.
Proof.
  unfold nheld. case_decide as E; split; try done.
  - intros H. apply list_elem_of_fmap in E as ([b k'] & -> & H'%elem_of_map_to_list). by destruct (H b).
  - intros _ b Hb. apply E, list_elem_of_fmap. exists (b, k). split; [done|]. by apply elem_of_map_to_list.
Qed.
Lemma nheld_le held k : (nheld held k <= 1)%nat.
Proof. unfold nheld. case_decide; lia. Qed.

Lemma nheld_insert held b k j : held !! b = None -> nheld held k = 0%nat ->
  nheld (<[b := k]> held) j = if decide (j = k) then 1%nat else nheld held j.
Proof.
  intros Hb Hk. case_decide as E; [subst; by apply (nheld_held _ b), lookup_insert_eq|].
  pose proof (nheld_le held j). pose proof (nheld_le (<[b := k]> held) j).
  destruct (decide (nheld held j = 0%nat)) as [E0|E0].
  - rewrite E0. rewrite nheld_not in *. intros c. destruct (decide (c = b)) as [->|].
    + rewrite lookup_insert_eq. congruence.
    + rewrite lookup_insert_ne by done. apply E0.
  - destruct (decide (nheld (<[b := k]> held) j = 0%nat)) as [E1|E1]; [|lia].
    exfalso. apply E0. rewrite nheld_not in *. intros c Hc. apply (E1 c).
    rewrite lookup_insert_ne; [done|congruence].
Qed.

Lemma nheld_delete held b k j : held !! b = Some k -> (forall b', held !! b' = Some k -> b' = b) ->
  nheld (delete b held) j = if decide (j = k) then 0%nat else nheld held j.
Proof.
  intros Hb Hu. case_decide as E; subst.
  - apply nheld_not. intros c Hc. apply lookup_delete_Some in Hc as [Hn Hc]. by apply Hn, eq_sym, Hu.
  - pose proof (nheld_le held j). pose proof (nheld_le (delete b held) j).
    destruct (decide (nheld held j = 0%nat)) as [E0|E0].
    + rewrite E0. rewrite nheld_not in *. intros c Hc. apply lookup_delete_Some in Hc as [_ Hc]. by apply (E0 c).
    + destruct (decide (nheld (delete b held) j = 0%nat)) as [E1|E1]; [|lia].
      exfalso. apply E0. rewrite nheld_not in *. intros c Hc. apply (E1 c).
      rewrite lookup_delete_ne; [done|congruence].
Qed.
Lemma nheld_empty k : nheld ∅ k = 0%nat.
Proof. apply nheld_not. intros b ?%lookup_empty_Some. done. Qed.

(** How many blocks are referenced. *)
Lemma list_to_set_size (l : list Z) : (size (list_to_set l : gset Z) <= length l)%nat.
Proof.
  induction l as [|x l IH]; [done|]. cbn [list_to_set length].
  rewrite size_union_alt, size_singleton.
  pose proof (subseteq_size (list_to_set l ∖ {[x]} : gset Z) (list_to_set l)) as H.
  specialize (H ltac:(set_solver)). lia.
Qed.

Lemma refs_size (refs : gmap Z nat) bs held :
  (forall k, refs !! k = nrefs (nlogged bs k + nheld held k)) -> (size refs <= length bs + size held)%nat.
Proof.
  intros H. rewrite <- size_dom.
  assert (dom refs ⊆ list_to_set (bs ++ (map_to_list held).*2)) as Hs.
  { intros k Hk. apply elem_of_list_to_set. apply elem_of_dom in Hk as [n Hn].
    specialize (H k). rewrite Hn in H. unfold nlogged, nheld in H. apply elem_of_app.
    destruct (decide (k ∈ bs)); [by left|]. destruct (decide (k ∈ (map_to_list held).*2)); [by right|].
    discriminate H. }
  apply subseteq_size in Hs. etransitivity; [exact Hs|].
  etransitivity; [apply list_to_set_size|]. by rewrite length_app, length_fmap, length_map_to_list.
Qed.

(** ** The operations *)
Lemma nlogged_le bs k : (nlogged bs k <= 1)%nat.
Proof. unfold nlogged. case_decide; lia. Qed.

Lemma tinv_read s view disk tr held bs k :
  tinv s view disk tr held bs -> blk_range k -> nheld held k = 0%nat ->
  Z.of_nat (length bs + size held) < NBUF ->
  exists b s', io (blk_read ROOTDEV k) s = Ret (b, s') /\ held !! b = None /\ ls_log s' = ls_log s /\
    tinv s' view disk tr (<[b := k]> held) bs.
Proof.
  intros [(refs & Hr & Hrefs) T1 T2 T3 T4 T5 T6 T7] Hk Hh Hsz. destruct s as [s l]. cbn [ls_io ls_log] in *.
  pose proof (refs_size _ _ _ Hrefs) as Hsize. pose proof (nlogged_le bs k). unfold blk_range in Hk.
  destruct (io_read s l _ k Hr) as (b & s' & Hrun & Hb & Hr'); cbn [bv_refs bv_held] in *.
  - lia.
  - intros [b Hb]. cbn in Hb. by apply (proj1 (nheld_not held k) Hh b).
  - rewrite Hrefs. pose proof (nheld_le held k). unfold nrefs.
    destruct (nlogged bs k + nheld held k)%nat eqn:E; cbn; lia.
  - right. lia.
  - exists b, (mkLstate s' l). split_and!; [done|done|done|]. split; cbn [ls_io ls_log]; try done.
    + exists (ref_up k refs). split; [done|]. intros j. rewrite nheld_insert by done. unfold ref_up.
      case_decide as E; [subst; rewrite lookup_insert_eq|rewrite lookup_insert_ne by done; apply Hrefs].
      rewrite Hrefs, Hh, Nat.add_0_r. unfold nrefs. destruct (nlogged bs k); cbn; [done|]. by rewrite Nat.add_comm.
    + intros j Hj Hn. rewrite nheld_insert in Hn by done. case_decide; [done|]. by apply T6.
Qed.

Lemma tinv_relse s view disk tr held bs b k :
  tinv s view disk tr held bs -> held !! b = Some k -> (k ∈ bs \/ view k = disk k) ->
  exists s', io (blk_relse b) s = Ret (tt, s') /\ ls_log s' = ls_log s /\
    tinv s' view disk tr (delete b held) bs.
Proof.
  intros [(refs & Hr & Hrefs) T1 T2 T3 T4 T5 T6 T7] Hb Hc. destruct s as [s l]. cbn [ls_io ls_log] in *.
  destruct (io_relse s l _ b k Hr Hb) as (s' & Hrun & Hr'); cbn [bv_refs bv_view bv_disk bv_held] in *.
  { rewrite Hrefs, (nheld_held _ _ _ Hb). unfold nlogged. case_decide; [discriminate|]. tauto. }
  exists (mkLstate s' l). split_and!; [done|done|].
  assert (forall j, nheld (delete b held) j = if decide (j = k) then 0%nat else nheld held j) as Hn.
  { intros j. apply nheld_delete; [done|]. intros b' Hb'. by apply (rep_held s _ b' b k Hr). }
  split; cbn [ls_io ls_log]; try done.
  - exists (ref_down k refs). split; [done|]. intros j. rewrite Hn. unfold ref_down. rewrite Hrefs, (nheld_held _ _ _ Hb).
    unfold nlogged at 1. destruct (decide (k ∈ bs)) as [Hkb|Hkb]; cbn [nrefs plus];
      (destruct (decide (j = k)) as [->|Hne]; [|rewrite ?lookup_insert_ne, ?lookup_delete_ne by done; apply Hrefs]).
    + rewrite lookup_insert_eq. unfold nlogged. by rewrite decide_True.
    + rewrite lookup_delete_eq. unfold nlogged. by rewrite decide_False.
  - intros j Hj Hz. rewrite Hn in Hz. case_decide; [subst; tauto|]. by apply T6.
Qed.

Lemma tinv_set s view disk tr held bs b k d :
  tinv s view disk tr held bs -> held !! b = Some k -> block_ok d ->
  exists s', io (blk_set b d) s = Ret (tt, s') /\ ls_log s' = ls_log s /\
    tinv s' (fupd view k d) disk tr held bs.
Proof.
  intros [(refs & Hr & Hrefs) T1 T2 T3 T4 T5 T6 T7] Hb Hd. destruct s as [s l]. cbn [ls_io ls_log] in *.
  destruct (io_set s l _ b k d Hr Hb Hd) as (s' & Hrun & Hr'). exists (mkLstate s' l). split_and!; [done|done|].
  split; cbn [ls_io ls_log]; try done.
  - by exists refs.
  - intros j Hj Hz. rewrite fupd_ne; [by apply T6|]. intros ->. by rewrite (nheld_held _ _ _ Hb) in Hz.
Qed.

Lemma tinv_data s view disk tr held bs b k :
  tinv s view disk tr held bs -> held !! b = Some k -> bdata b s = Ret (view k, s) /\ blk_no b (ls_io s) = k.
Proof.
  intros [(refs & Hr & Hrefs) T1 T2 T3 T4 T5 T6 T7] Hb. destruct s as [s l]. cbn [ls_io] in *. split.
  - by apply (bdata_run _ _ _ _ _ Hr).
  - by apply (rep_data _ _ _ _ Hr).
Qed.
Lemma tinv_ok s view disk tr held bs k : tinv s view disk tr held bs -> block_ok (view k).
Proof. intros [(refs & Hr & Hrefs) _ _ _ _ _ _ _]. apply (rep_ok _ _ k Hr). Qed.

Lemma find_block_spec cnt i l k :
  let j := find_block cnt i l k in
  (j = (i + cnt)%nat /\ forall x, (i <= x < i + cnt)%nat -> nth x l 0 <> k) \/
  ((i <= j < i + cnt)%nat /\ nth j l 0 = k).
Proof.
  revert i. induction cnt as [|cnt IH]; intros i; cbn [find_block]; [left; split; lia|].
  destruct (Z.eqb_spec (nth i l 0) k) as [E|E]; [right; split; [lia|done]|].
  destruct (IH (S i)) as [[H1 H2]|[H1 H2]]; [left|right; split; [lia|done]].
  split; [lia|]. intros x Hx. destruct (decide (x = i)) as [->|]; [done|]. apply H2. lia.
Qed.

(** [k] is in the log at [j], or [j] is the next free slot. *)
Lemma find_logged l bs k :
  holds_at l 0 bs ->
  let j := find_block (length bs) 0 (lh_block (lg_lh l)) k in
  ((k ∉ bs) /\ j = length bs) \/ (k ∈ bs /\ (j < length bs)%nat /\ nth j (lh_block (lg_lh l)) 0 = k).
Proof.
  intros Hat. cbn. destruct (find_block_spec (length bs) 0 (lh_block (lg_lh l)) k) as [[H1 H2]|[H1 H2]].
  - left. split; [|lia]. intros [j Hj]%list_elem_of_lookup. pose proof (lookup_lt_Some _ _ _ Hj).
    apply (H2 j); [lia|]. transitivity (nth j bs 0); [by apply (Hat j)|]. rewrite nth_lookup. by rewrite Hj.
  - right. split_and!; [|lia|done]. set (j := find_block _ _ _ _) in *.
    assert (nth j bs 0 = k) as E by (rewrite <- H2; symmetry; apply (Hat j); lia).
    rewrite <- E. apply list_elem_of_In, nth_In. lia.
Qed.

(** [log_write] adds the block to the log and pins its buffer, once. *)
Definition absorb (bs : list Z) (k : Z) : list Z := if decide (k ∈ bs) then bs else bs ++ [k].

Lemma geom_absorb start bs k :
  geom start bs -> Z.of_nat (length bs) < LOGBLOCKS -> blk_range k -> (k < start \/ start + LOGBLOCKS < k) ->
  geom start (absorb bs k).
Proof.
  intros [G1 G2 G3 G4 G5 G6] Hl Hk Ho. unfold absorb. case_decide as E; [by split|]. split; try done.
  - rewrite length_app. cbn. lia.
  - apply NoDup_app. split_and!; [done| |apply NoDup_singleton].
    intros x Hx ->%list_elem_of_singleton. done.
  - apply Forall_app. split; [done|]. by constructor.
  - intros b [Hb|Hb]%elem_of_app; [by apply G6|]. apply list_elem_of_singleton in Hb as ->. done.
Qed.

(** [struct log] with slot [i] set. *)
Definition put_lh (i : nat) (k : Z) (n : Z) (l : log) : log :=
  set_lh (mkLh n (<[i := k]> (lh_block (lg_lh l)))) l.

Lemma tinv_append s s' l view disk tr held bs b k refs :
  tinv (mkLstate s l) view disk tr held bs -> held !! b = Some k -> (k ∉ bs) -> Z.of_nat (length bs) < LOGBLOCKS ->
  geom (lg_start l) (bs ++ [k]) -> rep s' (mkView view disk tr (ref_up k refs) held) ->
  (forall j, refs !! j = nrefs (nlogged bs j + nheld held j)) ->
  tinv (mkLstate s' (put_lh (length bs) k (Z.of_nat (length bs) + 1) l)) view disk tr held (bs ++ [k]).
Proof.
  intros [_ T1 T2 T3 T4 T5 T6 T7] Hb Hk Hl Hg Hr Hrefs. cbn [ls_io ls_log] in *.
  assert (length (lh_block (lg_lh l)) = 30%nat) as T5' by done. unfold LOGBLOCKS, MAXOPBLOCKS in Hl.
  split; cbn [ls_io ls_log put_lh set_lh lg_dev lg_start lg_lh lh_n lh_block]; try done.
  - eexists. split; [exact Hr|]. intros j. unfold ref_up. destruct (decide (j = k)) as [->|Hne].
    + rewrite lookup_insert_eq, Hrefs, (nheld_held _ _ _ Hb). unfold nlogged. rewrite decide_False by done.
      rewrite decide_True by (apply elem_of_app; right; by apply list_elem_of_singleton). done.
    + rewrite lookup_insert_ne, Hrefs by done. unfold nlogged. f_equal. f_equal.
      repeat case_decide; try done; exfalso; set_solver.
  - rewrite length_app. cbn. lia.
  - intros x Hx. cbn [plus put_lh set_lh lg_lh lh_block]. rewrite length_app in Hx. cbn in Hx.
    rewrite !nth_lookup. destruct (decide (x = length bs)) as [->|Hne].
    + rewrite list_lookup_insert_eq by lia. by rewrite list_lookup_middle.
    + rewrite list_lookup_insert_ne by done. rewrite lookup_app_l by lia. rewrite <- !nth_lookup. apply T4. lia.
  - by rewrite length_insert.
  - intros x Hx. apply T6. intros Hi. apply Hx, elem_of_app. by left.
Qed.

Lemma put_lh_id j k l :
  (j < length (lh_block (lg_lh l)))%nat -> nth j (lh_block (lg_lh l)) 0 = k -> put_lh j k (lh_n (lg_lh l)) l = l.
Proof.
  intros Hj Hk. unfold put_lh, set_lh. rewrite list_insert_id; [by destruct l as [? ? ? ? []]|].
  destruct (lookup_lt_is_Some_2 _ _ Hj) as [y Hy]. rewrite nth_lookup, Hy in Hk. cbn in Hk. by rewrite Hy, Hk.
Qed.

Lemma tinv_log_write s view disk tr held bs b k :
  tinv s view disk tr held bs -> held !! b = Some k -> Z.of_nat (length bs) < LOGBLOCKS ->
  1 <= lg_outstanding (ls_log s) -> blk_range k ->
  (k < lg_start (ls_log s) \/ lg_start (ls_log s) + LOGBLOCKS < k) ->
  exists s', log_write b s = Ret (tt, s') /\ tinv s' view disk tr held (absorb bs k) /\
    lg_start (ls_log s') = lg_start (ls_log s) /\ lg_outstanding (ls_log s') = lg_outstanding (ls_log s) /\
    lg_committing (ls_log s') = lg_committing (ls_log s).
Proof.
  intros Ht Hb Hl Ho Hk Hout. destruct (tinv_data _ _ _ _ _ _ _ _ Ht Hb) as [_ Hno].
  pose proof (geom_absorb _ _ _ (ti_geom _ _ _ _ _ _ Ht) Hl Hk Hout) as Hgeom. destruct s as [s l].
  pose proof Ht as [(refs & Hr & Hrefs) T1 T2 T3 T4 T5 T6 T7]. cbn [ls_io ls_log] in *.
  unfold log_write, kbind at 1 2, getlog at 1 2, gets at 1 2. cbn [ls_log]. rewrite T3.
  replace (LOGBLOCKS <=? Z.of_nat (length bs)) with false by lia. replace (lg_outstanding l <? 1) with false by lia.
  unfold kbind at 1, gets at 1. cbn [ls_io]. rewrite Hno, (i32_small k) by (unfold blk_range in Hk; lia). rewrite Nat2Z.id.
  pose proof (find_logged l bs k T4) as Hf. cbn zeta in Hf. set (j := find_block _ _ _ _) in *.
  assert (j < 30)%nat as Hj by (unfold LOGBLOCKS, MAXOPBLOCKS in Hl; destruct Hf as [[_ ->]|(_ & ? & _)]; lia).
  unfold lh_set. change (Z.to_nat LOGBLOCKS) with 30%nat. rewrite (proj2 (Nat.ltb_lt j 30) Hj).
  unfold kbind at 1, setlog at 1, modify at 1. cbn [ls_io ls_log]. fold (put_lh j k (lh_n (lg_lh l)) l).
  unfold absorb in *. destruct Hf as [[Hnew Ej]|(Hin & Hlt & Hnth)].
  - rewrite Ej, Z.eqb_refl. rewrite decide_False in * by done.
    destruct (io_pin s (put_lh (length bs) k (lh_n (lg_lh l)) l) _ b k Hr Hb) as (s' & Hrun & Hr').
    { cbn [bv_refs]. rewrite Hrefs, (nheld_held _ _ _ Hb). unfold nlogged. rewrite decide_False by done. cbn. lia. }
    rewrite (kbind_ret _ _ _ _ _ Hrun). eexists. split; [reflexivity|]. split; [|done].
    by apply (tinv_append s s' l view disk tr held bs b k refs).
  - replace (Z.of_nat j =? Z.of_nat (length bs)) with false by lia. rewrite decide_True in * by done.
    rewrite put_lh_id by (first [done | rewrite T5; done]). by exists (mkLstate s l).
Qed.

(** ** Commit *)
Lemma commit_ws_start start view bs k :
  geom start bs -> ~ in_log start k -> (k ∉ (log_ws start view bs).*1) /\ k <> start.
Proof.
  intros [G1 G2 G3 G4 G5 G6] Hk. unfold in_log, LOGBLOCKS, MAXOPBLOCKS in *. split; [|lia].
  intros Hin%log_ws_keys. lia.
Qed.

(** Outside the log, the disk after a commit has the new contents. *)
Lemma commit_ws_apply start view f bs k :
  geom start bs -> ~ in_log start k ->
  apply_writes (commit_ws start view bs) f k = if decide (k ∈ bs) then view k else f k.
Proof.
  intros Hg Hk. destruct (commit_ws_start start view bs k Hg Hk) as [H1 H2]. unfold commit_ws.
  rewrite apply_writes_app. rewrite (apply_writes_app [_]). rewrite apply_writes_app. cbn [apply_writes foldl fst snd].
  rewrite fupd_ne by done. fold (apply_writes (data_ws view bs)). rewrite data_ws_get. case_decide; [done|].
  rewrite fupd_ne by done. by apply apply_writes_out.
Qed.

Lemma commit_ws_hdr start view f bs : length (view start) = 1024%nat ->
  hdr_n (apply_writes (commit_ws start view bs) f start) = 0.
Proof.
  intros Hl. unfold commit_ws. rewrite !app_assoc. rewrite apply_writes_app. cbn [apply_writes foldl fst snd]. rewrite fupd_eq.
  rewrite mk_hdr_n; [done| |cbn; lia]. unfold mk_hdr. rewrite put_blocks_length. unfold set_hdr_n. by rewrite bst_length.
Qed.

Lemma tinv_commit s view disk tr bs :
  let l := ls_log s in let W := commit_ws (lg_start l) view bs in
  tinv s view disk tr ∅ bs -> bs <> [] -> Z.of_nat (length bs) < NBUF ->
  exists s', commit s = Ret (tt, s') /\ ls_log s' = clear_n l /\
    tinv s' (apply_writes W view) (apply_writes W disk) (tr ++ W) ∅ [].
Proof.
  intros l W [(refs & Hr & Hrefs) T1 T2 T3 T4 T5 T6 T7] Hne Hlen. destruct s as [s l']. cbn [ls_io ls_log] in *.
  assert (forall k, refs !! k = if decide (k ∈ bs) then Some 1%nat else None) as Hrefs'.
  { intros k. rewrite Hrefs, nheld_empty. unfold nlogged. by case_decide. }
  pose proof (refs_size _ _ _ Hrefs) as Hsz. rewrite map_size_empty in Hsz. unfold l in *.
  destruct (commit_ok bs s l' view disk tr refs) as (s' & Hrun & Hr'); try done; try lia.
  { intros b Hb. rewrite Hrefs'. by rewrite decide_True. }
  { intros k Hk. rewrite Hrefs'. rewrite decide_False; [done|]. intros Hb. apply (gm_out _ _ T2) in Hb. lia. }
  exists (mkLstate s' (clear_n l')). split_and!; [done|done|].
  split; cbn [ls_io ls_log clear_n set_lh lg_dev lg_start lg_lh lh_n lh_block]; try done.
  - eexists. split; [exact Hr'|]. intros k. cbn [bv_refs]. rewrite dropped_lookup, nheld_empty, Hrefs'.
    unfold nlogged. rewrite (decide_False (P := k ∈ [])) by apply not_elem_of_nil. by repeat case_decide.
  - destruct T2 as [G1 G2 G3 G4 G5 G6]. split; try done; [cbn; unfold LOGBLOCKS, MAXOPBLOCKS; lia|constructor|].
    intros b ?%elem_of_nil. done.
  - intros j Hj. cbn in Hj. lia.
  - intros k _ _. apply apply_writes_ext. destruct (decide (k ∈ bs)) as [Hb|Hb].
    + left. unfold W, commit_ws. rewrite !fmap_app, data_ws_keys. set_solver.
    + right. apply T6; [done|]. apply nheld_empty.
  - apply commit_ws_hdr. apply (rep_ok _ _ (lg_start l') Hr).
Qed.
End tinv.
