(* ===== verification/LogTheorems.v ===== *)
(** * Properties of the write-ahead log *)
From S2P Require Import Prelude Machine Spinlock Blocks Bio BioInv BioTheorems Log LogProof LogCrash LogTxn.

Section log_props.
Context {St : Type} `{!BlockIO St} `{!BlockLaws St}.

(** A state whose cache has just been initialised over disk [d]. *)
Definition booted (s : lstate St) (start : Z) (d : Z -> block) : Prop :=
  rep (ls_io s) (mkView d d [] ∅ ∅) /\ lg_dev (ls_log s) = ROOTDEV /\ lg_start (ls_log s) = start /\
  length (lh_block (lg_lh (ls_log s))) = 30%nat.

(** C1: Crash safety of commit.  For a transaction of fewer than NBUF blocks,
    [commit] returns with the log empty, every logged block installed and the
    cache agreeing with the disk; and whatever prefix of its disk writes
    reached the disk before a crash, [recover_from_log] on a freshly booted
    cache returns with a disk that, outside the log area, has the old contents
    of all logged blocks or the new contents of all of them, the new ones if
    and only if the header write was among the prefix. *)
Theorem commit_crash_safe s view disk tr bs :
  tinv s view disk tr ∅ bs -> bs <> [] -> Z.of_nat (length bs) < NBUF ->
  let start := lg_start (ls_log s) in let W := commit_ws start view bs in
  (exists s' view' disk', commit s = Ret (tt, s') /\ tinv s' view' disk' (tr ++ W) ∅ [] /\
     forall k, ~ in_log start k -> view' k = view k /\ disk' k = view k) /\
  forall w, w `prefix_of` W -> forall r, booted r start (apply_writes w disk) ->
    exists r' d', recover_from_log r = Ret (tt, r') /\ lh_n (lg_lh (ls_log r')) = 0 /\
      (exists tr', rep (ls_io r') (mkView d' d' tr' ∅ ∅)) /\
      if decide (length bs < length w)%nat
      then forall k, ~ in_log start k -> d' k = view k
      else forall k, ~ in_log start k -> d' k = disk k.
Proof.
  intros Ht Hne Hlen start W. pose proof Ht as [_ T1 Hg T3 T4 T5 Tc T7]. split.
  - destruct (tinv_commit s view disk tr bs Ht Hne Hlen) as (s' & Hrun & Hl & Ht').
    eexists s', _, _. split_and!; [done|exact Ht'|]. intros k Hk. fold start.
    rewrite !commit_ws_apply by done. case_decide; [done|]. split; [done|]. symmetry. apply Tc; [done|apply nheld_empty].
  - intros w Hw [r l] (Hr & Hdev & Hst & Hl). cbn [ls_io ls_log] in *. subst start W. rewrite <- Hst in *.
    pose proof (proj1 (tinv_ok _ _ _ _ _ _ (lg_start l) Ht)) as Hok.
    destruct (prefix_recovered (lg_start l) bs view disk Hg Hok T7 w Hw) as (Hg' & Hn & Hrec).
    destruct (recover_ok r l (apply_writes w disk) (apply_writes w disk) []) as (r' & l' & Hrun & Hz & Hr'); try done.
    eexists (mkLstate r' l'), _. split_and!; [exact Hrun|exact Hz|eexists; exact Hr'|].
    fold (recovered (lg_start l) (apply_writes w disk)).
    case_decide as E; intros k Hk; rewrite (Hrec k Hk); case_decide as E'; try done; try (exfalso; destruct E'; lia).
    symmetry. apply Tc; [tauto|apply nheld_empty].
Qed.

(** [log_write] absorbs repeated writes: with room in the log, called
    inside a transaction on a held buffer of a block outside the log area, it
    returns, the block is in the log exactly once, at the end if it is new,
    and no block's contents change; on a full log or outside a transaction it
    panics. *)
Theorem log_write_absorbs s view disk tr held bs b k :
  tinv s view disk tr held bs -> held !! b = Some k -> blk_range k -> ~ in_log (lg_start (ls_log s)) k ->
  if decide (Z.of_nat (length bs) < LOGBLOCKS /\ 1 <= lg_outstanding (ls_log s))
  then exists s', log_write b s = Ret (tt, s') /\
         tinv s' view disk tr held (if decide (k ∈ bs) then bs else bs ++ [k]) /\
         lg_outstanding (ls_log s') = lg_outstanding (ls_log s)
  else exists e, log_write b s = Panic e.
Proof.
  intros Ht Hb Hk Ho. pose proof (ti_n _ _ _ _ _ _ Ht) as Hn. unfold in_log, LOGBLOCKS, MAXOPBLOCKS in Ho.
  case_decide as E.
  - destruct (tinv_log_write s view disk tr held bs b k Ht Hb) as (s' & Hrun & Ht' & _ & E' & _); try tauto.
    { unfold LOGBLOCKS, MAXOPBLOCKS. lia. }
    by exists s'.
  - unfold log_write, kbind at 1 2, getlog at 1 2, gets at 1 2. rewrite Hn.
    destruct (Z.leb_spec LOGBLOCKS (Z.of_nat (length bs))); [by eexists|].
    destruct (Z.ltb_spec (lg_outstanding (ls_log s)) 1); [by eexists|]. lia.
Qed.

(** C26: The reservation of [begin_op] is enough.  In every state reached by any
    interleaving of [begin_op], [log_write] within each call's budget of
    MAXOPBLOCKS, [end_op] and [commit], the logged blocks and the budgets left
    fit in the log: [log_write] by a call with budget left never panics with
    a full log, and [end_op] never finds a commit in progress. *)
Theorem reservation_suffices s l1 r l2 :
  lreach (s, l1 ++ r :: l2) ->
  lg_n s + zsum (l1 ++ r :: l2) <= LOGBLOCKS /\
  (exists c s', end_op_locked s = Ret (c, s')) /\
  (forall b view disk tr held bs k, 0 < r -> tinv s view disk tr held bs -> held !! b = Some k ->
     blk_range k -> ~ in_log (lg_start (ls_log s)) k -> exists s', log_write b s = Ret (tt, s')).
Proof.
  intros Hreach. pose proof (lreach_space _ Hreach) as [So Sl Sp [Sn Ss] Sc]. cbn [fst snd] in *.
  assert (lg_committing (ls_log s) = 0) as Hc by (destruct Sc as [|[_ Hnil]]; [done|destruct l1; discriminate Hnil]).
  pose proof Sp as Sp'. apply Forall_app in Sp' as [S1 [S2 S3]%Forall_cons].
  split_and!; [done| |].
  - unfold end_op_locked, kbind, setlog, modify, getlog, gets. cbn [ls_log lg_committing]. rewrite Hc. cbn [negb Z.eqb].
    destruct (_ =? 0); by eexists _, _.
  - intros b view disk tr held bs k Hr Ht Hb Hk Ho. unfold in_log in Ho. unfold LOGBLOCKS, MAXOPBLOCKS in *.
    pose proof (ti_n _ _ _ _ _ _ Ht) as Hn. rewrite zsum_app in Ss. cbn [zsum] in Ss.
    rewrite length_app in So. cbn [length] in So. unfold lg_n in *.
    pose proof (zsum_bound _ S1). pose proof (zsum_bound _ S3). unfold MAXOPBLOCKS in *.
    destruct (tinv_log_write s view disk tr held bs b k Ht Hb) as (s' & Hrun & _);
      try done; unfold LOGBLOCKS, MAXOPBLOCKS; try lia. by exists s'.
Qed.
End log_props.

(** ** Instances: the log over the buffer cache of bio.c, from boot *)
Definition demo_log : log := mkLog 2 0 0 ROOTDEV (mkLh 0 (replicate 30 0)).
Definition demo_boot : lstate bstate := mkLstate (boot ∅ 1) demo_log.

Lemma demo_boot_tinv : tinv demo_boot (disk_view ∅) (disk_view ∅) [] ∅ [].
Proof.
  assert (forall k, disk_view ∅ k = zero_block) as Hz by (intros k; unfold disk_view; by rewrite lookup_empty).
  split; try done.
  - exists ∅. split; [apply boot_rep; by intros k b ?%lookup_empty_Some|].
    intros k. rewrite lookup_empty, nheld_empty. unfold nlogged. by rewrite decide_False by apply not_elem_of_nil.
  - split; cbn; unfold LOGBLOCKS, MAXOPBLOCKS; try lia; [constructor|constructor|by intros b ?%elem_of_nil].
  - intros j Hj. cbn in Hj. lia.
Qed.

(** A transaction that has written block 40. *)
Definition demo_data : block := replicate 1024 7.
Definition demo_write : M (lstate bstate) unit :=
  begin_op ;;; b <~ io (blk_read ROOTDEV 40) ;; io (blk_set b demo_data) ;;; log_write b ;;; io (blk_relse b).
Definition demo_state : lstate bstate := match demo_write demo_boot with Ret (_, s) => s | _ => demo_boot end.
Definition demo_view : Z -> block := fupd (disk_view ∅) 40 demo_data.

Lemma demo_data_ok : block_ok demo_data.
Proof. split; [done|]. apply Forall_replicate. lia. Qed.

Lemma demo_begin_tinv : exists s, begin_op demo_boot = Ret (tt, s) /\ tinv s (disk_view ∅) (disk_view ∅) [] ∅ [] /\
  lg_outstanding (ls_log s) = 1 /\ lg_start (ls_log s) = 2.
Proof.
  eexists. split; [reflexivity|]. split; [|done].
  destruct demo_boot_tinv as [T0 T1 T2 T3 T4 T5 T6 T7]. by split.
Qed.

Lemma demo_tinv : tinv demo_state demo_view (disk_view ∅) [] ∅ [40] /\ lg_outstanding (ls_log demo_state) = 1 /\
  lg_start (ls_log demo_state) = 2.
Proof.
  destruct demo_begin_tinv as (s0 & H0 & T0 & Ho & Hst).
  destruct (tinv_read s0 _ _ _ _ _ 40 T0) as (b & s1 & H1 & _ & L1 & T1); [unfold blk_range; lia|apply nheld_empty|done|].
  destruct (tinv_set s1 _ _ _ _ _ b 40 demo_data T1) as (s2 & H2 & L2 & T2);
    [apply lookup_insert_eq|apply demo_data_ok|].
  destruct (tinv_log_write s2 _ _ _ _ _ b 40 T2) as (s3 & H3 & T3 & E3 & O3 & _);
    rewrite ?L2, ?L1, ?Ho, ?Hst; [apply lookup_insert_eq|done|lia|unfold blk_range; lia|unfold LOGBLOCKS, MAXOPBLOCKS; lia|].
  unfold absorb in T3. rewrite decide_False in T3 by apply not_elem_of_nil.
  destruct (tinv_relse s3 _ _ _ _ _ b 40 T3) as (s4 & H4 & L4 & T4); [apply lookup_insert_eq|left; inlist|].
  rewrite delete_insert_id in T4 by done.
  assert (demo_state = s4) as ->.
  { unfold demo_state, demo_write. rewrite (kbind_ret _ _ _ _ _ H0), (kbind_ret _ _ _ _ _ H1),
      (kbind_ret _ _ _ _ _ H2), (kbind_ret _ _ _ _ _ H3), H4. done. }
  split_and!; [done|..]; rewrite L4, ?O3, ?E3, L2, L1; done.
Qed.

Lemma commit_crash_safe_witness :
  (exists s' view' disk', commit demo_state = Ret (tt, s') /\
     tinv s' view' disk' (commit_ws 2 demo_view [40]) ∅ [] /\
     forall k, ~ in_log 2 k -> view' k = demo_view k /\ disk' k = demo_view k) /\
  exists r, booted r 2 (apply_writes [] (disk_view ∅)) /\
    exists r' d', recover_from_log r = Ret (tt, r') /\ lh_n (lg_lh (ls_log r')) = 0 /\
      (exists tr', rep (ls_io r') (mkView d' d' tr' ∅ ∅)) /\ forall k, ~ in_log 2 k -> d' k = disk_view ∅ k.
Proof.
  destruct demo_tinv as (T & _ & E).
  destruct (commit_crash_safe demo_state demo_view (disk_view ∅) [] [40] T ltac:(discriminate) ltac:(done)) as [H1 H2].
  rewrite E in H1, H2. split; [exact H1|]. exists demo_boot.
  assert (booted demo_boot 2 (disk_view ∅)) as Hb.
  { split_and!; [|done..]. apply boot_rep. by intros k b ?%lookup_empty_Some. }
  split; [exact Hb|]. exact (H2 [] (prefix_nil _) demo_boot Hb).
Defined.

Lemma log_write_absorbs_witness :
  exists b s, io (blk_read ROOTDEV 40) demo_state = Ret (b, s) /\
  exists s', log_write b s = Ret (tt, s') /\ tinv s' demo_view (disk_view ∅) [] (<[b := 40]> ∅) [40] /\
    lg_outstanding (ls_log s') = lg_outstanding (ls_log s).
Proof.
  destruct demo_tinv as (T & Ho & E).
  destruct (tinv_read demo_state _ _ _ _ _ 40 T) as (b & s1 & H1 & _ & L1 & T1); [unfold blk_range; lia|apply nheld_empty|done|].
  exists b, s1. split; [exact H1|].
  pose proof (log_write_absorbs s1 demo_view (disk_view ∅) [] _ [40] b 40 T1 (lookup_insert_eq _ _ _)) as H.
  rewrite L1, E, Ho in H. unfold in_log, LOGBLOCKS, MAXOPBLOCKS, blk_range in H.
  rewrite decide_True in H by (cbn; lia). rewrite L1. apply H; lia.
Defined.

Lemma reservation_suffices_witness :
  exists s, begin_op demo_boot = Ret (tt, s) /\ lg_n s + zsum ([] ++ MAXOPBLOCKS :: []) <= LOGBLOCKS /\
    (exists c s', end_op_locked s = Ret (c, s')).
Proof.
  eexists. split; [reflexivity|].
  destruct (reservation_suffices (mkLstate (boot ∅ 1) (mkLog 2 1 0 ROOTDEV (mkLh 0 (replicate 30 0)))) [] MAXOPBLOCKS [])
    as (H1 & H2 & _); [|split; [exact H1|exact H2]].
  apply (lr_step (demo_boot, [])); [by apply lr_init|]. by apply st_begin.
Defined.

(** ** A full log

    LOGBLOCKS and NBUF are equal: when a transaction has filled the log,
    every buffer is pinned and [commit] cannot read a log block. *)
Fixpoint fill_log (cnt : nat) (k : Z) : M (lstate bstate) unit :=
  match cnt with
  | O => kret tt
  | S cnt => b <~ io (blk_read ROOTDEV k) ;; log_write b ;;; io (blk_relse b) ;;; fill_log cnt (k + 1)
  end.

