(* ===== verification/Fs.v ===== *)
(** * The file system: fs.c

    Blocks, inodes, directories and path names over the log.  Buffers are
    reached through the log's block interface; user memory through
    [UserMem], which vm.c implements.  An inode pointer is an index into
    [itable.inode]; NULL is [None].  Messages printed on the console are not
    part of the state.  Code under itable.lock is one atomic step. *)
From S2P Require Import Prelude Machine Kalloc Vm Spinlock Blocks Log.

Definition ROOTINO : Z := 1.
Definition FSMAGIC : Z := 0x10203040.
Definition NDIRECT : Z := 12.
Definition NINDIRECT : Z := BSIZE / 4.
Definition MAXFILE : Z := NDIRECT + NINDIRECT.
Definition DINODE_SIZE : Z := 64.   (* sizeof(struct dinode) *)
Definition IPB : Z := BSIZE / DINODE_SIZE.
Definition BPB : Z := BSIZE * 8.
Definition DIRSIZ : Z := 14.
Definition DIRENT_SIZE : Z := 16.   (* sizeof(struct dirent) *)
Definition T_DIR : Z := 1.
Definition T_FILE : Z := 2.
Definition T_DEVICE : Z := 3.

Record superblock := mkSb {
  sb_magic : Z; sb_size : Z; sb_nblocks : Z; sb_ninodes : Z;
  sb_nlog : Z; sb_logstart : Z; sb_inodestart : Z; sb_bmapstart : Z }.

Definition IBLOCK (i : Z) (sb : superblock) : Z := u32 (i / IPB + sb_inodestart sb).
Definition BBLOCK (b : Z) (sb : superblock) : Z := u32 (b / BPB + sb_bmapstart sb).

(** In-memory copy of an inode. *)
Record inode := mkInode {
  i_dev : Z; i_inum : Z; i_ref : Z;
  i_lock : sleeplock;
  i_valid : Z;
  i_type : Z; i_major : Z; i_minor : Z; i_nlink : Z;
  i_size : Z;
  i_addrs : list Z }.
Definition inode0 : inode := mkInode 0 0 0 initsleeplock 0 0 0 0 0 0 (replicate 13 0).

(** Fields of the [struct dinode] at offset [o] of a block. *)
Record dinode := mkDinode {
  d_type : Z; d_major : Z; d_minor : Z; d_nlink : Z; d_size : Z; d_addrs : list Z }.
Definition get_dinode (d : block) (o : nat) : dinode :=
  mkDinode (i16 (bld 2 d o)) (i16 (bld 2 d (o + 2))) (i16 (bld 2 d (o + 4))) (i16 (bld 2 d (o + 6)))
    (bld 4 d (o + 8)) ((fun i => bld 4 d (o + 12 + 4 * i)%nat) <$> seq 0 13).
Fixpoint put_addrs (d : block) (o : nat) (l : list Z) : block :=
  match l with
  | [] => d
  | a :: l => put_addrs (bst 4 d o a) (o + 4) l
  end.
Definition put_dinode (d : block) (o : nat) (i : dinode) : block :=
  let d := bst 2 d o (u16 (d_type i)) in
  let d := bst 2 d (o + 2) (u16 (d_major i)) in
  let d := bst 2 d (o + 4) (u16 (d_minor i)) in
  let d := bst 2 d (o + 6) (u16 (d_nlink i)) in
  let d := bst 4 d (o + 8) (d_size i) in
  put_addrs d (o + 12) (d_addrs i).
(** [(struct dinode* )bp->data + inum%IPB]. *)
Definition dip (inum : Z) : nat := Z.to_nat (inum mod IPB * DINODE_SIZE).

Record stat := mkStat { st_dev : Z; st_ino : Z; st_type : Z; st_nlink : Z; st_size : Z }.

(** Copies between kernel buffers and the running process's memory. *)
Class UserMem (Mem : Type) := {
  um_copyout : Z -> list Z -> M Mem Z;
  um_copyin : Z -> Z -> M Mem (Z * list Z) }.

Record fstate (St Mem : Type) := mkF {
  f_log : lstate St;
  f_sb : superblock;
  f_itable : list inode;
  f_mem : Mem;
  f_pid : Z;            (* myproc()->pid *)
  f_cwd : nat           (* myproc()->cwd *) }.
Arguments mkF {St Mem} f_log f_sb f_itable f_mem f_pid f_cwd.
Arguments f_log {St Mem} f.
Arguments f_sb {St Mem} f.
Arguments f_itable {St Mem} f.
Arguments f_mem {St Mem} f.
Arguments f_pid {St Mem} f.
Arguments f_cwd {St Mem} f.

Section fs.
Context {St Mem : Type} `{!BlockIO St} `{!UserMem Mem}.
Abbreviation F := (M (fstate St Mem)).

Definition lg {A} (m : M (lstate St) A) : F A := fun s =>
  match m (f_log s) with
  | Ret (a, l) => Ret (a, mkF l (f_sb s) (f_itable s) (f_mem s) (f_pid s) (f_cwd s))
  | Panic e => Panic e
  | Sleeps e => Sleeps e
  | OutOfFuel => OutOfFuel
  end.
Definition umem {A} (m : M Mem A) : F A := fun s =>
  match m (f_mem s) with
  | Ret (a, u) => Ret (a, mkF (f_log s) (f_sb s) (f_itable s) u (f_pid s) (f_cwd s))
  | Panic e => Panic e
  | Sleeps e => Sleeps e
  | OutOfFuel => OutOfFuel
  end.
Definition bread (dev k : Z) : F nat := lg (io (blk_read dev (u32 k))).
Definition brelse (b : nat) : F unit := lg (io (blk_relse b)).
Definition bget_data (b : nat) : F block := lg (bdata b).
Definition bset_data (b : nat) (d : block) : F unit := lg (io (blk_set b d)).
Definition getsb {A} (f : superblock -> A) : F A := gets (fun s => f (f_sb s)).

Definition geti (s : fstate St Mem) (ip : nat) : inode := default inode0 (f_itable s !! ip).
Definition ifield {A} (ip : nat) (f : inode -> A) : F A := gets (fun s => f (geti s ip)).
Definition updi (ip : nat) (f : inode -> inode) : F unit :=
  modify (fun s => mkF (f_log s) (f_sb s) (alter f ip (f_itable s)) (f_mem s) (f_pid s) (f_cwd s)).

Definition set_ref (v : Z) (i : inode) : inode :=
  mkInode (i_dev i) (i_inum i) v (i_lock i) (i_valid i) (i_type i) (i_major i) (i_minor i) (i_nlink i) (i_size i) (i_addrs i).
Definition set_ilock (v : sleeplock) (i : inode) : inode :=
  mkInode (i_dev i) (i_inum i) (i_ref i) v (i_valid i) (i_type i) (i_major i) (i_minor i) (i_nlink i) (i_size i) (i_addrs i).
Definition set_ivalid (v : Z) (i : inode) : inode :=
  mkInode (i_dev i) (i_inum i) (i_ref i) (i_lock i) v (i_type i) (i_major i) (i_minor i) (i_nlink i) (i_size i) (i_addrs i).
Definition set_itype (v : Z) (i : inode) : inode :=
  mkInode (i_dev i) (i_inum i) (i_ref i) (i_lock i) (i_valid i) v (i_major i) (i_minor i) (i_nlink i) (i_size i) (i_addrs i).
Definition set_major (v : Z) (i : inode) : inode :=
  mkInode (i_dev i) (i_inum i) (i_ref i) (i_lock i) (i_valid i) (i_type i) v (i_minor i) (i_nlink i) (i_size i) (i_addrs i).
Definition set_minor (v : Z) (i : inode) : inode :=
  mkInode (i_dev i) (i_inum i) (i_ref i) (i_lock i) (i_valid i) (i_type i) (i_major i) v (i_nlink i) (i_size i) (i_addrs i).
Definition set_nlink (v : Z) (i : inode) : inode :=
  mkInode (i_dev i) (i_inum i) (i_ref i) (i_lock i) (i_valid i) (i_type i) (i_major i) (i_minor i) v (i_size i) (i_addrs i).
Definition set_size (v : Z) (i : inode) : inode :=
  mkInode (i_dev i) (i_inum i) (i_ref i) (i_lock i) (i_valid i) (i_type i) (i_major i) (i_minor i) (i_nlink i) v (i_addrs i).
Definition set_addr (k : nat) (a : Z) (i : inode) : inode :=
  mkInode (i_dev i) (i_inum i) (i_ref i) (i_lock i) (i_valid i) (i_type i) (i_major i) (i_minor i) (i_nlink i) (i_size i)
    (<[k := a]> (i_addrs i)).
Definition addr (ip k : nat) : F Z := ifield ip (fun i => nth k (i_addrs i) 0).

(** ** Blocks *)
Definition bzero (dev bno : Z) : F unit :=
  bp <~ bread dev bno ;;
  bset_data bp zero_block ;;;
  lg (log_write bp) ;;;
  brelse bp.

Definition bit_set (d : block) (bi : Z) : bool :=
  negb (Z.land (nth (Z.to_nat (bi / 8)) d 0) (Z.shiftl 1 (bi mod 8)) =? 0).
Definition set_bit (d : block) (bi : Z) : block :=
  <[Z.to_nat (bi / 8) := u8 (Z.lor (nth (Z.to_nat (bi / 8)) d 0) (Z.shiftl 1 (bi mod 8)))]> d.
Definition clear_bit (d : block) (bi : Z) : block :=
  <[Z.to_nat (bi / 8) := u8 (Z.land (nth (Z.to_nat (bi / 8)) d 0) (Z.lnot (Z.shiftl 1 (bi mod 8))))]> d.

(** The inner loop of [balloc]: the first clear bit from [bi] on. *)
Fixpoint balloc_scan (cnt : nat) (bi b size : Z) (d : block) : option Z :=
  match cnt with
  | O => None
  | S cnt =>
      if b + bi <? size then
        if negb (bit_set d bi) then Some bi else balloc_scan cnt (bi + 1) b size d
      else None
  end.
Fixpoint balloc_loop (fuel : nat) (dev b : Z) : F Z :=
  match fuel with
  | O => nofuel
  | S fuel =>
      size <~ getsb sb_size ;;
      if b <? size then
        sb <~ getsb id ;;
        bp <~ bread dev (BBLOCK b sb) ;;
        d <~ bget_data bp ;;
        match balloc_scan (Z.to_nat BPB) 0 b size d with
        | Some bi =>
            bset_data bp (set_bit d bi) ;;;
            lg (log_write bp) ;;;
            brelse bp ;;;
            bzero dev (b + bi) ;;;
            kret (b + bi)
        | None => brelse bp ;;; balloc_loop fuel dev (b + BPB)
        end
      else kret 0
  end.
Definition balloc (dev : Z) : F Z :=
  size <~ getsb sb_size ;; balloc_loop (Z.to_nat (size / BPB) + 2) dev 0.

Definition bfree (dev b : Z) : F unit :=
  sb <~ getsb id ;;
  bp <~ bread dev (BBLOCK b sb) ;;
  let bi := b mod BPB in
  d <~ bget_data bp ;;
  if negb (bit_set d bi) then panic "freeing free block"
  else
    bset_data bp (clear_bit d bi) ;;;
    lg (log_write bp) ;;;
    brelse bp.

(** ** Inodes *)

(** The loop of [iget]: the entry for (dev, inum), and the first free entry. *)
Fixpoint iget_scan (l : list inode) (i : nat) (dev inum : Z) (empty : option nat) : option nat * option nat :=
  match l with
  | [] => (None, empty)
  | ip :: l =>
      if (0 <? i_ref ip) && (i_dev ip =? dev) && (i_inum ip =? inum) then (Some i, empty)
      else
        let empty := match empty with
                     | None => if i_ref ip =? 0 then Some i else None
                     | Some e => Some e
                     end in
        iget_scan l (S i) dev inum empty
  end.
Definition iget (dev inum : Z) : F nat :=
  t <~ gets f_itable ;;
  match iget_scan t 0 dev inum None with
  | (Some ip, _) => updi ip (fun i => set_ref (i_ref i + 1) i) ;;; kret ip
  | (None, None) => panic "iget: no inodes"
  | (None, Some ip) =>
      updi ip (fun i => mkInode dev inum 1 (i_lock i) 0 (i_type i) (i_major i) (i_minor i)
                          (i_nlink i) (i_size i) (i_addrs i)) ;;;
      kret ip
  end.

(** [cnt] rounds from [inum] on. *)
Fixpoint ialloc_loop (cnt : nat) (dev inum type : Z) : F (option nat) :=
  match cnt with
  | O => kret None
  | S cnt =>
      sb <~ getsb id ;;
      bp <~ bread dev (IBLOCK inum sb) ;;
      d <~ bget_data bp ;;
      if d_type (get_dinode d (dip inum)) =? 0 then
        bset_data bp (put_dinode d (dip inum) (mkDinode type 0 0 0 0 (replicate 13 0))) ;;;
        lg (log_write bp) ;;;
        brelse bp ;;;
        ip <~ iget dev inum ;;
        kret (Some ip)
      else
        brelse bp ;;;
        ialloc_loop cnt dev (inum + 1) type
  end.
Definition ialloc (dev type : Z) : F (option nat) :=
  n <~ getsb sb_ninodes ;; ialloc_loop (Z.to_nat (n - 1)) dev 1 type.

Definition dinode_of (i : inode) : dinode :=
  mkDinode (i_type i) (i_major i) (i_minor i) (i_nlink i) (i_size i) (i_addrs i).
Definition iupdate (ip : nat) : F unit :=
  sb <~ getsb id ;;
  i <~ ifield ip id ;;
  bp <~ bread (i_dev i) (IBLOCK (i_inum i) sb) ;;
  d <~ bget_data bp ;;
  bset_data bp (put_dinode d (dip (i_inum i)) (dinode_of i)) ;;;
  lg (log_write bp) ;;;
  brelse bp.

Definition idup (ip : nat) : F nat := updi ip (fun i => set_ref (i_ref i + 1) i) ;;; kret ip.

Definition load_dinode (d : dinode) (i : inode) : inode :=
  mkInode (i_dev i) (i_inum i) (i_ref i) (i_lock i) 1 (d_type d) (d_major d) (d_minor d) (d_nlink d) (d_size d) (d_addrs d).
Definition ilock (ip : nat) : F unit :=
  r <~ ifield ip i_ref ;;
  if r <? 1 then panic "ilock"
  else
    pid <~ gets f_pid ;;
    lk <~ ifield ip i_lock ;;
    match acquiresleep pid lk with
    | Ret lk =>
        updi ip (set_ilock lk) ;;;
        v <~ ifield ip i_valid ;;
        if v =? 0 then
          sb <~ getsb id ;;
          i <~ ifield ip id ;;
          bp <~ bread (i_dev i) (IBLOCK (i_inum i) sb) ;;
          d <~ bget_data bp ;;
          let di := get_dinode d (dip (i_inum i)) in
          brelse bp ;;;
          updi ip (load_dinode di) ;;;
          if d_type di =? 0 then panic "ilock: no type" else kret tt
        else kret tt
    | _ => sleeps "inode"
    end.

Definition iunlock (ip : nat) : F unit :=
  pid <~ gets f_pid ;;
  i <~ ifield ip id ;;
  if negb (holdingsleep pid (i_lock i)) || (i_ref i <? 1) then panic "iunlock"
  else updi ip (set_ilock (releasesleep (i_lock i))).

(** ** Inode contents *)
Definition bmap (ip : nat) (bn : Z) : F Z :=
  dev <~ ifield ip i_dev ;;
  if bn <? NDIRECT then
    a <~ addr ip (Z.to_nat bn) ;;
    if a =? 0 then
      a <~ balloc dev ;;
      if a =? 0 then kret 0
      else updi ip (set_addr (Z.to_nat bn) a) ;;; kret a
    else kret a
  else
    let bn := bn - NDIRECT in
    if bn <? NINDIRECT then
      a <~ addr ip 12 ;;
      a <~ (if a =? 0 then
              a <~ balloc dev ;;
              if a =? 0 then kret 0 else updi ip (set_addr 12 a) ;;; kret a
            else kret a) ;;
      if a =? 0 then kret 0
      else
        bp <~ bread dev a ;;
        d <~ bget_data bp ;;
        let a := bld 4 d (Z.to_nat (4 * bn)) in
        a <~ (if a =? 0 then
                a <~ balloc dev ;;
                if negb (a =? 0) then
                  d <~ bget_data bp ;;
                  bset_data bp (bst 4 d (Z.to_nat (4 * bn)) a) ;;;
                  lg (log_write bp) ;;;
                  kret a
                else kret a
              else kret a) ;;
        brelse bp ;;;
        kret a
    else panic "bmap: out of range".

Fixpoint trunc_direct (cnt i ip : nat) : F unit :=
  match cnt with
  | O => kret tt
  | S cnt =>
      a <~ addr ip i ;;
      dev <~ ifield ip i_dev ;;
      (if negb (a =? 0) then bfree dev a ;;; updi ip (set_addr i 0) else kret tt) ;;;
      trunc_direct cnt (S i) ip
  end.
Fixpoint trunc_indirect (cnt j : nat) (dev : Z) (bp : nat) : F unit :=
  match cnt with
  | O => kret tt
  | S cnt =>
      d <~ bget_data bp ;;
      let a := bld 4 d (4 * j) in
      (if negb (a =? 0) then bfree dev a else kret tt) ;;;
      trunc_indirect cnt (S j) dev bp
  end.
Definition itrunc (ip : nat) : F unit :=
  trunc_direct 12 0 ip ;;;
  a <~ addr ip 12 ;;
  dev <~ ifield ip i_dev ;;
  (if negb (a =? 0) then
     bp <~ bread dev a ;;
     trunc_indirect (Z.to_nat NINDIRECT) 0 dev bp ;;;
     brelse bp ;;;
     bfree dev a ;;;
     updi ip (set_addr 12 0)
   else kret tt) ;;;
  updi ip (set_size 0) ;;;
  iupdate ip.

Definition iput (ip : nat) : F unit :=
  i <~ ifield ip id ;;
  (if (i_ref i =? 1) && negb (i_valid i =? 0) && (i_nlink i =? 0) then
     pid <~ gets f_pid ;;
     match acquiresleep pid (i_lock i) with
     | Ret lk =>
         updi ip (set_ilock lk) ;;;
         itrunc ip ;;;
         updi ip (set_itype 0) ;;;
         iupdate ip ;;;
         updi ip (set_ivalid 0) ;;;
         updi ip (fun i => set_ilock (releasesleep (i_lock i)) i)
     | _ => sleeps "inode"
     end
   else kret tt) ;;;
  updi ip (fun i => set_ref (i_ref i - 1) i).

Definition iunlockput (ip : nat) : F unit := iunlock ip ;;; iput ip.

Fixpoint ireclaim_loop (cnt : nat) (dev inum : Z) : F unit :=
  match cnt with
  | O => kret tt
  | S cnt =>
      sb <~ getsb id ;;
      bp <~ bread dev (IBLOCK inum sb) ;;
      d <~ bget_data bp ;;
      let di := get_dinode d (dip inum) in
      ip <~ (if negb (d_type di =? 0) && (d_nlink di =? 0)
             then ip <~ iget dev inum ;; kret (Some ip) else kret None) ;;
      brelse bp ;;;
      match ip with
      | Some ip => lg begin_op ;;; ilock ip ;;; iunlock ip ;;; iput ip ;;; lg end_op
      | None => kret tt
      end ;;;
      ireclaim_loop cnt dev (inum + 1)
  end.
Definition ireclaim (dev : Z) : F unit :=
  n <~ getsb sb_ninodes ;; ireclaim_loop (Z.to_nat (n - 1)) dev 1.

Definition stati (ip : nat) : F stat :=
  ifield ip (fun i => mkStat (i_dev i) (i_inum i) (i_type i) (i_nlink i) (i_size i)).

(** The bytes go to user memory at [dst], or to a kernel buffer, which the
    callers below receive as a list. *)
Definition either_copyout (user_dst : bool) (dst : Z) (bytes : list Z) : F Z :=
  if user_dst then umem (um_copyout dst bytes) else kret 0.
Definition either_copyin (user_src : bool) (src : Z) (kbuf : list Z) (len : Z) : F (Z * list Z) :=
  if user_src then umem (um_copyin src len) else kret (0, take (Z.to_nat len) kbuf).

(** [sub] bytes [bs] replace those of [d] from [o] on. *)
Definition splice (d : block) (o : nat) (bs : list Z) : block :=
  take o d ++ bs ++ drop (o + length bs) d.

(** The result of [readi] and the bytes delivered. *)
Fixpoint readi_loop (fuel : nat) (ip : nat) (user_dst : bool) (dst off n tot : Z) (acc : list Z) : F (Z * list Z) :=
  match fuel with
  | O => nofuel
  | S fuel =>
      if tot <? n then
        a <~ bmap ip (off / BSIZE) ;;
        if a =? 0 then kret (i32 tot, acc)
        else
          dev <~ ifield ip i_dev ;;
          bp <~ bread dev a ;;
          d <~ bget_data bp ;;
          let m := Z.min (n - tot) (BSIZE - off mod BSIZE) in
          let bytes := take (Z.to_nat m) (drop (Z.to_nat (off mod BSIZE)) d) in
          r <~ either_copyout user_dst dst bytes ;;
          if r =? -1 then brelse bp ;;; kret (-1, acc)
          else
            brelse bp ;;;
            readi_loop fuel ip user_dst (u64 (dst + m)) (u32 (off + m)) n (tot + m) (acc ++ bytes)
      else kret (i32 tot, acc)
  end.
Definition readi (ip : nat) (user_dst : bool) (dst off n : Z) : F (Z * list Z) :=
  size <~ ifield ip i_size ;;
  if (size <? off) || (u32 (off + n) <? off) then kret (0, [])
  else
    let n := if size <? u32 (off + n) then u32 (size - off) else n in
    readi_loop (Z.to_nat (n / BSIZE) + 3) ip user_dst dst off n 0 [].

(** [kbuf] is the kernel buffer at [src] when [user_src] is false.  The result
    is [tot] and the offset reached. *)
Fixpoint writei_loop (fuel : nat) (ip : nat) (user_src : bool) (src : Z) (kbuf : list Z) (off n tot : Z) : F (Z * Z) :=
  match fuel with
  | O => nofuel
  | S fuel =>
      if tot <? n then
        a <~ bmap ip (off / BSIZE) ;;
        if a =? 0 then kret (tot, off)
        else
          dev <~ ifield ip i_dev ;;
          bp <~ bread dev a ;;
          let m := Z.min (n - tot) (BSIZE - off mod BSIZE) in
          d <~ bget_data bp ;;
          rb <~ either_copyin user_src src kbuf m ;;
          let '(r, bytes) := rb in
          bset_data bp (splice d (Z.to_nat (off mod BSIZE)) bytes) ;;;
          if r =? -1 then brelse bp ;;; kret (tot, off)
          else
            lg (log_write bp) ;;;
            brelse bp ;;;
            writei_loop fuel ip user_src (u64 (src + m)) (drop (Z.to_nat m) kbuf) (u32 (off + m)) n (tot + m)
      else kret (tot, off)
  end.
Definition writei (ip : nat) (user_src : bool) (src : Z) (kbuf : list Z) (off n : Z) : F Z :=
  size <~ ifield ip i_size ;;
  if (size <? off) || (u32 (off + n) <? off) then kret (-1)
  else if MAXFILE * BSIZE <? u32 (off + n) then kret (-1)
  else
    to <~ writei_loop (Z.to_nat (n / BSIZE) + 3) ip user_src src kbuf off n 0 ;;
    let '(tot, off) := to in
    (size <~ ifield ip i_size ;;
     if size <? off then updi ip (set_size off) else kret tt) ;;;
    iupdate ip ;;;
    kret (i32 tot).

(** ** Directories *)

(** [strncmp] on the bytes of two buffers; past its end a buffer reads 0. *)
Fixpoint strncmp (n : nat) (p q : list Z) : Z :=
  match n with
  | O => 0
  | S n =>
      let a := hd 0 p in let b := hd 0 q in
      if negb (a =? 0) && (a =? b) then strncmp n (tl p) (tl q) else i32 (u8 a - u8 b)
  end.
Definition namecmp (s t : list Z) : Z := strncmp (Z.to_nat DIRSIZ) s t.

(** The fields of a [struct dirent]. *)
Definition de_inum (de : list Z) : Z := bld 2 de 0.
Definition de_name (de : list Z) : list Z := drop 2 de.
Definition mk_dirent (inum : Z) (name : list Z) : list Z := [u8 inum; u8 (inum / 256)] ++ name.

(** The entry found and its offset. *)
Fixpoint dirlookup_loop (fuel : nat) (dp : nat) (name : list Z) (off : Z) : F (option (nat * Z)) :=
  match fuel with
  | O => nofuel
  | S fuel =>
      size <~ ifield dp i_size ;;
      if off <? size then
        rb <~ readi dp false 0 off DIRENT_SIZE ;;
        let '(r, de) := rb in
        if negb (r =? DIRENT_SIZE) then panic "dirlookup read"
        else if de_inum de =? 0 then dirlookup_loop fuel dp name (u32 (off + DIRENT_SIZE))
        else if namecmp name (de_name de) =? 0 then
          dev <~ ifield dp i_dev ;;
          ip <~ iget dev (de_inum de) ;;
          kret (Some (ip, off))
        else dirlookup_loop fuel dp name (u32 (off + DIRENT_SIZE))
      else kret None
  end.
Definition dirlookup (dp : nat) (name : list Z) : F (option (nat * Z)) :=
  t <~ ifield dp i_type ;;
  if negb (t =? T_DIR) then panic "dirlookup not DIR"
  else
    size <~ ifield dp i_size ;;
    dirlookup_loop (Z.to_nat (size / DIRENT_SIZE) + 2) dp name 0.

(** [strncpy] into a buffer of [n] bytes: up to the NUL, then zeros. *)
Fixpoint strncpy (n : nat) (s : list Z) : list Z :=
  match n with
  | O => []
  | S n => let c := hd 0 s in if c =? 0 then replicate (S n) 0 else c :: strncpy n (tl s)
  end.

(** The offset of the first empty entry, or of the end. *)
Fixpoint dirlink_loop (fuel : nat) (dp : nat) (off : Z) : F Z :=
  match fuel with
  | O => nofuel
  | S fuel =>
      size <~ ifield dp i_size ;;
      if u32 off <? size then
        rb <~ readi dp false 0 (u32 off) DIRENT_SIZE ;;
        let '(r, de) := rb in
        if negb (r =? DIRENT_SIZE) then panic "dirlink read"
        else if de_inum de =? 0 then kret off
        else dirlink_loop fuel dp (i32 (off + DIRENT_SIZE))
      else kret off
  end.
Definition dirlink (dp : nat) (name : list Z) (inum : Z) : F Z :=
  found <~ dirlookup dp name ;;
  match found with
  | Some (ip, _) => iput ip ;;; kret (-1)
  | None =>
      size <~ ifield dp i_size ;;
      off <~ dirlink_loop (Z.to_nat (size / DIRENT_SIZE) + 2) dp 0 ;;
      let de := mk_dirent (u16 inum) (strncpy (Z.to_nat DIRSIZ) name) in
      r <~ writei dp false 0 de (u32 off) DIRENT_SIZE ;;
      if negb (r =? DIRENT_SIZE) then kret (-1) else kret 0
  end.

(** ** Paths: a path is its bytes up to the NUL *)
Fixpoint skip_slashes (path : list Z) : list Z :=
  match path with
  | c :: rest => if c =? 47 then skip_slashes rest else path
  | [] => []
  end.
Fixpoint elem_len (path : list Z) : nat :=
  match path with
  | [] => 0
  | c :: path => if (c =? 47) || (c =? 0) then 0 else S (elem_len path)
  end.
Definition skipelem (path name : list Z) : option (list Z * list Z) :=
  let path := skip_slashes path in
  if hd 0 path =? 0 then None
  else
    let len := elem_len path in
    let name :=
      if DIRSIZ <=? Z.of_nat len then take (Z.to_nat DIRSIZ) path
      else take len path ++ [0] ++ drop (len + 1) name in
    Some (skip_slashes (drop len path), name).

(** The inode and the last path element. *)
Fixpoint namex_loop (fuel : nat) (ip : nat) (path : list Z) (nameiparent : bool) (name : list Z)
  : F (option nat * list Z) :=
  match fuel with
  | O => nofuel
  | S fuel =>
      match skipelem path name with
      | None =>
          if nameiparent then iput ip ;;; kret (None, name) else kret (Some ip, name)
      | Some (path, name) =>
          ilock ip ;;;
          t <~ ifield ip i_type ;;
          if negb (t =? T_DIR) then iunlockput ip ;;; kret (None, name)
          else if nameiparent && (hd 0 path =? 0) then iunlock ip ;;; kret (Some ip, name)
          else
            next <~ dirlookup ip name ;;
            match next with
            | None => iunlockput ip ;;; kret (None, name)
            | Some (next, _) => iunlockput ip ;;; namex_loop fuel next path nameiparent name
            end
      end
  end.
Definition namex (path : list Z) (nameiparent : bool) (name : list Z) : F (option nat * list Z) :=
  ip <~ (if hd 0 path =? 47 then iget ROOTDEV ROOTINO else cwd <~ gets f_cwd ;; idup cwd) ;;
  namex_loop (length path + 1) ip path nameiparent name.
Definition namei (path : list Z) : F (option nat) :=
  r <~ namex path false (replicate (Z.to_nat DIRSIZ) 0) ;; kret r.1.
Definition nameiparent (path name : list Z) : F (option nat * list Z) := namex path true name.

(** ** Initialisation *)
Definition readsb (dev : Z) : F unit :=
  bp <~ bread dev 1 ;;
  d <~ bget_data bp ;;
  modify (fun s => mkF (f_log s)
    (mkSb (bld 4 d 0) (bld 4 d 4) (bld 4 d 8) (bld 4 d 12) (bld 4 d 16) (bld 4 d 20) (bld 4 d 24) (bld 4 d 28))
    (f_itable s) (f_mem s) (f_pid s) (f_cwd s)) ;;;
  brelse bp.
Definition fsinit (dev : Z) : F unit :=
  readsb dev ;;;
  magic <~ getsb sb_magic ;;
  if negb (magic =? FSMAGIC) then panic "invalid file system"
  else
    start <~ getsb sb_logstart ;;
    lg (initlog dev (i32 start)) ;;;
    ireclaim dev.

Definition iinit : F unit :=
  modify (fun s => mkF (f_log s) (f_sb s) (set_ilock initsleeplock <$> f_itable s) (f_mem s) (f_pid s) (f_cwd s)).
End fs.

(** The running process's memory as vm.c gives it to [either_copyin] and
    [either_copyout]. *)
Definition vm_user (kend : Z) (p : vmproc) : UserMem pmem := {|
  um_copyout dst src := copyout kend p (p_pagetable p) dst src (Z.of_nat (length src));
  um_copyin src len := copyin kend p (p_pagetable p) src len |}.
