(* ===== verification/FsBase.v ===== *)
(** * Facts about the on-disk formats: bitmap, inodes, splicing *)
From S2P Require Import Prelude Machine Spinlock Blocks Log Fs.

(** ** Bits of the free map *)
Lemma bit_set_testbit d bi :
  0 <= bi -> bit_set d bi = Z.testbit (nth (Z.to_nat (bi / 8)) d 0) (bi mod 8).
Proof.
  intros Hb. unfold bit_set. set (x := nth _ _ _). assert (0 <= bi mod 8 < 8) as Hm by (apply Z.mod_pos_bound; lia).
  destruct (Z.testbit x (bi mod 8)) eqn:E.
  - apply negb_true_iff, Z.eqb_neq. intros H0. apply (f_equal (fun z => Z.testbit z (bi mod 8))) in H0.
    rewrite Z.land_spec, Z.shiftl_spec, Z.sub_diag, E, Z.bits_0 in H0 by lia. discriminate H0.
  - apply negb_false_iff, Z.eqb_eq. apply Z.bits_inj'. intros n Hn. rewrite Z.land_spec, Z.bits_0, Z.shiftl_spec by lia.
    destruct (decide (n = bi mod 8)) as [->|Hne]; [by rewrite E|].
    replace (Z.testbit 1 (n - bi mod 8)) with false; [by rewrite andb_false_r|].
    change 1 with (2 ^ 0). rewrite Z.pow2_bits_eqb by lia. symmetry. apply Z.eqb_neq. lia.
Qed.

Lemma u8_bits x n : 0 <= n < 8 -> Z.testbit (u8 x) n = Z.testbit x n.
Proof. intros. unfold u8. by rewrite Z.mod_pow2_bits_low by lia. Qed.

Lemma shiftl1_bits a n : 0 <= a -> 0 <= n -> Z.testbit (Z.shiftl 1 a) n = (n =? a).
Proof.
  intros. rewrite Z.shiftl_spec by lia. change 1 with (2 ^ 0).
  destruct (Z.eqb_spec n a) as [->|]; [by rewrite Z.sub_diag|].
  destruct (Z.ltb_spec n a); [apply Z.testbit_neg_r; lia|]. rewrite Z.pow2_bits_eqb by lia. apply Z.eqb_neq. lia.
Qed.

(** A bit of the map, written. *)
Lemma put_bit_spec d bi bj v :
  length d = 1024%nat -> 0 <= bi < BPB -> 0 <= bj < BPB ->
  (forall n, 0 <= n < 8 -> Z.testbit v n = if n =? bi mod 8 then negb (bit_set d bi)
     else Z.testbit (nth (Z.to_nat (bi / 8)) d 0) n) ->
  bit_set (<[Z.to_nat (bi / 8) := u8 v]> d) bj = if bj =? bi then negb (bit_set d bi) else bit_set d bj.
Proof.
  intros Hl Hi Hj Hv. unfold BPB, BSIZE in *. rewrite (bit_set_testbit _ bj), nth_lookup by lia.
  assert (0 <= bj mod 8 < 8) by (apply Z.mod_pos_bound; lia).
  destruct (decide (Z.to_nat (bj / 8) = Z.to_nat (bi / 8))) as [E|E].
  - rewrite E, list_lookup_insert_eq by (rewrite Hl; dlia). cbn [default]. unfold id.
    rewrite u8_bits, Hv by lia. assert (bj / 8 = bi / 8) as E' by dlia.
    destruct (Z.eqb_spec bj bi) as [->|Hne]; [by rewrite Z.eqb_refl|].
    replace (bj mod 8 =? bi mod 8) with false by (symmetry; apply Z.eqb_neq; dlia).
    rewrite (bit_set_testbit d bj) by lia. by rewrite E'.
  - rewrite list_lookup_insert_ne by done. rewrite <- nth_lookup, <- bit_set_testbit by lia.
    replace (bj =? bi) with false; [done|]. symmetry. apply Z.eqb_neq. intros ->. done.
Qed.

Lemma set_bit_spec d bi bj :
  length d = 1024%nat -> 0 <= bi < BPB -> 0 <= bj < BPB -> bit_set d bi = false ->
  bit_set (set_bit d bi) bj = (bj =? bi) || bit_set d bj.
Proof.
  intros Hl Hi Hj H0. unfold set_bit. assert (0 <= bi mod 8 < 8) by (apply Z.mod_pos_bound; lia).
  rewrite put_bit_spec; [|done..|].
  - rewrite H0. by destruct (bj =? bi).
  - intros n Hn. rewrite Z.lor_spec, shiftl1_bits by lia. rewrite H0.
    destruct (n =? bi mod 8); [by rewrite orb_true_r|by rewrite orb_false_r].
Qed.

Lemma clear_bit_spec d bi bj :
  length d = 1024%nat -> 0 <= bi < BPB -> 0 <= bj < BPB -> bit_set d bi = true ->
  bit_set (clear_bit d bi) bj = negb (bj =? bi) && bit_set d bj.
Proof.
  intros Hl Hi Hj H0. unfold clear_bit. assert (0 <= bi mod 8 < 8) by (apply Z.mod_pos_bound; lia).
  rewrite put_bit_spec; [|done..|].
  - rewrite H0. by destruct (bj =? bi).
  - intros n Hn. rewrite Z.land_spec, Z.lnot_spec, shiftl1_bits by lia. rewrite H0.
    destruct (n =? bi mod 8); [by rewrite andb_false_r|by rewrite andb_true_r].
Qed.

Lemma insert_block_ok d i v : block_ok d -> 0 <= v < 256 -> block_ok (<[i := v]> d).
Proof. intros [Hl HF] Hv. split; [by rewrite length_insert|]. by apply Forall_insert. Qed.
Lemma set_bit_ok d bi : block_ok d -> block_ok (set_bit d bi).
Proof. intros. apply insert_block_ok; [done|apply u8_range]. Qed.
Lemma clear_bit_ok d bi : block_ok d -> block_ok (clear_bit d bi).
Proof. intros. apply insert_block_ok; [done|apply u8_range]. Qed.
#[export] Hint Resolve set_bit_ok clear_bit_ok : xv6.

(** ** The scan *)
Lemma balloc_scan_ok cnt bi b size d :
  match balloc_scan cnt bi b size d with
  | Some x => bi <= x < bi + Z.of_nat cnt /\ b + x < size /\ bit_set d x = false /\
      (forall y, bi <= y < x -> bit_set d y = true)
  | None => forall y, bi <= y < bi + Z.of_nat cnt -> b + y < size -> bit_set d y = true
  end.
Proof.
  revert bi. induction cnt as [|cnt IH]; intros bi; cbn [balloc_scan]; [intros; lia|].
  destruct (Z.ltb_spec (b + bi) size) as [Hs|Hs].
  - destruct (bit_set d bi) eqn:E; cbn [negb].
    + specialize (IH (bi + 1)). destruct (balloc_scan cnt (bi + 1) b size d) as [x|].
      * destruct IH as (H1 & H2 & H3 & H4). split_and!; try lia; [done|].
        intros y Hy. destruct (decide (y = bi)) as [->|]; [done|]. apply H4. lia.
      * intros y Hy Hs'. destruct (decide (y = bi)) as [->|]; [done|]. apply IH; lia.
    + split_and!; [lia|lia|lia|done|intros; lia].
  - intros y Hy Hs'. lia.
Qed.

(** ** Inodes on disk *)
Lemma put_addrs_length d o l : length (put_addrs d o l) = length d.
Proof. revert d o. induction l as [|a l IH]; intros d o; cbn [put_addrs]; [done|]. by rewrite IH, bst_length. Qed.
Lemma put_addrs_ok d o l : block_ok d -> block_ok (put_addrs d o l).
Proof. revert d o. induction l as [|a l IH]; intros d o H; cbn [put_addrs]; [done|]. apply IH. by apply bst_ok. Qed.
Lemma put_dinode_ok d o i : block_ok d -> block_ok (put_dinode d o i).
Proof. intros. unfold put_dinode. apply put_addrs_ok. by repeat apply bst_ok. Qed.
#[export] Hint Resolve put_dinode_ok : xv6.

Lemma put_addrs_other d o l k off :
  (off + k <= o \/ o + 4 * length l <= off)%nat -> bld k (put_addrs d o l) off = bld k d off.
Proof.
  revert d o. induction l as [|a l IH]; intros d o H; cbn [put_addrs length] in *; [done|].
  rewrite IH by lia. apply bld_bst_ne. lia.
Qed.

Lemma put_addrs_get d o l j :
  (o + 4 * length l <= length d)%nat -> Forall (fun a => 0 <= a < 2 ^ 32) l -> (j < length l)%nat ->
  bld 4 (put_addrs d o l) (o + 4 * j) = nth j l 0.
Proof.
  revert d o j. induction l as [|a l IH]; intros d o j Hd HF Hj; cbn [put_addrs length] in *; [lia|].
  apply Forall_cons in HF as [Ha HF]. destruct j as [|j]; cbn [nth].
  - rewrite put_addrs_other by lia. rewrite Nat.mul_0_r, Nat.add_0_r, bld_bst_eq by lia.
    apply Z.mod_small. done.
  - replace (o + 4 * S j)%nat with (o + 4 + 4 * j)%nat by lia. apply IH; [rewrite bst_length; lia|done|lia].
Qed.

Definition dinode_wf (i : dinode) : Prop :=
  (- 2 ^ 15 <= d_type i < 2 ^ 15) /\ (- 2 ^ 15 <= d_major i < 2 ^ 15) /\ (- 2 ^ 15 <= d_minor i < 2 ^ 15) /\
  (- 2 ^ 15 <= d_nlink i < 2 ^ 15) /\ 0 <= d_size i < 2 ^ 32 /\
  length (d_addrs i) = 13%nat /\ Forall (fun a => 0 <= a < 2 ^ 32) (d_addrs i).

Lemma i16_u16 z : - 2 ^ 15 <= z < 2 ^ 15 -> i16 (u16 z mod 256 ^ 2) = z.
Proof.
  intros. unfold i16, u16. change (256 ^ 2) with (2 ^ 16). rewrite Z.mod_mod by lia.
  rewrite Z.add_mod_idemp_l by lia. rewrite Z.mod_small; lia.
Qed.

(** An inode reads back as it was stored. *)
Lemma get_put_dinode d o i :
  (o + 64 <= length d)%nat -> dinode_wf i -> get_dinode (put_dinode d o i) o = i.
Proof.
  intros Hd (H1 & H2 & H3 & H4 & H5 & H6 & H7). unfold get_dinode, put_dinode.
  destruct i as [a b c e f g]. cbn [d_type d_major d_minor d_nlink d_size d_addrs] in *.
  f_equal; try (rewrite (put_addrs_other _ (o + 12)) by lia;
    repeat first [rewrite bld_bst_eq by (rewrite ?bst_length; lia) | rewrite bld_bst_ne by lia];
    first [by apply i16_u16 | by apply Z.mod_small]).
  apply list_eq. intros j. rewrite list_lookup_fmap. destruct (decide (j < 13)%nat) as [Hj|Hj].
  - rewrite lookup_seq_lt by done. cbn [fmap option_fmap option_map plus].
      rewrite put_addrs_get by (rewrite ?bst_length; first [done|lia]).
      rewrite nth_lookup. destruct (lookup_lt_is_Some_2 g j) as [x ->]; [lia|done].
  - rewrite lookup_seq_ge by lia. symmetry. apply lookup_ge_None. lia.
Qed.

(** Another inode of the block keeps its fields. *)
Lemma put_dinode_other d o i k off :
  length (d_addrs i) = 13%nat -> (off + k <= o \/ o + 64 <= off)%nat ->
  bld k (put_dinode d o i) off = bld k d off.
Proof. intros Ha H. unfold put_dinode. rewrite put_addrs_other by lia. by rewrite !bld_bst_ne by lia. Qed.

Lemma get_dinode_ext d d' o :
  (forall k off, (o <= off)%nat -> (off + k <= o + 64)%nat -> bld k d off = bld k d' off) ->
  get_dinode d o = get_dinode d' o.
Proof.
  intros H. unfold get_dinode. rewrite (H 2%nat o), (H 2%nat (o + 2)%nat), (H 2%nat (o + 4)%nat),
    (H 2%nat (o + 6)%nat), (H 4%nat (o + 8)%nat) by lia. f_equal.
  apply list_fmap_ext. intros j x Hx. apply lookup_seq in Hx. apply H; lia.
Qed.

Lemma get_put_dinode_other d o o' i :
  length (d_addrs i) = 13%nat -> (o' + 64 <= o \/ o + 64 <= o')%nat ->
  get_dinode (put_dinode d o i) o' = get_dinode d o'.
Proof. intros Ha H. apply get_dinode_ext. intros. apply put_dinode_other; [done|lia]. Qed.

Lemma bld_zero k o : bld k zero_block o = 0.
Proof.
  revert o. induction k as [|k IH]; intros o; cbn [bld]; [done|]. rewrite IH. unfold zero_block.
  rewrite nth_lookup. destruct (replicate 1024 0 !! o) as [v|] eqn:E; [|done].
  apply lookup_replicate in E as [-> _]. done.
Qed.

(** ** Splicing *)
Lemma splice_length d o bs : (o + length bs <= length d)%nat -> length (splice d o bs) = length d.
Proof. intros. unfold splice. rewrite !length_app, length_take, length_drop. lia. Qed.
Lemma splice_ok d o bs :
  block_ok d -> (o + length bs <= 1024)%nat -> Forall (fun x => 0 <= x < 256) bs -> block_ok (splice d o bs).
Proof.
  intros [Hl HF] Ho Hb. split; [rewrite splice_length; lia|]. unfold splice.
  apply Forall_app. split; [by apply Forall_take|]. apply Forall_app. split; [done|by apply Forall_drop].
Qed.
Lemma splice_nth d o bs i :
  (o + length bs <= length d)%nat ->
  nth i (splice d o bs) 0 = if decide (o <= i < o + length bs)%nat then nth (i - o) bs 0 else nth i d 0.
Proof.
  intros H. unfold splice. rewrite !nth_lookup. case_decide as E.
  - rewrite lookup_app_r, length_take by (rewrite length_take; lia).
    rewrite lookup_app_l by lia. do 2 f_equal. lia.
  - destruct (decide (i < o)%nat).
    + rewrite lookup_app_l by (rewrite length_take; lia). by rewrite lookup_take_lt by lia.
    + rewrite lookup_app_r, length_take by (rewrite length_take; lia).
      rewrite lookup_app_r by lia. rewrite lookup_drop. do 2 f_equal. lia.
Qed.
