(* ===== verification/FsBlock.v ===== *)
(** * Block allocation: [balloc], [bfree], [bzero] inside a transaction *)
From S2P Require Import Prelude Machine Spinlock Blocks Log LogProof LogCrash LogTxn Fs FsBase.

(** The layout mkfs gives the disk: log, inodes, free map, data from
    [dstart] on. *)
Record layout (sb : superblock) (dstart : Z) : Prop := {
  ly_log : 0 <= sb_logstart sb;
  ly_ino : sb_logstart sb + LOGBLOCKS < sb_inodestart sb;
  ly_nino : 0 <= sb_ninodes sb;
  ly_bmap : sb_inodestart sb + sb_ninodes sb / IPB < sb_bmapstart sb;
  ly_data : sb_bmapstart sb + sb_size sb / BPB < dstart;
  ly_size : 0 <= sb_size sb /\ dstart <= sb_size sb < 2 ^ 31 }.

Section block.
Context {St Mem : Type} `{!BlockIO St} `{!BlockLaws St} `{!UserMem Mem}.
Context (sb : superblock) (dstart : Z) (disk : Z -> block) (tr : list (Z * block)).
Hypothesis Hly : layout sb dstart.
Implicit Types (s : fstate St Mem) (view : Z -> block) (held : gmap nat Z) (bs : list Z).

Record fok s view held bs : Prop := {
  fk_t : tinv (f_log s) view disk tr held bs;
  fk_start : lg_start (ls_log (f_log s)) = sb_logstart sb;
  fk_out : 1 <= lg_outstanding (ls_log (f_log s));
  fk_sb : f_sb s = sb }.

(** [s] with another log state; everything else is kept. *)
Definition wl (l : lstate St) s : fstate St Mem := mkF l (f_sb s) (f_itable s) (f_mem s) (f_pid s) (f_cwd s).
Definition same s s' : Prop := s' = wl (f_log s') s.

Lemma same_refl s : same s s.
Proof. by destruct s. Qed.
Lemma same_wl l s : same s (wl l s).
Proof. done. Qed.
Lemma same_trans s1 s2 s3 : same s1 s2 -> same s2 s3 -> same s1 s3.
Proof. unfold same, wl. intros -> ->. done. Qed.
Lemma same_table s s' : same s s' ->
  f_itable s' = f_itable s /\ f_mem s' = f_mem s /\ f_pid s' = f_pid s /\ f_cwd s' = f_cwd s /\ f_sb s' = f_sb s.
Proof. by intros ->. Qed.
Hint Resolve same_refl same_wl : xv6.

Lemma lg_run {A} (m : M (lstate St) A) s a l : m (f_log s) = Ret (a, l) -> lg m s = Ret (a, wl l s).
Proof. intros H. unfold lg. by rewrite H. Qed.

(** Blocks outside the log that the file system may touch. *)
Definition fs_block (k : Z) : Prop := sb_logstart sb + LOGBLOCKS < k < 2 ^ 31.

Lemma fs_block_range k : fs_block k -> blk_range k.
Proof. destruct Hly. unfold fs_block, blk_range, LOGBLOCKS, MAXOPBLOCKS. lia. Qed.

Definition room held bs : Prop := Z.of_nat (length bs + size held) < NBUF.

Lemma f_read s view held bs k :
  fok s view held bs -> fs_block k -> nheld held k = 0%nat -> room held bs ->
  exists b s', bread ROOTDEV k s = Ret (b, s') /\ held !! b = None /\ same s s' /\
    fok s' view (<[b := k]> held) bs.
Proof.
  intros [T Hst Ho Hsb] Hk Hh Hr. pose proof (fs_block_range k Hk) as Hrange.
  destruct (tinv_read _ _ _ _ _ _ k T Hrange Hh Hr) as (b & l & Hrun & Hb & Hl & T').
  exists b, (wl l s). split_and!; [|done|done|].
  - unfold bread. apply lg_run. by rewrite (u32_blk k Hrange).
  - split; cbn; rewrite ?Hl; done.
Qed.

Lemma f_data s view held bs b k :
  fok s view held bs -> held !! b = Some k -> bget_data b s = Ret (view k, s).
Proof.
  intros [T _ _ _] Hb. destruct (tinv_data _ _ _ _ _ _ _ _ T Hb) as [Hd _].
  unfold bget_data, lg. rewrite Hd. by destruct s.
Qed.

Lemma f_set s view held bs b k d :
  fok s view held bs -> held !! b = Some k -> block_ok d ->
  exists s', bset_data b d s = Ret (tt, s') /\ same s s' /\ fok s' (fupd view k d) held bs.
Proof.
  intros [T Hst Ho Hsb] Hb Hd. destruct (tinv_set _ _ _ _ _ _ b k d T Hb Hd) as (l & Hrun & Hl & T').
  exists (wl l s). split_and!; [by apply lg_run|done|]. split; cbn; rewrite ?Hl; done.
Qed.

Lemma f_log_write s view held bs b k :
  fok s view held bs -> held !! b = Some k -> fs_block k -> Z.of_nat (length bs) < LOGBLOCKS ->
  exists s', lg (log_write b) s = Ret (tt, s') /\ same s s' /\ fok s' view held (absorb bs k).
Proof.
  intros [T Hst Ho Hsb] Hb Hk Hl. unfold fs_block in Hk.
  destruct (tinv_log_write _ _ _ _ _ _ b k T Hb Hl Ho) as (l & Hrun & T' & E1 & E2 & _);
    [by apply fs_block_range|lia|].
  exists (wl l s). split_and!; [by apply lg_run|done|]. split; cbn; rewrite ?E1, ?E2; done.
Qed.

Lemma f_relse s view held bs b k :
  fok s view held bs -> held !! b = Some k -> (k ∈ bs \/ view k = disk k) ->
  exists s', brelse b s = Ret (tt, s') /\ same s s' /\ fok s' view (delete b held) bs.
Proof.
  intros [T Hst Ho Hsb] Hb Hk. destruct (tinv_relse _ _ _ _ _ _ b k T Hb Hk) as (l & Hrun & Hl & T').
  exists (wl l s). split_and!; [by apply lg_run|done|]. split; cbn; rewrite ?Hl; done.
Qed.

Lemma fok_block_ok s view held bs k : fok s view held bs -> block_ok (view k).
Proof. intros [T _ _ _]. by apply (tinv_ok _ _ _ _ _ _ k T). Qed.

Lemma absorb_in bs k : k ∈ absorb bs k.
Proof. unfold absorb. case_decide; [done|]. apply elem_of_app. right. by apply list_elem_of_singleton. Qed.
Lemma absorb_sub bs k j : j ∈ bs -> j ∈ absorb bs k.
Proof. intros. unfold absorb. case_decide; [done|]. apply elem_of_app. by left. Qed.
Lemma absorb_len bs k : (length (absorb bs k) <= S (length bs))%nat.
Proof. unfold absorb. case_decide; [lia|]. rewrite length_app. cbn. lia. Qed.
Lemma absorb_elem bs k j : j ∈ absorb bs k -> j = k \/ j ∈ bs.
Proof. unfold absorb. case_decide; [by right|]. rewrite elem_of_app, list_elem_of_singleton. tauto. Qed.

(** A clean or logged block stays so when the buffer is only read. *)
Lemma clean_block s view held bs k :
  fok s view held bs -> nheld held k = 0%nat -> k ∈ bs \/ view k = disk k.
Proof.
  intros [T _ _ _] Hh. destruct (decide (k ∈ bs)) as [|Hn]; [by left|right]. by apply (ti_clean _ _ _ _ _ _ T).
Qed.

(** The common shapes: a buffer read and released; changed, logged, released. *)
Lemma open_block s view held bs k :
  fok s view held bs -> fs_block k -> nheld held k = 0%nat -> room held bs ->
  exists b s1, bread ROOTDEV k s = Ret (b, s1) /\ bget_data b s1 = Ret (view k, s1) /\ held !! b = None /\ same s s1 /\
    fok s1 view (<[b := k]> held) bs /\
    (exists s2, brelse b s1 = Ret (tt, s2) /\ same s s2 /\ fok s2 view held bs) /\
    (forall d, block_ok d -> Z.of_nat (length bs) < LOGBLOCKS ->
       exists s2 s3 s4, bset_data b d s1 = Ret (tt, s2) /\ lg (log_write b) s2 = Ret (tt, s3) /\
         brelse b s3 = Ret (tt, s4) /\ same s s4 /\ fok s4 (fupd view k d) held (absorb bs k)).
Proof.
  intros F Hk Hh Hr. destruct (f_read _ _ _ _ _ F Hk Hh Hr) as (b & s1 & H1 & Hb & S1 & F1).
  pose proof (lookup_insert_eq held b k) as Hbk.
  exists b, s1. split_and!; [done|by eapply f_data|done|done|done| |].
  - destruct (f_relse _ _ _ _ b k F1 Hbk (clean_block _ _ _ _ k F Hh)) as (s2 & H2 & S2 & F2).
    rewrite delete_insert_id in F2 by done. exists s2. split_and!; [done|by eapply same_trans|done].
  - intros d Hd Hl. destruct (f_set _ _ _ _ b k d F1 Hbk Hd) as (s2 & H2 & S2 & F2).
    destruct (f_log_write _ _ _ _ b k F2 Hbk Hk Hl) as (s3 & H3 & S3 & F3).
    destruct (f_relse _ _ _ _ b k F3 Hbk) as (s4 & H4 & S4 & F4); [left; apply absorb_in|].
    rewrite delete_insert_id in F4 by done. exists s2, s3, s4. split_and!; try done.
    eapply same_trans; [|exact S4]. eapply same_trans; [|exact S3]. by eapply same_trans.
Qed.

Lemma bzero_ok s view held bs k :
  fok s view held bs -> fs_block k -> nheld held k = 0%nat -> room held bs -> Z.of_nat (length bs) < LOGBLOCKS ->
  exists s', bzero ROOTDEV k s = Ret (tt, s') /\ same s s' /\ fok s' (fupd view k zero_block) held (absorb bs k).
Proof.
  intros F Hk Hh Hr Hl. destruct (open_block _ _ _ _ _ F Hk Hh Hr) as (b & s1 & H1 & _ & _ & _ & _ & _ & Hw).
  destruct (Hw zero_block zero_block_ok Hl) as (s2 & s3 & s4 & H2 & H3 & H4 & S4 & F4).
  exists s4. split; [|done]. unfold bzero.
  by rewrite (kbind_ret _ _ _ _ _ H1), (kbind_ret _ _ _ _ _ H2), (kbind_ret _ _ _ _ _ H3).
Qed.

(** ** The free map *)
Definition used view (b : Z) : bool := bit_set (view (BBLOCK b sb)) (b mod BPB).
Definition is_bmap (k : Z) : Prop := sb_bmapstart sb <= k < dstart.
Definition data_block (k : Z) : Prop := dstart <= k < sb_size sb.

(** The metadata blocks are marked in use. *)
Definition meta_used view : Prop := forall b, 0 <= b < dstart -> used view b = true.

Lemma BBLOCK_eq b : 0 <= b < sb_size sb -> BBLOCK b sb = b / BPB + sb_bmapstart sb /\ is_bmap (BBLOCK b sb).
Proof.
  intros Hb. destruct Hly as [L1 L2 L3 L4 L5 L6]. unfold is_bmap, BBLOCK, LOGBLOCKS, MAXOPBLOCKS, IPB, BPB, DINODE_SIZE, BSIZE in *.
  assert (0 <= b / (1024 * 8) <= sb_size sb / (1024 * 8)) by (split; [apply Z.div_pos|apply Z.div_le_mono]; lia).
  assert (0 <= sb_ninodes sb / (1024 / 64)) by (apply Z.div_pos; [lia|done]).
  rewrite u32_small by lia. lia.
Qed.
Lemma bmap_fs k : is_bmap k -> fs_block k.
Proof.
  destruct Hly as [L1 L2 L3 L4 L5 L6]. unfold is_bmap, fs_block, IPB, DINODE_SIZE, BSIZE in *. intros.
  assert (0 <= sb_ninodes sb / (1024 / 64)) by (apply Z.div_pos; [lia|done]). lia.
Qed.
Lemma data_fs k : data_block k -> fs_block k.
Proof.
  destruct Hly as [L1 L2 L3 L4 L5 L6]. unfold data_block, fs_block, IPB, BPB, DINODE_SIZE, BSIZE in *. intros.
  assert (0 <= sb_ninodes sb / (1024 / 64)) by (apply Z.div_pos; [lia|done]).
  assert (0 <= sb_size sb / (1024 * 8)) by (apply Z.div_pos; lia). lia.
Qed.
Lemma data_pos k : data_block k -> 0 < k < sb_size sb.
Proof.
  intros Hk. pose proof (data_fs k Hk) as Hf. destruct Hly. unfold data_block, fs_block, LOGBLOCKS, MAXOPBLOCKS in *. lia.
Qed.
Lemma data_not_bmap k j : data_block k -> is_bmap j -> k <> j.
Proof. unfold data_block, is_bmap. lia. Qed.

(** [b], free, becomes used and zero. *)
Definition allocated view (b : Z) : Z -> block :=
  let bb := BBLOCK b sb in fupd (fupd view bb (set_bit (view bb) (b mod BPB))) b zero_block.

Lemma allocated_used view b j :
  (forall k, block_ok (view k)) -> data_block b -> used view b = false -> 0 <= j < sb_size sb ->
  used (allocated view b) j = (j =? b) || used view j.
Proof using Hly. clear disk.
  intros Hok Hb Hf Hj. unfold used, allocated. pose proof (data_pos b Hb) as Hb'. unfold data_block in Hb.
  destruct (BBLOCK_eq b ltac:(lia)) as [Eb Mb]. destruct (BBLOCK_eq j Hj) as [Ej Mj].
  assert (BBLOCK j sb <> b) as Hne by (unfold is_bmap in *; lia). rewrite fupd_ne by done.
  assert (0 <= b mod BPB < BPB /\ 0 <= j mod BPB < BPB) as [? ?] by (split; apply Z.mod_pos_bound; done).
  assert (BPB = 8192) as EB by done.
  destruct (decide (BBLOCK j sb = BBLOCK b sb)) as [E|E].
  - rewrite E, fupd_eq, set_bit_spec by (first [done | apply Hok]). f_equal.
    rewrite Eb, Ej, EB in E. rewrite EB in *. destruct (Z.eqb_spec j b) as [->|]; [by rewrite Z.eqb_refl|]. apply Z.eqb_neq. dlia.
  - rewrite fupd_ne by done. replace (j =? b) with false; [done|]. symmetry. apply Z.eqb_neq. by intros ->.
Qed.

Lemma balloc_loop_ok fuel b s view held bs :
  fok s view held bs -> meta_used view -> room held bs -> Z.of_nat (length bs) + 1 < LOGBLOCKS ->
  (forall k, is_bmap k \/ (data_block k /\ used view k = false) -> nheld held k = 0%nat) ->
  Z.of_nat (length bs + size held) + 1 < NBUF ->
  0 <= b -> b mod BPB = 0 -> (forall j, 0 <= j < b -> j < sb_size sb -> used view j = true) ->
  (0 < fuel)%nat -> sb_size sb - b <= (Z.of_nat fuel - 1) * BPB ->
  exists a s', balloc_loop fuel ROOTDEV b s = Ret (a, s') /\ same s s' /\
    ((a = 0 /\ fok s' view held bs /\ forall j, 0 <= j < sb_size sb -> used view j = true) \/
     (data_block a /\ used view a = false /\
      fok s' (allocated view a) held (absorb (absorb bs (BBLOCK a sb)) a))).
Proof.
  assert (BPB = 8192) as EB by done. assert (LOGBLOCKS = 30 /\ NBUF = 30) as [EL EN] by done.
  revert b s. induction fuel as [|fuel IH]; intros b s F Hm Hr Hl Hh Hroom Hb Hb8 Hj Hf0 Hf; [lia|].
  cbn [balloc_loop]. unfold kbind at 1, getsb at 1, gets at 1. rewrite (fk_sb _ _ _ _ F).
  destruct (Z.ltb_spec b (sb_size sb)) as [Hs|Hs].
  2:{ exists 0, s. split_and!; [done|apply same_refl|left]. split_and!; [done|done|]. intros. apply Hj; lia. }
  unfold kbind at 1, getsb at 1, gets at 1. rewrite (fk_sb _ _ _ _ F). unfold id.
  destruct (BBLOCK_eq b (conj Hb Hs)) as [Eb Mb].
  destruct (open_block _ _ _ _ _ F (bmap_fs _ Mb) (Hh _ (or_introl Mb)) Hr) as (p & s1 & H1 & Hd & _ & _ & _ & (s2 & H2 & S2 & F2) & Hw).
  rewrite (kbind_ret _ _ _ _ _ H1), (kbind_ret _ _ _ _ _ Hd).
  assert (forall y, 0 <= y < BPB -> b + y < sb_size sb ->
    used view (b + y) = bit_set (view (BBLOCK b sb)) y) as Hu.
  { intros y Hy Hys. unfold used. destruct (BBLOCK_eq (b + y) ltac:(lia)) as [E _]. rewrite EB in *.
    replace (BBLOCK (b + y) sb) with (BBLOCK b sb) by (rewrite E, Eb; f_equal; dlia). f_equal. dlia. }
  pose proof (balloc_scan_ok (Z.to_nat BPB) 0 b (sb_size sb) (view (BBLOCK b sb))) as Hscan.
  rewrite Z2Nat.id, Z.add_0_l in Hscan by (rewrite ?EB; lia).
  destruct (balloc_scan _ _ _ _ _) as [bi|].
  - destruct Hscan as (Hbi & Hbs & Hclr & _). rewrite <- Hu in Hclr by done.
    assert (data_block (b + bi)) as Hda.
    { split; [|done]. destruct (Z.ltb_spec (b + bi) dstart); [|done]. rewrite Hm in Hclr by lia. discriminate Hclr. }
    destruct (Hw (set_bit (view (BBLOCK b sb)) bi)) as (t1 & t2 & t3 & W1 & W2 & W3 & S3 & F3);
      [apply set_bit_ok; by eapply fok_block_ok|lia|].
    rewrite (kbind_ret _ _ _ _ _ W1), (kbind_ret _ _ _ _ _ W2), (kbind_ret _ _ _ _ _ W3).
    pose proof (absorb_len bs (BBLOCK b sb)).
    destruct (bzero_ok _ _ _ _ (b + bi) F3) as (t4 & W4 & S4 & F4);
      [by apply data_fs|apply Hh; by right|unfold room; lia|lia|].
    rewrite (kbind_ret _ _ _ _ _ W4). exists (b + bi), t4. split_and!; [done|by eapply same_trans|right].
    assert (BBLOCK (b + bi) sb = BBLOCK b sb) as EBB.
    { destruct (BBLOCK_eq (b + bi) ltac:(lia)) as [E _]. rewrite E, Eb, EB. rewrite EB in *. f_equal. dlia. }
    assert ((b + bi) mod BPB = bi) as Emod by (rewrite EB in *; dlia).
    split; [exact Hda|]. split; [done|]. unfold allocated. by rewrite EBB, Emod.
  - rewrite (kbind_ret _ _ _ _ _ H2).
    destruct (IH (b + BPB) s2) as (a & s' & Hrun & S' & Hres); try done; try lia.
    + rewrite EB in *. dlia.
    + intros j Hj1 Hj2. destruct (Z.ltb_spec j b); [apply Hj; lia|].
      replace j with (b + (j - b)) by lia. rewrite Hu by lia. apply Hscan; lia.
    + exists a, s'. split_and!; [done|by eapply same_trans|done].
Qed.

(** The buffers that [balloc] reads are not held, and two more blocks fit. *)
Definition may_alloc view held bs : Prop :=
  (forall k, is_bmap k \/ (data_block k /\ used view k = false) -> nheld held k = 0%nat) /\
  Z.of_nat (length bs + size held) + 1 < NBUF.

Lemma balloc_ok s view held bs :
  fok s view held bs -> meta_used view -> may_alloc view held bs ->
  exists a s', balloc ROOTDEV s = Ret (a, s') /\ same s s' /\
    ((a = 0 /\ fok s' view held bs /\ forall j, 0 <= j < sb_size sb -> used view j = true) \/
     (data_block a /\ used view a = false /\
      fok s' (allocated view a) held (absorb (absorb bs (BBLOCK a sb)) a))).
Proof.
  intros F Hm [Hh Hroom]. unfold balloc, kbind, getsb, gets. rewrite (fk_sb _ _ _ _ F).
  assert (LOGBLOCKS = 30 /\ NBUF = 30 /\ BPB = 8192) as (EL & EN & EB) by done.
  pose proof (ly_size _ _ Hly) as [Hs0 _].
  apply (balloc_loop_ok _ 0 s view held bs F Hm); try done; unfold room; try lia.
  rewrite EB. assert (0 <= sb_size sb / 8192) by (apply Z.div_pos; lia). dlia.
Qed.

(** ** Freeing *)
Definition freed view (b : Z) : Z -> block :=
  let bb := BBLOCK b sb in fupd view bb (clear_bit (view bb) (b mod BPB)).

Lemma freed_used view b j :
  (forall k, block_ok (view k)) -> 0 <= b < sb_size sb -> used view b = true -> 0 <= j < sb_size sb ->
  used (freed view b) j = negb (j =? b) && used view j.
Proof using Hly. clear disk.
  intros Hok Hb Hf Hj. unfold used, freed.
  destruct (BBLOCK_eq b Hb) as [Eb Mb]. destruct (BBLOCK_eq j Hj) as [Ej Mj].
  assert (0 <= b mod BPB < BPB /\ 0 <= j mod BPB < BPB) as [? ?] by (split; apply Z.mod_pos_bound; done).
  assert (BPB = 8192) as EB by done.
  destruct (decide (BBLOCK j sb = BBLOCK b sb)) as [E|E].
  - rewrite E, fupd_eq, clear_bit_spec by (first [done | apply Hok]). f_equal. f_equal.
    rewrite Eb, Ej, EB in E. rewrite EB in *. destruct (Z.eqb_spec j b) as [->|]; [by rewrite Z.eqb_refl|]. apply Z.eqb_neq. dlia.
  - rewrite fupd_ne by done. replace (j =? b) with false; [done|]. symmetry. apply Z.eqb_neq. by intros ->.
Qed.

Lemma bfree_ok s view held bs b :
  fok s view held bs -> 0 <= b < sb_size sb -> nheld held (BBLOCK b sb) = 0%nat -> room held bs ->
  Z.of_nat (length bs) < LOGBLOCKS ->
  if used view b
  then exists s', bfree ROOTDEV b s = Ret (tt, s') /\ same s s' /\
         fok s' (freed view b) held (absorb bs (BBLOCK b sb))
  else bfree ROOTDEV b s = Panic "freeing free block".
Proof.
  intros F Hb Hh Hr Hl. destruct (BBLOCK_eq b Hb) as [Eb Mb].
  destruct (open_block _ _ _ _ _ F (bmap_fs _ Mb) Hh Hr) as (p & s1 & H1 & Hd & _ & _ & _ & _ & Hw).
  assert (bfree ROOTDEV b s = (if negb (used view b) then panic "freeing free block" else
    bset_data p (clear_bit (view (BBLOCK b sb)) (b mod BPB)) ;;; lg (log_write p) ;;; brelse p) s1) as ->.
  { unfold bfree, kbind at 1, getsb at 1, gets at 1. rewrite (fk_sb _ _ _ _ F). unfold id.
    by rewrite (kbind_ret _ _ _ _ _ H1), (kbind_ret _ _ _ _ _ Hd). }
  destruct (used view b) eqn:E; cbn [negb]; [|reflexivity].
  destruct (Hw (clear_bit (view (BBLOCK b sb)) (b mod BPB))) as (t1 & t2 & t3 & W1 & W2 & W3 & S3 & F3);
    [apply clear_bit_ok; by eapply fok_block_ok|done|].
  exists t3. split; [|done]. by rewrite (kbind_ret _ _ _ _ _ W1), (kbind_ret _ _ _ _ _ W2).
Qed.
End block.
