(* ===== verification/FsMap.v ===== *)
(** * The blocks of an inode: [bmap] *)
From S2P Require Import Prelude Machine Spinlock Blocks Log LogProof LogCrash LogTxn Fs FsBase FsBlock.

Definition ind (i : inode) : Z := nth 12 (i_addrs i) 0.

Section pot.
Context (sb : superblock).
Implicit Types (bs : list Z) (i : inode).
Abbreviation bm := (sb_bmapstart sb).

(** ** The log space an operation on [i] may need *)
Definition flag (P : Prop) `{!Decision P} : nat := if decide P then 0 else 1.
Definition pot i bs : nat := (length bs + flag (bm ∈ bs) + flag (ind i ∈ bs /\ ind i <> 0%Z))%nat.

Lemma flag_mono (P Q : Prop) `{!Decision P} `{!Decision Q} : (P -> Q) -> (flag Q <= flag P)%nat.
Proof. unfold flag. intros. repeat case_decide; try lia. tauto. Qed.
Lemma flag_true (P : Prop) `{!Decision P} : P -> flag P = 0%nat.
Proof. unfold flag. intros. by rewrite decide_True. Qed.
Lemma flag_false (P : Prop) `{!Decision P} : ~ P -> flag P = 1%nat.
Proof. unfold flag. intros. by rewrite decide_False. Qed.
Lemma flag_le (P : Prop) `{!Decision P} : (flag P <= 1)%nat.
Proof. unfold flag. case_decide; lia. Qed.

Lemma absorb_length bs k : length (absorb bs k) = (length bs + flag (k ∈ bs))%nat.
Proof. unfold absorb, flag. case_decide; [lia|]. rewrite length_app. done. Qed.

Lemma pot_absorb i bs k : (pot i (absorb bs k) <= pot i bs + flag (k ∈ bs))%nat.
Proof.
  unfold pot. rewrite absorb_length.
  pose proof (flag_mono (bm ∈ bs) (bm ∈ absorb bs k) (absorb_sub bs k bm)).
  pose proof (flag_mono (ind i ∈ bs /\ ind i <> 0) (ind i ∈ absorb bs k /\ ind i <> 0)
    (fun H => conj (absorb_sub bs k _ (proj1 H)) (proj2 H))). lia.
Qed.
Lemma pot_bm i bs : (pot i (absorb bs bm) <= pot i bs)%nat.
Proof.
  unfold pot. rewrite absorb_length. rewrite (flag_true (bm ∈ absorb bs bm)) by apply absorb_in.
  pose proof (flag_mono (ind i ∈ bs /\ ind i <> 0) (ind i ∈ absorb bs bm /\ ind i <> 0)
    (fun H => conj (absorb_sub bs bm _ (proj1 H)) (proj2 H))). lia.
Qed.
Lemma pot_ind i bs : ind i <> 0 -> (pot i (absorb bs (ind i)) <= pot i bs)%nat.
Proof.
  intros Hi. unfold pot. rewrite absorb_length.
  rewrite (flag_true (ind i ∈ absorb bs (ind i) /\ _)) by (split; [apply absorb_in|done]).
  pose proof (flag_mono (bm ∈ bs) (bm ∈ absorb bs (ind i)) (absorb_sub bs _ bm)).
  pose proof (flag_mono (ind i ∈ bs /\ ind i <> 0) (ind i ∈ bs) (fun H => proj1 H)). lia.
Qed.
Lemma pot_new i i' bs : ind i = 0 -> ind i' <> 0 -> (pot i' (absorb bs (ind i')) <= pot i bs)%nat.
Proof.
  intros Hi Hi'. pose proof (pot_ind i' bs Hi'). unfold pot in *.
  rewrite (flag_false (ind i ∈ bs /\ ind i <> 0)) by tauto.
  pose proof (flag_le (ind i' ∈ bs /\ ind i' <> 0)). lia.
Qed.
Lemma pot_length i bs : (length bs <= pot i bs)%nat.
Proof. unfold pot. lia. Qed.
Lemma pot_same i i' bs : ind i = ind i' -> pot i bs = pot i' bs.
Proof. intros E. unfold pot. by rewrite E. Qed.
End pot.

Section map.
Context {St Mem : Type} `{!BlockIO St} `{!BlockLaws St} `{!UserMem Mem}.
Context (sb : superblock) (dstart : Z) (disk : Z -> block) (tr : list (Z * block)).
Hypothesis Hly : layout sb dstart.
(** One block of free map, as on every disk of at most BPB blocks. *)
Hypothesis Hone : sb_size sb <= BPB.
Implicit Types (s : fstate St Mem) (view : Z -> block) (held : gmap nat Z) (bs : list Z) (i : inode).

Abbreviation fok := (fok sb disk tr).
Abbreviation used := (used sb).
Abbreviation data_block := (data_block sb dstart).
Abbreviation allocated := (allocated sb).
Abbreviation bm := (sb_bmapstart sb).
Abbreviation pot := (pot sb).

Lemma BBLOCK_one b : 0 <= b < sb_size sb -> BBLOCK b sb = bm.
Proof.
  intros Hb. destruct (BBLOCK_eq sb dstart Hly b Hb) as [-> _]. rewrite Z.div_small by lia. done.
Qed.
Lemma bm_bmap : is_bmap sb dstart bm.
Proof.
  pose proof Hly as [_ _ _ _ L5 [L6 _]]. unfold is_bmap.
  assert (0 <= sb_size sb / BPB) by (apply Z.div_pos; [lia|done]). lia.
Qed.

(** ** Block numbers of an inode *)
Definition blockno view i (bn : Z) : Z :=
  if bn <? NDIRECT then nth (Z.to_nat bn) (i_addrs i) 0
  else if ind i =? 0 then 0
  else bld 4 (view (ind i)) (Z.to_nat (4 * (bn - NDIRECT))).

Record iwf view i : Prop := {
  iw_len : length (i_addrs i) = 13%nat;
  iw_data : forall bn, 0 <= bn < MAXFILE -> blockno view i bn <> 0 ->
    data_block (blockno view i bn) /\ used view (blockno view i bn) = true;
  iw_inj : forall bn bn', 0 <= bn < MAXFILE -> 0 <= bn' < MAXFILE -> blockno view i bn <> 0 ->
    blockno view i bn = blockno view i bn' -> bn = bn';
  iw_ind : ind i <> 0 -> data_block (ind i) /\ used view (ind i) = true /\
    forall bn, 0 <= bn < MAXFILE -> blockno view i bn <> ind i }.

(** ** A block allocated for an inode *)
Lemma allocated_other view a k : 0 <= a < sb_size sb -> k <> a -> k <> bm -> allocated view a k = view k.
Proof. intros Ha H1 H2. unfold FsBlock.allocated. rewrite (BBLOCK_one a Ha). by rewrite !fupd_ne. Qed.
Lemma allocated_zero view a : allocated view a a = zero_block.
Proof. unfold FsBlock.allocated. apply fupd_eq. Qed.

Lemma data_ne_bm k : data_block k -> k <> bm.
Proof. intros H. by apply (data_not_bmap sb dstart k bm H), bm_bmap. Qed.

Lemma alloc_meta view a :
  (forall k, block_ok (view k)) -> data_block a -> used view a = false -> meta_used sb dstart view ->
  meta_used sb dstart (allocated view a).
Proof.
  intros Hok Ha Hf Hm b Hb. pose proof (ly_size _ _ Hly) as [_ ?].
  rewrite (allocated_used sb dstart Hly) by (first [done|lia]). by rewrite Hm, orb_true_r.
Qed.

Lemma alloc_used view a k :
  (forall k, block_ok (view k)) -> data_block a -> used view a = false -> data_block k -> used view k = true ->
  used (allocated view a) k = true /\ k <> a /\ allocated view a k = view k.
Proof.
  intros Hok Ha Hf Hk Hu. pose proof (data_pos sb dstart Hly k Hk). pose proof (data_pos sb dstart Hly a Ha).
  assert (k <> a) by congruence.
  split_and!; [|done|apply allocated_other; [lia|done|by apply data_ne_bm]].
  rewrite (allocated_used sb dstart Hly) by (first [done|lia]). by rewrite Hu, orb_true_r.
Qed.

(** What changes when the inode's block [bn] becomes [a]. *)
Lemma iwf_extend view view' i i' bn0 a :
  iwf view i -> 0 <= bn0 < MAXFILE -> data_block a -> used view a = false -> used view' a = true ->
  (forall k, data_block k -> used view k = true -> used view' k = true) ->
  length (i_addrs i') = 13%nat -> (ind i' = ind i \/ ind i = 0) ->
  (ind i' <> 0 -> ind i' <> a /\ data_block (ind i') /\ used view' (ind i') = true /\
     forall bn, 0 <= bn < MAXFILE -> blockno view i bn <> ind i') ->
  blockno view' i' bn0 = a ->
  (forall bn, 0 <= bn < MAXFILE -> bn <> bn0 -> blockno view' i' bn = blockno view i bn) ->
  iwf view' i'.
Proof.
  intros [W1 W2 W3 W4] Hb Ha Hf Hua Hmono Hl Hi Hind Hat Hoth. pose proof (data_pos sb dstart Hly a Ha).
  assert (forall bn, 0 <= bn < MAXFILE -> blockno view i bn <> a) as Hna.
  { intros bn Hbn E. destruct (W2 bn Hbn) as [_ Hu]; [lia|]. congruence. }
  split; [done| | |].
  - intros bn Hbn Hnz. destruct (decide (bn = bn0)) as [->|Hne]; [by rewrite Hat|].
    rewrite Hoth in * by done. destruct (W2 bn Hbn Hnz). split; [done|]. by apply Hmono.
  - intros bn bn' Hbn Hbn' Hnz E. destruct (decide (bn = bn0)) as [->|Hne], (decide (bn' = bn0)) as [->|Hne'].
    + done.
    + rewrite Hat, Hoth in E by done. by destruct (Hna bn').
    + rewrite Hat, Hoth in E by done. by destruct (Hna bn).
    + rewrite !Hoth in * by done. by apply W3.
  - intros Hnz. destruct (Hind Hnz) as (H1 & H2 & H3 & H4). split; [done|]. split; [done|].
    intros bn Hbn. destruct (decide (bn = bn0)) as [->|Hne]; [rewrite Hat; congruence|].
    rewrite Hoth by done. by apply H4.
Qed.

(** ** Running the code *)
Definition upd_inode (ip : nat) i s s' : Prop :=
  s' = mkF (f_log s') (f_sb s) (<[ip := i]> (f_itable s)) (f_mem s) (f_pid s) (f_cwd s).

Lemma upd_same ip i s s' : f_itable s !! ip = Some i -> same s s' -> upd_inode ip i s s'.
Proof. unfold same, wl, upd_inode. intros H ->. cbn. by rewrite list_insert_id. Qed.
Lemma upd_table ip i s s' : upd_inode ip i s s' -> (ip < length (f_itable s))%nat -> f_itable s' !! ip = Some i.
Proof. intros -> Hl. cbn. by apply list_lookup_insert_eq. Qed.
Lemma upd_len ip i s s' : upd_inode ip i s s' -> length (f_itable s') = length (f_itable s).
Proof. intros ->. cbn. apply length_insert. Qed.
Lemma upd_trans ip i1 i2 s1 s2 s3 : upd_inode ip i1 s1 s2 -> upd_inode ip i2 s2 s3 -> upd_inode ip i2 s1 s3.
Proof. unfold upd_inode. intros -> ->. cbn. by rewrite list_insert_insert_eq. Qed.
Lemma upd_same_l ip i s1 s2 s3 : same s1 s2 -> upd_inode ip i s2 s3 -> upd_inode ip i s1 s3.
Proof. unfold same, wl, upd_inode. intros -> ->. done. Qed.
Lemma upd_same_r ip i s1 s2 s3 : upd_inode ip i s1 s2 -> same s2 s3 -> upd_inode ip i s1 s3.
Proof. unfold same, wl, upd_inode. intros -> ->. done. Qed.

Lemma ifield_run {A} ip (f : inode -> A) s i : f_itable s !! ip = Some i -> ifield ip f s = Ret (f i, s).
Proof. intros H. unfold ifield, gets, geti. by rewrite H. Qed.
Lemma updi_run ip f s i view held bs :
  f_itable s !! ip = Some i -> fok s view held bs ->
  exists s', updi ip f s = Ret (tt, s') /\ upd_inode ip (f i) s s' /\ fok s' view held bs.
Proof.
  intros H [T1 T2 T3 T4]. eexists. split; [reflexivity|]. split; [|by split].
  unfold upd_inode. cbn. f_equal. apply list_eq. intros j. destruct (decide (j = ip)) as [->|].
  - rewrite list_lookup_alter_eq, H. rewrite list_lookup_insert_eq; [done|by eapply lookup_lt_Some].
  - by rewrite list_lookup_alter_ne, list_lookup_insert_ne.
Qed.

(** Allocation while at most one used data block is held. *)
Lemma alloc_run s view held bs :
  fok s view held bs -> meta_used sb dstart view ->
  (forall k, nheld held k <> 0%nat -> data_block k /\ used view k = true) ->
  Z.of_nat (length bs + size held) + 1 < NBUF ->
  exists a s', balloc ROOTDEV s = Ret (a, s') /\ same s s' /\
    ((a = 0 /\ fok s' view held bs /\ forall j, 0 <= j < sb_size sb -> used view j = true) \/
     (data_block a /\ a <> 0 /\ used view a = false /\ fok s' (allocated view a) held (absorb (absorb bs bm) a))).
Proof.
  intros F Hm Hh Hr. destruct (balloc_ok sb dstart disk tr Hly s view held bs F Hm) as (a & s' & Hrun & S' & H).
  { split; [|done]. intros k Hk. destruct (decide (nheld held k = 0%nat)) as [|Hn]; [done|].
    destruct (Hh k Hn) as [Hd Hu]. destruct Hk as [Hk|[_ Hk]]; [|congruence].
    by destruct (data_not_bmap sb dstart k k Hd Hk). }
  exists a, s'. split_and!; [done|done|]. destruct H as [H|(Ha & Hf & F')]; [by left|right].
  pose proof (data_pos sb dstart Hly a Ha). rewrite BBLOCK_one in F' by lia. split_and!; try done; lia.
Qed.

(** What [bmap] leaves behind, whether or not it finds a block. *)
Record bmapped view i bs view' i' bs' (bn a : Z) : Prop := {
  bp_wf : iwf view' i';
  bp_meta : meta_used sb dstart view';
  bp_inode : i' = mkInode (i_dev i) (i_inum i) (i_ref i) (i_lock i) (i_valid i) (i_type i) (i_major i)
               (i_minor i) (i_nlink i) (i_size i) (i_addrs i');
  bp_at : blockno view' i' bn = a;
  bp_other : forall bn', 0 <= bn' < MAXFILE -> bn' <> bn -> blockno view' i' bn' = blockno view i bn';
  bp_old : blockno view i bn <> 0 -> a = blockno view i bn /\ view' = view /\ i' = i /\ bs' = bs;
  bp_new : blockno view i bn = 0 -> a <> 0 ->
    view' a = zero_block /\ used view a = false /\ data_block a /\ a ∈ bs';
  bp_full : a = 0 -> forall j, 0 <= j < sb_size sb -> used view' j = true;
  bp_used : forall j, 0 <= j < sb_size sb -> used view j = true -> used view' j = true;
  bp_frame : forall k, k <> bm -> ~ (data_block k /\ used view k = false) -> k <> ind i -> view' k = view k;
  bp_ind : ind i' = ind i \/ (ind i = 0 /\ used view (ind i') = false);
  bp_bs : forall k, k ∈ bs -> k ∈ bs';
  bp_pot : (pot i' bs' <= pot i bs + flag (blockno view i bn <> 0%Z))%nat }.

Lemma bmapped_id view i bs bn :
  iwf view i -> meta_used sb dstart view -> blockno view i bn <> 0 ->
  bmapped view i bs view i bs bn (blockno view i bn).
Proof. intros. split; try done; try lia. by destruct i. Qed.

Lemma blockno_set view view' i bn a bn' :
  length (i_addrs i) = 13%nat -> 0 <= bn < NDIRECT -> 0 <= bn' ->
  (ind i <> 0 -> view' (ind i) = view (ind i)) ->
  blockno view' (set_addr (Z.to_nat bn) a i) bn' = if bn' =? bn then a else blockno view i bn'.
Proof.
  intros Hl Hb Hb' Hv. unfold blockno, ind, NDIRECT in *. cbn [set_addr i_addrs].
  destruct (Z.ltb_spec bn' 12).
  - rewrite !nth_lookup. destruct (Z.eqb_spec bn' bn) as [->|Hne].
    + rewrite list_lookup_insert_eq by lia. done.
    + by rewrite list_lookup_insert_ne by lia.
  - replace (bn' =? bn) with false by lia. rewrite !nth_lookup, !list_lookup_insert_ne by lia. rewrite <- !nth_lookup.
    destruct (Z.eqb_spec (nth 12 (i_addrs i) 0) 0); [done|]. by rewrite Hv.
Qed.

Lemma ind_set i bn a : 0 <= bn < NDIRECT -> ind (set_addr (Z.to_nat bn) a i) = ind i.
Proof. intros Hb. unfold ind, NDIRECT in *. cbn. by rewrite !nth_lookup, list_lookup_insert_ne by lia. Qed.

(** A direct block is allocated. *)
Lemma bmapped_direct view i bs bn a :
  (forall k, block_ok (view k)) -> iwf view i -> meta_used sb dstart view -> 0 <= bn < NDIRECT ->
  blockno view i bn = 0 -> data_block a -> a <> 0 -> used view a = false ->
  bmapped view i bs (allocated view a) (set_addr (Z.to_nat bn) a i) (absorb (absorb bs bm) a) bn a.
Proof.
  intros Hok W Hm Hb H0 Ha Hnz Hf. pose proof W as [W1 W2 W3 W4].
  pose proof (data_pos sb dstart Hly a Ha) as Hap. assert (bn < MAXFILE) by (unfold NDIRECT in Hb; change MAXFILE with 268; lia).
  assert (ind i <> 0 -> allocated view a (ind i) = view (ind i)) as Hi.
  { intros Hi. destruct (W4 Hi) as (D & U & _). by apply (alloc_used view a (ind i)). }
  pose proof (fun bn' => blockno_set view (allocated view a) i bn a bn' W1 Hb) as HB.
  assert (forall bn', 0 <= bn' < MAXFILE -> bn' <> bn ->
    blockno (allocated view a) (set_addr (Z.to_nat bn) a i) bn' = blockno view i bn') as Hoth.
  { intros bn' Hbn' Hne. rewrite HB by (first [done|lia]). by replace (bn' =? bn) with false by lia. }
  assert (used (allocated view a) a = true) as Hua.
  { rewrite (allocated_used sb dstart Hly) by (first [done|lia]). by rewrite Z.eqb_refl. }
  split; try done.
  - apply (iwf_extend view _ i _ bn a); try done; try lia.
    + intros k Hk Hu. by apply (alloc_used view a k).
    + cbn. by rewrite length_insert.
    + left. by apply ind_set.
    + rewrite (ind_set i bn a Hb). intros Hnz'. destruct (W4 Hnz') as (D & U & N).
      destruct (alloc_used view a (ind i) Hok Ha Hf D U) as (? & ? & _). split_and!; try done; apply D.
    + rewrite HB by (first [done|lia]). by rewrite Z.eqb_refl.
  - by apply alloc_meta.
  - rewrite HB by (first [done|lia]). by rewrite Z.eqb_refl.
  - intros _ _. rewrite allocated_zero. split_and!; try done; try apply Ha. apply absorb_in.
  - intros j Hj Hu. rewrite (allocated_used sb dstart Hly) by (first [done|lia]). by rewrite Hu, orb_true_r.
  - intros k H1 H2 H3. apply allocated_other; [lia| |done]. intros ->. by apply H2.
  - left. by apply ind_set.
  - intros k Hk. by apply absorb_sub, absorb_sub.
  - rewrite (flag_false (blockno view i bn <> 0)) by lia. rewrite (pot_same sb _ i) by (by apply ind_set).
    pose proof (pot_absorb sb i (absorb bs bm) a). pose proof (pot_bm sb i bs). pose proof (flag_le (a ∈ absorb bs bm)). lia.
Qed.

(** The view after entry [bn] of the indirect block is set to [a]. *)
Definition entry_set view i bn a : Z -> block :=
  fupd (allocated view a) (ind i) (bst 4 (allocated view a (ind i)) (Z.to_nat (4 * (bn - NDIRECT))) a).

Lemma entry_blockno view i bn a bn' :
  (forall k, block_ok (view k)) -> ind i <> 0 -> allocated view a (ind i) = view (ind i) -> 0 <= a < 2 ^ 32 ->
  NDIRECT <= bn < MAXFILE -> 0 <= bn' < MAXFILE ->
  blockno (entry_set view i bn a) i bn' = if bn' =? bn then a else blockno view i bn'.
Proof.
  intros Hok Hi Hv Ha Hb Hb'. unfold blockno, entry_set, NDIRECT in *. change MAXFILE with 268 in *.
  rewrite fupd_eq, Hv. destruct (Hok (ind i)) as [Hl _].
  destruct (Z.ltb_spec bn' 12); [by replace (bn' =? bn) with false by lia|].
  destruct (Z.eqb_spec (ind i) 0); [done|]. destruct (Z.eqb_spec bn' bn) as [->|Hne].
  - rewrite bld_bst_eq by lia. by apply Z.mod_small.
  - apply bld_bst_ne. lia.
Qed.

Lemma entry_used view i bn a j :
  (forall k, block_ok (view k)) -> ind i <> 0 -> data_block (ind i) -> data_block a -> used view a = false ->
  0 <= j < sb_size sb -> used (entry_set view i bn a) j = (j =? a) || used view j.
Proof.
  intros Hok Hi Di Da Hf Hj. rewrite <- (allocated_used sb dstart Hly) by done.
  unfold FsBlock.used, entry_set. rewrite fupd_ne; [done|].
  rewrite BBLOCK_one by done. pose proof (data_ne_bm _ Di). done.
Qed.

Lemma bmapped_entry view i bs bn a :
  (forall k, block_ok (view k)) -> iwf view i -> meta_used sb dstart view -> NDIRECT <= bn < MAXFILE -> ind i <> 0 ->
  blockno view i bn = 0 -> data_block a -> a <> 0 -> used view a = false ->
  bmapped view i bs (entry_set view i bn a) i (absorb (absorb (absorb bs bm) a) (ind i)) bn a.
Proof.
  intros Hok W Hm Hb Hi H0 Ha Hnz Hf. pose proof W as [W1 W2 W3 W4]. destruct (W4 Hi) as (Di & Ui & Ni).
  pose proof (data_pos sb dstart Hly a Ha) as Hap. pose proof (ly_size _ _ Hly) as [_ Hsz].
  destruct (alloc_used view a (ind i) Hok Ha Hf Di Ui) as (Ui' & Hia & Hv).
  assert (0 <= bn) by (unfold NDIRECT in Hb; lia).
  pose proof (fun bn' => entry_blockno view i bn a bn' Hok Hi Hv ltac:(lia) Hb) as HB.
  pose proof (fun j => entry_used view i bn a j Hok Hi Di Ha Hf) as HU.
  assert (forall j, 0 <= j < sb_size sb -> used view j = true -> used (entry_set view i bn a) j = true) as Hmono.
  { intros j Hj Hu. rewrite HU by done. by rewrite Hu, orb_true_r. }
  assert (forall bn', 0 <= bn' < MAXFILE -> bn' <> bn -> blockno (entry_set view i bn a) i bn' = blockno view i bn') as Hoth.
  { intros bn' Hbn' Hne. rewrite HB by done. by replace (bn' =? bn) with false by lia. }
  assert (blockno (entry_set view i bn a) i bn = a) as Hat by (rewrite HB by lia; by rewrite Z.eqb_refl).
  split; try done.
  - apply (iwf_extend view _ i i bn a); try done; try lia.
    + rewrite HU by lia. by rewrite Z.eqb_refl.
    + intros k Hk Hu. apply Hmono; [|done]. pose proof (data_pos sb dstart Hly k Hk). lia.
    + intros _. pose proof (data_pos sb dstart Hly _ Di). split_and!; try done; try apply Di. apply Hmono; [lia|done].
  - intros b Hbb. apply Hmono; [lia|]. by apply Hm.
  - by destruct i.
  - intros _ _. unfold entry_set. rewrite fupd_ne by done. rewrite allocated_zero.
    split_and!; try done; try apply Ha. apply absorb_sub, absorb_in.
  - intros k H1 H2 H3. unfold entry_set. rewrite fupd_ne by done. apply allocated_other; [lia| |done]. intros ->. by apply H2.
  - by left.
  - intros k Hk. by repeat apply absorb_sub.
  - rewrite (flag_false (blockno view i bn <> 0)) by lia.
    pose proof (pot_ind sb i (absorb (absorb bs bm) a) Hi). pose proof (pot_absorb sb i (absorb bs bm) a).
    pose proof (pot_bm sb i bs). pose proof (flag_le (a ∈ absorb bs bm)). lia.
Qed.

(** The indirect block itself is allocated. *)
Lemma ind_alloc view i bs x :
  (forall k, block_ok (view k)) -> iwf view i -> meta_used sb dstart view -> ind i = 0 ->
  data_block x -> x <> 0 -> used view x = false ->
  let i' := set_addr 12 x i in let view' := allocated view x in
  iwf view' i' /\ ind i' = x /\ (forall bn, 0 <= bn < MAXFILE -> blockno view' i' bn = blockno view i bn) /\
  (pot i' (absorb (absorb bs bm) x) <= pot i bs)%nat.
Proof.
  intros Hok [W1 W2 W3 W4] Hm Hi Hx Hnz Hf i' view'.
  assert (ind i' = x) as Ei.
  { unfold ind, i'. cbn. rewrite nth_lookup, list_lookup_insert_eq by lia. done. }
  assert (forall bn, 0 <= bn < MAXFILE -> blockno view' i' bn = blockno view i bn) as HB.
  { intros bn Hbn. unfold blockno. rewrite Ei, Hi. destruct (Z.ltb_spec bn NDIRECT) as [Hd|Hd]; unfold NDIRECT in *.
    - unfold i'. cbn. by rewrite !nth_lookup, list_lookup_insert_ne by lia.
    - rewrite Z.eqb_refl. destruct (Z.eqb_spec x 0); [done|]. unfold view'. rewrite allocated_zero. apply bld_zero. }
  assert (forall bn, 0 <= bn < MAXFILE -> blockno view i bn <> x) as Hne.
  { intros bn Hbn E. destruct (W2 bn Hbn) as [_ Hu]; [congruence|]. congruence. }
  assert (used view' x = true) as Hux.
  { pose proof (data_pos sb dstart Hly x Hx). unfold view'. rewrite (allocated_used sb dstart Hly) by (first [done|lia]). by rewrite Z.eqb_refl. }
  split_and!; [split|done|done|].
  - unfold i'. cbn. by rewrite length_insert.
  - intros bn Hbn Hn. rewrite HB in * by done. destruct (W2 bn Hbn Hn). split; [done|]. by apply (alloc_used view x).
  - intros bn bn' H1 H2 Hn E. rewrite !HB in * by done. by apply W3.
  - rewrite Ei. intros _. split; [done|]. split; [done|]. intros bn Hbn. rewrite HB by done. by apply Hne.
  - rewrite <- Ei at 1. etransitivity; [apply (pot_new sb i i' (absorb bs bm) Hi); congruence|]. apply pot_bm.
Qed.

Lemma bmapped_via_ind view i bs x view' i' bs' bn a :
  (forall k, block_ok (view k)) -> iwf view i -> meta_used sb dstart view -> ind i = 0 -> NDIRECT <= bn < MAXFILE ->
  data_block x -> x <> 0 -> used view x = false ->
  bmapped (allocated view x) (set_addr 12 x i) (absorb (absorb bs bm) x) view' i' bs' bn a ->
  bmapped view i bs view' i' bs' bn a.
Proof.
  intros Hok W Hm Hi Hb Hx Hnz Hf [P1 P2 P3 P4 P5 P6 P7 P8 P9 P10 P13 P11 P12].
  destruct (ind_alloc view i bs x Hok W Hm Hi Hx Hnz Hf) as (W1 & Ei & HB & Hp).
  pose proof (data_pos sb dstart Hly x Hx) as Hxp.
  assert (0 <= bn) by (unfold NDIRECT in Hb; lia).
  assert (blockno view i bn = 0) as H0.
  { unfold blockno. replace (bn <? NDIRECT) with false by lia. by rewrite Hi. }
  assert (forall j, 0 <= j < sb_size sb -> used (allocated view x) j = (j =? x) || used view j) as HU
    by (intros; by apply (allocated_used sb dstart Hly)).
  split; try done.
  - intros bn' Hbn' Hne. rewrite P5 by done. by apply HB.
  - intros _ Ha. rewrite HB in P7 by lia. destruct (P7 H0 Ha) as (Z1 & Z2 & Z3 & Z4). split_and!; try done; try apply Z3.
    pose proof (data_pos sb dstart Hly a Z3). rewrite HU in Z2 by lia. apply orb_false_iff in Z2. tauto.
  - intros j Hj Hu. apply P9; [done|]. rewrite HU by done. by rewrite Hu, orb_true_r.
  - intros k H1 H2 H3. assert (k <> x) by (intros ->; by apply H2).
    rewrite P10; [apply allocated_other; try done; lia|done| |by rewrite Ei].
    intros [Dk Uk]. apply H2. split; [done|]. pose proof (data_pos sb dstart Hly k Dk).
    rewrite HU in Uk by lia. apply orb_false_iff in Uk. tauto.
  - destruct P13 as [->|[E _]]; [right; by rewrite Ei|congruence].
  - intros k Hk. by apply P11, absorb_sub, absorb_sub.
  - rewrite HB in P12 by lia. lia.
Qed.

(** Failure: no block is free. *)
Lemma bmapped_fail view i bs bn :
  iwf view i -> meta_used sb dstart view -> blockno view i bn = 0 ->
  (forall j, 0 <= j < sb_size sb -> used view j = true) -> bmapped view i bs view i bs bn 0.
Proof. intros. split; try done; try lia. by destruct i. Qed.

Lemma addr_run ip k s i : f_itable s !! ip = Some i -> addr ip k s = Ret (nth k (i_addrs i) 0, s).
Proof. intros H. exact (ifield_run ip (fun i => nth k (i_addrs i) 0) s i H). Qed.

(** The indirect block exists. *)
Definition bmap_entry (bn a : Z) : M (fstate St Mem) Z :=
  bp <~ bread ROOTDEV a ;;
  d <~ bget_data bp ;;
  let a := bld 4 d (Z.to_nat (4 * (bn - NDIRECT))) in
  a <~ (if a =? 0 then
          a <~ balloc ROOTDEV ;;
          if negb (a =? 0) then
            d <~ bget_data bp ;;
            bset_data bp (bst 4 d (Z.to_nat (4 * (bn - NDIRECT))) a) ;;; lg (log_write bp) ;;; kret a
          else kret a
        else kret a) ;;
  brelse bp ;;; kret a.

Lemma nheld_one (b : nat) (k j : Z) : nheld {[b := k]} j = if decide (j = k) then 1%nat else 0%nat.
Proof.
  change {[b := k]} with (<[b := k]> (∅ : gmap nat Z)).
  rewrite nheld_insert by (first [done|apply nheld_empty]). by rewrite nheld_empty.
Qed.

Lemma bmap_entry_ok s view bs i bn :
  fok s view ∅ bs -> meta_used sb dstart view -> iwf view i -> ind i <> 0 -> NDIRECT <= bn < MAXFILE ->
  Z.of_nat (length bs) + 4 < NBUF ->
  exists a s' view' bs', bmap_entry bn (ind i) s = Ret (a, s') /\ same s s' /\ fok s' view' ∅ bs' /\
    bmapped view i bs view' i bs' bn a.
Proof.
  intros F Hm W Hi Hb Hr. destruct (iw_ind _ _ W Hi) as (Di & Ui & _).
  assert (NBUF = 30 /\ LOGBLOCKS = 30) as [EN EL] by done.
  destruct (open_block sb dstart disk tr Hly s view ∅ bs (ind i) F) as (p & s1 & H1 & Hd & Hp & S1 & F1 & (s2 & H2 & S2 & F2) & _);
    [by apply (data_fs sb dstart)|apply nheld_empty|unfold room; rewrite map_size_empty; lia|].
  assert (blockno view i bn = bld 4 (view (ind i)) (Z.to_nat (4 * (bn - NDIRECT)))) as EB.
  { unfold blockno. replace (bn <? NDIRECT) with false by lia. by replace (ind i =? 0) with false by lia. }
  unfold bmap_entry. rewrite (kbind_ret _ _ _ _ _ H1), (kbind_ret _ _ _ _ _ Hd). cbv zeta. rewrite <- EB.
  destruct (Z.eqb_spec (blockno view i bn) 0) as [E0|E0].
  2:{ unfold kbind at 1, kret at 1. rewrite (kbind_ret _ _ _ _ _ H2).
      exists (blockno view i bn), s2, view, bs. split_and!; try done. by apply bmapped_id. }
  destruct (alloc_run s1 view {[p := ind i]} bs F1 Hm) as (a & s3 & H3 & S3 & Hres).
  { intros k Hk. rewrite nheld_one in Hk. case_decide; [by subst|done]. }
  { rewrite map_size_singleton. lia. }
  pose proof (lookup_insert_eq (∅ : gmap nat Z) p (ind i)) as Hpk.
  rewrite <- !kbind_assoc. rewrite (kbind_ret _ _ _ _ _ H3).
  destruct Hres as [(-> & F3 & Hfull)|(Da & Hnz & Hf & F3)].
  - cbn [Z.eqb negb]. unfold kbind at 1, kret at 1.
    destruct (f_relse sb disk tr s3 view _ bs p (ind i) F3 Hpk) as (s4 & H4 & S4 & F4).
    { apply (clean_block sb disk tr s view ∅ bs); [done|apply nheld_empty]. }
    rewrite (kbind_ret _ _ _ _ _ H4), delete_singleton_eq in *. exists 0, s4, view, bs. split_and!; [done| |done|by apply bmapped_fail].
    eapply same_trans; [exact S1|]. by eapply same_trans.
  - replace (a =? 0) with false by lia. cbn [negb]. rewrite <- !kbind_assoc.
    rewrite (kbind_ret _ _ _ _ _ (f_data sb disk tr _ _ _ _ _ _ F3 Hpk)). rewrite <- !kbind_assoc.
    destruct (f_set sb disk tr s3 _ _ _ p (ind i) (bst 4 (allocated view a (ind i)) (Z.to_nat (4 * (bn - NDIRECT))) a) F3 Hpk)
      as (s4 & H4 & S4 & F4); [apply bst_ok; by eapply fok_block_ok|].
    rewrite (kbind_ret _ _ _ _ _ H4). rewrite <- !kbind_assoc.
    pose proof (absorb_length (absorb bs bm) a) as Q1. pose proof (absorb_length bs bm) as Q2.
    pose proof (flag_le (bm ∈ bs)) as Q3. pose proof (flag_le (a ∈ absorb bs bm)) as Q4.
    destruct (f_log_write sb dstart disk tr Hly s4 _ _ _ p (ind i) F4 Hpk) as (s5 & H5 & S5 & F5);
      [by apply (data_fs sb dstart)|lia|].
    rewrite (kbind_ret _ _ _ _ _ H5). unfold kbind at 1, kret at 1.
    destruct (f_relse sb disk tr s5 _ _ _ p (ind i) F5 Hpk) as (s6 & H6 & S6 & F6); [left; apply absorb_in|].
    rewrite (kbind_ret _ _ _ _ _ H6). rewrite delete_singleton_eq in F6.
    eexists a, s6, _, _. split_and!; [done| |exact F6|].
    + exact (same_trans _ _ _ S1 (same_trans _ _ _ S3 (same_trans _ _ _ S4 (same_trans _ _ _ S5 S6)))).
    + apply bmapped_entry; try done. intros k. by eapply fok_block_ok.
Qed.

Lemma bmap_ok s view bs ip i bn :
  fok s view ∅ bs -> meta_used sb dstart view -> iwf view i -> f_itable s !! ip = Some i -> i_dev i = ROOTDEV ->
  0 <= bn < MAXFILE -> Z.of_nat (pot i bs) + 4 < NBUF ->
  exists a s' view' i' bs', bmap ip bn s = Ret (a, s') /\ upd_inode ip i' s s' /\ fok s' view' ∅ bs' /\
    bmapped view i bs view' i' bs' bn a.
Proof.
  intros F Hm W Hip Hdev Hb Hr. assert (NBUF = 30 /\ LOGBLOCKS = 30) as [EN EL] by done.
  pose proof (fun k => fok_block_ok sb disk tr s view ∅ bs k F) as Hok. pose proof (pot_length sb i bs) as Hpl.
  assert (forall k, nheld ∅ k <> 0%nat -> data_block k /\ used view k = true) as Hh by (intros k; by rewrite nheld_empty).
  unfold bmap. rewrite (kbind_ret _ _ _ _ _ (ifield_run ip i_dev s i Hip)), Hdev.
  destruct (Z.ltb_spec bn NDIRECT) as [Hd|Hd].
  - rewrite (kbind_ret _ _ _ _ _ (addr_run ip _ s i Hip)).
    assert (blockno view i bn = nth (Z.to_nat bn) (i_addrs i) 0) as EB.
    { unfold blockno. by replace (bn <? NDIRECT) with true by lia. }
    rewrite <- EB. destruct (Z.eqb_spec (blockno view i bn) 0) as [E0|E0].
    2:{ exists (blockno view i bn), s, view, i, bs.
        split_and!; [done|apply upd_same; [done|apply same_refl]|done|by apply bmapped_id]. }
    destruct (alloc_run s view ∅ bs F Hm Hh) as (a & s1 & H1 & S1 & Hres); [rewrite map_size_empty; lia|].
    rewrite (kbind_ret _ _ _ _ _ H1). destruct Hres as [(-> & F1 & Hfull)|(Da & Hnz & Hf & F1)].
    + exists 0, s1, view, i, bs. split_and!; [done|by apply upd_same|done|by apply bmapped_fail].
    + replace (a =? 0) with false by lia.
      assert (f_itable s1 !! ip = Some i) as Hip1 by (by rewrite (proj1 (same_table _ _ S1))).
      destruct (updi_run ip (set_addr (Z.to_nat bn) a) s1 i _ _ _ Hip1 F1) as (s2 & H2 & U2 & F2).
      rewrite (kbind_ret _ _ _ _ _ H2). eexists a, s2, _, _, _. split_and!; [done|by eapply upd_same_l|exact F2|].
      apply bmapped_direct; try done; lia.
  - replace (bn - NDIRECT <? NINDIRECT) with true by (symmetry; apply Z.ltb_lt; change MAXFILE with 268 in Hb;
      unfold NDIRECT; change NINDIRECT with 256; lia).
    rewrite (kbind_ret _ _ _ _ _ (addr_run ip 12 s i Hip)). fold (ind i).
    destruct (Z.eqb_spec (ind i) 0) as [E0|E0].
    2:{ unfold kbind at 1, kret at 1. replace (ind i =? 0) with false by lia.
        destruct (bmap_entry_ok s view bs i bn F Hm W E0 (conj Hd (proj2 Hb))) as (a & s' & view' & bs' & H' & S' & F' & P'); [lia|].
        exists a, s', view', i, bs'. split_and!; [exact H'|by apply upd_same|done|done]. }
    destruct (alloc_run s view ∅ bs F Hm Hh) as (x & s1 & H1 & S1 & Hres); [rewrite map_size_empty; lia|].
    rewrite <- kbind_assoc. rewrite (kbind_ret _ _ _ _ _ H1). destruct Hres as [(-> & F1 & Hfull)|(Dx & Hnz & Hf & F1)].
    + cbn [Z.eqb]. unfold kbind at 1, kret at 1. exists 0, s1, view, i, bs.
      split_and!; [done|by apply upd_same|done|]. apply bmapped_fail; try done.
      unfold blockno. replace (bn <? NDIRECT) with false by lia. by rewrite E0.
    + replace (x =? 0) with false by lia. rewrite <- kbind_assoc.
      assert (f_itable s1 !! ip = Some i) as Hip1 by (by rewrite (proj1 (same_table _ _ S1))).
      destruct (updi_run ip (set_addr 12 x) s1 i _ _ _ Hip1 F1) as (s2 & H2 & U2 & F2).
      rewrite (kbind_ret _ _ _ _ _ H2). unfold kbind at 1, kret at 1. replace (x =? 0) with false by lia.
      destruct (ind_alloc view i bs x Hok W Hm E0 Dx Hnz Hf) as (W1 & Ei & HB & Hp).
      pose proof (pot_length sb (set_addr 12 x i) (absorb (absorb bs bm) x)) as Hpl'.
      destruct (bmap_entry_ok s2 (allocated view x) (absorb (absorb bs bm) x) (set_addr 12 x i) bn F2)
        as (a & s' & view' & bs' & H' & S' & F' & P'); [by apply alloc_meta|done|by rewrite Ei|lia|lia|].
      rewrite Ei in H'. exists a, s', view', (set_addr 12 x i), bs'. split_and!; [exact H'| |done|].
      * eapply upd_same_r; [|exact S']. by eapply upd_same_l.
      * by apply (bmapped_via_ind view i bs x); try lia.
Qed.
End map.
