(* ===== verification/FsData.v ===== *)
(** * File contents: [readi] and [writei] *)
From S2P Require Import Prelude Machine Spinlock Blocks Log LogProof LogCrash LogTxn Fs FsBase FsBlock FsMap.

Section data.
Context {St Mem : Type} `{!BlockIO St} `{!BlockLaws St} `{!UserMem Mem}.
Context (sb : superblock) (dstart : Z) (disk : Z -> block) (tr : list (Z * block)).
Hypothesis Hly : layout sb dstart.
Hypothesis Hone : sb_size sb <= BPB.
Implicit Types (s : fstate St Mem) (view : Z -> block) (held : gmap nat Z) (bs : list Z) (i : inode).

Abbreviation fok := (fok sb disk tr).
Abbreviation used := (used sb).
Abbreviation data_block := (data_block sb dstart).
Abbreviation iwf := (iwf sb dstart).
Abbreviation pot := (pot sb).
Abbreviation bmapped := (bmapped sb dstart).
Abbreviation bm := (sb_bmapstart sb).

(** The bytes of a file. *)
Definition byte view i (k : Z) : Z := nth (Z.to_nat (k mod BSIZE)) (view (blockno view i (k / BSIZE))) 0.
Definition slice view i (off n : Z) : list Z := byte view i <$> seqZ off n.
Definition contents view i : list Z := slice view i 0 (i_size i).
(** Every block up to the size is there. *)
Definition full view i : Prop :=
  0 <= i_size i <= MAXFILE * BSIZE /\
  forall bn, 0 <= bn -> bn * BSIZE < i_size i -> blockno view i bn <> 0.

Lemma slice_length view i off n : length (slice view i off n) = Z.to_nat n.
Proof. unfold slice. by rewrite length_fmap, length_seqZ. Qed.

Lemma slice_app view i off m n : 0 <= m -> 0 <= n -> slice view i off (m + n) = slice view i off m ++ slice view i (off + m) n.
Proof. intros. unfold slice. by rewrite seqZ_app, fmap_app by lia. Qed.

Lemma contents_slice view i off n :
  0 <= off -> 0 <= n -> off + n <= i_size i -> take (Z.to_nat n) (drop (Z.to_nat off) (contents view i)) = slice view i off n.
Proof.
  intros. unfold contents. replace (i_size i) with (off + (n + (i_size i - off - n))) by lia.
  rewrite slice_app by lia. rewrite drop_app_length' by (rewrite slice_length; lia).
  rewrite Z.add_0_l, slice_app by lia. by rewrite take_app_length' by (rewrite slice_length; lia).
Qed.

(** The part of one block. *)
Lemma chunk_slice view i off m :
  0 <= off -> 0 <= m <= BSIZE - off mod BSIZE -> length (view (blockno view i (off / BSIZE))) = 1024%nat ->
  take (Z.to_nat m) (drop (Z.to_nat (off mod BSIZE)) (view (blockno view i (off / BSIZE)))) = slice view i off m.
Proof.
  intros Ho Hm Hl. apply list_eq. intros j. unfold slice. unfold BSIZE in *.
  assert (0 <= off mod 1024 < 1024) by (apply Z.mod_pos_bound; lia).
  destruct (decide (j < Z.to_nat m)%nat) as [Hj|Hj].
  - rewrite lookup_take_lt by done. rewrite lookup_drop, list_lookup_fmap.
    rewrite (proj2 (lookup_seqZ off m j (off + Z.of_nat j))) by lia. cbn [fmap option_fmap option_map].
    unfold byte, BSIZE. replace ((off + Z.of_nat j) / 1024) with (off / 1024) by dlia.
    replace ((off + Z.of_nat j) mod 1024) with (off mod 1024 + Z.of_nat j) by dlia.
    rewrite nth_lookup. replace (Z.to_nat (off mod 1024 + Z.of_nat j)) with (Z.to_nat (off mod 1024) + j)%nat by lia.
    destruct (lookup_lt_is_Some_2 (view (blockno view i (off / 1024))) (Z.to_nat (off mod 1024) + j)) as [x Hx]; [lia|].
    by rewrite Hx.
  - rewrite !lookup_ge_None_2; [done| |].
    + rewrite length_fmap, length_seqZ. lia.
    + rewrite length_take. lia.
Qed.

(** ** Reading *)

(** Where the bytes of [readi] go: [P acc] holds of user memory when [acc] has
    been delivered. *)
Definition sink (user : bool) (dst : Z) (P : list Z -> Mem -> Prop) (total : list Z) : Prop :=
  forall acc bytes mem, P acc mem -> (acc ++ bytes) `prefix_of` total -> bytes <> [] ->
    exists mem', (if user then um_copyout (u64 (dst + Z.of_nat (length acc))) bytes mem = Ret (0, mem') else mem' = mem) /\
      P (acc ++ bytes) mem'.

Definition set_mem (m : Mem) s : fstate St Mem := mkF (f_log s) (f_sb s) (f_itable s) m (f_pid s) (f_cwd s).
Definition same_mem s s' : Prop := s' = mkF (f_log s') (f_sb s) (f_itable s) (f_mem s') (f_pid s) (f_cwd s).

Lemma same_mem_trans s1 s2 s3 : same_mem s1 s2 -> same_mem s2 s3 -> same_mem s1 s3.
Proof. unfold same_mem. intros -> ->. done. Qed.
Lemma same_same_mem s1 s2 : same s1 s2 -> same_mem s1 s2.
Proof. unfold same, wl, same_mem. intros ->. done. Qed.
Lemma fok_mem s view held bs m : fok s view held bs -> fok (set_mem m s) view held bs.
Proof. intros [T1 T2 T3 T4]. by split. Qed.

Lemma either_copyout_run user dst P total acc bytes s :
  sink user dst P total -> P acc (f_mem s) -> (acc ++ bytes) `prefix_of` total -> bytes <> [] ->
  exists mem, either_copyout user (u64 (dst + Z.of_nat (length acc))) bytes s = Ret (0, set_mem mem s) /\ P (acc ++ bytes) mem.
Proof.
  intros Hs Hp Hpre Hne. destruct (Hs acc bytes (f_mem s) Hp Hpre Hne) as (mem & Hrun & HP). exists mem. split; [|done].
  unfold either_copyout. destruct user.
  - unfold umem. by rewrite Hrun.
  - subst mem. by destruct s.
Qed.

(** [bmap] on a block that exists. *)
Lemma bmap_there s view bs ip i bn :
  fok s view ∅ bs -> iwf view i -> f_itable s !! ip = Some i -> i_dev i = ROOTDEV ->
  0 <= bn < MAXFILE -> blockno view i bn <> 0 -> Z.of_nat (length bs) + 1 < NBUF ->
  exists s', bmap ip bn s = Ret (blockno view i bn, s') /\ same s s' /\ fok s' view ∅ bs.
Proof.
  intros F W Hip Hdev Hb Hnz Hr. unfold bmap. rewrite (kbind_ret _ _ _ _ _ (ifield_run ip i_dev s i Hip)), Hdev.
  unfold blockno in *. destruct (Z.ltb_spec bn NDIRECT) as [Hd|Hd].
  - rewrite (kbind_ret _ _ _ _ _ (addr_run ip _ s i Hip)).
    destruct (Z.eqb_spec (nth (Z.to_nat bn) (i_addrs i) 0) 0); [done|]. exists s. split_and!; [done|apply same_refl|done].
  - replace (bn - NDIRECT <? NINDIRECT) with true by (symmetry; apply Z.ltb_lt; change MAXFILE with 268 in Hb;
      unfold NDIRECT; change NINDIRECT with 256; lia).
    rewrite (kbind_ret _ _ _ _ _ (addr_run ip 12 s i Hip)). fold (ind i).
    destruct (Z.eqb_spec (ind i) 0) as [E0|E0]; [done|]. unfold kbind at 1, kret at 1.
    destruct (Z.eqb_spec (ind i) 0) as [|_]; [done|].
    destruct (iw_ind _ _ _ _ W E0) as (Di & _ & _).
    destruct (open_block sb dstart disk tr Hly s view ∅ bs (ind i) F) as (p & s1 & H1 & Hdt & _ & _ & _ & (s2 & H2 & S2 & F2) & _);
      [by apply (data_fs sb dstart)|apply nheld_empty|unfold room; rewrite map_size_empty; lia|].
    rewrite (kbind_ret _ _ _ _ _ H1), (kbind_ret _ _ _ _ _ Hdt). cbv zeta.
    destruct (Z.eqb_spec (bld 4 (view (ind i)) (Z.to_nat (4 * (bn - NDIRECT)))) 0); [done|].
    unfold kbind at 1, kret at 1. rewrite (kbind_ret _ _ _ _ _ H2). by exists s2.
Qed.

(** One round of the loop of [readi]. *)
Lemma read_chunk fuel ip i user dst0 P total s view bs off n tot acc :
  let m := Z.min (n - tot) (BSIZE - off mod BSIZE) in
  fok s view ∅ bs -> iwf view i -> f_itable s !! ip = Some i -> i_dev i = ROOTDEV -> full view i ->
  Z.of_nat (length bs) + 1 < NBUF -> sink user dst0 P total -> P acc (f_mem s) ->
  0 <= off -> tot < n -> off + (n - tot) <= i_size i -> tot = Z.of_nat (length acc) ->
  (acc ++ slice view i off m) `prefix_of` total ->
  exists s', readi_loop (S fuel) ip user (u64 (dst0 + tot)) off n tot acc s =
      readi_loop fuel ip user (u64 (dst0 + (tot + m))) (off + m) n (tot + m) (acc ++ slice view i off m) s' /\
    same_mem s s' /\ fok s' view ∅ bs /\ P (acc ++ slice view i off m) (f_mem s').
Proof.
  assert (BSIZE = 1024) as EB by done. assert (NBUF = 30) as EN by done.
  intros m F W Hip Hdev Hfull Hr Hs HP Ho Hlt Hsz Hacc Hpre.
  assert (m = Z.min (n - tot) (1024 - off mod 1024)) as Em by done. clearbody m.
  cbn [readi_loop]. replace (tot <? n) with true by lia.
  pose proof Hfull as [Hsz' Hmap]. change MAXFILE with 268 in Hsz'. rewrite EB in *.
  assert (0 <= off mod 1024 < 1024) as Hom by (apply Z.mod_pos_bound; lia).
  assert (0 <= off / 1024 < MAXFILE) as Hbn by (change MAXFILE with 268; dlia).
  assert (blockno view i (off / 1024) <> 0) as Hnz by (apply Hmap; dlia).
  destruct (bmap_there s view bs ip i (off / 1024) F W Hip Hdev Hbn Hnz Hr) as (s1 & H1 & S1 & F1).
  rewrite (kbind_ret _ _ _ _ _ H1). destruct (Z.eqb_spec (blockno view i (off / 1024)) 0); [done|].
  assert (f_itable s1 !! ip = Some i) as Hip1 by (by rewrite (proj1 (same_table _ _ S1))).
  rewrite (kbind_ret _ _ _ _ _ (ifield_run ip i_dev s1 i Hip1)), Hdev.
  destruct (iw_data _ _ _ _ W _ Hbn Hnz) as [Dk _].
  destruct (open_block sb dstart disk tr Hly s1 view ∅ bs _ F1 (data_fs sb dstart Hly _ Dk) (nheld_empty _))
    as (p & s2 & H2 & Hdt & Hp & S2 & F2 & _); [unfold room; rewrite map_size_empty; lia|].
  rewrite (kbind_ret _ _ _ _ _ H2), (kbind_ret _ _ _ _ _ Hdt). cbv zeta. rewrite <- Em.
  assert (0 < m /\ m <= n - tot /\ m <= 1024 - off mod 1024) as Hm by lia.
  pose proof (chunk_slice view i off m) as Hch. rewrite EB in Hch. rewrite Hch; [|lia|lia|by eapply fok_block_ok].
  assert (P acc (f_mem s2)) as HP2.
  { destruct (same_table _ _ S2) as (_ & -> & _). by destruct (same_table _ _ S1) as (_ & -> & _). }
  destruct (either_copyout_run user dst0 P total acc (slice view i off m) s2 Hs HP2 Hpre) as (mem & Hcp & HP3).
  { intros E. apply (f_equal length) in E. rewrite slice_length in E. cbn [length] in E. lia. }
  rewrite <- Hacc in Hcp. rewrite (kbind_ret _ _ _ _ _ Hcp). replace (0 =? -1) with false by done.
  apply (fok_mem _ _ _ _ mem) in F2.
  destruct (f_relse sb disk tr _ _ _ _ p _ F2 (lookup_insert_eq _ _ _)) as (s3 & H3 & S3 & F3).
  { apply (clean_block sb disk tr s view ∅ bs); [done|apply nheld_empty]. }
  rewrite (kbind_ret _ _ _ _ _ H3). rewrite delete_insert_id in F3 by done.
  replace (u64 (u64 (dst0 + tot) + m)) with (u64 (dst0 + (tot + m))) by (unfold u64; rewrite Z.add_mod_idemp_l by lia; f_equal; lia).
  rewrite (u32_small (off + m)) by lia. exists s3. split_and!; [done| |done|by destruct (same_table _ _ S3) as (_ & -> & _)].
  apply (same_mem_trans _ s1); [by apply same_same_mem|]. apply (same_mem_trans _ s2); [by apply same_same_mem|].
  apply (same_mem_trans _ (set_mem mem s2)); [done|by apply same_same_mem].
Qed.

Lemma same_mem_table s s' : same_mem s s' -> f_itable s' = f_itable s.
Proof. by intros ->. Qed.

Lemma readi_loop_ok fuel ip i user dst0 P s view bs off n tot acc :
  let total := acc ++ slice view i off (n - tot) in
  fok s view ∅ bs -> iwf view i -> f_itable s !! ip = Some i -> i_dev i = ROOTDEV -> full view i ->
  Z.of_nat (length bs) + 1 < NBUF -> sink user dst0 P total -> P acc (f_mem s) ->
  0 <= off -> tot <= n -> n < 2 ^ 31 -> off + (n - tot) <= i_size i -> tot = Z.of_nat (length acc) ->
  (0 < fuel)%nat -> (tot < n -> n - tot + off mod BSIZE <= (Z.of_nat fuel - 1) * BSIZE) ->
  exists s', readi_loop fuel ip user (u64 (dst0 + tot)) off n tot acc s = Ret ((n, total), s') /\
    same_mem s s' /\ fok s' view ∅ bs /\ P total (f_mem s').
Proof.
  assert (BSIZE = 1024) as EB by done.
  revert s off tot acc. induction fuel as [|fuel IH]; intros s off tot acc total F W Hip Hdev Hfull Hr Hs HP Ho Ht Hn Hsz Hacc Hf0 Hf; [lia|].
  destruct (Z.ltb_spec tot n) as [Hlt|Hge].
  2:{ cbn [readi_loop]. replace (tot <? n) with false by lia. assert (total = acc) as Et.
      { unfold total. replace (n - tot) with 0 by lia. unfold slice. rewrite seqZ_nil by lia. apply app_nil_r. }
      exists s. rewrite Et. replace tot with n by lia. rewrite i32_small by lia. split_and!; [done| |done|done]. by destruct s. }
  specialize (Hf Hlt). set (m := Z.min (n - tot) (BSIZE - off mod BSIZE)).
  assert (0 <= off mod 1024 < 1024) as Hom by (apply Z.mod_pos_bound; lia).
  assert (0 < m /\ m <= n - tot /\ m <= BSIZE - off mod BSIZE) as Hm by (unfold m; rewrite EB; lia).
  assert (total = (acc ++ slice view i off m) ++ slice view i (off + m) (n - tot - m)) as Etot.
  { unfold total. rewrite <- app_assoc, <- slice_app by lia. by replace (m + (n - tot - m)) with (n - tot) by lia. }
  destruct (read_chunk fuel ip i user dst0 P total s view bs off n tot acc) as (s1 & H1 & S1 & F1 & HP1); try done.
  { fold m. rewrite Etot. by apply prefix_app_r. }
  fold m in H1, HP1. rewrite H1. rewrite EB in Hf, Hm.
  assert (n - (tot + m) = n - tot - m) as En by lia.
  destruct (IH s1 (off + m) (tot + m) (acc ++ slice view i off m)) as (s' & Hrun & S' & F' & HP'); try done; try lia.
  - by rewrite (same_mem_table _ _ S1).
  - by rewrite En, <- Etot.
  - rewrite length_app, slice_length. lia.
  - intros Hlt'. assert (m = 1024 - off mod 1024) as Em by (unfold m in *; rewrite EB in *; lia). rewrite EB. dlia.
  - rewrite En, <- Etot in Hrun, HP'. exists s'. split_and!; [done|by eapply same_mem_trans|done|done].
Qed.

(** [readi] delivers the bytes of the file. *)
Lemma readi_ok ip i user dst P s view bs off n :
  let m := Z.min n (i_size i - off) in let total := slice view i off m in
  fok s view ∅ bs -> iwf view i -> f_itable s !! ip = Some i -> i_dev i = ROOTDEV -> full view i ->
  Z.of_nat (length bs) + 1 < NBUF -> sink user dst P total -> P [] (f_mem s) ->
  0 <= dst < 2 ^ 64 -> 0 <= off <= i_size i -> 0 <= n -> off + n < 2 ^ 32 ->
  exists s', readi ip user dst off n s = Ret ((m, total), s') /\
    same_mem s s' /\ fok s' view ∅ bs /\ P total (f_mem s').
Proof.
  intros m total F W Hip Hdev Hfull Hr Hs HP Hd Ho Hn Hon. pose proof Hfull as [Hsz _]. change MAXFILE with 268 in Hsz.
  assert (BSIZE = 1024) as EB by done. rewrite EB in Hsz.
  unfold readi. rewrite (kbind_ret _ _ _ _ _ (ifield_run ip i_size s i Hip)).
  rewrite !(u32_small (off + n)) by lia. replace (i_size i <? off) with false by lia. replace (off + n <? off) with false by lia.
  cbn [orb]. assert ((if i_size i <? off + n then u32 (i_size i - off) else n) = m) as ->.
  { unfold m. destruct (Z.ltb_spec (i_size i) (off + n)); [rewrite u32_small by lia|]; lia. }
  pose proof (readi_loop_ok (Z.to_nat (m / BSIZE) + 3) ip i user dst P s view bs off m 0 []) as H.
  rewrite Z.sub_0_r, Z.add_0_r, (u64_small dst) in H by lia. apply H; try done; try (unfold m; lia).
  intros _. assert (0 <= m) by (unfold m; lia). rewrite EB. assert (0 <= m / 1024) by (apply Z.div_pos; lia).
  assert (0 <= off mod 1024 < 1024) by (apply Z.mod_pos_bound; lia). dlia.
Qed.
End data.
