(* ===== verification/FsWrite.v ===== *)
(** * [writei]: a file updated in place and extended *)
From S2P Require Import Prelude Machine Spinlock Blocks Log LogProof LogCrash LogTxn Fs FsBase FsBlock FsMap FsData.

Section write.
Context {St Mem : Type} `{!BlockIO St} `{!BlockLaws St} `{!UserMem Mem}.
Context (sb : superblock) (dstart : Z) (disk : Z -> block) (tr : list (Z * block)).
Hypothesis Hly : layout sb dstart.
Hypothesis Hone : sb_size sb <= BPB.
Implicit Types (s : fstate St Mem) (view : Z -> block) (held : gmap nat Z) (bs : list Z) (i : inode).

Abbreviation fok := (fok sb disk tr).
Abbreviation used := (used sb).
Abbreviation data_block := (data_block sb dstart).
Abbreviation iwf := (iwf sb dstart).
Abbreviation pot := (pot sb).
Abbreviation bmapped := (bmapped sb dstart).
Abbreviation bm := (sb_bmapstart sb).

(** [view] and [i] are [view0] and [i0] after [data] was written at [off]. *)
Record wrote view0 i0 view i (off : Z) (data : list Z) : Prop := {
  wr_wf : iwf view i;
  wr_meta : meta_used sb dstart view;
  wr_inode : i = mkInode (i_dev i0) (i_inum i0) (i_ref i0) (i_lock i0) (i_valid i0) (i_type i0) (i_major i0)
               (i_minor i0) (i_nlink i0) (i_size i0) (i_addrs i);
  wr_new : forall k, off <= k < off + Z.of_nat (length data) ->
    byte view i k = nth (Z.to_nat (k - off)) data 0 /\ blockno view i (k / BSIZE) <> 0;
  wr_old : forall k, 0 <= k < MAXFILE * BSIZE -> ~ (off <= k < off + Z.of_nat (length data)) ->
    blockno view0 i0 (k / BSIZE) <> 0 ->
    blockno view i (k / BSIZE) = blockno view0 i0 (k / BSIZE) /\ byte view i k = byte view0 i0 k;
  wr_used : forall j, 0 <= j < sb_size sb -> used view0 j = true -> used view j = true;
  wr_ind : ind i = ind i0 \/ (ind i0 = 0 /\ used view0 (ind i) = false);
  wr_fresh : forall bn, 0 <= bn < MAXFILE -> blockno view i bn <> 0 ->
    blockno view i bn = blockno view0 i0 bn \/ used view0 (blockno view i bn) = false;
  wr_frame : forall k, k <> bm -> ~ (data_block k /\ used view0 k = false) -> k <> ind i0 ->
    (forall bn, 0 <= bn < MAXFILE -> blockno view0 i0 bn <> k) -> view k = view0 k }.

Lemma wrote_nil view i off : iwf view i -> meta_used sb dstart view -> wrote view i view i off [].
Proof. intros W Hm. split; try done; [by destruct i|cbn; intros; lia|by left|by left]. Qed.

(** A write into one of the inode's own blocks. *)
Lemma blockno_write view i bn d bn' :
  iwf view i -> 0 <= bn < MAXFILE -> blockno view i bn <> 0 ->
  blockno (fupd view (blockno view i bn) d) i bn' = blockno view i bn'.
Proof.
  intros W Hb Hnz. unfold blockno at 1 3. destruct (bn' <? NDIRECT); [done|].
  destruct (Z.eqb_spec (ind i) 0) as [|Hi]; [done|]. destruct (iw_ind _ _ _ _ W Hi) as (_ & _ & Hn).
  rewrite fupd_ne; [done|]. intros E. by apply (Hn bn Hb).
Qed.
Lemma used_write view k d j : data_block k -> 0 <= j < sb_size sb -> used (fupd view k d) j = used view j.
Proof.
  intros Hk Hj. unfold FsBlock.used. rewrite fupd_ne; [done|]. rewrite (BBLOCK_one sb dstart Hly Hone j Hj).
  intros E. by apply (data_ne_bm sb dstart Hly k).
Qed.
Lemma iwf_write view i bn d :
  iwf view i -> 0 <= bn < MAXFILE -> blockno view i bn <> 0 -> iwf (fupd view (blockno view i bn) d) i.
Proof.
  intros W Hb Hnz. destruct (iw_data _ _ _ _ W bn Hb Hnz) as [Dk _]. pose proof W as [W1 W2 W3 W4].
  assert (forall k, data_block k -> used view k = true -> used (fupd view (blockno view i bn) d) k = true) as HU.
  { intros k Hk Hu. pose proof (data_pos sb dstart Hly k Hk). rewrite used_write by (first [done|lia]). done. }
  split; [done| | |].
  - intros bn' Hb' Hn'. rewrite blockno_write in * by done. destruct (W2 bn' Hb' Hn'). split; [done|]. by apply HU.
  - intros bn' bn'' H1 H2. rewrite !blockno_write by done. by apply W3.
  - intros Hi. destruct (W4 Hi) as (D & U & N). split; [done|]. split; [by apply HU|].
    intros bn' Hb'. rewrite blockno_write by done. by apply N.
Qed.

(** The bytes after such a write. *)
Lemma byte_write view i bn o bytes k :
  iwf view i -> (forall k, block_ok (view k)) -> 0 <= bn < MAXFILE -> blockno view i bn <> 0 -> 0 <= k < MAXFILE * BSIZE ->
  0 <= o -> o + Z.of_nat (length bytes) <= BSIZE ->
  byte (fupd view (blockno view i bn) (splice (view (blockno view i bn)) (Z.to_nat o) bytes)) i k =
  if decide (bn * BSIZE + o <= k < bn * BSIZE + o + Z.of_nat (length bytes))
  then nth (Z.to_nat (k - (bn * BSIZE + o))) bytes 0 else byte view i k.
Proof.
  intros W Hok Hb Hnz Hk Ho Hl. unfold byte. rewrite blockno_write by done. unfold BSIZE in *.
  assert (length (view (blockno view i bn)) = 1024%nat) as Hlen by apply Hok.
  destruct (decide (k / 1024 = bn)) as [E|E].
  - rewrite E, fupd_eq, splice_nth by lia. repeat case_decide; try (exfalso; dlia).
    + f_equal. dlia.
    + done.
  - rewrite fupd_ne.
    + rewrite decide_False by (intros H; apply E; dlia). done.
    + intros Ek. apply E. symmetry. change MAXFILE with 268 in *.
      apply (iw_inj _ _ _ _ W); [done|change MAXFILE with 268; dlia|done|done].
Qed.

Lemma bmapped_byte view i bs view1 i1 bs1 bn a k :
  bmapped view i bs view1 i1 bs1 bn a -> iwf view i -> 0 <= k < MAXFILE * BSIZE -> blockno view i (k / BSIZE) <> 0 ->
  blockno view1 i1 (k / BSIZE) = blockno view i (k / BSIZE) /\ byte view1 i1 k = byte view i k.
Proof.
  intros B W Hk Hnz. assert (0 <= k / BSIZE < MAXFILE) as Hb by (unfold BSIZE in *; change MAXFILE with 268 in *; dlia).
  destruct (decide (k / BSIZE = bn)) as [E|E].
  - rewrite E in Hnz. by destruct (bp_old _ _ _ _ _ _ _ _ _ _ B Hnz) as (_ & -> & -> & _).
  - assert (blockno view1 i1 (k / BSIZE) = blockno view i (k / BSIZE)) as EB by (by apply (bp_other _ _ _ _ _ _ _ _ _ _ B)).
    split; [done|]. unfold byte. rewrite EB. f_equal. destruct (iw_data _ _ _ _ W _ Hb Hnz) as [Dk Uk].
    apply (bp_frame _ _ _ _ _ _ _ _ _ _ B); [by apply (data_ne_bm sb dstart Hly)|intros [_ ?]; congruence|].
    intros Ei. destruct (iw_ind _ _ _ _ W) as (_ & _ & N); [congruence|]. by apply (N _ Hb).
Qed.

Lemma wrote_bmap view0 i0 view i off data bs view1 i1 bs1 bn a :
  wrote view0 i0 view i off data -> bmapped view i bs view1 i1 bs1 bn a -> 0 <= bn < MAXFILE ->
  0 <= off -> off + Z.of_nat (length data) <= MAXFILE * BSIZE ->
  wrote view0 i0 view1 i1 off data.
Proof.
  intros [R1 R2 R3 R4 R5 R6 R7 R8 R9] B Hbn Ho Hl. pose proof B as [P1 P2 P3 P4 P5 P6 P7 P8 P9 P10 P11 P12 P13].
  assert (forall k, data_block k -> used view k = false -> used view0 k = false) as Hfree.
  { intros k Hk Hu. pose proof (data_pos sb dstart Hly k Hk). destruct (used view0 k) eqn:E; [|done].
    rewrite R6 in Hu by (first [done|lia]). discriminate Hu. }
  assert (ind i <> 0 -> data_block (ind i)) as Di by (intros Hi; by apply (iw_ind _ _ _ _ R1)).
  assert (ind i1 <> 0 -> data_block (ind i1)) as Di1 by (intros Hi; by apply (iw_ind _ _ _ _ P1)).
  split; try done.
  - rewrite P3, R3. done.
  - intros k Hk. destruct (R4 k Hk) as [E Hnz]. destruct (bmapped_byte _ _ _ _ _ _ _ _ k B R1) as [-> ->]; [lia|done|done].
  - intros k Hk Hn Hnz. destruct (R5 k Hk Hn Hnz) as [E1 E2].
    destruct (bmapped_byte _ _ _ _ _ _ _ _ k B R1) as [-> ->]; [done|congruence|done].
  - intros j Hj Hu. by apply P9, R6.
  - destruct P11 as [->|[E1 E2]]; [done|]. right.
    split; [by destruct R7 as [<-|[E _]]|]. destruct (decide (ind i1 = 0)) as [E0|E0].
    + assert (used view 0 = true) as Hu0; [|rewrite E0 in E2; congruence].
      apply R2. pose proof Hly as [L1 L2 L3 L4 L5 [L6 L7]]. pose proof (bm_bmap sb dstart Hly) as [Hb1 Hb2].
      unfold LOGBLOCKS, MAXOPBLOCKS, IPB, DINODE_SIZE, BSIZE in *.
      assert (0 <= sb_ninodes sb / (1024 / 64)) by (apply Z.div_pos; [lia|done]). lia.
    + by apply Hfree; [apply Di1|].
  - intros bn' Hb' Hnz'. destruct (decide (bn' = bn)) as [->|Hne].
    + destruct (decide (blockno view i bn = 0)) as [E0|E0].
      * assert (a <> 0) as Ha by congruence. rewrite P4.
        destruct (P7 E0 Ha) as (_ & Hu & Da & _). right. by apply Hfree.
      * destruct (P6 E0) as (_ & -> & -> & _). by apply R8.
    + rewrite P5 in * by done. by apply R8.
  - intros k H1 H2 H3 H4. rewrite P10; [by apply R9|done| |].
    + intros [Dk Uk]. apply H2. split; [done|]. by apply Hfree.
    + destruct R7 as [->|[E1 E2]]; [done|]. intros ->. destruct (decide (ind i = 0)) as [E0|E0]; [congruence|].
      apply H2. split; [by apply Di|done].
Qed.

Lemma wrote_chunk view0 i0 view i off data bytes :
  let k0 := off + Z.of_nat (length data) in let a := blockno view i (k0 / BSIZE) in
  wrote view0 i0 view i off data -> (forall k, block_ok (view k)) -> a <> 0 -> 0 <= off ->
  k0 + Z.of_nat (length bytes) <= MAXFILE * BSIZE -> bytes <> [] -> k0 mod BSIZE + Z.of_nat (length bytes) <= BSIZE ->
  wrote view0 i0 (fupd view a (splice (view a) (Z.to_nat (k0 mod BSIZE)) bytes)) i off (data ++ bytes).
Proof.
  intros k0 a R Hok Ha Ho Hl Hne Hm. pose proof R as [R1 R2 R3 R4 R5 R6 R7 R8 R9].
  assert (0 < length bytes)%nat as Hlb by (destruct bytes; [done|cbn; lia]).
  assert (0 <= k0 / BSIZE < MAXFILE) as Hbn by (unfold BSIZE in *; change MAXFILE with 268 in *; unfold k0 in *; dlia).
  destruct (iw_data _ _ _ _ R1 _ Hbn Ha) as [Da Ua]. fold a in Da, Ua.
  assert (forall k, 0 <= k < MAXFILE * BSIZE ->
    byte (fupd view a (splice (view a) (Z.to_nat (k0 mod BSIZE)) bytes)) i k =
    if decide (k0 <= k < k0 + Z.of_nat (length bytes)) then nth (Z.to_nat (k - k0)) bytes 0 else byte view i k) as HB.
  { intros k Hk. unfold a. rewrite byte_write; try done; [|apply Z.mod_pos_bound; done].
    replace (k0 / BSIZE * BSIZE + k0 mod BSIZE) with k0 by (unfold BSIZE; dlia). done. }
  assert (forall bn, blockno (fupd view a (splice (view a) (Z.to_nat (k0 mod BSIZE)) bytes)) i bn = blockno view i bn) as HN
    by (intros; by apply blockno_write).
  split; try done.
  - by apply iwf_write.
  - intros b Hb. pose proof (ly_size _ _ Hly) as [_ ?]. rewrite used_write by (first [done|lia]). by apply R2.
  - intros k Hk. rewrite length_app in Hk. rewrite HB, HN by (unfold k0 in *; lia). case_decide as E.
    + split; [|unfold a in Ha; replace (k / BSIZE) with (k0 / BSIZE); [done|unfold BSIZE in *; dlia]].
      rewrite app_nth2 by lia. f_equal. unfold k0. lia.
    + rewrite app_nth1 by lia. apply R4. unfold k0 in *. lia.
  - intros k Hk Hn Hnz. rewrite length_app in Hn. rewrite HN, HB by done. rewrite decide_False by (unfold k0; lia).
    apply R5; [done|lia|done].
  - intros j Hj Hu. rewrite used_write by done. by apply R6.
  - intros bn Hb. rewrite HN. by apply R8.
  - intros k H1 H2 H3 H4. rewrite fupd_ne; [by apply R9|]. intros ->.
    destruct (R8 _ Hbn Ha) as [E|E]; [by apply (H4 _ Hbn)|]. by apply H2.
Qed.

(** Where the bytes of [writei] come from; [Q] is an invariant of user memory. *)
Definition source (user : bool) (src : Z) (Q : Mem -> Prop) (total : list Z) : Prop :=
  forall pre bytes post mem, Q mem -> total = pre ++ bytes ++ post -> bytes <> [] ->
    exists mem', (if user then um_copyin (u64 (src + Z.of_nat (length pre))) (Z.of_nat (length bytes)) mem = Ret ((0, bytes), mem')
                  else mem' = mem) /\ Q mem'.

Lemma either_copyin_run user src Q total tot m s :
  source user src Q total -> Q (f_mem s) -> 0 <= tot -> 0 < m -> tot + m <= Z.of_nat (length total) ->
  exists mem, either_copyin user (u64 (src + tot)) (drop (Z.to_nat tot) total) m s =
      Ret ((0, take (Z.to_nat m) (drop (Z.to_nat tot) total)), set_mem mem s) /\ Q mem.
Proof.
  intros Hs HQ Ht Hm Hl. set (pre := take (Z.to_nat tot) total). set (bytes := take (Z.to_nat m) (drop (Z.to_nat tot) total)).
  assert (length bytes = Z.to_nat m) as Hb by (unfold bytes; rewrite length_take, length_drop; lia).
  destruct (Hs pre bytes (drop (Z.to_nat m) (drop (Z.to_nat tot) total)) (f_mem s) HQ) as (mem & Hrun & HQ').
  { unfold bytes, pre. by rewrite take_drop, take_drop. }
  { intros E. rewrite E in Hb. cbn in Hb. lia. }
  exists mem. split; [|done]. unfold either_copyin. destruct user.
  - unfold umem. rewrite Hb in Hrun. replace (Z.of_nat (length pre)) with tot in Hrun by (unfold pre; rewrite length_take; lia).
    rewrite Z2Nat.id in Hrun by lia. by rewrite Hrun.
  - subst mem. by destruct s.
Qed.

(** [s'] is [s] but for the log, inode [ip] and user memory. *)
Definition upd_mem (ip : nat) i s s' : Prop :=
  s' = mkF (f_log s') (f_sb s) (<[ip := i]> (f_itable s)) (f_mem s') (f_pid s) (f_cwd s).
Lemma upd_mem_trans ip i1 i2 s1 s2 s3 : upd_mem ip i1 s1 s2 -> upd_mem ip i2 s2 s3 -> upd_mem ip i2 s1 s3.
Proof. unfold upd_mem. intros -> ->. cbn. by rewrite list_insert_insert_eq. Qed.
Lemma upd_upd_mem ip i s s' : upd_inode ip i s s' -> upd_mem ip i s s'.
Proof. unfold upd_inode, upd_mem. intros ->. done. Qed.
Lemma same_mem_upd ip i s1 s2 s3 : upd_mem ip i s1 s2 -> same_mem s2 s3 -> upd_mem ip i s1 s3.
Proof. unfold same_mem, upd_mem. intros -> ->. done. Qed.

Lemma wrote_dev view0 i0 view i off data : wrote view0 i0 view i off data -> i_dev i = i_dev i0.
Proof. intros R. by rewrite (wr_inode _ _ _ _ _ _ R). Qed.

(** A chunk copied into block [a], logged and released. *)
Lemma put_chunk {A} (k1 k2 : M (fstate St Mem) A) user src0 Q total tot m o s view bs a :
  let bytes := take (Z.to_nat m) (drop (Z.to_nat tot) total) in
  fok s view ∅ bs -> data_block a -> source user src0 Q total -> Q (f_mem s) -> Forall (fun x => 0 <= x < 256) total ->
  0 <= tot -> 0 < m -> tot + m <= Z.of_nat (length total) -> 0 <= o -> o + m <= 1024 -> Z.of_nat (length bs) + 1 < NBUF ->
  exists s', (bp <~ bread ROOTDEV a ;;
      d <~ bget_data bp ;;
      rb <~ either_copyin user (u64 (src0 + tot)) (drop (Z.to_nat tot) total) m ;;
      let '(r, bytes) := rb in
      bset_data bp (splice d (Z.to_nat o) bytes) ;;;
      if r =? -1 then brelse bp ;;; k1 else lg (log_write bp) ;;; brelse bp ;;; k2) s = k2 s' /\
    same_mem s s' /\ Q (f_mem s') /\ fok s' (fupd view a (splice (view a) (Z.to_nat o) bytes)) ∅ (absorb bs a).
Proof.
  intros bytes F Da Hs HQ HF Ht Hm Hl Ho Hom Hr. assert (NBUF = 30 /\ LOGBLOCKS = 30) as (EN & EL) by done.
  assert (length bytes = Z.to_nat m) as Hlb by (unfold bytes; rewrite length_take, length_drop; lia).
  pose proof (data_fs sb dstart Hly a Da) as Hfsb.
  destruct (f_read sb dstart disk tr Hly s view ∅ bs a F Hfsb (nheld_empty _)) as (p & s2 & H2 & Hp & S2 & F2);
    [unfold room; rewrite map_size_empty; lia|].
  rewrite (kbind_ret _ _ _ _ _ H2). pose proof (lookup_insert_eq (∅ : gmap nat Z) p a) as Hpa.
  rewrite (kbind_ret _ _ _ _ _ (f_data _ _ _ _ _ _ _ _ _ F2 Hpa)).
  assert (Q (f_mem s2)) as HQ2 by (by destruct (same_table _ _ S2) as (_ & -> & _)).
  destruct (either_copyin_run user src0 Q total tot m s2 Hs HQ2) as (mem & Hcp & HQ3); [lia..|].
  rewrite (kbind_ret _ _ _ _ _ Hcp). apply (fok_mem _ _ _ _ _ _ _ mem) in F2. fold bytes.
  destruct (f_set sb disk tr (set_mem mem s2) view _ bs p a (splice (view a) (Z.to_nat o) bytes) F2 Hpa) as (s3 & H3 & S3 & F3).
  { apply splice_ok; [by eapply fok_block_ok|lia|]. unfold bytes. by apply Forall_take, Forall_drop. }
  rewrite (kbind_ret _ _ _ _ _ H3). replace (0 =? -1) with false by done.
  destruct (f_log_write sb dstart disk tr Hly s3 _ _ bs p a F3 Hpa Hfsb) as (s4 & H4 & S4 & F4); [lia|].
  destruct (f_relse sb disk tr s4 _ _ _ p a F4 Hpa) as (s5 & H5 & S5 & F5); [left; apply absorb_in|].
  rewrite (kbind_ret _ _ _ _ _ H4), (kbind_ret _ _ _ _ _ H5). rewrite delete_insert_id in F5 by done.
  pose proof (same_trans _ _ _ S3 (same_trans _ _ _ S4 S5)) as S.
  exists s5. split_and!; [done| |by destruct (same_table _ _ S) as (_ & -> & _)|done].
  apply (same_mem_trans _ s2); [by apply same_same_mem|]. apply (same_mem_trans _ (set_mem mem s2)); [done|by apply same_same_mem].
Qed.

(** One round of the loop: the disk is full, or a chunk is written. *)
Lemma write_round fuel ip user src0 Q total view0 i0 off0 s view i bs tot :
  let n := Z.of_nat (length total) in let off := off0 + tot in
  let m := Z.min (n - tot) (BSIZE - off mod BSIZE) in
  fok s view ∅ bs -> wrote view0 i0 view i off0 (take (Z.to_nat tot) total) -> f_itable s !! ip = Some i ->
  i_dev i0 = ROOTDEV -> source user src0 Q total -> Q (f_mem s) -> Forall (fun x => 0 <= x < 256) total ->
  0 <= tot < n -> 0 <= off0 -> off0 + n <= MAXFILE * BSIZE -> Z.of_nat (pot i bs) + 5 < NBUF ->
  exists s' view' i' bs', fok s' view' ∅ bs' /\ upd_mem ip i' s s' /\ Q (f_mem s') /\ (pot i' bs' <= pot i bs + 1)%nat /\
    ((writei_loop (S fuel) ip user (u64 (src0 + tot)) (drop (Z.to_nat tot) total) off n tot s = Ret ((tot, off), s') /\
      wrote view0 i0 view' i' off0 (take (Z.to_nat tot) total) /\ forall j, 0 <= j < sb_size sb -> used view' j = true) \/
     (writei_loop (S fuel) ip user (u64 (src0 + tot)) (drop (Z.to_nat tot) total) off n tot s =
        writei_loop fuel ip user (u64 (src0 + (tot + m))) (drop (Z.to_nat (tot + m)) total) (off + m) n (tot + m) s' /\
      wrote view0 i0 view' i' off0 (take (Z.to_nat (tot + m)) total))).
Proof.
  assert (BSIZE = 1024 /\ NBUF = 30 /\ LOGBLOCKS = 30 /\ MAXFILE = 268) as (EB & EN & EL & EM) by done.
  intros n off m F R Hip Hdev Hs HQ HF Ht Ho Hn Hr.
  assert (m = Z.min (n - tot) (1024 - off mod 1024)) as Em by done. clearbody m.
  assert (0 <= off mod 1024 < 1024) as Hom by (apply Z.mod_pos_bound; lia).
  assert (0 < m /\ m <= n - tot /\ m <= 1024 - off mod 1024) as Hm by lia.
  rewrite EB, EM in Hn. assert (0 <= off / BSIZE < MAXFILE) as Hbn by (rewrite EB, EM; unfold off in *; dlia).
  assert (length (take (Z.to_nat tot) total) = Z.to_nat tot) as Hlt by (rewrite length_take; unfold n in *; lia).
  pose proof (wrote_dev _ _ _ _ _ _ R) as Hdev'. rewrite Hdev in Hdev'.
  destruct (bmap_ok sb dstart disk tr Hly Hone s view bs ip i (off / BSIZE) F (wr_meta _ _ _ _ _ _ R) (wr_wf _ _ _ _ _ _ R) Hip Hdev' Hbn)
    as (a & s1 & view1 & i1 & bs1 & H1 & U1 & F1 & B1); [lia|].
  cbn [writei_loop]. replace (tot <? n) with true by lia. rewrite (kbind_ret _ _ _ _ _ H1).
  pose proof (wrote_bmap _ _ _ _ _ _ _ _ _ _ _ _ R B1 Hbn Ho) as R1. rewrite Hlt, EB, EM in R1. specialize (R1 ltac:(lia)).
  pose proof (bp_pot _ _ _ _ _ _ _ _ _ _ B1) as Hpot. pose proof (flag_le (blockno view i (off / BSIZE) <> 0)) as Hfl.
  assert (Q (f_mem s1)) as HQ1 by (rewrite U1; done).
  destruct (Z.eqb_spec a 0) as [->|Ha].
  { exists s1, view1, i1, bs1. split_and!; [done|by apply upd_upd_mem|done|lia|]. left. split_and!; [done|done|].
    by apply (bp_full _ _ _ _ _ _ _ _ _ _ B1). }
  assert (f_itable s1 !! ip = Some i1) as Hip1 by (eapply upd_table; [exact U1|by eapply lookup_lt_Some]).
  pose proof (wrote_dev _ _ _ _ _ _ R1) as Hdev1. rewrite Hdev in Hdev1.
  rewrite (kbind_ret _ _ _ _ _ (ifield_run ip i_dev s1 i1 Hip1)), Hdev1.
  pose proof (bp_at _ _ _ _ _ _ _ _ _ _ B1) as Hat.
  destruct (iw_data _ _ _ _ (wr_wf _ _ _ _ _ _ R1) _ Hbn) as [Da _]; [congruence|]. rewrite Hat in Da.
  pose proof (pot_length sb i1 bs1) as Hpl. rewrite EB. rewrite <- Em.
  match goal with |- context [if _ =? -1 then _ ;;; ?k1 else _ ;;; _ ;;; ?k2] =>
    destruct (put_chunk k1 k2 user src0 Q total tot m (off mod 1024) s1 view1 bs1 a) as (s5 & H5 & S5 & HQ5 & F5); try done; try lia end.
  set (bytes := take (Z.to_nat m) (drop (Z.to_nat tot) total)) in *.
  assert (length bytes = Z.to_nat m) as Hlb by (unfold bytes; rewrite length_take, length_drop; unfold n in *; lia).
  eexists s5, _, i1, _. split_and!; [exact F5|apply (same_mem_upd ip i1 s s1); [by apply upd_upd_mem|done]|done| |].
  - pose proof (pot_absorb sb i1 bs1 a) as Hpa'. destruct (decide (blockno view i (off / BSIZE) = 0)) as [E0|E0].
    + destruct (bp_new _ _ _ _ _ _ _ _ _ _ B1 E0 Ha) as (_ & _ & _ & Hin). rewrite (flag_true (a ∈ bs1)) in Hpa' by done. lia.
    + rewrite (flag_true (blockno view i (off / BSIZE) <> 0)) in Hpot by done. pose proof (flag_le (a ∈ bs1)). lia.
  - right. split.
    + etransitivity; [exact H5|]. f_equal.
      * unfold u64. rewrite Z.add_mod_idemp_l by lia. f_equal. lia.
      * rewrite drop_drop. f_equal. lia.
      * apply u32_small. unfold off in *. lia.
    + assert (take (Z.to_nat (tot + m)) total = take (Z.to_nat tot) total ++ bytes) as ->.
      { unfold bytes. rewrite take_take_drop. f_equal. lia. }
      pose proof (wrote_chunk view0 i0 view1 i1 off0 (take (Z.to_nat tot) total) bytes) as HC. cbv zeta in HC.
      rewrite Hlt, Z2Nat.id in HC by lia. fold off in HC. rewrite Hat, EB in HC. apply HC; try done; try lia.
      * intros k. by eapply fok_block_ok.
      * intros E. rewrite E in Hlb. cbn in Hlb. lia.
Qed.

Lemma writei_loop_ok c fuel ip user src0 Q total view0 i0 off0 s view i bs tot :
  let n := Z.of_nat (length total) in
  fok s view ∅ bs -> wrote view0 i0 view i off0 (take (Z.to_nat tot) total) -> f_itable s !! ip = Some i ->
  i_dev i0 = ROOTDEV -> source user src0 Q total -> Q (f_mem s) -> Forall (fun x => 0 <= x < 256) total ->
  0 <= tot <= n -> 0 <= off0 -> off0 + n <= MAXFILE * BSIZE -> (c < fuel)%nat ->
  (tot < n -> n - tot + (off0 + tot) mod BSIZE <= Z.of_nat c * BSIZE) -> Z.of_nat (pot i bs) + Z.of_nat c + 4 < NBUF ->
  exists t s' view' i' bs',
    writei_loop fuel ip user (u64 (src0 + tot)) (drop (Z.to_nat tot) total) (off0 + tot) n tot s = Ret ((t, off0 + t), s') /\
    tot <= t <= n /\ (t < n -> forall j, 0 <= j < sb_size sb -> used view' j = true) /\
    fok s' view' ∅ bs' /\ wrote view0 i0 view' i' off0 (take (Z.to_nat t) total) /\
    (pot i' bs' <= pot i bs + c)%nat /\ Q (f_mem s') /\ upd_mem ip i' s s'.
Proof.
  assert (BSIZE = 1024 /\ NBUF = 30) as (EB & EN) by done. intros n.
  revert fuel s view i bs tot. induction c as [|c IH]; intros fuel s view i bs tot F R Hip Hdev Hs HQ HF Ht Ho Hn Hf Hc Hr.
  all: destruct fuel as [|fuel]; [lia|].
  all: destruct (decide (tot = n)) as [->|Hne];
    [exists n, s, view, i, bs; cbn [writei_loop]; rewrite Z.ltb_irrefl; split_and!; try done; try lia;
     unfold upd_mem; rewrite list_insert_id by done; by destruct s|].
  { specialize (Hc ltac:(lia)). pose proof (Z.mod_pos_bound (off0 + tot) BSIZE ltac:(done)). lia. }
  specialize (Hc ltac:(lia)). set (m := Z.min (n - tot) (BSIZE - (off0 + tot) mod BSIZE)).
  assert (0 <= (off0 + tot) mod BSIZE < BSIZE) as Hom by (apply Z.mod_pos_bound; done).
  assert (0 < m /\ m <= n - tot) as Hm by (unfold m; lia).
  destruct (write_round fuel ip user src0 Q total view0 i0 off0 s view i bs tot)
    as (s1 & view1 & i1 & bs1 & F1 & U1 & HQ1 & Hp1 & H); try done; try lia.
  destruct H as [(Hrun & R1 & Hfull)|(Hrun & R1)].
  - exists tot, s1, view1, i1, bs1. split_and!; try done; try lia.
  - fold n in Hrun. fold m in Hrun, R1. rewrite <- Z.add_assoc in Hrun.
    destruct (IH fuel s1 view1 i1 bs1 (tot + m)) as (t & s' & view' & i' & bs' & Hrun' & Ht' & Hd' & F' & R' & Hp' & HQ' & U');
      try done; try lia.
    + rewrite U1. cbn. by eapply list_lookup_insert_eq, lookup_lt_Some.
    + intros Hlt. assert (m = BSIZE - (off0 + tot) mod BSIZE) as Em by (unfold m in *; lia). rewrite EB in *.
      replace (off0 + (tot + m)) with (off0 + tot + m) by lia. dlia.
    + exists t, s', view', i', bs'. rewrite Hrun. split_and!; try done; try lia. by eapply upd_mem_trans.
Qed.

(** ** [iupdate] *)
Definition inode_ok i : Prop :=
  i_dev i = ROOTDEV /\ 0 <= i_inum i < sb_ninodes sb /\ dinode_wf (dinode_of i).

Lemma IBLOCK_eq inum : 0 <= inum < sb_ninodes sb ->
  IBLOCK inum sb = inum / IPB + sb_inodestart sb /\ fs_block sb (IBLOCK inum sb) /\ IBLOCK inum sb < bm.
Proof.
  intros Hi. pose proof Hly as [L1 L2 L3 L4 L5 [L6 L7]]. assert (IPB = 16 /\ BPB = 8192) as [EI EP] by done.
  unfold IBLOCK, fs_block, LOGBLOCKS, MAXOPBLOCKS in *. rewrite EI, EP in *.
  assert (0 <= inum / 16 <= sb_ninodes sb / 16) by (split; [apply Z.div_pos|apply Z.div_le_mono]; lia).
  assert (0 <= sb_size sb / 8192) by (apply Z.div_pos; lia). rewrite u32_small by lia. lia.
Qed.

Lemma iupdate_ok s view bs ip i :
  fok s view ∅ bs -> f_itable s !! ip = Some i -> inode_ok i -> Z.of_nat (length bs) + 1 < NBUF ->
  let k := IBLOCK (i_inum i) sb in
  exists s', iupdate ip s = Ret (tt, s') /\ same s s' /\
    fok s' (fupd view k (put_dinode (view k) (dip (i_inum i)) (dinode_of i))) ∅ (absorb bs k).
Proof.
  intros F Hip (Hdev & Hin & Hwf) Hr k. assert (NBUF = 30 /\ LOGBLOCKS = 30) as (EN & EL) by done.
  destruct (IBLOCK_eq _ Hin) as (_ & Hk & _). fold k in Hk.
  unfold iupdate, kbind at 1, getsb at 1, gets at 1. rewrite (fk_sb _ _ _ _ _ _ _ F). unfold id at 1.
  rewrite (kbind_ret _ _ _ _ _ (ifield_run ip id s i Hip)). unfold id at 1 2. rewrite Hdev. fold k.
  destruct (open_block sb dstart disk tr Hly s view ∅ bs k F Hk (nheld_empty _)) as (p & s1 & H1 & Hd & _ & _ & _ & _ & Hw);
    [unfold room; rewrite map_size_empty; lia|].
  rewrite (kbind_ret _ _ _ _ _ H1), (kbind_ret _ _ _ _ _ Hd).
  destruct (Hw (put_dinode (view k) (dip (i_inum i)) (dinode_of i))) as (s2 & s3 & s4 & H2 & H3 & H4 & S4 & F4);
    [apply put_dinode_ok; by eapply fok_block_ok|lia|].
  exists s4. split; [|done]. unfold id. by rewrite (kbind_ret _ _ _ _ _ H2), (kbind_ret _ _ _ _ _ H3).
Qed.

(** The inode block is none of the inode's own blocks. *)
Lemma iblock_apart view i inum d :
  0 <= inum < sb_ninodes sb -> iwf view i -> meta_used sb dstart view ->
  let view' := fupd view (IBLOCK inum sb) d in
  iwf view' i /\ meta_used sb dstart view' /\ (forall bn, blockno view' i bn = blockno view i bn) /\
  (forall j, 0 <= j < sb_size sb -> used view' j = used view j) /\
  (forall k, 0 <= k < MAXFILE * BSIZE -> blockno view i (k / BSIZE) <> 0 -> byte view' i k = byte view i k).
Proof.
  intros Hi W Hm view'. destruct (IBLOCK_eq _ Hi) as (_ & _ & Hlt). pose proof (bm_bmap sb dstart Hly) as [_ Hbd].
  assert (forall k, data_block k -> view' k = view k) as Hd.
  { intros k [Hk _]. unfold view'. apply fupd_ne. lia. }
  assert (forall bn, blockno view' i bn = blockno view i bn) as HN.
  { intros bn. unfold blockno. destruct (bn <? NDIRECT); [done|]. destruct (Z.eqb_spec (ind i) 0) as [|Hnz]; [done|].
    rewrite Hd; [done|]. by apply (iw_ind _ _ _ _ W). }
  assert (forall j, 0 <= j < sb_size sb -> used view' j = used view j) as HU.
  { intros j Hj. unfold FsBlock.used. rewrite (BBLOCK_one sb dstart Hly Hone j Hj). unfold view'. by rewrite fupd_ne by lia. }
  pose proof W as [W1 W2 W3 W4]. split_and!; try done.
  - split; [done| | |].
    + intros bn Hb. rewrite HN. intros Hnz. destruct (W2 bn Hb Hnz) as [D U]. split; [done|].
      pose proof (data_pos sb dstart Hly _ D). by rewrite HU by lia.
    + intros bn bn' H1 H2. rewrite !HN. by apply W3.
    + intros Hnz. destruct (W4 Hnz) as (D & U & N). pose proof (data_pos sb dstart Hly _ D). split; [done|].
      split; [by rewrite HU by lia|]. intros bn. rewrite HN. apply N.
  - intros b Hb. pose proof (ly_size _ _ Hly) as [_ ?]. rewrite HU by lia. by apply Hm.
  - intros k Hk Hnz. unfold byte. rewrite HN, Hd; [done|].
    apply (W2 (k / BSIZE)); [|done]. unfold BSIZE in *. change MAXFILE with 268 in *. dlia.
Qed.

(** ** [writei] *)
Lemma iwf_addrs view i : iwf view i -> Forall (fun a => 0 <= a < 2 ^ 32) (i_addrs i).
Proof.
  intros W. apply Forall_lookup. intros j a Hj. pose proof (lookup_lt_Some _ _ _ Hj) as Hlt. rewrite (iw_len _ _ _ _ W) in Hlt.
  assert (nth j (i_addrs i) 0 = a) as Hn by (rewrite nth_lookup, Hj; done).
  pose proof (ly_size _ _ Hly) as [_ Hs].
  destruct (decide (a = 0)) as [->|Hnz]; [lia|]. assert (data_block a) as Da.
  { destruct (decide (j = 12%nat)) as [->|Hne].
    - change (ind i = a) in Hn. destruct (iw_ind _ _ _ _ W) as (D & _); [by rewrite Hn|by rewrite <- Hn].
    - assert (blockno view i (Z.of_nat j) = a) as E.
      { unfold blockno, NDIRECT. replace (Z.of_nat j <? 12) with true by lia. by rewrite Nat2Z.id. }
      destruct (iw_data _ _ _ _ W (Z.of_nat j)) as [D _]; [change MAXFILE with 268; lia|by rewrite E|]. by rewrite E in D. }
  pose proof (data_pos sb dstart Hly a Da). lia.
Qed.

Lemma contents_eq view i l :
  length l = Z.to_nat (i_size i) -> (forall k, 0 <= k < i_size i -> byte view i k = nth (Z.to_nat k) l 0) -> contents view i = l.
Proof.
  intros Hl H. apply list_eq. intros j. unfold contents, slice. rewrite list_lookup_fmap.
  destruct (decide (j < length l)%nat) as [Hj|Hj].
  - rewrite (proj2 (lookup_seqZ 0 (i_size i) j (Z.of_nat j))) by lia. cbn [fmap option_fmap option_map].
    rewrite H by lia. rewrite Nat2Z.id, nth_lookup. destruct (lookup_lt_is_Some_2 l j Hj) as [x Hx]. by rewrite Hx.
  - rewrite !lookup_ge_None_2; [done|lia|]. rewrite length_seqZ. lia.
Qed.
Lemma contents_nth view i k : 0 <= k < i_size i -> nth (Z.to_nat k) (contents view i) 0 = byte view i k.
Proof.
  intros Hk. unfold contents, slice. rewrite nth_lookup, list_lookup_fmap.
  rewrite (proj2 (lookup_seqZ 0 (i_size i) (Z.to_nat k) k)) by lia. done.
Qed.
Lemma contents_length view i : length (contents view i) = Z.to_nat (i_size i).
Proof. unfold contents. apply slice_length. Qed.

(** The size set to cover what was written. *)
Definition grow (off : Z) i : inode := if i_size i <? off then set_size off i else i.

Lemma grow_size off i : i_size (grow off i) = Z.max (i_size i) off.
Proof. unfold grow. destruct (Z.ltb_spec (i_size i) off); cbn; lia. Qed.
Lemma grow_addrs off i : i_addrs (grow off i) = i_addrs i.
Proof. unfold grow. by destruct (_ <? _). Qed.
Lemma blockno_addrs view i i' bn : i_addrs i' = i_addrs i -> blockno view i' bn = blockno view i bn.
Proof. intros E. unfold blockno, ind. by rewrite E. Qed.
Lemma byte_addrs view i i' k : i_addrs i' = i_addrs i -> byte view i' k = byte view i k.
Proof. intros E. unfold byte. by rewrite (blockno_addrs view i i'). Qed.
Lemma iwf_same view i i' : i_addrs i' = i_addrs i -> iwf view i -> iwf view i'.
Proof.
  intros E [W1 W2 W3 W4]. assert (forall bn, blockno view i' bn = blockno view i bn) as HB by (intros; by apply blockno_addrs).
  assert (ind i' = ind i) as Ei by (unfold ind; by rewrite E). split.
  - by rewrite E.
  - intros bn. rewrite HB. apply W2.
  - intros bn bn'. rewrite !HB. apply W3.
  - rewrite Ei. intros Hi. destruct (W4 Hi) as (? & ? & N). split; [done|]. split; [done|]. intros bn. rewrite HB. apply N.
Qed.

(** The new contents, from what [wrote] says of the bytes. *)
Lemma wrote_contents view0 i0 view i i' off data :
  wrote view0 i0 view i off data -> full view0 i0 -> 0 <= off <= i_size i0 -> off + Z.of_nat (length data) <= MAXFILE * BSIZE ->
  i_addrs i' = i_addrs i -> i_size i' = Z.max (i_size i0) (off + Z.of_nat (length data)) ->
  full view i' /\ contents view i' = splice (contents view0 i0) (Z.to_nat off) data.
Proof.
  intros R [Hsz Hf] Ho Hl Ea Es. assert (BSIZE = 1024 /\ MAXFILE = 268) as (EB & EM) by done. rewrite EB, EM in *.
  assert (forall k, 0 <= k < i_size i0 -> blockno view0 i0 (k / 1024) <> 0) as Hm by (intros; apply Hf; dlia).
  assert (forall k, 0 <= k < i_size i' -> blockno view i (k / 1024) <> 0 /\
    byte view i k = nth (Z.to_nat k) (splice (contents view0 i0) (Z.to_nat off) data) 0) as HB.
  { intros k Hk. rewrite Es in Hk. unfold splice.
    assert (length (take (Z.to_nat off) (contents view0 i0)) = Z.to_nat off) as Hlo by (rewrite length_take, contents_length; lia).
    destruct (decide (off <= k < off + Z.of_nat (length data))) as [E|E].
    - destruct (wr_new _ _ _ _ _ _ R k E) as [E1 E2]. split; [done|]. rewrite E1.
      rewrite app_nth2 by lia. rewrite app_nth1 by lia. f_equal. lia.
    - destruct (wr_old _ _ _ _ _ _ R k) as [E1 E2]; [rewrite EB, EM; lia|done|rewrite EB; apply Hm; lia|]. rewrite EB in E1.
      rewrite E1, E2. split; [apply Hm; lia|]. rewrite <- contents_nth by lia.
      destruct (decide (k < off)).
      + rewrite app_nth1 by lia. rewrite !nth_lookup. by rewrite lookup_take_lt by lia.
      + rewrite app_nth2 by lia. rewrite app_nth2 by lia. rewrite !nth_lookup, lookup_drop. do 2 f_equal. lia. }
  split.
  - split; [rewrite EB, EM; lia|]. intros bn Hb Hbs. rewrite (blockno_addrs _ _ _ _ Ea).
    rewrite EB in Hbs. destruct (HB (bn * 1024)) as [HB1 _]; [lia|]. by rewrite Z.div_mul in HB1.
  - apply contents_eq.
    + unfold splice. rewrite !length_app, length_take, length_drop, contents_length. lia.
    + intros k Hk. rewrite (byte_addrs _ _ _ _ Ea). by apply HB.
Qed.

(** What a write of [data] at [off] to inode [i] leaves behind. *)
Record written view i bs view' i' bs' (off : Z) (data : list Z) : Prop := {
  wn_wf : iwf view' i';
  wn_meta : meta_used sb dstart view';
  wn_full : full view' i';
  wn_ok : inode_ok i';
  wn_inode : i_inum i' = i_inum i /\ i_ref i' = i_ref i /\ i_lock i' = i_lock i /\ i_valid i' = i_valid i /\
    i_type i' = i_type i /\ i_nlink i' = i_nlink i;
  wn_size : i_size i' = Z.max (i_size i) (off + Z.of_nat (length data));
  wn_contents : contents view' i' = splice (contents view i) (Z.to_nat off) data;
  wn_disk : get_dinode (view' (IBLOCK (i_inum i) sb)) (dip (i_inum i)) = dinode_of i';
  wn_used : forall j, 0 <= j < sb_size sb -> used view j = true -> used view' j = true;
  wn_frame : forall k, k <> bm -> k <> IBLOCK (i_inum i) sb -> ~ (data_block k /\ used view k = false) -> k <> ind i ->
    (forall bn, 0 <= bn < MAXFILE -> blockno view i bn <> k) -> view' k = view k }.

Lemma dip_bound inum : 0 <= inum -> (dip inum + 64 <= 1024)%nat.
Proof.
  intros. unfold dip. assert (0 <= inum mod IPB < IPB) as H1 by (apply Z.mod_pos_bound; done).
  change IPB with 16 in *. unfold DINODE_SIZE. lia.
Qed.

(** The inode with its size grown, written back. *)
Lemma written_update view0 i0 view i off data :
  wrote view0 i0 view i off data -> full view0 i0 -> inode_ok i0 -> (forall k, block_ok (view k)) ->
  0 <= off <= i_size i0 -> off + Z.of_nat (length data) <= MAXFILE * BSIZE ->
  let i' := grow (off + Z.of_nat (length data)) i in let k := IBLOCK (i_inum i0) sb in
  forall bs bs', i_inum i' = i_inum i0 /\ inode_ok i' /\
    written view0 i0 bs (fupd view k (put_dinode (view k) (dip (i_inum i0)) (dinode_of i'))) i' bs' off data.
Proof.
  intros R Hf (Hdev & Hin & Hwf) Hok Ho Hl i' k bs bs'. set (L := off + Z.of_nat (length data)) in *.
  pose proof (wr_inode _ _ _ _ _ _ R) as Ei. pose proof (grow_addrs L i) as Ea. pose proof (grow_size L i) as Es. fold i' in Ea, Es.
  assert (i_size i = i_size i0) as Ez by (rewrite Ei; done). rewrite Ez in Es.
  assert (i_dev i' = i_dev i0 /\ i_inum i' = i_inum i0 /\ i_ref i' = i_ref i0 /\ i_lock i' = i_lock i0 /\ i_valid i' = i_valid i0 /\
    i_type i' = i_type i0 /\ i_major i' = i_major i0 /\ i_minor i' = i_minor i0 /\ i_nlink i' = i_nlink i0)
    as (E1 & E2 & E3 & E4 & E5 & E6 & E7 & E8 & E9).
  { unfold i', grow. rewrite Ei. by destruct (_ <? _). }
  pose proof (iwf_same view i i' Ea (wr_wf _ _ _ _ _ _ R)) as W.
  destruct (wrote_contents view0 i0 view i i' off data R Hf Ho Hl Ea Es) as [Hf' Hc].
  assert (inode_ok i') as Hok'.
  { split; [by rewrite E1|]. split; [by rewrite E2|]. destruct Hwf as (D1 & D2 & D3 & D4 & _). unfold dinode_wf, dinode_of in *. cbn in *.
    rewrite E6, E7, E8, E9. destruct Hf' as [Hsz _]. change (MAXFILE * BSIZE) with 274432 in Hsz.
    split_and!; try done; try lia; [apply (iw_len _ _ _ _ W)|by eapply iwf_addrs]. }
  split; [done|]. split; [done|].
  destruct (iblock_apart view i' (i_inum i0) (put_dinode (view k) (dip (i_inum i0)) (dinode_of i')) Hin W (wr_meta _ _ _ _ _ _ R))
    as (W' & M' & HN & HU & HB). fold k in W', M', HN, HU, HB.
  split; try done.
  - destruct Hf' as [Hsz Hm]. split; [done|]. intros bn H1 H2. rewrite HN. by apply Hm.
  - rewrite <- Hc. apply contents_eq; [apply contents_length|]. intros x Hx. rewrite contents_nth by done.
    destruct Hf' as [Hsz Hm]. apply HB; [lia|]. apply Hm; unfold BSIZE; dlia.
  - rewrite fupd_eq. apply get_put_dinode; [|apply Hok']. rewrite (proj1 (Hok k)). apply dip_bound. lia.
  - intros j Hj Hu. rewrite HU by done. by apply (wr_used _ _ _ _ _ _ R).
  - intros x H1 H2 H3 H4 H5. rewrite fupd_ne by done. by apply (wr_frame _ _ _ _ _ _ R).
Qed.

(** How many blocks [n] bytes at [off] touch. *)
Definition nblk (off n : Z) : nat := Z.to_nat ((n + off mod BSIZE + BSIZE - 1) / BSIZE).

Lemma nblk_bounds off n : 0 <= n ->
  n + off mod BSIZE <= Z.of_nat (nblk off n) * BSIZE /\ (nblk off n < Z.to_nat (n / BSIZE) + 3)%nat.
Proof.
  intros Hn. unfold nblk. assert (0 <= off mod BSIZE < BSIZE) by (apply Z.mod_pos_bound; done). unfold BSIZE in *.
  assert (0 <= (n + off mod 1024 + 1024 - 1) / 1024) by (apply Z.div_pos; lia).
  assert (0 <= n / 1024) by (apply Z.div_pos; lia). rewrite Z2Nat.id by lia. split; [dlia|].
  cut ((n + off mod 1024 + 1024 - 1) / 1024 < n / 1024 + 3); [lia|]. dlia.
Qed.

Lemma writei_ok ip user src Q total view i s bs off :
  let n := Z.of_nat (length total) in
  fok s view ∅ bs -> iwf view i -> meta_used sb dstart view -> full view i -> f_itable s !! ip = Some i -> inode_ok i ->
  source user src Q total -> Q (f_mem s) -> Forall (fun x => 0 <= x < 256) total -> 0 <= src < 2 ^ 64 ->
  0 <= off <= i_size i -> off + n <= MAXFILE * BSIZE -> Z.of_nat (pot i bs + nblk off n) + 5 < NBUF ->
  exists t s' view' i' bs', writei ip user src total off n s = Ret (t, s') /\ 0 <= t <= n /\
    (t < n -> forall j, 0 <= j < sb_size sb -> used view' j = true) /\
    upd_mem ip i' s s' /\ Q (f_mem s') /\ fok s' view' ∅ bs' /\ (length bs' <= length bs + 3 + nblk off n)%nat /\
    written view i bs view' i' bs' off (take (Z.to_nat t) total).
Proof.
  assert (BSIZE = 1024 /\ NBUF = 30 /\ MAXFILE = 268) as (EB & EN & EM) by done.
  intros n F W Hm Hf Hip Hok Hs HQ HF Hsrc Ho Hn Hr. pose proof Hok as (Hdev & Hin & _). pose proof Hf as [Hsz _].
  destruct (nblk_bounds off n) as [Hc Hfuel]; [lia|]. set (c := nblk off n) in *.
  destruct (writei_loop_ok c (Z.to_nat (n / BSIZE) + 3) ip user src Q total view i off s view i bs 0)
    as (t & s1 & view1 & i1 & bs1 & H1 & Ht & Hd & F1 & R1 & Hp1 & HQ1 & U1); try done; try lia.
  { by apply wrote_nil. }
  { rewrite Z.add_0_r, Z.sub_0_r. intros _. exact Hc. }
  rewrite !Z.add_0_r, (u64_small src), drop_0 in H1 by lia. fold n in H1, Ht.
  unfold writei. rewrite (kbind_ret _ _ _ _ _ (ifield_run ip i_size s i Hip)). rewrite EB, EM in Hn, Hsz.
  rewrite !(u32_small (off + n)) by lia. replace (i_size i <? off) with false by lia. replace (off + n <? off) with false by lia.
  cbn [orb]. replace (MAXFILE * BSIZE <? off + n) with false by (rewrite EB, EM; lia).
  rewrite (kbind_ret _ _ _ _ _ H1). cbv beta iota. rewrite <- kbind_assoc.
  assert (f_itable s1 !! ip = Some i1) as Hip1 by (rewrite U1; by eapply list_lookup_insert_eq, lookup_lt_Some).
  rewrite (kbind_ret _ _ _ _ _ (ifield_run ip i_size s1 i1 Hip1)).
  assert (Z.of_nat (length (take (Z.to_nat t) total)) = t) as Hlt by (rewrite length_take; unfold n in *; lia).
  pose proof (fun k => fok_block_ok sb disk tr s1 view1 ∅ bs1 k F1) as Hblk.
  pose proof (written_update view i view1 i1 off (take (Z.to_nat t) total) R1 Hf Hok Hblk Ho) as HW.
  rewrite Hlt, EB, EM in HW. cbv zeta in HW.
  assert (exists s2, (if i_size i1 <? off + t then updi ip (set_size (off + t)) else kret tt) s1 = Ret (tt, s2) /\
    upd_inode ip (grow (off + t) i1) s1 s2 /\ fok s2 view1 ∅ bs1) as (s2 & H2 & U2 & F2).
  { unfold grow. destruct (i_size i1 <? off + t); [by apply updi_run|]. exists s1. split_and!; [done| |done]. apply upd_same; [done|apply same_refl]. }
  rewrite (kbind_ret _ _ _ _ _ H2).
  assert (f_itable s2 !! ip = Some (grow (off + t) i1)) as Hip2 by (eapply upd_table; [exact U2|by eapply lookup_lt_Some]).
  destruct (HW ltac:(lia) bs (absorb bs1 (IBLOCK (i_inum i) sb))) as (Ein & Hok2 & HWR).
  pose proof (pot_length sb i1 bs1) as Q1. unfold FsMap.pot in Hp1, Q1, Hr.
  pose proof (flag_le (bm ∈ bs)) as Q2. pose proof (flag_le (ind i ∈ bs /\ ind i <> 0)) as Q3.
  destruct (iupdate_ok s2 view1 bs1 ip _ F2 Hip2 Hok2) as (s3 & H3 & S3 & F3); [lia|].
  rewrite Ein in F3. rewrite (kbind_ret _ _ _ _ _ H3).
  set (view2 := fupd view1 _ _) in F3. exists t, s3, view2, (grow (off + t) i1), (absorb bs1 (IBLOCK (i_inum i) sb)).
  split_and!; try done; try lia.
  - unfold kret. by rewrite i32_small by lia.
  - intros Hlt' j Hj. rewrite <- (Hd Hlt' j Hj). destruct (IBLOCK_eq _ Hin) as (_ & _ & Hib).
    unfold FsBlock.used, view2. by rewrite (BBLOCK_one sb dstart Hly Hone j Hj), fupd_ne by lia.
  - eapply upd_mem_trans; [exact U1|]. apply upd_upd_mem. by eapply upd_same_r.
  - destruct (same_table _ _ S3) as (_ & -> & _). rewrite U2. done.
  - pose proof (absorb_len bs1 (IBLOCK (i_inum i) sb)). lia.
Qed.
End write.
