(* ===== verification/FsDir.v ===== *)
(** * Directories: [dirlookup], [dirlink], the inode table, path elements *)
From S2P Require Import Prelude Machine Spinlock Blocks Log LogProof LogCrash LogTxn Fs FsBase FsBlock FsMap FsData FsWrite.

(** ** A directory's contents as entries of 16 bytes *)
Definition entry (c : list Z) (k : nat) : list Z := take 16 (drop (16 * k) c).
Definition live (name : list Z) (de : list Z) : bool := negb (de_inum de =? 0) && (namecmp name (de_name de) =? 0).

(** The first of [cnt] entries from [k] on that is live under [name]. *)
Fixpoint dir_find (cnt k : nat) (c name : list Z) : option nat :=
  match cnt with
  | O => None
  | S cnt => if live name (entry c k) then Some k else dir_find cnt (S k) c name
  end.
(** The first empty entry, or the end. *)
Fixpoint dir_free (cnt k : nat) (c : list Z) : nat :=
  match cnt with
  | O => k
  | S cnt => if de_inum (entry c k) =? 0 then k else dir_free cnt (S k) c
  end.
Definition nents (c : list Z) : nat := (length c / 16)%nat.
(** The directory as a map from names to inode numbers. *)
Definition dir_lookup (c name : list Z) : option Z :=
  match dir_find (nents c) 0 c name with
  | Some k => Some (de_inum (entry c k))
  | None => None
  end.

Lemma dir_find_spec cnt k c name :
  match dir_find cnt k c name with
  | Some j => (k <= j < k + cnt)%nat /\ live name (entry c j) = true /\ forall x, (k <= x < j)%nat -> live name (entry c x) = false
  | None => forall x, (k <= x < k + cnt)%nat -> live name (entry c x) = false
  end.
Proof.
  revert k. induction cnt as [|cnt IH]; intros k; cbn [dir_find]; [intros; lia|].
  destruct (live name (entry c k)) eqn:E; [split_and!; [lia|lia|done|intros; lia]|].
  specialize (IH (S k)). destruct (dir_find cnt (S k) c name) as [j|].
  - destruct IH as (H1 & H2 & H3). split_and!; [lia|lia|done|]. intros x Hx. destruct (decide (x = k)) as [->|]; [done|]. apply H3. lia.
  - intros x Hx. destruct (decide (x = k)) as [->|]; [done|]. apply IH. lia.
Qed.

Lemma dir_free_spec cnt k c :
  let j := dir_free cnt k c in
  (k <= j <= k + cnt)%nat /\ ((j < k + cnt)%nat -> de_inum (entry c j) = 0) /\
  forall x, (k <= x < j)%nat -> de_inum (entry c x) <> 0.
Proof.
  revert k. induction cnt as [|cnt IH]; intros k; cbn [dir_free]; [cbn; split_and!; intros; lia|].
  destruct (Z.eqb_spec (de_inum (entry c k)) 0); [cbn; split_and!; [lia|lia|done|intros; lia]|].
  destruct (IH (S k)) as (H1 & H2 & H3). split_and!; [lia|lia|intros; apply H2; lia|].
  intros x Hx. destruct (decide (x = k)) as [->|]; [done|]. apply H3. lia.
Qed.

(** ** Names *)
Lemma strncmp_refl n s : Forall (fun x => 0 <= x < 256) s -> strncmp n s s = 0.
Proof.
  revert s. induction n as [|n IH]; intros s HF; cbn [strncmp]; [done|].
  rewrite Z.eqb_refl, andb_true_r. destruct (negb (hd 0 s =? 0)); [apply IH; destruct s; [done|by inversion HF]|].
  rewrite Z.sub_diag. done.
Qed.

Lemma strncpy_length n s : length (strncpy n s) = n.
Proof.
  revert s. induction n as [|n IH]; intros s; cbn [strncpy]; [done|]. destruct (_ =? _); [apply length_replicate|]. cbn. by rewrite IH.
Qed.

Lemma strncpy_bytes n s : Forall (fun x => 0 <= x < 256) s -> Forall (fun x => 0 <= x < 256) (strncpy n s).
Proof.
  revert s. induction n as [|n IH]; intros s HF; [constructor|].
  destruct HF as [|c s Hc HF]; cbn [strncpy hd tl]; [apply (Forall_replicate _ (S n)); lia|].
  destruct (c =? 0); [apply (Forall_replicate _ (S n)); lia|]. constructor; [done|by apply IH].
Qed.

(** [strncmp] and [strncpy] see a name up to its NUL. *)
Lemma strncmp_strncpy n t s : strncmp n t (strncpy n s) = strncmp n t s.
Proof.
  revert t s. induction n as [|n IH]; intros t s; cbn [strncmp strncpy]; [done|].
  destruct (Z.eqb_spec (hd 0 s) 0) as [E|E]; cbn [hd tl].
  - cbn [replicate hd tl]. rewrite E. destruct (Z.eqb_spec (hd 0 t) 0) as [Et|Et]; cbn [negb andb]; [done|].
    by destruct (Z.eqb_spec (hd 0 t) 0).
  - destruct (negb (hd 0 t =? 0) && (hd 0 t =? hd 0 s)); [apply IH|done].
Qed.

(** Two names are the same directory entry name. *)
Lemma strncmp_zero_sym n s t : Forall (fun x => 0 <= x < 256) s -> Forall (fun x => 0 <= x < 256) t ->
  strncmp n s t = 0 -> strncmp n t s = 0.
Proof.
  revert s t. induction n as [|n IH]; intros s t Hs Ht; cbn [strncmp]; [done|].
  assert (0 <= hd 0 s < 256) by (destruct s; cbn; [lia|by inversion Hs]).
  assert (0 <= hd 0 t < 256) by (destruct t; cbn; [lia|by inversion Ht]).
  assert (Forall (fun x => 0 <= x < 256) (tl s)) by (destruct s; cbn; [done|by inversion Hs]).
  assert (Forall (fun x => 0 <= x < 256) (tl t)) by (destruct t; cbn; [done|by inversion Ht]).
  destruct (Z.eqb_spec (hd 0 s) (hd 0 t)) as [E|E].
  - rewrite E. rewrite Z.eqb_refl. destruct (negb (hd 0 t =? 0)); cbn [andb]; [by apply IH|]. rewrite Z.sub_diag. done.
  - rewrite andb_false_r. replace (hd 0 t =? hd 0 s) with false by lia. rewrite andb_false_r.
    rewrite !u8_small by lia. rewrite !i32_small by lia. lia.
Qed.

Lemma strncmp_trans n s t u : Forall (fun x => 0 <= x < 256) s -> Forall (fun x => 0 <= x < 256) t -> Forall (fun x => 0 <= x < 256) u ->
  strncmp n s t = 0 -> strncmp n t u = 0 -> strncmp n s u = 0.
Proof.
  revert s t u. induction n as [|n IH]; intros s t u Hs Ht Hu; cbn [strncmp]; [done|].
  assert (0 <= hd 0 s < 256) by (destruct s; cbn; [lia|by inversion Hs]).
  assert (0 <= hd 0 t < 256) by (destruct t; cbn; [lia|by inversion Ht]).
  assert (0 <= hd 0 u < 256) by (destruct u; cbn; [lia|by inversion Hu]).
  assert (Forall (fun x => 0 <= x < 256) (tl s)) by (destruct s; cbn; [done|by inversion Hs]).
  assert (Forall (fun x => 0 <= x < 256) (tl t)) by (destruct t; cbn; [done|by inversion Ht]).
  assert (Forall (fun x => 0 <= x < 256) (tl u)) by (destruct u; cbn; [done|by inversion Hu]).
  rewrite !u8_small by lia. rewrite !i32_small by lia.
  destruct (Z.eqb_spec (hd 0 s) (hd 0 t)) as [E1|E1]; [rewrite E1|rewrite andb_false_r; lia].
  destruct (Z.eqb_spec (hd 0 t) (hd 0 u)) as [E2|E2]; [rewrite E2|rewrite !andb_false_r; destruct (negb (hd 0 t =? 0)); cbn; lia].
  rewrite ?Z.eqb_refl, ?andb_true_r. destruct (negb (hd 0 u =? 0)); [by eapply IH|done].
Qed.

(** ** Entries written *)
Lemma de_inum_mk inum name : 0 <= inum < 2 ^ 16 -> de_inum (mk_dirent inum name) = inum.
Proof. intros. unfold de_inum, mk_dirent. cbn [bld nth app]. unfold u8. change (2 ^ 8) with 256. dlia. Qed.

Lemma entry_splice c k de x :
  length de = 16%nat -> (16 * k <= length c)%nat ->
  entry (splice c (16 * k) de) x = if decide (x = k) then de else entry c x.
Proof.
  intros Hd Hk. unfold entry, splice. apply list_eq. intros j. destruct (decide (j < 16)%nat) as [Hj|Hj].
  - rewrite lookup_take_lt, lookup_drop by done.
    assert (length (take (16 * k) c) = (16 * k)%nat) as Hl by (rewrite length_take; lia).
    case_decide as E.
    + subst. rewrite lookup_app_r by lia. rewrite lookup_app_l by lia. f_equal. lia.
    + rewrite lookup_take_lt, lookup_drop by done. destruct (decide (x < k)%nat).
      * rewrite lookup_app_l by lia. by rewrite lookup_take_lt by lia.
      * rewrite !lookup_app_r by lia. rewrite lookup_drop. f_equal. lia.
  - rewrite lookup_ge_None_2 by (rewrite length_take; lia). case_decide; symmetry; apply lookup_ge_None_2; [lia|rewrite length_take; lia].
Qed.

Lemma splice_nents c k : (16 * k <= length c)%nat -> forall de, length de = 16%nat -> (length c mod 16 = 0)%nat ->
  nents (splice c (16 * k) de) = Nat.max (nents c) (S k).
Proof.
  intros Hk de Hd Hm. unfold nents, splice. rewrite !length_app, length_take, length_drop, Hd.
  pose proof (Nat.div_mod_eq (length c) 16). set (q := (length c / 16)%nat) in *.
  assert (length c = 16 * q)%nat as E by lia. rewrite E in *.
  transitivity (Nat.max q (S k) * 16 / 16)%nat; [f_equal; lia|by apply Nat.div_mul].
Qed.

Lemma live_beyond c name x : (nents c <= x)%nat -> (length c mod 16 = 0)%nat -> live name (entry c x) = false.
Proof.
  intros Hx Hm. unfold entry. rewrite drop_ge; [done|]. unfold nents in Hx. pose proof (Nat.div_mod_eq (length c) 16). lia.
Qed.

(** The search depends only on which entries are live. *)
Lemma dir_find_same n n' c c' name :
  (forall x, live name (entry c' x) = live name (entry c x)) ->
  (forall x, (n <= x)%nat -> live name (entry c x) = false) -> (n <= n')%nat ->
  dir_find n' 0 c' name = dir_find n 0 c name.
Proof.
  intros Hall Hb Hn. pose proof (dir_find_spec n' 0 c' name) as H1. pose proof (dir_find_spec n 0 c name) as H2.
  destruct (dir_find n' 0 c' name) as [j|], (dir_find n 0 c name) as [j'|]; try done.
  - destruct H1 as (A1 & A2 & A3), H2 as (B1 & B2 & B3). rewrite Hall in A2. f_equal.
    destruct (Nat.lt_trichotomy j j') as [L|[L|L]]; [|done|].
    + rewrite B3 in A2 by lia. discriminate A2.
    + rewrite <- Hall, A3 in B2 by lia. discriminate B2.
  - destruct H1 as (A1 & A2 & _). rewrite Hall in A2. destruct (decide (j < n)%nat); [rewrite H2 in A2|rewrite Hb in A2]; first [discriminate A2|lia].
  - destruct H2 as (B1 & B2 & _). rewrite <- Hall, H1 in B2 by lia. discriminate B2.
Qed.

(** The directory after [name] was added at its free slot. *)
Definition dir_link (c name : list Z) (inum : Z) : list Z :=
  splice c (16 * dir_free (nents c) 0 c) (mk_dirent inum (strncpy 14 name)).

Section link.
Context (c name : list Z) (inum : Z).
Abbreviation k := (dir_free (nents c) 0 c).
Abbreviation bytes := (Forall (fun x => 0 <= x < 256)).
Hypothesis Hm : (length c mod 16 = 0)%nat.
Hypothesis Hi : 0 < inum < 2 ^ 16.
Hypothesis Hnone : dir_lookup c name = None.
Hypothesis Hn : bytes name.
Hypothesis Hc : bytes c.

Lemma free_bound : (16 * k <= length c)%nat.
Proof using Hm.
  destruct (dir_free_spec (nents c) 0 c) as (Hk & _). unfold nents in *. pose proof (Nat.div_mod_eq (length c) 16). lia.
Qed.
Lemma link_entry x : entry (dir_link c name inum) x = if decide (x = k) then mk_dirent inum (strncpy 14 name) else entry c x.
Proof using Hm.
  apply entry_splice; [unfold mk_dirent; rewrite length_app, strncpy_length; done|apply free_bound].
Qed.
Lemma link_live name' x : live name' (entry (dir_link c name inum) x) =
  if decide (x = k) then namecmp name' name =? 0 else live name' (entry c x).
Proof using Hm Hi.
  rewrite link_entry. case_decide; [|done]. unfold live. rewrite de_inum_mk by lia.
  replace (inum =? 0) with false by lia. cbn [negb andb]. unfold namecmp. change (Z.to_nat DIRSIZ) with 14%nat.
  change (de_name (mk_dirent inum (strncpy 14 name))) with (strncpy 14 name). by rewrite strncmp_strncpy.
Qed.
Lemma link_nents : nents (dir_link c name inum) = Nat.max (nents c) (S k).
Proof using Hm.
  apply splice_nents; [apply free_bound|unfold mk_dirent; rewrite length_app, strncpy_length; done|done].
Qed.
Lemma free_dead name' : live name' (entry c k) = false.
Proof using Hm.
  destruct (decide (k < nents c)%nat) as [H|H]; [|apply live_beyond; [lia|done]].
  destruct (dir_free_spec (nents c) 0 c) as (_ & Hempty & _). unfold live. rewrite Hempty by lia. done.
Qed.
(** No other live entry has a name equal to [name]. *)
Lemma link_unique name' x : bytes name' -> namecmp name' name = 0 -> live name' (entry c x) = false.
Proof using Hm Hnone Hn Hc.
  intros Hn' E. pose proof (dir_find_spec (nents c) 0 c name) as H3. unfold dir_lookup in Hnone.
  destruct (dir_find (nents c) 0 c name) as [|]; [done|].
  destruct (decide (x < nents c)%nat) as [Hx|Hx]; [|apply live_beyond; [lia|done]].
  specialize (H3 x ltac:(lia)). unfold live in *. destruct (negb (de_inum (entry c x) =? 0)); cbn [andb] in *; [|done].
  destruct (namecmp name' (de_name (entry c x)) =? 0) eqn:E'; [|done]. rewrite <- H3. symmetry. zb. apply Z.eqb_eq.
  apply (strncmp_trans _ _ name'); try done; [|by apply strncmp_zero_sym].
  unfold de_name, entry. by apply Forall_drop, Forall_take, Forall_drop.
Qed.

(** It adds the name and changes no other. *)
Lemma dir_link_lookup name' : bytes name' ->
  dir_lookup (dir_link c name inum) name' = if namecmp name' name =? 0 then Some inum else dir_lookup c name'.
Proof using Hm Hi Hnone Hn Hc.
  intros Hn'. unfold dir_lookup. destruct (namecmp name' name =? 0) eqn:E.
  - pose proof (dir_find_spec (nents (dir_link c name inum)) 0 (dir_link c name inum) name') as H1.
    destruct (dir_find _ 0 _ name') as [j|].
    + destruct H1 as (_ & Hl & _). rewrite link_live in Hl. rewrite link_entry. case_decide; [by rewrite de_inum_mk by lia|].
      zb. rewrite (link_unique name') in Hl by done. discriminate Hl.
    + specialize (H1 k). rewrite link_live, decide_True, E in H1 by done. rewrite link_nents in H1.
      discriminate H1. lia.
  - rewrite (dir_find_same (nents c) _ c).
    + destruct (dir_find (nents c) 0 c name') as [j|] eqn:F; [|done]. rewrite link_entry. case_decide as Ej; [|done].
      pose proof (dir_find_spec (nents c) 0 c name') as H2. rewrite F in H2. destruct H2 as (_ & Hl & _).
      rewrite Ej, free_dead in Hl. discriminate Hl.
    + intros x. rewrite link_live. case_decide as Ex; [|done]. rewrite E, Ex. symmetry. apply free_dead.
    + intros x Hx. by apply live_beyond.
    + rewrite link_nents. lia.
Qed.
End link.

Section dir.
Context {St Mem : Type} `{!BlockIO St} `{!BlockLaws St} `{!UserMem Mem}.
Context (sb : superblock) (dstart : Z) (disk : Z -> block) (tr : list (Z * block)).
Hypothesis Hly : layout sb dstart.
Hypothesis Hone : sb_size sb <= BPB.
Implicit Types (s : fstate St Mem) (view : Z -> block) (bs : list Z) (i : inode).

Abbreviation fok := (fok sb disk tr).
Abbreviation iwf := (iwf sb dstart).
Abbreviation pot := (pot sb).

Lemma readi_kernel ip i s view bs off n :
  fok s view ∅ bs -> iwf view i -> f_itable s !! ip = Some i -> i_dev i = ROOTDEV -> full view i ->
  Z.of_nat (length bs) + 1 < NBUF -> 0 <= off -> 0 <= n -> off + n <= i_size i ->
  exists s', readi ip false 0 off n s =
      Ret ((n, take (Z.to_nat n) (drop (Z.to_nat off) (contents view i))), s') /\ same s s' /\ fok s' view ∅ bs.
Proof.
  intros F W Hip Hdev Hf Hr Ho Hn Hsz. pose proof Hf as [Hsz' _]. change (MAXFILE * BSIZE) with 274432 in Hsz'.
  destruct (readi_ok sb dstart disk tr Hly ip i false 0 (fun _ m => m = f_mem s) s view bs off n) as (s' & H & S & F' & Em); try done; try lia.
  { intros acc bytes mem -> _ _. by exists (f_mem s). }
  rewrite Z.min_l in H by lia. rewrite contents_slice by lia. exists s'. split_and!; [done| |done].
  unfold same, wl. unfold same_mem in S. by rewrite Em in S.
Qed.

(** Sizes that are a whole number of entries. *)
Definition dir_size i : Prop := i_size i mod 16 = 0.

Lemma dir_nents view i : dir_size i -> 0 <= i_size i -> Z.of_nat (nents (contents view i)) * 16 = i_size i /\
  (length (contents view i) mod 16 = 0)%nat.
Proof.
  intros Hd Hs. unfold dir_size in Hd. unfold nents. rewrite contents_length.
  assert (Z.of_nat (Z.to_nat (i_size i) / 16) = i_size i / 16) as E by (rewrite Nat2Z.inj_div; f_equal; lia).
  split; [rewrite E; dlia|]. apply Nat2Z.inj. rewrite Nat2Z.inj_mod. rewrite Z2Nat.id by lia. done.
Qed.

Lemma read_entry view i dp s bs k :
  fok s view ∅ bs -> iwf view i -> f_itable s !! dp = Some i -> i_dev i = ROOTDEV -> full view i -> dir_size i ->
  Z.of_nat (length bs) + 1 < NBUF -> (k < nents (contents view i))%nat ->
  exists s', readi dp false 0 (16 * Z.of_nat k) DIRENT_SIZE s = Ret ((16, entry (contents view i) k), s') /\
    same s s' /\ fok s' view ∅ bs.
Proof.
  intros F W Hip Hdev Hf Hd Hr Hk. destruct Hf as [Hs Hf']. destruct (dir_nents view i Hd) as [En _]; [lia|].
  destruct (readi_kernel dp i s view bs (16 * Z.of_nat k) 16) as (s' & H & S & F'); try done; try lia.
  exists s'. split_and!; [|done|done]. unfold DIRENT_SIZE. rewrite H. unfold entry. by replace (Z.to_nat (16 * Z.of_nat k)) with (16 * k)%nat by lia.
Qed.

Lemma same_itable s s' dp i : same s s' -> f_itable s !! dp = Some i -> f_itable s' !! dp = Some i.
Proof. intros S H. by rewrite (proj1 (same_table _ _ S)). Qed.

(** [dirlookup] finds the entry that [dir_find] finds. *)
Lemma dirlookup_loop_ok cnt fuel dp name s view i bs k :
  let c := contents view i in
  fok s view ∅ bs -> iwf view i -> f_itable s !! dp = Some i -> i_dev i = ROOTDEV -> full view i -> dir_size i ->
  Z.of_nat (length bs) + 1 < NBUF -> (k + cnt = nents c)%nat -> (cnt < fuel)%nat ->
  exists s', same s s' /\ fok s' view ∅ bs /\
    dirlookup_loop fuel dp name (16 * Z.of_nat k) s =
    match dir_find cnt k c name with
    | Some j => (ip <~ iget ROOTDEV (de_inum (entry c j)) ;; kret (Some (ip, 16 * Z.of_nat j))) s'
    | None => Ret (None, s')
    end.
Proof.
  intros c F W Hip Hdev Hf Hd Hr. revert fuel s k F Hip. pose proof Hf as [Hs _]. change (MAXFILE * BSIZE) with 274432 in Hs.
  destruct (dir_nents view i Hd) as [En _]; [lia|]. fold c in En.
  induction cnt as [|cnt IH]; intros fuel s k F Hip Hk Hfuel; (destruct fuel as [|fuel]; [lia|]); cbn [dirlookup_loop dir_find].
  - rewrite (kbind_ret _ _ _ _ _ (ifield_run dp i_size s i Hip)). replace (16 * Z.of_nat k <? i_size i) with false by lia.
    exists s. split_and!; [apply same_refl|done|done].
  - rewrite (kbind_ret _ _ _ _ _ (ifield_run dp i_size s i Hip)). replace (16 * Z.of_nat k <? i_size i) with true by lia.
    destruct (read_entry view i dp s bs k F W Hip Hdev Hf Hd Hr) as (s1 & H1 & S1 & F1); [fold c; lia|]. fold c in H1.
    rewrite (kbind_ret _ _ _ _ _ H1). replace (negb (16 =? DIRENT_SIZE)) with false by done.
    pose proof (same_itable _ _ _ _ S1 Hip) as Hip1. unfold DIRENT_SIZE. rewrite (u32_small (16 * Z.of_nat k + 16)) by lia.
    replace (16 * Z.of_nat k + 16) with (16 * Z.of_nat (S k)) by lia.
    destruct (IH fuel s1 (S k) F1 Hip1) as (s' & S' & F' & H'); [lia..|].
    unfold live. destruct (Z.eqb_spec (de_inum (entry c k)) 0); cbn [negb andb].
    + exists s'. split_and!; [by eapply same_trans|done|done].
    + destruct (namecmp name (de_name (entry c k)) =? 0).
      * rewrite (kbind_ret _ _ _ _ _ (ifield_run dp i_dev s1 i Hip1)), Hdev. by exists s1.
      * exists s'. split_and!; [by eapply same_trans|done|done].
Qed.

Lemma dirlookup_ok dp name s view i bs :
  let c := contents view i in
  fok s view ∅ bs -> iwf view i -> f_itable s !! dp = Some i -> i_dev i = ROOTDEV -> full view i -> dir_size i ->
  i_type i = T_DIR -> Z.of_nat (length bs) + 1 < NBUF ->
  exists s', same s s' /\ fok s' view ∅ bs /\
    dirlookup dp name s =
    match dir_find (nents c) 0 c name with
    | Some j => (ip <~ iget ROOTDEV (de_inum (entry c j)) ;; kret (Some (ip, 16 * Z.of_nat j))) s'
    | None => Ret (None, s')
    end.
Proof.
  intros c F W Hip Hdev Hf Hd Ht Hr. unfold dirlookup. rewrite (kbind_ret _ _ _ _ _ (ifield_run dp i_type s i Hip)), Ht.
  replace (negb (T_DIR =? T_DIR)) with false by done. rewrite (kbind_ret _ _ _ _ _ (ifield_run dp i_size s i Hip)).
  pose proof Hf as [Hs _]. destruct (dir_nents view i Hd) as [En _]; [lia|].
  apply (dirlookup_loop_ok (nents c) _ dp name s view i bs 0); try done. fold c in En. unfold DIRENT_SIZE.
  replace (i_size i / 16) with (Z.of_nat (nents c)); [lia|]. rewrite <- En. by rewrite Z.div_mul.
Qed.

Lemma dirlink_loop_ok cnt fuel dp s view i bs k :
  let c := contents view i in
  fok s view ∅ bs -> iwf view i -> f_itable s !! dp = Some i -> i_dev i = ROOTDEV -> full view i -> dir_size i ->
  Z.of_nat (length bs) + 1 < NBUF -> (k + cnt = nents c)%nat -> (cnt < fuel)%nat ->
  exists s', dirlink_loop fuel dp (16 * Z.of_nat k) s = Ret (16 * Z.of_nat (dir_free cnt k c), s') /\ same s s' /\ fok s' view ∅ bs.
Proof.
  intros c F W Hip Hdev Hf Hd Hr. revert fuel s k F Hip. pose proof Hf as [Hs _]. change (MAXFILE * BSIZE) with 274432 in Hs.
  destruct (dir_nents view i Hd) as [En _]; [lia|]. fold c in En.
  induction cnt as [|cnt IH]; intros fuel s k F Hip Hk Hfuel; (destruct fuel as [|fuel]; [lia|]); cbn [dirlink_loop dir_free];
    rewrite (kbind_ret _ _ _ _ _ (ifield_run dp i_size s i Hip)), (u32_small (16 * Z.of_nat k)) by lia.
  - replace (16 * Z.of_nat k <? i_size i) with false by lia. exists s. split_and!; [done|apply same_refl|done].
  - replace (16 * Z.of_nat k <? i_size i) with true by lia.
    destruct (read_entry view i dp s bs k F W Hip Hdev Hf Hd Hr) as (s1 & H1 & S1 & F1); [fold c; lia|]. fold c in H1.
    rewrite (kbind_ret _ _ _ _ _ H1). replace (negb (16 =? DIRENT_SIZE)) with false by done.
    destruct (Z.eqb_spec (de_inum (entry c k)) 0); [by exists s1|].
    unfold DIRENT_SIZE. rewrite (i32_small (16 * Z.of_nat k + 16)) by lia.
    replace (16 * Z.of_nat k + 16) with (16 * Z.of_nat (S k)) by lia.
    destruct (IH fuel s1 (S k) F1 (same_itable _ _ _ _ S1 Hip)) as (s' & H' & S' & F'); [lia..|].
    exists s'. split_and!; [done|by eapply same_trans|done].
Qed.

Lemma dirlink_ok dp name inum s view i bs :
  let c := contents view i in
  fok s view ∅ bs -> iwf view i -> meta_used sb dstart view -> f_itable s !! dp = Some i -> inode_ok sb i -> full view i -> dir_size i ->
  i_type i = T_DIR -> Forall (fun x => 0 <= x < 256) name -> 0 <= inum < 2 ^ 16 -> dir_find (nents c) 0 c name = None ->
  i_size i + 16 <= MAXFILE * BSIZE -> Z.of_nat (pot i bs) + 6 < NBUF ->
  exists t s' view' i' bs', upd_mem dp i' s s' /\ f_mem s' = f_mem s /\ fok s' view' ∅ bs' /\
    written sb dstart view i bs view' i' bs' (16 * Z.of_nat (dir_free (nents c) 0 c))
      (take (Z.to_nat t) (mk_dirent inum (strncpy 14 name))) /\
    dirlink dp name inum s = Ret ((if t =? 16 then 0 else -1), s') /\ 0 <= t <= 16 /\
    (t < 16 -> forall j, 0 <= j < sb_size sb -> used sb view' j = true).
Proof.
  intros c F W Hm Hip Hok Hf Hd Ht Hn Hi Hnone Hsz Hr. pose proof Hok as (Hdev & _). assert (NBUF = 30) as EN by done.
  pose proof (pot_length sb i bs) as Hpl. pose proof Hf as [Hs _]. change (MAXFILE * BSIZE) with 274432 in Hs, Hsz.
  destruct (dir_nents view i Hd) as [En Hmod]; [lia|]. fold c in En, Hmod.
  destruct (dirlookup_ok dp name s view i bs F W Hip Hdev Hf Hd Ht) as (s1 & S1 & F1 & H1); [lia|]. fold c in H1. rewrite Hnone in H1.
  unfold dirlink. rewrite (kbind_ret _ _ _ _ _ H1). pose proof (same_itable _ _ _ _ S1 Hip) as Hip1.
  rewrite (kbind_ret _ _ _ _ _ (ifield_run dp i_size s1 i Hip1)).
  destruct (dirlink_loop_ok (nents c) (Z.to_nat (i_size i / DIRENT_SIZE) + 2) dp s1 view i bs 0 F1 W Hip1 Hdev Hf Hd)
    as (s2 & H2 & S2 & F2); [lia|done| |].
  { fold c. unfold DIRENT_SIZE. replace (i_size i / 16) with (Z.of_nat (nents c)); [lia|]. rewrite <- En. by rewrite Z.div_mul. }
  fold c in H2. change (16 * Z.of_nat 0) with 0 in H2. rewrite (kbind_ret _ _ _ _ _ H2). pose proof (same_itable _ _ _ _ S2 Hip1) as Hip2.
  pose proof (free_bound c Hmod) as Hfb. assert (length c = Z.to_nat (i_size i)) as Hlc by apply contents_length.
  set (k := dir_free (nents c) 0 c) in *. rewrite (u32_small (16 * Z.of_nat k)), (u16_small inum) by lia.
  change (Z.to_nat DIRSIZ) with 14%nat. set (de := mk_dirent inum (strncpy 14 name)).
  assert (length de = 16%nat) as Hde by (unfold de, mk_dirent; rewrite length_app, strncpy_length; done).
  assert (nblk (16 * Z.of_nat k) 16 = 1)%nat as Hnb.
  { unfold nblk, BSIZE. assert (0 <= 16 * Z.of_nat k mod 1024 <= 1008) by dlia.
    replace ((16 + 16 * Z.of_nat k mod 1024 + 1024 - 1) / 1024) with 1 by dlia. done. }
  destruct (writei_ok sb dstart disk tr Hly Hone dp false 0 (fun m => m = f_mem s2) de view i s2 bs (16 * Z.of_nat k))
    as (t & s3 & view' & i' & bs' & H3 & Ht3 & Hfl & U3 & Q3 & F3 & _ & R3); try done; try lia.
  { intros pre bytes post mem -> _ _. by exists (f_mem s2). }
  { unfold de, mk_dirent. apply Forall_app. split; [repeat constructor; apply u8_range|by apply strncpy_bytes]. }
  { rewrite Hde. change (MAXFILE * BSIZE) with 274432. lia. }
  { rewrite Hde. change (Z.of_nat 16) with 16. rewrite Hnb. lia. }
  rewrite Hde in H3, Ht3, Hfl. change (Z.of_nat 16) with 16 in H3, Ht3, Hfl.
  unfold DIRENT_SIZE. rewrite (kbind_ret _ _ _ _ _ H3).
  exists t, s3, view', i', bs'. split_and!; try done; try lia.
  - pose proof (same_trans _ _ _ S1 S2) as S. unfold upd_mem in *. rewrite U3. cbn. destruct (same_table _ _ S) as (-> & _ & -> & -> & ->). done.
  - rewrite Q3. pose proof (same_trans _ _ _ S1 S2) as S. by destruct (same_table _ _ S) as (_ & -> & _).
  - by destruct (t =? 16).
Qed.
End dir.

(** ** The inode table and path elements *)

(** ** [iget] *)
Definition in_use (i : inode) (dev inum : Z) : Prop := 0 < i_ref i /\ i_dev i = dev /\ i_inum i = inum.

(** No inode has two entries; counts are not negative. *)
Definition itable_ok (t : list inode) : Prop :=
  (forall a b ia ib dev inum, t !! a = Some ia -> t !! b = Some ib -> in_use ia dev inum -> in_use ib dev inum -> a = b) /\
  Forall (fun i => 0 <= i_ref i) t.

Lemma lookup_nil_absurd {A} (x : nat) (y : A) : [] !! x = Some y -> False.
Proof. by rewrite lookup_nil. Qed.

Lemma iget_scan_spec l k dev inum e :
  match iget_scan l k dev inum e with
  | (Some j, _) => exists i, (k <= j)%nat /\ l !! (j - k)%nat = Some i /\ in_use i dev inum
  | (None, e') => (forall x i, l !! x = Some i -> ~ in_use i dev inum) /\
      match e', e with
      | Some y, Some z => y = z
      | Some y, None => exists i, (k <= y)%nat /\ l !! (y - k)%nat = Some i /\ i_ref i = 0
      | None, None => forall x i, l !! x = Some i -> i_ref i <> 0
      | None, Some _ => False
      end
  end.
Proof.
  revert k e. induction l as [|ip l IH]; intros k e; cbn [iget_scan].
  { split; [by intros x i ?%lookup_nil_absurd|]. destruct e; [done|]. by intros x i ?%lookup_nil_absurd. }
  destruct ((0 <? i_ref ip) && (i_dev ip =? dev) && (i_inum ip =? inum)) eqn:E.
  { zb. exists ip. rewrite Nat.sub_diag. split_and!; done. }
  assert (~ in_use ip dev inum) as Hno.
  { intros (H1 & H2 & H3). apply not_true_iff_false in E. apply E.
    rewrite !andb_true_iff, Z.ltb_lt, !Z.eqb_eq. done. }
  set (e1 := match e with None => _ | Some _ => _ end).
  specialize (IH (S k) e1). destruct (iget_scan l (S k) dev inum e1) as [[j|] e'].
  - destruct IH as (i & Hj & Hl & Hu). exists i. split_and!; [lia| |done].
    replace (j - k)%nat with (S (j - S k)) by lia. done.
  - destruct IH as [Hn He]. split.
    { intros [|x] i; cbn; [by intros [= <-]|apply Hn]. }
    unfold e1 in He. destruct e as [z|]; [done|]. destruct (Z.eqb_spec (i_ref ip) 0) as [E0|E0].
    + destruct e' as [y|]; [|done]. subst y. exists ip. rewrite Nat.sub_diag. done.
    + destruct e' as [y|].
      * destruct He as (i & Hy & Hl & Hz). exists i. split_and!; [lia| |done]. replace (y - k)%nat with (S (y - S k)) by lia. done.
      * intros [|x] i; cbn; [by intros [= <-]|apply He].
Qed.

Section iget.
Context {St Mem : Type}.
Implicit Types (s : fstate St Mem).

Definition with_table (t : list inode) s : fstate St Mem := mkF (f_log s) (f_sb s) t (f_mem s) (f_pid s) (f_cwd s).

Lemma updi_with ip f s : updi ip f s = Ret (tt, with_table (alter f ip (f_itable s)) s).
Proof. done. Qed.

(** An entry replaced by one that is in use for (dev, inum). *)
Lemma itable_ok_insert t ip i dev inum :
  itable_ok t -> (ip < length t)%nat -> in_use i dev inum ->
  (forall x ix, x <> ip -> t !! x = Some ix -> ~ in_use ix dev inum) -> itable_ok (<[ip := i]> t).
Proof.
  intros [Hu Hp] Hl (Hr & Hd & Hn) Hother. split.
  - intros a b ia ib d n Ha Hb Ua Ub.
    destruct (decide (a = ip)) as [->|Hna], (decide (b = ip)) as [->|Hnb].
    + done.
    + rewrite list_lookup_insert_eq in Ha by done. rewrite list_lookup_insert_ne in Hb by done. injection Ha as E. subst ia.
      destruct Ua as (_ & E1 & E2). rewrite <- E1, <- E2, Hd, Hn in Ub. by destruct (Hother b ib Hnb Hb).
    + rewrite list_lookup_insert_eq in Hb by done. rewrite list_lookup_insert_ne in Ha by done. injection Hb as E. subst ib.
      destruct Ub as (_ & E1 & E2). rewrite <- E1, <- E2, Hd, Hn in Ua. by destruct (Hother a ia Hna Ha).
    + rewrite list_lookup_insert_ne in Ha, Hb by done. by eapply Hu.
  - apply Forall_insert; [done|lia].
Qed.

Lemma alter_insert_eq {A} (f : A -> A) (l : list A) j x : l !! j = Some x -> alter f j l = <[j := f x]> l.
Proof.
  intros Hj. apply list_eq. intros k. destruct (decide (k = j)) as [->|].
  - rewrite list_lookup_alter_eq, Hj, list_lookup_insert_eq; [done|by eapply lookup_lt_Some].
  - by rewrite list_lookup_alter_ne, list_lookup_insert_ne.
Qed.

(** [iget] returns the one entry of the inode, adding a reference. *)
Lemma iget_ok s dev inum :
  itable_ok (f_itable s) ->
  (exists ip i0 i, iget dev inum s = Ret (ip, with_table (<[ip := i]> (f_itable s)) s) /\
     itable_ok (<[ip := i]> (f_itable s)) /\ f_itable s !! ip = Some i0 /\ in_use i dev inum /\
     ((in_use i0 dev inum /\ i = set_ref (i_ref i0 + 1) i0) \/
      (i_ref i0 = 0 /\ i_ref i = 1 /\ i_valid i = 0 /\ forall x ix, f_itable s !! x = Some ix -> ~ in_use ix dev inum))) \/
  (iget dev inum s = Panic "iget: no inodes" /\ forall x i, f_itable s !! x = Some i -> i_ref i <> 0 /\ ~ in_use i dev inum).
Proof.
  intros Hok. pose proof Hok as [Hu Hpos].
  pose proof (iget_scan_spec (f_itable s) 0 dev inum None) as H.
  destruct (iget_scan (f_itable s) 0 dev inum None) as [[ip|] e] eqn:Es.
  - left. destruct H as (i0 & _ & Hl & Hin). rewrite Nat.sub_0_r in Hl. pose proof Hin as (H1 & H2 & H3).
    exists ip, i0, (set_ref (i_ref i0 + 1) i0). unfold iget, kbind, gets. rewrite Es, updi_with, (alter_insert_eq _ _ _ _ Hl).
    assert (in_use (set_ref (i_ref i0 + 1) i0) dev inum) as Hin' by (split_and!; cbn; [lia|done|done]).
    split_and!; [done| |done|done|by left].
    apply (itable_ok_insert _ _ _ dev inum); [done|by eapply lookup_lt_Some|done|].
    intros x ix Hx Hlx Hux. by apply Hx, (Hu x ip ix i0 dev inum).
  - destruct H as [Hn He]. destruct e as [ip|].
    + left. destruct He as (i0 & _ & Hl & Hz). rewrite Nat.sub_0_r in Hl. eexists ip, i0, _. unfold iget, kbind, gets.
      rewrite Es, updi_with, (alter_insert_eq _ _ _ _ Hl). split; [reflexivity|]. split.
      * apply (itable_ok_insert _ _ _ dev inum); [done|by eapply lookup_lt_Some|by split_and!|].
        intros x ix _ Hlx. by eapply Hn.
      * split; [exact Hl|]. split; [by split_and!|]. right. done.
    + right. split; [unfold iget, kbind, gets; by rewrite Es|]. intros x i Hx. split; [by eapply He|by eapply Hn].
Qed.
End iget.

(** ** Path elements *)

(** The elements of a path: the maximal runs without a slash. *)
Fixpoint split_path (cur : list Z) (path : list Z) : list (list Z) :=
  match path with
  | [] => match cur with [] => [] | _ => [cur] end
  | c :: path =>
      if c =? 47 then match cur with [] => split_path [] path | _ => cur :: split_path [] path end
      else split_path (cur ++ [c]) path
  end.
Definition elems (path : list Z) : list (list Z) := split_path [] path.

Lemma elems_skip path : elems (skip_slashes path) = elems path.
Proof.
  induction path as [|c path IH]; [done|]. unfold elems in *. cbn [skip_slashes].
  destruct (Z.eqb_spec c 47) as [->|Hne]; [by rewrite IH|done].
Qed.
Lemma skip_not_slash path : hd 0 (skip_slashes path) <> 47.
Proof.
  induction path as [|c path IH]; [cbn; lia|]. cbn [skip_slashes]. by destruct (Z.eqb_spec c 47).
Qed.

(** Taking the first element of a path that starts with one. *)
Lemma split_first path cur :
  Forall (fun c => c <> 0) path -> (cur <> [] \/ (path <> [] /\ hd 0 path <> 47)) ->
  split_path cur path = (cur ++ take (elem_len path) path) :: elems (drop (elem_len path) path).
Proof.
  revert cur. induction path as [|c path IH]; intros cur HF Hne; cbn [split_path elem_len].
  - destruct cur as [|x cur]; [by destruct Hne as [?|[? _]]|]. rewrite app_nil_r. done.
  - apply Forall_cons in HF as [Hc HF]. destruct (Z.eqb_spec c 47) as [->|Hne'].
    + destruct cur as [|x cur]; [by destruct Hne as [?|[_ ?]]|]. cbn [orb take drop]. rewrite app_nil_r. done.
    + replace (c =? 0) with false by lia. cbn [orb take drop]. rewrite IH; [|done|left; by intros [_ ?]%app_eq_nil].
      by rewrite <- app_assoc.
Qed.
