(* ===== verification/FsTrunc.v ===== *)
(** * [itrunc]: every block of the inode goes back to the free map *)
From S2P Require Import Prelude Machine Spinlock Blocks Log LogProof LogCrash LogTxn Fs FsBase FsBlock FsMap FsData FsWrite.

Section freed.
Context (sb : superblock) (dstart : Z).
Hypothesis Hly : layout sb dstart.
Hypothesis Hone : sb_size sb <= BPB.
Implicit Types (view : Z -> block).
Abbreviation used := (used sb).
Abbreviation bm := (sb_bmapstart sb).

(** The blocks of [l] freed one after the other. *)
Fixpoint freed_all view (l : list Z) : Z -> block :=
  match l with
  | [] => view
  | b :: l => freed_all (freed sb view b) l
  end.

Definition nz (l : list Z) : list Z := filter (fun a => a <> 0) l.

Lemma freed_other view b k : 0 <= b < sb_size sb -> k <> bm -> freed sb view b k = view k.
Proof. intros Hb Hk. unfold freed. rewrite (BBLOCK_one sb dstart Hly Hone b Hb). by apply fupd_ne. Qed.

Lemma freed_all_other view l k : Forall (fun b => 0 <= b < sb_size sb) l -> k <> bm -> freed_all view l k = view k.
Proof.
  intros HF Hk. revert view. induction HF as [|b l Hb HF IH]; intros view; cbn; [done|]. rewrite IH. by apply freed_other.
Qed.

Lemma freed_ok view b : (forall k, block_ok (view k)) -> forall k, block_ok (freed sb view b k).
Proof. intros Hok k. unfold freed, fupd. destruct (_ =? _); [apply clear_bit_ok, Hok|apply Hok]. Qed.

Lemma freed_all_used view l j :
  (forall k, block_ok (view k)) -> NoDup l -> Forall (fun b => 0 <= b < sb_size sb /\ used view b = true) l -> 0 <= j < sb_size sb ->
  used (freed_all view l) j = negb (bool_decide (j ∈ l)) && used view j.
Proof.
  revert view. induction l as [|b l IH]; intros view Hok Hnd HF Hj; cbn [freed_all].
  - rewrite bool_decide_false by apply not_elem_of_nil. done.
  - apply NoDup_cons in Hnd as [Hb Hnd]. apply Forall_cons in HF as [[Hr Hu] HF].
    rewrite IH; [|by apply freed_ok|done| |done].
    + rewrite (freed_used sb dstart Hly) by done. destruct (Z.eqb_spec j b) as [->|Hne]; cbn [negb andb].
      * rewrite andb_false_r. rewrite (bool_decide_true (b ∈ b :: l)) by inlist. done.
      * f_equal. f_equal. apply bool_decide_ext. rewrite elem_of_cons. naive_solver.
    + apply Forall_forall. intros x Hx. rewrite Forall_forall in HF. destruct (HF x Hx) as [Hxr Hxu]. split; [done|].
      rewrite (freed_used sb dstart Hly) by done. rewrite Hxu, andb_true_r. apply negb_true_iff, Z.eqb_neq. by intros ->.
Qed.
End freed.

Section trunc.
Context {St Mem : Type} `{!BlockIO St} `{!BlockLaws St} `{!UserMem Mem}.
Context (sb : superblock) (dstart : Z) (disk : Z -> block) (tr : list (Z * block)).
Hypothesis Hly : layout sb dstart.
Hypothesis Hone : sb_size sb <= BPB.
Implicit Types (s : fstate St Mem) (view : Z -> block) (held : gmap nat Z) (bs : list Z) (i : inode).

Abbreviation fok := (fok sb disk tr).
Abbreviation used := (used sb).
Abbreviation data_block := (data_block sb dstart).
Abbreviation iwf := (iwf sb dstart).
Abbreviation bm := (sb_bmapstart sb).
Abbreviation freed_all := (freed_all sb).

Lemma freed_all_app view l l' : freed_all view (l ++ l') = freed_all (freed_all view l) l'.
Proof. revert view. induction l as [|b l IH]; intros view; cbn; [done|]. apply IH. Qed.

(** [bfree] on a used block, whatever data blocks are held. *)
Lemma bfree_run s view held bs b :
  fok s view held bs -> data_block b -> used view b = true -> nheld held bm = 0%nat ->
  Z.of_nat (length bs + size held) < NBUF ->
  exists s', bfree ROOTDEV b s = Ret (tt, s') /\ same s s' /\ fok s' (freed sb view b) held (absorb bs bm).
Proof.
  intros F Db Hu Hh Hr. assert (NBUF = 30 /\ LOGBLOCKS = 30) as [EN EL] by done.
  pose proof (data_pos sb dstart Hly b Db) as Hb.
  pose proof (bfree_ok sb dstart disk tr Hly s view held bs b F ltac:(lia)) as H.
  rewrite (BBLOCK_one sb dstart Hly Hone b) in H by lia. rewrite Hu in H. apply H; [done|done|lia].
Qed.

Lemma absorb_twice bs k : absorb (absorb bs k) k = absorb bs k.
Proof. unfold absorb at 1. by rewrite decide_True by apply absorb_in. Qed.

(** The log after some frees. *)
Definition logged_bm (l : list Z) bs : list Z := match l with [] => bs | _ => absorb bs bm end.
Lemma logged_bm_cons b l bs : logged_bm l (absorb bs bm) = logged_bm (b :: l) bs.
Proof. destruct l; cbn; [done|apply absorb_twice]. Qed.
Lemma logged_bm_len l bs : (length (logged_bm l bs) <= S (length bs))%nat.
Proof. destruct l; cbn [logged_bm]; [lia|apply absorb_len]. Qed.
Lemma logged_bm_app l l' bs : logged_bm l' (logged_bm l bs) = logged_bm (l ++ l') bs.
Proof. destruct l; [done|]. destruct l'; cbn; [done|apply absorb_twice]. Qed.

(** The direct blocks from [j] on. *)
Definition zero_from (i : inode) (j cnt : nat) : inode :=
  mkInode (i_dev i) (i_inum i) (i_ref i) (i_lock i) (i_valid i) (i_type i) (i_major i) (i_minor i) (i_nlink i) (i_size i)
    (take j (i_addrs i) ++ replicate cnt 0 ++ drop (j + cnt) (i_addrs i)).

Lemma zero_from_0 i j : zero_from i j 0 = i.
Proof. unfold zero_from. rewrite Nat.add_0_r. cbn. rewrite take_drop. by destruct i. Qed.

Lemma trunc_direct_ok cnt j ip s view bs i :
  let l := nz (take cnt (drop j (i_addrs i))) in
  fok s view ∅ bs -> f_itable s !! ip = Some i -> i_dev i = ROOTDEV -> (j + cnt <= length (i_addrs i))%nat ->
  NoDup l -> Forall (fun b => data_block b /\ used view b = true) l -> Z.of_nat (length (absorb bs bm)) < NBUF ->
  exists s', trunc_direct cnt j ip s = Ret (tt, s') /\ upd_inode ip (zero_from i j cnt) s s' /\
    fok s' (freed_all view l) ∅ (logged_bm l bs).
Proof.
  revert j s view bs i. induction cnt as [|cnt IH]; intros j s view bs i l F Hip Hdev Hl Hnd HF Hr; cbn [trunc_direct].
  { exists s. split_and!; [done| |done]. rewrite zero_from_0. apply upd_same; [done|apply same_refl]. }
  rewrite (kbind_ret _ _ _ _ _ (addr_run ip j s i Hip)), (kbind_ret _ _ _ _ _ (ifield_run ip i_dev s i Hip)), Hdev.
  destruct (lookup_lt_is_Some_2 (i_addrs i) j) as [a Ha]; [lia|]. rewrite nth_lookup, Ha. cbn [default].
  assert (take (S cnt) (drop j (i_addrs i)) = a :: take cnt (drop (S j) (i_addrs i))) as Et by (by rewrite (drop_S _ a)).
  set (i1 := set_addr j 0 i).
  assert (drop (S j) (i_addrs i1) = drop (S j) (i_addrs i)) as Ed by (unfold i1; cbn; apply drop_insert_lt; lia).
  assert (zero_from i1 (S j) cnt = zero_from i j (S cnt)) as Ez.
  { unfold zero_from, i1, set_addr. cbn [i_dev i_inum i_ref i_lock i_valid i_type i_major i_minor i_nlink i_size i_addrs]. f_equal.
    rewrite (take_S_r _ _ 0) by (apply list_lookup_insert_eq; lia). rewrite take_insert_ge by lia. rewrite drop_insert_lt by lia.
    rewrite <- app_assoc. cbn. by replace (S (j + cnt)) with (j + S cnt)%nat by lia. }
  unfold id. destruct (Z.eqb_spec a 0) as [->|Hnz]; cbn [negb].
  - assert (l = nz (take cnt (drop (S j) (i_addrs i)))) as El by (unfold l; rewrite Et; done).
    unfold kbind at 1, kret at 1. assert (i1 = i) as E1.
    { unfold i1, set_addr. rewrite list_insert_id by done. by destruct i. }
    rewrite <- Ez, E1, El. rewrite El in Hnd, HF. apply IH; try done; lia.
  - assert (l = a :: nz (take cnt (drop (S j) (i_addrs i)))) as El.
    { unfold l, nz. rewrite Et. by rewrite filter_cons_True. }
    rewrite El in Hnd, HF |- *. apply NoDup_cons in Hnd as [Hna Hnd]. apply Forall_cons in HF as [[Da Ua] HF].
    destruct (bfree_run s view ∅ bs a F Da Ua (nheld_empty _)) as (s1 & H1 & S1 & F1).
    { rewrite map_size_empty. pose proof (absorb_length bs bm). lia. }
    rewrite <- kbind_assoc. rewrite (kbind_ret _ _ _ _ _ H1).
    assert (f_itable s1 !! ip = Some i) as Hip1 by (by rewrite (proj1 (same_table _ _ S1))).
    destruct (updi_run sb disk tr ip (set_addr j 0) s1 i _ _ _ Hip1 F1) as (s2 & H2 & U2 & F2). fold i1 in U2.
    rewrite (kbind_ret _ _ _ _ _ H2).
    destruct (IH (S j) s2 (freed sb view a) (absorb bs bm) i1 F2) as (s' & H' & U' & F').
    + eapply upd_table; [exact U2|by eapply lookup_lt_Some].
    + done.
    + unfold i1. cbn. rewrite length_insert. lia.
    + by rewrite Ed.
    + rewrite Ed. apply Forall_forall. intros x Hx. rewrite Forall_forall in HF. destruct (HF x Hx) as [Dx Ux]. split; [done|].
      pose proof (data_pos sb dstart Hly x Dx). pose proof (data_pos sb dstart Hly a Da).
      rewrite (freed_used sb dstart Hly); [|intros; by eapply fok_block_ok|lia|done|lia].
      rewrite Ux, andb_true_r. apply negb_true_iff, Z.eqb_neq. intros ->. done.
    + by rewrite absorb_twice.
    + exists s'. rewrite Ed in F'. rewrite Ez in U'. split_and!; [done| |].
      * eapply upd_trans; [|exact U']. by eapply upd_same_l.
      * cbn [freed_all]. by rewrite <- (logged_bm_cons a).
Qed.

(** The entries of an indirect block. *)
Definition ents (d : block) (j cnt : nat) : list Z := (fun x => bld 4 d (4 * x)) <$> seq j cnt.

Lemma trunc_indirect_ok cnt j p k s view bs :
  let l := nz (ents (view k) j cnt) in
  fok s view {[p := k]} bs -> data_block k -> NoDup l -> Forall (fun b => data_block b /\ used view b = true) l ->
  Z.of_nat (length (absorb bs bm)) + 1 < NBUF ->
  exists s', trunc_indirect cnt j ROOTDEV p s = Ret (tt, s') /\ same s s' /\ fok s' (freed_all view l) {[p := k]} (logged_bm l bs).
Proof.
  revert j s view bs. induction cnt as [|cnt IH]; intros j s view bs l F Dk Hnd HF Hr; cbn [trunc_indirect].
  { exists s. split_and!; [done|apply same_refl|done]. }
  rewrite (kbind_ret _ _ _ _ _ (f_data _ _ _ _ _ _ _ _ k F (lookup_insert_eq _ _ _))). cbv zeta.
  set (a := bld 4 (view k) (4 * j)).
  assert (ents (view k) j (S cnt) = a :: ents (view k) (S j) cnt) as Ee by done.
  destruct (Z.eqb_spec a 0) as [E0|Hnz]; cbn [negb].
  - assert (l = nz (ents (view k) (S j) cnt)) as El by (unfold l; rewrite Ee; unfold nz; by rewrite filter_cons_False by lia).
    unfold kbind at 1, kret at 1. rewrite El. rewrite El in Hnd, HF. by apply IH.
  - assert (l = a :: nz (ents (view k) (S j) cnt)) as El by (unfold l, nz; rewrite Ee; by rewrite filter_cons_True).
    rewrite El in Hnd, HF |- *. apply NoDup_cons in Hnd as [Hna Hnd]. apply Forall_cons in HF as [[Da Ua] HF].
    pose proof (data_ne_bm sb dstart Hly k Dk) as Hkb. pose proof (data_pos sb dstart Hly a Da) as Hap.
    destruct (bfree_run s view {[p := k]} bs a F Da Ua) as (s1 & H1 & S1 & F1).
    { rewrite nheld_one. by rewrite decide_False. }
    { rewrite map_size_singleton. pose proof (absorb_length bs bm). lia. }
    rewrite (kbind_ret _ _ _ _ _ H1).
    assert (freed sb view a k = view k) as Ek by (apply (freed_other sb dstart Hly Hone); [lia|done]).
    destruct (IH (S j) s1 (freed sb view a) (absorb bs bm) F1 Dk) as (s' & H' & S' & F'); rewrite ?Ek.
    + done.
    + apply Forall_forall. intros x Hx. rewrite Forall_forall in HF. destruct (HF x Hx) as [Dx Ux]. split; [done|].
      pose proof (data_pos sb dstart Hly x Dx).
      rewrite (freed_used sb dstart Hly); [|intros; by eapply fok_block_ok|lia|done|lia].
      rewrite Ux, andb_true_r. apply negb_true_iff, Z.eqb_neq. intros ->. done.
    + by rewrite absorb_twice.
    + exists s'. rewrite Ek in F'. split_and!; [done|by eapply same_trans|]. cbn [freed_all]. by rewrite <- (logged_bm_cons a).
Qed.

(** ** All blocks of an inode *)
Definition iblocks view i : list Z :=
  nz (take 12 (i_addrs i)) ++ (if ind i =? 0 then [] else nz (ents (view (ind i)) 0 256) ++ [ind i]).

Lemma NoDup_nz (l : list Z) :
  (forall a b x, l !! a = Some x -> l !! b = Some x -> x <> 0 -> a = b) -> NoDup (nz l).
Proof.
  induction l as [|x l IH]; intros H; [constructor|]. unfold nz in *. destruct (decide (x <> 0)) as [Hx|Hx].
  - rewrite filter_cons_True by done. apply NoDup_cons. split.
    + intros [_ Hin]%list_elem_of_filter. apply list_elem_of_lookup in Hin as [b Hb].
      specialize (H 0%nat (S b) x eq_refl Hb Hx). discriminate H.
    + apply IH. intros a b y Ha Hb Hy. specialize (H (S a) (S b) y Ha Hb Hy). lia.
  - rewrite filter_cons_False by done. apply IH. intros a b y Ha Hb Hy. specialize (H (S a) (S b) y Ha Hb Hy). lia.
Qed.

Lemma direct_block view i a x : length (i_addrs i) = 13%nat -> take 12 (i_addrs i) !! a = Some x ->
  (a < 12)%nat /\ blockno view i (Z.of_nat a) = x.
Proof.
  intros Hl H. pose proof (lookup_lt_Some _ _ _ H) as Hlt. rewrite length_take, Hl in Hlt.
  rewrite lookup_take_lt in H by lia. split; [lia|]. unfold blockno, NDIRECT.
  replace (Z.of_nat a <? 12) with true by lia. rewrite Nat2Z.id, nth_lookup, H. done.
Qed.
Lemma indirect_block view i a x : ind i <> 0 -> ents (view (ind i)) 0 256 !! a = Some x ->
  (a < 256)%nat /\ blockno view i (12 + Z.of_nat a) = x.
Proof.
  intros Hi H. unfold ents in H. rewrite list_lookup_fmap in H. pose proof (lookup_lt_Some (seq 0 256) a) as Hlt.
  destruct (seq 0 256 !! a) as [y|] eqn:E; [|discriminate H]. apply lookup_seq in E as [-> Ha]. injection H as <-. split; [lia|].
  unfold blockno, NDIRECT. replace (12 + Z.of_nat a <? 12) with false by lia. destruct (Z.eqb_spec (ind i) 0); [done|].
  by replace (Z.to_nat (4 * (12 + Z.of_nat a - 12))) with (4 * (0 + a))%nat by lia.
Qed.

Lemma nz_elem l x : x ∈ nz l <-> x <> 0 /\ exists a, l !! a = Some x.
Proof. unfold nz. rewrite list_elem_of_filter, list_elem_of_lookup. done. Qed.

(** What [iblocks] lists. *)
Lemma iblocks_elem view i x : iwf view i ->
  x ∈ iblocks view i <-> x <> 0 /\ (x = ind i \/ exists bn, 0 <= bn < MAXFILE /\ blockno view i bn = x).
Proof.
  intros W. pose proof (iw_len _ _ _ _ W) as Hl. change MAXFILE with 268. unfold iblocks. rewrite elem_of_app, nz_elem. split.
  - intros [[Hx [a Ha]]|Hx].
    + destruct (direct_block view i a x Hl Ha) as [Hlt E]. split; [done|]. right. exists (Z.of_nat a). split; [lia|done].
    + destruct (Z.eqb_spec (ind i) 0) as [|Hi]; [by apply elem_of_nil in Hx|].
      apply elem_of_app in Hx as [[Hx [a Ha]]%nz_elem|Hx].
      * destruct (indirect_block view i a x Hi Ha) as [Hlt E]. split; [done|]. right. exists (12 + Z.of_nat a). split; [lia|done].
      * apply list_elem_of_singleton in Hx as ->. split; [done|]. by left.
  - intros [Hx [->|(bn & Hbn & E)]].
    + right. destruct (Z.eqb_spec (ind i) 0); [done|]. apply elem_of_app. right. by apply list_elem_of_singleton.
    + unfold blockno, NDIRECT in E. destruct (Z.ltb_spec bn 12) as [Hlt|Hge].
      * left. split; [done|]. exists (Z.to_nat bn). rewrite lookup_take_lt by lia. rewrite nth_lookup in E.
        destruct (lookup_lt_is_Some_2 (i_addrs i) (Z.to_nat bn)) as [y Hy]; [lia|]. rewrite Hy in *. cbn in E. by subst.
      * right. destruct (Z.eqb_spec (ind i) 0) as [|Hi]; [congruence|]. apply elem_of_app. left. apply nz_elem. split; [done|].
        exists (Z.to_nat (bn - 12)). unfold ents. rewrite list_lookup_fmap, lookup_seq_lt by lia. cbn [fmap option_fmap option_map]. rewrite <- E. by replace (4 * (0 + Z.to_nat (bn - 12)))%nat with (Z.to_nat (4 * (bn - 12))) by lia.
Qed.

Lemma iblocks_ok view i : iwf view i ->
  NoDup (iblocks view i) /\ Forall (fun b => data_block b /\ used view b = true) (iblocks view i).
Proof.
  intros W. pose proof W as [W1 W2 W3 W4]. change MAXFILE with 268 in *. split.
  - unfold iblocks. apply NoDup_app. split_and!.
    + apply NoDup_nz. intros a b x Ha Hb Hx. destruct (direct_block view i a x W1 Ha) as [Hla Ea], (direct_block view i b x W1 Hb) as [Hlb Eb].
      apply Nat2Z.inj. apply W3; [lia|lia|congruence|congruence].
    + intros x [Hx [a Ha]]%nz_elem Hin. destruct (direct_block view i a x W1 Ha) as [Hla Ea].
      destruct (Z.eqb_spec (ind i) 0) as [|Hi]; [by apply elem_of_nil in Hin|].
      apply elem_of_app in Hin as [[_ [b Hb]]%nz_elem|Hin].
      * destruct (indirect_block view i b x Hi Hb) as [Hlb Eb]. assert (Z.of_nat a = 12 + Z.of_nat b); [|lia].
        apply W3; [lia|lia|congruence|congruence].
      * apply list_elem_of_singleton in Hin as ->. destruct (W4 Hi) as (_ & _ & N). by apply (N (Z.of_nat a)); [lia|].
    + destruct (Z.eqb_spec (ind i) 0) as [|Hi]; [constructor|]. apply NoDup_app. split_and!; [| |apply NoDup_singleton].
      * apply NoDup_nz. intros a b x Ha Hb Hx.
        destruct (indirect_block view i a x Hi Ha) as [Hla Ea], (indirect_block view i b x Hi Hb) as [Hlb Eb].
        assert (12 + Z.of_nat a = 12 + Z.of_nat b); [|lia]. apply W3; [lia|lia|congruence|congruence].
      * intros x [Hx [a Ha]]%nz_elem ->%list_elem_of_singleton. destruct (indirect_block view i a _ Hi Ha) as [Hla Ea].
        destruct (W4 Hi) as (_ & _ & N). by apply (N (12 + Z.of_nat a)); [lia|].
  - apply Forall_forall. intros x Hx. apply iblocks_elem in Hx as [Hnz [->|(bn & Hbn & <-)]]; [|by apply W2|done].
    by destruct (W4 Hnz) as (? & ? & _).
Qed.

(** The inode without its blocks. *)
Definition emptied i : inode :=
  mkInode (i_dev i) (i_inum i) (i_ref i) (i_lock i) (i_valid i) (i_type i) (i_major i) (i_minor i) (i_nlink i) 0 (replicate 13 0).

Lemma freed_all_range l view : Forall (fun b => data_block b /\ used view b = true) l -> Forall (fun b => 0 <= b < sb_size sb) l.
Proof. intros H. eapply Forall_impl; [exact H|]. intros b [Db _]. pose proof (data_pos sb dstart Hly b Db). lia. Qed.

(** The indirect part of [itrunc]. *)
Definition trunc_ind (ip : nat) (a : Z) : M (fstate St Mem) unit :=
  bp <~ bread ROOTDEV a ;; trunc_indirect (Z.to_nat NINDIRECT) 0 ROOTDEV bp ;;; brelse bp ;;; bfree ROOTDEV a ;;; updi ip (set_addr 12 0).

Lemma trunc_ind_ok ip s view bs i k :
  let l := nz (ents (view k) 0 256) in
  fok s view ∅ bs -> f_itable s !! ip = Some i -> data_block k -> used view k = true -> (k ∉ l) -> NoDup l ->
  Forall (fun b => data_block b /\ used view b = true) l -> Z.of_nat (length (absorb bs bm)) + 1 < NBUF ->
  exists s', trunc_ind ip k s = Ret (tt, s') /\ upd_inode ip (set_addr 12 0 i) s s' /\
    fok s' (freed_all view (l ++ [k])) ∅ (logged_bm (l ++ [k]) bs).
Proof.
  intros l F Hip Dk Uk Hkl Hnd HF Hr. pose proof (data_ne_bm sb dstart Hly k Dk) as Hkb. pose proof (data_pos sb dstart Hly k Dk) as Hkp.
  pose proof (absorb_length bs bm) as Ha. pose proof (clean_block sb disk tr s view ∅ bs k F (nheld_empty _)) as Hcl.
  destruct (f_read sb dstart disk tr Hly s view ∅ bs k F (data_fs sb dstart Hly k Dk) (nheld_empty _)) as (p & s1 & H1 & _ & S1 & F1);
    [unfold room; rewrite map_size_empty; lia|].
  unfold trunc_ind. rewrite (kbind_ret _ _ _ _ _ H1). change (Z.to_nat NINDIRECT) with 256%nat.
  destruct (trunc_indirect_ok 256 0 p k s1 view bs F1 Dk Hnd HF Hr) as (s2 & H2 & S2 & F2). fold l in F2.
  rewrite (kbind_ret _ _ _ _ _ H2).
  destruct (f_relse sb disk tr s2 _ _ _ p k F2 (lookup_insert_eq _ _ _)) as (s3 & H3 & S3 & F3).
  { rewrite (freed_all_other sb dstart Hly Hone view l k) by (first [done|by eapply freed_all_range]). destruct Hcl; [left|by right].
    destruct l; cbn [logged_bm]; [done|by apply absorb_sub]. }
  rewrite (kbind_ret _ _ _ _ _ H3). rewrite delete_singleton_eq in F3.
  assert (used (freed_all view l) k = true) as Uk'.
  { rewrite (freed_all_used sb dstart Hly); [|intros; by eapply fok_block_ok|done| |lia].
    - rewrite bool_decide_false by done. done.
    - eapply Forall_impl; [exact HF|]. intros b [Db Ub]. pose proof (data_pos sb dstart Hly b Db). split; [lia|done]. }
  destruct (bfree_run s3 (freed_all view l) ∅ (logged_bm l bs) k F3 Dk Uk' (nheld_empty _)) as (s4 & H4 & S4 & F4).
  { rewrite map_size_empty. pose proof (logged_bm_len l bs). destruct l; cbn [logged_bm] in *; lia. }
  rewrite (kbind_ret _ _ _ _ _ H4). pose proof (same_trans _ _ _ S1 (same_trans _ _ _ S2 (same_trans _ _ _ S3 S4))) as S.
  assert (f_itable s4 !! ip = Some i) as Hip4 by (by rewrite (proj1 (same_table _ _ S))).
  destruct (updi_run sb disk tr ip (set_addr 12 0) s4 i _ _ _ Hip4 F4) as (s5 & H5 & U5 & F5).
  exists s5. split_and!; [done|by eapply upd_same_l|]. rewrite freed_all_app. cbn [freed_all].
  replace (logged_bm (l ++ [k]) bs) with (absorb (logged_bm l bs) bm); [done|].
  destruct l; cbn [app logged_bm]; [done|apply absorb_twice].
Qed.

Lemma zero_from_length i j cnt : (j + cnt <= length (i_addrs i))%nat -> length (i_addrs (zero_from i j cnt)) = length (i_addrs i).
Proof. intros. unfold zero_from. cbn [i_addrs]. rewrite !length_app, length_take, length_drop, length_replicate. lia. Qed.

(** The rest of [itrunc], after the direct blocks were freed. *)
Lemma trunc_tail_ok ip s view bs i i1 :
  let l1 := nz (take 12 (i_addrs i)) in
  iwf view i -> (forall k, block_ok (view k)) -> fok s (freed_all view l1) ∅ (logged_bm l1 bs) -> f_itable s !! ip = Some i1 ->
  ind i1 = ind i -> length (i_addrs i1) = 13%nat -> Z.of_nat (length bs) + 3 < NBUF ->
  exists s', (if negb (ind i =? 0) then trunc_ind ip (ind i) else kret tt) s = Ret (tt, s') /\
    upd_inode ip (set_addr 12 0 i1) s s' /\ fok s' (freed_all view (iblocks view i)) ∅ (logged_bm (iblocks view i) bs).
Proof.
  intros l1 W Hblk F1 Hip1 Ei1 Hl1 Hr. destruct (iblocks_ok view i W) as [Hnd HF]. unfold iblocks in *. fold l1 in Hnd, HF |- *.
  apply NoDup_app in Hnd as (Hnd1 & Hdisj & Hnd2). apply Forall_app in HF as [HF1 HF2].
  destruct (Z.eqb_spec (ind i) 0) as [E0|Hi]; cbn [negb].
  - exists s. split_and!; [done| |by rewrite app_nil_r]. apply upd_same; [|apply same_refl]. rewrite Hip1. f_equal.
    unfold set_addr. rewrite list_insert_id; [by destruct i1|]. rewrite <- E0, <- Ei1. unfold ind. rewrite nth_lookup.
    by destruct (lookup_lt_is_Some_2 (i_addrs i1) 12) as [y ->]; [lia|].
  - apply NoDup_app in Hnd2 as (Hnd3 & Hnk & _). apply Forall_app in HF2 as [HF3 [[Di Ui] _]%Forall_cons].
    set (view1 := freed_all view l1) in *.
    assert (view1 (ind i) = view (ind i)) as Ev by (apply (freed_all_other sb dstart Hly Hone); [by eapply freed_all_range|by apply (data_ne_bm sb dstart)]).
    assert (forall b, data_block b -> used view b = true -> (b ∉ l1) -> used view1 b = true) as Hu1.
    { intros b Db Ub Hb. pose proof (data_pos sb dstart Hly b Db). unfold view1.
      rewrite (freed_all_used sb dstart Hly); [by rewrite bool_decide_false, Ub|done|done| |lia].
      eapply Forall_impl; [exact HF1|]. intros x [Dx Ux]. pose proof (data_pos sb dstart Hly x Dx). split; [lia|done]. }
    destruct (trunc_ind_ok ip s view1 (logged_bm l1 bs) i1 (ind i) F1 Hip1 Di) as (s2 & H2 & U2 & F2); rewrite ?Ev.
    + apply Hu1; [done|done|]. intros Hin. apply (Hdisj _ Hin). apply elem_of_app. right. by apply list_elem_of_singleton.
    + intros Hin. apply (Hnk _ Hin). by apply list_elem_of_singleton.
    + done.
    + apply Forall_forall. intros b Hb. rewrite Forall_forall in HF3. destruct (HF3 b Hb) as [Db Ub]. split; [done|].
      apply Hu1; [done|done|]. intros Hin. apply (Hdisj _ Hin). apply elem_of_app. by left.
    + pose proof (absorb_len (logged_bm l1 bs) bm). pose proof (logged_bm_len l1 bs). lia.
    + exists s2. split_and!; [done|done|]. rewrite Ev in F2. by rewrite freed_all_app, <- logged_bm_app.
Qed.

Lemma emptied_eq i : length (i_addrs i) = 13%nat -> set_size 0 (set_addr 12 0 (zero_from i 0 12)) = emptied i.
Proof.
  intros Hl. unfold set_size, set_addr, zero_from, emptied. cbn [i_dev i_inum i_ref i_lock i_valid i_type i_major i_minor i_nlink i_size i_addrs].
  f_equal. rewrite take_0. cbn [app plus].
  destruct (drop 12 (i_addrs i)) as [|a [|b l]] eqn:E; apply (f_equal length) in E; rewrite length_drop, Hl in E; cbn in E; try lia.
  done.
Qed.

Lemma emptied_ok i : inode_ok sb i -> inode_ok sb (emptied i).
Proof.
  intros (Hdev & Hin & (D1 & D2 & D3 & D4 & _)). split; [done|]. split; [done|].
  split; [apply D1|]. split; [apply D2|]. split; [apply D3|]. split; [apply D4|]. split; [cbn; lia|]. split; [done|].
  apply (Forall_replicate _ 13). lia.
Qed.

Lemma itrunc_ok ip s view bs i :
  let k := IBLOCK (i_inum i) sb in let view' := freed_all view (iblocks view i) in
  fok s view ∅ bs -> iwf view i -> f_itable s !! ip = Some i -> inode_ok sb i -> Z.of_nat (length bs) + 3 < NBUF ->
  exists s', itrunc ip s = Ret (tt, s') /\ upd_inode ip (emptied i) s s' /\
    fok s' (fupd view' k (put_dinode (view' k) (dip (i_inum i)) (dinode_of (emptied i)))) ∅
      (absorb (logged_bm (iblocks view i) bs) k).
Proof.
  intros k view' F W Hip Hok Hr. pose proof Hok as (Hdev & _). destruct (iblocks_ok view i W) as [Hnd HF].
  pose proof (iw_len _ _ _ _ W) as Hlen. assert (NBUF = 30) as EN by done. pose proof (absorb_len bs bm) as Hal.
  pose proof (fun k => fok_block_ok sb disk tr s view ∅ bs k F) as Hblk.
  apply NoDup_app in Hnd as (Hnd1 & _). apply Forall_app in HF as [HF1 _].
  destruct (trunc_direct_ok 12 0 ip s view bs i F Hip Hdev) as (s1 & H1 & U1 & F1); try done; try lia.
  rewrite drop_0 in F1. set (i1 := zero_from i 0 12) in *.
  assert (f_itable s1 !! ip = Some i1) as Hip1 by (eapply upd_table; [exact U1|by eapply lookup_lt_Some]).
  assert (ind i1 = ind i) as Ei1.
  { unfold ind, i1, zero_from. cbn [i_addrs]. rewrite take_0, !nth_lookup. rewrite app_nil_l, lookup_app_r by (rewrite length_replicate; lia).
    rewrite length_replicate, lookup_drop. done. }
  assert (length (i_addrs i1) = 13%nat) as Hl1 by (unfold i1; rewrite zero_from_length by lia; done).
  destruct (trunc_tail_ok ip s1 view bs i i1 W Hblk F1 Hip1 Ei1 Hl1 Hr) as (s2 & H2 & U2 & F2).
  unfold itrunc. rewrite (kbind_ret _ _ _ _ _ H1), (kbind_ret _ _ _ _ _ (addr_run ip 12 s1 i1 Hip1)).
  rewrite (kbind_ret _ _ _ _ _ (ifield_run ip i_dev s1 i1 Hip1)). fold (ind i1). rewrite Ei1.
  change (i_dev i1) with (i_dev i). rewrite Hdev. unfold trunc_ind in H2. rewrite (kbind_ret _ _ _ _ _ H2).
  assert (f_itable s2 !! ip = Some (set_addr 12 0 i1)) as Hip2 by (eapply upd_table; [exact U2|by eapply lookup_lt_Some]).
  destruct (updi_run sb disk tr ip (set_size 0) s2 _ _ _ _ Hip2 F2) as (s3 & H3 & U3 & F3).
  unfold i1 in U3. rewrite emptied_eq in U3 by done. rewrite (kbind_ret _ _ _ _ _ H3).
  assert (f_itable s3 !! ip = Some (emptied i)) as Hip3 by (eapply upd_table; [exact U3|by eapply lookup_lt_Some]).
  destruct (iupdate_ok sb dstart disk tr Hly Hone s3 _ _ ip (emptied i) F3 Hip3 (emptied_ok i Hok)) as (s4 & H4 & S4 & F4).
  { pose proof (logged_bm_len (iblocks view i) bs). lia. }
  exists s4. split_and!; [done| |exact F4].
  eapply upd_same_r; [|exact S4]. exact (upd_trans _ _ _ _ _ _ U1 (upd_trans _ _ _ _ _ _ U2 U3)).
Qed.
End trunc.
