(* ===== verification/FsTheorems.v ===== *)
(** * Properties of the file system *)
From S2P Require Import Prelude Machine Spinlock Blocks Bio BioInv BioTheorems Log LogProof LogCrash LogTxn.
From S2P Require Import LogTheorems Kalloc Vm Fs FsBase FsBlock FsMap FsData FsWrite FsDir FsTrunc.

Section fs_props.
Context {St Mem : Type} `{!BlockIO St} `{!BlockLaws St} `{!UserMem Mem}.

(** A file inode in use in a transaction: in the table, well formed, with all
    its blocks there, on a disk with one block of free map. *)
Definition open_inode (sb : superblock) (dstart : Z) disk tr (s : fstate St Mem) view bs (ip : nat) (i : inode) : Prop :=
  layout sb dstart /\ sb_size sb <= BPB /\ fok sb disk tr s view ∅ bs /\ iwf sb dstart view i /\ meta_used sb dstart view /\
  full view i /\ f_itable s !! ip = Some i /\ inode_ok sb i.

(** [readi] returns the bytes of the file.  For any offset inside an open
    file and any length, it delivers to the kernel buffer, or through
    [copyout] to user memory if the copies succeed, exactly the bytes of the
    file from [off] to the smaller of [off + n] and the size, in order, and
    returns their number; no block and no inode changes. *)
Theorem readi_contents sb dstart disk tr s view bs ip i user dst P off n :
  open_inode sb dstart disk tr s view bs ip i -> Z.of_nat (length bs) + 1 < NBUF ->
  let m := Z.min n (i_size i - off) in
  let total := take (Z.to_nat m) (drop (Z.to_nat off) (contents view i)) in
  sink user dst P total -> P [] (f_mem s) ->
  0 <= dst < 2 ^ 64 -> 0 <= off <= i_size i -> 0 <= n -> off + n < 2 ^ 32 ->
  exists s', readi ip user dst off n s = Ret ((m, total), s') /\
    f_itable s' = f_itable s /\ fok sb disk tr s' view ∅ bs /\ P total (f_mem s').
Proof.
  intros (Hly & Hone & F & W & Hm & Hf & Hip & Hok) Hr m total Hs HP Hd Ho Hn Hon.
  assert (total = slice view i off m) as Et by (apply contents_slice; unfold m; lia). rewrite Et in Hs |- *.
  destruct (readi_ok sb dstart disk tr Hly ip i user dst P s view bs off n) as (s' & H & S & F' & HP'); try done; [by destruct Hok|].
  exists s'. split_and!; [done|by apply same_mem_table|done|done].
Qed.

(** C13: [writei] replaces the bytes of the file.  Writing [data] at an offset up
    to the size, within MAXFILE blocks, inside a transaction with room, it
    returns the number [t] of bytes written, all of them unless no disk block
    is free; the file's contents become the old ones with the first [t] bytes
    of [data] spliced in at [off], growing the file if they reach beyond its
    end; the inode on disk is updated; blocks that were in use and are not
    this file's, the free map or the inode's block keep their contents; and
    the log grows by at most 3 plus the number of file blocks touched. *)
Theorem writei_contents sb dstart disk tr s view bs ip i user src Q data off :
  open_inode sb dstart disk tr s view bs ip i ->
  let n := Z.of_nat (length data) in
  source user src Q data -> Q (f_mem s) -> Forall (fun x => 0 <= x < 256) data -> 0 <= src < 2 ^ 64 ->
  0 <= off <= i_size i -> off + n <= MAXFILE * BSIZE -> Z.of_nat (length bs + nblk off n) + 7 < NBUF ->
  exists t s' view' bs' i', writei ip user src data off n s = Ret (t, s') /\ 0 <= t <= n /\
    (t < n -> forall j, 0 <= j < sb_size sb -> used sb view' j = true) /\
    open_inode sb dstart disk tr s' view' bs' ip i' /\ Q (f_mem s') /\
    contents view' i' = splice (contents view i) (Z.to_nat off) (take (Z.to_nat t) data) /\
    get_dinode (view' (IBLOCK (i_inum i) sb)) (dip (i_inum i)) = dinode_of i' /\
    (forall k, k <> sb_bmapstart sb -> k <> IBLOCK (i_inum i) sb -> (k ∉ iblocks view i) -> 0 < k ->
       (data_block sb dstart k -> used sb view k = true) -> view' k = view k) /\
    (length bs' <= length bs + 3 + nblk off n)%nat.
Proof.
  intros (Hly & Hone & F & W & Hm & Hf & Hip & Hok) n Hs HQ HF Hsrc Ho Hn Hr.
  destruct (writei_ok sb dstart disk tr Hly Hone ip user src Q data view i s bs off) as
    (t & s' & view' & i' & bs' & H & Ht & Hfull & U & HQ' & F' & Hlen & R); try done.
  { unfold pot. pose proof (flag_le (sb_bmapstart sb ∈ bs)). pose proof (flag_le (ind i ∈ bs /\ ind i <> 0)). unfold n in *. lia. }
  destruct R as [R1 R2 R3 R4 R5 R6 R7 R8 R9 R10]. exists t, s', view', bs', i'. split_and!; try done; try lia.
  - do 6 (split; [done|]). split; [|done]. rewrite U. cbn. by eapply list_lookup_insert_eq, lookup_lt_Some.
  - intros k H1 H2 H3 H4 H5. apply R10; [done|done| | |].
    + intros [Dk Uk]. rewrite H5 in Uk by done. discriminate Uk.
    + intros ->. apply H3. apply (iblocks_elem sb dstart) ; [done|]. split; [lia|]. by left.
    + intros bn Hbn E. apply H3. apply (iblocks_elem sb dstart); [done|]. split; [lia|]. right. by exists bn.
Qed.

(** [balloc] hands out a block that nothing uses.  It returns a data block
    that was free, now zeroed and marked in use, and changes nothing else; it
    returns 0 only when every block of the disk is in use. *)
Theorem balloc_fresh sb dstart disk tr (s : fstate St Mem) view bs :
  layout sb dstart -> fok sb disk tr s view ∅ bs -> meta_used sb dstart view -> Z.of_nat (length bs) + 1 < NBUF ->
  exists a s' view' bs', balloc ROOTDEV s = Ret (a, s') /\ fok sb disk tr s' view' ∅ bs' /\ f_itable s' = f_itable s /\
    if a =? 0 then view' = view /\ forall j, 0 <= j < sb_size sb -> used sb view j = true
    else dstart <= a < sb_size sb /\ used sb view a = false /\ view' a = zero_block /\
      (forall j, 0 <= j < sb_size sb -> used sb view' j = (j =? a) || used sb view j) /\
      (forall k, k <> a -> k <> BBLOCK a sb -> view' k = view k).
Proof.
  intros Hly F Hm Hr. destruct (balloc_ok sb dstart disk tr Hly s view ∅ bs F Hm) as (a & s' & H & S & Hres).
  { split; [intros; apply nheld_empty|]. rewrite map_size_empty. lia. }
  destruct Hres as [(-> & F' & Hfull)|(Da & Hu & F')].
  - exists 0, s', view, bs. split_and!; try done. by apply same_table.
  - pose proof (data_pos sb dstart Hly a Da). eexists a, s', _, _. split_and!; [done|exact F'|by apply same_table|].
    destruct (Z.eqb_spec a 0); [lia|]. split; [done|]. split; [done|]. split_and!.
    + apply fupd_eq.
    + intros j Hj. apply (allocated_used sb dstart Hly); try done. intros k. by eapply fok_block_ok.
    + intros k H1 H2. unfold allocated. by rewrite !fupd_ne.
Qed.

(** [itrunc] frees the file's blocks and no others.  It returns, the file is
    empty in memory and on disk, exactly the blocks that the inode named are
    free again, and every block but the free map and the inode's block keeps
    its contents. *)
Theorem itrunc_frees sb dstart disk tr s view bs ip i :
  open_inode sb dstart disk tr s view bs ip i -> Z.of_nat (length bs) + 3 < NBUF ->
  exists s' view' bs', itrunc ip s = Ret (tt, s') /\ open_inode sb dstart disk tr s' view' bs' ip (emptied i) /\
    get_dinode (view' (IBLOCK (i_inum i) sb)) (dip (i_inum i)) = dinode_of (emptied i) /\
    (forall j, dstart <= j < sb_size sb -> used sb view' j = used sb view j && negb (bool_decide (j ∈ iblocks view i))) /\
    (forall k, k <> sb_bmapstart sb -> k <> IBLOCK (i_inum i) sb -> view' k = view k).
Proof.
  intros (Hly & Hone & F & W & Hm & Hf & Hip & Hok) Hr.
  destruct (itrunc_ok sb dstart disk tr Hly Hone ip s view bs i F W Hip Hok Hr) as (s' & H & U & F').
  destruct (iblocks_ok sb dstart view i W) as [Hnd HF]. set (l := iblocks view i) in *.
  pose proof (freed_all_range sb dstart Hly l view HF) as Hrange. pose proof Hok as (_ & Hin & _).
  destruct (IBLOCK_eq sb dstart Hly Hone _ Hin) as (_ & Hib & Hlt).
  set (k0 := IBLOCK (i_inum i) sb) in *. set (view1 := freed_all sb view l) in *.
  pose proof (fun k => fok_block_ok sb disk tr s view ∅ bs k F) as Hblk.
  assert (forall j, 0 <= j < sb_size sb -> used sb view1 j = negb (bool_decide (j ∈ l)) && used sb view j) as HU1.
  { intros j Hj. apply (freed_all_used sb dstart Hly); try done. eapply Forall_impl; [exact HF|].
    intros b [Db Ub]. pose proof (data_pos sb dstart Hly b Db). split; [lia|done]. }
  set (d := put_dinode (view1 k0) (dip (i_inum i)) (dinode_of (emptied i))) in *.
  assert (forall j, 0 <= j < sb_size sb -> used sb (fupd view1 k0 d) j = used sb view1 j) as HU2.
  { intros j Hj. unfold used. rewrite (BBLOCK_one sb dstart Hly Hone j Hj). by rewrite fupd_ne by lia. }
  assert (forall view bn, blockno view (emptied i) bn = 0) as HB0.
  { intros v bn. unfold blockno, ind, emptied. cbn [i_addrs]. destruct (bn <? NDIRECT); [|done].
    rewrite nth_lookup. destruct (replicate 13 0 !! Z.to_nat bn) as [y|] eqn:E; [|done]. apply lookup_replicate in E as [-> _]. done. }
  exists s', (fupd view1 k0 d). eexists. split; [done|]. split; [|split_and!].
  - split; [exact Hly|]. split; [exact Hone|]. split; [exact F'|]. split; [|split; [|split; [|split; [|by apply emptied_ok]]]].
    + split; try done; intros bn; rewrite HB0; done.
    + intros b Hb. pose proof (ly_size _ _ Hly) as [_ ?]. rewrite HU2, HU1 by lia. rewrite Hm by done. rewrite andb_true_r.
      apply negb_true_iff, bool_decide_false. intros Hin'. rewrite Forall_forall in HF. destruct (HF b Hin') as [[Db _] _]. lia.
    + split; [cbn; change (MAXFILE * BSIZE) with 274432; lia|]. intros bn H1 H2. unfold BSIZE in H2. cbn in H2. lia.
    + eapply upd_table; [exact U|by eapply lookup_lt_Some].
  - rewrite fupd_eq. apply get_put_dinode; [|apply (emptied_ok sb i Hok)].
    unfold view1. rewrite (freed_all_other sb dstart Hly Hone) by (first [done|lia]). rewrite (proj1 (Hblk k0)). apply dip_bound. lia.
  - intros j Hj. pose proof (data_pos sb dstart Hly j Hj). rewrite HU2, HU1 by lia. apply andb_comm.
  - intros k H1 H2. rewrite fupd_ne by done. by apply (freed_all_other sb dstart Hly Hone).
Qed.

Lemma contents_bytes view i : (forall k, block_ok (view k)) -> Forall (fun x => 0 <= x < 256) (contents view i).
Proof.
  intros Hok. apply Forall_forall. intros x Hx. unfold contents, slice in Hx. apply list_elem_of_fmap in Hx as (k & -> & _).
  unfold byte. destruct (Hok (blockno view i (k / BSIZE))) as [_ HF]. rewrite nth_lookup.
  destruct (view _ !! _) as [y|] eqn:E; cbn; [|lia]. rewrite Forall_lookup in HF. by eapply HF.
Qed.

(** C33: [dirlink] adds a name to a directory.  For a name the directory does not
    have, it returns 0 with the directory mapping that name to [inum] and
    every other name to what it was, or -1 when the disk is full; names are
    compared on their first DIRSIZ bytes. *)
Theorem dirlink_adds sb dstart disk tr s view bs dp i name inum :
  open_inode sb dstart disk tr s view bs dp i -> i_type i = T_DIR -> i_size i mod 16 = 0 -> i_size i + 16 <= MAXFILE * BSIZE ->
  Forall (fun x => 0 <= x < 256) name -> 0 < inum < 2 ^ 16 -> dir_lookup (contents view i) name = None ->
  Z.of_nat (length bs) + 8 < NBUF ->
  exists r s' view' bs' i', dirlink dp name inum s = Ret (r, s') /\ open_inode sb dstart disk tr s' view' bs' dp i' /\
    ((r = 0 /\ forall name', Forall (fun x => 0 <= x < 256) name' ->
        dir_lookup (contents view' i') name' = if namecmp name' name =? 0 then Some inum else dir_lookup (contents view i) name') \/
     (r = -1 /\ forall j, 0 <= j < sb_size sb -> used sb view' j = true)).
Proof.
  intros (Hly & Hone & F & W & Hm & Hf & Hip & Hok) Ht Hd Hsz Hn Hi Hnone Hr.
  pose proof (fun k => fok_block_ok sb disk tr s view ∅ bs k F) as Hblk. pose proof Hf as [Hs _].
  assert (dir_find (nents (contents view i)) 0 (contents view i) name = None) as Hfind.
  { unfold dir_lookup in Hnone. by destruct (dir_find _ _ _ _). }
  destruct (dirlink_ok sb dstart disk tr Hly Hone dp name inum s view i bs) as (t & s' & view' & i' & bs' & U & _ & F' & R & H & Ht' & Hfull);
    try done; try lia.
  { unfold pot. pose proof (flag_le (sb_bmapstart sb ∈ bs)). pose proof (flag_le (ind i ∈ bs /\ ind i <> 0)). lia. }
  eexists _, s', view', bs', i'. split; [exact H|]. destruct R as [R1 R2 R3 R4 R5 R6 R7 R8 R9 R10]. split.
  { do 6 (split; [done|]). split; [|done]. rewrite U. cbn. by eapply list_lookup_insert_eq, lookup_lt_Some. }
  destruct (Z.eqb_spec t 16) as [->|Hne]; [left|right; split; [done|apply Hfull; lia]]. split; [done|]. intros name' Hn'.
  destruct (dir_nents disk view i Hd) as [_ Hmod]; [lia|].
  rewrite take_ge in R7 by (unfold mk_dirent; rewrite length_app, strncpy_length; cbn; lia).
  replace (Z.to_nat (16 * Z.of_nat (dir_free (nents (contents view i)) 0 (contents view i)))) with
    (16 * dir_free (nents (contents view i)) 0 (contents view i))%nat in R7 by lia.
  rewrite R7. apply dir_link_lookup; try done. by apply contents_bytes.
Qed.

(** [dirlookup] finds the inode of a name.  It returns the offset of the
    first entry in use with that name and the inode table's one entry for its
    inode number, with a reference added, and NULL if there is no such entry;
    it panics only when the inode table is full. *)
Theorem dirlookup_finds sb dstart disk tr s view bs dp i name :
  open_inode sb dstart disk tr s view bs dp i -> i_type i = T_DIR -> i_size i mod 16 = 0 ->
  itable_ok (f_itable s) -> Z.of_nat (length bs) + 1 < NBUF ->
  match dir_find (nents (contents view i)) 0 (contents view i) name with
  | Some k =>
      let inum := de_inum (entry (contents view i) k) in
      (exists ip ix s', dirlookup dp name s = Ret (Some (ip, 16 * Z.of_nat k), s') /\ itable_ok (f_itable s') /\
         f_itable s' !! ip = Some ix /\ in_use ix ROOTDEV inum /\ fok sb disk tr s' view ∅ bs) \/
      (dirlookup dp name s = Panic "iget: no inodes" /\ forall x ix, f_itable s !! x = Some ix -> i_ref ix <> 0)
  | None => exists s', dirlookup dp name s = Ret (None, s') /\ f_itable s' = f_itable s /\ fok sb disk tr s' view ∅ bs
  end.
Proof.
  intros (Hly & Hone & F & W & Hm & Hf & Hip & Hok) Ht Hd Hit Hr. pose proof Hok as (Hdev & _).
  destruct (dirlookup_ok sb dstart disk tr Hly dp name s view i bs F W Hip Hdev Hf Hd Ht Hr) as (s1 & S1 & F1 & H1).
  pose proof (proj1 (same_table _ _ S1)) as Et. rewrite H1. destruct (dir_find _ _ _ _) as [k|]; [|by exists s1]. cbv zeta.
  set (inum := de_inum _). rewrite <- Et in Hit. destruct (iget_ok s1 ROOTDEV inum Hit) as [(ip & i0 & ix & H2 & Hok2 & H0 & Hu & _)|[H2 Hno]].
  - left. exists ip, ix. rewrite (kbind_ret _ _ _ _ _ H2). eexists. split; [reflexivity|]. cbn [with_table f_itable].
    split; [done|]. split; [by eapply list_lookup_insert_eq, lookup_lt_Some|]. split; [done|]. destruct F1. by split.
  - right. rewrite (kbind_panic _ _ _ _ H2). split; [done|]. intros x iy Hx. rewrite <- Et in Hx. by apply (Hno x iy).
Qed.

(** [skipelem] takes the next element off a path.  On a NUL-terminated path
    it returns NULL exactly when no element is left; otherwise the name
    buffer holds the first element, cut to DIRSIZ bytes and terminated if
    shorter, and the rest of the path has exactly the remaining elements and
    no leading slash. *)
Theorem skipelem_next path name :
  Forall (fun c => c <> 0) path -> length name = 14%nat ->
  match skipelem path name with
  | None => elems path = []
  | Some (rest, name') => exists e, elems path = e :: elems rest /\ hd 0 rest <> 47 /\ length name' = 14%nat /\
      take (length e) name' = take 14 e /\ ((length e < 14)%nat -> nth (length e) name' 1 = 0)
  end.
Proof.
  intros HF Hn. unfold skipelem. set (p := skip_slashes path).
  assert (Forall (fun c => c <> 0) p) as HFp.
  { unfold p. clear -HF. induction HF as [|c path Hc HF IH]; cbn [skip_slashes]; [constructor|]. destruct (c =? 47); [done|by constructor]. }
  destruct (Z.eqb_spec (hd 0 p) 0) as [E|E].
  { rewrite <- elems_skip. fold p. destruct p as [|c p']; [done|]. apply Forall_cons in HFp as [Hc _]. done. }
  assert (elems path = take (elem_len p) p :: elems (drop (elem_len p) p)) as He.
  { rewrite <- elems_skip. fold p. apply (split_first p []); [done|]. right. split; [by intros Ep; rewrite Ep in E|apply skip_not_slash]. }
  assert (forall q, (elem_len q <= length q)%nat) as Hlen.
  { induction q as [|c q IH]; cbn; [lia|]. destruct (_ || _); lia. }
  specialize (Hlen p). assert (length (take (elem_len p) p) = elem_len p) as Hle by (rewrite length_take; lia).
  exists (take (elem_len p) p). rewrite elems_skip, Hle. change DIRSIZ with 14. change (Z.to_nat 14) with 14%nat.
  split; [done|]. split; [apply skip_not_slash|].
  destruct (Z.leb_spec 14 (Z.of_nat (elem_len p))) as [Hge|Hlt].
  - split_and!; [rewrite length_take; lia| |lia]. rewrite !take_take. f_equal. lia.
  - rewrite !length_app, Hle. cbn [length]. rewrite length_drop. split_and!; [lia| |].
    + rewrite take_app_length' by done. rewrite (take_ge (take _ _) 14); [done|rewrite Hle; lia].
    + intros _. rewrite app_nth2 by lia. by rewrite Hle, Nat.sub_diag.
Qed.
End fs_props.

(** ** A small disk

    100 blocks with a root directory of two entries in block 36, read through
    the buffer cache and vm.c's user memory, inside a transaction. *)
Definition demo_sb : superblock := mkSb FSMAGIC 100 64 16 31 2 33 35.
Definition demo_bitmap : block := [255; 255; 255; 255; 31] ++ replicate 1019 0.
Definition demo_dirblock : block := mk_dirent 1 (strncpy 14 [46]) ++ mk_dirent 1 (strncpy 14 [46; 46]) ++ replicate 992 0.
Definition demo_disk : gmap Z block := <[35 := demo_bitmap]> {[36 := demo_dirblock]}.
Definition demo_dir : inode := mkInode ROOTDEV 1 1 initsleeplock 1 T_DIR 0 0 1 32 (36 :: replicate 12 0).
#[local] Instance demo_user : UserMem pmem := vm_user 0 (mkVmproc 0 0).
Definition demo_fs : fstate bstate pmem :=
  mkF (mkLstate (boot demo_disk 1) (mkLog 2 1 0 ROOTDEV (mkLh 0 (replicate 30 0)))) demo_sb
    (demo_dir :: replicate 49 inode0) (mkPmem ∅ 0) 1 0.

Lemma demo_blocks_ok k b : demo_disk !! k = Some b -> block_ok b.
Proof.
  unfold demo_disk. intros [(<- & <-)|(_ & (<- & <-)%lookup_singleton_Some)]%lookup_insert_Some.
  all: split; [done|]. all: apply (bool_decide_unpack _); vm_compute; exact I.
Qed.
Lemma demo_layout : layout demo_sb 36.
Proof. split; cbn; unfold LOGBLOCKS, MAXOPBLOCKS; try lia; done. Qed.
Lemma demo_used j : 0 <= j < 100 -> used demo_sb (disk_view demo_disk) j = (j <? 37).
Proof.
  intros Hj. assert (j ∈ seqZ 0 100) as Hin by (apply elem_of_seqZ; lia).
  assert (forallb (fun j => eqb (used demo_sb (disk_view demo_disk) j) (j <? 37)) (seqZ 0 100) = true) as H by (vm_compute; reflexivity).
  rewrite forallb_forall in H. apply eqb_prop, H. by apply list_elem_of_In.
Qed.
Lemma demo_fok : fok demo_sb (disk_view demo_disk) [] demo_fs (disk_view demo_disk) ∅ [].
Proof.
  split; [|done|cbn; lia|done]. split; try done.
  - exists ∅. split; [apply boot_rep, demo_blocks_ok|].
    intros k. rewrite lookup_empty, nheld_empty. unfold nlogged. by rewrite decide_False by apply not_elem_of_nil.
  - split; cbn; unfold LOGBLOCKS, MAXOPBLOCKS; try lia; [constructor|constructor|by intros b ?%elem_of_nil].
  - intros j Hj. cbn in Hj. lia.
Qed.
Lemma demo_blockno view bn : 0 <= bn -> blockno view demo_dir bn = if bn =? 0 then 36 else 0.
Proof.
  intros H. unfold blockno. cbn [demo_dir i_addrs ind]. destruct (Z.eqb_spec bn 0) as [->|Hne]; [done|].
  destruct (bn <? NDIRECT); [|done]. replace (Z.to_nat bn) with (S (Z.to_nat (bn - 1))) by lia. cbn [nth].
  destruct (nth_in_or_default (Z.to_nat (bn - 1)) (replicate 12 0) 0) as [Hi|]; [|done]. by apply list_elem_of_In, elem_of_replicate in Hi as [-> _].
Qed.

Lemma demo_open : open_inode demo_sb 36 (disk_view demo_disk) [] demo_fs (disk_view demo_disk) [] 0 demo_dir.
Proof.
  split; [apply demo_layout|]. split; [by vm_compute|]. split; [apply demo_fok|]. split; [|split; [|split; [|split; [done|]]]].
  - split; [done| | |intros H; by destruct H].
    + intros bn Hb. rewrite demo_blockno by lia. destruct (Z.eqb_spec bn 0); [|done]. intros _. split; [|rewrite demo_used by lia; reflexivity].
      unfold data_block. cbn. lia.
    + intros a b Ha Hb. rewrite !demo_blockno by lia. destruct (Z.eqb_spec a 0), (Z.eqb_spec b 0); lia.
  - intros b Hb. rewrite demo_used by lia. lia.
  - split; [by vm_compute|]. intros bn Hb. rewrite demo_blockno by done. change (i_size demo_dir) with 32. unfold BSIZE.
    destruct (Z.eqb_spec bn 0); lia.
  - split; [done|]. split; [cbn; lia|]. do 4 (split; [cbn; unfold T_DIR; lia|]). split; [cbn; lia|]. split; [done|].
    apply (bool_decide_unpack _). vm_compute. exact I.
Qed.
Lemma demo_contents : contents (disk_view demo_disk) demo_dir = take 32 demo_dirblock.
Proof. vm_compute. reflexivity. Qed.

Lemma readi_contents_witness :
  exists s', readi 0 false 0 16 100 demo_fs = Ret ((16, mk_dirent 1 (strncpy 14 [46; 46])), s') /\ f_itable s' = f_itable demo_fs.
Proof.
  destruct (readi_contents demo_sb 36 _ _ demo_fs _ [] 0 demo_dir false 0 (fun _ m => m = f_mem demo_fs) 16 100 demo_open) as (s' & H & Ht & _);
    try done; try (change (MAXFILE * BSIZE) with 274432; cbn; lia).
  { intros acc bytes mem Hm _ _. by exists mem. }
  exists s'. rewrite demo_contents in H. split; [exact H|exact Ht].
Defined.

Lemma writei_contents_witness :
  exists t s' view' i', writei 0 false 0 [7; 8; 9] 32 3 demo_fs = Ret (t, s') /\ 0 <= t <= 3 /\
    contents view' i' = splice (take 32 demo_dirblock) 32 (take (Z.to_nat t) [7; 8; 9]).
Proof.
  destruct (writei_contents demo_sb 36 _ _ demo_fs _ [] 0 demo_dir false 0 (fun m => m = f_mem demo_fs) [7; 8; 9] 32 demo_open) as
    (t & s' & view' & bs' & i' & H & Ht & _ & _ & _ & Hc & _); try done; try (change (MAXFILE * BSIZE) with 274432; cbn; lia).
  { intros pre bytes post mem Hm _ _. by exists mem. }
  { repeat constructor; lia. }
  exists t, s', view', i'. rewrite demo_contents in Hc. split; [exact H|]. split; [exact Ht|exact Hc].
Defined.

Lemma balloc_fresh_witness :
  exists a s' view' bs', balloc ROOTDEV demo_fs = Ret (a, s') /\ fok demo_sb (disk_view demo_disk) [] s' view' ∅ bs' /\
    (a <> 0 -> 36 <= a < 100 /\ used demo_sb (disk_view demo_disk) a = false).
Proof.
  destruct (balloc_fresh demo_sb 36 _ _ demo_fs _ [] demo_layout demo_fok) as (a & s' & view' & bs' & H & F & _ & Ha); [|done|].
  { intros b Hb. rewrite demo_used by lia. lia. }
  exists a, s', view', bs'. split; [exact H|]. split; [exact F|]. intros Hne.
  destruct (Z.eqb_spec a 0); [done|]. destruct Ha as (H1 & H2 & _). split; [exact H1|exact H2].
Defined.

Lemma itrunc_frees_witness :
  exists s' view', itrunc 0 demo_fs = Ret (tt, s') /\ used demo_sb (disk_view demo_disk) 36 = true /\ used demo_sb view' 36 = false.
Proof.
  destruct (itrunc_frees demo_sb 36 _ _ demo_fs _ [] 0 demo_dir demo_open ltac:(done)) as (s' & view' & bs' & H & _ & _ & Hu & _).
  exists s', view'. split; [exact H|]. split; [rewrite demo_used by lia; reflexivity|]. rewrite Hu by (cbn; lia). rewrite demo_used by lia. reflexivity.
Defined.

Lemma dirlink_adds_witness :
  exists r s' view' i', dirlink 0 [97; 98] 5 demo_fs = Ret (r, s') /\
    (r = 0 -> dir_lookup (contents view' i') [97; 98] = Some 5 /\ dir_lookup (contents view' i') [46] = Some 1).
Proof.
  destruct (dirlink_adds demo_sb 36 _ _ demo_fs _ [] 0 demo_dir [97; 98] 5 demo_open) as (r & s' & view' & bs' & i' & H & _ & Hr);
    try done; try (change (MAXFILE * BSIZE) with 274432; cbn; lia).
  { repeat constructor; lia. }
  exists r, s', view', i'. split; [exact H|]. intros ->. destruct Hr as [(_ & Hr)|(? & _)]; [|done].
  split; rewrite Hr by (repeat constructor; lia); [done|]. rewrite demo_contents. done.
Defined.

Lemma dirlookup_finds_witness :
  exists ip ix s', dirlookup 0 [46; 46] demo_fs = Ret (Some (ip, 16), s') /\ f_itable s' !! ip = Some ix /\ in_use ix ROOTDEV 1.
Proof.
  pose proof (dirlookup_finds demo_sb 36 _ _ demo_fs _ [] 0 demo_dir [46; 46] demo_open ltac:(done) ltac:(done)) as H.
  destruct H as [(ip & ix & s' & H1 & _ & H2 & H3 & _)|(_ & H)]; [|done| |].
  - split; [|apply (bool_decide_unpack _); vm_compute; exact I].
    intros a b ia ib dev inum. cbn [demo_fs f_itable].
    assert (forall x ix, (demo_dir :: replicate 49 inode0) !! x = Some ix -> 0 < i_ref ix -> x = O) as Hx.
    { intros [|x] ix; [done|]. cbn [lookup list_lookup]. intros [-> _]%lookup_replicate. cbn. lia. }
    intros Ha Hb (H1 & _) (H2 & _). rewrite (Hx a ia) by done. by rewrite (Hx b ib).
  - exists ip, ix, s'. split; [exact H1|]. split; [exact H2|exact H3].
  - exfalso. apply (H 1%nat inode0); done.
Defined.

Lemma skipelem_next_witness :
  skipelem [47; 47; 97; 47; 98] (replicate 14 9) = Some ([98], [97; 0] ++ replicate 12 9) /\
  exists e, elems [47; 47; 97; 47; 98] = e :: elems [98].
Proof.
  pose proof (skipelem_next [47; 47; 97; 47; 98] (replicate 14 9)) as H. cbn in H.
  split; [done|]. destruct H as (e & H & _); [repeat constructor; lia|done|]. exists e. exact H.
Defined.
