(* ===== verification/Printf.v ===== *)
(** * kernel/printf.c and user/printf.c: formatted output

    Both printf functions as pure functions from the format and the variable
    arguments to the bytes they send, in order. *)
From S2P Require Import Prelude.

(** Characters of the sources. *)
Definition ch (s : string) : Z :=
  match s with String a _ => Z.of_N (Ascii.N_of_ascii a) | EmptyString => 0 end.
Fixpoint chars (s : string) : list Z :=
  match s with String a s => Z.of_N (Ascii.N_of_ascii a) :: chars s | EmptyString => [] end.

(** A variable argument: a 64-bit register, or a pointer to a string. *)
Inductive va := VInt (x : Z) | VStr (s : option (list Z)).

(** [va_arg] of an integer type, which reads the register at that width, and
    of [char*]; [None] when the argument there is of the other kind. *)
Definition va_int (w : Z -> Z) (ap : list va) : option (Z * list va) :=
  match ap with VInt x :: ap => Some (w x, ap) | _ => None end.
Definition va_str (ap : list va) : option (option (list Z) * list va) :=
  match ap with VStr s :: ap => Some (s, ap) | _ => None end.

(** The do-while loop of [printint]: the digits, least significant first. *)
Fixpoint printint_loop (digits : list Z) (fuel : nat) (x base : Z) : list Z :=
  match fuel with
  | O => []
  | S fuel =>
      nth (Z.to_nat (x mod base)) digits 0 ::
      (if negb (x / base =? 0) then printint_loop digits fuel (x / base) base else [])
  end.

Module KPrintf.

Definition BACKSPACE : Z := 256.

(** [consputc] sends one character to the uart; [WriteReg] stores a byte. *)
Definition consputc (c : Z) : list Z :=
  if c =? BACKSPACE then [8; 32; 8] else [u8 c].

Definition digits : list Z := chars "0123456789abcdef".

(** The contents of [buf] when the loops of [printint] have filled it. *)
Definition printint_buf (xx base : Z) (sign : bool) : list Z :=
  let sign := sign && (xx <? 0) in
  let x := if sign then u64 (- xx) else u64 xx in
  printint_loop digits 64 x base ++ (if sign then [ch "-"] else []).
Definition printint (xx base : Z) (sign : bool) : list Z :=
  concat (map consputc (reverse (printint_buf xx base sign))).

Fixpoint printptr_loop (cnt : nat) (x : Z) : list Z :=
  match cnt with
  | O => []
  | S cnt => consputc (nth (Z.to_nat (Z.shiftr x 60)) digits 0) ++ printptr_loop cnt (u64 (Z.shiftl x 4))
  end.
Definition printptr (x : Z) : list Z := consputc (ch "0") ++ consputc (ch "x") ++ printptr_loop 16 x.

Definition out (o : list Z) (rest : option (list Z)) : option (list Z) := rest ≫= fun l => Some (o ++ l).

(** [fmt] is the format from the character [i] points at, without its NUL. *)
Fixpoint printf (fmt : list Z) (ap : list va) : option (list Z) :=
  match fmt with
  | [] => Some []
  | cx :: fmt =>
      if negb (cx =? ch "%") then out (consputc cx) (printf fmt ap)
      else
        match fmt with
        | [] => Some []
        | c0 :: fmt0 =>
            if c0 =? ch "d" then
              '(x, ap) ← va_int i32 ap; out (printint x 10 true) (printf fmt0 ap)
            else if c0 =? ch "u" then
              '(x, ap) ← va_int u32 ap; out (printint x 10 false) (printf fmt0 ap)
            else if c0 =? ch "x" then
              '(x, ap) ← va_int u32 ap; out (printint x 16 false) (printf fmt0 ap)
            else if c0 =? ch "p" then
              '(x, ap) ← va_int u64 ap; out (printptr x) (printf fmt0 ap)
            else if c0 =? ch "c" then
              '(x, ap) ← va_int u32 ap; out (consputc x) (printf fmt0 ap)
            else if c0 =? ch "s" then
              '(s, ap) ← va_str ap;
              out (concat (map consputc (default (chars "(null)") s))) (printf fmt0 ap)
            else if c0 =? ch "%" then out (consputc (ch "%")) (printf fmt0 ap)
            else
              let unknown := out (consputc (ch "%") ++ consputc c0) (printf fmt0 ap) in
              if negb (c0 =? ch "l") then unknown
              else
                match fmt0 with
                | [] => unknown
                | c1 :: fmt1 =>
                    if c1 =? ch "d" then
                      '(x, ap) ← va_int i64 ap; out (printint x 10 true) (printf fmt1 ap)
                    else if c1 =? ch "u" then
                      '(x, ap) ← va_int i64 ap; out (printint x 10 false) (printf fmt1 ap)
                    else if c1 =? ch "x" then
                      '(x, ap) ← va_int i64 ap; out (printint x 16 false) (printf fmt1 ap)
                    else if negb (c1 =? ch "l") then unknown
                    else
                      match fmt1 with
                      | [] => unknown
                      | c2 :: fmt2 =>
                          if c2 =? ch "d" then
                            '(x, ap) ← va_int i64 ap; out (printint x 10 true) (printf fmt2 ap)
                          else if c2 =? ch "u" then
                            '(x, ap) ← va_int i64 ap; out (printint x 10 false) (printf fmt2 ap)
                          else if c2 =? ch "x" then
                            '(x, ap) ← va_int i64 ap; out (printint x 16 false) (printf fmt2 ap)
                          else unknown
                      end
                end
        end
  end.

(** What [panic] prints before it spins. *)
Definition panic_text (s : list Z) : option (list Z) :=
  a ← printf (chars "panic: ") []; b ← printf (chars "%s" ++ [10]) [VStr (Some s)]; Some (a ++ b).

End KPrintf.

(** ** user/printf.c *)
Module UPrintf.

Definition digits : list Z := chars "0123456789ABCDEF".

(** [putc] writes one byte to the descriptor. *)
Definition putc (c : Z) : list Z := [u8 c].

(** [x] is a [uint], also for the 64-bit conversions. *)
Definition printint_buf (xx base : Z) (sgn : bool) : list Z :=
  let neg := sgn && (xx <? 0) in
  let x := if neg then u32 (- xx) else u32 xx in
  printint_loop digits 32 x base ++ (if neg then [ch "-"] else []).
Definition printint (xx base : Z) (sgn : bool) : list Z :=
  concat (map putc (reverse (printint_buf xx base sgn))).

Fixpoint printptr_loop (cnt : nat) (x : Z) : list Z :=
  match cnt with
  | O => []
  | S cnt => putc (nth (Z.to_nat (Z.shiftr x 60)) digits 0) ++ printptr_loop cnt (u64 (Z.shiftl x 4))
  end.
Definition printptr (x : Z) : list Z := putc (ch "0") ++ putc (ch "x") ++ printptr_loop 16 x.

(** [percent] is the variable [state]: true when it holds ['%']. *)
Fixpoint vprintf (percent : bool) (fmt : list Z) (ap : list va) : option (list Z) :=
  match fmt with
  | [] => Some []
  | c0 :: fmt0 =>
      if negb percent then
        if c0 =? ch "%" then vprintf true fmt0 ap else KPrintf.out (putc c0) (vprintf false fmt0 ap)
      else if c0 =? ch "d" then
        '(x, ap) ← va_int i32 ap; KPrintf.out (printint x 10 true) (vprintf false fmt0 ap)
      else if c0 =? ch "u" then
        '(x, ap) ← va_int u32 ap; KPrintf.out (printint x 10 false) (vprintf false fmt0 ap)
      else if c0 =? ch "x" then
        '(x, ap) ← va_int u32 ap; KPrintf.out (printint x 16 false) (vprintf false fmt0 ap)
      else if c0 =? ch "p" then
        '(x, ap) ← va_int u64 ap; KPrintf.out (printptr x) (vprintf false fmt0 ap)
      else if c0 =? ch "c" then
        '(x, ap) ← va_int u32 ap; KPrintf.out (putc x) (vprintf false fmt0 ap)
      else if c0 =? ch "s" then
        '(s, ap) ← va_str ap;
        KPrintf.out (concat (map putc (default (chars "(null)") s))) (vprintf false fmt0 ap)
      else if c0 =? ch "%" then KPrintf.out (putc (ch "%")) (vprintf false fmt0 ap)
      else
        let unknown := KPrintf.out (putc (ch "%") ++ putc c0) (vprintf false fmt0 ap) in
        if negb (c0 =? ch "l") then unknown
        else
          match fmt0 with
          | [] => unknown
          | c1 :: fmt1 =>
              if c1 =? ch "d" then
                '(x, ap) ← va_int i64 ap; KPrintf.out (printint x 10 true) (vprintf false fmt1 ap)
              else if c1 =? ch "u" then
                '(x, ap) ← va_int i64 ap; KPrintf.out (printint x 10 false) (vprintf false fmt1 ap)
              else if c1 =? ch "x" then
                '(x, ap) ← va_int i64 ap; KPrintf.out (printint x 16 false) (vprintf false fmt1 ap)
              else if negb (c1 =? ch "l") then unknown
              else
                match fmt1 with
                | [] => unknown
                | c2 :: fmt2 =>
                    if c2 =? ch "d" then
                      '(x, ap) ← va_int i64 ap; KPrintf.out (printint x 10 true) (vprintf false fmt2 ap)
                    else if c2 =? ch "u" then
                      '(x, ap) ← va_int i64 ap; KPrintf.out (printint x 10 false) (vprintf false fmt2 ap)
                    else if c2 =? ch "x" then
                      '(x, ap) ← va_int i64 ap; KPrintf.out (printint x 16 false) (vprintf false fmt2 ap)
                    else unknown
                end
          end
  end.
Definition fprintf (fmt : list Z) (ap : list va) : option (list Z) := vprintf false fmt ap.

End UPrintf.

(** ** Reading numbers back *)
Definition digit_val (c : Z) : Z :=
  if c <=? ch "9" then c - ch "0" else if c <=? ch "F" then c - ch "A" + 10 else c - ch "a" + 10.
Definition parse (base : Z) (l : list Z) : Z := foldl (fun acc c => acc * base + digit_val c) 0 l.
Definition parse_int (base : Z) (l : list Z) : Z :=
  match l with c :: l' => if c =? ch "-" then - parse base l' else parse base l | [] => 0 end.

Definition digits_ok (digits : list Z) : Prop :=
  forall d, 0 <= d < 16 -> let c := nth (Z.to_nat d) digits 0 in digit_val c = d /\ 48 <= c <= 102.
Lemma digits_ok_check digits :
  forallb (fun d => let c := nth (Z.to_nat d) digits 0 in (digit_val c =? d) && (48 <=? c) && (c <=? 102)) (seqZ 0 16) = true ->
  digits_ok digits.
Proof.
  intros H d Hd. rewrite forallb_forall in H. specialize (H d). cbv zeta in *.
  assert (In d (seqZ 0 16)) as Hin by (apply list_elem_of_In, elem_of_seqZ; lia). apply H in Hin. lia.
Qed.
Lemma kernel_digits : digits_ok KPrintf.digits.
Proof. apply digits_ok_check. vm_compute. reflexivity. Qed.
Lemma user_digits : digits_ok UPrintf.digits.
Proof. apply digits_ok_check. vm_compute. reflexivity. Qed.

Lemma parse_snoc base l c : parse base (l ++ [c]) = parse base l * base + digit_val c.
Proof. unfold parse. by rewrite foldl_app. Qed.

(** The loop writes the digits of [x] in [n] characters at most when [x] is
    below [base ^ n]. *)
Lemma printint_loop_ok digits base n : digits_ok digits -> 2 <= base <= 16 -> forall fuel x,
  0 <= x < base ^ Z.of_nat n -> (0 < n)%nat -> (n <= fuel)%nat ->
  let l := printint_loop digits fuel x base in
  parse base (reverse l) = x /\ Forall (fun c => 48 <= c <= 102) l /\ (0 < length l <= n)%nat.
Proof.
  intros Hd Hb. induction n as [|n IH]; intros fuel x Hx Hn Hf; [lia|]. destruct fuel as [|fuel]; [lia|]. cbv zeta. cbn [printint_loop].
  destruct (Hd (x mod base)) as [Hv Hc]; [pose proof (Z.mod_pos_bound x base); lia|]. cbv zeta in Hv, Hc.
  set (c := nth _ digits 0) in *. rewrite reverse_cons, parse_snoc, Hv.
  pose proof (Z.div_mod x base). destruct (Z.eqb_spec (x / base) 0) as [E|E]; cbn [negb].
  - rewrite E in *. change (parse base (reverse [])) with 0. split_and!; [lia|constructor; [lia|constructor]|cbn; lia|cbn; lia].
  - assert (0 <= x / base) by (apply Z.div_pos; lia).
    assert (x / base < base ^ Z.of_nat n) by (apply Z.div_lt_upper_bound; [lia|]; rewrite Nat2Z.inj_succ, Z.pow_succ_r in Hx; lia).
    destruct n as [|n']; [change (base ^ Z.of_nat 0) with 1 in *; lia|].
    destruct (IH fuel (x / base)) as (P1 & P2 & P3); [lia..|].
    rewrite P1. split_and!; [lia|by constructor|cbn [length]; lia|cbn [length]; lia].
Qed.

Lemma consputc_plain l : Forall (fun c => 0 <= c < 256) l -> concat (map KPrintf.consputc l) = l.
Proof.
  induction 1 as [|c l Hc HF IH]; [done|]. cbn [map concat]. rewrite IH. unfold KPrintf.consputc, KPrintf.BACKSPACE.
  replace (c =? 256) with false by lia. by rewrite u8_small.
Qed.
Lemma putc_plain l : Forall (fun c => 0 <= c < 256) l -> concat (map UPrintf.putc l) = l.
Proof.
  induction 1 as [|c l Hc HF IH]; [done|]. cbn [map concat]. rewrite IH. unfold UPrintf.putc. by rewrite u8_small.
Qed.

(** A buffer of digits and perhaps a sign, read back. *)
Lemma sign_buf base (l : list Z) (neg : bool) x :
  parse base (reverse l) = x -> Forall (fun c => 48 <= c <= 102) l -> (0 < length l)%nat ->
  let buf := l ++ (if neg then [ch "-"] else []) in
  parse_int base (reverse buf) = (if neg then - x else x) /\ Forall (fun c => 0 <= c < 256) (reverse buf).
Proof.
  intros Hp HF Hl. cbv zeta. assert (Forall (fun c => 48 <= c <= 102) (reverse l)) as HF' by by apply Forall_reverse.
  assert (Forall (fun c => 0 <= c < 256) (reverse l)) as HB by (eapply Forall_impl; [exact HF'|]; cbn; lia).
  destruct neg.
  - rewrite reverse_snoc. split; [cbn; by rewrite Hp|]. constructor; [cbn; lia|done].
  - rewrite app_nil_r. split; [|done]. destruct (reverse l) as [|c l'] eqn:E.
    + apply (f_equal length) in E. rewrite length_reverse in E. cbn in E. lia.
    + cbn [parse_int]. apply Forall_cons in HF' as [Hc _]. change (ch "-") with 45. replace (c =? 45) with false by lia. done.
Qed.

(** The kernel's [printint] prints the number it is given.  For every 64-bit
    value, in base 10 and 16, signed or not, the characters read back as that
    value, and [buf], which has 20 bytes, never overflows. *)
Theorem printint_roundtrip xx base sign :
  - 2 ^ 63 <= xx < 2 ^ 63 -> base = 10 \/ base = 16 ->
  (length (KPrintf.printint_buf xx base sign) <= 20)%nat /\
  parse_int base (KPrintf.printint xx base sign) = if sign then xx else u64 xx.
Proof.
  intros Hx Hb. unfold KPrintf.printint, KPrintf.printint_buf. set (neg := sign && (xx <? 0)).
  set (x := if neg then u64 (- xx) else u64 xx).
  assert (0 <= x < 2 ^ 64) as Hx64 by (unfold x; destruct neg; apply u64_range).
  assert (neg = true -> x <= 2 ^ 63) as Hneg.
  { intros En. unfold x. rewrite En. unfold neg in En. zb. rewrite u64_small by lia. lia. }
  set (n := if neg then 19%nat else 20%nat).
  assert (x < base ^ Z.of_nat n) as Hn by (unfold n; destruct neg, Hb as [-> | ->]; cbn -[Z.pow]; lia).
  destruct (printint_loop_ok KPrintf.digits base n kernel_digits ltac:(lia) 64 x) as (P1 & P2 & P3);
    [lia|unfold n; destruct neg; lia..|]. cbv zeta in *.
  destruct (sign_buf base _ neg x P1 P2 ltac:(lia)) as [S1 S2]. cbv zeta in *. rewrite consputc_plain by done. split.
  - rewrite length_app. unfold n in P3. destruct neg; cbn [length]; lia.
  - rewrite S1. unfold x, neg. destruct sign; cbn [andb]; [|done].
    destruct (Z.ltb_spec xx 0); rewrite u64_small; lia.
Qed.
Lemma printint_roundtrip_witness :
  KPrintf.printint (- 2 ^ 63) 10 true = chars "-9223372036854775808" /\
  parse_int 10 (KPrintf.printint (- 2 ^ 63) 10 true) = - 2 ^ 63.
Proof. split; [vm_compute; reflexivity|]. apply (printint_roundtrip (- 2 ^ 63) 10 true); [lia|by left]. Defined.

(** The user library's [printint] prints only the low 32 bits.  Its [buf]
    never overflows either, but the characters read back as the value modulo
    2^32 (of the magnitude, when a sign is printed), so the 64-bit conversions
    %ld, %lu and %lx print a different number beyond 32 bits. *)
Theorem user_printint_low_bits xx base sgn :
  - 2 ^ 63 <= xx < 2 ^ 63 -> base = 10 \/ base = 16 ->
  (length (UPrintf.printint_buf xx base sgn) <= 20)%nat /\
  parse_int base (UPrintf.printint xx base sgn) = if sgn && (xx <? 0) then - u32 (- xx) else u32 xx.
Proof.
  intros Hx Hb. unfold UPrintf.printint, UPrintf.printint_buf. set (neg := sgn && (xx <? 0)).
  set (x := if neg then u32 (- xx) else u32 xx).
  assert (0 <= x < 2 ^ 32) as Hx32 by (unfold x; destruct neg; apply u32_range).
  assert (x < base ^ Z.of_nat 10) as Hn by (destruct Hb as [-> | ->]; cbn -[Z.pow]; lia).
  destruct (printint_loop_ok UPrintf.digits base 10 user_digits ltac:(lia) 32 x) as (P1 & P2 & P3); [lia..|]. cbv zeta in *.
  destruct (sign_buf base _ neg x P1 P2 ltac:(lia)) as [S1 S2]. cbv zeta in *. rewrite putc_plain by done. split.
  - rewrite length_app. destruct neg; cbn [length]; lia.
  - rewrite S1. unfold x. by destruct neg.
Qed.
Lemma user_printint_low_bits_witness :
  UPrintf.fprintf (chars "%lu") [VInt (2 ^ 32 + 7)] = Some (chars "7") /\
  parse_int 10 (UPrintf.printint (2 ^ 32 + 7) 10 false) = 7.
Proof. split; [vm_compute; reflexivity|]. apply (user_printint_low_bits (2 ^ 32 + 7) 10 false); [lia|by left]. Defined.
