(* ===== verification/Ring.v ===== *)
(** * Ring buffers

    The bytes between two free-running 32-bit counters in a circular buffer,
    as pipe.c and console.c index theirs: element [i] is at [i % N]. *)
From S2P Require Import Prelude.

Definition ring (N : Z) (buf : list Z) (r : Z) (cnt : nat) : list Z :=
  map (fun k => nth (Z.to_nat ((r + Z.of_nat k) mod N)) buf 0) (seq 0 cnt).

Section ring.
Context (N : Z) (N_pos : 0 < N).

Lemma ring_length buf r cnt : length (ring N buf r cnt) = cnt.
Proof. unfold ring. by rewrite length_map, length_seq. Qed.

Lemma ring_snoc buf r cnt :
  ring N buf r (S cnt) = ring N buf r cnt ++ [nth (Z.to_nat ((r + Z.of_nat cnt) mod N)) buf 0].
Proof. unfold ring. by rewrite seq_S, map_app. Qed.

Lemma ring_cons buf r cnt :
  ring N buf r (S cnt) = nth (Z.to_nat (r mod N)) buf 0 :: ring N buf (r + 1) cnt.
Proof.
  unfold ring. cbn [seq map]. rewrite Z.add_0_r. f_equal. rewrite <- seq_shift, map_map.
  apply map_ext. intros k. do 3 f_equal. lia.
Qed.

(** The counters may wrap where [N] divides the modulus. *)
Lemma ring_mod buf r r' cnt : r mod N = r' mod N -> ring N buf r cnt = ring N buf r' cnt.
Proof.
  intros E. unfold ring. apply map_ext. intros k. do 2 f_equal.
  by rewrite <- Z.add_mod_idemp_l, E, Z.add_mod_idemp_l by lia.
Qed.

Lemma ring_write_other buf r cnt i c :
  (forall k, (k < cnt)%nat -> (r + Z.of_nat k) mod N <> i mod N) ->
  ring N (<[Z.to_nat (i mod N) := c]> buf) r cnt = ring N buf r cnt.
Proof.
  intros H. unfold ring. apply map_ext_in. intros k [_ Hk]%in_seq. rewrite !nth_lookup.
  rewrite list_lookup_insert_ne; [done|]. pose proof (Z.mod_pos_bound i N). pose proof (Z.mod_pos_bound (r + Z.of_nat k) N).
  specialize (H k). lia.
Qed.

Lemma ring_push buf r cnt w c :
  length buf = Z.to_nat N -> (cnt < Z.to_nat N)%nat -> w mod N = (r + Z.of_nat cnt) mod N ->
  ring N (<[Z.to_nat (w mod N) := c]> buf) r (S cnt) = ring N buf r cnt ++ [c].
Proof.
  intros Hl Hc Hw. rewrite ring_snoc, ring_write_other.
  - rewrite Hw. f_equal. f_equal. pose proof (Z.mod_pos_bound (r + Z.of_nat cnt) N).
    rewrite nth_lookup, list_lookup_insert_eq by lia. done.
  - intros k Hk. rewrite Hw. intros E.
    pose proof (Z.div_mod (r + Z.of_nat k) N). pose proof (Z.div_mod (r + Z.of_nat cnt) N).
    assert ((r + Z.of_nat cnt) / N = (r + Z.of_nat k) / N \/ (r + Z.of_nat k) / N + 1 <= (r + Z.of_nat cnt) / N) as [E'|E']; [|rewrite <- E' in *; lia|nia].
    assert ((r + Z.of_nat k) / N <= (r + Z.of_nat cnt) / N) by (apply Z.div_le_mono; lia). lia.
Qed.
End ring.

Lemma u32_mod N z : 0 < N -> (N | 2 ^ 32) -> u32 z mod N = z mod N.
Proof.
  intros HN [q Hq]. unfold u32. pose proof (Z.div_mod z (2 ^ 32)) as E. rewrite Hq in *. rewrite E at 2 by lia.
  replace (q * N * (z / (q * N)) + z mod (q * N)) with (z mod (q * N) + (q * (z / (q * N))) * N) by ring.
  by rewrite Z.mod_add by lia.
Qed.
