(* ===== verification/Kstate.v ===== *)
(** * The kernel's state

    Processes (proc.h), open files (file.h), pipes, the console and the clock
    around the file system and memory, as one record that the system calls
    read and write, and the primitives of proc.c on the process table.  A
    process is an index into [proc], an open file an index into [ftable.file];
    a pipe is named by the address of its page. *)
From S2P Require Import Prelude Machine Kalloc Vm Spinlock Blocks Bio Log Fs.

(** ** Wait channels: the addresses that sleep and wakeup are called with *)
Inductive chan :=
| PipeRead (pi : Z) | PipeWrite (pi : Z)   (* &pi->nread, &pi->nwrite *)
| ProcChan (p : nat)                       (* a struct proc *)
| TicksChan | ConsChan | TxChan.           (* &ticks, &cons.r, &tx_chan *)
#[export] Instance chan_eq_dec : EqDecision chan.
Proof. solve_decision. Defined.

(** ** kernel/proc.h *)
Inductive procstate := UNUSED | USED | SLEEPING | RUNNABLE | RUNNING | ZOMBIE.
#[export] Instance procstate_eq_dec : EqDecision procstate.
Proof. solve_decision. Defined.

(** [struct trapframe]: 36 words; a field is its offset divided by 8. *)
Abbreviation trapframe := (list Z).
Definition TF_kernel_satp : nat := 0.
Definition TF_kernel_sp : nat := 1.
Definition TF_kernel_trap : nat := 2.
Definition TF_epc : nat := 3.
Definition TF_kernel_hartid : nat := 4.
Definition TF_sp : nat := 6.
Definition TF_a0 : nat := 14.
Definition TF_a1 : nat := 15.
Definition TF_a2 : nat := 16.
Definition TF_a3 : nat := 17.
Definition TF_a4 : nat := 18.
Definition TF_a5 : nat := 19.
Definition TF_a7 : nat := 21.
Definition tf_get (f : nat) (tf : trapframe) : Z := nth f tf 0.
Definition tf_set (f : nat) (v : Z) (tf : trapframe) : trapframe := <[f := u64 v]> tf.

(** [struct context]: ra, sp and the callee-saved registers. *)
Abbreviation context := (list Z).

Record proc := mkProc {
  pr_state : procstate;
  pr_chan : option chan;
  pr_killed : Z;
  pr_xstate : Z;
  pr_pid : Z;
  pr_parent : option nat;
  pr_sz : Z;
  pr_pagetable : Z;
  pr_trapframe : Z;            (* the page, 0 when there is none *)
  pr_tf : trapframe;           (* its contents *)
  pr_context : context;
  pr_ofile : list (option nat);
  pr_cwd : option nat;
  pr_name : list Z;
  pr_mask : Z;
  pr_allowed_path : list Z }.
Definition proc0 : proc :=
  mkProc UNUSED None 0 0 0 None 0 0 0 (replicate 36 0) (replicate 14 0) (replicate 16 None) None
    (replicate 16 0) 0 (replicate 128 0).

Definition set_state v p := mkProc v (pr_chan p) (pr_killed p) (pr_xstate p) (pr_pid p) (pr_parent p) (pr_sz p) (pr_pagetable p) (pr_trapframe p) (pr_tf p) (pr_context p) (pr_ofile p) (pr_cwd p) (pr_name p) (pr_mask p) (pr_allowed_path p).
Definition set_chan v p := mkProc (pr_state p) v (pr_killed p) (pr_xstate p) (pr_pid p) (pr_parent p) (pr_sz p) (pr_pagetable p) (pr_trapframe p) (pr_tf p) (pr_context p) (pr_ofile p) (pr_cwd p) (pr_name p) (pr_mask p) (pr_allowed_path p).
Definition set_killed v p := mkProc (pr_state p) (pr_chan p) v (pr_xstate p) (pr_pid p) (pr_parent p) (pr_sz p) (pr_pagetable p) (pr_trapframe p) (pr_tf p) (pr_context p) (pr_ofile p) (pr_cwd p) (pr_name p) (pr_mask p) (pr_allowed_path p).
Definition set_xstate v p := mkProc (pr_state p) (pr_chan p) (pr_killed p) v (pr_pid p) (pr_parent p) (pr_sz p) (pr_pagetable p) (pr_trapframe p) (pr_tf p) (pr_context p) (pr_ofile p) (pr_cwd p) (pr_name p) (pr_mask p) (pr_allowed_path p).
Definition set_pid v p := mkProc (pr_state p) (pr_chan p) (pr_killed p) (pr_xstate p) v (pr_parent p) (pr_sz p) (pr_pagetable p) (pr_trapframe p) (pr_tf p) (pr_context p) (pr_ofile p) (pr_cwd p) (pr_name p) (pr_mask p) (pr_allowed_path p).
Definition set_parent v p := mkProc (pr_state p) (pr_chan p) (pr_killed p) (pr_xstate p) (pr_pid p) v (pr_sz p) (pr_pagetable p) (pr_trapframe p) (pr_tf p) (pr_context p) (pr_ofile p) (pr_cwd p) (pr_name p) (pr_mask p) (pr_allowed_path p).
Definition set_sz v p := mkProc (pr_state p) (pr_chan p) (pr_killed p) (pr_xstate p) (pr_pid p) (pr_parent p) v (pr_pagetable p) (pr_trapframe p) (pr_tf p) (pr_context p) (pr_ofile p) (pr_cwd p) (pr_name p) (pr_mask p) (pr_allowed_path p).
Definition set_pagetable v p := mkProc (pr_state p) (pr_chan p) (pr_killed p) (pr_xstate p) (pr_pid p) (pr_parent p) (pr_sz p) v (pr_trapframe p) (pr_tf p) (pr_context p) (pr_ofile p) (pr_cwd p) (pr_name p) (pr_mask p) (pr_allowed_path p).
Definition set_trapframe v p := mkProc (pr_state p) (pr_chan p) (pr_killed p) (pr_xstate p) (pr_pid p) (pr_parent p) (pr_sz p) (pr_pagetable p) v (pr_tf p) (pr_context p) (pr_ofile p) (pr_cwd p) (pr_name p) (pr_mask p) (pr_allowed_path p).
Definition set_tf v p := mkProc (pr_state p) (pr_chan p) (pr_killed p) (pr_xstate p) (pr_pid p) (pr_parent p) (pr_sz p) (pr_pagetable p) (pr_trapframe p) v (pr_context p) (pr_ofile p) (pr_cwd p) (pr_name p) (pr_mask p) (pr_allowed_path p).
Definition set_context v p := mkProc (pr_state p) (pr_chan p) (pr_killed p) (pr_xstate p) (pr_pid p) (pr_parent p) (pr_sz p) (pr_pagetable p) (pr_trapframe p) (pr_tf p) v (pr_ofile p) (pr_cwd p) (pr_name p) (pr_mask p) (pr_allowed_path p).
Definition set_ofile v p := mkProc (pr_state p) (pr_chan p) (pr_killed p) (pr_xstate p) (pr_pid p) (pr_parent p) (pr_sz p) (pr_pagetable p) (pr_trapframe p) (pr_tf p) (pr_context p) v (pr_cwd p) (pr_name p) (pr_mask p) (pr_allowed_path p).
Definition set_cwd v p := mkProc (pr_state p) (pr_chan p) (pr_killed p) (pr_xstate p) (pr_pid p) (pr_parent p) (pr_sz p) (pr_pagetable p) (pr_trapframe p) (pr_tf p) (pr_context p) (pr_ofile p) v (pr_name p) (pr_mask p) (pr_allowed_path p).
Definition set_name v p := mkProc (pr_state p) (pr_chan p) (pr_killed p) (pr_xstate p) (pr_pid p) (pr_parent p) (pr_sz p) (pr_pagetable p) (pr_trapframe p) (pr_tf p) (pr_context p) (pr_ofile p) (pr_cwd p) v (pr_mask p) (pr_allowed_path p).
Definition set_mask v p := mkProc (pr_state p) (pr_chan p) (pr_killed p) (pr_xstate p) (pr_pid p) (pr_parent p) (pr_sz p) (pr_pagetable p) (pr_trapframe p) (pr_tf p) (pr_context p) (pr_ofile p) (pr_cwd p) (pr_name p) v (pr_allowed_path p).
Definition set_allowed_path v p := mkProc (pr_state p) (pr_chan p) (pr_killed p) (pr_xstate p) (pr_pid p) (pr_parent p) (pr_sz p) (pr_pagetable p) (pr_trapframe p) (pr_tf p) (pr_context p) (pr_ofile p) (pr_cwd p) (pr_name p) (pr_mask p) v.

(** ** kernel/file.h *)
Inductive ftype := FD_NONE | FD_PIPE | FD_INODE | FD_DEVICE.
#[export] Instance ftype_eq_dec : EqDecision ftype.
Proof. solve_decision. Defined.
Record file := mkFile {
  fl_type : ftype; fl_ref : Z; fl_readable : bool; fl_writable : bool;
  fl_pipe : Z; fl_ip : nat; fl_off : Z; fl_major : Z }.
Definition file0 : file := mkFile FD_NONE 0 false false 0 0 0 0.

(** ** The structures of pipe.c and console.c *)
Record pipe := mkPipe { pi_data : list Z; pi_nread : Z; pi_nwrite : Z; pi_readopen : bool; pi_writeopen : bool }.
Definition pipe0 : pipe := mkPipe (replicate 512 0) 0 0 false false.
Record cons := mkCons { c_buf : list Z; c_r : Z; c_w : Z; c_e : Z }.
Definition cons0 : cons := mkCons (replicate 128 0) 0 0 0.

(** The uart: what has been written to its transmit register, and [tx_busy]. *)
Record uart := mkUart { u_sent : list Z; u_busy : bool }.

Record kstate := mkK {
  k_fs : fstate bstate pmem;
  k_ftable : list file;
  k_pipes : gmap Z pipe;
  k_procs : list proc;
  k_cur : option nat;          (* myproc(), None in the scheduler *)
  k_nextpid : Z;
  k_initproc : option nat;
  k_ticks : Z;
  k_cons : cons;
  k_uart : uart }.

Abbreviation K := (M kstate).

Definition set_fs v k := mkK v (k_ftable k) (k_pipes k) (k_procs k) (k_cur k) (k_nextpid k) (k_initproc k) (k_ticks k) (k_cons k) (k_uart k).
Definition set_ftable v k := mkK (k_fs k) v (k_pipes k) (k_procs k) (k_cur k) (k_nextpid k) (k_initproc k) (k_ticks k) (k_cons k) (k_uart k).
Definition set_pipes v k := mkK (k_fs k) (k_ftable k) v (k_procs k) (k_cur k) (k_nextpid k) (k_initproc k) (k_ticks k) (k_cons k) (k_uart k).
Definition set_procs v k := mkK (k_fs k) (k_ftable k) (k_pipes k) v (k_cur k) (k_nextpid k) (k_initproc k) (k_ticks k) (k_cons k) (k_uart k).
Definition set_cur v k := mkK (k_fs k) (k_ftable k) (k_pipes k) (k_procs k) v (k_nextpid k) (k_initproc k) (k_ticks k) (k_cons k) (k_uart k).
Definition set_nextpid v k := mkK (k_fs k) (k_ftable k) (k_pipes k) (k_procs k) (k_cur k) v (k_initproc k) (k_ticks k) (k_cons k) (k_uart k).
Definition set_initproc v k := mkK (k_fs k) (k_ftable k) (k_pipes k) (k_procs k) (k_cur k) (k_nextpid k) v (k_ticks k) (k_cons k) (k_uart k).
Definition set_ticks v k := mkK (k_fs k) (k_ftable k) (k_pipes k) (k_procs k) (k_cur k) (k_nextpid k) (k_initproc k) v (k_cons k) (k_uart k).
Definition set_cons v k := mkK (k_fs k) (k_ftable k) (k_pipes k) (k_procs k) (k_cur k) (k_nextpid k) (k_initproc k) (k_ticks k) v (k_uart k).
Definition set_uart v k := mkK (k_fs k) (k_ftable k) (k_pipes k) (k_procs k) (k_cur k) (k_nextpid k) (k_initproc k) (k_ticks k) (k_cons k) v.

(** ** Access *)
Definition getp (k : kstate) (i : nat) : proc := default proc0 (k_procs k !! i).
Definition curp (k : kstate) : proc := match k_cur k with Some i => getp k i | None => proc0 end.
Definition myproc : K nat := fun k =>
  match k_cur k with Some i => Ret (i, k) | None => Panic "myproc" end.
Definition pfield {A} (i : nat) (f : proc -> A) : K A := gets (fun k => f (getp k i)).
Definition updp (i : nat) (f : proc -> proc) : K unit := modify (fun k => set_procs (alter f i (k_procs k)) k).
Definition mine {A} (f : proc -> A) : K A := i <~ myproc ;; pfield i f.

Definition getf (k : kstate) (f : nat) : file := default file0 (k_ftable k !! f).
Definition ffield {A} (f : nat) (g : file -> A) : K A := gets (fun k => g (getf k f)).
Definition updf (f : nat) (g : file -> file) : K unit := modify (fun k => set_ftable (alter g f (k_ftable k)) k).

Section lift.
Context (kend : Z).

(** File-system code runs as the current process. *)
Definition fs_of (k : kstate) : fstate bstate pmem :=
  mkF (f_log (k_fs k)) (f_sb (k_fs k)) (f_itable (k_fs k)) (f_mem (k_fs k))
    (pr_pid (curp k)) (default 0%nat (pr_cwd (curp k))).
Definition vm_of (p : proc) : vmproc := mkVmproc (pr_sz p) (pr_pagetable p).
Definition fsop {A} (m : UserMem pmem -> M (fstate bstate pmem) A) : K A := fun k =>
  match m (vm_user kend (vm_of (curp k))) (fs_of k) with
  | Ret (a, s) => Ret (a, set_fs s k)
  | Panic e => Panic e
  | Sleeps c => Sleeps c
  | OutOfFuel => OutOfFuel
  end.
(** Code of kalloc.c and vm.c on physical memory. *)
Definition memop {A} (m : M pmem A) : K A := fsop (fun _ => umem m).
(** Code of log.c. *)
Definition logop {A} (m : M (lstate bstate) A) : K A := fsop (fun _ => lg m).

(** copyin and copyout of the current process. *)
Definition copyout_k (pagetable dst : Z) (src : list Z) : K Z :=
  p <~ mine vm_of ;; memop (copyout kend p pagetable dst src (Z.of_nat (length src))).
Definition copyin_k (pagetable src len : Z) : K (Z * list Z) :=
  p <~ mine vm_of ;; memop (copyin kend p pagetable src len).
End lift.

(** ** wakeup, killed, setkilled (proc.c) *)
Definition wake (ch : chan) (p : proc) : proc :=
  if decide (pr_state p = SLEEPING /\ pr_chan p = Some ch) then set_state RUNNABLE p else p.
Definition wakeup_procs (cur : option nat) (ch : chan) (ps : list proc) : list proc :=
  imap (fun i p => if decide (cur = Some i) then p else wake ch p) ps.
Definition wakeup (ch : chan) : K unit := modify (fun k => set_procs (wakeup_procs (k_cur k) ch (k_procs k)) k).
Definition killed (i : nat) : K Z := pfield i pr_killed.
Definition setkilled (i : nat) : K unit := updp i (set_killed 1).

(** [sleep] up to the switch to the scheduler, and from there on: the process
    is marked asleep on the channel; when it runs again it clears [chan]. *)
Definition sleep (ch : chan) : K unit :=
  i <~ myproc ;; updp i (fun p => set_state SLEEPING (set_chan (Some ch) p)).
Definition awake : K unit := i <~ myproc ;; updp i (set_chan None).

Lemma myproc_run k i : k_cur k = Some i -> myproc k = Ret (i, k).
Proof. intros H. unfold myproc. by rewrite H. Qed.
Lemma mine_run {A} (f : proc -> A) k i : k_cur k = Some i -> mine f k = Ret (f (getp k i), k).
Proof. intros H. unfold mine. by rewrite (kbind_ret _ _ _ _ _ (myproc_run k i H)). Qed.
Lemma sleep_run ch k i : k_cur k = Some i ->
  sleep ch k = Ret (tt, set_procs (alter (fun p => set_state SLEEPING (set_chan (Some ch) p)) i (k_procs k)) k).
Proof. intros H. unfold sleep. by rewrite (kbind_ret _ _ _ _ _ (myproc_run k i H)). Qed.
