(* ===== verification/Demo.v ===== *)
(** * A small running kernel, for the examples

    One process with one mapped page at address 0, on the small disk of
    FsTheorems.v. *)
From S2P Require Import Prelude Machine KString Kalloc Vm Bio BioTheorems Log Fs FsData FsWrite FsTheorems Kstate.

(** Three levels of page table at 4096, 8192 and 12288 map page 0 to 16384. *)
Definition user_map : memory :=
  st64 (st64 (st64 ∅ 4096 (Z.lor (PA2PTE 8192) PTE_V)) 8192 (Z.lor (PA2PTE 12288) PTE_V)) 12288
    (Z.lor (PA2PTE 16384) (PTE_V + PTE_R + PTE_W + PTE_U)).
Definition user_mem (data : list Z) : pmem := mkPmem (put_bytes data user_map 16384) 0.
Definition user_proc : proc :=
  mkProc RUNNING None 0 0 1 None 4096 4096 0 (replicate 36 0) (replicate 14 0) (replicate 16 None) (Some 0%nat)
    (replicate 16 0) 0 (replicate 128 0).
Definition demo_k (data : list Z) : kstate :=
  mkK (mkF (f_log demo_fs) demo_sb (f_itable demo_fs) (user_mem data) 1 0) (replicate 100 file0) ∅
    (user_proc :: replicate 63 proc0) (Some 0%nat) 2 (Some 0%nat) 0 cons0 (mkUart [] false).

(** [copyin] and [copyout] of any part of [data] at address 0. *)
Definition splits (n : nat) : list (nat * nat) := i ← seq 0 n; j ← seq 1 (n - i); [(i, j)].
Lemma splits_in n i j : (0 < j)%nat -> (i + j <= n)%nat -> (i, j) ∈ splits n.
Proof.
  intros Hj Hn. unfold splits. apply list_elem_of_bind. exists i. split; [|apply elem_of_seq; lia].
  apply list_elem_of_bind. exists j. split; [by apply list_elem_of_singleton|apply elem_of_seq; lia].
Qed.

Definition user_copyin (data : list Z) (i n : nat) : bool :=
  match copyin 4096 (vm_of user_proc) 4096 (u64 (0 + Z.of_nat i)) (Z.of_nat n) (user_mem data) with
  | Ret ((r, bs), m) => (r =? 0) && bool_decide (bs = take n (drop i data)) && bool_decide (pm m = pm (user_mem data)) &&
      (freelist m =? 0)
  | _ => false
  end.
Lemma user_source data :
  forallb (fun ij => user_copyin data ij.1 ij.2) (splits (length data)) = true ->
  @source _ (vm_user 4096 (vm_of user_proc)) true 0 (fun m => m = user_mem data) data.
Proof.
  intros H pre bytes post mem -> Ht Hb. rewrite forallb_forall in H.
  assert (0 < length bytes)%nat as Hl by (destruct bytes; [done|cbn; lia]).
  specialize (H (length pre, length bytes)). assert (user_copyin data (length pre) (length bytes) = true) as Hc.
  { apply H, list_elem_of_In, splits_in; [done|]. rewrite Ht, !length_app. lia. }
  unfold user_copyin in Hc. cbn [vm_user um_copyin]. change (p_pagetable (vm_of user_proc)) with 4096.
  destruct (copyin _ _ _ _ _ _) as [[[r bs] m]| | |]; try discriminate Hc. exists m.
  apply andb_true_iff in Hc as [Hc H4]. apply andb_true_iff in Hc as [Hc H3]. apply andb_true_iff in Hc as [H1 H2].
  apply Z.eqb_eq in H1 as ->. apply bool_decide_eq_true in H2, H3. apply Z.eqb_eq in H4.
  rewrite H2, Ht, drop_app_length, take_app_length. split; [done|]. destruct m as [m fl]. unfold user_mem in *. cbn in *. by subst.
Qed.

Definition user_copyout (total : list Z) (i n : nat) : bool :=
  match copyout 4096 (vm_of user_proc) 4096 (u64 (0 + Z.of_nat i)) (take n (drop i total)) (Z.of_nat n) (user_mem (take i total)) with
  | Ret (r, m) => (r =? 0) && bool_decide (pm m = pm (user_mem (take (i + n) total))) && (freelist m =? 0)
  | _ => false
  end.
Lemma user_sink total :
  forallb (fun ij => user_copyout total ij.1 ij.2) (splits (length total)) = true ->
  @sink _ (vm_user 4096 (vm_of user_proc)) true 0 (fun acc m => m = user_mem acc) total.
Proof.
  intros H acc bytes mem -> [post Ht] Hb. rewrite forallb_forall in H.
  assert (0 < length bytes)%nat as Hl by (destruct bytes; [done|cbn; lia]).
  specialize (H (length acc, length bytes)). assert (user_copyout total (length acc) (length bytes) = true) as Hc.
  { apply H, list_elem_of_In, splits_in; [done|]. rewrite Ht, !length_app. lia. }
  unfold user_copyout in Hc. cbn [vm_user um_copyout]. change (p_pagetable (vm_of user_proc)) with 4096.
  rewrite <- app_assoc in Ht. rewrite Ht in Hc. rewrite drop_app_length, take_app_length, take_app_length in Hc.
  rewrite app_assoc, take_app_length' in Hc by (by rewrite length_app).
  destruct (copyout _ _ _ _ _ _ _) as [[r m]| | |]; try discriminate Hc. exists m.
  apply andb_true_iff in Hc as [Hc H4]. apply andb_true_iff in Hc as [H1 H2].
  apply Z.eqb_eq in H1 as ->. apply bool_decide_eq_true in H2. apply Z.eqb_eq in H4.
  split; [done|]. destruct m as [m fl]. unfold user_mem in *. cbn in *. by subst.
Qed.
