(* ===== verification/Pipe.v ===== *)
(** * kernel/pipe.c: pipes

    Every run of [pipewrite] and [piperead] between two points where the lock
    is free is one atomic step: up to its return, or up to the [sleep] that
    releases the lock.  [Asleep i] is the state of a writer that waits with
    [i] bytes written; it runs on from there. *)
From S2P Require Import Prelude Machine Ring Kalloc Vm Bio Fs FsWrite FsData Kstate Demo.

Definition PIPESIZE : Z := 512.

Inductive run := Returns (r : Z) | Asleep (i : Z).

Section pipe.
Context (kend : Z).

Definition pifield {A} (pi : Z) (f : pipe -> A) : K A := gets (fun k => f (default pipe0 (k_pipes k !! pi))).
Definition updpi (pi : Z) (f : pipe -> pipe) : K unit := modify (fun k => set_pipes (alter f pi (k_pipes k)) k).

Definition pipeclose (pi : Z) (writable : bool) : K unit :=
  (if writable then
     updpi pi (fun p => mkPipe (pi_data p) (pi_nread p) (pi_nwrite p) (pi_readopen p) false) ;;; wakeup (PipeRead pi)
   else
     updpi pi (fun p => mkPipe (pi_data p) (pi_nread p) (pi_nwrite p) false (pi_writeopen p)) ;;; wakeup (PipeWrite pi)) ;;;
  p <~ pifield pi id ;;
  if negb (pi_readopen p) && negb (pi_writeopen p) then
    memop kend (kfree kend pi) ;;; modify (fun k => set_pipes (delete pi (k_pipes k)) k)
  else kret tt.

(** [pi->data[pi->nwrite++ % PIPESIZE] = ch] *)
Definition pipe_put (c : Z) (p : pipe) : pipe :=
  mkPipe (<[Z.to_nat (pi_nwrite p mod PIPESIZE) := c]> (pi_data p)) (pi_nread p) (u32 (pi_nwrite p + 1))
    (pi_readopen p) (pi_writeopen p).

Fixpoint pipewrite_loop (fuel : nat) (pi addr n i : Z) : K run :=
  match fuel with
  | O => nofuel
  | S fuel =>
      if i <? n then
        p <~ pifield pi id ;;
        pr <~ myproc ;;
        kd <~ killed pr ;;
        if negb (pi_readopen p) || negb (kd =? 0) then kret (Returns (-1))
        else if pi_nwrite p =? u32 (pi_nread p + PIPESIZE) then
          wakeup (PipeRead pi) ;;; sleep (PipeWrite pi) ;;; kret (Asleep i)
        else
          pt <~ pfield pr pr_pagetable ;;
          r <~ copyin_k kend pt (u64 (addr + i)) 1 ;;
          if r.1 =? -1 then wakeup (PipeRead pi) ;;; kret (Returns i)
          else updpi pi (pipe_put (hd 0 r.2)) ;;; pipewrite_loop fuel pi addr n (i + 1)
      else wakeup (PipeRead pi) ;;; kret (Returns i)
  end.
(** The run of a writer with [i] of its [n] bytes written. *)
Definition pipewrite_from (pi addr n i : Z) : K run :=
  pipewrite_loop (Z.to_nat (n - i) + 1) pi addr n i.
Definition pipewrite (pi addr n : Z) : K run := pipewrite_from pi addr n 0.
Definition pipewrite_resume (pi addr n i : Z) : K run := awake ;;; pipewrite_from pi addr n i.

(** [ch = pi->data[pi->nread++ % PIPESIZE]] *)
Definition pipe_get (p : pipe) : Z * pipe :=
  (nth (Z.to_nat (pi_nread p mod PIPESIZE)) (pi_data p) 0,
   mkPipe (pi_data p) (u32 (pi_nread p + 1)) (pi_nwrite p) (pi_readopen p) (pi_writeopen p)).

Fixpoint piperead_loop (cnt : nat) (pi addr i : Z) : K Z :=
  match cnt with
  | O => kret i
  | S cnt =>
      p <~ pifield pi id ;;
      if pi_nread p =? pi_nwrite p then kret i
      else
        let '(c, p') := pipe_get p in
        updpi pi (fun _ => p') ;;;
        pt <~ mine pr_pagetable ;;
        r <~ copyout_k kend pt (u64 (addr + i)) [c] ;;
        if r =? -1 then kret i else piperead_loop cnt pi addr (i + 1)
  end.
Definition piperead (pi addr n : Z) : K run :=
  p <~ pifield pi id ;;
  if (pi_nread p =? pi_nwrite p) && pi_writeopen p then
    pr <~ myproc ;;
    kd <~ killed pr ;;
    if negb (kd =? 0) then kret (Returns (-1)) else sleep (PipeRead pi) ;;; kret (Asleep 0)
  else
    i <~ piperead_loop (Z.to_nat n) pi addr 0 ;;
    wakeup (PipeWrite pi) ;;;
    kret (Returns i).
Definition piperead_resume (pi addr n : Z) : K run := awake ;;; piperead pi addr n.

(** ** The queue a pipe stands for *)
Record pipe_ok (p : pipe) (q : list Z) : Prop := {
  po_data : length (pi_data p) = 512%nat;
  po_nread : 0 <= pi_nread p < 2 ^ 32;
  po_nwrite : 0 <= pi_nwrite p < 2 ^ 32;
  po_cap : (length q <= 512)%nat;
  po_count : pi_nwrite p = u32 (pi_nread p + Z.of_nat (length q));
  po_bytes : ring PIPESIZE (pi_data p) (pi_nread p) (length q) = q }.

Lemma PIPESIZE_divides : (PIPESIZE | 2 ^ 32).
Proof. by exists (2 ^ 23). Qed.

Lemma pipe_full p q : pipe_ok p q -> (pi_nwrite p =? u32 (pi_nread p + PIPESIZE)) = (length q =? 512)%nat.
Proof.
  intros [H1 H2 H3 H4 H5 H6]. rewrite H5. unfold PIPESIZE, u32. apply eq_true_iff_eq.
  rewrite Z.eqb_eq, Nat.eqb_eq. split; [|intros ->; done]. intros E.
  assert ((pi_nread p + Z.of_nat (length q)) mod 2 ^ 32 = (pi_nread p + 512) mod 2 ^ 32) as E' by done. clear E.
  revert E'. clear H5 H6. set (n := Z.of_nat (length q)) in *. assert (0 <= n <= 512) by lia. intros. cut (n = 512); [lia|].
  dlia.
Qed.
Lemma pipe_empty p q : pipe_ok p q -> (pi_nread p =? pi_nwrite p) = (length q =? 0)%nat.
Proof.
  intros [H1 H2 H3 H4 H5 H6]. rewrite H5. unfold u32. apply eq_true_iff_eq.
  rewrite Z.eqb_eq, Nat.eqb_eq. split; [|intros E; rewrite E; change (Z.of_nat 0) with 0; rewrite Z.add_0_r, Z.mod_small by lia; reflexivity].
  clear H5 H6. set (n := Z.of_nat (length q)) in *. assert (0 <= n <= 512) by lia. intros. cut (n = 0); [lia|]. dlia.
Qed.

Lemma pipe_put_ok p q c : pipe_ok p q -> (length q < 512)%nat -> pipe_ok (pipe_put c p) (q ++ [c]).
Proof.
  intros [H1 H2 H3 H4 H5 H6] Hl. assert (length (q ++ [c]) = S (length q)) as El by (rewrite length_app; cbn; lia).
  split; cbn [pipe_put pi_data pi_nread pi_nwrite]; [by rewrite length_insert|done|apply u32_range|lia| |].
  - rewrite El, H5. unfold u32. rewrite Zplus_mod_idemp_l. f_equal. lia.
  - rewrite El. assert (0 < PIPESIZE) by (unfold PIPESIZE; lia). rewrite ring_push; [by rewrite H6|done|by rewrite H1|done|].
    rewrite H5. apply u32_mod; [done|apply PIPESIZE_divides].
Qed.
Lemma pipe_get_ok p q c : pipe_ok p (c :: q) -> exists p', pipe_get p = (c, p') /\ pipe_ok p' q /\
  pi_readopen p' = pi_readopen p /\ pi_writeopen p' = pi_writeopen p.
Proof.
  intros [H1 H2 H3 H4 H5 H6]. cbn [length] in *. rewrite ring_cons in H6 by (unfold PIPESIZE; lia). injection H6 as E1 E2.
  eexists. split; [unfold pipe_get; by rewrite E1|]. split; [|done].
  split; cbn [pi_data pi_nread pi_nwrite]; [done|apply u32_range|done|lia| |].
  - rewrite H5. unfold u32. rewrite Zplus_mod_idemp_l. f_equal. lia.
  - rewrite <- E2 at 2. apply ring_mod; [unfold PIPESIZE; lia|]. apply u32_mod; [unfold PIPESIZE; lia|apply PIPESIZE_divides].
Qed.

(** ** Runs of the current process *)
Definition kmem (k : kstate) : pmem := f_mem (k_fs k).
(** Only the file system's part of the state (memory included) changes. *)
Definition same_k (k k' : kstate) : Prop := k' = set_fs (k_fs k') k.

Lemma copyin_run k me Q data i :
  k_cur k = Some me -> @source _ (vm_user kend (vm_of (curp k))) true i Q data -> Q (kmem k) ->
  forall j b, data !! j = Some b ->
  exists k', copyin_k kend (pr_pagetable (getp k me)) (u64 (i + Z.of_nat j)) 1 k = Ret ((0, [b]), k') /\ same_k k k' /\ Q (kmem k').
Proof.
  intros Hc Hs HQ j b Hj. destruct (Hs (take j data) [b] (drop (S j) data) (kmem k) HQ) as (mem' & Hr & HQ').
  { symmetry. by apply take_drop_middle. }
  { discriminate. }
  rewrite length_take_le in Hr by (apply lookup_lt_Some in Hj; lia). cbn [vm_user um_copyin length] in Hr.
  eexists. unfold copyin_k, mine, myproc. unfold kbind at 1 2. rewrite Hc. cbn [pfield gets]. unfold memop, fsop, umem.
  cbn [fs_of f_mem]. unfold curp in Hr. rewrite Hc in Hr. fold (kmem k). change (Z.of_nat 1) with 1 in Hr.
  cbn [vm_of p_pagetable] in Hr. rewrite Hr. split; [done|]. split; [done|]. done.
Qed.

Lemma copyout_run k me P total addr acc c :
  k_cur k = Some me -> @sink _ (vm_user kend (vm_of (curp k))) true addr P total -> P acc (kmem k) ->
  (acc ++ [c]) `prefix_of` total ->
  exists k', copyout_k kend (pr_pagetable (getp k me)) (u64 (addr + Z.of_nat (length acc))) [c] k = Ret (0, k') /\
    same_k k k' /\ P (acc ++ [c]) (kmem k').
Proof.
  intros Hc Hs HP Hpre. destruct (Hs acc [c] (kmem k) HP Hpre) as (mem' & Hr & HP'); [discriminate|].
  cbn [vm_user um_copyout] in Hr.
  eexists. unfold copyout_k, mine, myproc. unfold kbind at 1 2. rewrite Hc. cbn [pfield gets]. unfold memop, fsop, umem.
  cbn [fs_of f_mem]. unfold curp in Hr. rewrite Hc in Hr. fold (kmem k).
  cbn [vm_of p_pagetable] in Hr. rewrite Hr. split; [done|]. split; [done|]. done.
Qed.

(** The state after a run: the pipe changed, memory may have, and [ps] is the
    process table. *)
Record ran (pi : Z) (k : kstate) (p' : pipe) (ps : list proc) (k' : kstate) : Prop := {
  rn_pipes : k_pipes k' = <[pi := p']> (k_pipes k);
  rn_procs : k_procs k' = ps;
  rn_cur : k_cur k' = k_cur k;
  rn_ftable : k_ftable k' = k_ftable k;
  rn_cons : k_cons k' = k_cons k }.

Lemma wakeup_cur me ch ps p : ps !! me = Some p -> wakeup_procs (Some me) ch ps !! me = Some p.
Proof. intros H. unfold wakeup_procs. rewrite list_lookup_imap, H. cbn. by rewrite decide_True. Qed.

Definition asleep_on (me : nat) (ch : chan) (ps : list proc) : list proc :=
  alter (fun p => set_state SLEEPING (set_chan (Some ch) p)) me ps.

Section write.
Context (pi addr : Z) (Q : pmem -> Prop) (data : list Z) (me : nat) (pr : proc).
Abbreviation n := (Z.of_nat (length data)).
Hypothesis Hsrc : @source _ (vm_user kend (vm_of pr)) true addr Q data.
Hypothesis Hkilled : pr_killed pr = 0.

Lemma pipewrite_loop_ok fuel : forall i k p q,
  k_cur k = Some me -> k_procs k !! me = Some pr -> k_pipes k !! pi = Some p -> pipe_ok p q -> pi_readopen p = true -> Q (kmem k) ->
  0 <= i <= n -> (Z.to_nat (n - i) < fuel)%nat ->
  exists j k' p' , i <= j <= n /\ pipewrite_loop fuel pi addr n i k = Ret (if j =? n then Returns n else Asleep j, k') /\
    let q' := q ++ take (Z.to_nat (j - i)) (drop (Z.to_nat i) data) in
    let woken := wakeup_procs (Some me) (PipeRead pi) (k_procs k) in
    pipe_ok p' q' /\ pi_readopen p' = true /\ pi_writeopen p' = pi_writeopen p /\ Q (kmem k') /\ (j < n -> length q' = 512%nat) /\
    ran pi k p' (if j =? n then woken else asleep_on me (PipeWrite pi) woken) k'.
Proof.
  induction fuel as [|fuel IH]; intros i k p q Hc Hpr Hp Hok Hro HQ Hi Hf; [lia|]. cbn [pipewrite_loop].
  assert (getp k me = pr) as Eg by (unfold getp; by rewrite Hpr).
  assert (curp k = pr) as Ec by (unfold curp; by rewrite Hc). destruct (Z.ltb_spec i n) as [Hlt|Hge].
  2:{ exists i, (set_procs (wakeup_procs (k_cur k) (PipeRead pi) (k_procs k)) k), p. replace i with n by lia. rewrite Z.eqb_refl, Z.sub_diag.
      change (take (Z.to_nat 0) _) with (@nil Z). cbv zeta. rewrite app_nil_r. split; [lia|]. split; [reflexivity|]. rewrite Hc.
      split_and!; try done; try lia. split; cbn; try done. by rewrite insert_id. }
  unfold kbind at 1, pifield, gets. rewrite Hp. cbn [default id from_option].
  unfold kbind at 1, myproc. rewrite Hc. unfold kbind at 1, killed, pfield, gets. rewrite Eg, Hkilled, Hro. cbn [negb orb Z.eqb].
  rewrite (pipe_full p q Hok). destruct (Nat.eqb_spec (length q) 512) as [Hfull|Hroom].
  - exists i. eexists _, p. split; [lia|]. replace (i =? n) with false by lia. rewrite Z.sub_diag.
    change (take (Z.to_nat 0) _) with (@nil Z). cbv zeta. rewrite app_nil_r.
    split; [unfold kbind at 1, wakeup, modify; rewrite Hc; by erewrite kbind_ret by (by apply sleep_run)|].
    split_and!; try done. split; cbn; try done. by rewrite insert_id.
  - unfold kbind at 1. rewrite Eg. destruct (lookup_lt_is_Some_2 data (Z.to_nat i)) as [b Hb]; [lia|].
    rewrite <- Ec in Hsrc. destruct (copyin_run k me Q data addr Hc Hsrc HQ (Z.to_nat i) b Hb) as (k1 & Hrun & S1 & HQ1).
    rewrite Z2Nat.id, Eg in Hrun by lia. rewrite (kbind_ret _ _ _ _ _ Hrun). cbn [fst snd hd Z.eqb].
    unfold kbind at 1, updpi, modify.
    destruct (IH (i + 1) (set_pipes (alter (pipe_put b) pi (k_pipes k1)) k1) (pipe_put b p) (q ++ [b])) as (j & k' & p' & Hj & Hrun' & H1 & H2 & H2' & H3 & H4 & H5);
      try (rewrite S1; done); try done; try lia.
    { rewrite S1. cbn. rewrite lookup_alter_eq, Hp. done. }
    { pose proof (po_cap _ _ Hok). apply pipe_put_ok; [done|lia]. }
    assert (take (Z.to_nat (j - i)) (drop (Z.to_nat i) data) = b :: take (Z.to_nat (j - (i + 1))) (drop (Z.to_nat (i + 1)) data)) as Et.
    { rewrite (drop_S data b (Z.to_nat i)) by done. replace (Z.to_nat (j - i)) with (S (Z.to_nat (j - (i + 1)))) by lia.
      by replace (Z.to_nat (i + 1)) with (S (Z.to_nat i)) by lia. }
    exists j, k', p'. split; [lia|]. split; [exact Hrun'|]. cbv zeta in *. rewrite Et. replace (q ++ b :: take (Z.to_nat (j - (i + 1))) (drop (Z.to_nat (i + 1)) data)) with ((q ++ [b]) ++ take (Z.to_nat (j - (i + 1))) (drop (Z.to_nat (i + 1)) data)) by (by rewrite <- app_assoc).
    split_and!; try done. rewrite S1 in H5. destruct H5 as [R1 R2 R3 R4 R5]. cbn in *. split; try done.
    rewrite R1. apply map_eq. intros x. destruct (decide (x = pi)) as [->|Hx]; [by rewrite !lookup_insert_eq|].
    by rewrite !lookup_insert_ne, lookup_alter_ne by done.
Qed.
End write.

Lemma ran_trans pi k p1 k1 p2 ps k2 : ran pi k p1 (k_procs k) k1 -> ran pi k1 p2 ps k2 -> ran pi k p2 ps k2.
Proof.
  intros [A1 A2 A3 A4 A5] [B1 B2 B3 B4 B5]. split; try congruence. rewrite B1, A1. apply insert_insert_eq.
Qed.

Section read.
Context (pi addr : Z) (me : nat) (pr : proc) (P : list Z -> pmem -> Prop) (total : list Z).
Hypothesis Hsink : @sink _ (vm_user kend (vm_of pr)) true addr P total.

Lemma piperead_loop_ok cnt : forall acc k p q,
  k_cur k = Some me -> k_procs k !! me = Some pr -> k_pipes k !! pi = Some p -> pipe_ok p q ->
  total = acc ++ take cnt q -> P acc (kmem k) ->
  exists k' p', piperead_loop cnt pi addr (Z.of_nat (length acc)) k = Ret (Z.of_nat (length total), k') /\
    pipe_ok p' (drop cnt q) /\ pi_readopen p' = pi_readopen p /\ pi_writeopen p' = pi_writeopen p /\
    P total (kmem k') /\ ran pi k p' (k_procs k) k'.
Proof.
  induction cnt as [|cnt IH]; intros acc k p q Hc Hpr Hp Hok Ht HP; cbn [piperead_loop].
  { rewrite take_0, app_nil_r in Ht. subst acc. exists k, p. rewrite drop_0. split_and!; try done. split; try done. by rewrite insert_id. }
  assert (getp k me = pr) as Eg by (unfold getp; by rewrite Hpr).
  assert (curp k = pr) as Ec by (unfold curp; by rewrite Hc).
  unfold kbind at 1, pifield, gets. rewrite Hp. cbn [default id from_option]. rewrite (pipe_empty p q Hok).
  destruct q as [|c q]; cbn [length Nat.eqb].
  { rewrite take_nil, app_nil_r in Ht. subst acc. exists k, p. split_and!; try done. split; try done. by rewrite insert_id. }
  destruct (pipe_get_ok p q c Hok) as (p1 & Hget & Hok1 & Hro & Hwo). rewrite Hget. unfold kbind at 1, updpi, modify.
  set (k1 := set_pipes _ k). rewrite (kbind_ret _ _ _ _ _ (mine_run pr_pagetable k1 me Hc)).
  rewrite <- Ec in Hsink.
  destruct (copyout_run k1 me P total addr acc c Hc Hsink HP) as (k2 & Hrun & S2 & HP2).
  { rewrite Ht. cbn [take]. exists (take cnt q). by rewrite <- app_assoc. }
  rewrite (kbind_ret _ _ _ _ _ Hrun). change (0 =? -1) with false. cbv iota.
  destruct (IH (acc ++ [c]) k2 p1 q) as (k' & p' & H1 & H2 & H3 & H4 & H5 & H6); try (rewrite S2; done); try done.
  { rewrite S2. cbn. by rewrite lookup_alter_eq, Hp. }
  { rewrite Ht. cbn [take]. by rewrite <- app_assoc. }
  rewrite length_app in H1. cbn [length] in H1. replace (Z.of_nat (length acc + 1)) with (Z.of_nat (length acc) + 1) in H1 by lia.
  exists k', p'. cbn [drop]. split_and!; try done; try congruence. rewrite S2 in H6. destruct H6 as [R1 R2 R3 R4 R5]. cbn in *.
  split; try done. rewrite R1. apply map_eq. intros x. destruct (decide (x = pi)) as [->|Hx]; [by rewrite !lookup_insert_eq|].
  by rewrite !lookup_insert_ne, lookup_alter_ne by done.
Qed.
End read.

(** C34: A pipe is a bounded queue, seen by the writer.  A writer with [i] of its
    bytes written, not killed, with the read end open and its bytes readable,
    appends bytes in order: it either returns after the last one, with every
    reader of the pipe woken, or it sleeps with exactly PIPESIZE bytes in the
    queue, having woken the readers; no other pipe changes.  The counters are
    free-running and may wrap. *)
Theorem pipewrite_appends pi addr Q data me pr i k p q :
  k_cur k = Some me -> k_procs k !! me = Some pr -> pr_killed pr = 0 ->
  k_pipes k !! pi = Some p -> pipe_ok p q -> pi_readopen p = true ->
  @source _ (vm_user kend (vm_of pr)) true addr Q data -> Q (kmem k) ->
  let n := Z.of_nat (length data) in
  0 <= i <= n ->
  exists j k' p', i <= j <= n /\ pipewrite_from pi addr n i k = Ret (if j =? n then Returns n else Asleep j, k') /\
    let q' := q ++ take (Z.to_nat (j - i)) (drop (Z.to_nat i) data) in
    let woken := wakeup_procs (Some me) (PipeRead pi) (k_procs k) in
    pipe_ok p' q' /\ pi_readopen p' = true /\ pi_writeopen p' = pi_writeopen p /\ Q (kmem k') /\ (j < n -> length q' = 512%nat) /\
    ran pi k p' (if j =? n then woken else asleep_on me (PipeWrite pi) woken) k'.
Proof.
  intros Hc Hpr Hk Hp Hok Hro Hs HQ n Hi.
  apply (pipewrite_loop_ok pi addr Q data me pr Hs Hk); try done. fold n. lia.
Qed.

(** A pipe is a bounded queue, seen by the reader.  [piperead] of [n] bytes
    takes the first bytes of the queue, at most [n], delivers them in order to
    the reader's memory and returns their number, 0 at end of file; it wakes
    every writer.  It sleeps, or fails if the process was killed, only when
    the queue is empty and the write end is open. *)
Theorem piperead_takes pi addr n me pr P k p q :
  k_cur k = Some me -> k_procs k !! me = Some pr -> k_pipes k !! pi = Some p -> pipe_ok p q ->
  let total := take (Z.to_nat n) q in
  @sink _ (vm_user kend (vm_of pr)) true addr P total -> P [] (kmem k) ->
  exists r k', piperead pi addr n k = Ret (r, k') /\
  if decide (q = [] /\ pi_writeopen p = true)
  then if negb (pr_killed pr =? 0) then r = Returns (-1) /\ k' = k
       else r = Asleep 0 /\ ran pi k p (asleep_on me (PipeRead pi) (k_procs k)) k'
  else exists p', r = Returns (Z.of_nat (length total)) /\ P total (kmem k') /\ pipe_ok p' (drop (Z.to_nat n) q) /\
    pi_readopen p' = pi_readopen p /\ pi_writeopen p' = pi_writeopen p /\
    ran pi k p' (wakeup_procs (Some me) (PipeWrite pi) (k_procs k)) k'.
Proof.
  intros Hc Hpr Hp Hok total Hs HP. unfold piperead. unfold kbind at 1, pifield, gets. rewrite Hp. cbn [default id from_option].
  assert (getp k me = pr) as Eg by (unfold getp; by rewrite Hpr).
  assert (((pi_nread p =? pi_nwrite p) && pi_writeopen p)%bool = bool_decide (q = [] /\ pi_writeopen p = true)) as ->.
  { rewrite (pipe_empty p q Hok). apply eq_true_iff_eq. rewrite bool_decide_eq_true, andb_true_iff, Nat.eqb_eq, length_zero_iff_nil. done. }
  case_decide as E; [rewrite bool_decide_true by done|rewrite bool_decide_false by done].
  - rewrite (kbind_ret _ _ _ _ _ (myproc_run k me Hc)). unfold kbind at 1, killed, pfield, gets. rewrite Eg.
    destruct (negb (pr_killed pr =? 0)); [by eexists _, _|]. eexists _, _.
    split; [by rewrite (kbind_ret _ _ _ _ _ (sleep_run _ k me Hc))|]. split; [done|]. split; cbn; try done. by rewrite insert_id.
  - destruct (piperead_loop_ok pi addr me pr P total Hs (Z.to_nat n) [] k p q) as (k1 & p' & H1 & H2 & H3 & H4 & H5 & H6); try done.
    eexists _, _. split; [rewrite (kbind_ret _ _ _ _ _ H1); reflexivity|]. exists p'. split_and!; try done.
    eapply ran_trans; [exact H6|]. destruct H6 as [R1 R2 R3 R4 R5]. split; cbn; try done.
    + rewrite R1. by rewrite insert_insert_eq.
    + by rewrite R2, R3, Hc.
Qed.
End pipe.

(** A pipe with 511 bytes in it, the counters about to wrap. *)
Definition demo_pipe : pipe := mkPipe (replicate 512 5) (2 ^ 32 - 500) 11 true true.
Definition demo_pk (data : list Z) : kstate := set_pipes {[ 20480 := demo_pipe ]} (demo_k data).
Lemma demo_pipe_ok : pipe_ok demo_pipe (replicate 511 5).
Proof. split; [reflexivity|cbn; lia|cbn; lia|rewrite length_replicate; lia|reflexivity|vm_compute; reflexivity]. Qed.

Lemma pipewrite_appends_witness :
  exists k' p', pipewrite_from 4096 20480 0 3 0 (demo_pk [7; 8; 9]) = Ret (Asleep 1, k') /\ pipe_ok p' (replicate 511 5 ++ [7]).
Proof.
  destruct (pipewrite_appends 4096 20480 0 (fun m => m = user_mem [7; 8; 9]) [7; 8; 9] 0 user_proc 0 (demo_pk [7; 8; 9])
    demo_pipe (replicate 511 5)) as (j & k' & p' & Hj & Hrun & Hok & _ & _ & _ & Hfull & _); try done.
  - apply demo_pipe_ok.
  - apply user_source. vm_compute. reflexivity.
  - cbn. lia.
  - assert (j = 1) as ->.
    { rewrite length_app, length_replicate, length_take, length_drop in Hfull. cbn [length] in *.
      pose proof (po_cap _ _ Hok) as Hcap. rewrite length_app, length_replicate, length_take, length_drop in Hcap. cbn [length] in Hcap. lia. }
    exists k', p'. split; [exact Hrun|exact Hok].
Defined.

Lemma piperead_takes_witness :
  exists k' p', piperead 4096 20480 0 3 (demo_pk []) = Ret (Returns 3, k') /\ kmem k' = user_mem [5; 5; 5] /\
    pipe_ok p' (replicate 508 5).
Proof.
  destruct (piperead_takes 4096 20480 0 3 0 user_proc (fun acc m => m = user_mem acc) (demo_pk [])
    demo_pipe (replicate 511 5)) as (r & k' & Hrun & H); try done.
  - apply demo_pipe_ok.
  - apply user_sink. vm_compute. reflexivity.
  - rewrite decide_False in H by (intros [H1 _]; discriminate H1). destruct H as (p' & -> & HP & Hok & _).
    exists k', p'. split; [exact Hrun|]. split; [exact HP|exact Hok].
Defined.
