(* ===== verification/Console.v ===== *)
(** * kernel/console.c and kernel/uart.c: the console

    The line discipline over the input ring buffer, and output to the uart.
    The uart's registers are seen through what is written to its transmit
    register ([u_sent]) and what it delivers ([uartintr] takes the status and
    the received characters).  A wait for the transmitter ends with the
    interrupt that clears [tx_busy]. *)
From S2P Require Import Prelude Machine Ring Printf Kalloc Vm Bio Fs FsData Kstate Demo Pipe.

Definition INPUT_BUF_SIZE : Z := 128.
(** [C('x')] *)
Definition Ctrl (s : string) : Z := ch s - ch "@".

Section console.
Context (kend : Z).

(** ** Output *)
Definition uart_send (bs : list Z) : K unit :=
  modify (fun k => set_uart (mkUart (u_sent (k_uart k) ++ bs) (u_busy (k_uart k))) k).
Definition consputc (c : Z) : K unit := uart_send (KPrintf.consputc c).
Definition kprintf (fmt : list Z) (ap : list va) : K unit :=
  match KPrintf.printf fmt ap with Some o => uart_send o | None => panic "printf: va_arg" end.

(** One character: wait while [tx_busy], then write the transmit register. *)
Definition uart_put (c : Z) : K unit :=
  modify (fun k => set_uart (mkUart (u_sent (k_uart k)) false) k) ;;;
  uart_send [u8 c] ;;;
  modify (fun k => set_uart (mkUart (u_sent (k_uart k)) true) k).
Fixpoint uartwrite (buf : list Z) : K unit :=
  match buf with
  | [] => kret tt
  | c :: buf => uart_put c ;;; uartwrite buf
  end.

(** [kbuf] holds the bytes at [src] when it is a kernel address. *)
Fixpoint consolewrite_loop (fuel : nat) (user_src : bool) (src : Z) (kbuf : list Z) (n i : Z) : K Z :=
  match fuel with
  | O => nofuel
  | S fuel =>
      if i <? n then
        let nn := 32 in
        let nn := if n - i <? nn then n - i else nn in
        r <~ fsop kend (fun U => either_copyin user_src (u64 (src + i)) (drop (Z.to_nat i) kbuf) nn) ;;
        if r.1 =? -1 then kret i
        else uartwrite r.2 ;;; consolewrite_loop fuel user_src src kbuf n (i + nn)
      else kret i
  end.
Definition consolewrite (user_src : bool) (src : Z) (kbuf : list Z) (n : Z) : K Z :=
  consolewrite_loop (Z.to_nat (n / 32) + 2) user_src src kbuf n 0.

(** ** Input *)
Definition getc {A} (f : cons -> A) : K A := gets (fun k => f (k_cons k)).
Definition updc (f : cons -> cons) : K unit := modify (fun k => set_cons (f (k_cons k)) k).
Definition set_r v c := mkCons (c_buf c) v (c_w c) (c_e c).
Definition set_w v c := mkCons (c_buf c) (c_r c) v (c_e c).
Definition set_e v c := mkCons (c_buf c) (c_r c) (c_w c) v.

(** A reader that waits for input still wants [n] bytes at [dst]. *)
Inductive crun := CReturns (r : Z) | CAsleep (dst n : Z).

Fixpoint consoleread_loop (fuel : nat) (user_dst : bool) (dst n target : Z) : K crun :=
  match fuel with
  | O => nofuel
  | S fuel =>
      if 0 <? n then
        cs <~ getc id ;;
        if c_r cs =? c_w cs then
          me <~ myproc ;;
          kd <~ killed me ;;
          if negb (kd =? 0) then kret (CReturns (-1))
          else sleep ConsChan ;;; kret (CAsleep dst n)
        else
          let c := nth (Z.to_nat (c_r cs mod INPUT_BUF_SIZE)) (c_buf cs) 0 in
          updc (set_r (u32 (c_r cs + 1))) ;;;
          if c =? Ctrl "D" then
            (if n <? target then updc (fun x => set_r (u32 (c_r x - 1)) x) else kret tt) ;;;
            kret (CReturns (target - n))
          else
            r <~ fsop kend (fun U => either_copyout user_dst dst [u8 c]) ;;
            if r =? -1 then kret (CReturns (target - n))
            else if c =? 10 then kret (CReturns (target - (n - 1)))
            else consoleread_loop fuel user_dst (u64 (dst + 1)) (n - 1) target
      else kret (CReturns (target - n))
  end.
Definition consoleread (user_dst : bool) (dst n : Z) : K crun :=
  consoleread_loop (Z.to_nat n + 1) user_dst dst n n.
Definition consoleread_resume (user_dst : bool) (dst n target : Z) : K crun :=
  awake ;;; consoleread_loop (Z.to_nat n + 1) user_dst dst n target.

(** The process list (proc.c). *)
Definition state_name (s : procstate) : list Z :=
  chars match s with
        | UNUSED => "unused" | USED => "used" | SLEEPING => "sleep " | RUNNABLE => "runble"
        | RUNNING => "run   " | ZOMBIE => "zombie"
        end.
(** The string in a buffer: the bytes before the first NUL. *)
Fixpoint cstr (l : list Z) : list Z :=
  match l with [] => [] | c :: l => if c =? 0 then [] else c :: cstr l end.
Fixpoint procdump_loop (ps : list proc) : K unit :=
  match ps with
  | [] => kret tt
  | p :: ps =>
      (if decide (pr_state p = UNUSED) then kret tt
       else
         kprintf (chars "%d %s %s") [VInt (pr_pid p); VStr (Some (state_name (pr_state p))); VStr (Some (cstr (pr_name p)))] ;;;
         kprintf [10] []) ;;;
      procdump_loop ps
  end.
Definition procdump : K unit := kprintf [10] [] ;;; ps <~ gets k_procs ;; procdump_loop ps.

(** The loop of control-u. *)
Fixpoint kill_line (fuel : nat) : K unit :=
  match fuel with
  | O => nofuel
  | S fuel =>
      cs <~ getc id ;;
      if negb (c_e cs =? c_w cs) &&
         negb (nth (Z.to_nat (u32 (c_e cs - 1) mod INPUT_BUF_SIZE)) (c_buf cs) 0 =? 10)
      then updc (set_e (u32 (c_e cs - 1))) ;;; consputc KPrintf.BACKSPACE ;;; kill_line fuel
      else kret tt
  end.

Definition consoleintr (c : Z) : K unit :=
  cs <~ getc id ;;
  if c =? Ctrl "P" then procdump
  else if c =? Ctrl "U" then kill_line (Z.to_nat (u32 (c_e cs - c_w cs)) + 1)
  else if (c =? Ctrl "H") || (c =? 127) then
    if negb (c_e cs =? c_w cs) then updc (set_e (u32 (c_e cs - 1))) ;;; consputc KPrintf.BACKSPACE
    else kret tt
  else if negb (c =? 0) && (u32 (c_e cs - c_r cs) <? INPUT_BUF_SIZE) then
    let c := if c =? 13 then 10 else c in
    consputc c ;;;
    updc (fun x => mkCons (<[Z.to_nat (c_e x mod INPUT_BUF_SIZE) := c]> (c_buf x)) (c_r x) (c_w x) (u32 (c_e x + 1))) ;;;
    cs <~ getc id ;;
    if (c =? 10) || (c =? Ctrl "D") || (u32 (c_e cs - c_r cs) =? INPUT_BUF_SIZE)
    then updc (set_w (c_e cs)) ;;; wakeup ConsChan
    else kret tt
  else kret tt.

(** A uart interrupt, with the transmitter's status and the characters that
    [uartgetc] returns before its -1. *)
Fixpoint uartintr_loop (rx : list Z) : K unit :=
  match rx with
  | [] => kret tt
  | c :: rx => consoleintr c ;;; uartintr_loop rx
  end.
Definition uartintr (tx_idle : bool) (rx : list Z) : K unit :=
  (if tx_idle then modify (fun k => set_uart (mkUart (u_sent (k_uart k)) false) k) ;;; wakeup TxChan else kret tt) ;;;
  uartintr_loop rx.
End console.

(** ** The lines a console holds

    [ready] is what [consoleread] may take, [typed] the line being edited. *)
Record line := mkLine { ready : list Z; typed : list Z }.
Definition held (a : line) : list Z := ready a ++ typed a.

Record cons_ok (c : cons) (a : line) : Prop := {
  co_buf : length (c_buf c) = 128%nat;
  co_r : 0 <= c_r c < 2 ^ 32;
  co_w : c_w c = u32 (c_r c + Z.of_nat (length (ready a)));
  co_e : c_e c = u32 (c_r c + Z.of_nat (length (held a)));
  co_cap : (length (held a) <= 128)%nat;
  co_bytes : ring INPUT_BUF_SIZE (c_buf c) (c_r c) (length (held a)) = held a;
  co_typed : Forall (fun x => x <> 10 /\ x <> 4) (typed a);
  co_byte : Forall (fun x => 0 <= x < 256) (held a) }.

(** What a key does to them. *)
Definition key (c : Z) (a : line) : line :=
  if c =? Ctrl "P" then a
  else if c =? Ctrl "U" then mkLine (ready a) []
  else if (c =? Ctrl "H") || (c =? 127) then mkLine (ready a) (removelast (typed a))
  else if negb (c =? 0) && (length (held a) <? 128)%nat then
    let c := if c =? 13 then 10 else c in
    if (c =? 10) || (c =? Ctrl "D") || (length (held a) =? 127)%nat
    then mkLine (held a ++ [c]) [] else mkLine (ready a) (typed a ++ [c])
  else a.
Definition echo (c : Z) (a : line) : list Z :=
  if c =? Ctrl "U" then concat (replicate (length (typed a)) [8; 32; 8])
  else if (c =? Ctrl "H") || (c =? 127) then match typed a with [] => [] | _ => [8; 32; 8] end
  else if negb (c =? 0) && (length (held a) <? 128)%nat then [if c =? 13 then 10 else c]
  else [].

Lemma INPUT_divides : (INPUT_BUF_SIZE | 2 ^ 32).
Proof. by exists (2 ^ 25). Qed.
Lemma u32_add_l a b : u32 (u32 a + b) = u32 (a + b).
Proof. unfold u32. apply Zplus_mod_idemp_l. Qed.
Lemma u32_sub_l a b : u32 (u32 a - b) = u32 (a - b).
Proof. unfold u32. apply Zminus_mod_idemp_l. Qed.
Lemma u32_sub_r a b : u32 (a - u32 b) = u32 (a - b).
Proof. unfold u32. apply Zminus_mod_idemp_r. Qed.

Section held.
Context (c : cons) (a : line) (H : cons_ok c a).

Lemma held_length : length (held a) = (length (ready a) + length (typed a))%nat.
Proof. unfold held. apply length_app. Qed.
Lemma count_held : u32 (c_e c - c_r c) = Z.of_nat (length (held a)).
Proof.
  destruct H as [H1 H2 H3 H4 H5 H6 H7 H8]. rewrite H4, u32_sub_l. rewrite u32_small; lia.
Qed.
Lemma count_typed : u32 (c_e c - c_w c) = Z.of_nat (length (typed a)).
Proof.
  destruct H as [H1 H2 H3 H4 H5 H6 H7 H8]. rewrite H4, H3, u32_sub_l, u32_sub_r. pose proof held_length. rewrite u32_small; lia.
Qed.
Lemma count_ready : u32 (c_w c - c_r c) = Z.of_nat (length (ready a)).
Proof.
  destruct H as [H1 H2 H3 H4 H5 H6 H7 H8]. rewrite H3, u32_sub_l. pose proof held_length. rewrite u32_small; lia.
Qed.
Lemma eq_count x y n : 0 <= x < 2 ^ 32 -> 0 <= y < 2 ^ 32 -> u32 (x - y) = Z.of_nat n -> (x =? y) = (n =? 0)%nat.
Proof.
  intros Hx Hy E. apply eq_true_iff_eq. rewrite Z.eqb_eq, Nat.eqb_eq. split.
  - intros ->. rewrite Z.sub_diag in E. change (u32 0) with 0 in E. lia.
  - intros ->. unfold u32 in E. change (Z.of_nat 0) with 0 in E. dlia.
Qed.
Lemma e_range : 0 <= c_e c < 2 ^ 32.
Proof. destruct H. rewrite co_e0. apply u32_range. Qed.
Lemma w_range : 0 <= c_w c < 2 ^ 32.
Proof. destruct H. rewrite co_w0. apply u32_range. Qed.
Lemma no_typed : (c_e c =? c_w c) = (length (typed a) =? 0)%nat.
Proof. apply eq_count; [apply e_range|apply w_range|apply count_typed]. Qed.
Lemma no_ready : (c_r c =? c_w c) = (length (ready a) =? 0)%nat.
Proof. rewrite Z.eqb_sym. apply eq_count; [apply w_range|by destruct H|apply count_ready]. Qed.

(** The last character held is at [e - 1]. *)
Lemma last_typed l x : typed a = l ++ [x] ->
  nth (Z.to_nat (u32 (c_e c - 1) mod INPUT_BUF_SIZE)) (c_buf c) 0 = x /\ x <> 10 /\
  cons_ok (set_e (u32 (c_e c - 1)) c) (mkLine (ready a) l).
Proof.
  intros E. destruct H as [H1 H2 H3 H4 H5 H6 H7 H8]. pose proof held_length as Hl.
  assert (length (typed a) = S (length l)) as El by (rewrite E, length_app; cbn; lia).
  assert (length (held (mkLine (ready a) l)) = length (ready a) + length l)%nat as Hl' by apply length_app.
  assert (length (held a) = S (length (held (mkLine (ready a) l)))) as Hs by lia.
  assert (c_e c - 1 = u32 (c_r c + Z.of_nat (length (held a))) - 1) as Ee by (by rewrite H4).
  assert (u32 (c_e c - 1) = u32 (c_r c + Z.of_nat (length (held (mkLine (ready a) l))))) as Ee'.
  { rewrite Ee, u32_sub_l. f_equal. lia. }
  assert (held a = held (mkLine (ready a) l) ++ [x]) as Eh by (unfold held; cbn; by rewrite E, app_assoc).
  rewrite Hs, ring_snoc, Eh in H6. apply app_inj_tail in H6 as [B1 B2].
  assert (0 < INPUT_BUF_SIZE) as Hpos by done.
  split; [rewrite Ee', u32_mod by (try done; apply INPUT_divides); done|]. rewrite E in H7. apply Forall_app in H7 as [F1 F2].
  apply Forall_cons in F2 as [[F2 _] _]. split; [done|]. split; cbn [set_e c_buf c_r c_w c_e ready typed]; try done; [lia|]. rewrite Eh in H8. by apply Forall_app in H8 as [H8 _].
Qed.

(** A character is stored at [e]. *)
Lemma push_char x : (length (held a) < 128)%nat ->
  let c' := mkCons (<[Z.to_nat (c_e c mod INPUT_BUF_SIZE) := x]> (c_buf c)) (c_r c) (c_w c) (u32 (c_e c + 1)) in
  ring INPUT_BUF_SIZE (c_buf c') (c_r c') (S (length (held a))) = held a ++ [x] /\ length (c_buf c') = 128%nat /\
  c_e c' = u32 (c_r c + Z.of_nat (S (length (held a)))).
Proof.
  intros Hlt. destruct H as [H1 H2 H3 H4 H5 H6 H7 H8]. cbn [c_buf c_r c_e]. assert (0 < INPUT_BUF_SIZE) as Hpos by done. split_and!.
  - rewrite ring_push; [by rewrite H6|done|by rewrite H1|done|]. rewrite H4. apply u32_mod; [done|apply INPUT_divides].
  - by rewrite length_insert.
  - rewrite H4, u32_add_l. f_equal. lia.
Qed.
End held.

(** ** The interrupt handler *)
Definition sent (k : kstate) : list Z := u_sent (k_uart k).
(** Only the console and its output change. *)
Record typed_to (k : kstate) (out : list Z) (ps : list proc) (k' : kstate) : Prop := {
  tt_sent : sent k' = sent k ++ out;
  tt_procs : k_procs k' = ps;
  tt_cur : k_cur k' = k_cur k;
  tt_fs : k_fs k' = k_fs k;
  tt_pipes : k_pipes k' = k_pipes k;
  tt_ftable : k_ftable k' = k_ftable k }.
Lemma typed_to_refl k : typed_to k [] (k_procs k) k.
Proof. split; try done. by rewrite app_nil_r. Qed.
Lemma typed_to_trans k o1 k1 o2 ps k2 : typed_to k o1 (k_procs k) k1 -> typed_to k1 o2 ps k2 -> typed_to k (o1 ++ o2) ps k2.
Proof. intros [A1 A2 A3 A4 A5 A6] [B1 B2 B3 B4 B5 B6]. split; try congruence. by rewrite B1, A1, app_assoc. Qed.

Lemma kprintf_run fmt ap o k : KPrintf.printf fmt ap = Some o ->
  exists k', kprintf fmt ap k = Ret (tt, k') /\ k_cons k' = k_cons k /\ typed_to k o (k_procs k) k'.
Proof. intros H. unfold kprintf. rewrite H. eexists. split; [reflexivity|]. done. Qed.

Lemma procdump_loop_run ps : forall k, exists k' o, procdump_loop ps k = Ret (tt, k') /\ k_cons k' = k_cons k /\
  typed_to k o (k_procs k) k'.
Proof.
  induction ps as [|p ps IH]; intros k; cbn [procdump_loop].
  { exists k, []. split; [done|]. split; [done|apply typed_to_refl]. }
  case_decide.
  { unfold kbind, kret. apply IH. }
  destruct (kprintf_run (chars "%d %s %s") [VInt (pr_pid p); VStr (Some (state_name (pr_state p))); VStr (Some (cstr (pr_name p)))]
    _ k eq_refl) as (k1 & H1 & C1 & T1).
  destruct (kprintf_run [10] [] _ k1 eq_refl) as (k2 & H2 & C2 & T2).
  destruct (IH k2) as (k3 & o & H3 & C3 & T3). eexists k3, _. split; [|split; [congruence|]].
  - rewrite <- kbind_assoc, (kbind_ret _ _ _ _ _ H1), (kbind_ret _ _ _ _ _ H2). exact H3.
  - eapply typed_to_trans; [exact T1|]. rewrite <- (tt_procs _ _ _ _ T1) in *.
    eapply typed_to_trans; [exact T2|]. rewrite <- (tt_procs _ _ _ _ T2). exact T3.
Qed.
Lemma procdump_run k : exists k' o, procdump k = Ret (tt, k') /\ k_cons k' = k_cons k /\ typed_to k o (k_procs k) k'.
Proof.
  destruct (kprintf_run [10] [] _ k eq_refl) as (k1 & H1 & C1 & T1).
  destruct (procdump_loop_run (k_procs k1) k1) as (k2 & o & H2 & C2 & T2). eexists k2, _. unfold procdump.
  rewrite (kbind_ret _ _ _ _ _ H1). split; [exact H2|]. split; [congruence|]. eapply typed_to_trans; [exact T1|].
  rewrite <- (tt_procs _ _ _ _ T1). exact T2.
Qed.

Lemma kill_line_ok l : forall fuel k a, cons_ok (k_cons k) a -> typed a = l -> (length l < fuel)%nat ->
  exists k', kill_line fuel k = Ret (tt, k') /\ cons_ok (k_cons k') (mkLine (ready a) []) /\
    typed_to k (concat (replicate (length l) [8; 32; 8])) (k_procs k) k'.
Proof.
  induction l as [|x l IH] using rev_ind; intros fuel k a H Et Hf; (destruct fuel as [|fuel]; [lia|]); cbn [kill_line];
    unfold kbind at 1, getc, gets; cbn [id]; rewrite (no_typed _ _ H), Et.
  - exists k. split; [done|]. split; [|apply typed_to_refl]. destruct a as [r t]. cbn in *. by subst t.
  - destruct (last_typed _ _ H l x Et) as (Hn & Hx & H'). rewrite Hn. rewrite length_app in Hf |- *. cbn [length] in *.
    replace (length l + 1 =? 0)%nat with false by (symmetry; apply Nat.eqb_neq; lia). replace (x =? 10) with false by lia. cbn [negb andb].
    unfold kbind at 1, updc, modify. unfold kbind at 1, consputc, uart_send, modify. cbn [set_cons k_uart].
    set (k1 := set_uart _ _). destruct (IH fuel k1 (mkLine (ready a) l)) as (k' & Hr & Hok & T); [exact H'|done|lia|].
    exists k'. split; [exact Hr|]. split; [exact Hok|]. rewrite Nat.add_comm. cbn [replicate concat Nat.add].
    eapply typed_to_trans; [|exact T]. done.
Qed.

(** Typing at the console edits a line.  For every character that arrives,
    the handler returns and its ring buffer holds what the line discipline
    says: control-u deletes the line being typed, backspace and delete its
    last character, other characters are appended while there is room, with
    carriage return read as newline, and a newline, control-d or a full buffer
    makes the line ready and wakes the readers; the echo is the character, or
    backspaces. *)
Theorem consoleintr_edits c k a :
  cons_ok (k_cons k) a -> 0 <= c < 256 ->
  exists k' o, consoleintr c k = Ret (tt, k') /\ cons_ok (k_cons k') (key c a) /\
    (c <> Ctrl "P" -> o = echo c a) /\
    typed_to k o (if bool_decide (length (ready a) < length (ready (key c a)))%nat
                  then wakeup_procs (k_cur k) ConsChan (k_procs k) else k_procs k) k'.
Proof.
  intros H Hc. unfold consoleintr, key, echo. unfold kbind at 1, getc, gets. cbn [id].
  destruct (Z.eqb_spec c (Ctrl "P")) as [Ep|Hp].
  { destruct (procdump_run k) as (k' & o & Hr & C & T). exists k', o. rewrite C. split; [done|]. split; [done|]. split; [by intros []|].
    rewrite bool_decide_false by lia. done. }
  destruct (Z.eqb_spec c (Ctrl "U")).
  { destruct (kill_line_ok (typed a) (Z.to_nat (u32 (c_e (k_cons k) - c_w (k_cons k))) + 1) k a H eq_refl) as (k' & Hr & Hok & T).
    { rewrite (count_typed _ _ H). lia. }
    eexists k', _. split; [done|]. split; [done|]. split; [done|]. cbn [ready]. rewrite bool_decide_false by lia. done. }
  destruct ((c =? Ctrl "H") || (c =? 127)).
  { rewrite (no_typed _ _ H). cbn [ready]. rewrite bool_decide_false by lia. destruct (typed a) as [|y l _] eqn:Et using rev_ind.
    - exists k, []. split; [done|]. split; [|split; [done|apply typed_to_refl]]. destruct a as [r t]. cbn in *. by subst t.
    - destruct (last_typed _ _ H l y Et) as (_ & _ & H'). rewrite length_app, removelast_last. cbn [length].
      replace (length l + 1 =? 0)%nat with false by (symmetry; apply Nat.eqb_neq; lia).
      eexists _, [8; 32; 8]. split; [reflexivity|]. split; [exact H'|]. split; [by destruct l|]. done. }
  rewrite (count_held _ _ H). unfold INPUT_BUF_SIZE at 1.
  replace (Z.of_nat (length (held a)) <? 128) with (length (held a) <? 128)%nat
    by (apply eq_true_iff_eq; rewrite Nat.ltb_lt, Z.ltb_lt; lia).
  destruct (negb (c =? 0) && (length (held a) <? 128)%nat) eqn:E.
  2:{ exists k, []. split; [done|]. split; [done|]. split; [done|]. rewrite bool_decide_false by lia. apply typed_to_refl. }
  set (x := if c =? 13 then 10 else c). apply andb_true_iff in E as [_ E%Nat.ltb_lt].
  destruct (push_char _ _ H x E) as (P1 & P2 & P3). cbn [c_buf c_r c_e] in P1, P2, P3.
  assert (KPrintf.consputc x = [x]) as Ex.
  { unfold KPrintf.consputc, KPrintf.BACKSPACE, x. destruct (c =? 13); [done|]. replace (c =? 256) with false by lia. by rewrite u8_small. }
  unfold kbind at 1, consputc, uart_send, modify. rewrite Ex. unfold kbind at 1, updc, modify. unfold kbind at 1. cbn [set_uart set_cons k_cons c_e c_r].
  rewrite P3, u32_sub_l. replace (c_r (k_cons k) + Z.of_nat (S (length (held a))) - c_r (k_cons k)) with (Z.of_nat (S (length (held a)))) by lia.
  rewrite (u32_small (Z.of_nat _)) by lia.
  replace (Z.of_nat (S (length (held a))) =? INPUT_BUF_SIZE) with (length (held a) =? 127)%nat
    by (unfold INPUT_BUF_SIZE; apply eq_true_iff_eq; rewrite Nat.eqb_eq, Z.eqb_eq; lia).
  assert (0 <= x < 256) as Hx by (unfold x; destruct (c =? 13); lia).
  pose proof (held_length a) as Hl. destruct H as [H1 H2 H3 H4 H5 H6 H7 H8].
  destruct ((x =? 10) || (x =? Ctrl "D") || (length (held a) =? 127)%nat) eqn:E'; cbn [ready].
  - eexists _, [x]. split; [reflexivity|]. split; [|split; [done|]].
    + assert (length (held a ++ [x]) = S (length (held a))) as El by (rewrite length_app; cbn; lia).
      assert (held (mkLine (held a ++ [x]) []) = held a ++ [x]) as Eh by apply app_nil_r.
      split; cbn [k_cons set_cons set_procs set_w c_buf c_r c_w c_e ready typed]; rewrite ?Eh, ?El; try done; try lia.
      apply Forall_app. split; [done|]. by constructor.
    + rewrite length_app. cbn [length]. rewrite bool_decide_true by lia. done.
  - eexists _, [x]. split; [reflexivity|]. split; [|split; [done|]].
    + assert (held (mkLine (ready a) (typed a ++ [x])) = held a ++ [x]) as Eh by (unfold held; cbn; by rewrite app_assoc).
      assert (length (held a ++ [x]) = S (length (held a))) as El by (rewrite length_app; cbn; lia).
      split; cbn [k_cons set_cons c_buf c_r c_w c_e ready]; rewrite ?Eh, ?El; try done; try lia.
      * cbn [typed]. apply Forall_app. split; [done|]. constructor; [|done]. change (Ctrl "D") with 4 in E'. zb. lia.
      * apply Forall_app. split; [done|]. by constructor.
    + rewrite bool_decide_false by lia. done.
Qed.

(** ** The reader *)

(** What a read of [n] bytes takes from the queue: up to a newline, up to a
    control-d (which is left there unless it comes first), or [n] bytes;
    [More] when the queue ends first. *)
Inductive got := Line (bytes rest : list Z) | More (bytes : list Z).
Definition got_cons (c : Z) (g : got) : got :=
  match g with Line bs rest => Line (c :: bs) rest | More bs => More (c :: bs) end.
Fixpoint read_line (n : nat) (first : bool) (q : list Z) : got :=
  match n, q with
  | O, _ => Line [] q
  | _, [] => More []
  | S n, c :: q' =>
      if c =? Ctrl "D" then Line [] (if first then q' else q)
      else if c =? 10 then Line [c] q'
      else got_cons c (read_line n false q')
  end.
Definition got_bytes (g : got) : list Z := match g with Line bs _ | More bs => bs end.

Lemma pop_char c a x q : cons_ok c a -> ready a = x :: q ->
  nth (Z.to_nat (c_r c mod INPUT_BUF_SIZE)) (c_buf c) 0 = x /\ 0 <= x < 256 /\ (c_r c =? c_w c) = false /\
  u32 (u32 (c_r c + 1) - 1) = c_r c /\ cons_ok (set_r (u32 (c_r c + 1)) c) (mkLine q (typed a)).
Proof.
  intros H E. rewrite (no_ready _ _ H), E. destruct H as [H1 H2 H3 H4 H5 H6 H7 H8].
  assert (held a = x :: held (mkLine q (typed a))) as Eh by (unfold held; by rewrite E). rewrite Eh in *. rewrite E in H3. cbn [length] in *.
  assert (0 < INPUT_BUF_SIZE) as Hpos by done. rewrite ring_cons in H6 by done. injection H6 as B1 B2. apply Forall_cons in H8 as [B3 B4].
  split; [exact B1|]. split; [done|]. split; [done|]. split; [rewrite u32_sub_l, u32_small; lia|].
  split; cbn [set_r c_buf c_r c_w c_e ready typed]; try done; [apply u32_range|rewrite H3, u32_add_l; f_equal; lia|rewrite H4, u32_add_l; f_equal; lia|lia|].
  rewrite <- B2 at 2. apply ring_mod; [done|]. apply u32_mod; [done|apply INPUT_divides].
Qed.

Section reader.
Context (kend : Z) (user : bool) (dst : Z) (P : list Z -> pmem -> Prop) (total : list Z) (me : nat) (pr : proc).
Hypothesis Hsink : @sink _ (vm_user kend (vm_of pr)) user dst P total.
Hypothesis Hdst : 0 <= dst < 2 ^ 64.
Hypothesis Hkilled : pr_killed pr = 0.

(** Memory and the console change, and the process table is [ps]. *)
Record read_by (k : kstate) (ps : list proc) (k' : kstate) : Prop := {
  rb_procs : k_procs k' = ps;
  rb_cur : k_cur k' = k_cur k;
  rb_uart : k_uart k' = k_uart k;
  rb_pipes : k_pipes k' = k_pipes k;
  rb_ftable : k_ftable k' = k_ftable k }.

Lemma console_copyout_run k acc c : curp k = pr -> P acc (kmem k) -> (acc ++ [c]) `prefix_of` total ->
  exists k', fsop kend (fun U => either_copyout user (u64 (dst + Z.of_nat (length acc))) [c]) k = Ret (0, k') /\
    P (acc ++ [c]) (kmem k') /\ same_k k k'.
Proof.
  intros Hc HP Hpre. destruct (Hsink acc [c] (kmem k) HP Hpre) as (mem' & Hr & HP'); [discriminate|].
  unfold fsop, either_copyout. rewrite Hc. destruct user.
  - unfold umem. cbn [fs_of f_mem]. fold (kmem k). rewrite Hr. by eexists.
  - subst mem'. by eexists.
Qed.

Lemma consoleread_loop_ok n : forall fuel acc k a,
  k_cur k = Some me -> k_procs k !! me = Some pr -> cons_ok (k_cons k) a -> P acc (kmem k) -> (n < fuel)%nat ->
  let g := read_line n (bool_decide (acc = [])) (ready a) in
  total = acc ++ got_bytes g ->
  exists k' r, consoleread_loop kend fuel user (u64 (dst + Z.of_nat (length acc))) (Z.of_nat n) (Z.of_nat (length acc + n)) k = Ret (r, k') /\
    P total (kmem k') /\
    match g with
    | Line bs rest => r = CReturns (Z.of_nat (length total)) /\ cons_ok (k_cons k') (mkLine rest (typed a)) /\ read_by k (k_procs k) k'
    | More bs => r = CAsleep (u64 (dst + Z.of_nat (length total))) (Z.of_nat (length acc + n) - Z.of_nat (length total)) /\
        cons_ok (k_cons k') (mkLine [] (typed a)) /\ read_by k (asleep_on me ConsChan (k_procs k)) k'
    end.
Proof.
  induction n as [|n IH]; intros fuel acc k a Hc Hpr H HP Hf g Ht; (destruct fuel as [|fuel]; [lia|]); cbn [consoleread_loop].
  { cbn in g. subst g. cbn [got_bytes] in *. rewrite app_nil_r in Ht. subst acc. exists k. eexists. split; [reflexivity|]. split; [done|].
    split; [f_equal; lia|]. split; [by destruct a|]. done. }
  assert (getp k me = pr) as Eg by (unfold getp; by rewrite Hpr).
  assert (curp k = pr) as Ec by (unfold curp; by rewrite Hc).
  assert ((0 <? Z.of_nat (S n)) = true) as -> by (apply Z.ltb_lt; lia). unfold kbind at 1, getc, gets. cbn [id].
  destruct (ready a) as [|c q] eqn:Eq.
  { cbn in g. subst g. cbn [got_bytes] in *. rewrite app_nil_r in Ht. subst acc. rewrite (no_ready _ _ H), Eq. cbn [length Nat.eqb].
    rewrite (kbind_ret _ _ _ _ _ (myproc_run k me Hc)). unfold kbind at 1, killed, pfield, gets. rewrite Eg, Hkilled.
    change (negb (0 =? 0)) with false. cbv iota. rewrite (kbind_ret _ _ _ _ _ (sleep_run _ k me Hc)). eexists _, _. split; [reflexivity|].
    split; [done|]. split; [f_equal; lia|]. split; [destruct a; cbn in *; by subst|]. done. }
  destruct (pop_char _ _ c q H Eq) as (P1 & P2 & P3 & P4 & P5). rewrite P3, P1. unfold kbind at 1, updc, modify. cbn [read_line] in g.
  change (Ctrl "D") with 4 in *. destruct (Z.eqb_spec c 4) as [->|Hc4].
  { subst g. cbn [got_bytes] in *. rewrite app_nil_r in Ht. subst acc. case_bool_decide as En; cbv iota.
    - rewrite En in HP |- *. cbn [length Nat.add]. rewrite Z.ltb_irrefl. eexists _, _. split; [reflexivity|].
      split; [exact HP|]. split; [f_equal; lia|]. split; [exact P5|]. done.
    - assert (0 < length total)%nat by (destruct total; [done|cbn; lia]).
      assert ((Z.of_nat (S n) <? Z.of_nat (length total + S n)) = true) as -> by (apply Z.ltb_lt; lia). eexists _, _. split; [reflexivity|].
      split; [done|]. split; [f_equal; lia|]. split; [|done]. cbn [k_cons set_cons set_r c_r]. rewrite P4.
      destruct a as [ra ta]. cbn [ready] in Eq. subst ra. destruct (k_cons k). exact H. }
  set (k1 := set_cons _ k). rewrite u8_small by done.
  assert (exists bs, got_bytes g = c :: bs) as [bs Ebs].
  { unfold g. destruct (c =? 10); [by eexists|]. destruct (read_line n false q); by eexists. }
  destruct (console_copyout_run k1 acc c Ec HP) as (k2 & Hrun & HP2 & S2).
  { rewrite Ht, Ebs. exists bs. by rewrite <- app_assoc. }
  rewrite (kbind_ret _ _ _ _ _ Hrun). change (0 =? -1) with false. cbv iota.
  destruct (c =? 10).
  { subst g. cbn [got_bytes] in *. rewrite <- Ht in HP2. eexists k2, _. split; [reflexivity|]. split; [exact HP2|].
    split; [f_equal; rewrite Ht, length_app; cbn [length]; lia|]. rewrite S2. split; [exact P5|]. done. }
  assert (u64 (u64 (dst + Z.of_nat (length acc)) + 1) = u64 (dst + Z.of_nat (length (acc ++ [c])))) as Ed.
  { unfold u64. rewrite Zplus_mod_idemp_l, length_app. cbn [length]. f_equal. lia. }
  replace (Z.of_nat (length acc + S n)) with (Z.of_nat (length (acc ++ [c]) + n)) by (rewrite length_app; cbn [length]; lia).
  replace (Z.of_nat (S n) - 1) with (Z.of_nat n) by lia. rewrite Ed.
  assert (acc ++ [c] <> []) as Hne by (intros [_ E]%app_eq_nil; discriminate E).
  destruct (IH fuel (acc ++ [c]) k2 (mkLine q (typed a))) as (k' & r & Hr & HP' & Hg); try (rewrite S2; done); try done; try lia.
  { rewrite bool_decide_false by done. cbn [ready]. rewrite Ht. unfold g. destruct (read_line n false q); cbn; by rewrite <- app_assoc. }
  exists k', r. split; [exact Hr|]. split; [exact HP'|]. rewrite bool_decide_false in Hg by done. cbn [ready typed] in Hg. unfold g.
  rewrite S2 in Hg. destruct (read_line n false q); cbn [got_cons]; destruct Hg as (G1 & G2 & [G3 G4 G5 G6 G7]); (split; [exact G1|split; [exact G2|by split]]).
Qed.
End reader.

(** A read from the console returns a line.  A reader that has not been
    killed gets the bytes [read_line] takes from the ready input: everything
    up to and including the first newline, at most [n] bytes, nothing for a
    control-d that comes first, which is how a program sees end of file; the
    rest stays for the next read and the line being typed is untouched.  When
    the ready input ends first it waits with those bytes already delivered. *)
Theorem consoleread_line kend user dst P me pr k a n :
  k_cur k = Some me -> k_procs k !! me = Some pr -> pr_killed pr = 0 -> cons_ok (k_cons k) a -> 0 <= dst < 2 ^ 64 ->
  let g := read_line n true (ready a) in
  @sink _ (vm_user kend (vm_of pr)) user dst P (got_bytes g) -> P [] (kmem k) ->
  exists k' r, consoleread kend user dst (Z.of_nat n) k = Ret (r, k') /\ P (got_bytes g) (kmem k') /\
    match g with
    | Line bs rest => r = CReturns (Z.of_nat (length bs)) /\ cons_ok (k_cons k') (mkLine rest (typed a)) /\ read_by k (k_procs k) k'
    | More bs => r = CAsleep (u64 (dst + Z.of_nat (length bs))) (Z.of_nat n - Z.of_nat (length bs)) /\
        cons_ok (k_cons k') (mkLine [] (typed a)) /\ read_by k (asleep_on me ConsChan (k_procs k)) k'
    end.
Proof.
  intros Hc Hpr Hk H Hd g Hs HP.
  destruct (consoleread_loop_ok kend user dst P (got_bytes g) me pr Hs Hk n (Z.to_nat (Z.of_nat n) + 1) [] k a)
    as (k' & r & Hr & HP' & Hg); try done; [lia|].
  cbn [length Nat.add] in Hr. change (Z.of_nat 0) with 0 in Hr. rewrite Z.add_0_r, u64_small in Hr by done.
  exists k', r. split; [exact Hr|]. split; [exact HP'|]. rewrite bool_decide_true in Hg by done. cbn [length Nat.add] in Hg.
  fold g in Hg. by destruct g.
Qed.

(** The console after "ls", a backspace, "p" and a newline were typed. *)
Definition demo_typed : kstate :=
  match uartintr true (chars "ls" ++ [127] ++ chars "p" ++ [13] ++ chars "x") (demo_k []) with Ret (_, k) => k | _ => demo_k [] end.
Lemma demo_cons_ok : cons_ok (k_cons demo_typed) (mkLine (chars "lp" ++ [10]) (chars "x")).
Proof.
  split; try (vm_compute; reflexivity); try (apply (bool_decide_unpack _); vm_compute; exact I).
Qed.

Lemma demo_typed_proc : k_cur demo_typed = Some 0%nat /\ k_procs demo_typed !! 0%nat = Some user_proc /\ kmem demo_typed = user_mem [].
Proof. split; [|split]; vm_compute; reflexivity. Qed.
Lemma demo_sink : @sink _ (vm_user 4096 (vm_of user_proc)) true 0 (fun acc m => m = user_mem acc) (chars "lp").
Proof. apply user_sink. vm_compute. reflexivity. Qed.

Lemma demo_echo : echo 21 (mkLine (chars "lp" ++ [10]) (chars "x")) = [8; 32; 8] /\ 21 <> Ctrl "P".
Proof. split; vm_compute; [reflexivity|discriminate]. Qed.

Lemma consoleintr_edits_witness :
  exists k' o, consoleintr 21 demo_typed = Ret (tt, k') /\
    cons_ok (k_cons k') (key 21 (mkLine (chars "lp" ++ [10]) (chars "x"))) /\ o = [8; 32; 8].
Proof.
  destruct (consoleintr_edits 21 demo_typed _ demo_cons_ok ltac:(lia)) as (k' & o & H1 & H2 & H3 & _).
  exists k', o. split; [exact H1|]. split; [exact H2|]. rewrite (H3 (proj2 demo_echo)). exact (proj1 demo_echo).
Defined.

Lemma consoleread_line_witness :
  exists k', consoleread 4096 true 0 2 demo_typed = Ret (CReturns 2, k') /\ kmem k' = user_mem (chars "lp") /\
    cons_ok (k_cons k') (mkLine [10] (chars "x")).
Proof.
  destruct demo_typed_proc as (Hc & Hp & Hm).
  destruct (consoleread_line 4096 true 0 (fun acc m => m = user_mem acc) 0 user_proc demo_typed _ 2 Hc Hp eq_refl demo_cons_ok
    ltac:(lia) demo_sink Hm) as (k' & r & H1 & H2 & H3 & H4 & _).
  exists k'. rewrite H3 in H1. split; [exact H1|]. split; [exact H2|exact H4].
Defined.
