(* ===== verification/File.v ===== *)
(** * kernel/file.c: open files

    The file table with its reference counts, and reads and writes through an
    open file to a pipe, a device or an inode; [pipealloc] of pipe.c, which
    needs the file table. *)
From S2P Require Import Prelude Machine Kalloc Vm Spinlock Blocks Bio Log Fs Kstate Pipe Console.

(** A call has a result, or waits on a channel with its process asleep. *)
Inductive io := Done (r : Z) | Waits (ch : chan).

Section file.
Context (kend : Z).

Definition set_fref v f := mkFile (fl_type f) v (fl_readable f) (fl_writable f) (fl_pipe f) (fl_ip f) (fl_off f) (fl_major f).
Definition set_off v f := mkFile (fl_type f) (fl_ref f) (fl_readable f) (fl_writable f) (fl_pipe f) (fl_ip f) v (fl_major f).

Fixpoint first_free (i : nat) (fs : list file) : option nat :=
  match fs with
  | [] => None
  | f :: fs => if fl_ref f =? 0 then Some i else first_free (S i) fs
  end.
Definition filealloc : K (option nat) :=
  fs <~ gets k_ftable ;;
  match first_free 0 fs with
  | Some f => updf f (set_fref 1) ;;; kret (Some f)
  | None => kret None
  end.

Definition filedup (f : nat) : K nat :=
  r <~ ffield f fl_ref ;;
  if r <? 1 then panic "filedup" else updf f (set_fref (r + 1)) ;;; kret f.

Definition fileclose (f : nat) : K unit :=
  ff <~ ffield f id ;;
  if fl_ref ff <? 1 then panic "fileclose"
  else
    updf f (set_fref (fl_ref ff - 1)) ;;;
    if 0 <? fl_ref ff - 1 then kret tt
    else
      updf f (fun x => mkFile FD_NONE 0 (fl_readable x) (fl_writable x) (fl_pipe x) (fl_ip x) (fl_off x) (fl_major x)) ;;;
      match fl_type ff with
      | FD_PIPE => pipeclose kend (fl_pipe ff) (fl_writable ff)
      | FD_INODE | FD_DEVICE =>
          logop kend begin_op ;;; fsop kend (fun U => iput (fl_ip ff)) ;;; logop kend end_op
      | FD_NONE => kret tt
      end.

(** The bytes of a [struct stat]; [pad] are the four bytes before [size],
    which nothing sets. *)
Fixpoint le (n : nat) (v : Z) : list Z :=
  match n with O => [] | S n => v mod 256 :: le n (v / 256) end.
Definition stat_bytes (pad : list Z) (st : stat) : list Z :=
  le 4 (u32 (st_dev st)) ++ le 4 (st_ino st) ++ le 2 (u16 (st_type st)) ++ le 2 (u16 (st_nlink st)) ++ pad ++ le 8 (st_size st).

Definition filestat (pad : list Z) (f : nat) (addr : Z) : K Z :=
  ff <~ ffield f id ;;
  match fl_type ff with
  | FD_INODE | FD_DEVICE =>
      fsop kend (fun U => ilock (fl_ip ff)) ;;;
      st <~ fsop kend (fun U => stati (fl_ip ff)) ;;
      fsop kend (fun U => iunlock (fl_ip ff)) ;;;
      pt <~ mine pr_pagetable ;;
      r <~ copyout_k kend pt addr (stat_bytes pad st) ;;
      if r <? 0 then kret (-1) else kret 0
  | _ => kret (-1)
  end.

(** [devsw]: only the console is connected. *)
Definition CONSOLE : Z := 1.
Definition has_dev (major : Z) : bool := (0 <=? major) && (major <? NDEV) && (major =? CONSOLE).

Definition fileread (f : nat) (addr n : Z) : K io :=
  ff <~ ffield f id ;;
  if negb (fl_readable ff) then kret (Done (-1))
  else
    match fl_type ff with
    | FD_PIPE =>
        r <~ piperead kend (fl_pipe ff) addr n ;;
        kret (match r with Returns r => Done r | Asleep _ => Waits (PipeRead (fl_pipe ff)) end)
    | FD_DEVICE =>
        if negb (has_dev (fl_major ff)) then kret (Done (-1))
        else
          r <~ consoleread kend true addr n ;;
          kret (match r with CReturns r => Done r | CAsleep _ _ => Waits ConsChan end)
    | FD_INODE =>
        fsop kend (fun U => ilock (fl_ip ff)) ;;;
        r <~ fsop kend (fun U => readi (fl_ip ff) true addr (fl_off ff) (u32 n)) ;;
        (if 0 <? r.1 then updf f (set_off (u32 (fl_off ff + r.1))) else kret tt) ;;;
        fsop kend (fun U => iunlock (fl_ip ff)) ;;;
        kret (Done r.1)
    | FD_NONE => panic "fileread"
    end.

(** One transaction of [filewrite]: its result is that of [writei]. *)
Definition write_chunk (f : nat) (addr i n1 : Z) : K Z :=
  logop kend begin_op ;;;
  ip <~ ffield f fl_ip ;;
  fsop kend (fun U => ilock ip) ;;;
  off <~ ffield f fl_off ;;
  r <~ fsop kend (fun U => writei ip true (u64 (addr + i)) [] off n1) ;;
  (if 0 <? r then updf f (set_off (u32 (off + r))) else kret tt) ;;;
  fsop kend (fun U => iunlock ip) ;;;
  logop kend end_op ;;;
  kret r.
Definition max_chunk : Z := (MAXOPBLOCKS - 1 - 1 - 2) / 2 * BSIZE.
Fixpoint filewrite_loop (fuel : nat) (f : nat) (addr n i : Z) : K Z :=
  match fuel with
  | O => nofuel
  | S fuel =>
      if i <? n then
        let n1 := n - i in
        let n1 := if max_chunk <? n1 then max_chunk else n1 in
        r <~ write_chunk f addr i n1 ;;
        if negb (r =? n1) then kret i else filewrite_loop fuel f addr n (i + r)
      else kret i
  end.
Definition filewrite (f : nat) (addr n : Z) : K io :=
  ff <~ ffield f id ;;
  if negb (fl_writable ff) then kret (Done (-1))
  else
    match fl_type ff with
    | FD_PIPE =>
        r <~ pipewrite kend (fl_pipe ff) addr n ;;
        kret (match r with Returns r => Done r | Asleep _ => Waits (PipeWrite (fl_pipe ff)) end)
    | FD_DEVICE =>
        if negb (has_dev (fl_major ff)) then kret (Done (-1))
        else r <~ consolewrite kend true addr [] n ;; kret (Done r)
    | FD_INODE =>
        i <~ filewrite_loop (Z.to_nat (n / max_chunk) + 2) f addr n 0 ;;
        kret (Done (if i =? n then n else -1))
    | FD_NONE => panic "filewrite"
    end.

(** [pipealloc] of pipe.c: the files of the read end and of the write end. *)
Definition pipealloc : K (option (nat * nat)) :=
  f0 <~ filealloc ;;
  match f0 with
  | None => kret None
  | Some f0 =>
      f1 <~ filealloc ;;
      match f1 with
      | None => fileclose f0 ;;; kret None
      | Some f1 =>
          pi <~ memop kend kalloc ;;
          if pi =? 0 then fileclose f0 ;;; fileclose f1 ;;; kret None
          else
            modify (fun k => set_pipes (<[pi := mkPipe (replicate 512 5) 0 0 true true]> (k_pipes k)) k) ;;;
            updf f0 (fun x => mkFile FD_PIPE (fl_ref x) true false pi (fl_ip x) (fl_off x) (fl_major x)) ;;;
            updf f1 (fun x => mkFile FD_PIPE (fl_ref x) false true pi (fl_ip x) (fl_off x) (fl_major x)) ;;;
            kret (Some (f0, f1))
      end
  end.
End file.
