(* ===== verification/FileWrite.v ===== *)
(** * A write through file, inode, log and disk

    First that file-system code stays inside its transaction: the code between
    [begin_op] and [end_op] leaves the count of outstanding calls and the
    committing flag as they are.  Then filewrite, transaction by transaction. *)
From S2P Require Import Prelude Machine Kalloc Vm Spinlock Blocks Bio BioTheorems Log LogProof LogCrash LogTxn LogTheorems Fs FsBase FsBlock FsMap FsData FsWrite FsTheorems Kstate Demo Pipe File.

Section keeps.
Context {St Mem : Type} `{!BlockIO St} `{!UserMem Mem}.

Definition trans_of (l : lstate St) : Z * Z := (lg_outstanding (ls_log l), lg_committing (ls_log l)).
Definition lkeeps {A} (m : M (lstate St) A) : Prop := forall s a s', m s = Ret (a, s') -> trans_of s' = trans_of s.
Definition keeps {A} (m : M (fstate St Mem) A) : Prop := forall s a s', m s = Ret (a, s') -> trans_of (f_log s') = trans_of (f_log s).

Lemma lkeeps_bind {A B} (m : M (lstate St) A) (f : A -> M (lstate St) B) : lkeeps m -> (forall a, lkeeps (f a)) -> lkeeps (kbind m f).
Proof. intros Hm Hf s b s' (a & s1 & H1 & H2)%kbind_inv. rewrite (Hf _ _ _ _ H2). by apply Hm in H1. Qed.
Lemma keeps_bind {A B} (m : M (fstate St Mem) A) (f : A -> M (fstate St Mem) B) : keeps m -> (forall a, keeps (f a)) -> keeps (kbind m f).
Proof. intros Hm Hf s b s' (a & s1 & H1 & H2)%kbind_inv. rewrite (Hf _ _ _ _ H2). by apply Hm in H1. Qed.
Lemma lkeeps_ret {A} (a : A) : lkeeps (kret a).
Proof. by intros s b s' [= _ <-]. Qed.
Lemma keeps_ret {A} (a : A) : keeps (kret a).
Proof. by intros s b s' [= _ <-]. Qed.
Lemma lkeeps_gets {A} (f : lstate St -> A) : lkeeps (gets f).
Proof. by intros s b s' [= _ <-]. Qed.
Lemma keeps_gets {A} (f : fstate St Mem -> A) : keeps (gets f).
Proof. by intros s b s' [= _ <-]. Qed.
Lemma lkeeps_panic {A} e : lkeeps (panic (A := A) e).
Proof. intros s b s' H. discriminate H. Qed.
Lemma keeps_panic {A} e : keeps (panic (A := A) e).
Proof. intros s b s' H. discriminate H. Qed.
Lemma keeps_sleeps {A} e : keeps (sleeps (A := A) e).
Proof. intros s b s' H. discriminate H. Qed.
Lemma keeps_nofuel {A} : keeps (nofuel (A := A)).
Proof. intros s b s' H. discriminate H. Qed.
Lemma lkeeps_io {A} (m : M St A) : lkeeps (Log.io m).
Proof. intros s b s'. unfold Log.io. destruct (m (ls_io s)) as [[a t]| | |]; intros H; try discriminate H. by injection H as <- <-. Qed.
Lemma lkeeps_lh f : lkeeps (setlog (St := St) (fun l => set_lh (f l) l)).
Proof. by intros s b s' [= _ <-]. Qed.
Lemma keeps_lg {A} (m : M (lstate St) A) : lkeeps m -> keeps (lg m).
Proof.
  intros Hm s b s'. unfold lg. destruct (m (f_log s)) as [[a t]| | |] eqn:E; intros H; try discriminate H.
  injection H as <- <-. cbn. by apply Hm in E.
Qed.
Lemma keeps_umem {A} (m : M Mem A) : keeps (umem (St := St) m).
Proof. intros s b s'. unfold umem. destruct (m (f_mem s)) as [[a t]| | |]; intros H; try discriminate H. by injection H as <- <-. Qed.
Lemma keeps_updi ip f : keeps (updi (St := St) (Mem := Mem) ip f).
Proof. by intros s b s' [= _ <-]. Qed.
End keeps.

Create HintDb keeps.
#[export] Hint Resolve lkeeps_ret keeps_ret lkeeps_gets keeps_gets lkeeps_panic keeps_panic keeps_sleeps keeps_nofuel lkeeps_io lkeeps_lh
  keeps_lg keeps_umem keeps_updi : keeps.
(** Descend through the code to its primitive operations. *)
Ltac keep :=
  repeat match goal with
  | |- lkeeps (kbind _ _) => apply lkeeps_bind; [|intros ?]
  | |- keeps (kbind _ _) => apply keeps_bind; [|intros ?]
  | |- lkeeps (match ?x with _ => _ end) => destruct x
  | |- keeps (match ?x with _ => _ end) => destruct x
  | |- keeps (let _ := _ in _) => cbv zeta
  | |- lkeeps (let _ := _ in _) => cbv zeta
  | _ => solve [eauto with keeps]
  end.

Section fs_keeps.
Context {St Mem : Type} `{!BlockIO St} `{!UserMem Mem}.
Abbreviation FK := (keeps (St := St) (Mem := Mem)).

Lemma lkeeps_log_write b : lkeeps (log_write (St := St) b).
Proof. unfold log_write, lh_set, set_lh_n, getlog. keep. Qed.
#[local] Hint Resolve lkeeps_log_write : keeps.
Lemma keeps_bread dev k : FK (bread dev k).
Proof. unfold bread. keep. Qed.
Lemma keeps_brelse b : FK (brelse b).
Proof. unfold brelse. keep. Qed.
Lemma keeps_data b : FK (bget_data b).
Proof. unfold bget_data, bdata. keep. Qed.
Lemma keeps_set b d : FK (bset_data b d).
Proof. unfold bset_data. keep. Qed.
Lemma keeps_ifield {A} ip (f : inode -> A) : FK (ifield ip f).
Proof. unfold ifield. keep. Qed.
Lemma keeps_sb {A} (f : superblock -> A) : FK (getsb f).
Proof. unfold getsb. keep. Qed.
#[local] Hint Resolve keeps_bread keeps_brelse keeps_data keeps_set keeps_ifield keeps_sb : keeps.
Lemma keeps_addr ip k : FK (addr ip k).
Proof. unfold addr. keep. Qed.
Lemma keeps_bzero dev b : FK (bzero dev b).
Proof. unfold bzero. keep. Qed.
#[local] Hint Resolve keeps_addr keeps_bzero : keeps.
Lemma keeps_balloc_loop fuel : forall dev b, FK (balloc_loop fuel dev b).
Proof. induction fuel; intros; cbn [balloc_loop]; keep. Qed.
#[local] Hint Resolve keeps_balloc_loop : keeps.
Lemma keeps_balloc dev : FK (balloc dev).
Proof. unfold balloc. keep. Qed.
#[local] Hint Resolve keeps_balloc : keeps.
Lemma keeps_bmap ip bn : FK (bmap ip bn).
Proof. unfold bmap. keep. Qed.
Lemma keeps_iupdate ip : FK (iupdate ip).
Proof. unfold iupdate. keep. Qed.
Lemma keeps_copyin user src kbuf n : FK (either_copyin user src kbuf n).
Proof. unfold either_copyin. keep. Qed.
#[local] Hint Resolve keeps_bmap keeps_iupdate keeps_copyin : keeps.
Lemma keeps_writei_loop fuel : forall ip user src kbuf off n tot, FK (writei_loop fuel ip user src kbuf off n tot).
Proof. induction fuel; intros; cbn [writei_loop]; keep. Qed.
#[local] Hint Resolve keeps_writei_loop : keeps.
Lemma keeps_writei ip user src kbuf off n : FK (writei ip user src kbuf off n).
Proof. unfold writei. keep. Qed.
End fs_keeps.

(** ** Writing to a file: filewrite, writei and the log together

    [filewrite] cuts a write into transactions small enough for the log; here
    the file system and the log theorems are put together over it. *)

(** A user source does not look at the kernel buffer. *)
Lemma writei_kbuf {St Mem} `{!BlockIO St} `{!UserMem Mem} ip src kb kb' off n (s : fstate St Mem) :
  writei ip true src kb off n s = writei ip true src kb' off n s.
Proof.
  assert (forall fuel src kb kb' off n tot (s : fstate St Mem),
    writei_loop fuel ip true src kb off n tot s = writei_loop fuel ip true src kb' off n tot s) as Hl.
  { clear. induction fuel as [|fuel IH]; intros; [done|]. cbn [writei_loop]. destruct (tot <? n); [|done].
    apply kbind_ext. intros a s0. destruct (a =? 0); [done|]. apply kbind_ext. intros dev s1. apply kbind_ext. intros bp s2.
    apply kbind_ext. intros d s3. apply kbind_ext. intros [r bytes] s4. apply kbind_ext. intros _ s5.
    destruct (r =? -1); [done|]. apply kbind_ext. intros _ s6. apply kbind_ext. intros _ s7. apply IH. }
  unfold writei. apply kbind_ext. intros size s0. destruct ((size <? off) || _); [done|]. destruct (_ <? _); [done|].
  unfold kbind at 1. rewrite (Hl _ src kb kb' off n 0 s0). done.
Qed.

(** ** Blocks outside the log *)
Section agree.
Context (sb : superblock) (dstart : Z).
Hypothesis Hly : layout sb dstart.
Hypothesis Hone : sb_size sb <= BPB.
Context (view view' : Z -> block).
Hypothesis Hagree : forall k, ~ in_log (sb_logstart sb) k -> view' k = view k.

Lemma data_outside k : data_block sb dstart k -> ~ in_log (sb_logstart sb) k.
Proof.
  intros Hk. pose proof (data_fs sb dstart Hly k Hk) as Hf. unfold fs_block, in_log in *. lia.
Qed.
Lemma used_agree j : 0 <= j < sb_size sb -> used sb view' j = used sb view j.
Proof.
  intros Hj. unfold used. rewrite Hagree; [done|]. destruct (BBLOCK_eq sb dstart Hly j Hj) as [_ Hb].
  destruct Hly as [L1 L2 L3 L4 L5 L6]. unfold is_bmap, in_log in *.
  assert (0 <= sb_ninodes sb / IPB) by (apply Z.div_pos; [lia|done]). lia.
Qed.
Lemma blockno_agree i bn : iwf sb dstart view i -> blockno view' i bn = blockno view i bn.
Proof.
  intros W. unfold blockno. destruct (bn <? NDIRECT); [done|]. destruct (Z.eqb_spec (ind i) 0); [done|].
  rewrite Hagree; [done|]. apply data_outside. by apply (iw_ind _ _ _ _ W).
Qed.
Lemma iwf_agree i : iwf sb dstart view i -> iwf sb dstart view' i.
Proof.
  intros W. pose proof (fun bn => blockno_agree i bn W) as Hb.
  assert (forall k, data_block sb dstart k -> used sb view' k = used sb view k) as Hu.
  { intros k Hk. apply used_agree. pose proof (data_pos sb dstart Hly k Hk). lia. }
  split; [by apply (iw_len _ _ _ _ W)| | |].
  - intros bn H1. rewrite Hb. intros H2. destruct (iw_data _ _ _ _ W bn H1 H2) as [H3 H4]. split; [done|]. by rewrite Hu.
  - intros bn bn' H1 H2. rewrite !Hb. by apply (iw_inj _ _ _ _ W).
  - intros H1. destruct (iw_ind _ _ _ _ W H1) as (H2 & H3 & H4). split_and!; [done|by rewrite Hu|]. intros bn. rewrite Hb. apply H4.
Qed.
Lemma meta_agree : meta_used sb dstart view -> meta_used sb dstart view'.
Proof. intros H b Hb. pose proof (ly_size _ _ Hly) as [_ ?]. rewrite used_agree by lia. by apply H. Qed.
Lemma full_agree i : iwf sb dstart view i -> full view i -> full view' i.
Proof. intros W [H1 H2]. split; [done|]. intros bn H3 H4. rewrite blockno_agree by done. by apply H2. Qed.
Lemma contents_agree i : iwf sb dstart view i -> full view i -> contents view' i = contents view i.
Proof.
  intros W [H1 H2]. unfold contents, slice. apply list_fmap_ext. intros j k Hj. apply lookup_seqZ in Hj as [-> Hj]. unfold byte.
  rewrite blockno_agree by done. rewrite Hagree; [done|].
  assert (BSIZE = 1024 /\ MAXFILE * BSIZE = 274432) as [EB EM] by done.
  apply data_outside, (iw_data _ _ _ _ W).
  - change MAXFILE with 268. rewrite EB in *. dlia.
  - apply H2; rewrite EB; dlia.
Qed.
End agree.

(** ** The log at rest, and a transaction around file-system code *)
Definition log_idle (sb : superblock) (view : Z -> block) (s : fstate bstate pmem) : Prop :=
  (exists disk tr, tinv (f_log s) view disk tr ∅ []) /\ lg_start (ls_log (f_log s)) = sb_logstart sb /\
  trans_of (f_log s) = (0, 0) /\ f_sb s = sb.

Lemma tinv_log l l' view disk tr held bs : tinv l view disk tr held bs -> ls_io l' = ls_io l ->
  lg_start (ls_log l') = lg_start (ls_log l) -> lg_dev (ls_log l') = lg_dev (ls_log l) -> lg_lh (ls_log l') = lg_lh (ls_log l) ->
  tinv l' view disk tr held bs.
Proof.
  intros [T1 T2 T3 T4 T5 T6 T7 T8] E1 E2 E3 E4. split; rewrite ?E1, ?E2, ?E3, ?E4; try done.
  intros j. unfold holds_at in T5. specialize (T5 j). by rewrite E4.
Qed.

(** [begin_op] on a log at rest. *)
Lemma begin_idle sb view (s : fstate bstate pmem) : log_idle sb view s ->
  exists disk tr s', lg begin_op s = Ret (tt, s') /\ fok sb disk tr s' view ∅ [] /\ trans_of (f_log s') = (1, 0) /\
    s' = wl (f_log s') s.
Proof.
  intros ((disk & tr & T) & Hst & Htr & Hsb). injection Htr as Ho Hc. exists disk, tr. eexists. split.
  { unfold lg, begin_op, kbind, getlog, gets. rewrite Hc, Ho, (ti_n _ _ _ _ _ _ T). reflexivity. }
  split; [|split; [cbn; unfold trans_of; cbn; by rewrite Ho, Hc|done]].
  split; cbn; try done; [|rewrite Ho; lia]. by eapply tinv_log.
Qed.

(** [end_op] of the only outstanding call commits everything. *)
Lemma end_commits sb disk tr view bs (s : fstate bstate pmem) :
  fok sb disk tr s view ∅ bs -> trans_of (f_log s) = (1, 0) -> Z.of_nat (length bs) < NBUF ->
  exists view' s', lg end_op s = Ret (tt, s') /\ log_idle sb view' s' /\ s' = wl (f_log s') s /\
    forall k, ~ in_log (sb_logstart sb) k -> view' k = view k.
Proof.
  intros [T Hst Hout Hsb] Htr Hlen. injection Htr as Ho Hc. destruct (f_log s) as [io0 l0] eqn:El. cbn [ls_io ls_log] in *.
  set (l1 := mkLog (lg_start l0) 0 1 (lg_dev l0) (lg_lh l0)).
  assert (tinv (mkLstate io0 l1) view disk tr ∅ bs) as T1 by (by eapply tinv_log).
  assert (end_op_locked (mkLstate io0 l0) = Ret (true, mkLstate io0 l1)) as Hlock.
  { unfold end_op_locked, kbind, setlog, getlog, gets, modify, kret. cbn. by rewrite Hc, Ho. }
  assert (exists io2 view' disk' tr', commit (mkLstate io0 l1) = Ret (tt, mkLstate io2 (clear_n l1)) /\
    tinv (mkLstate io2 (clear_n l1)) view' disk' tr' ∅ [] /\ forall k, ~ in_log (sb_logstart sb) k -> view' k = view k)
    as (io2 & view' & disk' & tr' & Hcm & T2 & Hv).
  { destruct (decide (bs = [])) as [->|Hne].
    - exists io0, view, disk, tr. assert (lh_n (lg_lh l1) = 0) as Hn by apply (ti_n _ _ _ _ _ _ T1).
      assert (clear_n l1 = l1) as ->.
      { unfold clear_n, set_lh, l1 in *. cbn in *. destruct (lg_lh l0) as [n b]. cbn in *. by rewrite Hn. }
      split; [|done]. unfold commit, kbind at 1, getlog, gets. cbn [ls_log]. by rewrite Hn.
    - destruct (tinv_commit _ _ _ _ _ T1 Hne Hlen) as ([io2 l2] & Hcm & Hl & T2). cbn [ls_log] in Hl. subst l2.
      eexists io2, _, _, _. split; [exact Hcm|]. split; [exact T2|]. intros k Hk. cbn [ls_log l1 lg_start] in Hk |- *.
      rewrite commit_ws_apply; [by case_decide|apply (ti_geom _ _ _ _ _ _ T1)|cbn; by rewrite Hst]. }
  exists view'. eexists. split.
  { unfold lg. rewrite El. unfold end_op. rewrite (kbind_ret _ _ _ _ _ Hlock), (kbind_ret _ _ _ _ _ Hcm). reflexivity. }
  split; [|split; [done|exact Hv]]. split; [eexists _, _; by eapply (tinv_log _ _ _ _ _ _ _ T2)|]. done.
Qed.

(** ** An open file between system calls *)
Record idle_file (sb : superblock) (dstart : Z) (k : kstate) (view : Z -> block) (f ip : nat) (i : inode) (off : Z) : Prop := {
  id_layout : layout sb dstart;
  id_one : sb_size sb <= BPB;
  id_log : log_idle sb view (k_fs k);
  id_wf : iwf sb dstart view i;
  id_meta : meta_used sb dstart view;
  id_full : full view i;
  id_table : f_itable (k_fs k) !! ip = Some i;
  id_ok : inode_ok sb i;
  id_free : i_valid i <> 0 /\ slocked (i_lock i) = 0 /\ 1 <= i_ref i;
  id_file : exists ff, k_ftable k !! f = Some ff /\ fl_type ff = FD_INODE /\ fl_writable ff = true /\ fl_ip ff = ip /\ fl_off ff = off;
  id_off : 0 <= off <= i_size i }.

(** Only the file system, memory and the file table change. *)
Definition same_sys (k k' : kstate) : Prop :=
  k_procs k' = k_procs k /\ k_cur k' = k_cur k /\ k_pipes k' = k_pipes k /\ k_cons k' = k_cons k.

Section chunk.
Context (kend : Z).

Lemma fsop_run {A} (m : UserMem pmem -> M (fstate bstate pmem) A) k a s :
  m (vm_user kend (vm_of (curp k))) (fs_of k) = Ret (a, s) -> fsop kend m k = Ret (a, set_fs s k).
Proof. intros H. unfold fsop. by rewrite H. Qed.
Lemma fs_of_set s k : f_pid s = f_pid (fs_of k) -> f_cwd s = f_cwd (fs_of k) -> fs_of (set_fs s k) = s.
Proof. intros H1 H2. destruct s. cbn in *. by subst. Qed.

Lemma source_part {Mem} `{!UserMem Mem} src Q (pre mid post : list Z) :
  source true src Q (pre ++ mid ++ post) -> source true (u64 (src + Z.of_nat (length pre))) Q mid.
Proof.
  intros H p b q mem HQ Hm Hb. destruct (H (pre ++ p) b (q ++ post) mem HQ) as (mem' & H1 & H2); [|done|].
  - rewrite Hm, <- !app_assoc. done.
  - exists mem'. split; [|done]. rewrite length_app in H1. rewrite <- H1. f_equal. unfold u64. rewrite Zplus_mod_idemp_l. f_equal. lia.
Qed.

(** [ilock] and [iunlock] of an inode that is in memory and free. *)
Lemma ilock_free ip i (s : fstate bstate pmem) : f_itable s !! ip = Some i -> i_valid i <> 0 -> slocked (i_lock i) = 0 -> 1 <= i_ref i ->
  ilock ip s = Ret (tt, mkF (f_log s) (f_sb s) (<[ip := set_ilock (mkSleeplock 1 (f_pid s)) i]> (f_itable s)) (f_mem s) (f_pid s) (f_cwd s)).
Proof.
  intros Hip Hv Hl Hr. unfold ilock. rewrite (kbind_ret _ _ _ _ _ (ifield_run ip i_ref s i Hip)). replace (i_ref i <? 1) with false by lia.
  unfold kbind at 1, gets. rewrite (kbind_ret _ _ _ _ _ (ifield_run ip i_lock s i Hip)). unfold acquiresleep. rewrite Hl. cbn [negb Z.eqb].
  unfold kbind at 1, updi, modify. rewrite (list_alter_insert _ _ _ _ Hip).
  unfold kbind at 1, ifield, gets, geti. cbn [f_itable]. rewrite list_lookup_insert_eq by (by eapply lookup_lt_Some). cbn.
  destruct (Z.eqb_spec (i_valid i) 0); [done|reflexivity].
Qed.
Lemma iunlock_held ip i (s : fstate bstate pmem) : f_itable s !! ip = Some i -> i_lock i = mkSleeplock 1 (f_pid s) -> 1 <= i_ref i ->
  iunlock ip s = Ret (tt, mkF (f_log s) (f_sb s) (<[ip := set_ilock (mkSleeplock 0 0) i]> (f_itable s)) (f_mem s) (f_pid s) (f_cwd s)).
Proof.
  intros Hip Hl Hr. unfold iunlock. unfold kbind at 1, gets. rewrite (kbind_ret _ _ _ _ _ (ifield_run ip id s i Hip)).
  unfold holdingsleep, id. rewrite Hl. cbn [slocked slpid]. rewrite Z.eqb_refl. replace (i_ref i <? 1) with false by lia. cbn [negb andb orb Z.eqb].
  unfold updi, modify. by rewrite (list_alter_insert _ _ _ _ Hip).
Qed.

Section one.
Context (sb : superblock) (dstart : Z) (me : nat) (pr : proc) (f ip : nat) (src : Z) (Q : pmem -> Prop) (data : list Z).
Abbreviation n := (Z.of_nat (length data)).
Hypothesis Hsrc : @source _ (vm_user kend (vm_of pr)) true src Q data.
Hypothesis Hbytes : Forall (fun x => 0 <= x < 256) data.
Hypothesis Hrange : 0 <= src < 2 ^ 64.

(** [writei] of the data inside the transaction, with the inode locked. *)
Lemma locked_write k i view disk tr s off :
  layout sb dstart -> sb_size sb <= BPB -> curp k = pr ->
  fok sb disk tr s view ∅ [] -> trans_of (f_log s) = (1, 0) -> iwf sb dstart view i -> meta_used sb dstart view -> full view i ->
  f_itable s !! ip = Some i -> inode_ok sb i -> Q (f_mem s) -> 0 <= off <= i_size i ->
  off + n <= MAXFILE * BSIZE -> n <= max_chunk ->
  exists t s' view' i' bs', @writei _ _ _ (vm_user kend (vm_of (curp k))) ip true src [] off n s = Ret (t, s') /\ 0 <= t <= n /\
    (t < n -> forall j, 0 <= j < sb_size sb -> used sb view' j = true) /\ upd_mem ip i' s s' /\ Q (f_mem s') /\
    fok sb disk tr s' view' ∅ bs' /\ trans_of (f_log s') = (1, 0) /\ Z.of_nat (length bs') <= MAXOPBLOCKS /\
    written sb dstart view i [] view' i' bs' off (take (Z.to_nat t) data).
Proof.
  intros Hly Hone Hcp F Htr W Hm Hf Hip Hok HQ Ho Hn Hmax. rewrite Hcp.
  assert (nblk off n <= 4)%nat as Hblk.
  { unfold nblk. assert (0 <= off mod BSIZE < BSIZE) by (apply Z.mod_pos_bound; done). unfold max_chunk, MAXOPBLOCKS, BSIZE in *.
    change ((10 - 1 - 1 - 2) / 2 * 1024) with 3072 in Hmax. apply Nat2Z.inj_le. rewrite Z2Nat.id by (apply Z.div_pos; lia). dlia. }
  destruct (writei_ok (UserMem0 := vm_user kend (vm_of pr)) sb dstart disk tr Hly Hone ip true src Q data view i s [] off) as
    (t & s' & view' & i' & bs' & H & Ht & Hfull & U & HQ' & F' & Hlen & R); try done.
  { unfold pot. pose proof (flag_le (sb_bmapstart sb ∈ [])). pose proof (flag_le (ind i ∈ [] /\ ind i <> 0)). cbn [length] in *.
    change NBUF with 30. lia. }
  exists t, s', view', i', bs'. split; [rewrite (writei_kbuf ip src [] data); exact H|]. cbn [length] in Hlen.
  split_and!; try done; try lia; [|unfold MAXOPBLOCKS; lia]. by rewrite (keeps_writei _ _ _ _ _ _ _ _ _ H).
Qed.

Lemma set_fs_set s s' k : set_fs s' (set_fs s k) = set_fs s' k.
Proof. by destruct k. Qed.

(** The offset moves when something was written. *)
Definition moved (off t : Z) (k : kstate) : kstate :=
  if 0 <? t then set_ftable (alter (set_off (u32 (off + t))) f (k_ftable k)) k else k.
Lemma moved_same off t k : curp (moved off t k) = curp k /\ forall s, fs_of (set_fs s (moved off t k)) = fs_of (set_fs s k).
Proof using. clear. unfold moved. by destruct (0 <? t). Qed.
(** A round of filewrite from what its calls do. *)
Lemma write_chunk_run k ff off addr j t s1 s2 s3 s4 s5 :
  k_ftable k !! f = Some ff -> fl_ip ff = ip -> fl_off ff = off -> src = u64 (addr + j) ->
  lg begin_op (fs_of k) = Ret (tt, s1) -> ilock ip s1 = Ret (tt, s2) ->
  @writei _ _ _ (vm_user kend (vm_of (curp (set_fs s2 k)))) ip true src [] off n s2 = Ret (t, s3) ->
  iunlock ip s3 = Ret (tt, s4) -> lg end_op s4 = Ret (tt, s5) -> Forall (fun s => fs_of (set_fs s k) = s) [s1; s2; s3; s4] ->
  write_chunk kend f addr j n k = Ret (t, set_fs s5 (moved off t k)).
Proof using.
  clear. intros Hff Eip Eoff Esrc Hb Hil H3 Hiu H5 HF.
  apply Forall_cons in HF as [Es1 HF]. apply Forall_cons in HF as [Es2 HF]. apply Forall_cons in HF as [Es3 HF]. apply Forall_cons in HF as [Es4 _].
  destruct (moved_same off t k) as [Ecp Efs].
  unfold write_chunk. rewrite (kbind_ret _ _ _ _ _ (fsop_run (fun _ => lg begin_op) k tt s1 Hb)).
  unfold kbind at 1, ffield, gets, getf. cbn [k_ftable set_fs]. rewrite Hff. cbn [default from_option id]. rewrite Eip.
  erewrite kbind_ret by (apply fsop_run; rewrite Es1; exact Hil). rewrite set_fs_set.
  unfold kbind at 1. cbn [k_ftable set_fs]. rewrite Hff. cbn [default from_option id]. rewrite Eoff, <- Esrc.
  erewrite kbind_ret by (apply fsop_run; rewrite Es2; exact H3). rewrite set_fs_set.
  assert ((if 0 <? t then updf f (set_off (u32 (off + t))) else kret tt) (set_fs s3 k) = Ret (tt, set_fs s3 (moved off t k))) as Hupd.
  { unfold moved. by destruct (0 <? t). }
  rewrite (kbind_ret _ _ _ _ _ Hupd). erewrite kbind_ret by (apply fsop_run; rewrite Efs, Es3; exact Hiu). rewrite set_fs_set.
  erewrite kbind_ret by (apply fsop_run; rewrite Efs, Es4; exact H5). rewrite set_fs_set. done.
Qed.

Lemma write_chunk_ok k view i off addr j :
  src = u64 (addr + j) ->
  curp k = pr -> idle_file sb dstart k view f ip i off -> Q (kmem k) -> off + n <= MAXFILE * BSIZE -> n <= max_chunk ->
  exists t k' view' i', write_chunk kend f addr j n k = Ret (t, k') /\ 0 <= t <= n /\
    (t < n -> forall b, 0 <= b < sb_size sb -> used sb view' b = true) /\
    idle_file sb dstart k' view' f ip i' (off + t) /\ Q (kmem k') /\ same_sys k k' /\
    contents view' i' = splice (contents view i) (Z.to_nat off) (take (Z.to_nat t) data).
Proof.
  intros Esrc Hcp [Hly Hone Hlog W Hm Hf Hip Hok (Hv & Hl & Hr) (ff & Hff & Ety & Ewr & Eip & Eoff) Ho] HQ Hn Hmax.
  assert (MAXFILE * BSIZE = 274432) as EM by done. pose proof Hf as [Hsz _].
  assert (log_idle sb view (fs_of k)) as Hlog' by done.
  destruct (begin_idle sb view (fs_of k) Hlog') as (disk & tr & s1 & Hb & F1 & Htr1 & E1).
  assert (fs_of (set_fs s1 k) = s1) as Es1 by (apply fs_of_set; rewrite E1; done).
  set (lk := mkSleeplock 1 (f_pid s1)). set (i1 := set_ilock lk i).
  set (s2 := mkF (f_log s1) (f_sb s1) (<[ip := i1]> (f_itable s1)) (f_mem s1) (f_pid s1) (f_cwd s1)).
  assert (f_itable s1 !! ip = Some i) as Hip1 by (rewrite E1; done).
  pose proof (ilock_free ip i s1 Hip1 Hv Hl Hr) as Hil. fold lk i1 s2 in Hil.
  assert (fs_of (set_fs s2 k) = s2) as Es2 by (apply fs_of_set; cbn; rewrite E1; done).
  assert (f_itable s2 !! ip = Some i1) as Hip2 by (cbn; apply list_lookup_insert_eq; by eapply lookup_lt_Some).
  destruct (locked_write (set_fs s2 k) i1 view disk tr s2 off) as
    (t & s3 & view3 & i3 & bs3 & H3 & Ht & Hfull & U3 & HQ3 & F3 & Htr3 & Hlen3 & R3); try done.
  { by destruct F1. }
  { by destruct W. }
  { cbn. by rewrite E1. }
  destruct R3 as [R1 R2 R3 R4 (R5a & R5b & R5c & R5d & _) R6 R7 R8 R9 R10].
  assert (fs_of (set_fs s3 k) = s3) as Es3 by (apply fs_of_set; rewrite U3; cbn; rewrite E1; done).
  assert (f_itable s3 !! ip = Some i3) as Hip3 by (rewrite U3; cbn; apply list_lookup_insert_eq; rewrite length_insert; by eapply lookup_lt_Some).
  pose proof (iunlock_held ip i3 s3 Hip3) as Hiu. rewrite R5b, R5c in Hiu. specialize (Hiu ltac:(rewrite U3; done) Hr).
  set (i4 := set_ilock (mkSleeplock 0 0) i3) in *. set (s4 := mkF _ _ (<[ip := i4]> _) _ _ _) in Hiu.
  assert (fok sb disk tr s4 view3 ∅ bs3) as F4 by (by destruct F3).
  destruct (end_commits sb disk tr view3 bs3 s4 F4 Htr3) as (view5 & s5 & H5 & Hidle & E5 & Hagree).
  { unfold NBUF, MAXOPBLOCKS in *. lia. }
  set (kf := moved off t k).
  assert (k_ftable kf !! f = Some (set_off (off + t) ff)) as Hkf.
  { unfold kf, moved. destruct (Z.ltb_spec 0 t); cbn.
    - rewrite list_lookup_alter_eq, Hff. cbn. by rewrite u32_small by lia.
    - replace (off + t) with off by lia. rewrite Hff, <- Eoff. by destruct ff. }
  exists t, (set_fs s5 kf), view5, i4. split; [|split; [done|]].
  { eapply (write_chunk_run k ff off addr j t s1 s2 s3 s4 s5); try done.
    repeat (apply Forall_cons; split; [done|]). apply Forall_cons. split; [|apply Forall_nil_2].
    apply fs_of_set; unfold s4; cbn [f_pid f_cwd]; rewrite U3; cbn; rewrite E1; done. }
  assert (k_procs (set_fs s5 kf) = k_procs k /\ k_cur (set_fs s5 kf) = k_cur k /\ k_pipes (set_fs s5 kf) = k_pipes k /\ k_cons (set_fs s5 kf) = k_cons k /\
    k_ftable (set_fs s5 kf) = k_ftable kf) as (K1 & K2 & K3 & K4 & K5) by (unfold kf, moved; by destruct (0 <? t)).
  assert (k_fs (set_fs s5 kf) = s5) as K6 by (unfold kf, moved; by destruct (0 <? t)).
  split; [|split; [|split; [|split]]].
  - intros Hlt b Hb5. rewrite (used_agree sb dstart Hly view3 view5 Hagree) by done. by apply Hfull.
  - split; [exact Hly|exact Hone|by rewrite K6|..].
    + apply (iwf_agree sb dstart Hly view3 view5 Hagree). by destruct R1.
    + by apply (meta_agree sb dstart Hly view3 view5 Hagree).
    + apply (full_agree sb dstart Hly view3 view5 Hagree); [by destruct R1|done].
    + rewrite K6, E5. cbn. apply list_lookup_insert_eq. by eapply lookup_lt_Some.
    + done.
    + cbn. by rewrite R5d, R5b.
    + eexists. rewrite K5. split; [exact Hkf|]. done.
    + cbn [i4 set_ilock i_size]. rewrite R6, length_take. change (i_size i1) with (i_size i). lia.
  - unfold kmem. rewrite K6, E5. done.
  - done.
  - rewrite (contents_agree sb dstart Hly view3 view5 Hagree i4); [exact R7|by destruct R1|done].
Qed.
End one.

Lemma splice_app (c a b : list Z) (o : nat) : (o <= length c)%nat ->
  splice (splice c o a) (o + length a) b = splice c o (a ++ b).
Proof.
  intros Ho. unfold splice. rewrite (take_app_add' (take o c)) by (rewrite length_take; lia). rewrite take_app_length.
  rewrite length_app, <- !app_assoc. do 3 f_equal. rewrite !drop_app, length_take.
  rewrite (drop_ge (take o c)) by (rewrite length_take; lia). rewrite (drop_ge a) by lia. cbn [app]. rewrite drop_drop. f_equal. lia.
Qed.

Section whole.
Context (sb : superblock) (dstart : Z) (me : nat) (pr : proc) (f ip : nat) (addr : Z) (Q : pmem -> Prop) (data : list Z).
Abbreviation n := (Z.of_nat (length data)).
Hypothesis Hsrc : @source _ (vm_user kend (vm_of pr)) true addr Q data.
Hypothesis Hbytes : Forall (fun x => 0 <= x < 256) data.

Lemma filewrite_loop_ok fuel : forall j k view i off view0 i0,
  curp k = pr -> idle_file sb dstart k view f ip i (off + j) -> Q (kmem k) -> off + n <= MAXFILE * BSIZE ->
  0 <= j <= n -> 0 <= off <= i_size i0 -> n - j <= Z.of_nat fuel * max_chunk ->
  contents view i = splice (contents view0 i0) (Z.to_nat off) (take (Z.to_nat j) data) ->
  exists t k' view' i' l, filewrite_loop kend (S fuel) f addr n j k = Ret (l, k') /\ j <= t <= n /\ (l = n <-> t = n) /\
    (t < n -> forall b, 0 <= b < sb_size sb -> used sb view' b = true) /\
    idle_file sb dstart k' view' f ip i' (off + t) /\ Q (kmem k') /\ same_sys k k' /\
    contents view' i' = splice (contents view0 i0) (Z.to_nat off) (take (Z.to_nat t) data).
Proof.
  assert (max_chunk = 3072) as Emax by done.
  induction fuel as [|fuel IH]; intros j k view i off view0 i0 Hcp Hid HQ Hn Hj Hoff Hfuel Hc; cbn [filewrite_loop].
  { replace (j <? n) with false by lia. exists j, k, view, i, j. split_and!; try done; lia. }
  destruct (Z.ltb_spec j n) as [Hlt|Hge]; [|exists j, k, view, i, j; split_and!; try done; lia].
  set (n1 := if max_chunk <? n - j then max_chunk else n - j).
  assert (0 < n1 <= n - j /\ n1 <= max_chunk /\ (n1 < n - j -> n1 = max_chunk)) as (Hn1 & Hmax & Hn1').
  { unfold n1. destruct (Z.ltb_spec max_chunk (n - j)); lia. }
  clearbody n1. set (mid := take (Z.to_nat n1) (drop (Z.to_nat j) data)).
  assert (Z.of_nat (length mid) = n1) as Emid by (unfold mid; rewrite length_take, length_drop; lia).
  assert (data = take (Z.to_nat j) data ++ mid ++ drop (Z.to_nat n1) (drop (Z.to_nat j) data)) as Esplit.
  { unfold mid. by rewrite take_drop, take_drop. }
  assert (Z.of_nat (length (take (Z.to_nat j) data)) = j) as Elen by (rewrite length_take; lia).
  pose proof Hsrc as Hs. rewrite Esplit in Hs. apply source_part in Hs. rewrite Elen in Hs.
  assert (Forall (fun x => 0 <= x < 256) mid) as HF by (unfold mid; by apply Forall_take, Forall_drop).
  destruct (write_chunk_ok sb dstart pr f ip (u64 (addr + j)) Q mid Hs HF (u64_range _) k view i (off + j) addr j) as
    (t & k1 & view1 & i1 & H1 & Ht & Hfull & Hid1 & HQ1 & (S1 & S2 & S3 & S4) & Hc1); try done; try lia.
  rewrite Emid in H1, Ht, Hfull. rewrite (kbind_ret _ _ _ _ _ H1).
  assert (contents view1 i1 = splice (contents view0 i0) (Z.to_nat off) (take (Z.to_nat (j + t)) data)) as Hc1'.
  { rewrite Hc1, Hc. replace (Z.to_nat (off + j)) with (Z.to_nat off + length (take (Z.to_nat j) data))%nat by (rewrite length_take; lia).
    rewrite splice_app by (rewrite contents_length; lia). f_equal. unfold mid. rewrite take_take, Nat.min_l by lia.
    replace (Z.to_nat (j + t)) with (Z.to_nat j + Z.to_nat t)%nat by lia. by rewrite <- take_take_drop. }
  replace (off + j + t) with (off + (j + t)) in Hid1 by lia. destruct (Z.eqb_spec t n1) as [Et|Hne]; cbn [negb].
  - destruct (IH (j + t) k1 view1 i1 off view0 i0) as (t' & k' & view' & i' & l & H2 & Ht' & Hl & Hf' & Hid' & HQ' & (T1 & T2 & T3 & T4) & Hc'); try done; try lia.
    { unfold curp, getp. by rewrite S1, S2. }
    exists t', k', view', i', l. split; [exact H2|]. split; [lia|]. split; [exact Hl|]. split; [exact Hf'|]. split; [exact Hid'|].
    split; [exact HQ'|]. split; [unfold same_sys; split_and!; congruence|exact Hc'].
  - exists (j + t), k1, view1, i1, j. split_and!; try done; try lia. intros _. apply Hfull. lia.
Qed.

End whole.
End chunk.

(** C22: [filewrite] writes the data to the file and to the disk.  With the log at
    rest and the data readable, it writes [data] at the file's offset in
    transactions of at most 3 KB, each within its log reservation, and returns
    [n] with the offset advanced and every byte committed: the log is at rest
    again, so the disk holds the new contents.  It returns -1 only when the
    disk is full, and then the part before the failure has been written. *)
Theorem filewrite_commits kend sb dstart me pr f ip addr Q data k view i off :
  k_cur k = Some me -> k_procs k !! me = Some pr ->
  @source _ (vm_user kend (vm_of pr)) true addr Q data -> Forall (fun x => 0 <= x < 256) data -> Q (kmem k) ->
  idle_file sb dstart k view f ip i off ->
  let n := Z.of_nat (length data) in
  off + n <= MAXFILE * BSIZE ->
  exists t k' view' i', filewrite kend f addr n k = Ret (Done (if t =? n then n else -1), k') /\ 0 <= t <= n /\
    (t < n -> forall b, 0 <= b < sb_size sb -> used sb view' b = true) /\
    idle_file sb dstart k' view' f ip i' (off + t) /\ Q (kmem k') /\ same_sys k k' /\
    contents view' i' = splice (contents view i) (Z.to_nat off) (take (Z.to_nat t) data).
Proof.
  intros Hc Hpr Hs HF HQ Hid n Hn. assert (curp k = pr) as Hcp by (unfold curp, getp; by rewrite Hc, Hpr).
  pose proof Hid as [_ _ _ _ _ _ _ _ _ (ff & Hff & Ety & Ewr & _) Ho]. assert (max_chunk = 3072) as Emax by done.
  destruct (filewrite_loop_ok kend sb dstart pr f ip addr Q data Hs HF (Z.to_nat (n / max_chunk) + 1) 0 k view i off view i)
    as (t & k' & view' & i' & l & H & Ht & Hl & Hfull & Hid' & HQ' & Hsame & Hc'); try done; try lia.
  { by rewrite Z.add_0_r. }
  { fold n. rewrite Emax. assert (0 <= n / 3072) by (apply Z.div_pos; lia). rewrite Nat2Z.inj_add, Z2Nat.id by lia. dlia. }
  { change (take (Z.to_nat 0) data) with (@nil Z). unfold splice. change (@nil Z ++ ?x) with x. cbn [length]. rewrite Nat.add_0_r. symmetry. apply take_drop. }
  exists t, k', view', i'. split; [|done]. unfold filewrite, kbind at 1, ffield, gets, getf. rewrite Hff. cbn [default from_option id].
  rewrite Ewr, Ety. cbn [negb]. replace (Z.to_nat (n / max_chunk) + 2)%nat with (S (Z.to_nat (n / max_chunk) + 1)) by lia.
  fold n in H, Hl. rewrite (kbind_ret _ _ _ _ _ H). unfold kret. destruct (Z.eqb_spec t n), (Z.eqb_spec l n); tauto.
Qed.

(** The file of inode 1 opened for writing at offset 32 on the small disk. *)
Definition demo_file : file := mkFile FD_INODE 1 true true 0 0 32 0.
Definition demo_idle (data : list Z) : kstate :=
  set_fs (mkF (mkLstate (ls_io (f_log demo_fs)) demo_log) demo_sb (f_itable demo_fs) (user_mem data) 1 0)
    (set_ftable (demo_file :: replicate 99 file0) (demo_k data)).
Lemma demo_idle_file data : idle_file demo_sb 36 (demo_idle data) (BioTheorems.disk_view demo_disk) 0 0 demo_dir 32.
Proof.
  destruct demo_open as (H1 & H2 & H3 & H4 & H5 & H6 & H7 & H8). split; try done.
  - split; [|done]. eexists _, _. apply (tinv_log _ _ _ _ _ _ _ (fk_t _ _ _ _ _ _ _ H3)); done.
  - split_and!; [discriminate|reflexivity|cbn; lia].
  - by exists demo_file.
Qed.
Lemma demo_data_source : @source _ (vm_user 4096 (vm_of user_proc)) true 0 (fun m => m = user_mem [7; 8; 9]) [7; 8; 9].
Proof. apply user_source. vm_compute. reflexivity. Qed.

Lemma filewrite_commits_witness :
  exists t k' view' i', filewrite 4096 0 0 3 (demo_idle [7; 8; 9]) = Ret (Done (if t =? 3 then 3 else -1), k') /\
    idle_file demo_sb 36 k' view' 0 0 i' (32 + t) /\
    contents view' i' = splice (contents (BioTheorems.disk_view demo_disk) demo_dir) 32 (take (Z.to_nat t) [7; 8; 9]).
Proof.
  destruct (filewrite_commits 4096 demo_sb 36 0 user_proc 0 0 0 (fun m => m = user_mem [7; 8; 9]) [7; 8; 9]
    (demo_idle [7; 8; 9]) (BioTheorems.disk_view demo_disk) demo_dir 32 eq_refl eq_refl demo_data_source) as
    (t & k' & view' & i' & H1 & _ & _ & H2 & _ & _ & H3); [repeat constructor; lia|done|apply demo_idle_file| |].
  - change (MAXFILE * BSIZE) with 274432. cbn. lia.
  - exists t, k', view', i'. split; [exact H1|]. split; [exact H2|exact H3].
Defined.
