(* ===== verification/Proc.v ===== *)
(** * kernel/proc.c: processes

    The life of a process: allocation, fork, exit, wait and kill on the process
    table.  The locks make each function atomic here; Sched.v has
    the interleavings.  A process that exits, sleeps or yields leaves the CPU to
    the scheduler. *)
From S2P Require Import Prelude Machine KString Kalloc Vm Spinlock Blocks Bio Log Fs Kstate Pipe Console File.

(** [safestrcpy] on the bytes of two buffers. *)
Definition safestrcpy (dst src : list Z) (n : nat) : list Z :=
  let s := take (n - 1) (cstr src) in s ++ [0] ++ drop (length s + 1) dst.

Section proc.
Context (kend trampoline forkret : Z).

Definition procinit : K unit :=
  modify (fun k => set_procs ((fun p => set_state UNUSED p) <$> k_procs k) k).

Definition allocpid : K Z :=
  pid <~ gets k_nextpid ;; modify (set_nextpid (i32 (pid + 1))) ;;; kret pid.

Definition freeproc (i : nat) : K unit :=
  p <~ pfield i id ;;
  (if negb (pr_trapframe p =? 0) then memop kend (kfree kend (pr_trapframe p)) else kret tt) ;;;
  updp i (set_trapframe 0) ;;;
  (if negb (pr_pagetable p =? 0) then memop kend (proc_freepagetable kend (pr_pagetable p) (pr_sz p)) else kret tt) ;;;
  updp i (fun p =>
    mkProc UNUSED None 0 0 0 None 0 0 (pr_trapframe p) (pr_tf p) (pr_context p) (pr_ofile p) (pr_cwd p)
      (<[0%nat := 0]> (pr_name p)) 0 (<[0%nat := 0]> (pr_allowed_path p))).

Fixpoint first_unused (i : nat) (ps : list proc) : option nat :=
  match ps with
  | [] => None
  | p :: ps => if decide (pr_state p = UNUSED) then Some i else first_unused (S i) ps
  end.
(** The page that [kalloc] returns is filled with 5. *)
Definition junk_tf : trapframe := replicate 36 0x0505050505050505.
Definition allocproc : K (option nat) :=
  ps <~ gets k_procs ;;
  match first_unused 0 ps with
  | None => kret None
  | Some i =>
      pid <~ allocpid ;;
      updp i (fun p => set_state USED (set_pid pid p)) ;;;
      tf <~ memop kend kalloc ;;
      updp i (fun p => set_trapframe tf (set_tf junk_tf p)) ;;;
      if tf =? 0 then freeproc i ;;; kret None
      else
        pt <~ memop kend (proc_pagetable kend trampoline tf) ;;
        updp i (set_pagetable pt) ;;;
        if pt =? 0 then freeproc i ;;; kret None
        else
          updp i (set_context (forkret :: KSTACK (Z.of_nat i) + PGSIZE :: replicate 12 0)) ;;;
          kret (Some i)
  end.

Definition userinit : K unit :=
  p <~ allocproc ;;
  match p with
  | None => panic "userinit: NULL"
  | Some i =>
      modify (set_initproc (Some i)) ;;;
      root <~ fsop kend (fun U => namei [47]) ;;
      updp i (fun p => set_state RUNNABLE (set_cwd root p))
  end.

Definition growproc (n : Z) : K Z :=
  me <~ myproc ;;
  p <~ pfield me id ;;
  if 0 <? n then
    sz <~ memop kend (uvmalloc kend (pr_pagetable p) (pr_sz p) (u64 (pr_sz p + n)) PTE_W) ;;
    if sz =? 0 then kret (-1) else updp me (set_sz sz) ;;; kret 0
  else if n <? 0 then
    sz <~ memop kend (uvmdealloc kend (pr_pagetable p) (pr_sz p) (u64 (pr_sz p + n))) ;;
    updp me (set_sz sz) ;;; kret 0
  else kret 0.

(** [np->ofile[i] = filedup(p->ofile[i])] for every open descriptor. *)
Fixpoint dup_files (np : nat) (fd : nat) (ofile : list (option nat)) : K unit :=
  match ofile with
  | [] => kret tt
  | None :: ofile => dup_files np (S fd) ofile
  | Some f :: ofile =>
      f <~ filedup f ;;
      updp np (fun q => set_ofile (<[fd := Some f]> (pr_ofile q)) q) ;;;
      dup_files np (S fd) ofile
  end.
(** The name and the sandbox are inherited; then the child may run. *)
Definition fork_child (np me : nat) (p : proc) : K Z :=
  updp np (fun q => set_name (safestrcpy (pr_name q) (pr_name p) 16)
    (set_mask (pr_mask p) (set_allowed_path (safestrcpy (pr_allowed_path q) (pr_allowed_path p) (Z.to_nat MAXPATH)) q))) ;;;
  pid <~ pfield np pr_pid ;;
  updp np (set_parent (Some me)) ;;;
  updp np (set_state RUNNABLE) ;;;
  kret pid.
Definition kfork : K Z :=
  me <~ myproc ;;
  np <~ allocproc ;;
  match np with
  | None => kret (-1)
  | Some np =>
      p <~ pfield me id ;;
      q <~ pfield np id ;;
      r <~ memop kend (uvmcopy kend (pr_pagetable p) (pr_pagetable q) (pr_sz p)) ;;
      if r <? 0 then freeproc np ;;; kret (-1)
      else
        updp np (fun q => set_tf (tf_set TF_a0 0 (pr_tf p)) (set_sz (pr_sz p) q)) ;;;
        dup_files np 0 (pr_ofile p) ;;;
        (match pr_cwd p with
         | Some cwd => fsop kend (fun U => idup cwd) ;;; updp np (set_cwd (Some cwd))
         | None => panic "idup: NULL"
         end) ;;;
        fork_child np me p
  end.

(** The children of [p] go to init, which is woken for each. *)
Definition reparent_procs (p : nat) (init : option nat) (ps : list proc) : list proc :=
  (fun q => if decide (pr_parent q = Some p) then set_parent init q else q) <$> ps.
Definition has_child (p : nat) (ps : list proc) : bool := existsb (fun q => bool_decide (pr_parent q = Some p)) ps.
Definition reparent (p : nat) : K unit :=
  init <~ gets k_initproc ;;
  kids <~ gets (fun k => has_child p (k_procs k)) ;;
  modify (fun k => set_procs (reparent_procs p init (k_procs k)) k) ;;;
  match init with
  | Some ip => if kids : bool then wakeup (ProcChan ip) else kret tt
  | None => kret tt
  end.

Fixpoint close_files (me : nat) (cnt fd : nat) : K unit :=
  match cnt with
  | O => kret tt
  | S cnt =>
      o <~ pfield me (fun p => nth fd (pr_ofile p) None) ;;
      (match o with
       | Some f => fileclose kend f ;;; updp me (fun p => set_ofile (<[fd := None]> (pr_ofile p)) p)
       | None => kret tt
       end) ;;;
      close_files me cnt (S fd)
  end.
(** Up to the switch to the scheduler, which never comes back. *)
Definition kexit (status : Z) : K unit :=
  me <~ myproc ;;
  init <~ gets k_initproc ;;
  if decide (init = Some me) then panic "init exiting"
  else
    close_files me (Z.to_nat NOFILE) 0 ;;;
    cwd <~ pfield me pr_cwd ;;
    (match cwd with
     | Some cwd => logop kend begin_op ;;; fsop kend (fun U => iput cwd) ;;; logop kend end_op
     | None => panic "iput: NULL"
     end) ;;;
    updp me (set_cwd None) ;;;
    reparent me ;;;
    parent <~ pfield me pr_parent ;;
    (match parent with Some pp => wakeup (ProcChan pp) | None => kret tt end) ;;;
    updp me (fun p => set_state ZOMBIE (set_xstate status p)) ;;;
    modify (set_cur None).

(** The first exited child in the table. *)
Fixpoint find_zombie (me i : nat) (ps : list proc) : option nat :=
  match ps with
  | [] => None
  | p :: ps =>
      if decide (pr_parent p = Some me /\ pr_state p = ZOMBIE) then Some i else find_zombie me (S i) ps
  end.
Definition kwait (addr : Z) : K io :=
  me <~ myproc ;;
  ps <~ gets k_procs ;;
  match find_zombie me 0 ps with
  | Some c =>
      p <~ pfield c id ;;
      pt <~ pfield me pr_pagetable ;;
      r <~ (if negb (addr =? 0) then copyout_k kend pt addr (le 4 (u32 (pr_xstate p))) else kret 0) ;;
      if r <? 0 then kret (Done (-1)) else freeproc c ;;; kret (Done (pr_pid p))
  | None =>
      kd <~ killed me ;;
      if negb (has_child me ps) || negb (kd =? 0) then kret (Done (-1))
      else sleep (ProcChan me) ;;; kret (Waits (ProcChan me))
  end.

(** [yield]: the scheduler runs next. *)
Definition yield : K unit :=
  me <~ myproc ;; updp me (set_state RUNNABLE) ;;; modify (set_cur None).

Definition kill_proc (p : proc) : proc :=
  let p := set_killed 1 p in if decide (pr_state p = SLEEPING) then set_state RUNNABLE p else p.
Fixpoint find_pid (pid : Z) (i : nat) (ps : list proc) : option nat :=
  match ps with
  | [] => None
  | p :: ps => if pr_pid p =? pid then Some i else find_pid pid (S i) ps
  end.
Definition kkill (pid : Z) : K Z :=
  ps <~ gets k_procs ;;
  match find_pid pid 0 ps with
  | Some i => updp i kill_proc ;;; kret 0
  | None => kret (-1)
  end.
End proc.
