(* ===== verification/ProcInv.v ===== *)
(** * The process table through fork, exit, wait and kill

    What the rest of the kernel may do to the table while a process is in a
    system call is to wake sleepers; everything else goes through proc.c. *)
From S2P Require Import Prelude Machine Kalloc Vm Spinlock Blocks Bio Log Fs Kstate Demo Pipe Console File Proc.

(** ** Code that at most wakes processes *)
Definition woken (p p' : proc) : Prop := p' = p \/ (pr_state p = SLEEPING /\ p' = set_state RUNNABLE p).
Record lives (k k' : kstate) : Prop := {
  lv_procs : Forall2 woken (k_procs k) (k_procs k');
  lv_cur : k_cur k' = k_cur k;
  lv_next : k_nextpid k' = k_nextpid k;
  lv_init : k_initproc k' = k_initproc k }.

Lemma woken_trans p q r : woken p q -> woken q r -> woken p r.
Proof. intros [->|[H ->]] [->|[H' ->]]; [by left|by right|by right|]. cbn in H'. discriminate H'. Qed.
Lemma all_woken ps : Forall2 woken ps ps.
Proof. induction ps; [constructor|constructor; [by left|done]]. Qed.
Lemma lives_refl k : lives k k.
Proof. split; try done. apply all_woken. Qed.
Lemma lives_trans k1 k2 k3 : lives k1 k2 -> lives k2 k3 -> lives k1 k3.
Proof.
  intros [A1 A2 A3 A4] [B1 B2 B3 B4]. split; try congruence. clear -A1 B1. revert B1. generalize (k_procs k3).
  induction A1 as [|p q ps qs H1 H2 IH]; intros rs B1; inversion B1; subst; constructor; [by eapply woken_trans|by apply IH].
Qed.
Lemma lives_same k k' : k_procs k' = k_procs k -> k_cur k' = k_cur k -> k_nextpid k' = k_nextpid k -> k_initproc k' = k_initproc k -> lives k k'.
Proof. intros H1 H2 H3 H4. split; try done. rewrite H1. apply all_woken. Qed.

Definition quiet {A} (m : K A) : Prop := forall k a k', m k = Ret (a, k') -> lives k k'.
Lemma quiet_bind {A B} (m : K A) (f : A -> K B) : quiet m -> (forall a, quiet (f a)) -> quiet (kbind m f).
Proof. intros Hm Hf k b k' (a & k1 & H1 & H2)%kbind_inv. eapply lives_trans; [by eapply Hm|by eapply Hf]. Qed.
Lemma quiet_ret {A} (a : A) : quiet (kret a).
Proof. intros k b k' [= _ <-]. apply lives_refl. Qed.
Lemma quiet_gets {A} (f : kstate -> A) : quiet (gets f).
Proof. intros k b k' [= _ <-]. apply lives_refl. Qed.
Lemma quiet_panic {A} e : quiet (panic (A := A) e).
Proof. intros k b k' H. discriminate H. Qed.
Lemma quiet_nofuel {A} : quiet (nofuel (A := A)).
Proof. intros k b k' H. discriminate H. Qed.
Lemma quiet_fsop kend {A} (m : UserMem pmem -> M (fstate bstate pmem) A) : quiet (fsop kend m).
Proof.
  intros k a k'. unfold fsop. destruct (m _ _) as [[b s]| | |]; intros H; try discriminate H. injection H as <- <-. by apply lives_same.
Qed.
Lemma quiet_memop kend {A} (m : M pmem A) : quiet (memop kend m).
Proof. apply quiet_fsop. Qed.
Lemma quiet_logop kend {A} (m : M (lstate bstate) A) : quiet (logop kend m).
Proof. apply quiet_fsop. Qed.
Lemma quiet_updf f g : quiet (updf f g).
Proof. intros k b k' [= _ <-]. by apply lives_same. Qed.
Lemma quiet_updpi pi g : quiet (updpi pi g).
Proof. intros k b k' [= _ <-]. by apply lives_same. Qed.
Lemma wakeup_woken cur ch ps : Forall2 woken ps (wakeup_procs cur ch ps).
Proof.
  unfold wakeup_procs. apply Forall2_same_length_lookup_2; [by rewrite length_imap|].
  intros i p p' Hp. rewrite list_lookup_imap, Hp. cbn. intros [= <-]. case_decide; [by left|]. unfold wake.
  case_decide as E; [right; split; [apply E|done]|by left].
Qed.
Lemma quiet_wakeup ch : quiet (wakeup ch).
Proof. intros k b k' [= _ <-]. split; try done. apply wakeup_woken. Qed.
Lemma quiet_pipes f : quiet (modify (fun k => set_pipes (f k) k)).
Proof. intros k b k' [= _ <-]. by apply lives_same. Qed.

Create HintDb quiet.
#[export] Hint Resolve quiet_ret quiet_gets quiet_panic quiet_nofuel quiet_fsop quiet_memop quiet_logop quiet_updf quiet_updpi quiet_wakeup quiet_pipes : quiet.
Ltac quiets :=
  repeat match goal with
  | |- quiet (kbind _ _) => apply quiet_bind; [|intros ?]
  | |- quiet (match ?x with _ => _ end) => destruct x
  | |- quiet (let _ := _ in _) => cbv zeta
  | _ => solve [eauto with quiet]
  end.

Lemma quiet_pipeclose kend pi w : quiet (pipeclose kend pi w).
Proof. unfold pipeclose, pifield. quiets. Qed.
#[export] Hint Resolve quiet_pipeclose : quiet.
Lemma quiet_fileclose kend f : quiet (fileclose kend f).
Proof. unfold fileclose, ffield. quiets. Qed.
Lemma quiet_filedup f : quiet (filedup f).
Proof. unfold filedup, ffield. quiets. Qed.
#[export] Hint Resolve quiet_fileclose quiet_filedup : quiet.

(** ** Process identifiers *)
Record procs_ok (k : kstate) : Prop := {
  pk_unused : forall i p, k_procs k !! i = Some p -> pr_state p = UNUSED -> pr_pid p = 0;
  pk_pid : forall i p, k_procs k !! i = Some p -> pr_state p <> UNUSED -> 0 < pr_pid p < k_nextpid k;
  pk_unique : forall i j p q, k_procs k !! i = Some p -> k_procs k !! j = Some q ->
    pr_pid p = pr_pid q -> pr_pid p <> 0 -> i = j;
  pk_next : 0 < k_nextpid k;
  pk_cur : forall i, k_cur k = Some i -> exists p, k_procs k !! i = Some p /\ pr_state p <> UNUSED /\ pr_state p <> ZOMBIE }.

(** ** Code that keeps identifiers, kill flags and who is dead or alive *)
Definition alike (p p' : proc) : Prop :=
  pr_pid p' = pr_pid p /\ pr_killed p' = pr_killed p /\
  (pr_state p' = UNUSED <-> pr_state p = UNUSED) /\ (pr_state p' = ZOMBIE <-> pr_state p = ZOMBIE).
Record stays (k k' : kstate) : Prop := {
  sy_procs : Forall2 alike (k_procs k) (k_procs k');
  sy_cur : k_cur k' = k_cur k;
  sy_next : k_nextpid k' = k_nextpid k;
  sy_init : k_initproc k' = k_initproc k }.
#[export] Instance alike_pre : PreOrder alike.
Proof.
  split; [done|]. intros p q r (A1 & A2 & A3 & A4) (B1 & B2 & B3 & B4). split_and!; try congruence; tauto.
Qed.
#[export] Instance stays_pre : PreOrder stays.
Proof.
  split; [intros k; split; try done; reflexivity|]. intros k1 k2 k3 [A1 A2 A3 A4] [B1 B2 B3 B4]. split; try congruence. by etrans.
Qed.
Lemma woken_alike p p' : woken p p' -> alike p p'.
Proof. intros [->|[Hs ->]]; [done|]. split_and!; try done; cbn; rewrite Hs; split; intros E; discriminate E. Qed.
Lemma lives_stays k k' : lives k k' -> stays k k'.
Proof. intros [H1 H2 H3 H4]. split; try done. eapply Forall2_impl; [exact H1|]. apply woken_alike. Qed.

Definition tame {A} (m : K A) : Prop := forall k a k', m k = Ret (a, k') -> stays k k'.
Lemma tame_quiet {A} (m : K A) : quiet m -> tame m.
Proof. intros H k a k' Hr. by eapply lives_stays, H. Qed.
Lemma tame_bind {A B} (m : K A) (f : A -> K B) : tame m -> (forall a, tame (f a)) -> tame (kbind m f).
Proof. intros Hm Hf k b k' (a & k1 & H1 & H2)%kbind_inv. etrans; [by eapply Hm|by eapply Hf]. Qed.
Lemma Forall2_alter (f : proc -> proc) i ps : (forall p, ps !! i = Some p -> alike p (f p)) -> Forall2 alike ps (alter f i ps).
Proof.
  intros H. apply Forall2_same_length_lookup_2; [by rewrite length_alter|]. intros j p q Hp Hq.
  destruct (decide (j = i)) as [->|Hne].
  - rewrite list_lookup_alter_eq, Hp in Hq. injection Hq as <-. by apply H.
  - rewrite list_lookup_alter_ne, Hp in Hq by done. injection Hq as <-. done.
Qed.
Lemma updp_stays i f k : (forall p, k_procs k !! i = Some p -> alike p (f p)) -> stays k (set_procs (alter f i (k_procs k)) k).
Proof. intros H. split; try done. by apply Forall2_alter. Qed.
Lemma tame_updp i f : (forall p, alike p (f p)) -> tame (updp i f).
Proof. intros H k a k' [= _ <-]. apply updp_stays. intros p _. apply H. Qed.

Ltac tames :=
  repeat match goal with
  | |- tame (kbind _ _) => apply tame_bind; [|intros ?]
  | |- tame (match ?x with _ => _ end) => destruct x
  | |- tame (updp _ _) => apply tame_updp; intros ?; (repeat split; done)
  | |- tame _ => solve [apply tame_quiet; eauto with quiet | eauto with tame]
  end.
Create HintDb tame.

Lemma tame_dup_files np ofile : forall fd, tame (dup_files np fd ofile).
Proof. induction ofile as [|[f|] ofile IH]; intros fd; cbn [dup_files]; tames; apply IH. Qed.
Lemma tame_close_files kend me cnt : forall fd, tame (close_files kend me cnt fd).
Proof. induction cnt as [|cnt IH]; intros fd; cbn [close_files]; unfold pfield; tames; apply IH. Qed.
Lemma tame_reparent p : tame (reparent p).
Proof.
  unfold reparent. tames. intros k b k' [= _ <-]. split; try done. cbn. unfold reparent_procs.
  apply Forall2_same_length_lookup_2; [by rewrite length_fmap|]. intros i q q' Hq. rewrite list_lookup_fmap, Hq. intros [= <-].
  case_decide; done.
Qed.
#[export] Hint Resolve tame_dup_files tame_close_files tame_reparent : tame.

(** ** The invariant *)
Lemma stays_lookup k k' i p' : stays k k' -> k_procs k' !! i = Some p' -> exists p, k_procs k !! i = Some p /\ alike p p'.
Proof. intros [H _ _ _] Hi. destruct (Forall2_lookup_r _ _ _ _ _ H Hi) as (p & H1 & H2). by exists p. Qed.
Lemma stays_lookup_l k k' i p : stays k k' -> k_procs k !! i = Some p -> exists p', k_procs k' !! i = Some p' /\ alike p p'.
Proof. intros [H _ _ _] Hi. destruct (Forall2_lookup_l _ _ _ _ _ H Hi) as (p' & H1 & H2). by exists p'. Qed.
Lemma procs_ok_stays k k' : stays k k' -> procs_ok k -> procs_ok k'.
Proof.
  intros L [H1 H2 H3 H4 H5]. split; [| | |by rewrite (sy_next _ _ L)|].
  - intros i p' Hp. destruct (stays_lookup _ _ _ _ L Hp) as (p & Hi & -> & _ & E & _). rewrite E. by apply (H1 i).
  - intros i p' Hp. destruct (stays_lookup _ _ _ _ L Hp) as (p & Hi & -> & _ & E & _). rewrite E, (sy_next _ _ L). by apply (H2 i).
  - intros i j p' q' Hp Hq. destruct (stays_lookup _ _ _ _ L Hp) as (p & Hi & -> & _). destruct (stays_lookup _ _ _ _ L Hq) as (q & Hj & -> & _).
    by apply H3.
  - intros i Hc. rewrite (sy_cur _ _ L) in Hc. destruct (H5 i Hc) as (p & Hp & N1 & N2).
    destruct (stays_lookup_l _ _ _ _ L Hp) as (p' & Hp' & _ & _ & E1 & E2). exists p'. split; [done|]. by rewrite E1, E2.
Qed.

(** A slot gets a new state: the conditions on it, and the rest is as before. *)
Lemma procs_ok_slot k i p p' n : procs_ok k -> k_procs k !! i = Some p -> k_nextpid k <= n ->
  (pr_state p' = UNUSED -> pr_pid p' = 0) -> (pr_state p' <> UNUSED -> 0 < pr_pid p' < n) ->
  (pr_pid p' <> 0 -> pr_pid p' = pr_pid p \/ pr_pid p' = k_nextpid k) ->
  (k_cur k = Some i -> pr_state p' <> UNUSED /\ pr_state p' <> ZOMBIE) ->
  procs_ok (set_nextpid n (set_procs (<[i := p']> (k_procs k)) k)).
Proof.
  intros [H1 H2 H3 H4 H5] Hi Hn C1 C2 C3 C4. assert (i < length (k_procs k))%nat as Hlt by (by eapply lookup_lt_Some).
  assert (forall j q, <[i := p']> (k_procs k) !! j = Some q -> (j = i /\ q = p') \/ (j <> i /\ k_procs k !! j = Some q)) as Hl.
  { intros j q. destruct (decide (j = i)) as [->|Hne]; [rewrite list_lookup_insert_eq by done; intros [= <-]; by left|].
    rewrite list_lookup_insert_ne by done. by right. }
  assert (forall j q, j <> i -> k_procs k !! j = Some q -> pr_pid q = pr_pid p' -> pr_pid p' = 0) as Hother.
  { intros j q Hne Hq E. destruct (Z.eq_dec (pr_pid p') 0) as [E0|E0]; [done|]. exfalso. destruct (C3 E0) as [E1|E1].
    - apply Hne. apply (H3 j i q p Hq Hi); [by rewrite E|by rewrite E].
    - destruct (decide (pr_state q = UNUSED)) as [Eu|Eu]; [rewrite (H1 j q Hq Eu) in E; by rewrite <- E in E0|].
      destruct (H2 j q Hq Eu). lia. }
  split; cbn [k_procs k_nextpid k_cur set_nextpid set_procs].
  - intros j q [[-> ->]|[Hne Hq]]%Hl; [done|by apply (H1 j)].
  - intros j q [[-> ->]|[Hne Hq]]%Hl Hs; [by apply C2|]. destruct (H2 j q Hq Hs). lia.
  - intros j l q r [[-> ->]|[Hne Hq]]%Hl [[-> ->]|[Hne' Hr]]%Hl E Hz; [done| | |by apply (H3 j l q r)].
    + exfalso. apply Hz. apply (Hother l r Hne' Hr). done.
    + exfalso. apply Hz. rewrite E. apply (Hother j q Hne Hq). done.
  - lia.
  - intros j Hc. destruct (decide (j = i)) as [->|Hne]; [exists p'; split; [by apply list_lookup_insert_eq|by apply C4]|].
    rewrite list_lookup_insert_ne by done. by apply H5.
Qed.
Lemma set_nextpid_id k : set_nextpid (k_nextpid k) k = k.
Proof. by destruct k. Qed.
Lemma procs_ok_updp k i p f : procs_ok k -> k_procs k !! i = Some p ->
  (pr_state (f p) = UNUSED -> pr_pid (f p) = 0) -> (pr_state (f p) <> UNUSED -> 0 < pr_pid (f p) < k_nextpid k) ->
  (pr_pid (f p) <> 0 -> pr_pid (f p) = pr_pid p) ->
  (k_cur k = Some i -> pr_state (f p) <> UNUSED /\ pr_state (f p) <> ZOMBIE) ->
  procs_ok (set_procs (alter f i (k_procs k)) k).
Proof.
  intros H Hi C1 C2 C3 C4. rewrite (list_alter_insert _ _ _ _ Hi).
  pose proof (procs_ok_slot k i p (f p) (k_nextpid k) H Hi ltac:(lia) C1 C2 ltac:(tauto) C4) as Hok. by destruct k.
Qed.

Lemma list_alter_none {A} (f : A -> A) (l : list A) i : l !! i = None -> alter f i l = l.
Proof.
  intros H. apply list_eq. intros j. destruct (decide (j = i)) as [->|]; [by rewrite list_lookup_alter_eq, H|by rewrite list_lookup_alter_ne].
Qed.

Section ops.
Context (kend trampoline forkret : Z).

Lemma freeproc_run i k k' : freeproc kend i k = Ret (tt, k') ->
  exists k1 f, stays k k1 /\ k' = set_procs (alter f i (k_procs k1)) k1 /\ forall p, pr_state (f p) = UNUSED /\ pr_pid (f p) = 0.
Proof.
  unfold freeproc. intros H. minv H.
  apply kbind_inv in Hk as ([] & k1 & H1 & H). apply kbind_inv in H as ([] & k2 & H2 & H).
  apply kbind_inv in H as ([] & k3 & H3 & H). injection H as <-.
  exists k3. eexists. split; [|split; [reflexivity|done]]. etrans; [|etrans].
  - destruct (negb _) in H1; [|injection H1 as <-; done]. apply (tame_quiet _ (quiet_memop kend _) _ _ _ H1).
  - refine (tame_updp i _ _ _ _ _ H2). by intros q.
  - destruct (negb _) in H3; [|injection H3 as <-; done]. apply (tame_quiet _ (quiet_memop kend _) _ _ _ H3).
Qed.
Lemma freeproc_ok i k k' : procs_ok k -> k_cur k <> Some i -> freeproc kend i k = Ret (tt, k') ->
  procs_ok k' /\ k_cur k' = k_cur k /\ k_initproc k' = k_initproc k.
Proof.
  intros H Hc (k1 & f & L & -> & Hf)%freeproc_run. pose proof (procs_ok_stays _ _ L H) as H1.
  split; [|split; [apply (sy_cur _ _ L)|apply (sy_init _ _ L)]].
  destruct (k_procs k1 !! i) as [p|] eqn:E.
  - destruct (Hf p) as [F1 F2]. apply (procs_ok_updp k1 i p f H1 E); rewrite ?F1, ?F2; try done.
    rewrite (sy_cur _ _ L). intros Hcc. done.
  - destruct k1. cbn in *. by rewrite list_alter_none.
Qed.

Lemma first_unused_spec ps : forall i, match first_unused i ps with
  | Some j => (i <= j)%nat /\ exists p, ps !! (j - i)%nat = Some p /\ pr_state p = UNUSED
  | None => forall j p, ps !! j = Some p -> pr_state p <> UNUSED
  end.
Proof.
  induction ps as [|p ps IH]; intros i; cbn [first_unused]; [intros j q Hq; by rewrite lookup_nil in Hq|].
  case_decide; [split; [lia|]; exists p; rewrite Nat.sub_diag; done|]. specialize (IH (S i)).
  destruct (first_unused (S i) ps) as [j|].
  - destruct IH as (Hj & q & Hq & Hs). split; [lia|]. exists q. split; [|done]. by replace (j - i)%nat with (S (j - S i)) by lia.
  - intros [|j] q; cbn; [by intros [= <-]|]. apply IH.
Qed.

(** The code of [allocproc] after the slot is taken. *)
Lemma allocproc_ok k r k' : procs_ok k -> k_nextpid k + 1 < 2 ^ 31 -> allocproc kend trampoline forkret k = Ret (r, k') ->
  procs_ok k' /\ k_cur k' = k_cur k /\ k_initproc k' = k_initproc k /\
  match r with
  | Some i => first_unused 0 (k_procs k) = Some i /\ k_cur k <> Some i /\ exists p p', k_procs k !! i = Some p /\ k_procs k' !! i = Some p' /\
      pr_pid p' = k_nextpid k /\ pr_killed p' = pr_killed p /\ pr_state p' <> UNUSED /\ pr_state p' <> ZOMBIE
  | None => True
  end.
Proof.
  intros H Hn Hrun. unfold allocproc in Hrun. minv Hrun. pose proof (first_unused_spec (k_procs s) 0) as Hf.
  destruct (first_unused 0 (k_procs s)) as [i|]; [|injection Hk as <- <-; done].
  destruct Hf as (_ & p & Hp & Hs). rewrite Nat.sub_0_r in Hp.
  assert (k_cur s <> Some i) as Hcur.
  { intros Hc. destruct (pk_cur _ H i Hc) as (q & Hq & N & _). by simplify_eq. }
  minv Hk. minv Hk0.
  set (k1 := set_procs _ _) in Hk. pose proof (pk_next _ H) as Hpos.
  assert (procs_ok k1 /\ k_procs k1 !! i = Some (set_state USED (set_pid (k_nextpid s) p))) as [Hok1 Hi1].
  { unfold k1. cbn. rewrite (list_alter_insert _ _ _ _ Hp), list_lookup_insert_eq by (by eapply lookup_lt_Some). split; [|done].
    rewrite i32_small by lia. apply (procs_ok_slot s i p _ (k_nextpid s + 1) H Hp); cbn; try done; try lia; by right. }
  apply kbind_inv in Hk as (tf & k2 & H2 & Hk). pose proof (lives_stays _ _ (quiet_memop kend _ _ _ _ H2)) as L2. minv Hk.
  set (k3 := set_procs _ k2) in Hk0.
  assert (stays k1 k3) as L3 by (etrans; [exact L2|apply updp_stays; by intros q]).
  assert (procs_ok k3) as Hok3 by (by eapply procs_ok_stays).
  assert (forall k4, stays k1 k4 -> k_cur k4 <> Some i) as Hcur4 by (intros k4 L; by rewrite (sy_cur _ _ L)).
  destruct (tf =? 0).
  { minv Hk0. destruct a. destruct (freeproc_ok _ _ _ Hok3 (Hcur4 _ L3) Hm) as (F1 & F2 & F3). injection Hk as <- <-.
    split; [done|]. rewrite F2, F3, (sy_cur _ _ L3), (sy_init _ _ L3). done. }
  apply kbind_inv in Hk0 as (pt & k4 & H4 & Hk). pose proof (lives_stays _ _ (quiet_memop kend _ _ _ _ H4)) as L4. minv Hk.
  set (k5 := set_procs _ k4) in Hk0.
  assert (stays k1 k5) as L5 by (etrans; [exact L3|]; etrans; [exact L4|]; apply updp_stays; by intros q).
  destruct (pt =? 0).
  { minv Hk0. destruct a. destruct (freeproc_ok _ _ _ (procs_ok_stays _ _ L5 Hok1) (Hcur4 _ L5) Hm) as (F1 & F2 & F3).
    injection Hk as <- <-. split; [done|]. rewrite F2, F3, (sy_cur _ _ L5), (sy_init _ _ L5). done. }
  minv Hk0. injection Hk as <- <-.
  match goal with |- procs_ok ?k6 /\ _ => assert (stays k1 k6) as L6 by (etrans; [exact L5|]; apply updp_stays; by intros q); set (k7 := k6) in * end.
  split; [by eapply procs_ok_stays|]. split; [apply (sy_cur _ _ L6)|]. split; [apply (sy_init _ _ L6)|]. split; [done|]. split; [done|].
  destruct (stays_lookup_l _ _ _ _ L6 Hi1) as (p' & Hp' & E1 & E2 & E3 & E4). exists p, p'.
  split_and!; try done; [intros E; apply E3 in E; discriminate E|intros E; apply E4 in E; discriminate E].
Qed.

(** ** fork *)

(** Only descriptors and wakeups. *)
Definition fonly (p p' : proc) : Prop := p' = set_state (pr_state p') (set_ofile (pr_ofile p') p).
#[local] Instance fonly_pre : PreOrder fonly.
Proof. unfold fonly. split; [by intros []|]. intros p q r Hq Hr. rewrite Hr, Hq. done. Qed.
Definition fquiet {A} (m : K A) : Prop := forall k a k', m k = Ret (a, k') -> Forall2 fonly (k_procs k) (k_procs k').
Lemma quiet_fquiet {A} (m : K A) : quiet m -> fquiet m.
Proof.
  intros H k a k' Hr. eapply Forall2_impl; [apply (lv_procs _ _ (H _ _ _ Hr))|]. intros p q [->|[_ ->]]; [done|by destruct p].
Qed.
Lemma fquiet_bind {A B} (m : K A) (f : A -> K B) : fquiet m -> (forall a, fquiet (f a)) -> fquiet (kbind m f).
Proof. intros Hm Hf k b k' (a & k1 & H1 & H2)%kbind_inv. etrans; [by eapply Hm|by eapply Hf]. Qed.
Lemma fquiet_dup_files np ofile : forall fd, fquiet (dup_files np fd ofile).
Proof.
  induction ofile as [|[f|] ofile IH]; intros fd; cbn [dup_files]; [apply quiet_fquiet; auto with quiet| |apply IH].
  apply fquiet_bind; [apply quiet_fquiet; auto with quiet|]. intros f'. apply fquiet_bind; [|intros _; apply IH].
  intros k a k' [= _ <-]. cbn. apply Forall2_same_length_lookup_2; [by rewrite length_alter|]. intros j p q Hp Hq.
  destruct (decide (j = np)) as [->|Hne].
  - rewrite list_lookup_alter_eq, Hp in Hq. injection Hq as <-. by destruct p.
  - rewrite list_lookup_alter_ne, Hp in Hq by done. by injection Hq as <-.
Qed.

(** The child of a fork, [p] the parent and [p0] what was in its slot. *)
Record child_of (me : nat) (p p0 q : proc) (pid : Z) : Prop := {
  ch_state : pr_state q = RUNNABLE;
  ch_pid : pr_pid q = pid;
  ch_parent : pr_parent q = Some me;
  ch_sz : pr_sz q = pr_sz p;
  ch_tf : pr_tf q = tf_set TF_a0 0 (pr_tf p);
  ch_cwd : pr_cwd q = pr_cwd p;
  ch_mask : pr_mask q = pr_mask p;
  ch_path : exists old, pr_allowed_path q = safestrcpy old (pr_allowed_path p) (Z.to_nat MAXPATH);
  ch_killed : pr_killed q = pr_killed p0 }.

Lemma alter_at (f : proc -> proc) (i j : nat) (ps : list proc) p : ps !! j = Some p ->
  alter f i ps !! j = Some (if decide (j = i) then f p else p).
Proof. intros H. case_decide; [subst; by rewrite list_lookup_alter_eq, H|by rewrite list_lookup_alter_ne]. Qed.

(** Code that touches no slot but [i]. *)
Definition only {A} (i : nat) (m : K A) : Prop := forall k a k', m k = Ret (a, k') -> forall j, j <> i -> k_procs k' !! j = k_procs k !! j.
Lemma only_bind {A B} i (m : K A) (f : A -> K B) : only i m -> (forall a, only i (f a)) -> only i (kbind m f).
Proof. intros Hm Hf k b k' (a & k1 & H1 & H2)%kbind_inv j Hj. by rewrite (Hf _ _ _ _ H2 j Hj), (Hm _ _ _ H1 j Hj). Qed.
Lemma only_same {A} i (m : K A) : (forall k a k', m k = Ret (a, k') -> k_procs k' = k_procs k) -> only i m.
Proof. intros H k a k' Hr j _. by rewrite (H _ _ _ Hr). Qed.
Lemma memop_procs {A} (m : M pmem A) k a k' : memop kend m k = Ret (a, k') -> k_procs k' = k_procs k.
Proof. unfold memop, fsop. destruct (umem m _) as [[b s]| | |]; intros Hr; try discriminate Hr. by injection Hr as <- <-. Qed.
Lemma fsop_procs {A} (m : UserMem pmem -> M (fstate bstate pmem) A) k a k' : fsop kend m k = Ret (a, k') -> k_procs k' = k_procs k.
Proof. unfold fsop. destruct (m _ _) as [[b s]| | |]; intros Hr; try discriminate Hr. by injection Hr as <- <-. Qed.
Lemma only_updp i f : only i (updp i f).
Proof. intros k a k' [= _ <-] j Hj. cbn. by apply list_lookup_alter_ne. Qed.
Ltac onlys :=
  repeat match goal with
  | |- only _ (kbind _ _) => apply only_bind; [|intros ?]
  | |- only _ (match ?x with _ => _ end) => destruct x
  | |- only _ (updp _ _) => apply only_updp
  | |- only _ (memop _ _) => apply only_same, memop_procs
  | |- only _ (kret _) => apply only_same; by intros ? ? ? [= _ <-]
  | |- only _ (pfield _ _) => apply only_same; by intros ? ? ? [= _ <-]
  end.
Lemma only_freeproc i : only i (freeproc kend i).
Proof. unfold freeproc. onlys. Qed.
Lemma allocproc_only k i k' : allocproc kend trampoline forkret k = Ret (Some i, k') -> first_unused 0 (k_procs k) = Some i ->
  forall j, j <> i -> k_procs k' !! j = k_procs k !! j.
Proof.
  intros Hrun Hf. unfold allocproc in Hrun. minv Hrun. rewrite Hf in Hk. minv Hk.
  match type of Hk0 with ?m _ = _ => assert (only i m) as Ho by (onlys; apply only_freeproc) end.
  intros j Hj. by rewrite (Ho _ _ _ Hk0 j Hj).
Qed.

Definition inherit (me : nat) (p q : proc) : proc :=
  set_state RUNNABLE (set_parent (Some me) (set_name (safestrcpy (pr_name q) (pr_name p) 16)
    (set_mask (pr_mask p) (set_allowed_path (safestrcpy (pr_allowed_path q) (pr_allowed_path p) (Z.to_nat MAXPATH)) q)))).
Lemma updp_run i f k p : k_procs k !! i = Some p -> updp i f k = Ret (tt, set_procs (<[i := f p]> (k_procs k)) k).
Proof. intros H. unfold updp, modify. by rewrite (list_alter_insert _ _ _ _ H). Qed.
Lemma set_procs_set a b k : set_procs a (set_procs b k) = set_procs a k.
Proof. by destruct k. Qed.
Lemma fork_child_run np me p k q : k_procs k !! np = Some q ->
  fork_child np me p k = Ret (pr_pid q, set_procs (<[np := inherit me p q]> (k_procs k)) k).
Proof.
  intros H. assert (np < length (k_procs k))%nat as Hl by (by eapply lookup_lt_Some). unfold fork_child.
  rewrite (kbind_ret _ _ _ _ _ (updp_run _ _ _ _ H)). set (q1 := set_name _ _).
  assert (forall x, <[np := x]> (k_procs k) !! np = Some x) as Hx by (intros; by apply list_lookup_insert_eq).
  assert (pfield np pr_pid (set_procs (<[np := q1]> (k_procs k)) k) = Ret (pr_pid q, set_procs (<[np := q1]> (k_procs k)) k)) as Hpid.
  { unfold pfield, gets, getp. cbn [set_procs k_procs]. by rewrite Hx. }
  rewrite (kbind_ret _ _ _ _ _ Hpid). erewrite kbind_ret by (apply updp_run; apply Hx). cbn [set_procs k_procs].
  rewrite list_insert_insert_eq. erewrite kbind_ret by (apply updp_run; apply Hx). cbn [set_procs k_procs].
  by rewrite list_insert_insert_eq, !set_procs_set.
Qed.

Lemma kfork_ok k pid k' me p : procs_ok k -> k_nextpid k + 1 < 2 ^ 31 -> k_cur k = Some me -> k_procs k !! me = Some p ->
  kfork kend trampoline forkret k = Ret (pid, k') ->
  procs_ok k' /\ k_cur k' = k_cur k /\
  (pid = -1 \/ exists np p0 q, first_unused 0 (k_procs k) = Some np /\ k_procs k !! np = Some p0 /\
    k_procs k' !! np = Some q /\ child_of me p p0 q pid /\ pid = k_nextpid k).
Proof.
  intros H Hn Hc Hp Hrun. unfold kfork in Hrun. rewrite (kbind_ret _ _ _ _ _ (myproc_run k me Hc)) in Hrun.
  apply kbind_inv in Hrun as (np & k1 & H1 & Hrun).
  destruct (allocproc_ok k np k1 H Hn H1) as (Hok1 & Hc1 & Hi1 & Hnp). destruct np as [np|]; [|injection Hrun as <- <-; by auto].
  destruct Hnp as (Hfu & Hne & p0 & q1 & Hp0 & Hq1 & Epid & Ekill & Eu & Ez).
  rewrite Hc in Hne. assert (np <> me) as Hnm by congruence.
  pose proof (allocproc_only k np k1 H1 Hfu me ltac:(done)) as Hme1. rewrite Hp in Hme1.
  unfold kbind at 1, pfield, gets in Hrun. unfold kbind at 1 in Hrun. unfold getp in Hrun. rewrite Hme1, Hq1 in Hrun. cbn [default from_option id] in Hrun.
  apply kbind_inv in Hrun as (r & k2 & H2 & Hrun). pose proof (memop_procs _ _ _ _ H2) as Ep2.
  pose proof (lives_stays _ _ (quiet_memop kend _ _ _ _ H2)) as L2. destruct (r <? 0).
  { apply kbind_inv in Hrun as ([] & k3 & H3 & Hrun). injection Hrun as <- <-.
    destruct (freeproc_ok _ _ _ (procs_ok_stays _ _ L2 Hok1) ltac:(rewrite (sy_cur _ _ L2), Hc1, Hc; done) H3) as (F1 & F2 & F3).
    split; [done|]. split; [by rewrite F2, (sy_cur _ _ L2)|by left]. }
  minv Hrun. set (k3 := set_procs _ k2) in Hk.
  assert (stays k2 k3) as L3 by (apply updp_stays; by intros ?).
  apply kbind_inv in Hk as ([] & k4 & H4 & Hk). pose proof (tame_dup_files _ _ _ _ _ _ H4) as L4. pose proof (fquiet_dup_files _ _ _ _ _ _ H4) as F4.
  destruct (pr_cwd p) as [cwd|] eqn:Ecwd; [|discriminate Hk]. rewrite <- kbind_assoc in Hk.
  apply kbind_inv in Hk as (x & k5 & H5 & Hk). pose proof (quiet_fsop kend _ _ _ _ H5) as Q5. pose proof (fsop_procs _ _ _ _ H5) as E5.
  assert (exists q5, k_procs k5 !! np = Some q5 /\ fonly (set_tf (tf_set TF_a0 0 (pr_tf p)) (set_sz (pr_sz p) q1)) q5) as (q5 & Hq5 & Ef5).
  { rewrite E5. apply (Forall2_lookup_l _ _ _ _ _ F4). unfold k3. cbn. rewrite Ep2, (alter_at _ _ _ _ _ Hq1). by rewrite decide_True. }
  assert (stays k1 k5) as L5 by (etrans; [exact L2|]; etrans; [exact L3|]; etrans; [exact L4|]; by apply lives_stays).
  destruct (stays_lookup _ _ _ _ L5 Hq5) as (q1' & Hq1' & Epid5 & Ekill5 & Eu5 & Ez5). rewrite Hq1 in Hq1'. injection Hq1' as <-.
  rewrite (kbind_ret _ _ _ _ _ (updp_run _ _ _ _ Hq5)) in Hk.
  assert (np < length (k_procs k5))%nat as Hlt by (by eapply lookup_lt_Some).
  erewrite fork_child_run in Hk by (cbn [set_procs k_procs]; by apply list_lookup_insert_eq). cbn [set_procs k_procs] in Hk.
  rewrite list_insert_insert_eq, set_procs_set in Hk. injection Hk as Hpid Hk'. set (q6 := inherit me p (set_cwd (Some cwd) q5)) in *.
  assert (pr_sz q5 = pr_sz p /\ pr_tf q5 = tf_set TF_a0 0 (pr_tf p)) as [Es5 Et5] by (rewrite Ef5; done).
  assert (stays k1 k') as L16.
  { etrans; [exact L5|]. rewrite <- Hk', <- (list_alter_insert (fun _ => q6) _ _ _ Hq5). apply updp_stays. intros y Hy.
    rewrite Hq5 in Hy. injection Hy as <-. split; [done|]. split; [done|]. cbn. split; split; intros E; (discriminate E || tauto). }
  split; [by eapply procs_ok_stays|]. split; [by rewrite (sy_cur _ _ L16)|]. right. exists np, p0, q6.
  split; [done|]. split; [done|]. split; [rewrite <- Hk'; by apply list_lookup_insert_eq|].
  cbn in Hpid. split; [|by rewrite <- Hpid, Epid5]. split; cbn; try done; [by eexists|by rewrite Ekill5].
Qed.
End ops.
