(* ===== verification/ProcTheorems.v ===== *)
(** * Properties of processes *)
From S2P Require Import Prelude Machine Printf Kalloc Vm Spinlock Blocks Bio Log LogTheorems Fs FsTheorems Kstate Demo Pipe Console File Proc ProcInv.

Section proc_props.
Context (kend trampoline forkret : Z).

Lemma procs_ok_uncur k : procs_ok k -> procs_ok (set_cur None k).
Proof. intros [H1 H2 H3 H4 H5]. split; try done. intros i Hc. discriminate Hc. Qed.

(** ** exit *)

(** What a slot may go through while its process or another one closes files. *)
Definition closing (p p' : proc) : Prop :=
  p' = set_state (pr_state p') (set_ofile (pr_ofile p') (set_cwd (pr_cwd p') p)) /\
  (pr_state p' = pr_state p \/ (pr_state p = SLEEPING /\ pr_state p' = RUNNABLE)).
#[local] Instance closing_pre : PreOrder closing.
Proof.
  split; [intros []; split; [done|by left]|]. intros p q r [Hq Sq] [Hr Sr]. split; [rewrite Hr, Hq; done|].
  destruct Sq as [E1|[E1 E1']], Sr as [E2|[E2 E2']]; [left; congruence|right; split; congruence..|congruence].
Qed.
Definition closes {A} (m : K A) : Prop := forall k a k', m k = Ret (a, k') ->
  Forall2 closing (k_procs k) (k_procs k') /\ k_cur k' = k_cur k /\ k_nextpid k' = k_nextpid k /\ k_initproc k' = k_initproc k.
Lemma closes_bind {A B} (m : K A) (f : A -> K B) : closes m -> (forall a, closes (f a)) -> closes (kbind m f).
Proof.
  intros Hm Hf k b k' (a & k1 & H1 & H2)%kbind_inv. destruct (Hm _ _ _ H1) as (A1 & A2 & A3 & A4), (Hf _ _ _ _ H2) as (B1 & B2 & B3 & B4).
  split; [by etrans|]. split_and!; congruence.
Qed.
Lemma closes_quiet {A} (m : K A) : quiet m -> closes m.
Proof.
  intros H k a k' Hr. destruct (H _ _ _ Hr) as [L1 L2 L3 L4]. split; [|done]. eapply Forall2_impl; [exact L1|].
  intros p q [->|[Hs ->]]; [done|]. split; [by destruct p|by right].
Qed.
Lemma closes_updp i f : (forall p, closing p (f p)) -> closes (updp i f).
Proof.
  intros H k a k' [= _ <-]. split; [|done]. cbn. apply Forall2_same_length_lookup_2; [by rewrite length_alter|]. intros j p q Hp Hq.
  rewrite (alter_at _ _ _ _ _ Hp) in Hq. injection Hq as <-. by case_decide.
Qed.
Lemma closes_files me cnt : forall fd, closes (close_files kend me cnt fd).
Proof.
  induction cnt as [|cnt IH]; intros fd; cbn [close_files]; [apply closes_quiet; auto with quiet|].
  apply closes_bind; [apply closes_quiet; unfold pfield; auto with quiet|]. intros o. apply closes_bind; [|intros _; apply IH].
  destruct o as [f|]; [|apply closes_quiet; auto with quiet]. apply closes_bind; [apply closes_quiet; auto with quiet|]. intros _.
  apply closes_updp. intros []; split; [done|by left].
Qed.

(** The descriptors below [fd] are closed. *)
Definition closed_upto (fd : nat) (p : proc) : Prop := forall j, (j < fd)%nat -> nth j (pr_ofile p) None = None.
Lemma woken_ofile p p' : woken p p' -> pr_ofile p' = pr_ofile p.
Proof. intros [->|[_ ->]]; done. Qed.
Lemma close_files_all me cnt : forall fd k k' p, close_files kend me cnt fd k = Ret (tt, k') -> k_procs k !! me = Some p ->
  closed_upto fd p -> exists p', k_procs k' !! me = Some p' /\ closed_upto (fd + cnt) p' /\ length (pr_ofile p') = length (pr_ofile p).
Proof.
  induction cnt as [|cnt IH]; intros fd k k' p Hr Hp Hc; cbn [close_files] in Hr.
  { injection Hr as <-. exists p. by rewrite Nat.add_0_r. }
  minv Hr. unfold getp in Hk. rewrite Hp in Hk. cbn [default from_option id] in Hk.
  apply kbind_inv in Hk as ([] & k1 & H1 & Hk).
  assert (exists p1, k_procs k1 !! me = Some p1 /\ closed_upto (S fd) p1 /\ length (pr_ofile p1) = length (pr_ofile p)) as (p1 & Hp1 & Hc1 & Hl1).
  { destruct (nth fd (pr_ofile p) None) as [f|] eqn:Ef.
    - apply kbind_inv in H1 as ([] & k2 & H2 & H1). injection H1 as <-.
      pose proof (quiet_fileclose kend f _ _ _ H2) as [L _ _ _]. destruct (Forall2_lookup_l _ _ _ _ _ L Hp) as (p2 & Hp2 & W).
      apply woken_ofile in W. eexists. cbn. rewrite (alter_at _ _ _ _ _ Hp2), decide_True by done. split; [reflexivity|].
      split; [|cbn; by rewrite length_insert, W]. intros j Hj. cbn. rewrite W, nth_lookup.
      destruct (decide (j = fd)) as [->|Hne].
      + destruct (decide (fd < length (pr_ofile p))%nat); [by rewrite list_lookup_insert_eq|].
        rewrite (proj2 (lookup_ge_None _ _)); [done|]. rewrite length_insert. lia.
      + rewrite list_lookup_insert_ne by done. rewrite <- nth_lookup. apply Hc. lia.
    - injection H1 as <-. exists p. split; [done|]. split; [|done]. intros j Hj. destruct (decide (j = fd)) as [->|Hne]; [done|]. apply Hc. lia. }
  destruct (IH (S fd) k1 k' p1 Hk Hp1 Hc1) as (p' & H3 & H4 & H5). exists p'. split; [done|]. split; [|congruence].
  by replace (fd + S cnt)%nat with (S fd + cnt)%nat by lia.
Qed.

Definition reparent_one (me : nat) (init : option nat) (q : proc) : proc :=
  if decide (pr_parent q = Some me) then set_parent init q else q.
Lemma reparent_lookup me init ps j : reparent_procs me init ps !! j = reparent_one me init <$> (ps !! j).
Proof. unfold reparent_procs. by rewrite list_lookup_fmap. Qed.

(** The table after [reparent]. *)
Definition reparented (me : nat) (init : option nat) (ps : list proc) : list proc :=
  let kids := has_child me ps in
  let ps := reparent_procs me init ps in
  match init with Some ip => if kids then wakeup_procs (Some me) (ProcChan ip) ps else ps | None => ps end.
Lemma reparent_run me k : k_cur k = Some me -> reparent me k = Ret (tt, set_procs (reparented me (k_initproc k) (k_procs k)) k).
Proof.
  intros Hc. unfold reparent, reparented, kbind, gets, modify. destruct (k_initproc k) as [ip|]; [|done].
  destruct (has_child me (k_procs k)); [|done]. unfold wakeup, modify. cbn [k_cur set_procs k_procs]. by rewrite Hc, set_procs_set.
Qed.

(** The table after [kexit], from the one it has when its files are closed. *)
Definition exit_table (me : nat) (init parent : option nat) (status : Z) (ps : list proc) : list proc :=
  let ps := reparented me init (alter (set_cwd None) me ps) in
  let ps := match parent with Some pp => wakeup_procs (Some me) (ProcChan pp) ps | None => ps end in
  alter (fun p => set_state ZOMBIE (set_xstate status p)) me ps.

Lemma kexit_run status k k' me p : kexit kend status k = Ret (tt, k') -> k_cur k = Some me -> k_procs k !! me = Some p -> pr_parent p <> Some me ->
  length (pr_ofile p) = 16%nat ->
  exists k1 p1, k' = set_cur None (set_procs (exit_table me (k_initproc k) (pr_parent p) status (k_procs k1)) k1) /\
    Forall2 closing (k_procs k) (k_procs k1) /\ k_cur k1 = k_cur k /\ k_nextpid k1 = k_nextpid k /\ k_initproc k1 = k_initproc k /\
    k_procs k1 !! me = Some p1 /\ (forall fd, nth fd (pr_ofile p1) None = None).
Proof.
  intros Hr Hc Hp Hpp Hlen. unfold kexit in Hr. rewrite (kbind_ret _ _ _ _ _ (myproc_run k me Hc)) in Hr. minv Hr.
  rename s into k. case_decide; [discriminate Hk|].
  apply kbind_inv in Hk as ([] & k0 & H0 & Hk).
  destruct (close_files_all me (Z.to_nat NOFILE) 0 k k0 p H0 Hp) as (p0 & Hp0 & Hall & Hl0); [intros j Hj; lia|].
  destruct (closes_files me _ _ _ _ _ H0) as (F0 & C0 & N0 & I0). minv Hk. unfold getp in Hk0. rewrite Hp0 in Hk0. cbn [default from_option id] in Hk0.
  destruct (pr_cwd p0) as [cwd|]; [|discriminate Hk0].
  assert (quiet (logop kend begin_op;;; fsop kend (fun U => iput cwd);;; logop kend end_op)) as Hq by (repeat (apply quiet_bind; [|intros ?]); auto with quiet).
  apply kbind_inv in Hk0 as ([] & k1 & H1 & Hk). pose proof (closes_quiet _ Hq _ _ _ H1) as (F1 & C1 & N1 & I1).
  pose proof (lv_procs _ _ (Hq _ _ _ H1)) as W1. destruct (Forall2_lookup_l _ _ _ _ _ W1 Hp0) as (p1 & Hp1 & Wp).
  exists k1, p1. split; [|split; [by etrans|split_and!; try congruence; try done]].
  2:{ intros fd. rewrite (woken_ofile _ _ Wp). destruct (decide (fd < 16)%nat) as [Hlt|Hge]; [by apply Hall|]. apply nth_overflow. lia. }
  assert (pr_parent p1 = pr_parent p) as Epar.
  { destruct (Forall2_lookup_l _ _ _ _ _ F0 Hp) as (y & Hy & E & _). rewrite Hp0 in Hy. injection Hy as <-.
    destruct Wp as [->|[_ ->]]; cbn; rewrite E; done. }
  assert (k_cur k1 = Some me) as Hc1 by congruence. minv Hk. set (k2 := set_procs _ k1) in Hk0.
  rewrite (kbind_ret _ _ _ _ _ (reparent_run me k2 Hc1)) in Hk0.
  unfold exit_table. rewrite <- I0, <- I1. change (k_procs k2) with (alter (set_cwd None) me (k_procs k1)) in Hk0.
  change (k_initproc k2) with (k_initproc k1) in Hk0. set (ps1 := alter (set_cwd None) me (k_procs k1)) in *.
  assert (ps1 !! me = Some (set_cwd None p1)) as Hps1 by (unfold ps1; rewrite (alter_at _ _ _ _ _ Hp1); by rewrite decide_True).
  assert (reparented me (k_initproc k1) ps1 !! me = Some (set_cwd None p1)) as Hps2.
  { assert (reparent_procs me (k_initproc k1) ps1 !! me = Some (set_cwd None p1)) as Hps.
    { rewrite reparent_lookup, Hps1. cbn. unfold reparent_one. rewrite decide_False; [done|]. cbn. by rewrite Epar. }
    unfold reparented. destruct (k_initproc k1); [|done]. destruct (has_child me ps1); [by apply wakeup_cur|done]. }
  set (ps2 := reparented me (k_initproc k1) ps1) in *. clearbody ps2.
  minv Hk0. unfold getp in Hk. change (k_procs (set_procs ps2 k2)) with ps2 in Hk.
  rewrite Hps2 in Hk. cbn [default from_option id set_cwd pr_parent] in Hk. rewrite Epar in Hk.
  destruct (pr_parent p); unfold kbind, wakeup, updp, modify, kret in Hk; change (k_cur (set_procs ps2 k2)) with (k_cur k1) in Hk; rewrite ?Hc1 in Hk;
    injection Hk as <-; reflexivity.
Qed.

Lemma wakeup_alike cur ch ps : Forall2 alike ps (wakeup_procs cur ch ps).
Proof. eapply Forall2_impl; [apply wakeup_woken|apply woken_alike]. Qed.
Lemma reparented_alike me init ps : Forall2 alike ps (reparented me init ps).
Proof.
  assert (Forall2 alike ps (reparent_procs me init ps)) as H.
  { apply Forall2_same_length_lookup_2; [by unfold reparent_procs; rewrite length_fmap|]. intros i q q' Hq. rewrite reparent_lookup, Hq.
    intros [= <-]. unfold reparent_one. by case_decide. }
  unfold reparented. destruct init as [ip|]; [|done]. destruct (has_child me ps); [|done]. etrans; [exact H|apply wakeup_alike].
Qed.
Lemma closing_alike p p' : closing p p' -> alike p p'.
Proof.
  intros [E [S|[S1 S2]]]; rewrite E; cbn; (split; [done|split; [done|]]); cbn; [by rewrite S|].
  rewrite S1, S2. split; split; intros X; discriminate X.
Qed.

Lemma kexit_ok status k k' me p : procs_ok k -> k_cur k = Some me -> k_procs k !! me = Some p -> pr_parent p <> Some me ->
  length (pr_ofile p) = 16%nat -> kexit kend status k = Ret (tt, k') -> procs_ok k'.
Proof.
  intros H Hc Hp Hpp Hl Hr. destruct (kexit_run status k k' me p Hr Hc Hp Hpp Hl) as (k1 & p1 & -> & F1 & C1 & N1 & I1 & Hp1 & _).
  assert (exists ps, exit_table me (k_initproc k) (pr_parent p) status (k_procs k1) = alter (fun p => set_state ZOMBIE (set_xstate status p)) me ps /\
    Forall2 alike (k_procs k1) ps) as (ps & -> & Hps).
  { eexists. split; [reflexivity|]. assert (Forall2 alike (k_procs k1) (alter (set_cwd None) me (k_procs k1))) as A1 by (apply Forall2_alter; by intros ?).
    etrans; [exact A1|]. etrans; [apply reparented_alike|]. destruct (pr_parent p); [apply wakeup_alike|done]. }
  assert (stays k (set_procs ps k1)) as L.
  { split; try done. cbn. etrans; [|exact Hps]. eapply Forall2_impl; [exact F1|]. apply closing_alike. }
  pose proof (procs_ok_uncur _ (procs_ok_stays _ _ L H)) as Hok. destruct (pk_cur _ H me Hc) as (x & Hx & U1 & U2).
  rewrite Hp in Hx. injection Hx as <-. destruct (stays_lookup_l _ _ _ _ L Hp) as (p2 & Hp2 & E1 & _ & E2 & _). cbn in Hp2.
  pose proof (pk_pid _ H me p Hp U1) as Hpid.
  apply (procs_ok_updp _ me p2 (fun p => set_state ZOMBIE (set_xstate status p)) Hok Hp2); cbn; try done.
  intros _. rewrite E1, N1. done.
Qed.

(** ** wait and kill *)
Lemma find_zombie_spec me ps : forall i, match find_zombie me i ps with
  | Some j => (i <= j)%nat /\ exists p, ps !! (j - i)%nat = Some p /\ pr_parent p = Some me /\ pr_state p = ZOMBIE
  | None => forall j p, ps !! j = Some p -> pr_parent p = Some me -> pr_state p <> ZOMBIE
  end.
Proof.
  induction ps as [|p ps IH]; intros i; cbn [find_zombie]; [intros j q Hq; by rewrite lookup_nil in Hq|].
  case_decide as E; [split; [lia|]; exists p; rewrite Nat.sub_diag; done|]. specialize (IH (S i)).
  destruct (find_zombie me (S i) ps) as [j|].
  - destruct IH as (Hj & q & Hq & Hs). split; [lia|]. exists q. split; [|done]. by replace (j - i)%nat with (S (j - S i)) by lia.
  - intros [|j] q; cbn; [intros [= <-] H1 H2; by apply E|]. apply IH.
Qed.
Lemma find_zombie_first me ps : forall i, match find_zombie me i ps with
  | Some c => forall j y, (j < c - i)%nat -> ps !! j = Some y -> ~ (pr_parent y = Some me /\ pr_state y = ZOMBIE)
  | None => True
  end.
Proof.
  induction ps as [|p ps IH]; intros i; cbn [find_zombie]; [done|]. case_decide as E; [intros j y Hj; lia|]. specialize (IH (S i)).
  destruct (find_zombie me (S i) ps) as [c|]; [|done]. intros [|j] y Hj; cbn; [by intros [= <-]|]. apply IH. lia.
Qed.
Lemma find_pid_spec pid ps : forall i, match find_pid pid i ps with
  | Some j => (i <= j)%nat /\ exists p, ps !! (j - i)%nat = Some p /\ pr_pid p = pid
  | None => forall j p, ps !! j = Some p -> pr_pid p <> pid
  end.
Proof.
  induction ps as [|p ps IH]; intros i; cbn [find_pid]; [intros j q Hq; by rewrite lookup_nil in Hq|].
  destruct (Z.eqb_spec (pr_pid p) pid) as [E|E]; [split; [lia|]; exists p; rewrite Nat.sub_diag; done|]. specialize (IH (S i)).
  destruct (find_pid pid (S i) ps) as [j|].
  - destruct IH as (Hj & q & Hq & Hs). split; [lia|]. exists q. split; [|done]. by replace (j - i)%nat with (S (j - S i)) by lia.
  - intros [|j] q; cbn; [by intros [= <-]|]. apply IH.
Qed.

Lemma kwait_ok addr k r k' me : procs_ok k -> k_cur k = Some me -> kwait kend addr k = Ret (r, k') -> procs_ok k'.
Proof.
  intros H Hc Hr. unfold kwait in Hr. rewrite (kbind_ret _ _ _ _ _ (myproc_run k me Hc)) in Hr. minv Hr. rename s into k.
  pose proof (find_zombie_spec me (k_procs k) 0) as Hz. destruct (find_zombie me 0 (k_procs k)) as [c|].
  - destruct Hz as (_ & z & Hz & Hpar & Hst). rewrite Nat.sub_0_r in Hz. minv Hk. minv Hk0. match goal with Hc : k_cur ?x = Some me |- _ => rename x into k end.
    apply kbind_inv in Hk as (x & k1 & H1 & Hk).
    assert (stays k k1) as L.
    { destruct (negb (addr =? 0)); [|by injection H1 as <- <-]. unfold copyout_k in H1. apply kbind_inv in H1 as (vm & k2 & H2 & H1).
      rewrite (mine_run _ k me Hc) in H2. injection H2 as <- <-. by apply lives_stays, (quiet_memop kend _ _ _ _ H1). }
    destruct (x <? 0); [injection Hk as <- <-; by eapply procs_ok_stays|].
    apply kbind_inv in Hk as ([] & k2 & H2 & Hk). injection Hk as <- <-.
    apply (freeproc_ok kend c k1 k2); [by eapply procs_ok_stays| |done]. rewrite (sy_cur _ _ L). intros Hcc.
    destruct (pk_cur _ H c Hcc) as (y & Hy & _ & N). rewrite Hz in Hy. injection Hy as <-. done.
  - minv Hk. match goal with Hc : k_cur ?x = Some me |- _ => rename x into k end. destruct (_ || _); [by injection Hk0 as <- <-|]. rewrite (kbind_ret _ _ _ _ _ (sleep_run _ k me Hc)) in Hk0. injection Hk0 as <- <-.
    destruct (pk_cur _ H me Hc) as (p & Hp & N1 & N2). pose proof (pk_pid _ H me p Hp N1).
    apply (procs_ok_updp k me p _ H Hp); cbn; try done.
Qed.
Lemma kkill_ok pid k r k' : procs_ok k -> kkill pid k = Ret (r, k') -> procs_ok k'.
Proof.
  intros H Hr. unfold kkill in Hr. minv Hr. rename s into k. pose proof (find_pid_spec pid (k_procs k) 0) as Hf.
  destruct (find_pid pid 0 (k_procs k)) as [i|]; [|by injection Hk as <- <-]. destruct Hf as (_ & p & Hp & _). rewrite Nat.sub_0_r in Hp.
  minv Hk. injection Hk0 as <- <-. match goal with H : procs_ok ?x |- _ => rename x into k end.
  assert (pr_pid (kill_proc p) = pr_pid p /\ (pr_state (kill_proc p) = pr_state p \/ (pr_state p = SLEEPING /\ pr_state (kill_proc p) = RUNNABLE))) as [E1 E2].
  { unfold kill_proc. cbn. case_decide; [split; [done|by right]|split; [done|by left]]. }
  apply (procs_ok_updp k i p _ H Hp); rewrite ?E1; try done.
  - intros Hu. destruct E2 as [E2|[_ E2]]; [|rewrite E2 in Hu; discriminate Hu]. apply (pk_unused _ H i p Hp). by rewrite <- E2.
  - intros Hu. apply (pk_pid _ H i p Hp). intros Hu'. apply Hu. destruct E2 as [E2|[E2 _]]; [by rewrite E2|rewrite E2 in Hu'; discriminate Hu'].
  - intros Hc. destruct (pk_cur _ H i Hc) as (q & Hq & N1 & N2). rewrite Hp in Hq. injection Hq as <-.
    destruct E2 as [->|[_ ->]]; [done|]. split; intros X; discriminate X.
Qed.

Lemma wake_cases ch p : wake ch p = p \/ wake ch p = set_state RUNNABLE p.
Proof. unfold wake. case_decide; [by right|by left]. Qed.

(** ** The theorems *)
Inductive pcall := CFork | CExit (status : Z) | CWait (addr : Z) | CKill (pid : Z).
Definition proc_call (c : pcall) : K unit :=
  match c with
  | CFork => kfork kend trampoline forkret ;;; kret tt
  | CExit status => kexit kend status
  | CWait addr => kwait kend addr ;;; kret tt
  | CKill pid => kkill pid ;;; kret tt
  end.

(** C28: Process identifiers are unique.  Through fork, exit, wait and kill, live
    and zombie processes have distinct positive identifiers below nextpid, a
    free slot has identifier 0, and the running process is never a free slot
    or a zombie; this holds until nextpid reaches the end of its type. *)
Theorem pids_unique c k k' me p :
  procs_ok k -> k_nextpid k + 1 < 2 ^ 31 -> k_cur k = Some me -> k_procs k !! me = Some p -> pr_parent p <> Some me ->
  length (pr_ofile p) = 16%nat -> proc_call c k = Ret (tt, k') -> procs_ok k'.
Proof.
  intros H Hn Hc Hp Hpar Hl Hr. destruct c as [|status|addr|pid]; cbn [proc_call] in Hr.
  - apply kbind_inv in Hr as (r & k1 & H1 & Hr). injection Hr as <-. by apply (kfork_ok kend trampoline forkret k r k1 me p).
  - by apply (kexit_ok status k k' me p).
  - apply kbind_inv in Hr as (r & k1 & H1 & Hr). injection Hr as <-. by apply (kwait_ok addr k r k1 me).
  - apply kbind_inv in Hr as (r & k1 & H1 & Hr). injection Hr as <-. by apply (kkill_ok pid k r k1).
Qed.

Lemma cstr_short l n : (length (cstr l) <= n)%nat -> take n (cstr l) = cstr l.
Proof. intros. by apply take_ge. Qed.
Lemma cstr_app l m : Forall (fun c => c <> 0) l -> cstr (l ++ 0 :: m) = l.
Proof. induction 1 as [|c l Hc HF IH]; cbn; [done|]. destruct (Z.eqb_spec c 0); [done|]. by rewrite IH. Qed.
Lemma cstr_nonzero l : Forall (fun c => c <> 0) (cstr l).
Proof. induction l as [|c l IH]; cbn; [constructor|]. destruct (Z.eqb_spec c 0); constructor; done. Qed.
Lemma name_cstr dst src n : (length (cstr src) < n)%nat -> cstr (safestrcpy dst src n) = cstr src.
Proof.
  intros H. unfold safestrcpy. rewrite cstr_short by lia. cbn [app]. apply cstr_app, cstr_nonzero.
Qed.


(** Exit wakes the parent and leaves a zombie.  When [kexit] returns to the
    scheduler, the process is a zombie with its status and all its descriptors
    closed, its children belong to init, and a parent that was waiting in wait
    is runnable. *)
Theorem exit_wakes_parent status k k' me p pp :
  kexit kend status k = Ret (tt, k') -> k_cur k = Some me -> k_procs k !! me = Some p -> pr_parent p = Some pp -> pp <> me ->
  length (pr_ofile p) = 16%nat ->
  k_cur k' = None /\
  (exists z, k_procs k' !! me = Some z /\ pr_state z = ZOMBIE /\ pr_xstate z = status /\ pr_pid z = pr_pid p /\ pr_parent z = Some pp /\
     forall fd, nth fd (pr_ofile z) None = None) /\
  (forall q, k_procs k !! pp = Some q -> pr_state q = SLEEPING -> pr_chan q = Some (ProcChan pp) ->
     exists q', k_procs k' !! pp = Some q' /\ pr_state q' = RUNNABLE) /\
  (forall j q, k_procs k !! j = Some q -> j <> me -> pr_parent q = Some me ->
     exists q', k_procs k' !! j = Some q' /\ pr_parent q' = k_initproc k).
Proof.
  intros Hr Hc Hp Hpar Hne Hl. assert (pr_parent p <> Some me) as Hpar' by (rewrite Hpar; congruence).
  destruct (kexit_run status k k' me p Hr Hc Hp Hpar' Hl) as (k1 & p1 & -> & F1 & C1 & N1 & I1 & Hp1 & Hfd).
  split; [done|]. cbn [set_cur set_procs k_procs]. rewrite Hpar. unfold exit_table. set (init := k_initproc k).
  set (ps1 := alter (set_cwd None) me (k_procs k1)).
  (* every slot through the table operations *)
  assert (forall j q, k_procs k1 !! j = Some q -> exists q', reparented me init ps1 !! j = Some q' /\
    (j = me -> pr_parent q <> Some me -> q' = set_cwd None q) /\ pr_chan q' = pr_chan q /\
    pr_parent q' = (if decide (pr_parent q = Some me) then init else pr_parent q) /\
    (pr_state q' = pr_state q \/ pr_state q' = RUNNABLE)) as Hrep.
  { intros j q Hj. set (q1 := if decide (j = me) then set_cwd None q else q).
    assert (ps1 !! j = Some q1) as H1 by (unfold ps1; by rewrite (alter_at _ _ _ _ _ Hj)).
    assert (pr_chan q1 = pr_chan q /\ pr_parent q1 = pr_parent q /\ pr_state q1 = pr_state q) as (X1 & X2 & X3) by (unfold q1; by case_decide).
    assert (reparent_procs me init ps1 !! j = Some (reparent_one me init q1)) as H2 by (by rewrite reparent_lookup, H1).
    set (q2 := reparent_one me init q1) in *.
    assert (pr_chan q2 = pr_chan q /\ pr_parent q2 = (if decide (pr_parent q = Some me) then init else pr_parent q) /\ pr_state q2 = pr_state q) as (Y1 & Y2 & Y3).
    { unfold q2, reparent_one. rewrite X2. case_decide; cbn; rewrite ?X1, ?X2, ?X3; done. }
    assert (j = me -> pr_parent q <> Some me -> q2 = set_cwd None q) as Y4.
    { intros -> N. unfold q2, reparent_one. rewrite decide_False by (by rewrite X2). unfold q1. by rewrite decide_True. }
    assert (forall q', q' = q2 \/ (j <> me /\ q' = set_state RUNNABLE q2) -> (j = me -> pr_parent q <> Some me -> q' = set_cwd None q) /\
      pr_chan q' = pr_chan q /\ pr_parent q' = (if decide (pr_parent q = Some me) then init else pr_parent q) /\
      (pr_state q' = pr_state q \/ pr_state q' = RUNNABLE)) as Hfin.
    { intros q' [->|[N ->]]; [split; [exact Y4|]; split; [exact Y1|]; split; [exact Y2|by left]|].
      split; [done|]. split; [exact Y1|]. split; [exact Y2|by right]. }
    unfold reparented. destruct init as [ip|]; [|exists q2; split; [done|]; apply Hfin; by left].
    destruct (has_child me ps1); [|exists q2; split; [done|]; apply Hfin; by left].
    unfold wakeup_procs. rewrite list_lookup_imap, H2. cbn. eexists. split; [reflexivity|]. apply Hfin.
    destruct (decide (Some me = Some j)) as [E|E]; [left; reflexivity|]. destruct (wake_cases (ProcChan ip) q2) as [->| ->]; [by left|right].
    split; [congruence|reflexivity]. }
  assert (forall j, wakeup_procs (Some me) (ProcChan pp) (reparented me init ps1) !! j =
    (fun q => if decide (Some me = Some j) then q else wake (ProcChan pp) q) <$> (reparented me init ps1 !! j)) as Hw.
  { intros j. unfold wakeup_procs. by rewrite list_lookup_imap. }
  split_and!.
  - destruct (Hrep me p1 Hp1) as (z & Hz & Ez & _). destruct (Forall2_lookup_l _ _ _ _ _ F1 Hp) as (y & Hy & Ey & _). rewrite Hp1 in Hy. injection Hy as <-.
    assert (pr_parent p1 = Some pp /\ pr_pid p1 = pr_pid p) as [P1 P2] by (rewrite Ey; done).
    specialize (Ez eq_refl ltac:(rewrite P1; congruence)). subst z. eexists. rewrite list_lookup_alter_eq, Hw, Hz. cbn. rewrite decide_True by done.
    split; [reflexivity|]. cbn. done.
  - intros q Hq Hs Hch. destruct (Forall2_lookup_l _ _ _ _ _ F1 Hq) as (q1 & Hq1 & Eq & Sq). destruct (Hrep pp q1 Hq1) as (q2 & Hq2 & _ & Hc2 & _ & Hs2).
    eexists. rewrite list_lookup_alter_ne, Hw, Hq2 by done. cbn. rewrite decide_False by congruence. split; [reflexivity|].
    assert (pr_chan q2 = Some (ProcChan pp)) as Ech by (rewrite Hc2, Eq; done).
    assert (pr_state q2 = SLEEPING \/ pr_state q2 = RUNNABLE) as Est by (destruct Sq as [Sq|[_ Sq]], Hs2 as [Hs2|Hs2]; rewrite Hs2, ?Sq, ?Hs; auto).
    unfold wake. destruct Est as [Est|Est]; [by rewrite decide_True|]. rewrite decide_False; [done|]. rewrite Est. by intros [X _].
  - intros j q Hj Hjm Hpj. destruct (Forall2_lookup_l _ _ _ _ _ F1 Hj) as (q1 & Hq1 & Eq & _). destruct (Hrep j q1 Hq1) as (q2 & Hq2 & _ & _ & Hpq & _).
    eexists. rewrite list_lookup_alter_ne, Hw, Hq2 by done. cbn. rewrite decide_False by congruence. split; [reflexivity|].
    assert (pr_parent q1 = Some me) as Epq by (rewrite Eq; done). rewrite decide_True in Hpq by done. unfold wake. by case_decide.
Qed.

Lemma find_pid_unused ps : (forall i p, ps !! i = Some p -> pr_pid p = 0 <-> pr_state p = UNUSED) -> forall i, find_pid 0 i ps = first_unused i ps.
Proof.
  induction ps as [|p ps IH]; intros H i; [done|]. cbn [find_pid first_unused]. pose proof (H 0%nat p eq_refl) as H0.
  destruct (Z.eqb_spec (pr_pid p) 0), (decide (pr_state p = UNUSED)); try done; try tauto. apply IH. intros j q Hq. by apply (H (S j)).
Qed.
Lemma procs_ok_zero k i p : procs_ok k -> k_procs k !! i = Some p -> pr_pid p = 0 <-> pr_state p = UNUSED.
Proof.
  intros H Hp. split; [|by apply (pk_unused _ H i)]. intros E. destruct (decide (pr_state p = UNUSED)) as [|N]; [done|].
  pose proof (pk_pid _ H i p Hp N). lia.
Qed.
Lemma first_unused_alter f i ps : (forall p, pr_state (f p) = UNUSED <-> pr_state p = UNUSED) -> forall n, first_unused n (alter f i ps) = first_unused n ps.
Proof.
  intros Hf. revert i. induction ps as [|p ps IH]; intros [|i] n; cbn; try done.
  - destruct (decide (pr_state (f p) = UNUSED)) as [E|E], (decide (pr_state p = UNUSED)) as [E'|E']; [done|exfalso; by apply E', Hf|exfalso; by apply E, Hf|done].
  - case_decide; [done|]. apply IH.
Qed.

(** Killing process 0 kills the next child.  No process has identifier 0,
    but free slots do, and kill does not look at the state: kill(0) reports
    success and marks a free slot killed, fork takes that slot without
    clearing the mark, and the child is born killed. *)
Theorem kill_zero_dooms_child k r k1 pid k2 me p :
  procs_ok k -> k_nextpid k + 1 < 2 ^ 31 -> k_cur k = Some me -> k_procs k !! me = Some p ->
  kkill 0 k = Ret (r, k1) -> kfork kend trampoline forkret k1 = Ret (pid, k2) -> pid <> -1 ->
  r = 0 /\ exists np q, k_procs k2 !! np = Some q /\ pr_pid q = pid /\ pr_killed q = 1.
Proof.
  intros H Hn Hc Hp Hk Hf Hpid. pose proof (kkill_ok 0 k r k1 H Hk) as H1.
  pose proof (find_pid_unused (k_procs k) (fun i q => procs_ok_zero k i q H) 0) as Efp.
  unfold kkill, kbind at 1, gets in Hk. rewrite Efp in Hk. destruct (first_unused 0 (k_procs k)) as [i|] eqn:Ei.
  2:{ injection Hk as <- <-. exfalso. unfold kfork in Hf. rewrite (kbind_ret _ _ _ _ _ (myproc_run k me Hc)) in Hf.
      unfold allocproc in Hf. unfold kbind at 1 2, gets in Hf. rewrite Ei in Hf. injection Hf as <- _. done. }
  unfold kbind at 1, updp, modify in Hk. injection Hk as <- <-. split; [done|].
  pose proof (first_unused_spec (k_procs k) 0) as Hs. rewrite Ei in Hs. destruct Hs as (_ & u & Hu & Su). rewrite Nat.sub_0_r in Hu.
  assert (i <> me) as Him.
  { intros ->. destruct (pk_cur _ H me Hc) as (y & Hy & N & _). by simplify_eq. }
  destruct (kfork_ok kend trampoline forkret _ pid k2 me p H1 Hn Hc) as (_ & _ & [E|Hch]); try done.
  { cbn. by rewrite list_lookup_alter_ne. }
  destruct Hch as (np & p0 & q & Hfu & Hp0 & Hq & [C1 C2 C3 C4 C5 C6 C7 C8 C9] & _). exists np, q. split; [done|]. split; [done|].
  rewrite C9. cbn in Hfu, Hp0. rewrite first_unused_alter, Ei in Hfu.
  - injection Hfu as <-. rewrite list_lookup_alter_eq, Hu in Hp0. injection Hp0 as <-. unfold kill_proc. cbn. by case_decide.
  - intros x. unfold kill_proc. cbn. case_decide as E; [|done]. cbn. rewrite E. split; intros X; discriminate X.
Qed.

(** Wait collects an exited child.  With a zombie child in the table, wait
    returns the identifier of the first one after freeing its slot; with
    children but no zombie it sleeps, woken by [exit_wakes_parent]'s wakeup;
    with no children, or when killed, it returns -1. *)
Theorem kwait_reaps k me :
  k_cur k = Some me ->
  match find_zombie me 0 (k_procs k) with
  | Some c => exists z, k_procs k !! c = Some z /\ pr_parent z = Some me /\ pr_state z = ZOMBIE /\
      (forall j y, (j < c)%nat -> k_procs k !! j = Some y -> ~ (pr_parent y = Some me /\ pr_state y = ZOMBIE)) /\
      kwait kend 0 k = kbind (freeproc kend c) (fun _ => kret (Done (pr_pid z))) k
  | None => (forall j y, k_procs k !! j = Some y -> pr_parent y = Some me -> pr_state y <> ZOMBIE) /\
      if has_child me (k_procs k) && (pr_killed (getp k me) =? 0)
      then kwait kend 0 k = Ret (Waits (ProcChan me), set_procs (asleep_on me (ProcChan me) (k_procs k)) k)
      else kwait kend 0 k = Ret (Done (-1), k)
  end.
Proof.
  intros Hc. assert (kwait kend 0 k = match find_zombie me 0 (k_procs k) with
    | Some c => kbind (freeproc kend c) (fun _ => kret (Done (pr_pid (getp k c)))) k
    | None => (if negb (has_child me (k_procs k)) || negb (pr_killed (getp k me) =? 0) then kret (Done (-1))
               else sleep (ProcChan me) ;;; kret (Waits (ProcChan me))) k
    end) as Ekw.
  { unfold kwait. rewrite (kbind_ret _ _ _ _ _ (myproc_run k me Hc)). unfold kbind at 1, gets. by destruct (find_zombie me 0 (k_procs k)). }
  pose proof (find_zombie_spec me (k_procs k) 0) as Hz. pose proof (find_zombie_first me (k_procs k) 0) as Hfst.
  destruct (find_zombie me 0 (k_procs k)) as [c|].
  - destruct Hz as (_ & z & Hz & Z1 & Z2). rewrite Nat.sub_0_r in Hz, Hfst. exists z. split; [done|]. split; [done|]. split; [done|].
    split; [exact Hfst|]. rewrite Ekw. unfold getp. by rewrite Hz.
  - split; [done|]. destruct (has_child me (k_procs k)); cbn [andb negb orb] in *; [|exact Ekw].
    destruct (pr_killed (getp k me) =? 0); cbn [negb] in *; [|exact Ekw].
    by rewrite Ekw, (kbind_ret _ _ _ _ _ (sleep_run _ k me Hc)).
Qed.
End proc_props.

(** ** A process with a waiting parent *)
Fixpoint link_pages (m : memory) (ps : list Z) : memory :=
  match ps with
  | [] => m
  | p :: ps => link_pages (st64 m p (hd 0 ps)) ps
  end.
Definition free_pages : list Z := (fun i => 20480 + 4096 * i) <$> seqZ 0 9.
Definition demo_init : proc :=
  mkProc SLEEPING (Some (ProcChan 0)) 0 0 1 None 0 0 0 (replicate 36 0) (replicate 14 0) (replicate 16 None) None (replicate 16 0) 0 (replicate 128 0).
Definition demo_me : proc :=
  mkProc RUNNING None 0 0 2 (Some 0%nat) 4096 4096 0 (replicate 36 0) (replicate 14 0) (replicate 16 None) (Some 0%nat)
    (replicate 16 0) 6 (chars "/a" ++ replicate 126 0).
Definition demo_family : kstate :=
  mkK (mkF (mkLstate (ls_io (f_log demo_fs)) demo_log) demo_sb (f_itable demo_fs) (mkPmem (link_pages user_map free_pages) 20480) 2 0)
    (replicate 100 file0) ∅ (demo_init :: demo_me :: replicate 62 proc0) (Some 1%nat) 3 (Some 0%nat) 0 cons0 (mkUart [] false).

(** The outcome of a run that returns. *)
Definition after {A} (m : K A) (k : kstate) : kstate := match m k with Ret (_, k') => k' | _ => k end.
Definition answer {A} (m : K A) (k : kstate) : option A := match m k with Ret (a, _) => Some a | _ => None end.
Lemma after_run {A} (m : K A) k a : answer m k = Some a -> m k = Ret (a, after m k).
Proof. unfold answer, after. destruct (m k) as [[b k']| | |]; intros H; try discriminate H. by injection H as ->. Qed.

Lemma demo_lookup i p : k_procs demo_family !! i = Some p -> (i = 0%nat /\ p = demo_init) \/ (i = 1%nat /\ p = demo_me) \/ ((2 <= i)%nat /\ p = proc0).
Proof.
  destruct i as [|[|i]]; cbn [demo_family k_procs lookup list_lookup]; [intros [= <-]; by left|intros [= <-]; right; by left|].
  intros [-> _]%lookup_replicate. right; right. split; [lia|done].
Qed.
Lemma demo_procs_ok : procs_ok demo_family.
Proof.
  split; [| | |cbn; lia|intros i [= <-]; exists demo_me; split; [done|split; discriminate]].
  - intros i p [[-> ->]|[[-> ->]|[_ ->]]]%demo_lookup E; try discriminate E. done.
  - intros i p [[-> ->]|[[-> ->]|[_ ->]]]%demo_lookup E; [cbn; lia|cbn; lia|done].
  - intros i j p q [[-> ->]|[[-> ->]|[_ ->]]]%demo_lookup [[-> ->]|[[-> ->]|[_ ->]]]%demo_lookup E N; try done; cbn in E; lia.
Qed.

Lemma demo_fork_answer : answer (kfork 4096 8192 0) demo_family = Some 3.
Proof. vm_compute. reflexivity. Qed.
Lemma demo_exit_answer : answer (kexit 4096 7) demo_family = Some tt.
Proof. vm_compute. reflexivity. Qed.

Lemma pids_unique_witness : procs_ok (after (proc_call 4096 8192 0 CFork) demo_family).
Proof.
  apply (pids_unique 4096 8192 0 CFork demo_family _ 1 demo_me demo_procs_ok); [cbn; lia|reflexivity|reflexivity|discriminate|reflexivity|].
  apply after_run. cbn [proc_call]. unfold answer, kbind. rewrite (after_run _ _ _ demo_fork_answer). reflexivity.
Defined.


Lemma exit_wakes_parent_witness :
  exists z q, k_procs (after (kexit 4096 7) demo_family) !! 1%nat = Some z /\ pr_state z = ZOMBIE /\ pr_xstate z = 7 /\
    k_procs (after (kexit 4096 7) demo_family) !! 0%nat = Some q /\ pr_state q = RUNNABLE.
Proof.
  destruct (exit_wakes_parent 4096 7 demo_family _ 1 demo_me 0 (after_run _ _ _ demo_exit_answer) eq_refl eq_refl eq_refl
    ltac:(discriminate) eq_refl) as (_ & (z & Z1 & Z2 & Z3 & _) & H & _).
  destruct (H demo_init eq_refl eq_refl eq_refl) as (q & Q1 & Q2).
  exists z, q. split; [exact Z1|]. split; [exact Z2|]. split; [exact Z3|]. split; [exact Q1|exact Q2].
Defined.

Lemma demo_kill_fork : answer (kkill 0) demo_family = Some 0 /\ answer (kfork 4096 8192 0) (after (kkill 0) demo_family) = Some 3.
Proof. split; vm_compute; reflexivity. Qed.
Lemma kill_zero_dooms_child_witness :
  exists np q, k_procs (after (kfork 4096 8192 0) (after (kkill 0) demo_family)) !! np = Some q /\ pr_pid q = 3 /\ pr_killed q = 1.
Proof.
  destruct demo_kill_fork as [A1 A2].
  destruct (kill_zero_dooms_child 4096 8192 0 demo_family 0 _ 3 _ 1 demo_me demo_procs_ok ltac:(cbn; lia) eq_refl eq_refl
    (after_run _ _ _ A1) (after_run _ _ _ A2) ltac:(lia)) as (_ & np & q & H).
  exists np, q. exact H.
Defined.

Definition demo_wait : kstate := set_cur (Some 0%nat) demo_family.
Lemma kwait_reaps_witness : kwait 4096 0 demo_wait = Ret (Waits (ProcChan 0), set_procs (asleep_on 0 (ProcChan 0) (k_procs demo_wait)) demo_wait).
Proof. exact (proj2 (kwait_reaps 4096 demo_wait 0 eq_refl)). Defined.
