(* ===== verification/Sysargs.v ===== *)
(** * kernel/syscall.c: system call arguments

    Arguments come from the registers saved in the trapframe; strings and
    pointers are fetched from user memory with the checks of vm.c. *)
From S2P Require Import Prelude Machine Kalloc Vm Fs Kstate Console File.

Section args.
Context (kend : Z).

Definition argraw (n : nat) : K Z :=
  match n with
  | 0%nat => mine (fun p => tf_get TF_a0 (pr_tf p))
  | 1%nat => mine (fun p => tf_get TF_a1 (pr_tf p))
  | 2%nat => mine (fun p => tf_get TF_a2 (pr_tf p))
  | 3%nat => mine (fun p => tf_get TF_a3 (pr_tf p))
  | 4%nat => mine (fun p => tf_get TF_a4 (pr_tf p))
  | 5%nat => mine (fun p => tf_get TF_a5 (pr_tf p))
  | _ => panic "argraw"
  end.
Definition argint (n : nat) : K Z := x <~ argraw n ;; kret (i32 x).
Definition argaddr (n : nat) : K Z := argraw n.

(** A little-endian word. *)
Fixpoint from_le (l : list Z) : Z := match l with [] => 0 | b :: l => b + 256 * from_le l end.

(** The word at [addr], or [None] for the result -1. *)
Definition fetchaddr (addr : Z) : K (option Z) :=
  p <~ mine id ;;
  if (pr_sz p <=? addr) || (pr_sz p <? u64 (addr + 8)) then kret None
  else
    r <~ copyin_k kend (pr_pagetable p) addr 8 ;;
    if negb (r.1 =? 0) then kret None else kret (Some (from_le r.2)).

(** The string at [addr] without its NUL, or [None]; its length is the
    result of the C function. *)
Definition fetchstr (addr max : Z) : K (option (list Z)) :=
  pt <~ mine pr_pagetable ;;
  r <~ memop kend (copyinstr pt addr max) ;;
  if r.1 <? 0 then kret None else kret (Some (cstr r.2)).
Definition argstr (n : nat) (max : Z) : K (option (list Z)) :=
  addr <~ argaddr n ;; fetchstr addr max.

(** [argfd] of sysfile.c: the descriptor and its open file. *)
Definition argfd (n : nat) : K (option (nat * nat)) :=
  fd <~ argint n ;;
  if (fd <? 0) || (NOFILE <=? fd) then kret None
  else
    o <~ mine (fun p => nth (Z.to_nat fd) (pr_ofile p) None) ;;
    kret (match o with Some f => Some (Z.to_nat fd, f) | None => None end).

Fixpoint first_none (i : nat) (l : list (option nat)) : option nat :=
  match l with
  | [] => None
  | None :: _ => Some i
  | Some _ :: l => first_none (S i) l
  end.
(** [fdalloc] of sysfile.c. *)
Definition fdalloc (f : nat) : K (option nat) :=
  me <~ myproc ;;
  o <~ pfield me pr_ofile ;;
  match first_none 0 o with
  | Some fd => updp me (fun p => set_ofile (<[fd := Some f]> (pr_ofile p)) p) ;;; kret (Some fd)
  | None => kret None
  end.
End args.
