(* ===== verification/Exec.v ===== *)
(** * kernel/exec.c and kernel/elf.h: running a program

    A new address space is built from an ELF file and replaces the caller's
    only when nothing can fail any more. *)
From S2P Require Import Prelude Machine Kalloc Vm Blocks Bio Log Fs Kstate Console File Proc Sysargs.

Definition ELF_MAGIC : Z := 0x464C457F.
Definition ELF_PROG_LOAD : Z := 1.
(** [struct elfhdr] and [struct proghdr]: their sizes and the fields used. *)
Definition ELFHDR_SIZE : Z := 64.
Definition PROGHDR_SIZE : Z := 56.
Record elfhdr := mkElf { e_magic : Z; e_entry : Z; e_phoff : Z; e_phnum : Z }.
Record proghdr := mkPh { ph_type : Z; ph_flags : Z; ph_off : Z; ph_vaddr : Z; ph_filesz : Z; ph_memsz : Z }.
Definition word (n o : nat) (bs : list Z) : Z := from_le (take n (drop o bs)).
Definition get_elfhdr (bs : list Z) : elfhdr := mkElf (word 4 0 bs) (word 8 24 bs) (word 8 32 bs) (word 2 56 bs).
Definition get_proghdr (bs : list Z) : proghdr :=
  mkPh (word 4 0 bs) (word 4 4 bs) (word 8 8 bs) (word 8 16 bs) (word 8 32 bs) (word 8 40 bs).

Definition flags2perm (flags : Z) : Z :=
  let perm := if negb (Z.land flags 1 =? 0) then PTE_X else 0 in
  if negb (Z.land flags 2 =? 0) then Z.lor perm PTE_W else perm.

Section exec.
Context (kend trampoline : Z).

(** The bytes that [readi] delivers go to physical memory at [pa]. *)
Fixpoint loadseg_loop (fuel : nat) (pagetable va : Z) (ip : nat) (offset sz i : Z) : K Z :=
  match fuel with
  | O => nofuel
  | S fuel =>
      if i <? sz then
        pa <~ memop kend (walkaddr pagetable (u64 (va + i))) ;;
        if pa =? 0 then panic "loadseg: address should exist"
        else
          let n := if sz - i <? PGSIZE then sz - i else PGSIZE in
          r <~ fsop kend (fun U => readi ip false pa (u32 (offset + i)) n) ;;
          memop kend (set_pm (fun m => put_bytes r.2 m pa)) ;;;
          if negb (r.1 =? n) then kret (-1)
          else loadseg_loop fuel pagetable va ip offset sz (u32 (i + PGSIZE))
      else kret 0
  end.
Definition loadseg (pagetable va : Z) (ip : nat) (offset sz : Z) : K Z :=
  loadseg_loop (Z.to_nat (sz / PGSIZE) + 2) pagetable va ip offset sz 0.

(** The program headers: whether all were loaded, and [sz] at that point. *)
Fixpoint load_segments (cnt : nat) (pagetable : Z) (ip : nat) (off sz : Z) : K (bool * Z) :=
  match cnt with
  | O => kret (true, sz)
  | S cnt =>
      r <~ fsop kend (fun U => readi ip false 0 (u32 off) PROGHDR_SIZE) ;;
      if negb (r.1 =? PROGHDR_SIZE) then kret (false, sz)
      else
        let ph := get_proghdr r.2 in
        if negb (ph_type ph =? ELF_PROG_LOAD) then load_segments cnt pagetable ip (i32 (off + PROGHDR_SIZE)) sz
        else if ph_memsz ph <? ph_filesz ph then kret (false, sz)
        else if u64 (ph_vaddr ph + ph_memsz ph) <? ph_vaddr ph then kret (false, sz)
        else if negb (ph_vaddr ph mod PGSIZE =? 0) then kret (false, sz)
        else
          sz1 <~ memop kend (uvmalloc kend pagetable sz (u64 (ph_vaddr ph + ph_memsz ph)) (flags2perm (ph_flags ph))) ;;
          if sz1 =? 0 then kret (false, sz)
          else
            r <~ loadseg pagetable (ph_vaddr ph) ip (u32 (ph_off ph)) (u32 (ph_filesz ph)) ;;
            if r <? 0 then kret (false, sz1)
            else load_segments cnt pagetable ip (i32 (off + PROGHDR_SIZE)) sz1
  end.

(** The stack pointer below [n] more bytes, 16-byte aligned. *)
Definition push_sp (sp n : Z) : Z := let sp := u64 (sp - n) in sp - sp mod 16.

(** The argument strings: [ustack] and the stack pointer below them. *)
Fixpoint push_args (pagetable stackbase : Z) (argv : list (list Z)) (sp : Z) (ustack : list Z) : K (option (list Z * Z)) :=
  match argv with
  | [] => kret (Some (ustack, sp))
  | arg :: argv =>
      if MAXARG <=? Z.of_nat (length ustack) then kret None
      else
        let sp := push_sp sp (Z.of_nat (length arg) + 1) in
        if sp <? stackbase then kret None
        else
          r <~ copyout_k kend pagetable sp (arg ++ [0]) ;;
          if r <? 0 then kret None
          else push_args pagetable stackbase argv sp (ustack ++ [sp])
  end.
(** The stack: the strings and, below them, the array of pointers with its 0. *)
Definition push_stack (pagetable stackbase : Z) (argv : list (list Z)) (sp : Z) : K (option Z) :=
  a <~ push_args pagetable stackbase argv sp [] ;;
  match a with
  | None => kret None
  | Some (ustack, sp) =>
      let sp := push_sp sp (8 * Z.of_nat (length ustack + 1)) in
      if sp <? stackbase then kret None
      else
        r <~ copyout_k kend pagetable sp (flat_map (le 8) (ustack ++ [0])) ;;
        if r <? 0 then kret None else kret (Some sp)
  end.

(** What follows the last slash. *)
Fixpoint last_elem (last path : list Z) : list Z :=
  match path with
  | [] => last
  | c :: path => last_elem (if c =? 47 then path else last) path
  end.

(** The label [bad]; [ip] is [None] once it has been put. *)
Definition exec_bad (pagetable sz : Z) (ip : option nat) : K Z :=
  (if negb (pagetable =? 0) then memop kend (proc_freepagetable kend pagetable sz) else kret tt) ;;;
  (match ip with
   | Some ip => fsop kend (fun U => iunlockput ip) ;;; logop kend end_op
   | None => kret tt
   end) ;;;
  kret (-1).

(** From the commit on. *)
Definition exec_commit (me : nat) (path : list Z) (pagetable sz sp entry argc oldsz : Z) : K Z :=
  updp me (fun p => set_tf (tf_set TF_a1 sp (pr_tf p)) p) ;;;
  updp me (fun p => set_name (safestrcpy (pr_name p) (last_elem path path) 16) p) ;;;
  oldpagetable <~ pfield me pr_pagetable ;;
  updp me (fun p => set_sz sz (set_pagetable pagetable p)) ;;;
  updp me (fun p => set_tf (tf_set TF_sp sp (tf_set TF_epc entry (pr_tf p))) p) ;;;
  memop kend (proc_freepagetable kend oldpagetable oldsz) ;;;
  kret (i32 argc).
(** The user stack, then the commit. *)
Definition exec_stack (me : nat) (path : list Z) (argv : list (list Z)) (pagetable sz entry : Z) : K Z :=
  oldsz <~ pfield me pr_sz ;;
  let sz := PGROUNDUP sz in
  sz1 <~ memop kend (uvmalloc kend pagetable sz (u64 (sz + (USERSTACK + 1) * PGSIZE)) PTE_W) ;;
  if sz1 =? 0 then exec_bad pagetable sz None
  else
    memop kend (uvmclear pagetable (u64 (sz1 - (USERSTACK + 1) * PGSIZE))) ;;;
    r <~ push_stack pagetable (u64 (sz1 - USERSTACK * PGSIZE)) argv sz1 ;;
    match r with
    | None => exec_bad pagetable sz1 None
    | Some sp => exec_commit me path pagetable sz1 sp entry (Z.of_nat (length argv)) oldsz
    end.
Definition kexec (path : list Z) (argv : list (list Z)) : K Z :=
  me <~ myproc ;;
  logop kend begin_op ;;;
  ip <~ fsop kend (fun U => namei path) ;;
  match ip with
  | None => logop kend end_op ;;; kret (-1)
  | Some ip =>
      fsop kend (fun U => ilock ip) ;;;
      r <~ fsop kend (fun U => readi ip false 0 0 ELFHDR_SIZE) ;;
      let elf := get_elfhdr r.2 in
      if negb (r.1 =? ELFHDR_SIZE) then exec_bad 0 0 (Some ip)
      else if negb (e_magic elf =? ELF_MAGIC) then exec_bad 0 0 (Some ip)
      else
        tf <~ pfield me pr_trapframe ;;
        pagetable <~ memop kend (proc_pagetable kend trampoline tf) ;;
        if pagetable =? 0 then exec_bad 0 0 (Some ip)
        else
          r <~ load_segments (Z.to_nat (e_phnum elf)) pagetable ip (i32 (e_phoff elf)) 0 ;;
          if negb r.1 then exec_bad pagetable r.2 (Some ip)
          else
            fsop kend (fun U => iunlockput ip) ;;;
            logop kend end_op ;;;
            exec_stack me path argv pagetable r.2 (e_entry elf)
  end.
End exec.
