(* ===== verification/Sysfile.v ===== *)
(** * kernel/sysfile.c: file-system system calls

    A handler's result is [Done r] with the value for a0, or [Waits] when the
    process sleeps inside the call.  The name buffers start zeroed: the
    functions only read the bytes that [skipelem] stored. *)
From S2P Require Import Prelude Machine Kalloc Vm Blocks Bio Log Fs Kstate Pipe Console File Proc Sysargs Exec.

Definition O_RDONLY : Z := 0.
Definition O_WRONLY : Z := 1.
Definition O_RDWR : Z := 2.
Definition O_CREATE : Z := 0x200.
Definition O_TRUNC : Z := 0x400.
Definition has (flags bit : Z) : bool := negb (Z.land flags bit =? 0).
Definition name0 : list Z := replicate (Z.to_nat DIRSIZ) 0.

Section sysfile.
Context (kend trampoline : Z).

Definition sys_dup : K io :=
  a <~ argfd 0 ;;
  match a with
  | None => kret (Done (-1))
  | Some (_, f) =>
      fd <~ fdalloc f ;;
      match fd with
      | None => kret (Done (-1))
      | Some fd => filedup f ;;; kret (Done (Z.of_nat fd))
      end
  end.

Definition sys_read : K io :=
  p <~ argaddr 1 ;;
  n <~ argint 2 ;;
  a <~ argfd 0 ;;
  match a with
  | None => kret (Done (-1))
  | Some (_, f) => fileread kend f p n
  end.

Definition sys_write : K io :=
  p <~ argaddr 1 ;;
  n <~ argint 2 ;;
  a <~ argfd 0 ;;
  match a with
  | None => kret (Done (-1))
  | Some (_, f) => filewrite kend f p n
  end.

Definition sys_close : K io :=
  a <~ argfd 0 ;;
  match a with
  | None => kret (Done (-1))
  | Some (fd, f) =>
      me <~ myproc ;;
      updp me (fun p => set_ofile (<[fd := None]> (pr_ofile p)) p) ;;;
      fileclose kend f ;;;
      kret (Done 0)
  end.

(** [pad]: the bytes of [struct stat] that nothing sets. *)
Definition sys_fstat (pad : list Z) : K io :=
  st <~ argaddr 1 ;;
  a <~ argfd 0 ;;
  match a with
  | None => kret (Done (-1))
  | Some (_, f) => r <~ filestat kend pad f st ;; kret (Done r)
  end.

(** Inode steps of the calls below. *)
Definition ffs {A} (m : UserMem pmem -> M (fstate bstate pmem) A) : K A := fsop kend m.
Definition add_nlink (ip : nat) (d : Z) : K unit := ffs (fun U => updi ip (fun i => set_nlink (i16 (i_nlink i + d)) i)).
Definition fail_op : K io := logop kend end_op ;;; kret (Done (-1)).

(** The label [bad] of [sys_link]. *)
Definition link_bad (ip : nat) : K io :=
  ffs (fun U => ilock ip) ;;;
  add_nlink ip (-1) ;;;
  ffs (fun U => iupdate ip) ;;;
  ffs (fun U => iunlockput ip) ;;;
  fail_op.
Definition link_new (new : list Z) (ip : nat) : K io :=
  d <~ ffs (fun U => nameiparent new name0) ;;
  match d.1 with
  | None => link_bad ip
  | Some dp =>
      ffs (fun U => ilock dp) ;;;
      dev <~ ffs (fun U => ifield dp i_dev) ;;
      i <~ ffs (fun U => ifield ip id) ;;
      r <~ (if negb (dev =? i_dev i) then kret (-1) else ffs (fun U => dirlink dp d.2 (i_inum i))) ;;
      if r <? 0 then ffs (fun U => iunlockput dp) ;;; link_bad ip
      else
        ffs (fun U => iunlockput dp) ;;;
        ffs (fun U => iput ip) ;;;
        logop kend end_op ;;;
        kret (Done 0)
  end.
Definition sys_link : K io :=
  old <~ argstr kend 0 MAXPATH ;;
  match old with
  | None => kret (Done (-1))
  | Some old =>
      new <~ argstr kend 1 MAXPATH ;;
      match new with
      | None => kret (Done (-1))
      | Some new =>
          logop kend begin_op ;;;
          ip <~ ffs (fun U => namei old) ;;
          match ip with
          | None => fail_op
          | Some ip =>
              ffs (fun U => ilock ip) ;;;
              t <~ ffs (fun U => ifield ip i_type) ;;
              if t =? T_DIR then ffs (fun U => iunlockput ip) ;;; fail_op
              else
                add_nlink ip 1 ;;;
                ffs (fun U => iupdate ip) ;;;
                ffs (fun U => iunlock ip) ;;;
                link_new new ip
          end
      end
  end.

Fixpoint isdirempty_loop (fuel dp : nat) (off : Z) : K bool :=
  match fuel with
  | O => nofuel
  | S fuel =>
      size <~ ffs (fun U => ifield dp i_size) ;;
      if u32 off <? size then
        r <~ ffs (fun U => readi dp false 0 (u32 off) DIRENT_SIZE) ;;
        if negb (r.1 =? DIRENT_SIZE) then panic "isdirempty: readi"
        else if negb (de_inum r.2 =? 0) then kret false
        else isdirempty_loop fuel dp (i32 (off + DIRENT_SIZE))
      else kret true
  end.
Definition isdirempty (dp : nat) : K bool :=
  size <~ ffs (fun U => ifield dp i_size) ;;
  isdirempty_loop (Z.to_nat (size / DIRENT_SIZE) + 2) dp (2 * DIRENT_SIZE).

Definition unlink_bad (dp : nat) : K io := ffs (fun U => iunlockput dp) ;;; fail_op.
(** Once the entry at [off] of [dp] is known to name [ip], which is locked. *)
Definition unlink_entry (dp ip : nat) (off : Z) : K io :=
  i <~ ffs (fun U => ifield ip id) ;;
  if i_nlink i <? 1 then panic "unlink: nlink < 1"
  else
    empty <~ (if i_type i =? T_DIR then isdirempty ip else kret true) ;;
    if negb empty then ffs (fun U => iunlockput ip) ;;; unlink_bad dp
    else
      r <~ ffs (fun U => writei dp false 0 (replicate 16 0) off DIRENT_SIZE) ;;
      if negb (r =? DIRENT_SIZE) then panic "unlink: writei"
      else
        (if i_type i =? T_DIR then add_nlink dp (-1) ;;; ffs (fun U => iupdate dp) else kret tt) ;;;
        ffs (fun U => iunlockput dp) ;;;
        add_nlink ip (-1) ;;;
        ffs (fun U => iupdate ip) ;;;
        ffs (fun U => iunlockput ip) ;;;
        logop kend end_op ;;;
        kret (Done 0).
Definition sys_unlink : K io :=
  path <~ argstr kend 0 MAXPATH ;;
  match path with
  | None => kret (Done (-1))
  | Some path =>
      logop kend begin_op ;;;
      d <~ ffs (fun U => nameiparent path name0) ;;
      match d.1 with
      | None => fail_op
      | Some dp =>
          ffs (fun U => ilock dp) ;;;
          if (namecmp d.2 [46] =? 0) || (namecmp d.2 [46; 46] =? 0) then unlink_bad dp
          else
            e <~ ffs (fun U => dirlookup dp d.2) ;;
            match e with
            | None => unlink_bad dp
            | Some (ip, off) => ffs (fun U => ilock ip) ;;; unlink_entry dp ip off
            end
      end
  end.

(** The label [fail] of [create]. *)
Definition create_fail (ip dp : nat) : K (option nat) :=
  ffs (fun U => updi ip (set_nlink 0)) ;;;
  ffs (fun U => iupdate ip) ;;;
  ffs (fun U => iunlockput ip) ;;;
  ffs (fun U => iunlockput dp) ;;;
  kret None.
(** A new inode [ip] is entered into the locked directory [dp]. *)
Definition create_new (dp ip : nat) (name : list Z) (type major minor : Z) : K (option nat) :=
  ffs (fun U => ilock ip) ;;;
  ffs (fun U => updi ip (fun i => set_nlink 1 (set_minor minor (set_major major i)))) ;;;
  ffs (fun U => iupdate ip) ;;;
  inum <~ ffs (fun U => ifield ip i_inum) ;;
  parent <~ ffs (fun U => ifield dp i_inum) ;;
  r <~ (if type =? T_DIR then
          r <~ ffs (fun U => dirlink ip [46] inum) ;;
          if r <? 0 then kret r else ffs (fun U => dirlink ip [46; 46] parent)
        else kret 0) ;;
  if r <? 0 then create_fail ip dp
  else
    r <~ ffs (fun U => dirlink dp name inum) ;;
    if r <? 0 then create_fail ip dp
    else
      (if type =? T_DIR then add_nlink dp 1 ;;; ffs (fun U => iupdate dp) else kret tt) ;;;
      ffs (fun U => iunlockput dp) ;;;
      kret (Some ip).
Definition create (path : list Z) (type major minor : Z) : K (option nat) :=
  d <~ ffs (fun U => nameiparent path name0) ;;
  match d.1 with
  | None => kret None
  | Some dp =>
      ffs (fun U => ilock dp) ;;;
      e <~ ffs (fun U => dirlookup dp d.2) ;;
      match e with
      | Some (ip, _) =>
          ffs (fun U => iunlockput dp) ;;;
          ffs (fun U => ilock ip) ;;;
          t <~ ffs (fun U => ifield ip i_type) ;;
          if (type =? T_FILE) && ((t =? T_FILE) || (t =? T_DEVICE)) then kret (Some ip)
          else ffs (fun U => iunlockput ip) ;;; kret None
      | None =>
          dev <~ ffs (fun U => ifield dp i_dev) ;;
          ip <~ ffs (fun U => ialloc dev type) ;;
          match ip with
          | None => ffs (fun U => iunlockput dp) ;;; kret None
          | Some ip => create_new dp ip d.2 type major minor
          end
      end
  end.

(** The locked inode that [sys_open] opens. *)
Definition open_inode (path : list Z) (omode : Z) : K (option nat) :=
  if has omode O_CREATE then create path T_FILE 0 0
  else
    ip <~ ffs (fun U => namei path) ;;
    match ip with
    | None => kret None
    | Some ip =>
        ffs (fun U => ilock ip) ;;;
        t <~ ffs (fun U => ifield ip i_type) ;;
        if (t =? T_DIR) && negb (omode =? O_RDONLY) then ffs (fun U => iunlockput ip) ;;; kret None
        else kret (Some ip)
    end.
(** [struct file] [f] is filled in and the call ends. *)
Definition open_file (ip f fd : nat) (i : inode) (omode : Z) : K io :=
  updf f (fun x =>
    mkFile (if i_type i =? T_DEVICE then FD_DEVICE else FD_INODE) (fl_ref x)
      (negb (has omode O_WRONLY)) (has omode O_WRONLY || has omode O_RDWR)
      (fl_pipe x) ip (if i_type i =? T_DEVICE then fl_off x else 0)
      (if i_type i =? T_DEVICE then i_major i else fl_major x)) ;;;
  (if has omode O_TRUNC && (i_type i =? T_FILE) then ffs (fun U => itrunc ip) else kret tt) ;;;
  ffs (fun U => iunlock ip) ;;;
  logop kend end_op ;;;
  kret (Done (Z.of_nat fd)).
Definition open_bad (ip : nat) : K io := ffs (fun U => iunlockput ip) ;;; fail_op.
Definition sys_open : K io :=
  omode <~ argint 1 ;;
  path <~ argstr kend 0 MAXPATH ;;
  match path with
  | None => kret (Done (-1))
  | Some path =>
      logop kend begin_op ;;;
      ip <~ open_inode path omode ;;
      match ip with
      | None => fail_op
      | Some ip =>
          i <~ ffs (fun U => ifield ip id) ;;
          if (i_type i =? T_DEVICE) && ((i_major i <? 0) || (NDEV <=? i_major i)) then open_bad ip
          else
            f <~ filealloc ;;
            match f with
            | None => open_bad ip
            | Some f =>
                fd <~ fdalloc f ;;
                match fd with
                | None => fileclose kend f ;;; open_bad ip
                | Some fd => open_file ip f fd i omode
                end
            end
      end
  end.

(** [sys_mkdir] and [sys_mknod] after their arguments. *)
Definition make (path : option (list Z)) (type major minor : Z) : K io :=
  ip <~ (match path with Some path => create path type major minor | None => kret None end) ;;
  match ip with
  | None => fail_op
  | Some ip => ffs (fun U => iunlockput ip) ;;; logop kend end_op ;;; kret (Done 0)
  end.
Definition sys_mkdir : K io :=
  logop kend begin_op ;;;
  path <~ argstr kend 0 MAXPATH ;;
  make path T_DIR 0 0.
Definition sys_mknod : K io :=
  logop kend begin_op ;;;
  major <~ argint 1 ;;
  minor <~ argint 2 ;;
  path <~ argstr kend 0 MAXPATH ;;
  make path T_DEVICE (i16 major) (i16 minor).

Definition sys_chdir : K io :=
  me <~ myproc ;;
  logop kend begin_op ;;;
  path <~ argstr kend 0 MAXPATH ;;
  ip <~ (match path with Some path => ffs (fun U => namei path) | None => kret None end) ;;
  match ip with
  | None => fail_op
  | Some ip =>
      ffs (fun U => ilock ip) ;;;
      t <~ ffs (fun U => ifield ip i_type) ;;
      if negb (t =? T_DIR) then ffs (fun U => iunlockput ip) ;;; fail_op
      else
        ffs (fun U => iunlock ip) ;;;
        cwd <~ pfield me pr_cwd ;;
        (match cwd with Some cwd => ffs (fun U => iput cwd) | None => panic "iput: NULL" end) ;;;
        logop kend end_op ;;;
        updp me (set_cwd (Some ip)) ;;;
        kret (Done 0)
  end.

(** The argument strings of exec with their pages: [argv] so far, and whether
    the 0 that ends the array was reached. *)
Fixpoint exec_argv (fuel : nat) (uargv i : Z) (argv : list (Z * list Z)) : K (bool * list (Z * list Z)) :=
  match fuel with
  | O => kret (false, argv)
  | S fuel =>
      uarg <~ fetchaddr kend (u64 (uargv + 8 * i)) ;;
      match uarg with
      | None => kret (false, argv)
      | Some uarg =>
          if uarg =? 0 then kret (true, argv)
          else
            pg <~ memop kend kalloc ;;
            if pg =? 0 then kret (false, argv)
            else
              s <~ fetchstr kend uarg PGSIZE ;;
              match s with
              | None => kret (false, argv ++ [(pg, [])])
              | Some s =>
                  memop kend (set_pm (fun m => put_bytes (s ++ [0]) m pg)) ;;;
                  exec_argv fuel uargv (i + 1) (argv ++ [(pg, s)])
              end
      end
  end.
Fixpoint free_argv (argv : list (Z * list Z)) : K unit :=
  match argv with
  | [] => kret tt
  | (pg, _) :: argv => memop kend (kfree kend pg) ;;; free_argv argv
  end.
Definition sys_exec : K io :=
  uargv <~ argaddr 1 ;;
  path <~ argstr kend 0 MAXPATH ;;
  match path with
  | None => kret (Done (-1))
  | Some path =>
      a <~ exec_argv (Z.to_nat MAXARG) uargv 0 [] ;;
      if negb a.1 then free_argv a.2 ;;; kret (Done (-1))
      else
        ret <~ kexec kend trampoline path a.2.*2 ;;
        free_argv a.2 ;;;
        kret (Done ret)
  end.

(** Both ends are closed again and their descriptors cleared. *)
Definition pipe_bad (me rf wf : nat) (fds : list nat) : K io :=
  updp me (fun p => set_ofile (foldr (fun fd l => <[fd := None]> l) (pr_ofile p) fds) p) ;;;
  fileclose kend rf ;;;
  fileclose kend wf ;;;
  kret (Done (-1)).
Definition sys_pipe : K io :=
  me <~ myproc ;;
  fdarray <~ argaddr 0 ;;
  fs <~ pipealloc kend ;;
  match fs with
  | None => kret (Done (-1))
  | Some (rf, wf) =>
      fd0 <~ fdalloc rf ;;
      match fd0 with
      | None => pipe_bad me rf wf []
      | Some fd0 =>
          fd1 <~ fdalloc wf ;;
          match fd1 with
          | None => pipe_bad me rf wf [fd0]
          | Some fd1 =>
              pt <~ pfield me pr_pagetable ;;
              r <~ copyout_k kend pt fdarray (le 4 (Z.of_nat fd0)) ;;
              if r <? 0 then pipe_bad me rf wf [fd0; fd1]
              else
                r <~ copyout_k kend pt (u64 (fdarray + 4)) (le 4 (Z.of_nat fd1)) ;;
                if r <? 0 then pipe_bad me rf wf [fd0; fd1] else kret (Done 0)
          end
      end
  end.
End sysfile.
