(* ===== verification/Syscall.v ===== *)
(** * kernel/sysproc.c and kernel/syscall.c: the system calls

    A handler yields [Some (Done r)] with the value for a0, [Some (Waits ch)]
    when the process sleeps in the call, and [None] when it has exited. *)
From S2P Require Import Prelude Machine Printf Kalloc Vm Blocks Bio Log Fs Kstate Pipe Console File Proc Sysargs Exec Sysfile.

Definition SBRK_EAGER : Z := 1.
Definition SYS_exec : Z := 7.
Definition SYS_open : Z := 15.
Definition SYS_interpose : Z := 22.

Section syscall.
Context (kend trampoline forkret : Z).

Definition sys_exit : K (option io) := n <~ argint 0 ;; kexit kend n ;;; kret None.
Definition sys_getpid : K io := pid <~ mine pr_pid ;; kret (Done pid).
Definition sys_fork : K io := r <~ kfork kend trampoline forkret ;; kret (Done r).
Definition sys_wait : K io := p <~ argaddr 0 ;; kwait kend p.

Definition sys_sbrk : K io :=
  n <~ argint 0 ;;
  t <~ argint 1 ;;
  me <~ myproc ;;
  addr <~ pfield me pr_sz ;;
  if (t =? SBRK_EAGER) || (n <? 0) then
    r <~ growproc kend n ;;
    if r <? 0 then kret (Done (-1)) else kret (Done addr)
  else if u64 (addr + n) <? addr then kret (Done (-1))
  else updp me (fun p => set_sz (u64 (pr_sz p + n)) p) ;;; kret (Done addr).

(** One round of the loop of [sys_pause]; after a wakeup it runs again. *)
Definition pause_round (ticks0 n : Z) : K io :=
  ticks <~ gets k_ticks ;;
  if u32 (ticks - ticks0) <? n then
    me <~ myproc ;;
    kd <~ killed me ;;
    if negb (kd =? 0) then kret (Done (-1))
    else sleep TicksChan ;;; kret (Waits TicksChan)
  else kret (Done 0).
Definition sys_pause : K io :=
  n <~ argint 0 ;;
  let n := if n <? 0 then 0 else n in
  ticks0 <~ gets k_ticks ;;
  pause_round ticks0 n.
Definition pause_resume (ticks0 n : Z) : K io := awake ;;; pause_round ticks0 n.

Definition sys_kill : K io := pid <~ argint 0 ;; r <~ kkill pid ;; kret (Done r).
Definition sys_uptime : K io := xticks <~ gets k_ticks ;; kret (Done xticks).

Definition sys_interpose : K io :=
  me <~ myproc ;;
  mask <~ argint 0 ;;
  path <~ argstr kend 1 MAXPATH ;;
  match path with
  | None => kret (Done (-1))
  | Some path =>
      updp me (set_mask (u64 mask)) ;;;
      updp me (fun p => set_allowed_path (safestrcpy (pr_allowed_path p) path (Z.to_nat MAXPATH)) p) ;;;
      kret (Done 0)
  end.

(** The table; [pad] as in [sys_fstat]. *)
Definition still (m : K io) : K (option io) := r <~ m ;; kret (Some r).
Definition syscalls (pad : list Z) (num : Z) : option (K (option io)) :=
  match num with
  | 1 => Some (still sys_fork)
  | 2 => Some sys_exit
  | 3 => Some (still sys_wait)
  | 4 => Some (still (sys_pipe kend))
  | 5 => Some (still (sys_read kend))
  | 6 => Some (still sys_kill)
  | 7 => Some (still (sys_exec kend trampoline))
  | 8 => Some (still (sys_fstat kend pad))
  | 9 => Some (still (sys_chdir kend))
  | 10 => Some (still sys_dup)
  | 11 => Some (still sys_getpid)
  | 12 => Some (still sys_sbrk)
  | 13 => Some (still sys_pause)
  | 14 => Some (still sys_uptime)
  | 15 => Some (still (sys_open kend))
  | 16 => Some (still (sys_write kend))
  | 17 => Some (still (sys_mknod kend))
  | 18 => Some (still (sys_unlink kend))
  | 19 => Some (still (sys_link kend))
  | 20 => Some (still (sys_mkdir kend))
  | 21 => Some (still (sys_close kend))
  | 22 => Some (still sys_interpose)
  | _ => None
  end.

Definition set_a0 (me : nat) (r : Z) : K unit := updp me (fun p => set_tf (tf_set TF_a0 r (pr_tf p)) p).
(** [p->trapframe->a0 = syscalls[num]()] *)
Definition dispatch (me : nat) (handler : K (option io)) : K (option io) :=
  r <~ handler ;;
  match r with
  | Some (Done v) => set_a0 me v ;;; kret r
  | _ => kret r
  end.
(** A message, and -1 for the caller. *)
Definition refuse (me : nat) (fmt : list Z) (num : Z) : K (option io) :=
  p <~ pfield me id ;;
  kprintf fmt [VInt (pr_pid p); VStr (Some (cstr (pr_name p))); VInt num] ;;;
  set_a0 me (-1) ;;;
  kret (Some (Done (-1))).
Definition blocked_fmt : list Z := chars "%d %s: syscall %d blocked by interpose" ++ [10].
Definition unknown_fmt : list Z := chars "%d %s: unknown syscall %d" ++ [10].

Definition syscall (pad : list Z) : K (option io) :=
  me <~ myproc ;;
  p <~ pfield me id ;;
  let num := i32 (tf_get TF_a7 (pr_tf p)) in
  match syscalls pad num with
  | Some handler =>
      if negb (num =? SYS_interpose) && negb (Z.land (pr_mask p) (Z.shiftl 1 num) =? 0) then
        if ((num =? SYS_open) || (num =? SYS_exec)) && negb (hd 0 (pr_allowed_path p) =? 0) then
          path <~ argstr kend 0 MAXPATH ;;
          if match path with
             | Some path => strncmp (Z.to_nat MAXPATH) path (pr_allowed_path p) =? 0
             | None => false
             end
          then dispatch me handler
          else refuse me blocked_fmt num
        else refuse me blocked_fmt num
      else dispatch me handler
  | None => refuse me unknown_fmt num
  end.
End syscall.
