(* ===== verification/FileRefs.v ===== *)
(** * Reference counts of open files

    [f->ref] counts the descriptors that name file [f], over all processes.
    Every system call keeps this; inside one the counts may be off by the
    references that the code holds ([d] below). *)
From S2P Require Import Prelude Machine Kalloc Vm Spinlock Blocks Bio Log Fs Kstate Pipe Console File Proc ProcInv Sysargs Exec Sysfile Syscall.

(** ** Counting *)
Definition ind (f : nat) (o : option nat) : nat := if decide (o = Some f) then 1 else 0.
Definition uses (f : nat) (l : list (option nat)) : nat := sum_list_with (ind f) l.
Definition total (f : nat) (ps : list proc) : nat := sum_list_with (fun p => uses f (pr_ofile p)) ps.
Arguments total f ps : simpl never.
Arguments uses f l : simpl never.
(** Slots that hold no files: a free one, and a process that has exited. *)
Definition dead (p : proc) : bool := bool_decide (pr_state p = UNUSED \/ pr_state p = ZOMBIE).

Record balanced (d : nat -> Z) (k : kstate) : Prop := {
  ba_ref : forall f, fl_ref (getf k f) = Z.of_nat (total f (k_procs k)) + d f;
  ba_len : forall i p, k_procs k !! i = Some p -> length (pr_ofile p) = 16%nat;
  ba_dead : forall i p, k_procs k !! i = Some p -> dead p = true -> pr_ofile p = replicate 16 None;
  ba_cur : forall i, k_cur k = Some i -> exists p, k_procs k !! i = Some p /\ dead p = false }.
Definition none : nat -> Z := fun _ => 0.
Definition gain (d : nat -> Z) (f : nat) : nat -> Z := fun g => d g + if decide (g = f) then 1 else 0.
Definition lose (d : nat -> Z) (f : nat) : nat -> Z := fun g => d g - if decide (g = f) then 1 else 0.

Lemma balanced_ext d d' k : balanced d k -> (forall f, d f = d' f) -> balanced d' k.
Proof. intros [H1 H2 H3 H4] E. split; try done. intros f. by rewrite H1, E. Qed.
Lemma gain_lose d f g : gain (lose d f) f g = d g.
Proof. unfold gain, lose. case_decide; lia. Qed.
Lemma lose_gain d f g : lose (gain d f) f g = d g.
Proof. unfold gain, lose. case_decide; lia. Qed.

Lemma sum_with_insert {A} (w : A -> nat) (l : list A) i x y : l !! i = Some x ->
  (sum_list_with w (<[i := y]> l) + w x = sum_list_with w l + w y)%nat.
Proof.
  revert i. induction l as [|z l IH]; intros [|i] H; try discriminate H; [injection H as ->; cbn; lia|].
  specialize (IH i H). change (<[S i := y]> (z :: l)) with (z :: <[i := y]> l). cbn [sum_list_with]. lia.
Qed.
Lemma uses_insert f l j o x : l !! j = Some o -> (uses f (<[j := x]> l) + ind f o = uses f l + ind f x)%nat.
Proof. apply sum_with_insert. Qed.
Lemma total_alter f ps i p g : ps !! i = Some p ->
  (total f (alter g i ps) + uses f (pr_ofile p) = total f ps + uses f (pr_ofile (g p)))%nat.
Proof. intros H. rewrite (list_alter_insert _ _ _ _ H). by apply (sum_with_insert (fun p => uses f (pr_ofile p))). Qed.

(** ** Code that leaves the counts alone *)
Definition shape (p : proc) : bool * list (option nat) := (dead p, pr_ofile p).
Record same (k k' : kstate) : Prop := {
  sm_procs : shape <$> k_procs k' = shape <$> k_procs k;
  sm_refs : fl_ref <$> k_ftable k' = fl_ref <$> k_ftable k;
  sm_cur : k_cur k' = k_cur k }.
Definition live (k : kstate) : Prop := forall i p, k_cur k = Some i -> k_procs k !! i = Some p -> dead p = false.
#[export] Instance same_pre : PreOrder same.
Proof. split; [done|]. intros k1 k2 k3 [A1 A2 A3] [B1 B2 B3]. split; congruence. Qed.

Lemma shape_lookup k k' i p' : same k k' -> k_procs k' !! i = Some p' -> exists p, k_procs k !! i = Some p /\ shape p = shape p'.
Proof.
  intros [H _ _] Hi. assert ((shape <$> k_procs k') !! i = Some (shape p')) as E by (by rewrite list_lookup_fmap, Hi).
  rewrite H, list_lookup_fmap in E. destruct (k_procs k !! i) as [p|]; [|discriminate E]. exists p. split; [done|]. by apply (inj Some) in E.
Qed.
Lemma shape_lookup_l k k' i p : same k k' -> k_procs k !! i = Some p -> exists p', k_procs k' !! i = Some p' /\ shape p' = shape p.
Proof.
  intros [H _ _] Hi. assert ((shape <$> k_procs k) !! i = Some (shape p)) as E by (by rewrite list_lookup_fmap, Hi).
  rewrite <- H, list_lookup_fmap in E. destruct (k_procs k' !! i) as [p'|]; [|discriminate E]. exists p'. split; [done|]. by apply (inj Some) in E.
Qed.
Lemma live_same k k' : same k k' -> live k -> live k'.
Proof.
  intros H L i p' Hc Hp. destruct (shape_lookup _ _ _ _ H Hp) as (p & H1 & H2). injection H2 as <- _.
  apply (L i p); [|done]. by rewrite <- (sm_cur _ _ H).
Qed.
Lemma total_shape f ps : total f ps = sum_list_with (fun s => uses f s.2) (shape <$> ps).
Proof. unfold total. induction ps as [|p ps IH]; cbn; [done|]. by rewrite IH. Qed.
Lemma getf_refs k f : fl_ref (getf k f) = default 0 ((fl_ref <$> k_ftable k) !! f).
Proof. unfold getf. rewrite list_lookup_fmap. by destruct (k_ftable k !! f). Qed.
Lemma balanced_same d k k' : same k k' -> balanced d k -> balanced d k'.
Proof.
  intros S [H1 H2 H3 H4]. split.
  - intros f. rewrite getf_refs, (sm_refs _ _ S), <- getf_refs, H1. by rewrite !total_shape, (sm_procs _ _ S).
  - intros i p' Hp. destruct (shape_lookup _ _ _ _ S Hp) as (p & Hi & E). injection E as _ <-. by apply (H2 i).
  - intros i p' Hp. destruct (shape_lookup _ _ _ _ S Hp) as (p & Hi & E). injection E as <- <-. by apply (H3 i).
  - intros i Hc. rewrite (sm_cur _ _ S) in Hc. destruct (H4 i Hc) as (p & Hp & Hd).
    destruct (shape_lookup_l _ _ _ _ S Hp) as (p' & Hp' & E). exists p'. injection E as -> _. done.
Qed.
Lemma balanced_live d k : balanced d k -> live k.
Proof. intros H i p Hc Hp. destruct (ba_cur _ _ H i Hc) as (q & Hq & Hd). by simplify_eq. Qed.

Definition calm {A} (m : K A) : Prop := forall k a k', live k -> m k = Ret (a, k') -> same k k'.
Lemma calm_bind {A B} (m : K A) (f : A -> K B) : calm m -> (forall a, calm (f a)) -> calm (kbind m f).
Proof.
  intros Hm Hf k b k' L (a & k1 & H1 & H2)%kbind_inv. pose proof (Hm _ _ _ L H1) as S1. etrans; [exact S1|].
  eapply Hf; [by eapply live_same|done].
Qed.
Lemma calm_unchanged {A} (m : K A) : (forall k a k', m k = Ret (a, k') ->
  k_procs k' = k_procs k /\ k_ftable k' = k_ftable k /\ k_cur k' = k_cur k) -> calm m.
Proof. intros H k a k' _ (H1 & H2 & H3)%H. split; congruence. Qed.
Lemma calm_ret {A} (a : A) : calm (kret a).
Proof. apply calm_unchanged. by intros k b k' [= _ <-]. Qed.
Lemma calm_gets {A} (f : kstate -> A) : calm (gets f).
Proof. apply calm_unchanged. by intros k b k' [= _ <-]. Qed.
Lemma calm_panic {A} e : calm (panic (A := A) e).
Proof. intros k b k' _ H. discriminate H. Qed.
Lemma calm_nofuel {A} : calm (nofuel (A := A)).
Proof. intros k b k' _ H. discriminate H. Qed.
Lemma calm_fsop kend {A} (m : UserMem pmem -> M (fstate bstate pmem) A) : calm (fsop kend m).
Proof.
  apply calm_unchanged. intros k a k'. unfold fsop. destruct (m _ _) as [[b s]| | |]; intros H; try discriminate H. by injection H as <- <-.
Qed.
Lemma calm_updf f g : (forall x, fl_ref (g x) = fl_ref x) -> calm (updf f g).
Proof.
  intros Hg k a k' _ [= _ <-]. split; try done. cbn. apply list_eq. intros j. rewrite !list_lookup_fmap.
  destruct (decide (j = f)) as [->|]; [rewrite list_lookup_alter_eq|by rewrite list_lookup_alter_ne].
  destruct (k_ftable k !! f); cbn; [by rewrite Hg|done].
Qed.
Lemma shape_alter (i : nat) g (ps : list proc) : (forall p, ps !! i = Some p -> shape (g p) = shape p) -> shape <$> alter g i ps = shape <$> ps.
Proof.
  intros Hg. apply list_eq. intros j. rewrite !list_lookup_fmap.
  destruct (decide (j = i)) as [->|]; [rewrite list_lookup_alter_eq|by rewrite list_lookup_alter_ne].
  destruct (ps !! i) eqn:E; cbn; [by rewrite Hg|done].
Qed.
Lemma calm_updp i g : (forall p, shape (g p) = shape p) -> calm (updp i g).
Proof. intros Hg k a k' _ [= _ <-]. split; try done. cbn. apply shape_alter. by intros p _. Qed.
Lemma calm_wakeup ch : calm (wakeup ch).
Proof.
  intros k a k' _ [= _ <-]. split; try done. cbn. apply list_eq. intros j. unfold wakeup_procs.
  rewrite !list_lookup_fmap, list_lookup_imap. destruct (k_procs k !! j) as [p|]; cbn; [|done].
  case_decide; [done|]. unfold wake. case_decide as E; [|done]. unfold shape, dead. cbn. f_equal. f_equal.
  destruct E as [E _]. rewrite E. by rewrite !bool_decide_false by (intros [E'|E']; discriminate E').
Qed.
Lemma calm_sleep ch : calm (sleep ch).
Proof.
  intros k a k' L. unfold sleep, myproc, kbind. destruct (k_cur k) as [i|] eqn:Hc; [|intros H; discriminate H].
  unfold updp, modify. intros H. injection H as _ <-. split; try done. apply shape_alter. intros p Hp. unfold shape. by rewrite (L i p Hc Hp).
Qed.
Lemma calm_myproc : calm myproc.
Proof. apply calm_unchanged. intros k a k'. unfold myproc. destruct (k_cur k) eqn:E; intros H; [|discriminate H]. by injection H as _ <-. Qed.

Lemma calm_modify g : (forall k, k_procs (g k) = k_procs k /\ k_ftable (g k) = k_ftable k /\ k_cur (g k) = k_cur k) -> calm (modify g).
Proof. intros H. apply calm_unchanged. intros k a k' [= _ <-]. apply H. Qed.

Create HintDb calm.
#[export] Hint Resolve calm_ret calm_gets calm_panic calm_nofuel calm_fsop calm_wakeup calm_sleep calm_myproc : calm.
Ltac calms :=
  repeat match goal with
  | |- calm (kbind _ _) => apply calm_bind; [|intros ?]
  | |- calm (updp _ _) => apply calm_updp; intros ?; done
  | |- calm (updf _ _) => apply calm_updf; intros ?; done
  | |- calm (modify _) => apply calm_modify; intros ?; done
  | |- calm (match ?x with _ => _ end) => destruct x
  | |- calm (let _ := _ in _) => cbv zeta
  | |- calm _ => solve [eauto with calm]
  end.

Lemma calm_memop kend {A} (m : M pmem A) : calm (memop kend m).
Proof. apply calm_fsop. Qed.
Lemma calm_logop kend {A} (m : M (lstate bstate) A) : calm (logop kend m).
Proof. apply calm_fsop. Qed.
Lemma calm_pfield {A} i (f : proc -> A) : calm (pfield i f).
Proof. apply calm_gets. Qed.
Lemma calm_ffield {A} i (f : file -> A) : calm (ffield i f).
Proof. apply calm_gets. Qed.
#[export] Hint Resolve calm_memop calm_logop calm_pfield calm_ffield : calm.
Lemma calm_mine {A} (f : proc -> A) : calm (mine f).
Proof. unfold mine. calms. Qed.
#[export] Hint Resolve calm_mine : calm.
Lemma calm_copyout_k kend pt dst src : calm (copyout_k kend pt dst src).
Proof. unfold copyout_k. calms. Qed.
Lemma calm_copyin_k kend pt src len : calm (copyin_k kend pt src len).
Proof. unfold copyin_k. calms. Qed.
Lemma calm_killed i : calm (killed i).
Proof. apply calm_gets. Qed.
Lemma calm_awake : calm awake.
Proof. unfold awake. calms. Qed.
Lemma calm_send bs : calm (uart_send bs).
Proof. unfold uart_send. calms. Qed.
#[export] Hint Resolve calm_copyout_k calm_copyin_k calm_killed calm_awake calm_send : calm.
Lemma calm_kprintf fmt ap : calm (kprintf fmt ap).
Proof. unfold kprintf. calms. Qed.
Lemma calm_updpi pi g : calm (updpi pi g).
Proof. unfold updpi. calms. Qed.
Lemma calm_pifield {A} pi (g : pipe -> A) : calm (pifield pi g).
Proof. apply calm_gets. Qed.
#[export] Hint Resolve calm_kprintf calm_updpi calm_pifield : calm.

(** *** Reads and writes *)
Section io.
Context (kend : Z).
Lemma calm_pipeclose pi w : calm (pipeclose kend pi w).
Proof. unfold pipeclose. calms. Qed.
#[local] Hint Resolve calm_pipeclose : calm.
Lemma calm_pipewrite_loop fuel : forall pi addr n i, calm (pipewrite_loop kend fuel pi addr n i).
Proof. induction fuel as [|fuel IH]; intros; cbn [pipewrite_loop]; calms. Qed.
Lemma calm_piperead_loop cnt : forall pi addr i, calm (piperead_loop kend cnt pi addr i).
Proof. induction cnt as [|cnt IH]; intros; cbn [piperead_loop]; calms. Qed.
Lemma calm_consoleread_loop fuel : forall u dst n t, calm (consoleread_loop kend fuel u dst n t).
Proof. induction fuel as [|fuel IH]; intros; cbn [consoleread_loop]; unfold getc, updc; calms. Qed.
Lemma calm_uartwrite buf : calm (uartwrite buf).
Proof. induction buf as [|c buf IH]; cbn [uartwrite]; unfold uart_put; calms. Qed.
#[local] Hint Resolve calm_pipewrite_loop calm_piperead_loop calm_consoleread_loop calm_uartwrite : calm.
Lemma calm_consolewrite_loop fuel : forall u src kb n i, calm (consolewrite_loop kend fuel u src kb n i).
Proof. induction fuel as [|fuel IH]; intros; cbn [consolewrite_loop]; calms. Qed.
#[local] Hint Resolve calm_consolewrite_loop : calm.
Lemma calm_fileread f addr n : calm (fileread kend f addr n).
Proof. unfold fileread, piperead, consoleread. calms. Qed.
Lemma calm_filewrite_loop fuel : forall f addr n i, calm (filewrite_loop kend fuel f addr n i).
Proof. induction fuel as [|fuel IH]; intros; cbn [filewrite_loop]; unfold write_chunk; calms. Qed.
#[local] Hint Resolve calm_filewrite_loop : calm.
Lemma calm_filewrite f addr n : calm (filewrite kend f addr n).
Proof. unfold filewrite, pipewrite, pipewrite_from, consolewrite. calms. Qed.
Lemma calm_filestat pad f addr : calm (filestat kend pad f addr).
Proof. unfold filestat. calms. Qed.

(** *** Arguments and exec *)
Lemma calm_argraw n : calm (argraw n).
Proof. unfold argraw. calms. Qed.
#[local] Hint Resolve calm_argraw : calm.
Lemma calm_argint n : calm (argint n).
Proof. unfold argint. calms. Qed.
Lemma calm_argaddr n : calm (argaddr n).
Proof. apply calm_argraw. Qed.
Lemma calm_fetchaddr a : calm (fetchaddr kend a).
Proof. unfold fetchaddr. calms. Qed.
Lemma calm_fetchstr a m : calm (fetchstr kend a m).
Proof. unfold fetchstr. calms. Qed.
#[local] Hint Resolve calm_argint calm_argaddr calm_fetchaddr calm_fetchstr : calm.
Lemma calm_argstr n m : calm (argstr kend n m).
Proof. unfold argstr. calms. Qed.
Lemma calm_argfd n : calm (argfd n).
Proof. unfold argfd. calms. Qed.
#[local] Hint Resolve calm_argstr calm_argfd : calm.
Lemma calm_loadseg_loop fuel : forall pt va ip o sz i, calm (loadseg_loop kend fuel pt va ip o sz i).
Proof. induction fuel as [|fuel IH]; intros; cbn [loadseg_loop]; calms. Qed.
#[local] Hint Resolve calm_loadseg_loop : calm.
Lemma calm_load_segments cnt : forall pt ip o sz, calm (load_segments kend cnt pt ip o sz).
Proof. induction cnt as [|cnt IH]; intros; cbn [load_segments]; unfold loadseg; calms. Qed.
Lemma calm_push_args argv : forall pt sb sp us, calm (push_args kend pt sb argv sp us).
Proof. induction argv as [|a argv IH]; intros; cbn [push_args]; calms. Qed.
#[local] Hint Resolve calm_load_segments calm_push_args : calm.
Lemma calm_exec_bad pt sz ip : calm (exec_bad kend pt sz ip).
Proof. unfold exec_bad. calms. Qed.
#[local] Hint Resolve calm_exec_bad : calm.
Lemma calm_kexec tr path argv : calm (kexec kend tr path argv).
Proof. unfold kexec, exec_stack, push_stack, exec_commit. calms. Qed.
#[local] Hint Resolve calm_kexec : calm.
Lemma calm_exec_argv fuel : forall u i argv, calm (exec_argv kend fuel u i argv).
Proof. induction fuel as [|fuel IH]; intros; cbn [exec_argv]; calms. Qed.
Lemma calm_free_argv argv : calm (free_argv kend argv).
Proof. induction argv as [|[pg s] argv IH]; cbn [free_argv]; calms. Qed.
#[local] Hint Resolve calm_exec_argv calm_free_argv : calm.
Lemma calm_sys_exec tr : calm (sys_exec kend tr).
Proof. unfold sys_exec. calms. Qed.

(** *** Inodes and paths *)
Lemma calm_ffs {A} (m : UserMem pmem -> M (fstate bstate pmem) A) : calm (ffs kend m).
Proof. apply calm_fsop. Qed.
#[local] Hint Resolve calm_ffs : calm.
Lemma calm_add_nlink ip d : calm (add_nlink kend ip d).
Proof. apply calm_fsop. Qed.
Lemma calm_fail_op : calm (fail_op kend).
Proof. unfold fail_op. calms. Qed.
#[local] Hint Resolve calm_add_nlink calm_fail_op : calm.
Lemma calm_link_bad ip : calm (link_bad kend ip).
Proof. unfold link_bad. calms. Qed.
#[local] Hint Resolve calm_link_bad : calm.
Lemma calm_sys_link : calm (sys_link kend).
Proof. unfold sys_link, link_new. calms. Qed.
Lemma calm_isdirempty_loop fuel : forall dp off, calm (isdirempty_loop kend fuel dp off).
Proof. induction fuel as [|fuel IH]; intros; cbn [isdirempty_loop]; calms. Qed.
#[local] Hint Resolve calm_isdirempty_loop : calm.
Lemma calm_sys_unlink : calm (sys_unlink kend).
Proof. unfold sys_unlink, unlink_entry, unlink_bad, isdirempty. calms. Qed.
Lemma calm_create path t ma mi : calm (create kend path t ma mi).
Proof. unfold create, create_new, create_fail. calms. Qed.
#[local] Hint Resolve calm_create : calm.
Lemma calm_open_inode path o : calm (open_inode kend path o).
Proof. unfold open_inode. calms. Qed.
Lemma calm_open_bad ip : calm (open_bad kend ip).
Proof. unfold open_bad. calms. Qed.
Lemma calm_open_file ip f fd i o : calm (open_file kend ip f fd i o).
Proof. unfold open_file. calms. Qed.
Lemma calm_sys_mkdir : calm (sys_mkdir kend).
Proof. unfold sys_mkdir, make. calms. Qed.
Lemma calm_sys_mknod : calm (sys_mknod kend).
Proof. unfold sys_mknod, make. calms. Qed.
Lemma calm_sys_chdir : calm (sys_chdir kend).
Proof. unfold sys_chdir. calms. Qed.
Lemma calm_sys_sbrk : calm (sys_sbrk kend).
Proof. unfold sys_sbrk, growproc. calms. Qed.
Lemma calm_sys_pause : calm sys_pause.
Proof. unfold sys_pause, pause_round. calms. Qed.
Lemma calm_sys_interpose : calm (sys_interpose kend).
Proof. unfold sys_interpose. calms. Qed.
Lemma calm_kkill pid : calm (kkill pid).
Proof.
  unfold kkill. calms. apply calm_updp. intros p. unfold kill_proc, shape, dead. case_decide as E; [|done]. cbn in *. rewrite E.
  by rewrite !bool_decide_false by (intros [E'|E']; discriminate E').
Qed.
End io.

(** ** The file table *)
Definition shapes (k k' : kstate) : Prop := shape <$> k_procs k' = shape <$> k_procs k /\ k_cur k' = k_cur k.
Lemma updf_ref d k f g z : balanced d k -> (f < length (k_ftable k))%nat -> fl_ref (g (getf k f)) = fl_ref (getf k f) + z ->
  balanced (fun h => d h + if decide (h = f) then z else 0) (set_ftable (alter g f (k_ftable k)) k).
Proof.
  intros [H1 H2 H3 H4] Hf Hg. split; try done. intros h. specialize (H1 h). unfold getf in *. cbn [k_procs k_ftable set_ftable].
  destruct (decide (h = f)) as [->|Hne]; [|rewrite list_lookup_alter_ne by done; lia].
  rewrite list_lookup_alter_eq. destruct (lookup_lt_is_Some_2 _ _ Hf) as [x Hx]. rewrite Hx in *. cbn in *. lia.
Qed.
Lemma total_bound f ps i p fd : ps !! i = Some p -> pr_ofile p !! fd = Some (Some f) -> (1 <= total f ps)%nat.
Proof.
  intros Hp Hf. pose proof (sum_with_insert (fun p => uses f (pr_ofile p)) ps i p (set_ofile [] p) Hp) as E1.
  pose proof (uses_insert f (pr_ofile p) fd (Some f) None Hf) as E2. unfold ind in E2. rewrite !decide_True, decide_False in E2 by done.
  cbv beta in E1. fold (total f ps) in E1. change (uses f (pr_ofile (set_ofile [] p))) with 0%nat in E1. lia.
Qed.
Lemma ref_in_range k f : fl_ref (getf k f) <> 0 -> (f < length (k_ftable k))%nat.
Proof. intros H. unfold getf in H. destruct (k_ftable k !! f) eqn:E; [by eapply lookup_lt_Some|done]. Qed.

Lemma first_free_spec fs : forall i j, first_free i fs = Some j ->
  (i <= j)%nat /\ exists x, fs !! (j - i)%nat = Some x /\ fl_ref x = 0.
Proof.
  induction fs as [|x fs IH]; intros i j; cbn; [discriminate|]. destruct (fl_ref x =? 0) eqn:E.
  - intros [= <-]. split; [lia|]. exists x. rewrite Nat.sub_diag. split; [done|lia].
  - intros (Hj & y & Hy & Hr)%IH. split; [lia|]. exists y. split; [|done]. by replace (j - i)%nat with (S (j - S i)) by lia.
Qed.
Lemma filealloc_bal d k r k' : balanced d k -> filealloc k = Ret (r, k') -> shapes k k' /\
  match r with Some f => balanced (gain d f) k' | None => balanced d k' end.
Proof.
  intros H Hr. unfold filealloc in Hr. minv Hr. destruct (first_free 0 (k_ftable s)) as [f|] eqn:E; [|by injection Hk as <- <-].
  minv Hk. injection Hk0 as <- <-. split; [done|]. destruct (first_free_spec _ _ _ E) as (_ & x & Hx & H0). rewrite Nat.sub_0_r in Hx.
  apply (updf_ref d s f (set_fref 1) 1); [done|by eapply lookup_lt_Some|]. unfold getf. rewrite Hx. cbn. lia.
Qed.
Lemma filedup_bal d k f r k' : balanced d k -> filedup f k = Ret (r, k') -> shapes k k' /\ r = f /\ balanced (gain d f) k'.
Proof.
  intros H Hr. unfold filedup in Hr. minv Hr. destruct (_ <? 1) eqn:E in Hk; [discriminate Hk|]. minv Hk. injection Hk0 as <- <-.
  split; [done|]. split; [done|]. apply (updf_ref d s f _ 1); [done|apply ref_in_range; lia|done].
Qed.
Lemma fileclose_bal kend d k f r k' : balanced d k -> fileclose kend f k = Ret (r, k') -> shapes k k' /\ balanced (lose d f) k'.
Proof.
  intros H Hr. unfold fileclose in Hr. minv Hr. destruct (_ <? 1) eqn:E in Hk; [discriminate Hk|]. minv Hk.
  unfold id in *. set (k1 := set_ftable _ s) in *. set (x := getf s f) in *.
  assert (balanced (lose d f) k1) as H1.
  { eapply balanced_ext; [apply (updf_ref d s f _ (-1)); [done|apply ref_in_range; fold x; lia|done]|].
    intros g. unfold lose. case_decide; lia. }
  destruct (0 <? _) eqn:E' in Hk0; [injection Hk0 as <- <-; done|]. minv Hk0. set (k2 := set_ftable _ k1) in *.
  assert (same k1 k2) as S2.
  { split; try done. cbn. apply list_eq. intros j. rewrite !list_lookup_fmap.
    destruct (decide (j = f)) as [->|]; [rewrite !list_lookup_alter_eq|by rewrite !list_lookup_alter_ne].
    assert (f < length (k_ftable s))%nat as Hlt by (apply ref_in_range; fold x; lia).
    destruct (lookup_lt_is_Some_2 _ _ Hlt) as [y Hy]. rewrite Hy. cbn.
    assert (y = x) as -> by (unfold x, getf; by rewrite Hy). f_equal. lia. }
  assert (same k2 k') as S3.
  { assert (forall t, calm (match t with FD_NONE => kret tt | FD_PIPE => pipeclose kend (fl_pipe x) (fl_writable x)
      | _ => logop kend begin_op ;;; fsop kend (fun U => iput (fl_ip x)) ;;; logop kend end_op end)) as Hc.
    { intros t. pose proof (calm_pipeclose kend (fl_pipe x) (fl_writable x)). calms. }
    exact (Hc (fl_type x) k2 r k' (balanced_live _ _ (balanced_same _ _ _ S2 H1)) Hk). }
  split; [split; [by rewrite (sm_procs _ _ S3), (sm_procs _ _ S2)|by rewrite (sm_cur _ _ S3), (sm_cur _ _ S2)]|].
  by eapply balanced_same, balanced_same.
Qed.

(** ** Descriptors *)
Definition holds (k : kstate) (i fd f : nat) : Prop := exists p, k_procs k !! i = Some p /\ pr_ofile p !! fd = Some (Some f).
Lemma holds_shapes k k' i fd f : shapes k k' -> holds k i fd f -> holds k' i fd f.
Proof.
  intros [S _] (p & Hp & Ho). assert ((shape <$> k_procs k) !! i = Some (shape p)) as E by (by rewrite list_lookup_fmap, Hp).
  rewrite <- S, list_lookup_fmap in E. destruct (k_procs k' !! i) as [p'|] eqn:E'; [|discriminate E].
  apply (inj Some) in E. injection E as _ E. exists p'. by rewrite E.
Qed.
Lemma holds_alive d k i p fd f : balanced d k -> k_procs k !! i = Some p -> pr_ofile p !! fd = Some (Some f) -> dead p = false.
Proof.
  intros H Hp Ho. destruct (dead p) eqn:E; [|done]. rewrite (ba_dead _ _ H i p Hp E) in Ho.
  apply lookup_replicate in Ho as [Ho _]. discriminate Ho.
Qed.
Lemma set_fd d k i p fd o x : balanced d k -> k_procs k !! i = Some p -> dead p = false -> pr_ofile p !! fd = Some o ->
  balanced (fun g => d g + Z.of_nat (ind g o) - Z.of_nat (ind g x))
    (set_procs (alter (fun p => set_ofile (<[fd := x]> (pr_ofile p)) p) i (k_procs k)) k).
Proof.
  intros [H1 H2 H3 H4] Hp Hd Ho. split; cbn [k_procs set_procs k_cur].
  - intros g. change (getf _ g) with (getf k g). rewrite H1.
    pose proof (total_alter g (k_procs k) i p (fun p => set_ofile (<[fd := x]> (pr_ofile p)) p) Hp) as E. cbn in E.
    pose proof (uses_insert g (pr_ofile p) fd o x Ho). lia.
  - intros j q. destruct (decide (j = i)) as [->|Hne]; [|rewrite list_lookup_alter_ne by done; apply H2].
    rewrite list_lookup_alter_eq, Hp. intros [= <-]. cbn. rewrite length_insert. by apply (H2 i).
  - intros j q. destruct (decide (j = i)) as [->|Hne]; [|rewrite list_lookup_alter_ne by done; apply H3].
    rewrite list_lookup_alter_eq, Hp. intros [= <-]. unfold dead in *. cbn. rewrite Hd. intros E. discriminate E.
  - intros j Hc. destruct (H4 j Hc) as (q & Hq & Hdq). destruct (decide (j = i)) as [->|Hne].
    + rewrite list_lookup_alter_eq, Hp. eexists. split; [reflexivity|]. done.
    + exists q. by rewrite list_lookup_alter_ne.
Qed.
Lemma ind_same g f : Z.of_nat (ind g (Some f)) = if decide (g = f) then 1 else 0.
Proof. unfold ind. destruct (decide (g = f)) as [->|H]; [by rewrite decide_True|rewrite decide_False; [done|congruence]]. Qed.
Lemma ind_none g : ind g None = 0%nat.
Proof. unfold ind. by rewrite decide_False. Qed.
Lemma clear_fd d k i fd f : balanced d k -> holds k i fd f ->
  balanced (gain d f) (set_procs (alter (fun p => set_ofile (<[fd := None]> (pr_ofile p)) p) i (k_procs k)) k).
Proof.
  intros H (p & Hp & Ho). eapply balanced_ext; [apply (set_fd d k i p fd (Some f) None H Hp)|]; [by eapply holds_alive|done|].
  intros g. cbn. rewrite ind_same, ind_none. unfold gain. lia.
Qed.
Lemma first_none_spec l : forall i j, first_none i l = Some j -> (i <= j)%nat /\ l !! (j - i)%nat = Some None.
Proof.
  induction l as [|[x|] l IH]; intros i j; cbn; [discriminate| |].
  - intros (Hj & Hl)%IH. split; [lia|]. by replace (j - i)%nat with (S (j - S i)) by lia.
  - intros [= <-]. split; [lia|]. by rewrite Nat.sub_diag.
Qed.
Lemma fdalloc_bal d k f r k' me : balanced d k -> k_cur k = Some me -> fdalloc f k = Ret (r, k') ->
  k_cur k' = Some me /\
  match r with
  | Some fd => balanced (lose d f) k' /\ holds k' me fd f /\
      forall fd' f', holds k me fd' f' -> holds k' me fd' f' /\ fd' <> fd
  | None => k' = k
  end.
Proof.
  intros H Hc Hr. unfold fdalloc in Hr. rewrite (kbind_ret _ _ _ _ _ (myproc_run k me Hc)) in Hr. minv Hr.
  destruct (ba_cur _ _ H me Hc) as (p & Hp & Hd). unfold getp in Hk. rewrite Hp in Hk. cbn in Hk.
  destruct (first_none 0 (pr_ofile p)) as [fd|] eqn:E; [|by injection Hk as <- <-]. destruct (first_none_spec _ _ _ E) as [_ Hn].
  rewrite Nat.sub_0_r in Hn. minv Hk. injection Hk0 as <- <-. split; [done|]. split; [|split].
  - eapply balanced_ext; [apply (set_fd d s me p fd None (Some f) H Hp Hd Hn)|].
    intros g. cbn. rewrite ind_same, ind_none. unfold lose. lia.
  - eexists. cbn. rewrite list_lookup_alter_eq, Hp. split; [reflexivity|]. cbn. by apply list_lookup_insert_eq; eapply lookup_lt_Some.
  - intros fd' f' (q & Hq & Ho). simplify_eq. assert (fd' <> fd) as Hne by congruence. split; [|done].
    eexists. cbn. rewrite list_lookup_alter_eq, Hp. split; [reflexivity|]. cbn. by rewrite list_lookup_insert_ne.
Qed.
