(* ===== verification/SyscallInv.v ===== *)
(** * System calls keep the reference counts of open files exact *)
From S2P Require Import Prelude Machine Kalloc Vm Spinlock Blocks Bio Log Fs Kstate Demo Pipe Console File Proc ProcInv Sysargs Exec Sysfile Syscall FileRefs.

#[export] Hint Resolve calm_pipeclose calm_fileread calm_filewrite calm_filestat calm_argint calm_argaddr calm_argstr calm_argfd
  calm_kexec calm_sys_exec calm_fail_op calm_sys_link calm_sys_unlink calm_open_inode calm_open_bad calm_open_file
  calm_sys_mkdir calm_sys_mknod calm_sys_chdir calm_sys_sbrk calm_sys_pause calm_sys_interpose calm_kkill : calm.

Abbreviation no_files := (replicate 16 (None : option nat)).

(** A calm command in a balanced state. *)
Lemma calm_bal {A} (m : K A) d k a k' : calm m -> balanced d k -> m k = Ret (a, k') -> same k k' /\ balanced d k'.
Proof. intros Hc H Hr. pose proof (Hc _ _ _ (balanced_live _ _ H) Hr) as S. split; [done|by eapply balanced_same]. Qed.
(** The first command of [H], from the balanced state of [B], is calm. *)
Ltac calm_step B H x k1 S B1 :=
  let Hr := fresh "Hr" in let C := fresh "C" in
  apply kbind_inv in H as (x & k1 & Hr & H);
  match type of Hr with ?m _ = _ =>
    assert (calm m) as C by calms; destruct (calm_bal m _ _ _ _ C B Hr) as [S B1]; clear C Hr
  end.
Lemma same_shapes k k' : same k k' -> shapes k k'.
Proof. by intros [H _ Hc]. Qed.
(** The slot [i] is allocated and has no files. *)
Definition empty (k : kstate) (i : nat) : Prop := exists p, k_procs k !! i = Some p /\ shape p = (false, no_files).
Lemma empty_same k k' i : same k k' -> empty k i -> empty k' i.
Proof. intros S (p & Hp & E). destruct (shape_lookup_l _ _ _ _ S Hp) as (p' & Hp' & E'). exists p'. by rewrite E'. Qed.

Lemma bal_updp d k i g : balanced d k ->
  (forall p, k_procs k !! i = Some p -> pr_ofile (g p) = pr_ofile p /\ (dead (g p) = true -> pr_ofile p = no_files) /\
     (k_cur k = Some i -> dead (g p) = false)) ->
  balanced d (set_procs (alter g i (k_procs k)) k).
Proof.
  intros [H1 H2 H3 H4] Hg. destruct (k_procs k !! i) as [p|] eqn:Hp; [|rewrite (list_alter_none _ _ _ Hp); by destruct k].
  destruct (Hg p eq_refl) as (G1 & G2 & G3). split; cbn [k_procs set_procs k_cur].
  - intros f. change (getf _ f) with (getf k f). rewrite H1. pose proof (total_alter f _ i p g Hp) as E. rewrite G1 in E. lia.
  - intros j q. destruct (decide (j = i)) as [->|Hne]; [|rewrite list_lookup_alter_ne by done; apply H2].
    rewrite list_lookup_alter_eq, Hp. intros [= <-]. rewrite G1. by apply (H2 i).
  - intros j q. destruct (decide (j = i)) as [->|Hne]; [|rewrite list_lookup_alter_ne by done; apply H3].
    rewrite list_lookup_alter_eq, Hp. intros [= <-]. rewrite G1. apply G2.
  - intros j Hc. destruct (decide (j = i)) as [->|Hne]; [|rewrite list_lookup_alter_ne by done; by apply H4].
    rewrite list_lookup_alter_eq, Hp. eexists. split; [reflexivity|]. by apply G3.
Qed.
Lemma bal_idle d k : balanced d k -> balanced d (set_cur None k).
Proof. intros [H1 H2 H3 H4]. split; try done. intros i Hc. discriminate Hc. Qed.

Section refs.
Context (kend trampoline forkret : Z) (d : nat -> Z).

(** ** Processes *)
Lemma freeproc_bal i k k' : balanced d k -> k_cur k <> Some i -> (exists p, k_procs k !! i = Some p /\ pr_ofile p = no_files) ->
  freeproc kend i k = Ret (tt, k') -> balanced d k' /\ k_cur k' = k_cur k.
Proof.
  intros H Hc (p & Hp & Ho) Hr. unfold freeproc in Hr. minv Hr.
  calm_step H Hk u1 k1 S1 B1. calm_step B1 Hk u2 k2 S2 B2. calm_step B2 Hk u3 k3 S3 B3.
  injection Hk as <-. pose proof (transitivity S1 (transitivity S2 S3)) as S. split; [|apply (sm_cur _ _ S)].
  apply bal_updp; [done|]. intros q Hq. cbn. destruct (shape_lookup _ _ _ _ S Hq) as (p' & Hp' & E).
  rewrite Hp in Hp'. injection Hp' as <-. injection E as _ Eo. rewrite <- Eo. split; [done|]. split; [done|]. intros E'. by rewrite (sm_cur _ _ S) in E'.
Qed.

Lemma allocproc_bal k r k' : balanced d k -> allocproc kend trampoline forkret k = Ret (r, k') ->
  balanced d k' /\ k_cur k' = k_cur k /\ match r with Some i => k_cur k <> Some i /\ empty k' i | None => True end.
Proof.
  intros H Hr. unfold allocproc in Hr. minv Hr. pose proof (first_unused_spec (k_procs s) 0) as Hf.
  destruct (first_unused 0 (k_procs s)) as [i|]; [|injection Hk as <- <-; done].
  destruct Hf as (_ & p & Hp & Hs). rewrite Nat.sub_0_r in Hp.
  assert (pr_ofile p = no_files) as Ho by (apply (ba_dead _ _ H i p Hp); unfold dead; rewrite Hs; done).
  assert (k_cur s <> Some i) as Hcur.
  { intros Hc. destruct (ba_cur _ _ H i Hc) as (q & Hq & N). simplify_eq. unfold dead in N. rewrite Hs in N. discriminate N. }
  minv Hk. minv Hk0. set (k1 := set_procs _ _) in Hk.
  assert (balanced d k1) as B1.
  { apply (bal_updp d (set_nextpid _ s)); [by destruct H|]. intros q Hq. cbn in Hq. simplify_eq. done. }
  assert (empty k1 i) as E1.
  { eexists. cbn. rewrite list_lookup_alter_eq, Hp. split; [reflexivity|]. unfold shape. cbn. by rewrite Ho. }
  assert (forall k2 k3, same k1 k2 -> balanced d k2 -> freeproc kend i k2 = Ret (tt, k3) -> balanced d k3 /\ k_cur k3 = k_cur s) as Free.
  { intros k2 k3 S2 B2 Hfree. destruct (empty_same _ _ _ S2 E1) as (q & Hq & Eq). injection Eq as Eq1 Eq2.
    change (k_cur s) with (k_cur k1). rewrite <- (sm_cur _ _ S2).
    apply (freeproc_bal i k2 k3 B2); [rewrite (sm_cur _ _ S2); exact Hcur|by exists q|done]. }
  calm_step B1 Hk tf k2 S2 B2. calm_step B2 Hk u3 k3 S3 B3.
  pose proof (transitivity S2 S3) as S13. destruct (tf =? 0).
  { minv Hk. destruct a. injection Hk0 as <- <-. destruct (Free _ _ S13 B3 Hm). done. }
  calm_step B3 Hk pt k4 S4 B4. calm_step B4 Hk u5 k5 S5 B5.
  pose proof (transitivity S13 (transitivity S4 S5)) as S15. destruct (pt =? 0).
  { minv Hk. destruct a. injection Hk0 as <- <-. destruct (Free _ _ S15 B5 Hm). done. }
  calm_step B5 Hk u6 k6 S6 B6. injection Hk as <- <-. pose proof (transitivity S15 S6) as S16. split; [done|].
  split; [by rewrite (sm_cur _ _ S16)|]. split; [done|]. by eapply empty_same.
Qed.

Lemma dup_files_bal np ofile : forall fd k k', balanced d k -> (fd + length ofile <= 16)%nat ->
  (exists p, k_procs k !! np = Some p /\ dead p = false /\ forall j, (fd <= j < 16)%nat -> pr_ofile p !! j = Some None) ->
  dup_files np fd ofile k = Ret (tt, k') ->
  balanced d k' /\ k_cur k' = k_cur k /\ exists p', k_procs k' !! np = Some p' /\ dead p' = false.
Proof.
  induction ofile as [|[f|] ofile IH]; intros fd k k' H Hl (p & Hp & Hd & Hn) Hr; cbn [dup_files] in Hr.
  - injection Hr as <-. split; [done|]. split; [done|]. by exists p.
  - cbn in Hl. minv Hr. rename Hk into H2. destruct (filedup_bal _ _ _ _ _ H Hm) as ((S1 & S2) & -> & B1). clear Hm.
    match type of S1 with shape <$> k_procs ?kk = _ => rename kk into k1 end.
    assert ((shape <$> k_procs k1) !! np = Some (shape p)) as E by (by rewrite S1, list_lookup_fmap, Hp).
    rewrite list_lookup_fmap in E. destruct (k_procs k1 !! np) as [q|] eqn:Hq; [|discriminate E].
    apply (inj Some) in E. injection E as E1 E2. minv H2.
    assert (pr_ofile q !! fd = Some None) as Hfd by (rewrite E2; apply Hn; lia). rewrite Hd in E1.
    edestruct (IH (S fd)) as (B & C & L); [| |exists (set_ofile (<[fd := Some f]> (pr_ofile q)) q); split_and!|exact Hk|].
    + eapply balanced_ext; [apply (set_fd _ _ np q fd None (Some f) B1 Hq E1 Hfd)|].
      intros g. cbn. rewrite ind_same, ind_none. unfold gain. lia.
    + lia.
    + cbn. by rewrite list_lookup_alter_eq, Hq.
    + done.
    + intros j Hj. cbn. rewrite list_lookup_insert_ne by lia. rewrite E2. apply Hn. lia.
    + split; [done|]. split; [by rewrite C|done].
  - cbn in Hl. apply (IH (S fd) k k' H); [lia| |done]. exists p. split; [done|]. split; [done|]. intros j Hj. apply Hn. lia.
Qed.

Lemma fork_child_bal np me q k r k' : balanced d k -> (exists p, k_procs k !! np = Some p /\ dead p = false) ->
  fork_child np me q k = Ret (r, k') -> balanced d k' /\ k_cur k' = k_cur k.
Proof.
  intros H (p & Hp & Hd) Hr. unfold fork_child in Hr.
  calm_step H Hr u1 k1 S1 B1. calm_step B1 Hr pid k2 S2 B2. calm_step B2 Hr u3 k3 S3 B3. minv Hr. injection Hk as _ <-.
  pose proof (transitivity S1 (transitivity S2 S3)) as S. split; [|apply (sm_cur _ _ S)].
  apply bal_updp; [done|]. intros p' Hp'. split; [done|]. split; [intros E; discriminate E|done].
Qed.

Lemma kfork_bal k r k' : balanced d k -> kfork kend trampoline forkret k = Ret (r, k') -> balanced d k' /\ k_cur k' = k_cur k.
Proof.
  intros H Hr. unfold kfork in Hr. calm_step H Hr me k0 S0 B0. apply kbind_inv in Hr as (np & k1 & H1 & Hr).
  destruct (allocproc_bal _ _ _ B0 H1) as (B1 & C1 & E1). destruct np as [np|].
  2:{ injection Hr as <- <-. split; [done|]. by rewrite C1, (sm_cur _ _ S0). }
  destruct E1 as [Hcur E1]. rewrite (sm_cur _ _ S0) in C1. minv Hr. 
  calm_step B1 Hk q0 k1 S1 B1'. calm_step B1' Hk cr k2 S2 B2. pose proof (transitivity S1 S2) as S12.
  destruct (empty_same _ _ _ S12 E1) as (q & Hq & Eq). injection Eq as Eq1 Eq2.
  assert (k_cur k2 = k_cur k) as C2 by (by rewrite (sm_cur _ _ S12)). destruct (_ <? 0).
  { apply kbind_inv in Hk as ([] & k3 & H3 & Hk). injection Hk as <- <-.
    destruct (freeproc_bal np k2 k3 B2) as [B3 C3]; [by rewrite C2, <- (sm_cur _ _ S0)|by exists q|done|].
    split; [done|]. by rewrite C3. }
  calm_step B2 Hk u3 k3 S3 B3. apply kbind_inv in Hk as ([] & k4 & H4 & Hk).
  destruct (shape_lookup_l _ _ _ _ S3 Hq) as (q3 & Hq3 & E3). injection E3 as E31 E32. rewrite Eq1 in E31. rewrite Eq2 in E32.
  assert (length (pr_ofile (getp s me)) = 16)%nat as Hl.
  { unfold getp. destruct (k_procs s !! me) eqn:E; [by apply (ba_len _ _ B1 me)|done]. }
  edestruct (dup_files_bal np (pr_ofile (getp s me)) 0 k3 k4 B3) as (B4 & C4 & q4 & Hq4 & D4); [by rewrite Hl| |exact H4|].
  { exists q3. split; [done|]. split; [done|]. intros j Hj. rewrite E32. change (no_files !! j = Some None). apply lookup_replicate_2. lia. }
  calm_step B4 Hk u5 k5 S5 B5. destruct (shape_lookup_l _ _ _ _ S5 Hq4) as (q5 & Hq5 & E5). injection E5 as E51 _.
  destruct (fork_child_bal np me (getp s me) k5 r k' B5) as [B6 C6]; [exists q5; by rewrite E51|done|].
  split; [done|]. by rewrite C6, (sm_cur _ _ S5), C4, (sm_cur _ _ S3).
Qed.

Lemma close_files_bal me cnt : forall fd k k', balanced d k ->
  (exists p, k_procs k !! me = Some p /\ dead p = false /\ forall j, (j < fd)%nat -> (j < 16)%nat -> pr_ofile p !! j = Some None) ->
  close_files kend me cnt fd k = Ret (tt, k') ->
  balanced d k' /\ k_cur k' = k_cur k /\
  exists p, k_procs k' !! me = Some p /\ dead p = false /\ forall j, (j < fd + cnt)%nat -> (j < 16)%nat -> pr_ofile p !! j = Some None.
Proof.
  induction cnt as [|cnt IH]; intros fd k k' H (p & Hp & Hd & Hn) Hr; cbn [close_files] in Hr.
  { injection Hr as <-. split; [done|]. split; [done|]. exists p. rewrite Nat.add_0_r. done. }
  minv Hr. rewrite Nat.add_succ_r, <- Nat.add_succ_l. rename s into k. unfold getp in Hk. rewrite Hp in Hk. cbn in Hk.
  apply kbind_inv in Hk as ([] & k1 & H1 & Hk). pose proof (ba_len _ _ H me p Hp) as Hl.
  destruct (nth fd (pr_ofile p) None) as [f|] eqn:E.
  - assert (pr_ofile p !! fd = Some (Some f)) as Ho.
    { rewrite nth_lookup in E. destruct (pr_ofile p !! fd); cbn in E; congruence. }
    apply kbind_inv in H1 as ([] & k2 & H2 & H1). destruct (fileclose_bal kend d k f tt k2 H H2) as (S2 & B2). injection H1 as <-.
    assert ((shape <$> k_procs k2) !! me = Some (shape p)) as E2 by (by rewrite (proj1 S2), list_lookup_fmap, Hp).
    rewrite list_lookup_fmap in E2. destruct (k_procs k2 !! me) as [q|] eqn:Hq; [|discriminate E2].
    apply (inj Some) in E2. injection E2 as E21 E22.
    edestruct (IH (S fd)) as (B & C & L); [| |exact Hk|].
    + eapply balanced_ext; [apply (clear_fd _ k2 me fd f B2)|intros g; apply gain_lose]. exists q. by rewrite E22.
    + exists (set_ofile (<[fd := None]> (pr_ofile q)) q). split; [cbn; by rewrite list_lookup_alter_eq, Hq|].
      split; [by rewrite <- Hd, <- E21|]. intros j Hj Hj'. cbn [pr_ofile set_ofile]. rewrite E22. destruct (decide (j = fd)) as [->|Hne].
      * apply list_lookup_insert_eq. lia.
      * rewrite list_lookup_insert_ne by done. apply Hn; lia.
    + split; [done|]. split; [rewrite C; apply S2|done].
  - injection H1 as <-. apply (IH (S fd) k k' H); [|done]. exists p. split; [done|]. split; [done|]. intros j Hj Hj'.
    destruct (decide (j = fd)) as [->|Hne]; [|apply Hn; lia]. rewrite nth_lookup in E.
    destruct (lookup_lt_is_Some_2 (pr_ofile p) fd) as [o Ho]; [lia|]. rewrite Ho in *. cbn in E. by subst.
Qed.

Lemma calm_reparent i : calm (reparent i).
Proof.
  unfold reparent. calms. intros k b k' _ [= _ <-]. split; try done. cbn. unfold reparent_procs. rewrite <- list_fmap_compose.
  apply list_fmap_ext. intros j p _. cbn. by case_decide.
Qed.
Lemma kexit_bal status k k' : balanced d k -> kexit kend status k = Ret (tt, k') -> balanced d k'.
Proof.
  intros H Hr. unfold kexit in Hr. apply kbind_inv in Hr as (me & k0 & H0 & Hr).
  unfold myproc in H0. destruct (k_cur k) as [i|] eqn:Hc; [|discriminate H0]. injection H0 as -> ->.
  destruct (ba_cur _ _ H _ Hc) as (p & Hp & Hd). minv Hr. destruct (decide _); [discriminate Hk|].
  apply kbind_inv in Hk as ([] & k1 & H1 & Hr).
  edestruct (close_files_bal me (Z.to_nat NOFILE) 0) as (B1 & C1 & p1 & Hp1 & D1 & N1); [exact H| |exact H1|].
  { exists p. split; [done|]. split; [done|]. lia. }
  change (Z.to_nat NOFILE) with 16%nat in N1. assert (pr_ofile p1 = no_files) as Ho.
  { pose proof (ba_len _ _ B1 me p1 Hp1) as Hl. apply list_eq. intros j. destruct (decide (j < 16)%nat) as [Hj|Hj].
    - rewrite N1 by lia. symmetry. by apply lookup_replicate_2.
    - rewrite !lookup_ge_None_2; [done|rewrite length_replicate; lia|lia]. }
  calm_step B1 Hr cwd k2 S2 B2. calm_step B2 Hr u3 k3 S3 B3. calm_step B3 Hr u4 k4 S4 B4.
  pose proof (calm_reparent me) as CR. calm_step B4 Hr u5 k5 S5 B5. calm_step B5 Hr par k6 S6 B6. calm_step B6 Hr u7 k7 S7 B7.
  pose proof (transitivity S2 (transitivity S3 (transitivity S4 (transitivity S5 (transitivity S6 S7))))) as S.
  minv Hr. injection Hk as <-. apply (bal_updp d (set_cur None k7)); [by apply bal_idle|]. intros q Hq. cbn in Hq.
  destruct (shape_lookup _ _ _ _ S Hq) as (p1' & Hp1' & E). rewrite Hp1 in Hp1'. injection Hp1' as <-. injection E as _ E.
  split; [done|]. split; [by rewrite <- E|]. intros E'. discriminate E'.
Qed.

Lemma find_zombie_child me ps : forall i c, find_zombie me i ps = Some c ->
  (i <= c)%nat /\ exists p, ps !! (c - i)%nat = Some p /\ pr_state p = ZOMBIE.
Proof.
  induction ps as [|p ps IH]; intros i c; cbn; [discriminate|]. case_decide as E.
  - intros [= <-]. split; [lia|]. exists p. rewrite Nat.sub_diag. split; [done|apply E].
  - intros (Hc & q & Hq & Hs)%IH. split; [lia|]. exists q. split; [|done]. by replace (c - i)%nat with (S (c - S i)) by lia.
Qed.
Lemma kwait_bal addr k r k' : balanced d k -> kwait kend addr k = Ret (r, k') -> balanced d k' /\ k_cur k' = k_cur k.
Proof.
  intros H Hr. unfold kwait in Hr. calm_step H Hr me k0 S0 B0. minv Hr. destruct (find_zombie _ _ _) as [c|] eqn:E.
  - destruct (find_zombie_child _ _ _ _ E) as (_ & p & Hp & Hs). rewrite Nat.sub_0_r in Hp.
    assert (dead p = true) as Hdead by (unfold dead; by rewrite Hs).
    calm_step B0 Hk p0 k1 S1 B1. calm_step B1 Hk pt k2 S2 B2. calm_step B2 Hk cr k3 S3 B3.
    pose proof (transitivity S1 (transitivity S2 S3)) as S. rewrite <- (sm_cur _ _ S0), <- (sm_cur _ _ S).
    destruct (shape_lookup_l _ _ _ _ S Hp) as (q & Hq & Eq). injection Eq as Eq1 Eq2. rewrite Hdead in Eq1.
    destruct (_ <? 0); [by injection Hk as _ <-|]. apply kbind_inv in Hk as ([] & k4 & H4 & Hk). injection Hk as _ <-.
    apply (freeproc_bal c k3 k4 B3); [|exists q; split; [done|by apply (ba_dead _ _ B3 c)]|done].
    intros Hc. destruct (ba_cur _ _ B3 c Hc) as (q' & Hq' & N). congruence.
  - rewrite <- (sm_cur _ _ S0). match type of Hk with ?m _ = _ => assert (calm m) as C by calms end.
    destruct (calm_bal _ _ _ _ _ C B0 Hk) as [S B]. split; [done|apply (sm_cur _ _ S)].
Qed.
End refs.

(** ** Descriptors *)
Lemma argfd_run n k r k' : argfd n k = Ret (r, k') -> k' = k /\
  match r with Some (fd, f) => exists me, k_cur k = Some me /\ holds k me fd f | None => True end.
Proof.
  intros Hr. unfold argfd, argint in Hr. apply kbind_inv in Hr as (fd & k1 & H1 & Hr).
  assert (k1 = k) as ->.
  { apply kbind_inv in H1 as (x & k2 & H2 & H1). injection H1 as _ <-. unfold argraw in H2.
    destruct n as [|[|[|[|[|[|]]]]]]; try discriminate H2; unfold mine, myproc, kbind in H2;
      destruct (k_cur k); try discriminate H2; by injection H2 as _ <-. }
  destruct (_ || _); [by injection Hr as <- <-|].
  apply kbind_inv in Hr as (o & k2 & H2 & Hr). unfold mine, myproc, kbind in H2. destruct (k_cur k) as [me|] eqn:Hc; [|discriminate H2].
  injection H2 as <- <-. injection Hr as <- <-. split; [done|].
  destruct (nth (Z.to_nat fd) (pr_ofile (getp k me)) None) as [f|] eqn:E; [|done]. exists me. split; [done|].
  rewrite nth_lookup in E. unfold holds, getp in *. destruct (k_procs k !! me) as [p|].
  - exists p. split; [done|]. cbn in E. destruct (pr_ofile p !! _); cbn in E; congruence.
  - cbn [default] in E. exfalso. change (default None (no_files !! Z.to_nat fd) = Some f) in E.
    destruct (no_files !! Z.to_nat fd) eqn:E2; [|discriminate E]. apply lookup_replicate in E2 as [-> _]. discriminate E.
Qed.

Section calls.
Context (kend trampoline forkret : Z).

Lemma sys_dup_bal d k r k' : balanced d k -> sys_dup k = Ret (r, k') -> balanced d k' /\ k_cur k' = k_cur k.
Proof.
  intros H Hr. unfold sys_dup in Hr. apply kbind_inv in Hr as (a & k1 & H1 & Hr). apply argfd_run in H1 as [-> Ha].
  destruct a as [[fd f]|]; [|by injection Hr as _ <-]. destruct Ha as (me & Hc & _).
  apply kbind_inv in Hr as (fd' & k1 & H1 & Hr). destruct (fdalloc_bal d k f fd' k1 me H Hc H1) as (C1 & B1).
  destruct fd' as [fd'|]; [|subst k1; by injection Hr as _ <-]. destruct B1 as (B1 & _ & _).
  apply kbind_inv in Hr as (x & k2 & H2 & Hr). injection Hr as _ <-. destruct (filedup_bal _ _ _ _ _ B1 H2) as ((_ & C2) & _ & B2).
  split; [|by rewrite C2, C1]. eapply balanced_ext; [exact B2|]. apply gain_lose.
Qed.

Lemma sys_close_bal d k r k' : balanced d k -> sys_close kend k = Ret (r, k') -> balanced d k' /\ k_cur k' = k_cur k.
Proof.
  intros H Hr. unfold sys_close in Hr. apply kbind_inv in Hr as (a & k1 & H1 & Hr). apply argfd_run in H1 as [-> Ha].
  destruct a as [[fd f]|]; [|by injection Hr as _ <-]. destruct Ha as (me & Hc & Hh).
  rewrite (kbind_ret _ _ _ _ _ (myproc_run k me Hc)) in Hr. minv Hr.
  pose proof (clear_fd d k me fd f H Hh) as B1. apply kbind_inv in Hk as (u & k2 & H2 & Hr). injection Hr as _ <-.
  destruct (fileclose_bal kend _ _ _ _ _ B1 H2) as ((_ & C2) & B2). split; [|by rewrite C2].
  eapply balanced_ext; [exact B2|]. apply lose_gain.
Qed.

Lemma calm_cur {A} (m : K A) d k a k' : calm m -> balanced d k -> m k = Ret (a, k') -> balanced d k' /\ k_cur k' = k_cur k.
Proof. intros C B Hr. destruct (calm_bal m d k a k' C B Hr) as [S B']. split; [done|apply (sm_cur _ _ S)]. Qed.

Lemma sys_open_bal d k r k' : balanced d k -> sys_open kend k = Ret (r, k') -> balanced d k' /\ k_cur k' = k_cur k.
Proof.
  intros H Hr. unfold sys_open in Hr. calm_step H Hr om k1 S1 B1. calm_step B1 Hr path k2 S2 B2.
  rewrite <- (sm_cur _ _ S1), <- (sm_cur _ _ S2). destruct path as [path|]; [|by injection Hr as _ <-].
  calm_step B2 Hr u3 k3 S3 B3. calm_step B3 Hr ip k4 S4 B4. rewrite <- (sm_cur _ _ S3), <- (sm_cur _ _ S4).
  destruct ip as [ip|]; [|refine (calm_cur _ _ _ _ _ _ B4 Hr); calms].
  pose proof (calm_ffs kend (fun U => ifield ip id)) as Cf. calm_step B4 Hr i k5 S5 B5. rewrite <- (sm_cur _ _ S5).
  destruct (_ && _); [refine (calm_cur _ _ _ _ _ _ B5 Hr); calms|].
  apply kbind_inv in Hr as (f & k6 & H6 & Hr). destruct (filealloc_bal _ _ _ _ B5 H6) as ((_ & C6) & B6). rewrite <- C6.
  destruct f as [f|]; [|refine (calm_cur _ _ _ _ _ _ B6 Hr); calms].
  apply kbind_inv in Hr as (fd & k7 & H7 & Hr).
  assert (exists me, k_cur k6 = Some me) as [me Hme].
  { unfold fdalloc, myproc, kbind in H7. destruct (k_cur k6); [by eexists|discriminate H7]. }
  destruct (fdalloc_bal _ _ _ _ _ me B6 Hme H7) as (C7 & B7). rewrite Hme, <- C7. destruct fd as [fd|].
  - refine (calm_cur _ _ _ _ _ _ _ Hr); [calms|]. eapply balanced_ext; [apply B7|]. apply lose_gain.
  - subst k7. apply kbind_inv in Hr as (u & k8 & H8 & Hr). destruct (fileclose_bal kend _ _ _ _ _ B6 H8) as ((_ & C8) & B8).
    rewrite <- C8. refine (calm_cur _ _ _ _ _ _ _ Hr); [calms|]. eapply balanced_ext; [exact B8|]. apply lose_gain.
Qed.

Lemma pipealloc_bal d k r k' : balanced d k -> pipealloc kend k = Ret (r, k') -> k_cur k' = k_cur k /\
  match r with Some (f0, f1) => balanced (gain (gain d f0) f1) k' | None => balanced d k' end.
Proof.
  intros H Hr. unfold pipealloc in Hr. apply kbind_inv in Hr as (f0 & k1 & H1 & Hr).
  destruct (filealloc_bal _ _ _ _ H H1) as ((_ & C1) & B1). rewrite <- C1. destruct f0 as [f0|]; [|by injection Hr as <- <-].
  apply kbind_inv in Hr as (f1 & k2 & H2 & Hr). destruct (filealloc_bal _ _ _ _ B1 H2) as ((_ & C2) & B2). rewrite <- C2.
  assert (forall a b k b0, fileclose kend a b = Ret (b0, k) -> forall e, balanced (gain e a) b -> balanced e k /\ k_cur k = k_cur b) as Close.
  { intros a b k3 b0 Hc e B. destruct (fileclose_bal kend _ _ _ _ _ B Hc) as ((_ & C) & B'). split; [|done].
    eapply balanced_ext; [exact B'|]. apply lose_gain. }
  destruct f1 as [f1|].
  2:{ apply kbind_inv in Hr as (u & k3 & H3 & Hr). injection Hr as <- <-. by destruct (Close _ _ _ _ H3 d B2). }
  calm_step B2 Hr pi k3 S3 B3. rewrite <- (sm_cur _ _ S3). destruct (pi =? 0).
  - apply kbind_inv in Hr as (u & k4 & H4 & Hr). apply kbind_inv in Hr as (u' & k5 & H5 & Hr). injection Hr as <- <-.
    assert (balanced (gain (gain d f1) f0) k3) as B3' by (eapply balanced_ext; [exact B3|]; intros g; unfold gain; lia).
    destruct (Close _ _ _ _ H4 _ B3') as [B4 C4]. destruct (Close _ _ _ _ H5 _ B4) as [B5 C5]. split; [by rewrite C5, C4|done].
  - calm_step B3 Hr u4 k4 S4 B4. calm_step B4 Hr u5 k5 S5 B5. calm_step B5 Hr u6 k6 S6 B6. injection Hr as <- <-.
    split; [|done]. by rewrite (sm_cur _ _ S6), (sm_cur _ _ S5), (sm_cur _ _ S4).
Qed.

Lemma closes_both d rf wf k u1 k1 u2 k2 : balanced (gain (gain d rf) wf) k ->
  fileclose kend rf k = Ret (u1, k1) -> fileclose kend wf k1 = Ret (u2, k2) -> balanced d k2 /\ k_cur k2 = k_cur k.
Proof.
  intros B H1 H2. destruct (fileclose_bal kend _ _ _ _ _ B H1) as ((_ & C1) & B1).
  destruct (fileclose_bal kend _ _ _ _ _ B1 H2) as ((_ & C2) & B2). split; [|by rewrite C2].
  eapply balanced_ext; [exact B2|]. intros g. unfold gain, lose. lia.
Qed.
Lemma pipe_bad_bal d me rf wf fds k r k' : balanced (gain (gain d rf) wf)
    (set_procs (alter (fun p => set_ofile (foldr (fun fd l => <[fd := None]> l) (pr_ofile p) fds) p) me (k_procs k)) k) ->
  pipe_bad kend me rf wf fds k = Ret (r, k') -> balanced d k' /\ k_cur k' = k_cur k.
Proof.
  intros B Hr. unfold pipe_bad in Hr. minv Hr. apply kbind_inv in Hk as (u1 & k1 & H1 & Hr).
  apply kbind_inv in Hr as (u2 & k2 & H2 & Hr). injection Hr as _ <-. by apply (closes_both d rf wf _ u1 k1 u2 k2 B H1 H2).
Qed.
Lemma holds_same k k' i fd f : same k k' -> holds k i fd f -> holds k' i fd f.
Proof. intros S. apply holds_shapes, same_shapes, S. Qed.

Lemma clear_two d me k fd0 fd1 f0 f1 : balanced d k -> holds k me fd0 f0 -> holds k me fd1 f1 -> fd0 <> fd1 ->
  balanced (gain (gain d f1) f0)
    (set_procs (alter (fun p => set_ofile (<[fd0 := None]> (<[fd1 := None]> (pr_ofile p))) p) me (k_procs k)) k).
Proof.
  intros B H0 H1 Hne. pose proof (clear_fd d k me fd1 f1 B H1) as B1.
  assert (holds (set_procs (alter (fun p => set_ofile (<[fd1 := None]> (pr_ofile p)) p) me (k_procs k)) k) me fd0 f0) as H0'.
  { destruct H0 as (p & Hp & Ho). eexists. cbn. rewrite list_lookup_alter_eq, Hp. split; [reflexivity|]. cbn.
    by rewrite list_lookup_insert_ne. }
  pose proof (clear_fd _ _ me fd0 f0 B1 H0') as B2. cbn [k_procs set_procs] in B2.
  replace (alter _ me (k_procs k)) with (alter (fun p => set_ofile (<[fd0 := None]> (pr_ofile p)) p) me
    (alter (fun p => set_ofile (<[fd1 := None]> (pr_ofile p)) p) me (k_procs k))); [exact B2|].
  apply list_eq. intros j. destruct (decide (j = me)) as [->|]; [|by rewrite !list_lookup_alter_ne].
  rewrite !list_lookup_alter_eq. by destruct (k_procs k !! me).
Qed.

Lemma sys_pipe_bal d k r k' : balanced d k -> sys_pipe kend k = Ret (r, k') -> balanced d k' /\ k_cur k' = k_cur k.
Proof.
  intros H Hr. unfold sys_pipe in Hr. apply kbind_inv in Hr as (me & k0 & H0 & Hr).
  unfold myproc in H0. destruct (k_cur k) as [i|] eqn:Hc; [|discriminate H0]. injection H0 as -> ->.
  calm_step H Hr fda k1 S1 B1. apply kbind_inv in Hr as (fs & k2 & H2 & Hr).
  destruct (pipealloc_bal _ _ _ _ B1 H2) as (C2 & B2). rewrite (sm_cur _ _ S1), Hc in C2. rewrite <- C2.
  destruct fs as [[rf wf]|]; [|by injection Hr as _ <-].
  apply kbind_inv in Hr as (fd0 & k3 & H3 & Hr). destruct (fdalloc_bal _ _ _ _ _ me B2 C2 H3) as (C3 & B3). rewrite C2, <- C3.
  destruct fd0 as [fd0|].
  2:{ subst k3. refine (pipe_bad_bal _ _ _ _ _ _ _ _ _ Hr).
      eapply balanced_same; [|exact B2]. split; try done. by apply shape_alter. }
  destruct B3 as (B3 & Hh0 & _).
  assert (balanced (gain d wf) k3) as B3' by (eapply balanced_ext; [exact B3|]; intros g; unfold gain, lose; lia).
  apply kbind_inv in Hr as (fd1 & k4 & H4 & Hr). destruct (fdalloc_bal _ _ _ _ _ me B3' C3 H4) as (C4 & B4). rewrite C3, <- C4.
  destruct fd1 as [fd1|].
  2:{ subst k4. refine (pipe_bad_bal _ _ _ _ _ _ _ _ _ Hr).
      eapply balanced_ext; [apply (clear_fd _ k3 me fd0 rf B3' Hh0)|]. intros g. unfold gain. lia. }
  destruct B4 as (B4 & Hh1 & Hkeep). destruct (Hkeep fd0 rf Hh0) as [Hh0' Hne].
  assert (balanced d k4) as B4' by (eapply balanced_ext; [exact B4|]; intros g; unfold gain, lose; lia).
  assert (forall k5 r5 k6, same k4 k5 -> balanced d k5 -> pipe_bad kend me rf wf [fd0; fd1] k5 = Ret (r5, k6) ->
    balanced d k6 /\ k_cur k6 = k_cur k5) as Bad.
  { intros k5 r5 k6 S5 B5 Hb. refine (pipe_bad_bal _ _ _ _ _ _ _ _ _ Hb).
    eapply balanced_ext; [apply (clear_two d me k5 fd0 fd1 rf wf B5); [by eapply holds_same|by eapply holds_same|done]|].
    intros g. unfold gain. lia. }
  calm_step B4' Hr pt k5 S5 B5. calm_step B5 Hr cr k6 S6 B6. rewrite <- (sm_cur _ _ S5), <- (sm_cur _ _ S6).
  destruct (_ <? 0); [by apply (Bad _ _ _ (transitivity S5 S6) B6 Hr)|].
  calm_step B6 Hr cr' k7 S7 B7. rewrite <- (sm_cur _ _ S7).
  destruct (_ <? 0); [by apply (Bad _ _ _ (transitivity S5 (transitivity S6 S7)) B7 Hr)|]. by injection Hr as _ <-.
Qed.
End calls.
