(* ===== verification/SyscallTheorems.v ===== *)
(** * System calls: the open-file counts, and the sandbox

    Every system call leaves the reference counts of open files exact, and a
    call that the process's mask forbids has no effect but its answer and a
    message on the console. *)
From S2P Require Import Prelude Machine Printf Kalloc Vm VmWalk Spinlock Blocks Bio Log Fs Kstate Demo Pipe Console File Proc ProcInv ProcTheorems Sysargs Exec Sysfile Syscall FileRefs SyscallInv.

(** ** Strings from user memory *)
Definition is_byte (c : Z) : Prop := 0 <= c < 256.

Lemma walkaddr_pure pt va s : 0 <= va -> exists r, walkaddr pt va s = Ret (r, s).
Proof.
  intros Hva. unfold walkaddr. destruct (MAXVA <=? va) eqn:E; [by eexists|].
  rewrite (kbind_ret _ _ _ _ _ (walk_false pt va s ltac:(lia))). destruct (_ =? 0) eqn:E0; [by eexists|].
  unfold ldpte. rewrite E0. unfold kbind, gets. destruct (flag _ PTE_V); [|by eexists]. destruct (flag _ PTE_U); by eexists.
Qed.
Lemma copyinstr_page_bytes n m : forall a dst, Forall is_byte dst -> Forall is_byte (copyinstr_page n m a dst).2.
Proof.
  induction n as [|n IH]; intros a dst H; cbn [copyinstr_page]; [done|].
  assert (is_byte (ldb m a)) as Hb by apply ldb_range.
  destruct (ldb m a =? 0); [apply Forall_app; split; [done|apply Forall_singleton; unfold is_byte; lia]|].
  apply IH. apply Forall_app. split; [done|]. by apply Forall_singleton.
Qed.
(** One round: it ends, or goes on at the next page. *)
Lemma copyinstr_round fuel pt dst srcva max s : 0 <= srcva < 2 ^ 64 -> Forall is_byte dst ->
  (exists r dst', copyinstr_loop (S fuel) pt dst srcva max s = Ret ((r, dst'), s) /\ Forall is_byte dst') \/
  (exists dst', copyinstr_loop (S fuel) pt dst srcva max s =
     copyinstr_loop fuel pt dst' (u64 (PGROUNDDOWN srcva + PGSIZE)) (Z.max 0 (max - (PGSIZE - (srcva - PGROUNDDOWN srcva)))) s /\
     Forall is_byte dst' /\ 0 < max).
Proof.
  intros Hv Hd. cbn [copyinstr_loop]. destruct (0 <? max) eqn:Em; [|left; by do 2 eexists].
  pose proof (PGROUNDDOWN_bounds srcva) as Hr. rewrite PGROUNDDOWN_eq in *. set (va0 := srcva / PGSIZE * PGSIZE) in *.
  assert (0 <= va0) as H0 by (unfold va0, PGSIZE in *; dlia). destruct (walkaddr_pure pt va0 s H0) as [pa Hpa].
  rewrite (kbind_ret _ _ _ _ _ Hpa).
  destruct (pa =? 0); [left; by do 2 eexists|]. rewrite (kbind_ret (gets pm) _ s (pm s) s eq_refl).
  set (n := if max <? PGSIZE - (srcva - va0) then max else PGSIZE - (srcva - va0)).
  pose proof (copyinstr_page_bytes (Z.to_nat n) (pm s) (pa + (srcva - va0)) dst Hd) as Hb.
  destruct (copyinstr_page _ _ _ _) as [got dst']. cbn in Hb. destruct got; [left; by do 2 eexists|]. right. exists dst'.
  split; [|split; [done|lia]]. f_equal. unfold n. destruct (max <? _) eqn:E; lia.
Qed.
Lemma copyinstr_reads pt srcva max s : 0 <= srcva < 2 ^ 64 -> 0 <= max <= PGSIZE ->
  exists r dst, copyinstr pt srcva max s = Ret ((r, dst), s) /\ Forall is_byte dst.
Proof.
  intros Hv Hm. unfold copyinstr. replace (Z.to_nat (max / PGSIZE) + 3)%nat with (S (S (S (Z.to_nat (max / PGSIZE))))) by lia.
  assert (forall a, 0 <= u64 a < 2 ^ 64) as Hu by (intros a; unfold u64; apply Z.mod_pos_bound; lia).
  destruct (copyinstr_round (S (S (Z.to_nat (max / PGSIZE)))) pt [] srcva max s Hv (Forall_nil_2 _)) as [H1|(d1 & -> & B1 & _)]; [done|].
  set (v1 := u64 _) in *. set (m1 := Z.max 0 _). assert (0 <= m1 <= PGSIZE) as Hm1.
  { pose proof (PGROUNDDOWN_bounds srcva). unfold m1. lia. }
  destruct (copyinstr_round (S (Z.to_nat (max / PGSIZE))) pt d1 v1 m1 s (Hu _) B1) as [H2|(d2 & -> & B2 & _)]; [done|].
  assert (PGROUNDDOWN v1 = v1) as Ev.
  { unfold v1. rewrite PGROUNDDOWN_eq, PGROUNDDOWN_eq. unfold u64, PGSIZE. dlia. }
  rewrite Ev, Z.sub_diag, Z.sub_0_r, Z.max_l by lia.
  destruct (copyinstr_round (Z.to_nat (max / PGSIZE)) pt d2 (u64 (v1 + PGSIZE)) 0 s (Hu _) B2) as [H3|(d3 & _ & _ & H3)]; [done|lia].
Qed.

Lemma cstr_idem l : cstr (cstr l) = cstr l.
Proof. induction l as [|c l IH]; cbn; [done|]. destruct (c =? 0) eqn:E; [done|]. cbn. by rewrite E, IH. Qed.
Lemma Forall_cstr (P : Z -> Prop) l : Forall P l -> Forall P (cstr l).
Proof. induction 1; cbn; [constructor|]. destruct (_ =? 0); by constructor. Qed.
(** [strncmp] finds two strings equal only if they are. *)
Lemma path_cmp_cstr n : forall p q, Forall is_byte p -> Forall is_byte q -> (length (cstr q) < n)%nat ->
  strncmp n p q = 0 -> cstr p = cstr q.
Proof.
  induction n as [|n IH]; intros p q Hp Hq Hl H; [lia|]. cbn [strncmp] in H.
  assert (is_byte (hd 0 p) /\ is_byte (hd 0 q)) as [Ba Bb] by (split; [destruct Hp|destruct Hq]; cbn; try done; unfold is_byte; lia).
  assert (forall a, is_byte a -> u8 a = a) as Hu by (intros a Ha; unfold u8, is_byte in *; by apply Z.mod_small).
  destruct (negb _ && _) eqn:E in H.
  - apply andb_true_iff in E as [E1 E2]. destruct Hp as [|a p Ha Hp]; [discriminate E1|]. cbn in E1, E2, H.
    destruct Hq as [|b q Hb Hq]; [cbn in E2; rewrite E2 in E1; discriminate E1|]. cbn in E1, E2, H. apply Z.eqb_eq in E2 as <-.
    cbn in Hl |- *. destruct (a =? 0); [done|]. cbn in Hl. f_equal. apply IH; try done. lia.
  - rewrite !Hu in H by done. assert (hd 0 p = hd 0 q) as Eh.
    { unfold i32, is_byte in *. revert H. dlia. }
    rewrite Eh, Z.eqb_refl, andb_true_r in E. apply negb_false_iff, Z.eqb_eq in E. rewrite E in Eh.
    destruct p as [|a p]; cbn in Eh |- *; [|rewrite Eh; cbn]; (destruct q as [|b q]; cbn in E |- *; [done|by rewrite E]).
Qed.

Section calls.
Context (kend trampoline forkret : Z).

(** After a handler the counts are exact and, unless the process is gone, it
    is still the one that runs. *)
Definition kept (d : nat -> Z) (k k' : kstate) : Prop := balanced d k' /\ k_cur k' = k_cur k.
Lemma still_bal (m : K io) d k r k' : (forall a k1, m k = Ret (a, k1) -> kept d k k1) -> still m k = Ret (r, k') ->
  balanced d k' /\ (r <> None -> k_cur k' = k_cur k).
Proof. intros H (a & k1 & H1 & H2)%kbind_inv. injection H2 as _ <-. destruct (H a k1 H1). by split. Qed.
Lemma handler_bal pad num h d k r k' : syscalls kend trampoline forkret pad num = Some h -> balanced d k -> h k = Ret (r, k') ->
  balanced d k' /\ (r <> None -> k_cur k' = k_cur k).
Proof.
  intros Hh B Hr. assert (forall m : K io, calm m -> forall a k1, m k = Ret (a, k1) -> kept d k k1) as Calm.
  { intros m C a k1 H1. by apply (calm_cur m d k a k1 C B). }
  unfold syscalls in Hh. destruct num as [|p|p]; try discriminate Hh.
  repeat (destruct p as [p|p|]; try discriminate Hh); injection Hh as <-;
    try (eapply still_bal; [|exact Hr]; intros a k1; cbv beta).
  all: try (apply Calm; unfold sys_read, sys_write, sys_fstat, sys_getpid, sys_uptime, sys_kill; calms; fail).
  all: try (intros H1; first [ by eapply sys_open_bal | by eapply sys_dup_bal | by eapply sys_pipe_bal | by eapply sys_close_bal ]).
  - unfold sys_wait. intros H1. calm_step B H1 p k2 S2 B2. unfold kept. rewrite <- (sm_cur _ _ S2). by eapply kwait_bal.
  - unfold sys_exit in Hr. calm_step B Hr n k2 S2 B2. apply kbind_inv in Hr as ([] & k3 & H3 & Hr). injection Hr as <- <-.
    split; [by eapply kexit_bal|done].
  - unfold sys_fork. intros (x & k2 & H2 & H3)%kbind_inv. injection H3 as _ <-. by eapply kfork_bal.
Qed.

Lemma calm_refuse me fmt num : calm (refuse me fmt num).
Proof. unfold refuse, set_a0. calms. Qed.
Lemma dispatch_bal pad num h d me k r k' : syscalls kend trampoline forkret pad num = Some h -> balanced d k ->
  dispatch me h k = Ret (r, k') -> balanced d k' /\ (r <> None -> k_cur k' = k_cur k).
Proof.
  intros Hh B Hr. unfold dispatch in Hr. apply kbind_inv in Hr as (x & k1 & H1 & Hr).
  destruct (handler_bal _ _ _ _ _ _ _ Hh B H1) as [B1 C1].
  assert (calm (match x with Some (Done v) => set_a0 me v ;;; kret x | _ => kret x end)) as C by (unfold set_a0; calms).
  destruct (calm_bal _ d k1 r k' C B1 Hr) as [S2 B2]. split; [done|]. intros Hn. rewrite (sm_cur _ _ S2). apply C1.
  intros ->. by injection Hr as <- _.
Qed.
Lemma syscall_bal pad d k r k' : balanced d k -> syscall kend trampoline forkret pad k = Ret (r, k') ->
  balanced d k' /\ (r <> None -> k_cur k' = k_cur k).
Proof.
  intros B Hr. unfold syscall in Hr. calm_step B Hr me k1 S1 B1. calm_step B1 Hr p k2 S2 B2.
  rewrite <- (sm_cur _ _ S1), <- (sm_cur _ _ S2).
  assert (forall fmt num k3, same k2 k3 -> balanced d k3 -> refuse me fmt num k3 = Ret (r, k') -> balanced d k' /\ (r <> None -> k_cur k' = k_cur k2))
    as Refuse.
  { intros fmt num k3 S3 B3 H3. destruct (calm_bal _ _ _ _ _ (calm_refuse _ _ _) B3 H3) as [S4 B4]. split; [done|].
    by rewrite (sm_cur _ _ S4), (sm_cur _ _ S3). }
  destruct (syscalls _ _ _ _ _) as [h|] eqn:Hh; [|by eapply (Refuse _ _ k2)].
  destruct (_ && negb _) in Hr; [|by eapply dispatch_bal]. destruct (_ && _) in Hr; [|by eapply (Refuse _ _ k2)].
  calm_step B2 Hr path k3 S3 B3.
  destruct (match path with Some _ => _ | None => _ end); [rewrite <- (sm_cur _ _ S3); by eapply dispatch_bal|by eapply (Refuse _ _ k3)].
Qed.

(** C4: file reference counts are exact.  In every state where [f->ref] is, for
    each entry of the file table, the number of descriptors of all processes
    that name it (and exited processes and free slots hold no descriptors), a
    system call of any kind, whatever its arguments and its outcome, leaves a
    state where the same holds. *)
Theorem file_refs_exact pad k r k' : balanced none k -> syscall kend trampoline forkret pad k = Ret (r, k') -> balanced none k'.
Proof. intros B Hr. apply (syscall_bal pad none k r k' B Hr). Qed.

(** ** The sandbox *)
(** What differs after a call of process [me] that answered -1 and printed. *)
Record only_answered (k k' : kstate) (me : nat) : Prop := {
  oa_procs : k_procs k' = alter (fun p => set_tf (tf_set TF_a0 (-1) (pr_tf p)) p) me (k_procs k);
  oa_cur : k_cur k' = k_cur k;
  oa_files : k_ftable k' = k_ftable k;
  oa_pipes : k_pipes k' = k_pipes k;
  oa_rest : k_nextpid k' = k_nextpid k /\ k_initproc k' = k_initproc k /\ k_ticks k' = k_ticks k /\ k_cons k' = k_cons k;
  oa_disk : f_log (k_fs k') = f_log (k_fs k) /\ f_sb (k_fs k') = f_sb (k_fs k) /\ f_itable (k_fs k') = f_itable (k_fs k);
  oa_mem : f_mem (k_fs k') = f_mem (k_fs k);
  oa_uart : exists msg, k_uart k' = mkUart (u_sent (k_uart k) ++ msg) (u_busy (k_uart k)) }.

Lemma refuse_run me num k : exists k', refuse me blocked_fmt num k = Ret (Some (Done (-1)), k') /\ only_answered k k' me.
Proof.
  unfold refuse. rewrite (kbind_ret (pfield me id) _ k (getp k me) k eq_refl).
  assert (exists o, KPrintf.printf blocked_fmt [VInt (pr_pid (getp k me)); VStr (Some (cstr (pr_name (getp k me)))); VInt num] = Some o)
    as [o Ho] by (eexists; reflexivity).
  unfold kprintf. rewrite Ho. eexists. split; [reflexivity|]. split; try done. by eexists.
Qed.

(** The string argument of a system call: fetching it changes nothing. *)
Lemma argstr_pure n max k me p : k_cur k = Some me -> k_procs k !! me = Some p -> Forall (fun x => 0 <= x < 2 ^ 64) (pr_tf p) ->
  (n < 6)%nat -> 0 <= max <= PGSIZE ->
  exists o, argstr kend n max k = Ret (o, set_fs (fs_of k) k) /\
    match o with Some path => Forall is_byte path /\ cstr path = path | None => True end.
Proof.
  intros Hc Hp Hw Hn Hm. assert (getp k me = p) as Eg by (unfold getp; by rewrite Hp).
  assert (exists a, 0 <= a < 2 ^ 64 /\ argraw n k = Ret (a, k)) as (a & Ha & Hraw).
  { assert (forall f, 0 <= tf_get f (pr_tf p) < 2 ^ 64) as Hf.
    { intros f. unfold tf_get. rewrite nth_lookup. destruct (pr_tf p !! f) eqn:E; cbn; [|lia].
      rewrite Forall_forall in Hw. by apply Hw, list_elem_of_lookup_2 with f. }
    destruct n as [|[|[|[|[|[|n]]]]]]; [..|lia]; cbn [argraw]; rewrite (mine_run _ k me Hc), Eg; by eexists. }
  unfold argstr, argaddr, fetchstr. rewrite (kbind_ret _ _ _ _ _ Hraw), (kbind_ret _ _ _ _ _ (mine_run _ k me Hc)), Eg.
  destruct (copyinstr_reads (pr_pagetable p) a max (f_mem (k_fs k)) Ha Hm) as (r & dst & Hcp & Hb).
  assert (memop kend (copyinstr (pr_pagetable p) a max) k = Ret ((r, dst), set_fs (fs_of k) k)) as Hmem.
  { unfold memop, fsop, umem. cbn [fs_of f_mem]. rewrite Hcp. reflexivity. }
  rewrite (kbind_ret _ _ _ _ _ Hmem). cbn [fst snd]. destruct (r <? 0); eexists; (split; [reflexivity|]); [done|].
  split; [by apply Forall_cstr|apply cstr_idem].
Qed.
Lemma only_answered_fs k k' me : only_answered (set_fs (fs_of k) k) k' me -> only_answered k k' me.
Proof. intros [H1 H2 H3 H4 H5 H6 H7 H8]. by split. Qed.

(** C24: a system call that the mask of the process forbids has no effect.  If
    bit [num] of the mask is set, the call is not interpose itself, and it is
    not an open or exec of exactly the allowed path, then it always returns
    with -1 for the caller, and no process, file, pipe, inode, disk block, byte
    of memory or counter changes but the caller's a0; only a message goes to the
    console. *)
Theorem sandbox_blocks pad k me p num :
  k_cur k = Some me -> k_procs k !! me = Some p -> Forall (fun x => 0 <= x < 2 ^ 64) (pr_tf p) ->
  num = i32 (tf_get TF_a7 (pr_tf p)) -> 1 <= num <= 21 -> Z.testbit (pr_mask p) num = true ->
  Forall is_byte (pr_allowed_path p) -> (length (cstr (pr_allowed_path p)) < 128)%nat ->
  (num = SYS_open \/ num = SYS_exec -> forall k1, argstr kend 0 MAXPATH k <> Ret (Some (cstr (pr_allowed_path p)), k1)) ->
  exists k', syscall kend trampoline forkret pad k = Ret (Some (Done (-1)), k') /\ only_answered k k' me.
Proof.
  intros Hc Hp Hw Hnum Hr Hbit Hby Hlen Hpath. unfold syscall. rewrite (kbind_ret _ _ _ _ _ (myproc_run k me Hc)).
  rewrite (kbind_ret (pfield me id) _ k (getp k me) k eq_refl). assert (getp k me = p) as -> by (unfold getp; by rewrite Hp).
  cbv zeta. unfold id. rewrite <- Hnum.
  assert (exists h, syscalls kend trampoline forkret pad num = Some h) as [h ->].
  { destruct num as [|q|q]; try lia. repeat (destruct q as [q|q|]; try lia; try by eexists). }
  replace (num =? SYS_interpose) with false by (unfold SYS_interpose; lia).
  replace (Z.land (pr_mask p) (Z.shiftl 1 num) =? 0) with false.
  2:{ symmetry. apply Z.eqb_neq. intros E. assert (Z.testbit (Z.land (pr_mask p) (Z.shiftl 1 num)) num = false) as F
        by (by rewrite E, Z.bits_0). rewrite Z.land_spec, Hbit, Z.shiftl_spec, Z.sub_diag in F by lia. discriminate F. }
  cbn [negb andb]. destruct (_ && _) eqn:E; [|apply refuse_run].
  apply andb_true_iff in E as [E _]. destruct (argstr_pure 0 MAXPATH k me p Hc Hp Hw) as (o & Ho & Hbytes);
    [lia|unfold MAXPATH, PGSIZE; lia|].
  rewrite (kbind_ret _ _ _ _ _ Ho).
  assert (match o with Some path => strncmp (Z.to_nat MAXPATH) path (pr_allowed_path p) =? 0 | None => false end = false) as ->.
  { destruct o as [path|]; [|done]. apply Z.eqb_neq. intros E0. destruct Hbytes as [Hb Hcs].
    apply (Hpath ltac:(unfold SYS_open, SYS_exec in *; lia) (set_fs (fs_of k) k)). rewrite Ho, <- Hcs.
    by rewrite (path_cmp_cstr (Z.to_nat MAXPATH) path (pr_allowed_path p) Hb Hby Hlen E0). }
  destruct (refuse_run me num (set_fs (fs_of k) k)) as (k' & -> & H). exists k'. split; [done|]. by apply only_answered_fs.
Qed.
End calls.

(** ** Examples *)
(** A process in dup(0), with file 3 on descriptor 0. *)
Definition dup_proc : proc := set_tf (tf_set TF_a7 10 (replicate 36 0)) (set_ofile (Some 3%nat :: replicate 15 None) user_proc).
Definition dup_k : kstate :=
  set_ftable (<[3%nat := mkFile FD_INODE 1 true false 0 1 0 0]> (replicate 100 file0))
    (set_procs (dup_proc :: replicate 63 proc0) (demo_k [])).
Lemma total_free f n : total f (replicate n proc0) = 0%nat.
Proof. induction n as [|n IH]; [done|]. unfold total in *. cbn [replicate sum_list_with]. rewrite IH. reflexivity. Qed.
Lemma dup_balanced : balanced none dup_k.
Proof.
  assert (forall i p, k_procs dup_k !! i = Some p -> (i = 0%nat /\ p = dup_proc) \/ p = proc0) as Hl.
  { intros [|i] p; cbn [dup_k k_procs set_procs set_ftable lookup list_lookup]; [intros [= <-]; by left|].
    intros [-> _]%lookup_replicate. by right. }
  split.
  - intros f. change (k_procs dup_k) with (dup_proc :: replicate 63 proc0).
    change (total f (dup_proc :: replicate 63 proc0)) with (ind f (Some 3%nat) + 0 + total f (replicate 63 proc0))%nat.
    rewrite total_free. unfold getf. cbn [dup_k k_ftable set_ftable]. unfold none, ind.
    destruct (decide (f = 3%nat)) as [->|Hne].
    + rewrite list_lookup_insert_eq by (rewrite length_replicate; lia). reflexivity.
    + rewrite list_lookup_insert_ne, decide_False by congruence.
      destruct (replicate 100 file0 !! f) as [x|] eqn:E; [apply lookup_replicate in E as [-> _]|]; reflexivity.
  - intros i p [[_ ->]| ->]%Hl; reflexivity.
  - intros i p [[_ ->]| ->]%Hl; [intros E; discriminate E|reflexivity].
  - intros i [= <-]. exists dup_proc. split; reflexivity.
Qed.
Lemma dup_answer : answer (syscall 4096 8192 0 []) dup_k = Some (Some (Done 1)).
Proof. vm_compute. reflexivity. Qed.
Lemma file_refs_exact_witness : balanced none (after (syscall 4096 8192 0 []) dup_k).
Proof. exact (file_refs_exact 4096 8192 0 [] dup_k _ _ dup_balanced (after_run _ _ _ dup_answer)). Defined.

(** open("/b") of a process that may only open "/a". *)
Definition boxed : proc :=
  set_mask (2 ^ 15) (set_allowed_path (chars "/a" ++ replicate 126 0) (set_tf (tf_set TF_a7 15 (replicate 36 0)) user_proc)).
Definition boxed_k : kstate := set_procs (boxed :: replicate 63 proc0) (demo_k (chars "/b")).
Lemma boxed_path : answer (argstr 4096 0 MAXPATH) boxed_k = Some (Some (chars "/b")).
Proof. vm_compute. reflexivity. Qed.
Lemma sandbox_blocks_witness : exists k', syscall 4096 8192 0 [] boxed_k = Ret (Some (Done (-1)), k') /\ only_answered boxed_k k' 0.
Proof.
  apply (sandbox_blocks 4096 8192 0 [] boxed_k 0 boxed 15).
  - reflexivity.
  - reflexivity.
  - apply Forall_insert; [apply Forall_replicate; lia|vm_compute; split; [discriminate|reflexivity]].
  - reflexivity.
  - lia.
  - reflexivity.
  - apply Forall_app. split; [|apply Forall_replicate; unfold is_byte; lia].
    repeat (apply Forall_cons; split; [vm_compute; split; [discriminate|reflexivity]|]). apply Forall_nil_2.
  - apply Nat.ltb_lt. vm_compute. reflexivity.
  - intros _ k1 H. pose proof boxed_path as H'. unfold answer in H'. rewrite H in H'. discriminate H'.
Defined.
