(* ===== verification/ExecTheorems.v ===== *)
(** * exec: all or nothing, and the layout of the new stack *)
From S2P Require Import Prelude Machine Printf Kalloc Vm Blocks Bio BioTheorems Log Fs FsTheorems Kstate Demo Console File Proc ProcTheorems Sysargs Exec.

(** ** Code that leaves the process table alone *)
Definition steady {A} (m : K A) : Prop := forall k a k', m k = Ret (a, k') -> k_procs k' = k_procs k /\ k_cur k' = k_cur k.
Lemma steady_bind {A B} (m : K A) (f : A -> K B) : steady m -> (forall a, steady (f a)) -> steady (kbind m f).
Proof.
  intros Hm Hf k b k' (a & k1 & H1 & H2)%kbind_inv. destruct (Hm _ _ _ H1), (Hf _ _ _ _ H2). split; congruence.
Qed.
Lemma steady_ret {A} (a : A) : steady (kret a).
Proof. by intros k b k' [= _ <-]. Qed.
Lemma steady_gets {A} (f : kstate -> A) : steady (gets f).
Proof. by intros k b k' [= _ <-]. Qed.
Lemma steady_panic {A} e : steady (panic (A := A) e).
Proof. intros k b k' H. discriminate H. Qed.
Lemma steady_nofuel {A} : steady (nofuel (A := A)).
Proof. intros k b k' H. discriminate H. Qed.
Lemma steady_fsop kend {A} (m : UserMem pmem -> M (fstate bstate pmem) A) : steady (fsop kend m).
Proof. intros k a k'. unfold fsop. destruct (m _ _) as [[b s]| | |]; intros H; try discriminate H. by injection H as <- <-. Qed.
Lemma steady_myproc : steady myproc.
Proof. intros k a k'. unfold myproc. destruct (k_cur k) eqn:E; intros H; [|discriminate H]. by injection H as _ <-. Qed.
Create HintDb steady.
#[export] Hint Resolve steady_ret steady_gets steady_panic steady_nofuel steady_fsop steady_myproc : steady.
Ltac steadies :=
  repeat match goal with
  | |- steady (kbind _ _) => apply steady_bind; [|intros ?]
  | |- steady (match ?x with _ => _ end) => destruct x
  | |- steady (let _ := _ in _) => cbv zeta
  | |- steady _ => solve [eauto with steady]
  end.
Lemma steady_memop kend {A} (m : M pmem A) : steady (memop kend m).
Proof. apply steady_fsop. Qed.
Lemma steady_logop kend {A} (m : M (lstate bstate) A) : steady (logop kend m).
Proof. apply steady_fsop. Qed.
Lemma steady_pfield {A} i (f : proc -> A) : steady (pfield i f).
Proof. apply steady_gets. Qed.
#[export] Hint Resolve steady_memop steady_logop steady_pfield : steady.
Lemma steady_copyout kend pt dst src : steady (copyout_k kend pt dst src).
Proof. unfold copyout_k, mine. steadies. Qed.
#[export] Hint Resolve steady_copyout : steady.

Section exec.
Context (kend trampoline : Z).

Lemma steady_loadseg_loop fuel : forall pt va ip o sz i, steady (loadseg_loop kend fuel pt va ip o sz i).
Proof. induction fuel as [|fuel IH]; intros; cbn [loadseg_loop]; steadies. Qed.
#[local] Hint Resolve steady_loadseg_loop : steady.
Lemma steady_load_segments cnt : forall pt ip o sz, steady (load_segments kend cnt pt ip o sz).
Proof. induction cnt as [|cnt IH]; intros; cbn [load_segments]; unfold loadseg; steadies. Qed.
Lemma steady_push_args argv : forall pt sb sp us, steady (push_args kend pt sb argv sp us).
Proof. induction argv as [|a argv IH]; intros; cbn [push_args]; steadies. Qed.
#[local] Hint Resolve steady_load_segments steady_push_args : steady.
Lemma steady_push_stack pt sb argv sp : steady (push_stack kend pt sb argv sp).
Proof. unfold push_stack. steadies. Qed.
Lemma steady_exec_bad pt sz ip : steady (exec_bad kend pt sz ip).
Proof. unfold exec_bad. steadies. Qed.

(** ** The stack *)
(** The strings [argv] at [addrs], each below the one before, down from [sp]. *)
Fixpoint stacked (stackbase : Z) (argv : list (list Z)) (addrs : list Z) (sp sp' : Z) : Prop :=
  match argv, addrs with
  | [], [] => sp' = sp
  | a :: argv, x :: addrs =>
      x mod 16 = 0 /\ stackbase <= x /\ x + Z.of_nat (length a) + 1 <= sp /\ stacked stackbase argv addrs x sp'
  | _, _ => False
  end.
Lemma push_sp_range sp n : 0 <= n <= sp -> sp < 2 ^ 64 -> push_sp sp n mod 16 = 0 /\ push_sp sp n + n <= sp /\ 0 <= push_sp sp n.
Proof. intros Hn Hs. unfold push_sp. cbv zeta. rewrite u64_small by lia. dlia. Qed.
Lemma push_args_layout pt sb argv : forall sp us us' sp' k k', sb <= sp < 2 ^ 64 -> 0 <= sb ->
  Forall (fun a : list Z => Z.of_nat (length a) + 1 <= sb) argv ->
  push_args kend pt sb argv sp us k = Ret (Some (us', sp'), k') ->
  exists addrs, us' = us ++ addrs /\ stacked sb argv addrs sp sp' /\ sb <= sp' <= sp /\ (length us' <= Nat.max 32 (length us))%nat.
Proof.
  induction argv as [|a argv IH]; intros sp us us' sp' k k' Hsp Hsb Hl Hr; cbn [push_args] in Hr.
  { injection Hr as <- <- _. exists []. rewrite app_nil_r. split_and!; [done|done|lia|lia|lia]. }
  apply Forall_cons in Hl as [Ha Hl]. destruct (MAXARG <=? _) eqn:Em; [discriminate Hr|].
  destruct (push_sp_range sp (Z.of_nat (length a) + 1)) as (P1 & P2 & P3); [lia|lia|]. cbv zeta in Hr. set (x := push_sp _ _) in *.
  destruct (x <? sb) eqn:Ex; [discriminate Hr|]. apply kbind_inv in Hr as (r & k1 & _ & Hr). destruct (r <? 0); [discriminate Hr|].
  destruct (IH x (us ++ [x]) us' sp' k1 k') as (addrs & -> & S & B & L); [lia|done|done|done|].
  exists (x :: addrs). rewrite <- app_assoc. split; [done|]. split; [cbn [stacked]; split_and!; try done; lia|]. split; [lia|].
  rewrite !length_app in *. cbn [length] in *. unfold MAXARG in Em. lia.
Qed.

(** The stack that exec builds.  When [push_stack] succeeds, every argument
    string lies above [stackbase] and below the string before it (the first
    below the top of the stack), at a 16-byte boundary, no two overlapping; the
    array of pointers, one per argument and a 0, lies below them all, also
    16-byte aligned and above [stackbase]; and there are at most MAXARG of
    them. *)
Theorem exec_stack_layout pt sb argv sp k sp' k' :
  sb <= sp < 2 ^ 64 -> 272 <= sb -> Forall (fun a : list Z => Z.of_nat (length a) + 1 <= sb) argv ->
  push_stack kend pt sb argv sp k = Ret (Some sp', k') ->
  exists addrs low, stacked sb argv addrs sp low /\ (length argv <= 32)%nat /\
    sp' mod 16 = 0 /\ sb <= sp' /\ sp' + 8 * (Z.of_nat (length argv) + 1) <= low /\ low <= sp.
Proof.
  intros Hsp Hsb Hl Hr. unfold push_stack in Hr. apply kbind_inv in Hr as (o & k1 & H1 & Hr). destruct o as [[us low]|]; [|discriminate Hr].
  destruct (push_args_layout pt sb argv sp [] us low k k1 Hsp ltac:(lia) Hl H1) as (addrs & -> & S & B & L). cbn [app length] in *.
  assert (length addrs = length argv) as El.
  { clear -S. revert addrs sp S. induction argv as [|a argv IH]; intros [|x addrs] sp S; cbn in S; try done.
    cbn. f_equal. destruct S as (_ & _ & _ & S). by apply (IH addrs x). }
  rewrite Nat.max_l in L by lia. set (n := 8 * Z.of_nat (length addrs + 1)) in *.
  destruct (push_sp_range low n) as (P1 & P2 & P3); [unfold n; lia|lia|]. cbv zeta in Hr. set (x := push_sp _ _) in *.
  destruct (x <? sb) eqn:Ex; [discriminate Hr|]. apply kbind_inv in Hr as (r & k2 & _ & Hr). destruct (r <? 0); [discriminate Hr|].
  injection Hr as <- _. exists addrs, low. split; [done|]. rewrite <- El. unfold n in *. split_and!; try done; lia.
Qed.

(** ** All or nothing *)
Definition new_image (path : list Z) (pagetable sz sp entry : Z) (p : proc) : proc :=
  set_tf (tf_set TF_sp sp (tf_set TF_epc entry (tf_set TF_a1 sp (pr_tf p))))
    (set_sz sz (set_pagetable pagetable (set_name (safestrcpy (pr_name p) (last_elem path path) 16) p))).
Lemma exec_commit_run me path pt sz sp entry argc oldsz k r k' : exec_commit kend me path pt sz sp entry argc oldsz k = Ret (r, k') ->
  r = i32 argc /\ k_procs k' = alter (new_image path pt sz sp entry) me (k_procs k) /\ k_cur k' = k_cur k.
Proof.
  unfold exec_commit. intros H. minv H. minv Hk. minv Hk0. minv Hk. minv Hk0. apply kbind_inv in Hk as (u & k1 & H1 & Hk). injection Hk as <- <-.
  destruct (steady_memop _ _ _ _ _ H1) as [E1 E2]. split; [done|]. rewrite E1, E2. split; [|done]. cbn.
  apply list_eq. intros j. destruct (decide (j = me)) as [->|]; [|by rewrite !list_lookup_alter_ne].
  rewrite !list_lookup_alter_eq. by destruct (_ !! me).
Qed.
Lemma exec_bad_run pt sz ip k r k' : exec_bad kend pt sz ip k = Ret (r, k') -> r = -1 /\ k_procs k' = k_procs k /\ k_cur k' = k_cur k.
Proof.
  intros H. pose proof (steady_exec_bad _ _ _ _ _ _ H). split; [|done]. unfold exec_bad in H.
  apply kbind_inv in H as (u & k1 & _ & H). apply kbind_inv in H as (u' & k2 & _ & H). by injection H as <- _.
Qed.

(** What a failed exec and a successful one leave. *)
Definition exec_outcome (me : nat) (path : list Z) (argv : list (list Z)) (r : Z) (k k' : kstate) : Prop :=
  k_cur k' = k_cur k /\
  ((r = -1 /\ k_procs k' = k_procs k) \/
   (r = Z.of_nat (length argv) /\ (length argv <= 32)%nat /\ exists pagetable sz sp entry,
      pagetable <> 0 /\ k_procs k' = alter (new_image path pagetable sz sp entry) me (k_procs k))).
Lemma exec_outcome_steady me path argv r k1 k k' : k_procs k1 = k_procs k /\ k_cur k1 = k_cur k ->
  exec_outcome me path argv r k1 k' -> exec_outcome me path argv r k k'.
Proof. intros [E1 E2] H. unfold exec_outcome in *. by rewrite E1, E2 in H. Qed.
Lemma exec_outcome_bad me path argv pt sz ip r k k' : exec_bad kend pt sz ip k = Ret (r, k') -> exec_outcome me path argv r k k'.
Proof. intros (E1 & E2 & E3)%exec_bad_run. split; [done|]. by left. Qed.

(** The first command of [H] leaves the process table alone. *)
Ltac outcome_step H x k1 Hx :=
  apply kbind_inv in H as (x & k1 & Hx & H);
  match type of Hx with ?m _ = _ =>
    let S := fresh in assert (steady m) as S by steadies; apply (exec_outcome_steady _ _ _ _ k1); [exact (S _ _ _ Hx)|]; clear S
  end.
#[local] Hint Resolve steady_push_stack steady_exec_bad : steady.
Lemma push_args_count pt sb argv : forall sp us r k k', push_args kend pt sb argv sp us k = Ret (Some r, k') ->
  (length us <= 32)%nat -> (length us + length argv <= 32)%nat.
Proof.
  induction argv as [|a argv IH]; intros sp us r k k' Hr Hl; cbn [push_args length] in *; [lia|].
  destruct (MAXARG <=? _) eqn:E; [discriminate Hr|]. cbv zeta in Hr. destruct (_ <? sb); [discriminate Hr|].
  apply kbind_inv in Hr as (c & k1 & _ & Hr). destruct (c <? 0); [discriminate Hr|].
  apply IH in Hr; rewrite length_app in *; cbn in *; unfold MAXARG in E; lia.
Qed.
Lemma exec_stack_outcome me path argv pt sz entry k r k' : pt <> 0 -> exec_stack kend me path argv pt sz entry k = Ret (r, k') ->
  exec_outcome me path argv r k k'.
Proof.
  intros Hpt Hr. unfold exec_stack in Hr. outcome_step Hr oldsz k1 H1. cbv zeta in Hr. outcome_step Hr sz1 k2 H2.
  destruct (sz1 =? 0); [by eapply exec_outcome_bad|]. outcome_step Hr u k3 H3. outcome_step Hr o k4 H4.
  destruct o as [sp|]; [|by eapply exec_outcome_bad].
  assert (length argv <= 32)%nat as Hl.
  { unfold push_stack in H4. apply kbind_inv in H4 as (a & k5 & H5 & H4). destruct a as [us|]; [|discriminate H4].
    apply push_args_count in H5; [exact H5|cbn; lia]. }
  destruct (exec_commit_run _ _ _ _ _ _ _ _ _ _ _ Hr) as (-> & E1 & E2). split; [done|]. right. rewrite i32_small by lia.
  split; [done|]. split; [done|]. by exists pt, sz1, sp, entry.
Qed.

End exec.

(** ** Examples *)
Lemma demo_push : answer (push_stack 4096 4096 1024 [chars "ls"; chars "-l"] 4096) (demo_k []) = Some (Some 4032).
Proof. vm_compute. reflexivity. Qed.
Lemma exec_stack_layout_witness : exists addrs low, stacked 1024 [chars "ls"; chars "-l"] addrs 4096 low /\ 4032 + 24 <= low.
Proof.
  destruct (exec_stack_layout 4096 4096 1024 [chars "ls"; chars "-l"] 4096 (demo_k []) 4032 _ ltac:(lia) ltac:(lia)
    ltac:(repeat (apply Forall_cons; split; [cbn; lia|]); apply Forall_nil_2) (after_run _ _ _ demo_push))
    as (addrs & low & H1 & _ & _ & _ & H2 & _).
  exists addrs, low. split; [exact H1|exact H2].
Defined.

(** An executable file "p" in the root directory, with no segments. *)
Definition exec_header : list Z := le 4 ELF_MAGIC ++ replicate 20 0 ++ le 8 4096 ++ replicate 992 0.
Definition exec_disk : gmap Z block :=
  <[33 := put_dinode zero_block (dip 2) (mkDinode T_FILE 0 0 1 64 (37 :: replicate 12 0))]>
  (<[37 := exec_header]>
   (<[36 := splice demo_dirblock 32 (mk_dirent 2 (strncpy 14 (chars "p")))]> demo_disk)).
Definition exec_k : kstate :=
  set_fs (mkF (mkLstate (boot exec_disk 1) (ls_log (f_log (k_fs demo_family)))) demo_sb (set_size 48 demo_dir :: replicate 49 inode0)
    (f_mem (k_fs demo_family)) 2 0) demo_family.
Lemma exec_answer : answer (kexec 4096 8192 (chars "p") [chars "p"; chars "-l"]) exec_k = Some 2.
Proof. vm_compute. reflexivity. Qed.
