(* ===== verification/Asm.v ===== *)
(** * kernel/trampoline.S, swtch.S and kernelvec.S

    The assembly routines as lists of instructions with an interpreter.
    Memory is 64-bit words by address: every access is a [ld] or [sd] of an
    aligned word.  uservec and userret run with the user page table, which maps
    the process's trapframe page at TRAPFRAME. *)
From S2P Require Import Prelude Machine.

Inductive reg :=
| ra | sp | gp | tp | t0 | t1 | t2 | s0 | s1 | a0 | a1 | a2 | a3 | a4 | a5 | a6 | a7
| s2 | s3 | s4 | s5 | s6 | s7 | s8 | s9 | s10 | s11 | t3 | t4 | t5 | t6.
#[export] Instance reg_eq_dec : EqDecision reg.
Proof. solve_decision. Defined.

Inductive instr :=
| Sd (r : reg) (off : Z) (base : reg)
| Ld (r : reg) (off : Z) (base : reg)
| Li (r : reg) (v : Z)
| Addi (r r' : reg) (v : Z)
| Csrw_sscratch (r : reg) | Csrr_sscratch (r : reg)
| Csrw_satp (r : reg)
| Sfence
| Jalr (r : reg)    (* jump to the address in r *)
| Ret | Sret.

Record machine := mkMachine { regs : reg -> Z; mem : Z -> Z; sscratch : Z; satp : Z; target : Z }.
Definition setr (r : reg) (v : Z) (m : machine) : machine :=
  mkMachine (fun x => if decide (x = r) then v else regs m x) (mem m) (sscratch m) (satp m) (target m).
Definition setm (a v : Z) (m : machine) : machine :=
  mkMachine (regs m) (fun x => if decide (x = a) then v else mem m x) (sscratch m) (satp m) (target m).

(** [sepc] is where [sret] goes; the jumps record their target. *)
Definition step (sepc : Z) (i : instr) (m : machine) : machine :=
  match i with
  | Sd r off b => setm (regs m b + off) (regs m r) m
  | Ld r off b => setr r (mem m (regs m b + off)) m
  | Li r v => setr r v m
  | Addi r r' v => setr r (u64 (regs m r' + v)) m
  | Csrw_sscratch r => mkMachine (regs m) (mem m) (regs m r) (satp m) (target m)
  | Csrr_sscratch r => setr r (sscratch m) m
  | Csrw_satp r => mkMachine (regs m) (mem m) (sscratch m) (regs m r) (target m)
  | Sfence => m
  | Jalr r => mkMachine (regs m) (mem m) (sscratch m) (satp m) (regs m r)
  | Ret => mkMachine (regs m) (mem m) (sscratch m) (satp m) (regs m ra)
  | Sret => mkMachine (regs m) (mem m) (sscratch m) (satp m) sepc
  end.
Definition run (sepc : Z) (p : list instr) (m : machine) : machine := foldl (fun m i => step sepc i m) m p.

Definition saves (b : reg) (l : list (reg * Z)) : list instr := (fun x => Sd x.1 x.2 b) <$> l.
Definition loads (b : reg) (l : list (reg * Z)) : list instr := (fun x => Ld x.1 x.2 b) <$> l.

(** ** trampoline.S *)
(** The user registers but a0, with their offsets in the trapframe. *)
Definition user_regs : list (reg * Z) :=
  [(ra, 40); (sp, 48); (gp, 56); (tp, 64); (t0, 72); (t1, 80); (t2, 88); (s0, 96); (s1, 104);
   (a1, 120); (a2, 128); (a3, 136); (a4, 144); (a5, 152); (a6, 160); (a7, 168);
   (s2, 176); (s3, 184); (s4, 192); (s5, 200); (s6, 208); (s7, 216); (s8, 224); (s9, 232);
   (s10, 240); (s11, 248); (t3, 256); (t4, 264); (t5, 272); (t6, 280)].
Definition uservec : list instr :=
  [Csrw_sscratch a0; Li a0 TRAPFRAME] ++ saves a0 user_regs ++
  [Csrr_sscratch t0; Sd t0 112 a0;
   Ld sp 8 a0; Ld tp 32 a0; Ld t0 16 a0; Ld t1 0 a0;
   Sfence; Csrw_satp t1; Sfence; Jalr t0].
Definition userret : list instr :=
  [Sfence; Csrw_satp a0; Sfence; Li a0 TRAPFRAME] ++ loads a0 user_regs ++ [Ld a0 112 a0; Sret].

(** ** swtch.S *)
Definition context_regs : list (reg * Z) :=
  [(ra, 0); (sp, 8); (s0, 16); (s1, 24); (s2, 32); (s3, 40); (s4, 48); (s5, 56); (s6, 64); (s7, 72);
   (s8, 80); (s9, 88); (s10, 96); (s11, 104)].
Definition swtch : list instr := saves a0 context_regs ++ loads a1 context_regs ++ [Ret].

(** ** kernelvec.S: before and after the call of kerneltrap *)
Definition kernel_saved : list (reg * Z) :=
  [(ra, 0); (gp, 16); (tp, 24); (t0, 32); (t1, 40); (t2, 48); (a0, 72); (a1, 80); (a2, 88); (a3, 96);
   (a4, 104); (a5, 112); (a6, 120); (a7, 128); (t3, 216); (t4, 224); (t5, 232); (t6, 240)].
Definition kernel_restored : list (reg * Z) :=
  [(ra, 0); (gp, 16); (t0, 32); (t1, 40); (t2, 48); (a0, 72); (a1, 80); (a2, 88); (a3, 96);
   (a4, 104); (a5, 112); (a6, 120); (a7, 128); (t3, 216); (t4, 224); (t5, 232); (t6, 240)].
Definition kernelvec_enter : list instr := [Addi sp sp (-256)] ++ saves sp kernel_saved.
Definition kernelvec_leave : list instr := loads sp kernel_restored ++ [Addi sp sp 256; Sret].

(** ** Runs of stores and of loads *)
Lemma run_app sepc p q m : run sepc (p ++ q) m = run sepc q (run sepc p m).
Proof. apply foldl_app. Qed.
Lemma saves_regs sepc b l : forall m, regs (run sepc (saves b l) m) = regs m /\ sscratch (run sepc (saves b l) m) = sscratch m /\
  satp (run sepc (saves b l) m) = satp m.
Proof. induction l as [|[r o] l IH]; intros m; [done|]. apply (IH (setm (regs m b + o) (regs m r) m)). Qed.
Lemma saves_other sepc b l a : forall m, (forall r o, (r, o) ∈ l -> a <> regs m b + o) -> mem (run sepc (saves b l) m) a = mem m a.
Proof.
  induction l as [|[r o] l IH]; intros m H; [done|]. change (mem (run sepc (saves b l) (setm (regs m b + o) (regs m r) m)) a = mem m a).
  rewrite IH; [cbn; rewrite decide_False; [done|apply (H r); left]|]. intros r' o' Hin. apply (H r'). by right.
Qed.
Lemma saves_mem sepc b l r o : NoDup l.*2 -> forall m, (r, o) ∈ l -> mem (run sepc (saves b l) m) (regs m b + o) = regs m r.
Proof.
  induction l as [|[r' o'] l IH]; intros Hnd m Hin; [by apply elem_of_nil in Hin|]. cbn in Hnd. apply NoDup_cons in Hnd as [Hn Hnd].
  change (mem (run sepc (saves b l) (setm (regs m b + o') (regs m r') m)) (regs m b + o) = regs m r).
  apply elem_of_cons in Hin as [[= -> ->]|Hin].
  - rewrite saves_other; [cbn; by rewrite decide_True|]. intros r o Hin E. cbn in E. assert (o = o') as -> by lia.
    apply Hn, list_elem_of_fmap. by exists (r, o').
  - exact (IH Hnd (setm (regs m b + o') (regs m r') m) Hin).
Qed.
Lemma loads_mem sepc b l : forall m, mem (run sepc (loads b l) m) = mem m /\ satp (run sepc (loads b l) m) = satp m.
Proof. induction l as [|[r o] l IH]; intros m; [done|]. apply (IH (setr r (mem m (regs m b + o)) m)). Qed.
Lemma loads_other sepc b l x : forall m, x ∉ l.*1 -> regs (run sepc (loads b l) m) x = regs m x.
Proof.
  induction l as [|[r o] l IH]; intros m Hn; [done|]. cbn in Hn. apply not_elem_of_cons in Hn as [H1 H2].
  change (regs (run sepc (loads b l) (setr r (mem m (regs m b + o)) m)) x = regs m x). rewrite IH by done. cbn. by rewrite decide_False.
Qed.
Lemma loads_regs sepc b l r o : NoDup l.*1 -> b ∉ l.*1 -> forall m, (r, o) ∈ l ->
  regs (run sepc (loads b l) m) r = mem m (regs m b + o).
Proof.
  induction l as [|[r' o'] l IH]; intros Hnd Hb m Hin; [by apply elem_of_nil in Hin|]. cbn in Hnd, Hb.
  apply NoDup_cons in Hnd as [Hn Hnd]. apply not_elem_of_cons in Hb as [Hb1 Hb2].
  change (regs (run sepc (loads b l) (setr r' (mem m (regs m b + o')) m)) r = mem m (regs m b + o)).
  apply elem_of_cons in Hin as [[= -> ->]|Hin]; [rewrite loads_other by done; cbn; by rewrite decide_True|].
  rewrite (IH Hnd Hb2 _ Hin). cbn. by rewrite decide_False.
Qed.

Lemma user_regs_nodup : NoDup user_regs.*1 /\ NoDup user_regs.*2.
Proof. split; apply (bool_decide_unpack _); vm_compute; exact I. Qed.
Lemma context_regs_nodup : NoDup context_regs.*1 /\ NoDup context_regs.*2.
Proof. split; apply (bool_decide_unpack _); vm_compute; exact I. Qed.
Lemma kernel_regs_nodup : NoDup kernel_restored.*1 /\ NoDup kernel_saved.*2.
Proof. split; apply (bool_decide_unpack _); vm_compute; exact I. Qed.

(** Every register but a0 has a place in the trapframe. *)
Lemma user_regs_all r : r <> a0 -> exists o, (r, o) ∈ user_regs /\ 40 <= o <= 280 /\ o <> 112.
Proof.
  intros H. destruct r; try done; eexists; (split; [apply list_elem_of_In; cbn; repeat (first [left; reflexivity|right])|lia]).
Qed.
Lemma user_regs_range r o : (r, o) ∈ user_regs -> r <> a0 /\ 40 <= o /\ o <> 112.
Proof.
  intros H%list_elem_of_In. cbn in H. repeat (destruct H as [[= <- <-]|H]; [split; [discriminate|lia]|]). done.
Qed.
Lemma context_regs_range r o : (r, o) ∈ context_regs -> r <> a0 /\ r <> a1 /\ 0 <= o <= 104.
Proof.
  intros H%list_elem_of_In. cbn in H. repeat (destruct H as [[= <- <-]|H]; [split_and!; [discriminate|discriminate|lia|lia]|]). done.
Qed.

(** The rest of [uservec], once the registers are saved. *)
Definition uservec_tail : list instr :=
  [Csrr_sscratch t0; Sd t0 112 a0; Ld sp 8 a0; Ld tp 32 a0; Ld t0 16 a0; Ld t1 0 a0; Sfence; Csrw_satp t1; Sfence; Jalr t0].
Lemma uservec_tail_run sepc m : let m1 := run sepc uservec_tail m in
  mem m1 = (fun x => if decide (x = regs m a0 + 112) then sscratch m else mem m x) /\
  regs m1 sp = mem m1 (regs m a0 + 8) /\ regs m1 tp = mem m1 (regs m a0 + 32) /\
  target m1 = mem m1 (regs m a0 + 16) /\ satp m1 = mem m1 (regs m a0 + 0).
Proof. split_and!; reflexivity. Qed.

(** The state after [uservec], as the trapframe and the kernel see it. *)
Lemma uservec_run sepc m : let m1 := run sepc uservec m in
  (forall r o, (r, o) ∈ user_regs -> mem m1 (TRAPFRAME + o) = regs m r) /\ mem m1 (TRAPFRAME + 112) = regs m a0 /\
  regs m1 sp = mem m (TRAPFRAME + 8) /\ regs m1 tp = mem m (TRAPFRAME + 32) /\
  target m1 = mem m (TRAPFRAME + 16) /\ satp m1 = mem m (TRAPFRAME + 0).
Proof.
  set (mA := run sepc [Csrw_sscratch a0; Li a0 TRAPFRAME] m). set (mB := run sepc (saves a0 user_regs) mA).
  assert (forall r, r <> a0 -> regs mA r = regs m r) as HA by (intros r Hr; cbn; by rewrite decide_False).
  assert (regs mB = regs mA /\ sscratch mB = sscratch mA /\ satp mB = satp mA) as (HB & HS & _) by apply saves_regs.
  assert (regs mB a0 = TRAPFRAME) as Ha0 by (rewrite HB; reflexivity).
  assert (forall o, (forall r o', (r, o') ∈ user_regs -> o <> o') -> mem mB (TRAPFRAME + o) = mem m (TRAPFRAME + o)) as Hother.
  { intros o Ho. unfold mB. rewrite saves_other; [done|]. intros r o' Hin E. change (regs mA a0) with TRAPFRAME in E.
    apply (Ho r o' Hin). lia. }
  assert (forall o, o < 40 -> mem mB (TRAPFRAME + o) = mem m (TRAPFRAME + o)) as Hlow.
  { intros o Ho. apply Hother. intros r o' Hin. destruct (user_regs_range _ _ Hin). lia. }
  replace (run sepc uservec m) with (run sepc uservec_tail mB) by (unfold uservec, mB, mA; by rewrite <- !run_app).
  assert (forall r o, (r, o) ∈ user_regs -> mem mB (TRAPFRAME + o) = regs m r) as Hsaved.
  { intros r o Hin. destruct (user_regs_range _ _ Hin) as (H1 & _). rewrite <- (HA r H1). change TRAPFRAME with (regs mA a0).
    apply saves_mem; [apply user_regs_nodup|done]. }
  cbv zeta. destruct (uservec_tail_run sepc mB) as (T1 & T2 & T3 & T4 & T5). rewrite T2, T3, T4, T5, T1, Ha0.
  assert (forall o, o < 40 -> (if decide (TRAPFRAME + o = TRAPFRAME + 112) then sscratch mB else mem mB (TRAPFRAME + o)) = mem m (TRAPFRAME + o))
    as Hlow' by (intros o Ho; rewrite decide_False by lia; by apply Hlow).
  split; [|split; [rewrite decide_True by done; rewrite HS; reflexivity|split_and!; apply Hlow'; lia]].
  intros r o Hin. destruct (user_regs_range _ _ Hin) as (_ & _ & H3). rewrite decide_False by lia. by apply Hsaved.
Qed.

(** C32: a trap preserves the user's registers.  [uservec] stores all 31 of them
    in the trapframe and enters the kernel at the address, with the stack, the
    hart id and the page table that the trapframe names.  Whatever the kernel
    then does to registers and memory, [userret] loads each register from its
    word of the trapframe, switches to the page table it is given and returns to
    sepc: if the kernel left these words alone, the user goes on with exactly
    the registers it had. *)
Theorem trap_saves_registers sepc pc m :
  let m1 := run sepc uservec m in
  (regs m1 sp = mem m (TRAPFRAME + 8) /\ regs m1 tp = mem m (TRAPFRAME + 32) /\
   target m1 = mem m (TRAPFRAME + 16) /\ satp m1 = mem m (TRAPFRAME + 0)) /\
  forall m2, (forall a, TRAPFRAME + 40 <= a <= TRAPFRAME + 280 -> mem m2 a = mem m1 a) ->
    (forall r, regs (run pc userret m2) r = regs m r) /\ satp (run pc userret m2) = regs m2 a0 /\ target (run pc userret m2) = pc.
Proof.
  intros m1. destruct (uservec_run sepc m) as (U1 & U2 & U3). fold m1 in U1, U2, U3. split; [done|]. intros m2 Hm.
  set (mA := run pc [Sfence; Csrw_satp a0; Sfence; Li a0 TRAPFRAME] m2). set (mB := run pc (loads a0 user_regs) mA).
  assert (a0 ∉ user_regs.*1) as Hn.
  { intros ([x o] & E & Hin)%list_elem_of_fmap. cbn in E. subst x. by destruct (user_regs_range _ _ Hin). }
  assert (regs mB a0 = TRAPFRAME) as Ha0 by (unfold mB; rewrite loads_other by done; reflexivity).
  destruct (loads_mem pc a0 user_regs mA) as [HM HS]. fold mB in HM, HS.
  replace (run pc userret m2) with (run pc [Ld a0 112 a0; Sret] mB) by (unfold userret, mB, mA; by rewrite <- !run_app).
  assert (forall r, r <> a0 -> regs mB r = regs m r) as Hrest.
  { intros r E. destruct (user_regs_all r E) as (o & Hin & Ho & _). unfold mB.
    rewrite (loads_regs _ _ _ r o (proj1 user_regs_nodup) Hn _ Hin). change (regs mA a0) with TRAPFRAME. change (mem mA) with (mem m2).
    rewrite Hm by lia. by apply U1. }
  clearbody mB. cbn -[TRAPFRAME]. rewrite Ha0, HM, HS. split; [|split; reflexivity]. intros r. case_decide as E; [|by apply Hrest].
  subst r. change (mem mA) with (mem m2). rewrite Hm by lia. done.
Qed.

Lemma run_ret sepc m : regs (run sepc [Ret] m) = regs m /\ mem (run sepc [Ret] m) = mem m /\ target (run sepc [Ret] m) = regs m ra.
Proof. split_and!; reflexivity. Qed.

(** A context switch preserves the callee-saved registers.  [swtch] leaves
    in the old context what a later [swtch] to it needs: when some other switch
    loads that context, with its 14 words untouched in between, ra, sp and
    s0 to s11 have the values they had when the first was called, and execution
    continues at the first call's return address. *)
Theorem swtch_restores sepc m m2 :
  regs m2 a1 = regs m a0 -> (regs m2 a0 + 112 <= regs m2 a1 \/ regs m2 a1 + 112 <= regs m2 a0) ->
  (regs m a0 + 112 <= regs m a1 \/ regs m a1 + 112 <= regs m a0) ->
  (forall a, regs m a0 <= a < regs m a0 + 112 -> mem m2 a = mem (run sepc swtch m) a) ->
  (forall r o, (r, o) ∈ context_regs -> regs (run sepc swtch m2) r = regs m r) /\ target (run sepc swtch m2) = regs m ra.
Proof.
  intros E1 D2 D1 Hm. assert ((a0 ∉ context_regs.*1) /\ (a1 ∉ context_regs.*1)) as [N0 N1].
  { split; intros ([x o] & E & Hin)%list_elem_of_fmap; cbn in E; subst x; by destruct (context_regs_range _ _ Hin) as (? & ? & ?). }
  assert (forall r o, (r, o) ∈ context_regs -> mem (run sepc swtch m) (regs m a0 + o) = regs m r) as S1.
  { intros r o Hin. unfold swtch. rewrite !run_app, (proj1 (proj2 (run_ret _ _))).
    rewrite (proj1 (loads_mem sepc a1 context_regs _)). apply saves_mem; [apply context_regs_nodup|done]. }
  assert (forall r o, (r, o) ∈ context_regs -> regs (run sepc (loads a1 context_regs) (run sepc (saves a0 context_regs) m2)) r = regs m r) as L2.
  { intros r o Hin. destruct (saves_regs sepc a0 context_regs m2) as [R2 _].
    rewrite (loads_regs sepc a1 context_regs r o (proj1 context_regs_nodup) N1 _ Hin), R2.
    destruct (context_regs_range _ _ Hin) as (_ & _ & Ho). rewrite saves_other.
    - rewrite E1, Hm by lia. by apply S1.
    - intros r' o' Hin'. destruct (context_regs_range _ _ Hin') as (_ & _ & Ho'). lia. }
  unfold swtch. rewrite !run_app, (proj1 (run_ret _ _)), (proj2 (proj2 (run_ret _ _))). split; [exact L2|]. apply (L2 ra 0). by left.
Qed.

Lemma kernel_saved_range r o : (r, o) ∈ kernel_saved -> r <> sp /\ 0 <= o <= 240.
Proof.
  intros H%list_elem_of_In. cbn in H. repeat (destruct H as [[= <- <-]|H]; [split; [discriminate|lia]|]). done.
Qed.
Lemma kernel_restored_saved r o : (r, o) ∈ kernel_restored -> (r, o) ∈ kernel_saved /\ r <> sp /\ r <> tp.
Proof.
  intros H%list_elem_of_In. cbn in H.
  repeat (destruct H as [[= <- <-]|H];
    [split_and!; [apply list_elem_of_In; cbn; repeat (first [left; reflexivity|right])|discriminate|discriminate]|]). done.
Qed.
Lemma kernel_regs_all r : r <> tp -> r <> sp ->
  ((exists o, (r, o) ∈ context_regs) /\ r <> ra /\ (r ∉ kernel_restored.*1)) \/ (exists o, (r, o) ∈ kernel_restored).
Proof.
  intros H1 H2. destruct r; try done;
    first [right; eexists; apply list_elem_of_In; cbn; repeat (first [left; reflexivity|right]); fail
          |left; split_and!; [eexists; apply list_elem_of_In; cbn; repeat (first [left; reflexivity|right])|discriminate|
             apply (bool_decide_unpack _); vm_compute; exact I]].
Qed.
Lemma run_leave_tail sepc m : let m1 := run sepc [Addi sp sp 256; Sret] m in
  (forall r, r <> sp -> regs m1 r = regs m r) /\ regs m1 sp = u64 (regs m sp + 256) /\ target m1 = sepc.
Proof. split_and!; [|reflexivity|reflexivity]. intros r H. cbn. by rewrite decide_False. Qed.

(** An interrupt in the kernel is transparent.  [kernelvec] saves the
    caller-saved registers below the stack pointer; if kerneltrap returns with
    the callee-saved registers, the stack pointer and that frame as they were
    (the C calling convention), every register but tp has the value it had when
    the interrupt arrived, and execution goes on at sepc.  tp keeps the id of
    the hart the process now runs on. *)
Theorem kernelvec_transparent pc sepc m m2 :
  256 <= regs m sp < 2 ^ 64 -> regs m2 sp = regs m sp - 256 ->
  (forall r o, (r, o) ∈ context_regs -> r <> ra -> r <> sp -> regs m2 r = regs m r) ->
  (forall a, regs m sp - 256 <= a < regs m sp -> mem m2 a = mem (run pc kernelvec_enter m) a) ->
  (forall r, r <> tp -> regs (run sepc kernelvec_leave m2) r = regs m r) /\
  regs (run sepc kernelvec_leave m2) tp = regs m2 tp /\ target (run sepc kernelvec_leave m2) = sepc.
Proof.
  intros Hs Hsp Hcs Hm. set (mA := run pc [Addi sp sp (-256)] m).
  assert (regs mA sp = regs m sp - 256) as HA by (change (regs mA sp) with (u64 (regs m sp + -256)); rewrite u64_small; lia).
  assert (forall r o, (r, o) ∈ kernel_saved -> mem (run pc kernelvec_enter m) (regs m sp - 256 + o) = regs m r) as Hsaved.
  { intros r o Hin. destruct (kernel_saved_range _ _ Hin) as [Hr _]. unfold kernelvec_enter. rewrite run_app. fold mA. rewrite <- HA.
    rewrite (saves_mem pc sp kernel_saved r o (proj2 kernel_regs_nodup) mA Hin). cbn. by rewrite decide_False. }
  clearbody mA. set (mC := run sepc (loads sp kernel_restored) m2).
  assert ((sp ∉ kernel_restored.*1) /\ (tp ∉ kernel_restored.*1)) as [Nsp Ntp].
  { split; intros ([x o] & E & Hin)%list_elem_of_fmap; cbn in E; subst x; by destruct (kernel_restored_saved _ _ Hin) as (_ & ? & ?). }
  replace (run sepc kernelvec_leave m2) with (run sepc [Addi sp sp 256; Sret] mC) by (unfold kernelvec_leave, mC; by rewrite <- run_app).
  destruct (run_leave_tail sepc mC) as (L1 & L2 & L3). split; [|split; [|done]].
  2:{ rewrite L1 by discriminate. unfold mC. by rewrite loads_other. }
  intros r Hr. destruct (decide (r = sp)) as [->|Hr2].
  { rewrite L2. unfold mC. rewrite loads_other, Hsp, u64_small; [lia|lia|done]. }
  rewrite L1 by done. destruct (kernel_regs_all r Hr Hr2) as [((o & Hin) & Hra & Hn)|(o & Hin)].
  - unfold mC. rewrite loads_other by done. by apply (Hcs r o).
  - unfold mC. rewrite (loads_regs sepc sp kernel_restored r o (proj1 kernel_regs_nodup) Nsp _ Hin), Hsp.
    destruct (kernel_restored_saved _ _ Hin) as (Hin' & _). destruct (kernel_saved_range _ _ Hin').
    rewrite Hm by lia. by apply Hsaved.
Qed.

(** ** Examples *)
(** Register [r] holds a number that names it. *)
Definition number (r : reg) : Z :=
  match r with
  | ra => 1 | sp => 8192 | gp => 3 | tp => 4 | t0 => 5 | t1 => 6 | t2 => 7 | s0 => 8 | s1 => 9 | a0 => 65536 | a1 => 131072 | a2 => 12
  | a3 => 13 | a4 => 14 | a5 => 15 | a6 => 16 | a7 => 17 | s2 => 18 | s3 => 19 | s4 => 20 | s5 => 21 | s6 => 22 | s7 => 23 | s8 => 24
  | s9 => 25 | s10 => 26 | s11 => 27 | t3 => 28 | t4 => 29 | t5 => 30 | t6 => 31
  end.
Definition demo_machine : machine := mkMachine number (fun a => a) 0 0 0.
Lemma trap_saves_registers_witness :
  (forall r, regs (run 100 userret (run 0 uservec demo_machine)) r = number r) /\
  satp (run 100 userret (run 0 uservec demo_machine)) = TRAPFRAME /\ target (run 100 userret (run 0 uservec demo_machine)) = 100.
Proof. exact ((proj2 (trap_saves_registers 0 100 demo_machine) (run 0 uservec demo_machine) (fun a _ => eq_refl))). Defined.

(** The other side switches back. *)
Definition back_machine : machine :=
  mkMachine (fun r => if decide (r = a0) then 131072 else if decide (r = a1) then 65536 else 0) (mem (run 0 swtch demo_machine)) 0 0 0.
Lemma swtch_restores_witness : regs (run 0 swtch back_machine) s11 = 27 /\ target (run 0 swtch back_machine) = 1.
Proof.
  destruct (swtch_restores 0 demo_machine back_machine eq_refl ltac:(right; apply Z.leb_le; reflexivity) ltac:(left; apply Z.leb_le; reflexivity)
    (fun a _ => eq_refl)) as [H1 H2].
  split; [apply (H1 s11 104); apply list_elem_of_In; cbn; tauto|exact H2].
Defined.

Lemma kernelvec_transparent_witness :
  (forall r, r <> tp -> regs (run 100 kernelvec_leave (run 0 kernelvec_enter demo_machine)) r = number r) /\
  regs (run 100 kernelvec_leave (run 0 kernelvec_enter demo_machine)) tp = 4 /\
  target (run 100 kernelvec_leave (run 0 kernelvec_enter demo_machine)) = 100.
Proof.
  apply (kernelvec_transparent 0 100 demo_machine (run 0 kernelvec_enter demo_machine)).
  - split; reflexivity || (apply Z.leb_le; reflexivity).
  - reflexivity.
  - intros r o Hin _ Hsp. change (regs (run 0 kernelvec_enter demo_machine)) with (regs (run 0 (saves sp kernel_saved) (run 0 [Addi sp sp (-256)] demo_machine))).
    rewrite (proj1 (saves_regs 0 sp kernel_saved _)). cbn. by rewrite decide_False.
  - reflexivity.
Defined.
