(* ===== verification/Trap.v ===== *)
(** * kernel/trap.c, forkret of proc.c, and kernel/plic.c: traps

    A hart's control registers beside the kernel's state.  What the devices
    present at an interrupt is an argument: the interrupt number that the PLIC
    returns, and the uart's status and received characters.  A trap from user
    space ends with a return to user space, or with the process asleep in a
    system call, descheduled, or gone. *)
From S2P Require Import Prelude Machine Printf Kalloc Vm Spinlock Blocks Bio Log Fs Kstate Pipe Console File Proc Sysargs Exec Sysfile Syscall.

Definition SSTATUS_SPP : Z := Z.shiftl 1 8.
Definition SSTATUS_SPIE : Z := Z.shiftl 1 5.
Definition SSTATUS_SIE : Z := Z.shiftl 1 1.
Definition UART0_IRQ : Z := 10.
Definition VIRTIO0_IRQ : Z := 1.

(** The supervisor control registers, and the interrupts completed at the PLIC. *)
Record hart := mkHart {
  h_sstatus : Z; h_sepc : Z; h_scause : Z; h_stval : Z; h_stvec : Z; h_satp : Z; h_tp : Z;
  h_time : Z; h_stimecmp : Z; h_completed : list Z }.
Definition set_sstatus v h := mkHart v (h_sepc h) (h_scause h) (h_stval h) (h_stvec h) (h_satp h) (h_tp h) (h_time h) (h_stimecmp h) (h_completed h).
Definition set_sepc v h := mkHart (h_sstatus h) v (h_scause h) (h_stval h) (h_stvec h) (h_satp h) (h_tp h) (h_time h) (h_stimecmp h) (h_completed h).
Definition set_stvec v h := mkHart (h_sstatus h) (h_sepc h) (h_scause h) (h_stval h) v (h_satp h) (h_tp h) (h_time h) (h_stimecmp h) (h_completed h).
Definition set_stimecmp v h := mkHart (h_sstatus h) (h_sepc h) (h_scause h) (h_stval h) (h_stvec h) (h_satp h) (h_tp h) (h_time h) v (h_completed h).
Definition set_completed v h := mkHart (h_sstatus h) (h_sepc h) (h_scause h) (h_stval h) (h_stvec h) (h_satp h) (h_tp h) (h_time h) (h_stimecmp h) v.

Abbreviation T := (M (hart * kstate)).
Definition csr {A} (f : hart -> A) : T A := gets (fun s => f s.1).
Definition csrw (f : hart -> hart) : T unit := modify (fun s => (f s.1, s.2)).
Definition kern {A} (m : K A) : T A := fun s =>
  match m s.2 with
  | Ret (a, k) => Ret (a, (s.1, k))
  | Panic e => Panic e
  | Sleeps c => Sleeps c
  | OutOfFuel => OutOfFuel
  end.

(** [intr_on], [intr_off] and [intr_get] of riscv.h. *)
Definition intr_on : T unit := csrw (fun h => set_sstatus (Z.lor (h_sstatus h) SSTATUS_SIE) h).
Definition intr_off : T unit := csrw (fun h => set_sstatus (Z.land (h_sstatus h) (Z.lnot SSTATUS_SIE)) h).
Definition intr_get : T bool := csr (fun h => negb (Z.land (h_sstatus h) SSTATUS_SIE =? 0)).

Record devices := mkDev { d_irq : Z; d_tx_idle : bool; d_rx : list Z }.
Inductive outcome := ToUser (satp : Z) | Blocked (ch : chan) | Gone | Yielded.

Section trap.
(** [uservec_off]: uservec - trampoline; [kernelvec], [usertrap_addr]: code
    addresses. *)
Context (kend trampoline forkret_addr uservec_off kernelvec usertrap_addr : Z).

Definition trapinithart : T unit := csrw (set_stvec kernelvec).

Definition clockintr : T unit :=
  cpuid <~ csr h_tp ;;
  (if cpuid =? 0 then
     kern (modify (fun k => set_ticks (u32 (k_ticks k + 1)) k)) ;;; kern (wakeup TicksChan)
   else kret tt) ;;;
  csrw (fun h => set_stimecmp (u64 (h_time h + 1000000)) h).

Definition plic_claim (dev : devices) : T Z := kret (d_irq dev).
Definition plic_complete (irq : Z) : T unit := csrw (fun h => set_completed (h_completed h ++ [irq]) h).

(** In this file's kernel state a transfer is complete before [virtio_disk_rw]
    returns, so the disk's handler finds no finished request, and then it changes
    no kernel state (VirtioTheorems.quiet_intr; Virtio.v has the driver itself). *)
Definition disk_intr : K unit := kret tt.

Definition devintr (dev : devices) : T Z :=
  scause <~ csr h_scause ;;
  if scause =? 0x8000000000000009 then
    irq <~ plic_claim dev ;;
    (if irq =? UART0_IRQ then kern (uartintr (d_tx_idle dev) (d_rx dev))
     else if irq =? VIRTIO0_IRQ then kern disk_intr
     else if negb (irq =? 0) then kern (kprintf (chars "unexpected interrupt irq=%d" ++ [10]) [VInt irq])
     else kret tt) ;;;
    (if negb (irq =? 0) then plic_complete irq else kret tt) ;;;
    kret 1
  else if scause =? 0x8000000000000005 then clockintr ;;; kret 2
  else kret 0.

Definition prepare_return : T unit :=
  me <~ kern myproc ;;
  intr_off ;;;
  csrw (set_stvec (TRAMPOLINE + uservec_off)) ;;;
  h <~ csr id ;;
  kern (updp me (fun p => set_tf
    (tf_set TF_kernel_hartid (h_tp h) (tf_set TF_kernel_trap usertrap_addr
      (tf_set TF_kernel_sp (KSTACK (Z.of_nat me) + PGSIZE) (tf_set TF_kernel_satp (h_satp h) (pr_tf p))))) p)) ;;;
  csrw (fun h => set_sstatus (Z.lor (Z.land (h_sstatus h) (Z.lnot SSTATUS_SPP)) SSTATUS_SPIE) h) ;;;
  epc <~ kern (pfield me (fun p => tf_get TF_epc (pr_tf p))) ;;
  csrw (set_sepc epc).

(** [MAKE_SATP(p->pagetable)] after [prepare_return]: the end of [usertrap] and
    of [forkret]. *)
Definition return_to_user : T outcome :=
  me <~ kern myproc ;;
  prepare_return ;;;
  pt <~ kern (pfield me pr_pagetable) ;;
  kret (ToUser (MAKE_SATP pt)).

Definition set_epc (me : nat) (f : Z -> Z) : K unit := updp me (fun p => set_tf (tf_set TF_epc (f (tf_get TF_epc (pr_tf p))) (pr_tf p)) p).
(** The part of [usertrap] after the cause is dealt with. *)
Definition usertrap_end (me : nat) (which_dev : Z) : T outcome :=
  kd <~ kern (killed me) ;;
  if negb (kd =? 0) then kern (kexit kend (-1)) ;;; kret Gone
  else if which_dev =? 2 then kern yield ;;; kret Yielded
  else return_to_user.
(** [pad] as in [sys_fstat]. *)
Definition usertrap (dev : devices) (pad : list Z) : T outcome :=
  h <~ csr id ;;
  if negb (Z.land (h_sstatus h) SSTATUS_SPP =? 0) then panic "usertrap: not from user mode"
  else
    csrw (set_stvec kernelvec) ;;;
    me <~ kern myproc ;;
    kern (set_epc me (fun _ => h_sepc h)) ;;;
    if h_scause h =? 8 then
      kd <~ kern (killed me) ;;
      if negb (kd =? 0) then kern (kexit kend (-1)) ;;; kret Gone
      else
        kern (set_epc me (fun epc => epc + 4)) ;;;
        intr_on ;;;
        r <~ kern (syscall kend trampoline forkret_addr pad) ;;
        match r with
        | None => kret Gone
        | Some (Waits ch) => kret (Blocked ch)
        | Some (Done _) => usertrap_end me 0
        end
    else
      which_dev <~ devintr dev ;;
      if negb (which_dev =? 0) then usertrap_end me which_dev
      else
        p <~ kern (pfield me id) ;;
        pa <~ (if (h_scause h =? 15) || (h_scause h =? 13)
               then kern (memop kend (vmfault kend (vm_of p) (pr_pagetable p) (h_stval h))) else kret 0) ;;
        if negb (pa =? 0) then usertrap_end me 0
        else
          kern (kprintf (chars "usertrap(): unexpected scause 0x%lx pid=%d" ++ [10]) [VInt (h_scause h); VInt (pr_pid p)]) ;;;
          kern (kprintf (chars "            sepc=0x%lx stval=0x%lx" ++ [10]) [VInt (h_sepc h); VInt (h_stval h)]) ;;;
          kern (setkilled me) ;;;
          usertrap_end me 0.

(** Whether the interrupted process gave up the CPU, and what [kerneltrap] does
    when it runs on, at once or after it is rescheduled. *)
Definition kerneltrap_end (sepc sstatus : Z) : T unit := csrw (set_sepc sepc) ;;; csrw (set_sstatus sstatus).
Definition kerneltrap (dev : devices) : T bool :=
  h <~ csr id ;;
  if Z.land (h_sstatus h) SSTATUS_SPP =? 0 then panic "kerneltrap: not from supervisor mode"
  else
    on <~ intr_get ;;
    if on : bool then panic "kerneltrap: interrupts enabled"
    else
      which_dev <~ devintr dev ;;
      if which_dev =? 0 then
        kern (kprintf (chars "scause=0x%lx sepc=0x%lx stval=0x%lx" ++ [10]) [VInt (h_scause h); VInt (h_sepc h); VInt (h_stval h)]) ;;;
        panic "kerneltrap"
      else
        cur <~ kern (gets k_cur) ;;
        if (which_dev =? 2) && bool_decide (cur <> None) then kern yield ;;; kret true
        else kerneltrap_end (h_sepc h) (h_sstatus h) ;;; kret false.

(** A new process starts here; [first] is the static variable. *)
Definition forkret (first : bool) : T outcome :=
  me <~ kern myproc ;;
  (if first then
     kern (fsop kend (fun U => fsinit ROOTDEV)) ;;;
     argc <~ kern (kexec kend trampoline (chars "/init") [chars "/init"]) ;;
     kern (set_a0 me argc) ;;;
     if u64 argc =? u64 (-1) then panic "exec" else kret tt
   else kret tt) ;;;
  return_to_user.
End trap.
