(* ===== verification/TrapTheorems.v ===== *)
(** * Traps: the return to user space

    What holds whenever the kernel returns to a user program, and that
    interrupts leave its registers and memory alone. *)
From S2P Require Import Prelude Machine Printf Kalloc Vm Spinlock Blocks Bio Log Fs Kstate Demo Pipe Console File Proc ProcTheorems Sysargs Exec Sysfile Syscall FileRefs SyscallInv SyscallTheorems Trap.

(** ** The two layers of state *)
Lemma kern_inv {A} (m : K A) s a s' : kern m s = Ret (a, s') -> s'.1 = s.1 /\ m s.2 = Ret (a, s'.2).
Proof. unfold kern. destruct (m s.2) as [[b k]| | |]; intros H; try discriminate H. injection H as <- <-. done. Qed.
Ltac kstep H x s1 E1 E2 :=
  apply kbind_inv in H as (x & s1 & E2 & H); apply kern_inv in E2 as [E1 E2].
Ltac cstep H s1 :=
  let x := fresh "x" in let E := fresh "E" in let Ex := fresh "Ex" in
  apply kbind_inv in H as (x & s1 & E & H); injection E as Ex E; subst x s1.

(** *** Interrupt handlers and the counts of open files *)
Lemma calm_kill_line fuel : calm (kill_line fuel).
Proof. induction fuel as [|fuel IH]; cbn [kill_line]; unfold getc, updc, consputc; calms. Qed.
Lemma calm_procdump_loop ps : calm (procdump_loop ps).
Proof. induction ps as [|p ps IH]; cbn [procdump_loop]; calms. Qed.
#[local] Hint Resolve calm_kill_line calm_procdump_loop : calm.
Lemma calm_consoleintr c : calm (consoleintr c).
Proof. unfold consoleintr, procdump, getc, updc, consputc. calms. Qed.
#[local] Hint Resolve calm_consoleintr : calm.
Lemma calm_uartintr_loop rx : calm (uartintr_loop rx).
Proof. induction rx as [|c rx IH]; cbn [uartintr_loop]; calms. Qed.
#[local] Hint Resolve calm_uartintr_loop : calm.
Lemma calm_uartintr idle rx : calm (uartintr idle rx).
Proof. unfold uartintr. calms. Qed.

(** *** Interrupt handlers and the process they interrupt *)
Definition untouched (me : nat) (p : proc) (k k' : kstate) : Prop :=
  k_cur k' = Some me /\ k_procs k' !! me = Some p /\ f_mem (k_fs k') = f_mem (k_fs k).
Definition mute {A} (m : K A) : Prop := forall k a k' me p, k_cur k = Some me -> k_procs k !! me = Some p -> m k = Ret (a, k') ->
  untouched me p k k'.
Lemma mute_bind {A B} (m : K A) (f : A -> K B) : mute m -> (forall a, mute (f a)) -> mute (kbind m f).
Proof.
  intros Hm Hf k b k' me p Hc Hp (a & k1 & H1 & H2)%kbind_inv. destruct (Hm _ _ _ _ _ Hc Hp H1) as (C1 & P1 & F1).
  destruct (Hf _ _ _ _ _ _ C1 P1 H2) as (C2 & P2 & F2). split; [done|]. split; [done|]. by rewrite F2.
Qed.
Lemma mute_ret {A} (a : A) : mute (kret a).
Proof. by intros k b k' me p Hc Hp [= _ <-]. Qed.
Lemma mute_gets {A} (f : kstate -> A) : mute (gets f).
Proof. by intros k b k' me p Hc Hp [= _ <-]. Qed.
Lemma mute_nofuel {A} : mute (nofuel (A := A)).
Proof. intros k b k' me p Hc Hp H. discriminate H. Qed.
Lemma mute_panic {A} e : mute (panic (A := A) e).
Proof. intros k b k' me p Hc Hp H. discriminate H. Qed.
Lemma mute_modify g : (forall k, k_procs (g k) = k_procs k /\ k_cur (g k) = k_cur k /\ f_mem (k_fs (g k)) = f_mem (k_fs k)) -> mute (modify g).
Proof. intros H k b k' me p Hc Hp [= _ <-]. destruct (H k) as (H1 & H2 & H3). unfold untouched. by rewrite H1, H2. Qed.
Lemma mute_wakeup ch : mute (wakeup ch).
Proof.
  intros k b k' me p Hc Hp [= _ <-]. split; [done|]. split; [|done]. cbn. unfold wakeup_procs.
  rewrite list_lookup_imap, Hp. cbn. by rewrite decide_True.
Qed.
Create HintDb mute.
#[export] Hint Resolve mute_ret mute_gets mute_nofuel mute_panic mute_wakeup : mute.
Ltac mutes :=
  repeat match goal with
  | |- mute (kbind _ _) => apply mute_bind; [|intros ?]
  | |- mute (modify _) => apply mute_modify; intros ?; done
  | |- mute (match ?x with _ => _ end) => destruct x
  | |- mute (let _ := _ in _) => cbv zeta
  | |- mute _ => solve [eauto with mute]
  end.
Lemma mute_kprintf fmt ap : mute (kprintf fmt ap).
Proof. unfold kprintf, uart_send. mutes. Qed.
#[export] Hint Resolve mute_kprintf : mute.
Lemma mute_kill_line fuel : mute (kill_line fuel).
Proof. induction fuel as [|fuel IH]; cbn [kill_line]; unfold getc, updc, consputc, uart_send; mutes. Qed.
Lemma mute_procdump_loop ps : mute (procdump_loop ps).
Proof. induction ps as [|p ps IH]; cbn [procdump_loop]; mutes. Qed.
#[export] Hint Resolve mute_kill_line mute_procdump_loop : mute.
Lemma mute_consoleintr c : mute (consoleintr c).
Proof. unfold consoleintr, procdump, getc, updc, consputc, uart_send. mutes. Qed.
#[export] Hint Resolve mute_consoleintr : mute.
Lemma mute_uartintr idle rx : mute (uartintr idle rx).
Proof. unfold uartintr. mutes. induction rx as [|c rx IH]; cbn [uartintr_loop]; mutes. Qed.

Section trap.
Context (kend trampoline forkret_addr uservec_off kernelvec usertrap_addr : Z).

Lemma kern_calm {A} (m : K A) d s a s' : calm m -> balanced d s.2 -> kern m s = Ret (a, s') ->
  balanced d s'.2 /\ k_cur s'.2 = k_cur s.2.
Proof. intros C B [E1 E2]%kern_inv. by apply (calm_cur m d _ a _ C B). Qed.

Lemma devintr_bal dev d s r s' : balanced d s.2 -> devintr dev s = Ret (r, s') -> balanced d s'.2 /\ k_cur s'.2 = k_cur s.2.
Proof.
  intros B Hr. unfold devintr in Hr. cstep Hr s0. destruct (_ =? 0x8000000000000009).
  - cstep Hr s0. apply kbind_inv in Hr as (u & s1 & H1 & Hr). apply kbind_inv in Hr as (u' & s2 & H2 & Hr). injection Hr as _ <-.
    assert (s2.2 = s1.2) as E2 by (destruct (negb _) in H2; injection H2 as _ <-; reflexivity). rewrite E2.
    destruct (_ =? UART0_IRQ) in H1; [by apply (kern_calm _ d _ _ _ (calm_uartintr _ _) B) in H1|].
    destruct (_ =? VIRTIO0_IRQ) in H1; [by apply (kern_calm _ d _ _ _ (calm_ret _) B) in H1|].
    destruct (negb _) in H1; [by apply (kern_calm _ d _ _ _ (calm_kprintf _ _) B) in H1|]. by injection H1 as _ <-.
  - destruct (_ =? 0x8000000000000005); [|by injection Hr as _ <-]. apply kbind_inv in Hr as (u & s1 & H1 & Hr). injection Hr as _ <-.
    unfold clockintr in H1. cstep H1 s0. apply kbind_inv in H1 as (u' & s2 & H2 & H1). injection H1 as _ <-. cbn [snd].
    destruct (_ =? 0); [|by injection H2 as _ <-]. apply kbind_inv in H2 as (v & s3 & H3 & H2).
    assert (calm (modify (fun k => set_ticks (u32 (k_ticks k + 1)) k))) as Ct by calms.
    apply (kern_calm _ d _ _ _ Ct B) in H3 as (B3 & C3). rewrite <- C3.
    by apply (kern_calm _ d _ _ _ (calm_wakeup _) B3) in H2.
Qed.

(** ** Returning *)
(** The hart and process [me] are set for user mode. *)
Record user_ready (me : nat) (satp : Z) (h : hart) (k : kstate) : Prop := {
  ur_cur : k_cur k = Some me;
  ur_alive : pr_killed (getp k me) = 0;
  ur_satp : satp = MAKE_SATP (pr_pagetable (getp k me));
  ur_user : Z.testbit (h_sstatus h) 8 = false;          (* SPP: sret goes to user mode *)
  ur_spie : Z.testbit (h_sstatus h) 5 = true;           (* SPIE: with interrupts on *)
  ur_off : Z.testbit (h_sstatus h) 1 = false;           (* SIE: until then they are off *)
  ur_stvec : h_stvec h = TRAMPOLINE + uservec_off;
  ur_sepc : h_sepc h = tf_get TF_epc (pr_tf (getp k me));
  ur_kernel : length (pr_tf (getp k me)) = 36%nat ->
    tf_get TF_kernel_satp (pr_tf (getp k me)) = u64 (h_satp h) /\
    tf_get TF_kernel_sp (pr_tf (getp k me)) = u64 (KSTACK (Z.of_nat me) + PGSIZE) /\
    tf_get TF_kernel_trap (pr_tf (getp k me)) = u64 usertrap_addr /\
    tf_get TF_kernel_hartid (pr_tf (getp k me)) = u64 (h_tp h) }.

Lemma getp_updp k me f : k_cur k = Some me -> (exists p, k_procs k !! me = Some p) ->
  getp (set_procs (alter f me (k_procs k)) k) me = f (getp k me).
Proof. intros _ [p Hp]. unfold getp. cbn. by rewrite list_lookup_alter_eq, Hp. Qed.
Lemma sstatus_bits x : let y := Z.lor (Z.land (Z.land x (Z.lnot SSTATUS_SIE)) (Z.lnot SSTATUS_SPP)) SSTATUS_SPIE in
  Z.testbit y 8 = false /\ Z.testbit y 5 = true /\ Z.testbit y 1 = false.
Proof.
  cbv zeta. rewrite !Z.lor_spec, !Z.land_spec, !Z.lnot_spec by lia.
  change (Z.testbit SSTATUS_SPP 8) with true. change (Z.testbit SSTATUS_SPIE 8) with false. change (Z.testbit SSTATUS_SPIE 5) with true.
  change (Z.testbit SSTATUS_SPIE 1) with false. change (Z.testbit SSTATUS_SIE 1) with true. cbn [negb].
  rewrite !andb_false_r, !orb_true_r. by split_and!.
Qed.
Lemma tf_get_set_eq f v tf : (f < length tf)%nat -> tf_get f (tf_set f v tf) = u64 v.
Proof. intros H. unfold tf_get, tf_set. rewrite nth_lookup, list_lookup_insert_eq by done. done. Qed.
Lemma tf_get_set_ne f g v tf : f <> g -> tf_get g (tf_set f v tf) = tf_get g tf.
Proof. intros H. unfold tf_get, tf_set. rewrite !nth_lookup, list_lookup_insert_ne by done. done. Qed.
Lemma tf_length f v tf : length (tf_set f v tf) = length tf.
Proof. apply length_insert. Qed.

(** The process in the trapframe that [prepare_return] leaves. *)
Lemma return_to_user_run h k o h' k' me : k_cur k = Some me -> (exists p, k_procs k !! me = Some p) -> pr_killed (getp k me) = 0 ->
  return_to_user uservec_off usertrap_addr (h, k) = Ret (o, (h', k')) ->
  exists satp g, o = ToUser satp /\ user_ready me satp h' k' /\ k' = set_procs (alter g me (k_procs k)) k /\
    forall p, shape (g p) = shape p /\ pr_sz (g p) = pr_sz p /\ pr_pagetable (g p) = pr_pagetable p /\
      forall f, (3 <= f)%nat -> f <> TF_kernel_hartid -> tf_get f (pr_tf (g p)) = tf_get f (pr_tf p).
Proof.
  intros Hc Hp Hk Hr. unfold return_to_user, prepare_return in Hr.
  assert (forall hh, kern myproc (hh, k) = Ret (me, (hh, k))) as My by (intros hh; unfold kern; cbn [snd]; by rewrite (myproc_run k me Hc)).
  rewrite (kbind_ret _ _ _ _ _ (My h)), <- kbind_assoc, (kbind_ret _ _ _ _ _ (My h)) in Hr.
  cbn -[Z.lor Z.land Z.lnot TRAMPOLINE SSTATUS_SPIE SSTATUS_SPP SSTATUS_SIE MAKE_SATP KSTACK PGSIZE tf_set tf_get getp] in Hr.
  injection Hr as <- <- <-. eexists _, _. split; [reflexivity|]. split; [|split; [reflexivity|]].
  2:{ intros p. cbv beta. split; [done|]. split; [done|]. split; [done|]. intros f Hf Hh. cbn [pr_tf set_tf].
      rewrite !tf_get_set_ne by (unfold TF_kernel_hartid, TF_kernel_trap, TF_kernel_sp, TF_kernel_satp in *; lia). done. }
  pose proof (sstatus_bits (h_sstatus h)) as (S1 & S2 & S3).
  split; cbn [k_cur set_procs h_sstatus h_stvec h_sepc h_satp h_tp]; rewrite ?(getp_updp k me _ Hc Hp); try done.
  intros Hl. cbn [pr_tf set_tf] in *. rewrite !tf_length in Hl.
  unfold TF_kernel_hartid, TF_kernel_trap, TF_kernel_sp, TF_kernel_satp in *.
  split_and!; repeat first [rewrite tf_get_set_eq by (rewrite ?tf_length; lia) | rewrite tf_get_set_ne by lia]; done.
Qed.

Abbreviation the_end := (usertrap_end kend uservec_off usertrap_addr).
(** What a trap guarantees. *)
Definition trap_ok (d : nat -> Z) (me : nat) (o : outcome) (s : hart * kstate) : Prop :=
  balanced d s.2 /\ forall satp, o = ToUser satp -> user_ready me satp s.1 s.2.

Lemma exit_ok d me s o s' : balanced d s.2 -> (kern (kexit kend (-1)) ;;; kret Gone) s = Ret (o, s') -> trap_ok d me o s'.
Proof.
  intros B Hr. kstep Hr u s1 E1 E2. destruct u. injection Hr as <- <-. split; [by eapply kexit_bal|]. intros satp H. discriminate H.
Qed.
Lemma usertrap_end_ok d me w s o s' : balanced d s.2 -> k_cur s.2 = Some me -> the_end me w s = Ret (o, s') -> trap_ok d me o s'.
Proof.
  intros B Hc Hr. unfold usertrap_end in Hr. destruct (ba_cur _ _ B me Hc) as (p & Hp & Hd).
  change (kbind (kern (killed me)) ?f s) with (f (pr_killed (getp s.2 me)) (s.1, s.2)) in Hr. cbv beta in Hr.
  destruct s as [h1 k1]. cbn [fst snd] in *.
  destruct (pr_killed (getp k1 me) =? 0) eqn:Ek; cbn [negb] in Hr; [|eapply exit_ok; [|exact Hr]; exact B].
  destruct (w =? 2).
  - kstep Hr u s1 E1 E2. injection Hr as <- <-. split; [|intros satp H; discriminate H].
    unfold yield in E2. cbn [snd] in E2. rewrite (kbind_ret _ _ _ _ _ (myproc_run k1 me Hc)) in E2. minv E2. injection Hk as _ H. rewrite <- H.
    apply (bal_updp d (set_cur None k1)); [by apply bal_idle|]. intros q Hq. split; [done|]. split; intros E; discriminate E.
  - destruct s' as [h' k']. destruct (return_to_user_run h1 k1 o h' k' me Hc ltac:(by exists p) ltac:(lia) Hr)
      as (satp & g & -> & U & -> & Hg). split; [|by intros satp' [= <-]]. cbn [snd].
    eapply balanced_same; [|exact B]. split; try done. cbn. apply shape_alter. intros q _. apply Hg.
Qed.


(** ** Interrupts *)
Lemma devintr_mute dev h k r s' me p : k_cur k = Some me -> k_procs k !! me = Some p -> devintr dev (h, k) = Ret (r, s') ->
  untouched me p k s'.2 /\ r = (if h_scause h =? 0x8000000000000009 then 1 else if h_scause h =? 0x8000000000000005 then 2 else 0).
Proof.
  intros Hc Hp Hr. unfold devintr in Hr. cstep Hr s0. cbn [fst] in *.
  assert (forall A (m : K A) s1 a s2, mute m -> s1.2 = k -> kern m s1 = Ret (a, s2) -> untouched me p k s2.2) as Kern.
  { intros A m s1 a s2 Hm E [_ H]%kern_inv. rewrite E in H. by eapply Hm. }
  destruct (_ =? 0x8000000000000009).
  - cstep Hr s0. apply kbind_inv in Hr as (u & s1 & H1 & Hr). apply kbind_inv in Hr as (u' & s2 & H2 & Hr). injection Hr as <- <-.
    split; [|done]. assert (s2.2 = s1.2) as -> by (destruct (negb _) in H2; injection H2 as _ <-; reflexivity).
    destruct (_ =? UART0_IRQ) in H1; [by eapply (Kern _ _ _ _ _ (mute_uartintr _ _)), H1|].
    destruct (_ =? VIRTIO0_IRQ) in H1; [by eapply (Kern _ _ _ _ _ (mute_ret _)), H1|].
    destruct (negb _) in H1; [by eapply (Kern _ _ _ _ _ (mute_kprintf _ _)), H1|]. by injection H1 as _ <-.
  - destruct (_ =? 0x8000000000000005); [|by injection Hr as <- <-]. apply kbind_inv in Hr as (u & s1 & H1 & Hr). injection Hr as <- <-.
    split; [|done]. unfold clockintr in H1. cstep H1 s0. apply kbind_inv in H1 as (u' & s2 & H2 & H1). injection H1 as _ <-. cbn [snd].
    destruct (_ =? 0); [|by injection H2 as _ <-]. 
    assert (mute (modify (fun k => set_ticks (u32 (k_ticks k + 1)) k) ;;; wakeup TicksChan)) as Hm by mutes.
    apply kbind_inv in H2 as (v & s3 & [E3 H3]%kern_inv & [E2 H2]%kern_inv). eapply (Hm k); [done|done|].
    unfold kbind. cbn [snd] in H3. rewrite H3. exact H2.
Qed.

(** The user's view of a process: its registers, its memory and where it goes on. *)
Record same_user (p p' : proc) (pc : Z) : Prop := {
  su_regs : forall f, (5 <= f < 36)%nat -> tf_get f (pr_tf p') = tf_get f (pr_tf p);
  su_epc : tf_get TF_epc (pr_tf p') = pc;
  su_space : pr_pagetable p' = pr_pagetable p /\ pr_sz p' = pr_sz p }.

(** Interrupts are invisible to user programs.  When a timer or device
    interrupt arrives while a process that has not been killed runs in user
    space, [usertrap] either deschedules it (timer) or returns to it (device);
    its saved registers, its address space and all of memory are as they were,
    and it goes on at the instruction where the interrupt arrived. *)
Theorem interrupt_invisible dev pad h k o h' k' me p :
  k_cur k = Some me -> k_procs k !! me = Some p -> pr_killed p = 0 -> length (pr_tf p) = 36%nat -> 0 <= h_sepc h < 2 ^ 64 ->
  h_scause h = 0x8000000000000005 \/ h_scause h = 0x8000000000000009 ->
  usertrap kend trampoline forkret_addr uservec_off kernelvec usertrap_addr dev pad (h, k) = Ret (o, (h', k')) ->
  (exists p', k_procs k' !! me = Some p' /\ same_user p p' (h_sepc h)) /\ f_mem (k_fs k') = f_mem (k_fs k) /\
  (o = Yielded /\ h_scause h = 0x8000000000000005 \/ (exists satp, o = ToUser satp) /\ h_sepc h' = h_sepc h).
Proof.
  intros Hc Hp Hk Hl Hpc Hs Hr. unfold usertrap in Hr. cstep Hr s0. destruct (negb _) in Hr; [discriminate Hr|]. cstep Hr s0.
  kstep Hr x s1 E1 E2. cbn [fst snd id] in *. rewrite (myproc_run k me Hc) in E2. injection E2 as <- E2. destruct s1 as [h1 k1].
  cbn [fst snd] in *. subst h1 k1. kstep Hr u s2 E2 H2. destruct s2 as [h2 k2]. cbn [fst snd] in *. subst h2. injection H2 as _ <-.
  set (p1 := set_tf (tf_set TF_epc (h_sepc h) (pr_tf p)) p). set (k1 := set_procs _ k) in *.
  assert (k_procs k1 !! me = Some p1) as Hp1 by (cbn; by rewrite list_lookup_alter_eq, Hp).
  assert (same_user p p1 (h_sepc h)) as U1.
  { split; [|change (tf_get TF_epc (tf_set TF_epc (h_sepc h) (pr_tf p)) = h_sepc h)|done].
    - intros f Hf. apply tf_get_set_ne. unfold TF_epc. lia.
    - rewrite tf_get_set_eq; [by apply u64_small|unfold TF_epc; lia]. }
  replace (h_scause h =? 8) with false in Hr by lia.
  apply kbind_inv in Hr as (w & s3 & H3 & Hr). destruct (devintr_mute dev _ k1 w s3 me p1 Hc Hp1 H3) as ((C3 & P3 & F3) & Hw).
  change (h_scause (set_stvec kernelvec h)) with (h_scause h) in Hw. destruct s3 as [h3 k3]. cbn [snd] in *.
  assert (w <> 0 /\ (w = 2 -> h_scause h = 0x8000000000000005)) as [Hw0 Hw2] by (destruct Hs as [E|E]; rewrite E in Hw |- *; cbn in Hw; subst w; lia).
  replace (w =? 0) with false in Hr by lia. cbn [negb] in Hr. clear Hw. unfold usertrap_end in Hr.
  change (kbind (kern (killed me)) ?f (h3, k3)) with (f (pr_killed (getp k3 me)) (h3, k3)) in Hr. cbv beta in Hr.
  assert (getp k3 me = p1) as Eg by (unfold getp; by rewrite P3). rewrite Eg in Hr. change (pr_killed p1) with (pr_killed p) in Hr.
  rewrite Hk in Hr. cbn [negb Z.eqb] in Hr. destruct (w =? 2) eqn:Ew.
  - kstep Hr y s4 E4 H4. injection Hr as <- ->. cbn [fst snd] in *. unfold yield in H4.
    rewrite (kbind_ret _ _ _ _ _ (myproc_run k3 me C3)) in H4. minv H4. injection Hk0 as _ <-. split; [|split; [done|left; split; [done|]]].
    + exists (set_state RUNNABLE p1). split; [cbn; by rewrite list_lookup_alter_eq, P3|]. destruct U1. by split.
    + apply Hw2. lia.
  - destruct (return_to_user_run h3 k3 o h' k' me C3 ltac:(by exists p1) ltac:(by rewrite Eg) Hr) as (satp & g & -> & U & -> & Hg).
    destruct (Hg p1) as (_ & G1 & G2 & G3). destruct U1 as [V1 V2 [V3 V4]].
    assert (getp (set_procs (alter g me (k_procs k3)) k3) me = g p1) as Eg' by (rewrite (getp_updp k3 me g C3 ltac:(by exists p1)); by rewrite Eg).
    split; [|split; [done|right; split; [by exists satp|]]].
    + exists (g p1). split; [cbn; by rewrite list_lookup_alter_eq, P3|]. split; [|rewrite G3; [done|unfold TF_epc; lia|done]|by rewrite G1, G2].
      intros f Hf. rewrite G3; [by apply V1|lia|unfold TF_kernel_hartid; lia].
    + rewrite (ur_sepc _ _ _ _ U), Eg', G3; [done|unfold TF_epc; lia|done].
Qed.
End trap.

(** ** Examples *)
Definition returns {A} (r : res A) : bool := match r with Ret _ => true | _ => false end.
Definition demo_hart (scause : Z) : hart := mkHart 0 4000 scause 0 0 (MAKE_SATP 8192) 0 100 0 [].
Definition demo_dev : devices := mkDev UART0_IRQ true (chars "x").
(** The system call of dup_k, and a uart interrupt in the same process. *)
Abbreviation demo_ecall := (usertrap 4096 8192 0 0 1 2 demo_dev [] (demo_hart 8, dup_k)).
Abbreviation demo_uart := (usertrap 4096 8192 0 0 1 2 demo_dev [] (demo_hart 0x8000000000000009, dup_k)).
Lemma demo_returns : returns demo_ecall = true /\ returns demo_uart = true.
Proof. split; vm_compute; reflexivity. Qed.
Lemma interrupt_invisible_witness :
  match demo_uart with
  | Ret (o, (h', k')) => (exists p', k_procs k' !! 0%nat = Some p' /\ same_user dup_proc p' 4000) /\ f_mem (k_fs k') = f_mem (k_fs dup_k)
  | _ => False
  end.
Proof.
  pose proof (proj2 demo_returns) as R. destruct demo_uart as [[o [h' k']]| | |] eqn:E; try discriminate R.
  destruct (interrupt_invisible 4096 8192 0 0 1 2 demo_dev [] (demo_hart 0x8000000000000009) dup_k o h' k' 0 dup_proc eq_refl eq_refl eq_refl
    ltac:(vm_compute; reflexivity) ltac:(cbn; lia) ltac:(right; reflexivity) E) as (H1 & H2 & _).
  split; [exact H1|exact H2].
Defined.
