(* ===== verification/Sched.v ===== *)
(** * kernel/proc.c: scheduler, sched, yield, sleep and wakeup on several CPUs

    The fine-grained version of what Kstate.v and Proc.v do in one step: any
    number of CPUs, each at a point of scheduler(), sched(), yield(), sleep(),
    wakeup() or of code that takes a process's lock (kill, wait, fork), with one
    acquire, release or state change per step.  A process that waits follows the
    pattern of every caller of sleep: under the lock [lk] of its channel it tests
    its condition and sleeps while the condition is false; a process that makes
    the condition true does so under [lk] and then calls wakeup. *)
From stdpp Require Import functions.
From S2P Require Import Prelude Machine Kstate.

Definition NP : nat := Z.to_nat NPROC.

(** What a process does to the slot whose lock it took: fork allocates it, wait
    frees it, kill wakes it. *)
Inductive poke := Alloc | Reap | Kill.
(** Why a process leaves the CPU, before it has its own lock. *)
Inductive why := ToYield | ToExit.

(** Where a CPU is; [p] is the process it runs, [ch] the channel. *)
Inductive point :=
| Scan (i : nat)                    (* scheduler: before acquire(&proc[i].lock) *)
| Look (i : nat)                    (* scheduler: holding it *)
| Back (p : nat)                    (* scheduler: after swtch, p->lock held *)
| Resumed (p : nat)                 (* p, after the swtch to it, p->lock held *)
| Run (p : nat)
| WantLk (p ch : nat)               (* before acquire(lk) *)
| RunLk (p ch : nat)                (* lk held *)
| Slp1 (p ch : nat)                 (* sleep: before acquire(&p->lock) *)
| Slp2 (p ch : nat)                 (* sleep: before release(lk) *)
| Slp3 (p ch : nat)                 (* sleep: before chan and state are set *)
| Leave (p : nat) (w : why)         (* yield or exit: before acquire(&p->lock) *)
| Leave2 (p : nat) (w : why)        (* before the state is set *)
| InSched (p : nat)                 (* sched: before its tests *)
| Wk (p ch i : nat)                 (* wakeup: before proc[i] *)
| WkHold (p ch i : nat)             (* wakeup: holding proc[i].lock *)
| Poke (p i : nat) (a : poke)       (* before acquire(&proc[i].lock) *)
| PokeHold (p i : nat) (a : poke)
| Panicked.

Record sys := mkSys {
  cpu : nat -> point;
  plock : nat -> option nat;        (* p->lock: the CPU that holds it *)
  st : nat -> procstate;
  pchan : nat -> option nat;        (* p->chan *)
  resume : nat -> option nat;       (* where sched() returns to: in sleep on this channel, or not in sleep *)
  lk : nat -> option nat;           (* the lock of a channel *)
  cond : nat -> bool;
  noff : nat -> nat }.              (* mycpu()->noff *)

Definition goto (c : nat) (pt : point) (s : sys) : sys := mkSys (<[c := pt]> (cpu s)) (plock s) (st s) (pchan s) (resume s) (lk s) (cond s) (noff s).
Definition acq (c p : nat) (s : sys) : sys :=
  mkSys (cpu s) (<[p := Some c]> (plock s)) (st s) (pchan s) (resume s) (lk s) (cond s) (<[c := S (noff s c)]> (noff s)).
Definition rel (c p : nat) (s : sys) : sys :=
  mkSys (cpu s) (<[p := None]> (plock s)) (st s) (pchan s) (resume s) (lk s) (cond s) (<[c := pred (noff s c)]> (noff s)).
Definition acq_lk (c ch : nat) (s : sys) : sys :=
  mkSys (cpu s) (plock s) (st s) (pchan s) (resume s) (<[ch := Some c]> (lk s)) (cond s) (<[c := S (noff s c)]> (noff s)).
Definition rel_lk (c ch : nat) (s : sys) : sys :=
  mkSys (cpu s) (plock s) (st s) (pchan s) (resume s) (<[ch := None]> (lk s)) (cond s) (<[c := pred (noff s c)]> (noff s)).
Definition setst (p : nat) (v : procstate) (s : sys) : sys := mkSys (cpu s) (plock s) (<[p := v]> (st s)) (pchan s) (resume s) (lk s) (cond s) (noff s).
Definition setchan (p : nat) (v : option nat) (s : sys) : sys := mkSys (cpu s) (plock s) (st s) (<[p := v]> (pchan s)) (resume s) (lk s) (cond s) (noff s).
Definition setresume (p : nat) (v : option nat) (s : sys) : sys := mkSys (cpu s) (plock s) (st s) (pchan s) (<[p := v]> (resume s)) (lk s) (cond s) (noff s).
Definition setcond (ch : nat) (b : bool) (s : sys) : sys := mkSys (cpu s) (plock s) (st s) (pchan s) (resume s) (lk s) (<[ch := b]> (cond s)) (noff s).

(** What the tests in wakeup, kill, wait and allocproc do to a slot. *)
Definition wake_slot (ch i : nat) (s : sys) : sys :=
  if decide (st s i = SLEEPING /\ pchan s i = Some ch) then setst i RUNNABLE s else s.
Definition poke_slot (a : poke) (i : nat) (s : sys) : sys :=
  match a, st s i with
  | Alloc, UNUSED => setst i RUNNABLE (setresume i None s)
  | Reap, ZOMBIE => setst i UNUSED s
  | Kill, SLEEPING => setst i RUNNABLE s
  | _, _ => s
  end.
Definition next (i : nat) : nat := if (S i <? NP)%nat then S i else 0.

Inductive step (c : nat) (s : sys) : sys -> Prop :=
(* scheduler *)
| scan i : cpu s c = Scan i -> plock s i = None -> step c s (goto c (Look i) (acq c i s))
| pick i : cpu s c = Look i -> st s i = RUNNABLE -> step c s (goto c (Resumed i) (setst i RUNNING s))
| skip i : cpu s c = Look i -> st s i <> RUNNABLE -> step c s (goto c (Scan (next i)) (rel c i s))
| back p : cpu s c = Back p -> step c s (goto c (Scan (next p)) (rel c p s))
(* a process goes on after sched() *)
| resume_run p : cpu s c = Resumed p -> resume s p = None -> step c s (goto c (Run p) (rel c p s))
| resume_sleep p ch : cpu s c = Resumed p -> resume s p = Some ch ->
    step c s (goto c (WantLk p ch) (rel c p (setchan p None (setresume p None s))))
(* code under the lock of a channel *)
| want p ch : cpu s c = Run p -> step c s (goto c (WantLk p ch) s)
| lock p ch : cpu s c = WantLk p ch -> lk s ch = None -> step c s (goto c (RunLk p ch) (acq_lk c ch s))
| unlock p ch : cpu s c = RunLk p ch -> step c s (goto c (Run p) (rel_lk c ch s))
| use p ch : cpu s c = RunLk p ch -> cond s ch = true -> step c s (setcond ch false s)
| set p ch : cpu s c = RunLk p ch -> step c s (goto c (Wk p ch 0) (setcond ch true s))
(* sleep *)
| sleep0 p ch : cpu s c = RunLk p ch -> cond s ch = false -> step c s (goto c (Slp1 p ch) s)
| sleep1 p ch : cpu s c = Slp1 p ch -> plock s p = None -> step c s (goto c (Slp2 p ch) (acq c p s))
| sleep2 p ch : cpu s c = Slp2 p ch -> step c s (goto c (Slp3 p ch) (rel_lk c ch s))
| sleep3 p ch : cpu s c = Slp3 p ch ->
    step c s (goto c (InSched p) (setst p SLEEPING (setchan p (Some ch) (setresume p (Some ch) s))))
(* yield and exit *)
| leave0 p w : cpu s c = Run p -> step c s (goto c (Leave p w) s)
| leave1 p w : cpu s c = Leave p w -> plock s p = None -> step c s (goto c (Leave2 p w) (acq c p s))
| leave2 p w : cpu s c = Leave2 p w ->
    step c s (goto c (InSched p) (setst p (match w with ToYield => RUNNABLE | ToExit => ZOMBIE end) (setresume p None s)))
(* sched *)
| sched_ok p : cpu s c = InSched p -> plock s p = Some c -> noff s c = 1%nat -> st s p <> RUNNING -> step c s (goto c (Back p) s)
| sched_panic p : cpu s c = InSched p -> ~ (plock s p = Some c /\ noff s c = 1%nat /\ st s p <> RUNNING) -> step c s (goto c Panicked s)
(* wakeup *)
| wk p ch i : cpu s c = Wk p ch i -> (i < NP)%nat -> i <> p -> plock s i = None -> step c s (goto c (WkHold p ch i) (acq c i s))
| wk_self p ch i : cpu s c = Wk p ch i -> i = p -> step c s (goto c (Wk p ch (S i)) s)
| wk_hold p ch i : cpu s c = WkHold p ch i -> step c s (goto c (Wk p ch (S i)) (rel c i (wake_slot ch i s)))
| wk_end p ch i : cpu s c = Wk p ch i -> (NP <= i)%nat -> step c s (goto c (RunLk p ch) s)
(* fork, wait and kill *)
| poke0 p i a : cpu s c = Run p -> (i < NP)%nat -> i <> p -> step c s (goto c (Poke p i a) s)
| poke1 p i a : cpu s c = Poke p i a -> plock s i = None -> step c s (goto c (PokeHold p i a) (acq c i s))
| poke2 p i a : cpu s c = PokeHold p i a -> step c s (goto c (Run p) (rel c i (poke_slot a i s))).

(** All CPUs in the scheduler, one process ready, the others unused. *)
Definition initial (s : sys) : Prop :=
  (forall c, exists i, cpu s c = Scan i /\ (i < NP)%nat) /\ (forall p, plock s p = None) /\ (forall ch, lk s ch = None) /\
  (forall c, noff s c = 0%nat) /\ (forall p, st s p = UNUSED \/ st s p = RUNNABLE) /\ (forall p, resume s p = None).
Inductive reachable : sys -> Prop :=
| reach_init s : initial s -> reachable s
| reach_step c s s' : reachable s -> step c s s' -> reachable s'.
