(* ===== verification/SchedInv.v ===== *)
(** * Scheduling on several CPUs: the invariant

    Which locks a CPU holds, how many, and which process it runs are functions
    of the point where it is; the lock words, [noff] and the process states
    agree with them. *)
From stdpp Require Import functions.
From S2P Require Import Prelude Machine Kstate Sched.

(** The process a CPU runs ([mycpu()->proc]). *)
Definition occ (pt : point) : option nat :=
  match pt with
  | Scan _ | Look _ | Panicked => None
  | Back p | Resumed p | Run p | WantLk p _ | RunLk p _ | Slp1 p _ | Slp2 p _ | Slp3 p _ | Leave p _ | Leave2 p _ | InSched p
  | Wk p _ _ | WkHold p _ _ | Poke p _ _ | PokeHold p _ _ => Some p
  end.
(** Its state has been changed: it is on its way out. *)
Definition leaving (pt : point) : bool := match pt with InSched _ | Back _ => true | _ => false end.
(** The process lock and the channel lock held. *)
Definition plk (pt : point) : option nat :=
  match pt with
  | Look i | WkHold _ _ i | PokeHold _ i _ => Some i
  | Back p | Resumed p | Slp2 p _ | Slp3 p _ | Leave2 p _ | InSched p => Some p
  | _ => None
  end.
Definition lkh (pt : point) : option nat :=
  match pt with RunLk _ ch | Slp1 _ ch | Slp2 _ ch | Wk _ ch _ | WkHold _ ch _ => Some ch | _ => None end.
Definition one {A} (o : option A) : nat := match o with Some _ => 1 | None => 0 end.
Definition nh (pt : point) : nat := one (plk pt) + one (lkh pt).
(** The slots named are in the table. *)
Definition in_table (pt : point) : Prop :=
  match occ pt with Some p => (p < NP)%nat | None => True end /\
  match pt with Scan i | Look i | WkHold _ _ i | Poke _ i _ | PokeHold _ i _ => (i < NP)%nat | _ => True end.

(** The states a process may have on a CPU, on its way out or not. *)
Definition fits (out : bool) (v : procstate) : Prop := if out then v <> RUNNING else v = RUNNING.

(** A wakeup on [ch] has still to come to slot [p]. *)
Definition pending (s : sys) (ch p : nat) : Prop :=
  exists c w i, (cpu s c = Wk w ch i \/ cpu s c = WkHold w ch i) /\ (i <= p)%nat.
(** Process [p] sleeps on [ch], or is about to and can no longer see the
    condition. *)
Definition asleep (s : sys) (ch p : nat) : Prop :=
  (p < NP)%nat /\ ((st s p = SLEEPING /\ pchan s p = Some ch) \/ exists c, cpu s c = Slp3 p ch).

Record inv (s : sys) : Prop := {
  iv_p1 : forall p c, plock s p = Some c -> plk (cpu s c) = Some p;
  iv_p2 : forall p c, plk (cpu s c) = Some p -> plock s p = Some c;
  iv_l1 : forall ch c, lk s ch = Some c -> lkh (cpu s c) = Some ch;
  iv_l2 : forall ch c, lkh (cpu s c) = Some ch -> lk s ch = Some c;
  iv_noff : forall c, noff s c = nh (cpu s c);
  iv_one : forall c c' p, occ (cpu s c) = Some p -> occ (cpu s c') = Some p -> c = c';
  iv_state : forall c p, occ (cpu s c) = Some p -> fits (leaving (cpu s c)) (st s p);
  iv_table : forall c, in_table (cpu s c);
  iv_ok : forall c, cpu s c <> Panicked;
  iv_cond : forall c p ch, cpu s c = Slp1 p ch \/ cpu s c = Slp2 p ch -> cond s ch = false;
  iv_wake : forall ch p, asleep s ch p -> cond s ch = true -> pending s ch p }.

(** Case analysis on the updates of functions. *)
Ltac upd :=
  repeat match goal with
  | H : context [<[?a := _]> ?f ?b] |- _ =>
      destruct (decide (a = b)) as [?|?]; [subst; rewrite fn_lookup_insert in H|rewrite fn_lookup_insert_ne in H by done]
  | |- context [<[?a := _]> ?f ?b] =>
      destruct (decide (a = b)) as [?|?]; [subst; rewrite fn_lookup_insert|rewrite fn_lookup_insert_ne by done]
  end.
Ltac unfolds := unfold wake_slot, poke_slot in *; repeat case_match; repeat case_decide;
  cbn [cpu plock st pchan resume lk cond noff goto acq rel acq_lk rel_lk setst setchan setresume setcond] in *.

Section steps.
Context (c : nat) (s s' : sys) (I : inv s) (Hs : step c s s').

(** The tests of sched() hold. *)
Lemma sched_guard p : cpu s c = InSched p -> plock s p = Some c /\ noff s c = 1%nat /\ st s p <> RUNNING.
Proof.
  intros E. split; [apply (iv_p2 _ I); by rewrite E|]. split; [rewrite (iv_noff _ I), E; done|].
  pose proof (iv_state _ I c p) as H. rewrite E in H. by apply H.
Qed.
Ltac steps :=
  destruct Hs;
  try (match goal with Hn : ~ (plock s ?p = Some c /\ _) |- _ => exfalso; apply Hn; by apply sched_guard end);
  unfolds.
(** A fact about the point of a CPU, at the point where it is. *)
Ltac at_point :=
  match goal with
  | E : cpu s ?c = _, H : plock s ?q = Some ?c |- _ => apply (iv_p1 _ I) in H; rewrite E in H; cbn in H; congruence
  | E : cpu s ?c = _, H : lk s ?q = Some ?c |- _ => apply (iv_l1 _ I) in H; rewrite E in H; cbn in H; congruence
  end.

Lemma plk_unique p c1 c2 : plk (cpu s c1) = Some p -> plk (cpu s c2) = Some p -> c1 = c2.
Proof. intros H1%(iv_p2 _ I) H2%(iv_p2 _ I). congruence. Qed.
Lemma lkh_unique ch c1 c2 : lkh (cpu s c1) = Some ch -> lkh (cpu s c2) = Some ch -> c1 = c2.
Proof. intros H1%(iv_l2 _ I) H2%(iv_l2 _ I). congruence. Qed.
(** Two CPUs cannot hold the same lock. *)
Ltac two_holders :=
  match goal with
  | n : c <> ?c', H : plk (cpu s ?c') = Some ?p, E : cpu s c = _ |- _ => exfalso; apply n, (plk_unique p); [by rewrite E|done]
  | n : c <> ?c', H : lkh (cpu s ?c') = Some ?p, E : cpu s c = _ |- _ => exfalso; apply n, (lkh_unique p); [by rewrite E|done]
  end.

Lemma step_p1 p c' : plock s' p = Some c' -> plk (cpu s' c') = Some p.
Proof. intros H. steps; upd; simplify_eq; cbn in *; try congruence; try (by apply (iv_p1 _ I)); try at_point; done. Qed.
Lemma step_p2 p c' : plk (cpu s' c') = Some p -> plock s' p = Some c'.
Proof.
  intros H. steps; upd; simplify_eq; cbn in *; simplify_eq; try congruence; try (by apply (iv_p2 _ I)).
  all: try (match goal with E : cpu s ?c = _ |- plock s _ = Some ?c => apply (iv_p2 _ I); by rewrite E end).
  all: try (match goal with H : plk (cpu s _) = Some _ |- _ => apply (iv_p2 _ I) in H; congruence end); two_holders.
Qed.
Lemma step_l1 ch c' : lk s' ch = Some c' -> lkh (cpu s' c') = Some ch.
Proof. intros H. steps; upd; simplify_eq; cbn in *; try congruence; try (by apply (iv_l1 _ I)); try at_point; done. Qed.
Lemma step_l2 ch c' : lkh (cpu s' c') = Some ch -> lk s' ch = Some c'.
Proof.
  intros H. steps; upd; simplify_eq; cbn in *; simplify_eq; try congruence; try (by apply (iv_l2 _ I)).
  all: try (match goal with E : cpu s ?c = _ |- lk s _ = Some ?c => apply (iv_l2 _ I); by rewrite E end).
  all: try (match goal with H : lkh (cpu s _) = Some _ |- _ => apply (iv_l2 _ I) in H; congruence end); two_holders.
Qed.
Lemma step_noff c' : noff s' c' = nh (cpu s' c').
Proof.
  pose proof (iv_noff _ I c') as N. steps; upd; simplify_eq; try done.
  all: match goal with E : cpu s ?c = _ |- _ => rewrite E in N; rewrite N; done end.
Qed.
Lemma step_ok c' : cpu s' c' <> Panicked.
Proof. pose proof (iv_ok _ I c'). steps; upd; done. Qed.
Lemma next_lt i : (next i < NP)%nat.
Proof. unfold next. destruct (S i <? NP)%nat eqn:E; [by apply Nat.ltb_lt|unfold NP, NPROC; lia]. Qed.
Lemma step_table c' : in_table (cpu s' c').
Proof.
  pose proof (iv_table _ I c') as N. pose proof next_lt as Hnext.
  steps; upd; simplify_eq; try done; (match goal with E : cpu s ?c = _ |- _ => rewrite E in N end); destruct N as [N1 N2];
    cbn in N1, N2; split; cbn; try done.
Qed.
(** Whoever holds the lock of a slot that no one runs may change its state: a
    CPU that runs the process either keeps it RUNNING or holds the lock. *)
Lemma held_idle p c1 c' : plk (cpu s c1) = Some p -> occ (cpu s c') = Some p -> c' = c1 \/ st s p = RUNNING.
Proof.
  intros H1 H2. pose proof (iv_state _ I c' p H2) as Hst. destruct (leaving (cpu s c')) eqn:E; [|by right]. left.
  apply (plk_unique p); [|done]. destruct (cpu s c'); try discriminate E; cbn in H2; injection H2 as ->; done.
Qed.
Ltac by_point := first [done|match goal with E : cpu s _ = _ |- _ => rewrite E; done end].
Lemma step_one c1 c2 p : occ (cpu s' c1) = Some p -> occ (cpu s' c2) = Some p -> c1 = c2.
Proof.
  intros H1 H2. steps; upd; simplify_eq; cbn in *; simplify_eq; try done; try (by apply (iv_one _ I _ _ p));
    try (apply (iv_one _ I _ _ p); by_point).
  all: match goal with E : cpu s ?c = Look ?p, H : occ (cpu s ?d) = Some ?p |- _ =>
         destruct (held_idle p c d) as [?|?]; [by rewrite E|done|congruence|congruence] end.
Qed.
Lemma step_state c' p : occ (cpu s' c') = Some p -> fits (leaving (cpu s' c')) (st s' p).
Proof.
  intros H. pose proof (iv_state _ I c' p) as N.
  steps; upd; simplify_eq; cbn in *; simplify_eq; try done; try (by apply N);
    try (match goal with E : cpu s ?c = _, N : occ (cpu s ?c) = _ -> _ |- _ => rewrite E in N; cbn in N; by apply N end).
  all: try (match goal with n : ?c <> ?d, E : cpu s ?c = _, H : occ (cpu s ?d) = Some ?p |- _ =>
         exfalso; apply n; apply (iv_one _ I _ _ p); by_point end).
  all: repeat match goal with H : _ /\ _ |- _ => destruct H end.
  all: first
    [ match goal with n : ?c <> ?d, E : cpu s ?c = _, H : occ (cpu s ?d) = Some ?p |- _ =>
        destruct (held_idle p c d) as [?|?]; [by rewrite E|done|congruence|congruence] end
    | match goal with E : cpu s ?c = _, N : occ (cpu s ?c) = _ -> _ |- _ => rewrite E in N; specialize (N eq_refl); cbn in N; congruence end ].
Qed.
Lemma step_cond c' p ch : cpu s' c' = Slp1 p ch \/ cpu s' c' = Slp2 p ch -> cond s' ch = false.
Proof.
  intros H. pose proof (iv_cond _ I c' p ch) as N.
  steps; upd; destruct H as [H|H]; simplify_eq; try done; try (apply N; by (left + right)).
  all: match goal with n : ?c <> ?d, E : cpu s ?c = RunLk _ ?ch, E' : cpu s ?d = _ |- _ =>
         exfalso; apply n, (lkh_unique ch); [by rewrite E|by rewrite E'] end.
Qed.

(** A process that sleeps after the step slept before it, or is told. *)
Lemma asleep_before ch p : asleep s' ch p -> cond s' ch = true -> (asleep s ch p /\ cond s ch = true) \/ pending s' ch p.
Proof.
  intros [Hp H] Hc. unfold asleep, pending.
  steps; try (left; split; [split; [done|]|done]); destruct H as [[Ha Hb]|[c' H]]; upd; simplify_eq;
    try (by left); try (right; by exists c'); try (left; split_and!; done).
  all: first
    [ solve [left; split; [split; [done|first [by left|right; by eexists]]|done]]
    | match goal with |- context [<[?c := Wk ?w ?ch 0]> _ _] =>
        right; exists c, w, 0%nat; rewrite fn_lookup_insert; split; [by left|lia] end
    | match goal with E : cpu s ?c = Slp2 ?q ?ch, Hc : cond s ?ch = true |- _ => rewrite (iv_cond _ I c q ch (or_intror E)) in Hc; discriminate Hc end
    | right; by eexists ].
Qed.
(** A process that runs does not sleep. *)
Lemma running_awake c1 ch p : occ (cpu s c1) = Some p -> leaving (cpu s c1) = false ->
  (forall d, cpu s d = Slp3 p ch -> d = c1) /\ st s p <> SLEEPING.
Proof.
  intros Ho Hl. pose proof (iv_state _ I c1 p Ho) as N. rewrite Hl in N. split; [|by rewrite N].
  intros d E. apply (iv_one _ I _ _ p); [by rewrite E|done].
Qed.
(** A wakeup that is still to come to a sleeper is so after the step. *)
Lemma pending_after ch p : pending s ch p -> asleep s' ch p -> pending s' ch p.
Proof.
  intros (c0 & w & i & H & Hi) [Hp Ha]. destruct (decide (c0 = c)) as [->|Hne].
  2:{ assert (cpu s' c0 = cpu s c0) as E by (steps; rewrite ?fn_lookup_insert_ne by done; done). exists c0, w, i. by rewrite E. }
  (* the waker takes the step *)
  destruct H as [H|H]; destruct Hs as [x E|x E|x E|x E|x E|x y E|x y E|x y E|x y E|x y E|x y E|x y E|x y E|x y E|x y E|x y E|x y E|x y E
    |x E|x E|x y z E|x y z E|x y z E|x y z E|x y z E|x y z E|x y z E]; rewrite H in E; simplify_eq.
  - exists c, x, z. cbn. rewrite fn_lookup_insert. split; [by right|done].
  - exists c, x, (S x). cbn in *. rewrite fn_lookup_insert. split; [by left|].
    destruct (decide (x = p)) as [->|]; [|lia]. exfalso.
    destruct (running_awake c y p) as [N1 N2]; [by rewrite H|by rewrite H|]. destruct Ha as [[Ha _]|[d Hd]]; [done|].
    upd; [discriminate Hd|]. apply N1 in Hd. congruence.
  - lia.
  - exists c, x, (S z). cbn. rewrite fn_lookup_insert. split; [by left|].
    destruct (decide (z = p)) as [->|]; [|lia]. exfalso. unfold wake_slot in Ha. destruct Ha as [[Ha1 Ha2]|[d Hd]].
    + case_decide as Hw; cbn in Ha1, Ha2; [rewrite fn_lookup_insert in Ha1; discriminate Ha1|by apply Hw].
    + assert (cpu (goto c (Wk x y (S p)) (rel c p s)) d = Slp3 p y) as Hd' by (by case_decide). cbn in Hd'. upd; [discriminate Hd'|].
      match goal with n : c <> d |- _ => apply n, (plk_unique p); [by rewrite H|by rewrite Hd'] end.
Qed.
Lemma step_wake ch p : asleep s' ch p -> cond s' ch = true -> pending s' ch p.
Proof.
  intros Ha Hc. destruct (asleep_before ch p Ha Hc) as [[Ha' Hc']|H]; [|done]. apply pending_after; [|done]. by apply (iv_wake _ I).
Qed.

Lemma step_inv : inv s'.
Proof.
  split.
  - apply step_p1.
  - apply step_p2.
  - apply step_l1.
  - apply step_l2.
  - apply step_noff.
  - apply step_one.
  - apply step_state.
  - apply step_table.
  - apply step_ok.
  - apply step_cond.
  - apply step_wake.
Qed.
End steps.

Lemma initial_inv s : initial s -> inv s.
Proof.
  intros (H1 & H2 & H3 & H4 & H5 & H6).
  assert (forall c, exists i, cpu s c = Scan i) as Hs by (intros c; destruct (H1 c) as (i & Hi & _); by exists i).
  split; try (intros; congruence).
  - intros p c H. destruct (Hs c) as [i E]. rewrite E in H. discriminate H.
  - intros ch c H. destruct (Hs c) as [i E]. rewrite E in H. discriminate H.
  - intros c. destruct (Hs c) as [i E]. by rewrite E, H4.
  - intros c c' p H. destruct (Hs c) as [i E]. rewrite E in H. discriminate H.
  - intros c p H. destruct (Hs c) as [i E]. rewrite E in H. discriminate H.
  - intros c. destruct (H1 c) as (i & E & Hi). by rewrite E.
  - intros c. destruct (Hs c) as [i E]. by rewrite E.
  - intros c p ch [H|H]; destruct (Hs c) as [i E]; rewrite E in H; discriminate H.
  - intros ch p [_ [[H _]|[c H]]]; [destruct (H5 p); congruence|]. destruct (Hs c) as [i E]. rewrite E in H. discriminate H.
Qed.
Lemma sched_inv s : reachable s -> inv s.
Proof. induction 1 as [s H|c s s' _ IH Hs]; [by apply initial_inv|by apply (step_inv c s)]. Qed.
