(* ===== verification/SchedTheorems.v ===== *)
(** * Scheduling on several CPUs: mutual exclusion and no lost wakeup *)
From stdpp Require Import functions relations.
From S2P Require Import Prelude Machine Kstate Sched SchedInv.

Definition anystep (s s' : sys) : Prop := exists c, step c s s'.


(** ** Progress *)
Definition slept (ch p : nat) (s : sys) : Prop := (p < NP)%nat /\ st s p = SLEEPING /\ pchan s p = Some ch.

(** The only thing that can happen to a sleeper is that it is woken. *)
Lemma slept_step c s s' ch p : inv s -> step c s s' -> slept ch p s -> slept ch p s' \/ st s' p = RUNNABLE.
Proof.
  intros I Hs (Hp & H1 & H2). unfold slept.
  assert (forall pt, cpu s c = pt -> occ pt = Some p -> leaving pt = false -> False) as Run.
  { intros pt E Ho Hl. pose proof (iv_state _ I c p) as N. rewrite E, Hl in N. specialize (N Ho). cbn in N. congruence. }
  destruct Hs; unfolds; upd; simplify_eq; try (by left); try (by right); try congruence; exfalso;
    match goal with E : cpu s ?c = _ |- _ => by eapply (Run _ E) end.
Qed.

(** How many steps a CPU that holds a process lock is from releasing it. *)
Definition rank (pt : point) : nat :=
  match pt with
  | Slp2 _ _ => 4 | Slp3 _ _ | Leave2 _ _ => 3 | InSched _ | Look _ => 2 | _ => 1
  end.
Ltac goes r := eexists; split; [by eapply r|]; cbn.
Ltac moved := split; [intros d Hd; by rewrite fn_lookup_insert_ne|].
Ltac frees := moved; left; by rewrite fn_lookup_insert.
Ltac nearer := moved; right; rewrite fn_lookup_insert; cbn; split; [done|lia].
Lemma holder_step c s i : inv s -> plk (cpu s c) = Some i ->
  exists s', step c s s' /\ (forall d, d <> c -> cpu s' d = cpu s d) /\
    (plock s' i = None \/ (plk (cpu s' c) = Some i /\ (rank (cpu s' c) < rank (cpu s c))%nat)).
Proof.
  intros I H. destruct (cpu s c) eqn:E; cbn in H; simplify_eq.
  - destruct (decide (st s i = RUNNABLE)); [goes pick; nearer|goes skip; frees].
  - goes back; frees.
  - destruct (resume s i) eqn:Er; [goes resume_sleep|goes resume_run]; frees.
  - goes sleep2; nearer.
  - goes sleep3; nearer.
  - goes leave2; nearer.
  - destruct (sched_guard c s I i E) as (G1 & G2 & G3). goes sched_ok; nearer.
  - goes wk_hold. unfold wake_slot. case_decide; cbn; frees.
  - goes poke2. unfold poke_slot. repeat case_match; cbn; frees.
Qed.

Lemma free_lock ch p w pt n c i s : inv s -> slept ch p s -> cpu s w = pt -> c <> w ->
  plk (cpu s c) = Some i -> (rank (cpu s c) <= n)%nat ->
  exists s', rtc anystep s s' /\ inv s' /\ (st s' p = RUNNABLE \/ (slept ch p s' /\ cpu s' w = pt /\ plock s' i = None)).
Proof.
  revert s. induction n as [|n IH]; intros s I Hz Hw Hc Hk Hn; [exfalso; destruct (cpu s c); cbn in Hn; lia|].
  destruct (holder_step c s i I Hk) as (s1 & Hs & Hcpu & Hor).
  pose proof (step_inv _ _ _ I Hs) as I1.
  assert (rtc anystep s s1) as R by (apply rtc_once; by exists c).
  destruct (slept_step _ _ _ _ _ I Hs Hz) as [Hz1|Hrun]; [|exists s1; by auto 10].
  assert (cpu s1 w = pt) as Hw1 by (by rewrite Hcpu).
  destruct Hor as [Hfree|[Hk1 Hr1]]; [exists s1; by auto 10|].
  destruct (IH s1 I1 Hz1 Hw1 Hc Hk1 ltac:(lia)) as (s2 & R2 & X).
  exists s2. split; [by etrans|done].
Qed.

Lemma wk_step w ch p i c s : inv s -> slept ch p s -> (i <= p)%nat -> cpu s c = Wk w ch i ->
  exists s', rtc anystep s s' /\ inv s' /\ (st s' p = RUNNABLE \/
    (slept ch p s' /\ (cpu s' c = WkHold w ch i \/ ((i < p)%nat /\ cpu s' c = Wk w ch (S i))))).
Proof.
  intros I Hz Hi E. assert (i < NP)%nat as HN by (destruct Hz; lia).
  destruct (decide (i = w)) as [->|Hne].
  { assert (step c s (goto c (Wk w ch (S w)) s)) as Hs by (by eapply wk_self).
    exists (goto c (Wk w ch (S w)) s). split; [apply rtc_once; by exists c|]. split; [by eapply step_inv|].
    right. split; [done|]. right. unfold goto; cbn. rewrite fn_lookup_insert. split; [|done].
    assert (st s w = RUNNING) by (pose proof (iv_state _ I c w) as N; rewrite E in N; by apply N).
    destruct (decide (w = p)) as [->|]; [destruct Hz as (_ & Z & _); congruence|lia]. }
  assert (forall t, inv t -> slept ch p t -> cpu t c = Wk w ch i -> plock t i = None ->
    exists t', step c t t' /\ cpu t' c = WkHold w ch i) as Acq.
  { intros t It Zt Et Ft. eexists. split; [by eapply wk|]. cbn. by rewrite fn_lookup_insert. }
  assert (exists s1, rtc anystep s s1 /\ inv s1 /\
    (st s1 p = RUNNABLE \/ (slept ch p s1 /\ cpu s1 c = Wk w ch i /\ plock s1 i = None))) as (s1 & R1 & I1 & [H|(Z1 & E1 & F1)]).
  { destruct (plock s i) as [d|] eqn:L; [|exists s; split; [apply rtc_refl|by auto 10]].
    pose proof (iv_p1 _ I i d L) as Hd.
    eapply (free_lock ch p c _ _ d i s I Hz E); [|done|reflexivity].
    intros ->. rewrite E in Hd; discriminate Hd. }
  { exists s1; auto. }
  destruct (Acq s1 I1 Z1 E1 F1) as (s2 & Hs2 & E2). exists s2.
  assert (rtc anystep s s2) as R2 by (eapply rtc_r; [done|by exists c]).
  split; [done|]. split; [by eapply step_inv|].
  destruct (slept_step _ _ _ _ _ I1 Hs2 Z1); [right|by left]. by auto.
Qed.

Lemma wakeup_arrives w ch p n c s : forall i, inv s -> slept ch p s -> (i <= p)%nat -> (p - i <= n)%nat ->
  cpu s c = Wk w ch i \/ cpu s c = WkHold w ch i -> exists s', rtc anystep s s' /\ st s' p = RUNNABLE.
Proof.
  revert s. induction n as [n IH] using lt_wf_ind; intros s i I Hz Hi Hn.
  assert (forall t, inv t -> slept ch p t -> cpu t c = WkHold w ch i ->
    exists s', rtc anystep t s' /\ st s' p = RUNNABLE) as Hold.
  { intros t It Zt Et. assert (step c t (goto c (Wk w ch (S i)) (rel c i (wake_slot ch i t)))) as Hs by (by eapply wk_hold).
    pose proof (step_inv _ _ _ It Hs) as I1. destruct (slept_step _ _ _ _ _ It Hs Zt) as [Z1|]; [|eexists; split; [apply rtc_once; by exists c|done]].
    destruct (decide (i = p)) as [->|].
    { exfalso. destruct Z1 as (_ & Z1 & _), Zt as (_ & Za & Zb). unfold wake_slot in Z1. rewrite decide_True in Z1 by done.
      unfold goto, rel, setst in Z1; cbn in Z1. by rewrite fn_lookup_insert in Z1. }
    destruct (IH (n - 1)%nat ltac:(lia) _ (S i) I1 Z1 ltac:(lia) ltac:(lia)) as (s2 & R2 & X).
    { left. cbn. by rewrite fn_lookup_insert. }
    exists s2. split; [eapply rtc_l; [by exists c|done]|done]. }
  intros [E|E]; [|by apply Hold].
  destruct (wk_step _ _ _ _ _ _ I Hz Hi E) as (s1 & R1 & I1 & [X|(Z1 & [E1|[Hlt E1]])]); [by eauto| |].
  - destruct (Hold s1 I1 Z1 E1) as (s2 & R2 & X). exists s2. split; [by etrans|done].
  - destruct (IH (n - 1)%nat ltac:(lia) s1 (S i) I1 Z1 ltac:(lia) ltac:(lia) (or_introl E1)) as (s2 & R2 & X).
    exists s2. split; [by etrans|done].
Qed.

(** C6: no wakeup is lost.  In every reachable state, if a process sleeps on a
    channel whose condition holds, some CPU is in wakeup() on that channel and has
    not passed the sleeper's slot; and from that state the system can always get
    to one where the sleeper is RUNNABLE, since whoever holds a lock the waker
    needs releases it within four steps of its own. *)
Theorem sleeper_is_woken s ch p : reachable s -> slept ch p s -> cond s ch = true ->
  pending s ch p /\ exists s', rtc anystep s s' /\ st s' p = RUNNABLE.
Proof.
  intros I%sched_inv (Hp & H1 & H2) Hc.
  assert (pending s ch p) as P by (apply (iv_wake _ I); [split; auto|done]). split; [done|].
  destruct P as (c & w & i & E & Hi). by eapply (wakeup_arrives w ch p (p - i) c s i I).
Qed.

(** Two processes, ready, and two CPUs. *)
Definition boot : sys :=
  mkSys (fun c => Scan (c mod 2)) (fun _ => None) (fun p => if (p <? 2)%nat then RUNNABLE else UNUSED)
    (fun _ => None) (fun _ => None) (fun _ => None) (fun _ => false) (fun _ => 0%nat).
Lemma boot_reachable : reachable boot.
Proof.
  apply reach_init. unfold initial. split_and!; intros c; try reflexivity.
  - exists (c mod 2)%nat. split; [reflexivity|]. pose proof (Nat.mod_upper_bound c 2 ltac:(lia)). assert (NP = 64)%nat by reflexivity. lia.
  - cbn [st boot]. unfold boot. cbn [st]. destruct (c <? 2)%nat; [by right|by left].
Qed.
Ltac takes c r :=
  match goal with R : reachable ?s |- _ => eapply (reach_step c s _) in R; [|let t := eval cbv beta in (r s) in eapply t; reflexivity] end.
(** Process 0 goes to sleep on CPU 0; then process 1, on CPU 1, makes the
    condition true and enters wakeup. *)
Lemma woken_reachable : exists s, reachable s /\ slept 0 0 s /\ cond s 0 = true.
Proof.
  pose proof boot_reachable as R.
  takes 0%nat (fun s => scan 0 s 0).
  takes 0%nat (fun s => pick 0 s 0).
  takes 0%nat (fun s => resume_run 0 s 0).
  takes 0%nat (fun s => want 0 s 0 0).
  takes 0%nat (fun s => lock 0 s 0 0).
  takes 0%nat (fun s => sleep0 0 s 0 0).
  takes 0%nat (fun s => sleep1 0 s 0 0).
  takes 0%nat (fun s => sleep2 0 s 0 0).
  takes 0%nat (fun s => sleep3 0 s 0 0).
  takes 1%nat (fun s => scan 1 s 1).
  takes 1%nat (fun s => pick 1 s 1).
  takes 1%nat (fun s => resume_run 1 s 1).
  takes 1%nat (fun s => want 1 s 1 0).
  takes 1%nat (fun s => lock 1 s 1 0).
  takes 1%nat (fun s => set 1 s 1 0).
  eexists. split; [exact R|]. split; [|reflexivity]. split; [assert (NP = 64)%nat by reflexivity; lia|]. split; reflexivity.
Qed.
Lemma sleeper_is_woken_witness : exists s, reachable s /\ slept 0 0 s /\ pending s 0 0 /\
  exists s', rtc anystep s s' /\ st s' 0 = RUNNABLE.
Proof.
  destruct woken_reachable as (s & R & Z & C). exists s. split; [exact R|]. split; [exact Z|].
  exact (sleeper_is_woken s 0 0 R Z C).
Defined.
