(* ===== verification/Virtio.v ===== *)
(** * kernel/virtio_disk.c: the disk driver and the device it talks to

    The driver's queue in memory, with the calls of virtio_disk_rw that are in
    progress, one per buffer: bio.c calls it with the buffer's sleep-lock held.
    Code between acquire and release of [vdisk_lock] is one step; a call that
    sleeps is a [phase].  The device is what the virtio specification says of a
    block device: it takes chains off the available ring in order, completes
    them in any order, and puts them on the used ring.  What it does with a
    malformed chain is not said: anything may happen then. *)
From stdpp Require Import functions.
From S2P Require Import Prelude Machine KString Kalloc Blocks.

Definition NUM : nat := 8.
Definition VRING_DESC_F_NEXT : Z := 1.
Definition VRING_DESC_F_WRITE : Z := 2.
Definition VIRTIO_BLK_T_IN : Z := 0.
Definition VIRTIO_BLK_T_OUT : Z := 1.
(** The device's registers, and where they are. *)
Inductive mmio_reg :=
| VIRTIO_MMIO_MAGIC_VALUE
| VIRTIO_MMIO_VERSION
| VIRTIO_MMIO_DEVICE_ID
| VIRTIO_MMIO_VENDOR_ID
| VIRTIO_MMIO_DEVICE_FEATURES
| VIRTIO_MMIO_DRIVER_FEATURES
| VIRTIO_MMIO_QUEUE_SEL
| VIRTIO_MMIO_QUEUE_NUM_MAX
| VIRTIO_MMIO_QUEUE_NUM
| VIRTIO_MMIO_QUEUE_READY
| VIRTIO_MMIO_QUEUE_NOTIFY
| VIRTIO_MMIO_INTERRUPT_STATUS
| VIRTIO_MMIO_INTERRUPT_ACK
| VIRTIO_MMIO_STATUS
| VIRTIO_MMIO_QUEUE_DESC_LOW
| VIRTIO_MMIO_QUEUE_DESC_HIGH
| VIRTIO_MMIO_DRIVER_DESC_LOW
| VIRTIO_MMIO_DRIVER_DESC_HIGH
| VIRTIO_MMIO_DEVICE_DESC_LOW
| VIRTIO_MMIO_DEVICE_DESC_HIGH.
Definition offset (r : mmio_reg) : Z :=
  match r with
  | VIRTIO_MMIO_MAGIC_VALUE => 0x000
  | VIRTIO_MMIO_VERSION => 0x004
  | VIRTIO_MMIO_DEVICE_ID => 0x008
  | VIRTIO_MMIO_VENDOR_ID => 0x00c
  | VIRTIO_MMIO_DEVICE_FEATURES => 0x010
  | VIRTIO_MMIO_DRIVER_FEATURES => 0x020
  | VIRTIO_MMIO_QUEUE_SEL => 0x030
  | VIRTIO_MMIO_QUEUE_NUM_MAX => 0x034
  | VIRTIO_MMIO_QUEUE_NUM => 0x038
  | VIRTIO_MMIO_QUEUE_READY => 0x044
  | VIRTIO_MMIO_QUEUE_NOTIFY => 0x050
  | VIRTIO_MMIO_INTERRUPT_STATUS => 0x060
  | VIRTIO_MMIO_INTERRUPT_ACK => 0x064
  | VIRTIO_MMIO_STATUS => 0x070
  | VIRTIO_MMIO_QUEUE_DESC_LOW => 0x080
  | VIRTIO_MMIO_QUEUE_DESC_HIGH => 0x084
  | VIRTIO_MMIO_DRIVER_DESC_LOW => 0x090
  | VIRTIO_MMIO_DRIVER_DESC_HIGH => 0x094
  | VIRTIO_MMIO_DEVICE_DESC_LOW => 0x0a0
  | VIRTIO_MMIO_DEVICE_DESC_HIGH => 0x0a4
  end.
#[global] Instance mmio_reg_eq : EqDecision mmio_reg.
Proof. solve_decision. Defined.
Lemma offset_inj r r' : offset r = offset r' -> r = r'.
Proof. destruct r, r'; intros H; first [reflexivity|discriminate H]. Qed.
(** Bits of the status register, and numbers of the device feature bits. *)
Inductive config_s :=
| VIRTIO_CONFIG_S_ACKNOWLEDGE
| VIRTIO_CONFIG_S_DRIVER
| VIRTIO_CONFIG_S_DRIVER_OK
| VIRTIO_CONFIG_S_FEATURES_OK.
Definition status_bit (x : config_s) : Z :=
  match x with
  | VIRTIO_CONFIG_S_ACKNOWLEDGE => 1
  | VIRTIO_CONFIG_S_DRIVER => 2
  | VIRTIO_CONFIG_S_DRIVER_OK => 4
  | VIRTIO_CONFIG_S_FEATURES_OK => 8
  end.
Coercion status_bit : config_s >-> Z.
Inductive feature :=
| VIRTIO_BLK_F_RO
| VIRTIO_BLK_F_SCSI
| VIRTIO_BLK_F_CONFIG_WCE
| VIRTIO_BLK_F_MQ
| VIRTIO_F_ANY_LAYOUT
| VIRTIO_RING_F_INDIRECT_DESC
| VIRTIO_RING_F_EVENT_IDX.
Definition feature_bit (x : feature) : Z :=
  match x with
  | VIRTIO_BLK_F_RO => 5
  | VIRTIO_BLK_F_SCSI => 7
  | VIRTIO_BLK_F_CONFIG_WCE => 11
  | VIRTIO_BLK_F_MQ => 12
  | VIRTIO_F_ANY_LAYOUT => 27
  | VIRTIO_RING_F_INDIRECT_DESC => 28
  | VIRTIO_RING_F_EVENT_IDX => 29
  end.

(** The objects whose addresses the driver gives to the device. *)
Inductive loc := LNull | LOps (i : nat) | LData (b : nat) | LStatus (i : nat).
Record virtq_desc := mkDesc { d_addr : loc; d_len : Z; d_flags : Z; d_next : nat }.
Record virtio_blk_req := mkReq { rq_type : Z; rq_reserved : Z; rq_sector : Z }.
(** The fields of a [struct buf] that the driver uses. *)
Record vbuf := mkVbuf { vb_blockno : Z; vb_data : block; vb_disk : Z }.

(** Where a call virtio_disk_rw(b, w) is: about to allocate descriptors, asleep
    on disk.free, asleep on b, or woken from b. *)
Inductive phase :=
| Want (w : bool)
| AtFree (w : bool)
| AtBuf (w : bool) (i0 i1 i2 : nat)
| Woken (w : bool) (i0 i1 i2 : nat).
Inductive vchan := FreeChan | BufChan (b : nat).

Record vst := mkV {
  v_desc : nat -> virtq_desc;
  v_avail : nat -> nat; v_avail_idx : Z;     (* avail->ring, avail->idx *)
  v_used : nat -> nat; v_used_idx : Z;       (* used->ring[].id, used->idx *)
  v_free : nat -> bool;
  v_seen : Z;                                (* disk.used_idx *)
  v_info : nat -> option nat;                (* disk.info[].b *)
  v_status : nat -> Z;                       (* disk.info[].status *)
  v_ops : nat -> virtio_blk_req;
  v_bufs : nat -> vbuf;
  v_calls : nat -> option phase;
  v_mmio : list (mmio_reg * Z);                     (* register writes, oldest first *)
  v_taken : Z; v_busy : list nat;            (* the device: avail entries taken, chains it works on *)
  v_disk : Z -> list Z }.                    (* the device's sectors of 512 bytes *)

Definition on_desc f s := mkV (f (v_desc s)) (v_avail s) (v_avail_idx s) (v_used s) (v_used_idx s) (v_free s) (v_seen s) (v_info s) (v_status s) (v_ops s) (v_bufs s) (v_calls s) (v_mmio s) (v_taken s) (v_busy s) (v_disk s).
Definition on_avail f g s := mkV (v_desc s) (f (v_avail s)) (g (v_avail_idx s)) (v_used s) (v_used_idx s) (v_free s) (v_seen s) (v_info s) (v_status s) (v_ops s) (v_bufs s) (v_calls s) (v_mmio s) (v_taken s) (v_busy s) (v_disk s).
Definition on_used f g s := mkV (v_desc s) (v_avail s) (v_avail_idx s) (f (v_used s)) (g (v_used_idx s)) (v_free s) (v_seen s) (v_info s) (v_status s) (v_ops s) (v_bufs s) (v_calls s) (v_mmio s) (v_taken s) (v_busy s) (v_disk s).
Definition on_free f s := mkV (v_desc s) (v_avail s) (v_avail_idx s) (v_used s) (v_used_idx s) (f (v_free s)) (v_seen s) (v_info s) (v_status s) (v_ops s) (v_bufs s) (v_calls s) (v_mmio s) (v_taken s) (v_busy s) (v_disk s).
Definition on_seen f s := mkV (v_desc s) (v_avail s) (v_avail_idx s) (v_used s) (v_used_idx s) (v_free s) (f (v_seen s)) (v_info s) (v_status s) (v_ops s) (v_bufs s) (v_calls s) (v_mmio s) (v_taken s) (v_busy s) (v_disk s).
Definition on_info f s := mkV (v_desc s) (v_avail s) (v_avail_idx s) (v_used s) (v_used_idx s) (v_free s) (v_seen s) (f (v_info s)) (v_status s) (v_ops s) (v_bufs s) (v_calls s) (v_mmio s) (v_taken s) (v_busy s) (v_disk s).
Definition on_status f s := mkV (v_desc s) (v_avail s) (v_avail_idx s) (v_used s) (v_used_idx s) (v_free s) (v_seen s) (v_info s) (f (v_status s)) (v_ops s) (v_bufs s) (v_calls s) (v_mmio s) (v_taken s) (v_busy s) (v_disk s).
Definition on_ops f s := mkV (v_desc s) (v_avail s) (v_avail_idx s) (v_used s) (v_used_idx s) (v_free s) (v_seen s) (v_info s) (v_status s) (f (v_ops s)) (v_bufs s) (v_calls s) (v_mmio s) (v_taken s) (v_busy s) (v_disk s).
Definition on_bufs f s := mkV (v_desc s) (v_avail s) (v_avail_idx s) (v_used s) (v_used_idx s) (v_free s) (v_seen s) (v_info s) (v_status s) (v_ops s) (f (v_bufs s)) (v_calls s) (v_mmio s) (v_taken s) (v_busy s) (v_disk s).
Definition on_calls f s := mkV (v_desc s) (v_avail s) (v_avail_idx s) (v_used s) (v_used_idx s) (v_free s) (v_seen s) (v_info s) (v_status s) (v_ops s) (v_bufs s) (f (v_calls s)) (v_mmio s) (v_taken s) (v_busy s) (v_disk s).
Definition on_mmio f s := mkV (v_desc s) (v_avail s) (v_avail_idx s) (v_used s) (v_used_idx s) (v_free s) (v_seen s) (v_info s) (v_status s) (v_ops s) (v_bufs s) (v_calls s) (f (v_mmio s)) (v_taken s) (v_busy s) (v_disk s).
Definition on_dev f g h s := mkV (v_desc s) (v_avail s) (v_avail_idx s) (v_used s) (v_used_idx s) (v_free s) (v_seen s) (v_info s) (v_status s) (v_ops s) (v_bufs s) (v_calls s) (v_mmio s) (f (v_taken s)) (g (v_busy s)) (h (v_disk s)).

Abbreviation V := (M vst).
Definition setphase (b : nat) (p : option phase) : V unit := modify (on_calls (fun c => <[b := p]> c)).
Definition setdesc (i : nat) (d : virtq_desc) : V unit := modify (on_desc (fun f => <[i := d]> f)).
Definition mmio (r : mmio_reg) (v : Z) : V unit := modify (on_mmio (fun l => l ++ [(r, v)])).

(** [wakeup]: calls asleep on the channel go on. *)
Definition wake_call (ch : vchan) (b : nat) (p : option phase) : option phase :=
  match ch, p with
  | FreeChan, Some (AtFree w) => Some (Want w)
  | BufChan b', Some (AtBuf w i0 i1 i2) => if decide (b = b') then Some (Woken w i0 i1 i2) else p
  | _, _ => p
  end.
Definition wakeup (ch : vchan) : V unit := modify (on_calls (fun c b => wake_call ch b (c b))).

Fixpoint alloc_desc_loop (n i : nat) : V (option nat) :=
  match n with
  | O => kret None
  | S n =>
      f <~ gets (fun s => v_free s i) ;;
      if f : bool then modify (on_free (fun f => <[i := false]> f)) ;;; kret (Some i)
      else alloc_desc_loop n (S i)
  end.
Definition alloc_desc : V (option nat) := alloc_desc_loop NUM 0.

Definition free_desc (i : nat) : V unit :=
  if (NUM <=? i)%nat then panic "free_desc 1"
  else
    f <~ gets (fun s => v_free s i) ;;
    if f : bool then panic "free_desc 2"
    else
      setdesc i (mkDesc LNull 0 0 0) ;;;
      modify (on_free (fun f => <[i := true]> f)) ;;;
      wakeup FreeChan.

Fixpoint free_chain_loop (fuel : nat) (i : nat) : V unit :=
  match fuel with
  | O => nofuel
  | S fuel =>
      d <~ gets (fun s => v_desc s i) ;;
      free_desc i ;;;
      if negb (Z.land (d_flags d) VRING_DESC_F_NEXT =? 0) then free_chain_loop fuel (d_next d) else kret tt
  end.
(** Each round frees a descriptor that was not free: NUM + 1 rounds are enough. *)
Definition free_chain (i : nat) : V unit := free_chain_loop (S NUM) i.

Fixpoint free_descs (l : list nat) : V unit :=
  match l with
  | [] => kret tt
  | i :: l => free_desc i ;;; free_descs l
  end.
(** [n] descriptors to go, [idx] allocated. *)
Fixpoint alloc3_loop (n : nat) (idx : list nat) : V (option (list nat)) :=
  match n with
  | O => kret (Some idx)
  | S n =>
      r <~ alloc_desc ;;
      match r with
      | None => free_descs idx ;;; kret None
      | Some i => alloc3_loop n (idx ++ [i])
      end
  end.
Definition alloc3_desc : V (option (list nat)) := alloc3_loop 3 [].

(** The three descriptors of a request, and its entry in the available ring. *)
Definition submit (b : nat) (write : bool) (i0 i1 i2 : nat) : V unit :=
  blockno <~ gets (fun s => vb_blockno (v_bufs s b)) ;;
  let sector := u32 (blockno * (BSIZE / 512)) in
  modify (on_ops (fun f => <[i0 := mkReq (if write then VIRTIO_BLK_T_OUT else VIRTIO_BLK_T_IN) 0 sector]> f)) ;;;
  setdesc i0 (mkDesc (LOps i0) 16 VRING_DESC_F_NEXT i1) ;;;
  setdesc i1 (mkDesc (LData b) BSIZE (Z.lor (if write then 0 else VRING_DESC_F_WRITE) VRING_DESC_F_NEXT) i2) ;;;
  modify (on_status (fun f => <[i0 := 0xff]> f)) ;;;
  setdesc i2 (mkDesc (LStatus i0) 1 VRING_DESC_F_WRITE 0) ;;;
  modify (on_bufs (fun f => <[b := mkVbuf (vb_blockno (f b)) (vb_data (f b)) 1]> f)) ;;;
  modify (on_info (fun f => <[i0 := Some b]> f)) ;;;
  k <~ gets (fun s => Z.to_nat (v_avail_idx s mod Z.of_nat NUM)) ;;
  modify (on_avail (fun f => <[k := i0]> f) (fun x => x)) ;;;
  modify (on_avail (fun f => f) (fun x => u16 (x + 1))) ;;;
  mmio VIRTIO_MMIO_QUEUE_NOTIFY 0.

(** The loop that waits for the interrupt handler, and the end of the call. *)
Definition rw_wait (b : nat) (write : bool) (i0 i1 i2 : nat) : V unit :=
  d <~ gets (fun s => vb_disk (v_bufs s b)) ;;
  if d =? 1 then setphase b (Some (AtBuf write i0 i1 i2))
  else
    modify (on_info (fun f => <[i0 := None]> f)) ;;;
    free_chain i0 ;;;
    setphase b None.
(** From the call, or from the wakeup of a sleep on disk.free, to the next sleep. *)
Definition virtio_disk_rw (b : nat) (write : bool) : V unit :=
  r <~ alloc3_desc ;;
  match r with
  | Some [i0; i1; i2] => submit b write i0 i1 i2 ;;; rw_wait b write i0 i1 i2
  | _ => setphase b (Some (AtFree write))
  end.

(** The [None] case is the store [b->disk = 0] through a null pointer. *)
Fixpoint intr_loop (fuel : nat) : V unit :=
  match fuel with
  | O => nofuel
  | S fuel =>
      s <~ gets id ;;
      if v_seen s =? v_used_idx s then kret tt
      else
        let id := v_used s (Z.to_nat (v_seen s mod Z.of_nat NUM)) in
        if negb (v_status s id =? 0) then panic "virtio_disk_intr status"
        else
          match v_info s id with
          | None => panic "null buf"
          | Some b =>
              modify (on_bufs (fun f => <[b := mkVbuf (vb_blockno (f b)) (vb_data (f b)) 0]> f)) ;;;
              wakeup (BufChan b) ;;;
              modify (on_seen (fun x => u16 (x + 1))) ;;;
              intr_loop fuel
          end
  end.
(** [istat] is what the interrupt status register reads.  The loop runs once for
    each entry between disk.used_idx and used->idx. *)
Definition virtio_disk_intr (istat : Z) : V unit :=
  mmio VIRTIO_MMIO_INTERRUPT_ACK (Z.land istat 3) ;;;
  n <~ gets (fun s => Z.to_nat (u16 (v_used_idx s - v_seen s))) ;;
  intr_loop (S n).

(** ** The device *)
Definition sectors (disk : Z -> list Z) (k : Z) : block := disk k ++ disk (k + 1).
Definition put_sectors (k : Z) (d : block) (disk : Z -> list Z) : Z -> list Z :=
  fun j => if j =? k then take 512 d else if j =? k + 1 then drop 512 d else disk j.

(** The request that a chain of descriptors describes: a header, a data buffer
    of one block that the device reads or writes, and a status byte. *)
Definition request_at (s : vst) (i : nat) : option (bool * Z * nat * nat) :=
  let d0 := v_desc s i in let d1 := v_desc s (d_next d0) in let d2 := v_desc s (d_next d1) in
  match d_addr d0, d_addr d1, d_addr d2 with
  | LOps k, LData b, LStatus j =>
      let r := v_ops s k in
      let w := rq_type r =? VIRTIO_BLK_T_OUT in
      if (d_len d0 =? 16) && (d_flags d0 =? VRING_DESC_F_NEXT) && (d_len d1 =? 1024) &&
         (d_flags d1 =? Z.lor (if w then 0 else VRING_DESC_F_WRITE) VRING_DESC_F_NEXT) &&
         (d_len d2 =? 1) && (d_flags d2 =? VRING_DESC_F_WRITE) && (w || (rq_type r =? VIRTIO_BLK_T_IN))
      then Some (w, rq_sector r, b, j) else None
  | _, _, _ => None
  end.
Definition transfer (w : bool) (k : Z) (b : nat) (s : vst) : vst :=
  if w then on_dev (fun x => x) (fun l => l) (put_sectors k (vb_data (v_bufs s b))) s
  else on_bufs (fun f => <[b := mkVbuf (vb_blockno (f b)) (sectors (v_disk s) k) (vb_disk (f b))]> f) s.
Definition finish (i j : nat) (s : vst) : vst :=
  on_dev (fun x => x) (filter (fun x => x <> i)) (fun d => d)
    (on_used (fun f => <[Z.to_nat (v_used_idx s mod Z.of_nat NUM) := i]> f) (fun x => u16 (x + 1))
      (on_status (fun f => <[j := 0]> f) s)).

Inductive dev_step (s : vst) : vst -> Prop :=
| dev_take : v_taken s <> v_avail_idx s ->
    dev_step s (on_dev (fun x => u16 (x + 1)) (fun l => l ++ [v_avail s (Z.to_nat (v_taken s mod Z.of_nat NUM))]) (fun d => d) s)
| dev_finish i w k b j : i ∈ v_busy s -> request_at s i = Some (w, k, b, j) -> dev_step s (finish i j (transfer w k b s))
| dev_bad i s' : i ∈ v_busy s -> request_at s i = None -> dev_step s s'.

(** ** Driver and device together *)
(** A device that does what the specification says.  It reports no failure:
    the disk works. *)
Class Conforms (dev : vst -> vst -> Prop) := conforms s s' : dev s s' -> dev_step s s'.

(** What a run of the code leads to: a state, or a panic.  Between calls bio.c
    may give a buffer another block number or other data. *)
Definition after {A} (r : res (A * vst)) : option vst := match r with Ret (_, s) => Some s | _ => None end.
Inductive vstep (dev : vst -> vst -> Prop) (s : vst) : option vst -> Prop :=
| v_call b w : v_calls s b = None -> 0 <= vb_blockno (v_bufs s b) < 2 ^ 31 ->
    vstep dev s (Some (on_calls (fun c => <[b := Some (Want w)]> c) s))
| v_go b w : v_calls s b = Some (Want w) -> vstep dev s (after (virtio_disk_rw b w s))
| v_resume b w i0 i1 i2 : v_calls s b = Some (Woken w i0 i1 i2) -> vstep dev s (after (rw_wait b w i0 i1 i2 s))
| v_fill b k d : v_calls s b = None -> vstep dev s (Some (on_bufs (fun f => <[b := mkVbuf k d (vb_disk (f b))]> f) s))
| v_intr istat : vstep dev s (after (virtio_disk_intr istat s))
| v_dev s' : dev s s' -> vstep dev s (Some s').

(** ** Initialisation *)
Section init.
(** What the device's register [r] reads after the writes [l]. *)
Context (rd : list (mmio_reg * Z) -> mmio_reg -> Z).
Abbreviation I := (M (pmem * vst)).
Definition drv {A} (m : V A) : I A := fun s =>
  match m s.2 with
  | Ret (a, v) => Ret (a, (s.1, v))
  | Panic e => Panic e
  | Sleeps c => Sleeps c
  | OutOfFuel => OutOfFuel
  end.
Definition phys {A} (m : M pmem A) : I A := fun s =>
  match m s.1 with
  | Ret (a, p) => Ret (a, (p, s.2))
  | Panic e => Panic e
  | Sleeps c => Sleeps c
  | OutOfFuel => OutOfFuel
  end.
Definition R (r : mmio_reg) : I Z := drv (gets (fun s => u32 (rd (v_mmio s) r))).
Definition W (r : mmio_reg) (v : Z) : I unit := drv (mmio r (u32 v)).
(** [features & ~(1 << bit)] *)
Definition without (features : Z) (x : feature) : Z := Z.land features (Z.lnot (Z.shiftl 1 (feature_bit x))).

(** [desc], [avail] and [used] of the zeroed pages. *)
Definition zero_queue (s : vst) : vst :=
  on_desc (fun _ _ => mkDesc LNull 0 0 0) (on_avail (fun _ _ => 0%nat) (fun _ => 0) (on_used (fun _ _ => 0%nat) (fun _ => 0) s)).
Definition virtio_disk_init : I (Z * Z * Z) :=
  magic <~ R VIRTIO_MMIO_MAGIC_VALUE ;;
  version <~ R VIRTIO_MMIO_VERSION ;;
  device_id <~ R VIRTIO_MMIO_DEVICE_ID ;;
  vendor <~ R VIRTIO_MMIO_VENDOR_ID ;;
  if negb ((magic =? 0x74726976) && (version =? 2) && (device_id =? 2) && (vendor =? 0x554d4551)) then panic "could not find virtio disk"
  else
    W VIRTIO_MMIO_STATUS 0 ;;;
    let status := Z.lor 0 VIRTIO_CONFIG_S_ACKNOWLEDGE in
    W VIRTIO_MMIO_STATUS status ;;;
    let status := Z.lor status VIRTIO_CONFIG_S_DRIVER in
    W VIRTIO_MMIO_STATUS status ;;;
    features <~ R VIRTIO_MMIO_DEVICE_FEATURES ;;
    W VIRTIO_MMIO_DRIVER_FEATURES
      (foldl without features [VIRTIO_BLK_F_RO; VIRTIO_BLK_F_SCSI; VIRTIO_BLK_F_CONFIG_WCE; VIRTIO_BLK_F_MQ;
         VIRTIO_F_ANY_LAYOUT; VIRTIO_RING_F_EVENT_IDX; VIRTIO_RING_F_INDIRECT_DESC]) ;;;
    let status := Z.lor status VIRTIO_CONFIG_S_FEATURES_OK in
    W VIRTIO_MMIO_STATUS status ;;;
    status <~ R VIRTIO_MMIO_STATUS ;;
    if Z.land status VIRTIO_CONFIG_S_FEATURES_OK =? 0 then panic "virtio disk FEATURES_OK unset"
    else
      W VIRTIO_MMIO_QUEUE_SEL 0 ;;;
      ready <~ R VIRTIO_MMIO_QUEUE_READY ;;
      if negb (ready =? 0) then panic "virtio disk should not be ready"
      else
        max <~ R VIRTIO_MMIO_QUEUE_NUM_MAX ;;
        if max =? 0 then panic "virtio disk has no queue 0"
        else if max <? Z.of_nat NUM then panic "virtio disk max queue too short"
        else
          desc <~ phys kalloc ;;
          avail <~ phys kalloc ;;
          used <~ phys kalloc ;;
          if (desc =? 0) || (avail =? 0) || (used =? 0) then panic "virtio disk kalloc"
          else
            phys (set_pm (fun m => memset m desc 0 PGSIZE)) ;;;
            phys (set_pm (fun m => memset m avail 0 PGSIZE)) ;;;
            phys (set_pm (fun m => memset m used 0 PGSIZE)) ;;;
            drv (modify zero_queue) ;;;
            W VIRTIO_MMIO_QUEUE_NUM (Z.of_nat NUM) ;;;
            W VIRTIO_MMIO_QUEUE_DESC_LOW desc ;;;
            W VIRTIO_MMIO_QUEUE_DESC_HIGH (Z.shiftr desc 32) ;;;
            W VIRTIO_MMIO_DRIVER_DESC_LOW avail ;;;
            W VIRTIO_MMIO_DRIVER_DESC_HIGH (Z.shiftr avail 32) ;;;
            W VIRTIO_MMIO_DEVICE_DESC_LOW used ;;;
            W VIRTIO_MMIO_DEVICE_DESC_HIGH (Z.shiftr used 32) ;;;
            W VIRTIO_MMIO_QUEUE_READY 1 ;;;
            drv (modify (on_free (fun f i => if decide (i < NUM)%nat then true else f i))) ;;;
            W VIRTIO_MMIO_STATUS (Z.lor status VIRTIO_CONFIG_S_DRIVER_OK) ;;;
            kret (desc, avail, used).
End init.

(** The driver's static variables, and a device that has done nothing. *)
Definition at_boot (s : vst) : Prop :=
  (forall i, v_free s i = false) /\ v_seen s = 0 /\ (forall b, v_calls s b = None) /\ v_taken s = 0 /\ v_busy s = [].
(** The state after initialisation. *)
Definition ready (s : vst) : Prop :=
  (forall i, (i < NUM)%nat -> v_free s i = true) /\ v_avail_idx s = 0 /\ v_used_idx s = 0 /\ v_seen s = 0 /\
  (forall b, v_calls s b = None) /\ v_taken s = 0 /\ v_busy s = [].
Inductive vrun (dev : vst -> vst -> Prop) (s0 : vst) : option vst -> Prop :=
| vrun_start : vrun dev s0 (Some s0)
| vrun_step s r : vrun dev s0 (Some s) -> vstep dev s r -> vrun dev s0 r.

(** ** What the driver promises to bio.c

    Buffers, the disk, and the calls in progress; a call has one transfer, which
    happens at some moment between its start and its end. *)
Inductive acall := Pending (w : bool) | Performed (w : bool).
Record atomic_disk := mkA { a_no : nat -> Z; a_bufs : nat -> block; a_disk : Z -> block; a_calls : nat -> option acall }.
Inductive astep (a : atomic_disk) : atomic_disk -> Prop :=
| a_fill b k d : a_calls a b = None -> astep a (mkA (<[b := k]> (a_no a)) (<[b := d]> (a_bufs a)) (a_disk a) (a_calls a))
| a_call b w : a_calls a b = None -> astep a (mkA (a_no a) (a_bufs a) (a_disk a) (<[b := Some (Pending w)]> (a_calls a)))
| a_read b : a_calls a b = Some (Pending false) ->
    astep a (mkA (a_no a) (<[b := a_disk a (a_no a b)]> (a_bufs a)) (a_disk a) (<[b := Some (Performed false)]> (a_calls a)))
| a_write b : a_calls a b = Some (Pending true) ->
    astep a (mkA (a_no a) (a_bufs a) (fun k => if k =? a_no a b then a_bufs a b else a_disk a k) (<[b := Some (Performed true)]> (a_calls a)))
| a_return b w : a_calls a b = Some (Performed w) -> astep a (mkA (a_no a) (a_bufs a) (a_disk a) (<[b := None]> (a_calls a))).
