(* ===== verification/VirtioInv.v ===== *)
(** * The disk driver's invariant, and that every step keeps it *)
From stdpp Require Import functions.
From S2P Require Import Prelude Machine Blocks Virtio.

(** The descriptors of a submitted call. *)
Definition sub (p : option phase) : option (bool * nat * nat * nat) :=
  match p with
  | Some (AtBuf w i0 i1 i2) | Some (Woken w i0 i1 i2) => Some (w, i0, i1, i2)
  | _ => None
  end.
Definition idxs (q : bool * nat * nat * nat) : list nat := let '(_, i0, i1, i2) := q in [i0; i1; i2].

Definition formatted (s : vst) (b : nat) (w : bool) (i0 i1 i2 : nat) : Prop :=
  v_desc s i0 = mkDesc (LOps i0) 16 VRING_DESC_F_NEXT i1 /\
  v_desc s i1 = mkDesc (LData b) BSIZE (Z.lor (if w then 0 else VRING_DESC_F_WRITE) VRING_DESC_F_NEXT) i2 /\
  v_desc s i2 = mkDesc (LStatus i0) 1 VRING_DESC_F_WRITE 0 /\
  v_ops s i0 = mkReq (if w then VIRTIO_BLK_T_OUT else VIRTIO_BLK_T_IN) 0 (2 * vb_blockno (v_bufs s b)) /\
  v_info s i0 = Some b.

(** The [n] entries of a ring from position [from]. *)
Definition slot (x : Z) : nat := Z.to_nat (x mod Z.of_nat NUM).
Definition ring (r : nat -> nat) (from : Z) (n : nat) : list nat := (fun k => r (slot (from + Z.of_nat k))) <$> seq 0 n.

(** [A]: the available chains the device has not taken; [U]: the used chains the
    handler has not seen. *)
Record vinv (A U : list nat) (s : vst) : Prop := {
  vi_live b w i0 i1 i2 : sub (v_calls s b) = Some (w, i0, i1, i2) -> formatted s b w i0 i1 i2;
  vi_idx b q : sub (v_calls s b) = Some q -> NoDup (idxs q) /\ Forall (fun i => (i < NUM)%nat /\ v_free s i = false) (idxs q);
  vi_disj b b' q q' i : sub (v_calls s b) = Some q -> sub (v_calls s b') = Some q' -> i ∈ idxs q -> i ∈ idxs q' -> b = b';
  vi_own i : (i < NUM)%nat -> v_free s i = false -> exists b q, sub (v_calls s b) = Some q /\ i ∈ idxs q;
  vi_avail : A = ring (v_avail s) (v_taken s) (length A) /\ v_avail_idx s = u16 (v_taken s + Z.of_nat (length A)) /\ 0 <= v_taken s < 2 ^ 16;
  vi_used : U = ring (v_used s) (v_seen s) (length U) /\ v_used_idx s = u16 (v_seen s + Z.of_nat (length U)) /\ 0 <= v_seen s < 2 ^ 16;
  vi_nodup : NoDup (A ++ v_busy s ++ U);
  vi_heads i : i ∈ A ++ v_busy s ++ U <-> exists b w i1 i2, sub (v_calls s b) = Some (w, i, i1, i2) /\ vb_disk (v_bufs s b) = 1;
  vi_done i : i ∈ U -> v_status s i = 0;
  vi_asleep b w i0 i1 i2 : v_calls s b = Some (AtBuf w i0 i1 i2) -> vb_disk (v_bufs s b) = 1;
  vi_starved b w : v_calls s b = Some (AtFree w) -> exists b' q, sub (v_calls s b') = Some q;
  vi_block b : v_calls s b <> None -> 0 <= vb_blockno (v_bufs s b) < 2 ^ 31 }.

(** ** Rings *)
Lemma vring_cons r from n : ring r from (S n) = r (slot from) :: ring r (from + 1) n.
Proof.
  unfold ring. cbn [seq fmap list_fmap]. rewrite Z.add_0_r. f_equal. rewrite <- fmap_S_seq, <- list_fmap_compose. apply list_fmap_ext.
  intros j k Hk. cbn. f_equal. f_equal. lia.
Qed.
Lemma slot_u16 x : slot (u16 x) = slot x.
Proof. unfold slot, u16, NUM. f_equal. change (2 ^ 16) with 65536. dlia. Qed.
Lemma ring_u16 r from n : ring r (u16 from) n = ring r from n.
Proof.
  unfold ring. apply list_fmap_ext. intros j k Hk. f_equal. rewrite <- (slot_u16 (u16 from + _)), <- (slot_u16 (from + _)). f_equal.
  unfold u16. rewrite Z.add_mod_idemp_l by lia. reflexivity.
Qed.
Lemma vring_snoc r from n : ring r from (S n) = ring r from n ++ [r (slot (from + Z.of_nat n))].
Proof. unfold ring. by rewrite seq_S, fmap_app. Qed.
Lemma slot_inj x k k' : (k < NUM)%nat -> (k' < NUM)%nat -> slot (x + Z.of_nat k) = slot (x + Z.of_nat k') -> k = k'.
Proof. unfold slot, NUM. intros H1 H2 E. dlia. Qed.
Lemma vring_push r from n i : (n < NUM)%nat -> ring (<[slot (from + Z.of_nat n) := i]> r) from (S n) = ring r from n ++ [i].
Proof.
  intros Hn. rewrite vring_snoc, fn_lookup_insert. f_equal. unfold ring. apply list_fmap_ext. intros j k Hk.
  apply lookup_seq in Hk as [-> Hk]. rewrite fn_lookup_insert_ne; [done|]. cbn. intros E%slot_inj; lia.
Qed.

(** ** Runs of the driver's functions *)
Definition freed (i : nat) (s : vst) : vst :=
  on_calls (fun c b => wake_call FreeChan b (c b)) (on_free (fun f => <[i := true]> f) (on_desc (fun f => <[i := mkDesc LNull 0 0 0]> f) s)).
Lemma free_desc_run i s : (i < NUM)%nat -> v_free s i = false -> free_desc i s = Ret (tt, freed i s).
Proof. intros Hi Hf. unfold free_desc. rewrite leb_correct_conv by done. unfold kbind, gets. by rewrite Hf. Qed.

Lemma alloc_desc_run s :
  (exists i, (i < NUM)%nat /\ v_free s i = true /\ alloc_desc s = Ret (Some i, on_free (fun f => <[i := false]> f) s)) \/
  ((forall i, (i < NUM)%nat -> v_free s i = false) /\ alloc_desc s = Ret (None, s)).
Proof.
  unfold alloc_desc. assert (forall n i, (i + n = NUM)%nat -> (forall j, (j < i)%nat -> v_free s j = false) ->
    (exists i', (i' < NUM)%nat /\ v_free s i' = true /\ alloc_desc_loop n i s = Ret (Some i', on_free (fun f => <[i' := false]> f) s)) \/
    ((forall i', (i' < NUM)%nat -> v_free s i' = false) /\ alloc_desc_loop n i s = Ret (None, s))) as H.
  2:{ apply (H NUM 0%nat); lia. }
  induction n as [|n IH]; intros i Hi Hb; cbn [alloc_desc_loop].
  - right. split; [|done]. intros j Hj. apply Hb. lia.
  - unfold kbind, gets. destruct (v_free s i) eqn:E.
    + left. exists i. split; [lia|]. split; [done|reflexivity].
    + apply IH; [lia|]. intros j Hj. destruct (decide (j = i)) as [->|]; [done|]. apply Hb. lia.
Qed.

(** [s'] is [s] but for free descriptors reset, and sleepers on disk.free perhaps woken. *)
Definition near (s s' : vst) : Prop :=
  exists d f c, s' = on_calls (fun _ => c) (on_free (fun _ => f) (on_desc (fun _ => d) s)) /\
    (forall i, v_free s i = false -> d i = v_desc s i) /\ (forall i, f i = v_free s i) /\
    (forall b, c b = v_calls s b \/ c b = wake_call FreeChan b (v_calls s b)).
Lemma wake_free_idem b p : wake_call FreeChan b (wake_call FreeChan b p) = wake_call FreeChan b p.
Proof. by destruct p as [[]|]. Qed.

(** Descriptors [l] taken from [s]. *)
Definition took (l : list nat) (s : vst) : vst := on_free (fun f => foldl (fun f i => <[i := false]> f) f l) s.
Lemma took_free l : forall f i, foldl (fun (f : nat -> bool) i => <[i := false]> f) f l i = if decide (i ∈ l) then false else f i.
Proof.
  induction l as [|j l IH]; intros f i; cbn [foldl]; [done|]. rewrite IH.
  destruct (decide (i = j)) as [->|Hij]; [rewrite fn_lookup_insert|rewrite fn_lookup_insert_ne by done]; repeat case_decide; set_solver.
Qed.
Lemma took_snoc l i s : on_free (fun f => <[i := false]> f) (took l s) = took (l ++ [i]) s.
Proof. unfold took, on_free. cbn. by rewrite foldl_app. Qed.

Lemma free_descs_run l : forall s d f c,
  (forall i, i ∈ l -> (i < NUM)%nat /\ f i = false) -> NoDup l ->
  exists d' f' c', free_descs l (on_calls (fun _ => c) (on_free (fun _ => f) (on_desc (fun _ => d) s))) =
    Ret (tt, on_calls (fun _ => c') (on_free (fun _ => f') (on_desc (fun _ => d') s))) /\
    (forall i, (i ∉ l) -> d' i = d i) /\ (forall i, f' i = if decide (i ∈ l) then true else f i) /\
    (forall b, c' b = c b \/ c' b = wake_call FreeChan b (c b)).
Proof.
  induction l as [|i l IH]; intros s d f c Hl Hd.
  - exists d, f, c. split_and!; try done. by left.
  - apply NoDup_cons in Hd as [Hi Hd]. destruct (Hl i ltac:(by left)) as [Hi1 Hi2].
    destruct (IH s (<[i := mkDesc LNull 0 0 0]> d) (<[i := true]> f) (fun b => wake_call FreeChan b (c b))) as (d' & f' & c' & E & H1 & H2 & H3).
    { intros j Hj. destruct (Hl j ltac:(by right)). rewrite fn_lookup_insert_ne by (intros ->; done). done. }
    { done. }
    exists d', f', c'. split_and!.
    + cbn [free_descs]. rewrite (kbind_ret _ _ _ tt _ (free_desc_run i (on_calls (fun _ => c) (on_free (fun _ => f) (on_desc (fun _ => d) s))) Hi1 Hi2)).
      exact E.
    + intros j Hj. rewrite H1 by set_solver. rewrite fn_lookup_insert_ne by set_solver. done.
    + intros j. rewrite H2. destruct (decide (j = i)) as [->|Hn].
      * rewrite fn_lookup_insert. repeat case_decide; set_solver.
      * rewrite fn_lookup_insert_ne by done. repeat case_decide; set_solver.
    + intros b. destruct (H3 b) as [->| ->]; rewrite ?wake_free_idem; auto.
Qed.

Lemma alloc3_run s :
  (exists i0 i1 i2, NoDup [i0; i1; i2] /\ Forall (fun i => (i < NUM)%nat /\ v_free s i = true) [i0; i1; i2] /\
    alloc3_desc s = Ret (Some [i0; i1; i2], took [i0; i1; i2] s)) \/
  (exists i s', (i < NUM)%nat /\ v_free s i = false /\ alloc3_desc s = Ret (None, s') /\ near s s').
Proof.
  unfold alloc3_desc. assert (forall n l, (length l + n = 3)%nat -> NoDup l -> Forall (fun i => (i < NUM)%nat /\ v_free s i = true) l ->
    (exists l', length l' = 3%nat /\ NoDup l' /\ Forall (fun i => (i < NUM)%nat /\ v_free s i = true) l' /\ alloc3_loop n l (took l s) = Ret (Some l', took l' s)) \/
    (exists i s', (i < NUM)%nat /\ v_free s i = false /\ alloc3_loop n l (took l s) = Ret (None, s') /\ near s s')) as H.
  2:{ replace (alloc3_loop 3 [] s) with (alloc3_loop 3 [] (took [] s)) by (by destruct s).
      destruct (H 3%nat [] eq_refl (NoDup_nil_2) (List.Forall_nil _)) as [(l' & E & H1 & H2 & H3)|Hr]; [left|by right].
      destruct l' as [|i0 [|i1 [|i2 []]]]; try discriminate E. by exists i0, i1, i2. }
  induction n as [|n IH]; intros l Hlen Hd Hl; cbn [alloc3_loop]; [left; exists l; split_and!; try done; lia|].
  destruct (alloc_desc_run (took l s)) as [(i & Hi & Hf & E)|[Hnone E]]; rewrite (kbind_ret _ _ _ _ _ E).
  - cbn in Hf. rewrite took_free in Hf. case_decide as Hin; [discriminate Hf|]. rewrite took_snoc. apply IH.
    + rewrite length_app. cbn. lia.
    + apply NoDup_app. split_and!; [done|set_solver|apply NoDup_singleton].
    + apply Forall_app. split; [done|]. by apply Forall_singleton.
  - right. pose proof (proj1 (Forall_forall _ _) Hl) as HF. cbn in HF. assert (exists i, (i < NUM)%nat /\ (i ∉ l)) as (i & Hi & Hil).
    { destruct (decide (Forall (fun i => i ∈ l) (seq 0 NUM))) as [F|F].
      - exfalso. assert (length (seq 0 NUM) <= length l)%nat as X; [|rewrite length_seq in X; unfold NUM in X; lia].
        apply submseteq_length, NoDup_submseteq; [apply NoDup_seq|]. by apply Forall_forall.
      - apply not_Forall_Exists, Exists_exists in F; [|apply _]. destruct F as (i & Hi & Hn). exists i. split; [|done].
        apply elem_of_seq in Hi. lia. }
    pose proof (Hnone i Hi) as Hf. cbn in Hf. rewrite took_free, decide_False in Hf by done.
    destruct (free_descs_run l s (v_desc s) (v_free (took l s)) (v_calls s)) as (d & f & c & E' & H1 & H2 & H3); [|done|].
    { intros j Hj. split; [by apply HF|]. cbn. by rewrite took_free, decide_True. }
    exists i. eexists. split; [done|]. split; [done|]. split; [exact (kbind_ret _ _ _ _ _ E')|].
    exists d, f, c. split; [done|]. split_and!; [| |done].
    + intros j Hj. apply H1. intros Hin. destruct (HF _ Hin). congruence.
    + intros j. rewrite H2. cbn. rewrite took_free. case_decide as Hin; [|done].
      destruct (HF _ Hin). congruence.
Qed.

(** ** Every step of the driver and of the device keeps the invariant *)

(** Changes that leave the submitted calls alone. *)
Definition chg (d : nat -> virtq_desc) (f : nat -> bool) (c : nat -> option phase) (s : vst) : vst :=
  on_calls (fun _ => c) (on_free (fun _ => f) (on_desc (fun _ => d) s)).
Lemma vinv_chg A U s d f c : vinv A U s ->
  (forall b, sub (c b) = sub (v_calls s b)) -> (forall i, v_free s i = false -> d i = v_desc s i) -> (forall i, f i = v_free s i) ->
  (forall b w i0 i1 i2, c b = Some (AtBuf w i0 i1 i2) -> vb_disk (v_bufs s b) = 1) ->
  (forall b w, c b = Some (AtFree w) -> exists b' q, sub (v_calls s b') = Some q) ->
  (forall b, c b <> None -> 0 <= vb_blockno (v_bufs s b) < 2 ^ 31) -> vinv A U (chg d f c s).
Proof.
  intros I Hsub Hd Hf Hb Ha Hn. split; cbn; try apply I; try done.
  - intros b w i0 i1 i2 H. rewrite Hsub in H. destruct ((vi_idx _ _ _ I) _ _ H) as [_ F]. repeat setoid_rewrite Forall_cons in F.
    destruct F as ([_ F0] & [_ F1] & [_ F2] & _). unfold formatted. cbn. rewrite !Hd by done. by apply (vi_live _ _ _ I).
  - intros b q H. rewrite Hsub in H. destruct ((vi_idx _ _ _ I) _ _ H) as [N F]. split; [done|]. eapply Forall_impl; [exact F|]. cbn.
    intros i [? ?]. by rewrite Hf.
  - intros b b' q q' i. rewrite !Hsub. apply (vi_disj _ _ _ I).
  - intros i Hi. rewrite Hf. intros E. destruct ((vi_own _ _ _ I) i Hi E) as (b & q & ? & ?). exists b, q. by rewrite Hsub.
  - intros i. rewrite (vi_heads _ _ _ I). split; intros (b & w & i1 & i2 & H1 & H2); exists b, w, i1, i2; [by rewrite Hsub|by rewrite <- Hsub].
  - intros b w E. destruct (Ha b w E) as (b' & q & H). exists b', q. by rewrite Hsub.
Qed.

Lemma chg_calls c s : on_calls (fun _ => c) s = chg (v_desc s) (v_free s) c s.
Proof. by destruct s. Qed.

(** The length of the queues. *)
Lemma heads_lt A U s i : vinv A U s -> i ∈ A ++ v_busy s ++ U -> (i < NUM)%nat /\ v_free s i = false.
Proof.
  intros I (b & w & i1 & i2 & H & _)%(vi_heads _ _ _ I). destruct (vi_idx _ _ _ I _ _ H) as [_ F]. by apply Forall_cons in F as [? _].
Qed.
Lemma nodup_lt (l : list nat) n : NoDup l -> (forall i, i ∈ l -> (i < n)%nat) -> (length l <= n)%nat.
Proof.
  intros N F. transitivity (length (seq 0 n)); [|by rewrite length_seq]. apply submseteq_length, NoDup_submseteq; [done|]. intros i Hi. apply elem_of_seq. specialize (F i Hi). lia.
Qed.
Lemma avail_room A U s i : vinv A U s -> (i < NUM)%nat -> v_free s i = true -> (length A < NUM)%nat /\ (i ∉ A ++ v_busy s ++ U).
Proof.
  intros I Hi Hf. assert (i ∉ A ++ v_busy s ++ U) as Hn. { intros Hin. destruct (heads_lt _ _ _ _ I Hin). congruence. }
  split; [|done]. pose proof (nodup_lt (i :: A) NUM) as H. cbn in H. apply H.
  - constructor; [set_solver|]. exact (proj1 (proj1 (NoDup_app _ _) (vi_nodup _ _ _ I))).
  - intros j [->|Hj]%elem_of_cons; [done|]. eapply heads_lt; [exact I|set_solver].
Qed.

(** ** Submission *)
Definition submitted (b : nat) (w : bool) (i0 i1 i2 : nat) (s : vst) : vst :=
  mkV (<[i2 := mkDesc (LStatus i0) 1 VRING_DESC_F_WRITE 0]>
        (<[i1 := mkDesc (LData b) BSIZE (Z.lor (if w then 0 else VRING_DESC_F_WRITE) VRING_DESC_F_NEXT) i2]>
          (<[i0 := mkDesc (LOps i0) 16 VRING_DESC_F_NEXT i1]> (v_desc s))))
    (<[slot (v_avail_idx s) := i0]> (v_avail s)) (u16 (v_avail_idx s + 1)) (v_used s) (v_used_idx s)
    (foldl (fun f i => <[i := false]> f) (v_free s) [i0; i1; i2]) (v_seen s) (<[i0 := Some b]> (v_info s)) (<[i0 := 0xff]> (v_status s))
    (<[i0 := mkReq (if w then VIRTIO_BLK_T_OUT else VIRTIO_BLK_T_IN) 0 (u32 (vb_blockno (v_bufs s b) * (BSIZE / 512)))]> (v_ops s))
    (<[b := mkVbuf (vb_blockno (v_bufs s b)) (vb_data (v_bufs s b)) 1]> (v_bufs s))
    (<[b := Some (AtBuf w i0 i1 i2)]> (v_calls s)) (v_mmio s ++ [(VIRTIO_MMIO_QUEUE_NOTIFY, 0)]) (v_taken s) (v_busy s) (v_disk s).
Lemma submit_run b w i0 i1 i2 s :
  kbind (submit b w i0 i1 i2) (fun _ => rw_wait b w i0 i1 i2) (took [i0; i1; i2] s) = Ret (tt, submitted b w i0 i1 i2 s).
Proof.
  unfold submit, rw_wait, setphase, setdesc, mmio, modify, gets, kbind, kret. cbn. rewrite fn_lookup_insert. reflexivity.
Qed.

Lemma sector_eq k : 0 <= k < 2 ^ 31 -> u32 (k * (BSIZE / 512)) = 2 * k.
Proof. intros H. change (BSIZE / 512) with 2. rewrite u32_small; lia. Qed.
Lemma free_ne s i j : v_free s i = true -> v_free s j = false -> i <> j.
Proof. congruence. Qed.

Ltac ins := repeat first [rewrite fn_lookup_insert|rewrite fn_lookup_insert_ne by done].
Section submit.
Context (A U : list nat) (s : vst) (b : nat) (w : bool) (i0 i1 i2 : nat).
Context (I : vinv A U s) (Hb : v_calls s b = Some (Want w)).
Context (Hnd : NoDup [i0; i1; i2]) (Hall : Forall (fun i => (i < NUM)%nat /\ v_free s i = true) [i0; i1; i2]).
Abbreviation s' := (submitted b w i0 i1 i2 s).

Lemma sub_old b' q : b' <> b -> sub (v_calls s' b') = Some q -> sub (v_calls s b') = Some q /\ forall i, i ∈ idxs q -> i ∉ [i0; i1; i2].
Proof.
  intros Hne H. cbn in H. rewrite fn_lookup_insert_ne in H by done. split; [done|]. intros i Hi Hin.
  destruct (vi_idx _ _ _ I _ _ H) as [_ F]. eapply Forall_forall in F as [_ F]; [|exact Hi]. eapply Forall_forall in Hall as [_ G]; [|exact Hin]. congruence.
Qed.
Lemma sub_new : sub (v_calls s' b) = Some (w, i0, i1, i2).
Proof. cbn. by rewrite fn_lookup_insert. Qed.
Lemma sub_free i : v_free s' i = if decide (i ∈ [i0; i1; i2]) then false else v_free s i.
Proof. apply took_free. Qed.
Lemma sub_was b' q : sub (v_calls s b') = Some q -> b' <> b /\ sub (v_calls s' b') = Some q.
Proof. intros H. assert (b' <> b) as Hne by (intros ->; rewrite Hb in H; discriminate H). split; [done|]. cbn. by rewrite fn_lookup_insert_ne. Qed.

Lemma submit_live b' w' j0 j1 j2 : sub (v_calls s' b') = Some (w', j0, j1, j2) -> formatted s' b' w' j0 j1 j2.
Proof.
  intros H. destruct (decide (b' = b)) as [->|Hne].
  - rewrite sub_new in H. simplify_eq. apply NoDup_cons in Hnd as [N1 [N2 _]%NoDup_cons].
    assert (j0 <> j1 /\ j0 <> j2 /\ j1 <> j2) as (? & ? & ?) by set_solver.
    assert (0 <= vb_blockno (v_bufs s b) < 2 ^ 31) by (apply (vi_block _ _ _ I); by rewrite Hb).
    unfold formatted; cbn. ins. cbn. by rewrite sector_eq.
  - destruct (sub_old _ _ Hne H) as [H' Hn]. destruct (vi_live _ _ _ I _ _ _ _ _ H') as (F1 & F2 & F3 & F4 & F5).
    pose proof (Hn j0) as N0. pose proof (Hn j1) as N1. pose proof (Hn j2) as N2. cbn in N0, N1, N2.
    assert (j0 <> i0 /\ j0 <> i1 /\ j0 <> i2 /\ j1 <> i0 /\ j1 <> i1 /\ j1 <> i2 /\ j2 <> i0 /\ j2 <> i1 /\ j2 <> i2) as (? & ? & ? & ? & ? & ? & ? & ? & ?) by set_solver.
    unfold formatted; cbn. ins. done.
Qed.
Lemma submit_vinv : vinv (A ++ [i0]) U s'.
Proof.
  destruct (proj1 (Forall_cons _ _ _) Hall) as [[Hi0 Hf0] _]. destruct (avail_room _ _ _ _ I Hi0 Hf0) as [Hroom Hfresh].
  destruct (vi_avail _ _ _ I) as (V1 & V2 & V3). split.
  - apply submit_live.
  - intros b' q H. destruct (decide (b' = b)) as [->|Hne].
    + rewrite sub_new in H. simplify_eq. split; [done|]. apply Forall_forall. intros i Hi. rewrite sub_free, decide_True by done. split; [|done].
      by eapply Forall_forall in Hall as [? _].
    + destruct (sub_old _ _ Hne H) as [H' _]. destruct (vi_idx _ _ _ I _ _ H') as [N F]. split; [done|]. eapply Forall_impl; [exact F|].
      cbn beta. intros i [? ?]. split; [done|]. rewrite sub_free. by case_decide.
  - intros b1 b2 q1 q2 i H1 H2 Hq1 Hq2. destruct (decide (b1 = b)) as [->|N1], (decide (b2 = b)) as [->|N2]; [done| | |].
    + rewrite sub_new in H1. simplify_eq. by destruct (proj2 (sub_old _ _ N2 H2) i Hq2).
    + rewrite sub_new in H2. simplify_eq. by destruct (proj2 (sub_old _ _ N1 H1) i Hq1).
    + eapply (vi_disj _ _ _ I); [by apply sub_old|by apply sub_old|done|done].
  - intros i Hi. rewrite sub_free. case_decide as Hin.
    + intros _. exists b, (w, i0, i1, i2). split; [apply sub_new|done].
    + intros Hf. destruct (vi_own _ _ _ I i Hi Hf) as (b' & q & H & Hq). exists b', q. split; [by apply sub_was|done].
  - cbn [v_avail v_taken v_avail_idx submitted]. rewrite V2, slot_u16, length_app, Nat.add_1_r. split; [by rewrite vring_push, <- V1|].
    split; [|done]. unfold u16. rewrite Z.add_mod_idemp_l by lia. f_equal. lia.
  - apply (vi_used _ _ _ I).
  - cbn [v_busy submitted]. rewrite <- app_assoc. apply NoDup_app. pose proof (vi_nodup _ _ _ I) as N. apply NoDup_app in N as (N1 & N2 & N3).
    split_and!; [done| |].
    + intros x Hx. cbn. intros [->|Hx']%elem_of_cons; [set_solver|by eapply N2].
    + cbn. constructor; [set_solver|done].
  - intros i. change (v_busy s') with (v_busy s). rewrite <- app_assoc. split.
    + intros Hin. assert (i = i0 \/ i ∈ A ++ v_busy s ++ U) as [->|Ho] by set_solver.
      * exists b, w, i1, i2. split; [apply sub_new|]. cbn. by rewrite fn_lookup_insert.
      * apply (vi_heads _ _ _ I) in Ho as (b' & w' & j1 & j2 & H & Hd). exists b', w', j1, j2. destruct (sub_was _ _ H) as [Hne H']. split; [done|].
        cbn. by rewrite fn_lookup_insert_ne.
    + intros (b' & w' & j1 & j2 & H & Hd). destruct (decide (b' = b)) as [->|Hne]; [rewrite sub_new in H; simplify_eq; set_solver|].
      destruct (sub_old _ _ Hne H) as [H' _]. cbn in Hd. rewrite fn_lookup_insert_ne in Hd by done.
      assert (i ∈ A ++ v_busy s ++ U) by (apply (vi_heads _ _ _ I); by exists b', w', j1, j2). set_solver.
  - intros i Hi. cbn. rewrite fn_lookup_insert_ne by set_solver. by apply (vi_done _ _ _ I).
  - intros b' w' j0 j1 j2 H. cbn in H |- *. destruct (decide (b' = b)) as [->|Hne]; [by rewrite fn_lookup_insert|].
    rewrite fn_lookup_insert_ne in H by done. rewrite fn_lookup_insert_ne by done. by eapply (vi_asleep _ _ _ I).
  - intros b' w' _. exists b, (w, i0, i1, i2). apply sub_new.
  - intros b' H. cbn in H |- *. destruct (decide (b' = b)) as [->|Hne].
    + rewrite fn_lookup_insert. cbn. apply (vi_block _ _ _ I). by rewrite Hb.
    + rewrite fn_lookup_insert_ne in H by done. rewrite fn_lookup_insert_ne by done. by apply (vi_block _ _ _ I).
Qed.
End submit.

(** ** The end of a call *)
Lemma wake_free_sub b p : sub (wake_call FreeChan b p) = sub p.
Proof. by destruct p as [[]|]. Qed.
Definition ended (b i0 i1 i2 : nat) (s : vst) : vst :=
  on_calls (fun c => <[b := None]> c) (freed i2 (freed i1 (freed i0 (on_info (fun f => <[i0 := None]> f) s)))).
Lemma ended_calls b i0 i1 i2 s b' : v_calls (ended b i0 i1 i2 s) b' = if decide (b' = b) then None else wake_call FreeChan b' (v_calls s b').
Proof.
  cbn -[wake_call]. case_decide as E; [subst; by rewrite fn_lookup_insert|]. rewrite fn_lookup_insert_ne by done. by rewrite !wake_free_idem.
Qed.
Lemma ended_free b i0 i1 i2 s i : v_free (ended b i0 i1 i2 s) i = if decide (i ∈ [i0; i1; i2]) then true else v_free s i.
Proof.
  cbn. destruct (decide (i = i2)) as [->|]; [|destruct (decide (i = i1)) as [->|]; [|destruct (decide (i = i0)) as [->|]]]; ins; case_decide; set_solver.
Qed.
Lemma ended_desc b i0 i1 i2 s i : i ∉ [i0; i1; i2] -> v_desc (ended b i0 i1 i2 s) i = v_desc s i.
Proof. intros H. cbn. rewrite !fn_lookup_insert_ne by set_solver. done. Qed.

Section ending.
Context (A U : list nat) (s : vst) (b : nat) (w : bool) (i0 i1 i2 : nat).
Context (I : vinv A U s) (Hb : v_calls s b = Some (Woken w i0 i1 i2)).
Abbreviation s' := (ended b i0 i1 i2 s).

Lemma ending_sub : sub (v_calls s b) = Some (w, i0, i1, i2).
Proof. by rewrite Hb. Qed.
Lemma ending_idx : (i0 <> i1 /\ i0 <> i2 /\ i1 <> i2) /\ Forall (fun i => (i < NUM)%nat /\ v_free s i = false) [i0; i1; i2].
Proof.
  destruct (vi_idx _ _ _ I _ _ ending_sub) as [N F]. cbn in N, F. split; [|done].
  apply NoDup_cons in N as [N0 [N1 _]%NoDup_cons]. set_solver.
Qed.
Lemma free_chain_run : free_chain i0 (on_info (fun f => <[i0 := None]> f) s) = Ret (tt, freed i2 (freed i1 (freed i0 (on_info (fun f => <[i0 := None]> f) s)))).
Proof.
  destruct ending_idx as [(N1 & N2 & N3) F]. repeat setoid_rewrite Forall_cons in F. destruct F as ([L0 F0] & [L1 F1] & [L2 F2] & _).
  destruct (vi_live _ _ _ I _ _ _ _ _ ending_sub) as (D0 & D1 & D2 & _ & _).
  set (t := on_info (fun f => <[i0 := None]> f) s). unfold free_chain. unfold NUM. cbn [free_chain_loop].
  rewrite (kbind_ret _ _ _ (v_desc t i0) t) by reflexivity. rewrite (kbind_ret _ _ _ tt (freed i0 t)) by (by apply free_desc_run).
  change (v_desc t i0) with (v_desc s i0). rewrite D0. cbn [d_flags d_next]. change (negb (Z.land VRING_DESC_F_NEXT VRING_DESC_F_NEXT =? 0)) with true. cbv iota.
  rewrite (kbind_ret _ _ _ (v_desc s i1) (freed i0 t)) by (unfold gets; cbn; rewrite fn_lookup_insert_ne by done; reflexivity).
  rewrite (kbind_ret _ _ _ tt (freed i1 (freed i0 t))) by (apply free_desc_run; [done|cbn; by rewrite fn_lookup_insert_ne]).
  rewrite D1. cbn [d_flags d_next]. replace (negb _) with true by (by destruct w). cbv iota.
  rewrite (kbind_ret _ _ _ (v_desc s i2) (freed i1 (freed i0 t))) by (unfold gets; cbn; rewrite !fn_lookup_insert_ne by done; reflexivity).
  rewrite (kbind_ret _ _ _ tt (freed i2 (freed i1 (freed i0 t)))) by (apply free_desc_run; [done|cbn; by rewrite !fn_lookup_insert_ne]).
  rewrite D2. reflexivity.
Qed.
Lemma ending_run : vb_disk (v_bufs s b) <> 1 -> rw_wait b w i0 i1 i2 s = Ret (tt, s').
Proof.
  intros Hd. unfold rw_wait. rewrite (kbind_ret _ _ _ (vb_disk (v_bufs s b)) s) by reflexivity.
  replace (vb_disk (v_bufs s b) =? 1) with false by lia. cbv iota.
  rewrite (kbind_ret _ _ _ tt (on_info (fun f => <[i0 := None]> f) s)) by reflexivity. by rewrite (kbind_ret _ _ _ _ _ free_chain_run).
Qed.

Lemma ended_sub b' q : sub (v_calls s' b') = Some q -> b' <> b /\ sub (v_calls s b') = Some q /\ forall i, i ∈ idxs q -> i ∉ [i0; i1; i2].
Proof.
  rewrite ended_calls. case_decide as E; [discriminate|]. rewrite wake_free_sub. intros H. split; [done|]. split; [done|]. intros i Hi Hin. apply E.
  by eapply (vi_disj _ _ _ I _ _ _ _ _ H ending_sub).
Qed.
Lemma sub_ended b' q : b' <> b -> sub (v_calls s b') = Some q -> sub (v_calls s' b') = Some q.
Proof. intros Hne H. rewrite ended_calls, decide_False by done. by rewrite wake_free_sub. Qed.

Lemma ending_vinv : vb_disk (v_bufs s b) <> 1 -> vinv A U s'.
Proof.
  intros Hd. split.
  - intros b' w' j0 j1 j2 H. destruct (ended_sub _ _ H) as (Hne & H' & Hn). destruct (vi_live _ _ _ I _ _ _ _ _ H') as (F1 & F2 & F3 & F4 & F5).
    assert ((j0 ∉ [i0; i1; i2]) /\ (j1 ∉ [i0; i1; i2]) /\ (j2 ∉ [i0; i1; i2])) as (M0 & M1 & M2) by (split_and!; apply Hn; cbn; set_solver).
    unfold formatted. rewrite !ended_desc by done. split_and!; try done. cbn. rewrite fn_lookup_insert_ne; [done|set_solver].
  - intros b' q H. destruct (ended_sub _ _ H) as (Hne & H' & Hn). destruct (vi_idx _ _ _ I _ _ H') as [N F]. split; [done|].
    apply Forall_forall. intros i Hi. rewrite ended_free, decide_False by (by apply Hn). by eapply Forall_forall in F.
  - intros b1 b2 q1 q2 i H1 H2. eapply (vi_disj _ _ _ I); by apply ended_sub.
  - intros i Hi. rewrite ended_free. case_decide as Hin; [done|]. intros Hf. destruct (vi_own _ _ _ I i Hi Hf) as (b' & q & H & Hq).
    exists b', q. split; [|done]. apply sub_ended; [|done]. intros ->. rewrite ending_sub in H. by simplify_eq.
  - apply (vi_avail _ _ _ I).
  - apply (vi_used _ _ _ I).
  - apply (vi_nodup _ _ _ I).
  - intros i. change (v_busy s') with (v_busy s). change (v_bufs s') with (v_bufs s). rewrite (vi_heads _ _ _ I).
    split; intros (b' & w' & j1 & j2 & H & Hk); exists b', w', j1, j2; (split; [|done]).
    + apply sub_ended; [congruence|done].
    + by destruct (ended_sub _ _ H) as (_ & ? & _).
  - apply (vi_done _ _ _ I).
  - intros b' w' j0 j1 j2. rewrite ended_calls. case_decide; [done|]. change (v_bufs s') with (v_bufs s).
    destruct (v_calls s b') as [[]|] eqn:E; cbn; intros [=]; subst. by eapply (vi_asleep _ _ _ I).
  - intros b' w'. rewrite ended_calls. case_decide; [discriminate|]. destruct (v_calls s b') as [[]|]; discriminate.
  - intros b'. rewrite ended_calls. case_decide as D; [done|]. intros H. apply (vi_block _ _ _ I). intros E. rewrite E in H. by apply H.
Qed.
End ending.

(** ** One round of the interrupt handler *)
Lemma head_info A U s i : vinv A U s -> i ∈ A ++ v_busy s ++ U ->
  exists b w i1 i2, sub (v_calls s b) = Some (w, i, i1, i2) /\ vb_disk (v_bufs s b) = 1 /\ formatted s b w i i1 i2.
Proof.
  intros I (b & w & i1 & i2 & H & Hd)%(vi_heads _ _ _ I). exists b, w, i1, i2. split; [done|]. split; [done|]. by apply (vi_live _ _ _ I).
Qed.
Lemma head_call A U s b w i i1 i2 b' w' i1' i2' : vinv A U s ->
  sub (v_calls s b) = Some (w, i, i1, i2) -> sub (v_calls s b') = Some (w', i, i1', i2') -> b = b'.
Proof. intros I H H'. eapply (vi_disj _ _ _ I _ _ _ _ i H H'); by left. Qed.
Lemma wake_buf_sub b' b p : sub (wake_call (BufChan b') b p) = sub p.
Proof. destruct p as [[]|]; cbn; try done. by case_decide. Qed.

Definition noticed (b : nat) (s : vst) : vst :=
  on_seen (fun x => u16 (x + 1)) (on_calls (fun c b' => wake_call (BufChan b) b' (c b'))
    (on_bufs (fun f => <[b := mkVbuf (vb_blockno (f b)) (vb_data (f b)) 0]> f) s)).
Lemma noticed_blockno b s b' : vb_blockno (v_bufs (noticed b s) b') = vb_blockno (v_bufs s b').
Proof. cbn. destruct (decide (b' = b)) as [->|]; ins; done. Qed.
Lemma noticed_vinv A U s i b w i1 i2 : vinv A (i :: U) s -> sub (v_calls s b) = Some (w, i, i1, i2) -> vinv A U (noticed b s).
Proof.
  intros I Hb. destruct (vi_used _ _ _ I) as (V1 & V2 & V3). cbn [length] in V1, V2. rewrite vring_cons in V1. injection V1 as E1 E2.
  split.
  - intros b' w' j0 j1 j2 H. cbn -[wake_call] in H. rewrite wake_buf_sub in H. destruct (vi_live _ _ _ I _ _ _ _ _ H) as (F1 & F2 & F3 & F4 & F5).
    unfold formatted. rewrite noticed_blockno. done.
  - intros b' q H. cbn -[wake_call] in H. rewrite wake_buf_sub in H. by apply (vi_idx _ _ _ I _ _ H).
  - intros b1 b2 q1 q2 j. cbn -[wake_call]. rewrite !wake_buf_sub. apply (vi_disj _ _ _ I).
  - intros j Hj Hf. destruct (vi_own _ _ _ I j Hj Hf) as (b' & q & ? & ?). exists b', q. cbn -[wake_call]. by rewrite wake_buf_sub.
  - apply (vi_avail _ _ _ I).
  - cbn [v_used v_seen v_used_idx noticed on_seen on_calls on_bufs]. rewrite ring_u16. split; [exact E2|]. split.
    + rewrite V2. unfold u16. rewrite Z.add_mod_idemp_l by lia. f_equal. lia.
    + unfold u16. apply Z.mod_pos_bound. lia.
  - pose proof (vi_nodup _ _ _ I) as N. change (v_busy (noticed b s)) with (v_busy s). rewrite app_assoc in N |- *. apply NoDup_app in N as (N1 & N2 & [N3 N4]%NoDup_cons).
    apply NoDup_app. split_and!; [done|set_solver|done].
  - intros j. change (v_busy (noticed b s)) with (v_busy s). pose proof (vi_nodup _ _ _ I) as N. rewrite app_assoc in N. apply NoDup_app in N as (_ & N2 & [N3 _]%NoDup_cons).
    assert (j ∈ A ++ v_busy s ++ U <-> j ∈ A ++ v_busy s ++ i :: U /\ j <> i) as -> by set_solver. rewrite (vi_heads _ _ _ I). split.
    + intros [(b' & w' & j1 & j2 & H & Hd) Hji]. exists b', w', j1, j2. cbn -[wake_call]. rewrite wake_buf_sub. split; [done|].
      rewrite fn_lookup_insert_ne; [done|]. intros <-. rewrite Hb in H. congruence.
    + intros (b' & w' & j1 & j2 & H & Hd). cbn -[wake_call] in H, Hd. rewrite wake_buf_sub in H.
      destruct (decide (b' = b)) as [->|Hne]; [rewrite fn_lookup_insert in Hd; discriminate Hd|]. rewrite fn_lookup_insert_ne in Hd by done.
      split; [by exists b', w', j1, j2|]. intros ->. apply Hne. by eapply (head_call _ _ _ _ _ _ _ _ _ _ _ _ I H).
  - intros j Hj. apply (vi_done _ _ _ I). by right.
  - intros b' w' j0 j1 j2 H. cbn -[wake_call] in H |- *. destruct (v_calls s b') as [[]|] eqn:E; cbn in H; try discriminate H.
    case_decide as D; [discriminate H|]. rewrite fn_lookup_insert_ne by done. by eapply (vi_asleep _ _ _ I).
  - intros b' w' H. cbn -[wake_call] in H. destruct (v_calls s b') as [[]|] eqn:E; cbn in H; try discriminate H; [|by case_decide].
    exists b, (w, i, i1, i2). cbn -[wake_call]. by rewrite wake_buf_sub.
  - intros b' H. rewrite noticed_blockno. apply (vi_block _ _ _ I). intros E. cbn -[wake_call] in H. by rewrite E in H.
Qed.

Lemma used_len A U s : vinv A U s -> (length U <= NUM)%nat.
Proof.
  intros I. apply nodup_lt.
  - pose proof (vi_nodup _ _ _ I) as N. rewrite app_assoc in N. by apply NoDup_app in N as (_ & _ & ?).
  - intros i Hi. eapply heads_lt; [exact I|set_solver].
Qed.

(** ** The device *)
Definition taking (s : vst) : vst :=
  on_dev (fun x => u16 (x + 1)) (fun l => l ++ [v_avail s (Z.to_nat (v_taken s mod Z.of_nat NUM))]) (fun d => d) s.
Lemma take_vinv A U s : vinv A U s -> v_taken s <> v_avail_idx s ->
  exists i A', A = i :: A' /\ v_busy (taking s) = v_busy s ++ [i] /\ vinv A' U (taking s).
Proof.
  intros I Hne. destruct (vi_avail _ _ _ I) as (V1 & V2 & V3). destruct A as [|i A].
  { exfalso. apply Hne. rewrite V2. cbn. rewrite Z.add_0_r. unfold u16. by rewrite Z.mod_small. }
  cbn [length] in V1, V2. rewrite vring_cons in V1. injection V1 as E1 E2. exists i, A. split; [done|].
  assert (v_busy (taking s) = v_busy s ++ [i]) as Hbusy by (cbn; fold (slot (v_taken s)); by rewrite <- E1). split; [done|].
  split; try rewrite Hbusy; try apply I.
  - cbn [v_avail v_taken v_avail_idx taking on_dev]. rewrite ring_u16. split; [exact E2|]. split.
    + rewrite V2. unfold u16. rewrite Z.add_mod_idemp_l by lia. f_equal. lia.
    + unfold u16. apply Z.mod_pos_bound. lia.
  - assert (A ++ (v_busy s ++ [i]) ++ U ≡ₚ (i :: A) ++ v_busy s ++ U) as -> by solve_Permutation. apply (vi_nodup _ _ _ I).
  - intros j. assert (j ∈ A ++ (v_busy s ++ [i]) ++ U <-> j ∈ (i :: A) ++ v_busy s ++ U) as -> by set_solver. apply (vi_heads _ _ _ I).
Qed.

Lemma request_ok s b w i i1 i2 : formatted s b w i i1 i2 -> request_at s i = Some (w, 2 * vb_blockno (v_bufs s b), b, i).
Proof. intros (F1 & F2 & F3 & F4 & F5). unfold request_at. rewrite F1. cbn. rewrite F2. cbn. rewrite F3. cbn. rewrite F4. by destruct w. Qed.

Lemma transfer_other w k b s : let t := transfer w k b s in
  v_desc t = v_desc s /\ v_avail t = v_avail s /\ v_avail_idx t = v_avail_idx s /\ v_used t = v_used s /\ v_used_idx t = v_used_idx s /\
  v_free t = v_free s /\ v_seen t = v_seen s /\ v_info t = v_info s /\ v_status t = v_status s /\ v_ops t = v_ops s /\
  v_calls t = v_calls s /\ v_taken t = v_taken s /\ v_busy t = v_busy s /\
  (forall b', vb_blockno (v_bufs t b') = vb_blockno (v_bufs s b') /\ vb_disk (v_bufs t b') = vb_disk (v_bufs s b')).
Proof.
  destruct w; cbn; split_and!; try done. intros b'. destruct (decide (b' = b)) as [->|]; ins; done.
Qed.
Lemma transfer_vinv A U w k b s : vinv A U s -> vinv A U (transfer w k b s).
Proof.
  intros I. destruct (transfer_other w k b s) as (E1 & E2 & E3 & E4 & E5 & E6 & E7 & E8 & E9 & E10 & E11 & E12 & E13 & E14).
  split; rewrite ?E1, ?E2, ?E3, ?E4, ?E5, ?E6, ?E7, ?E9, ?E11, ?E12, ?E13; try apply I.
  - intros b' w' j0 j1 j2 H. destruct (vi_live _ _ _ I _ _ _ _ _ H) as (F1 & F2 & F3 & F4 & F5).
    unfold formatted. rewrite E1, E8, E10, (proj1 (E14 b')). done.
  - intros i. rewrite (vi_heads _ _ _ I). split; intros (b' & w' & i1 & i2 & H & Hd); exists b', w', i1, i2; (split; [done|]).
    + by rewrite (proj2 (E14 b')).
    + by rewrite <- (proj2 (E14 b')).
  - intros b' w' i0 i1 i2 H. rewrite (proj2 (E14 b')). by eapply (vi_asleep _ _ _ I).
  - intros b' H. rewrite (proj1 (E14 b')). by apply (vi_block _ _ _ I).
Qed.

Lemma filter_perm (l : list nat) i : NoDup l -> i ∈ l -> l ≡ₚ filter (fun x => x <> i) l ++ [i].
Proof.
  intros N Hi. apply NoDup_Permutation; [done| |].
  - apply NoDup_app. split_and!; [by apply NoDup_filter| |apply NoDup_singleton]. intros x [Hx _]%list_elem_of_filter. set_solver.
  - intros x. rewrite elem_of_app, list_elem_of_filter, list_elem_of_singleton. destruct (decide (x = i)) as [->|]; naive_solver.
Qed.
Lemma finish_vinv A U s i : vinv A U s -> i ∈ v_busy s -> vinv A (U ++ [i]) (finish i i s).
Proof.
  intros I Hi. destruct (vi_used _ _ _ I) as (V1 & V2 & V3). pose proof (vi_nodup _ _ _ I) as N.
  pose proof N as (NA & N1 & NBU)%NoDup_app. pose proof NBU as (NB & N2 & NU)%NoDup_app.
  assert (v_busy s ≡ₚ filter (fun x => x <> i) (v_busy s) ++ [i]) as Hp by (by apply filter_perm).
  assert (A ++ v_busy s ++ U ≡ₚ A ++ filter (fun x => x <> i) (v_busy s) ++ U ++ [i]) as HP by (rewrite Hp at 1; solve_Permutation).
  assert (length U < NUM)%nat as Hroom.
  { pose proof (nodup_lt (i :: U) NUM) as H. cbn in H. apply H.
    - constructor; [by apply N2|done].
    - intros j Hj. eapply (heads_lt _ _ _ _ I). set_solver. }
  split; cbn [v_desc v_avail v_avail_idx v_used v_used_idx v_free v_seen v_info v_status v_ops v_bufs v_calls v_taken v_busy finish on_dev on_used on_status]; try apply I.
  - fold (slot (v_used_idx s)). rewrite V2, slot_u16, length_app, Nat.add_1_r. split; [by rewrite vring_push, <- V1|]. split; [|done].
    unfold u16. rewrite Z.add_mod_idemp_l by lia. f_equal. lia.
  - by rewrite <- HP.
  - intros j. rewrite <- HP. apply (vi_heads _ _ _ I).
  - intros j [Hj|Hj%list_elem_of_singleton]%elem_of_app; [|subst; by rewrite fn_lookup_insert].
    destruct (decide (j = i)) as [->|]; ins; [done|]. by apply (vi_done _ _ _ I).
Qed.
