(* ===== verification/VirtioTheorems.v ===== *)
(** * The disk driver performs each transfer exactly once, and never gets stuck *)
From stdpp Require Import functions relations.
From S2P Require Import Prelude Machine KString Kalloc Blocks Virtio VirtioInv.

(** What a state of driver and device shows to bio.c. *)
Definition absc (A busy : list nat) (p : option phase) : option acall :=
  match p with
  | None => None
  | Some (Want w) | Some (AtFree w) => Some (Pending w)
  | Some (AtBuf w i _ _) | Some (Woken w i _ _) => Some (if decide (i ∈ A ++ busy) then Pending w else Performed w)
  end.
Record shows (A : list nat) (s : vst) (a : atomic_disk) : Prop := {
  sh_no b : a_no a b = vb_blockno (v_bufs s b);
  sh_bufs b : a_bufs a b = vb_data (v_bufs s b);
  sh_disk k : a_disk a k = sectors (v_disk s) (2 * k);
  sh_calls b : a_calls a b = absc A (v_busy s) (v_calls s b) }.

Lemma absc_sub A busy p w i i1 i2 : sub p = Some (w, i, i1, i2) -> absc A busy p = Some (if decide (i ∈ A ++ busy) then Pending w else Performed w).
Proof. destruct p as [[]|]; cbn; intros [=]; by subst. Qed.
Lemma absc_ext A busy A' busy' p : (forall q i, sub p = Some q -> i ∈ idxs q -> (i ∈ A ++ busy <-> i ∈ A' ++ busy')) -> absc A busy p = absc A' busy' p.
Proof.
  intros H. destruct p as [[w|w|w i i1 i2|w i i1 i2]|]; cbn; try done; specialize (H (w, i, i1, i2) i eq_refl ltac:(by left)); repeat case_decide; naive_solver.
Qed.
Lemma absc_wake A busy b p : absc A busy (wake_call FreeChan b p) = absc A busy p.
Proof. by destruct p as [[]|]. Qed.
Lemma absc_wake_buf A busy b' b p : absc A busy (wake_call (BufChan b') b p) = absc A busy p.
Proof. destruct p as [[]|]; cbn; try done. by case_decide. Qed.

Definition sim (s' : vst) (a : atomic_disk) : Prop := exists A' U' a', vinv A' U' s' /\ shows A' s' a' /\ (a' = a \/ astep a a').

Section sim.
Context (A U : list nat) (s : vst) (a : atomic_disk) (I : vinv A U s) (Sh : shows A s a).

Lemma call_sim b w : v_calls s b = None -> 0 <= vb_blockno (v_bufs s b) < 2 ^ 31 -> sim (on_calls (fun c => <[b := Some (Want w)]> c) s) a.
Proof.
  intros Hb Hk. exists A, U, (mkA (a_no a) (a_bufs a) (a_disk a) (<[b := Some (Pending w)]> (a_calls a))). split_and!.
  - change (vinv A U (on_calls (fun _ => <[b := Some (Want w)]> (v_calls s)) s)). rewrite chg_calls. apply vinv_chg; try done.
    + intros b'. destruct (decide (b' = b)) as [->|]; ins; [by rewrite Hb|done].
    + intros b' w' i0 i1 i2. destruct (decide (b' = b)) as [->|]; ins; [done|]. apply (vi_asleep _ _ _ I).
    + intros b' w'. destruct (decide (b' = b)) as [->|]; ins; [done|]. apply (vi_starved _ _ _ I).
    + intros b'. destruct (decide (b' = b)) as [->|]; ins; [done|]. apply (vi_block _ _ _ I).
  - destruct Sh as [S1 S2 S3 S4]. split; try done. intros b'. cbn. destruct (decide (b' = b)) as [->|]; ins; done.
  - right. apply a_call. rewrite (sh_calls _ _ _ Sh), Hb. done.
Qed.

Lemma go_sim b w : v_calls s b = Some (Want w) -> exists s', virtio_disk_rw b w s = Ret (tt, s') /\ sim s' a.
Proof.
  intros Hb. unfold virtio_disk_rw. destruct (alloc3_run s) as [(i0 & i1 & i2 & Hn & Hf & E)|(i & s1 & Hi & Hf & E & (d & f & c & -> & H1 & H2 & H3))];
    rewrite (kbind_ret _ _ _ _ _ E).
  - exists (submitted b w i0 i1 i2 s). split; [apply submit_run|]. exists (A ++ [i0]), U, a. split; [by apply submit_vinv|]. split; [|by left].
    destruct Sh as [S1 S2 S3 S4]. split; try done.
    + intros b'. rewrite S1. cbn. destruct (decide (b' = b)) as [->|]; ins; done.
    + intros b'. rewrite S2. cbn. destruct (decide (b' = b)) as [->|]; ins; done.
    + intros b'. rewrite S4. cbn [v_calls v_busy submitted]. destruct (decide (b' = b)) as [->|Hne]; ins.
      * rewrite Hb. cbn. by rewrite decide_True by set_solver.
      * apply absc_ext. intros q i Hq Hi. destruct (vi_idx _ _ _ I _ _ Hq) as [_ F]. eapply Forall_forall in F as [_ F]; [|exact Hi].
        apply Forall_cons in Hf as [[_ Hf] _]. assert (i <> i0) by congruence. set_solver.
  - eexists. split; [reflexivity|]. exists A, U, a. split; [|split; [|by left]].
    + change (vinv A U (chg d f (<[b := Some (AtFree w)]> c) s)). apply vinv_chg; try done.
      * intros b'. destruct (decide (b' = b)) as [->|]; ins; [by rewrite Hb|]. destruct (H3 b') as [->| ->]; [done|apply wake_free_sub].
      * intros b' w' i0 i1 i2. destruct (decide (b' = b)) as [->|]; ins; [done|]. intros E'. eapply (vi_asleep _ _ _ I). destruct (H3 b') as [<-|E2]; [done|].
        rewrite E2 in E'. destruct (v_calls s b') as [[]|]; try discriminate E'; exact E'.
      * intros b' w' _. destruct (vi_own _ _ _ I i Hi Hf) as (b1 & q & ? & _). by exists b1, q.
      * intros b'. destruct (decide (b' = b)) as [->|]; ins; intros Hc; apply (vi_block _ _ _ I); [by rewrite Hb|].
        intros E'. destruct (H3 b') as [E2|E2]; rewrite E2, E' in Hc; by apply Hc.
    + destruct Sh as [S1 S2 S3 S4]. split; try done. intros b'. rewrite S4. cbn. destruct (decide (b' = b)) as [->|]; ins; [by rewrite Hb|].
      destruct (H3 b') as [->| ->]; [done|]. by rewrite absc_wake.
Qed.

Lemma resume_sim b w i0 i1 i2 : v_calls s b = Some (Woken w i0 i1 i2) -> exists s', rw_wait b w i0 i1 i2 s = Ret (tt, s') /\ sim s' a.
Proof.
  intros Hb. destruct (decide (vb_disk (v_bufs s b) = 1)) as [Hd|Hd].
  - exists (on_calls (fun c => <[b := Some (AtBuf w i0 i1 i2)]> c) s). split.
    { unfold rw_wait, kbind, gets. rewrite Hd. reflexivity. }
    exists A, U, a. split; [|split; [|by left]].
    + change (vinv A U (on_calls (fun _ => <[b := Some (AtBuf w i0 i1 i2)]> (v_calls s)) s)). rewrite chg_calls. apply vinv_chg; try done.
      * intros b'. destruct (decide (b' = b)) as [->|]; ins; [by rewrite Hb|done].
      * intros b' w' j0 j1 j2. destruct (decide (b' = b)) as [->|]; ins; [done|]. apply (vi_asleep _ _ _ I).
      * intros b' w'. destruct (decide (b' = b)) as [->|]; ins; [done|]. apply (vi_starved _ _ _ I).
      * intros b'. destruct (decide (b' = b)) as [->|]; ins; intros Hc; apply (vi_block _ _ _ I); [by rewrite Hb|done].
    + destruct Sh as [S1 S2 S3 S4]. split; try done. intros b'. rewrite S4. cbn. destruct (decide (b' = b)) as [->|]; ins; [by rewrite Hb|done].
  - exists (ended b i0 i1 i2 s). split; [by eapply ending_run|].
    assert (i0 ∉ A ++ v_busy s) as Hout.
    { intros Hin. destruct (head_info A U s i0 I) as (b' & w' & j1 & j2 & H & Hd' & _); [set_solver|].
      assert (sub (v_calls s b) = Some (w, i0, i1, i2)) as H' by (by rewrite Hb). rewrite (head_call _ _ _ _ _ _ _ _ _ _ _ _ I H H') in Hd'. done. }
    exists A, U, (mkA (a_no a) (a_bufs a) (a_disk a) (<[b := None]> (a_calls a))). split; [by eapply ending_vinv|]. split.
    + destruct Sh as [S1 S2 S3 S4]. split; try done. intros b'. rewrite ended_calls. cbn. case_decide as D; [subst; by rewrite fn_lookup_insert|].
      rewrite fn_lookup_insert_ne by done. rewrite S4. symmetry. apply (absc_wake _ _ b').
    + right. apply (a_return _ b w). rewrite (sh_calls _ _ _ Sh), Hb. cbn. by rewrite decide_False.
Qed.

Lemma fill_sim b k d : v_calls s b = None -> sim (on_bufs (fun f => <[b := mkVbuf k d (vb_disk (f b))]> f) s) a.
Proof.
  intros Hb. set (s' := on_bufs _ s).
  assert (forall b', v_calls s b' <> None -> v_bufs s' b' = v_bufs s b') as Eb.
  { intros b' H. cbn. rewrite fn_lookup_insert_ne; [done|]. intros <-. done. }
  assert (forall b' q, sub (v_calls s b') = Some q -> v_bufs s' b' = v_bufs s b') as Eq.
  { intros b' q H. apply Eb. intros E. rewrite E in H; discriminate H. }
  exists A, U, (mkA (<[b := k]> (a_no a)) (<[b := d]> (a_bufs a)) (a_disk a) (a_calls a)). split_and!.
  - split; try apply I.
    + intros b' w i0 i1 i2 H. unfold formatted. rewrite (Eq _ _ H). by apply (vi_live _ _ _ I).
    + intros i. change (i ∈ A ++ v_busy s ++ U <-> exists b w i1 i2, sub (v_calls s b) = Some (w, i, i1, i2) /\ vb_disk (v_bufs s' b) = 1).
      rewrite (vi_heads _ _ _ I). split; intros (b' & w & i1 & i2 & H & Hd); exists b', w, i1, i2; (split; [done|]); [by rewrite (Eq _ _ H)|by rewrite <- (Eq _ _ H)].
    + intros b' w i0 i1 i2 H. change (v_calls s b' = Some (AtBuf w i0 i1 i2)) in H. rewrite Eb by congruence. by eapply (vi_asleep _ _ _ I).
    + intros b' H. rewrite Eb by done. by apply (vi_block _ _ _ I).
  - destruct Sh as [S1 S2 S3 S4]. split; try done; intros b'; cbn; destruct (decide (b' = b)) as [->|]; ins; done.
  - right. apply a_fill. rewrite (sh_calls _ _ _ Sh), Hb. done.
Qed.

Lemma take_sim : v_taken s <> v_avail_idx s -> sim (taking s) a.
Proof.
  intros Hne. destruct (take_vinv _ _ _ I Hne) as (i & A' & E & Hbusy & I'). exists A', U, a. split; [done|]. split; [|by left].
  destruct Sh as [S1 S2 S3 S4]. split; try done. intros b. rewrite S4, Hbusy. apply absc_ext. intros q j _ _. subst A. set_solver.
Qed.

Lemma sectors_put d k j disk : sectors (put_sectors (2 * k) d disk) (2 * j) = if j =? k then d else sectors disk (2 * j).
Proof.
  unfold sectors, put_sectors. destruct (Z.eqb_spec j k) as [->|Hne].
  - replace (2 * k =? 2 * k) with true by lia. replace (2 * k + 1 =? 2 * k) with false by lia. replace (2 * k + 1 =? 2 * k + 1) with true by lia. apply take_drop.
  - by replace (2 * j =? 2 * k) with false by lia; replace (2 * j =? 2 * k + 1) with false by lia;
      replace (2 * j + 1 =? 2 * k) with false by lia; replace (2 * j + 1 =? 2 * k + 1) with false by lia.
Qed.
Lemma finish_calls w i b i1 i2 : i ∈ v_busy s -> sub (v_calls s b) = Some (w, i, i1, i2) ->
  forall b', <[b := Some (Performed w)]> (a_calls a) b' = absc A (filter (fun x => x <> i) (v_busy s)) (v_calls s b').
Proof.
  intros Hi H b'. pose proof (vi_nodup _ _ _ I) as (_ & N1 & _)%NoDup_app. destruct (decide (b' = b)) as [->|Hne]; ins.
  - rewrite (absc_sub _ _ _ _ _ _ _ H). rewrite decide_False; [done|]. intros [Hin|Hin]%elem_of_app.
    + apply (N1 _ Hin). set_solver.
    + by apply list_elem_of_filter in Hin as [? _].
  - rewrite (sh_calls _ _ _ Sh). apply absc_ext. intros q j Hq Hj. rewrite !elem_of_app, list_elem_of_filter.
    assert (j <> i); [|naive_solver]. intros ->. apply Hne. eapply (vi_disj _ _ _ I _ _ _ _ i Hq H); [done|by left].
Qed.
Lemma finish_sim i w k b j : i ∈ v_busy s -> request_at s i = Some (w, k, b, j) -> sim (finish i j (transfer w k b s)) a.
Proof.
  intros Hi Hr. destruct (head_info A U s i I) as (b0 & w0 & i1 & i2 & H & Hd & F); [set_solver|].
  rewrite (request_ok _ _ _ _ _ _ F) in Hr. injection Hr as <- <- <- <-.
  pose proof (finish_calls w0 i b0 i1 i2 Hi H) as Hc. destruct Sh as [S1 S2 S3 S4].
  assert (a_calls a b0 = Some (Pending w0)) as Ha by (rewrite S4, (absc_sub _ _ _ _ _ _ _ H), decide_True by set_solver; done).
  assert (forall t, vinv A U t -> v_busy t = v_busy s -> vinv A (U ++ [i]) (finish i i t)) as V by (intros t It Eb; apply finish_vinv; [done|by rewrite Eb]).
  pose proof (transfer_vinv A U w0 (2 * vb_blockno (v_bufs s b0)) b0 s I) as It. destruct w0.
  - exists A, (U ++ [i]), (mkA (a_no a) (a_bufs a) (fun k => if k =? a_no a b0 then a_bufs a b0 else a_disk a k) (<[b0 := Some (Performed true)]> (a_calls a))).
    split; [by apply V|]. split; [|right; by apply a_write]. split; try done. intros k. cbn -[Z.mul sectors put_sectors Z.eqb]. rewrite sectors_put, S1, S2. by case_match; rewrite ?S3.
  - exists A, (U ++ [i]), (mkA (a_no a) (<[b0 := a_disk a (a_no a b0)]> (a_bufs a)) (a_disk a) (<[b0 := Some (Performed false)]> (a_calls a))).
    split; [by apply V|]. split; [|right; by apply a_read]. split; try done.
    + intros b'. cbn. destruct (decide (b' = b0)) as [->|]; ins; [apply S1|apply S1].
    + intros b'. cbn. destruct (decide (b' = b0)) as [->|]; ins; [by rewrite S3, S1|apply S2].
Qed.
End sim.

Lemma intr_sim A U : forall s a, vinv A U s -> shows A s a -> exists s', intr_loop (S (length U)) s = Ret (tt, s') /\ vinv A [] s' /\ shows A s' a.
Proof.
  induction U as [|i U IH]; intros s a I Sh; destruct (vi_used _ _ _ I) as (V1 & V2 & V3).
  - exists s. split; [|done]. cbn [intr_loop length]. unfold kbind, gets, kret. cbv beta iota. replace (v_seen (id s) =? v_used_idx (id s)) with true; [done|].
    unfold id. rewrite V2. cbn. rewrite Z.add_0_r. unfold u16. rewrite Z.mod_small by done. lia.
  - pose proof (used_len _ _ _ I) as HL. cbn [length] in HL, V2, V1. rewrite vring_cons in V1. injection V1 as E1 _.
    destruct (head_info A (i :: U) s i I) as (b & w & i1 & i2 & H & Hd & (_ & _ & _ & _ & F5)); [set_solver|].
    destruct (IH (noticed b s) a) as (s' & R & I' & Sh'); [by eapply noticed_vinv| |].
    { destruct Sh as [S1 S2 S3 S4]. split; try done.
      - intros b'. by rewrite noticed_blockno.
      - intros b'. rewrite S2. cbn. destruct (decide (b' = b)) as [->|]; ins; done.
      - intros b'. rewrite S4. symmetry. apply (absc_wake_buf A (v_busy s) b b'). }
    exists s'. split; [|done]. rewrite <- R. cbn [intr_loop length]. unfold kbind at 1, gets at 1. cbv beta iota. unfold id.
    replace (v_seen s =? v_used_idx s) with false.
    2:{ rewrite V2. unfold u16, NUM in *. symmetry. apply Z.eqb_neq. dlia. }
    fold (slot (v_seen s)). rewrite <- E1, (vi_done _ _ _ I i) by (by left). cbn [negb Z.eqb]. rewrite F5. reflexivity.
Qed.
Lemma handler_sim A U s a istat : vinv A U s -> shows A s a ->
  exists s', virtio_disk_intr istat s = Ret (tt, s') /\ vinv A [] s' /\ shows A s' a.
Proof.
  intros I Sh. set (s1 := on_mmio (fun l => l ++ [(VIRTIO_MMIO_INTERRUPT_ACK, Z.land istat 3)]) s).
  assert (vinv A U s1) as I1 by (split; apply I). assert (shows A s1 a) as Sh1 by (split; apply Sh).
  destruct (intr_sim A U s1 a I1 Sh1) as (s' & R & X). exists s'. split; [|exact X]. rewrite <- R.
  unfold virtio_disk_intr. rewrite (kbind_ret _ _ _ tt s1) by reflexivity.
  rewrite (kbind_ret _ _ _ (Z.to_nat (u16 (v_used_idx s1 - v_seen s1))) s1) by reflexivity. do 2 f_equal.
  destruct (vi_used _ _ _ I1) as (_ & V2 & V3). pose proof (used_len _ _ _ I1) as HL. rewrite V2. unfold u16, NUM in *. dlia.
Qed.

(** With nothing on the used ring the handler only acknowledges the interrupt. *)
Lemma quiet_intr istat s : v_seen s = v_used_idx s ->
  virtio_disk_intr istat s = Ret (tt, on_mmio (fun l => l ++ [(VIRTIO_MMIO_INTERRUPT_ACK, Z.land istat 3)]) s).
Proof.
  intros E. unfold virtio_disk_intr. rewrite (kbind_ret _ _ _ tt (on_mmio (fun l => l ++ [(VIRTIO_MMIO_INTERRUPT_ACK, Z.land istat 3)]) s)) by reflexivity.
  unfold kbind, gets. cbn [intr_loop v_seen v_used_idx on_mmio]. unfold kbind, gets, id. cbn [v_seen v_used_idx on_mmio]. by rewrite E, Z.eqb_refl.
Qed.

Lemma step_sim dev `{!Conforms dev} A U s a r : vinv A U s -> shows A s a -> vstep dev s r -> exists s', r = Some s' /\ sim s' a.
Proof.
  intros I Sh [b w H1 H2|b w H|b w i0 i1 i2 H|b k d H|istat|s' H].
  - eexists. split; [done|]. by eapply call_sim.
  - destruct (go_sim _ _ _ _ I Sh b w H) as (s' & E & X). exists s'. by rewrite E.
  - destruct (resume_sim _ _ _ _ I Sh b w i0 i1 i2 H) as (s' & E & X). exists s'. by rewrite E.
  - eexists. split; [done|]. by eapply fill_sim.
  - destruct (handler_sim _ _ _ _ istat I Sh) as (s' & E & I' & Sh'). exists s'. rewrite E. split; [done|]. exists A, [], a. auto.
  - exists s'. split; [done|]. apply conforms in H. destruct H as [H|i w k b j Hi Hr|i s' Hi Hr].
    + by eapply take_sim.
    + by eapply finish_sim.
    + destruct (head_info A U s i I) as (b & w & i1 & i2 & _ & _ & F); [set_solver|]. by rewrite (request_ok _ _ _ _ _ _ F) in Hr.
Qed.

(** ** From initialisation on *)
Lemma ready_vinv s : ready s -> vinv [] [] s.
Proof.
  intros (F & E1 & E2 & E3 & C & E4 & E5). split; try (intros *; rewrite C; discriminate).
  - intros i Hi Hf. by rewrite F in Hf.
  - rewrite E1, E4. split_and!; reflexivity || lia.
  - rewrite E2, E3. split_and!; reflexivity || lia.
  - rewrite E5. constructor.
  - intros i. rewrite E5. split; [intros H; by apply not_elem_of_nil in H|]. intros (b & w & i1 & i2 & H & _). rewrite C in H. discriminate H.
  - intros i H. by apply not_elem_of_nil in H.
  - intros b. by rewrite C.
Qed.
Definition start (s : vst) : atomic_disk :=
  mkA (fun b => vb_blockno (v_bufs s b)) (fun b => vb_data (v_bufs s b)) (fun k => sectors (v_disk s) (2 * k)) (fun _ => None).
Lemma run_sim dev `{!Conforms dev} s0 r : ready s0 -> vrun dev s0 r ->
  exists s A U a, r = Some s /\ vinv A U s /\ shows A s a /\ rtc astep (start s0) a.
Proof.
  intros Hr Hrun. remember (Some s0) as r0. induction Hrun as [|s r Hrun IH Hs].
  - exists s0, [], [], (start s0). split; [done|]. split; [by apply ready_vinv|]. split; [|done]. split; try done. intros b.
    destruct Hr as (_ & _ & _ & _ & C & _). by rewrite C.
  - destruct IH as (s1 & A & U & a & [= <-] & I & Sh & Ra). destruct (step_sim dev A U s a r I Sh Hs) as (s' & -> & A' & U' & a' & I' & Sh' & Hor).
    exists s', A', U', a'. split; [done|]. split; [done|]. split; [done|]. destruct Hor as [->|Ha]; [done|]. by eapply rtc_r.
Qed.

(** C7: the driver and a device that follows the virtio specification are an
    atomic disk.  In every interleaving of any number of virtio_disk_rw calls (one
    per buffer), the interrupt handler and the device, no code panics or loops
    for ever; and what bio.c sees, the buffers' data, the disk and which calls
    have returned, is a run of the specification [astep], in which a call
    returns only after its one transfer, the whole block between its own buffer
    and its own block number, was performed. *)
Theorem driver_refines_disk dev `{!Conforms dev} s0 r : ready s0 -> vrun dev s0 r ->
  exists s a, r = Some s /\ rtc astep (start s0) a /\
    (forall b, a_no a b = vb_blockno (v_bufs s b) /\ a_bufs a b = vb_data (v_bufs s b)) /\
    (forall k, a_disk a k = sectors (v_disk s) (2 * k)) /\
    (forall b, a_calls a b = None <-> v_calls s b = None).
Proof.
  intros Hr Hrun. destruct (run_sim dev s0 r Hr Hrun) as (s & A & U & a & -> & I & [S1 S2 S3 S4] & Ra).
  exists s, a. split; [done|]. split; [done|]. split; [by intros b|]. split; [done|]. intros b. rewrite S4.
  destruct (v_calls s b) as [[]|]; cbn; split; (discriminate || done).
Qed.


(** ** Initialisation reaches a ready state *)
Lemma drv_run {A} (m : M vst A) p v a v' : m v = Ret (a, v') -> drv m (p, v) = Ret (a, (p, v')).
Proof. intros H. unfold drv. cbn. by rewrite H. Qed.
Lemma phys_run {A} (m : M pmem A) p v a p' : m p = Ret (a, p') -> phys m (p, v) = Ret (a, (p', v)).
Proof. intros H. unfold phys. cbn. by rewrite H. Qed.
(** The answers of a device that the driver accepts. *)
Record accepts (rd : list (mmio_reg * Z) -> mmio_reg -> Z) : Prop := {
  ac_magic l : rd l VIRTIO_MMIO_MAGIC_VALUE = 0x74726976;
  ac_version l : rd l VIRTIO_MMIO_VERSION = 2;
  ac_id l : rd l VIRTIO_MMIO_DEVICE_ID = 2;
  ac_vendor l : rd l VIRTIO_MMIO_VENDOR_ID = 0x554d4551;
  ac_status l x : rd (l ++ [(VIRTIO_MMIO_STATUS, x)]) VIRTIO_MMIO_STATUS = x;
  ac_ready l : rd l VIRTIO_MMIO_QUEUE_READY = 0;
  ac_max l : Z.of_nat NUM <= rd l VIRTIO_MMIO_QUEUE_NUM_MAX < 2 ^ 32 }.

Section init.
Context (rd : list (mmio_reg * Z) -> mmio_reg -> Z) (p : pmem) (v : vst).
Definition logged (r : mmio_reg) (x : Z) (v : vst) : vst := on_mmio (fun l => l ++ [(r, u32 x)]) v.
Lemma R_run {A} r (f : Z -> M (pmem * vst) A) : kbind (R rd r) f (p, v) = f (u32 (rd (v_mmio v) r)) (p, v).
Proof. reflexivity. Qed.
Lemma W_run {A} r x (f : unit -> M (pmem * vst) A) : kbind (W r x) f (p, v) = f tt (p, logged r x v).
Proof. reflexivity. Qed.
Lemma pm_run {A} g (f : unit -> M (pmem * vst) A) : kbind (phys (set_pm g)) f (p, v) = f tt (mkPmem (g (pm p)) (freelist p), v).
Proof. reflexivity. Qed.
Lemma drv_modify {A} g (f : unit -> M (pmem * vst) A) : kbind (drv (modify g)) f (p, v) = f tt (p, g v).
Proof. reflexivity. Qed.
End init.
(** With a device that answers as expected and three free pages, initialisation
    gives the device these pages, ends with DRIVER_OK set, and leaves a driver
    that is ready for calls. *)
Lemma init_ready rd kend p v d1 d2 d3 l : accepts rd -> 0 < kend -> kmem_ok kend p (d1 :: d2 :: d3 :: l) -> at_boot v ->
  exists p' v' features, virtio_disk_init rd (p, v) = Ret ((d1, d2, d3), (p', v')) /\ ready v' /\
    v_bufs v' = v_bufs v /\ v_disk v' = v_disk v /\
    v_mmio v' = v_mmio v ++ [(VIRTIO_MMIO_STATUS, 0); (VIRTIO_MMIO_STATUS, 1); (VIRTIO_MMIO_STATUS, 3);
      (VIRTIO_MMIO_DRIVER_FEATURES, features); (VIRTIO_MMIO_STATUS, 11); (VIRTIO_MMIO_QUEUE_SEL, 0); (VIRTIO_MMIO_QUEUE_NUM, 8);
      (VIRTIO_MMIO_QUEUE_DESC_LOW, u32 d1); (VIRTIO_MMIO_QUEUE_DESC_HIGH, u32 (Z.shiftr d1 32));
      (VIRTIO_MMIO_DRIVER_DESC_LOW, u32 d2); (VIRTIO_MMIO_DRIVER_DESC_HIGH, u32 (Z.shiftr d2 32));
      (VIRTIO_MMIO_DEVICE_DESC_LOW, u32 d3); (VIRTIO_MMIO_DEVICE_DESC_HIGH, u32 (Z.shiftr d3 32));
      (VIRTIO_MMIO_QUEUE_READY, 1); (VIRTIO_MMIO_STATUS, 15)] /\
    exists p1 p2 p3, kalloc p = Ret (d1, p1) /\ kalloc p1 = Ret (d2, p2) /\ kalloc p2 = Ret (d3, p3) /\
      p' = mkPmem (memset (memset (memset (pm p3) d1 0 PGSIZE) d2 0 PGSIZE) d3 0 PGSIZE) (freelist p3).
Proof.
  intros Hac Hk H1 (B1 & B2 & B3 & B4 & B5).
  destruct (kalloc_cons kend Hk _ _ _ H1) as (p1 & K1 & H2 & _). destruct (kalloc_cons kend Hk _ _ _ H2) as (p2 & K2 & H3 & _).
  destruct (kalloc_cons kend Hk _ _ _ H3) as (p3 & K3 & _ & _).
  assert (d1 <> 0 /\ d2 <> 0 /\ d3 <> 0) as (N1 & N2 & N3) by (destruct H1 as ((_ & ? & _ & ? & _ & ? & _) & _); done).
  unfold virtio_disk_init. rewrite !R_run, (ac_magic _ Hac), (ac_version _ Hac), (ac_id _ Hac), (ac_vendor _ Hac).
  match goal with |- context [if ?c then panic _ else _] => change c with false end. cbv iota.
  rewrite !W_run, R_run, !W_run, R_run. unfold logged at 1. cbn [v_mmio on_mmio]. rewrite (ac_status _ Hac).
  match goal with |- context [if ?c then panic _ else _] => change c with false end. cbv iota.
  rewrite W_run, R_run, (ac_ready _ Hac). change (negb (u32 0 =? 0)) with false. cbv iota.
  rewrite R_run.
  match goal with |- context [u32 (rd ?l VIRTIO_MMIO_QUEUE_NUM_MAX)] => pose proof (ac_max _ Hac l) as Hmax; set (n := rd l VIRTIO_MMIO_QUEUE_NUM_MAX) in * end.
  rewrite (u32_small n) by (unfold NUM in Hmax; lia). replace (n =? 0) with false by (unfold NUM in Hmax; lia). replace (n <? Z.of_nat NUM) with false by lia.
  rewrite (kbind_ret _ _ _ _ _ (phys_run _ _ _ _ _ K1)), (kbind_ret _ _ _ _ _ (phys_run _ _ _ _ _ K2)), (kbind_ret _ _ _ _ _ (phys_run _ _ _ _ _ K3)).
  replace ((d1 =? 0) || (d2 =? 0) || (d3 =? 0)) with false by lia.
  rewrite !pm_run, !drv_modify, !W_run, !drv_modify, !W_run. do 3 eexists. split; [reflexivity|]. split.
  - unfold ready. cbn. split_and!; try done. intros i Hi. by rewrite decide_True.
  - split; [done|]. split; [done|]. split.
    + cbn [v_mmio logged on_mmio zero_queue on_desc on_avail on_used on_free]. rewrite (ac_status _ Hac), <- !app_assoc. reflexivity.
    + by exists p1, p2, p3.
Qed.

(** ** Examples *)
#[export] Instance spec_conforms : Conforms dev_step.
Proof. intros s s' H. exact H. Qed.
(** Buffer [b] is for block [b]; sector [k] is filled with [k]. *)
Definition idle : vst :=
  mkV (fun _ => mkDesc LNull 0 0 0) (fun _ => 0%nat) 0 (fun _ => 0%nat) 0 (fun i => (i <? NUM)%nat) 0 (fun _ => None) (fun _ => 0)
    (fun _ => mkReq 0 0 0) (fun b => mkVbuf (Z.of_nat b) [] 0) (fun _ => None) [] 0 [] (fun k => replicate 512 (k mod 256)).
Lemma idle_ready : ready idle.
Proof. split_and!; try reflexivity. intros i Hi. by apply Nat.ltb_lt. Qed.
(** Block 3 is read into buffer 3: the call, its submission, the device, the
    interrupt, and the end of the call. *)
Definition ex1 : vst := on_calls (fun c => <[3%nat := Some (Want false)]> c) idle.
Definition ex2 : vst := submitted 3 false 0 1 2 ex1.
Definition ex3 : vst := taking ex2.
Definition ex4 : vst := finish 0 0 (transfer false 6 3 ex3).
Definition ex5 : vst := noticed 3 (on_mmio (fun l => l ++ [(VIRTIO_MMIO_INTERRUPT_ACK, 1)]) ex4).
Definition ex6 : vst := ended 3 0 1 2 ex5.
Lemma ex2_run : virtio_disk_rw 3 false ex1 = Ret (tt, ex2).
Proof. unfold virtio_disk_rw. rewrite (kbind_ret _ _ _ (Some [0; 1; 2]%nat) (took [0; 1; 2]%nat ex1)) by reflexivity. apply submit_run. Qed.
Lemma ex5_run : virtio_disk_intr 1 ex4 = Ret (tt, ex5).
Proof.
  unfold virtio_disk_intr. rewrite (kbind_ret _ _ _ tt (on_mmio (fun l => l ++ [(VIRTIO_MMIO_INTERRUPT_ACK, 1)]) ex4)) by reflexivity.
  set (t := on_mmio _ ex4). assert (Z.to_nat (u16 (v_used_idx t - v_seen t)) = 1%nat) as E0 by (vm_compute; reflexivity).
  unfold kbind at 1, gets at 1. cbv beta iota. rewrite E0.
  assert ((v_seen t =? v_used_idx t) = false /\ v_used t (Z.to_nat (v_seen t mod Z.of_nat NUM)) = 0%nat /\ v_status t 0 = 0 /\ v_info t 0 = Some 3%nat) as (E1 & E2 & E3 & E4)
    by (split_and!; vm_compute; reflexivity).
  cbn [intr_loop]. unfold kbind, gets, id. cbv beta iota. rewrite E1, E2, E3, E4. reflexivity.
Qed.
Lemma ex2_reached : vrun dev_step idle (Some ex2).
Proof.
  apply (vrun_step _ _ ex1); [apply (vrun_step _ _ idle); [apply vrun_start|]|].
  - apply (v_call _ _ 3 false); [reflexivity|cbn; lia].
  - change (Some ex2) with (after (Ret (tt, ex2))). rewrite <- ex2_run. by apply v_go.
Qed.
Lemma ex5_reached : vrun dev_step idle (Some ex5).
Proof.
  apply (vrun_step _ _ ex4); [apply (vrun_step _ _ ex3); [apply (vrun_step _ _ ex2); [apply ex2_reached|]|]|].
  - apply v_dev, (dev_take ex2). vm_compute. discriminate.
  - apply v_dev, (dev_finish ex3 0 false 6 3 0); [by left|reflexivity].
  - change (Some ex5) with (after (Ret (tt, ex5))). rewrite <- ex5_run. apply v_intr.
Qed.
Lemma ex6_run : rw_wait 3 false 0 1 2 ex5 = Ret (tt, ex6).
Proof.
  destruct (run_sim dev_step idle _ idle_ready ex5_reached) as (s & A & U & a & [= <-] & I & _ & _).
  eapply (ending_run A U); [exact I|reflexivity|discriminate].
Qed.
Lemma ex_run : vrun dev_step idle (Some ex6).
Proof.
  apply (vrun_step _ _ ex5); [apply ex5_reached|].
  change (Some ex6) with (after (Ret (tt, ex6))). rewrite <- ex6_run. by apply v_resume.
Qed.
Lemma driver_refines_disk_witness : exists s a, Some ex6 = Some s /\ rtc astep (start idle) a /\
  a_calls a 3 = None /\ a_bufs a 3 = replicate 512 6 ++ replicate 512 7.
Proof.
  destruct (driver_refines_disk dev_step idle (Some ex6) idle_ready ex_run) as (s & a & E & R & Hb & _ & Hc).
  exists s, a. split; [exact E|]. split; [exact R|]. injection E as <-. split; [apply Hc; reflexivity|]. rewrite (proj2 (Hb 3%nat)). reflexivity.
Defined.
