(* ===== verification/Boot.v ===== *)
(** * kernel/main.c: the harts start the kernel

    main() of every hart as the list of the calls it makes.  A step is one call
    of one hart; the harts share the kernel's state, the disk driver, the PLIC,
    the uart, [kernel_pagetable] and [started].  The calls are the functions of
    the components: kinit (Kalloc.v), kvminit (Vm.v), procinit and userinit
    (Proc.v), binit (Bio.v), iinit (Fs.v), virtio_disk_init (Virtio.v).  The
    functions that only initialise a spinlock (printfinit, trapinit, fileinit)
    change nothing here.  __sync_synchronize is a step of its own: memory is
    sequentially consistent. *)
From stdpp Require Import functions.
From S2P Require Import Prelude Machine KString Kalloc Vm VmInv VmWalk VmUser VmAlloc VmTheorems Kvm Printf Spinlock Blocks Bio BioInv BioTheorems Log Fs Kstate Pipe Console File Proc ProcInv FileRefs Sysargs Exec Sysfile Syscall Trap Virtio VirtioInv VirtioTheorems.

(** ** kernel/uart.c: uartinit *)
(** The registers of the 16550 that uartinit writes: with the divisor latch bit of
    LCR set, registers 0 and 1 are the divisor. *)
Inductive ureg := THR_DLL | IER_DLM | FCR | LCR.
Record uregs := mkUregs { u_ier : Z; u_fcr : Z; u_lcr : Z; u_dll : Z; u_dlm : Z; u_thr : list Z }.
Definition LCR_BAUD_LATCH : Z := Z.shiftl 1 7.
Definition LCR_EIGHT_BITS : Z := Z.shiftl 3 0.
Definition IER_RX_ENABLE : Z := Z.shiftl 1 0.
Definition IER_TX_ENABLE : Z := Z.shiftl 1 1.
Definition FCR_FIFO_ENABLE : Z := Z.shiftl 1 0.
Definition FCR_FIFO_CLEAR : Z := Z.shiftl 3 1.
Definition WriteReg (r : ureg) (v : Z) (u : uregs) : uregs :=
  let latch := Z.testbit (u_lcr u) 7 in
  match r with
  | THR_DLL => if latch then mkUregs (u_ier u) (u_fcr u) (u_lcr u) (u8 v) (u_dlm u) (u_thr u)
               else mkUregs (u_ier u) (u_fcr u) (u_lcr u) (u_dll u) (u_dlm u) (u_thr u ++ [u8 v])
  | IER_DLM => if latch then mkUregs (u_ier u) (u_fcr u) (u_lcr u) (u_dll u) (u8 v) (u_thr u)
               else mkUregs (u8 v) (u_fcr u) (u_lcr u) (u_dll u) (u_dlm u) (u_thr u)
  | FCR => mkUregs (u_ier u) (u8 v) (u_lcr u) (u_dll u) (u_dlm u) (u_thr u)
  | LCR => mkUregs (u_ier u) (u_fcr u) (u8 v) (u_dll u) (u_dlm u) (u_thr u)
  end.
Definition uartinit (u : uregs) : uregs :=
  foldl (fun u w => WriteReg w.1 w.2 u) u
    [(IER_DLM, 0); (LCR, LCR_BAUD_LATCH); (THR_DLL, 3); (IER_DLM, 0); (LCR, LCR_EIGHT_BITS);
     (FCR, Z.lor FCR_FIFO_ENABLE FCR_FIFO_CLEAR); (IER_DLM, Z.lor IER_TX_ENABLE IER_RX_ENABLE)].

(** ** The machine *)
Record machine := mkMachine {
  b_k : kstate; b_disk : vst; b_pagetable : Z (* kernel_pagetable *); b_plic : Z -> Z (* its registers, by address *);
  b_uart : uregs; b_started : bool; b_hart : nat -> hart }.
Definition on_k k b := mkMachine k (b_disk b) (b_pagetable b) (b_plic b) (b_uart b) (b_started b) (b_hart b).
Definition on_disk d b := mkMachine (b_k b) d (b_pagetable b) (b_plic b) (b_uart b) (b_started b) (b_hart b).
Definition on_pagetable p b := mkMachine (b_k b) (b_disk b) p (b_plic b) (b_uart b) (b_started b) (b_hart b).
Definition on_plic p b := mkMachine (b_k b) (b_disk b) (b_pagetable b) p (b_uart b) (b_started b) (b_hart b).
Definition on_uart u b := mkMachine (b_k b) (b_disk b) (b_pagetable b) (b_plic b) u (b_started b) (b_hart b).
Definition on_started s b := mkMachine (b_k b) (b_disk b) (b_pagetable b) (b_plic b) (b_uart b) s (b_hart b).
Definition on_hart f b := mkMachine (b_k b) (b_disk b) (b_pagetable b) (b_plic b) (b_uart b) (b_started b) f.

Definition kernel {A} (m : K A) : M machine A := fun b =>
  match m (b_k b) with
  | Ret (a, k) => Ret (a, on_k k b)
  | Panic e => Panic e
  | Sleeps c => Sleeps c
  | OutOfFuel => OutOfFuel
  end.
(** Code of trap.c on hart [h]. *)
Definition trap {A} (h : nat) (m : M (hart * kstate) A) : M machine A := fun b =>
  match m (b_hart b h, b_k b) with
  | Ret (a, (x, k)) => Ret (a, on_hart (<[h := x]> (b_hart b)) (on_k k b))
  | Panic e => Panic e
  | Sleeps c => Sleeps c
  | OutOfFuel => OutOfFuel
  end.
(** Code of the disk driver that allocates. *)
Definition set_mem (p : pmem) (k : kstate) : kstate :=
  set_fs (mkF (f_log (k_fs k)) (f_sb (k_fs k)) (f_itable (k_fs k)) p (f_pid (k_fs k)) (f_cwd (k_fs k))) k.
Definition driver {A} (m : M (pmem * vst) A) : M machine A := fun b =>
  match m (f_mem (k_fs (b_k b)), b_disk b) with
  | Ret (a, (p, v)) => Ret (a, on_disk v (on_k (set_mem p (b_k b)) b))
  | Panic e => Panic e
  | Sleeps c => Sleeps c
  | OutOfFuel => OutOfFuel
  end.

Definition cpuid (h : hart) : Z := i32 (h_tp h).
Definition set_satp v h := mkHart (h_sstatus h) (h_sepc h) (h_scause h) (h_stval h) (h_stvec h) v (h_tp h) (h_time h) (h_stimecmp h) (h_completed h).

(** ** kernel/plic.c *)
Definition PLIC_SENABLE (hart : Z) : Z := PLIC + 0x2080 + hart * 0x100.
Definition PLIC_SPRIORITY (hart : Z) : Z := PLIC + 0x201000 + hart * 0x2000.
Definition plicinit : M machine unit := modify (fun b =>
  on_plic (<[PLIC + VIRTIO0_IRQ * 4 := u32 1]> (<[PLIC + UART0_IRQ * 4 := u32 1]> (b_plic b))) b).
Definition plicinithart (h : nat) : M machine unit :=
  hart <~ gets (fun b => cpuid (b_hart b h)) ;;
  modify (fun b => on_plic (<[PLIC_SENABLE hart := u32 (Z.lor (Z.shiftl 1 UART0_IRQ) (Z.shiftl 1 VIRTIO0_IRQ))]> (b_plic b)) b) ;;;
  modify (fun b => on_plic (<[PLIC_SPRIORITY hart := u32 0]> (b_plic b)) b).

(** ** The calls of main() *)
Inductive call :=
| Consoleinit | Printfinit | Printf (fmt : list Z) | Kinit | Kvminit | Kvminithart | Procinit | Trapinit | Trapinithart | Plicinit | Plicinithart
| Binit | Iinit | Fileinit | Virtio_disk_init | Userinit | Synchronize | Set_started | Wait_started | Printf_hart.

#[export] Instance call_eq_dec : EqDecision call.
Proof. solve_decision. Defined.

Section main.
(** Addresses that kernel.ld sets or that the code takes, and what the disk's
    registers read. *)
Context (kend etext trampoline forkret kernelvec : Z) (rd : list (mmio_reg * Z) -> mmio_reg -> Z).

Definition kvminit : M machine unit :=
  pt <~ kernel (memop kend (kvmmake trampoline etext)) ;; modify (on_pagetable pt).
Definition kvminithart (h : nat) : M machine unit :=
  pt <~ gets b_pagetable ;; trap h (Trap.csrw (set_satp (MAKE_SATP pt))).
Definition consoleinit : M machine unit := modify (fun b => on_uart (uartinit (b_uart b)) b).
(** Code of bio.c. *)
Definition bio {A} (m : M bstate A) : K A := logop kend (Log.io m).

Definition exec (h : nat) (c : call) : M machine unit :=
  match c with
  | Consoleinit => consoleinit
  | Printf fmt => kernel (kprintf fmt [])
  | Kinit => kernel (memop kend (kinit kend))
  | Kvminit => kvminit
  | Kvminithart => kvminithart h
  | Procinit => kernel procinit
  | Trapinithart => trap h (trapinithart kernelvec)
  | Plicinit => plicinit
  | Plicinithart => plicinithart h
  | Binit => kernel (bio binit)
  | Iinit => kernel (fsop kend (fun U => iinit))
  | Virtio_disk_init => driver (virtio_disk_init rd) ;;; kret tt
  | Userinit => kernel (userinit kend trampoline forkret)
  | Set_started => modify (on_started true)
  | Printf_hart => id <~ gets (fun b => cpuid (b_hart b h)) ;; kernel (kprintf (chars "hart %d starting" ++ [10]) [VInt id])
  | Printfinit | Trapinit | Fileinit | Synchronize | Wait_started => kret tt
  end.
(** After these calls the hart is in scheduler(). *)
Definition main (id : Z) : list call :=
  if id =? 0 then
    [Consoleinit; Printfinit; Printf [10]; Printf (chars "xv6 kernel is booting" ++ [10]); Printf [10];
     Kinit; Kvminit; Kvminithart; Procinit; Trapinit; Trapinithart; Plicinit; Plicinithart; Binit; Iinit; Fileinit;
     Virtio_disk_init; Userinit; Synchronize; Set_started]
  else [Wait_started; Synchronize; Printf_hart; Kvminithart; Trapinithart; Plicinithart].

(** What the harts still have to call, and the machine.  A hart in the loop on
    [started] waits. *)
Definition state : Type := (nat -> list call) * machine.
Definition enabled (c : call) (b : machine) : bool := match c with Wait_started => b_started b | _ => true end.
Inductive bstep : state -> state -> Prop :=
| b_call h c cs (rest : nat -> list call) b b' : (h < Z.to_nat NCPU)%nat -> rest h = c :: cs -> enabled c b = true -> exec h c b = Ret (tt, b') ->
    bstep (rest, b) (<[h := cs]> rest, b').
(** After [n] steps. *)
Inductive reachable (s0 : state) : nat -> state -> Prop :=
| reach_start : reachable s0 0 s0
| reach_step n s s' : reachable s0 n s -> bstep s s' -> reachable s0 (S n) s'.
End main.

(** ** The kernel's state as the loader leaves it, and after the calls of hart 0 *)
Definition sb0 : superblock := mkSb 0 0 0 0 0 0 0 0.
Definition kmid (io : bstate) (msg : list Z) (p : pmem) : kstate :=
  mkK (mkF (mkLstate io log0) sb0 (replicate 50 inode0) p 0 0) (replicate 100 file0) ∅ (replicate 64 proc0) None 1 None 0 cons0 (mkUart msg false).
Definition power_on (disk : gmap Z block) (m : memory) : kstate := kmid (bss disk 0) [] (mkPmem m 0).
(** The first process and the inode of the root directory. *)
Definition init_proc (forkret tf pt : Z) : proc :=
  mkProc RUNNABLE None 0 0 1 None 0 pt tf junk_tf (forkret :: KSTACK 0 + PGSIZE :: replicate 12 0) (replicate 16 None) (Some 0%nat)
    (replicate 16 0) 0 (replicate 128 0).
Definition root_inode : inode := mkInode ROOTDEV ROOTINO 1 initsleeplock 0 0 0 0 0 0 (replicate 13 0).
Definition kboot (forkret : Z) (io : bstate) (msg : list Z) (p : pmem) (tf pt : Z) : kstate :=
  mkK (mkF (mkLstate io log0) sb0 (root_inode :: replicate 49 inode0) p 0 0) (replicate 100 file0) ∅ (init_proc forkret tf pt :: replicate 63 proc0)
    None 2 (Some 0%nat) 0 cons0 (mkUart msg false).

Section runs.
Context (kend etext trampoline forkret kernelvec : Z) (rd : list (mmio_reg * Z) -> mmio_reg -> Z).

Lemma memop_run {A} (m : M pmem A) k a p : k_cur k = None -> f_pid (k_fs k) = 0 -> f_cwd (k_fs k) = 0%nat -> m (f_mem (k_fs k)) = Ret (a, p) ->
  memop kend m k = Ret (a, set_mem p k).
Proof.
  intros Hc Hp Hw Hm. unfold memop, fsop, umem. unfold fs_of. cbn [f_mem]. rewrite Hm. unfold set_mem, curp. rewrite Hc, Hp, Hw. done.
Qed.
Lemma userinit_run io msg p p1 p2 tf pt : kalloc p = Ret (tf, p1) -> tf <> 0 -> proc_pagetable kend trampoline tf p1 = Ret (pt, p2) -> pt <> 0 ->
  userinit kend trampoline forkret (kmid io msg p) = Ret (tt, kboot forkret io msg p2 tf pt).
Proof.
  intros Ha Htf Hp Hpt. unfold userinit.
  assert (allocproc kend trampoline forkret (kmid io msg p) =
    Ret (Some 0%nat, mkK (mkF (mkLstate io log0) sb0 (replicate 50 inode0) p2 0 0) (replicate 100 file0) ∅
      (set_cwd None (set_state USED (init_proc forkret tf pt)) :: replicate 63 proc0) None 2 None 0 cons0 (mkUart msg false))) as E.
  { unfold allocproc. rewrite (kbind_ret (gets k_procs) _ (kmid io msg p) _ _ eq_refl).
    change (first_unused 0 (k_procs (kmid io msg p))) with (Some 0%nat). cbv iota beta.
    erewrite kbind_ret by reflexivity. erewrite kbind_ret by reflexivity.
    erewrite kbind_ret by (apply memop_run; [reflexivity..|exact Ha]). erewrite kbind_ret by reflexivity.
    replace (tf =? 0) with false by lia.
    erewrite kbind_ret by (apply memop_run; [reflexivity..|exact Hp]). erewrite kbind_ret by reflexivity.
    replace (pt =? 0) with false by lia. erewrite kbind_ret by reflexivity. reflexivity. }
  rewrite (kbind_ret _ _ _ _ _ E). erewrite kbind_ret by reflexivity. erewrite kbind_ret by (vm_compute; reflexivity). reflexivity.
Qed.

(** A hart making calls with no other in between. *)
Fixpoint run_calls (h : nat) (cs : list call) : M machine unit :=
  match cs with
  | [] => kret tt
  | c :: cs => exec kend etext trampoline forkret kernelvec rd h c ;;; run_calls h cs
  end.
Lemma run_calls_app h cs cs' b : run_calls h (cs ++ cs') b = (run_calls h cs ;;; run_calls h cs') b.
Proof.
  revert b. induction cs as [|c cs IH]; intros b; [done|]. cbn [app run_calls]. rewrite <- kbind_assoc. apply kbind_ext. intros _ b'. apply IH.
Qed.
Definition boot_msg : list Z := 10 :: chars "xv6 kernel is booting" ++ [10; 10].
Lemma run_early disk m v plic u hs :
  run_calls 0 [Consoleinit; Printfinit; Printf [10]; Printf (chars "xv6 kernel is booting" ++ [10]); Printf [10]]
    (mkMachine (power_on disk m) v 0 plic u false hs) =
  Ret (tt, mkMachine (kmid (bss disk 0) boot_msg (mkPmem m 0)) v 0 plic (uartinit u) false hs).
Proof. reflexivity. Qed.
Lemma run_memory disk m p1 p2 pt msg v plic u hs : kinit kend (mkPmem m 0) = Ret (tt, p1) -> kvmmake trampoline etext p1 = Ret (pt, p2) ->
  run_calls 0 [Kinit; Kvminit] (mkMachine (kmid (bss disk 0) msg (mkPmem m 0)) v 0 plic u false hs) =
  Ret (tt, mkMachine (kmid (bss disk 0) msg p2) v pt plic u false hs).
Proof.
  intros H1 H2. cbn [run_calls exec]. unfold kvminit, kernel, kbind. cbn [b_k].
  rewrite (memop_run (kinit kend) (kmid (bss disk 0) msg (mkPmem m 0)) tt p1) by done. cbn [b_k on_k].
  rewrite (memop_run (kvmmake trampoline etext) (set_mem p1 (kmid (bss disk 0) msg (mkPmem m 0))) pt p2) by done. reflexivity.
Qed.
Lemma plicinithart_run h id b : h_tp (b_hart b h) = id -> 0 <= id < 2 ^ 31 ->
  plicinithart h b = Ret (tt, on_plic (<[PLIC_SPRIORITY id := 0]> (<[PLIC_SENABLE id := 0x402]> (b_plic b))) b).
Proof.
  intros Htp Hid. unfold plicinithart. rewrite (kbind_ret (gets _) _ b id b) by (unfold gets, cpuid; by rewrite Htp, i32_small by lia). reflexivity.
Qed.
Lemma kernel_run {A} (m : K A) b a k k' : m k = Ret (a, k') -> b_k b = k -> kernel m b = Ret (a, on_k k' b).
Proof. intros H <-. unfold kernel. by rewrite H. Qed.
Lemma bio_binit disk msg p : bio kend binit (kmid (bss disk 0) msg p) = Ret (tt, kmid (BioTheorems.boot disk 0) msg p).
Proof. vm_compute. reflexivity. Qed.
Lemma run_tables disk p pt msg v plic u hs : h_tp (hs 0%nat) = 0 ->
  run_calls 0 [Kvminithart; Procinit; Trapinit; Trapinithart; Plicinit; Plicinithart; Binit; Iinit; Fileinit]
    (mkMachine (kmid (bss disk 0) msg p) v pt plic u false hs) =
  Ret (tt, mkMachine (kmid (BioTheorems.boot disk 0) msg p) v pt
    (<[PLIC_SPRIORITY 0 := 0]> (<[PLIC_SENABLE 0 := 0x402]> (<[PLIC + VIRTIO0_IRQ * 4 := 1]> (<[PLIC + UART0_IRQ * 4 := 1]> plic)))) u false
    (<[0%nat := set_stvec kernelvec (<[0%nat := set_satp (MAKE_SATP pt) (hs 0%nat)]> hs 0%nat)]> (<[0%nat := set_satp (MAKE_SATP pt) (hs 0%nat)]> hs))).
Proof.
  intros Htp.
  change [Kvminithart; Procinit; Trapinit; Trapinithart; Plicinit; Plicinithart; Binit; Iinit; Fileinit]
    with ([Kvminithart; Procinit; Trapinit; Trapinithart; Plicinit] ++ [Plicinithart] ++ [Binit; Iinit; Fileinit]).
  rewrite run_calls_app. erewrite kbind_ret by reflexivity. rewrite run_calls_app.
  cbn [run_calls exec]. rewrite <- kbind_assoc. erewrite kbind_ret by (apply (plicinithart_run 0 0); [exact Htp|lia]).
  erewrite kbind_ret by reflexivity.
  erewrite kbind_ret; [|apply (kernel_run _ _ tt _ _ (bio_binit disk msg p)); reflexivity]. reflexivity.
Qed.
Lemma run_late disk p d p1 v1 p2 p3 tf ppt pt msg v plic u hs :
  virtio_disk_init rd (p, v) = Ret (d, (p1, v1)) -> kalloc p1 = Ret (tf, p2) -> tf <> 0 ->
  proc_pagetable kend trampoline tf p2 = Ret (ppt, p3) -> ppt <> 0 ->
  run_calls 0 [Virtio_disk_init; Userinit; Synchronize; Set_started] (mkMachine (kmid (BioTheorems.boot disk 0) msg p) v pt plic u false hs) =
  Ret (tt, mkMachine (kboot forkret (BioTheorems.boot disk 0) msg p3 tf ppt) v1 pt plic u true hs).
Proof.
  intros Hv Ha Htf Hp Hppt. cbn [run_calls exec]. rewrite <- kbind_assoc.
  rewrite (kbind_ret (driver _) _ _ d (mkMachine (kmid (BioTheorems.boot disk 0) msg p1) v1 pt plic u false hs)).
  2: { unfold driver. cbn [b_k b_disk kmid k_fs f_mem]. by rewrite Hv. }
  erewrite kbind_ret by reflexivity. cbv beta.
  erewrite kbind_ret; [|apply (kernel_run _ _ tt _ _ (userinit_run (BioTheorems.boot disk 0) msg p1 p2 p3 tf ppt Ha Htf Hp Hppt)); reflexivity].
  reflexivity.
Qed.
End runs.

(** ** What the machine promises when a hart enters the scheduler *)
Section ready.
Context (kend etext trampoline forkret kernelvec : Z) (rd : list (mmio_reg * Z) -> mmio_reg -> Z).
Context (disk : gmap Z block).

(** The kernel: its page table, the memory, the first process and the buffer cache. *)
Record kernel_ready (k : kstate) (pt : Z) (p : pmem) (L : gmap Z nat) (free pas : list Z) (tf ppt : Z) : Prop := {
  kr_state : exists msg, k = kboot forkret (BioTheorems.boot disk 0) msg p tf ppt;
  kr_mem : uspace kend p L free ∅;
  kr_root : L !! pt = Some 2%nat /\ L !! ppt = Some 2%nat;
  kr_maps : kmaps (pm p) pt (kernel_regions etext trampoline ++ stack_regions 0 pas);
  kr_proc : kmaps (pm p) ppt (proc_regions trampoline tf);
  kr_stacks : length pas = Z.to_nat NPROC /\ NoDup (tf :: pas) /\ Forall (in_use kend L free) (tf :: pas) }.
Record hart_ready (b : machine) (h : nat) : Prop := {
  hr_satp : h_satp (b_hart b h) = MAKE_SATP (b_pagetable b);
  hr_stvec : h_stvec (b_hart b h) = kernelvec;
  hr_enable : b_plic b (PLIC_SENABLE (Z.of_nat h)) = Z.lor (Z.shiftl 1 UART0_IRQ) (Z.shiftl 1 VIRTIO0_IRQ);
  hr_threshold : b_plic b (PLIC_SPRIORITY (Z.of_nat h)) = 0 }.
Record machine_ready (b : machine) : Prop := {
  mr_started : b_started b = true;
  mr_kernel : exists p L free pas tf ppt, kernel_ready (b_k b) (b_pagetable b) p L free pas tf ppt;
  mr_disk : Virtio.ready (b_disk b);
  mr_plic : b_plic b (PLIC + UART0_IRQ * 4) = 1 /\ b_plic b (PLIC + VIRTIO0_IRQ * 4) = 1 }.

Hypothesis Htext : KERNBASE < etext <= kend.
Hypothesis Hal : etext mod PGSIZE = 0.
Hypothesis Hroom : kend + 1024 * PGSIZE <= PHYSTOP.
Hypothesis Htr : 0 <= trampoline /\ trampoline + PGSIZE <= 2 ^ 56.
Hypothesis Hrd : accepts rd.

(** The three pages of the disk's queue. *)
Lemma disk_memory s L d1 d2 d3 free p1 p2 p3 : vm_inv kend s L (d1 :: d2 :: d3 :: free) ∅ ->
  kalloc s = Ret (d1, p1) -> kalloc p1 = Ret (d2, p2) -> kalloc p2 = Ret (d3, p3) ->
  let p' := mkPmem (memset (memset (memset (pm p3) d1 0 PGSIZE) d2 0 PGSIZE) d3 0 PGSIZE) (freelist p3) in
  vm_inv kend p' L free ∅ /\ (forall q va, L !! q = Some 2%nat -> leaf (pm p') q va = leaf (pm s) q va).
Proof.
  assert (0 < kend) as Hk by (unfold KERNBASE in *; lia). intros Hinv K1 K2 K3 p'.
  destruct (kalloc_leaf kend Hk _ _ _ _ Hinv) as (q1 & E1 & I1 & U1 & F1). rewrite K1 in E1. injection E1 as <-.
  destruct (kalloc_leaf kend Hk _ _ _ _ I1) as (q2 & E2 & I2 & U2 & F2). rewrite K2 in E2. injection E2 as <-.
  destruct (kalloc_leaf kend Hk _ _ _ _ I2) as (q3 & E3 & I3 & U3 & F3). rewrite K3 in E3. injection E3 as <-.
  apply in_use_cons in U1; [|done]. apply in_use_cons in U1; [|done]. apply in_use_cons in U2; [|done].
  assert (0 <= PGSIZE <= PGSIZE) as Hp by (unfold PGSIZE; lia).
  pose proof (fill_inv kend Hk p3 L free d1 0 PGSIZE I3 U1 Hp) as J1. pose proof (fill_inv kend Hk _ L free d2 0 PGSIZE J1 U2 Hp) as J2.
  pose proof (fill_inv kend Hk _ L free d3 0 PGSIZE J2 U3 Hp) as J3. split; [exact J3|]. intros q va Hq. unfold p'. cbn [pm].
  etrans; [exact (fill_leaf kend Hk _ L free d3 0 PGSIZE q va J2 U3 Hp Hq)|]. cbn [pm].
  etrans; [exact (fill_leaf kend Hk _ L free d2 0 PGSIZE q va J1 U2 Hp Hq)|]. cbn [pm].
  etrans; [exact (fill_leaf kend Hk _ L free d1 0 PGSIZE q va I3 U1 Hp Hq)|]. by rewrite F3, F2, F1.
Qed.

Lemma main0_run m v plic u hs : at_boot v -> h_tp (hs 0%nat) = 0 ->
  exists b, run_calls kend etext trampoline forkret kernelvec rd 0 (main 0) (mkMachine (power_on disk m) v 0 plic u false hs) = Ret (tt, b) /\
    machine_ready b /\ hart_ready b 0 /\ b_uart b = uartinit u /\ h_tp (b_hart b 0%nat) = 0 /\ forall h, h <> 0%nat -> b_hart b h = hs h.
Proof.
  intros Hv Htp. assert (0 < kend) as Hk by (unfold KERNBASE in *; lia).
  destruct (kernel_map kend etext trampoline m Htext Hal Hroom Htr) as (pt & s1 & s & L & free & pas & Hi & Hr & Hinv & Hpt & Hnu & Hm & Hlen & Hnd & Huse & Hfree).
  destruct free as [|d1 [|d2 [|d3 [|tf free]]]]; try (cbn in Hfree; lia).
  destruct (init_ready rd kend s v d1 d2 d3 (tf :: free) Hrd Hk (vi_free _ _ _ _ _ Hinv) Hv)
    as (p' & v' & features & Hvi & Hready & _ & _ & _ & p1 & p2 & p3 & K1 & K2 & K3 & ->).
  destruct (disk_memory s L d1 d2 d3 (tf :: free) p1 p2 p3 Hinv K1 K2 K3) as [Hinv' Hlf]. cbn zeta in Hinv', Hlf.
  set (p' := mkPmem (memset _ _ _ _) _) in *.
  destruct (kalloc_leaf kend Hk p' L tf free Hinv') as (p4 & Ha & Hinv4 & Hu4 & Hlf4).
  assert (forall q va, L !! q = Some 2%nat -> leaf (pm p4) q va = leaf (pm s) q va) as Hlf5 by (intros; rewrite Hlf4, Hlf; done).
  assert (0 < tf < 2 ^ 50) as Htf by (destruct Hu4 as (Hok & _); apply page_okE in Hok; [|done]; unfold PHYSTOP, KERNBASE in *; lia).
  destruct (proc_pagetable_ok kend Hk trampoline Htr p4 L free pt (kernel_regions etext trampoline ++ stack_regions 0 pas) tf Hinv4 Hpt
    (leaf_kmaps L _ _ _ _ Hlf5 Hpt Hm) (leaf_no_user L _ _ Hlf5 Hnu)) as (ppt & p5 & L5 & free5 & Hp & Hinv5 & Hpt5 & Hppt & Hne & Hm5 & Hmp & Hnu5 & Huse5); [lia|cbn in Hfree; lia|].
  exists (mkMachine (kboot forkret (BioTheorems.boot disk 0) boot_msg p5 tf ppt) v' pt
    (<[PLIC_SPRIORITY 0 := 0]> (<[PLIC_SENABLE 0 := 0x402]> (<[PLIC + VIRTIO0_IRQ * 4 := 1]> (<[PLIC + UART0_IRQ * 4 := 1]> plic)))) (uartinit u) true
    (<[0%nat := set_stvec kernelvec (<[0%nat := set_satp (MAKE_SATP pt) (hs 0%nat)]> hs 0%nat)]> (<[0%nat := set_satp (MAKE_SATP pt) (hs 0%nat)]> hs))).
  split; [|split; [|split; [|split; [|split]]]].
  - change (main 0) with ([Consoleinit; Printfinit; Printf [10]; Printf (chars "xv6 kernel is booting" ++ [10]); Printf [10]] ++ [Kinit; Kvminit] ++
      [Kvminithart; Procinit; Trapinit; Trapinithart; Plicinit; Plicinithart; Binit; Iinit; Fileinit] ++
      [Virtio_disk_init; Userinit; Synchronize; Set_started]).
    rewrite !run_calls_app. rewrite (kbind_ret _ _ _ _ _ (run_early kend etext trampoline forkret kernelvec rd disk m v plic u hs)).
    rewrite run_calls_app, (kbind_ret _ _ _ _ _ (run_memory kend etext trampoline forkret kernelvec rd disk m s1 s pt boot_msg v plic (uartinit u) hs Hi Hr)).
    rewrite run_calls_app, (kbind_ret _ _ _ _ _ (run_tables kend etext trampoline forkret kernelvec rd disk s pt boot_msg v plic (uartinit u) hs Htp)).
    apply (run_late kend etext trampoline forkret kernelvec rd disk s (d1, d2, d3) p' v' p4 p5 tf ppt pt boot_msg); (done || lia).
  - split; try done.
    + exists p5, L5, free5, pas, tf, ppt. split; try done.
      * by exists boot_msg.
      * split; [done|]. by apply no_user_owned.
      * split_and!; [done| |].
        -- apply NoDup_cons. split; [|done]. intros Hin. rewrite Forall_forall in Huse. destruct (Huse _ Hin) as (_ & Hn & _). apply Hn. inlist.
        -- apply Forall_cons. split; [by apply Huse5|]. eapply Forall_impl; [exact Huse|]. intros a Hin. apply Huse5.
           do 4 (apply in_use_cons in Hin; [|done]). done.
  - split; try done.
  - done.
  - exact Htp.
  - intros h Hh. cbn [b_hart]. rewrite !fn_lookup_insert_ne by done. done.
Qed.

(** ** Every interleaving of the harts *)
Abbreviation exec := (exec kend etext trampoline forkret kernelvec rd).
Abbreviation run_calls := (run_calls kend etext trampoline forkret kernelvec rd).
Abbreviation bstep := (bstep kend etext trampoline forkret kernelvec rd).
Definition ncpu : nat := Z.to_nat NCPU.
Definition waiter : list call := main 1.
Definition front : list call := removelast (main 0).
Definition start_state (m : memory) (v : vst) (plic : Z -> Z) (u : uregs) (hs : nat -> hart) : state :=
  (fun h => main (cpuid (hs h)), mkMachine (power_on disk m) v 0 plic u false hs).

Definition unstarted {A} (m : M machine A) : Prop := forall b a b', m b = Ret (a, b') -> b_started b' = b_started b.
Lemma unstarted_bind {A B} (m : M machine A) (f : A -> M machine B) : unstarted m -> (forall a, unstarted (f a)) -> unstarted (kbind m f).
Proof using. clear. intros Hm Hf b y b' (x & b1 & H1 & H2)%kbind_inv. etrans; [by eapply Hf|by eapply Hm]. Qed.
Lemma unstarted_kernel {A} (m : K A) : unstarted (kernel m).
Proof using. clear. intros b a b'. unfold kernel. destruct (m (b_k b)) as [[x k]| | |]; intros H; try discriminate H. by injection H as _ <-. Qed.
Lemma unstarted_trap {A} h (m : M (hart * kstate) A) : unstarted (trap h m).
Proof using. clear. intros b a b'. unfold trap. destruct (m _) as [[x [y k]]| | |]; intros H; try discriminate H. by injection H as _ <-. Qed.
Lemma unstarted_driver {A} (m : M (pmem * vst) A) : unstarted (driver m).
Proof using. clear. intros b a b'. unfold driver. destruct (m _) as [[x [y k]]| | |]; intros H; try discriminate H. by injection H as _ <-. Qed.
Lemma unstarted_gets {A} (f : machine -> A) : unstarted (gets f).
Proof using. clear. intros b a b' H. by injection H as _ <-. Qed.
Lemma unstarted_modify f : (forall b, b_started (f b) = b_started b) -> unstarted (modify f).
Proof using. clear. intros Hf b a b' H. injection H as _ <-. apply Hf. Qed.
Lemma unstarted_ret {A} (a : A) : unstarted (kret a).
Proof using. clear. intros b x b' H. by injection H as _ <-. Qed.
Lemma exec_started h c : c <> Set_started -> unstarted (exec h c).
Proof using.
  clear. intros Hc. unfold Boot.exec, consoleinit, kvminit, kvminithart, plicinit, plicinithart.
  destruct c; lazymatch goal with H : Set_started <> Set_started |- _ => destruct H; reflexivity | _ => idtac end;
    repeat lazymatch goal with
    | |- unstarted (kbind _ _) => apply unstarted_bind; [|intros ?]
    | |- unstarted (kernel _) => apply unstarted_kernel
    | |- unstarted (trap _ _) => apply unstarted_trap
    | |- unstarted (driver _) => apply unstarted_driver
    | |- unstarted (gets _) => apply unstarted_gets
    | |- unstarted (kret _) => apply unstarted_ret
    | |- unstarted (modify _) => apply unstarted_modify; reflexivity
    end.
Qed.
Lemma run_started h cs b b' : run_calls h cs b = Ret (tt, b') -> Set_started ∉ cs -> b_started b' = b_started b.
Proof using.
  clear. revert b. induction cs as [|c cs IH]; intros b H Hn; cbn [Boot.run_calls] in H; [by injection H as <-|].
  apply kbind_inv in H as ([] & b1 & H1 & H2). rewrite (IH b1) by (done || set_solver). eapply exec_started; [|exact H1]. set_solver.
Qed.

(** What a hart has done once it made the calls [done]. *)
Record hart_done (b : machine) (h : nat) (done : list call) : Prop := {
  hd_satp : Kvminithart ∈ done -> h_satp (b_hart b h) = MAKE_SATP (b_pagetable b);
  hd_stvec : Trapinithart ∈ done -> h_stvec (b_hart b h) = kernelvec;
  hd_plic : Plicinithart ∈ done -> b_plic b (PLIC_SENABLE (Z.of_nat h)) = 0x402 /\ b_plic b (PLIC_SPRIORITY (Z.of_nat h)) = 0 }.
Record phase2 (rest : nat -> list call) (b : machine) : Prop := {
  p2_machine : machine_ready b;
  p2_zero : rest 0%nat = [] /\ hart_ready b 0;
  p2_tp : forall h, (h < ncpu)%nat -> h_tp (b_hart b h) = Z.of_nat h;
  p2_harts : forall h, (0 < h < ncpu)%nat -> exists done, waiter = done ++ rest h /\ hart_done b h done }.
(** A call of another hart leaves what this one did. *)
Lemma hart_done_other b b' h done : b_hart b' h = b_hart b h -> b_pagetable b' = b_pagetable b ->
  (forall a, a = PLIC_SENABLE (Z.of_nat h) \/ a = PLIC_SPRIORITY (Z.of_nat h) -> b_plic b' a = b_plic b a) -> hart_done b h done -> hart_done b' h done.
Proof using. clear. intros E1 E2 E3 [H1 H2 H3]. split; [by rewrite E1, E2|by rewrite E1|]. rewrite !E3 by auto. done. Qed.
Lemma hart_ready_done b h : hart_done b h waiter <-> hart_ready b h.
Proof using.
  clear. split.
  - intros [H1 H2 H3]. split; [apply H1|apply H2|apply H3|apply H3]; apply (bool_decide_unpack _); by vm_compute.
  - by intros [H1 H2 H3 H4].
Qed.
Lemma machine_ready_same b b' : machine_ready b -> b_k b' = b_k b \/ (exists msg, b_k b' = set_uart (mkUart msg false) (b_k b)) -> b_disk b' = b_disk b ->
  b_pagetable b' = b_pagetable b -> b_started b' = b_started b ->
  (forall a, a = PLIC + UART0_IRQ * 4 \/ a = PLIC + VIRTIO0_IRQ * 4 -> b_plic b' a = b_plic b a) -> machine_ready b'.
Proof using.
  clear. intros [H1 (p & L & free & pas & tf & ppt & K) H3 [H4 H5]] Ek Ed Ep Es El. split; [by rewrite Es| |by rewrite Ed|rewrite !El by auto; done].
  exists p, L, free, pas, tf, ppt. destruct K as [(msg & E) K2 K3 K4 K5 K6]. split; rewrite ?Ep; try done.
  destruct Ek as [->|(msg' & ->)]; [by exists msg|]. rewrite E. by exists msg'.
Qed.

Lemma hart_done_snoc b b' h done c : hart_done b h done ->
  (Kvminithart ∈ done -> h_satp (b_hart b' h) = h_satp (b_hart b h)) -> (Trapinithart ∈ done -> h_stvec (b_hart b' h) = h_stvec (b_hart b h)) ->
  b_pagetable b' = b_pagetable b -> (Plicinithart ∈ done -> b_plic b' = b_plic b) ->
  (c = Kvminithart -> h_satp (b_hart b' h) = MAKE_SATP (b_pagetable b')) -> (c = Trapinithart -> h_stvec (b_hart b' h) = kernelvec) ->
  (c = Plicinithart -> b_plic b' (PLIC_SENABLE (Z.of_nat h)) = 0x402 /\ b_plic b' (PLIC_SPRIORITY (Z.of_nat h)) = 0) ->
  hart_done b' h (done ++ [c]).
Proof using.
  clear. intros [H1 H2 H3] E1 E2 E3 E4 F1 F2 F3.
  split; intros [Hin|Hin%list_elem_of_singleton]%elem_of_app; subst; auto.
  - rewrite E1, E3 by done. auto.
  - rewrite E2 by done. auto.
  - rewrite E4 by done. auto.
Qed.
Lemma printf_hart_run id k : exists o, kprintf (chars "hart %d starting" ++ [10]) [VInt id] k =
  Ret (tt, set_uart (mkUart (u_sent (k_uart k) ++ o) (u_busy (k_uart k))) k).
Proof using.
  clear. assert (exists o, KPrintf.printf (chars "hart %d starting" ++ [10]) [VInt id] = Some o) as [o Ho] by (eexists; reflexivity).
  exists o. unfold kprintf. by rewrite Ho.
Qed.
Lemma plic_apart g h : (g < ncpu)%nat -> (h < ncpu)%nat -> g <> h ->
  PLIC_SENABLE (Z.of_nat g) <> PLIC_SENABLE (Z.of_nat h) /\ PLIC_SPRIORITY (Z.of_nat g) <> PLIC_SPRIORITY (Z.of_nat h).
Proof using. clear. unfold PLIC_SENABLE, PLIC_SPRIORITY. lia. Qed.
Lemma plic_regs g h : (g < ncpu)%nat -> (h < ncpu)%nat ->
  PLIC_SENABLE (Z.of_nat g) <> PLIC_SPRIORITY (Z.of_nat h) /\ PLIC + UART0_IRQ * 4 <> PLIC_SENABLE (Z.of_nat h) /\
  PLIC + UART0_IRQ * 4 <> PLIC_SPRIORITY (Z.of_nat h) /\ PLIC + VIRTIO0_IRQ * 4 <> PLIC_SENABLE (Z.of_nat h) /\
  PLIC + VIRTIO0_IRQ * 4 <> PLIC_SPRIORITY (Z.of_nat h).
Proof using. clear. change ncpu with 8%nat. unfold PLIC_SENABLE, PLIC_SPRIORITY, UART0_IRQ, VIRTIO0_IRQ. lia. Qed.

(** What one call of a waiting hart does. *)
Record waiter_effect (b b' : machine) (h : nat) : Prop := {
  we_machine : machine_ready b';
  we_tp : h_tp (b_hart b' h) = h_tp (b_hart b h);
  we_pt : b_pagetable b' = b_pagetable b;
  we_harts : forall g, g <> h -> b_hart b' g = b_hart b g;
  we_plic : forall g a, g <> h -> (g < ncpu)%nat -> a = PLIC_SENABLE (Z.of_nat g) \/ a = PLIC_SPRIORITY (Z.of_nat g) -> b_plic b' a = b_plic b a }.
Lemma effect_none b h : machine_ready b -> waiter_effect b b h.
Proof using. clear. intros H. by split. Qed.
Lemma effect_hart b h x : machine_ready b -> h_tp x = h_tp (b_hart b h) -> waiter_effect b (on_hart (<[h := x]> (b_hart b)) (on_k (b_k b) b)) h.
Proof using.
  clear. intros H Hx. split; try done.
  - apply (machine_ready_same b); try done. by left.
  - cbn [b_hart on_hart]. by rewrite fn_lookup_insert.
  - intros g Hg. cbn [b_hart on_hart]. by rewrite fn_lookup_insert_ne.
Qed.
Lemma waiter_step b h done c cs : machine_ready b -> h_tp (b_hart b h) = Z.of_nat h -> (h < ncpu)%nat ->
  waiter = done ++ c :: cs -> hart_done b h done ->
  exists b', exec h c b = Ret (tt, b') /\ waiter_effect b b' h /\ hart_done b' h (done ++ [c]).
Proof using.
  clear Htext Hal Hroom Htr Hrd. intros Hb Htp Hh Hw Hd. unfold waiter, main in Hw. cbn in Hw.
  destruct done as [|? [|? [|? [|? [|? [|? done]]]]]]; cbn in Hw; simplify_eq; [..|destruct done; discriminate].
  - exists b. split; [done|]. split; [by apply effect_none|]. by eapply hart_done_snoc.
  - exists b. split; [done|]. split; [by apply effect_none|]. by eapply hart_done_snoc.
  - destruct (printf_hart_run (cpuid (b_hart b h)) (b_k b)) as [o Ho].
    exists (on_k (set_uart (mkUart (u_sent (k_uart (b_k b)) ++ o) (u_busy (k_uart (b_k b)))) (b_k b)) b).
    split; [|split; [|by eapply (hart_done_snoc b)]].
    + cbn [Boot.exec]. rewrite (kbind_ret (gets _) _ b _ b eq_refl). by apply (kernel_run _ _ _ _ _ Ho).
    + split; try done. apply (machine_ready_same b); try done. right. destruct Hb as [_ (p & L & free & pas & tf & ppt & [[msg E] _ _ _ _ _]) _ _].
      exists (u_sent (k_uart (b_k b)) ++ o). by rewrite E.
  - exists (on_hart (<[h := set_satp (MAKE_SATP (b_pagetable b)) (b_hart b h)]> (b_hart b)) (on_k (b_k b) b)).
    split; [done|]. split; [by apply effect_hart|]. eapply (hart_done_snoc b); try done; cbn [b_hart on_hart]; rewrite fn_lookup_insert; try done.
    all: intros Hin; exfalso; revert Hin; apply (bool_decide_unpack _); by vm_compute.
  - exists (on_hart (<[h := set_stvec kernelvec (b_hart b h)]> (b_hart b)) (on_k (b_k b) b)).
    split; [done|]. split; [by apply effect_hart|]. eapply (hart_done_snoc b); try done; cbn [b_hart on_hart]; rewrite fn_lookup_insert; try done.
    all: intros Hin; exfalso; revert Hin; apply (bool_decide_unpack _); by vm_compute.
  - exists (on_plic (<[PLIC_SPRIORITY (Z.of_nat h) := 0]> (<[PLIC_SENABLE (Z.of_nat h) := 0x402]> (b_plic b))) b).
    split; [cbn [Boot.exec]; apply plicinithart_run; [done|change ncpu with 8%nat in Hh; lia]|]. split.
    + split; try done.
      * apply (machine_ready_same b); try done; [by left|]. destruct (plic_regs h h Hh Hh) as (_ & ? & ? & ? & ?). cbn [b_plic on_plic].
        intros a [->| ->]; by rewrite !fn_lookup_insert_ne by congruence.
      * intros g a Hg Hgn Ha. cbn [b_plic on_plic]. destruct (plic_regs g h Hgn Hh) as (? & _). destruct (plic_regs h g Hh Hgn) as (? & _).
        destruct (plic_apart g h Hgn Hh Hg). destruct Ha as [->| ->]; by rewrite !fn_lookup_insert_ne by congruence.
    + eapply (hart_done_snoc b); try done; cbn [b_hart b_plic on_plic]; try done.
      { intros Hin. exfalso. revert Hin. apply (bool_decide_unpack _). by vm_compute. }
      intros _. destruct (plic_regs h h Hh Hh) as (? & _). rewrite fn_lookup_insert_ne, !fn_lookup_insert by congruence. done.
Qed.

Context (m : memory) (v : vst) (plic : Z -> Z) (u : uregs) (hs : nat -> hart).
Hypothesis Hv : at_boot v.
Hypothesis Htp : forall h, (h < ncpu)%nat -> h_tp (hs h) = Z.of_nat h.
Abbreviation s0 := (start_state m v plic u hs).
Abbreviation reachable := (reachable kend etext trampoline forkret kernelvec rd).

(** Hart 0 is making the calls, and the others wait. *)
Record phase1 (rest : nat -> list call) (b : machine) (done todo : list call) : Prop := {
  p1_zero : front = done ++ todo /\ rest 0%nat = todo ++ [Set_started];
  p1_run : run_calls 0 done s0.2 = Ret (tt, b);
  p1_wait : forall h, (0 < h < ncpu)%nat -> rest h = waiter }.
Definition phase (s : state) : Prop := (exists done todo, phase1 s.1 s.2 done todo) \/ phase2 s.1 s.2.

Lemma main_split : main 0 = front ++ [Set_started] /\ Set_started ∉ front.
Proof using. clear. split; [done|]. apply (bool_decide_unpack _). by vm_compute. Qed.
Lemma phase_start : phase s0.
Proof using Htp.
  clear Hv. left. exists [], front. split; [|done|].
  - split; [done|]. cbn. unfold cpuid. rewrite Htp by (apply Nat.ltb_lt; reflexivity). done.
  - intros h Hh. change ncpu with 8%nat in *. cbn. unfold cpuid. rewrite Htp, i32_small by lia. unfold waiter, main.
    rewrite (proj2 (Z.eqb_neq _ _)) by lia. done.
Qed.
(** The last call of hart 0 starts the others. *)
Lemma phase1_last rest b done b' : phase1 rest b done [] -> exec 0 Set_started b = Ret (tt, b') -> phase2 (<[0%nat := []]> rest) b'.
Proof using All.
  intros [[Hf Hr] Hrun Hwait] He. rewrite app_nil_r in Hf.
  destruct (main0_run m v plic u hs Hv (Htp 0%nat ltac:(apply Nat.ltb_lt; reflexivity))) as (b1 & Hm & Hready & Hh & _ & Htp0 & Hother).
  assert (b1 = b') as ->.
  { rewrite (proj1 main_split), Hf, run_calls_app in Hm. change (mkMachine (power_on disk m) v 0 plic u false hs) with s0.2 in Hm.
    rewrite (kbind_ret _ _ _ _ _ Hrun) in Hm. cbn [Boot.run_calls] in Hm. rewrite (kbind_ret _ _ _ _ _ He) in Hm. by injection Hm as <-. }
  split; [done|split; [by rewrite fn_lookup_insert|done]| |].
  - intros h Hlt. destruct (decide (h = 0%nat)) as [->|Hne]; [|rewrite Hother by done; by apply Htp].
    done.
  - intros h Hlt. exists []. rewrite fn_lookup_insert_ne by lia. split; [by rewrite Hwait|]. split; by intros ?%elem_of_nil.
Qed.
Lemma phase1_waits rest b done todo : phase1 rest b done todo -> b_started b = false.
Proof using.
  clear. intros [[Hf _] Hrun _]. rewrite (run_started 0 done _ _ Hrun); [done|]. pose proof (proj2 main_split) as Hn. rewrite Hf in Hn. set_solver.
Qed.
Lemma phase2_step rest b h c cs : phase2 rest b -> (h < ncpu)%nat -> rest h = c :: cs ->
  exists b', exec h c b = Ret (tt, b') /\ phase2 (<[h := cs]> rest) b'.
Proof using.
  clear Htext Hal Hroom Htr Hrd Hv Htp. intros [Hb [H0 Hr0] Ht Hhs] Hh Hc. destruct (decide (h = 0%nat)) as [->|Hne]; [congruence|].
  destruct (Hhs h ltac:(lia)) as (done & Hw & Hd). rewrite Hc in Hw.
  destruct (waiter_step b h done c cs Hb (Ht h Hh) Hh Hw Hd) as (b' & He & [E1 E2 E3 E4 E5] & Hd'). exists b'. split; [done|].
  split; [done|split; [by rewrite fn_lookup_insert_ne|]| |].
  - destruct Hr0 as [R1 R2 R3 R4]. split; [by rewrite E4, E3|by rewrite E4|rewrite (E5 0%nat); [done|done|change ncpu with 8%nat; lia|auto]..].
  - intros g Hg. destruct (decide (g = h)) as [->|]; [by rewrite E2, Ht|by rewrite E4, Ht].
  - intros g Hg. destruct (decide (g = h)) as [->|Hgh].
    + exists (done ++ [c]). rewrite fn_lookup_insert, <- app_assoc. by split.
    + destruct (Hhs g Hg) as (dg & Hwg & Hdg). exists dg. rewrite fn_lookup_insert_ne by done. split; [done|].
      apply (hart_done_other b); [by apply E4|done| |done]. intros a Ha. apply (E5 g); [done|lia|done].
Qed.
Lemma phase1_step rest b done todo h c cs : phase1 rest b done todo -> (h < ncpu)%nat -> rest h = c :: cs -> enabled c b = true ->
  exists b', exec h c b = Ret (tt, b') /\ phase (<[h := cs]> rest, b').
Proof using All.
  intros Hp Hh Hc Hen. pose proof (phase1_waits _ _ _ _ Hp) as Hs. pose proof Hp as [[Hf Hr] Hrun Hwait].
  destruct (decide (h = 0%nat)) as [->|Hne].
  - rewrite Hr in Hc. destruct todo as [|x todo]; [injection Hc as <- <-|injection Hc as -> <-].
    + eexists. split; [reflexivity|]. right. by eapply phase1_last.
    + destruct (main0_run m v plic u hs Hv (Htp 0%nat ltac:(apply Nat.ltb_lt; reflexivity))) as (b1 & Hm & _).
      rewrite (proj1 main_split), Hf, <- app_assoc, run_calls_app in Hm. change (mkMachine (power_on disk m) v 0 plic u false hs) with s0.2 in Hm.
      rewrite (kbind_ret _ _ _ _ _ Hrun) in Hm. cbn [app Boot.run_calls] in Hm. apply kbind_inv in Hm as ([] & b' & He & _).
      exists b'. split; [done|]. left. exists (done ++ [c]), todo. split.
      * split; [by rewrite <- app_assoc|]. cbn. by rewrite fn_lookup_insert.
      * cbn [snd]. rewrite run_calls_app, (kbind_ret _ _ _ _ _ Hrun). cbn [Boot.run_calls]. by rewrite (kbind_ret _ _ _ _ _ He).
      * intros g Hg. cbn. rewrite fn_lookup_insert_ne by lia. auto.
  - rewrite Hwait in Hc by lia. injection Hc as <- _. cbn in Hen. congruence.
Qed.
Lemma phase_can rest b h c cs : phase (rest, b) -> (h < ncpu)%nat -> rest h = c :: cs -> enabled c b = true ->
  exists b', exec h c b = Ret (tt, b') /\ phase (<[h := cs]> rest, b').
Proof using All.
  intros [(done & todo & Hp)|Hp] Hh Hc Hen; [by eapply phase1_step|].
  destruct (phase2_step rest b h c cs Hp Hh Hc) as (b' & He & Hp'). exists b'. split; [done|]. by right.
Qed.
Lemma phase_reachable n s : reachable s0 n s -> phase s.
Proof using All.
  induction 1 as [|n s s' _ IH Hs]; [apply phase_start|]. destruct Hs as [h c cs rest b b' Hh Hc Hen He].
  destruct (phase_can rest b h c cs IH Hh Hc Hen) as (b1 & He1 & Hp). rewrite He in He1. by injection He1 as <-.
Qed.
(** The calls that are left. *)
Definition remaining (rest : nat -> list call) : nat := sum_list ((fun h => length (rest h)) <$> seq 0 ncpu).
Lemma remaining_step rest h c cs : (h < ncpu)%nat -> rest h = c :: cs -> remaining rest = S (remaining (<[h := cs]> rest)).
Proof using.
  clear. intros Hh Hc. unfold remaining. change ncpu with 8%nat in *.
  cbn [seq fmap list_fmap sum_list]. unfold insert, fn_insert.
  do 8 (destruct h as [|h]; [repeat (case_decide; [try lia|try lia]); rewrite Hc; cbn; lia|]). lia.
Qed.
Lemma reachable_count n s : reachable s0 n s -> (n + remaining s.1 = 62)%nat.
Proof using Htp.
  clear Htext Hal Hroom Htr Hrd Hv. induction 1 as [|n s s' _ IH Hs].
  - unfold remaining, start_state, cpuid. change ncpu with 8%nat in *. cbn [seq fmap list_fmap fst sum_list]. rewrite !Htp by lia. reflexivity.
  - destruct Hs as [h c cs rest b b' Hh Hc _ _]. cbn [fst] in *. rewrite (remaining_step rest h c cs Hh Hc) in IH. lia.
Qed.
Lemma front_enabled c b : c ∈ front -> enabled c b = true.
Proof using. clear. intros Hc. destruct c; try reflexivity. exfalso. revert Hc. apply (bool_decide_unpack _). by vm_compute. Qed.
Lemma phase_progress rest b : phase (rest, b) -> (forall h, (h < ncpu)%nat -> rest h = []) \/
  exists h c cs, (h < ncpu)%nat /\ rest h = c :: cs /\ enabled c b = true.
Proof using.
  clear. intros [(done & todo & [[Hf Hr] _ _])|[Hb [H0 _] _ Hhs]].
  - right. destruct todo as [|c todo]; [exists 0%nat, Set_started, []|exists 0%nat, c, (todo ++ [Set_started])];
      (split; [apply Nat.ltb_lt; reflexivity|]); (split; [done|]); [done|]. apply front_enabled. rewrite Hf. set_solver.
  - destruct (decide (Forall (fun h => rest h = []) (seq 0 ncpu))) as [Hall|(h & Hh & Hne)%not_Forall_Exists%Exists_exists].
    + left. intros h Hh. rewrite Forall_forall in Hall. apply Hall, elem_of_seq. lia.
    + right. apply elem_of_seq in Hh. destruct (rest h) as [|c cs] eqn:Hc; [done|]. exists h, c, cs. split; [lia|]. split; [done|].
      destruct c; try reflexivity. apply Hb.
    + apply _.
Qed.
End ready.

(** The invariants of the system calls hold of the kernel's state after boot. *)
Lemma kboot_procs forkret io msg p tf pt i q : k_procs (kboot forkret io msg p tf pt) !! i = Some q ->
  (i = 0%nat /\ q = init_proc forkret tf pt) \/ (i <> 0%nat /\ q = proc0).
Proof.
  cbn [k_procs kboot]. destruct i as [|i]; cbn [lookup list_lookup]; intros H; [left; by injection H as <-|right]. split; [done|].
  by apply (lookup_replicate 63) in H as [-> _].
Qed.
Lemma kboot_ok forkret io msg p tf pt : procs_ok (kboot forkret io msg p tf pt) /\ balanced none (kboot forkret io msg p tf pt).
Proof.
  split; split.
  - intros i q [[-> ->]|[_ ->]]%kboot_procs; [by intros H; discriminate H|done].
  - intros i q [[-> ->]|[_ ->]]%kboot_procs; [intros _; cbn; lia|by intros H].
  - intros i j q q' [[-> ->]|[_ ->]]%kboot_procs [[-> ->]|[_ ->]]%kboot_procs; (done || (cbn; lia)).
  - cbn. lia.
  - intros i H. discriminate H.
  - intros f. unfold getf. cbn [k_ftable kboot]. 
    assert (default file0 (replicate 100 file0 !! f) = file0) as -> by (destruct (replicate 100 file0 !! f) eqn:E; [by apply lookup_replicate in E as [-> _]|done]).
    reflexivity.
  - intros i q [[-> ->]|[_ ->]]%kboot_procs; done.
  - intros i q [[-> ->]|[_ ->]]%kboot_procs; done.
  - intros i H. discriminate H.
Qed.

(** C9: booting on every interleaving of the eight harts' calls: no call panics; until
    all harts are in the scheduler some hart can make its next call, and they all
    are after 62 calls; whenever a hart enters the scheduler, the kernel is
    initialised (its page table built and mapping the kernel, the memory, the
    process table, the file table and the buffer cache in the states that the
    properties of the other components start from, the disk driver ready, the first
    process runnable) and this hart uses the kernel's page table and trap vector and
    takes the interrupts of the uart and the disk. *)
Theorem boot_ready kend etext trampoline forkret kernelvec rd disk m v plic u hs
  (Htext : KERNBASE < etext <= kend) (Hal : etext mod PGSIZE = 0) (Hroom : kend + 1024 * PGSIZE <= PHYSTOP)
  (Htr : 0 <= trampoline /\ trampoline + PGSIZE <= 2 ^ 56) (Hrd : accepts rd) (Hv : at_boot v)
  (Htp : forall h, (h < ncpu)%nat -> h_tp (hs h) = Z.of_nat h)
  n rest b (Hreach : reachable kend etext trampoline forkret kernelvec rd (start_state disk m v plic u hs) n (rest, b)) :
  (forall h, (h < ncpu)%nat -> rest h = [] ->
    machine_ready kend etext trampoline forkret disk b /\ hart_ready kernelvec b h /\ procs_ok (b_k b) /\ balanced none (b_k b)) /\
  (forall h c cs, (h < ncpu)%nat -> rest h = c :: cs -> enabled c b = true ->
    exists b', exec kend etext trampoline forkret kernelvec rd h c b = Ret (tt, b')) /\
  ((forall h, (h < ncpu)%nat -> rest h = []) \/
   exists s', bstep kend etext trampoline forkret kernelvec rd (rest, b) s') /\
  (n + remaining rest = 62)%nat.
Proof.
  pose proof (phase_reachable kend etext trampoline forkret kernelvec rd disk Htext Hal Hroom Htr Hrd m v plic u hs Hv Htp n _ Hreach) as Hp.
  split_and!.
  - intros h Hh Hr. destruct Hp as [(done & todo & [[_ Hf] _ Hw])|[Hb [_ H0] _ Hhs]].
    + destruct (decide (h = 0%nat)) as [->|]; [cbn in Hf; rewrite Hr in Hf; destruct todo; discriminate Hf|]. cbn in Hw. rewrite Hw in Hr by lia. discriminate Hr.
    + split; [done|]. split.
      * destruct (decide (h = 0%nat)) as [->|]; [done|]. destruct (Hhs h ltac:(lia)) as (done & Hd & Hdone). cbn in Hd. rewrite Hr, app_nil_r in Hd. subst.
        by apply hart_ready_done.
      * destruct Hb as [_ (p & L & free & pas & tf & ppt & [[msg E] _ _ _ _ _]) _ _]. cbn in E. rewrite E. apply kboot_ok.
  - intros h c cs Hh Hc Hen.
    destruct (phase_can kend etext trampoline forkret kernelvec rd disk Htext Hal Hroom Htr Hrd m v plic u hs Hv Htp rest b h c cs Hp Hh Hc Hen) as (b' & He & _).
    by exists b'.
  - destruct (phase_progress kend etext trampoline forkret kernelvec rd disk m v plic u hs rest b Hp) as [|(h & c & cs & Hh & Hc & Hen)]; [by left|right].
    destruct (phase_can kend etext trampoline forkret kernelvec rd disk Htext Hal Hroom Htr Hrd m v plic u hs Hv Htp rest b h c cs Hp Hh Hc Hen) as (b' & He & _).
    eexists. by econstructor.
  - apply (reachable_count kend etext trampoline forkret kernelvec rd disk m v plic u hs Htp n _ Hreach).
Qed.
(** A machine with a disk that the driver accepts, after hart 0 has initialised the
    uart and printed an empty line. *)
Definition demo_rd (l : list (mmio_reg * Z)) (r : mmio_reg) : Z :=
  match r with
  | VIRTIO_MMIO_MAGIC_VALUE => 0x74726976 | VIRTIO_MMIO_VERSION => 2 | VIRTIO_MMIO_DEVICE_ID => 2 | VIRTIO_MMIO_VENDOR_ID => 0x554d4551
  | VIRTIO_MMIO_STATUS => default 0 (snd <$> last l) | VIRTIO_MMIO_QUEUE_NUM_MAX => 1024 | _ => 0
  end.
Definition demo_v : vst := on_free (fun _ _ => false) idle.
Definition demo_uregs : uregs := mkUregs 0 0 0 0 0 [].
Definition demo_harts (h : nat) : hart := mkHart 0 0 0 0 0 0 (Z.of_nat h) 0 0 [].
Definition demo_start : state := start_state ∅ ∅ demo_v (fun _ => 0) demo_uregs demo_harts.
Definition demo_kend : Z := KERNBASE + 1048576.
Definition demo_exec (c : call) (b : machine) : machine :=
  match exec demo_kend (KERNBASE + 32768) (KERNBASE + 28672) 0 0 demo_rd 0 c b with Ret (_, b') => b' | _ => b end.
Definition demo_booting : state :=
  (<[0%nat := drop 3 (main 0)]> (<[0%nat := drop 2 (main 0)]> (<[0%nat := drop 1 (main 0)]> demo_start.1)),
   demo_exec (Printf [10]) (demo_exec Printfinit (demo_exec Consoleinit demo_start.2))).
Theorem boot_ready_witness :
  (exists s', bstep demo_kend (KERNBASE + 32768) (KERNBASE + 28672) 0 0 demo_rd demo_booting s') /\
  remaining demo_booting.1 = 59%nat /\ u_sent (k_uart (b_k demo_booting.2)) = [10] /\ u_dll (b_uart demo_booting.2) = 3 /\ u_ier (b_uart demo_booting.2) = 3.
Proof.
  destruct (boot_ready demo_kend (KERNBASE + 32768) (KERNBASE + 28672) 0 0 demo_rd ∅ ∅ demo_v (fun _ => 0) demo_uregs demo_harts) with
    (n := 3%nat) (rest := demo_booting.1) (b := demo_booting.2) as (_ & _ & Hp & Hn).
  - unfold demo_kend, KERNBASE. lia.
  - reflexivity.
  - unfold demo_kend, PHYSTOP, KERNBASE, PGSIZE. lia.
  - unfold KERNBASE, PGSIZE. lia.
  - split; intros; cbn; rewrite ?last_snoc; unfold NUM; (reflexivity || lia).
  - split; [intros; reflexivity|]. split; [reflexivity|]. split; [intros; reflexivity|]. split; reflexivity.
  - intros. reflexivity.
  - eapply reach_step; [eapply reach_step; [eapply reach_step; [apply reach_start|]|]|].
    + eapply (b_call _ _ _ _ _ _ 0 Consoleinit); [apply Nat.ltb_lt; reflexivity|reflexivity..].
    + eapply (b_call _ _ _ _ _ _ 0 Printfinit); [apply Nat.ltb_lt; reflexivity|reflexivity..].
    + eapply (b_call _ _ _ _ _ _ 0 (Printf [10])); [apply Nat.ltb_lt; reflexivity|reflexivity..].
  - split.
    + destruct Hp as [Hall|Hs]; [|exact Hs]. specialize (Hall 0%nat ltac:(apply Nat.ltb_lt; reflexivity)). discriminate Hall.
    + split; [lia|]. split; [reflexivity|]. split; reflexivity.
Defined.

(** 8-bit words at divisor 3, both FIFOs reset and enabled, both interrupts on,
    nothing sent. *)
Lemma uartinit_sets u : uartinit u = mkUregs 3 7 3 3 0 (u_thr u).
Proof.
  assert (exists ier dlm, WriteReg IER_DLM 0 u = mkUregs ier (u_fcr u) (u_lcr u) (u_dll u) dlm (u_thr u)) as (ier & dlm & E).
  { unfold WriteReg. destruct (Z.testbit (u_lcr u) 7); by eexists _, _. }
  unfold uartinit. cbn [foldl fst snd]. rewrite E. reflexivity.
Qed.
