(* ===== verification/UserIO.v ===== *)
(** * User programs: what a process does through its descriptors

    A program reads and writes files through descriptors until it exits.  How
    many bytes a read returns is not the program's choice: a file, a pipe and
    the console differ.  The programs are proved for every [chunk] that keeps
    to what read() promises. *)
From S2P Require Import Prelude Printf.

Inductive outcome (A : Type) := Val (a : A) | Exit (code : Z) | Spin.
Arguments Val {A} a.
Arguments Exit {A} code.
Arguments Spin {A}.

(** [w_fds]: for every open descriptor the bytes not read yet.  [w_out]: the
    writes so far, oldest first.  [w_ticks] counts the reads.  A write to a
    descriptor of [w_broken] fails. *)
Record world := mkWorld {
  w_files : list (list Z * list Z);
  w_fds : list (option (list Z));
  w_out : list (nat * list Z);
  w_ticks : nat;
  w_broken : list nat }.
Definition P (A : Type) : Type := world -> outcome A * world.
Definition pret {A} (a : A) : P A := fun w => (Val a, w).
Definition pbind {A B} (m : P A) (f : A -> P B) : P B := fun w =>
  match m w with
  | (Val a, w') => f a w'
  | (Exit c, w') => (Exit c, w')
  | (Spin, w') => (Spin, w')
  end.
Definition exit {A} (code : Z) : P A := fun w => (Exit code, w).
Definition spin {A} : P A := fun w => (Spin, w).

Declare Scope prog_scope.
Delimit Scope prog_scope with prog.
Notation "x <- c ;; k" := (pbind c (fun x => k)) (at level 100, c at next level, right associativity) : prog_scope.
Notation "c ;>> k" := (pbind c (fun _ => k)) (at level 100, right associativity) : prog_scope.

#[global] Open Scope prog_scope.
Lemma pbind_val {A B} (m : P A) (f : A -> P B) w a w' : m w = (Val a, w') -> pbind m f w = f a w'.
Proof. intros H. unfold pbind. by rewrite H. Qed.

(** What was written to descriptor [fd]. *)
Definition written (fd : nat) (w : world) : list Z := concat ((fun x => if decide (x.1 = fd) then x.2 else []) <$> w_out w).

Class Chunk (chunk : nat -> nat -> nat -> nat) : Prop :=
  chunk_law t n a : (0 < n)%nat -> (0 < a)%nat -> (0 < chunk t n a <= n)%nat /\ (chunk t n a <= a)%nat.

Section io.
Context (chunk : nat -> nat -> nat -> nat).

(** [None] is a negative result. *)
Definition read (fd n : nat) : P (option (list Z)) := fun w =>
  match w_fds w !! fd with
  | Some (Some rest) =>
      let k := if decide (n = 0%nat \/ rest = []) then 0%nat else chunk (w_ticks w) n (length rest) in
      (Val (Some (take k rest)), mkWorld (w_files w) (<[fd := Some (drop k rest)]> (w_fds w)) (w_out w) (S (w_ticks w)) (w_broken w))
  | _ => (Val None, w)
  end.
Definition write (fd : nat) (data : list Z) : P Z := fun w =>
  if decide (fd ∈ w_broken w) then (Val (-1), w)
  else (Val (Z.of_nat (length data)), mkWorld (w_files w) (w_fds w) (w_out w ++ [(fd, data)]) (w_ticks w) (w_broken w)).
Definition fprintf (fd : nat) (fmt : list Z) (args : list va) : P unit := write fd (default [] (UPrintf.fprintf fmt args)) ;>> pret tt.
(** The lowest descriptor that is not in use. *)
Fixpoint free_fd (i : nat) (fds : list (option (list Z))) : option nat :=
  match fds with
  | [] => None
  | None :: _ => Some i
  | Some _ :: fds => free_fd (S i) fds
  end.
Fixpoint lookup_file (name : list Z) (files : list (list Z * list Z)) : option (list Z) :=
  match files with
  | [] => None
  | (n, data) :: files => if decide (n = name) then Some data else lookup_file name files
  end.
Definition open (name : list Z) : P (option nat) := fun w =>
  match lookup_file name (w_files w), free_fd 0 (w_fds w) with
  | Some data, Some fd => (Val (Some fd), mkWorld (w_files w) (<[fd := Some data]> (w_fds w)) (w_out w) (w_ticks w) (w_broken w))
  | _, _ => (Val None, w)
  end.
Definition close (fd : nat) : P unit := fun w =>
  (Val tt, mkWorld (w_files w) (<[fd := None]> (w_fds w)) (w_out w) (w_ticks w) (w_broken w)).

(** ** What reading and writing do *)
Context `{!Chunk chunk}.
(** A read returns a prefix of what is left, empty only at the end or for no room. *)
Lemma read_spec fd n w rest : w_fds w !! fd = Some (Some rest) -> (0 < n)%nat ->
  exists d rest', rest = d ++ rest' /\ (length d <= n)%nat /\ (d = [] -> rest = []) /\
    read fd n w = (Val (Some d), mkWorld (w_files w) (<[fd := Some rest']> (w_fds w)) (w_out w) (S (w_ticks w)) (w_broken w)).
Proof.
  intros Hf Hn. unfold read. rewrite Hf. case_decide as D.
  - destruct D as [->| ->]; [lia|]. exists [], []. split_and!; first [done|cbn; lia|reflexivity].
  - destruct rest as [|c rest]; [naive_solver|]. destruct (chunk_law (w_ticks w) n (length (c :: rest)) Hn ltac:(cbn; lia)) as [[C1 C2] C3].
    eexists (take _ (c :: rest)), (drop _ (c :: rest)). split; [by rewrite take_drop|]. split_and!; [| |reflexivity].
    + rewrite length_take. lia.
    + intros E. apply (f_equal length) in E. rewrite length_take in E. cbn [length] in *. lia.
Qed.
(** [while((n = read(fd, buf, sizeof(buf))) > 0) body]; the result says whether
    the last read failed. *)
Fixpoint read_loop {S} (fuel : nat) (fd n : nat) (body : S -> list Z -> P S) (s : S) : P (S * bool) :=
  match fuel with
  | O => spin
  | Datatypes.S fuel =>
      r <- read fd n ;;
      match r with
      | None => pret (s, true)
      | Some [] => pret (s, false)
      | Some d => s' <- body s d ;; read_loop fuel fd n body s'
      end
  end.
(** [w'] differs from [w] in its output and in what is unread at [fd]. *)
Definition onward (fd : nat) (w w' : world) : Prop :=
  w_files w' = w_files w /\ w_broken w' = w_broken w /\ exists r, w_fds w' = <[fd := Some r]> (w_fds w).
(** A loop whose body handles any piece [d] after [c] handles all of the data,
    whatever the pieces are. *)
Lemma read_loop_spec {S} (Inv : list Z -> S -> list (nat * list Z) -> Prop) data fd n body b : (0 < n)%nat ->
  (forall c s d rest w, data = c ++ d ++ rest -> (0 < length d <= n)%nat -> w_broken w = b -> Inv c s (w_out w) ->
    exists s' w', body s d w = (Val s', w') /\ w_files w' = w_files w /\ w_fds w' = w_fds w /\ w_broken w' = b /\ Inv (c ++ d) s' (w_out w')) ->
  forall fuel c rest s w, data = c ++ rest -> w_broken w = b -> w_fds w !! fd = Some (Some rest) -> (length rest < fuel)%nat -> Inv c s (w_out w) ->
  exists s' w', read_loop fuel fd n body s w = (Val (s', false), w') /\ onward fd w w' /\ Inv data s' (w_out w').
Proof.
  intros Hn Hbody. induction fuel as [|fuel IH]; intros c rest s w Hdata Hb Hfd Hf Hi; [lia|]. cbn [read_loop].
  destruct (read_spec fd n w rest Hfd Hn) as (d & rest' & -> & Hdn & Hd & R). rewrite (pbind_val _ _ _ _ _ R).
  set (w1 := mkWorld _ (<[fd := Some rest']> (w_fds w)) _ _ _). destruct d as [|x d].
  - specialize (Hd eq_refl). cbn in Hd. subst rest'. exists s, w1. split; [done|]. rewrite Hdata. cbn. rewrite app_nil_r. split; [|done].
    split; [done|]. split; [done|]. by eexists.
  - destruct (Hbody c s (x :: d) rest' w1) as (s1 & w2 & R1 & O1 & O2 & O3 & Hi1); [done|cbn in *; lia|done|done|]. rewrite (pbind_val _ _ _ _ _ R1).
    destruct (IH (c ++ x :: d) rest' s1 w2) as (s' & w' & R' & (X1 & X2 & r & X3) & Hi'); [by rewrite <- app_assoc|done| | |done|].
    + rewrite O2. apply list_lookup_insert_eq. by apply lookup_lt_Some in Hfd.
    + rewrite length_app in Hf. cbn in Hf. lia.
    + exists s', w'. split; [exact R'|]. split; [|done]. split; [by rewrite X1, O1|]. split; [by rewrite X2, O3|].
      exists r. rewrite X3, O2. apply list_insert_insert_eq.
Qed.
Lemma write_spec fd data w : fd ∉ w_broken w ->
  write fd data w = (Val (Z.of_nat (length data)), mkWorld (w_files w) (w_fds w) (w_out w ++ [(fd, data)]) (w_ticks w) (w_broken w)).
Proof. intros H. unfold write. by rewrite decide_False. Qed.
End io.

Lemma out_app fd files fds o1 o2 t b :
  written fd (mkWorld files fds (o1 ++ o2) t b) = written fd (mkWorld files fds o1 t b) ++ concat ((fun x => if decide (x.1 = fd) then x.2 else []) <$> o2).
Proof. unfold written. cbn. by rewrite fmap_app, concat_app. Qed.

(** Every read returns as much as fits. *)
Definition greedy (_ n a : nat) : nat := n `min` a.
#[export] Instance greedy_chunk : Chunk greedy.
Proof. intros t n a Hn Ha. unfold greedy. lia. Qed.
