(* ===== verification/Grep.v ===== *)
(** * user/grep.c: the pattern matcher and the line reader *)
From S2P Require Import Prelude Printf UserIO.

(** ** The matcher; strings without their NUL *)
Section matchstar.
Context (matchhere : list Z -> bool) (c : Z).
Fixpoint matchstar (text : list Z) : bool :=
  matchhere text ||
  match text with
  | [] => false
  | t :: text' => ((t =? c) || (c =? ch ".")) && matchstar text'
  end.
End matchstar.
Fixpoint matchhere (re : list Z) (text : list Z) : bool :=
  match re with
  | [] => true
  | r0 :: re1 =>
      let rest :=
        match text with
        | t :: text' => if (r0 =? ch ".") || (r0 =? t) then matchhere re1 text' else false
        | [] => false
        end in
      match re1 with
      | r1 :: re2 => if r1 =? ch "*" then matchstar (matchhere re2) r0 text else rest
      | [] => if r0 =? ch "$" then bool_decide (text = []) else rest
      end
  end.
Fixpoint match_any (re text : list Z) : bool :=
  matchhere re text || match text with [] => false | _ :: text' => match_any re text' end.
Definition match_ (re text : list Z) : bool :=
  match re with
  | r0 :: re1 => if r0 =? ch "^" then matchhere re1 text else match_any re text
  | [] => match_any re text
  end.

(** ** The language of a pattern *)
Inductive atom := One (c : Z) | Star (c : Z).
Definition fits (c t : Z) : Prop := c = ch "." \/ c = t.
(** The atoms of a pattern, and whether it ends in [$]. *)
Fixpoint atoms (re : list Z) : list atom * bool :=
  match re with
  | [] => ([], false)
  | r0 :: re1 =>
      let one := let '(a, d) := atoms re1 in (One r0 :: a, d) in
      match re1 with
      | r1 :: re2 => if r1 =? ch "*" then let '(a, d) := atoms re2 in (Star r0 :: a, d) else one
      | [] => if r0 =? ch "$" then ([], true) else one
      end
  end.
Inductive lang : list atom -> list Z -> Prop :=
| lang_nil : lang [] []
| lang_one c a t s : fits c t -> lang a s -> lang (One c :: a) (t :: s)
| lang_star c a s1 s2 : Forall (fits c) s1 -> lang a s2 -> lang (Star c :: a) (s1 ++ s2).
(** Some part of the text is in the language, at its start if the pattern is
    anchored there, at its end if the pattern ends in [$]. *)
Definition occurs (re text : list Z) : Prop :=
  let '(anchored, body) := match re with r0 :: re1 => if r0 =? ch "^" then (true, re1) else (false, re) | [] => (false, re) end in
  let '(a, dollar) := atoms body in
  exists pre mid post, text = pre ++ mid ++ post /\ lang a mid /\ (anchored = true -> pre = []) /\ (dollar = true -> post = []).

Lemma matchstar_spec (mh : list Z -> bool) c text :
  matchstar mh c text = true <-> exists s1 s2, text = s1 ++ s2 /\ Forall (fits c) s1 /\ mh s2 = true.
Proof.
  induction text as [|t text IH]; cbn [matchstar].
  - rewrite orb_false_r. split; [intros H; by exists [], []|]. intros (s1 & s2 & E & _ & H). symmetry in E. apply app_eq_nil in E as [-> ->]. done.
  - rewrite orb_true_iff, andb_true_iff, IH. split.
    + intros [H|[Hc (s1 & s2 & -> & HF & H)]]; [by exists [], (t :: text)|]. exists (t :: s1), s2. split; [done|]. split; [|done].
      constructor; [|done]. unfold fits. lia.
    + intros (s1 & s2 & E & HF & H). destruct s1 as [|t' s1]; [left; by rewrite E|]. injection E as <- ->. apply Forall_cons in HF as [Hc HF].
      right. split; [|by exists s1, s2]. destruct Hc; lia.
Qed.

Lemma matchhere_spec n : forall re text, (length re <= n)%nat ->
  matchhere re text = true <-> let '(a, dollar) := atoms re in exists mid post, text = mid ++ post /\ lang a mid /\ (dollar = true -> post = []).
Proof.
  induction n as [|n IH]; intros [|r0 re1] text Hn; cbn [length] in Hn; try lia.
  1,2: cbn; split; [|done]; intros _; exists [], text; split; [done|]; split; [constructor|done].
  assert ((match text with t :: text' => if (r0 =? ch ".") || (r0 =? t) then matchhere re1 text' else false | [] => false end) = true <->
    let '(a, dollar) := (let '(a, d) := atoms re1 in (One r0 :: a, d)) in exists mid post, text = mid ++ post /\ lang a mid /\ (dollar = true -> post = [])) as One.
  { specialize (IH re1). destruct (atoms re1) as [a d]. split.
    - destruct text as [|t text]; [done|]. destruct ((r0 =? ch ".") || (r0 =? t)) eqn:E; [|done].
      intros (mid & post & -> & HL & Hd)%IH; [|lia]. exists (t :: mid), post. split; [done|]. split; [|done]. constructor; [|done]. unfold fits. lia.
    - intros (mid & post & -> & HL & Hd). inversion HL as [|c a' t s Hc Hs|]; subst. cbn [app].
      replace ((r0 =? ch ".") || (r0 =? t)) with true by (destruct Hc; lia). apply IH; [lia|]. by exists s, post. }
  destruct re1 as [|r1 re2]; cbn [matchhere atoms] in *.
  - destruct (r0 =? ch "$") eqn:E; [|exact One]. rewrite bool_decide_eq_true. split.
    + intros ->. exists [], []. split; [done|]. split; [constructor|done].
    + intros (mid & post & -> & HL & Hd). inversion HL. by rewrite Hd.
  - destruct (r1 =? ch "*") eqn:E; [|exact One]. rewrite matchstar_spec. specialize (IH re2). destruct (atoms re2) as [a d]. split.
    + intros (s1 & s2 & -> & HF & (mid & post & -> & HL & Hd)%IH); [|cbn in Hn; lia]. exists (s1 ++ mid), post.
      split; [by rewrite app_assoc|]. split; [by constructor|done].
    + intros (mid & post & -> & HL & Hd). inversion HL as [| |c a' s1 s2 HF Hs]; subst. exists s1, (s2 ++ post). split; [by rewrite app_assoc|].
      split; [done|]. apply IH; [cbn in Hn; lia|]. by exists s2, post.
Qed.
Lemma match_any_spec re text : match_any re text = true <-> exists pre s, text = pre ++ s /\ matchhere re s = true.
Proof.
  induction text as [|t text IH]; cbn [match_any].
  - rewrite orb_false_r. split; [intros H; by exists [], []|]. intros (pre & s & E & H). symmetry in E. apply app_eq_nil in E as [-> ->]. done.
  - rewrite orb_true_iff, IH. split.
    + intros [H|(pre & s & -> & H)]; [by exists [], (t :: text)|by exists (t :: pre), s].
    + intros (pre & s & E & H). destruct pre as [|t' pre]; [left; by rewrite E|]. injection E as <- ->. right. by exists pre, s.
Qed.

(** C20: the matcher is correct for every pattern and every text: match() succeeds
    if and only if some part of the text is in the language of the pattern, where
    [c*] is any number of [c], [.] any character, [^] and [$] the ends of the
    text. *)
Theorem match_correct re text : match_ re text = true <-> occurs re text.
Proof.
  assert (forall body, match_any body text = true <-> let '(a, dollar) := atoms body in
    exists pre mid post, text = pre ++ mid ++ post /\ lang a mid /\ (false = true -> pre = []) /\ (dollar = true -> post = [])) as Any.
  { intros body. rewrite match_any_spec. pose proof (matchhere_spec (length body) body) as H. destruct (atoms body) as [a d]. split.
    - intros (pre & s & -> & (mid & post & -> & X)%H); [|lia]. exists pre, mid, post. naive_solver.
    - intros (pre & mid & post & -> & HL & _ & Hd). exists pre, (mid ++ post). split; [done|]. apply H; [lia|]. by exists mid, post. }
  unfold match_, occurs. destruct re as [|r0 re1]; [apply Any|]. destruct (r0 =? ch "^"); [|apply Any].
  pose proof (matchhere_spec (length re1) re1 text ltac:(lia)) as H. destruct (atoms re1) as [a d]. rewrite H. split.
  - intros (mid & post & -> & X). exists [], mid, post. naive_solver.
  - intros (pre & mid & post & -> & HL & Hp & Hd). rewrite Hp by done. by exists mid, post.
Qed.

(** ** The line reader *)
(** [strchr] of ulib.c on the memory from [s] on, for a character other than NUL. *)
Fixpoint strchr (s : list Z) (c : Z) : option nat :=
  match s with
  | [] => None
  | x :: s => if x =? 0 then None else if x =? c then Some 0%nat else S <$> strchr s c
  end.

Section grep.
Context (chunk : nat -> nat -> nat -> nat).

(** The inner loop: the lines of the buffer from [p] on; what is left. *)
Fixpoint grep_lines (fuel : nat) (pattern p : list Z) : P (list Z) :=
  match fuel with
  | O => spin
  | S fuel =>
      match strchr p 10 with
      | None => pret p
      | Some k =>
          (if match_ pattern (take k p) then write 1 (take (S k) p) ;>> pret tt else pret tt) ;>>
          grep_lines fuel pattern (drop (S k) p)
      end
  end.
(** [buf] holds the [m] bytes that are not matched yet. *)
Fixpoint grep_loop (fuel : nat) (pattern : list Z) (fd : nat) (buf : list Z) : P unit :=
  match fuel with
  | O => spin
  | S fuel =>
      r <- read chunk fd (1024 - length buf - 1) ;;
      match r with
      | None | Some [] => pret tt
      | Some d => p <- grep_lines (S (length (buf ++ d))) pattern (buf ++ d) ;; grep_loop fuel pattern fd p
      end
  end.
Definition grep (fuel : nat) (pattern : list Z) (fd : nat) : P unit := grep_loop fuel pattern fd [].

Fixpoint grep_files (fuel : nat) (pattern : list Z) (names : list (list Z)) : P unit :=
  match names with
  | [] => exit 0
  | name :: names =>
      r <- open name ;;
      match r with
      | None => fprintf 1 (chars "grep: cannot open %s" ++ [10]) [VStr (Some name)] ;>> exit 1
      | Some fd => grep fuel pattern fd ;>> close fd ;>> grep_files fuel pattern names
      end
  end.
Definition grep_main (fuel : nat) (argv : list (list Z)) : P unit :=
  match argv with
  | _ :: pattern :: [] => grep fuel pattern 0 ;>> exit 0
  | _ :: pattern :: names => grep_files fuel pattern names
  | _ => fprintf 2 (chars "usage: grep pattern [file ...]" ++ [10]) [] ;>> exit 1
  end.
End grep.

(** ** What grep prints *)
(** The lines of a text without their newlines, and what follows the last one. *)
Fixpoint split_lines (l : list Z) : list (list Z) * list Z :=
  match l with
  | [] => ([], [])
  | c :: l =>
      let '(ls, t) := split_lines l in
      if c =? 10 then ([] :: ls, t)
      else match ls with [] => ([], c :: t) | x :: ls => ((c :: x) :: ls, t) end
  end.
Definition selected (pattern : list Z) (ls : list (list Z)) : list Z :=
  concat ((fun l => if match_ pattern l then l ++ [10] else []) <$> ls).

Lemma split_lines_app a b : split_lines (a ++ b) = let '(ls, t) := split_lines a in let '(ls', t') := split_lines (t ++ b) in (ls ++ ls', t').
Proof.
  induction a as [|c a IH]; cbn [app split_lines]; [by destruct (split_lines b)|]. rewrite IH. destruct (split_lines a) as [ls t].
  destruct (c =? 10) eqn:E; [by destruct (split_lines (t ++ b))|]. destruct ls as [|x ls]; cbn [app split_lines].
  - destruct (split_lines (t ++ b)) as [ls' t']. rewrite E. by destruct ls'.
  - by destruct (split_lines (t ++ b)).
Qed.
Lemma strchr_some l k : strchr l 10 = Some k -> exists x r, l = x ++ 10 :: r /\ length x = k /\ split_lines l = (x :: (split_lines r).1, (split_lines r).2).
Proof.
  revert k. induction l as [|c l IH]; intros k; cbn [strchr]; [done|]. destruct (c =? 0); [done|]. destruct (c =? 10) eqn:E.
  - intros [= <-]. exists [], l. split; [cbn; f_equal; lia|]. split; [done|]. cbn [split_lines]. destruct (split_lines l). by rewrite E.
  - intros (k' & Hk & ->)%fmap_Some. destruct (IH k' Hk) as (x & r & -> & Hl & Hs). exists (c :: x), r. split; [done|]. split; [cbn; lia|].
    cbn [split_lines]. rewrite Hs, E. done.
Qed.
Lemma strchr_none l : Forall (fun c => c <> 0) l -> strchr l 10 = None -> split_lines l = ([], l).
Proof.
  induction 1 as [|c l Hc HF IH]; cbn [strchr split_lines]; [done|]. replace (c =? 0) with false by lia. destruct (c =? 10) eqn:E; [done|].
  intros H%fmap_None. by rewrite IH.
Qed.

Definition outputs (bs : list Z) (w w' : world) : Prop :=
  w_files w' = w_files w /\ w_fds w' = w_fds w /\ w_broken w' = w_broken w /\ written 1 w' = written 1 w ++ bs.
Lemma grep_lines_spec pattern : forall fuel p w, (length p < fuel)%nat -> Forall (fun c => c <> 0) p -> 1%nat ∉ w_broken w ->
  exists w', grep_lines fuel pattern p w = (Val (split_lines p).2, w') /\ outputs (selected pattern (split_lines p).1) w w'.
Proof.
  induction fuel as [|fuel IH]; intros p w Hf H0 Hb; [lia|]. cbn [grep_lines]. destruct (strchr p 10) as [k|] eqn:E.
  - apply strchr_some in E as (x & r & -> & <- & Hs). rewrite Hs. cbn [fst snd]. apply Forall_app in H0 as [_ [_ H0]%Forall_cons].
    rewrite take_app_length. rewrite length_app in Hf. cbn in Hf.
    replace (drop (S (length x)) (x ++ 10 :: r)) with r by (rewrite drop_app_ge by lia; by replace (S (length x) - length x)%nat with 1%nat by lia).
    replace (take (S (length x)) (x ++ 10 :: r)) with (x ++ [10]) by (rewrite take_app_ge by lia; by replace (S (length x) - length x)%nat with 1%nat by lia).
    set (w1 := if match_ pattern x then mkWorld (w_files w) (w_fds w) (w_out w ++ [(1%nat, x ++ [10])]) (w_ticks w) (w_broken w) else w).
    assert ((if match_ pattern x then write 1 (x ++ [10]) ;>> pret tt else pret tt) w = (Val tt, w1)) as R1.
    { unfold w1. destruct (match_ pattern x); [|done]. by rewrite (pbind_val _ _ _ _ _ (write_spec 1 (x ++ [10]) w Hb)). }
    rewrite (pbind_val _ _ _ _ _ R1). destruct (IH r w1) as (w' & R & O1 & O2 & O3 & O4); [lia|done|unfold w1; by destruct (match_ pattern x)|].
    exists w'. split; [exact R|]. unfold w1 in O1, O2, O3, O4. unfold selected. cbn [fmap list_fmap concat]. destruct (match_ pattern x); cbn in O1, O2, O3.
    + split_and!; try done. rewrite O4, out_app. cbn. rewrite app_nil_r, <- app_assoc. by destruct w.
    + split_and!; try done.
  - rewrite (strchr_none _ H0 E). exists w. split; [done|]. unfold outputs, selected. cbn. by rewrite app_nil_r.
Qed.

Lemma tail_clean l : split_lines (split_lines l).2 = ([], (split_lines l).2).
Proof.
  induction l as [|c l IH]; [done|]. cbn [split_lines]. destruct (split_lines l) as [ls t]. cbn in IH. destruct (c =? 10) eqn:E; [done|].
  destruct ls as [|x ls]; [|done]. cbn [snd split_lines]. rewrite IH. by rewrite E.
Qed.
Lemma tail_sub l c : c ∈ (split_lines l).2 -> c ∈ l.
Proof.
  revert c. induction l as [|x l IH]; intros c; [done|]. cbn [split_lines]. destruct (split_lines l) as [ls t]. cbn in IH.
  destruct (x =? 10); [right; by apply IH|]. destruct ls; cbn; [|right; by apply IH]. intros [->|H]%elem_of_cons; [left|right; by apply IH].
Qed.
(** A line that begins in a text without newline is longer than that text. *)
Lemma long_line a b x ls : split_lines a = ([], a) -> (split_lines (a ++ b)).1 = x :: ls -> (length a <= length x)%nat.
Proof.
  revert x. induction a as [|c a IH]; intros x Ha Hx; cbn [length]; [lia|]. cbn [split_lines app] in Ha, Hx.
  destruct (split_lines a) as [la ta] eqn:Ea. destruct (c =? 10) eqn:E; [done|]. destruct la; [|done]. injection Ha as ->.
  destruct (split_lines (a ++ b)) as [lb tb] eqn:Eb. destruct lb as [|y lb]; [discriminate Hx|]. cbn in Hx. injection Hx as <- <-. cbn [length].
  apply le_n_S, IH; [done|]. done.
Qed.

Section reader.
Context (chunk : nat -> nat -> nat -> nat) `{!Chunk chunk} (pattern : list Z) (fd : nat).

Lemma grep_loop_spec : forall fuel buf rest w, w_fds w !! fd = Some (Some rest) -> (length rest < fuel)%nat -> 1%nat ∉ w_broken w ->
  split_lines buf = ([], buf) -> Forall (fun c => c <> 0) (buf ++ rest) -> Forall (fun l => length l <= 1022)%nat (split_lines (buf ++ rest)).1 ->
  exists w', grep_loop chunk fuel pattern fd buf w = (Val tt, w') /\
    written 1 w' = written 1 w ++ selected pattern (split_lines (buf ++ rest)).1 /\
    w_files w' = w_files w /\ w_broken w' = w_broken w /\ exists rest', w_fds w' = <[fd := Some rest']> (w_fds w).
Proof.
  induction fuel as [|fuel IH]; intros buf rest w Hfd Hf Hb Hbuf H0 Hlen; [lia|]. cbn [grep_loop].
  destruct (decide (length buf < 1023)%nat) as [Hroom|Hfull].
  2:{ (* a full buffer: no line ends after it *)
    exists (mkWorld (w_files w) (<[fd := Some rest]> (w_fds w)) (w_out w) (S (w_ticks w)) (w_broken w)). split.
    { unfold pbind, read. rewrite Hfd. rewrite decide_True by (left; lia). done. }
    assert ((split_lines (buf ++ rest)).1 = []) as ->.
    { destruct ((split_lines (buf ++ rest)).1) as [|x ls] eqn:E; [done|]. apply (long_line _ _ _ _ Hbuf) in E as Hx.
      apply Forall_cons in Hlen as [Hl _]. lia. }
    cbn. rewrite app_nil_r. split_and!; try done. by exists rest. }
  destruct (read_spec chunk fd (1024 - length buf - 1) w rest Hfd ltac:(lia)) as (d & rest' & -> & Hd1 & Hd2 & R).
  rewrite (pbind_val _ _ _ _ _ R). set (w1 := mkWorld _ (<[fd := Some rest']> (w_fds w)) _ _ _). destruct d as [|c d].
  { specialize (Hd2 eq_refl). cbn in Hd2. subst rest'. exists w1. rewrite !app_nil_r, Hbuf. cbn. rewrite app_nil_r. split_and!; try done. by eexists. }
  assert (Forall (fun c => c <> 0) (buf ++ c :: d)) as H0' by (rewrite app_assoc in H0; by apply Forall_app in H0 as [? _]).
  destruct (grep_lines_spec pattern (S (length (buf ++ c :: d))) (buf ++ c :: d) w1) as (w2 & R2 & O1 & O2 & O3 & O4); [lia|done|done|].
  rewrite (pbind_val _ _ _ _ _ R2). rewrite (app_assoc buf) in Hlen, H0 |- *.
  pose proof (split_lines_app (buf ++ c :: d) rest') as Hs. pose proof (tail_clean (buf ++ c :: d)) as Ht. pose proof (tail_sub (buf ++ c :: d)) as Hsub.
  destruct (split_lines (buf ++ c :: d)) as [ls t]. cbn [fst snd] in *. rewrite Hs in Hlen |- *. destruct (split_lines (t ++ rest')) as [ls' t'] eqn:E'.
  cbn [fst] in *. apply Forall_app in Hlen as [_ Hlen]. apply Forall_app in H0 as [_ H0].
  destruct (IH t rest' w2) as (w' & R' & X1 & X2 & X3 & rest2 & X4).
  - rewrite O2. cbn. apply list_lookup_insert_eq. by apply lookup_lt_Some in Hfd.
  - cbn in Hf. rewrite length_app in Hf. lia.
  - by rewrite O3.
  - done.
  - apply Forall_app. split; [|done]. apply Forall_forall. intros z Hz. eapply Forall_forall in H0'; [exact H0'|]. by apply Hsub.
  - by rewrite E'.
  - exists w'. split; [exact R'|]. rewrite X1, X2, X3, O1, O3, O4, E'. cbn [fst]. unfold selected. rewrite fmap_app, concat_app, app_assoc.
    split_and!; try done. exists rest2. rewrite X4, O2. cbn. apply list_insert_insert_eq.
Qed.
End reader.

(** Grep prints the matching lines, however the kernel splits the input.
    For every way read() may return the bytes of a file without NULs whose lines
    are at most 1022 characters long, grep() returns, and has written to
    descriptor 1 exactly the lines that match, in order and with their newlines.
    (What follows the last newline is not a line to grep.) *)
Theorem grep_prints chunk `{!Chunk chunk} pattern fd data w :
  w_fds w !! fd = Some (Some data) -> 1%nat ∉ w_broken w -> Forall (fun c => c <> 0) data ->
  Forall (fun l => length l <= 1022)%nat (split_lines data).1 ->
  exists w', grep chunk (S (length data)) pattern fd w = (Val tt, w') /\
    written 1 w' = written 1 w ++ selected pattern (split_lines data).1.
Proof.
  intros Hfd Hb H0 Hl. destruct (grep_loop_spec chunk pattern fd (S (length data)) [] data w Hfd ltac:(lia) Hb eq_refl H0 Hl) as (w' & R & X & _).
  by exists w'.
Qed.

(** One byte per read, and a pattern that selects one of two lines. *)
Definition drip (_ _ _ : nat) : nat := 1.
#[export] Instance drip_chunk : Chunk drip.
Proof. intros t n a Hn Ha. unfold drip. lia. Qed.
Definition grep_world : world := mkWorld [] [Some (chars "ab" ++ [10] ++ chars "xcc" ++ [10] ++ chars "cc")] [] 0 [].
Lemma grep_prints_witness : exists w', grep drip 10 (chars "^.c*$") 0 grep_world = (Val tt, w') /\ written 1 w' = chars "xcc" ++ [10].
Proof.
  destruct (grep_prints drip (chars "^.c*$") 0 (chars "ab" ++ [10] ++ chars "xcc" ++ [10] ++ chars "cc") grep_world) as (w' & R & X).
  - reflexivity.
  - apply not_elem_of_nil.
  - cbn. repeat constructor; lia.
  - cbn. repeat constructor; cbn; lia.
  - exists w'. split; [exact R|]. rewrite X. vm_compute. reflexivity.
Defined.
