(* ===== verification/Utils.v ===== *)
(** * user/cat.c, wc.c, echo.c and sixfive.c; gets and atoi of ulib.c, my_atoi of
    sleep.c, getcmd of sh.c *)
From S2P Require Import Prelude Printf UserIO Grep.

Definition nl : list Z := [10].

Section programs.
Context (chunk : nat -> nat -> nat -> nat).

(** ** cat.c *)
Definition cat_body (_ : unit) (d : list Z) : P unit :=
  n <- write 1 d ;;
  if negb (n =? Z.of_nat (length d)) then fprintf 2 (chars "cat: write error" ++ nl) [] ;>> exit 1 else pret tt.
Definition cat (fuel : nat) (fd : nat) : P unit :=
  r <- read_loop chunk fuel fd 512 cat_body tt ;;
  if r.2 : bool then fprintf 2 (chars "cat: read error" ++ nl) [] ;>> exit 1 else pret tt.
Fixpoint cat_files (fuel : nat) (names : list (list Z)) : P unit :=
  match names with
  | [] => exit 0
  | name :: names =>
      r <- open name ;;
      match r with
      | None => fprintf 2 (chars "cat: cannot open %s" ++ nl) [VStr (Some name)] ;>> exit 1
      | Some fd => cat fuel fd ;>> close fd ;>> cat_files fuel names
      end
  end.
Definition cat_main (fuel : nat) (argv : list (list Z)) : P unit :=
  match argv with
  | _ :: name :: names => cat_files fuel (name :: names)
  | _ => cat fuel 0 ;>> exit 0
  end.

(** ** wc.c *)
Record counts := mkCounts { wl : Z; ww : Z; wcc : Z; inword : bool }.
Definition blank (c : Z) : bool := bool_decide (is_Some (strchr (chars " " ++ [13; 9; 10; 11]) c)).
Definition wc_char (s : counts) (c : Z) : counts :=
  let l := if c =? 10 then i32 (wl s + 1) else wl s in
  if blank c then mkCounts l (ww s) (i32 (wcc s + 1)) false
  else if negb (inword s) then mkCounts l (i32 (ww s + 1)) (i32 (wcc s + 1)) true
  else mkCounts l (ww s) (i32 (wcc s + 1)) (inword s).
Definition wc_body (s : counts) (d : list Z) : P counts := pret (foldl wc_char s d).
Definition wc (fuel : nat) (fd : nat) (name : list Z) : P unit :=
  r <- read_loop chunk fuel fd 512 wc_body (mkCounts 0 0 0 false) ;;
  if r.2 : bool then fprintf 1 (chars "wc: read error" ++ nl) [] ;>> exit 1
  else fprintf 1 (chars "%d %d %d %s" ++ nl) [VInt (wl r.1); VInt (ww r.1); VInt (wcc r.1); VStr (Some name)].
Fixpoint wc_files (fuel : nat) (names : list (list Z)) : P unit :=
  match names with
  | [] => exit 0
  | name :: names =>
      r <- open name ;;
      match r with
      | None => fprintf 1 (chars "wc: cannot open %s" ++ nl) [VStr (Some name)] ;>> exit 1
      | Some fd => wc fuel fd name ;>> close fd ;>> wc_files fuel names
      end
  end.
Definition wc_main (fuel : nat) (argv : list (list Z)) : P unit :=
  match argv with
  | _ :: name :: names => wc_files fuel (name :: names)
  | _ => wc fuel 0 [] ;>> exit 0
  end.

(** ** sixfive.c *)
Definition is_separator (c : Z) : bool := bool_decide (is_Some (strchr (chars " -" ++ [13; 9; 10] ++ chars ".,") c)).
Definition is_multiple_of_5_or_6 (num : Z) : bool := (Z.rem num 5 =? 0) || (Z.rem num 6 =? 0).
Record scan_state := mkScan { s_num : Z; s_in : bool }.
Definition print_num (num : Z) : P unit :=
  if is_multiple_of_5_or_6 num then fprintf 1 (chars "%d" ++ nl) [VInt num] else pret tt.
Definition sixfive_char (s : scan_state) (c : Z) : P scan_state :=
  if (ch "0" <=? c) && (c <=? ch "9") then pret (mkScan (i32 (s_num s * 10 + (c - ch "0"))) true)
  else if is_separator c then
    if s_in s then print_num (s_num s) ;>> pret (mkScan 0 false) else pret s
  else pret s.
(** One character per read. *)
Definition sixfive_body (s : scan_state) (d : list Z) : P scan_state :=
  match d with c :: _ => sixfive_char s c | [] => pret s end.
Definition sixfive_file (fuel : nat) (fd : nat) : P unit :=
  r <- read_loop chunk fuel fd 1 sixfive_body (mkScan 0 false) ;;
  if s_in r.1 then print_num (s_num r.1) else pret tt.
Fixpoint sixfive_files (fuel : nat) (names : list (list Z)) : P unit :=
  match names with
  | [] => exit 0
  | name :: names =>
      r <- open name ;;
      match r with
      | None => fprintf 2 (chars "sixfive: cannot open %s" ++ nl) [VStr (Some name)] ;>> sixfive_files fuel names
      | Some fd => sixfive_file fuel fd ;>> close fd ;>> sixfive_files fuel names
      end
  end.
Definition sixfive_main (fuel : nat) (argv : list (list Z)) : P unit :=
  match argv with
  | _ :: name :: names => sixfive_files fuel (name :: names)
  | _ => fprintf 2 (chars "Usage: sixfive <files...>" ++ nl) [] ;>> exit 1
  end.

(** ** gets of ulib.c, getcmd of sh.c *)
(** [room] more characters fit. *)
Fixpoint gets_loop (room : nat) (buf : list Z) : P (list Z) :=
  match room with
  | O => pret buf
  | S room =>
      r <- read chunk 0 1 ;;
      match r with
      | Some (c :: _) => if (c =? 10) || (c =? 13) then pret (buf ++ [c]) else gets_loop room (buf ++ [c])
      | _ => pret buf
      end
  end.
Definition gets (max : nat) : P (list Z) := gets_loop (max - 1) [].
(** The line, or [None] for the result -1. *)
Definition getcmd (nbuf : nat) : P (option (list Z)) :=
  write 2 (chars "$ ") ;>>
  buf <- gets nbuf ;;
  pret (match buf with [] => None | c :: _ => if c =? 0 then None else Some buf end).
End programs.

(** ** echo.c *)
Fixpoint echo_args (args : list (list Z)) : P unit :=
  match args with
  | [] => exit 0
  | arg :: args => write 1 arg ;>> write 1 (if args is _ :: _ then chars " " else nl) ;>> echo_args args
  end.
Definition echo_main (argv : list (list Z)) : P unit := echo_args (drop 1 argv).

(** ** Numbers in arguments: atoi of ulib.c and my_atoi of sleep.c *)
Fixpoint atoi_loop (n : Z) (s : list Z) : Z :=
  match s with
  | c :: s => if (ch "0" <=? c) && (c <=? ch "9") then atoi_loop (i32 (n * 10 + c - ch "0")) s else n
  | [] => n
  end.
Definition atoi (s : list Z) : Z := atoi_loop 0 s.
Definition my_atoi (s : list Z) : Z :=
  match s with
  | c :: s' => if c =? 45 then i32 (atoi_loop 0 s' * -1) else i32 (atoi_loop 0 s * 1)
  | [] => 0
  end.
