(* ===== verification/UtilsTheorems.v ===== *)
(** * What cat, wc, sixfive and echo print *)
From S2P Require Import Prelude Printf UserIO Grep Utils.

(** ** Opening and closing *)
Lemma free_fd_spec fds : forall i k, free_fd i fds = Some k -> (i <= k)%nat /\ fds !! (k - i)%nat = Some None.
Proof.
  induction fds as [|[x|] fds IH]; intros i k; cbn [free_fd]; [done| |].
  - intros [H1 H2]%IH. split; [lia|]. by replace (k - i)%nat with (S (k - S i)) by lia.
  - intros [= <-]. split; [lia|]. by rewrite Nat.sub_diag.
Qed.
Lemma free_fd_close fds k x : free_fd 0 fds = Some k -> <[k := None]> (<[k := Some x]> fds) = fds.
Proof.
  intros [_ H]%free_fd_spec. rewrite Nat.sub_0_r in H. rewrite list_insert_insert_eq. by apply list_insert_id.
Qed.
Lemma free_fd_lt fds k : free_fd 0 fds = Some k -> (k < length fds)%nat.
Proof. intros [_ H]%free_fd_spec. rewrite Nat.sub_0_r in H. by apply lookup_lt_Some in H. Qed.

(** ** cat *)
Section cat.
Context (chunk : nat -> nat -> nat -> nat) `{!Chunk chunk}.

Lemma cat_spec fuel fd data w : w_fds w !! fd = Some (Some data) -> (length data < fuel)%nat -> 1%nat ∉ w_broken w ->
  exists w', cat chunk fuel fd w = (Val tt, w') /\ onward fd w w' /\ written 1 w' = written 1 w ++ data.
Proof.
  intros Hfd Hf Hb.
  destruct (read_loop_spec chunk (fun c _ out => concat ((fun x => if decide (x.1 = 1%nat) then x.2 else []) <$> out) = written 1 w ++ c) data fd 512 cat_body (w_broken w))
    with (fuel := fuel) (c := @nil Z) (rest := data) (s := tt) (w := w) as (s' & w' & R & O & I); try done; [lia| |by rewrite app_nil_r|].
  - intros c s d rest w1 _ Hd Hw Hi. eexists tt, _. split.
    { unfold cat_body. rewrite (pbind_val _ _ _ _ _ (write_spec 1 d w1 ltac:(by rewrite Hw))). rewrite Z.eqb_refl. reflexivity. }
    cbn. split_and!; try done. rewrite fmap_app, concat_app, Hi. cbn. by rewrite app_nil_r, app_assoc.
  - exists w'. split; [|done]. unfold cat. by rewrite (pbind_val _ _ _ _ _ R).
Qed.

(** The contents of the files named. *)
Definition contents (w : world) (names : list (list Z)) : option (list (list Z)) := mapM (fun n => lookup_file n (w_files w)) names.

Lemma cat_files_spec fuel names : forall datas w fd, contents w names = Some datas -> free_fd 0 (w_fds w) = Some fd ->
  Forall (fun d => length d < fuel)%nat datas -> 1%nat ∉ w_broken w ->
  exists w', cat_files chunk fuel names w = (Exit 0, w') /\ written 1 w' = written 1 w ++ concat datas.
Proof.
  induction names as [|n names IH]; intros datas w fd Hc Hfd Hf Hb.
  { cbn in Hc. injection Hc as <-. exists w. cbn. by rewrite app_nil_r. }
  unfold contents in Hc. cbn in Hc. apply bind_Some in Hc as (d & Hd & Hc). apply bind_Some in Hc as (ds & Hds & [= <-]).
  apply Forall_cons in Hf as [Hf1 Hf]. cbn [cat_files].
  assert (open n w = (Val (Some fd), mkWorld (w_files w) (<[fd := Some d]> (w_fds w)) (w_out w) (w_ticks w) (w_broken w))) as Ho by (unfold open; by rewrite Hd, Hfd).
  rewrite (pbind_val _ _ _ _ _ Ho). set (w1 := mkWorld _ _ _ _ _).
  destruct (cat_spec fuel fd d w1) as (w2 & R & (O1 & O2 & r & O3) & W); [|done|done|].
  { apply list_lookup_insert_eq. by apply free_fd_lt. }
  rewrite (pbind_val _ _ _ _ _ R). unfold close at 1. unfold pbind at 1.
  assert (<[fd := None]> (w_fds w2) = w_fds w) as Hback by (rewrite O3; cbn; rewrite list_insert_insert_eq; by apply free_fd_close).
  rewrite Hback. destruct (IH ds (mkWorld (w_files w2) (w_fds w) (w_out w2) (w_ticks w2) (w_broken w2)) fd) as (w' & R' & W').
  - unfold contents. cbn. by rewrite O1.
  - done.
  - done.
  - cbn. by rewrite O2.
  - exists w'. split; [exact R'|]. rewrite W'. change (written 1 (mkWorld _ _ (w_out w2) _ _)) with (written 1 w2). rewrite W. cbn. by rewrite app_assoc.
Qed.
End cat.

(** Cat copies.  With arguments that name readable files, however the reads
    are split, cat exits with 0 after it has written to descriptor 1 exactly the
    contents of the files, one after the other. *)
Theorem cat_copies chunk `{!Chunk chunk} fuel prog names datas w fd : names <> [] ->
  contents w names = Some datas -> free_fd 0 (w_fds w) = Some fd -> Forall (fun d => length d < fuel)%nat datas -> 1%nat ∉ w_broken w ->
  exists w', cat_main chunk fuel (prog :: names) w = (Exit 0, w') /\ written 1 w' = written 1 w ++ concat datas.
Proof. intros Hn Hc Hfd Hf Hb. destruct names as [|n names]; [done|]. by apply (cat_files_spec chunk fuel (n :: names) datas w fd). Qed.

(** ** wc *)
(** The maximal runs of characters that are not separators. *)
Section runs.
Context (sep : Z -> bool).
Fixpoint runs (l : list Z) : list (list Z) :=
  match l with
  | [] => []
  | c :: l' =>
      if sep c then runs l'
      else match l' with
           | c' :: _ => if sep c' then [c] :: runs l' else match runs l' with x :: ws => (c :: x) :: ws | [] => [[c]] end
           | [] => [[c]]
           end
  end.
Lemma runs_sep p c r : Forall (fun x => sep x = false) p -> sep c = true -> runs (p ++ c :: r) = (if decide (p = []) then [] else [p]) ++ runs r.
Proof.
  intros Hp Hc. induction Hp as [|x p Hx Hp IH]; [cbn; by rewrite Hc|]. rewrite decide_False by done. cbn [app runs]. rewrite Hx.
  destruct p as [|y p]; cbn [app] in *.
  - rewrite Hc. f_equal. cbn. by rewrite Hc.
  - apply Forall_cons in Hp as [Hy _]. rewrite Hy. rewrite IH. by rewrite decide_False.
Qed.
Lemma runs_all p : Forall (fun x => sep x = false) p -> runs p = if decide (p = []) then [] else [p].
Proof.
  intros Hp. induction Hp as [|x p Hx Hp IH]; [done|]. rewrite decide_False by done. cbn [runs]. rewrite Hx. destruct p as [|y p]; [done|].
  apply Forall_cons in Hp as [Hy _]. rewrite Hy, IH. by rewrite decide_False.
Qed.
Lemma runs_first p r : Forall (fun x => sep x = false) p -> p <> [] -> exists q rs, runs (p ++ r) = (p ++ q) :: rs.
Proof.
  intros Hp Hn. induction Hp as [|x p Hx Hp IH]; [done|]. cbn [app runs]. rewrite Hx. destruct p as [|y p]; cbn [app] in *.
  - destruct r as [|c r]; [by exists [], []|]. destruct (sep c); [by eexists [], _|]. destruct (runs (c :: r)) as [|x' ws]; [by exists [], []|by eexists x', ws].
  - apply Forall_cons in Hp as [Hy _]. rewrite Hy. destruct IH as (q & rs & ->); [done|]. by exists q, rs.
Qed.
Lemma runs_elem l r x : r ∈ runs l -> x ∈ r -> x ∈ l /\ sep x = false.
Proof.
  revert r. induction l as [|c l IH]; intros r; cbn [runs]; [by intros ?%not_elem_of_nil|]. destruct (sep c) eqn:E.
  { intros Hr Hx. destruct (IH r Hr Hx). split; [by right|done]. }
  assert (forall r', r' ∈ runs l -> x ∈ r' -> x ∈ c :: l /\ sep x = false) as Old.
  { intros r' Hr Hx. destruct (IH r' Hr Hx). split; [by right|done]. }
  assert (x = c -> x ∈ c :: l /\ sep x = false) as New by (intros ->; split; [by left|done]).
  destruct l as [|c' l]; [intros ->%list_elem_of_singleton ->%list_elem_of_singleton; by apply New|]. destruct (sep c').
  { intros [->|Hr]%elem_of_cons Hx; [apply list_elem_of_singleton in Hx; by apply New|by apply (Old r)]. }
  destruct (runs (c' :: l)) as [|y ws]; [intros ->%list_elem_of_singleton ->%list_elem_of_singleton; by apply New|].
  intros [->|Hr]%elem_of_cons Hx; [|apply (Old r); [by right|done]]. apply elem_of_cons in Hx as [Hx|Hx]; [by apply New|].
  apply (Old y); [by left|done].
Qed.
End runs.
Definition words (l : list Z) : list (list Z) := runs blank l.
Definition newlines (l : list Z) : nat := length (filter (fun c => c = 10) l).
(** Words that begin in [l], after a character in a word or not. *)
Fixpoint starts (inw : bool) (l : list Z) : nat :=
  match l with
  | [] => 0
  | c :: l => if blank c then starts false l else ((if inw then 0 else 1) + starts true l)%nat
  end.
Lemma words_starts l : length (words l) = starts false l /\
  (starts true l + match l with c :: _ => if blank c then 0 else 1 | [] => 0 end)%nat = length (words l).
Proof.
  unfold words. induction l as [|c l [IH1 IH2]]; [done|]. cbn [runs starts]. destruct (blank c) eqn:E; [by rewrite IH1|].
  destruct l as [|c' l]; [done|]. destruct (blank c') eqn:E'.
  - cbn [length]. cbn [starts] in *. rewrite E' in *. lia.
  - cbn [starts] in *. rewrite E' in *. destruct (runs blank (c' :: l)) as [|x ws]; cbn [length] in *; lia.
Qed.
Lemma wc_fold l : forall s, 0 <= wl s -> 0 <= ww s -> 0 <= wcc s -> wl s + Z.of_nat (length l) < 2 ^ 31 -> ww s + Z.of_nat (length l) < 2 ^ 31 ->
  wcc s + Z.of_nat (length l) < 2 ^ 31 ->
  let s' := foldl wc_char s l in
  wl s' = wl s + Z.of_nat (newlines l) /\ ww s' = ww s + Z.of_nat (starts (inword s) l) /\ wcc s' = wcc s + Z.of_nat (length l).
Proof.
  induction l as [|c l IH]; intros s H1 H2 H3 B1 B2 B3; cbn [foldl length] in *; [cbn; lia|].
  assert (i32 (wl s + 1) = wl s + 1 /\ i32 (ww s + 1) = ww s + 1 /\ i32 (wcc s + 1) = wcc s + 1) as (E1 & E2 & E3) by (rewrite !i32_small; lia).
  assert (newlines (c :: l) = (if (c =? 10)%Z then 1 else 0) + newlines l)%nat as En.
  { unfold newlines. rewrite filter_cons. destruct (Z.eqb_spec c 10); [rewrite decide_True by done|rewrite decide_False by done]; done. }
  rewrite En. specialize (IH (wc_char s c)). unfold wc_char in *. rewrite E1, E2, E3 in *. cbn [starts].
  destruct (blank c) eqn:Eb; [|destruct (inword s) eqn:Ei]; cbn [negb wl ww wcc inword] in *; destruct (c =? 10);
    (destruct IH as (J1 & J2 & J3); [lia..|]); cbv zeta in *; rewrite J1, J2, J3; lia.
Qed.

(** Wc counts.  For every way read() may split the data, wc() prints the
    number of newlines, of words (maximal runs of non-blank characters) and of
    bytes, and the name; [int] counters do not overflow below 2^31 bytes. *)
Theorem wc_counts chunk `{!Chunk chunk} fuel fd name data w :
  w_fds w !! fd = Some (Some data) -> (length data < fuel)%nat -> Z.of_nat (length data) < 2 ^ 31 -> 1%nat ∉ w_broken w ->
  exists w', wc chunk fuel fd name w = (Val tt, w') /\
    written 1 w' = written 1 w ++ default [] (UPrintf.fprintf (chars "%d %d %d %s" ++ nl)
      [VInt (Z.of_nat (newlines data)); VInt (Z.of_nat (length (words data))); VInt (Z.of_nat (length data)); VStr (Some name)]).
Proof.
  intros Hfd Hf Hlen Hb.
  destruct (read_loop_spec chunk (fun c s out => s = foldl wc_char (mkCounts 0 0 0 false) c /\ out = w_out w) data fd 512 wc_body (w_broken w))
    with (fuel := fuel) (c := @nil Z) (rest := data) (s := mkCounts 0 0 0 false) (w := w) as (s' & w' & R & (O1 & O2 & r & O3) & I1 & I2); try done; [lia| |].
  - intros c s d rest w1 _ Hd Hw [-> Hi]. eexists _, _. split; [reflexivity|]. split_and!; try done. by rewrite foldl_app.
  - cbn in I1. unfold wc. rewrite (pbind_val _ _ _ _ _ R). cbn [fst snd]. unfold fprintf.
    rewrite (pbind_val _ _ _ _ _ (write_spec 1 _ w' ltac:(by rewrite O2))). eexists. split; [reflexivity|]. rewrite out_app. cbn [fmap list_fmap concat fst snd decide].
    rewrite decide_True by done. rewrite app_nil_r. unfold written at 1. cbn [w_out]. rewrite I2. fold (written 1 w).
    destruct (wc_fold data (mkCounts 0 0 0 false)) as (E1 & E2 & E3); [cbn; lia..|]. cbn [wl ww wcc inword] in *. rewrite <- I1 in E1, E2, E3.
    rewrite E1, E2, E3. destruct (words_starts data) as [-> _]. reflexivity.
Qed.

(** ** sixfive *)
Definition is_digit (c : Z) : bool := (ch "0" <=? c) && (c <=? ch "9").
Lemma digit_not_sep c : is_digit c = true -> is_separator c = false.
Proof.
  unfold is_digit. change (ch "0") with 48. change (ch "9") with 57. intros H.
  assert (c = 48 \/ c = 49 \/ c = 50 \/ c = 51 \/ c = 52 \/ c = 53 \/ c = 54 \/ c = 55 \/ c = 56 \/ c = 57) as Hc by lia.
  repeat destruct Hc as [->|Hc]; [reflexivity..|]. subst. reflexivity.
Qed.
(** The numbers of a file: characters that are neither digits nor separators are
    skipped, and the maximal runs of digits are read. *)
Definition kept (l : list Z) : list Z := filter (fun c => is_digit c = true \/ is_separator c = true) l.
Definition numbers (l : list Z) : list Z := parse 10 <$> runs is_separator (kept l).
Definition lines_of (ns : list Z) : list Z :=
  concat ((fun n => if is_multiple_of_5_or_6 n then default [] (UPrintf.fprintf (chars "%d" ++ nl) [VInt n]) else []) <$> ns).

Lemma parse_digits p : Forall (fun c => is_digit c = true) p -> 0 <= parse 10 p.
Proof.
  induction p as [|c p IH] using rev_ind; [done|]. intros [H1 H2]%Forall_app. rewrite parse_snoc. specialize (IH H1). apply Forall_cons in H2 as [H2 _].
  unfold is_digit, digit_val in *. change (ch "0") with 48 in *. change (ch "9") with 57 in *. replace (c <=? 57) with true by lia. lia.
Qed.
Lemma parse_prefix p q : Forall (fun c => is_digit c = true) (p ++ q) -> parse 10 p <= parse 10 (p ++ q).
Proof.
  induction q as [|c q IH] using rev_ind; intros H; [rewrite app_nil_r; lia|]. rewrite app_assoc in *. apply Forall_app in H as [H1 H2]. specialize (IH H1).
  rewrite parse_snoc. pose proof (parse_digits _ H1). apply Forall_cons in H2 as [H2 _].
  unfold is_digit, digit_val in *. change (ch "0") with 48 in *. change (ch "9") with 57 in *. replace (c <=? 57) with true by lia. lia.
Qed.

Lemma kept_run l r : r ∈ runs is_separator (kept l) -> Forall (fun c => is_digit c = true) r.
Proof.
  intros Hr. apply Forall_forall. intros x Hx. destruct (runs_elem _ _ _ _ Hr Hx) as [Hk Hs].
  apply list_elem_of_filter in Hk as [[?|?] _]; [done|congruence].
Qed.

(** After the characters [c] of [data]: complete runs [rs] are printed, [p] is the
    run in progress. *)
Definition scanned (w : world) (data c : list Z) (s : scan_state) (out : list (nat * list Z)) : Prop :=
  forall rest, data = c ++ rest -> exists rs p, Forall (fun x => is_digit x = true) p /\ s = mkScan (parse 10 p) (bool_decide (p <> [])) /\
    runs is_separator (kept data) = rs ++ runs is_separator (p ++ kept rest) /\
    concat ((fun x => if decide (x.1 = 1%nat) then x.2 else []) <$> out) = written 1 w ++ lines_of (parse 10 <$> rs).

Lemma print_num_spec n w : 1%nat ∉ w_broken w ->
  exists w', print_num n w = (Val tt, w') /\ w_files w' = w_files w /\ w_fds w' = w_fds w /\ w_broken w' = w_broken w /\ written 1 w' = written 1 w ++ lines_of [n].
Proof.
  intros Hb. unfold print_num, lines_of. cbn [fmap list_fmap concat]. destruct (is_multiple_of_5_or_6 n).
  - unfold fprintf. rewrite (pbind_val _ _ _ _ _ (write_spec 1 _ w Hb)). eexists. split; [reflexivity|]. split_and!; try done. rewrite out_app.
    cbn [fmap list_fmap concat fst snd]. rewrite decide_True by done. by destruct w.
  - exists w. cbn. by rewrite app_nil_r.
Qed.
Lemma lines_of_app a b : lines_of (a ++ b) = lines_of a ++ lines_of b.
Proof. unfold lines_of. by rewrite fmap_app, concat_app. Qed.

Lemma sixfive_step w data c s x w1 : Forall (fun n => n < 2 ^ 31) (numbers data) -> w_broken w1 = w_broken w -> 1%nat ∉ w_broken w ->
  scanned w data c s (w_out w1) -> (exists rest, data = (c ++ [x]) ++ rest) ->
  exists s' w', sixfive_char s x w1 = (Val s', w') /\ w_files w' = w_files w1 /\ w_fds w' = w_fds w1 /\ w_broken w' = w_broken w1 /\
    scanned w data (c ++ [x]) s' (w_out w').
Proof.
  intros Hbig Hw Hb Hi [rest0 E0]. rewrite <- app_assoc in E0. destruct (Hi _ E0) as (rs & p & Hp & -> & Hruns & Hout). clear Hi.
  assert (forall s' w', (exists rs p, Forall (fun x => is_digit x = true) p /\ s' = mkScan (parse 10 p) (bool_decide (p <> [])) /\
      runs is_separator (kept data) = rs ++ runs is_separator (p ++ kept rest0) /\ written 1 w' = written 1 w ++ lines_of (parse 10 <$> rs)) ->
      scanned w data (c ++ [x]) s' (w_out w')) as Fin.
  { intros s' w' X rest E. rewrite E0, <- app_assoc in E. apply app_inv_head in E. cbn in E. injection E as <-. exact X. }
  unfold sixfive_char. fold (is_digit x). destruct (is_digit x) eqn:Ed; [|destruct (is_separator x) eqn:Es].
  - unfold kept in Hruns. cbn [app] in Hruns. rewrite (filter_cons_True _ x) in Hruns by auto. fold (kept rest0) in Hruns.
    assert (runs is_separator (kept data) = rs ++ runs is_separator ((p ++ [x]) ++ kept rest0)) as Hruns' by (rewrite <- app_assoc; exact Hruns).
    assert (Forall (fun x => is_digit x = true) (p ++ [x])) as Hpx by (apply Forall_app; split; [done|by apply Forall_singleton]).
    destruct (runs_first is_separator (p ++ [x]) (kept rest0)) as (q & rs' & Hq); [eapply Forall_impl; [exact Hpx|apply digit_not_sep]|destruct p; discriminate|].
    assert ((p ++ [x]) ++ q ∈ runs is_separator (kept data)) as Hin by (rewrite Hruns', Hq; set_solver).
    assert (parse 10 (p ++ [x]) < 2 ^ 31) as Hlt.
    { pose proof (parse_prefix (p ++ [x]) q (kept_run _ _ Hin)). enough (parse 10 ((p ++ [x]) ++ q) < 2 ^ 31) by lia.
      eapply Forall_forall in Hbig; [exact Hbig|]. apply list_elem_of_fmap. by exists ((p ++ [x]) ++ q). }
    eexists _, w1. split; [reflexivity|]. split_and!; try done. apply Fin. exists rs, (p ++ [x]). split; [done|]. split; [|done].
    pose proof (parse_digits _ Hpx). rewrite parse_snoc in *. cbn [s_num]. assert (digit_val x = x - ch "0") as Ev.
    { unfold is_digit, digit_val in *. change (ch "0") with 48 in *. change (ch "9") with 57 in *. by replace (x <=? 57) with true by lia. }
    rewrite Ev in *. rewrite i32_small by lia. rewrite bool_decide_true by (destruct p; discriminate). done.
  - unfold kept in Hruns. cbn [app] in Hruns. rewrite (filter_cons_True _ x) in Hruns by auto. fold (kept rest0) in Hruns.
    rewrite (runs_sep is_separator p x) in Hruns; [|eapply Forall_impl; [exact Hp|apply digit_not_sep]|done]. cbn [s_in s_num].
    destruct (decide (p = [])) as [->|Hn].
    + rewrite bool_decide_false by (intros H; by apply H). eexists _, w1. split; [reflexivity|]. split_and!; try done. apply Fin. exists rs, []. by split_and!.
    + rewrite bool_decide_true by done. destruct (print_num_spec (parse 10 p) w1) as (w2 & R & O1 & O2 & O3 & O4); [by rewrite Hw|].
      rewrite (pbind_val _ _ _ _ _ R). eexists _, w2. split; [reflexivity|]. split_and!; try done. apply Fin. exists (rs ++ [p]), []. split; [done|].
      split; [done|]. split; [by rewrite <- app_assoc|]. rewrite O4, fmap_app, lines_of_app, app_assoc. f_equal. exact Hout.
  - unfold kept in Hruns. cbn [app] in Hruns. rewrite (filter_cons_False _ x) in Hruns by (rewrite Ed, Es; naive_solver). fold (kept rest0) in Hruns.
    eexists _, w1. split; [reflexivity|]. split_and!; try done. apply Fin. by exists rs, p.
Qed.

(** Sixfive prints the multiples.  For every way read() behaves, sixfive
    prints, one per line and in order, exactly those numbers of the file that are
    multiples of 5 or 6, including one that ends at the end of the file.
    Characters that are neither digits nor separators are skipped, so they do not
    end a number. *)
Theorem sixfive_prints chunk `{!Chunk chunk} fuel fd data w : w_fds w !! fd = Some (Some data) -> (length data < fuel)%nat ->
  Forall (fun n => n < 2 ^ 31) (numbers data) -> 1%nat ∉ w_broken w ->
  exists w', sixfive_file chunk fuel fd w = (Val tt, w') /\ written 1 w' = written 1 w ++ lines_of (numbers data).
Proof.
  intros Hfd Hf Hbig Hb.
  destruct (read_loop_spec chunk (scanned w data) data fd 1 sixfive_body (w_broken w))
    with (fuel := fuel) (c := @nil Z) (rest := data) (s := mkScan 0 false) (w := w) as (s' & w1 & R & (O1 & O2 & r & O3) & I); try done; [lia| | |].
  - intros c s d rest w1 Hdata Hd Hw Hi. destruct d as [|x [|y d]]; cbn in Hd; [lia| |lia]. cbn [sixfive_body]. rewrite <- Hw.
    apply (sixfive_step w data c s x w1); [done|done|done|done|]. exists rest. rewrite <- app_assoc. exact Hdata.
  - intros rest E. cbn in E. subst rest. exists [], []. split; [done|]. split; [done|]. split; [done|]. cbn. by rewrite app_nil_r.
  - destruct (I [] ltac:(by rewrite app_nil_r)) as (rs & p & Hp & -> & Hruns & Hout). unfold sixfive_file. rewrite (pbind_val _ _ _ _ _ R). cbn [fst s_in s_num].
    cbn in Hruns. rewrite app_nil_r, (runs_all is_separator p) in Hruns by (eapply Forall_impl; [exact Hp|apply digit_not_sep]). unfold numbers. rewrite Hruns.
    destruct (decide (p = [])) as [->|Hn].
    + rewrite bool_decide_false by (intros H; by apply H). exists w1. split; [done|]. rewrite app_nil_r. exact Hout.
    + rewrite bool_decide_true by done. destruct (print_num_spec (parse 10 p) w1) as (w2 & R2 & _ & _ & _ & O4); [by rewrite O2|].
      exists w2. split; [exact R2|]. rewrite O4, fmap_app, lines_of_app, app_assoc. f_equal. exact Hout.
Qed.

(** ** echo *)
(** Echo prints its arguments, separated by blanks and ended by a newline. *)
Theorem echo_prints prog arg args w : 1%nat ∉ w_broken w ->
  exists w', echo_main (prog :: arg :: args) w = (Exit 0, w') /\
    written 1 w' = written 1 w ++ arg ++ concat ((fun a => 32 :: a) <$> args) ++ nl.
Proof.
  unfold echo_main. cbn [drop]. revert arg w. induction args as [|a args IH]; intros arg w Hb; cbn [echo_args];
    rewrite (pbind_val _ _ _ _ _ (write_spec 1 arg w Hb)).
  - set (w1 := mkWorld _ _ _ _ _). rewrite (pbind_val _ _ _ _ _ (write_spec 1 nl w1 Hb)). eexists. split; [reflexivity|]. unfold w1. cbn [w_out w_files w_fds w_ticks w_broken].
    rewrite !out_app. cbn. rewrite ?app_nil_r, <- ?app_assoc. by destruct w.
  - set (w1 := mkWorld _ _ _ _ _). rewrite (pbind_val _ _ _ _ _ (write_spec 1 (chars " ") w1 Hb)). set (w2 := mkWorld _ _ _ _ _).
    destruct (IH a w2 Hb) as (w' & R & X). exists w'. split; [exact R|]. rewrite X. unfold w2, w1. cbn [w_out w_files w_fds w_ticks w_broken].
    rewrite !out_app. cbn. rewrite ?app_nil_r, <- ?app_assoc. cbn. by destruct w.
Qed.

(** ** Reading back what printf prints *)
Lemma atoi_loop_digits q : forall p, Forall (fun c => is_digit c = true) (p ++ q) -> parse 10 (p ++ q) < 2 ^ 31 -> atoi_loop (parse 10 p) q = parse 10 (p ++ q).
Proof.
  induction q as [|c q IH]; intros p Hp Hlt; cbn [atoi_loop]; [by rewrite app_nil_r|].
  pose proof Hp as [Hp1 [Hc Hq]%Forall_cons]%Forall_app. fold (is_digit c). rewrite Hc.
  assert (p ++ c :: q = (p ++ [c]) ++ q) as E by (by rewrite <- app_assoc). rewrite E in *.
  pose proof (parse_prefix _ _ Hp). pose proof (parse_digits _ (proj1 (proj1 (Forall_app _ _ _) Hp))).
  assert (parse 10 (p ++ [c]) = parse 10 p * 10 + c - ch "0") as Ev.
  { rewrite parse_snoc. unfold is_digit, digit_val in *. change (ch "0") with 48 in *. change (ch "9") with 57 in *. replace (c <=? 57) with true by lia. lia. }
  rewrite <- Ev, i32_small by lia. by apply IH.
Qed.
Lemma printint_digits x : forall fuel, 0 <= x -> Forall (fun c => is_digit c = true) (printint_loop UPrintf.digits fuel x 10).
Proof.
  intros fuel. revert x. induction fuel as [|fuel IH]; intros x Hx; cbn [printint_loop]; [constructor|]. constructor.
  - pose proof (Z.mod_pos_bound x 10 ltac:(lia)) as Hm. set (m := x mod 10) in *. clearbody m.
    assert (m = 0 \/ m = 1 \/ m = 2 \/ m = 3 \/ m = 4 \/ m = 5 \/ m = 6 \/ m = 7 \/ m = 8 \/ m = 9) as H by lia.
    repeat destruct H as [->|H]; [reflexivity..|]. subst. reflexivity.
  - destruct (x / 10 =? 0); cbn [negb]; [constructor|]. apply IH, Z.div_pos; lia.
Qed.
(** Atoi inverts %d: for every non-negative [int], the digits that the user
    library prints for it are read back by atoi. *)
Theorem atoi_printint n : 0 <= n < 2 ^ 31 -> atoi (UPrintf.printint n 10 true) = n.
Proof.
  intros Hn. unfold UPrintf.printint, UPrintf.printint_buf. replace (n <? 0) with false by lia. cbn [andb]. rewrite app_nil_r, u32_small by lia.
  destruct (printint_loop_ok UPrintf.digits 10 10 user_digits ltac:(lia) 32 n) as (P1 & P2 & _); [lia..|]. cbv zeta in P1, P2.
  pose proof (printint_digits n 32 ltac:(lia)) as HD. set (l := printint_loop UPrintf.digits 32 n 10) in *.
  rewrite putc_plain by (apply Forall_reverse; eapply Forall_impl; [exact P2|cbn; lia]). unfold atoi. change 0 with (parse 10 []) at 1.
  rewrite atoi_loop_digits; [done|by apply Forall_reverse|]. cbn [app]. lia.
Qed.

(** ** Examples *)
Definition util_world (data : list Z) : world := mkWorld [(chars "f", data)] [Some data; Some []; Some []; None] [] 0 [].
Lemma cat_copies_witness : exists w', cat_main drip 10 [chars "cat"; chars "f"; chars "f"] (util_world (chars "hi")) = (Exit 0, w') /\ written 1 w' = chars "hihi".
Proof.
  destruct (cat_copies drip 10 (chars "cat") [chars "f"; chars "f"] [chars "hi"; chars "hi"] (util_world (chars "hi")) 3) as (w' & R & X);
    [discriminate|reflexivity|reflexivity|repeat constructor; cbn; lia|apply not_elem_of_nil|]. exists w'. split; [exact R|]. rewrite X. reflexivity.
Defined.
Lemma wc_counts_witness : exists w', wc greedy 20 0 (chars "f") (util_world (chars "ab  c" ++ nl)) = (Val tt, w') /\ written 1 w' = chars "1 2 6 f" ++ nl.
Proof.
  destruct (wc_counts greedy 20 0 (chars "f") (chars "ab  c" ++ nl) (util_world (chars "ab  c" ++ nl))) as (w' & R & X);
    [reflexivity|cbn; lia|cbn; lia|apply not_elem_of_nil|]. exists w'. split; [exact R|]. rewrite X. vm_compute. reflexivity.
Defined.
Lemma sixfive_prints_witness : exists w', sixfive_file greedy 20 0 (util_world (chars "5 3-1x8,06")) = (Val tt, w') /\ written 1 w' = chars "5" ++ nl ++ chars "18" ++ nl ++ chars "6" ++ nl.
Proof.
  destruct (sixfive_prints greedy 20 0 (chars "5 3-1x8,06") (util_world (chars "5 3-1x8,06"))) as (w' & R & X);
    [reflexivity|cbn; lia| |apply not_elem_of_nil|].
  { replace (numbers (chars "5 3-1x8,06")) with [5; 3; 18; 6] by (vm_compute; reflexivity). repeat (apply Forall_cons; split; [lia|]). apply Forall_nil_2. }
  exists w'. split; [exact R|]. rewrite X. vm_compute. reflexivity.
Defined.
Lemma echo_prints_witness : exists w', echo_main [chars "echo"; chars "a"; chars "b"] (util_world []) = (Exit 0, w') /\ written 1 w' = chars "a b" ++ nl.
Proof.
  destruct (echo_prints (chars "echo") (chars "a") [chars "b"] (util_world [])) as (w' & R & X); [apply not_elem_of_nil|].
  exists w'. split; [exact R|]. rewrite X. reflexivity.
Defined.
Lemma atoi_printint_witness : UPrintf.printint 2025 10 true = chars "2025" /\ atoi (UPrintf.printint 2025 10 true) = 2025.
Proof. split; [vm_compute; reflexivity|]. apply (atoi_printint 2025). lia. Defined.

(** ** gets: the first line of the input, at most [n] characters of it *)
Fixpoint first_line (n : nat) (data : list Z) : list Z :=
  match n, data with
  | S n, c :: data => c :: (if (c =? 10) || (c =? 13) then [] else first_line n data)
  | _, _ => []
  end.
Section gets.
Context (chunk : nat -> nat -> nat -> nat) `{!Chunk chunk}.
Lemma gets_loop_line room buf data w : w_fds w !! 0%nat = Some (Some data) ->
  exists w', gets_loop chunk room buf w = (Val (buf ++ first_line room data), w') /\
    w_fds w' = <[0%nat := Some (drop (length (first_line room data)) data)]> (w_fds w) /\ w_out w' = w_out w.
Proof.
  revert buf data w. induction room as [|room IH]; intros buf data w Hw; cbn [gets_loop first_line].
  { exists w. rewrite app_nil_r. split_and!; try done. cbn. symmetry. by apply list_insert_id. }
  destruct (read_spec chunk 0 1 w data Hw) as (d & rest & -> & Hl & Hd & R); [lia|]. rewrite (pbind_val _ _ _ _ _ R).
  destruct d as [|c [|? ?]]; cbn in Hl; [|clear Hl|lia].
  { specialize (Hd eq_refl). cbn in Hd. subst rest. eexists. cbn [app length drop]. rewrite app_nil_r. by split_and!. }
  cbn [app]. destruct ((c =? 10) || (c =? 13)).
  - eexists. split; [reflexivity|]. split; [|done]. cbn. by rewrite drop_0.
  - match goal with |- context [gets_loop chunk room _ ?w1] => destruct (IH (buf ++ [c]) rest w1) as (w' & E & Hf & Ho) end.
    { cbn. apply list_lookup_insert_eq. by apply lookup_lt_Some in Hw. }
    eexists. split; [rewrite E; by rewrite <- app_assoc|]. split; [|done]. rewrite Hf. cbn. by rewrite list_insert_insert_eq.
Qed.
(** gets reads up to the end of the first line and leaves the rest unread. *)
Lemma gets_line max data w : w_fds w !! 0%nat = Some (Some data) ->
  exists w', gets chunk max w = (Val (first_line (max - 1) data), w') /\
    w_fds w' = <[0%nat := Some (drop (length (first_line (max - 1) data)) data)]> (w_fds w) /\ w_out w' = w_out w.
Proof. apply gets_loop_line. Qed.
End gets.
