(* ===== verification/Sh.v ===== *)
(** * user/sh.c: the parser of the shell

    [b] is the command line without its NUL; a position in it is a pointer, and
    the position [length b] is [es], where the NUL is.  The parser's state is the
    pointer [*ps]; [panic] ends the process.  An [execcmd] is filled in after
    parseredirs has put [redircmd]s around it: the redirections are collected
    beside the arguments and put around the finished command. *)
From S2P Require Import Prelude Printf Grep.

Definition MAXARGS : nat := 10.
Definition whitespace : list Z := [32; 9; 13; 10; 11].
Definition symbols : list Z := chars "<|>&;()".
Definition isin (l : list Z) (c : Z) : bool := bool_decide (is_Some (strchr l c)).
Definition ws (c : Z) : bool := isin whitespace c.
Definition wordch (c : Z) : bool := negb (ws c) && negb (isin symbols c).

(** [O_RDONLY], [O_WRONLY|O_CREATE|O_TRUNC], [O_WRONLY|O_CREATE]. *)
Inductive mode := Rd | WrTrunc | WrApp.
(** A string of the line: where it begins and where it ends. *)
Record tok := mkTok { tq : nat; te : nat }.
Record redir := mkRedir { rfile : tok; rmode : mode; rfd : nat }.
Inductive cmd :=
| EXEC (argv : list tok)
| REDIR (c : cmd) (r : redir)
| PIPE (left right : cmd)
| LIST (left right : cmd)
| BACK (c : cmd).
Definition wrap (c : cmd) (rs : list redir) : cmd := foldl REDIR c rs.

Section parser.
Context (b : list Z).
Definition es : nat := length b.
Definition at_ (i : nat) : Z := nth i b 0.
Abbreviation Ps := (M nat).

(** [while(s < es && strchr(whitespace, *s)) s++] *)
Fixpoint skip_loop (n s : nat) : nat :=
  match n with
  | S n => if (s <? es)%nat && ws (at_ s) then skip_loop n (S s) else s
  | O => s
  end.
Definition skip (s : nat) : nat := skip_loop (es - s) s.
Fixpoint word_loop (n s : nat) : nat :=
  match n with
  | S n => if (s <? es)%nat && wordch (at_ s) then word_loop n (S s) else s
  | O => s
  end.
Definition word_end (s : nat) : nat := word_loop (es - s) s.

Definition gettoken : Ps (Z * tok) :=
  s0 <~ gets id ;;
  let s := skip s0 in
  let c := at_ s in
  let '(ret, s1) :=
    if c =? 0 then (0, s)
    else if isin (chars "|();&<") c then (c, S s)
    else if c =? ch ">" then if at_ (S s) =? ch ">" then (ch "+", S (S s)) else (ch ">", S s)
    else (ch "a", word_end s) in
  modify (fun _ => skip s1) ;;;
  kret (ret, mkTok s s1).
Definition peek (toks : list Z) : Ps bool :=
  s0 <~ gets id ;;
  let s := skip s0 in
  modify (fun _ => s) ;;;
  kret (negb (at_ s =? 0) && isin toks (at_ s)).

Definition redir_of (t : Z) (f : tok) : redir :=
  if t =? ch "<" then mkRedir f Rd 0 else if t =? ch ">" then mkRedir f WrTrunc 1 else mkRedir f WrApp 1.
Fixpoint parseredirs (fuel : nat) (rs : list redir) : Ps (list redir) :=
  match fuel with
  | O => nofuel
  | S fuel =>
      p <~ peek (chars "<>") ;;
      if p : bool then
        t <~ gettoken ;;
        f <~ gettoken ;;
        if negb (f.1 =? ch "a") then panic "missing file for redirection"
        else parseredirs fuel (rs ++ [redir_of t.1 f.2])
      else kret rs
  end.
Fixpoint parseargs (fuel : nat) (argv : list tok) (rs : list redir) : Ps cmd :=
  match fuel with
  | O => nofuel
  | S fuel =>
      p <~ peek (chars "|)&;") ;;
      if p : bool then kret (wrap (EXEC argv) rs)
      else
        t <~ gettoken ;;
        if t.1 =? 0 then kret (wrap (EXEC argv) rs)
        else if negb (t.1 =? ch "a") then panic "syntax"
        else if (MAXARGS <=? length (argv ++ [t.2]))%nat then panic "too many args"
        else rs <~ parseredirs fuel rs ;; parseargs fuel (argv ++ [t.2]) rs
  end.
(** [while(peek(ps, es, '&')) cmd = backcmd(cmd)] *)
Fixpoint parseback (fuel : nat) (c : cmd) : Ps cmd :=
  match fuel with
  | O => nofuel
  | S fuel =>
      p <~ peek (chars "&") ;;
      if p : bool then gettoken ;;; parseback fuel (BACK c) else kret c
  end.

Fixpoint parseline (fuel : nat) : Ps cmd :=
  match fuel with
  | O => nofuel
  | S fuel =>
      c <~ parsepipe fuel ;;
      c <~ parseback fuel c ;;
      p <~ peek (chars ";") ;;
      if p : bool then gettoken ;;; r <~ parseline fuel ;; kret (LIST c r) else kret c
  end
with parsepipe (fuel : nat) : Ps cmd :=
  match fuel with
  | O => nofuel
  | S fuel =>
      c <~ parseexec fuel ;;
      p <~ peek (chars "|") ;;
      if p : bool then gettoken ;;; r <~ parsepipe fuel ;; kret (PIPE c r) else kret c
  end
with parseexec (fuel : nat) : Ps cmd :=
  match fuel with
  | O => nofuel
  | S fuel =>
      p <~ peek (chars "(") ;;
      if p : bool then parseblock fuel
      else rs <~ parseredirs fuel [] ;; parseargs fuel [] rs
  end
with parseblock (fuel : nat) : Ps cmd :=
  match fuel with
  | O => nofuel
  | S fuel =>
      p <~ peek (chars "(") ;;
      if negb p then panic "parseblock"
      else
        gettoken ;;;
        c <~ parseline fuel ;;
        p <~ peek (chars ")") ;;
        if negb p then panic "syntax - missing )"
        else gettoken ;;; rs <~ parseredirs fuel [] ;; kret (wrap c rs)
  end.

(** Every call of a parser function consumes input or goes one level down the
    grammar, which has four levels. *)
Definition parse_fuel : nat := 4 * es + 8.
Definition parsecmd : res cmd :=
  match parseline parse_fuel 0%nat with
  | Ret (c, s) => if (skip s =? es)%nat then Ret c else Panic "syntax"
  | Panic e => Panic e
  | Sleeps c => Sleeps c
  | OutOfFuel => OutOfFuel
  end.
End parser.

(** The strings of a command. *)
Fixpoint toks (c : cmd) : list tok :=
  match c with
  | EXEC argv => argv
  | REDIR c r => toks c ++ [rfile r]
  | PIPE l r | LIST l r => toks l ++ toks r
  | BACK c => toks c
  end.
(** [buf] is the line with its NUL. *)
Fixpoint nulterminate (c : cmd) (buf : list Z) : list Z :=
  match c with
  | EXEC argv => foldl (fun m t => <[te t := 0]> m) buf argv
  | REDIR c r => <[te (rfile r) := 0]> (nulterminate c buf)
  | PIPE l r | LIST l r => nulterminate r (nulterminate l buf)
  | BACK c => nulterminate c buf
  end.
(** The string that a pointer into memory [m] points to. *)
Fixpoint cstring (m : list Z) : list Z := match m with x :: m => if x =? 0 then [] else x :: cstring m | [] => [] end.
Definition text (b : list Z) (t : tok) : list Z := take (te t - tq t) (drop (tq t) b).
