(* ===== verification/ShParse.v ===== *)
(** * The shell's parser terminates, and its strings come out right *)
From S2P Require Import Prelude Printf Grep Sh.

Lemma isin_spec l c : Forall (fun x => x <> 0) l -> isin l c = true <-> c ∈ l.
Proof.
  unfold isin. rewrite bool_decide_eq_true. induction 1 as [|x l Hx Hl IH]; cbn [strchr].
  - split; [by intros [? ?]|by intros ?%not_elem_of_nil].
  - replace (x =? 0) with false by lia. rewrite elem_of_cons, <- IH. destruct (Z.eqb_spec x c) as [->|Hne].
    + split; [by left|]. intros _. by eexists.
    + rewrite fmap_is_Some. naive_solver.
Qed.
Lemma symbols_nz : Forall (fun x => x <> 0) symbols.
Proof. apply (Forall_forall (fun x => x <> 0)). intros x Hx. apply list_elem_of_In in Hx. cbn in Hx. lia. Qed.
Lemma symbol_cases c : isin symbols c = true -> isin (chars "|();&<") c = true \/ c = ch ">".
Proof.
  rewrite isin_spec by apply symbols_nz. intros H%list_elem_of_In. cbn in H.
  repeat destruct H as [<-|H]; first [by left|by right|done].
Qed.

Section parse.
Context (b : list Z) (Hb : Forall (fun c => c <> 0) b).
Abbreviation es := (es b).
Abbreviation at_ := (at_ b).

Lemma at_end i : (es <= i)%nat -> at_ i = 0.
Proof. intros H. unfold Sh.at_. by apply nth_overflow. Qed.
Lemma at_zero i : at_ i = 0 -> (es <= i)%nat.
Proof.
  intros H. destruct (decide (es <= i)%nat) as [|Hi]; [done|]. exfalso. unfold Sh.at_ in H. rewrite nth_lookup in H.
  destruct (b !! i) as [c|] eqn:E; [|apply lookup_ge_None in E; unfold Sh.es in Hi; lia]. cbn in H. subst. by eapply Forall_lookup in Hb.
Qed.

(** ** The two scanning loops *)
Lemma skip_spec s : (s <= skip b s)%nat /\ ((s <= es)%nat -> (skip b s <= es)%nat) /\ (forall i, (s <= i < skip b s)%nat -> ws (at_ i) = true) /\
  ((skip b s < es)%nat -> ws (at_ (skip b s)) = false).
Proof.
  unfold skip. assert (forall n s, (es - s <= n)%nat -> let s' := skip_loop b n s in (s <= s')%nat /\ ((s <= es)%nat -> (s' <= es)%nat) /\
    (forall i, (s <= i < s')%nat -> ws (at_ i) = true) /\ ((s' < es)%nat -> ws (at_ s') = false)) as H; [|by apply H].
  clear s. induction n as [|n IH]; intros s Hn; cbn [skip_loop]; [cbv zeta; split_and!; try lia; intros; exfalso; lia|].
  destruct ((s <? es)%nat && ws (at_ s)) eqn:E; cbv zeta.
  - apply andb_true_iff in E as [E1%Nat.ltb_lt E2]. destruct (IH (S s) ltac:(lia)) as (H1 & H2 & H3 & H4). cbv zeta in *. split_and!; try done; [lia|lia|].
    intros i Hi. destruct (decide (i = s)) as [->|]; [done|apply H3; lia].
  - split_and!; try lia. intros Hs. apply andb_false_iff in E as [E|E]; [apply Nat.ltb_ge in E; lia|done].
Qed.
Lemma word_spec s : (s <= word_end b s)%nat /\ ((s <= es)%nat -> (word_end b s <= es)%nat) /\ (forall i, (s <= i < word_end b s)%nat -> wordch (at_ i) = true) /\
  ((word_end b s < es)%nat -> wordch (at_ (word_end b s)) = false).
Proof.
  unfold word_end. assert (forall n s, (es - s <= n)%nat -> let s' := word_loop b n s in (s <= s')%nat /\ ((s <= es)%nat -> (s' <= es)%nat) /\
    (forall i, (s <= i < s')%nat -> wordch (at_ i) = true) /\ ((s' < es)%nat -> wordch (at_ s') = false)) as H; [|by apply H].
  clear s. induction n as [|n IH]; intros s Hn; cbn [word_loop]; [cbv zeta; split_and!; try lia; intros; exfalso; lia|].
  destruct ((s <? es)%nat && wordch (at_ s)) eqn:E; cbv zeta.
  - apply andb_true_iff in E as [E1%Nat.ltb_lt E2]. destruct (IH (S s) ltac:(lia)) as (H1 & H2 & H3 & H4). cbv zeta in *. split_and!; try done; [lia|lia|].
    intros i Hi. destruct (decide (i = s)) as [->|]; [done|apply H3; lia].
  - split_and!; try lia. intros Hs. apply andb_false_iff in E as [E|E]; [apply Nat.ltb_ge in E; lia|done].
Qed.

(** A string that the parser cut out: word characters, and none right after. *)
Definition word_ok (t : tok) : Prop :=
  (tq t < te t)%nat /\ (te t <= es)%nat /\ (forall i, (tq t <= i < te t)%nat -> wordch (at_ i) = true) /\ ((te t < es)%nat -> wordch (at_ (te t)) = false).

(** The code [m] at position [s] panics, or returns with [Q] at a later position. *)
Definition wp {A} (m : M nat A) (s : nat) (Q : A -> nat -> Prop) : Prop :=
  match m s with
  | Ret (a, s') => (s <= s' <= es)%nat /\ Q a s'
  | Panic _ => True
  | _ => False
  end.
Lemma wp_bind {A B} (m : M nat A) (f : A -> M nat B) s (Q : A -> nat -> Prop) (R : B -> nat -> Prop) :
  wp m s Q -> (forall a s', (s <= s' <= es)%nat -> Q a s' -> wp (f a) s' R) -> wp (kbind m f) s R.
Proof.
  unfold wp, kbind. intros Hm Hf. destruct (m s) as [[a s']| | |]; try done. destruct Hm as [Hs HQ]. specialize (Hf a s' Hs HQ).
  destruct (f a s') as [[r s2]| | |]; try done. destruct Hf. split; [lia|done].
Qed.
Lemma wp_ret {A} (a : A) s (Q : A -> nat -> Prop) : (s <= es)%nat -> Q a s -> wp (kret a) s Q.
Proof. intros. split; [lia|done]. Qed.
Lemma wp_mono {A} (m : M nat A) s (Q Q' : A -> nat -> Prop) : wp m s Q -> (forall a s', (s <= s')%nat -> Q a s' -> Q' a s') -> wp m s Q'.
Proof. unfold wp. intros H X. destruct (m s) as [[a s']| | |]; try done. destruct H as [? ?]. split; [done|]. apply X; [lia|done]. Qed.

Lemma peek_wp toks s : (s <= es)%nat -> wp (peek b toks) s (fun p s' => s' = skip b s /\ p = negb (at_ s' =? 0) && isin toks (at_ s')).
Proof. intros Hs. unfold wp, peek, kbind, gets, modify, kret, id. destruct (skip_spec s) as (H1 & H2 & _). specialize (H2 Hs). split; [lia|done]. Qed.
Lemma gettoken_wp s : (s <= es)%nat ->
  wp (gettoken b) s (fun r s' => ((skip b s < es)%nat -> r.1 <> 0) /\ (r.1 <> 0 -> (s < s')%nat) /\ (r.1 = ch "a" -> word_ok r.2)).
Proof.
  intros Hs. unfold wp, gettoken, kbind, gets, modify, kret, id. destruct (skip_spec s) as (H1 & H2 & _ & H4). specialize (H2 Hs).
  set (t := skip b s) in *. assert (forall x, (t <= x)%nat -> (x <= es)%nat -> (s <= skip b x <= es)%nat /\ (x <= skip b x)%nat) as Sk.
  { intros x Hx Hx'. destruct (skip_spec x) as (K1 & K2 & _). specialize (K2 Hx'). lia. }
  destruct (at_ t =? 0) eqn:E0; [|assert (t < es)%nat as Ht by (destruct (decide (t < es)%nat) as [|Hn]; [done|rewrite (at_end t) in E0 by lia; discriminate E0])].
  { destruct (Sk t) as [? ?]; [lia..|]. split; [lia|]. cbn [fst snd]. split; [intros Hlt; exfalso; assert (at_ t = 0) as E by lia; apply at_zero in E; lia|]. split; [done|]. intros [=]. }
  destruct (isin (chars "|();&<") (at_ t)) eqn:E1.
  { destruct (Sk (S t)) as [? ?]; [lia..|]. split; [lia|]. cbn [fst snd]. split; [lia|]. split; [lia|]. intros Ea. rewrite Ea in E1. discriminate E1. }
  destruct (at_ t =? ch ">") eqn:E2.
  { destruct (at_ (S t) =? ch ">") eqn:E3.
    - assert (S t < es)%nat by (destruct (decide (S t < es)%nat) as [|Hn]; [done|rewrite (at_end (S t)) in E3 by lia; discriminate E3]).
      destruct (Sk (S (S t))) as [? ?]; [lia..|]. split; [lia|]. cbn [fst snd]. split; [discriminate|]. split; [lia|]. intros [=].
    - destruct (Sk (S t)) as [? ?]; [lia..|]. split; [lia|]. cbn [fst snd]. split; [discriminate|]. split; [lia|]. intros [=]. }
  destruct (word_spec t) as (W1 & W2 & W3 & W4). specialize (W2 ltac:(lia)).
  assert (t < word_end b t)%nat as Hw.
  { destruct (decide (word_end b t = t)) as [Et|]; [|lia]. exfalso. rewrite Et in W4. specialize (W4 Ht). unfold wordch in W4. rewrite (H4 Ht) in W4.
    cbn [negb andb] in W4. apply negb_false_iff in W4. apply symbol_cases in W4 as [W4|W4]; [congruence|lia]. }
  destruct (Sk (word_end b t)) as [? ?]; [lia..|]. split; [lia|]. cbn [fst snd]. split; [discriminate|]. split; [lia|]. intros _. by split_and!.
Qed.

(** ** All the functions of the parser *)
Definition words_ok (c : cmd) : Prop := Forall word_ok (toks c).
Definition redirs_ok (rs : list redir) : Prop := Forall (fun r => word_ok (rfile r)) rs.
Lemma wrap_ok c rs : words_ok c -> redirs_ok rs -> words_ok (wrap c rs).
Proof.
  unfold wrap. revert c. induction rs as [|r rs IH]; intros c Hc Hr; [done|]. apply Forall_cons in Hr as [Hr Hrs]. apply IH; [|done].
  unfold words_ok. cbn. apply Forall_app. split; [done|]. by apply Forall_singleton.
Qed.
Lemma redir_of_file t f : rfile (redir_of t f) = f.
Proof. unfold redir_of. by repeat case_match. Qed.

Lemma peek_true toks s s' : s' = skip b s -> true = negb (at_ s' =? 0) && isin toks (at_ s') -> (s' < es)%nat /\ isin toks (at_ s') = true /\ ws (at_ s') = false.
Proof.
  intros -> H. symmetry in H. apply andb_true_iff in H as [H1 H2]. assert (skip b s < es)%nat as Hlt.
  { destruct (decide (skip b s < es)%nat) as [|Hn]; [done|]. rewrite at_end in H1 by lia. discriminate H1. }
  split; [done|]. split; [done|]. by apply skip_spec.
Qed.
(** After a successful peek, gettoken moves on. *)
Lemma gettoken_moves s : (s < es)%nat -> ws (at_ s) = false -> wp (gettoken b) s (fun r s' => (s < s')%nat).
Proof.
  intros Hs Hw. eapply wp_mono; [apply gettoken_wp; lia|]. intros r s' _ (H1 & H2 & _). apply H2, H1.
  destruct (skip_spec s) as (K1 & K2 & K3 & _). specialize (K2 ltac:(lia)). destruct (decide (skip b s = s)) as [E|]; [lia|].
  rewrite K3 in Hw by lia. discriminate Hw.
Qed.
(** [peek] and then, if it succeeds, [gettoken]. *)
Lemma peek_then {A} toks s (f : bool -> M nat A) Q : (s <= es)%nat ->
  (forall s', (s <= s' <= es)%nat -> wp (f false) s' Q) ->
  (forall s', (s <= s' < es)%nat -> ws (at_ s') = false -> wp (f true) s' Q) -> wp (kbind (peek b toks) f) s Q.
Proof.
  intros Hs Hf Ht. eapply wp_bind; [by apply peek_wp|]. intros p s' Hs' [E1 E2]. destruct p; [|by apply Hf].
  destruct (peek_true toks s s' E1 E2) as (? & _ & ?). apply Ht; [lia|done].
Qed.
Lemma token_then {A} s (f : Z * tok -> M nat A) Q : (s < es)%nat -> ws (at_ s) = false -> (forall r s', (s < s' <= es)%nat -> wp (f r) s' Q) -> wp (kbind (gettoken b) f) s Q.
Proof. intros H1 H2 Hf. eapply wp_bind; [by apply gettoken_moves|]. intros r s' H3 H4. cbv beta in H4. apply Hf. lia. Qed.

Lemma parseredirs_wp : forall fuel rs s, (s <= es)%nat -> (es - s < fuel)%nat -> redirs_ok rs -> wp (parseredirs b fuel rs) s (fun rs' _ => redirs_ok rs').
Proof.
  induction fuel as [|fuel IH]; intros rs s Hs Hf Hr; [lia|]. cbn [parseredirs]. apply peek_then; [done| |].
  - intros s' ?. apply wp_ret; [lia|done].
  - intros s' ? Hw. apply token_then; [lia|done|]. intros t s1 ?. eapply wp_bind; [apply gettoken_wp; lia|]. intros f s2 ? (_ & F2 & F3).
    destruct (f.1 =? ch "a") eqn:E; cbn [negb]; [|done]. apply Z.eqb_eq in E. apply IH; [lia|lia|].
    apply Forall_app. split; [done|]. apply Forall_singleton. rewrite redir_of_file. by apply F3.
Qed.
Lemma parseargs_wp : forall fuel argv rs s, (s <= es)%nat -> (es - s < fuel)%nat -> Forall word_ok argv -> redirs_ok rs -> wp (parseargs b fuel argv rs) s (fun c _ => words_ok c).
Proof.
  induction fuel as [|fuel IH]; intros argv rs s Hs Hf Ha Hr; [lia|]. cbn [parseargs].
  assert (forall s', (s' <= es)%nat -> wp (kret (wrap (EXEC argv) rs)) s' (fun c _ => words_ok c)) as Done.
  { intros s' ?. apply wp_ret; [lia|]. by apply wrap_ok. }
  apply peek_then; [done| |intros; apply Done; lia]. intros s' ?. eapply wp_bind; [apply gettoken_wp; lia|]. intros t s1 ? (_ & T2 & T3).
  destruct (t.1 =? 0) eqn:E0; [apply Done; lia|]. destruct (t.1 =? ch "a") eqn:E; cbn [negb]; [|done]. apply Z.eqb_eq in E. specialize (T2 ltac:(lia)).
  case_match; [done|]. eapply wp_bind; [apply parseredirs_wp; [lia|lia|done]|]. intros rs' s2 ? Hr'. apply IH; [lia|lia| |done].
  apply Forall_app. split; [done|]. apply Forall_singleton. by apply T3.
Qed.
Lemma parseback_wp : forall fuel c s, (s <= es)%nat -> (es - s < fuel)%nat -> words_ok c -> wp (parseback b fuel c) s (fun c' _ => words_ok c').
Proof.
  induction fuel as [|fuel IH]; intros c s Hs Hf Hc; [lia|]. cbn [parseback]. apply peek_then; [done| |].
  - intros s' ?. apply wp_ret; [lia|done].
  - intros s' ? Hw. apply token_then; [lia|done|]. intros t s1 ?. apply IH; [lia|lia|done].
Qed.
Lemma parse_wp fuel : forall s, (s <= es)%nat ->
  ((4 * (es - s) + 4 <= fuel)%nat -> wp (parseline b fuel) s (fun c _ => words_ok c)) /\
  ((4 * (es - s) + 3 <= fuel)%nat -> wp (parsepipe b fuel) s (fun c _ => words_ok c)) /\
  ((4 * (es - s) + 2 <= fuel)%nat -> wp (parseexec b fuel) s (fun c _ => words_ok c)) /\
  ((4 * (es - s) + 1 <= fuel)%nat -> wp (parseblock b fuel) s (fun c _ => words_ok c)).
Proof.
  induction fuel as [|fuel IH]; intros s Hs; [split_and!; intros; exfalso; lia|]. split_and!; intros Hf.
  - cbn [parseline]. eapply wp_bind; [apply IH; lia|]. intros c s1 ? Hc. eapply wp_bind; [apply parseback_wp; [lia|lia|done]|]. intros c' s2 ? Hc'.
    apply peek_then; [lia|intros; apply wp_ret; [lia|done]|]. intros s3 ? Hw. apply token_then; [lia|done|]. intros t s4 ?.
    eapply wp_bind; [apply IH; lia|]. intros r s5 ? Hr. apply wp_ret; [lia|]. by apply Forall_app.
  - cbn [parsepipe]. eapply wp_bind; [apply IH; lia|]. intros c s1 ? Hc.
    apply peek_then; [lia|intros; apply wp_ret; [lia|done]|]. intros s3 ? Hw. apply token_then; [lia|done|]. intros t s4 ?.
    eapply wp_bind; [apply IH; lia|]. intros r s5 ? Hr. apply wp_ret; [lia|]. by apply Forall_app.
  - cbn [parseexec]. apply peek_then; [lia| |intros s1 ? Hw; apply IH; lia]. intros s1 ?.
    eapply wp_bind; [apply parseredirs_wp; [lia|lia|constructor]|]. intros rs s2 ? Hr. apply parseargs_wp; [lia|lia|constructor|done].
  - cbn [parseblock]. apply peek_then; [lia|done|]. intros s1 ? Hw. cbn [negb]. apply token_then; [lia|done|]. intros t s2 ?.
    eapply wp_bind; [apply IH; lia|]. intros c s3 ? Hc. apply peek_then; [lia|done|]. intros s4 ? Hw4. cbn [negb]. apply token_then; [lia|done|]. intros t' s5 ?.
    eapply wp_bind; [apply parseredirs_wp; [lia|lia|constructor]|]. intros rs s6 ? Hr. apply wp_ret; [lia|]. by apply wrap_ok.
Qed.
End parse.

(** ** The strings after nulterminate *)
Lemma nulterminate_foldl c : forall m, nulterminate c m = foldl (fun m t => <[te t := 0]> m) m (toks c).
Proof.
  induction c as [argv|c IH r|l IHl r IHr|l IHl r IHr|c IH]; intros m; cbn [nulterminate toks]; [done| | | |apply IH].
  - by rewrite foldl_snoc, IH.
  - by rewrite foldl_app, IHl, IHr.
  - by rewrite foldl_app, IHl, IHr.
Qed.
Lemma nul_lookup ts m i : (i < length m)%nat -> foldl (fun m t => <[te t := 0]> m) m ts !! i = if decide (i ∈ te <$> ts) then Some 0 else m !! i.
Proof.
  revert m. induction ts as [|t ts IH]; intros m Hi; cbn [foldl]; [done|]. rewrite IH by (by rewrite length_insert). rewrite fmap_cons.
  destruct (decide (i = te t)) as [->|Hne].
  - rewrite list_lookup_insert_eq by done. repeat case_decide; set_solver.
  - rewrite list_lookup_insert_ne by done. repeat case_decide; set_solver.
Qed.
Lemma cstring_split m n : (forall i, (i < n)%nat -> exists x, m !! i = Some x /\ x <> 0) -> m !! n = Some 0 -> cstring m = take n m.
Proof.
  revert m. induction n as [|n IH]; intros m H Hn; destruct m as [|x m]; try done; cbn [cstring take].
  - cbn in Hn. injection Hn as ->. done.
  - destruct (H 0%nat ltac:(lia)) as (y & [= <-] & Hy). replace (x =? 0) with false by lia. f_equal. apply IH; [|done].
    intros i Hi. apply (H (S i)). lia.
Qed.

(** C19: the parser always ends, and its strings are right.  On every command line
    without NULs, parsecmd returns a command or reports a syntax error: no input
    makes it recurse or loop for ever.  When it returns, nulterminate makes every
    argument and file name of the command the C string that the parser cut out
    of the line: no NUL it writes falls into another string. *)
Theorem parsecmd_strings b : Forall (fun c => c <> 0) b ->
  match parsecmd b with
  | Ret c => Forall (fun t => text b t <> [] /\ cstring (drop (tq t) (nulterminate c (b ++ [0]))) = text b t) (toks c)
  | Panic _ => True
  | _ => False
  end.
Proof.
  intros Hb. destruct (parse_wp b Hb (parse_fuel b) 0%nat ltac:(lia)) as (H & _). unfold parsecmd, parse_fuel in *. specialize (H ltac:(lia)). unfold wp in H.
  destruct (parseline b (4 * es b + 8) 0%nat) as [[c s]| | |]; try done. destruct H as [_ H]. destruct (skip b s =? es b)%nat; [|done]. apply Forall_forall. intros t Ht.
  unfold words_ok in H. pose proof (proj1 (Forall_forall _ _) H) as HW. destruct (HW t Ht) as (T1 & T2 & T3 & T4). unfold es in T2.
  assert (forall i, (tq t <= i < te t)%nat -> exists x, b !! i = Some x /\ x <> 0 /\ i ∉ te <$> toks c) as In.
  { intros i Hi. destruct (lookup_lt_is_Some_2 b i ltac:(lia)) as [x Hx]. exists x. split; [done|]. split; [by eapply Forall_lookup in Hb|].
    intros (t' & -> & Ht')%list_elem_of_fmap. destruct (HW t' Ht') as (_ & _ & _ & U4). rewrite T3 in U4 by done. unfold es in U4. specialize (U4 ltac:(lia)). discriminate U4. }
  assert (length (text b t) = te t - tq t)%nat as Hlen by (unfold text; rewrite length_take, length_drop; lia).
  split; [intros E; rewrite E in Hlen; cbn in Hlen; lia|]. rewrite nulterminate_foldl.
  rewrite (cstring_split _ (te t - tq t)).
  - apply list_eq. intros i. destruct (decide (i < te t - tq t)%nat) as [Hi|Hi]; [|rewrite (lookup_ge_None_2 (text b t)) by lia; apply lookup_ge_None_2; rewrite length_take; lia].
    unfold text. rewrite !lookup_take_lt, !lookup_drop by done. destruct (In (tq t + i)%nat ltac:(lia)) as (x & Hx & _ & Hn).
    rewrite nul_lookup by (rewrite length_app; cbn; lia). rewrite decide_False by done. by rewrite lookup_app_l by lia.
  - intros i Hi. destruct (In (tq t + i)%nat ltac:(lia)) as (x & Hx & Hx0 & Hn). exists x. split; [|done]. rewrite lookup_drop.
    rewrite nul_lookup by (rewrite length_app; cbn; lia). rewrite decide_False by done. by rewrite lookup_app_l by lia.
  - rewrite lookup_drop. replace (tq t + (te t - tq t))%nat with (te t) by lia. rewrite nul_lookup by (rewrite length_app; cbn; lia).
    rewrite decide_True; [done|]. apply list_elem_of_fmap. by exists t.
Qed.
Definition sh_line : list Z := chars "cat<in|wc -l>out&".
Lemma parsecmd_strings_witness :
  match parsecmd sh_line with
  | Ret c => cstring <$> ((fun t => drop (tq t) (nulterminate c (sh_line ++ [0]))) <$> toks c) = [chars "cat"; chars "in"; chars "wc"; chars "-l"; chars "out"] /\
      Forall (fun t => text sh_line t <> [] /\ cstring (drop (tq t) (nulterminate c (sh_line ++ [0]))) = text sh_line t) (toks c)
  | _ => False
  end.
Proof.
  assert (Forall (fun c => c <> 0) sh_line) as Hb by (apply (Forall_forall (fun c => c <> 0)); intros x Hx; apply list_elem_of_In in Hx; cbn in Hx; lia).
  pose proof (parsecmd_strings sh_line Hb) as H.
  replace (parsecmd sh_line) with (Ret (BACK (PIPE (REDIR (EXEC [mkTok 0 3]) (mkRedir (mkTok 4 6) Rd 0)) (REDIR (EXEC [mkTok 7 9; mkTok 10 12]) (mkRedir (mkTok 13 16) WrTrunc 1)))) : res cmd) in * by (vm_compute; reflexivity).
  split; [vm_compute; reflexivity|exact H].
Defined.
