(* ===== verification/ShRound.v ===== *)
(** * Printing a command line and parsing it back *)
From S2P Require Import Prelude Printf Grep Sh ShParse.

(** ** The grammar, with strings for words *)
Abbreviation word := (list Z).
Record sredir := mkS { s_mode : mode; s_file : word }.
Inductive line := Last (p : pipe) (amps : nat) | Seq (p : pipe) (amps : nat) (l : line)
with pipe := Single (e : exec) | Pipe (e : exec) (p : pipe)
with exec := Simple (rs : list sredir) (args : list (word * list sredir)) | Block (l : line) (rs : list sredir).

Definition show_op (m : mode) : list Z := match m with Rd => chars "<" | WrTrunc => chars ">" | WrApp => chars ">>" end.
Definition show_redir (r : sredir) : list Z := show_op (s_mode r) ++ s_file r ++ [32].
Definition show_redirs (rs : list sredir) : list Z := concat (show_redir <$> rs).
Definition show_args (args : list (word * list sredir)) : list Z := concat ((fun a => a.1 ++ [32] ++ show_redirs a.2) <$> args).
Fixpoint show_line (l : line) : list Z :=
  match l with
  | Last p n => show_pipe p ++ replicate n (ch "&")
  | Seq p n l => show_pipe p ++ replicate n (ch "&") ++ chars ";" ++ show_line l
  end
with show_pipe (p : pipe) : list Z :=
  match p with
  | Single e => show_exec e
  | Pipe e p => show_exec e ++ chars "|" ++ show_pipe p
  end
with show_exec (e : exec) : list Z :=
  match e with
  | Simple rs args => show_redirs rs ++ show_args args
  | Block l rs => chars "(" ++ show_line l ++ chars ")" ++ show_redirs rs
  end.

(** Commands with the strings themselves. *)
Inductive tcmd :=
| TExec (argv : list word) | TRedir (c : tcmd) (file : word) (m : mode) (fd : nat)
| TPipe (l r : tcmd) | TList (l r : tcmd) | TBack (c : tcmd).
Fixpoint erase (b : list Z) (c : cmd) : tcmd :=
  match c with
  | EXEC argv => TExec (text b <$> argv)
  | REDIR c r => TRedir (erase b c) (text b (rfile r)) (rmode r) (rfd r)
  | PIPE l r => TPipe (erase b l) (erase b r)
  | LIST l r => TList (erase b l) (erase b r)
  | BACK c => TBack (erase b c)
  end.
Definition fd_of (m : mode) : nat := match m with Rd => 0 | _ => 1 end.
Definition twrap (c : tcmd) (rs : list sredir) : tcmd := foldl (fun c r => TRedir c (s_file r) (s_mode r) (fd_of (s_mode r))) c rs.
(** What the grammar means: a redirection applies to the whole command, wherever
    it stands among the arguments; [&] binds tighter than [;] and looser than
    [|]; [|] and [;] group to the right. *)
Fixpoint tree_line (l : line) : tcmd :=
  match l with
  | Last p n => Nat.iter n TBack (tree_pipe p)
  | Seq p n l => TList (Nat.iter n TBack (tree_pipe p)) (tree_line l)
  end
with tree_pipe (p : pipe) : tcmd :=
  match p with
  | Single e => tree_exec e
  | Pipe e p => TPipe (tree_exec e) (tree_pipe p)
  end
with tree_exec (e : exec) : tcmd :=
  match e with
  | Simple rs args => twrap (TExec args.*1) (rs ++ concat args.*2)
  | Block l rs => twrap (tree_line l) rs
  end.

(** Words are not empty and have word characters; a command has fewer than
    MAXARGS arguments. *)
Definition word_wf (w : word) : Prop := w <> [] /\ Forall (fun c => c <> 0 /\ wordch c = true) w.
Lemma word_wf_dec w : w <> [] -> forallb (fun c => negb (c =? 0) && wordch c) w = true -> word_wf w.
Proof.
  intros Hn H. split; [done|]. apply Forall_forall. intros c Hc%list_elem_of_In. rewrite forallb_forall in H.
  apply H, andb_true_iff in Hc as [H1%negb_true_iff H2]. split; [lia|done].
Qed.
Definition redirs_wf (rs : list sredir) : Prop := Forall (fun r => word_wf (s_file r)) rs.
Fixpoint line_wf (l : line) : Prop :=
  match l with
  | Last p n => pipe_wf p
  | Seq p n l => pipe_wf p /\ line_wf l
  end
with pipe_wf (p : pipe) : Prop :=
  match p with
  | Single e => exec_wf e
  | Pipe e p => exec_wf e /\ pipe_wf p
  end
with exec_wf (e : exec) : Prop :=
  match e with
  | Simple rs args => redirs_wf rs /\ Forall (fun a => word_wf a.1 /\ redirs_wf a.2) args /\ (length args < MAXARGS)%nat
  | Block l rs => line_wf l /\ redirs_wf rs
  end.

(** ** The scanner on what is left of the line *)
Fixpoint dropws (r : list Z) : list Z := match r with c :: r' => if ws c then dropws r' else r | [] => [] end.
(** The first character of [k] that is not blank, if any, is in [l]. *)
Definition next_in (l : list Z) (k : list Z) : Prop := match dropws k with c :: _ => c ∈ l | [] => True end.

Lemma isin_chars x c : Forall (fun x => x <> 0) (chars x) -> isin (chars x) c = true -> In c (chars x).
Proof. intros Hx H. apply list_elem_of_In. by apply isin_spec. Qed.
(** Case analysis on a character of a string of the source. *)
Ltac in_cases H := apply isin_chars in H; [cbn in H; repeat (destruct H as [<-|H]; [try reflexivity; try discriminate|]); try done|repeat constructor; discriminate].
Lemma wordch_out x c : forallb (fun y => isin symbols y) (chars x) = true -> Forall (fun y => y <> 0) (chars x) -> wordch c = true -> isin (chars x) c = false.
Proof.
  intros Hx Hz Hc. apply not_true_iff_false. intros H%isin_chars; [|done]. rewrite forallb_forall in Hx. specialize (Hx c H).
  unfold wordch in Hc. rewrite Hx, andb_false_r in Hc. discriminate Hc.
Qed.
Ltac word_out := intros ? ?; apply wordch_out; [reflexivity|repeat constructor; discriminate|done].
Section round.
Context (b : list Z).
Abbreviation es := (es b).
Abbreviation at_ := (at_ b).

Lemma at_drop s c r : drop s b = c :: r -> at_ s = c /\ (s < es)%nat /\ drop (S s) b = r.
Proof.
  intros H. assert (b !! s = Some c) as Hc by (rewrite <- (Nat.add_0_r s), <- lookup_drop, H; done).
  unfold Sh.at_, Sh.es. rewrite nth_lookup, Hc. split; [done|]. split; [by apply lookup_lt_Some in Hc|].
  rewrite <- (Nat.add_1_r s), <- drop_drop, H. done.
Qed.
Lemma at_drop_nil s : drop s b = [] -> at_ s = 0 /\ (es <= s)%nat.
Proof.
  intros H. assert (es <= s)%nat as Hs by (apply (f_equal length) in H; rewrite length_drop in H; cbn in H; unfold Sh.es; lia).
  split; [|done]. unfold Sh.at_. by apply nth_overflow.
Qed.
Lemma skip_drop s : drop (skip b s) b = dropws (drop s b).
Proof.
  unfold skip. assert (forall n s, (es - s <= n)%nat -> drop (skip_loop b n s) b = dropws (drop s b)) as H; [|by apply H].
  clear s. induction n as [|n IH]; intros s Hn; cbn [skip_loop].
  - rewrite drop_ge by (unfold Sh.es in Hn; lia). done.
  - destruct (drop s b) as [|c r] eqn:E.
    + destruct (at_drop_nil s E) as [_ Hs]. replace (s <? es)%nat with false by (symmetry; by apply Nat.ltb_ge). cbn. done.
    + destruct (at_drop s c r E) as (Hc & Hs & Hr). replace (s <? es)%nat with true by (symmetry; by apply Nat.ltb_lt). rewrite Hc. cbn [andb dropws].
      destruct (ws c); [|done]. rewrite IH by lia. by rewrite Hr.
Qed.
Lemma word_drop s w r : drop s b = w ++ r -> Forall (fun c => wordch c = true) w -> match r with c :: _ => wordch c = false | [] => True end ->
  word_end b s = (s + length w)%nat.
Proof.
  unfold word_end. assert (forall n s w, (es - s <= n)%nat -> drop s b = w ++ r -> Forall (fun c => wordch c = true) w ->
    match r with c :: _ => wordch c = false | [] => True end -> word_loop b n s = (s + length w)%nat) as H; [|intros; by eapply H].
  clear s w. induction n as [|n IH]; intros s w Hn E Hw Hr; cbn [word_loop].
  - rewrite drop_ge in E by (unfold Sh.es in Hn; lia). symmetry in E. apply app_eq_nil in E as [-> _]. cbn. lia.
  - destruct w as [|c w]; cbn [app length] in *.
    + destruct r as [|c r].
      * destruct (at_drop_nil s E) as [_ Hs]. replace (s <? es)%nat with false by (symmetry; by apply Nat.ltb_ge). cbn. lia.
      * destruct (at_drop s c r E) as (-> & _ & _). rewrite Hr, andb_false_r. lia.
    + destruct (at_drop s c _ E) as (Hc & Hs & Hr'). replace (s <? es)%nat with true by (symmetry; by apply Nat.ltb_lt). rewrite Hc.
      apply Forall_cons in Hw as [-> Hw]. cbn [andb]. rewrite (IH (S s) w); [lia|lia|done|done|done].
Qed.

Lemma dropws_idem r : dropws (dropws r) = dropws r.
Proof. induction r as [|c r IH]; [done|]. cbn. destruct (ws c) eqn:E; [done|]. cbn. by rewrite E. Qed.
Lemma dropws_len r : (length (dropws r) <= length r)%nat.
Proof. induction r as [|c r IH]; [done|]. cbn. destruct (ws c); cbn; lia. Qed.
Lemma dropws_nz r : Forall (fun c => c <> 0) r -> Forall (fun c => c <> 0) (dropws r).
Proof. induction 1 as [|c r Hc Hr IH]; [done|]. cbn. destruct (ws c); [done|]. by constructor. Qed.

(** [peek] at a position looks at the rest of the line. *)
Definition sees (toks r : list Z) : bool := match dropws r with c :: _ => isin toks c | [] => false end.
Lemma peek_run toks s : Forall (fun c => c <> 0) (drop s b) ->
  peek b toks s = Ret (sees toks (drop s b), skip b s).
Proof.
  intros Hz. unfold peek, kbind, gets, modify, kret, id, sees. rewrite <- skip_drop. destruct (drop (skip b s) b) as [|c r] eqn:E.
  - destruct (at_drop_nil _ E) as [-> _]. done.
  - destruct (at_drop _ _ _ E) as (-> & _). assert (c <> 0).
    { pose proof (dropws_nz _ Hz) as H. rewrite <- skip_drop, E in H. by apply Forall_cons in H as [? _]. }
    by replace (c =? 0) with false by lia.
Qed.

Context (Hb : Forall (fun c => c <> 0) b).
Lemma drop_nz s : Forall (fun c => c <> 0) (drop s b).
Proof. by apply Forall_drop. Qed.
(** At [s] what is left is [r], up to blanks. *)
Definition here (s : nat) (r : list Z) : Prop := dropws (drop s b) = dropws r.
(** [m] at [s] returns [a], and [r] is left. *)
Definition yields {A} (m : M nat A) (s : nat) (a : A) (r : list Z) : Prop := exists s', m s = Ret (a, s') /\ here s' r.
Lemma yields_bind {A B} (m : M nat A) (f : A -> M nat B) s a r c r' :
  yields m s a r -> (forall s', here s' r -> yields (f a) s' c r') -> yields (kbind m f) s c r'.
Proof. intros (s' & E & H) Hf. destruct (Hf s' H) as (s2 & E2 & H2). exists s2. by rewrite (kbind_ret _ _ _ _ _ E). Qed.
Lemma yields_ret {A} (a : A) s r : here s r -> yields (kret a) s a r.
Proof. intros H. by exists s. Qed.
Lemma yields_peek toks s r : here s r -> yields (peek b toks) s (sees toks r) r.
Proof.
  intros H. exists (skip b s). split; [|unfold here; by rewrite skip_drop, dropws_idem]. rewrite peek_run by apply drop_nz. unfold sees. by rewrite H.
Qed.

Lemma token_at s c r : here s (c :: r) -> ws c = false -> drop (skip b s) b = c :: r /\ at_ (skip b s) = c /\ c <> 0 /\ drop (S (skip b s)) b = r.
Proof.
  intros H Hc. unfold here in H. cbn [dropws] in H. rewrite Hc, <- skip_drop in H. destruct (at_drop _ _ _ H) as (E & _ & E'). split_and!; try done.
  pose proof (drop_nz (skip b s)) as Hz. rewrite H in Hz. by apply Forall_cons in Hz as [? _].
Qed.
Lemma here_skip s r : drop s b = r -> here (skip b s) r.
Proof. intros <-. unfold here. by rewrite skip_drop, dropws_idem. Qed.
Lemma gettoken_sym s c r : here s (c :: r) -> isin (chars "|();&<") c = true -> ws c = false -> exists t, yields (gettoken b) s (c, t) r.
Proof.
  intros H Hc Hw. destruct (token_at s c r H Hw) as (H1 & H2 & H3 & H4). exists (mkTok (skip b s) (S (skip b s))), (skip b (S (skip b s))).
  split; [|by apply here_skip]. unfold gettoken, kbind, gets, modify, kret, id. rewrite H2. replace (c =? 0) with false by lia. by rewrite Hc.
Qed.
Lemma gettoken_gt s r : here s (ch ">" :: r) -> match r with c :: _ => c <> ch ">" | [] => True end -> exists t, yields (gettoken b) s (ch ">", t) r.
Proof.
  intros H Hr. destruct (token_at s _ r H eq_refl) as (H1 & H2 & H3 & H4). exists (mkTok (skip b s) (S (skip b s))), (skip b (S (skip b s))).
  split; [|by apply here_skip]. unfold gettoken, kbind, gets, modify, kret, id. rewrite H2. change (ch ">" =? 0) with false. cbv iota.
  change (isin (chars "|();&<") (ch ">")) with false. rewrite Z.eqb_refl. destruct r as [|c r].
  - destruct (at_drop_nil _ H4) as [-> _]. done.
  - destruct (at_drop _ _ _ H4) as (-> & _). by replace (c =? ch ">") with false by lia.
Qed.
Lemma gettoken_app s r : here s (ch ">" :: ch ">" :: r) -> exists t, yields (gettoken b) s (ch "+", t) r.
Proof.
  intros H. destruct (token_at s _ _ H eq_refl) as (H1 & H2 & H3 & H4). destruct (at_drop _ _ _ H4) as (H5 & _ & H6).
  exists (mkTok (skip b s) (S (S (skip b s)))), (skip b (S (S (skip b s)))).
  split; [|by apply here_skip]. unfold gettoken, kbind, gets, modify, kret, id. rewrite H2, H5. change (ch ">" =? 0) with false. cbv iota.
  change (isin (chars "|();&<") (ch ">")) with false. rewrite Z.eqb_refl. done.
Qed.
Lemma gettoken_end s r : here s r -> dropws r = [] -> exists t, yields (gettoken b) s (0, t) r.
Proof.
  intros H Hr. unfold here in H. rewrite Hr, <- skip_drop in H. destruct (at_drop_nil _ H) as [E _]. exists (mkTok (skip b s) (skip b s)), (skip b (skip b s)).
  split; [|unfold here; by rewrite skip_drop, H, Hr]. unfold gettoken, kbind, gets, modify, kret, id. by rewrite E.
Qed.
Lemma wordch_not c : wordch c = true -> ws c = false /\ isin (chars "|();&<") c = false /\ c <> ch ">".
Proof.
  unfold wordch. intros [H1%negb_true_iff H2%negb_true_iff]%andb_true_iff. split; [done|]. split.
  - apply not_true_iff_false. intros H. apply not_true_iff_false in H2. apply H2. rewrite isin_spec by apply symbols_nz.
    apply isin_spec in H; [|apply (Forall_forall (fun x => x <> 0)); intros x Hx; apply list_elem_of_In in Hx; cbn in Hx; lia].
    apply list_elem_of_In in H. apply list_elem_of_In. cbn in *. tauto.
  - intros ->. discriminate H2.
Qed.
Lemma dropws_word w r : word_wf w -> dropws (w ++ r) = w ++ r.
Proof. intros [Hn Hw]. destruct w as [|c w]; [done|]. apply Forall_cons in Hw as [[_ Hc] _]. cbn. by rewrite (proj1 (wordch_not c Hc)). Qed.
Lemma gettoken_word s w r : here s (w ++ r) -> word_wf w -> match r with c :: _ => wordch c = false | [] => True end ->
  exists t, text b t = w /\ yields (gettoken b) s (ch "a", t) r.
Proof.
  intros H Hwf Hr. pose proof Hwf as [Hn Hw]. pose proof H as Hd'. unfold here in Hd'. rewrite dropws_word, <- skip_drop in Hd' by done.
  assert (Forall (fun c => wordch c = true) w) as Hw' by (eapply Forall_impl; [exact Hw|]; by intros ? [_ ?]).
  pose proof (word_drop _ _ _ Hd' Hw' Hr) as He. exists (mkTok (skip b s) (word_end b (skip b s))).
  split; [unfold text; cbn [tq te]; rewrite He, Hd'; replace (skip b s + length w - skip b s)%nat with (length w) by lia; by rewrite take_app_length|].
  exists (skip b (word_end b (skip b s))). destruct w as [|c w]; [done|]. apply Forall_cons in Hw' as [Hc _]. destruct (wordch_not c Hc) as (Hws & Hsym & Hgt).
  cbn [app] in H. destruct (token_at s c _ H Hws) as (H1 & H2 & H3 & H4). split.
  - unfold gettoken, kbind, gets, modify, kret, id. rewrite H2. replace (c =? 0) with false by lia. rewrite Hsym. by replace (c =? ch ">") with false by lia.
  - apply here_skip. rewrite He, <- drop_drop, Hd'. by rewrite drop_app_length.
Qed.

(** ** The functions of the parser on what the grammar prints *)
Definition rmatch (r : redir) (x : sredir) : Prop := text b (rfile r) = s_file x /\ rmode r = s_mode x /\ rfd r = fd_of (s_mode x).
Definition stop (l k : list Z) : Prop := match dropws k with c :: _ => isin l c = true | [] => True end.
Lemma sees_stop l l' k : stop l k -> (forall c, isin l c = true -> isin l' c = false) -> sees l' k = false.
Proof. unfold stop, sees. destruct (dropws k) as [|c r]; [done|]. intros H X. by apply X. Qed.
Lemma stop_mono l l' k : stop l k -> (forall c, isin l c = true -> isin l' c = true) -> stop l' k.
Proof. unfold stop. destruct (dropws k) as [|c r]; [done|]. auto. Qed.
Lemma sees_word l w r : word_wf w -> (forall c, wordch c = true -> isin l c = false) -> sees l (w ++ r) = false.
Proof.
  intros Hw Hl. unfold sees. rewrite dropws_word by done. destruct Hw as [Hn Hw]. destruct w as [|c w]; [done|]. apply Forall_cons in Hw as [[_ Hc] _]. by apply Hl.
Qed.

Ltac step E := rewrite (kbind_ret _ _ _ _ _ E).
(** An operator and the file name after it. *)
Definition optok (m : mode) : Z := match m with Rd => ch "<" | WrTrunc => ch ">" | WrApp => ch "+" end.
Lemma op_yields m w k s : word_wf w -> here s (show_op m ++ w ++ k) -> sees (chars "<>") (show_op m ++ w ++ k) = true /\ exists t, yields (gettoken b) s (optok m, t) (w ++ k).
Proof.
  intros Hw Hs. destruct m; (split; [reflexivity|]); cbn [show_op chars app optok] in *.
  - by apply (gettoken_sym s (ch "<")).
  - apply gettoken_gt; [done|]. destruct Hw as [Hn Hw]. destruct w as [|c w]; [done|]. apply Forall_cons in Hw as [[_ Hc] _]. cbn. by apply wordch_not.
  - by apply gettoken_app.
Qed.
Lemma here_blank s r : here s (32 :: r) -> here s r.
Proof. intros H. exact H. Qed.
Lemma parseredirs_yields : forall fuel rs k acc s, here s (show_redirs rs ++ k) -> redirs_wf rs -> sees (chars "<>") k = false ->
  (length (show_redirs rs) < fuel)%nat -> exists rs', Forall2 rmatch rs' rs /\ yields (parseredirs b fuel acc) s (acc ++ rs') k.
Proof.
  induction fuel as [|fuel IH]; intros rs k acc s Hh Hwf Hk Hf; [lia|]. cbn [parseredirs]. destruct rs as [|[m w] rs].
  - exists []. split; [constructor|]. rewrite app_nil_r. eapply yields_bind; [by apply yields_peek|]. intros s' Hs'. cbn [show_redirs fmap list_fmap concat app]. rewrite Hk.
    by apply yields_ret.
  - apply Forall_cons in Hwf as [Hw Hwf]. cbn [s_file] in Hw. unfold show_redirs in Hh, Hf. cbn [fmap list_fmap concat] in Hh, Hf. fold (show_redirs rs) in Hh, Hf.
    unfold show_redir in Hh, Hf. cbn [s_mode s_file] in Hh, Hf. rewrite <- !app_assoc in Hh. rewrite !length_app in Hf. cbn [app length] in Hh, Hf.
    destruct (yields_peek (chars "<>") s _ Hh) as (s1 & E1 & H1). destruct (op_yields m w _ s1 Hw H1) as (Hsee & t & s2 & E2 & H2).
    destruct (gettoken_word s2 w _ H2 Hw eq_refl) as (f & Hft & s3 & E3 & H3%here_blank).
    destruct (IH rs k (acc ++ [redir_of (optok m) f]) s3 H3 Hwf Hk ltac:(lia)) as (rs' & HF & s4 & E4 & H4).
    exists (redir_of (optok m) f :: rs'). split; [constructor; [|done]; unfold rmatch; rewrite redir_of_file; by destruct m|].
    exists s4. split; [|done]. step E1. rewrite Hsee. step E2. step E3. cbn [fst snd]. rewrite Z.eqb_refl. cbn [negb]. rewrite E4. by rewrite <- app_assoc.
Qed.

Lemma parseargs_yields : forall fuel args k argv rs s, here s (show_args args ++ k) -> Forall (fun a => word_wf a.1 /\ redirs_wf a.2) args ->
  stop (chars "|)&;") k -> (length argv + length args < MAXARGS)%nat -> (length (show_args args) < fuel)%nat ->
  exists ts rs', text b <$> ts = args.*1 /\ Forall2 rmatch rs' (concat args.*2) /\ yields (parseargs b fuel argv rs) s (wrap (EXEC (argv ++ ts)) (rs ++ rs')) k.
Proof.
  induction fuel as [|fuel IH]; intros args k argv rs s Hh Hwf Hk Hlen Hf; [lia|]. cbn [parseargs]. destruct args as [|[w rw] args].
  - exists [], []. split; [done|]. split; [constructor|]. rewrite !app_nil_r. cbn in Hh. destruct (yields_peek (chars "|)&;") s k Hh) as (s1 & E1 & H1).
    unfold sees in E1. unfold stop in Hk. destruct (dropws k) as [|c r] eqn:Ek; [|rewrite Hk in E1; exists s1; by step E1].
    destruct (gettoken_end s1 k H1 Ek) as (t & s2 & E2 & H2). exists s2. step E1. step E2. done.
  - apply Forall_cons in Hwf as [[Hw Hrw] Hwf]. cbn [fst snd] in Hw, Hrw. unfold show_args in Hh, Hf. cbn [fmap list_fmap concat fst snd] in Hh, Hf. fold (show_args args) in Hh, Hf.
    rewrite <- !app_assoc in Hh. rewrite !length_app in Hf. cbn [app length] in Hh, Hf, Hlen.
    destruct (yields_peek (chars "|)&;") s _ Hh) as (s1 & E1 & H1). rewrite (sees_word _ w) in E1; [|done|word_out].
    destruct (gettoken_word s1 w _ H1 Hw eq_refl) as (t & Ht & s2 & E2 & H2%here_blank).
    assert (sees (chars "<>") (show_args args ++ k) = false) as Hsee.
    { destruct args as [|[w' rw'] args]; [apply (sees_stop _ _ _ Hk); intros c Hc; in_cases Hc|]. apply Forall_cons in Hwf as [[Hw' _] _].
      cbn [fst] in Hw'. unfold show_args. cbn [fmap list_fmap concat fst snd]. rewrite <- !app_assoc. apply sees_word; [done|word_out]. }
    destruct (parseredirs_yields fuel rw (show_args args ++ k) rs s2 H2 Hrw Hsee ltac:(lia)) as (rs1 & HF1 & s3 & E3 & H3).
    destruct (IH args k (argv ++ [t]) (rs ++ rs1) s3 H3 Hwf Hk ltac:(rewrite length_app; cbn; lia) ltac:(lia)) as (ts & rs2 & Hts & HF2 & s4 & E4 & H4).
    exists (t :: ts), (rs1 ++ rs2). split; [cbn; by rewrite Ht, Hts|]. split; [by apply Forall2_app|]. exists s4. split; [|done].
    step E1. step E2. cbn [fst snd]. change (ch "a" =? 0) with false. rewrite Z.eqb_refl. cbn [negb]. cbv iota.
    replace (MAXARGS <=? length (argv ++ [t]))%nat with false by (symmetry; apply Nat.leb_gt; rewrite length_app; cbn; lia).
    step E3. rewrite E4. by rewrite <- !app_assoc.
Qed.
Lemma parseback_yields : forall fuel n k c s, here s (replicate n (ch "&") ++ k) -> sees (chars "&") k = false -> (n < fuel)%nat ->
  yields (parseback b fuel c) s (Nat.iter n BACK c) k.
Proof.
  induction fuel as [|fuel IH]; intros n k c s Hh Hk Hf; [lia|]. cbn [parseback]. destruct (yields_peek (chars "&") s _ Hh) as (s1 & E1 & H1).
  destruct n as [|n]; cbn [replicate app] in *; [rewrite Hk in E1; exists s1; by step E1|].
  destruct (gettoken_sym s1 (ch "&") _ H1 eq_refl eq_refl) as (t & s2 & E2 & H2). destruct (IH n k (BACK c) s2 H2 Hk ltac:(lia)) as (s3 & E3 & H3).
  exists s3. split; [|done]. step E1. match goal with |- context [sees ?l ?r] => change (sees l r) with true end. cbv iota. step E2. rewrite E3. by rewrite Nat.iter_succ_r.
Qed.

Lemma erase_iter n c : erase b (Nat.iter n BACK c) = Nat.iter n TBack (erase b c).
Proof. induction n as [|n IH]; [done|]. rewrite !Nat.iter_succ. cbn [erase]. by rewrite IH. Qed.
Lemma erase_wrap rs' rs : Forall2 rmatch rs' rs -> forall c, erase b (wrap c rs') = twrap (erase b c) rs.
Proof.
  unfold wrap, twrap. induction 1 as [|r x rs' rs (H1 & H2 & H3) HF IH]; intros c; [done|]. cbn [foldl]. rewrite IH. cbn [erase]. by rewrite H1, H2, H3.
Qed.
Ltac seen := match goal with |- context [sees ?l ?r] => change (sees l r) with true end; cbv iota.

(** Nothing that a simple command prints begins with an open parenthesis. *)
Lemma simple_not_block rs args k : redirs_wf rs -> Forall (fun a => word_wf a.1 /\ redirs_wf a.2) args -> stop (chars "|)&;") k ->
  sees (chars "(") (show_redirs rs ++ show_args args ++ k) = false /\ sees (chars "<>") (show_args args ++ k) = false.
Proof.
  intros Hr Ha Hk. assert (sees (chars "(") (show_args args ++ k) = false /\ sees (chars "<>") (show_args args ++ k) = false) as [H1 H2].
  { destruct args as [|[w rw] args]; [split; apply (sees_stop _ _ _ Hk); intros c Hc; in_cases Hc|]. apply Forall_cons in Ha as [[Hw _] _]. cbn [fst] in Hw.
    unfold show_args. cbn [fmap list_fmap concat fst snd]. rewrite <- !app_assoc. split; (apply sees_word; [done|word_out]). }
  split; [|done]. destruct rs as [|[m w] rs]; [done|]. by destruct m.
Qed.

Lemma parse_yields fuel :
  (forall l k s, here s (show_line l ++ k) -> line_wf l -> stop (chars ")") k -> (4 * length (show_line l) + 4 <= fuel)%nat ->
    exists c, erase b c = tree_line l /\ yields (parseline b fuel) s c k) /\
  (forall p k s, here s (show_pipe p ++ k) -> pipe_wf p -> stop (chars ")&;") k -> (4 * length (show_pipe p) + 3 <= fuel)%nat ->
    exists c, erase b c = tree_pipe p /\ yields (parsepipe b fuel) s c k) /\
  (forall e k s, here s (show_exec e ++ k) -> exec_wf e -> stop (chars "|)&;") k -> (4 * length (show_exec e) + 2 <= fuel)%nat ->
    exists c, erase b c = tree_exec e /\ yields (parseexec b fuel) s c k) /\
  (forall l rs k s, here s (show_exec (Block l rs) ++ k) -> exec_wf (Block l rs) -> stop (chars "|)&;") k -> (4 * length (show_exec (Block l rs)) + 1 <= fuel)%nat ->
    exists c, erase b c = tree_exec (Block l rs) /\ yields (parseblock b fuel) s c k).
Proof.
  induction fuel as [|fuel (IHl & IHp & IHe & IHb)]; [split_and!; intros; exfalso; lia|]. split_and!.
  - intros l k s Hh Hwf Hk Hf. cbn [parseline].
    assert (exists p n k1, pipe_wf p /\ here s (show_pipe p ++ replicate n (ch "&") ++ k1) /\ stop (chars ");") k1 /\ (4 * (length (show_pipe p) + n) + 4 <= S fuel)%nat /\
      ((k1 = k /\ tree_line l = Nat.iter n TBack (tree_pipe p)) \/
       (exists l', k1 = ch ";" :: show_line l' ++ k /\ line_wf l' /\ (4 * length (show_line l') + 4 <= fuel)%nat /\
         tree_line l = TList (Nat.iter n TBack (tree_pipe p)) (tree_line l')))) as (p & n & k1 & Hp & Hh1 & Hk1 & Hf1 & Hor).
    { destruct l as [p n|p n l']; cbn [show_line line_wf tree_line] in *; rewrite ?length_app, ?length_replicate in Hf; cbn [length chars] in Hf.
      - exists p, n, k. rewrite <- app_assoc in Hh. split_and!; try done; [|by left]. apply (stop_mono _ _ _ Hk). intros c Hc. in_cases Hc.
      - destruct Hwf as [Hp Hl']. exists p, n, (ch ";" :: show_line l' ++ k). rewrite <- !app_assoc in Hh. split_and!; try done; [lia|]. right. exists l'. split_and!; try done. lia. }
    assert (stop (chars ")&;") (replicate n (ch "&") ++ k1)) as Hst by (destruct n; [apply (stop_mono _ _ _ Hk1); intros c Hc; in_cases Hc|reflexivity]).
    destruct (IHp p _ s Hh1 Hp Hst ltac:(lia)) as (c & Ec & s1 & E1 & H1).
    assert (sees (chars "&") k1 = false) as Hamp by (apply (sees_stop _ _ _ Hk1); intros c' Hc; in_cases Hc).
    destruct (parseback_yields fuel n k1 c s1 H1 Hamp ltac:(lia)) as (s2 & E2 & H2). destruct (yields_peek (chars ";") s2 _ H2) as (s3 & E3 & H3).
    destruct Hor as [[-> El]|(l' & -> & Hl' & Hf' & El)].
    + exists (Nat.iter n BACK c). split; [by rewrite erase_iter, Ec|]. exists s3. split; [|done]. step E1. step E2. step E3.
      by rewrite (sees_stop _ (chars ";") _ Hk) by (intros c' Hc; in_cases Hc).
    + destruct (gettoken_sym s3 (ch ";") _ H3 eq_refl eq_refl) as (t & s4 & E4 & H4). destruct (IHl l' k s4 H4 Hl' Hk Hf') as (c' & Ec' & s5 & E5 & H5).
      exists (LIST (Nat.iter n BACK c) c'). split; [cbn [erase]; by rewrite erase_iter, Ec, Ec', El|]. exists s5. split; [|done]. step E1. step E2. step E3. seen. step E4. by step E5.
  - intros p k s Hh Hwf Hk Hf. cbn [parsepipe]. destruct p as [e|e p]; cbn [show_pipe pipe_wf tree_pipe] in *.
    + assert (stop (chars "|)&;") k) as Hk' by (apply (stop_mono _ _ _ Hk); intros c Hc; in_cases Hc).
      destruct (IHe e k s Hh Hwf Hk' ltac:(lia)) as (c & Ec & s1 & E1 & H1). exists c. split; [done|]. destruct (yields_peek (chars "|") s1 k H1) as (s2 & E2 & H2).
      exists s2. split; [|done]. step E1. step E2. by rewrite (sees_stop _ (chars "|") _ Hk) by (intros c' Hc; in_cases Hc).
    + destruct Hwf as [He Hp]. rewrite !length_app in Hf. cbn [length chars] in Hf. rewrite <- !app_assoc in Hh.
      destruct (IHe e _ s Hh He ltac:(reflexivity) ltac:(lia)) as (c & Ec & s1 & E1 & H1). destruct (yields_peek (chars "|") s1 _ H1) as (s2 & E2 & H2).
      destruct (gettoken_sym s2 (ch "|") _ H2 eq_refl eq_refl) as (t & s3 & E3 & H3). destruct (IHp p k s3 H3 Hp Hk ltac:(lia)) as (c' & Ec' & s4 & E4 & H4).
      exists (PIPE c c'). split; [cbn; by rewrite Ec, Ec'|]. exists s4. split; [|done]. step E1. step E2. seen. step E3. by step E4.
  - intros e k s Hh Hwf Hk Hf. cbn [parseexec]. destruct e as [rs args|l rs].
    + cbn [show_exec exec_wf tree_exec] in *. destruct Hwf as (Hr & Ha & Hm). rewrite length_app in Hf. rewrite <- app_assoc in Hh.
      destruct (simple_not_block rs args k Hr Ha Hk) as [Hpar Hsee]. destruct (yields_peek (chars "(") s _ Hh) as (s1 & E1 & H1). rewrite Hpar in E1.
      destruct (parseredirs_yields fuel rs _ [] s1 H1 Hr Hsee ltac:(lia)) as (rs1 & F1 & s2 & E2 & H2).
      destruct (parseargs_yields fuel args k [] rs1 s2 H2 Ha Hk ltac:(cbn; lia) ltac:(lia)) as (ts & rs2 & Hts & F2 & s3 & E3 & H3).
      exists (wrap (EXEC ts) (rs1 ++ rs2)). split; [rewrite (erase_wrap _ (rs ++ concat args.*2)) by (by apply Forall2_app); cbn; by rewrite Hts|].
      exists s3. split; [|done]. step E1. by step E2.
    + destruct (yields_peek (chars "(") s _ Hh) as (s1 & E1 & H1). destruct (IHb l rs k s1 H1 Hwf Hk ltac:(lia)) as (c & Ec & s2 & E2 & H2).
      exists c. split; [done|]. exists s2. split; [|done]. step E1. by seen.
  - intros l rs k s Hh Hwf Hk Hf. cbn [parseblock]. cbn [show_exec exec_wf tree_exec] in *. destruct Hwf as [Hl Hr]. rewrite !length_app in Hf. cbn [length chars] in Hf.
    rewrite <- !app_assoc in Hh. destruct (yields_peek (chars "(") s _ Hh) as (s1 & E1 & H1). destruct (gettoken_sym s1 (ch "(") _ H1 eq_refl eq_refl) as (t & s2 & E2 & H2).
    destruct (IHl l (chars ")" ++ show_redirs rs ++ k) s2 H2 Hl ltac:(reflexivity) ltac:(lia)) as (c & Ec & s3 & E3 & H3).
    destruct (yields_peek (chars ")") s3 _ H3) as (s4 & E4 & H4). destruct (gettoken_sym s4 (ch ")") _ H4 eq_refl eq_refl) as (t' & s5 & E5 & H5).
    destruct (parseredirs_yields fuel rs k [] s5 H5 Hr) as (rs1 & F1 & s6 & E6 & H6); [apply (sees_stop _ _ _ Hk); intros c' Hc; in_cases Hc|lia|].
    exists (wrap c rs1). split; [rewrite (erase_wrap _ _ F1); by rewrite Ec|]. exists s6. split; [|done].
    step E1. seen. cbn [negb]. step E2. step E3. step E4. seen. cbn [negb]. step E5. by step E6.
Qed.
End round.

(** ** The whole line *)
Scheme line_mind := Induction for line Sort Prop
with pipe_mind := Induction for pipe Sort Prop
with exec_mind := Induction for exec Sort Prop.
Combined Scheme syntax_ind from line_mind, pipe_mind, exec_mind.
Abbreviation nz := (Forall (fun c => c <> 0)).
(** What holds of word characters, of the symbols and of blanks holds of every
    character of a printed line. *)
Section shown.
Context (Q : Z -> Prop) (Qword : forall c, c <> 0 -> wordch c = true -> Q c) (Qsymbol : Forall Q (32 :: symbols)).
Lemma symbols_all l : forallb (fun c => bool_decide (c ∈ 32 :: symbols)) l = true -> Forall Q l.
Proof using Qsymbol.
  rewrite forallb_forall. intros H. apply Forall_forall. intros c Hc%list_elem_of_In. specialize (H c Hc).
  apply bool_decide_eq_true_1 in H. rewrite Forall_forall in Qsymbol. by apply Qsymbol.
Qed.
Lemma word_all w : word_wf w -> Forall Q w.
Proof using Qword. intros [_ H]. eapply Forall_impl; [exact H|]. intros c [? ?]. auto. Qed.
Lemma redirs_all rs : redirs_wf rs -> Forall Q (show_redirs rs).
Proof using Type*.
  induction 1 as [|[m w] rs Hw Hrs IH]; [constructor|]. unfold show_redirs. cbn [fmap list_fmap concat]. fold (show_redirs rs). apply Forall_app. split; [|done].
  unfold show_redir. cbn [s_mode s_file] in *. repeat (apply Forall_app; split); [destruct m; by apply symbols_all|by apply word_all|by apply symbols_all].
Qed.
Lemma args_all args : Forall (fun a => word_wf a.1 /\ redirs_wf a.2) args -> Forall Q (show_args args).
Proof using Type*.
  induction 1 as [|[w rw] args [Hw Hr] Ha IH]; [constructor|]. unfold show_args. cbn [fmap list_fmap concat fst snd] in *. fold (show_args args).
  repeat (apply Forall_app; split); [by apply word_all|by apply symbols_all|by apply redirs_all|done].
Qed.
Lemma show_all : (forall l, line_wf l -> Forall Q (show_line l)) /\ (forall p, pipe_wf p -> Forall Q (show_pipe p)) /\ (forall e, exec_wf e -> Forall Q (show_exec e)).
Proof using Type*.
  assert (forall n, Forall Q (replicate n (ch "&"))) as Amp.
  { intros n. apply Forall_replicate. by apply (Forall_inv (symbols_all [ch "&"] eq_refl)). }
  apply syntax_ind; cbn [show_line show_pipe show_exec line_wf pipe_wf exec_wf].
  - intros p IHp n Hp. apply Forall_app. auto.
  - intros p IHp n l IHl [Hp Hl]. repeat (apply Forall_app; split); auto. by apply symbols_all.
  - auto.
  - intros e IHe p IHp [He Hp]. repeat (apply Forall_app; split); auto. by apply symbols_all.
  - intros rs args (Hr & Ha & _). apply Forall_app. split; [by apply redirs_all|by apply args_all].
  - intros l IHl rs [Hl Hr]. repeat (apply Forall_app; split); auto using redirs_all; by apply symbols_all.
Qed.
End shown.
Lemma show_nz l : line_wf l -> nz (show_line l).
Proof. apply show_all; [done|]. repeat constructor; discriminate. Qed.
(** parsecmd on a printed line, with white space after it. *)
Lemma parse_show l k : line_wf l -> nz k -> dropws k = [] ->
  exists c, parsecmd (show_line l ++ k) = Ret c /\ erase (show_line l ++ k) c = tree_line l.
Proof.
  intros Hwf Hk Dk. set (b := show_line l ++ k). assert (nz b) as Hb by (apply Forall_app; split; [by apply show_nz|done]).
  destruct (parse_yields b Hb (parse_fuel b)) as (H & _). destruct (H l k 0%nat) as (c & Ec & s & E & Hs).
  - unfold here. by rewrite drop_0.
  - done.
  - unfold stop. by rewrite Dk.
  - unfold parse_fuel, es, b. rewrite length_app. lia.
  - exists c. split; [|done]. unfold parsecmd. rewrite E.
    destruct (parse_wp b Hb (parse_fuel b) 0%nat ltac:(lia)) as (W & _). unfold parse_fuel in W, E. specialize (W ltac:(lia)). unfold wp in W. rewrite E in W. destruct W as [[_ Hle] _].
    unfold here in Hs. rewrite Dk, <- skip_drop in Hs. apply at_drop_nil in Hs as [_ Hge]. destruct (skip_spec b s) as (_ & K & _). specialize (K Hle).
    by replace (skip b s =? es b)%nat with true by (symmetry; apply Nat.eqb_eq; lia).
Qed.

(** C11: printing and parsing are inverse.  For every command line of the grammar,
    with nested blocks, pipelines, lists, background commands, and redirections
    among the arguments, parsecmd accepts the printed line and returns the
    command that the grammar means. *)
Theorem parse_print l : line_wf l -> exists c, parsecmd (show_line l) = Ret c /\ erase (show_line l) c = tree_line l.
Proof. intros Hwf. destruct (parse_show l [] Hwf (Forall_nil_2 _) eq_refl) as (c & H). rewrite app_nil_r in H. by exists c. Qed.
(** (sort <in | uniq -c >>log)&;echo done *)
Definition sh_example : line :=
  Seq (Single (Block (Last (Pipe (Simple [] [(chars "sort", [mkS Rd (chars "in")])]) (Single (Simple [] [(chars "uniq", []); (chars "-c", [mkS WrApp (chars "log")])]))) 0) [])) 1
    (Last (Single (Simple [] [(chars "echo", []); (chars "done", [])])) 0).
Lemma parse_print_witness : exists c, parsecmd (show_line sh_example) = Ret c /\
  erase (show_line sh_example) c = TList (TBack (TPipe (TRedir (TExec [chars "sort"]) (chars "in") Rd 0) (TRedir (TExec [chars "uniq"; chars "-c"]) (chars "log") WrApp 1)))
    (TExec [chars "echo"; chars "done"]).
Proof.
  apply (parse_print sh_example). cbn [line_wf pipe_wf exec_wf sh_example]. unfold redirs_wf, MAXARGS.
  repeat first [split|apply Forall_cons|apply Forall_nil_2|apply word_wf_dec; [discriminate|reflexivity]|cbn; lia].
Defined.
