(* ===== verification/ShRun.v ===== *)
(** * user/sh.c: runcmd, and main around it

    What the process that runs a command does, as a tree of its system calls
    with their outcomes; the descriptor table is followed along the tree.  The
    kernel gives out the lowest free descriptor (fdalloc, Sysargs.v).  The main
    loop reads the lines as the programs of UserIO.v do, and its result is what
    it did for them. *)
From S2P Require Import Prelude Printf UserIO Grep Utils UtilsTheorems Sh ShParse ShRound.

Inductive ofile := OFile (name : word) (m : mode) | PipeR (id : nat) | PipeW (id : nat) | Other (id : nat).
Abbreviation fdtab := (list (option ofile)).
Inductive act :=
| AExec (argv : list word) (fds : fdtab) (failed : act)   (* exec, with what is open then *)
| AExit (code : Z)
| AFork (child parent failed : act)
| AWait (fds : fdtab) (rest : act)                        (* wait(0), with what is open then *)
| AOpen (name : word) (m : mode) (opened failed : act)
| APipe (made failed : act)
| APrint (fmt : list Z) (args : list va) (rest : act).    (* fprintf(2, ...) *)

Fixpoint lowest (i : nat) (fds : fdtab) : option nat :=
  match fds with
  | [] => None
  | None :: _ => Some i
  | Some _ :: fds => lowest (S i) fds
  end.
Definition close (fd : nat) (fds : fdtab) : fdtab := <[fd := None]> fds.
(** [dup(fd)], its result ignored. *)
Definition dup (fd : nat) (fds : fdtab) : fdtab :=
  match fds !! fd, lowest 0 fds with
  | Some (Some f), Some k => <[k := Some f]> fds
  | _, _ => fds
  end.
(** The new descriptor, and the table with it. *)
Definition give (f : ofile) (fds : fdtab) : option (nat * fdtab) := k ← lowest 0 fds; Some (k, <[k := Some f]> fds).

Definition panic (s : string) : act := APrint (chars "%s" ++ [10]) [VStr (Some (chars s))] (AExit 1).
Definition fork1 (child parent : act) : act := AFork child parent (panic "fork").

(** [n]: the number of the next pipe. *)
Fixpoint runcmd (c : tcmd) (fds : fdtab) (n : nat) : act * nat :=
  match c with
  | TExec [] => (AExit 1, n)
  | TExec (a :: argv) => (AExec (a :: argv) fds (APrint (chars "exec %s failed" ++ [10]) [VStr (Some a)] (AExit 0)), n)
  | TRedir c file m fd =>
      let fds := close fd fds in
      let failed := APrint (chars "open %s failed" ++ [10]) [VStr (Some file)] (AExit 1) in
      match give (OFile file m) fds with
      | Some (_, fds) => let '(a, n) := runcmd c fds n in (AOpen file m a failed, n)
      | None => (failed, n)
      end
  | TList l r =>
      let '(al, n) := runcmd l fds n in
      let '(ar, n) := runcmd r fds n in
      (fork1 al (AWait fds ar), n)
  | TPipe l r =>
      match give (PipeR n) fds with
      | Some (p0, fds1) =>
          match give (PipeW n) fds1 with
          | Some (p1, fds2) =>
              let '(al, n1) := runcmd l (close p1 (close p0 (dup p1 (close 1 fds2)))) (S n) in
              let '(ar, n2) := runcmd r (close p1 (close p0 (dup p0 (close 0 fds2)))) n1 in
              let fds3 := close p1 (close p0 fds2) in
              (APipe (fork1 al (fork1 ar (AWait fds3 (AWait fds3 (AExit 0))))) (panic "pipe"), n2)
          | None => (panic "pipe", n)
          end
      | None => (panic "pipe", n)
      end
  | TBack c => let '(a, n) := runcmd c fds n in (fork1 a (AExit 0), n)
  end.

(** The programs that run when no system call fails, each with its descriptors,
    and the descriptors open at every wait. *)
Fixpoint execs (a : act) : list (list word * fdtab) :=
  match a with
  | AExec argv fds _ => [(argv, fds)]
  | AExit _ => []
  | AFork c p _ => execs c ++ execs p
  | AWait _ r => execs r
  | AOpen _ _ a _ => execs a
  | APipe a _ => execs a
  | APrint _ _ r => execs r
  end.
Fixpoint waits (a : act) : list fdtab :=
  match a with
  | AExec _ _ _ | AExit _ => []
  | AFork c p _ => waits c ++ waits p
  | AWait fds r => fds :: waits r
  | AOpen _ _ a _ => waits a
  | APipe a _ => waits a
  | APrint _ _ r => waits r
  end.

(** ** What a command means *)
(** Each program with its standard input, output and error. *)
Fixpoint meaning (c : tcmd) (i o e : ofile) (n : nat) : list (list word * (ofile * ofile * ofile)) * nat :=
  match c with
  | TExec [] => ([], n)
  | TExec argv => ([(argv, (i, o, e))], n)
  | TRedir c file m fd => match fd with O => meaning c (OFile file m) o e n | _ => meaning c i (OFile file m) e n end
  | TList l r => let '(a, n) := meaning l i o e n in let '(b, n) := meaning r i o e n in (a ++ b, n)
  | TPipe l r => let '(a, n1) := meaning l i (PipeW n) e (S n) in let '(b, n2) := meaning r (PipeR n) o e n1 in (a ++ b, n2)
  | TBack c => meaning c i o e n
  end.
(** Descriptors 0, 1 and 2 of the 16 are open. *)
Definition std (x : ofile * ofile * ofile) : fdtab := let '(i, o, e) := x in [Some i; Some o; Some e] ++ replicate 13 None.
Fixpoint redirs_std (c : tcmd) : Prop :=
  match c with
  | TExec _ => True
  | TRedir c _ _ fd => (fd < 2)%nat /\ redirs_std c
  | TPipe l r | TList l r => redirs_std l /\ redirs_std r
  | TBack c => redirs_std c
  end.

Lemma runcmd_spec c : redirs_std c -> forall i o e n,
  execs (runcmd c (std (i, o, e)) n).1 = (fun x => (x.1, std x.2)) <$> (meaning c i o e n).1 /\
  (runcmd c (std (i, o, e)) n).2 = (meaning c i o e n).2 /\
  Forall (fun fds => exists x, fds = std x) (waits (runcmd c (std (i, o, e)) n).1).
Proof.
  induction c as [argv|c IH file m fd|l IHl r IHr|l IHl r IHr|c IH]; cbn [redirs_std]; intros Hstd i o e n.
  - destruct argv; cbn; by split_and!.
  - destruct Hstd as [Hfd Hc]. cbn [runcmd meaning]. destruct fd as [|[|]]; [| |lia].
    + change (give (OFile file m) (close 0 (std (i, o, e)))) with (Some (0%nat, std (OFile file m, o, e))). cbn [fst]. specialize (IH Hc (OFile file m) o e n).
      by destruct (runcmd c (std (OFile file m, o, e)) n).
    + change (give (OFile file m) (close 1 (std (i, o, e)))) with (Some (1%nat, std (i, OFile file m, e))). cbn [fst]. specialize (IH Hc i (OFile file m) e n).
      by destruct (runcmd c (std (i, OFile file m, e)) n).
  - destruct Hstd as [Hl Hr]. cbn [runcmd meaning].
    change (give (PipeR n) (std (i, o, e))) with (Some (3%nat, [Some i; Some o; Some e; Some (PipeR n)] ++ replicate 12 None)).
    cbv iota beta.
    change (give (PipeW n) ([Some i; Some o; Some e; Some (PipeR n)] ++ replicate 12 None)) with (Some (4%nat, [Some i; Some o; Some e; Some (PipeR n); Some (PipeW n)] ++ replicate 11 None)).
    cbv iota beta. set (fds2 := [Some i; Some o; Some e; Some (PipeR n); Some (PipeW n)] ++ replicate 11 None).
    change (close 4 (close 3 (dup 4 (close 1 fds2)))) with (std (i, PipeW n, e)). change (close 4 (close 3 (dup 3 (close 0 fds2)))) with (std (PipeR n, o, e)).
    change (close 4 (close 3 fds2)) with (std (i, o, e)).
    specialize (IHl Hl i (PipeW n) e (S n)). destruct (runcmd l (std (i, PipeW n, e)) (S n)) as [al n1], (meaning l i (PipeW n) e (S n)) as [ml n1'].
    cbn [fst snd] in IHl. destruct IHl as (L1 & <- & L3). specialize (IHr Hr (PipeR n) o e n1).
    destruct (runcmd r (std (PipeR n, o, e)) n1) as [ar n2], (meaning r (PipeR n) o e n1) as [mr n2']. cbn [fst snd] in *. destruct IHr as (R1 & <- & R3).
    unfold fork1. cbn [execs waits]. split; [by rewrite app_nil_r, L1, R1, fmap_app|]. split; [done|]. repeat (apply Forall_app; split); try done.
    repeat constructor; by eexists.
  - destruct Hstd as [Hl Hr]. cbn [runcmd meaning]. specialize (IHl Hl i o e n). destruct (runcmd l (std (i, o, e)) n) as [al n1], (meaning l i o e n) as [ml n1'].
    cbn [fst snd] in IHl. destruct IHl as (L1 & <- & L3). specialize (IHr Hr i o e n1). destruct (runcmd r (std (i, o, e)) n1) as [ar n2], (meaning r i o e n1) as [mr n2'].
    cbn [fst snd] in *. destruct IHr as (R1 & <- & R3). cbn [execs waits fork1]. split; [by rewrite L1, R1, fmap_app|]. split; [done|].
    apply Forall_app. split; [done|]. constructor; [by eexists|done].
  - cbn [runcmd meaning]. specialize (IH Hstd i o e n). destruct (runcmd c (std (i, o, e)) n) as [a n1]. cbn [fst snd execs waits fork1] in *. by rewrite !app_nil_r.
Qed.

(** C21: runcmd wires up the descriptors.  Started with descriptors 0, 1 and 2
    open, the programs of a command run with exactly these three open, connected
    as the command means: a redirection replaces 0 or 1 by its file, the two
    sides of a pipe get its write end as 1 and its read end as 0.  No process
    that runs a program or waits keeps another descriptor of a pipe open, so a
    reader sees the end of the file when the writers are gone. *)
Theorem runcmd_wires c i o e n : redirs_std c ->
  execs (runcmd c (std (i, o, e)) n).1 = (fun x => (x.1, std x.2)) <$> (meaning c i o e n).1 /\
  Forall (fun fds => exists x, fds = std x) (waits (runcmd c (std (i, o, e)) n).1).
Proof. intros H. destruct (runcmd_spec c H i o e n) as (H1 & _ & H3). done. Qed.
Lemma runcmd_wires_witness :
  execs (runcmd (TPipe (TRedir (TExec [chars "a"]) (chars "f") Rd 0) (TExec [chars "b"])) (std (Other 0, Other 1, Other 2)) 7).1 =
  [([chars "a"], std (OFile (chars "f") Rd, PipeW 7, Other 2)); ([chars "b"], std (PipeR 7, Other 1, Other 2))].
Proof.
  destruct (runcmd_wires (TPipe (TRedir (TExec [chars "a"]) (chars "f") Rd 0) (TExec [chars "b"])) (Other 0) (Other 1) (Other 2) 7) as [H _]; [cbn; lia|].
  rewrite H. reflexivity.
Defined.

(** ** main: the loop over the lines *)
(** [Chdir]: chdir in the shell itself; [Child]: fork, the tree of calls of the
    child, and wait. *)
Inductive deed := Chdir (path : list Z) | Child (a : act).
(** The blanks and tabs at the front of a line are skipped. *)
Fixpoint strip (cmd : list Z) : list Z :=
  match cmd with
  | c :: cmd' => if (c =? 32) || (c =? 9) then strip cmd' else cmd
  | [] => []
  end.
(** What parsecmd reports as left over before it gives up. *)
Definition leftovers (b : list Z) : option (list Z) :=
  match parseline b (parse_fuel b) 0%nat with
  | Ret (_, s) => Some (drop (skip b s) b)
  | _ => None
  end.
(** [runcmd(parsecmd(cmd))] *)
Definition child (fds : fdtab) (cmd : list Z) : act :=
  match parsecmd cmd with
  | Ret c => (runcmd (erase cmd c) fds 0).1
  | Panic e =>
      match leftovers cmd with
      | Some s => APrint (chars "leftovers: %s" ++ [10]) [VStr (Some s)] (panic e)
      | None => panic e
      end
  | _ => AExit 1
  end.

Section main.
Context (chunk : nat -> nat -> nat -> nat).
(** What chdir and fork return after what was done so far, and the shell's
    descriptors. *)
Context (chdir : list deed -> list Z -> Z) (fork : list deed -> Z) (fds : fdtab).

(** [while((fd = open("console", O_RDWR)) >= 0) if(fd >= 3) { close(fd); break; }] *)
Fixpoint open_three (fuel : nat) : P unit :=
  match fuel with
  | O => spin
  | S fuel =>
      r <- open (chars "console") ;;
      match r with
      | Some fd => if (3 <=? fd)%nat then UserIO.close fd else open_three fuel
      | None => pret tt
      end
  end.
(** The result: what was done, and the exit status. *)
Fixpoint sh_loop (fuel : nat) (did : list deed) : P (list deed * Z) :=
  match fuel with
  | O => spin
  | S fuel =>
      r <- getcmd chunk 100 ;;
      match r with
      | None => pret (did, 0)
      | Some buf =>
          let cmd := strip buf in
          if nth 0 cmd 0 =? 10 then sh_loop fuel did
          else if (nth 0 cmd 0 =? ch "c") && (nth 1 cmd 0 =? ch "d") && (nth 2 cmd 0 =? ch " ") then
            let line := cstring cmd in
            let path := drop 3 (take (length line - 1) line) in
            (if chdir did path <? 0 then fprintf 2 (chars "cannot cd %s" ++ nl) [VStr (Some path)] else pret tt) ;>>
            sh_loop fuel (did ++ [Chdir path])
          else if fork did =? -1 then fprintf 2 (chars "%s" ++ nl) [VStr (Some (chars "fork"))] ;>> pret (did, 1)
          else sh_loop fuel (did ++ [Child (child fds (cstring cmd))])
      end
  end.
Definition sh_main (fuel : nat) : P (list deed * Z) := open_three 4 ;>> sh_loop fuel [].
End main.

(** ** A script: the lines a user types *)
Inductive item := Blank (pre : list Z) | CdLine (pre path : list Z) | CmdLine (pre : list Z) (l : line).
Definition item_text (x : item) : list Z :=
  match x with
  | Blank pre => pre
  | CdLine pre path => pre ++ chars "cd " ++ path
  | CmdLine pre l => pre ++ show_line l
  end.
Definition show_item (x : item) : list Z := item_text x ++ [10].
Definition blanks (pre : list Z) : Prop := Forall (fun c => c = 32 \/ c = 9) pre.
(** main skips an empty line, and a line that begins with cd and a blank is its
    own; it runs the others. *)
Definition runs (l : line) : Prop := show_line l <> [] /\ take 3 (show_line l) <> chars "cd ".
Definition item_wf (x : item) : Prop :=
  (length (item_text x) <= 98)%nat /\
  match x with
  | Blank pre => blanks pre
  | CdLine pre path => blanks pre /\ Forall (fun c => c <> 0 /\ c <> 10 /\ c <> 13) path
  | CmdLine pre l => blanks pre /\ line_wf l /\ runs l
  end.
Definition effect (fds : fdtab) (x : item) : option deed :=
  match x with
  | Blank _ => None
  | CdLine _ path => Some (Chdir path)
  | CmdLine _ l => Some (Child (runcmd (tree_line l) fds 0).1)
  end.

Abbreviation inline := (Forall (fun c => c <> 0 /\ c <> 10 /\ c <> 13)).
Lemma blanks_inline pre : blanks pre -> inline pre.
Proof. intros H. eapply Forall_impl; [exact H|]. intros c [->| ->]; lia. Qed.
Lemma show_inline l : line_wf l -> inline (show_line l).
Proof.
  destruct (show_all (fun c => c <> 0 /\ c <> 10 /\ c <> 13)) as [H _]; [|repeat (apply Forall_cons; split; [cbn; lia|]); apply Forall_nil_2|by apply H].
  intros c Hc Hw. apply wordch_not in Hw as [Hws _]. split_and!; [done|intros ->; discriminate Hws..].
Qed.
Lemma item_inline x : item_wf x -> inline (item_text x).
Proof.
  intros [_ H]. destruct x as [pre|pre path|pre l]; cbn [item_text] in *.
  - by apply blanks_inline.
  - destruct H as [Hb Hp]. repeat (apply Forall_app; split); [by apply blanks_inline|repeat (apply Forall_cons; split; [cbn; lia|]); apply Forall_nil_2|done].
  - destruct H as (Hb & Hl & _). apply Forall_app. split; [by apply blanks_inline|by apply show_inline].
Qed.
Lemma strip_blanks pre s : blanks pre -> strip (pre ++ s) = strip s.
Proof. induction 1 as [|c pre [->| ->] H IH]; [done|exact IH..]. Qed.
Lemma cstring_inline x : inline x -> cstring (x ++ [10]) = x ++ [10].
Proof. induction 1 as [|c x Hc H IH]; [done|]. cbn [app cstring]. replace (c =? 0) with false by lia. by rewrite IH. Qed.
(** A printed line does not begin with white space. *)
Lemma show_head : (forall l, line_wf l -> forall k, dropws k = k -> dropws (show_line l ++ k) = show_line l ++ k) /\
  (forall p, pipe_wf p -> forall k, dropws k = k -> dropws (show_pipe p ++ k) = show_pipe p ++ k) /\
  (forall e, exec_wf e -> forall k, dropws k = k -> dropws (show_exec e ++ k) = show_exec e ++ k).
Proof.
  apply syntax_ind; cbn [show_line show_pipe show_exec line_wf pipe_wf exec_wf].
  - intros p IHp n Hp k Hk. rewrite <- app_assoc. apply IHp; [done|]. by destruct n.
  - intros p IHp n l IHl [Hp _] k _. rewrite <- !app_assoc. apply IHp; [done|]. by destruct n.
  - auto.
  - intros e IHe p IHp [He _] k _. rewrite <- !app_assoc. by apply IHe.
  - intros rs args (_ & Ha & _) k Hk. rewrite <- app_assoc. destruct rs as [|[[] w] rs]; [|done..]. destruct args as [|[w rw] args]; [done|].
    apply Forall_cons in Ha as [[Hw _] _]. unfold show_redirs, show_args. cbn [fmap list_fmap concat fst snd app]. rewrite <- !app_assoc. by apply dropws_word.
  - intros l IHl rs _ k _. done.
Qed.
Lemma strip_show l s : line_wf l -> show_line l <> [] -> strip (show_line l ++ s) = show_line l ++ s.
Proof.
  intros Hl Hne. destruct show_head as [H _]. specialize (H l Hl [] eq_refl). rewrite app_nil_r in H. destruct (show_line l) as [|c r]; [done|].
  cbn [dropws] in H. destruct (ws c) eqn:E.
  - pose proof (dropws_len r). apply (f_equal length) in H. cbn in H. lia.
  - cbn [app strip]. replace ((c =? 32) || (c =? 9)) with false; [done|]. symmetry. apply orb_false_iff. split; apply Z.eqb_neq; intros ->; discriminate E.
Qed.
Lemma twrap_std rs c : redirs_std c -> redirs_std (twrap c rs).
Proof. revert c. induction rs as [|[[] w] rs IH]; intros c Hc; [done|apply IH; split; [cbn; lia|done]..]. Qed.
Lemma back_std n c : redirs_std c -> redirs_std (Nat.iter n TBack c).
Proof. by induction n. Qed.
Lemma tree_std : (forall l, redirs_std (tree_line l)) /\ (forall p, redirs_std (tree_pipe p)) /\ (forall e, redirs_std (tree_exec e)).
Proof.
  apply syntax_ind; cbn [tree_line tree_pipe tree_exec redirs_std]; eauto using back_std, twrap_std.
  intros rs args. by apply twrap_std.
Qed.

Section script.
Context (chunk : nat -> nat -> nat -> nat) `{!Chunk chunk}.
Context (chdir : list deed -> list Z -> Z) (fork : list deed -> Z) (fds : fdtab).
Context (forks : forall did, fork did <> -1).

Lemma first_line_inline n x rest : inline x -> (length x < n)%nat -> first_line n (x ++ 10 :: rest) = x ++ [10].
Proof using.
  intros H. revert n. induction H as [|c x Hc H IH]; intros n Hn; (destruct n as [|n]; [cbn in Hn; lia|]); [done|].
  cbn [app first_line length] in *. replace ((c =? 10) || (c =? 13)) with false by (symmetry; apply orb_false_iff; split; lia). by rewrite IH by lia.
Qed.
Lemma write_fds fd data w : exists n w', write fd data w = (Val n, w') /\ w_fds w' = w_fds w.
Proof using. unfold write. case_decide; by do 2 eexists. Qed.
Lemma fprintf_fds fd fmt args w : exists w', fprintf fd fmt args w = (Val tt, w') /\ w_fds w' = w_fds w.
Proof using.
  destruct (write_fds fd (default [] (UPrintf.fprintf fmt args)) w) as (n & w' & E & F). exists w'. split; [|done].
  unfold fprintf. by rewrite (pbind_val _ _ _ _ _ E).
Qed.
Lemma getcmd_reads data w : w_fds w !! 0%nat = Some (Some data) ->
  exists w', getcmd chunk 100 w = (Val (match first_line 99 data with [] => None | c :: _ => if c =? 0 then None else Some (first_line 99 data) end), w') /\
    w_fds w' = <[0%nat := Some (drop (length (first_line 99 data)) data)]> (w_fds w).
Proof using Chunk0.
  intros Hw. unfold getcmd. destruct (write_fds 2 (chars "$ ") w) as (n & w1 & E1 & F1). rewrite (pbind_val _ _ _ _ _ E1).
  destruct (gets_line chunk 100 data w1) as (w2 & E2 & F2 & _); [by rewrite F1|]. rewrite (pbind_val _ _ _ _ _ E2).
  exists w2. split; [|by rewrite F2, F1]. change (100 - 1)%nat with 99%nat. by destruct (first_line 99 data).
Qed.
(** One line of a script is read whole. *)
Lemma getcmd_item x rest w : item_wf x -> w_fds w !! 0%nat = Some (Some (show_item x ++ rest)) ->
  exists w', getcmd chunk 100 w = (Val (Some (show_item x)), w') /\ w_fds w' = <[0%nat := Some rest]> (w_fds w).
Proof using Chunk0.
  intros Hx Hw. destruct (getcmd_reads _ w Hw) as (w' & E & F). pose proof (item_inline x Hx) as Hi. unfold show_item in *.
  rewrite <- app_assoc in E, F. cbn [app] in E, F. rewrite first_line_inline in E, F by (try done; destruct Hx; lia).
  exists w'. split.
  - rewrite E. destruct (item_text x) as [|c r]; [done|]. apply Forall_cons in Hi as [Hc _]. cbn [app]. by replace (c =? 0) with false by lia.
  - rewrite F. change (10 :: rest) with ([10] ++ rest). rewrite app_assoc, drop_app_length. done.
Qed.
Lemma child_line l : line_wf l -> child fds (show_line l ++ [10]) = (runcmd (tree_line l) fds 0).1.
Proof using.
  intros Hl. unfold child. destruct (parse_show l [10] Hl) as (c & -> & Ec); [by repeat constructor|done|]. by rewrite Ec.
Qed.
Lemma not_cd s : take 3 s <> chars "cd " -> (nth 0 (s ++ [10]) 0 =? ch "c") && (nth 1 (s ++ [10]) 0 =? ch "d") && (nth 2 (s ++ [10]) 0 =? ch " ") = false.
Proof using.
  intros H. apply not_true_iff_false. intros [[H1%Z.eqb_eq H2%Z.eqb_eq]%andb_true_iff H3%Z.eqb_eq]%andb_true_iff.
  destruct s as [|a [|b [|c s]]]; cbn in *; try discriminate. subst. by apply H.
Qed.
(** One turn of the loop does what the line means. *)
Lemma sh_turn fuel did x rest w : item_wf x -> w_fds w !! 0%nat = Some (Some (show_item x ++ rest)) ->
  exists w', sh_loop chunk chdir fork fds (S fuel) did w = sh_loop chunk chdir fork fds fuel (did ++ option_list (effect fds x)) w' /\
    w_fds w' = <[0%nat := Some rest]> (w_fds w).
Proof using Chunk0 forks.
  intros Hx Hw. destruct (getcmd_item x rest w Hx Hw) as (w1 & E1 & F1). cbn [sh_loop]. rewrite (pbind_val _ _ _ _ _ E1).
  destruct x as [pre|pre path|pre l]; destruct Hx as [_ Hx]; unfold show_item; cbn [item_text effect option_list].
  - exists w1. rewrite strip_blanks by done. cbn. by rewrite app_nil_r.
  - destruct Hx as [Hb Hp]. rewrite <- !app_assoc, strip_blanks by done. set (s := chars "cd " ++ path ++ [10]).
    assert (strip s = s) as -> by done. assert (cstring s = s) as ->.
    { unfold s. rewrite app_assoc. apply cstring_inline. apply Forall_app. split; [|done]. repeat (apply Forall_cons; split; [cbn; lia|]); apply Forall_nil_2. }
    replace (drop 3 (take (length s - 1) s)) with path.
    2:{ unfold s. rewrite app_assoc, length_app, Nat.add_sub, take_app_length. done. }
    change (nth 0 s 0 =? 10) with false. change ((nth 0 s 0 =? ch "c") && (nth 1 s 0 =? ch "d") && (nth 2 s 0 =? ch " ")) with true. cbv iota zeta.
    destruct (chdir did path <? 0).
    + destruct (fprintf_fds 2 (chars "cannot cd %s" ++ nl) [VStr (Some path)] w1) as (w2 & E2 & F2). exists w2. rewrite F2. split; [|done].
      exact (pbind_val _ (fun _ => sh_loop chunk chdir fork fds fuel (did ++ [Chdir path])) _ _ _ E2).
    + by exists w1.
  - destruct Hx as (Hb & Hl & Hne & Hcd). rewrite <- app_assoc, strip_blanks, strip_show by done. rewrite (not_cd _ Hcd).
    rewrite cstring_inline by (by apply show_inline). rewrite child_line by done.
    replace (nth 0 (show_line l ++ [10]) 0 =? 10) with false.
    2:{ pose proof (show_inline l Hl) as Hi. destruct (show_line l) as [|c r]; [done|]. apply Forall_cons in Hi as [Hc _]. cbn. lia. }
    replace (fork did =? -1) with false by (specialize (forks did); lia). by exists w1.
Qed.
Lemma sh_loop_script items : Forall item_wf items -> forall fuel did w, w_fds w !! 0%nat = Some (Some (concat (show_item <$> items))) -> (length items < fuel)%nat ->
  exists w', sh_loop chunk chdir fork fds fuel did w = (Val (did ++ omap (effect fds) items, 0), w').
Proof using Chunk0 forks.
  induction 1 as [|x items Hx H IH]; intros fuel did w Hw Hf; (destruct fuel as [|fuel]; [cbn in Hf; lia|]).
  - destruct (getcmd_reads _ w Hw) as (w' & E & F). cbn [sh_loop]. rewrite (pbind_val _ _ _ _ _ E). exists w'. cbn. by rewrite app_nil_r.
  - cbn [fmap list_fmap concat length] in *. destruct (sh_turn fuel did x _ w Hx Hw) as (w1 & -> & F1).
    destruct (IH fuel (did ++ option_list (effect fds x)) w1) as (w' & E).
    + rewrite F1. apply list_lookup_insert_eq. by apply lookup_lt_Some in Hw.
    + lia.
    + exists w'. rewrite E. rewrite <- app_assoc. by destruct (effect fds x) eqn:Ex; cbn; rewrite Ex.
Qed.
End script.

Section opening.
Context (con : list Z).
Definition has_console (w : world) : Prop := lookup_file (chars "console") (w_files w) = Some con.
Lemma open_three_step fuel w k : has_console w -> free_fd 0 (w_fds w) = Some k -> (k < 3)%nat ->
  exists w', open_three (S fuel) w = open_three fuel w' /\ has_console w' /\ w_fds w' = <[k := Some con]> (w_fds w).
Proof using.
  intros Hc Hk Hlt. exists (mkWorld (w_files w) (<[k := Some con]> (w_fds w)) (w_out w) (w_ticks w) (w_broken w)). split; [|split; [|reflexivity]].
  - cbn [open_three]. unfold pbind at 1. unfold open. unfold has_console in Hc. rewrite Hc, Hk. cbv beta iota.
    replace (3 <=? k)%nat with false by (symmetry; apply Nat.leb_gt; lia). reflexivity.
  - exact Hc.
Qed.
Lemma open_three_end fuel w a b c r : has_console w -> w_fds w = Some a :: Some b :: Some c :: r ->
  exists w', open_three (S fuel) w = (Val tt, w') /\ w_fds w' = w_fds w.
Proof using.
  intros Hc Hf. cbn [open_three]. unfold pbind at 1. unfold open. unfold has_console in Hc. rewrite Hc.
  destruct (free_fd 0 (w_fds w)) as [k|] eqn:Hk; [|by exists w]. cbv beta iota.
  assert (3 <= k)%nat as Hge by (rewrite Hf in Hk; cbn [free_fd] in Hk; by apply free_fd_spec in Hk as [? _]).
  replace (3 <=? k)%nat with true by (symmetry; by apply Nat.leb_le). eexists. split; [reflexivity|]. cbn.
  by apply free_fd_close.
Qed.
(** Descriptors 0, 1 and 2 are open after the first loop, and what was open is
    as it was. *)
Lemma open_three_opens w a b c d r : has_console w -> w_fds w = a :: b :: c :: d :: r ->
  exists w', open_three 4 w = (Val tt, w') /\ w_fds w' = Some (default con a) :: Some (default con b) :: Some (default con c) :: d :: r.
Proof using.
  assert (forall fuel w k, has_console w -> free_fd 0 (w_fds w) = Some k -> (k < 3)%nat -> forall fds,
    (forall w', has_console w' -> w_fds w' = <[k := Some con]> (w_fds w) -> exists w2, open_three fuel w' = (Val tt, w2) /\ w_fds w2 = fds) ->
    exists w2, open_three (S fuel) w = (Val tt, w2) /\ w_fds w2 = fds) as Step.
  { intros fuel w1 k Hc Hk Hlt fds H. destruct (open_three_step fuel w1 k Hc Hk Hlt) as (w2 & -> & C2 & F2). by apply H. }
  intros Hc Hf. destruct a as [a|], b as [b|], c as [c|];
    repeat (eapply Step; [exact Hc|rewrite Hf; reflexivity|lia|];
      let w1 := fresh "w" in let Hc1 := fresh "Hc" in let Hf1 := fresh "Hf" in
      intros w1 Hc1 Hf1; rewrite Hf in Hf1; cbn in Hf1; clear w Hc Hf; rename w1 into w, Hc1 into Hc, Hf1 into Hf);
    (edestruct open_three_end as (w' & E & F); [exact Hc|exact Hf|exists w'; split; [exact E|rewrite F; exact Hf]]).
Qed.
End opening.

Definition script_example : list item :=
  [Blank [32]; CdLine [] (chars "/usr"); CmdLine [9] (Last (Pipe (Simple [] [(chars "cat", [mkS Rd (chars "f")])]) (Single (Simple [] [(chars "wc", [])]))) 0)].
Definition script_world : world := mkWorld [(chars "console", [])] (Some (concat (show_item <$> script_example)) :: replicate 15 None) [] 0 [].
