(* ===== verification/Umalloc.v ===== *)
(** * user/umalloc.c: malloc and free

    Memory in units of a [Header], 16 bytes: a block is a header at [a], with
    [size] units counting the header, and its payload from [a + 1] on.  The free
    blocks are a circular list through [base].  [sbrk] gives out the units from
    [brk] up to [top]. *)
From stdpp Require Import functions.
From S2P Require Import Prelude.

Record heap := mkHeap { hp : Z -> Z; hs : Z -> Z; freep : Z; brk : Z; top : Z }.
Definition set_ptr (a v : Z) : M heap unit := modify (fun h => mkHeap (<[a := v]> (hp h)) (hs h) (freep h) (brk h) (top h)).
Definition set_size (a v : Z) : M heap unit := modify (fun h => mkHeap (hp h) (<[a := v]> (hs h)) (freep h) (brk h) (top h)).
Definition set_freep (v : Z) : M heap unit := modify (fun h => mkHeap (hp h) (hs h) v (brk h) (top h)).
Definition ptr (a : Z) : M heap Z := gets (fun h => hp h a).
Definition size (a : Z) : M heap Z := gets (fun h => hs h a).

(** [sbrk(n)], n bytes, a multiple of 16, as an [int]: a request the kernel cannot
    meet gives SBRK_ERROR, here -1.  A negative [n] shrinks the process (growproc,
    uvmdealloc), unless that would pass address 0, where [sz + n] wraps around and
    nothing changes; either way the old break is returned. *)
Definition sbrk (n : Z) : M heap Z := fun h =>
  let set b := mkHeap (hp h) (hs h) (freep h) b (top h) in
  let b := brk h + n / 16 in
  if n <? 0 then Ret (brk h, set (if b <? 0 then brk h else b))
  else if b <=? top h then Ret (brk h, set b)
  else Ret (-1, h).

Section umalloc.
(** [&base], a static variable: below the heap. *)
Context (base : Z).

(** [for(p = freep; !(bp > p && bp < p->s.ptr); p = p->s.ptr) if(...) break] *)
Fixpoint free_loop (fuel : nat) (p bp : Z) : M heap Z :=
  match fuel with
  | O => nofuel
  | S fuel =>
      next <~ ptr p ;;
      if (p <? bp) && (bp <? next) then kret p
      else if (next <=? p) && ((p <? bp) || (bp <? next)) then kret p
      else free_loop fuel next bp
  end.
Definition free (fuel : nat) (ap : Z) : M heap unit :=
  let bp := ap - 1 in
  p <~ gets freep ;;
  p <~ free_loop fuel p bp ;;
  next <~ ptr p ;;
  sz <~ size bp ;;
  (if bp + sz =? next then
     nsz <~ size next ;; set_size bp (u32 (sz + nsz)) ;;; nn <~ ptr next ;; set_ptr bp nn
   else set_ptr bp next) ;;;
  psz <~ size p ;;
  (if p + psz =? bp then
     bsz <~ size bp ;; set_size p (u32 (psz + bsz)) ;;; bn <~ ptr bp ;; set_ptr p bn
   else set_ptr p bp) ;;;
  set_freep p.

Definition morecore (fuel : nat) (nu : Z) : M heap Z :=
  let nu := if nu <? 4096 then 4096 else nu in
  p <~ sbrk (i32 (nu * 16)) ;;
  if p =? -1 then kret 0
  else set_size p nu ;;; free fuel (p + 1) ;;; gets freep.

Fixpoint malloc_loop (fuel : nat) (prevp p nunits : Z) : M heap Z :=
  match fuel with
  | O => nofuel
  | S fuel' =>
      sz <~ size p ;;
      if nunits <=? sz then
        (if sz =? nunits then next <~ ptr p ;; set_ptr prevp next ;;; set_freep prevp ;;; kret (p + 1)
         else
           set_size p (sz - nunits) ;;;
           let p := p + (sz - nunits) in
           set_size p nunits ;;; set_freep prevp ;;; kret (p + 1))
      else
        fp <~ gets freep ;;
        if p =? fp then
          p <~ morecore fuel nunits ;;
          if p =? 0 then kret 0 else next <~ ptr p ;; malloc_loop fuel' p next nunits
        else next <~ ptr p ;; malloc_loop fuel' p next nunits
  end.
Definition units (nbytes : Z) : Z := u32 ((nbytes + 16 - 1) / 16 + 1).
Definition malloc (fuel : nat) (nbytes : Z) : M heap Z :=
  let nunits := units nbytes in
  fp <~ gets freep ;;
  prevp <~ (if fp =? 0 then set_ptr base base ;;; set_freep base ;;; set_size base 0 ;;; kret base else kret fp) ;;
  p <~ ptr prevp ;;
  malloc_loop fuel prevp p nunits.
End umalloc.
