(* ===== verification/UmallocInv.v ===== *)
(** * user/umalloc.c: the free list and the heap it partitions

    [path f x l z] follows pointers; [heap_inv] says the free blocks form the
    address-ordered circular list of the source, with no two adjacent blocks, and
    that free and allocated blocks together cover every unit got from sbrk exactly
    once. *)
From stdpp Require Import functions.
From stdpp Require Import functions sorting.
From S2P Require Import Prelude Umalloc.

Fixpoint path (f : Z -> Z) (x : Z) (l : list Z) (z : Z) : Prop :=
  match l with [] => f x = z | y :: l => f x = y /\ path f y l z end.

Lemma path_app f x l y l' z : path f x (l ++ y :: l') z <-> path f x l y /\ path f y l' z.
Proof. revert x. induction l as [|w l IH]; intros x; cbn; [naive_solver|]. rewrite IH. naive_solver. Qed.
Lemma path_insert f x l z a v : a ∉ x :: l -> path (<[a := v]> f) x l z <-> path f x l z.
Proof.
  revert x. induction l as [|w l IH]; intros x Ha; cbn; rewrite fn_lookup_insert_ne by set_solver; [done|].
  rewrite IH by set_solver. done.
Qed.

(** A block is its address and its size in units. *)
Definition block : Type := Z * Z.
Definition within (x : Z) (b : block) : bool := (b.1 <=? x) && (x <? b.1 + b.2).
Definition cover (x : Z) (l : list block) : nat := sum_list_with (fun b => Nat.b2n (within x b)) l.
Fixpoint sorted (lo : Z) (l : list block) : Prop :=
  match l with [] => True | (a, s) :: l => lo < a /\ 0 < s /\ sorted (a + s) l end.

Lemma cover_app x l l' : cover x (l ++ l') = (cover x l + cover x l')%nat.
Proof. apply sum_list_with_app. Qed.
Lemma cover_cons x b l : cover x (b :: l) = (Nat.b2n (within x b) + cover x l)%nat.
Proof. done. Qed.
#[global] Instance cover_proper x : Proper (Permutation ==> eq) (cover x).
Proof. intros l l' H. unfold cover. by rewrite H. Qed.
Lemma cover_elem x b l : b ∈ l -> within x b -> (1 <= cover x l)%nat.
Proof.
  intros Hb Hw. apply elem_of_Permutation in Hb as [l' ->]. apply Is_true_true_1 in Hw.
  cbn. rewrite Hw. cbn. lia.
Qed.
Lemma within_spec x b : within x b <-> b.1 <= x < b.1 + b.2.
Proof. unfold within. rewrite andb_True, !Is_true_true, Z.leb_le, Z.ltb_lt. done. Qed.
Lemma within_false x b : ~ (b.1 <= x < b.1 + b.2) -> within x b = false.
Proof. intros H. apply not_true_is_false. intros E. apply H, within_spec. by rewrite E. Qed.
(** Two blocks side by side cover what one block does. *)
Lemma within_join x a s s' : 0 < s -> 0 < s' ->
  Nat.b2n (within x (a, s + s')) = Nat.add (Nat.b2n (within x (a, s))) (Nat.b2n (within x (a + s, s'))).
Proof.
  intros. unfold within; cbn.
  destruct (Z.leb_spec a x), (Z.ltb_spec x (a + s)), (Z.leb_spec (a + s) x), (Z.ltb_spec x (a + s + s')),
    (Z.ltb_spec x (a + (s + s'))); cbn; lia.
Qed.

Lemma sorted_app lo l l' : sorted lo (l ++ l') -> sorted lo l /\ exists lo', sorted lo' l'.
Proof.
  revert lo. induction l as [|[a s] l IH]; intros lo; cbn; [naive_solver|]. intros (? & ? & H). naive_solver.
Qed.
Lemma sorted_weaken lo lo' l : lo' <= lo -> sorted lo l -> sorted lo' l.
Proof. destruct l as [|[a s] l]; cbn; [done|]. naive_solver lia. Qed.
Lemma sorted_above lo l b : sorted lo l -> b ∈ l -> lo < b.1 /\ 0 < b.2.
Proof.
  revert lo. induction l as [|[a s] l IH]; intros lo Hs Hb; [by apply elem_of_nil in Hb|].
  destruct Hs as (? & ? & Hs). apply elem_of_cons in Hb as [->|Hb]; [done|].
  destruct (IH _ Hs Hb). lia.
Qed.
(** Where a block that overlaps no free block goes. *)
Lemma sorted_split lo l bp s : sorted lo l -> (forall b, b ∈ l -> b.1 + b.2 <= bp \/ bp + s <= b.1) -> 0 < s ->
  exists l1 l2, l = l1 ++ l2 /\ (forall b, b ∈ l1 -> b.1 + b.2 <= bp) /\ (forall b, b ∈ l2 -> bp + s <= b.1).
Proof.
  revert lo. induction l as [|[a t] l IH]; intros lo Hs Hd Hp.
  { exists [], []. set_solver. }
  destruct Hs as (? & ? & Hs). destruct (Hd (a, t)) as [H1|H1]; [set_solver| |]; cbn in H1.
  - destruct (IH _ Hs) as (l1 & l2 & -> & E1 & E2); [set_solver|done|].
    exists ((a, t) :: l1), l2. split; [done|]. split; [|done].
    intros b [->|Hb]%elem_of_cons; [done|auto].
  - exists [], ((a, t) :: l). split; [done|]. split; [set_solver|].
    intros b [->|Hb]%elem_of_cons; [done|]. pose proof (sorted_above _ _ _ Hs Hb). lia.
Qed.
Lemma sorted_join lo l1 l2 : sorted lo l1 -> (exists lo', sorted lo' l2) ->
  (forall b, b ∈ l1 -> forall c, c ∈ l2 -> b.1 + b.2 < c.1) -> (forall c, c ∈ l2 -> lo < c.1) -> sorted lo (l1 ++ l2).
Proof.
  revert lo. induction l1 as [|[a s] l1 IH]; intros lo H1 [lo' H2] Hs Hlo; cbn.
  - destruct l2 as [|[c t] l2]; [done|]. destruct H2 as (_ & ? & ?). split_and!; try done.
    apply (Hlo (c, t)). set_solver.
  - destruct H1 as (? & ? & H1). split_and!; try done. apply IH; eauto; [set_solver|].
    intros c Hc. apply (Hs (a, s)); set_solver.
Qed.

Lemma sorted_gap lo l b c l' : sorted lo (l ++ c :: l') -> b ∈ l -> b.1 + b.2 < c.1.
Proof.
  revert lo. induction l as [|[a s] l IH]; intros lo Hs Hb; [by apply elem_of_nil in Hb|].
  destruct Hs as (_ & _ & Hs). apply elem_of_cons in Hb as [->|Hb]; [|eauto].
  apply (sorted_above _ _ c Hs). set_solver.
Qed.

Section inv.
Context (base : Z).

(** Free blocks [L], allocated blocks [Al], units owned [own]. *)
Record heap_inv (L Al : list block) (own : Z -> nat) (h : heap) : Prop := {
  i_path : path (hp h) base L.*1 base;
  i_size : forall b, b ∈ L ++ Al -> hs h b.1 = b.2;
  i_base : 0 < base /\ hs h base = 0;
  i_sorted : sorted base L;
  i_alive : forall b, b ∈ Al -> 0 < b.2;
  i_cover : forall x, (cover x L + cover x Al)%nat = own x;
  i_own : forall x, (own x <= 1)%nat /\ (own x = 1%nat -> base < x < brk h);
  i_brk : base < brk h /\ brk h <= top h < 2 ^ 32;
  i_freep : freep h ∈ base :: L.*1;
}.

Section facts.
Context (L Al : list block) (own : Z -> nat) (h : heap) (I : heap_inv L Al own h).

Lemma free_pos b : b ∈ L -> base < b.1 /\ 0 < b.2.
Proof. apply sorted_above, (i_sorted _ _ _ _ I). Qed.
Lemma all_pos b : b ∈ L ++ Al -> 0 < b.2.
Proof. intros [Hb|Hb]%elem_of_app; [by apply free_pos|by apply (i_alive _ _ _ _ I)]. Qed.
Lemma in_heap b x : b ∈ L ++ Al -> b.1 <= x < b.1 + b.2 -> base < x < brk h.
Proof.
  intros Hb Hx. apply (i_own _ _ _ _ I). pose proof (proj1 (i_own _ _ _ _ I x)) as Ho.
  rewrite <- (i_cover _ _ _ _ I) in Ho |- *. rewrite <- cover_app in Ho |- *.
  pose proof (cover_elem x b _ Hb (proj2 (within_spec x b) Hx)). lia.
Qed.
(** No unit is in two blocks. *)
Lemma apart b c l : L ++ Al ≡ₚ b :: c :: l -> b.1 + b.2 <= c.1 \/ c.1 + c.2 <= b.1.
Proof.
  intros Hp. assert (Hb : 0 < b.2 /\ 0 < c.2) by (split; apply all_pos; rewrite Hp; set_solver).
  destruct (decide (b.1 <= c.1 < b.1 + b.2 \/ c.1 <= b.1 < c.1 + c.2)) as [Hx|]; [|lia]. exfalso.
  set (x := Z.max b.1 c.1).
  pose proof (proj1 (i_own _ _ _ _ I x)) as Ho.
  rewrite <- (i_cover _ _ _ _ I), <- cover_app, Hp in Ho. cbn in Ho.
  assert (Eb : within x b = true) by (apply Is_true_true_1, within_spec; lia).
  assert (Ec : within x c = true) by (apply Is_true_true_1, within_spec; lia).
  rewrite Eb, Ec in Ho. cbn in Ho. lia.
Qed.
Lemma free_alloc b c : b ∈ L -> c ∈ Al -> b.1 + b.2 <= c.1 \/ c.1 + c.2 <= b.1.
Proof.
  intros [l Hl]%elem_of_Permutation [l' Hl']%elem_of_Permutation. apply (apart b c (l ++ l')).
  rewrite Hl, Hl'. cbn. constructor. by rewrite Permutation_middle.
Qed.
Lemma alloc_alloc c l d : Al ≡ₚ c :: l -> d ∈ l -> d.1 + d.2 <= c.1 \/ c.1 + c.2 <= d.1.
Proof.
  intros Hl [l' Hl']%elem_of_Permutation. apply (apart d c (L ++ l')). rewrite Hl, Hl'.
  rewrite <- !Permutation_middle. constructor.
Qed.
Lemma base_below b : b ∈ L ++ Al -> base < b.1.
Proof. intros Hb. pose proof (all_pos b Hb). apply (in_heap b b.1 Hb). lia. Qed.
Lemma ends_below b : b ∈ L ++ Al -> b.1 + b.2 <= brk h.
Proof. intros Hb. pose proof (all_pos b Hb). pose proof (in_heap b (b.1 + b.2 - 1) Hb). lia. Qed.
End facts.
End inv.

(** ** user/umalloc.c: free puts a block back

    The search loop of free ends at the predecessor of the block, wherever [freep]
    stands on the circle, and the block is linked in and merged with the free
    blocks it touches. *)

(** The circle can be read from any of its nodes. *)
Lemma rotate f base A x : path f base A base -> x ∈ base :: A ->
  exists l, path f x l x /\ x :: l ≡ₚ base :: A.
Proof.
  intros Hp [->|Hx]%elem_of_cons; [by exists A|].
  apply list_elem_of_split in Hx as (A1 & A2 & ->). apply path_app in Hp as [H1 H2].
  exists (A2 ++ base :: A1). rewrite path_app. split; [done|].
  exact (Permutation_app_comm (x :: A2) (base :: A1)).
Qed.

(** In an ascending list a node's pointer goes to the least node above it. *)
Section ascending.
Context (f : Z -> Z) (z : Z).
Lemma path_step x l y : StronglySorted Z.lt (x :: l) -> path f x l z -> y ∈ x :: l ->
  f y = z \/ y < f y /\ f y ∈ x :: l.
Proof.
  revert x. induction l as [|w l IH]; intros x Hs Hp Hy; cbn in Hp.
  { apply list_elem_of_singleton in Hy as ->. by left. }
  destruct Hp as [Hf Hp]. apply StronglySorted_inv in Hs as [Hs Hx]. apply elem_of_cons in Hy as [->|Hy].
  - right. rewrite Hf. split; [by apply Forall_cons in Hx as [? _]|set_solver].
  - destruct (IH w Hs Hp Hy) as [?|[? ?]]; [by left|right]. split; [done|set_solver].
Qed.
Lemma path_least x l y q : StronglySorted Z.lt (x :: l) -> path f x l z -> y ∈ x :: l -> q ∈ x :: l -> y < q ->
  y < f y <= q.
Proof.
  revert x. induction l as [|w l IH]; intros x Hs Hp Hy Hq Hlt; cbn in Hp.
  { apply list_elem_of_singleton in Hy as ->. apply list_elem_of_singleton in Hq as ->. lia. }
  destruct Hp as [Hf Hp]. apply StronglySorted_inv in Hs as [Hs Hx].
  pose proof (proj1 (Forall_forall _ _) Hx) as Hx'. apply elem_of_cons in Hy as [->|Hy].
  - rewrite Hf. split; [apply Hx'; set_solver|]. apply elem_of_cons in Hq as [->|Hq]; [lia|].
    apply elem_of_cons in Hq as [->|Hq]; [lia|]. apply StronglySorted_inv in Hs as [_ Hw].
    pose proof (proj1 (Forall_forall _ _) Hw _ Hq). lia.
  - apply elem_of_cons in Hq as [->|Hq]; [pose proof (Hx' _ Hy); lia|]. by apply (IH w).
Qed.
End ascending.
Lemma sorted_addrs lo L : sorted lo L -> StronglySorted Z.lt (lo :: L.*1).
Proof.
  revert lo. induction L as [|[a s] L IH]; intros lo Hs; cbn; [repeat constructor|].
  destruct Hs as (Hlo & Hp & Hs). specialize (IH _ Hs). apply StronglySorted_inv in IH as [HS HF].
  assert (HF' : Forall (Z.lt a) L.*1) by (eapply Forall_impl; [exact HF|]; cbn; lia).
  constructor; [by constructor|]. constructor; [done|]. eapply Forall_impl; [exact HF'|]. cbn; lia.
Qed.

Definition stops (h : heap) (bp p : Z) : bool :=
  ((p <? bp) && (bp <? hp h p)) || ((hp h p <=? p) && ((p <? bp) || (bp <? hp h p))).
Lemma free_loop_find h bp q x l z fuel : path (hp h) x l z -> q ∈ x :: l -> stops h bp q = true ->
  (forall y, y ∈ x :: l -> stops h bp y = true -> y = q) -> (length l < fuel)%nat ->
  free_loop fuel x bp h = Ret (q, h).
Proof.
  revert x fuel. induction l as [|w l IH]; intros x [|fuel] Hp Hq Hs Hu Hf; cbn in Hf; try lia; cbn [free_loop];
    erewrite kbind_ret by reflexivity; cbv beta; destruct (stops h bp x) eqn:E.
  1, 3: pose proof (Hu x ltac:(set_solver) E) as <-; unfold stops in E; destruct (_ && _); [done|]; cbn in E;
    by rewrite E.
  - apply list_elem_of_singleton in Hq as ->. congruence.
  - destruct Hp as [Hx Hp]. apply elem_of_cons in Hq as [->|Hq]; [congruence|].
    pose proof E as E'. unfold stops in E'. apply orb_false_iff in E' as [-> ->]. rewrite Hx.
    apply IH; [done..|set_solver|lia].
Qed.

Section free.
Context (base : Z) (h : heap) (l1 l2 : list block) (bp : Z).
Context (Hpath : path (hp h) base (l1 ++ l2).*1 base) (Hsort : sorted base (l1 ++ l2)).
Context (Hbase : base < bp) (Hlow : forall b, b ∈ l1 -> b.1 < bp) (Hhigh : forall b, b ∈ l2 -> bp < b.1).

(** The last node below the block. *)
Definition pred : Z := default base (last l1.*1).
Lemma pred_cases : (l1 = [] /\ pred = base) \/ exists l s, l1 = l ++ [(pred, s)].
Proof.
  clear Hpath Hsort Hlow Hhigh Hbase. unfold pred. destruct l1 as [|b l _] using rev_ind; [by left|right]. exists l, b.2.
  rewrite fmap_app. change ([b].*1) with [b.1]. rewrite last_snoc. by destruct b.
Qed.
Lemma pred_node : pred ∈ base :: (l1 ++ l2).*1.
Proof.
  clear Hpath Hsort Hlow Hhigh Hbase. destruct pred_cases as [[-> ->]|(l & s & E)]; [set_solver|]. right. apply list_elem_of_fmap.
  exists (pred, s). split; [done|]. rewrite E. set_solver.
Qed.
Lemma pred_below : pred < bp.
Proof. destruct pred_cases as [[_ ->]|(l & s & E)]; [done|]. apply (Hlow (pred, s)). rewrite E. set_solver. Qed.
Lemma pred_max w : w ∈ base :: (l1 ++ l2).*1 -> w < bp -> w <= pred.
Proof.
  intros Hw Hlt. rewrite fmap_app in Hw.
  assert (Hw1 : w ∈ base :: l1.*1).
  { apply elem_of_cons in Hw as [->|Hw]; [set_solver|]. apply elem_of_app in Hw as [Hw|Hw]; [set_solver|].
    apply list_elem_of_fmap in Hw as (b & -> & Hb). pose proof (Hhigh _ Hb). lia. }
  destruct (sorted_app _ _ _ Hsort) as [Hs _]. apply sorted_addrs in Hs.
  destruct pred_cases as [[El ->]|(l & s & E)].
  { rewrite El in Hw1. by apply list_elem_of_singleton in Hw1 as ->. }
  rewrite E, fmap_app in Hw1, Hs. cbn in Hw1, Hs. rewrite app_comm_cons in Hw1, Hs.
  apply elem_of_app in Hw1 as [Hw1|Hw1%list_elem_of_singleton]; [|lia].
  assert (w < pred) by (eapply StronglySorted_app_1_elem_of; [exact Hs|done|set_solver]). lia.
Qed.
Lemma pred_stops y : y ∈ base :: (l1 ++ l2).*1 -> stops h bp y = true <-> y = pred.
Proof.
  pose proof pred_node as Hq. pose proof pred_below as Hb. pose proof (sorted_addrs _ _ Hsort) as HS.
  intros Hy. unfold stops. rewrite orb_true_iff, !andb_true_iff, orb_true_iff, !Z.ltb_lt, Z.leb_le.
  assert (Hlo : forall w, w ∈ base :: (l1 ++ l2).*1 -> base <= w).
  { apply StronglySorted_inv in HS as [_ HF]. intros w [->|Hw]%elem_of_cons; [lia|].
    pose proof (proj1 (Forall_forall _ _) HF _ Hw). lia. }
  split.
  - intros Hc. destruct (Z.lt_trichotomy y pred) as [Hlt|[?|Hgt]]; [|done|].
    + pose proof (path_least _ _ _ _ y pred HS Hpath Hy Hq Hlt). lia.
    + exfalso. destruct (decide (y < bp)) as [Hyb|Hyb]; [pose proof (pred_max y Hy Hyb); lia|].
      destruct (path_step _ _ _ _ y HS Hpath Hy) as [E|[E _]]; lia.
  - intros ->. destruct (path_step _ _ _ _ pred HS Hpath Hq) as [E|[E Hn]].
    + right. rewrite E. pose proof (Hlo _ Hq). lia.
    + left. split; [done|]. destruct (Z.lt_trichotomy bp (hp h pred)) as [?|[E'|E']]; [done| |].
      * exfalso. rewrite <- E' in Hn. apply elem_of_cons in Hn as [?|Hn]; [lia|].
        apply list_elem_of_fmap in Hn as (b & -> & [Hb'|Hb']%elem_of_app); [pose proof (Hlow _ Hb')|pose proof (Hhigh _ Hb')]; lia.
      * pose proof (pred_max _ Hn E'). lia.
Qed.
(** The search loop ends, at the predecessor, from any node. *)
Lemma free_loop_pred x fuel : x ∈ base :: (l1 ++ l2).*1 -> (length (l1 ++ l2) < fuel)%nat ->
  free_loop fuel x bp h = Ret (pred, h).
Proof.
  intros Hx Hf. destruct (rotate _ _ _ _ Hpath Hx) as (l & Hp & Hl).
  apply (free_loop_find h bp pred x l x); [done| | | |].
  - rewrite Hl. apply pred_node.
  - by apply pred_stops, eq_refl; apply pred_node.
  - intros y Hy. rewrite Hl in Hy. by apply pred_stops.
  - apply Permutation_length in Hl. cbn [length] in Hl. rewrite length_fmap in Hl. injection Hl as ->. done.
Qed.
End free.

(** ** user/umalloc.c: free keeps the heap partitioned

    The two halves of free, merging with the block above ([right]) and with the
    block below ([left]), and the invariant after both. *)

Definition right (h : heap) (p bp : Z) : heap :=
  let next := hp h p in
  if bp + hs h bp =? next then
    mkHeap (<[bp := hp h next]> (hp h)) (<[bp := u32 (hs h bp + hs h next)]> (hs h)) (freep h) (brk h) (top h)
  else mkHeap (<[bp := next]> (hp h)) (hs h) (freep h) (brk h) (top h).
Definition left (h : heap) (p bp : Z) : heap :=
  if p + hs h p =? bp then
    mkHeap (<[p := hp h bp]> (hp h)) (<[p := u32 (hs h p + hs h bp)]> (hs h)) p (brk h) (top h)
  else mkHeap (<[p := bp]> (hp h)) (hs h) p (brk h) (top h).
Lemma free_run fuel h p bp : free_loop fuel (freep h) bp h = Ret (p, h) ->
  free fuel (bp + 1) h = Ret (tt, left (right h p bp) p bp).
Proof.
  intros H. unfold free. replace (bp + 1 - 1) with bp by lia.
  erewrite kbind_ret by reflexivity. cbv beta. rewrite (kbind_ret _ _ _ _ _ H).
  do 2 (erewrite kbind_ret by reflexivity; cbv beta).
  rewrite (kbind_ret _ _ _ tt (right h p bp)); [|by unfold right; destruct (_ =? _)].
  erewrite kbind_ret by reflexivity. cbv beta. unfold left.
  set (g := right h p bp). by destruct (p + hs g p =? bp).
Qed.

Lemma path_ext f f' x x' l z : f' x' = f x -> (forall y, y ∈ l -> f' y = f y) -> path f x l z -> path f' x' l z.
Proof.
  revert x x'. induction l as [|w l IH]; intros x x' Hx Hl; cbn; rewrite Hx; [done|].
  intros [-> Hp]. split; [done|]. apply (IH w w); [apply Hl; set_solver|set_solver|done].
Qed.

(** What [right] leaves: the block, of size [s1], before the blocks [l]. *)
Record righted (h h1 : heap) (bp s base : Z) (l2 : list block) (s1 : Z) (l : list block) : Prop := {
  r_size : hs h1 bp = s1 /\ s <= s1;
  r_path : path (hp h1) bp l.*1 base;
  r_sorted : sorted (bp + s1) l;
  r_cover : forall x, cover x ((bp, s1) :: l) = cover x ((bp, s) :: l2);
  r_sub : (forall b, b ∈ l -> b ∈ l2) /\ (length l <= length l2)%nat;
  r_other : forall y, y <> bp -> hp h1 y = hp h y /\ hs h1 y = hs h y;
  r_brk : brk h1 = brk h /\ top h1 = top h;
}.
Lemma right_ok h p bp s base l2 lo : path (hp h) p l2.*1 base -> sorted lo l2 ->
  (forall b, b ∈ l2 -> bp + s <= b.1 /\ hs h b.1 = b.2 /\ b.1 + b.2 < 2 ^ 32) ->
  hs h bp = s -> 0 < s -> 0 <= base < bp -> exists s1 l, righted h (right h p bp) bp s base l2 s1 l.
Proof.
  intros Hp Hs Hb Hsz Hpos Hbase. unfold right. rewrite Hsz. destruct (Z.eqb_spec (bp + s) (hp h p)) as [E|E].
  - destruct l2 as [|[a t] l]; cbn in Hp; [lia|]. destruct Hp as [Ha Hp]. destruct Hs as (_ & Ht & Hs).
    destruct (Hb (a, t)) as (_ & Hat & Hlt); [set_solver|]. cbn in Hat, Hlt. rewrite Ha in E |- *. rewrite Hat.
    rewrite u32_small by lia. exists (s + t), l. split; cbn [hp hs brk top].
    + rewrite fn_lookup_insert. lia.
    + apply (path_ext (hp h) _ a); [by rewrite fn_lookup_insert| |done].
      intros y (b & -> & Hbl)%list_elem_of_fmap. destruct (Hb b) as [? _]; [set_solver|].
      rewrite fn_lookup_insert_ne; [done|lia].
    + by replace (bp + (s + t)) with (a + t) by lia.
    + intros x. cbn. rewrite within_join by lia. rewrite E. lia.
    + split; [set_solver|cbn; lia].
    + intros y Hy. by rewrite !fn_lookup_insert_ne by done.
    + done.
  - exists s, l2. split; cbn [hp hs brk top].
    + lia.
    + apply (path_ext (hp h) _ p); [by rewrite fn_lookup_insert| |done].
      intros y (b & -> & Hbl)%list_elem_of_fmap. destruct (Hb b Hbl) as [? _].
      rewrite fn_lookup_insert_ne; [done|lia].
    + destruct l2 as [|[a t] l]; [done|]. cbn in Hp. destruct Hp as [Ha _]. destruct Hs as (_ & ? & ?).
      destruct (Hb (a, t)) as [? _]; [set_solver|]. cbn in *. split_and!; [lia|done..].
    + done.
    + done.
    + intros y Hy. by rewrite fn_lookup_insert_ne by done.
    + done.
Qed.

Section left.
Context (base : Z) (h h1 : heap) (l1 l2 Al : list block) (own : Z -> nat) (bp s s1 : Z) (l : list block).
Context (I : heap_inv base (l1 ++ l2) ((bp, s) :: Al) own h) (R : righted h h1 bp s base l2 s1 l).
Context (Hlow : forall b, b ∈ l1 -> b.1 + b.2 <= bp) (Hhigh : forall b, b ∈ l2 -> bp + s <= b.1).
Context (p : Z) (Hp : p = pred base l1).

Lemma spos : 0 < s.
Proof. apply (i_alive _ _ _ _ _ I (bp, s)). set_solver. Qed.
Lemma bp_above : base < bp.
Proof. apply (base_below _ _ _ _ _ I (bp, s)). set_solver. Qed.
Lemma l1_facts b : b ∈ l1 -> base < b.1 /\ 0 < b.2 /\ hs h1 b.1 = b.2 /\ b.1 + b.2 <= bp.
Proof.
  intros Hb. destruct (free_pos _ _ _ _ _ I b); [set_solver|]. pose proof (Hlow b Hb).
  split_and!; try done. rewrite (proj2 (r_other _ _ _ _ _ _ _ _ R b.1 ltac:(lia))).
  apply (i_size _ _ _ _ _ I). set_solver.
Qed.
Lemma l_facts b : b ∈ l -> bp + s1 < b.1 /\ 0 < b.2 /\ hs h1 b.1 = b.2.
Proof.
  intros Hb. destruct (sorted_above _ _ _ (r_sorted _ _ _ _ _ _ _ _ R) Hb). pose proof spos.
  pose proof (r_size _ _ _ _ _ _ _ _ R). split_and!; try done.
  rewrite (proj2 (r_other _ _ _ _ _ _ _ _ R b.1 ltac:(lia))). apply (i_size _ _ _ _ _ I).
  pose proof (proj1 (r_sub _ _ _ _ _ _ _ _ R) b Hb). set_solver.
Qed.
Lemma al_facts b : b ∈ Al -> b.1 <> bp /\ (b.1 ∉ l1.*1) /\ base < b.1 /\ hs h1 b.1 = b.2.
Proof.
  intros Hb. pose proof (alloc_alloc _ _ _ _ _ I (bp, s) Al b ltac:(done) Hb) as Ha. cbn in Ha. pose proof spos.
  assert (0 < b.2) by (apply (i_alive _ _ _ _ _ I); set_solver). split_and!; [lia| | |].
  - intros (c & E & Hc)%list_elem_of_fmap. destruct (l1_facts c Hc) as (_ & ? & _).
    destruct (free_alloc _ _ _ _ _ I c b); [set_solver..|lia|lia].
  - apply (base_below _ _ _ _ _ I). set_solver.
  - rewrite (proj2 (r_other _ _ _ _ _ _ _ _ R b.1 ltac:(lia))). apply (i_size _ _ _ _ _ I). set_solver.
Qed.
Lemma p_cases : (l1 = [] /\ p = base) \/ exists k t, l1 = k ++ [(p, t)].
Proof. rewrite Hp. apply pred_cases. Qed.
(** The nodes before the predecessor keep their pointers. *)
Lemma prefix_path f k t : l1 = k ++ [(p, t)] -> (forall y, y < p -> f y = hp h1 y) -> path f base k.*1 p.
Proof.
  intros E Hf. pose proof (i_path _ _ _ _ _ I) as Hpath. pose proof (i_sorted _ _ _ _ _ I) as Hs.
  rewrite E, <- app_assoc in Hpath, Hs. rewrite fmap_app in Hpath. cbn [app] in Hpath, Hs. rewrite fmap_cons in Hpath.
  apply path_app in Hpath as [Hpath _]. apply sorted_addrs in Hs. rewrite fmap_app, app_comm_cons in Hs.
  assert (Hlt : forall y, y ∈ base :: k.*1 -> y < p).
  { intros y Hy. eapply StronglySorted_app_1_elem_of; [exact Hs|done|]. set_solver. }
  assert (p < bp). { assert (Hin : (p, t) ∈ l1) by (rewrite E; set_solver).
    destruct (l1_facts _ Hin) as (_ & ? & _ & ?). cbn in *. lia. }
  assert (Hag : forall y, y ∈ base :: k.*1 -> f y = hp h y).
  { intros y Hy. pose proof (Hlt y Hy). rewrite Hf by done. apply (r_other _ _ _ _ _ _ _ _ R). lia. }
  apply (path_ext (hp h) _ base); [apply Hag; set_solver|intros y Hy; apply Hag; set_solver|done].
Qed.
(** Only the predecessor can end where the block starts. *)
Lemma touching b : b ∈ l1 -> b.1 + b.2 = bp -> b.1 = p.
Proof.
  intros Hb E. destruct (l1_facts b Hb) as (? & ? & _). destruct p_cases as [[E1 _]|(k & t & Ek)].
  { rewrite E1 in Hb. by apply elem_of_nil in Hb. }
  rewrite Ek in Hb. apply elem_of_app in Hb as [Hb|Hb]; [exfalso|by apply list_elem_of_singleton in Hb as ->].
  assert (Hin : (p, t) ∈ l1) by (rewrite Ek; set_solver). destruct (l1_facts _ Hin) as (_ & ? & _ & ?).
  pose proof (i_sorted _ _ _ _ _ I) as Hs. rewrite Ek, <- app_assoc in Hs.
  pose proof (sorted_gap _ _ _ _ _ Hs Hb). cbn in *. lia.
Qed.
Lemma cover_split x : (cover x l1 + Nat.b2n (within x (bp, s1)) + cover x l + cover x Al)%nat = own x.
Proof.
  pose proof (r_cover _ _ _ _ _ _ _ _ R x) as Hc. rewrite <- (i_cover _ _ _ _ _ I x), cover_app.
  rewrite !cover_cons in Hc. rewrite cover_cons. lia.
Qed.
Lemma end_brk : bp + s1 <= brk h /\ brk h1 = brk h /\ top h1 = top h /\ brk h < 2 ^ 32.
Proof.
  pose proof spos. pose proof (r_size _ _ _ _ _ _ _ _ R). destruct (r_brk _ _ _ _ _ _ _ _ R).
  pose proof (i_brk _ _ _ _ _ I). split_and!; try done; try lia.
  set (x := bp + s1 - 1). assert (Hw : within x (bp, s1) = true) by (apply Is_true_true_1, within_spec; cbn; lia).
  pose proof (cover_split x) as Hc. rewrite Hw in Hc. destruct (i_own _ _ _ _ _ I x) as [Ho1 Ho2]. cbn in Hc.
  pose proof (Ho2 ltac:(lia)). lia.
Qed.
Lemma p_low : p < bp.
Proof.
  pose proof bp_above. destruct p_cases as [[_ ->]|(k & t & E)]; [done|].
  assert (Hin : (p, t) ∈ l1) by (rewrite E; set_solver). destruct (l1_facts _ Hin) as (_ & ? & _ & ?). cbn in *. lia.
Qed.
Lemma base_size : hs h1 base = 0.
Proof.
  pose proof bp_above. rewrite (proj2 (r_other _ _ _ _ _ _ _ _ R base ltac:(lia))). apply (i_base _ _ _ _ _ I).
Qed.
Lemma left_size : 0 <= hs h1 p.
Proof.
  destruct p_cases as [[_ ->]|(k & t & E)]; [by rewrite base_size|].
  assert (Hin : (p, t) ∈ l1) by (rewrite E; set_solver). destruct (l1_facts _ Hin) as (_ & ? & Ht & _). cbn in *. lia.
Qed.
Lemma suffix_path f x : f x = hp h1 bp -> (forall y, bp < y -> f y = hp h1 y) -> path f x l.*1 base.
Proof.
  intros Hx Hf. apply (path_ext (hp h1) _ bp); [done| |apply (r_path _ _ _ _ _ _ _ _ R)].
  intros y (b & -> & Hb)%list_elem_of_fmap. destruct (l_facts b Hb) as [? _]. apply Hf.
  pose proof spos. pose proof (r_size _ _ _ _ _ _ _ _ R). lia.
Qed.
(** What is left to show of the new free list, whichever way it was made. *)
Lemma left_inv L' (h2 : heap) : brk h2 = brk h1 -> top h2 = top h1 ->
  path (hp h2) base L'.*1 base -> sorted base L' -> freep h2 ∈ base :: L'.*1 -> hs h2 base = 0 ->
  (forall b, b ∈ L' -> hs h2 b.1 = b.2) -> (forall b, b ∈ Al -> hs h2 b.1 = b.2) ->
  (forall x, cover x L' = (cover x l1 + Nat.b2n (within x (bp, s1)) + cover x l)%nat) ->
  heap_inv base L' Al own h2.
Proof.
  intros Hb Ht Hpa Hs Hf Hz HL HA Hc. destruct end_brk as (_ & Hb1 & Ht1 & _). split; rewrite ?Hb, ?Hb1, ?Ht, ?Ht1; try done.
  - intros b [?|?]%elem_of_app; auto.
  - split; [apply (i_base _ _ _ _ _ I)|done].
  - intros b Hbl. apply (i_alive _ _ _ _ _ I). set_solver.
  - intros x. rewrite Hc. apply cover_split.
  - apply (i_own _ _ _ _ _ I).
  - apply (i_brk _ _ _ _ _ I).
Qed.
Lemma left_apart : p + hs h1 p <> bp -> heap_inv base (l1 ++ (bp, s1) :: l) Al own (left h1 p bp).
Proof.
  intros Hne. unfold left. rewrite (proj2 (Z.eqb_neq _ _) Hne).
  pose proof p_low as Hpl. pose proof bp_above as Hba. pose proof spos.
  pose proof (r_size _ _ _ _ _ _ _ _ R) as [Hr1 Hr2]. destruct (sorted_app _ _ _ (i_sorted _ _ _ _ _ I)) as [Hs1 _].
  assert (Hins : forall y, y <> p -> (<[p := bp]> (hp h1)) y = hp h1 y) by (intros; by rewrite fn_lookup_insert_ne).
  apply left_inv; cbn [hp hs freep brk top]; try done.
  - rewrite fmap_app, fmap_cons. apply path_app. split; [|apply suffix_path; intros; apply Hins; lia].
    destruct p_cases as [[-> ->]|(k & t & E)]; [by cbn; rewrite fn_lookup_insert|].
    rewrite E, fmap_app. apply path_app. split; [|by cbn; rewrite fn_lookup_insert].
    apply (prefix_path _ _ _ E). intros; apply Hins; lia.
  - apply sorted_join; [done| | |].
    + exists base. cbn. split_and!; [lia..|apply (r_sorted _ _ _ _ _ _ _ _ R)].
    + intros b Hb c [->|Hc]%elem_of_cons; destruct (l1_facts b Hb) as (? & ? & Hbs & ?).
      * destruct (decide (b.1 + b.2 = bp)) as [Eb|]; [|cbn; lia].
        pose proof (touching b Hb Eb) as Et. rewrite Et in Hbs. lia.
      * destruct (l_facts c Hc) as [? _]. lia.
    + intros c [->|Hc]%elem_of_cons; [done|]. destruct (l_facts c Hc) as [? _]. lia.
  - rewrite fmap_app, fmap_cons. destruct p_cases as [[_ ->]|(k & t & E)]; [set_solver|].
    right. apply elem_of_app. left. rewrite E, fmap_app. set_solver.
  - apply base_size.
  - intros b [Hb|[->|Hb]%elem_of_cons]%elem_of_app; [by apply l1_facts|done|by apply l_facts].
  - intros b Hb. by apply al_facts.
  - intros x. rewrite cover_app, cover_cons. lia.
Qed.
Lemma left_merge : p + hs h1 p = bp ->
  exists k, (length k < length l1)%nat /\ heap_inv base (k ++ (p, hs h1 p + s1) :: l) Al own (left h1 p bp).
Proof.
  intros E. pose proof base_size as Hb0. pose proof bp_above as Hba. pose proof spos. pose proof p_low as Hpl.
  destruct p_cases as [[_ ->]|(k & t & Ek)]; [lia|].
  assert (Hin : (p, t) ∈ l1) by (rewrite Ek; set_solver). destruct (l1_facts _ Hin) as (Hpb & Ht & Hpt & _). cbn in Hpb, Ht, Hpt.
  exists k. split; [rewrite Ek, length_app; cbn; lia|]. destruct end_brk as (He & _ & _ & Hlim).
  pose proof (r_size _ _ _ _ _ _ _ _ R) as [Hr1 Hr2]. pose proof (i_base _ _ _ _ _ I) as [Hpos _].
  unfold left. rewrite (proj2 (Z.eqb_eq _ _) E), Hr1, Hpt, u32_small by lia.
  assert (Hins : forall v f y, y <> p -> (<[p := v]> f) y = f y :> Z) by (intros; by rewrite fn_lookup_insert_ne).
  pose proof (i_sorted _ _ _ _ _ I) as Hs. rewrite Ek, <- app_assoc in Hs. destruct (sorted_app _ _ _ Hs) as [Hsk _].
  apply sorted_addrs in Hs as Hss. rewrite fmap_app, app_comm_cons in Hss.
  assert (Hkp : forall b, b ∈ k -> b.1 < p).
  { intros b Hb. eapply StronglySorted_app_1_elem_of; [exact Hss|right; by apply list_elem_of_fmap_2|cbn; set_solver]. }
  assert (Hkl : forall b, b ∈ k -> b ∈ l1) by (rewrite Ek; set_solver).
  apply left_inv; cbn [hp hs freep brk top]; try done.
  - rewrite fmap_app, fmap_cons. apply path_app. split.
    + apply (prefix_path _ _ _ Ek). intros; apply Hins; lia.
    + apply suffix_path; [cbn; by rewrite fn_lookup_insert|]. intros; apply Hins; cbn in *; lia.
  - apply sorted_join; [done| | |].
    + exists base. cbn. split_and!; [lia..|]. replace (p + (t + s1)) with (bp + s1) by lia. apply (r_sorted _ _ _ _ _ _ _ _ R).
    + intros b Hb c [->|Hc]%elem_of_cons; destruct (l1_facts b (Hkl b Hb)) as (? & ? & _ & ?); [cbn|destruct (l_facts c Hc); lia].
      apply (sorted_gap _ _ _ _ _ Hs Hb).
    + intros c [->|Hc]%elem_of_cons; [cbn; lia|]. destruct (l_facts c Hc) as [? _]. lia.
  - rewrite fmap_app, fmap_cons. set_solver.
  - rewrite Hins; [done|lia].
  - intros b [Hb|[->|Hb]%elem_of_cons]%elem_of_app; [|by cbn; rewrite fn_lookup_insert|].
    + rewrite Hins; [by apply l1_facts, Hkl|]. pose proof (Hkp b Hb). lia.
    + destruct (l_facts b Hb) as (? & _ & ?). rewrite Hins; [done|lia].
  - intros b Hb. destruct (al_facts b Hb) as (_ & Hn & _ & ?). rewrite Hins; [done|]. intros Eb. apply Hn. rewrite Eb.
    apply list_elem_of_fmap. by exists (p, t).
  - intros x. rewrite Ek, !cover_app, !cover_cons, within_join by lia. rewrite <- Hpt, E. cbn [cover sum_list_with]. rewrite Hpt. lia.
Qed.
End left.
