(* ===== verification/UmallocTheorems.v ===== *)
(** * user/umalloc.c: what malloc and free promise

    Every call returns, the blocks in use never overlap each other, the free list
    or the end of the process, and no unit of the heap is ever lost. *)
From stdpp Require Import functions sorting.
From S2P Require Import Prelude Umalloc UmallocInv.

(** Taking a block off the list, and making one smaller. *)
Lemma sorted_drop lo A a s B : sorted lo (A ++ (a, s) :: B) -> sorted lo (A ++ B).
Proof.
  revert lo. induction A as [|[c t] A IH]; intros lo; cbn.
  - intros (? & ? & H). apply (sorted_weaken (a + s)); [lia|done].
  - intros (? & ? & H). auto.
Qed.
Lemma sorted_shrink lo A a s t B : 0 < t <= s -> sorted lo (A ++ (a, s) :: B) -> sorted lo (A ++ (a, t) :: B).
Proof.
  intros Ht. revert lo. induction A as [|[c u] A IH]; intros lo; cbn.
  - intros (? & ? & H). split_and!; [lia..|]. apply (sorted_weaken (a + s)); [lia|done].
  - intros (? & ? & H). auto.
Qed.
Lemma drop_path f base A a s B : sorted base (A ++ (a, s) :: B) -> path f base (A ++ (a, s) :: B).*1 base ->
  path (<[pred base A := f a]> f) base (A ++ B).*1 base.
Proof.
  intros Hs HP. rewrite fmap_app, fmap_cons in HP. apply path_app in HP as [H1 H2].
  apply sorted_addrs in Hs. rewrite fmap_app, app_comm_cons in Hs.
  set (q := pred base A). assert (Hq : q ∈ base :: A.*1).
  { pose proof (pred_node base A []) as Hn. rewrite app_nil_r in Hn. exact Hn. }
  assert (HB : path (<[q := f a]> f) q B.*1 base).
  { apply (path_ext f _ a); [by rewrite fn_lookup_insert| |done]. intros y Hy. rewrite fn_lookup_insert_ne; [done|].
    assert (q < y) by (eapply StronglySorted_app_1_elem_of; [exact Hs|done|set_solver]). lia. }
  rewrite fmap_app. subst q. destruct (pred_cases base A) as [[-> ->]|(k & t & E)]; [done|].
  remember (pred base A) as q. rewrite E, fmap_app in H1, Hs |- *. cbn in H1 |- *. apply path_app in H1 as [H1 _].
  rewrite <- app_assoc. cbn [app]. apply path_app. split; [|done]. apply path_insert; [|done].
  cbn in Hs. rewrite <- app_assoc, app_comm_cons in Hs. intros Hin.
  assert (q < q) by (eapply StronglySorted_app_1_elem_of; [exact Hs|done|set_solver]). lia.
Qed.

Section malloc.
Context (base : Z).

Lemma heap_inv_perm L Al Al' own h : Al ≡ₚ Al' -> heap_inv base L Al own h -> heap_inv base L Al' own h.
Proof.
  intros Hp I. destruct I as [I1 I2 I3 I4 I5 I6 I7 I8 I9]. split; try done.
  - intros b Hb. apply I2. by rewrite Hp.
  - intros b Hb. apply I5. by rewrite Hp.
  - intros x. by rewrite <- Hp.
Qed.

(** free returns, and the block's units are free units of the same heap. *)
Lemma free_inv L Al own h bp s fuel : heap_inv base L ((bp, s) :: Al) own h -> (length L < fuel)%nat ->
  exists h' L', free fuel (bp + 1) h = Ret (tt, h') /\ heap_inv base L' Al own h' /\
    (exists b, b ∈ L' /\ s <= b.2) /\ (length L' <= S (length L))%nat /\ brk h' = brk h /\ top h' = top h.
Proof.
  intros I Hf. assert (Hsp : 0 < s) by (apply (i_alive _ _ _ _ _ I (bp, s)); set_solver).
  assert (Hbb : base < bp) by (apply (base_below _ _ _ _ _ I (bp, s)); set_solver).
  destruct (sorted_split base L bp s (i_sorted _ _ _ _ _ I)) as (l1 & l2 & -> & Hlow & Hhigh); [|done|].
  { intros b Hb. apply (free_alloc _ _ _ _ _ I b (bp, s)); [done|set_solver]. }
  assert (Hpos : forall b, b ∈ l1 ++ l2 -> 0 < b.2) by (intros b Hb; by apply (free_pos _ _ _ _ _ I)).
  assert (Hloop : free_loop fuel (freep h) bp h = Ret (pred base l1, h)).
  { apply (free_loop_pred base h l1 l2 bp); try done; try apply I.
    - intros b Hb. pose proof (Hlow b Hb). pose proof (Hpos b ltac:(set_solver)). lia.
    - intros b Hb. pose proof (Hhigh b Hb). lia. }
  rewrite (free_run _ _ _ _ Hloop).
  assert (Hp2 : path (hp h) (pred base l1) l2.*1 base).
  { pose proof (i_path _ _ _ _ _ I) as Hp. destruct (pred_cases base l1) as [[-> ->]|(k & t & E)]; [done|].
    remember (pred base l1) as p. rewrite E, <- app_assoc, fmap_app in Hp. by apply path_app in Hp as [_ ?]. }
  destruct (sorted_app _ _ _ (i_sorted _ _ _ _ _ I)) as [_ [lo Hs2]].
  destruct (right_ok h (pred base l1) bp s base l2 lo) as (s1 & l & R); try done.
  { intros b Hb. split_and!; [by apply Hhigh|apply (i_size _ _ _ _ _ I); set_solver|].
    pose proof (ends_below _ _ _ _ _ I b ltac:(set_solver)). pose proof (i_brk _ _ _ _ _ I). lia. }
  { apply (i_size _ _ _ _ _ I (bp, s)). set_solver. }
  { pose proof (i_base _ _ _ _ _ I). lia. }
  set (h1 := right h (pred base l1) bp) in *. pose proof (r_size _ _ _ _ _ _ _ _ R). pose proof (proj2 (r_sub _ _ _ _ _ _ _ _ R)).
  assert (Hbt : brk (left h1 (pred base l1) bp) = brk h /\ top (left h1 (pred base l1) bp) = top h).
  { destruct (r_brk _ _ _ _ _ _ _ _ R). unfold left. by destruct (_ =? _). }
  exists (left h1 (pred base l1) bp). destruct (decide (pred base l1 + hs h1 (pred base l1) = bp)) as [E|E].
  - destruct (left_merge base h h1 l1 l2 Al own bp s s1 l I R Hlow Hhigh _ eq_refl E) as (k & Hk & I').
    eexists. split; [done|]. split; [exact I'|]. split_and!; try apply Hbt.
    + eexists (_, _). split; [apply elem_of_app; right; left|]. cbn.
      pose proof (free_pos _ _ _ _ _ I' (pred base l1, hs h1 (pred base l1) + s1) ltac:(set_solver)).
      pose proof (left_size base h h1 l1 l2 Al own bp s s1 l I R Hlow Hhigh _ eq_refl). lia.
    + rewrite !length_app. cbn [length]. unfold block in *. lia.
  - eexists. split; [done|]. split; [exact (left_apart base h h1 l1 l2 Al own bp s s1 l I R Hlow Hhigh _ eq_refl E)|].
    split_and!; try apply Hbt; [exists (bp, s1); split; [set_solver|cbn; lia]|]. rewrite !length_app. cbn [length]. unfold block in *. lia.
Qed.
(** malloc takes a block off the list, whole, or its last [n] units. *)
Section take.
Context (A B Al : list block) (own : Z -> nat) (h : heap) (a s pp n : Z).
Context (I : heap_inv base (A ++ (a, s) :: B) Al own h) (Hn : 0 < n <= s).
Context (Hpp : pp ∈ base :: (A ++ (a, s) :: B).*1) (Hpa : hp h pp = a).

Lemma take_pos : base < a /\ hs h a = s /\ 0 < s.
Proof.
  destruct (free_pos _ _ _ _ _ I (a, s)); [set_solver|]. split_and!; try done.
  apply (i_size _ _ _ _ _ I (a, s)). set_solver.
Qed.
Lemma take_pred : pp = pred base A.
Proof.
  pose proof (sorted_addrs _ _ (i_sorted _ _ _ _ _ I)) as HS. pose proof (i_path _ _ _ _ _ I) as HP. pose proof take_pos.
  assert (Hq : pred base A ∈ base :: (A ++ (a, s) :: B).*1 /\ hp h (pred base A) = a /\ pred base A < a).
  { destruct (pred_cases base A) as [[-> ->]|(k & t & E)].
    { rewrite fmap_app in HP. cbn in HP. split; [set_solver|]. split; [by destruct HP|lia]. }
    remember (pred base A) as q. rewrite E, <- app_assoc, fmap_app in HP |- *. cbn in HP. apply path_app in HP as [_ HP].
    pose proof (i_sorted _ _ _ _ _ I) as Hs. rewrite E in Hs. pose proof (sorted_gap _ _ (q, t) _ _ Hs ltac:(set_solver)).
    destruct (free_pos _ _ _ _ _ I (q, t)); [rewrite E; set_solver|].
    cbn in *. split; [set_solver|]. split; [by destruct HP|lia]. }
  destruct Hq as (Hq & Eq & Hlt). destruct (Z.lt_trichotomy pp (pred base A)) as [?|[?|?]]; [|done|].
  - pose proof (path_least _ _ _ _ _ _ HS HP Hpp Hq ltac:(done)). lia.
  - pose proof (path_least _ _ _ _ _ _ HS HP Hq Hpp ltac:(done)).
    destruct (path_step _ _ _ _ _ HS HP Hpp); lia.
Qed.
Lemma take_other b : b ∈ A ++ B ++ Al -> (b.1 < a \/ a + s <= b.1) /\ hs h b.1 = b.2.
Proof.
  intros Hb. assert (Hin : b ∈ (A ++ (a, s) :: B) ++ Al) by set_solver.
  split; [|by apply (i_size _ _ _ _ _ I)]. pose proof (all_pos _ _ _ _ _ I b Hin).
  apply elem_of_Permutation in Hb as [l Hl]. destruct (apart _ _ _ _ _ I b (a, s) l); [|cbn in *; lia..].
  rewrite <- app_assoc. cbn [app]. rewrite <- Permutation_middle, Hl. constructor.
Qed.
(** What is left to show of the heap, whichever way the block was taken. *)
Lemma take_inv A' h' a' : brk h' = brk h -> top h' = top h -> a <= a' < a + s ->
  (forall y, y < a \/ a + s <= y -> hs h' y = hs h y) -> hs h' a' = n ->
  path (hp h') base (A ++ A' ++ B).*1 base -> sorted base (A ++ A' ++ B) -> freep h' ∈ base :: (A ++ A' ++ B).*1 ->
  (forall b, b ∈ A' -> hs h' b.1 = b.2) ->
  (forall x, (cover x A' + Nat.b2n (within x (a', n)))%nat = Nat.b2n (within x (a, s))) ->
  heap_inv base (A ++ A' ++ B) ((a', n) :: Al) own h'.
Proof.
  intros Hb Ht Ha Hsz Hn' Hp Hs Hf HA Hc. pose proof take_pos.
  assert (Ho : forall b, b ∈ A ++ B ++ Al -> hs h' b.1 = b.2).
  { intros b Hbb. destruct (take_other b Hbb) as [? E]. by rewrite Hsz. }
  split; rewrite ?Hb, ?Ht; try done.
  - intros b [[?|[?|?]%elem_of_app]%elem_of_app|[->|?]%elem_of_cons]%elem_of_app; try done; [|by apply HA| |];
      apply Ho; set_solver.
  - rewrite Hsz by lia. apply (i_base _ _ _ _ _ I).
  - intros b [->|?]%elem_of_cons; [cbn; lia|by apply (i_alive _ _ _ _ _ I)].
  - intros x. rewrite <- (i_cover _ _ _ _ _ I x), !cover_app, !cover_cons, <- Hc. lia.
  - apply (i_own _ _ _ _ _ I).
  - apply (i_brk _ _ _ _ _ I).
Qed.
Lemma take_ok fuel : exists r h' L', malloc_loop (S fuel) pp a n h = Ret (r, h') /\
  heap_inv base L' ((r - 1, n) :: Al) own h' /\ 1 < r.
Proof.
  destruct take_pos as (Hab & Hsa & Hs0). pose proof take_pred as Hq. pose proof (i_base _ _ _ _ _ I) as [Hb0 _].
  pose proof (i_sorted _ _ _ _ _ I) as Hs. pose proof (i_path _ _ _ _ _ I) as HP.
  cbn [malloc_loop]. erewrite kbind_ret by reflexivity. cbv beta. rewrite Hsa, (proj2 (Z.leb_le _ _)) by lia.
  destruct (Z.eqb_spec s n) as [En|Hne].
  - eexists _, _, (A ++ [] ++ B). split; [reflexivity|]. split; [|lia]. replace (a + 1 - 1) with a by lia.
    apply take_inv; cbn [hp hs freep brk top app]; try done; try lia.
    + rewrite Hq. by apply (drop_path _ _ _ _ s).
    + exact (sorted_drop _ _ _ _ _ Hs).
    + rewrite Hq. apply pred_node.
    + by intros b ?%elem_of_nil.
    + intros x. by rewrite En.
  - eexists _, _, (A ++ [(a, s - n)] ++ B). split; [reflexivity|]. split; [|lia].
    replace (a + (s - n) + 1 - 1) with (a + (s - n)) by lia.
    apply take_inv; cbn [hp hs freep brk top]; try done; try lia.
    + intros y Hy. rewrite !fn_lookup_insert_ne by lia. done.
    + by rewrite fn_lookup_insert.
    + by rewrite !fmap_app in HP |- *.
    + by apply (sorted_shrink _ _ _ s); [lia..|].
    + by rewrite !fmap_app in Hpp |- *.
    + intros b ->%list_elem_of_singleton. cbn. rewrite fn_lookup_insert_ne, fn_lookup_insert; [done|lia].
    + intros x. rewrite cover_cons. replace s with ((s - n) + n) at 3 by lia. rewrite within_join by lia. cbn. lia.
Qed.
End take.

(** The scan goes once around the circle, to a block that fits or to [freep]. *)
Lemma scan h n l pp fuel : path (hp h) pp l (freep h) -> (freep h ∉ l) -> (length l < fuel)%nat ->
  exists fuel' q a, malloc_loop fuel pp (hp h pp) n h = malloc_loop (S fuel') q a n h /\ hp h q = a /\
    (q ∈ pp :: l) /\ (a ∈ l ++ [freep h]) /\ (fuel <= S fuel' + length l)%nat /\
    (n <= hs h a \/ a = freep h /\ forall x, x ∈ l ++ [freep h] -> hs h x < n).
Proof.
  revert pp fuel. induction l as [|w l IH]; intros pp [|fuel] Hp Hn Hf; cbn in Hf; try lia.
  - cbn in Hp. exists fuel, pp, (freep h). rewrite Hp. split_and!; [done..|set_solver|set_solver|cbn; lia|].
    destruct (decide (n <= hs h (freep h))); [by left|right]. split; [done|]. intros x ->%list_elem_of_singleton. lia.
  - destruct Hp as [Hw Hp]. rewrite Hw. destruct (decide (n <= hs h w)) as [Hfit|Hfit].
    { exists fuel, pp, w. split_and!; [done..|set_solver|set_solver|cbn; lia|by left]. }
    destruct (IH w fuel Hp ltac:(set_solver) ltac:(lia)) as (fuel' & q & a & E & Hq & Hin & Ha & Hlen & Hc).
    exists fuel', q, a. split.
    { rewrite <- E. cbn [malloc_loop]. erewrite kbind_ret by reflexivity. cbv beta.
      rewrite (proj2 (Z.leb_gt _ _)) by lia. erewrite kbind_ret by reflexivity. cbv beta.
      rewrite (proj2 (Z.eqb_neq w (freep h))) by set_solver. by erewrite kbind_ret by reflexivity. }
    split_and!; [done|set_solver|set_solver|cbn; lia|]. destruct Hc as [?|[-> Hc]]; [by left|right].
    split; [done|]. intros x [->|Hx]%elem_of_cons; [lia|by apply Hc].
Qed.

(** Units fresh from sbrk. *)
Lemma extend_inv L Al own h nu : heap_inv base L Al own h -> 0 < nu -> brk h + nu <= top h ->
  heap_inv base L ((brk h, nu) :: Al) (fun x => own x + Nat.b2n (within x (brk h, nu)))%nat
    (mkHeap (hp h) (<[brk h := nu]> (hs h)) (freep h) (brk h + nu) (top h)).
Proof.
  intros I Hnu Hroom. pose proof (i_brk _ _ _ _ _ I).
  split; cbn [hp hs freep brk top]; try apply I; try lia.
  - intros b Hb. assert (b ∈ L ++ Al \/ b = (brk h, nu)) as [Hb'| ->] by set_solver; [|by cbn; rewrite fn_lookup_insert].
    pose proof (all_pos _ _ _ _ _ I b Hb'). pose proof (ends_below _ _ _ _ _ I b Hb').
    rewrite fn_lookup_insert_ne by lia. by apply (i_size _ _ _ _ _ I).
  - rewrite fn_lookup_insert_ne by lia. apply (i_base _ _ _ _ _ I).
  - intros b [->|Hb]%elem_of_cons; [done|by apply (i_alive _ _ _ _ _ I)].
  - intros x. rewrite cover_cons, <- (i_cover _ _ _ _ _ I x). lia.
  - intros x. destruct (i_own _ _ _ _ _ I x) as [H1 H2]. unfold within. cbn.
    destruct (Z.leb_spec (brk h) x), (Z.ltb_spec x (brk h + nu)); cbn; [|lia..].
    destruct (decide (own x = 1%nat)) as [E|E]; [pose proof (H2 E); lia|]. lia.
Qed.
Lemma morecore_ok L Al own h n fuel : heap_inv base L Al own h -> 0 < n < 2 ^ 27 -> (length L < fuel)%nat ->
  let nu := Z.max 4096 n in
  (top h < brk h + nu /\ morecore fuel n h = Ret (0, h)) \/
  exists h' L' own', morecore fuel n h = Ret (freep h', h') /\ heap_inv base L' Al own' h' /\
    (exists b, b ∈ L' /\ n <= b.2) /\ (length L' <= S (length L))%nat.
Proof.
  intros I Hn Hf nu. pose proof (i_brk _ _ _ _ _ I). pose proof (i_base _ _ _ _ _ I). unfold morecore.
  replace (if n <? 4096 then 4096 else n) with nu by (unfold nu; destruct (Z.ltb_spec n 4096); lia).
  cbv zeta. rewrite i32_small by (unfold nu; lia).
  assert (Hsb : sbrk (nu * 16) h = if brk h + nu <=? top h
    then Ret (brk h, mkHeap (hp h) (hs h) (freep h) (brk h + nu) (top h)) else Ret (-1, h)).
  { unfold sbrk. cbv zeta. by rewrite (proj2 (Z.ltb_ge _ _)), Z.div_mul by (unfold nu; lia). }
  destruct (Z.leb_spec (brk h + nu) (top h)) as [Hr|Hr].
  2: { left. split; [done|]. by rewrite (kbind_ret _ _ _ _ _ Hsb). }
  right. destruct (free_inv _ _ _ _ (brk h) nu fuel (extend_inv _ _ _ _ nu I ltac:(unfold nu; lia) Hr) Hf)
    as (h' & L' & E & I' & (b & Hb & Hbs) & Hlen & _).
  eexists h', L', _. split; [|split; [exact I'|split; [exists b; split; [done|unfold nu in Hbs; lia]|done]]].
  rewrite (kbind_ret _ _ _ _ _ Hsb). rewrite (proj2 (Z.eqb_neq (brk h) (-1))) by lia.
  erewrite kbind_ret by reflexivity. cbv beta. cbn [hp hs freep brk top]. by rewrite (kbind_ret _ _ _ _ _ E).
Qed.

(** A scan from [freep] that finds a block that fits. *)
Lemma circle L Al own h : heap_inv base L Al own h ->
  exists l, path (hp h) (freep h) l (freep h) /\ freep h :: l ≡ₚ base :: L.*1 /\ (freep h ∉ l) /\
    length l = length L.
Proof.
  intros I. destruct (rotate _ _ _ _ (i_path _ _ _ _ _ I) (i_freep _ _ _ _ _ I)) as (l & Hp & Hl).
  exists l. split_and!; [done..| |].
  2: { apply Permutation_length in Hl. cbn [length] in Hl. rewrite length_fmap in Hl. by injection Hl. }
  pose proof (sorted_addrs _ _ (i_sorted _ _ _ _ _ I)) as HS.
  assert (Hnd : NoDup (base :: L.*1)).
  { clear -HS. induction HS as [|x l' HS IH HF]; constructor; [|done].
    intros Hin. pose proof (proj1 (Forall_forall _ _) HF _ Hin). lia. }
  rewrite <- Hl in Hnd. by apply NoDup_cons in Hnd as [? _].
Qed.
Lemma fits_ok L Al own h q a n fuel : heap_inv base L Al own h -> hp h q = a -> (q ∈ base :: L.*1) ->
  (a ∈ base :: L.*1) -> 0 < n <= hs h a ->
  exists r h' L', malloc_loop (S fuel) q a n h = Ret (r, h') /\ heap_inv base L' ((r - 1, n) :: Al) own h' /\ 1 < r.
Proof.
  intros I Hq Hin Ha Hn. pose proof (i_base _ _ _ _ _ I). apply elem_of_cons in Ha as [->|Ha]; [lia|].
  apply list_elem_of_fmap in Ha as ([a' s] & -> & Hb). cbn in *.
  assert (Hs : hs h a' = s) by (apply (i_size _ _ _ _ _ I (a', s)); set_solver).
  apply list_elem_of_split in Hb as (A & B & ->). apply (take_ok A B Al own h a' s q n I); [lia|done..].
Qed.
End malloc.
