(* ===== verification/UmallocSafe.v ===== *)
(** * user/umalloc.c: a program that only calls malloc and free

    [uses] is what such a program can do to its heap; [malloc_safe] holds in every
    state it reaches. *)
From stdpp Require Import functions sorting.
From S2P Require Import Prelude Umalloc UmallocInv UmallocTheorems.

(** More fuel does not change a result. *)
Lemma free_loop_mono f g x bp h v : free_loop f x bp h = Ret v -> (f <= g)%nat -> free_loop g x bp h = Ret v.
Proof.
  revert g x h. induction f as [|f IH]; intros [|g] x h H Hg; try discriminate H; try lia. cbn [free_loop] in H |- *.
  destruct v as [q h']. apply kbind_inv in H as (nx & h1 & E & H). rewrite (kbind_ret _ _ _ _ _ E).
  destruct ((x <? bp) && (bp <? nx)); [done|]. destruct ((nx <=? x) && _); [done|]. apply IH; [done|lia].
Qed.
Lemma free_mono f g ap h v : free f ap h = Ret v -> (f <= g)%nat -> free g ap h = Ret v.
Proof.
  intros H Hg. destruct v as [u h']. unfold free in H |- *. cbv zeta in *.
  apply kbind_inv in H as (fp & h1 & E & H). rewrite (kbind_ret _ _ _ _ _ E).
  apply kbind_inv in H as (p & h2 & E2 & H). by rewrite (kbind_ret _ _ _ _ _ (free_loop_mono _ _ _ _ _ _ E2 Hg)).
Qed.
Lemma morecore_mono f g n h v : morecore f n h = Ret v -> (f <= g)%nat -> morecore g n h = Ret v.
Proof.
  intros H Hg. destruct v as [r h']. unfold morecore in H |- *. cbv zeta in *. apply kbind_inv in H as (p & h1 & E & H). rewrite (kbind_ret _ _ _ _ _ E).
  destruct (p =? -1); [done|]. apply kbind_inv in H as (u & h2 & E2 & H). rewrite (kbind_ret _ _ _ _ _ E2).
  apply kbind_inv in H as (u' & h3 & E3 & H). by rewrite (kbind_ret _ _ _ _ _ (free_mono _ _ _ _ _ E3 Hg)).
Qed.
Lemma malloc_loop_mono f g pp p n h v : malloc_loop f pp p n h = Ret v -> (f <= g)%nat -> malloc_loop g pp p n h = Ret v.
Proof.
  destruct v as [r h']. revert g pp p h. induction f as [|f IH]; intros [|g] pp p h H Hg; try discriminate H; try lia. cbn [malloc_loop] in H |- *.
  apply kbind_inv in H as (sz & h1 & E & H). rewrite (kbind_ret _ _ _ _ _ E). destruct (n <=? sz); [done|].
  apply kbind_inv in H as (fp & h2 & E2 & H). rewrite (kbind_ret _ _ _ _ _ E2). destruct (p =? fp).
  - apply kbind_inv in H as (q & h3 & E3 & H). rewrite (kbind_ret _ _ _ _ _ (morecore_mono _ _ _ _ _ E3 Hg)).
    destruct (q =? 0); [done|]. apply kbind_inv in H as (nx & h4 & E4 & H). rewrite (kbind_ret _ _ _ _ _ E4).
    apply IH; [done|lia].
  - apply kbind_inv in H as (nx & h4 & E4 & H). rewrite (kbind_ret _ _ _ _ _ E4). apply IH; [done|lia].
Qed.
Lemma malloc_mono base f g n h v : malloc base f n h = Ret v -> (f <= g)%nat -> malloc base g n h = Ret v.
Proof.
  intros H Hg. destruct v as [r h']. unfold malloc in H |- *. cbv zeta in *. apply kbind_inv in H as (fp & h1 & E & H). rewrite (kbind_ret _ _ _ _ _ E).
  apply kbind_inv in H as (pp & h2 & E2 & H). rewrite (kbind_ret _ _ _ _ _ E2).
  apply kbind_inv in H as (p & h3 & E3 & H). rewrite (kbind_ret _ _ _ _ _ E3). by apply (malloc_loop_mono f).
Qed.

Section safe.
Context (base : Z).

Lemma malloc_loop_ok L Al own h n fuel : heap_inv base L Al own h -> 0 < n < 2 ^ 27 -> (2 * length L + 8 <= fuel)%nat ->
  exists r h', malloc_loop fuel (freep h) (hp h (freep h)) n h = Ret (r, h') /\
    ((r = 0 /\ h' = h /\ top h < brk h + Z.max 4096 n) \/
     (exists L' own', heap_inv base L' ((r - 1, n) :: Al) own' h' /\ 1 < r)).
Proof.
  intros I Hn Hf. destruct (circle _ _ _ _ _ I) as (l & Hp & Hl & Hnl & Hlen).
  destruct (scan h n l (freep h) fuel Hp Hnl ltac:(lia)) as (fuel' & q & a & -> & Hq & Hin & Ha & Hfu & Hc).
  assert (Hia : a ∈ base :: L.*1) by (rewrite <- Hl; set_solver).
  destruct Hc as [Hfit|[-> Hc]].
  { destruct (fits_ok base L Al own h q a n fuel' I Hq) as (r & h' & L' & E & I' & Hr); [by rewrite <- Hl|done|lia|].
    exists r, h'. split; [done|]. right. by exists L', own. }
  cbn [malloc_loop]. erewrite kbind_ret by reflexivity. cbv beta.
  rewrite (proj2 (Z.leb_gt _ _)) by (apply Hc; set_solver). erewrite kbind_ret by reflexivity. cbv beta. rewrite Z.eqb_refl.
  destruct (morecore_ok base L Al own h n (S fuel') I Hn ltac:(lia)) as [[Hroom E]|(h' & L' & own' & E & I' & (b & Hb & Hbs) & HL')].
  { rewrite (kbind_ret _ _ _ _ _ E). eexists _, _. split; [reflexivity|]. by left. }
  rewrite (kbind_ret _ _ _ _ _ E). destruct (circle _ _ _ _ _ I') as (l' & Hp' & Hl' & Hnl' & Hlen').
  assert (Hf0 : 0 < freep h').
  { pose proof (i_base _ _ _ _ _ I'). pose proof (i_freep _ _ _ _ _ I') as [->|Hx]%elem_of_cons; [lia|].
    apply list_elem_of_fmap in Hx as (c & -> & Hc'). destruct (free_pos _ _ _ _ _ I' c Hc'). lia. }
  rewrite (proj2 (Z.eqb_neq _ _)) by lia. erewrite kbind_ret by reflexivity. cbv beta.
  destruct (scan h' n l' (freep h') fuel' Hp' Hnl' ltac:(unfold block in *; lia)) as (f2 & q' & a' & -> & Hq' & Hin' & Ha' & _ & Hc').
  assert (Hfit : n <= hs h' a').
  { destruct Hc' as [?|[_ Hc']]; [done|]. exfalso. pose proof (i_size _ _ _ _ _ I' b ltac:(set_solver)).
    assert (Hbl : b.1 ∈ freep h' :: l') by (rewrite Hl'; right; by apply list_elem_of_fmap_2).
    pose proof (Hc' b.1 ltac:(set_solver)). lia. }
  destruct (fits_ok base L' Al own' h' q' a' n f2 I' Hq') as (r & h'' & L'' & E' & I'' & Hr);
    [by rewrite <- Hl'|rewrite <- Hl'; set_solver|lia|].
  exists r, h''. split; [done|]. right. by exists L'', own'.
Qed.
(** A heap nothing has been allocated from yet: freep is NULL. *)
Definition untouched (h : heap) : Prop := freep h = 0 /\ 0 < base < brk h /\ brk h <= top h < 2 ^ 32.
Definition heap_ok (Al : list block) (h : heap) : Prop :=
  (exists L own, heap_inv base L Al own h) \/ (Al = [] /\ untouched h).
(** The sizes malloc's arithmetic can handle: its sbrk argument is an [int]. *)
Definition sane (nbytes : Z) : Prop := 0 <= nbytes <= 2 ^ 31 - 48.
Lemma units_sane nbytes : sane nbytes -> 0 < units nbytes < 2 ^ 27 /\ nbytes <= 16 * (units nbytes - 1) < nbytes + 16.
Proof.
  unfold sane. intros H. unfold units. pose proof (Z.div_mod (nbytes + 16 - 1) 16 ltac:(lia)).
  pose proof (Z.mod_pos_bound (nbytes + 16 - 1) 16 ltac:(lia)). rewrite u32_small by lia. lia.
Qed.
Lemma first_inv h : untouched h ->
  heap_inv base [] [] (fun _ => 0%nat) (mkHeap (<[base := base]> (hp h)) (<[base := 0]> (hs h)) base (brk h) (top h)).
Proof.
  intros (_ & Hb & Ht). split; cbn; rewrite ?fn_lookup_insert; try done; try lia; try set_solver.
Qed.
Lemma malloc_ok Al h nbytes : heap_ok Al h -> sane nbytes ->
  exists fuel r h', malloc base fuel nbytes h = Ret (r, h') /\
    ((r = 0 /\ heap_ok Al h' /\ top h < brk h + Z.max 4096 (units nbytes)) \/
     (1 < r /\ heap_ok ((r - 1, units nbytes) :: Al) h')).
Proof.
  intros Hok Hsane. destruct (units_sane _ Hsane) as [Hu _].
  assert (exists L own h1, heap_inv base L Al own h1 /\ brk h1 = brk h /\ top h1 = top h /\
    forall fuel, malloc base fuel nbytes h = malloc_loop fuel (freep h1) (hp h1 (freep h1)) (units nbytes) h1)
    as (L & own & h1 & I & Hb & Ht & E).
  { destruct Hok as [(L & own & I)|[-> Hun]].
    - exists L, own, h. split_and!; try done. intros fuel. unfold malloc. cbv zeta.
      erewrite kbind_ret by reflexivity. cbv beta.
      assert (freep h <> 0) as Hne.
      { pose proof (i_base _ _ _ _ _ I). pose proof (i_freep _ _ _ _ _ I) as [->|Hx]%elem_of_cons; [lia|].
        apply list_elem_of_fmap in Hx as (c & -> & Hc). destruct (free_pos _ _ _ _ _ I c Hc). lia. }
      rewrite (proj2 (Z.eqb_neq _ _) Hne). by do 2 (erewrite kbind_ret by reflexivity; cbv beta).
    - eexists [], _, _. split; [exact (first_inv h Hun)|]. split_and!; try done. intros fuel. unfold malloc. cbv zeta.
      erewrite kbind_ret by reflexivity. cbv beta. destruct Hun as [-> _]. reflexivity. }
  destruct (malloc_loop_ok _ _ _ _ _ (2 * length L + 8) I Hu ltac:(done)) as (r & h' & Er & Hc).
  exists (2 * length L + 8)%nat, r, h'. rewrite E. split; [done|]. destruct Hc as [(-> & -> & Hr)|(L' & own' & I' & Hr)].
  - left. split; [done|]. split; [left; by exists L, own|lia].
  - right. split; [done|]. left. by exists L', own'.
Qed.
Lemma free_ok Al h bp s : heap_ok ((bp, s) :: Al) h ->
  exists fuel h', free fuel (bp + 1) h = Ret (tt, h') /\ heap_ok Al h'.
Proof.
  intros [(L & own & I)|[? _]]; [|done]. destruct (free_inv _ _ _ _ _ _ _ (S (length L)) I) as (h' & L' & E & I' & _); [lia|].
  exists (S (length L)), h'. split; [done|]. left. by exists L', own.
Qed.

(** What a program can do: allocate, free a block it has, call sbrk itself. *)
Inductive uses : heap * list block -> heap * list block -> Prop :=
| UseMalloc fuel nbytes h Al r h' : sane nbytes -> malloc base fuel nbytes h = Ret (r, h') ->
    uses (h, Al) (h', if r =? 0 then Al else (r - 1, units nbytes) :: Al)
| UseFree fuel bp s h Al Al' h' : Al ≡ₚ (bp, s) :: Al' -> free fuel (bp + 1) h = Ret (tt, h') -> uses (h, Al) (h', Al')
| UseSbrk k h Al : 0 <= k -> brk h + k <= top h ->
    uses (h, Al) (mkHeap (hp h) (hs h) (freep h) (brk h + k) (top h), Al).
Lemma ret_det {A} (m : nat -> M heap A) (f g : nat) h v w :
  (forall f g v, m f h = Ret v -> (f <= g)%nat -> m g h = Ret v) -> m f h = Ret v -> m g h = Ret w -> v = w.
Proof. intros Hm Hv Hw. apply (Hm _ (max f g)) in Hv, Hw; [|lia..]. congruence. Qed.
Lemma uses_ok a b : uses a b -> heap_ok a.2 a.1 -> heap_ok b.2 b.1.
Proof.
  intros [fuel nbytes h Al r h' Hs E|fuel bp s h Al Al' h' Hp E|k h Al Hk Hr] Hok; cbn in *.
  - destruct (malloc_ok Al h nbytes Hok Hs) as (f2 & r2 & h2 & E2 & Hc).
    assert ((r, h') = (r2, h2)) as [= -> ->].
    { eapply (ret_det (fun f => malloc base f nbytes)); [|exact E|exact E2]. intros; by eapply malloc_mono. }
    destruct Hc as [(-> & Hc & _)|[Hr Hc]]; [done|]. rewrite (proj2 (Z.eqb_neq _ _)) by lia. done.
  - assert (Hok' : heap_ok ((bp, s) :: Al') h).
    { destruct Hok as [(L & own & I)|[-> _]]; [|by apply Permutation_nil_cons in Hp].
      left. exists L, own. by apply (heap_inv_perm base L Al). }
    destruct (free_ok _ _ _ _ Hok') as (f2 & h2 & E2 & Hc).
    assert ((tt, h') = (tt, h2)) as [= ->].
    { eapply (ret_det (fun f => free f (bp + 1))); [|exact E|exact E2]. intros; by eapply free_mono. }
    done.
  - destruct Hok as [(L & own & I)|[-> (Hf & Hb & Ht)]]; [left; exists L, own|right; split; [done|]; unfold untouched; cbn; lia].
    pose proof (i_brk _ _ _ _ _ I). destruct I as [I1 I2 I3 I4 I5 I6 I7 I8 I9]. split; cbn; try done; [|lia].
    intros x. destruct (I7 x) as [? Hx]. split; [done|]. intros E. pose proof (Hx E). lia.
Qed.
Lemma uses_star_ok a b : rtc uses a b -> heap_ok a.2 a.1 -> heap_ok b.2 b.1.
Proof. induction 1; [done|]. intros. eauto using uses_ok. Qed.

End safe.

(** A program that allocates 100 and 50 bytes and frees the first. *)
Definition heap0 : heap := mkHeap (fun _ => 0) (fun _ => 0) 0 4096 100000.
Definition heap_after (m : M heap Z) (h : heap) : heap := match m h with Ret (_, h') => h' | _ => h end.
Definition heap1 : heap := heap_after (malloc 10 20 100) heap0.
Definition heap2 : heap := heap_after (malloc 10 20 50) heap1.

(** A request of 2^31 bytes makes the sbrk argument negative: malloc returns a block
    of more than 2^27 units in a process that has not grown. *)
Theorem malloc_huge : exists r h', malloc 10 20 (2 ^ 31) heap0 = Ret (r, h') /\ 1 < r /\ brk h' <= brk heap0 /\
  brk h' < r - 1 + units (2 ^ 31).
Proof. eexists _, _. split; [vm_compute; reflexivity|]. vm_compute. repeat split; discriminate. Qed.
