(* ===== verification/Mkfs.v ===== *)
(** * mkfs/mkfs.c: building the file-system image

    The image file as blocks, with its length; what the host's files hold is a
    parameter.  The struct fields of the image are little-endian ([bld], [bst] of
    Blocks.v), which is what xint and xshort make of host integers. *)
From S2P Require Import Prelude Machine Spinlock Blocks Log Fs Printf.

Definition NINODES : Z := 200.
Definition nbitmap : Z := FSSIZE / BPB + 1.
Definition ninodeblocks : Z := NINODES / IPB + 1.
Definition nlog : Z := LOGBLOCKS + 1.
Definition nmeta : Z := 2 + nlog + ninodeblocks + nbitmap.
Definition nblocks : Z := FSSIZE - nmeta.
Definition xshort (x : Z) : Z := u16 x.
Definition xint (x : Z) : Z := u32 x.
Definition sb : superblock :=
  mkSb FSMAGIC (xint FSSIZE) (xint nblocks) (xint NINODES) (xint nlog) (xint 2) (xint (2 + nlog)) (xint (2 + nlog + ninodeblocks)).

(** [im_len] is the length of the image file in blocks. *)
Record image := mkImage { im : Z -> block; im_len : Z; freeinode : Z; freeblock : Z }.

(** [die] and a failed assert end the program: [panic]. *)
Definition wsect (sec : Z) (buf : block) : M image unit :=
  let k := u32 (sec * BSIZE) / BSIZE in
  modify (fun s => mkImage (fupd (im s) k buf) (Z.max (im_len s) (k + 1)) (freeinode s) (freeblock s)).
Definition rsect (sec : Z) : M image block :=
  let k := u32 (sec * BSIZE) / BSIZE in
  len <~ gets im_len ;;
  if k <? len then gets (fun s => im s k) else panic "read".

Definition winode (inum : Z) (ip : dinode) : M image unit :=
  let bn := IBLOCK inum sb in
  buf <~ rsect bn ;;
  wsect bn (put_dinode buf (dip inum) ip).
Definition rinode (inum : Z) : M image dinode :=
  let bn := IBLOCK inum sb in
  buf <~ rsect bn ;;
  kret (get_dinode buf (dip inum)).

(** [freeinode++] and [freeblock++] *)
Definition next_inode : M image Z := fun s =>
  Ret (freeinode s, mkImage (im s) (im_len s) (u32 (freeinode s + 1)) (freeblock s)).
Definition next_block : M image Z := fun s =>
  Ret (freeblock s, mkImage (im s) (im_len s) (freeinode s) (u32 (freeblock s + 1))).

Definition ialloc (type : Z) : M image Z :=
  inum <~ next_inode ;;
  winode inum (mkDinode (i16 (xshort type)) 0 0 (i16 (xshort 1)) (xint 0) (replicate 13 0)) ;;;
  kret inum.

(** [for(i = 0; i < used; i++) buf[i/8] = buf[i/8] | (0x1 << (i%8))] *)
Fixpoint mark_used (n : nat) (i : Z) (buf : block) : block :=
  match n with
  | O => buf
  | S n => mark_used n (i + 1) (<[Z.to_nat (i / 8) := u8 (Z.lor (nth (Z.to_nat (i / 8)) buf 0) (Z.shiftl 1 (i mod 8)))]> buf)
  end.
Definition balloc (used : Z) : M image unit :=
  if negb (used <? BPB) then panic "assert"
  else wsect (sb_bmapstart sb) (mark_used (Z.to_nat used) 0 zero_block).

Definition set_daddr (k : nat) (a : Z) (d : dinode) : dinode :=
  mkDinode (d_type d) (d_major d) (d_minor d) (d_nlink d) (d_size d) (<[k := a]> (d_addrs d)).
Definition set_dsize (n : Z) (d : dinode) : dinode :=
  mkDinode (d_type d) (d_major d) (d_minor d) (d_nlink d) n (d_addrs d).
Definition daddr (d : dinode) (k : nat) : Z := nth k (d_addrs d) 0.

(** The block [x] of the file's block [fbn], allocated if there is none. *)
Definition file_block (din : dinode) (fbn : Z) : M image (Z * dinode) :=
  if fbn <? NDIRECT then
    din <~ (if xint (daddr din (Z.to_nat fbn)) =? 0 then a <~ next_block ;; kret (set_daddr (Z.to_nat fbn) (xint a) din)
            else kret din) ;;
    kret (xint (daddr din (Z.to_nat fbn)), din)
  else
    din <~ (if xint (daddr din 12) =? 0 then a <~ next_block ;; kret (set_daddr 12 (xint a) din) else kret din) ;;
    let o := Z.to_nat (4 * (fbn - NDIRECT)) in
    indirect <~ rsect (xint (daddr din 12)) ;;
    indirect <~ (if bld 4 indirect o =? 0 then
                   a <~ next_block ;;
                   let indirect := bst 4 indirect o (xint a) in
                   wsect (xint (daddr din 12)) indirect ;;; kret indirect
                 else kret indirect) ;;
    kret (xint (bld 4 indirect o), din).

Fixpoint iappend_loop (fuel : nat) (din : dinode) (off : Z) (p : list Z) : M image (dinode * Z) :=
  match fuel with
  | O => nofuel
  | S fuel =>
      match p with
      | [] => kret (din, off)
      | _ =>
          let fbn := off / BSIZE in
          if negb (fbn <? MAXFILE) then panic "assert"
          else
            xd <~ file_block din fbn ;;
            let '(x, din) := xd in
            let n1 := Z.min (Z.of_nat (length p)) ((fbn + 1) * BSIZE - off) in
            buf <~ rsect x ;;
            wsect x (splice buf (Z.to_nat (off - fbn * BSIZE)) (take (Z.to_nat n1) p)) ;;;
            iappend_loop fuel din (u32 (off + n1)) (drop (Z.to_nat n1) p)
      end
  end.
(** Each round but the last fills a block. *)
Definition iappend (inum : Z) (p : list Z) : M image unit :=
  din <~ rinode inum ;;
  r <~ iappend_loop (length p / 1024 + 3) din (xint (d_size din)) p ;;
  winode inum (set_dsize (xint r.2) r.1).

(** ** main *)
(** [strncmp(argv[i], "user/", 5) == 0] and the leading [_]. *)
Definition shortname (arg : list Z) : list Z :=
  let s := if decide (take 5 arg = chars "user/") then drop 5 arg else arg in s.
Definition strip_ (s : list Z) : list Z := match s with c :: s' => if c =? ch "_" then s' else s | [] => s end.

Section main.
(** The pieces in which read() returns the contents of a host file. *)
Context (host : list Z -> option (list (list Z))).

Fixpoint append_all (inum : Z) (pieces : list (list Z)) : M image unit :=
  match pieces with
  | [] => kret tt
  | p :: pieces => iappend inum p ;;; append_all inum pieces
  end.
Definition add_file (rootino : Z) (arg : list Z) : M image unit :=
  let s := shortname arg in
  if bool_decide (ch "/" ∈ s) then panic "assert"
  else
    match host arg with
    | None => panic "open"
    | Some pieces =>
        let s := strip_ s in
        if negb (length s <=? Z.to_nat DIRSIZ)%nat then panic "assert"
        else
          inum <~ ialloc T_FILE ;;
          iappend rootino (mk_dirent (xshort inum) (strncpy (Z.to_nat DIRSIZ) s)) ;;;
          append_all inum pieces
    end.
Fixpoint add_files (rootino : Z) (args : list (list Z)) : M image unit :=
  match args with
  | [] => kret tt
  | arg :: args => add_file rootino arg ;;; add_files rootino args
  end.
Fixpoint zero_image (n : nat) (i : Z) : M image unit :=
  match n with
  | O => kret tt
  | S n => wsect i zero_block ;;; zero_image n (i + 1)
  end.
(** The bytes of [struct superblock]. *)
Definition sb_block : block :=
  foldl (fun b x => bst 4 b x.1 x.2) zero_block
    [(0%nat, sb_magic sb); (4%nat, sb_size sb); (8%nat, sb_nblocks sb); (12%nat, sb_ninodes sb);
     (16%nat, sb_nlog sb); (20%nat, sb_logstart sb); (24%nat, sb_inodestart sb); (28%nat, sb_bmapstart sb)].
Definition main (args : list (list Z)) : M image unit :=
  modify (fun s => mkImage (im s) (im_len s) (freeinode s) nmeta) ;;;
  zero_image (Z.to_nat FSSIZE) 0 ;;;
  wsect 1 sb_block ;;;
  rootino <~ ialloc T_DIR ;;
  if negb (rootino =? ROOTINO) then panic "assert"
  else
    iappend rootino (mk_dirent (xshort rootino) (strncpy (Z.to_nat DIRSIZ) (chars "."))) ;;;
    iappend rootino (mk_dirent (xshort rootino) (strncpy (Z.to_nat DIRSIZ) (chars ".."))) ;;;
    add_files rootino args ;;;
    din <~ rinode rootino ;;
    let off := xint (d_size din) in
    let off := u32 ((off / BSIZE + 1) * BSIZE) in
    winode rootino (set_dsize (xint off) din) ;;;
    used <~ gets freeblock ;;
    balloc used.
End main.
