(* ===== verification/MkfsImage.v ===== *)
(** * mkfs: one file of the image

    [fwf]: an inode whose first [nb] blocks are there, its own, and hold [data],
    zeros after it; what iappend does to such a file. *)
From S2P Require Import Prelude Machine Spinlock Blocks Log LogProof LogCrash LogTxn Fs FsBase FsBlock FsMap FsData Printf Mkfs.

Definition as_inode (inum : Z) (d : dinode) : inode :=
  mkInode ROOTDEV inum 1 initsleeplock 1 (d_type d) (d_major d) (d_minor d) (d_nlink d) (d_size d) (d_addrs d).
Definition blk (v : Z -> block) (d : dinode) (bn : Z) : Z := blockno v (as_inode 0 d) bn.
Definition fbyte (v : Z -> block) (d : dinode) (k : Z) : Z := byte v (as_inode 0 d) k.
Definition indb (d : dinode) : Z := daddr d 12.

Record fwf (v : Z -> block) (own : Z -> Prop) (d : dinode) (nb : Z) (data : list Z) : Prop := {
  w_len : length (d_addrs d) = 13%nat;
  w_rng : Forall (fun a => 0 <= a < 2 ^ 32) (d_addrs d);
  w_nb : 0 <= nb <= 268 /\ Z.of_nat (length data) <= nb * 1024;
  w_in : forall bn, 0 <= bn < nb -> own (blk v d bn);
  w_out : forall bn, nb <= bn < 268 -> blk v d bn = 0;
  w_inj : forall bn bn', 0 <= bn < nb -> 0 <= bn' < nb -> blk v d bn = blk v d bn' -> bn = bn';
  w_ind : indb d <> 0 -> own (indb d) /\ forall bn, 0 <= bn < nb -> blk v d bn <> indb d;
  w_ind0 : indb d = 0 <-> nb <= 12;
  w_data : forall k, 0 <= k < Z.of_nat (length data) -> fbyte v d k = nth (Z.to_nat k) data 0;
  w_pad : forall k, Z.of_nat (length data) <= k < nb * 1024 -> fbyte v d k = 0 }.

(** The blocks numbered from 47 up to [fb] that belong to the inode. *)
Definition owns (o : Z -> Z) (fb inum k : Z) : Prop := 47 <= k < fb /\ o k = inum.

Lemma fbyte_eq v d k : fbyte v d k = nth (Z.to_nat (k mod 1024)) (v (blk v d (k / 1024))) 0.
Proof. done. Qed.
Lemma blk_direct v d bn : bn < 12 -> blk v d bn = daddr d (Z.to_nat bn).
Proof. intros. unfold blk, blockno. by rewrite (proj2 (Z.ltb_lt bn NDIRECT)) by (unfold NDIRECT; lia). Qed.
Lemma blk_indirect v d bn : 12 <= bn -> blk v d bn = if indb d =? 0 then 0 else bld 4 (v (indb d)) (Z.to_nat (4 * (bn - 12))).
Proof. intros. unfold blk, blockno. by rewrite (proj2 (Z.ltb_ge bn NDIRECT)) by (unfold NDIRECT; lia). Qed.

Lemma nth_zeros n i : nth i (replicate n 0) 0 = 0.
Proof. rewrite nth_lookup. destruct (replicate n 0 !! i) eqn:E; [|done]. by apply lookup_replicate in E as [-> _]. Qed.

(** Changes elsewhere do not touch the file. *)
Lemma blk_ext v v' d bn : (indb d <> 0 -> v' (indb d) = v (indb d)) -> blk v' d bn = blk v d bn.
Proof.
  intros H. destruct (decide (bn < 12)); [by rewrite !blk_direct by lia|]. rewrite !blk_indirect by lia.
  destruct (Z.eqb_spec (indb d) 0); [done|]. by rewrite H.
Qed.
Lemma fwf_ext v v' (own own' : Z -> Prop) d nb data : fwf v own d nb data ->
  (forall k, own k -> v' k = v k) -> (forall k, own k -> own' k) -> fwf v' own' d nb data.
Proof.
  intros [W1 W2 W3 W4 W5 W6 W7 W8 W9 W10] Hv Ho.
  assert (Hi : indb d <> 0 -> v' (indb d) = v (indb d)) by (intros Hn; apply Hv, W7, Hn).
  assert (Hb : forall bn, blk v' d bn = blk v d bn) by (intros bn; by apply blk_ext).
  assert (Hf : forall k, 0 <= k < nb * 1024 -> fbyte v' d k = fbyte v d k).
  { intros k Hk. rewrite !fbyte_eq, Hb. do 2 f_equal. apply Hv, W4. dlia. }
  split; try done.
  - intros bn Hbn. rewrite Hb. auto.
  - intros bn Hbn. rewrite Hb. auto.
  - intros bn bn' H1 H2. rewrite !Hb. auto.
  - intros Hn. destruct (W7 Hn) as [H1 H2]. split; [auto|]. intros bn Hbn. rewrite Hb. auto.
  - intros k Hk. rewrite Hf by lia. auto.
  - intros k Hk. rewrite Hf by lia. auto.
Qed.

(** A new block [a], of zeros, after the [nb] there are. *)
Lemma fwf_grow v v' (own own' : Z -> Prop) d d' nb data a : fwf v own d nb data -> nb < 268 ->
  (forall bn, 0 <= bn < 268 -> blk v' d' bn = if bn =? nb then a else blk v d bn) ->
  (forall bn, 0 <= bn < nb -> v' (blk v d bn) = v (blk v d bn)) -> v' a = zero_block ->
  (forall k, own k -> own' k) -> own' a -> ~ own a ->
  length (d_addrs d') = 13%nat -> Forall (fun x => 0 <= x < 2 ^ 32) (d_addrs d') ->
  (indb d' = 0 <-> nb + 1 <= 12) ->
  (indb d' <> 0 -> own' (indb d') /\ indb d' <> a /\ forall bn, 0 <= bn < nb -> blk v d bn <> indb d') ->
  fwf v' own' d' (nb + 1) data.
Proof.
  intros [W1 W2 W3 W4 W5 W6 W7 W8 W9 W10] Hnb Hb Hv Ha Ho Hoa Hna Hl Hr Hi0 Hi.
  assert (Hf : forall k, 0 <= k < nb * 1024 -> fbyte v' d' k = fbyte v d k).
  { intros k Hk. assert (0 <= k / 1024 < nb) by dlia. rewrite !fbyte_eq, Hb by lia.
    rewrite (proj2 (Z.eqb_neq _ _)) by lia. by rewrite Hv. }
  assert (Hold : forall bn, 0 <= bn < nb -> blk v' d' bn = blk v d bn).
  { intros bn Hbn. rewrite Hb by lia. by rewrite (proj2 (Z.eqb_neq _ _)) by lia. }
  assert (Hnew : blk v' d' nb = a) by (rewrite Hb, Z.eqb_refl by lia; done).
  split; try done; try lia.
  - intros bn Hbn. destruct (decide (bn = nb)) as [->|]; [by rewrite Hnew|]. rewrite Hold by lia. apply Ho, W4. lia.
  - intros bn Hbn. rewrite Hb by lia. rewrite (proj2 (Z.eqb_neq _ _)) by lia. apply W5. lia.
  - intros bn bn' H1 H2. destruct (decide (bn = nb)) as [->|], (decide (bn' = nb)) as [->|]; [done| | |].
    + rewrite Hnew, Hold by lia. intros E. exfalso. apply Hna. rewrite E. apply W4. lia.
    + rewrite Hnew, Hold by lia. intros E. exfalso. apply Hna. rewrite <- E. apply W4. lia.
    + rewrite !Hold by lia. apply W6; lia.
  - intros Hn. destruct (Hi Hn) as (H1 & H2 & H3). split; [done|]. intros bn Hbn.
    destruct (decide (bn = nb)) as [->|]; [by rewrite Hnew|]. rewrite Hold by lia. apply H3. lia.
  - intros k Hk. rewrite Hf by lia. auto.
  - intros k Hk. destruct (decide (k < nb * 1024)); [rewrite Hf by lia; apply W10; lia|].
    rewrite fbyte_eq. replace (k / 1024) with nb by dlia. rewrite Hnew, Ha. unfold zero_block. apply nth_zeros.
Qed.

(** [p] written after the data, inside one block. *)
Lemma fwf_write v (own : Z -> Prop) d nb data p : fwf v own d nb data ->
  let off := Z.of_nat (length data) in let x := blk v d (off / 1024) in
  off / 1024 < nb -> off + Z.of_nat (length p) <= (off / 1024 + 1) * 1024 -> length (v x) = 1024%nat ->
  fwf (fupd v x (splice (v x) (Z.to_nat (off - off / 1024 * 1024)) p)) own d nb (data ++ p).
Proof.
  intros [W1 W2 W3 W4 W5 W6 W7 W8 W9 W10] off x Hx Hp Hlx. set (v' := fupd v x _).
  assert (Hoff : 0 <= off - off / 1024 * 1024 < 1024) by dlia.
  assert (Hb : forall bn, blk v' d bn = blk v d bn).
  { intros bn. apply blk_ext. intros Hn. unfold v'. rewrite fupd_ne; [done|]. intros E. destruct (W7 Hn) as [_ H].
    apply (H (off / 1024)); [dlia|done]. }
  assert (Hf : forall k, 0 <= k < nb * 1024 -> fbyte v' d k =
    if decide (off <= k < off + Z.of_nat (length p)) then nth (Z.to_nat (k - off)) p 0 else fbyte v d k).
  { intros k Hk. rewrite !fbyte_eq, Hb. unfold v'. destruct (decide (k / 1024 = off / 1024)) as [E|E].
    - rewrite E. fold x. rewrite fupd_eq, splice_nth by lia. repeat case_decide; first [done|f_equal; dlia|dlia].
    - rewrite fupd_ne.
      + rewrite decide_False; [done|]. intros ?. apply E. dlia.
      + intros E'. apply E. apply W6; [dlia|dlia|done]. }
  split; try done.
  - split; [lia|]. rewrite length_app. dlia.
  - intros bn Hbn. rewrite Hb. auto.
  - intros bn Hbn. rewrite Hb. auto.
  - intros bn bn' H1 H2. rewrite !Hb. auto.
  - intros Hn. destruct (W7 Hn) as [H1 H2]. split; [done|]. intros bn Hbn. rewrite Hb. auto.
  - intros k Hk. rewrite length_app in Hk. rewrite Hf by dlia. case_decide as D.
    + rewrite app_nth2 by lia. f_equal. lia.
    + rewrite app_nth1 by lia. apply W9. lia.
  - intros k Hk. rewrite length_app in Hk. rewrite Hf by lia. rewrite decide_False by lia. apply W10. lia.
Qed.

(** ** mkfs: iappend appends *)

(** The image while inode [inum] is [d], in memory, with [nb] blocks. *)
Record limg (s : image) (o : Z -> Z) (inum : Z) (d : dinode) (nb : Z) (data : list Z) : Prop := {
  li_len : im_len s = 2000;
  li_fb : 47 <= freeblock s <= 2000;
  li_ok : forall k, block_ok (im s k);
  li_fresh : forall k, freeblock s <= k < 2000 -> im s k = zero_block;
  li_fwf : fwf (im s) (owns o (freeblock s) inum) d nb data }.

(** What work on inode [inum] leaves alone. *)
Record keeps (inum : Z) (s s' : image) (o o' : Z -> Z) (d d' : dinode) : Prop := {
  kp_fb : freeblock s <= freeblock s';
  kp_ino : freeinode s' = freeinode s;
  kp_own : forall k, k < freeblock s -> o' k = o k;
  kp_new : forall k, freeblock s <= k < freeblock s' -> o' k = inum;
  kp_im : forall k, k < freeblock s -> ~ owns o (freeblock s) inum k -> im s' k = im s k;
  kp_d : d_type d' = d_type d /\ d_major d' = d_major d /\ d_minor d' = d_minor d /\ d_nlink d' = d_nlink d }.
Lemma keeps_refl inum s o d : keeps inum s s o o d d.
Proof. split; try done; lia. Qed.
Lemma keeps_trans inum s1 s2 s3 o1 o2 o3 d1 d2 d3 : keeps inum s1 s2 o1 o2 d1 d2 -> keeps inum s2 s3 o2 o3 d2 d3 ->
  keeps inum s1 s3 o1 o3 d1 d3.
Proof.
  intros [A1 A2 A3 A4 A5 (? & ? & ? & ?)] [B1 B2 B3 B4 B5 (? & ? & ? & ?)]. split; try lia.
  - intros k Hk. rewrite B3 by lia. auto.
  - intros k Hk. destruct (decide (k < freeblock s2)); [rewrite B3 by lia; apply A4; lia|apply B4; lia].
  - intros k Hk Hn. rewrite B5; [auto|lia|]. intros [? E]. rewrite A3 in E by lia. apply Hn. split; [lia|done].
Qed.

Lemma im_sector k : 0 <= k < 2000 -> u32 (k * BSIZE) / BSIZE = k.
Proof. intros. unfold BSIZE. rewrite u32_small by lia. apply Z.div_mul. lia. Qed.
Lemma rsect_run k s : im_len s = 2000 -> 0 <= k < 2000 -> rsect k s = Ret (im s k, s).
Proof.
  intros Hl Hk. unfold rsect. rewrite im_sector by done. erewrite kbind_ret by reflexivity. cbv beta.
  by rewrite Hl, (proj2 (Z.ltb_lt _ _)) by lia.
Qed.
Lemma wsect_run k b s : im_len s = 2000 -> 0 <= k < 2000 ->
  wsect k b s = Ret (tt, mkImage (fupd (im s) k b) 2000 (freeinode s) (freeblock s)).
Proof. intros Hl Hk. unfold wsect. rewrite im_sector by done. unfold modify. by rewrite Hl, Z.max_l by lia. Qed.
Lemma next_block_run s : freeblock s < 2000 -> 0 <= freeblock s ->
  next_block s = Ret (freeblock s, mkImage (im s) (im_len s) (freeinode s) (freeblock s + 1)).
Proof. intros. unfold next_block. by rewrite u32_small by lia. Qed.

Definition need (nb : Z) : Z := if nb =? 12 then 2 else 1.

Section file.
Context (s : image) (o : Z -> Z) (inum : Z) (d : dinode) (nb : Z) (data : list Z).
Context (I : limg s o inum d nb data).

Lemma daddr_range k : 0 <= daddr d k < 2 ^ 32.
Proof.
  unfold daddr. rewrite nth_lookup. destruct (d_addrs d !! k) as [a|] eqn:E; cbn; [|lia].
  pose proof (w_rng _ _ _ _ _ (li_fwf _ _ _ _ _ _ I)) as HF. by apply (proj1 (Forall_lookup _ _) HF k a E).
Qed.
Lemma xint_id z : 0 <= z < 2 ^ 32 -> xint z = z.
Proof. apply u32_small. Qed.
Lemma blk_range bn : 0 <= bn < nb -> 47 <= blk (im s) d bn < freeblock s.
Proof. intros H. apply (w_in _ _ _ _ _ (li_fwf _ _ _ _ _ _ I) bn H). Qed.
Lemma ind_range : 12 < nb -> 47 <= indb d < freeblock s /\ o (indb d) = inum.
Proof.
  intros H. pose proof (w_ind0 _ _ _ _ _ (li_fwf _ _ _ _ _ _ I)). apply (w_ind _ _ _ _ _ (li_fwf _ _ _ _ _ _ I)). lia.
Qed.

(** A block that is there is found. *)
Lemma file_block_old bn : 0 <= bn < nb -> file_block d bn s = Ret ((blk (im s) d bn, d), s).
Proof.
  intros Hbn. pose proof (blk_range bn Hbn) as Hr. pose proof (li_fb _ _ _ _ _ _ I). pose proof (li_len _ _ _ _ _ _ I).
  unfold file_block. change NDIRECT with 12. destruct (Z.ltb_spec bn 12) as [Hd|Hd].
  - rewrite blk_direct in Hr |- * by done. rewrite xint_id by apply daddr_range.
    rewrite (proj2 (Z.eqb_neq _ _)) by lia. erewrite kbind_ret by reflexivity. cbv beta.
    by rewrite xint_id by apply daddr_range.
  - destruct (ind_range ltac:(lia)) as [Hi _]. change (daddr d 12) with (indb d). rewrite xint_id by lia.
    rewrite (proj2 (Z.eqb_neq (indb d) 0)) by lia. erewrite kbind_ret by reflexivity. cbv beta zeta.
    change (daddr d 12) with (indb d). rewrite xint_id by lia. rewrite (kbind_ret _ _ _ _ _ (rsect_run (indb d) s H0 ltac:(lia))).
    rewrite blk_indirect in Hr |- * by done. rewrite (proj2 (Z.eqb_neq (indb d) 0)) in Hr |- * by lia.
    rewrite (proj2 (Z.eqb_neq (bld _ _ _) 0)) by lia. erewrite kbind_ret by reflexivity. cbv beta.
    rewrite xint_id by lia. reflexivity.
Qed.

(** The next one is allocated: a direct block ... *)
Lemma file_block_direct : nb < 12 -> freeblock s < 2000 ->
  exists s' o' d', file_block d nb s = Ret ((blk (im s') d' nb, d'), s') /\ limg s' o' inum d' (nb + 1) data /\
    keeps inum s s' o o' d d' /\ freeblock s' = freeblock s + 1.
Proof.
  intros Hnb Hfb. destruct I as [L1 L2 L3 L4 W]. pose proof W as [W1 W2 [W3 _] W4 W5 W6 W7 W8 W9 W10].
  set (a := freeblock s) in *. set (d' := set_daddr (Z.to_nat nb) a d).
  assert (Ha : daddr d' (Z.to_nat nb) = a).
  { unfold daddr, d'. cbn. rewrite nth_lookup, list_lookup_insert_eq by lia. done. }
  assert (Ho : forall k, k <> Z.to_nat nb -> daddr d' k = daddr d k).
  { intros k Hk. unfold daddr, d'. cbn. by rewrite !nth_lookup, list_lookup_insert_ne. }
  assert (Hz : daddr d (Z.to_nat nb) = 0) by (rewrite <- (blk_direct (im s)) by lia; apply W5; lia).
  exists (mkImage (im s) (im_len s) (freeinode s) (a + 1)), (fupd o a inum), d'.
  assert (Hb : blk (im s) d' nb = a) by (by rewrite blk_direct).
  split; [|split; [|split; [|done]]].
  - cbn [im]. rewrite Hb. unfold file_block. change NDIRECT with 12. rewrite (proj2 (Z.ltb_lt nb 12)) by lia. rewrite Hz.
    change (xint 0 =? 0) with true. cbv iota.
    rewrite <- kbind_assoc. rewrite (kbind_ret _ _ _ _ _ (next_block_run s ltac:(lia) ltac:(lia))).
    erewrite kbind_ret by reflexivity. cbv beta. fold a. rewrite (xint_id a) by lia. fold d'. by rewrite Ha, xint_id by lia.
  - split; cbn [im im_len freeblock]; try done; [lia|intros; apply L4; lia|].
    apply (fwf_grow (im s) _ (owns o a inum) _ d _ _ _ a W); try done; try lia.
    + intros bn Hbn. destruct (Z.eqb_spec bn nb) as [->|Hne]; [done|].
      destruct (decide (bn < 12)); [by rewrite !blk_direct, Ho by lia|].
      rewrite !blk_indirect by lia. change (indb d') with (daddr d' 12). by rewrite Ho by lia.
    + apply L4. lia.
    + intros k [? <-]. split; [lia|]. apply fupd_ne. lia.
    + split; [lia|apply fupd_eq].
    + intros [? _]. lia.
    + cbn. by rewrite length_insert.
    + cbn. apply Forall_insert; [done|lia].
    + change (indb d') with (daddr d' 12). rewrite Ho by lia. change (daddr d 12) with (indb d). lia.
    + change (indb d') with (daddr d' 12). rewrite Ho by lia. change (daddr d 12) with (indb d). lia.
  - split; cbn [im freeblock freeinode]; try done; try lia.
    + intros k Hk. apply fupd_ne. lia.
    + intros k Hk. replace k with a by lia. apply fupd_eq.
Qed.
(** ... or an entry of the indirect block [i] of [d']. *)
Lemma ind_blk d' i a bn : nb < 268 -> 12 <= nb -> 0 <= a < 2 ^ 32 -> i <> 0 -> indb d' = i -> length (im s i) = 1024%nat ->
  (forall k, (k < 12)%nat -> daddr d' k = daddr d k) ->
  (forall bn, 12 <= bn < 268 -> blk (im s) d bn = bld 4 (im s i) (Z.to_nat (4 * (bn - 12)))) ->
  0 <= bn < 268 ->
  blk (fupd (im s) i (bst 4 (im s i) (Z.to_nat (4 * (nb - 12))) a)) d' bn = if bn =? nb then a else blk (im s) d bn.
Proof.
  intros Hnb H12 Ha Hi Hd' Hl Hdir Hind Hbn. destruct (decide (bn < 12)).
  { rewrite (proj2 (Z.eqb_neq _ _)) by lia. rewrite !blk_direct by lia. apply Hdir. lia. }
  rewrite blk_indirect, Hd', (proj2 (Z.eqb_neq i 0)), fupd_eq by lia. destruct (Z.eqb_spec bn nb) as [->|Hne].
  - rewrite bld_bst_eq by (rewrite Hl; lia). apply Z.mod_small. done.
  - rewrite bld_bst_ne by lia. rewrite Hind by lia. done.
Qed.
Lemma ind_entry d' i (s1 : image) a : im_len s1 = 2000 -> freeblock s1 = a -> 0 < a < 2000 -> 0 <= i < 2000 -> indb d' = i ->
  let o := Z.to_nat (4 * (nb - 12)) in bld 4 (im s1 i) o = 0 -> length (im s1 i) = 1024%nat -> 12 <= nb < 268 ->
  (indirect <~ rsect (xint (daddr d' 12)) ;;
   indirect <~ (if bld 4 indirect o =? 0 then
                  a <~ next_block ;;
                  wsect (xint (daddr d' 12)) (bst 4 indirect o (xint a)) ;;; kret (bst 4 indirect o (xint a))
                else kret indirect) ;;
   kret (xint (bld 4 indirect o), d')) s1 =
  Ret ((a, d'), mkImage (fupd (im s1) i (bst 4 (im s1 i) o a)) 2000 (freeinode s1) (a + 1)).
Proof.
  intros Hl Hfb Ha Hi Hd' ofs Hz Hlen Hnb. change (daddr d' 12) with (indb d'). rewrite Hd', (xint_id i) by lia.
  rewrite (kbind_ret _ _ _ _ _ (rsect_run i s1 Hl Hi)). rewrite Hz. change (0 =? 0) with true. cbv iota.
  rewrite <- kbind_assoc, (kbind_ret _ _ _ _ _ (next_block_run s1 ltac:(lia) ltac:(lia))). rewrite Hfb, (xint_id a) by lia.
  rewrite <- kbind_assoc, (kbind_ret _ _ _ _ _ (wsect_run i _ (mkImage _ (im_len s1) _ _) Hl Hi)).
  erewrite kbind_ret by reflexivity. cbv beta. rewrite bld_bst_eq by (rewrite Hlen; lia).
  rewrite Z.mod_small by lia. rewrite xint_id by lia. done.
Qed.
Lemma ind_limg d' i a : nb < 268 -> 12 <= nb -> a < 2000 -> freeblock s <= a -> i <> a -> indb d' = i ->
  (owns o (freeblock s) inum i /\ d' = d /\ a = freeblock s \/ i = freeblock s /\ a = freeblock s + 1 /\ d' = set_daddr 12 i d) ->
  (forall bn, 0 <= bn < nb -> blk (im s) d bn <> i) ->
  (forall bn, 12 <= bn < 268 -> blk (im s) d bn = bld 4 (im s i) (Z.to_nat (4 * (bn - 12)))) ->
  let s' := mkImage (fupd (im s) i (bst 4 (im s i) (Z.to_nat (4 * (nb - 12))) a)) 2000 (freeinode s) (a + 1) in
  let o' := fun k => if freeblock s <=? k then inum else o k in
  limg s' o' inum d' (nb + 1) data /\ keeps inum s s' o o' d d'.
Proof.
  intros Hnb H12 Ha2 Haf Hia Hd' Hcase Hni Hind s' o'. destruct I as [L1 L2 L3 L4 W].
  pose proof W as [W1 W2 [W3 _] W4 W5 W6 W7 W8 W9 W10].
  assert (Hi : 47 <= i < 2000 /\ i <= a) by (destruct Hcase as [([? _] & _ & _)|(? & _ & _)]; lia).
  assert (Hlow : forall k, k < freeblock s -> o' k = o k) by (intros k Hk; unfold o'; by rewrite (proj2 (Z.leb_gt _ _))).
  assert (Hhigh : forall k, freeblock s <= k -> o' k = inum) by (intros k Hk; unfold o'; by rewrite (proj2 (Z.leb_le _ _))).
  assert (Hdd : length (d_addrs d') = 13%nat /\ Forall (fun x => 0 <= x < 2 ^ 32) (d_addrs d') /\
    (forall k, (k < 12)%nat -> daddr d' k = daddr d k) /\ d_type d' = d_type d /\ d_major d' = d_major d /\
    d_minor d' = d_minor d /\ d_nlink d' = d_nlink d).
  { destruct Hcase as [(_ & -> & _)|(_ & _ & ->)]; [done|]. cbn. rewrite length_insert. split_and!; try done.
    - apply Forall_insert; [done|lia].
    - intros k Hk. unfold daddr. cbn. by rewrite !nth_lookup, list_lookup_insert_ne by lia. }
  destruct Hdd as (D1 & D2 & D3 & D4).
  assert (Hii : owns o' (a + 1) inum i).
  { split; [lia|]. destruct Hcase as [([? E] & _ & _)|(? & _ & _)]; [rewrite Hlow by lia; done|apply Hhigh; lia]. }
  split.
  - split; cbn [s' im im_len freeblock]; try done; [lia| | |].
    + intros k. unfold fupd. destruct (k =? i); [|done]. by apply bst_ok.
    + intros k Hk. rewrite fupd_ne by lia. apply L4. lia.
    + apply (fwf_grow (im s) _ (owns o (freeblock s) inum) _ d _ _ _ a W); try done; try lia.
      * intros bn Hbn. apply ind_blk; try done; try lia. apply L3.
      * intros bn Hbn. apply fupd_ne. by apply Hni.
      * rewrite fupd_ne by done. apply L4. lia.
      * intros k [? E]. split; [lia|]. by rewrite Hlow by lia.
      * split; [lia|]. apply Hhigh. lia.
      * intros [? _]. lia.
      * rewrite Hd'. intros _. split_and!; [done|done|]. intros bn Hbn. by apply Hni.
  - split; cbn [s' im freeblock freeinode]; try done; try lia.
    + intros k Hk. apply Hhigh. lia.
    + intros k Hk Hn. apply fupd_ne. intros ->. destruct Hcase as [(? & _)|(? & _)]; [done|lia].
Qed.
Lemma file_block_new : nb < 268 -> freeblock s + need nb <= 2000 ->
  exists s' o' d', file_block d nb s = Ret ((blk (im s') d' nb, d'), s') /\ limg s' o' inum d' (nb + 1) data /\
    keeps inum s s' o o' d d' /\ freeblock s' = freeblock s + need nb.
Proof.
  intros Hnb Hn. pose proof (li_fwf _ _ _ _ _ _ I) as W. pose proof (w_nb _ _ _ _ _ W) as [Hnb0 _]. unfold need in *.
  destruct (decide (nb < 12)) as [Hd|Hd].
  { rewrite (proj2 (Z.eqb_neq nb 12)) in * by lia. apply file_block_direct; lia. }
  pose proof (li_fb _ _ _ _ _ _ I). pose proof (li_ok _ _ _ _ _ _ I) as Hok. pose proof (li_len _ _ _ _ _ _ I) as Hlen.
  pose proof (w_ind0 _ _ _ _ _ W) as Hi0. pose proof (w_out _ _ _ _ _ W) as Hout. pose proof (w_len _ _ _ _ _ W) as Hl13.
  unfold file_block. change NDIRECT with 12. rewrite (proj2 (Z.ltb_ge nb 12)) by lia. change (daddr d 12) with (indb d).
  destruct (Z.eqb_spec nb 12) as [E|E].
  - set (i := freeblock s) in *. set (d' := set_daddr 12 i d).
    assert (Hd' : indb d' = i) by (unfold indb, daddr, d'; cbn; rewrite nth_lookup, list_lookup_insert_eq by lia; done).
    assert (Hz : im s i = zero_block) by (apply (li_fresh _ _ _ _ _ _ I); lia).
    rewrite (proj2 Hi0 ltac:(lia)). change (xint 0 =? 0) with true. cbv iota.
    rewrite <- kbind_assoc, (kbind_ret _ _ _ _ _ (next_block_run s ltac:(lia) ltac:(lia))). erewrite kbind_ret by reflexivity.
    cbv beta zeta. fold i. rewrite (xint_id i) by lia. fold d'.
    rewrite (ind_entry d' i (mkImage (im s) (im_len s) (freeinode s) (i + 1)) (i + 1)); cbn [im im_len freeblock freeinode]; try done;
      [|lia|lia|rewrite Hz; apply bld_zero|apply Hok|lia].
    destruct (ind_limg d' i (i + 1)) as [HL HK]; try done; try lia; try (right; done).
    { intros bn Hbn. pose proof (blk_range bn Hbn). lia. }
    { intros bn Hbn. rewrite Hz, bld_zero. apply Hout. lia. }
    eexists _, _, d'. split; [|split; [exact HL|split; [exact HK|cbn; lia]]]. cbn [im].
    rewrite (ind_blk d' i (i + 1)), Z.eqb_refl; try done; try lia; [apply Hok|..].
    + intros k Hk. unfold daddr, d'. cbn. by rewrite !nth_lookup, list_lookup_insert_ne by lia.
    + intros bn Hbn. rewrite Hz, bld_zero. apply Hout. lia.
  - destruct (ind_range ltac:(lia)) as [Hir Hio]. set (i := indb d) in *. rewrite (xint_id i) by lia.
    rewrite (proj2 (Z.eqb_neq i 0)) by lia. erewrite kbind_ret by reflexivity. cbv beta zeta.
    assert (Hind : forall bn, 12 <= bn < 268 -> blk (im s) d bn = bld 4 (im s i) (Z.to_nat (4 * (bn - 12)))).
    { intros bn Hbn. rewrite blk_indirect by lia. fold i. by rewrite (proj2 (Z.eqb_neq i 0)) by lia. }
    rewrite (ind_entry d i s (freeblock s)); try done; try lia; [|by rewrite <- Hind by lia; apply Hout; lia|apply Hok].
    destruct (ind_limg d i (freeblock s)) as [HL HK]; try done; try lia.
    { left. by split. }
    { intros bn Hbn. apply (w_ind _ _ _ _ _ W); [fold i; lia|done]. }
    eexists _, _, d. split; [|split; [exact HL|split; [exact HK|cbn; lia]]]. cbn [im].
    rewrite (ind_blk d i (freeblock s)), Z.eqb_refl; try done; try lia. apply Hok.
Qed.
End file.

(** Blocks for [n] bytes, and with the indirect block. *)
Definition nbk (n : Z) : Z := (n + 1023) / 1024.
Definition nblk (nb : Z) : Z := nb + (if 12 <? nb then 1 else 0).
Lemma need_nblk nb : nblk (nb + 1) = nblk nb + need nb.
Proof. unfold nblk, need. destruct (Z.ltb_spec 12 (nb + 1)), (Z.ltb_spec 12 nb), (Z.eqb_spec nb 12); lia. Qed.
Lemma nblk_mono a b : a <= b -> nblk a <= nblk b.
Proof. unfold nblk. destruct (Z.ltb_spec 12 a), (Z.ltb_spec 12 b); lia. Qed.
Abbreviation bytes l := (Forall (fun x => 0 <= x < 256) l).
Abbreviation len l := (Z.of_nat (length l)).

Lemma file_block_at s o inum d data : let off := len data in let fbn := off / 1024 in
  limg s o inum d (nbk off) data -> fbn < 268 -> freeblock s + (nblk (fbn + 1) - nblk (nbk off)) <= 2000 ->
  exists s1 o1 d1, file_block d fbn s = Ret ((blk (im s1) d1 fbn, d1), s1) /\ limg s1 o1 inum d1 (fbn + 1) data /\
    keeps inum s s1 o o1 d d1 /\ freeblock s1 = freeblock s + (nblk (fbn + 1) - nblk (nbk off)).
Proof.
  intros off fbn I Hm Hroom. unfold nbk in *. destruct (decide (off mod 1024 = 0)) as [E|E].
  - replace ((off + 1023) / 1024) with fbn in * by (unfold fbn; dlia). rewrite need_nblk in *.
    destruct (file_block_new s o inum d fbn data I) as (s1 & o1 & d1 & H1 & H2 & H3 & H4); [lia..|].
    exists s1, o1, d1. split_and!; try done. lia.
  - replace ((off + 1023) / 1024) with (fbn + 1) in * by (unfold fbn; dlia).
    exists s, o, d. rewrite (file_block_old s o inum d (fbn + 1) data I) by (unfold fbn, off; dlia).
    split_and!; [done|done|apply keeps_refl|lia].
Qed.
Lemma write_at s o inum d data p : let off := len data in let fbn := off / 1024 in let x := blk (im s) d fbn in
  limg s o inum d (fbn + 1) data -> off + len p <= (fbn + 1) * 1024 -> bytes p ->
  exists s', (buf <~ rsect x ;; wsect x (splice buf (Z.to_nat (off - fbn * BSIZE)) p)) s = Ret (tt, s') /\
    limg s' o inum d (fbn + 1) (data ++ p) /\ keeps inum s s' o o d d /\ freeblock s' = freeblock s.
Proof.
  intros off fbn x I Hp Hb. assert (Hf : 0 <= fbn < fbn + 1) by (unfold fbn, off; dlia).
  pose proof (blk_range s o inum d (fbn + 1) data I fbn Hf) as Hx. fold x in Hx.
  pose proof (li_fwf _ _ _ _ _ _ I) as W. pose proof (w_in _ _ _ _ _ W fbn Hf) as Hown. fold x in Hown.
  destruct I as [L1 L2 L3 L4 _]. rewrite (kbind_ret _ _ _ _ _ (rsect_run x s L1 ltac:(lia))), wsect_run by (done || lia).
  eexists. split; [reflexivity|]. assert (Hofs : 0 <= off - fbn * 1024 < 1024) by (unfold fbn; dlia). split_and!.
  - split; cbn [im im_len freeblock]; try done.
    + intros k. unfold fupd. destruct (k =? x); [|done]. apply splice_ok; [done| |done]. unfold BSIZE. lia.
    + intros k Hk. rewrite fupd_ne by lia. by apply L4.
    + apply (fwf_write (im s) _ d _ data p W); [fold off; fold fbn; lia|fold off; fold fbn; lia|apply L3].
  - split; cbn [im freeblock freeinode]; try done; try lia.
    intros k Hk Hn. apply fupd_ne. by intros ->.
  - done.
Qed.
Lemma iappend_loop_ok fuel : forall s o inum d data p, let total := len data + len p in
  limg s o inum d (nbk (len data)) data -> total <= 268 * 1024 -> bytes p ->
  freeblock s + (nblk (nbk total) - nblk (nbk (len data))) <= 2000 ->
  (if decide (p = []) then 1 else nbk total - len data / 1024 + 1) <= Z.of_nat fuel ->
  exists s' o' d', iappend_loop fuel d (len data) p s = Ret ((d', total), s') /\ limg s' o' inum d' (nbk total) (data ++ p) /\
    keeps inum s s' o o' d d' /\ freeblock s' = freeblock s + (nblk (nbk total) - nblk (nbk (len data))).
Proof.
  induction fuel as [|fuel IH]; intros s o inum d data p total I Ht Hb Hroom Hfuel; [unfold nbk, total in *; case_decide; dlia|].
  assert (p = [] \/ 0 < len p) as [Ep|Hp0] by (destruct p; [by left|right; cbn; lia]).
  { subst p. assert (Et : total = len data) by (unfold total; cbn; lia). rewrite Et, app_nil_r in *. exists s, o, d. split_and!; [done|done|apply keeps_refl|lia]. }
  rewrite decide_False in Hfuel by (intros ->; cbn in Hp0; lia). cbn [iappend_loop].
  replace (match p with [] => _ | _ :: _ => _ end) with
    (if negb (len data / BSIZE <? MAXFILE) then panic "assert" : M image (dinode * Z) else
      xd <~ file_block d (len data / BSIZE) ;;
      let '(x, din) := xd in
      let n1 := Z.min (len p) ((len data / BSIZE + 1) * BSIZE - len data) in
      buf <~ rsect x ;;
      wsect x (splice buf (Z.to_nat (len data - len data / BSIZE * BSIZE)) (take (Z.to_nat n1) p)) ;;;
      iappend_loop fuel din (u32 (len data + n1)) (drop (Z.to_nat n1) p)) by (destruct p; [cbn in Hp0; lia|reflexivity]).
  unfold BSIZE. set (off := len data) in *. set (fbn := off / 1024) in *.
  assert (Hoff : fbn * 1024 <= off < (fbn + 1) * 1024) by (unfold fbn; dlia).
  assert (Hmax : off + len p <= 268 * 1024) by exact Ht.
  rewrite (proj2 (Z.ltb_lt fbn MAXFILE)) by (change MAXFILE with 268; lia). cbv iota. cbn [negb].
  assert (Hle : nblk (fbn + 1) <= nblk (nbk total)) by (apply nblk_mono; unfold nbk, total; dlia).
  destruct (file_block_at s o inum d data I) as (s1 & o1 & d1 & H1 & I1 & K1 & F1);
    [change (fbn < 268); lia|change (freeblock s + (nblk (fbn + 1) - nblk (nbk off)) <= 2000); lia|].
  fold off in H1, I1, F1. fold fbn in H1, I1, F1.
  rewrite (kbind_ret _ _ _ _ _ H1). cbv beta iota zeta. set (n1 := Z.min (len p) ((fbn + 1) * 1024 - off)) in *.
  assert (Hn1 : 0 < n1 <= len p) by lia. rewrite kbind_assoc.
  destruct (write_at s1 o1 inum d1 data (take (Z.to_nat n1) p)) as (s2 & H2 & I2 & K2 & F2); [done| | |].
  { change (off + len (take (Z.to_nat n1) p) <= (fbn + 1) * 1024). rewrite length_take. lia. }
  { by apply Forall_take. }
  fold off in H2, I2. fold fbn in H2, I2.
  rewrite (kbind_ret _ _ _ _ _ H2).
  assert (Hl2 : len (data ++ take (Z.to_nat n1) p) = off + n1) by (rewrite length_app, length_take; lia).
  rewrite u32_small by lia. rewrite <- Hl2.
  assert (Hnb : nbk (len (data ++ take (Z.to_nat n1) p)) = fbn + 1) by (rewrite Hl2; unfold nbk; dlia).
  assert (Htot : len (data ++ take (Z.to_nat n1) p) + len (drop (Z.to_nat n1) p) = total) by (rewrite Hl2, length_drop; lia).
  destruct (IH s2 o1 inum d1 (data ++ take (Z.to_nat n1) p) (drop (Z.to_nat n1) p)) as (s3 & o3 & d3 & H3 & I3 & K3 & F3).
  { by rewrite Hnb. }
  { by rewrite Htot. }
  { by apply Forall_drop. }
  { rewrite Htot, Hnb. lia. }
  { rewrite Htot, Hl2. case_decide as D; unfold nbk, total in *; [dlia|].
    assert (n1 <> len p) by (intros E; apply D, nil_length_inv; rewrite length_drop; lia). dlia. }
  rewrite Htot, Hnb in *. rewrite <- app_assoc, take_drop in I3.
  exists s3, o3, d3. split_and!; [done|done| |lia]. eapply keeps_trans; [exact K1|]. by eapply keeps_trans; [exact K2|].
Qed.

(** ** mkfs: the image as a list of files *)

(** Inode [inum] as the image has it. *)
Definition din (v : Z -> block) (inum : Z) : dinode := get_dinode (v (IBLOCK inum sb)) (dip inum).
Definition blocks (m : list (list Z)) : Z := foldr (fun data a => nblk (nbk (len data)) + a) 0 m.
Definition file_kind (j : nat) : Z := if decide (j = O) then T_DIR else T_FILE.

(** [m]: the contents of the files, the root directory first; file [j] is inode [j + 1]. *)
Record ginv (s : image) (m : list (list Z)) (o : Z -> Z) : Prop := {
  g_len : im_len s = 2000;
  g_fb : freeblock s = 47 + blocks m /\ freeblock s <= 2000;
  g_ok : forall k, block_ok (im s k);
  g_fresh : forall k, freeblock s <= k < 2000 -> im s k = zero_block;
  g_fi : freeinode s = len m + 1 /\ len m <= 199;
  g_file : forall j data, m !! j = Some data -> let d := din (im s) (Z.of_nat j + 1) in
    fwf (im s) (owns o (freeblock s) (Z.of_nat j + 1)) d (nbk (len data)) data /\
    d_size d = len data /\ d_type d = file_kind j /\ d_major d = 0 /\ d_minor d = 0 /\ d_nlink d = 1;
  g_sb : forall k, 0 <= k < 33 -> im s k = if k =? 1 then sb_block else zero_block }.

Lemma nblk_nonneg n : 0 <= n -> 0 <= nblk (nbk n).
Proof. intros. unfold nblk, nbk. destruct (_ <? _); dlia. Qed.
Lemma blocks_nonneg m : 0 <= blocks m.
Proof. induction m as [|data m IH]; [done|]. change (blocks (data :: m)) with (nblk (nbk (len data)) + blocks m). pose proof (nblk_nonneg (len data)). lia. Qed.
Lemma blocks_insert m j data data' : m !! j = Some data ->
  blocks (<[j := data']> m) = blocks m - nblk (nbk (len data)) + nblk (nbk (len data')).
Proof.
  revert j. induction m as [|x m IH]; intros [|j] H; try discriminate H.
  - cbn in H. injection H as ->. unfold blocks. cbn [foldr insert list_insert]. lia.
  - specialize (IH j H). change (<[S j := data']> (x :: m)) with (x :: <[j := data']> m). unfold blocks in *. cbn [foldr]. lia.
Qed.
Lemma blocks_app m m' : blocks (m ++ m') = blocks m + blocks m'.
Proof. unfold blocks. induction m as [|x m IH]; cbn; [done|]. rewrite IH. lia. Qed.

Lemma iblock_eq inum : 0 <= inum < 208 -> IBLOCK inum sb = inum / 16 + 33 /\ 33 <= IBLOCK inum sb < 46.
Proof.
  intros H. unfold IBLOCK. change (sb_inodestart sb) with 33. change IPB with 16. rewrite u32_small by dlia. split; [done|dlia].
Qed.
Lemma dip_eq inum : 0 <= inum < 208 -> dip inum = Z.to_nat (inum mod 16 * 64) /\ (dip inum + 64 <= 1024)%nat.
Proof. intros H. unfold dip. change IPB with 16. change DINODE_SIZE with 64. split; [done|dlia]. Qed.

Section winode.
Context (s : image) (inum : Z) (d : dinode) (Hlen : im_len s = 2000) (Hi : 0 <= inum < 208).
Context (Hok : forall k, block_ok (im s k)) (Hd : dinode_wf d).
Definition put_inode : Z -> block := fupd (im s) (IBLOCK inum sb) (put_dinode (im s (IBLOCK inum sb)) (dip inum) d).
Lemma winode_run : winode inum d s = Ret (tt, mkImage put_inode 2000 (freeinode s) (freeblock s)).
Proof.
  destruct (iblock_eq inum Hi) as [_ Hb]. unfold winode. cbv zeta.
  rewrite (kbind_ret _ _ _ _ _ (rsect_run (IBLOCK inum sb) s Hlen ltac:(lia))). by rewrite wsect_run by (done || lia).
Qed.
Lemma put_inode_ok k : block_ok (put_inode k).
Proof. unfold put_inode, fupd. destruct (_ =? _); [by apply put_dinode_ok|done]. Qed.
Lemma put_inode_other k : k < 33 \/ 46 <= k -> put_inode k = im s k.
Proof. intros Hk. destruct (iblock_eq inum Hi). apply fupd_ne. lia. Qed.
Lemma put_inode_same : din put_inode inum = d.
Proof.
  unfold din, put_inode. rewrite fupd_eq. apply get_put_dinode; [|done]. destruct (dip_eq inum Hi). rewrite (proj1 (Hok _)). lia.
Qed.
Lemma put_inode_ne inum' : 0 <= inum' < 208 -> inum' <> inum -> din put_inode inum' = din (im s) inum'.
Proof.
  intros Hi' Hne. unfold din, put_inode. destruct (iblock_eq inum Hi) as [E _], (iblock_eq inum' Hi') as [E' _].
  destruct (dip_eq inum Hi) as [D _], (dip_eq inum' Hi') as [D' _].
  destruct (decide (IBLOCK inum' sb = IBLOCK inum sb)) as [Eb|Eb]; [|by rewrite fupd_ne].
  rewrite Eb, fupd_eq. apply get_put_dinode_other; [apply Hd|]. rewrite D, D'. dlia.
Qed.
End winode.

Lemma rinode_run s inum : im_len s = 2000 -> 0 <= inum < 208 -> rinode inum s = Ret (din (im s) inum, s).
Proof.
  intros Hl Hi. destruct (iblock_eq inum Hi) as [_ Hb]. unfold rinode. cbv zeta.
  by rewrite (kbind_ret _ _ _ _ _ (rsect_run (IBLOCK inum sb) s Hl ltac:(lia))).
Qed.

Lemma fwf_wf v own d nb data : fwf v own d nb data -> d_type d = T_DIR \/ d_type d = T_FILE -> d_major d = 0 -> d_minor d = 0 -> d_nlink d = 1 ->
  0 <= d_size d < 2 ^ 32 -> dinode_wf d.
Proof. intros W Ht Hm Hn Hl Hs. unfold dinode_wf, T_DIR, T_FILE in *. split_and!; try lia; apply W. Qed.
Lemma fwf_dsize v own d nb data n : fwf v own d nb data -> fwf v own (set_dsize n d) nb data.
Proof. intros [W1 W2 W3 W4 W5 W6 W7 W8 W9 W10]. by split. Qed.
Lemma ftype_cases j : file_kind j = T_DIR \/ file_kind j = T_FILE.
Proof. unfold file_kind. case_decide; auto. Qed.

(** iappend appends to one file and leaves the others as they are. *)
Lemma iappend_ok s m o j data p : ginv s m o -> m !! j = Some data -> len data + len p <= 268 * 1024 -> bytes p ->
  freeblock s + (nblk (nbk (len data + len p)) - nblk (nbk (len data))) <= 2000 ->
  exists s' o', iappend (Z.of_nat j + 1) p s = Ret (tt, s') /\ ginv s' (<[j := data ++ p]> m) o'.
Proof.
  intros [G1 [G2 G2'] G3 G4 [G5 G5'] G6 G7] Hj Hmax Hb Hroom. pose proof (lookup_lt_Some _ _ _ Hj) as Hjl.
  pose proof (blocks_nonneg m). set (inum := Z.of_nat j + 1) in *. assert (Hi : 0 <= inum < 208) by lia.
  destruct (G6 j data Hj) as (W & Hsz & Hty & Hma & Hmi & Hnl). fold inum in W, Hsz, Hty, Hma, Hmi, Hnl.
  unfold iappend. rewrite (kbind_ret _ _ _ _ _ (rinode_run s inum G1 Hi)). rewrite Hsz, xint_id by lia.
  destruct (iappend_loop_ok (length p / 1024 + 3) s o inum (din (im s) inum) data p) as (s1 & o1 & d1 & H1 & I1 & K1 & F1); try done.
  { by split; try done; lia. }
  { rewrite Nat2Z.inj_add, Nat2Z.inj_div. unfold nbk. case_decide; dlia. }
  rewrite (kbind_ret _ _ _ _ _ H1). cbn [fst snd]. rewrite xint_id by lia. destruct I1 as [L1 L2 L3 L4 W1].
  destruct K1 as [K1 K2 K3 K4 K5 (K6 & K7 & K8 & K9)]. set (d2 := set_dsize (len data + len p) d1).
  assert (Hd2 : dinode_wf d2).
  { apply (fwf_wf _ _ _ _ _ (fwf_dsize _ _ _ _ _ _ W1)); cbn; [rewrite K6, Hty; apply ftype_cases|congruence..|lia]. }
  rewrite (winode_run s1 inum d2 L1 Hi). eexists _, o1. split; [reflexivity|].
  pose proof (put_inode_other s1 inum d2 Hi) as Hpo.
  split; cbn [im im_len freeblock freeinode]; try done.
  - split; [|lia]. rewrite (blocks_insert m j data) by done. rewrite length_app, Nat2Z.inj_add. lia.
  - intros k. by apply put_inode_ok.
  - intros k Hk. rewrite Hpo by lia. by apply L4.
  - rewrite length_insert. split; [lia|done].
  - intros j' data' Hj'. destruct (decide (j' = j)) as [->|Hne].
    + rewrite list_lookup_insert_eq in Hj' by lia. injection Hj' as <-. fold inum.
      rewrite (put_inode_same s1 inum d2 Hi L3 Hd2). rewrite length_app, Nat2Z.inj_add. cbn [d2 set_dsize d_size d_type d_major d_minor d_nlink].
      split_and!; try congruence. apply (fwf_ext (im s1) _ (owns o1 (freeblock s1) inum)); [by apply fwf_dsize| |done].
      intros k [? _]. apply Hpo. lia.
    + rewrite list_lookup_insert_ne in Hj' by done. destruct (G6 j' data' Hj') as (W' & Hr'). pose proof (lookup_lt_Some _ _ _ Hj') as Hjl'.
      assert (Hi' : 0 <= Z.of_nat j' + 1 < 208) by lia. destruct (iblock_eq _ Hi') as [_ Hb'].
      rewrite (put_inode_ne s1 inum d2 Hi Hd2) by lia.
      assert (Ed : din (im s1) (Z.of_nat j' + 1) = din (im s) (Z.of_nat j' + 1)).
      { unfold din. rewrite K5; [done|lia|]. intros [? _]. lia. }
      rewrite Ed. split; [|done]. apply (fwf_ext (im s) _ (owns o (freeblock s) (Z.of_nat j' + 1))); [done| |].
      * intros k [? E]. rewrite Hpo by lia. apply K5; [lia|]. intros [_ E']. unfold inum in E'. lia.
      * intros k [? E]. split; [lia|]. rewrite K3 by lia. done.
  - intros k Hk. rewrite Hpo by lia. rewrite K5; [by apply G7|lia|]. intros [? _]. lia.
Qed.

(** ialloc adds an empty file. *)
Lemma ialloc_ok s m o : ginv s m o -> len m < 199 ->
  exists s', ialloc (file_kind (length m)) s = Ret (len m + 1, s') /\ ginv s' (m ++ [[]]) o.
Proof.
  intros [G1 [G2 G2'] G3 G4 [G5 G5'] G6 G7] Hm. set (inum := len m + 1) in *. assert (Hi : 0 <= inum < 208) by lia.
  pose proof (blocks_nonneg m). unfold ialloc, next_inode. erewrite kbind_ret by reflexivity. cbv beta. rewrite G5. fold inum. rewrite (u32_small (inum + 1)) by lia.
  replace (i16 (xshort (file_kind (length m)))) with (file_kind (length m)) by (destruct (ftype_cases (length m)) as [->| ->]; reflexivity).
  change (i16 (xshort 1)) with 1. change (xint 0) with 0. set (d := mkDinode _ 0 0 1 0 _).
  assert (W : forall v own, fwf v own d 0 []).
  { intros v own. assert (Hb : forall bn, blk v d bn = 0).
    { intros bn. destruct (decide (bn < 12)); [rewrite blk_direct by lia; apply nth_zeros|rewrite blk_indirect by lia; done]. }
    split; try done; try lia; try (cbn; lia).
    by apply Forall_replicate. }
  assert (Hd : dinode_wf d) by (apply (fwf_wf _ _ _ _ _ (W (im s) (fun _ => True))); [apply ftype_cases|done..|cbn; lia]).
  set (s0 := mkImage (im s) (im_len s) (inum + 1) (freeblock s)).
  rewrite (kbind_ret _ _ _ _ _ (winode_run s0 inum d G1 Hi)). eexists. split; [reflexivity|].
  pose proof (put_inode_other s0 inum d Hi) as Hpo.
  split; cbn [im im_len freeblock freeinode s0]; try done.
  - rewrite blocks_app. change (blocks [[]]) with 0. lia.
  - intros k. by apply put_inode_ok.
  - intros k Hk. rewrite Hpo by lia. by apply G4.
  - rewrite length_app. cbn. unfold inum. lia.
  - intros j data Hj. apply lookup_app_Some in Hj as [Hj|[Hjl Hj]].
    + destruct (G6 j data Hj) as (W' & Hr). pose proof (lookup_lt_Some _ _ _ Hj) as Hjl.
      rewrite (put_inode_ne s0 inum d Hi Hd) by (unfold inum; lia). split; [|done].
      apply (fwf_ext (im s) _ (owns o (freeblock s) (Z.of_nat j + 1))); [done| |done]. intros k [? _]. rewrite Hpo by lia. done.
    + assert (j = length m) as -> by (apply lookup_lt_Some in Hj; cbn in Hj; lia).
      rewrite Nat.sub_diag in Hj. cbn in Hj. injection Hj as <-. fold inum. rewrite (put_inode_same s0 inum d Hi G3 Hd).
      by split_and!.
  - intros k Hk. rewrite Hpo by lia. by apply G7.
Qed.
