(* ===== verification/MkfsTheorems.v ===== *)
(** * The image mkfs builds is a file system the kernel can use *)
From S2P Require Import Prelude Machine Spinlock Blocks Log LogProof LogCrash LogTxn Fs FsBase FsBlock FsMap FsData FsWrite FsDir Printf Mkfs MkfsImage.

(** ** The free map *)
Lemma mark_used_ok n i b : 0 <= i -> block_ok b -> block_ok (mark_used n i b).
Proof.
  revert i b. induction n as [|n IH]; intros i b Hi [Hl Hb]; cbn [mark_used]; [done|]. apply IH; [lia|].
  split; [by rewrite length_insert|]. apply Forall_insert; [done|apply u8_range].
Qed.
Lemma mark_used_bits n i b j : 0 <= i -> i + Z.of_nat n <= 8192 -> block_ok b -> (forall k, i <= k < 8192 -> bit_set b k = false) ->
  0 <= j < 8192 -> bit_set (mark_used n i b) j = bit_set b j || ((i <=? j) && (j <? i + Z.of_nat n)).
Proof.
  revert i b. induction n as [|n IH]; intros i b Hi Hn Hb Hz Hj; cbn [mark_used].
  - destruct (Z.leb_spec i j), (Z.ltb_spec j (i + Z.of_nat 0)); try lia; by rewrite orb_false_r.
  - change (mark_used n (i + 1) _) with (mark_used n (i + 1) (set_bit b i)).
    assert (Hs : forall k, 0 <= k < 8192 -> bit_set (set_bit b i) k = (k =? i) || bit_set b k).
    { intros k Hk. rewrite set_bit_spec; [done|apply Hb|change BPB with 8192; lia..|apply Hz; lia]. }
    rewrite IH; try done; try lia.
    + rewrite Hs by done. destruct (Z.eqb_spec j i), (Z.leb_spec i j), (Z.leb_spec (i + 1) j), (Z.ltb_spec j (i + Z.of_nat (S n))), (Z.ltb_spec j (i + 1 + Z.of_nat n));
        try lia; cbn; rewrite ?orb_false_r, ?orb_true_r; done.
    + apply (mark_used_ok 1 i b Hi Hb).
    + intros k Hk. rewrite Hs by lia. rewrite (proj2 (Z.eqb_neq _ _)) by lia. apply Hz. lia.
Qed.

(** ** What a well-formed file means to the kernel *)
Section kernel.
Context (v : Z -> block) (o : Z -> Z) (fb : Z) (Hfb : 47 <= fb <= 2000).
Context (Hused : forall b, 0 <= b < 2000 -> used sb v b = (b <? fb)).
Context (inum : Z) (d : dinode) (nb : Z) (data : list Z) (W : fwf v (owns o fb inum) d nb data).

Lemma own_block k : owns o fb inum k -> data_block sb 47 k /\ used sb v k = true.
Proof.
  intros [Hk _]. unfold data_block. change (sb_size sb) with 2000. split; [lia|]. rewrite Hused by lia. lia.
Qed.
Lemma fwf_iwf : iwf sb 47 v (as_inode inum d).
Proof.
  assert (Hin : forall bn, 0 <= bn < 268 -> blk v d bn <> 0 -> 0 <= bn < nb).
  { intros bn Hbn Hne. destruct (decide (bn < nb)); [lia|]. by rewrite (w_out _ _ _ _ _ W) in Hne by lia. }
  split; change MAXFILE with 268.
  - apply W.
  - intros bn Hbn Hne. apply own_block, (w_in _ _ _ _ _ W), Hin; done.
  - intros bn bn' H1 H2 Hne E. change (blockno v (as_inode inum d)) with (blk v d) in *.
    apply (w_inj _ _ _ _ _ W); [by apply Hin|apply Hin; congruence|done].
  - intros Hne. change (ind (as_inode inum d)) with (indb d) in *. destruct (w_ind _ _ _ _ _ W Hne) as [Ho Hd].
    destruct (own_block _ Ho). split_and!; [done..|]. intros bn Hbn E. change (blockno v (as_inode inum d)) with (blk v d) in E.
    apply (Hd bn); [|done]. apply Hin; [done|congruence].
Qed.
Lemma fwf_full : 0 <= d_size d <= nb * 1024 -> full v (as_inode inum d).
Proof.
  intros Hs. pose proof (w_nb _ _ _ _ _ W). split; [change (MAXFILE * BSIZE) with 274432; cbn; lia|].
  intros bn H1 H2. cbn in H2. unfold BSIZE in H2. destruct (w_in _ _ _ _ _ W bn) as [? _]; [lia|]. change (blockno v (as_inode inum d)) with (blk v d). lia.
Qed.
Lemma fwf_contents : len data <= d_size d <= nb * 1024 ->
  contents v (as_inode inum d) = data ++ replicate (Z.to_nat (d_size d - len data)) 0.
Proof.
  intros Hs. apply list_eq. intros j. unfold contents, slice. cbn [i_size as_inode]. rewrite list_lookup_fmap.
  destruct (decide (Z.of_nat j < d_size d)) as [Hj|Hj].
  - rewrite (proj2 (lookup_seqZ 0 (d_size d) j (Z.of_nat j))) by lia. cbn [fmap option_fmap option_map].
    change (byte v (as_inode inum d) (Z.of_nat j)) with (fbyte v d (Z.of_nat j)).
    destruct (decide (Z.of_nat j < len data)) as [Hl|Hl].
    + rewrite (w_data _ _ _ _ _ W) by lia. rewrite lookup_app_l by lia. rewrite Nat2Z.id, nth_lookup.
      destruct (lookup_lt_is_Some_2 data j) as [x ->]; [lia|done].
    + rewrite (w_pad _ _ _ _ _ W) by lia. rewrite lookup_app_r by lia. symmetry. rewrite lookup_replicate. split; [done|lia].
  - rewrite (lookup_ge_None_2 (seqZ _ _)) by (rewrite length_seqZ; lia). symmetry. apply lookup_ge_None. rewrite length_app, length_replicate. lia.
Qed.
End kernel.

(** ** Adding the files *)
Definition name_of (arg : list Z) : list Z := strip_ (shortname arg).
Definition dirent (inum : Z) (name : list Z) : list Z := mk_dirent (xshort inum) (strncpy (Z.to_nat DIRSIZ) name).
Fixpoint dirents (inum : Z) (names : list (list Z)) : list Z :=
  match names with
  | [] => []
  | n :: names => dirent inum n ++ dirents (inum + 1) names
  end.
Lemma dirent_length inum name : length (dirent inum name) = 16%nat.
Proof. unfold dirent, mk_dirent. rewrite length_app, strncpy_length. done. Qed.
Lemma dirent_bytes inum name : bytes name -> bytes (dirent inum name).
Proof.
  intros Hn. unfold dirent, mk_dirent. apply Forall_app. split; [|by apply strncpy_bytes].
  repeat constructor; apply u8_range.
Qed.
Lemma dirents_length inum names : length (dirents inum names) = (16 * length names)%nat.
Proof. revert inum. induction names as [|n names IH]; intros inum; cbn [dirents length]; [done|]. rewrite length_app, dirent_length, IH. lia. Qed.

Lemma iappend_room s m o j data p : ginv s m o -> m !! j = Some data -> len data + len p <= 268 * 1024 -> bytes p ->
  47 + blocks (<[j := data ++ p]> m) <= 2000 ->
  exists s' o', iappend (Z.of_nat j + 1) p s = Ret (tt, s') /\ ginv s' (<[j := data ++ p]> m) o'.
Proof.
  intros G Hj Hmax Hb Hroom. apply (iappend_ok s m o j data p G Hj Hmax Hb). rewrite (proj1 (g_fb _ _ _ G)).
  rewrite (blocks_insert m j data) in Hroom by done. rewrite length_app, Nat2Z.inj_add in Hroom. lia.
Qed.
Lemma blocks_grow m j data p : m !! j = Some data -> blocks m <= blocks (<[j := data ++ p]> m).
Proof.
  intros Hj. rewrite (blocks_insert m j data) by done. assert (nblk (nbk (len data)) <= nblk (nbk (len (data ++ p)))); [|lia].
  apply nblk_mono. unfold nbk. rewrite length_app. apply Z.div_le_mono; lia.
Qed.
Lemma append_all_ok pieces : forall s m o j data, ginv s m o -> m !! j = Some data ->
  len data + len (concat pieces) <= 268 * 1024 -> Forall (fun p => bytes p) pieces ->
  47 + blocks (<[j := data ++ concat pieces]> m) <= 2000 ->
  exists s' o', append_all (Z.of_nat j + 1) pieces s = Ret (tt, s') /\ ginv s' (<[j := data ++ concat pieces]> m) o'.
Proof.
  induction pieces as [|p pieces IH]; intros s m o j data G Hj Hmax Hb Hroom; cbn [append_all concat] in *.
  { exists s, o. rewrite app_nil_r, list_insert_id by done. by split. }
  apply Forall_cons in Hb as [Hb1 Hb2]. pose proof (lookup_lt_Some _ _ _ Hj). rewrite length_app in Hmax.
  assert (Hins : <[j := data ++ p ++ concat pieces]> m = <[j := (data ++ p) ++ concat pieces]> (<[j := data ++ p]> m)).
  { by rewrite list_insert_insert_eq, <- app_assoc. }
  rewrite Hins in Hroom |- *. assert (Hj' : <[j := data ++ p]> m !! j = Some (data ++ p)) by (by apply list_lookup_insert_eq).
  pose proof (blocks_grow _ j _ (concat pieces) Hj').
  destruct (iappend_room s m o j data p G Hj) as (s1 & o1 & H1 & G1); try done; try lia.
  rewrite (kbind_ret _ _ _ _ _ H1). apply (IH s1 _ o1 j (data ++ p) G1 Hj'); try done. rewrite length_app. lia.
Qed.

Section host.
Context (host : list Z -> option (list (list Z))).

(** An argument mkfs accepts, and the contents of the file. *)
Definition file_data (arg : list Z) : list Z := concat (default [] (host arg)).
Record good_arg (arg : list Z) : Prop := {
  a_slash : ch "/" ∉ shortname arg;
  a_host : exists pieces, host arg = Some pieces /\ Forall (fun p => bytes p) pieces;
  a_bytes : bytes arg;
  a_name : (length (name_of arg) <= 14)%nat;
  a_size : len (file_data arg) <= 268 * 1024 }.
Lemma name_bytes arg : bytes arg -> bytes (name_of arg).
Proof.
  intros H. unfold name_of, shortname. assert (bytes (if decide (take 5 arg = chars "user/") then drop 5 arg else arg)) as Hs.
  { case_decide; [by apply Forall_drop|done]. }
  destruct (if decide _ then _ else _) as [|c s]; [done|]. cbn. apply Forall_cons in Hs as [? ?]. destruct (_ =? _); [done|by constructor].
Qed.

Lemma add_file_ok s root ds o arg : ginv s (root :: ds) o -> good_arg arg -> len ds < 198 -> len root + 16 <= 268 * 1024 ->
  47 + blocks ((root ++ dirent (len ds + 2) (name_of arg)) :: ds ++ [file_data arg]) <= 2000 ->
  exists s' o', add_file host 1 arg s = Ret (tt, s') /\
    ginv s' ((root ++ dirent (len ds + 2) (name_of arg)) :: ds ++ [file_data arg]) o'.
Proof.
  intros G [A1 (pieces & A2 & A3) A4 A5 A6] Hn Hroot Hroom. unfold add_file. cbv zeta.
  unfold file_data in *. rewrite A2 in *. cbn [default] in *. unfold id in *.
  rewrite bool_decide_false by done. fold (name_of arg). rewrite (proj2 (Nat.leb_le _ _)) by done. cbn [negb].
  destruct (ialloc_ok s (root :: ds) o G) as (s1 & H1 & G1); [cbn; lia|]. change (file_kind (length (root :: ds))) with T_FILE in H1.
  rewrite (kbind_ret _ _ _ _ _ H1). replace (len (root :: ds) + 1) with (len ds + 2) by (cbn [length]; lia).
  set (ent := dirent (len ds + 2) (name_of arg)) in *. change (mk_dirent _ _) with ent.
  assert (He : len ent = 16) by (unfold ent; by rewrite dirent_length).
  set (data := concat pieces) in *. set (ds1 := ds ++ [[]]) in *.
  assert (Hlk : ((root ++ ent) :: ds1) !! S (length ds) = Some []) by (change (ds1 !! length ds = Some []); unfold ds1; by rewrite lookup_app_r, Nat.sub_diag by lia).
  assert (Hfin : (root ++ ent) :: ds ++ [data] = <[S (length ds) := [] ++ data]> ((root ++ ent) :: ds1)).
  { change ((root ++ ent) :: ds ++ [data] = (root ++ ent) :: <[length ds := data]> ds1). unfold ds1.
    by rewrite insert_app_r_alt, Nat.sub_diag by lia. }
  pose proof (blocks_grow _ _ _ data Hlk) as Hg. rewrite <- Hfin in Hg.
  destruct (iappend_room s1 (root :: ds1) o 0 root ent G1) as (s2 & o2 & H2 & G2); try done; [lia|apply dirent_bytes, name_bytes, A4|cbn [insert list_insert]; lia|].
  change (Z.of_nat 0 + 1) with 1 in H2. rewrite (kbind_ret _ _ _ _ _ H2). cbn [insert list_insert] in G2.
  destruct (append_all_ok pieces s2 _ o2 (S (length ds)) [] G2 Hlk) as (s3 & o3 & H3 & G3); try done.
  { fold data. rewrite <- Hfin. lia. }
  replace (Z.of_nat (S (length ds)) + 1) with (len ds + 2) in H3 by lia. exists s3, o3. split; [done|]. fold data in G3. by rewrite Hfin.
Qed.
Lemma add_files_ok args : forall s root ds o, ginv s (root :: ds) o -> Forall good_arg args ->
  len ds + len args <= 198 -> len root + 16 * len args <= 268 * 1024 ->
  let root' := root ++ dirents (len ds + 2) (name_of <$> args) in let ds' := ds ++ (file_data <$> args) in
  47 + blocks (root' :: ds') <= 2000 ->
  exists s' o', add_files host 1 args s = Ret (tt, s') /\ ginv s' (root' :: ds') o'.
Proof.
  induction args as [|arg args IH]; intros s root ds o G HF Hn Hroot root' ds' Hroom; cbn [add_files].
  { exists s, o. unfold root', ds'. cbn. by rewrite !app_nil_r. }
  apply Forall_cons in HF as [Ha HF]. cbn [length] in Hn, Hroot. set (ent := dirent (len ds + 2) (name_of arg)).
  assert (He : len ent = 16) by (unfold ent; by rewrite dirent_length).
  set (root1 := root ++ ent). set (ds1 := ds ++ [file_data arg]).
  assert (Hl1 : len ds1 = len ds + 1) by (unfold ds1; rewrite length_app; cbn; lia).
  assert (Er : root' = root1 ++ dirents (len ds1 + 2) (name_of <$> args)).
  { unfold root', root1. rewrite Hl1. cbn [fmap list_fmap dirents]. replace (len ds + 1 + 2) with (len ds + 2 + 1) by lia. by rewrite <- app_assoc. }
  assert (Ed : ds' = ds1 ++ (file_data <$> args)) by (unfold ds', ds1; by rewrite <- app_assoc).
  assert (Hlt : blocks (root1 :: ds1) <= blocks (root' :: ds')).
  { rewrite Er, Ed. pose proof (blocks_grow (root1 :: ds1) 0 root1 (dirents (len ds1 + 2) (name_of <$> args)) eq_refl) as Hg. cbn [insert list_insert] in Hg.
    change (?x :: ds1 ++ ?l) with ((x :: ds1) ++ l). rewrite blocks_app. pose proof (blocks_nonneg (file_data <$> args)). lia. }
  destruct (add_file_ok s root ds o arg G Ha) as (s1 & o1 & H1 & G1); [lia|lia|fold ent root1 ds1; lia|].
  rewrite (kbind_ret _ _ _ _ _ H1). fold ent root1 ds1 in G1.
  destruct (IH s1 root1 ds1 o1 G1 HF) as (s2 & o2 & H2 & G2); [lia|unfold root1; rewrite length_app; lia|by rewrite <- Er, <- Ed; lia|].
  exists s2, o2. split; [done|]. by rewrite Er, Ed.
Qed.
End host.

(** ** The whole program *)
(** The image file just truncated, and mkfs's static variables. *)
Definition image0 : image := mkImage (fun _ => zero_block) 0 1 0.
Lemma zero_image_ok n : forall i s, 0 <= i -> i + Z.of_nat n <= 2000 -> im_len s = i -> (forall k, im s k = zero_block) ->
  exists s', zero_image n i s = Ret (tt, s') /\ im_len s' = i + Z.of_nat n /\ (forall k, im s' k = zero_block) /\
    freeinode s' = freeinode s /\ freeblock s' = freeblock s.
Proof.
  induction n as [|n IH]; intros i s Hi Hn Hl Hz; cbn [zero_image].
  { exists s. split_and!; try done. lia. }
  unfold wsect. rewrite im_sector by lia. erewrite kbind_ret by reflexivity. cbv beta. rewrite Hl, Z.max_r by lia.
  match goal with |- context [zero_image n (i + 1) ?s1] => destruct (IH (i + 1) s1) as (s' & H & H1 & H2 & H3 & H4); cbn [im im_len]; try lia end.
  { intros k. unfold fupd. by destruct (k =? i). }
  exists s'. split_and!; try done. lia.
Qed.
Lemma sb_block_ok : block_ok sb_block.
Proof. unfold sb_block. cbn [foldl]. repeat apply bst_ok. apply zero_block_ok. Qed.
Definition sb_at (d : block) : superblock :=
  mkSb (bld 4 d 0) (bld 4 d 4) (bld 4 d 8) (bld 4 d 12) (bld 4 d 16) (bld 4 d 20) (bld 4 d 24) (bld 4 d 28).
Lemma sb_layout : layout sb 47.
Proof. by split; vm_compute. Qed.

(** File [inum] of the image [v] as the kernel sees it: an inode it can work with,
    with these contents. *)
Record usable (v : Z -> block) (inum type : Z) (data : list Z) : Prop := {
  u_type : d_type (din v inum) = type /\ d_nlink (din v inum) = 1;
  u_ok : inode_ok sb (as_inode inum (din v inum));
  u_iwf : iwf sb 47 v (as_inode inum (din v inum));
  u_full : full v (as_inode inum (din v inum));
  u_data : contents v (as_inode inum (din v inum)) = data }.

Definition root_data (names : list (list Z)) : list Z := dirent 1 (chars ".") ++ dirent 1 (chars "..") ++ dirents 2 names.
Lemma root_length names : len (root_data names) = 16 * (len names + 2).
Proof. unfold root_data. rewrite !length_app, !dirent_length, dirents_length. lia. Qed.

Section whole.
Context (host : list Z -> option (list (list Z))) (args : list (list Z)).
Context (Hargs : Forall (good_arg host) args) (Hn : len args <= 198).
Definition all_files : list (list Z) := root_data (name_of <$> args) :: (file_data host <$> args).
Context (Hroom : 47 + blocks all_files <= 2000).

(** Up to the last file. *)
Lemma filled : exists s o, ginv s all_files o /\
  main host args image0 =
    (din <~ rinode ROOTINO ;;
     let off := xint (d_size din) in let off := u32 ((off / BSIZE + 1) * BSIZE) in
     winode ROOTINO (set_dsize (xint off) din) ;;; used <~ gets freeblock ;; balloc used) s.
Proof.
  unfold main. erewrite kbind_ret by reflexivity. cbv beta. change (Z.to_nat FSSIZE) with 2000%nat.
  destruct (zero_image_ok 2000 0 (mkImage (im image0) 0 1 nmeta)) as (s1 & H1 & L1 & Z1 & F1 & B1); try done.
  rewrite (kbind_ret _ _ _ _ _ H1). rewrite (kbind_ret _ _ _ _ _ (wsect_run 1 sb_block s1 L1 ltac:(lia))).
  set (s2 := mkImage _ _ _ _).
  assert (G2 : ginv s2 [] (fun _ => 0)).
  { split; cbn [s2 im im_len freeinode freeblock]; rewrite ?B1, ?F1; cbn [freeblock freeinode]; change nmeta with 47.
    - done.
    - by vm_compute.
    - intros k. unfold fupd. destruct (k =? 1); [apply sb_block_ok|rewrite Z1; apply zero_block_ok].
    - intros k Hk. rewrite fupd_ne; [apply Z1|lia].
    - by vm_compute.
    - intros j data Hj. discriminate Hj.
    - intros k Hk. unfold fupd. by destruct (k =? 1). }
  destruct (ialloc_ok s2 [] _ G2) as (s3 & H3 & G3); [cbn; lia|]. change (file_kind (length [])) with T_DIR in H3. change (len [] + 1) with ROOTINO in H3.
  rewrite (kbind_ret _ _ _ _ _ H3). change (negb (ROOTINO =? ROOTINO)) with false. cbv iota. cbn [app] in G3.
  fold (dirent ROOTINO (chars ".")) (dirent ROOTINO (chars "..")). change ROOTINO with 1.
  assert (Hb : bytes (chars ".") /\ bytes (chars "..")) by (split; repeat constructor; vm_compute; done).
  destruct (iappend_room s3 _ _ 0 [] (dirent 1 (chars ".")) G3 eq_refl) as (s4 & o4 & H4 & G4);
    [vm_compute; discriminate|apply dirent_bytes, Hb|vm_compute; discriminate|]. change (Z.of_nat 0 + 1) with 1 in H4. rewrite (kbind_ret _ _ _ _ _ H4). cbn [insert list_insert app] in G4.
  destruct (iappend_room s4 _ _ 0 _ (dirent 1 (chars "..")) G4 eq_refl) as (s5 & o5 & H5 & G5);
    [vm_compute; discriminate|apply dirent_bytes, Hb|vm_compute; discriminate|]. change (Z.of_nat 0 + 1) with 1 in H5. rewrite (kbind_ret _ _ _ _ _ H5). cbn [insert list_insert] in G5.
  destruct (add_files_ok host args s5 _ [] o5 G5 Hargs) as (s6 & o6 & H6 & G6); [cbn; lia|rewrite length_app, !dirent_length; lia| |].
  { rewrite <- app_assoc. exact Hroom. }
  rewrite (kbind_ret _ _ _ _ _ H6). exists s6, o6. split; [|done]. rewrite <- app_assoc in G6. exact G6.
Qed.
(** The end of main: the root's size rounded up, the free map. *)
Definition rounded (d : dinode) : dinode := set_dsize (nbk (d_size d) * 1024) d.
Definition final (s : image) : Z -> block :=
  fupd (put_inode s 1 (rounded (din (im s) 1))) 46 (mark_used (Z.to_nat (freeblock s)) 0 zero_block).
Lemma finished : (len args + 2) mod 64 <> 0 -> exists s o, ginv s all_files o /\
  main host args image0 = Ret (tt, mkImage (final s) 2000 (freeinode s) (freeblock s)).
Proof.
  intros Hmod. destruct filled as (s & o & G & ->). exists s, o. split; [done|]. destruct G as [G1 [G2 G2'] G3 G4 [G5 G5'] G6 G7].
  pose proof (blocks_nonneg all_files). destruct (G6 0%nat _ eq_refl) as (_ & Hsz & _). change (Z.of_nat 0 + 1) with 1 in Hsz.
  rewrite root_length, length_fmap in Hsz.
  change ROOTINO with 1. rewrite (kbind_ret _ _ _ _ _ (rinode_run s 1 G1 ltac:(lia))). cbv zeta. rewrite (xint_id (d_size _)) by lia.
  replace (u32 ((d_size (din (im s) 1) / BSIZE + 1) * BSIZE)) with (nbk (d_size (din (im s) 1)) * 1024).
  2: { unfold BSIZE, nbk. rewrite Hsz, u32_small by dlia. dlia. }
  rewrite (xint_id (nbk _ * 1024)) by (unfold nbk; rewrite Hsz; dlia). fold (rounded (din (im s) 1)).
  rewrite (kbind_ret _ _ _ _ _ (winode_run s 1 _ G1 ltac:(lia))). erewrite kbind_ret by reflexivity. cbv beta. cbn [freeblock].
  unfold balloc. rewrite (proj2 (Z.ltb_lt _ _)) by (change BPB with 8192; lia). cbn [negb]. change (sb_bmapstart sb) with 46.
  rewrite wsect_run by (reflexivity || lia). reflexivity.
Qed.
Section final.
Context (s : image) (o : Z -> Z) (G : ginv s all_files o).
Context (Hmod : (len args + 2) mod 64 <> 0).
Abbreviation v := (final s).

Lemma root_ok : dinode_wf (rounded (din (im s) 1)) /\ 0 <= nbk (d_size (din (im s) 1)) * 1024 <= 4096.
Proof.
  destruct (g_file _ _ _ G 0%nat _ eq_refl) as (W & Hsz & Hty & Hma & Hmi & Hnl). change (Z.of_nat 0 + 1) with 1 in *.
  rewrite root_length, length_fmap in Hsz. assert (Hb : 0 <= nbk (d_size (din (im s) 1)) * 1024 <= 4096) by
    (rewrite Hsz; clear Hmod; unfold nbk; pose proof Hn; dlia).
  split; [|done]. apply (fwf_wf _ _ _ _ _ (fwf_dsize _ _ _ _ _ (nbk (d_size (din (im s) 1)) * 1024) W)); [by left|done..|].
  change (0 <= nbk (d_size (din (im s) 1)) * 1024 < 2 ^ 32). lia.
Qed.
Lemma final_data k : 47 <= k -> v k = im s k.
Proof. intros Hk. unfold final. rewrite fupd_ne by lia. apply put_inode_other; lia. Qed.
Lemma final_low k : 0 <= k < 33 -> v k = if k =? 1 then sb_block else zero_block.
Proof.
  intros Hk. unfold final. rewrite fupd_ne by lia. rewrite put_inode_other by lia. by apply (g_sb _ _ _ G).
Qed.
Lemma final_din inum : 1 <= inum < 208 -> din v inum = if inum =? 1 then rounded (din (im s) 1) else din (im s) inum.
Proof.
  intros Hi. destruct (iblock_eq inum ltac:(lia)) as [_ Hb]. unfold final, din at 1. rewrite fupd_ne by lia.
  fold (din (put_inode s 1 (rounded (din (im s) 1))) inum). destruct root_ok as [Hr _]. destruct (Z.eqb_spec inum 1) as [->|Hne].
  - apply put_inode_same; [lia|apply (g_ok _ _ _ G)|done].
  - apply put_inode_ne; [lia|done|lia|done].
Qed.
Lemma final_used b : 0 <= b < 2000 -> used sb v b = (b <? freeblock s).
Proof.
  intros Hb. unfold used. assert (BBLOCK b sb = 46 /\ b mod BPB = b) as [-> ->].
  { unfold BBLOCK. change BPB with 8192. change (sb_bmapstart sb) with 46. rewrite Z.div_small, Z.mod_small by lia. done. }
  destruct (g_fb _ _ _ G) as [Hfb Hfb']. pose proof (blocks_nonneg all_files).
  assert (Hz : forall k, bit_set zero_block k = false).
  { intros k. unfold bit_set, zero_block. rewrite nth_zeros. by rewrite Z.land_0_l. }
  unfold final. rewrite fupd_eq, mark_used_bits; try done; try lia; [|apply zero_block_ok].
  rewrite Hz. cbn [orb]. rewrite (proj2 (Z.leb_le 0 b)) by lia. cbn [andb]. f_equal. lia.
Qed.
Lemma final_usable j data : all_files !! j = Some data -> usable v (Z.of_nat j + 1) (file_kind j)
  (data ++ (if decide (j = 0%nat) then replicate (Z.to_nat (nbk (len data) * 1024 - len data)) 0 else [])).
Proof.
  intros Hj. pose proof (lookup_lt_Some _ _ _ Hj) as Hjl. destruct (g_file _ _ _ G j data Hj) as (W & Hsz & Hty & Hma & Hmi & Hnl).
  destruct (g_fi _ _ _ G) as [_ Hfi]. destruct (g_fb _ _ _ G) as [Hfb Hfb']. pose proof (blocks_nonneg all_files).
  set (inum := Z.of_nat j + 1) in *. pose proof (final_din inum ltac:(lia)) as Ed. set (d := din (im s) inum) in *.
  set (n := if decide (j = 0%nat) then nbk (len data) * 1024 else len data).
  assert (Hnn : len data <= n <= nbk (len data) * 1024) by (unfold n, nbk; case_decide; dlia).
  assert (E : din v inum = set_dsize n d).
  { rewrite Ed. unfold n. destruct (Z.eqb_spec inum 1), (decide (j = 0%nat)); try (unfold inum in *; lia).
    - unfold rounded. replace (din (im s) 1) with d by (unfold d; by f_equal). by rewrite Hsz.
    - destruct d. cbn in *. by rewrite <- Hsz. }
  assert (W' : fwf v (owns o (freeblock s) inum) (set_dsize n d) (nbk (len data)) data).
  { apply (fwf_ext (im s) _ (owns o (freeblock s) inum)); [by apply fwf_dsize| |done]. intros k [? _]. apply final_data. lia. }
  pose proof (w_nb _ _ _ _ _ W') as [Hnb _].
  split; rewrite E; cbn [set_dsize d_type d_nlink]; try done.
  - split; [done|]. split; [change (0 <= inum < 200); lia|].
    apply (fwf_wf _ _ _ _ _ W'); cbn [set_dsize d_type d_major d_minor d_nlink d_size]; try done; [rewrite Hty; apply ftype_cases|lia].
  - by apply (fwf_iwf v o (freeblock s) ltac:(lia) final_used _ _ _ _ W').
  - eapply fwf_full; [exact W'|]. cbn [set_dsize d_size]. lia.
  - rewrite (fwf_contents v o (freeblock s) inum _ _ _ W') by (cbn [set_dsize d_size]; lia). cbn [set_dsize d_size]. f_equal. unfold n. case_decide; [done|]. by rewrite Z.sub_diag.
Qed.
Lemma final_disjoint j j' bn bn' : (j < length all_files)%nat -> (j' < length all_files)%nat -> j <> j' ->
  0 <= bn < MAXFILE -> 0 <= bn' < MAXFILE ->
  blk v (din v (Z.of_nat j + 1)) bn <> 0 -> blk v (din v (Z.of_nat j + 1)) bn <> blk v (din v (Z.of_nat j' + 1)) bn'.
Proof.
  change MAXFILE with 268. destruct (g_fi _ _ _ G) as [_ Hfi].
  assert (Hown : forall i k, (i < length all_files)%nat -> 0 <= k < 268 -> blk v (din v (Z.of_nat i + 1)) k <> 0 ->
    owns o (freeblock s) (Z.of_nat i + 1) (blk v (din v (Z.of_nat i + 1)) k)).
  { intros i k Hi Hk Hne. destruct (lookup_lt_is_Some_2 _ _ Hi) as [data Hd]. destruct (g_file _ _ _ G i data Hd) as (W & _).
    assert (Eb : blk v (din v (Z.of_nat i + 1)) k = blk (im s) (din (im s) (Z.of_nat i + 1)) k).
    { rewrite final_din by lia. transitivity (blk v (din (im s) (Z.of_nat i + 1)) k).
      - destruct (Z.eqb_spec (Z.of_nat i + 1) 1) as [E|_]; [by rewrite E|done].
      - apply blk_ext. intros Hi'. destruct (w_ind _ _ _ _ _ W Hi') as [[? _] _]. apply final_data. lia. }
    rewrite Eb in *. apply (w_in _ _ _ _ _ W). destruct (decide (k < nbk (len data))); [lia|]. by rewrite (w_out _ _ _ _ _ W) in Hne by lia. }
  intros Hj Hj' Hne Hbn Hbn' Hnz E. destruct (Hown j bn Hj Hbn Hnz) as [_ E1]. destruct (Hown j' bn' Hj' Hbn') as [_ E2]; [by rewrite <- E|].
  rewrite E in E1. lia.
Qed.
End final.
End whole.


Definition demo_host (arg : list Z) : option (list (list Z)) :=
  if decide (arg = chars "user/_cat") then Some [replicate 1024 7; [1; 2; 3]] else None.
