(* ===== verification/Find.v ===== *)
(** * user/find.c: walking a directory tree

    What open, fstat and read tell find about a path is a parameter: nothing, a
    file, a directory with its entries, or a device.  The result is what find
    does: the lines it prints and the programs it runs. *)
From S2P Require Import Prelude Printf.

Inductive obj := OFile | ODev | ODir (entries : list (Z * list Z)).
(** [Line]: a path on a line of its own; [Child]: fork, exec of [argv], wait;
    [Complain]: an error message. *)
Inductive deed := Line (path : list Z) | Child (argv : list (list Z)) | Complain (fd : nat) (text : list Z).

Definition T_DIRSIZ : nat := 14.
Definition buf_size : nat := 512.

(** The name as the string at [de.name] with [p[DIRSIZ] = 0] after it. *)
Fixpoint upto_nul (s : list Z) : list Z :=
  match s with c :: s => if c =? 0 then [] else c :: upto_nul s | [] => [] end.
Definition entry_name (name : list Z) : list Z := upto_nul (take T_DIRSIZ name).

(** [for(p = path + strlen(path); p >= path && *p != '/'; p--); p++]: what is after
    the last slash. *)
Fixpoint last_part (path : list Z) : list Z :=
  match path with
  | [] => []
  | c :: path' => if bool_decide (ch "/" ∈ path') then last_part path' else if c =? ch "/" then path' else path
  end.

Section find.
Context (fs : list Z -> option obj).
Context (exec_args : list (list Z)) (target : list Z).

(** [args] has room for 16 pointers: exec_argc, the path and a NULL. *)
Definition run_exec (path : list Z) : option (list deed) :=
  match exec_args with
  | [] => Some [Line path]
  | _ => if (length exec_args + 2 <=? 16)%nat then Some [Child (exec_args ++ [path])] else None
  end.

(** The loop over the directory entries; [rec] is find on an entry's path. *)
Fixpoint find_entries (rec : list Z -> option (list deed)) (prefix : list Z) (es : list (Z * list Z)) : option (list deed) :=
  match es with
  | [] => Some []
  | (inum, name) :: es =>
      let p := entry_name name in
      if (inum =? 0) || bool_decide (p = chars ".") || bool_decide (p = chars "..") then find_entries rec prefix es
      else d ← rec (prefix ++ p); d' ← find_entries rec prefix es; Some (d ++ d')
  end.
(** [None]: out of fuel, or past the end of an array. *)
Fixpoint find (fuel : nat) (path : list Z) : option (list deed) :=
  match fuel with
  | O => None
  | S fuel =>
      match fs path with
      | None => Some [Complain 2 (chars "find: cannot open " ++ path ++ [10])]
      | Some OFile => if bool_decide (last_part path = target) then run_exec path else Some []
      | Some (ODir es) =>
          if (buf_size <? length path + 1 + T_DIRSIZ + 1)%nat then Some [Complain 1 (chars "find: path too long" ++ [10])]
          else find_entries (find fuel) (path ++ chars "/") es
      | Some ODev => Some []
      end
  end.
End find.

(** main: the words between [-exec] and [;] are the command.  exec_args has 16
    entries. *)
Fixpoint after_exec (args : list (list Z)) : list (list Z) :=
  match args with
  | [] => []
  | a :: args => if bool_decide (a = chars "-exec") then args else after_exec args
  end.
Fixpoint upto_semi (args : list (list Z)) : list (list Z) :=
  match args with
  | [] => []
  | a :: args => if bool_decide (a = chars ";") then [] else a :: upto_semi args
  end.
Definition find_main (fs : list Z -> option obj) (argv : list (list Z)) : option (list deed) :=
  match argv with
  | _ :: path :: target :: args =>
      let exec_args := upto_semi (after_exec args) in
      if (length exec_args <=? 16)%nat then find fs exec_args target buf_size path else None
  | _ => Some [Complain 2 (chars "Usage: find <path> <filename> [-exec command args...]" ++ [10])]
  end.

(** ** What find finds *)
(** The paths of the objects at and below [path]. *)
Inductive below (fs : list Z -> option obj) : list Z -> list Z -> Prop :=
| below_self path : below fs path path
| below_entry path es inum name q : fs path = Some (ODir es) -> (length path + 16 <= 512)%nat ->
    (inum, name) ∈ es -> inum <> 0 -> entry_name name <> chars "." -> entry_name name <> chars ".." ->
    below fs (path ++ chars "/" ++ entry_name name) q -> below fs path q.

Section finds.
Context (fs : list Z -> option obj) (exec_args : list (list Z)) (target : list Z).
Context (Hroom : (length exec_args <= 14)%nat).
Definition deed_for (q : list Z) : deed := match exec_args with [] => Line q | _ => Child (exec_args ++ [q]) end.
Definition found (path q : list Z) : Prop := below fs path q /\ fs q = Some OFile /\ last_part q = target.
Definition finds (path : list Z) (ds : list deed) : Prop := forall q, deed_for q ∈ ds <-> found path q.

Lemma run_exec_ok path : run_exec exec_args path = Some [deed_for path].
Proof.
  unfold run_exec, deed_for. destruct exec_args as [|a l]; [done|]. rewrite (proj2 (Nat.leb_le _ _)) by lia. done.
Qed.
Lemma deed_for_inj q q' : deed_for q = deed_for q' -> q = q'.
Proof. unfold deed_for. destruct exec_args as [|a l]; intros H; injection H; [done|]. intros E. by apply app_inj_tail in E as [_ ?]. Qed.
Lemma deed_for_complain q fd text : deed_for q <> Complain fd text.
Proof. unfold deed_for. by destruct exec_args. Qed.
Lemma found_leaf path q : (forall es, fs path <> Some (ODir es)) -> found path q -> q = path.
Proof. intros Hn [Hb _]. destruct Hb; [done|]. by destruct (Hn es). Qed.

Lemma find_entries_ok rec prefix es :
  (forall inum name, (inum, name) ∈ es -> exists ds, rec (prefix ++ entry_name name) = Some ds /\ finds (prefix ++ entry_name name) ds) ->
  exists ds, find_entries rec prefix es = Some ds /\ forall q, deed_for q ∈ ds <->
    exists inum name, (inum, name) ∈ es /\ inum <> 0 /\ entry_name name <> chars "." /\ entry_name name <> chars ".." /\
      found (prefix ++ entry_name name) q.
Proof.
  induction es as [|[inum name] es IH]; intros Hrec; cbn [find_entries].
  { exists []. split; [done|]. intros q. split; [by intros ?%elem_of_nil|]. by intros (? & ? & ?%elem_of_nil & _). }
  destruct IH as (ds & -> & Hds); [intros i n Hin; apply (Hrec i n); by right|].
  destruct ((inum =? 0) || bool_decide (entry_name name = chars ".") || bool_decide (entry_name name = chars "..")) eqn:E.
  - exists ds. split; [done|]. intros q. rewrite Hds. rewrite !orb_true_iff, Z.eqb_eq, !bool_decide_eq_true in E. set_solver.
  - rewrite !orb_false_iff, Z.eqb_neq, !bool_decide_eq_false in E. destruct E as [[E1 E2] E3].
    destruct (Hrec inum name) as (d & -> & Hd); [set_solver|]. exists (d ++ ds). split; [done|]. intros q.
    rewrite elem_of_app, Hds, (Hd q). split.
    + intros [H|(i & n & ? & ?)]; [exists inum, name|exists i, n]; set_solver.
    + intros (i & n & [[= -> ->]|Hin]%elem_of_cons & ? & ? & ? & ?); [by left|right]. by exists i, n.
Qed.
Lemma find_ok fuel : forall path, (1 <= fuel)%nat -> (498 <= fuel + length path)%nat ->
  exists ds, find fs exec_args target fuel path = Some ds /\ finds path ds.
Proof.
  induction fuel as [|fuel IH]; intros path H1 Hf; [lia|]. cbn [find]. destruct (fs path) as [[| |es]|] eqn:E.
  - case_bool_decide as D.
    + rewrite run_exec_ok. eexists. split; [done|]. intros q. rewrite list_elem_of_singleton. split.
      * intros ->%deed_for_inj. by split; [constructor|].
      * intros Hq. by rewrite (found_leaf path q) by (congruence || done).
    + exists []. split; [done|]. intros q. split; [by intros ?%elem_of_nil|]. intros Hq.
      rewrite (found_leaf path q) in Hq by (congruence || done). by destruct Hq as (_ & _ & ?).
  - exists []. split; [done|]. intros q. split; [by intros ?%elem_of_nil|]. intros Hq.
    rewrite (found_leaf path q) in Hq by (congruence || done). destruct Hq as (_ & ? & _). congruence.
  - destruct (Nat.ltb_spec buf_size (length path + 1 + T_DIRSIZ + 1)) as [Hl|Hl]; unfold buf_size, T_DIRSIZ in Hl.
    + eexists. split; [done|]. intros q. rewrite list_elem_of_singleton. split; [by intros ?%deed_for_complain|].
      intros [Hb [Hq _]]. destruct Hb; [congruence|lia].
    + destruct (find_entries_ok (find fs exec_args target fuel) (path ++ chars "/") es) as (ds & -> & Hds).
      { intros inum name _. apply IH; [lia|]. rewrite !length_app. cbn. lia. }
      exists ds. split; [done|]. intros q. rewrite Hds. split.
      * intros (i & n & Hin & ? & ? & ? & Hb & Hq). split; [|done]. rewrite <- app_assoc in Hb. eapply below_entry; try done. lia.
      * intros [Hb Hq]. destruct Hb as [|path es' i n q E' ? Hin ? ? ? Hb]; [destruct Hq; congruence|]. rewrite E in E'. injection E' as <-.
        exists i, n. split_and!; try done. by rewrite <- app_assoc.
  - eexists. split; [done|]. intros q. rewrite list_elem_of_singleton. split; [by intros ?%deed_for_complain|].
    intros Hq. rewrite (found_leaf path q) in Hq by (congruence || done). destruct Hq as (_ & ? & _). congruence.
Qed.
End finds.


(** A directory with the file [b], itself as [.] and a free entry. *)
Definition loop_fs (path : list Z) : option obj :=
  if decide (last_part path = chars "b") then Some OFile
  else Some (ODir [(1, chars "."); (2, chars "b"); (0, chars "b")]).
