(* ===== verification/Programs.v ===== *)
(** * The strings of user/ulib.c, the programs that are a few system calls (kill,
    ln, mkdir, rm, sleep, sandbox and init), and ls

    [Ulib]: the string routines that ulib.c writes in its own way.
  [Calls]: a program is the tree of the system calls it makes, each with what
    comes after each result, and runs on the results the kernel gives.  [Ls]:
    what open, fstat, read and stat tell about a path is a parameter, as in
    Find.v, and the result is what ls prints. *)
From S2P Require Import Prelude Machine KString Printf UserIO Utils Find.

Module Ulib.
(** [None]: no NUL among the first [fuel] characters. *)
Fixpoint strcpy (fuel : nat) (m : memory) (s t : Z) : option memory :=
  match fuel with
  | O => None
  | S fuel =>
      let c := ldb m t in
      let m := stb m s c in
      if c =? 0 then Some m else strcpy fuel m (s + 1) (t + 1)
  end.
Fixpoint strcmp (fuel : nat) (m : memory) (p q : Z) : option Z :=
  match fuel with
  | O => None
  | S fuel =>
      if negb (ldb m p =? 0) && (ldb m p =? ldb m q) then strcmp fuel m (p + 1) (q + 1)
      else Some (ldb m p - ldb m q)
  end.
(** [while (n-- > 0)] *)
Fixpoint memcmp (n : nat) (m : memory) (p1 p2 : Z) : Z :=
  match n with
  | O => 0
  | S n => if negb (ldb m p1 =? ldb m p2) then ldb m p1 - ldb m p2 else memcmp n m (p1 + 1) (p2 + 1)
  end.
(** memmove takes an int. *)
Definition memcpy (m : memory) (dst src n : Z) : memory := ulib_memmove m dst src (i32 n).

Lemma strcpy_cstr l : forall fuel m s t, cstr m t l -> (t + Z.of_nat (length l) < s \/ s + Z.of_nat (length l) < t) -> (length l < fuel)%nat ->
  exists m', strcpy fuel m s t = Some m' /\ cstr m' s l /\ forall x, x < s \/ s + Z.of_nat (length l) < x -> ldb m' x = ldb m x.
Proof.
  induction l as [|c l IH]; intros [|fuel] m s t Hl Hd Hf; cbn [length] in *; try lia; cbn [strcpy cstr] in *.
  - rewrite Hl. eexists. split; [reflexivity|]. split; [by rewrite ldb_stb_eq|]. intros x Hx. apply ldb_stb_ne. lia.
  - destruct Hl as (Hc & Hz & Hl). rewrite Hc. replace (c =? 0) with false by lia.
    destruct (IH fuel (stb m s c) (s + 1) (t + 1)) as (m' & E & Hs & Ho); [apply cstr_stb; [lia|done]|lia|lia|].
    exists m'. split; [done|]. split; [|intros x Hx; rewrite Ho by lia; apply ldb_stb_ne; lia].
    split_and!; [|done|done]. rewrite Ho, ldb_stb_eq by lia. apply u8_small. rewrite <- Hc. apply ldb_range.
Qed.
(** strcmp ends at the shorter string's NUL, and its result is 0 exactly for
    equal strings. *)
Lemma strcmp_cstr l : forall fuel m p q l', cstr m p l -> cstr m q l' -> (length l < fuel)%nat ->
  exists r, strcmp fuel m p q = Some r /\ (r = 0 <-> l = l').
Proof.
  induction l as [|c l IH]; intros [|fuel] m p q l' Hl Hq Hf; cbn [length] in *; try lia; cbn [strcmp cstr] in *.
  - rewrite Hl. cbn. eexists. split; [reflexivity|]. destruct l' as [|c' l']; cbn in Hq; [rewrite Hq; done|].
    destruct Hq as (-> & Hz & _). split; [lia|discriminate].
  - destruct Hl as (-> & Hz & Hl). replace (c =? 0) with false by lia. cbn [negb andb]. destruct l' as [|c' l']; cbn in Hq.
    + rewrite Hq. replace (c =? 0) with false by lia. eexists. split; [reflexivity|]. split; [lia|discriminate].
    + destruct Hq as (-> & Hz' & Hq). ztest.
      * subst c'. destruct (IH fuel m (p + 1) (q + 1) l' Hl Hq ltac:(lia)) as (r & E & H). exists r. split; [done|]. rewrite H. split; congruence.
      * eexists. split; [reflexivity|]. split; [lia|congruence].
Qed.
End Ulib.

Module Calls.
Inductive sys :=
| Kill (pid : Z) | Link (old new : list Z) | Mkdir (path : list Z) | Unlink (path : list Z) | Pause (ticks : Z)
| Interpose (mask : Z) (path : list Z) | Exec (path : list Z) (argv : list (list Z))
| Open (path : list Z) (mode : Z) | Mknod (path : list Z) (major minor : Z) | Dup (fd : Z) | Fork | Wait
| Fprintf (fd : nat) (text : list Z).
Inductive prog := Halt (code : Z) | Ask (s : sys) (k : Z -> prog).
(** [Became]: exec has replaced the program.  [Asks]: no result is given for the
    next call. *)
Inductive ended := Exited (code : Z) | Became | Asks.
(** The calls made, and how it ends, on the results [rs]; exec returns only when
    it fails. *)
Fixpoint run (p : prog) (rs : list Z) : list sys * ended :=
  match p with
  | Halt code => ([], Exited code)
  | Ask s k =>
      match rs with
      | [] => ([s], Asks)
      | r :: rs =>
          match s with
          | Exec _ _ => if r <? 0 then let '(t, e) := run (k r) rs in (s :: t, e) else ([s], Became)
          | _ => let '(t, e) := run (k r) rs in (s :: t, e)
          end
      end
  end.
Definition say (fd : nat) (fmt : list Z) (args : list va) (p : prog) : prog :=
  Ask (Fprintf fd (default [] (UPrintf.fprintf fmt args))) (fun _ => p).
Definition str (s : list Z) : va := VStr (Some s).

(** ** kill.c *)
Fixpoint kill_loop (args : list (list Z)) : prog :=
  match args with
  | [] => Halt 0
  | a :: args => Ask (Kill (atoi a)) (fun _ => kill_loop args)
  end.
Definition kill_main (argv : list (list Z)) : prog :=
  if (length argv <? 2)%nat then say 2 (chars "usage: kill pid..." ++ nl) [] (Halt 1) else kill_loop (drop 1 argv).

(** ** ln.c *)
Definition ln_main (argv : list (list Z)) : prog :=
  match argv with
  | [_; old; new] =>
      Ask (Link old new) (fun r =>
        if r <? 0 then say 2 (chars "link %s %s: failed" ++ nl) [str old; str new] (Halt 0) else Halt 0)
  | _ => say 2 (chars "Usage: ln old new" ++ nl) [] (Halt 1)
  end.

(** ** mkdir.c and rm.c: stop at the first that fails *)
Fixpoint each (call : list Z -> sys) (failed : list Z) (args : list (list Z)) : prog :=
  match args with
  | [] => Halt 0
  | a :: args => Ask (call a) (fun r => if r <? 0 then say 2 failed [str a] (Halt 0) else each call failed args)
  end.
Definition mkdir_main (argv : list (list Z)) : prog :=
  if (length argv <? 2)%nat then say 2 (chars "Usage: mkdir files..." ++ nl) [] (Halt 1)
  else each Mkdir (chars "mkdir: %s failed to create" ++ nl) (drop 1 argv).
Definition rm_main (argv : list (list Z)) : prog :=
  if (length argv <? 2)%nat then say 2 (chars "Usage: rm files..." ++ nl) [] (Halt 1)
  else each Unlink (chars "rm: %s failed to delete" ++ nl) (drop 1 argv).

(** ** sleep.c *)
Definition sleep_main (argv : list (list Z)) : prog :=
  match argv with
  | [_; a] =>
      let ticks := my_atoi a in
      if ticks <? 0 then say 2 (chars "sleep: ticks must be non-negative" ++ nl) [] (Halt 1)
      else Ask (Pause ticks) (fun _ => Halt 0)
  | _ => say 2 (chars "Usage: sleep <ticks>" ++ nl) [] (Halt 1)
  end.

(** ** sandbox.c *)
Definition sandbox_main (argv : list (list Z)) : prog :=
  match argv with
  | _ :: mask :: path :: cmd :: args =>
      Ask (Interpose (atoi mask) path) (fun _ =>
      Ask (Exec cmd (cmd :: args)) (fun _ =>
      say 2 (chars "sandbox: exec failed" ++ nl) [] (Halt 1)))
  | _ => say 2 (chars "usage: sandbox mask path command args..." ++ nl) [] (Halt 1)
  end.

(** ** init.c *)
Definition O_RDWR : Z := 2.
Definition CONSOLE : Z := 1.
(** [k]: what comes after the shell has exited. *)
Fixpoint init_wait (fuel : nat) (pid : Z) (k : prog) : prog :=
  match fuel with
  | O => Halt 0
  | S fuel =>
      Ask Wait (fun wpid =>
        if wpid =? pid then k
        else if wpid <? 0 then say 1 (chars "init: wait returned an error" ++ nl) [] (Halt 1)
        else init_wait fuel pid k)
  end.
(** The loops are cut after [fuel] turns, which is more than the results given. *)
Fixpoint init_loop (n fuel : nat) : prog :=
  match n with
  | O => Halt 0
  | S n =>
      say 1 (chars "init: starting sh" ++ nl) [] (
      Ask Fork (fun pid =>
        if pid <? 0 then say 1 (chars "init: fork failed" ++ nl) [] (Halt 1)
        else if pid =? 0 then
          Ask (Exec (chars "sh") [chars "sh"]) (fun _ => say 1 (chars "init: exec sh failed" ++ nl) [] (Halt 1))
        else init_wait fuel pid (init_loop n fuel)))
  end.
Definition init_main (fuel : nat) : prog :=
  let go := Ask (Dup 0) (fun _ => Ask (Dup 0) (fun _ => init_loop fuel fuel)) in
  Ask (Open (chars "console") O_RDWR) (fun r =>
    if r <? 0 then Ask (Mknod (chars "console") CONSOLE 0) (fun _ => Ask (Open (chars "console") O_RDWR) (fun _ => go)) else go).

(** ** What they do *)
Lemma kill_all args rs : (length args <= length rs)%nat -> run (kill_loop args) rs = ((fun a => Kill (atoi a)) <$> args, Exited 0).
Proof.
  revert rs. induction args as [|a args IH]; intros [|r rs] H; cbn [length] in H; try lia; try done. cbn [kill_loop run].
  by rewrite IH by (cbn in H; lia).
Qed.
(** rm and mkdir go through the names in order and stop after the first failure. *)
Lemma each_stops call failed args rs : (forall p q a, call p <> Exec q a) -> (S (length args) <= length rs)%nat ->
  exists n, (run (each call failed args) rs).2 = Exited 0 /\ (n <= length args)%nat /\
    Forall (fun r => 0 <= r) (take n rs) /\
    ((n = length args /\ (run (each call failed args) rs).1 = call <$> args) \/
     exists a, args !! n = Some a /\ (exists r, rs !! n = Some r /\ r < 0) /\
       (run (each call failed args) rs).1 = (call <$> take (S n) args) ++ [Fprintf 2 (default [] (UPrintf.fprintf failed [str a]))]).
Proof.
  intros Hc. revert rs. induction args as [|a args IH]; intros [|r rs] H; cbn [length] in H; try lia.
  { exists 0%nat. split; [done|]. split; [cbn; lia|]. split; [constructor|by left]. }
  cbn [each run]. assert (forall T (x y : T), match call a with Exec _ _ => x | _ => y end = y) as Hm.
  { intros T x y. destruct (call a) eqn:E; try done. by destruct (Hc a path argv). }
  rewrite Hm. destruct (r <? 0) eqn:Hr.
  - apply Z.ltb_lt in Hr. destruct rs as [|r2 rs]; [cbn in H; lia|]. exists 0%nat. cbn [say run fst snd]. split_and!; [done|cbn; lia|constructor|].
    right. exists a. split_and!; [done|by exists r|done].
  - apply Z.ltb_ge in Hr. destruct (IH rs ltac:(lia)) as (n & E & Hn & Hp & D). destruct (run (each call failed args) rs) as [t e]. cbn [fst snd] in *.
    exists (S n). split_and!; [done|cbn; lia|by constructor|]. destruct D as [[-> ->]|(b & Hb & Hf & ->)]; [by left|].
    right. exists b. by split_and!.
Qed.
(** sandbox sets the mask before the command takes its place. *)
Lemma sandbox_sets prog mask path cmd args r r2 rs : 0 <= r2 ->
  run (sandbox_main (prog :: mask :: path :: cmd :: args)) (r :: r2 :: rs) = ([Interpose (atoi mask) path; Exec cmd (cmd :: args)], Became).
Proof. intros H. cbn [sandbox_main run]. replace (r2 <? 0) with false by lia. reflexivity. Qed.

Lemma starting_text : default [] (UPrintf.fprintf (chars "init: starting sh" ++ nl) []) = chars "init: starting sh" ++ nl.
Proof. vm_compute. reflexivity. Qed.
(** A life of the shell as init sees it: its pid and the orphans reaped before it. *)
Definition life_results (l : Z * list Z) : list Z := 0 :: l.1 :: l.2 ++ [l.1].
Definition life_calls (l : Z * list Z) : list sys := [Fprintf 1 (chars "init: starting sh" ++ nl); Fork] ++ replicate (S (length l.2)) Wait.
Definition life_ok (fuel : nat) (l : Z * list Z) : Prop := 0 < l.1 /\ Forall (fun p => 0 <= p /\ p <> l.1) l.2 /\ (length l.2 < fuel)%nat.
Lemma init_wait_reaps fuel pid orphans k rs : Forall (fun p => 0 <= p /\ p <> pid) orphans -> (length orphans < fuel)%nat ->
  run (init_wait fuel pid k) (orphans ++ pid :: rs) = let '(t, e) := run k rs in (replicate (S (length orphans)) Wait ++ t, e).
Proof.
  intros H. revert fuel. induction H as [|p orphans Hp H IH]; intros fuel Hf; (destruct fuel as [|fuel]; [cbn in Hf; lia|]); cbn [app init_wait run].
  - by rewrite Z.eqb_refl.
  - replace (p =? pid) with false by lia. replace (p <? 0) with false by lia. rewrite IH by (cbn in Hf; lia). by destruct (run k rs).
Qed.
(** init starts a shell again whenever the shell has exited, whatever orphans it
    reaps meanwhile. *)
Lemma init_restarts lives n fuel : Forall (life_ok fuel) lives -> (length lives < n)%nat ->
  run (init_loop n fuel) (concat (life_results <$> lives)) = (concat (life_calls <$> lives) ++ [Fprintf 1 (chars "init: starting sh" ++ nl)], Asks).
Proof.
  intros H. revert n. induction H as [|[pid orphans] lives (H1 & H2 & H3) H IH]; intros n Hn; (destruct n as [|n]; [cbn in Hn; lia|]); cbn [init_loop]; unfold say at 1; rewrite starting_text.
  { reflexivity. }
  cbn [fst snd length] in *. cbn [fmap list_fmap concat]. unfold life_results at 1, life_calls at 1. cbn [fst snd app run].
  replace (pid <? 0) with false by lia. replace (pid =? 0) with false by lia. rewrite <- app_assoc. cbn [app].
  rewrite init_wait_reaps, IH by (try done; lia). cbn [fst snd]. by rewrite <- !app_assoc.
Qed.
End Calls.

Module Ls.
Record stat := mkStat { type : Z; ino : Z; size : Z }.
Definition T_DIR : Z := 1.
Definition T_FILE : Z := 2.
Definition T_DEVICE : Z := 3.
Definition printed (fmt : list Z) (args : list va) : list Z := default [] (UPrintf.fprintf fmt args).

(** The blank-padded name; it is the argument's end when that is long. *)
Definition fmtname (path : list Z) : list Z :=
  let p := last_part path in
  if (T_DIRSIZ <=? length p)%nat then p else p ++ replicate (T_DIRSIZ - length p) 32.
Definition ls_line (path : list Z) (st : stat) : list Z :=
  printed (chars "%s %d %d %d" ++ nl) [VStr (Some (fmtname path)); VInt (type st); VInt (ino st); VInt (i32 (size st))].

Section ls.
(** What open and fstat give for a path, and the entries read of a directory. *)
Context (open : list Z -> bool) (fstat : list Z -> option stat) (entries : list Z -> list (Z * list Z)).

(** stat of ulib.c: open, fstat, close. *)
Definition stat_path (path : list Z) : option stat := if open path then fstat path else None.
Fixpoint ls_entries (prefix : list Z) (es : list (Z * list Z)) : list (nat * list Z) :=
  match es with
  | [] => []
  | (inum, name) :: es =>
      if inum =? 0 then ls_entries prefix es
      else
        let buf := prefix ++ entry_name name in
        match stat_path buf with
        | None => (1%nat, printed (chars "ls: cannot stat %s" ++ nl) [VStr (Some buf)]) :: ls_entries prefix es
        | Some st => (1%nat, ls_line buf st) :: ls_entries prefix es
        end
  end.
(** The writes, with their descriptors. *)
Definition ls (path : list Z) : list (nat * list Z) :=
  if negb (open path) then [(2%nat, printed (chars "ls: cannot open %s" ++ nl) [VStr (Some path)])]
  else
    match fstat path with
    | None => [(2%nat, printed (chars "ls: cannot stat %s" ++ nl) [VStr (Some path)])]
    | Some st =>
        if (type st =? T_DEVICE) || (type st =? T_FILE) then [(1%nat, ls_line path st)]
        else if type st =? T_DIR then
          if (buf_size <? length path + 1 + T_DIRSIZ + 1)%nat then [(1%nat, printed (chars "ls: path too long" ++ nl) [])]
          else ls_entries (path ++ chars "/") (entries path)
        else []
    end.
Definition ls_main (argv : list (list Z)) : list (nat * list Z) :=
  if (length argv <? 2)%nat then ls (chars ".") else concat (ls <$> drop 1 argv).
End ls.

(** ** The listing *)
Definition byte (c : Z) : Prop := 0 < c < 256.
Lemma putc_bytes s : Forall byte s -> concat (map UPrintf.putc s) = s.
Proof.
  induction 1 as [|c s Hc H IH]; [done|]. cbn [map concat]. rewrite IH. unfold UPrintf.putc, u8, byte in *. cbn [app]. f_equal.
  apply Z.mod_small. lia.
Qed.
(** A line: the name, and type, inode number and size in decimal. *)
Definition columns (name : list Z) (st : stat) : list Z :=
  name ++ [32] ++ UPrintf.printint (i32 (type st)) 10 true ++ [32] ++ UPrintf.printint (i32 (ino st)) 10 true ++ [32] ++
  UPrintf.printint (i32 (i32 (size st))) 10 true ++ nl.
Lemma ls_line_columns path st : Forall byte (fmtname path) -> ls_line path st = columns (fmtname path) st.
Proof.
  intros H. apply putc_bytes in H. unfold columns. rewrite <- H at 1. reflexivity.
Qed.
Lemma last_part_slash p name : ch "/" ∉ name -> last_part (p ++ ch "/" :: name) = name.
Proof.
  intros Hn. induction p as [|c p IH]; cbn [app last_part].
  - rewrite bool_decide_false by done. by rewrite Z.eqb_refl.
  - rewrite bool_decide_true by set_solver. exact IH.
Qed.
Lemma upto_nul_length s : (length (upto_nul s) <= length s)%nat.
Proof. induction s as [|c s IH]; cbn; [lia|]. destruct (c =? 0); cbn; lia. Qed.
Lemma entry_name_length name : (length (entry_name name) <= 14)%nat.
Proof. unfold entry_name. etransitivity; [apply upto_nul_length|]. rewrite length_take. unfold T_DIRSIZ. lia. Qed.
Definition pad (name : list Z) : list Z := name ++ replicate (14 - length name) 32.
Lemma fmtname_entry p name : ch "/" ∉ entry_name name -> fmtname ((p ++ chars "/") ++ entry_name name) = pad (entry_name name).
Proof.
  intros Hn. unfold fmtname, pad. rewrite <- app_assoc. change (chars "/" ++ entry_name name) with (ch "/" :: entry_name name).
  rewrite last_part_slash by done. pose proof (entry_name_length name). unfold T_DIRSIZ. destruct (14 <=? length (entry_name name))%nat eqn:E; [|done].
  apply Nat.leb_le in E. replace (14 - length (entry_name name))%nat with 0%nat by lia. by rewrite app_nil_r.
Qed.
(** An entry in use that can be listed. *)
Definition listable (open : list Z -> bool) (fstat : list Z -> option stat) (path : list Z) (e : Z * list Z) (st : stat) : Prop :=
  Forall byte (entry_name e.2) /\ (ch "/" ∉ entry_name e.2) /\ stat_path open fstat (path ++ chars "/" ++ entry_name e.2) = Some st.
Lemma pad_bytes s : Forall byte s -> Forall byte (pad s).
Proof. intros H. apply Forall_app. split; [done|]. apply Forall_replicate. unfold byte. lia. Qed.
Lemma ls_entries_lists open fstat path es sts : Forall2 (listable open fstat path) (filter (fun e => e.1 <> 0) es) sts ->
  ls_entries open fstat (path ++ chars "/") es = zip_with (fun e st => (1%nat, columns (pad (entry_name e.2)) st)) (filter (fun e => e.1 <> 0) es) sts.
Proof.
  revert sts. induction es as [|[inum name] es IH]; intros sts H; cbn [ls_entries]; [done|].
  destruct (decide (inum = 0)) as [->|Hi].
  - rewrite filter_cons_False in * by (cbn; lia). by apply IH.
  - rewrite filter_cons_True in * by done. replace (inum =? 0) with false by lia. inversion H as [|? st ? sts' (Hb & Hs & Hst) H' E1 E2]; subst.
    cbn [snd] in *. rewrite app_assoc in Hst. rewrite Hst. cbn [zip_with snd]. f_equal; [|by apply IH]. f_equal.
    rewrite ls_line_columns; rewrite fmtname_entry by done; [done|by apply pad_bytes].
Qed.

(** C38: ls lists a directory.  For a directory whose path leaves room for an entry,
    ls writes to its standard output one line for each entry in use, in the order
    of the directory: the name padded to fourteen columns, so that what follows
    is aligned, then type, inode number and size in decimal. *)
Theorem ls_lists open fstat entries path st sts : open path = true -> fstat path = Some st -> type st = T_DIR -> (length path <= 496)%nat ->
  Forall2 (listable open fstat path) (filter (fun e => e.1 <> 0) (entries path)) sts ->
  ls open fstat entries path = zip_with (fun e st => (1%nat, columns (pad (entry_name e.2)) st)) (filter (fun e => e.1 <> 0) (entries path)) sts /\
  Forall (fun e => length (pad (entry_name e.2)) = 14%nat) (entries path).
Proof.
  intros Ho Hf Ht Hl He. split.
  - unfold ls. rewrite Ho, Hf, Ht. replace (buf_size <? length path + 1 + T_DIRSIZ + 1)%nat with false.
    + by apply ls_entries_lists.
    + symmetry. apply Nat.ltb_ge. unfold buf_size, T_DIRSIZ. lia.
  - apply Forall_forall. intros e _. unfold pad. rewrite length_app, length_replicate. pose proof (entry_name_length e.2). lia.
Qed.
Lemma ls_lists_witness :
  ls (fun _ => true) (fun p => Some (if decide (p = chars "d") then mkStat 1 2 32 else mkStat 2 5 7)) (fun _ => [(5, chars "README"); (0, chars "gone")]) (chars "d") =
  [(1%nat, chars "README         2 5 7" ++ nl)].
Proof.
  edestruct (ls_lists (fun _ => true) (fun p => Some (if decide (p = chars "d") then mkStat 1 2 32 else mkStat 2 5 7))
    (fun _ => [(5, chars "README"); (0, chars "gone")]) (chars "d") (mkStat 1 2 32) [mkStat 2 5 7]) as [H _];
    [reflexivity|reflexivity|reflexivity|cbn; lia| |rewrite H].
  - apply Forall2_cons. split; [|apply Forall2_nil_2]. split_and!; [|vm_compute; set_solver|reflexivity].
    repeat (apply Forall_cons; split; [unfold byte; cbn; lia|]). apply Forall_nil_2.
  - vm_compute. reflexivity.
Defined.
End Ls.
