(* ===== verification/Memdump.v ===== *)
(** * user/memdump.c: printing typed values *)
From S2P Require Import Prelude Machine Printf UserIO Find Blocks.

Definition hex_chars : list Z := chars "0123456789abcdef".
Definition print_hex_byte (b : Z) : list Z := [nth (Z.to_nat (Z.shiftr b 4)) hex_chars 0; nth (Z.to_nat (Z.land b 15)) hex_chars 0].

Section memdump.
(** The string at an address of the process. *)
Context (str_at : Z -> list Z).

(** What one format character prints of the data at [off], and the size it skips;
    [None] if it reads past the end of the data. *)
Definition memdump_item (c : Z) (data : list Z) (off : nat) : option (list Z * nat) :=
  let room n := (off + n <=? length data)%nat in
  if c =? ch "i" then if room 4%nat then Some (UPrintf.printint (i32 (bld 4 data off)) 10 true, 4%nat) else None
  else if c =? ch "p" then
    if room 8%nat then Some (concat ((fun j => print_hex_byte (bld 1 data (off + j)%nat)) <$> [3; 2; 1; 0]%nat), 8%nat) else None
  else if c =? ch "h" then if room 2%nat then Some (UPrintf.printint (i16 (bld 2 data off)) 10 true, 2%nat) else None
  else if c =? ch "c" then
    if room 1%nat then
      let b := bld 1 data off in
      Some (if (32 <=? b) && (b <=? 126) then [b] else chars "\x" ++ print_hex_byte b, 1%nat)
    else None
  else if c =? ch "s" then
    if room 8%nat then
      let p := bld 8 data off in
      Some (if p =? 0 then chars "(null)" else str_at p, 8%nat)
    else None
  else
    let s := upto_nul (drop off data) in
    if room (S (length s)) then Some (s, S (length s)) else None.

Definition is_format (c : Z) : bool := bool_decide (c ∈ chars "iphcsS").
Fixpoint memdump_loop (fmt data : list Z) (off : nat) (first : bool) : option (list Z) :=
  match fmt with
  | [] => Some []
  | c :: fmt =>
      if negb (is_format c) then Some (chars "Error: unknown format character '" ++ [c] ++ chars "'" ++ [10])
      else
        '(out, n) ← memdump_item c data off;
        rest ← memdump_loop fmt data (off + n) false;
        Some ((if first : bool then [] else [10]) ++ out ++ rest)
  end.
Definition memdump (fmt data : list Z) : option (list Z) := memdump_loop fmt data 0 true.

(** ** Values, their formats, their bytes and how they read *)
Inductive value := Int (x : Z) | Short (x : Z) | Char (c : Z) | Ptr (p : Z) | Str (p : Z) | Text (s : list Z).
Definition value_ok (x : value) : Prop :=
  match x with
  | Int x => - 2 ^ 31 <= x < 2 ^ 31
  | Short x => - 2 ^ 15 <= x < 2 ^ 15
  | Char c => 0 <= c < 256
  | Ptr p | Str p => 0 <= p < 2 ^ 64
  | Text s => Forall (fun c => 0 < c < 256) s
  end.
Definition format (x : value) : Z :=
  match x with Int _ => ch "i" | Short _ => ch "h" | Char _ => ch "c" | Ptr _ => ch "p" | Str _ => ch "s" | Text _ => ch "S" end.
Definition le (n : nat) (x : Z) : list Z := bst n (replicate n 0) 0 x.
Definition encode (x : value) : list Z :=
  match x with
  | Int x => le 4 (u32 x) | Short x => le 2 (u16 x) | Char c => [c] | Ptr p | Str p => le 8 p | Text s => s ++ [0]
  end.
Definition hex32 (x : Z) : list Z := concat ((fun j => print_hex_byte ((x / 256 ^ j) mod 256)) <$> [3; 2; 1; 0]).
Definition render (x : value) : list Z :=
  match x with
  | Int x | Short x => UPrintf.printint x 10 true
  | Char c => if (32 <=? c) && (c <=? 126) then [c] else chars "\x" ++ print_hex_byte c
  | Ptr p => hex32 p
  | Str p => if p =? 0 then chars "(null)" else str_at p
  | Text s => s
  end.
Fixpoint lines (first : bool) (l : list value) : list Z :=
  match l with [] => [] | x :: l => (if first then [] else [10]) ++ render x ++ lines false l end.

Lemma le_length n x : length (le n x) = n.
Proof. unfold le. by rewrite bst_length, length_replicate. Qed.
Lemma bld_app k pre l post j : (j + k <= length l)%nat -> bld k (pre ++ l ++ post) (length pre + j) = bld k l j.
Proof.
  revert j. induction k as [|k IH]; intros j Hj; cbn [bld]; [done|].
  replace (S (length pre + j)) with (length pre + S j)%nat by lia. rewrite IH by lia.
  rewrite app_nth2 by lia. rewrite app_nth1 by lia. do 3 f_equal. lia.
Qed.
Lemma bld_le n pre x post : 0 <= x < 256 ^ Z.of_nat n -> bld n (pre ++ le n x ++ post) (length pre) = x.
Proof.
  intros Hx. rewrite <- (Nat.add_0_r (length pre)), bld_app by (rewrite le_length; lia).
  unfold le. rewrite bld_bst_eq by (rewrite length_replicate; lia). by rewrite Z.mod_small.
Qed.
(** A byte of a little-endian number. *)
Lemma bld_byte k b off j : (j < k)%nat -> bld 1 b (off + j) = (bld k b off / 256 ^ Z.of_nat j) mod 256.
Proof.
  revert off j. induction k as [|k IH]; intros off j Hj; [lia|]. pose proof (u8_range (nth off b 0)) as Hu.
  destruct j as [|j].
  - rewrite Nat.add_0_r. cbn [bld]. change (256 ^ Z.of_nat 0) with 1. rewrite Z.div_1_r. dlia.
  - replace (off + S j)%nat with (S off + j)%nat by lia. rewrite IH by lia. cbn [bld].
    rewrite Nat2Z.inj_succ, Z.pow_succ_r, <- Z.div_div by lia. do 2 f_equal. dlia.
Qed.
Lemma upto_nul_text s post : Forall (fun c => 0 < c < 256) s -> upto_nul (s ++ 0 :: post) = s.
Proof. induction 1 as [|c s Hc HF IH]; [done|]. cbn. rewrite (proj2 (Z.eqb_neq c 0)) by lia. by rewrite IH. Qed.

Lemma i32_u32 x : - 2 ^ 31 <= x < 2 ^ 31 -> i32 (u32 x) = x.
Proof. intros. unfold i32, u32. rewrite Z.add_mod_idemp_l by lia. rewrite Z.mod_small; lia. Qed.
Lemma i16_u16_id x : - 2 ^ 15 <= x < 2 ^ 15 -> i16 (u16 x) = x.
Proof. intros. unfold i16, u16. rewrite Z.add_mod_idemp_l by lia. rewrite Z.mod_small; lia. Qed.

(** The branch of a format character. *)
Ltac which := repeat match goal with |- context [ch ?a =? ch ?b] => let r := eval vm_compute in (ch a =? ch b) in change (ch a =? ch b) with r end;
  cbv iota zeta.
Lemma item_ok pre x post : value_ok x ->
  memdump_item (format x) (pre ++ encode x ++ post) (length pre) = Some (render x, length (encode x)).
Proof.
  intros Hx. unfold memdump_item. set (data := pre ++ encode x ++ post).
  assert (Hroom : forall n, n = length (encode x) -> (length pre + n <=? length data)%nat = true).
  { intros n ->. apply Nat.leb_le. unfold data. rewrite !length_app. lia. }
  destruct x as [x|x|c|p|p|s]; cbn [format value_ok] in *.
  - which. rewrite Hroom by (cbn [encode]; by rewrite le_length). unfold data. cbn [encode].
    rewrite bld_le by (apply (Z.mod_pos_bound _ (2 ^ 32)); lia). cbn [render]. rewrite le_length. rewrite i32_u32 by done. done.
  - which.
    rewrite Hroom by (cbn [encode]; by rewrite le_length). unfold data. cbn [encode]. rewrite bld_le by (apply (Z.mod_pos_bound _ (2 ^ 16)); lia). cbn [render].
    rewrite le_length, i16_u16_id by done. done.
  - which.
    rewrite Hroom by done. unfold data. cbn [encode]. cbn [bld]. rewrite app_nth2, Nat.sub_diag by lia. cbn [nth app].
    rewrite u8_small, Z.mul_0_r, Z.add_0_r by lia. done.
  - which.
    rewrite Hroom by (cbn [encode]; by rewrite le_length). cbn [encode render]. rewrite le_length. do 2 f_equal. unfold hex32. f_equal.
    assert (Hb : forall j, (j < 8)%nat -> bld 1 data (length pre + j) = (p / 256 ^ Z.of_nat j) mod 256).
    { intros j Hj. rewrite (bld_byte 8) by done. unfold data. cbn [encode]. by rewrite bld_le by done. }
    cbn [fmap list_fmap]. by rewrite !Hb by lia.
  - which.
    rewrite Hroom by (cbn [encode]; by rewrite le_length). unfold data. cbn [encode]. rewrite bld_le by done. cbn [render]. by rewrite le_length.
  - which.
    assert (E : upto_nul (drop (length pre) data) = s).
    { unfold data. rewrite drop_app_length. cbn [encode]. rewrite <- app_assoc. by apply upto_nul_text. }
    rewrite E. assert (El : length (encode (Text s)) = S (length s)) by (cbn; rewrite length_app; cbn; lia).
    rewrite Hroom by done. by rewrite El.
Qed.

(** Memdump prints every value of its data on a line: ints and shorts in
    decimal, characters as themselves or in hexadecimal, strings through their
    pointers and in place; of a pointer it prints only the low 32 bits. *)
Theorem memdump_prints l rest : Forall value_ok l ->
  memdump (format <$> l) (concat (encode <$> l) ++ rest) = Some (lines true l).
Proof.
  intros Hl. unfold memdump. change 0%nat with (length (@nil Z)). rewrite <- (app_nil_l (concat _ ++ rest)).
  generalize true. generalize (@nil Z). induction Hl as [|x l Hx Hl IH]; intros pre first; cbn [fmap list_fmap concat memdump_loop lines]; [done|].
  replace (is_format (format x)) with true by (by destruct x). cbn [negb]. rewrite <- app_assoc, item_ok by done. cbn [mbind option_bind].
  rewrite <- length_app. rewrite app_assoc, IH. done.
Qed.
End memdump.

Lemma memdump_prints_witness :
  memdump (fun _ => []) (chars "ihcSp") (le 4 61810 ++ le 2 2025 ++ [122] ++ chars "xyzzy" ++ [0] ++ le 8 (2 ^ 40 + 255)) =
    Some (chars "61810" ++ [10] ++ chars "2025" ++ [10] ++ chars "z" ++ [10] ++ chars "xyzzy" ++ [10] ++ chars "000000ff").
Proof.
  rewrite <- (app_nil_r (_ ++ _)). apply (memdump_prints (fun _ => []) [Int 61810; Short 2025; Char 122; Text (chars "xyzzy"); Ptr (2 ^ 40 + 255)] []).
  repeat constructor; cbn; lia.
Defined.

(** ** main *)
Section main.
Context (chunk : nat -> nat -> nat -> nat) (str_at : Z -> list Z).
(** Where the strings of the examples are, and the bytes of [example] that main
    does not set. *)
Context (another hello : Z) (unset : list Z).

(** [memdump(fmt, data)] as a write; past the end of the data anything may happen. *)
Definition dump (fmt data : list Z) : P unit :=
  match memdump str_at fmt data with
  | Some out => write 1 out ;>> pret tt
  | None => spin
  end.
Definition example (n : Z) (fmt data newlines : list Z) : P unit :=
  write 1 (chars "Example " ++ UPrintf.printint n 10 true ++ chars ":" ++ [10]) ;>> dump fmt data ;>> write 1 newlines ;>> pret tt.
(** [struct sss]: ptr, num1, num2, byte, bytes. *)
Definition sss : list Z := le 8 hello ++ le 4 1819438967 ++ le 2 100 ++ [ch "z"] ++ (chars "xyzzy" ++ [0]) ++ unset.
Definition examples : P unit :=
  example 1 (chars "ii") (le 4 61810 ++ le 4 2025) [10; 10] ;>>
  example 2 (chars "S") (chars "a string" ++ [0]) [10; 10] ;>>
  example 3 (chars "s") (le 8 another) [10; 10] ;>>
  example 4 (chars "pihcS") sss [10; 10] ;>>
  example 5 (chars "sccccc") sss [10].
(** [while (n < sizeof(data))] of main. *)
Fixpoint fill (fuel : nat) (data : list Z) : P (list Z) :=
  match fuel with
  | O => spin
  | S fuel =>
      if (length data <? 512)%nat then
        r <- read chunk 0 (512 - length data) ;;
        match r with
        | Some (c :: d) => fill fuel (data ++ c :: d)
        | _ => pret data
        end
      else pret data
  end.
Definition memdump_main (argv : list (list Z)) : P unit :=
  match argv with
  | [_] => examples ;>> exit 0
  | [_; fmt] =>
      data <- fill 513 [] ;;
      dump fmt (data ++ replicate (512 - length data) 0) ;>> write 1 [10] ;>> exit 0
  | _ => write 1 (chars "Usage: memdump [format]" ++ [10]) ;>> exit 1
  end.

Lemma write1 {A} data (k : P A) w : 1%nat ∉ w_broken w ->
  exists w1, (write 1 data ;>> k) w = k w1 /\ (1%nat ∉ w_broken w1) /\ written 1 w1 = written 1 w ++ data.
Proof using.
  intros Hb. eexists. split; [by rewrite (pbind_val _ _ _ _ _ (write_spec 1 data w Hb))|]. split; [done|].
  rewrite out_app. cbn. by rewrite app_nil_r.
Qed.
Lemma example_prints n fmt data out newlines w : (1%nat ∉ w_broken w) -> memdump str_at fmt data = Some out ->
  exists w1, example n fmt data newlines w = (Val tt, w1) /\ (1%nat ∉ w_broken w1) /\
    written 1 w1 = written 1 w ++ (chars "Example " ++ UPrintf.printint n 10 true ++ chars ":" ++ [10]) ++ out ++ newlines.
Proof using.
  intros Hb Hm. unfold example. edestruct (write1 (A := unit)) as (w1 & -> & B1 & O1); [done|]. unfold dump at 1. rewrite Hm.
  destruct (write1 out (pret tt) w1 B1) as (w2 & E2 & B2 & O2). rewrite (pbind_val _ _ _ _ _ E2).
  destruct (write1 newlines (pret tt) w2 B2) as (w3 & E3 & B3 & O3). exists w3. split; [exact E3|]. split; [done|].
  by rewrite O3, O2, O1, <- !app_assoc.
Qed.
(** Without arguments main prints its five examples; the last shows that the
    number and the characters of the structure spell a word. *)
Lemma memdump_main_examples prog w : (1%nat ∉ w_broken w) -> 0 < another < 2 ^ 64 -> 0 < hello < 2 ^ 64 ->
  str_at another = chars "another" -> str_at hello = chars "hello" ->
  exists w', memdump_main [prog] w = (Exit 0, w') /\ written 1 w' = written 1 w ++
    (chars "Example 1:" ++ [10] ++ chars "61810" ++ [10] ++ chars "2025" ++ [10; 10]) ++
    (chars "Example 2:" ++ [10] ++ chars "a string" ++ [10; 10]) ++
    (chars "Example 3:" ++ [10] ++ chars "another" ++ [10; 10]) ++
    (chars "Example 4:" ++ [10] ++ hex32 hello ++ [10] ++ chars "1819438967" ++ [10] ++ chars "100" ++ [10] ++ chars "z" ++ [10] ++ chars "xyzzy" ++ [10; 10]) ++
    (chars "Example 5:" ++ [10] ++ chars "hello" ++ [10] ++ chars "w" ++ [10] ++ chars "o" ++ [10] ++ chars "r" ++ [10] ++ chars "l" ++ [10] ++ chars "d" ++ [10]).
Proof using.
  intros Hb Ha Hh Sa Sh.
  destruct (example_prints 1 (chars "ii") (le 4 61810 ++ le 4 2025) (chars "61810" ++ [10] ++ chars "2025") [10; 10] w Hb) as (w1 & E1 & B1 & O1); [vm_compute; reflexivity|].
  destruct (example_prints 2 (chars "S") (chars "a string" ++ [0]) (chars "a string") [10; 10] w1 B1) as (w2 & E2 & B2 & O2); [vm_compute; reflexivity|].
  destruct (example_prints 3 (chars "s") (le 8 another) (chars "another") [10; 10] w2 B2) as (w3 & E3 & B3 & O3).
  { pose proof (memdump_prints str_at [Str another] []) as H. cbn [fmap list_fmap concat encode format lines render app] in H. rewrite !app_nil_r, Sa in H.
    rewrite (proj2 (Z.eqb_neq another 0)) in H by lia. apply H. repeat constructor; cbn; lia. }
  destruct (example_prints 4 (chars "pihcS") sss (lines str_at true [Ptr hello; Int 1819438967; Short 100; Char (ch "z"); Text (chars "xyzzy")]) [10; 10] w3 B3) as (w4 & E4 & B4 & O4).
  { apply (memdump_prints str_at [Ptr hello; Int 1819438967; Short 100; Char (ch "z"); Text (chars "xyzzy")] unset). repeat constructor; cbn; lia. }
  destruct (example_prints 5 (chars "sccccc") sss (lines str_at true [Str hello; Char (ch "w"); Char (ch "o"); Char (ch "r"); Char (ch "l"); Char (ch "d")]) [10] w4 B4) as (w5 & E5 & B5 & O5).
  { apply (memdump_prints str_at [Str hello; Char (ch "w"); Char (ch "o"); Char (ch "r"); Char (ch "l"); Char (ch "d")] ([0] ++ [ch "z"] ++ (chars "xyzzy" ++ [0]) ++ unset)).
    repeat constructor; cbn; lia. }
  exists w5. split.
  - cbn [memdump_main]. unfold pbind at 1. unfold examples. do 4 (erewrite pbind_val by eassumption). by rewrite E5.
  - rewrite O5, O4, O3, O2, O1, <- !app_assoc. unfold lines, render. rewrite Sh. rewrite (proj2 (Z.eqb_neq hello 0)) by lia. reflexivity.
Qed.
Context `{!Chunk chunk}.
(** main collects the first 512 bytes of its input, whatever pieces read returns. *)
Lemma fill_takes fuel data rest w : w_fds w !! 0%nat = Some (Some rest) -> (length data <= 512)%nat -> (512 - length data < fuel)%nat ->
  exists w', fill fuel data w = (Val (take 512 (data ++ rest)), w') /\ w_broken w' = w_broken w /\ w_out w' = w_out w.
Proof using Chunk0.
  revert data rest w. induction fuel as [|fuel IH]; intros data rest w Hw Hd Hf; [lia|]. cbn [fill].
  destruct (length data <? 512)%nat eqn:E.
  - apply Nat.ltb_lt in E. destruct (read_spec chunk 0 (512 - length data) w rest Hw ltac:(lia)) as (d & rest' & -> & Hl & Hn & R).
    rewrite (pbind_val _ _ _ _ _ R). destruct d as [|c d].
    + specialize (Hn eq_refl). cbn [app] in Hn. subst rest'. cbn [app]. rewrite app_nil_r, take_ge by lia. by eexists.
    + rewrite app_assoc. match goal with |- context [fill fuel _ ?w1] => destruct (IH (data ++ c :: d) rest' w1) as (w' & E' & H1 & H2) end.
      * cbn. apply list_lookup_insert_eq. by apply lookup_lt_Some in Hw.
      * rewrite length_app. lia.
      * rewrite length_app. cbn [length]. lia.
      * exists w'. by rewrite E'.
  - apply Nat.ltb_ge in E. rewrite take_app_le, take_ge by lia. by exists w.
Qed.
(** With a format, main dumps the first 512 bytes of its input, with zeros after
    the end. *)
Lemma memdump_main_dumps prog fmt inp out w : w_fds w !! 0%nat = Some (Some inp) -> (1%nat ∉ w_broken w) ->
  memdump str_at fmt (take 512 inp ++ replicate (512 - length inp) 0) = Some out ->
  exists w', memdump_main [prog; fmt] w = (Exit 0, w') /\ written 1 w' = written 1 w ++ out ++ [10].
Proof using Chunk0.
  intros Hw Hb Hm. cbn [memdump_main]. destruct (fill_takes 513 [] inp w Hw) as (w1 & E1 & B1 & O1); [cbn; lia..|].
  rewrite (pbind_val _ _ _ _ _ E1). cbn [app]. replace (512 - length (take 512 inp))%nat with (512 - length inp)%nat by (rewrite length_take; lia).
  unfold dump. rewrite Hm. destruct (write1 out (pret tt) w1) as (w2 & E2 & B2 & O2); [by rewrite B1|]. rewrite (pbind_val _ _ _ _ _ E2).
  destruct (write1 (A := unit) [10] (exit 0) w2 B2) as (w3 & E3 & B3 & O3). exists w3. split; [exact E3|].
  rewrite O3, O2, <- app_assoc. f_equal. unfold written. by rewrite O1.
Qed.
End main.
