(* ===== verification/Practice.v ===== *)
(** * c-practice: sorting lines, counting keywords

    pointer5-6.c reads the lines of its input, sorts the pointers to them with a
    quicksort of its own and prints them.  pointer6-4.c looks the words of its
    input up in a table of keywords by binary search and counts them.  [None]
    is undefined behaviour (an access out of bounds) or a loop out of fuel. *)
From stdpp Require Import sorting.
From S2P Require Import Prelude Printf Find.

Definition EOF : Z := -1.
Definition NL : Z := 10.

(** strcmp of the C library, on strings without their NUL: the sign says which
    string has the smaller byte where they first differ. *)
Fixpoint strcmp (s t : list Z) : Z :=
  match s, t with
  | [], [] => 0
  | [], d :: _ => 0 - d
  | c :: _, [] => c
  | c :: s, d :: t => if c =? d then strcmp s t else c - d
  end.

Definition at_index {A} (v : list A) (i : Z) : option A := if 0 <=? i then v !! Z.to_nat i else None.

(** ** pointer5-6.c *)
Module Lines.
Definition MAXLINES : Z := 5000.
Definition MAXLEN : Z := 1000.

(** [n] is what is left of [lim - 1 - i], [c] the last character read. *)
Fixpoint getline_loop (n : nat) (inp : list Z) (c : Z) (s : list Z) : Z * list Z * list Z :=
  match n with
  | O => (c, s, inp)
  | S n =>
      match inp with
      | [] => (EOF, s, [])
      | c :: inp => if c =? NL then (c, s, inp) else getline_loop n inp c (s ++ [c])
      end
  end.
(** What it leaves in [s] before the NUL, and the rest of the input; [c] is not
    initialised when [lim <= 1]. *)
Definition getline (uninit : Z) (lim : Z) (inp : list Z) : list Z * list Z :=
  let '(c, s, inp) := getline_loop (Z.to_nat (lim - 1)) inp uninit [] in
  if c =? NL then (s ++ [c], inp) else (s, inp).

(** The blocks malloc returned, each with the string in it; a pointer is the
    index of its block. *)
Definition heap : Type := list (list Z).
Definition str (h : heap) (p : Z) : list Z := default [] (at_index h p).

(** strcpy of the string at the start of [line] into a block of [size] bytes. *)
Definition strcpy (size : nat) (line : list Z) : option (list Z) :=
  let s := upto_nul line in if (length s <? size)%nat then Some s else None.

Section lines.
(** Does the n-th call of malloc succeed? *)
Context (malloc_ok : nat -> bool).

(** [lineptr] holds the first [nlines] entries of the array. *)
Fixpoint readlines_loop (fuel : nat) (maxlines : Z) (inp : list Z) (h : heap) (lineptr : list Z) : option (Z * heap * list Z) :=
  match fuel with
  | O => None
  | S fuel =>
      let '(line, inp) := getline 0 MAXLEN inp in
      let len := length line in
      if (0 <? len)%nat then
        if (maxlines <=? Z.of_nat (length lineptr)) || negb (malloc_ok (length h)) then Some (-1, h, lineptr)
        else
          s ← strcpy len (<[(len - 1)%nat := 0]> line);
          readlines_loop fuel maxlines inp (h ++ [s]) (lineptr ++ [Z.of_nat (length h)])
      else Some (Z.of_nat (length lineptr), h, lineptr)
  end.
Definition readlines (maxlines : Z) (inp : list Z) : option (Z * heap * list Z) :=
  readlines_loop (S (length inp)) maxlines inp [] [].
End lines.

Definition swap (v : list Z) (i j : Z) : option (list Z) :=
  temp ← at_index v i;
  x ← at_index v j;
  Some (<[Z.to_nat j := temp]> (<[Z.to_nat i := x]> v)).

Section sort.
Context (h : heap).

(** The partition loop; [n] is [right + 1 - i]. *)
Fixpoint qsort_loop (n : nat) (v : list Z) (left i last : Z) : option (list Z * Z) :=
  match n with
  | O => Some (v, last)
  | S n =>
      x ← at_index v i;
      p ← at_index v left;
      if strcmp (str h x) (str h p) <? 0 then
        v ← swap v (last + 1) i;
        qsort_loop n v left (i + 1) (last + 1)
      else qsort_loop n v left (i + 1) last
  end.
Fixpoint qsort (fuel : nat) (v : list Z) (left right : Z) : option (list Z) :=
  match fuel with
  | O => None
  | S fuel =>
      if right <=? left then Some v
      else
        v ← swap v left (Z.quot (i32 (left + right)) 2);
        '(v, last) ← qsort_loop (Z.to_nat (right - left)) v left (left + 1) left;
        v ← swap v left last;
        v ← qsort fuel v left (last - 1);
        qsort fuel v (last + 1) right
  end.

(** printf of "%s\n" for every pointer. *)
Fixpoint writelines (n : nat) (i : Z) (v : list Z) : option (list Z) :=
  match n with
  | O => Some []
  | S n => p ← at_index v i; rest ← writelines n (i + 1) v; Some (str h p ++ [NL] ++ rest)
  end.
End sort.

(** The exit code and what is printed. *)
Definition main (malloc_ok : nat -> bool) (inp : list Z) : option (Z * list Z) :=
  '(nlines, h, lineptr) ← readlines malloc_ok MAXLINES inp;
  if 0 <=? nlines then
    v ← qsort h (S (S (Z.to_nat nlines))) lineptr 0 (nlines - 1);
    out ← writelines h (Z.to_nat nlines) 0 v;
    Some (0, out)
  else Some (1, chars "error: input too big to sort" ++ [NL]).
End Lines.

(** ** pointer6-4.c *)
Module Keywords.
Record key := mkKey { word : list Z; count : Z }.
Definition NKEYS : Z := 32.

(** Pointers into the table are indices; [Some None] is NULL. *)
Fixpoint binsearch_loop (fuel : nat) (w : list Z) (tab : list key) (low high : Z) : option (option Z) :=
  match fuel with
  | O => None
  | S fuel =>
      if low <? high then
        let mid := low + Z.quot (high - low) 2 in
        k ← at_index tab mid;
        let cond := strcmp w (word k) in
        if cond <? 0 then binsearch_loop fuel w tab low mid
        else if 0 <? cond then binsearch_loop fuel w tab (mid + 1) high
        else Some (Some mid)
      else Some None
  end.
Definition binsearch (w : list Z) (tab : list key) (n : Z) : option (option Z) := binsearch_loop (S (Z.to_nat n)) w tab 0 n.

Definition isalpha (c : Z) : bool := ((65 <=? c) && (c <=? 90)) || ((97 <=? c) && (c <=? 122)).

(** The loop of main over [words], what getword puts in [word] at each call
    before it returns EOF. *)
Fixpoint count_words (words : list (list Z)) (tab : list key) : option (list key) :=
  match words with
  | [] => Some tab
  | w :: words =>
      if isalpha (hd 0 w) then
        r ← binsearch w tab NKEYS;
        match r with
        | Some p => k ← at_index tab p; count_words words (<[Z.to_nat p := mkKey (word k) (i32 (count k + 1))]> tab)
        | None => count_words words tab
        end
      else count_words words tab
  end.
(** printf of "%4d %s\n". *)
Definition print_key (k : key) : list Z :=
  let d := UPrintf.printint (count k) 10 true in replicate (4 - length d) 32 ++ d ++ [32] ++ word k ++ [NL].
Fixpoint print_keys (n : nat) (p : Z) (tab : list key) : option (list Z) :=
  match n with
  | O => Some []
  | S n =>
      k ← at_index tab p;
      rest ← print_keys n (p + 1) tab;
      Some ((if 0 <? count k then print_key k else []) ++ rest)
  end.
(** [keytab] is defined in another file. *)
Definition main (keytab : list key) (words : list (list Z)) : option (Z * list Z) :=
  tab ← count_words words keytab;
  out ← print_keys (Z.to_nat NKEYS) 0 tab;
  Some (0, out).
End Keywords.

(** ** Strings without NUL bytes are totally ordered by strcmp *)
Definition text (s : list Z) : Prop := Forall (fun c => 0 < c) s.

#[export] Instance text_dec s : Decision (text s).
Proof. unfold text. apply _. Defined.
Lemma strcmp_refl s : strcmp s s = 0.
Proof. induction s as [|c s IH]; [done|]. cbn. by rewrite Z.eqb_refl. Qed.
Lemma strcmp_antisym s t : strcmp s t = - strcmp t s.
Proof.
  revert t. induction s as [|c s IH]; intros [|d t]; cbn; try lia. rewrite (Z.eqb_sym d c).
  destruct (Z.eqb_spec c d); [apply IH|lia].
Qed.
Lemma strcmp_eq s t : text s -> text t -> strcmp s t = 0 <-> s = t.
Proof.
  intros Hs. revert t. induction Hs as [|c s Hc Hs IH]; intros t Ht; destruct Ht as [|d t Hd Ht]; cbn.
  - done.
  - split; [lia|done].
  - split; [lia|done].
  - destruct (Z.eqb_spec c d) as [->|]; [rewrite (IH t Ht); split; congruence|split; [lia|congruence]].
Qed.
Lemma strcmp_lt_trans s t u : text s -> text t -> text u -> strcmp s t < 0 -> strcmp t u < 0 -> strcmp s u < 0.
Proof.
  intros Hs. revert t u. induction Hs as [|c s Hc Hs IH]; intros t u Ht Hu; destruct Ht as [|d t Hd Ht], Hu as [|e u He Hu]; cbn; try lia.
  destruct (Z.eqb_spec c d) as [->|], (Z.eqb_spec d e) as [->|]; rewrite ?Z.eqb_refl;
    [by apply IH|..]; repeat case_match; zb; try lia; subst; try lia.
Qed.
Lemma strcmp_le_trans s t u : text s -> text t -> text u -> strcmp s t <= 0 -> strcmp t u <= 0 -> strcmp s u <= 0.
Proof.
  intros Hs Ht Hu H1 H2.
  destruct (Z.eq_dec (strcmp s t) 0) as [->%strcmp_eq|]; [done|done..|].
  destruct (Z.eq_dec (strcmp t u) 0) as [<-%strcmp_eq|]; [done|done..|].
  pose proof (strcmp_lt_trans s t u Hs Ht Hu). lia.
Qed.

(** ** The quicksort *)
Lemma at_index_app {A} (l : list A) x r i : i = Z.of_nat (length l) -> at_index (l ++ x :: r) i = Some x.
Proof. intros ->. unfold at_index. rewrite (proj2 (Z.leb_le _ _)) by lia. by rewrite Nat2Z.id, list_lookup_middle. Qed.
Lemma insert_middle {A} (l : list A) x y r i : i = Z.of_nat (length l) -> <[Z.to_nat i := y]> (l ++ x :: r) = l ++ y :: r.
Proof. intros ->. rewrite Nat2Z.id, insert_app_r_alt by lia. by rewrite Nat.sub_diag. Qed.

Lemma app_cons_assoc {A} (l : list A) x m r : l ++ x :: m ++ r = (l ++ x :: m) ++ r.
Proof. by rewrite <- app_assoc. Qed.

Section quicksort.
Import Lines.
Context (h : heap).

Lemma swap_two l x m y r i j : i = Z.of_nat (length l) -> j = i + 1 + Z.of_nat (length m) ->
  swap (l ++ x :: m ++ y :: r) i j = Some (l ++ y :: m ++ x :: r) /\ swap (l ++ x :: m ++ y :: r) j i = Some (l ++ y :: m ++ x :: r).
Proof.
  intros Hi Hj. assert (Hj' : j = Z.of_nat (length (l ++ x :: m))) by (rewrite length_app; cbn; lia).
  assert (Hj2 : j = Z.of_nat (length (l ++ y :: m))) by (rewrite length_app; cbn; lia).
  assert (E : at_index (l ++ x :: m ++ y :: r) j = Some y).
  { rewrite (app_cons_assoc l x m (y :: r)). by apply at_index_app. }
  unfold swap. rewrite E, (at_index_app l x (m ++ y :: r) i Hi). cbn. split; f_equal.
  - rewrite (insert_middle l x y) by done.
    rewrite (app_cons_assoc l y m (y :: r)), (insert_middle (l ++ y :: m)) by done. by rewrite <- app_assoc.
  - rewrite (app_cons_assoc l x m (y :: r)), (insert_middle (l ++ x :: m)) by done.
    rewrite <- app_assoc. cbn. by rewrite (insert_middle l x y).
Qed.
Lemma swap_self l x r i : i = Z.of_nat (length l) -> swap (l ++ x :: r) i i = Some (l ++ x :: r).
Proof. intros Hi. unfold swap. rewrite (at_index_app l x r i Hi). cbn. by rewrite !(insert_middle l). Qed.

(** Before the pivot at [left]: [pre]; after it the smaller ones [a], the others
    [b], the ones not seen yet [c] and what is right of the range. *)
Definition smaller (p x : Z) : Prop := strcmp (str h x) (str h p) < 0.
Lemma qsort_loop_ok pre p c : forall a b post i last,
  last = Z.of_nat (length pre + length a) -> i = last + 1 + Z.of_nat (length b) ->
  Forall (smaller p) a -> Forall (fun x => ~ smaller p x) b ->
  exists a' b', qsort_loop h (length c) (pre ++ p :: a ++ b ++ c ++ post) (Z.of_nat (length pre)) i last =
    Some (pre ++ p :: a' ++ b' ++ post, Z.of_nat (length pre + length a')) /\
    a' ++ b' ≡ₚ a ++ b ++ c /\ Forall (smaller p) a' /\ Forall (fun x => ~ smaller p x) b'.
Proof.
  induction c as [|x c IH]; intros a b post i last Hl Hi Ha Hb.
  { exists a, b. cbn. rewrite app_nil_r. by subst. }
  cbn [length qsort_loop].
  assert (Ex : at_index (pre ++ p :: a ++ b ++ (x :: c) ++ post) i = Some x).
  { replace (pre ++ p :: a ++ b ++ (x :: c) ++ post) with ((pre ++ p :: a ++ b) ++ x :: c ++ post) by (by rewrite <- !app_assoc; cbn; rewrite <- !app_assoc).
    apply at_index_app. rewrite !length_app; cbn; rewrite length_app. lia. }
  rewrite Ex, at_index_app by done. cbn. destruct (Z.ltb_spec (strcmp (str h x) (str h p)) 0) as [Hlt|Hge].
  - destruct b as [|y b].
    + replace (pre ++ p :: a ++ [] ++ x :: c ++ post) with ((pre ++ p :: a) ++ x :: c ++ post) by (by rewrite <- app_assoc).
      assert (Hi' : i = last + 1) by (cbn in Hi; lia). rewrite Hi', swap_self by (rewrite length_app; cbn; lia). cbn.
      destruct (IH (a ++ [x]) [] post (last + 1 + 1) (last + 1)) as (a' & b' & E & P & Ha' & Hb'); cbn; try done.
      { rewrite length_app. cbn. lia. } { lia. } { apply Forall_app. by repeat constructor. }
      exists a', b'. split; [|split; [|done]]; [|by rewrite P, <- app_assoc].
      rewrite <- E. f_equal. by rewrite <- !app_assoc.
    + replace (pre ++ p :: a ++ (y :: b) ++ x :: c ++ post) with ((pre ++ p :: a) ++ y :: b ++ x :: c ++ post)
        by (by rewrite <- !app_assoc; cbn; rewrite <- ?app_assoc).
      cbn in Hi. rewrite (proj1 (swap_two (pre ++ p :: a) y b x (c ++ post) (last + 1) i ltac:(rewrite length_app; cbn; lia) ltac:(lia))). cbn.
      inversion_clear Hb as [|? ? Hy Hb']. destruct (IH (a ++ [x]) (b ++ [y]) post (i + 1) (last + 1)) as (a' & b' & E & P & Ha' & Hb''); try done.
      { rewrite length_app. cbn. lia. } { rewrite length_app. cbn. lia. }
      { apply Forall_app. by repeat constructor. } { apply Forall_app. by repeat constructor. }
      exists a', b'. split; [|split; [|done]].
      * rewrite <- E. f_equal. rewrite <- !app_assoc. cbn. by rewrite <- ?app_assoc.
      * rewrite P. solve_Permutation.
  - destruct (IH a (b ++ [x]) post (i + 1) last) as (a' & b' & E & P & Ha' & Hb'); try done.
    { rewrite length_app. cbn. lia. } { apply Forall_app. split; [done|]. constructor; [|done]. unfold smaller. lia. }
    exists a', b'. split; [|split; [|done]]; [|by rewrite P, <- app_assoc]. rewrite <- E. by rewrite <- !app_assoc.
Qed.

(** Choosing the pivot, and putting it between the two parts. *)
Lemma swap_pivot pre seg post k : (k < length seg)%nat ->
  exists p c, swap (pre ++ seg ++ post) (Z.of_nat (length pre)) (Z.of_nat (length pre + k)) = Some (pre ++ p :: c ++ post) /\ p :: c ≡ₚ seg.
Proof.
  intros Hk. destruct seg as [|x seg]; [cbn in Hk; lia|]. destruct k as [|k].
  { exists x, seg. rewrite Nat.add_0_r. cbn [app]. by rewrite swap_self. }
  destruct (lookup_lt_is_Some_2 seg k) as [y Hy]; [cbn in Hk; lia|]. apply list_elem_of_split_length in Hy as (m & r & -> & Hm).
  exists y, (m ++ x :: r). split; [|solve_Permutation]. cbn. rewrite <- !app_assoc. cbn.
  rewrite (proj1 (swap_two pre x m y (r ++ post) _ (Z.of_nat (length pre + S k)) eq_refl ltac:(lia))). done.
Qed.
Lemma swap_back pre p a r : exists a', swap (pre ++ p :: a ++ r) (Z.of_nat (length pre)) (Z.of_nat (length pre + length a)) = Some (pre ++ a' ++ p :: r) /\
  a' ≡ₚ a.
Proof.
  destruct a as [|z a _] using rev_ind; [exists []; cbn; rewrite Nat.add_0_r; by rewrite swap_self|].
  exists (z :: a). split; [|solve_Permutation]. rewrite length_app. cbn. rewrite <- app_assoc. cbn.
  by rewrite (proj1 (swap_two pre p a z r _ (Z.of_nat (length pre + (length a + 1))) eq_refl ltac:(lia))).
Qed.

Context (Htext : forall p, text (str h p)).
Definition not_after (x y : Z) : Prop := strcmp (str h x) (str h y) <= 0.
Lemma glue_sorted p a b : Forall (smaller p) a -> Forall (fun x => ~ smaller p x) b -> StronglySorted not_after a -> StronglySorted not_after b ->
  StronglySorted not_after (a ++ p :: b).
Proof.
  intros Ha Hb Sa Sb. apply StronglySorted_app_2; [|done|].
  - intros x y Hx [->|Hy]%elem_of_cons; rewrite Forall_forall in Ha, Hb; specialize (Ha x Hx); unfold smaller, not_after in *; [lia|].
    specialize (Hb y Hy). apply (strcmp_le_trans _ (str h p)); try done; [lia|]. rewrite strcmp_antisym. lia.
  - constructor; [done|]. eapply Forall_impl; [exact Hb|]. intros x Hx. unfold smaller, not_after in *. rewrite strcmp_antisym. lia.
Qed.

Lemma qsort_ok fuel : forall pre seg post left right,
  (length seg < fuel)%nat -> Z.of_nat (length pre + length seg) < 2 ^ 30 ->
  left = Z.of_nat (length pre) -> right = left + Z.of_nat (length seg) - 1 ->
  exists seg', qsort h fuel (pre ++ seg ++ post) left right = Some (pre ++ seg' ++ post) /\ seg' ≡ₚ seg /\ StronglySorted not_after seg'.
Proof.
  induction fuel as [|fuel IH]; intros pre seg post left right Hf Hb Hl Hr; [lia|]. cbn [qsort]. ztest.
  { exists seg. split_and!; [done..|]. destruct seg as [|x [|y seg]]; [by constructor|by repeat constructor|cbn in Hr; lia]. }
  set (n := length seg) in *. set (k := ((n - 1) / 2)%nat).
  assert (Ek : Z.quot (i32 (left + right)) 2 = Z.of_nat (length pre + k)).
  { rewrite i32_small by lia. rewrite Z.quot_div_nonneg by lia. unfold k. rewrite Nat2Z.inj_add, Nat2Z.inj_div.
    replace (left + right) with (Z.of_nat (n - 1) + left * 2) by lia. rewrite Z.div_add by lia. lia. }
  rewrite Ek, Hl. destruct (swap_pivot pre seg post k) as (p & c & -> & Hpc).
  { unfold k. fold n. apply Nat.Div0.div_lt_upper_bound. lia. }
  cbn [mbind option_bind]. assert (Hc : length c = (n - 1)%nat) by (apply Permutation_length in Hpc; cbn in Hpc; fold n in Hpc; lia).
  destruct (qsort_loop_ok pre p c [] [] post (Z.of_nat (length pre) + 1) (Z.of_nat (length pre))) as (a & b & Eq & P & Ha & Hb'); [cbn; lia..|constructor|constructor|].
  cbn [app] in Eq. replace (Z.to_nat (right - Z.of_nat (length pre))) with (length c) by lia. rewrite Eq. cbn [mbind option_bind].
  cbn in P. assert (Hab : (length a + length b = n - 1)%nat) by (apply Permutation_length in P; rewrite length_app in P; lia).
  destruct (swap_back pre p a (b ++ post)) as (a1 & -> & Pa). cbn [mbind option_bind].
  pose proof (Permutation_length Pa) as La.
  destruct (IH pre a1 (p :: b ++ post) (Z.of_nat (length pre)) (Z.of_nat (length pre + length a) - 1)) as (a2 & -> & Pa2 & Sa); [lia..|].
  cbn [mbind option_bind]. pose proof (Permutation_length Pa2) as La2.
  replace (pre ++ a2 ++ p :: b ++ post) with ((pre ++ a2 ++ [p]) ++ b ++ post) by (by rewrite <- !app_assoc).
  destruct (IH (pre ++ a2 ++ [p]) b post (Z.of_nat (length pre + length a) + 1) right) as (b2 & -> & Pb & Sb); [rewrite ?length_app; cbn; lia..|].
  exists (a2 ++ p :: b2). split; [by rewrite <- !app_assoc|]. split.
  - rewrite <- Hpc, <- P, Pa2, Pa, Pb. solve_Permutation.
  - apply glue_sorted; try done; [by rewrite Pa2, Pa|by rewrite Pb].
Qed.
End quicksort.

(** ** Reading the lines *)
Definition unlines (ls : list (list Z)) : list Z := concat ((fun l => l ++ [NL]) <$> ls).
(** A line that getline reads in one call and strcpy copies whole. *)
Definition line_ok (l : list Z) : Prop := Forall (fun c => 0 < c /\ c <> NL) l /\ (length l <= 998)%nat.
#[export] Instance line_ok_dec l : Decision (line_ok l).
Proof. unfold line_ok. apply _. Defined.
(** What becomes of the text after the last newline. *)
Definition cut (tail : list Z) : list (list Z) := match tail with [] => [] | _ => [removelast tail] end.

Section reading.
Import Lines.

Lemma getline_loop_line n l r : forall c s, Forall (fun c => 0 < c /\ c <> NL) l -> (length l < n)%nat ->
  getline_loop n (l ++ NL :: r) c s = (NL, s ++ l, r) /\ getline_loop n l c s = (EOF, s ++ l, []).
Proof.
  revert l. induction n as [|n IH]; intros l c s Hl Hn; [lia|]. destruct Hl as [|d l [Hd Hd'] Hl]; cbn.
  { by rewrite app_nil_r. }
  rewrite (proj2 (Z.eqb_neq _ _)) by done. cbn in Hn. destruct (IH l d (s ++ [d]) Hl ltac:(lia)) as [-> ->].
  by rewrite <- app_assoc.
Qed.
Lemma getline_line l r : line_ok l -> getline 0 MAXLEN (l ++ NL :: r) = (l ++ [NL], r) /\ getline 0 MAXLEN l = (l, []).
Proof.
  intros [Hl Hn]. unfold getline. destruct (getline_loop_line (Z.to_nat (MAXLEN - 1)) l r 0 [] Hl) as [-> ->]; [unfold MAXLEN; lia|].
  by cbn.
Qed.
Lemma upto_nul_cut l r : text l -> upto_nul (l ++ 0 :: r) = l.
Proof. induction 1 as [|c l Hc Hl IH]; [done|]. cbn. rewrite (proj2 (Z.eqb_neq _ _)) by lia. by rewrite IH. Qed.
Lemma line_text l : line_ok l -> text l.
Proof. intros [H _]. eapply Forall_impl; [exact H|]. by intros ? []. Qed.
Lemma readlines_step malloc_ok fuel maxlines inp h lp l c rest : getline 0 MAXLEN inp = (l ++ [c], rest) -> text l ->
  readlines_loop malloc_ok (S fuel) maxlines inp h lp =
  if (maxlines <=? Z.of_nat (length lp)) || negb (malloc_ok (length h)) then Some (-1, h, lp)
  else readlines_loop malloc_ok fuel maxlines rest (h ++ [l]) (lp ++ [Z.of_nat (length h)]).
Proof.
  intros E Hl. cbn [readlines_loop]. rewrite E, length_app. cbn [length]. rewrite (proj2 (Nat.ltb_lt _ _)) by lia.
  replace (length l + 1 - 1)%nat with (length l + 0)%nat by lia. rewrite insert_app_r. cbn [insert list_insert]. unfold strcpy.
  rewrite (upto_nul_cut l []) by done. rewrite (proj2 (Nat.ltb_lt _ _)) by lia. done.
Qed.

(** Is there room for [n] more lines after the first [k]? *)
Definition room (malloc_ok : nat -> bool) (maxlines : Z) (k n : nat) : bool :=
  forallb (fun k => (Z.of_nat k <? maxlines) && malloc_ok k) (seq k n).
Lemma room_S malloc_ok maxlines k n :
  room malloc_ok maxlines k (S n) = negb ((maxlines <=? Z.of_nat k) || negb (malloc_ok k)) && room malloc_ok maxlines (S k) n.
Proof. unfold room. cbn. by rewrite Z.ltb_antisym, negb_orb, negb_involutive. Qed.

Lemma readlines_loop_ok malloc_ok maxlines tail : line_ok tail -> forall ls fuel h lp, Forall line_ok ls ->
  (length ls + length (cut tail) < fuel)%nat -> length h = length lp ->
  let all := ls ++ cut tail in
  exists h' lp', readlines_loop malloc_ok fuel maxlines (unlines ls ++ tail) h lp =
    Some (if room malloc_ok maxlines (length h) (length all) then (Z.of_nat (length lp + length all), h ++ all, lp ++ seqZ (Z.of_nat (length h)) (Z.of_nat (length all)))
          else (-1, h', lp')).
Proof.
  intros Ht. induction ls as [|l ls IH]; intros fuel h lp Hls Hf Hlen; (destruct fuel as [|fuel]; [lia|]).
  - destruct tail as [|c tail _] using rev_ind.
    { exists h, lp. cbn [app cut unlines concat fmap list_fmap length room seq forallb]. cbn. by rewrite Nat.add_0_r, !app_nil_r. }
    cbn [unlines fmap list_fmap concat app]. replace (cut (tail ++ [c])) with [tail] by (unfold cut; rewrite removelast_last; by destruct tail).
    exists h, lp. rewrite (readlines_step malloc_ok fuel maxlines _ h lp tail c [] (proj2 (getline_line _ [] Ht))).
    2: { pose proof (line_text _ Ht) as Ht'. by apply Forall_app in Ht' as []. }
    rewrite <- Hlen. cbn [app length]. rewrite room_S. destruct (_ || _) eqn:E; cbn [negb andb]; [done|].
    destruct fuel as [|fuel]; [destruct tail; cbn in Hf; lia|]. cbn. rewrite length_app. cbn. repeat f_equal; lia.
  - inversion_clear Hls as [|? ? Hl Hls']. replace (unlines (l :: ls) ++ tail) with (l ++ NL :: unlines ls ++ tail)
      by (unfold unlines; cbn; by rewrite <- !app_assoc).
    destruct (IH fuel (h ++ [l]) (lp ++ [Z.of_nat (length h)]) Hls') as (h' & lp' & E); [cbn in Hf; lia|rewrite !length_app; cbn; lia|].
    destruct ((maxlines <=? Z.of_nat (length lp)) || negb (malloc_ok (length h))) eqn:D; rewrite <- ?Hlen in D.
    + exists h, lp. rewrite (readlines_step malloc_ok fuel maxlines _ h lp l NL _ (proj1 (getline_line _ _ Hl)) (line_text _ Hl)).
      rewrite <- Hlen, D. cbn [app length]. by rewrite room_S, D.
    + exists h', lp'. rewrite (readlines_step malloc_ok fuel maxlines _ h lp l NL _ (proj1 (getline_line _ _ Hl)) (line_text _ Hl)).
      rewrite <- Hlen, D, E. cbn [app length]. rewrite room_S, D. cbn [negb andb]. rewrite !length_app. cbn [length]. rewrite !Nat.add_1_r.
      unfold heap in *. destruct (room malloc_ok maxlines (S (length h)) (length ls + length (cut tail))); [|done]. f_equal. f_equal; [f_equal|].
      * lia.
      * by rewrite <- app_assoc.
      * rewrite <- app_assoc. cbn [app]. do 2 f_equal. rewrite (seqZ_cons (Z.of_nat (length h))) by lia. f_equal. f_equal; lia.
Qed.
Lemma room_bound malloc_ok maxlines n : 0 <= maxlines -> room malloc_ok maxlines 0 n = true -> Z.of_nat n <= maxlines.
Proof.
  intros Hm R. destruct n as [|n]; [lia|]. unfold room in R. rewrite forallb_forall in R.
  specialize (R n). rewrite in_seq in R. specialize (R ltac:(lia)). zb. lia.
Qed.
Lemma unlines_length ls : (length ls <= length (unlines ls))%nat.
Proof. unfold unlines. induction ls as [|l ls IH]; [done|]. cbn. rewrite !length_app. cbn. lia. Qed.
Lemma str_seqZ h : str h <$> seqZ 0 (Z.of_nat (length h)) = h.
Proof.
  apply list_eq. intros i. rewrite list_lookup_fmap. destruct (decide (i < length h)%nat) as [Hi|Hi].
  - rewrite lookup_seqZ_lt by lia. destruct (lookup_lt_is_Some_2 h i Hi) as [x Hx]. rewrite Hx. cbn. unfold str, at_index.
    rewrite (proj2 (Z.leb_le _ _)) by lia. by rewrite Z.add_0_l, Nat2Z.id, Hx.
  - rewrite lookup_seqZ_ge, lookup_ge_None_2 by lia. done.
Qed.
Lemma writelines_ok h w : forall v, writelines h (length w) (Z.of_nat (length v)) (v ++ w) = Some (unlines (str h <$> w)).
Proof.
  induction w as [|p w IH]; intros v; [done|]. cbn [length writelines]. rewrite at_index_app by done. cbn [mbind option_bind].
  specialize (IH (v ++ [p])). rewrite length_app, <- app_assoc in IH. cbn in IH.
  replace (Z.of_nat (length v) + 1) with (Z.of_nat (length v + 1)) by lia. rewrite IH. cbn. unfold unlines. cbn. by rewrite <- app_assoc.
Qed.
Lemma str_text h : Forall text h -> forall p, text (str h p).
Proof.
  intros Hh p. unfold str, at_index. destruct (0 <=? p); [|constructor]. destruct (h !! Z.to_nat p) as [s|] eqn:E; [|constructor].
  by eapply Forall_lookup_1 in E.
Qed.
Lemma cut_text tail : line_ok tail -> Forall text (cut tail).
Proof.
  intros Ht%line_text. destruct tail as [|c tail _] using rev_ind; [constructor|]. unfold cut. rewrite removelast_last.
  apply Forall_app in Ht as [Ht _]. destruct tail; apply Forall_singleton; exact Ht.
Qed.
Lemma cut_length tail : (length (cut tail) <= length tail)%nat.
Proof. destruct tail; cbn; lia. Qed.
End reading.

(** C36: pointer5-6.c, on lines of at most 998 characters: the output is the lines in
    the order of strcmp, each as often as it was read, and the exit code 0; with more
    than MAXLINES lines, or when malloc fails, the error message and the exit code 1.
    Text after the last newline is a line that loses its last character. *)
Theorem sort_main malloc_ok ls tail (Hls : Forall line_ok ls) (Htail : line_ok tail) :
  let all := ls ++ cut tail in
  if room malloc_ok Lines.MAXLINES 0 (length all) then
    exists sorted, sorted ≡ₚ all /\ StronglySorted (fun s t => strcmp s t <= 0) sorted /\
      Lines.main malloc_ok (unlines ls ++ tail) = Some (0, unlines sorted)
  else Lines.main malloc_ok (unlines ls ++ tail) = Some (1, chars "error: input too big to sort" ++ [NL]).
Proof.
  intros all. unfold Lines.main, Lines.readlines.
  destruct (readlines_loop_ok malloc_ok Lines.MAXLINES tail Htail ls (S (length (unlines ls ++ tail))) [] [] Hls) as (h' & lp' & ->); [|done|].
  { pose proof (unlines_length ls). pose proof (cut_length tail). rewrite length_app. lia. }
  fold all. change (@length (list Z) []) with 0%nat. change (@length Z []) with 0%nat.
  destruct (room malloc_ok Lines.MAXLINES 0 (length all)) eqn:R; [|done]. cbn [mbind option_bind app Nat.add].
  rewrite (proj2 (Z.leb_le _ _)) by lia. rewrite Nat2Z.id.
  assert (Hall : Forall text all) by (apply Forall_app; split; [by eapply Forall_impl; [exact Hls|apply line_text]|by apply cut_text]).
  assert (Hn : Z.of_nat (length all) <= Lines.MAXLINES) by (eapply room_bound; [unfold Lines.MAXLINES; lia|exact R]).
  change (Z.of_nat 0) with 0. set (v := seqZ 0 (Z.of_nat (length all))). assert (Hv : length v = length all) by (unfold v; rewrite length_seqZ; lia).
  destruct (qsort_ok all (str_text all Hall) (S (S (length all))) [] v [] 0 (Z.of_nat (length all) - 1)) as (w & E & P & S).
  { lia. } { cbn. unfold Lines.MAXLINES in Hn. lia. } { done. } { lia. }
  cbn [app] in E. rewrite !app_nil_r in E. rewrite E. cbn [mbind option_bind].
  assert (Hw : length w = length all) by (rewrite <- Hv; by apply Permutation_length).
  pose proof (writelines_ok all w []) as W. cbn [app length] in W. rewrite Hw in W. change (Z.of_nat 0) with 0 in W. rewrite W. cbn [mbind option_bind].
  exists (Lines.str all <$> w). split_and!; [|by apply (StronglySorted_fmap _ (not_after all))|done].
  rewrite P. unfold v. by rewrite str_seqZ.
Qed.
(** Three lines, the last without its newline. *)
Definition demo_lines : list (list Z) := [chars "pear"; chars "ant"].
Definition demo_tail : list Z := chars "figs".
Theorem sort_main_witness :
  Lines.main (fun _ => true) (unlines demo_lines ++ demo_tail) = Some (0, unlines [chars "ant"; chars "fig"; chars "pear"]) /\
  exists sorted, sorted ≡ₚ [chars "pear"; chars "ant"; chars "fig"] /\ StronglySorted (fun s t => strcmp s t <= 0) sorted /\
    Lines.main (fun _ => true) (unlines demo_lines ++ demo_tail) = Some (0, unlines sorted).
Proof.
  split; [vm_compute; reflexivity|].
  refine (sort_main (fun _ => true) demo_lines demo_tail _ _).
  - apply (bool_decide_unpack _); vm_compute; exact I.
  - apply (bool_decide_unpack _); vm_compute; exact I.
Defined.

(** ** Counting keywords *)
Section keywords.
Import Keywords.

Lemma StronglySorted_lookup_lt {A} (R : A -> A -> Prop) l i j x y : StronglySorted R l -> l !! i = Some x -> l !! j = Some y -> (i < j)%nat -> R x y.
Proof.
  intros Hs Hi Hj Hij. rewrite <- (take_drop j l) in Hs. eapply StronglySorted_app_1_elem_of; [exact Hs|..].
  - apply (list_elem_of_lookup_2 _ i). by rewrite lookup_take_lt.
  - apply (list_elem_of_lookup_2 _ 0%nat). by rewrite lookup_drop, Nat.add_0_r.
Qed.
Definition table_ok (tab : list key) : Prop := StronglySorted (fun s t => strcmp s t < 0) (word <$> tab) /\ Forall text (word <$> tab).
Lemma at_index_lt {A} (v : list A) i : 0 <= i < Z.of_nat (length v) -> exists x, at_index v i = Some x /\ v !! Z.to_nat i = Some x.
Proof.
  intros Hi. unfold at_index. rewrite (proj2 (Z.leb_le _ _)) by lia.
  destruct (lookup_lt_is_Some_2 v (Z.to_nat i)) as [x Hx]; [lia|]. by exists x.
Qed.
Lemma table_lt tab i j k l : table_ok tab -> tab !! i = Some k -> tab !! j = Some l -> (i < j)%nat -> strcmp (word k) (word l) < 0.
Proof.
  intros [Hs _] Hi Hj Hij. apply (StronglySorted_lookup_lt (fun s t => strcmp s t < 0) (word <$> tab) i j); [done|..|done]; rewrite list_lookup_fmap; by rewrite ?Hi, ?Hj.
Qed.
Lemma table_text tab i k : table_ok tab -> tab !! i = Some k -> text (word k).
Proof. intros [_ Ht] Hi. rewrite Forall_fmap in Ht. exact (Forall_lookup_1 _ _ _ _ Ht Hi). Qed.

(** The word is nowhere but in [low, high). *)
Definition outside (w : list Z) (tab : list key) (low high : Z) : Prop :=
  forall i k, tab !! i = Some k -> word k = w -> low <= Z.of_nat i < high.
Definition search_result (w : list Z) (tab : list key) (r : option Z) : Prop :=
  match r with
  | Some p => 0 <= p /\ exists k, tab !! Z.to_nat p = Some k /\ word k = w
  | None => w ∉ word <$> tab
  end.
Lemma binsearch_loop_ok w tab fuel : table_ok tab -> text w -> forall low high,
  0 <= low -> high <= Z.of_nat (length tab) -> high - low < Z.of_nat fuel -> (0 < fuel)%nat -> outside w tab low high ->
  exists r, binsearch_loop fuel w tab low high = Some r /\ search_result w tab r.
Proof.
  intros Htab Hw. induction fuel as [|fuel IH]; intros low high Hl Hh Hf Hf' Ho; [lia|]. cbn [binsearch_loop]. ztest.
  - pose proof (Z.quot_pos (high - low) 2). pose proof (Z.quot_lt (high - low) 2). set (mid := low + Z.quot (high - low) 2).
    destruct (at_index_lt tab mid) as (k & -> & Hk); [lia|]. cbn [mbind option_bind]. pose proof (table_text _ _ _ Htab Hk) as Hkt. ztest.
    + apply IH; try lia. intros i l Hi <-. specialize (Ho i l Hi eq_refl). destruct (decide (Z.of_nat i < mid)); [lia|].
      destruct (decide (i = Z.to_nat mid)) as [->|]; [rewrite Hk in Hi; injection Hi as ->; rewrite strcmp_refl in E0; lia|].
      pose proof (table_lt tab _ _ _ _ Htab Hk Hi ltac:(lia)) as C. rewrite strcmp_antisym in C. lia.
    + ztest.
      * apply IH; try lia. intros i l Hi <-. specialize (Ho i l Hi eq_refl). destruct (decide (mid < Z.of_nat i)); [lia|].
        destruct (decide (i = Z.to_nat mid)) as [->|]; [rewrite Hk in Hi; injection Hi as ->; rewrite strcmp_refl in E1; lia|].
        pose proof (table_lt tab _ _ _ _ Htab Hi Hk ltac:(lia)). lia.
      * exists (Some mid). split; [done|]. split; [lia|]. exists k. split; [done|]. symmetry. apply strcmp_eq; try done. lia.
  - exists None. split; [done|]. intros (k & -> & (i & Hi)%list_elem_of_lookup)%list_elem_of_fmap. specialize (Ho i k Hi eq_refl). lia.
Qed.
Lemma binsearch_finds w tab : table_ok tab -> text w ->
  exists r, binsearch w tab (Z.of_nat (length tab)) = Some r /\ search_result w tab r.
Proof.
  intros Htab Hw. apply binsearch_loop_ok; try done; try lia. intros i k Hi _. apply lookup_lt_Some in Hi. lia.
Qed.
Lemma table_unique tab i j k l : table_ok tab -> tab !! i = Some k -> tab !! j = Some l -> word k = word l -> i = j.
Proof.
  intros Htab Hi Hj E. destruct (Nat.lt_total i j) as [H|[H|H]]; [|done|];
    eapply table_lt in H; eauto; rewrite E, strcmp_refl in H; lia.
Qed.

(** How often [w] is counted. *)
Definition occurrences (words : list (list Z)) (w : list Z) : Z :=
  if isalpha (hd 0 w) then Z.of_nat (length (filter (fun x => x = w) words)) else 0.
Definition counted (words : list (list Z)) (k : key) : key := mkKey (word k) (count k + occurrences words (word k)).
Lemma occurrences_cons_ne x words w : x <> w \/ isalpha (hd 0 x) = false -> occurrences (x :: words) w = occurrences words w.
Proof.
  intros H. unfold occurrences. rewrite filter_cons. destruct (isalpha (hd 0 w)) eqn:E; [|done]. destruct (decide (x = w)) as [->|]; [|done].
  destruct H; congruence.
Qed.
Lemma occurrences_cons_eq words w : isalpha (hd 0 w) = true -> occurrences (w :: words) w = 1 + occurrences words w.
Proof. intros H. unfold occurrences. rewrite H, filter_cons_True by done. cbn. lia. Qed.

Lemma counted_skip x words (tab : list key) : x ∉ word <$> tab \/ isalpha (hd 0 x) = false -> counted words <$> tab = counted (x :: words) <$> tab.
Proof.
  intros H. apply list_fmap_ext. intros i k Hk. unfold counted. rewrite occurrences_cons_ne; [done|]. destruct H as [H|]; [left|by right].
  intros ->. apply H, list_elem_of_fmap. exists k. split; [done|]. by eapply list_elem_of_lookup_2.
Qed.
Lemma counted_hit words tab p k : table_ok tab -> tab !! p = Some k -> isalpha (hd 0 (word k)) = true ->
  counted words <$> <[p := mkKey (word k) (count k + 1)]> tab = counted (word k :: words) <$> tab.
Proof.
  intros Htab Hk Ha. apply list_eq. intros i. rewrite !list_lookup_fmap. destruct (decide (i = p)) as [->|Hne].
  - rewrite list_lookup_insert_eq by (by eapply lookup_lt_Some). rewrite Hk. cbn. unfold counted. cbn.
    rewrite occurrences_cons_eq by done. do 2 f_equal. lia.
  - rewrite list_lookup_insert_ne by done. destruct (tab !! i) as [l|] eqn:Hl; [|done]. cbn. unfold counted.
    rewrite occurrences_cons_ne; [done|]. left. intros E. by apply Hne, (table_unique tab i p l k).
Qed.
Lemma count_words_ok words : forall tab, table_ok tab -> length tab = Z.to_nat NKEYS -> Forall text words ->
  Forall (fun k => 0 <= count k /\ count k + Z.of_nat (length words) < 2 ^ 31) tab ->
  count_words words tab = Some (counted words <$> tab).
Proof.
  induction words as [|w words IH]; intros tab Htab Hlen Hw Hc; cbn [count_words].
  { f_equal. rewrite <- (list_fmap_id tab) at 1. apply list_fmap_ext. intros i k _. unfold counted, occurrences.
    destruct k as [wd n]. cbn. destruct (isalpha _); cbn; f_equal; lia. }
  inversion_clear Hw as [|? ? Hwt Hw'].
  assert (Hc' : Forall (fun k => 0 <= count k /\ count k + Z.of_nat (length words) < 2 ^ 31) tab).
  { eapply Forall_impl; [exact Hc|]. cbn. intros k. lia. }
  destruct (isalpha (hd 0 w)) eqn:Ea; [|rewrite <- counted_skip by auto; by apply IH].
  replace NKEYS with (Z.of_nat (length tab)) by (rewrite Hlen; reflexivity).
  destruct (binsearch_finds w tab Htab Hwt) as (r & -> & Hr). cbn [mbind option_bind].
  destruct r as [p|]; [|rewrite <- counted_skip by auto; by apply IH].
  destruct Hr as (Hp & k & Hk & <-). unfold at_index. rewrite (proj2 (Z.leb_le _ _)) by lia. rewrite Hk. cbn [mbind option_bind].
  pose proof (Forall_lookup_1 _ _ _ _ Hc Hk) as Hck. cbn in Hck. rewrite i32_small by lia.
  assert (Ew : word <$> <[Z.to_nat p := mkKey (word k) (count k + 1)]> tab = word <$> tab).
  { rewrite list_fmap_insert. apply list_insert_id. by rewrite list_lookup_fmap, Hk. }
  rewrite <- (counted_hit words tab (Z.to_nat p)) by done. apply IH; [unfold table_ok; by rewrite Ew|by rewrite length_insert|done|].
  apply Forall_insert; [done|]. cbn. lia.
Qed.
Lemma print_keys_ok w : forall v, print_keys (length w) (Z.of_nat (length v)) (v ++ w) =
  Some (concat ((fun k => if 0 <? count k then print_key k else []) <$> w)).
Proof.
  induction w as [|k w IH]; intros v; [done|]. cbn [length print_keys]. rewrite at_index_app by done. cbn [mbind option_bind].
  specialize (IH (v ++ [k])). rewrite length_app, <- app_assoc in IH. cbn [app length] in IH.
  replace (Z.of_nat (length v) + 1) with (Z.of_nat (length v + 1)) by lia. by rewrite IH.
Qed.
End keywords.

(** C37: pointer6-4.c with a table of NKEYS words in the order of strcmp: the program
    prints the count and the word of every entry that was read, in the order of the
    table, and the count is how often getword returned the word. *)
Theorem keywords_counted keytab words (Hlen : length keytab = Z.to_nat Keywords.NKEYS) (Htab : table_ok keytab)
  (Hw : Forall text words) (Hn : Z.of_nat (length words) < 2 ^ 31) (H0 : Forall (fun k => Keywords.count k = 0) keytab) :
  Keywords.main keytab words =
  Some (0, concat ((fun k => let n := occurrences words (Keywords.word k) in
                             if 0 <? n then Keywords.print_key (Keywords.mkKey (Keywords.word k) n) else []) <$> keytab)).
Proof.
  unfold Keywords.main. rewrite count_words_ok; [|done..|]; [|eapply Forall_impl; [exact H0|]; cbn; intros k ->; lia].
  cbn [mbind option_bind]. pose proof (print_keys_ok (counted words <$> keytab) []) as P. rewrite length_fmap, Hlen in P.
  cbn [app length] in P. change (Z.of_nat 0) with 0 in P. rewrite P. cbn [mbind option_bind]. do 3 f_equal.
  rewrite <- list_fmap_compose. apply list_fmap_ext. intros i k Hk. unfold compose, counted. cbn.
  by rewrite (Forall_lookup_1 _ _ _ _ H0 Hk).
Qed.
(** A test for the order of a table. *)
Fixpoint increasing (l : list (list Z)) : bool :=
  match l with [] => true | x :: l => forallb (fun y => strcmp x y <? 0) l && increasing l end.
Lemma increasing_sorted l : increasing l = true -> StronglySorted (fun s t => strcmp s t < 0) l.
Proof.
  induction l as [|x l IH]; [constructor|]. cbn. intros [H1 H2]%andb_true_iff. constructor; [by apply IH|].
  apply Forall_forall. intros y Hy. rewrite forallb_forall in H1. apply Z.ltb_lt, H1. by apply list_elem_of_In.
Qed.
(** The keywords of C. *)
Definition demo_keytab : list Keywords.key :=
  (fun w => Keywords.mkKey (chars w) 0) <$>
  ["auto"; "break"; "case"; "char"; "const"; "continue"; "default"; "do"; "double"; "else"; "enum"; "extern"; "float"; "for"; "goto"; "if";
   "int"; "long"; "register"; "return"; "short"; "signed"; "sizeof"; "static"; "struct"; "switch"; "typedef"; "union"; "unsigned"; "void";
   "volatile"; "while"]%string.
Definition demo_words : list (list Z) := chars <$> ["int"; "main"; "("; "void"; ")"; "int"; "x"]%string.
Theorem keywords_counted_witness :
  Keywords.main demo_keytab demo_words = Some (0, chars "   2 int" ++ [NL] ++ chars "   1 void" ++ [NL]).
Proof.
  rewrite keywords_counted.
  - vm_compute. reflexivity.
  - reflexivity.
  - split; [apply increasing_sorted; vm_compute; reflexivity|apply (bool_decide_unpack _); vm_compute; exact I].
  - apply (bool_decide_unpack _); vm_compute; exact I.
  - vm_compute; reflexivity.
  - apply (bool_decide_unpack _); vm_compute; exact I.
Defined.
